(* ===== verification/_CoqProject ===== *)
-Q . S2P
Prelude.v
PyText.v
PyVal.v
Regex.v
Redaction.v
Enums.v
Models.v
Kernel.v
Domain.v
CanonicalJson.v
Events.v
EventLog.v
Identity.v
Policy.v
Approvals.v
RateLimit.v
CircuitBreaker.v
Urls.v
ActionState.v
ActionGateway.v
ActionService.v
ActionWorker.v
ActionFrame.v
ActionSpec.v
ActionInvariant.v
ActionRefinement.v
ActionPosts.v
ActionHistory.v
ActionOperations.v
CollaborationService.v
CollaborationFacts.v
CollaborationHistory.v
AgentSpec.v
TurnRequest.v
WorkspaceState.v
TaskContracts.v
RunIntents.v
IntentResolution.v
RunIntentFacts.v
IntentHistory.v
ThreadFacts.v
ConversationContext.v
WorkspaceService.v
ConversationFacts.v
RunWorker.v
WorkspaceFacts.v
WorkspaceKeeps.v
Clarifications.v
WorkspaceOperations.v
WorkspaceTurns.v
WorkspaceHistory.v
WorkspaceSample.v
AppServer.v
AppServerFacts.v
MemoryService.v
MemoryFacts.v
MemoryContext.v
MemoryHistory.v
MemoryOperations.v
RobotTransport.v
RobotGateway.v
OutboxService.v
OutboxDispatch.v
OutboxSample.v
OutboxFacts.v
OutboxSettles.v
OutboxJobs.v
OutboxHistory.v
OutboxLiveness.v
WorkflowSpec.v
AutomationState.v
AutomationService.v
AutomationApi.v
AutomationWorker.v
AutomationInvariant.v
AutomationFacts.v
AutomationKeeps.v
AutomationAdvance.v
AutomationProgress.v
AutomationHistory.v
