(* ===== verification/Prelude.v ===== *)
(** * The obSion control plane: a verification development

    obSion is an agent platform; its control plane
    ([src/services/control-plane/src/obsion]) is an asynchronous Python service over a
    relational database.  Paths below are relative to that directory.  The development
    models the part of it that everything else relies on for its guarantees: the event
    log, the audit log, redaction and masking, identity and access, the policy engine,
    approvals, the governed actions, which are the only way an agent writes to the
    outside world, workspaces with their threads, turns and Runs, what a Run understood and the
    clarifications it asks its user for, workspace collaboration, automation (workflows, schedules and the executions of their steps), governed memory,
    the mutations clients ask for over JSON-RPC, and the delivery of answers by the DingTalk
    robot.

    ** How code becomes definitions

    A service method is a computation [M E S A] (this file): it maps a session [S] to a
    value or a raised exception and, in both cases, the session it reached.  Rows are
    records with the columns of [db/models.py] the services use (Models), tables finite
    maps by primary key or lists in insertion order, enumerations inductive types with
    their string values (Enums).  [async with session.begin()] and [begin_nested()] are
    [savepoint] (Kernel): on an exception the tables are those before it, while time has
    passed, ids were drawn, and requests already sent stay sent.  Assignments to the
    columns of a loaded row are named functions [with_...] applied to the row in its
    table.  JSON values are [PyVal.val], Python objects on their way to JSON
    [CanonicalJson.obj]; strings are byte strings, and integers unbounded, as Python's
    are.  Instants are integers in microseconds.

    Two sources of nondeterminism are explicit: the clock reads arbitrary instants, in
    arbitrary order ([Kernel.utc_now]), and fresh ids come from an arbitrary sequence
    ([Environment.uuid7]), so that no theorem relies on a monotone clock or on ids that
    do not repeat; a repeated primary key raises an [IntegrityError].  Third-party code
    is a parameter: [jsonschema] validators ([EventContracts], [ActionPlatform]),
    FastAPI's encoder ([JsonEncoder]), [httpx] and [os.environ] ([ActionPlatform],
    [RobotVendor]), the check of bracketed hosts in [urllib] ([BracketedHosts]), pydantic's
    reading of a stored workflow ([SpecFields]), [croniter] with the time zone database
    ([Cron]), Unicode's tables ([UnicodeData]) and [datetime.fromisoformat] ([IsoFormats]).  Theorems
    about intents suppose that Unicode leaves a name alone that has small letters of ASCII, digits
    and [_.-] only.  The knowledge lookups behind the check that a Run's sources may still be read
    are the interface [PublicationGuard].  Automation creates threads and turns through the
    interface [AnalysisRuns], which may do anything to the shared tables, rather than through
    the definitions of WorkspaceService, so that its theorems do not depend on them.  The
    view of a Run that clients see is the interface [RunViews], since most of its columns are
    not modelled.
    Settings are records ([RunSettings] with the bounds of [config.py], and others).
    Transactions run one after another, as if serializable; a row that another
    transaction holds locked appears only among the rows a worker skips
    ([WorkerSettings.locked], the [locked] arguments of the outbox).  Workers, their
    crashes and their lost transactions interleave as steps of a relation
    ([ActionHistory.call], [OutboxHistory.step], [AutomationHistory.step],
    [WorkspaceHistory.step], [IntentHistory.step], [MemoryHistory.step], [AppServerFacts.step]).  Of the database's
    own constraints, primary keys and the unique and check constraints of the tables a service
    inserts into are modelled where an insert can meet them, and the triggers that PostgreSQL
    puts on memories and on the ledger of client requests; foreign keys are not, and the length
    of a [String(n)] column counts on PostgreSQL only.
    Recursion is structural; the resolver of a fork lineage takes the depth that is left of
    its limit as fuel, and raises where it is used up; the search for cycles in a workflow has
    one more unit of fuel than there are steps, which it never uses up
    ([WorkflowSpec.wp_visit]);
    the few scanners that skip a variable number of characters per step (UTF-8 decoding,
    [re.sub], [fnmatch] patterns, the blocks of SHA-256) take the length of their input as
    fuel, which is enough because each step consumes at least one character.

    ** The files

    - Prelude: the monad with its weakest-precondition rules ([wp]), pure computations,
      sequences of steps, tables and their ordering, the tactics [wp_step] and
      [split_bool].
    - PyText, PyVal, Regex: what the source uses of the language and its
      standard library: strings, JSON values and their equality, [json.dumps], SHA-256,
      [re], [fnmatch], each as far as it is used.
    - Redaction: [security/redaction.py] and the obligations of [security/masking.py].
    - Enums, Models: [domain/enums.py] with [common/errors.py], [db/models.py].
    - Kernel: the tables all services share, the clock and ids; the class [Session], by
      which a service with tables of its own runs the shared operations; [recorded], what
      all of them respect.
    - Domain: the Run lifecycle, workspace transitions, classifications.
    - CanonicalJson, Events: [contracts/events/validation.py], [persistence/events.py],
      [persistence/audit.py].  EventLog states and proves the contract of the event store.
    - Identity: principals, roles, workspace access ([security/auth.py],
      [security/workspace_access.py]), and the check that sources may still be shown, against
      the interface [PublicationGuard].  Policy: [security/policy.py].
    - Approvals: [application/approvals.py] with its endpoint.
    - RateLimit, CircuitBreaker, Urls: [capabilities/rate_limit.py] in memory,
      [capabilities/circuit_breaker.py], and [urllib.parse].
    - ActionState, ActionGateway, ActionService, ActionWorker: [actions/] and
      [api/actions.py], method by method; the gateway's HTTP call appends to the list of
      requests sent ([posts]).
    - ActionSpec: what a governed action is, abstractly: a transition relation on the four
      action tables and their invariant.  ActionInvariant: transitions preserve it.
    - ActionFrame: what each operation leaves alone, once for all frames.
    - ActionRefinement: the endpoints and worker transactions are sequences of abstract
      transitions.  ActionPosts: what they send.  ActionHistory: the guarantees over any
      history of calls, and a running example that executes.  ActionOperations: the
      behaviour of each endpoint on every branch.
    - CollaborationService: [collaboration/] and [api/collaboration.py], tasks and
      versioned decisions.  CollaborationFacts: their invariant, and the move each call
      is.  CollaborationHistory: what follows for any history.
    - AgentSpec: [registry/agent_spec.py], [registry/prompt_pins.py].  TurnRequest:
      the request of a turn and [domain/task_context.py].  WorkspaceState: the tables of
      workspaces and their constraints, and [application/thread_history.py].
      ConversationContext: [application/conversation_context.py].  WorkspaceService:
      [application/workspaces.py] and [api/workspaces.py], method by method.  RunWorker: how
      [harness/worker.py] claims a Run.
    - ThreadFacts: the history of a thread as a relation, and that the resolver computes it.
      ConversationFacts: what is pinned to a Run.  WorkspaceFacts, WorkspaceKeeps: the
      invariant of threads and turns, and what each operation changes.  WorkspaceOperations,
      WorkspaceTurns: the endpoints on every branch.  WorkspaceHistory: requests and workers
      as a step relation, and forks at the depth limit.  WorkspaceSample: a conversation that
      runs.
    - TaskContracts: [domain/task_contract.py], with how pydantic reads a document (the readers)
      and dumps it.  RunIntents: [domain/run_intent.py], the intent of a Run and the operations
      that ask, answer and close.  IntentResolution: [harness/intent_resolution.py], with
      [_required_intent_slots] of [harness/runtime.py].  RunIntentFacts: what reading a document
      again keeps, and what each operation does.  IntentHistory: what exploring finds, and what
      holds of clarifications over any history, with one that runs.  Clarifications:
      [application/clarifications.py], on every branch.
    - MemoryService: the tables of governed memory, their constraints and the trigger of the last
      migration; [application/memory.py] and [api/memory.py], method by method, with what
      [harness/replay.py] copies.  MemoryFacts: the invariant of memories, and the changes each
      call makes.  MemoryContext: what is chosen for a Run and pinned to it.  MemoryHistory:
      requests, Runs and replays as a step relation.  MemoryOperations: the endpoints on every
      branch, and a memory that is reviewed and used.
    - AppServer: [app_server/protocol.py], [app_server/dispatcher.py] as far as mutations go,
      [application/app_server.py] and [persistence/app_server_requests.py]: the messages, the
      ledger that binds a client's request id to its outcome, and [_mutate] around the services.
      AppServerFacts: the ledger over any history, and a turn that is asked for twice.
    - RobotTransport: [capabilities/dingtalk_robot.py], the tables of delivery, and the requests
      sent to the vendor.  RobotGateway: the robot's two entries of
      [capabilities/gateway.py].  OutboxService, OutboxDispatch:
      [application/dingtalk_outbox.py] and its worker.
    - OutboxSample: a delivery that executes.  OutboxFacts: what a computation asks of the
      vendor.  OutboxSettles: what a dispatch does to its row.  OutboxJobs: the other
      transactions.  OutboxHistory: workers as a step relation, its invariant, at most one
      message.  OutboxLiveness: ended claims drain, and the worker's round.
    - WorkflowSpec: [automation/schemas.py], the graph of steps and its validation.
      AutomationState: the tables of automation and its interfaces.  AutomationService,
      AutomationApi, AutomationWorker: [automation/service.py], [api/automation.py] and
      [automation/worker.py], method by method.
    - AutomationInvariant: what holds of workflows, executions and steps, and the changes that
      keep it; [Quiet], the computations that leave those tables alone.  AutomationFacts,
      AutomationKeeps, AutomationAdvance: triggering and cancelling, the endpoints, and the
      transactions of the worker keep it.  AutomationProgress: steps only move forward, and
      some step moves.  AutomationHistory: requests and workers as a step relation, and executions
      that run.

    ** What is shown

    - Event log: an append refines its abstract specification, all-or-nothing
      ([EventLog.append_refines]); sequence numbers have no gap and the outbox mirrors the
      events after any history ([ledger_reachable]); pages miss and repeat nothing.
    - Data protection: redaction reaches every depth, masks hide what they name, row limits
      hold, canonicalization is total, exact and idempotent.
    - Policy: the decision on every branch, the closed write boundary, monotonicity.
    - Approvals: the endpoint on every branch, and decided once over any history.
    - Governed actions: a refinement and an invariant over any history of endpoint and
      worker calls, whatever they return or raise (separation of duties, one sealed plan,
      one attempt, one action per idempotency key, terminal statuses frozen); at most one
      request leaves per call and only a governed one does, even if its transaction is
      rolled back; retries keep their idempotency key; the functional behaviour of each
      endpoint.
    - Collaboration: an invariant over any history (versions numbered and sealed, one
      accepted successor), no lost update, decisions frozen once made, and the endpoints on
      every branch.
    - Workspaces: over any history of requests, claims and lost transactions the history of a
      thread, forks included, is numbered without gaps and only ever extended
      ([WorkspaceHistory.histories_append_only]), and Runs move along the declared transitions
      ([runs_move_validly]); a turn stores what it should, once
      ([WorkspaceTurns.create_turn_spec]); the resolver agrees with a relational reading of
      lineages; what a Run receives of the conversation is bounded; sandboxes are pinned to
      allowed documents.
    - Intents: over any history a Run asks its user at most twice and never the same thing again,
      and waits exactly while a request is open ([IntentHistory.clarifications_bounded]); what was
      asked and answered stays ([IntentHistory.clarifications_kept]); exploring asks for exactly
      what no candidate decides ([IntentHistory.explore_spec]); an answer on every branch, in the
      domain ([IntentHistory.apply_clarification_answer_spec]) and in the service
      ([Clarifications.answer_spec]).
    - Memory: whatever a Run receives was approved unchanged by a permitted reviewer, and was
      available to it ([MemoryHistory.context_reviewed]); memories are redacted, classified,
      expiring and backed by a decision, and frozen once they are over
      ([MemoryHistory.memories_governed]); the choice for a Run is exact and within its limits
      ([MemoryContext.chosen_exact]); a proposal and a review on every branch.
    - Client requests: a mutation is made once per request id, and answered alike as long as
      its row is retained ([AppServerFacts.mutate_once]); its effects and its outcome are kept
      together or not at all ([AppServerFacts.transact_spec]); a message is accepted exactly if
      it is well formed ([AppServer.parse_request_spec]).
    - Delivery: over any interleaving of workers and any crash a Run is announced by at most
      one message ([OutboxHistory.at_most_once]); a message carries the text that was
      queued, under a policy decision and a lease that were checked again
      ([OutboxSettles.dispatch_spec]); retries end, ended claims drain, and the worker
      refines the steps these histories are made of.
    - Automation: over any history of requests, schedules, workers and lost transactions the
      executions of a workflow stay within its limit, steps begin in the order of their
      dependencies, and what ended leaves nothing to be started
      ([AutomationHistory.automation_well_formed]); the worker makes progress on every
      execution that has something to do ([AutomationProgress.execute_progress]), since a
      workflow is accepted exactly if its graph has no cycle ([WorkflowSpec.validate_dag_spec]).
    - Rate limiting: exact per window.  Circuit breaking: equivalent to a reference that
      reads the whole history of calls.

    Eleven places do not do what they mean to: an expired action approval is not marked by
    the endpoint that notices it ([ActionOperations.decide_expired_pending]); whoever
    asks for a rollback of another's action may approve it
    ([ActionOperations.rollback_self_approved]); a delivery that stays blocked keeps
    every later one from being enqueued ([OutboxSample.blocked_head]); rejecting a review
    leaves an analysis beside it running for ever ([AutomationHistory.rejection_leaves_running]);
    a thread at the depth limit can be forked into one that no turn can be taken in
    ([WorkspaceHistory.fork_beyond_limit]); the title of an untitled fork can be too long for its
    column ([WorkspaceSample.long_title_forks]); on PostgreSQL the trigger refuses every edit of
    a memory ([MemoryOperations.edits_refused]); a revocation or an edit that finds a memory
    expired rolls the expiry back ([MemoryOperations.Sample.expiry_rolled_back]); a memory whose owner
    is not written in the canonical form of its id never reaches a Run
    ([MemoryOperations.Sample.approved_but_never_given]); no worker expires a clarification that
    nobody answers ([Clarifications.claim_leaves_waiting]); and a question about a metric that no
    catalogue has fails with an error of validation instead of the one that says so
    ([IntentHistory.IntentSample.no_metric_to_ask_for]).

    ** What is not modelled

    Floats and decimals (no modelled service stores them), telemetry, loading the contract
    files, pydantic's request validators beyond the bounds an endpoint relies on, the asyncio
    loops and locks, the knowledge lookups behind the publication guard, what PostgreSQL lets
    two transactions see of each other below serializability.  Of the services, the intake of
    messages from the vendors (mostly their formats), the general capability pipeline and the
    harness runtime, which drive models and providers over the network (of the runtime, the slots a
    plan needs and the claim of a Run are modelled), the CRUD of the
    registry, the reads, artifacts and WebSocket of the application server, and the Redis
    limiter, whose decisions a script on the server takes.
    Transports, model providers, ingestion, the sandbox, the clients and deployment are I/O or
    third-party. *)

From stdpp Require Export gmap strings list sorting.
From coqutil Require Export Datatypes.RecordSettersUsingExistingGetters.
Export RecordSetNotations1.

(** ** Computations of the service layer

    A service method of the control plane reads and writes rows of one database
    session and may raise.  [M E S A] is a computation over the session [S]: it
    either returns a value or raises an exception, and in both cases yields the
    session it reached, because a Python exception does not undo the mutations
    made before it.  Undoing them is the business of a savepoint (see Kernel). *)

Inductive outcome (E S A : Type) : Type :=
| Ok (a : A) (s : S)
| Raise (e : E) (s : S).
Arguments Ok {E S A} a s.
Arguments Raise {E S A} e s.

Definition M (E S A : Type) : Type := S → outcome E S A.

#[export] Instance M_ret {E S} : MRet (M E S) := λ A a s, Ok a s.

#[export] Instance M_bind {E S} : MBind (M E S) := λ A B k m s,
  match m s with
  | Ok a s' => k a s'
  | Raise e s' => Raise e s'
  end.

Section Operations.
Context {E S : Type}.

Definition raise {A} (e : E) : M E S A := λ s, Raise e s.

Definition gets {A} (f : S → A) : M E S A := λ s, Ok (f s) s.

Definition modify (f : S → S) : M E S unit := λ s, Ok () (f s).

(** [if b: raise e] as a statement of its own. *)
Definition raise_if (b : bool) (e : E) : M E S unit :=
  if b then raise e else mret ().

(** [try: m except e: h e], where [h] answers [None] for an exception that is
    not caught. *)
Definition try_catch {A} (m : M E S A) (h : E → option (M E S A)) : M E S A := λ s,
  match m s with
  | Ok a s' => Ok a s'
  | Raise e s' => match h e with Some k => k s' | None => Raise e s' end
  end.

(** [for x in l: m x]. *)
Fixpoint for_each {X} (l : list X) (m : X → M E S unit) : M E S unit :=
  match l with
  | [] => mret ()
  | x :: l' => m x ≫= λ _, for_each l' m
  end.

Definition final {A} (o : outcome E S A) : S :=
  match o with Ok _ s => s | Raise _ s => s end.
End Operations.

(** ** Weakest preconditions

    [wp m Q X s]: running [m] from [s] returns into [Q] or raises into [X].  All
    computations terminate (they are Gallina functions), so this is total
    correctness. *)

Definition wp {E S A} (m : M E S A) (Q : A → S → Prop) (X : E → S → Prop) (s : S) : Prop :=
  match m s with
  | Ok a s' => Q a s'
  | Raise e s' => X e s'
  end.

Section WpRules.
Context {E S : Type}.
Implicit Types (s : S) (X : E → S → Prop).

Lemma wp_ret {A} (a : A) (Q : A → S → Prop) X s : Q a s → wp (mret a) Q X s.
Proof. done. Qed.

Lemma wp_bind {A B} (m : M E S A) (k : A → M E S B) Q X s :
  wp m (λ a, wp (k a) Q X) X s → wp (m ≫= k) Q X s.
Proof. unfold wp, mbind, M_bind. by destruct (m s). Qed.

Lemma wp_raise {A} (e : E) (Q : A → S → Prop) X s : X e s → wp (raise e) Q X s.
Proof. done. Qed.

Lemma wp_gets {A} (f : S → A) (Q : A → S → Prop) X s : Q (f s) s → wp (gets f) Q X s.
Proof. done. Qed.

Lemma wp_modify (f : S → S) (Q : () → S → Prop) X s : Q () (f s) → wp (modify f) Q X s.
Proof. done. Qed.

Lemma wp_raise_if (b : bool) (e : E) (Q : () → S → Prop) X s :
  (b = true → X e s) → (b = false → Q () s) → wp (raise_if b e) Q X s.
Proof. destruct b; unfold wp; simpl; auto. Qed.

Lemma wp_mono {A} (m : M E S A) (Q Q' : A → S → Prop) X X' s :
  wp m Q X s → (∀ a s', Q a s' → Q' a s') → (∀ e s', X e s' → X' e s') → wp m Q' X' s.
Proof. unfold wp. destruct (m s); auto. Qed.

Lemma wp_try_catch {A} (m : M E S A) h (Q : A → S → Prop) X s :
  wp m Q (λ e s', match h e with Some k => wp k Q X s' | None => X e s' end) s →
  wp (try_catch m h) Q X s.
Proof. unfold wp, try_catch. destruct (m s); [done|]. by destruct (h e). Qed.

Lemma wp_for_each {T} (I : S → Prop) (l : list T) (m : T → M E S unit) Q X s :
  I s →
  (∀ x s', x ∈ l → I s' → wp (m x) (λ _, I) X s') →
  (∀ s', I s' → Q () s') →
  wp (for_each l m) Q X s.
Proof.
  intros HI Hm HQ. revert s HI. induction l as [|x l IH]; intros s HI; simpl.
  - by apply wp_ret, HQ.
  - apply wp_bind. eapply wp_mono; [apply Hm; [left|done]| |done].
    intros [] s' HI'. apply IH; [|done]. intros y s'' Hy. apply Hm. by right.
Qed.

Lemma wp_inv_ok {A} (m : M E S A) Q X s a s' : wp m Q X s → m s = Ok a s' → Q a s'.
Proof. unfold wp. intros H Heq. by rewrite Heq in H. Qed.
End WpRules.

(** A computation that only reads: checks, validations, queries. *)
Class Pure {E S A} (m : M E S A) : Prop :=
  pure s : wp m (λ _ s', s' = s) (λ _ s', s' = s) s.

Section Pure.
Context {E S : Type}.

#[export] Instance ret_pure {A} (a : A) : Pure (E := E) (S := S) (mret a).
Proof. done. Qed.

#[export] Instance raise_pure {A} (e : E) : Pure (S := S) (raise (A := A) e).
Proof. done. Qed.

#[export] Instance raise_if_pure b (e : E) : Pure (S := S) (raise_if b e).
Proof. by destruct b. Qed.

#[export] Instance gets_pure {A} (f : S → A) : Pure (E := E) (gets f).
Proof. done. Qed.

#[export] Instance bind_pure {A B} (m : M E S A) (f : A → M E S B) :
  Pure m → (∀ a, Pure (f a)) → Pure (m ≫= f).
Proof.
  intros Hm Hf s. apply wp_bind. eapply wp_mono; [apply Hm| |done].
  intros a s' ->. apply Hf.
Qed.

#[export] Instance if_pure {A} (b : bool) (m1 m2 : M E S A) :
  Pure m1 → Pure m2 → Pure (if b then m1 else m2).
Proof. by destruct b. Qed.

#[export] Instance option_pure {A B} (o : option A) (f : A → M E S B) m :
  (∀ a, Pure (f a)) → Pure m → Pure (match o with Some a => f a | None => m end).
Proof. by destruct o. Qed.

Lemma wp_pure {A} (m : M E S A) `{!Pure m} (Q : A → S → Prop) X s :
  (∀ a, m s = Ok a s → Q a s) → (∀ e, m s = Raise e s → X e s) → wp m Q X s.
Proof.
  intros HQ HX. pose proof (pure (m := m) s) as Hp. unfold wp in *.
  destruct (m s) as [a s'|e s']; subst s'; auto.
Qed.
End Pure.

Lemma wp_and {E S A} (m : M E S A) Q Q' X X' s :
  wp m Q X s → wp m Q' X' s → wp m (λ a s', Q a s' ∧ Q' a s') (λ e s', X e s' ∧ X' e s') s.
Proof. unfold wp. by destruct (m s). Qed.

(** The exceptions a computation can raise. *)
Class Raises {E S A} (P : E → Prop) (m : M E S A) : Prop :=
  raises s : wp m (λ _ _, True) (λ e _, P e) s.

Section Raises.
Context {E S : Type} (P : E → Prop).

#[export] Instance ret_raises {A} (a : A) : Raises (S := S) P (mret a).
Proof. done. Qed.

#[export] Instance gets_raises {A} (f : S → A) : Raises P (gets f).
Proof. done. Qed.

#[export] Instance modify_raises (f : S → S) : Raises P (modify f).
Proof. done. Qed.

Lemma raise_raises {A} (e : E) : P e → Raises (S := S) P (raise (A := A) e).
Proof. intros He s. exact He. Qed.

Lemma raise_if_raises b (e : E) : P e → Raises (S := S) P (raise_if b e).
Proof. intros He s. by destruct b. Qed.

#[export] Instance bind_raises {A B} (m : M E S A) (f : A → M E S B) :
  Raises P m → (∀ a, Raises P (f a)) → Raises P (m ≫= f).
Proof. intros Hm Hf s. apply wp_bind. eapply wp_mono; [apply Hm| |done]. intros a s' _. apply Hf. Qed.

#[export] Instance if_raises {A} (b : bool) (m1 m2 : M E S A) :
  Raises P m1 → Raises P m2 → Raises P (if b then m1 else m2).
Proof. by destruct b. Qed.

#[export] Instance option_raises {A B} (o : option A) (f : A → M E S B) m :
  (∀ a, Raises P (f a)) → Raises P m → Raises P (match o with Some a => f a | None => m end).
Proof. by destruct o. Qed.

(** Use what is known of the exceptions of [m]. *)
Lemma wp_raises {A} (m : M E S A) `{!Raises P m} Q X s :
  wp m Q (λ e s', P e → X e s') s → wp m Q X s.
Proof.
  intros Hm. pose proof (raises (P := P) (m := m) s) as HP. unfold wp in *. destruct (m s); auto.
Qed.
End Raises.

(** A raised exception is one of those meant. *)
#[export] Hint Extern 2 (Raises _ (raise _)) => apply raise_raises; done : typeclass_instances.
#[export] Hint Extern 2 (Raises _ (raise_if _ _)) => apply raise_if_raises; done : typeclass_instances.

(** One step of a symbolic run of a handler. *)
Ltac wp_step :=
  lazymatch goal with
  | |- wp (mbind _ _) _ _ _ => apply wp_bind
  | |- wp (mret _) _ _ _ => apply wp_ret
  | |- wp (raise _) _ _ _ => apply wp_raise
  | |- wp (gets _) _ _ _ => apply wp_gets
  | |- wp (modify _) _ _ _ => apply wp_modify
  | |- wp (raise_if _ _) _ _ _ => apply wp_raise_if; [intros ?|intros ?]
  | |- wp (try_catch _ _) _ _ _ => apply wp_try_catch
  | |- wp (match ?x with _ => _ end) _ _ _ => destruct x eqn:?
  | |- wp ((λ _, _) _) _ _ _ => cbv beta
  end.

Lemma wp_mapM {E S X B} (f : X → M E S B) (R : X → B → Prop) (I : S → Prop) (l : list X)
    (Q : list B → S → Prop) (Xp : E → S → Prop) s :
  I s → (∀ x s, x ∈ l → I s → wp (f x) (λ b s', I s' ∧ R x b) Xp s) →
  (∀ bs s', I s' → Forall2 R l bs → Q bs s') → wp (mapM f l) Q Xp s.
Proof.
  revert Q s. induction l as [|x l IH]; intros Q s HI Hf HQ; [apply (wp_ret (E := E)), HQ; [done|constructor]|].
  change (mapM f (x :: l)) with (b ← f x; bs ← mapM f l; mret (b :: bs)). apply wp_bind. eapply wp_mono; [apply Hf; [by left|done]| |done]. intros b s1 [HI1 Hb]. cbv beta.
  apply wp_bind, IH; [done|intros y s2 Hy; apply Hf; by right|]. intros bs s2 HI2 Hbs. apply wp_ret, HQ; [done|by constructor].
Qed.

(** ** Sequences of steps *)

Inductive steps {S : Type} (R : S → S → Prop) : S → S → Prop :=
| steps_refl s : steps R s s
| steps_snoc s1 s2 s3 : steps R s1 s2 → R s2 s3 → steps R s1 s3.

Lemma steps_invariant {S} (R : S → S → Prop) (I : S → Prop) s s' :
  (∀ s1 s2, I s1 → R s1 s2 → I s2) → I s → steps R s s' → I s'.
Proof. intros HR Hs. induction 1; eauto. Qed.

Lemma steps_one {S} (R : S → S → Prop) s s' : R s s' → steps R s s'.
Proof. intros. eapply steps_snoc; [apply steps_refl|done]. Qed.

Lemma steps_trans {S} (R : S → S → Prop) s1 s2 s3 :
  steps R s1 s2 → steps R s2 s3 → steps R s1 s3.
Proof. intros H12. induction 1; eauto using steps_snoc. Qed.

(** ** Tables *)

(** [select ... where P], rows in no particular order. *)
Definition rows {K V} `{Countable K} (t : gmap K V) : list V := (map_to_list t).*2.

Definition select {K V} `{Countable K} (P : V → bool) (t : gmap K V) : list V :=
  filter P (rows t).

Lemma elem_of_rows {K V} `{Countable K} (t : gmap K V) v :
  v ∈ rows t ↔ ∃ k, t !! k = Some v.
Proof.
  unfold rows. rewrite list_elem_of_fmap. split.
  - intros ([k v'] & -> & Hk). exists k. by apply elem_of_map_to_list.
  - intros [k Hk]. exists (k, v). split; [done|]. by apply elem_of_map_to_list.
Qed.

Lemma elem_of_select {K V} `{Countable K} P (t : gmap K V) v :
  v ∈ select P t ↔ P v = true ∧ ∃ k, t !! k = Some v.
Proof. unfold select. rewrite list_elem_of_filter, elem_of_rows, Is_true_true. done. Qed.

(** A row added under a free key. *)
Lemma select_insert {K V} `{Countable K} (P : V → bool) (m : gmap K V) i v :
  m !! i = None → select P (<[i := v]> m) ≡ₚ ((if P v then [v] else []) ++ select P m)%list.
Proof.
  intros Hi. unfold select, rows. rewrite map_to_list_insert by done. rewrite fmap_cons, filter_cons.
  cbn [snd]. by destruct (P v).
Qed.

(** [select ... where key = i]: the row of a table by its primary key. *)
Definition row_by {V} {K} `{Countable K} (key : V → K) (t : gmap K V) (i : K) : option V :=
  v ← t !! i; if bool_decide (key v = i) then Some v else None.

Lemma row_by_Some {V} {K} `{Countable K} (key : V → K) t i v :
  row_by key t i = Some v ↔ t !! i = Some v ∧ key v = i.
Proof.
  unfold row_by. destruct (t !! i) as [w|]; simpl; [|naive_solver].
  case_bool_decide; naive_solver.
Qed.

Lemma row_by_insert {V} {K} `{Countable K} (key : V → K) t i v :
  key v = i → row_by key (<[i := v]> t) i = Some v.
Proof. intros Hv. apply row_by_Some. by rewrite lookup_insert_eq. Qed.

(** Assigning columns of a row that is there. *)
Lemma alter_found {K V} `{Countable K} (f : V → V) (t : gmap K V) i v :
  t !! i = Some v → alter f i t = <[i := f v]> t.
Proof.
  intros Hi. apply map_eq. intros j. destruct (decide (i = j)) as [->|Hne].
  - by rewrite lookup_alter_eq, lookup_insert_eq, Hi.
  - by rewrite lookup_alter_ne, lookup_insert_ne.
Qed.

(** Stable insertion sort by a boolean order: [ORDER BY] without a promise on ties. *)
Fixpoint insert_by {A} (le : A → A → bool) (x : A) (l : list A) : list A :=
  match l with
  | [] => [x]
  | y :: l' => if le x y then x :: l else y :: insert_by le x l'
  end.

Definition order_by {A} (le : A → A → bool) (l : list A) : list A :=
  foldr (insert_by le) [] l.

Lemma insert_by_perm {A} le (x : A) l : insert_by le x l ≡ₚ x :: l.
Proof.
  induction l as [|y l IH]; simpl; [done|]. destruct (le x y); [done|].
  rewrite IH. constructor.
Qed.

Lemma order_by_perm {A} le (l : list A) : order_by le l ≡ₚ l.
Proof. induction l as [|x l IH]; simpl; [done|]. by rewrite insert_by_perm, IH. Qed.

Lemma elem_of_order_by {A} le (l : list A) x : x ∈ order_by le l ↔ x ∈ l.
Proof. by rewrite order_by_perm. Qed.

(** A sorted list is its own sorting. *)
Lemma order_by_sorted {A} (le : A → A → bool) l :
  StronglySorted (λ x y, le x y = true) l → order_by le l = l.
Proof.
  induction 1 as [|x l Hs IH Hall]; [done|]. simpl. rewrite IH.
  destruct l as [|y l]; [done|]. simpl. by rewrite (Forall_inv Hall).
Qed.

Lemma insert_by_strongly {A} (le : A → A → bool) x l :
  (∀ y z, le y z = true ∨ le z y = true) → (∀ y z t, le y z = true → le z t = true → le y t = true) →
  StronglySorted (λ y z, le y z = true) l → StronglySorted (λ y z, le y z = true) (insert_by le x l).
Proof.
  intros Htotal Htrans. induction 1 as [|y l Hs IH Hall]; simpl; [by repeat constructor|].
  destruct (le x y) eqn:Hxy.
  - constructor; [by constructor|]. constructor; [done|]. eapply Forall_impl; [exact Hall|]. eauto.
  - constructor; [done|]. rewrite insert_by_perm. constructor; [|done]. by destruct (Htotal x y); congruence.
Qed.

Lemma order_by_strongly {A} (le : A → A → bool) l :
  (∀ y z, le y z = true ∨ le z y = true) → (∀ y z t, le y z = true → le z t = true → le y t = true) →
  StronglySorted (λ y z, le y z = true) (order_by le l).
Proof. intros Htotal Htrans. induction l as [|x l IH]; simpl; [constructor|by apply insert_by_strongly]. Qed.

(** [max(x, *l, key=key)]: the first element of the highest key. *)
Definition max_by {A} (key : A → nat) (x : A) (l : list A) : A :=
  fold_left (λ best y, if key best <? key y then y else best) l x.

Lemma max_by_spec {A} (key : A → nat) (x : A) l :
  max_by key x l ∈ x :: l ∧ ∀ y, y ∈ x :: l → key y ≤ key (max_by key x l).
Proof.
  unfold max_by. revert x. induction l as [|z l IH]; intros x; simpl.
  - split; [left|]. by intros y ->%list_elem_of_singleton.
  - destruct (IH (if key x <? key z then z else x)) as [Hin Hmax].
    destruct (Nat.ltb_spec (key x) (key z)); split; set_unfold.
    + naive_solver.
    + intros y [->|[->|Hy]]; [|naive_solver..]. transitivity (key z); [lia|naive_solver].
    + naive_solver.
    + intros y [->|[->|Hy]]; [naive_solver| |naive_solver].
      transitivity (key x); [lia|naive_solver].
Qed.

(** ** Numbered lists *)

Section Numbered.
Context {A : Type} (f : A → Z).

Lemma numbered_sorted a (l : list A) n :
  f <$> l = Z.of_nat <$> seq a n → StronglySorted (λ x y, (f x <=? f y)%Z = true) l.
Proof.
  revert a n. induction l as [|x l IH]; intros a [|n]; try done; csimpl; [constructor|].
  intros [= Hx Hl]. constructor; [by eapply IH|]. apply Forall_forall. intros y Hy.
  assert (f y ∈ Z.of_nat <$> seq (S a) n) as Hin by (rewrite <-Hl; by apply list_elem_of_fmap_2).
  apply list_elem_of_fmap in Hin as (m & Hm & Hseq%elem_of_seq). lia.
Qed.

Lemma numbered_filter a (l : list A) n m `{∀ x, Decision (Z.of_nat m < f x)%Z} :
  f <$> l = Z.of_nat <$> seq a n → filter (λ x, (Z.of_nat m < f x)%Z) l = drop (S m - a) l.
Proof.
  revert a n. induction l as [|x l IH]; intros a n; [by rewrite drop_nil|].
  destruct n as [|n]; [done|]. csimpl. intros [= Hx Hl]. rewrite filter_cons.
  rewrite (IH (S a) n Hl). case_decide as Hm.
  - replace (S m - a) with 0 by lia. by replace (S m - S a) with 0 by lia.
  - by replace (S m - a) with (S (S m - S a)) by lia.
Qed.

(** Keyset pagination over a list numbered from 1. *)
Lemma numbered_page (l : list A) n m limit `{∀ x, Decision (Z.of_nat m < f x)%Z} :
  f <$> l = Z.of_nat <$> seq 1 n →
  take limit (order_by (λ x y, (f x <=? f y)%Z) (filter (λ x, (Z.of_nat m < f x)%Z) l)) =
  take limit (drop m l).
Proof.
  intros Hl. rewrite (numbered_filter 1 l n m Hl). replace (S m - 1) with m by lia.
  rewrite order_by_sorted; [done|].
  apply (numbered_sorted (1 + m) _ (n - m)). by rewrite fmap_drop, Hl, <-fmap_drop, drop_seq.
Qed.
End Numbered.

Lemma head_elem {A} (l : list A) x : head l = Some x → x ∈ l.
Proof. destruct l; simpl; [done|]. intros [= ->]. left. Qed.

Lemma filter_none {A} (P : A → Prop) `{∀ x, Decision (P x)} l :
  (∀ x, x ∈ l → ¬ P x) → filter P l = [].
Proof.
  induction l as [|x l IH]; intros Hl; [done|].
  rewrite filter_cons_False by (apply Hl; left). apply IH. intros y Hy. apply Hl. by right.
Qed.

(** In a sorted list the elements of a downward closed set come first. *)
Lemma sorted_prefix {A} (R : A → A → Prop) (P : A → Prop) `{∀ x, Decision (P x)} l :
  (∀ x y, x ∈ l → y ∈ l → R x y → P y → P x) → StronglySorted R l → filter P l = take (length (filter P l)) l.
Proof.
  intros HP Hs. induction Hs as [|x l Hs IH Hall]; [done|]. rewrite filter_cons. case_decide as Hx; csimpl.
  - rewrite <-IH; [done|]. intros y z Hy Hz. apply HP; by right.
  - assert (filter P l = []) as ->; [|done]. apply filter_none. intros y Hin Hy. rewrite Forall_forall in Hall.
    apply Hx, (HP x y); [left|by right|by apply Hall|done].
Qed.

Lemma NoDup_middle {A} (l1 l2 : list A) x : NoDup (l1 ++ x :: l2) → x ∉ l1 ++ l2 ∧ NoDup (l1 ++ l2).
Proof. by rewrite <-Permutation_middle, NoDup_cons. Qed.

(** ** Booleans *)

Lemma existsb_true {A} (f : A → bool) l : existsb f l = true ↔ ∃ x, x ∈ l ∧ f x = true.
Proof. rewrite existsb_exists. by setoid_rewrite list_elem_of_In. Qed.

Lemma forallb_true {A} (f : A → bool) l : forallb f l = true ↔ ∀ x, x ∈ l → f x = true.
Proof. rewrite forallb_forall. by setoid_rewrite list_elem_of_In. Qed.

Create HintDb obsion.
Create Rewrite HintDb obsion_rw.
#[export] Hint Resolve head_elem : obsion.
(** ** Lists *)

Lemma find_last {A} (f : A → bool) l x : (∀ y, y ∈ l → f y = false) → f x = true → List.find f (l ++ [x]) = Some x.
Proof.
  intros Hl Hx. induction l as [|y l IH]; cbn; [by rewrite Hx|]. rewrite (Hl y) by by left. apply IH. intros z Hz.
  apply Hl. by right.
Qed.

Lemma find_Some {A} (f : A → bool) l x : List.find f l = Some x → x ∈ l ∧ f x = true.
Proof. intros [Hin Hf]%find_some. split; [by apply list_elem_of_In|done]. Qed.

Lemma filter_sublist {A} (f : A → bool) l : sublist (List.filter f l) l.
Proof. induction l as [|x l IH]; cbn; [constructor|]. destruct (f x); by constructor. Qed.

Lemma singleton_or_not {A} (l : list A) : (∃ x, l = [x]) ∨ ¬ ∃ x, l = [x].
Proof. destruct l as [|x [|]]; [right; by intros [] |left; by exists x|right; by intros []]. Qed.

Lemma Forall2_fmap_same {A B} (R : A → A → Prop) (f : A → B) l l' :
  Forall2 R l l' → (∀ x y, R x y → f y = f x) → f <$> l' = f <$> l.
Proof. intros Hl Hf. induction Hl as [|x y l l' Hx _ IH]; [done|]. cbn. by rewrite IH, (Hf _ _ Hx). Qed.

Lemma zip_fst_snd {A B} (l : list (A * B)) : zip l.*1 l.*2 = l.
Proof. induction l as [|[a b] l IH]; cbn; [done|by f_equal]. Qed.

Lemma alter_insert_row {K} `{Countable K} {A} (f : A → A) i (m : gmap K A) x :
  m !! i = Some x → alter f i m = <[i := f x]> m.
Proof. intros Hx. apply map_eq. intros j. rewrite lookup_alter, lookup_insert. case_decide; [|done]. subst. by rewrite Hx. Qed.

#[export] Hint Rewrite @elem_of_rows @elem_of_select @elem_of_order_by : obsion_rw.

(** Unfold record updates so that projections of an updated row reduce. *)
Ltac rec_simpl := unfold set, const in *; cbn in *.

(** Split a boolean condition of the source into its parts. *)
Ltac split_bool :=
  repeat match goal with
  | H : _ && _ = true |- _ => apply andb_true_iff in H as [? ?]
  | H : _ || _ = false |- _ => apply orb_false_iff in H as [? ?]
  | H : negb _ = true |- _ => apply negb_true_iff in H
  | H : negb _ = false |- _ => apply negb_false_iff in H
  | H : bool_decide _ = true |- _ => apply bool_decide_eq_true in H
  | H : bool_decide _ = false |- _ => apply bool_decide_eq_false in H
  end.
