(* ===== verification/PyText.v ===== *)
(** * Python text: the [str] operations the control plane relies on

    A [str] is a [string] of bytes, the UTF-8 encoding of the text.  Character
    classes (white space, letter case) are those of ASCII; every byte from 128 on
    is an ordinary character.  UUIDs are numbers and print in the canonical
    8-4-4-4-12 form; instants are microseconds since the Unix epoch, in UTC. *)

From S2P Require Import Prelude.
From stdpp Require Export pretty.
From Stdlib Require Export Ascii.
From Stdlib Require String.

Abbreviation chars := String.list_ascii_of_string.
Abbreviation of_chars := String.string_of_list_ascii.

Definition code (c : ascii) : N := N_of_ascii c.

Definition in_range (lo hi : N) (c : ascii) : bool := (lo <=? code c)%N && (code c <=? hi)%N.

Definition is_upper : ascii → bool := in_range 65 90.
Definition is_lower : ascii → bool := in_range 97 122.
Definition is_digit : ascii → bool := in_range 48 57.
(** [str.isspace] on ASCII: tab to carriage return, the four separators, space. *)
Definition is_space (c : ascii) : bool := in_range 9 13 c || in_range 28 32 c.
(** A Unicode word character [\w]; bytes above 127 belong to letters. *)
Definition is_word (c : ascii) : bool :=
  is_upper c || is_lower c || is_digit c || (code c =? 95)%N || (128 <=? code c)%N.

Definition lower_char (c : ascii) : ascii :=
  if is_upper c then ascii_of_N (code c + 32) else c.
Definition upper_char (c : ascii) : ascii :=
  if is_lower c then ascii_of_N (code c - 32) else c.

(** [s.lower()], which is [s.casefold()] on ASCII, and [s.upper()]. *)
Definition lower (s : string) : string := of_chars (map lower_char (chars s)).
Definition upper (s : string) : string := of_chars (map upper_char (chars s)).

Fixpoint drop_spaces (l : list ascii) : list ascii :=
  match l with
  | [] => []
  | c :: l' => if is_space c then drop_spaces l' else l
  end.

(** [s.strip()] *)
Definition strip (s : string) : string :=
  of_chars (reverse (drop_spaces (reverse (drop_spaces (chars s))))).

(** [s.split(c)] for a one-character separator. *)
Fixpoint split_chars (sep : ascii) (acc : list ascii) (l : list ascii) : list string :=
  match l with
  | [] => [of_chars (reverse acc)]
  | c :: l' =>
      if bool_decide (c = sep) then of_chars (reverse acc) :: split_chars sep [] l'
      else split_chars sep (c :: acc) l'
  end.
Definition split (sep : ascii) (s : string) : list string := split_chars sep [] (chars s).

(** [sep.join(l)] *)
Fixpoint join (sep : string) (l : list string) : string :=
  match l with
  | [] => ""
  | [s] => s
  | s :: l' => s +:+ sep +:+ join sep l'
  end.

(** [c in s] for one character, [p in s] for a substring. *)
Definition has_char (c : ascii) (s : string) : bool :=
  existsb (λ d, bool_decide (d = c)) (chars s).

Fixpoint contains (p s : string) : bool :=
  String.prefix p s || match s with
                       | EmptyString => false
                       | String.String _ s' => contains p s'
                       end.

(** Truth of a [str]. *)
Definition truthy (s : string) : bool := negb (bool_decide (s = "")).

(** [len(s)]: the bytes of a UTF-8 text that start a code point. *)
Definition py_len (s : string) : Z :=
  Z.of_nat (length (List.filter (λ c, negb (in_range 128 191 c)) (chars s))).

(** [s[:k]]: the first [k] code points, with the bytes that continue them. *)
Fixpoint take_points (k : nat) (l : list ascii) : list ascii :=
  match l with
  | [] => []
  | a :: l' =>
      if in_range 128 191 a then a :: take_points k l'
      else match k with O => [] | S k' => a :: take_points k' l' end
  end.
Definition py_take (k : nat) (s : string) : string := of_chars (take_points k (chars s)).

(** ** Numbers, UUIDs and instants as text *)

Definition int_str (z : Z) : string := pretty z.

Definition hex_digit (n : N) : ascii :=
  if (n <? 10)%N then ascii_of_N (48 + n) else ascii_of_N (87 + n).

(** The [k] least significant hexadecimal digits of [n], most significant first. *)
Fixpoint hex_acc (k : nat) (n : N) (acc : list ascii) : list ascii :=
  match k with
  | O => acc
  | S k' => hex_acc k' (n / 16)%N (hex_digit (n mod 16)%N :: acc)
  end.
Definition hex (k : nat) (n : N) : string := of_chars (hex_acc k n []).

Abbreviation uuid := N (only parsing).

(** [str(u)] *)
Definition uuid_str (u : uuid) : string :=
  join "-" [ hex 8 (u / 2 ^ 96)%N; hex 4 (u / 2 ^ 80)%N; hex 4 (u / 2 ^ 64)%N;
             hex 4 (u / 2 ^ 48)%N; hex 12 u ].

Definition hex_value (c : ascii) : option N :=
  if is_digit c then Some (code c - 48)%N
  else if in_range 97 102 c then Some (code c - 87)%N
  else if in_range 65 70 c then Some (code c - 55)%N
  else None.

(** Digits, with single underscores between them; [last] says that a digit was just read. *)
Fixpoint hex_digits (last : bool) (l : list ascii) (acc : N) : option N :=
  match l with
  | [] => if last then Some acc else None
  | "_"%char :: l' => if last then hex_digits false l' acc else None
  | c :: l' => match hex_value c with
               | Some d => hex_digits true l' (16 * acc + d)%N
               | None => None
               end
  end.

(** [int(s, 16)] of a text without a minus sign: white space around it, a plus sign, and a
    prefix [0x] are accepted; [None] is the [ValueError]. *)
Definition int_16 (s : string) : option N :=
  let l := chars (strip s) in
  let l := match l with "+"%char :: l' => l' | _ => l end in
  match l with
  | "0"%char :: ("x" | "X")%char :: "_"%char :: l' => hex_digits false l' 0
  | "0"%char :: ("x" | "X")%char :: l' => hex_digits false l' 0
  | _ => hex_digits false l 0
  end.

(** [s.replace(p, "")]: what is left after each occurrence, from the left, is skipped. *)
Fixpoint remove_chars (skip : nat) (p : string) (l : list ascii) : list ascii :=
  match l with
  | [] => []
  | c :: l' =>
      match skip with
      | S k => remove_chars k p l'
      | O => if String.prefix p (of_chars l) then remove_chars (String.length p - 1) p l'
             else c :: remove_chars 0 p l'
      end
  end.

Fixpoint drop_braces (l : list ascii) : list ascii :=
  match l with
  | ("{" | "}")%char :: l' => drop_braces l'
  | _ => l
  end.

(** [UUID(s)], which drops [urn:], [uuid:], braces around the text, and hyphens; [None] is
    the [ValueError]. *)
Definition parse_uuid (s : string) : option uuid :=
  let l := remove_chars 0 "uuid:" (remove_chars 0 "urn:" (chars s)) in
  let l := rev (drop_braces (rev (drop_braces l))) in
  let digits := of_chars (filter (λ c, negb (bool_decide (c = "-"%char))) l) in
  if (py_len digits =? 32)%Z then int_16 digits else None.

(** Left-pad the decimal form of [n] with zeros to [w] characters. *)
Fixpoint zeros (k : nat) : string :=
  match k with O => "" | S k' => String.String "0" (zeros k') end.
Definition pad (w : nat) (n : Z) : string :=
  let d := int_str n in zeros (w - String.length d) +:+ d.

Definition microsecond : Z := 1.
Definition second : Z := 1000000.
Definition minute : Z := 60 * second.
Definition day_us : Z := 86400 * second.

(** The proleptic Gregorian date of a day number counted from 1970-01-01. *)
Definition civil_of_days (days : Z) : Z * Z * Z :=
  let z := (days + 719468)%Z in
  let era := (z / 146097)%Z in
  let doe := (z - era * 146097)%Z in
  let yoe := ((doe - doe / 1460 + doe / 36524 - doe / 146096) / 365)%Z in
  let doy := (doe - (365 * yoe + yoe / 4 - yoe / 100))%Z in
  let mp := ((5 * doy + 2) / 153)%Z in
  let d := (doy - (153 * mp + 2) / 5 + 1)%Z in
  let m := (if mp <? 10 then mp + 3 else mp - 9)%Z in
  ((if m <=? 2 then yoe + era * 400 + 1 else yoe + era * 400)%Z, m, d).

(** [t.isoformat()] of an instant in UTC, without its offset. *)
Definition iso_local (t : Z) : string :=
  let '(y, m, d) := civil_of_days (t / day_us)%Z in
  let us := (t mod day_us)%Z in
  let s := (us / second)%Z in
  let frac := (us mod second)%Z in
  pad 4 y +:+ "-" +:+ pad 2 m +:+ "-" +:+ pad 2 d +:+ "T" +:+
  pad 2 (s / 3600)%Z +:+ ":" +:+ pad 2 ((s / 60) mod 60)%Z +:+ ":" +:+ pad 2 (s mod 60)%Z +:+
  (if (frac =? 0)%Z then "" else "." +:+ pad 6 frac).

Definition isoformat (t : Z) : string := iso_local t +:+ "+00:00".

Example isoformat_epoch : isoformat 0 = "1970-01-01T00:00:00+00:00".
Proof. reflexivity. Qed.
Example isoformat_leap : isoformat (951782399 * second + 42)%Z = "2000-02-28T23:59:59.000042+00:00".
Proof. vm_compute. reflexivity. Qed.
Example uuid_str_one : uuid_str 1 = "00000000-0000-0000-0000-000000000001".
Proof. vm_compute. reflexivity. Qed.
Example parse_uuid_str : parse_uuid (uuid_str 123456789012345678901234567890) = Some 123456789012345678901234567890%N.
Proof. vm_compute. reflexivity. Qed.
Example parse_uuid_forms :
  parse_uuid <$> ["{00000000-0000-0000-0000-00000000000A}"; "urn:uuid:0000000000000000000000000000000a";
                  "0x00000000000000000000000000000A"; "0_0_0000000000000000000000000000"; "a"]
  = [Some 10%N; Some 10%N; Some 10%N; Some 0%N; None].
Proof. vm_compute. reflexivity. Qed.

(** ** Laws *)

Lemma of_chars_inj l1 l2 : of_chars l1 = of_chars l2 → l1 = l2.
Proof.
  intros H. rewrite <- (String.list_ascii_of_string_of_list_ascii l1), H.
  apply String.list_ascii_of_string_of_list_ascii.
Qed.

Lemma chars_of_chars l : chars (of_chars l) = l.
Proof. apply String.list_ascii_of_string_of_list_ascii. Qed.

Lemma drop_spaces_idemp l : drop_spaces (drop_spaces l) = drop_spaces l.
Proof. induction l as [|c l IH]; simpl; [done|]. destruct (is_space c) eqn:E; simpl; [done|by rewrite E]. Qed.

Lemma drop_spaces_suffix l : drop_spaces l `suffix_of` l.
Proof.
  induction l as [|c l IH]; simpl; [done|]. destruct (is_space c); [|done].
  by apply suffix_cons_r.
Qed.

(** A list that starts with a non-space keeps its start when spaces are dropped
    from its end. *)
Lemma drop_spaces_reverse_head l :
  drop_spaces l = l → drop_spaces (reverse (drop_spaces (reverse l))) = reverse (drop_spaces (reverse l)).
Proof.
  intros Hl. destruct l as [|c l]; [done|].
  simpl in Hl. destruct (is_space c) eqn:E.
  { pose proof (suffix_length _ _ (drop_spaces_suffix l)) as Hlen. rewrite Hl in Hlen. simpl in Hlen. lia. }
  rewrite reverse_cons.
  assert (∀ m, ∃ m', drop_spaces (m ++ [c]) = m' ++ [c]) as Hc.
  { induction m as [|d m [m' IH]]; simpl.
    - exists []. by rewrite E.
    - destruct (is_space d); [by exists m'|]. by exists (d :: m). }
  destruct (Hc (reverse l)) as [m' ->]. rewrite reverse_app. simpl. by rewrite E.
Qed.

Lemma strip_idemp s : strip (strip s) = strip s.
Proof.
  unfold strip. rewrite chars_of_chars. f_equal.
  set (l := drop_spaces (chars s)).
  rewrite (drop_spaces_reverse_head l) by apply drop_spaces_idemp.
  by rewrite reverse_involutive, drop_spaces_idemp.
Qed.

#[export] Hint Rewrite strip_idemp chars_of_chars : obsion_rw.
