(* ===== verification/PyVal.v ===== *)
(** * Python values that come out of JSON

    The dynamic data of the control plane (policy conditions, capability
    resources, event payloads) are JSON documents held in Python objects.  [val]
    has their shapes; a [dict] is the list of its items in insertion order, with
    string keys.  Numbers are integers: floats do not occur in [val]. *)

From S2P Require Import Prelude PyText.

Inductive val : Type :=
| VNone
| VBool (b : bool)
| VInt (z : Z)
| VStr (s : string)
| VList (l : list val)
| VDict (d : list (string * val)).

Abbreviation dict := (list (string * val)).

Section val_induction.
Variable P : val → Prop.
Hypothesis HNone : P VNone.
Hypothesis HBool : ∀ b, P (VBool b).
Hypothesis HInt : ∀ z, P (VInt z).
Hypothesis HStr : ∀ s, P (VStr s).
Hypothesis HList : ∀ l, Forall P l → P (VList l).
Hypothesis HDict : ∀ d, Forall (λ kv, P kv.2) d → P (VDict d).

Fixpoint val_ind' (v : val) : P v :=
  match v with
  | VNone => HNone
  | VBool b => HBool b
  | VInt z => HInt z
  | VStr s => HStr s
  | VList l => HList l ((fix go l := match l return Forall P l with
                                     | [] => Forall_nil_2 _
                                     | x :: l' => Forall_cons_2 _ _ _ (val_ind' x) (go l')
                                     end) l)
  | VDict d => HDict d ((fix go d := match d return Forall (λ kv, P kv.2) d with
                                     | [] => Forall_nil_2 _
                                     | kv :: d' => Forall_cons_2 _ _ _ (val_ind' kv.2) (go d')
                                     end) d)
  end.
End val_induction.

(** Structural equality decides Leibniz equality. *)
#[export] Instance val_eq_dec : EqDecision val.
Proof.
  refine (fix go (a b : val) : Decision (a = b) :=
    match a, b with
    | VNone, VNone => left eq_refl
    | VBool x, VBool y => cast_if (decide (x = y))
    | VInt x, VInt y => cast_if (decide (x = y))
    | VStr x, VStr y => cast_if (decide (x = y))
    | VList x, VList y => cast_if (@list_eq_dec _ go x y)
    | VDict x, VDict y =>
        cast_if (@list_eq_dec _ (λ p q : string * val,
          match p, q with (k1, v1), (k2, v2) =>
            cast_if_and (decide (k1 = k2)) (go v1 v2) end) x y)
    | _, _ => right _
    end); clear go; abstract congruence.
Defined.

(** ** Dictionaries *)

(** [d.get(k)] *)
Fixpoint dget (k : string) (d : dict) : option val :=
  match d with
  | [] => None
  | (k', v) :: d' => if bool_decide (k = k') then Some v else dget k d'
  end.

(** [d.get(k, default)] *)
Definition dget_or (k : string) (v : val) (d : dict) : val := default v (dget k d).

(** [k in d] *)
Definition dmem (k : string) (d : dict) : bool := bool_decide (is_Some (dget k d)).

(** [d[k] = v]: overwrite in place or append. *)
Fixpoint dset (k : string) (v : val) (d : dict) : dict :=
  match d with
  | [] => [(k, v)]
  | (k', v') :: d' => if bool_decide (k = k') then (k, v) :: d' else (k', v') :: dset k v d'
  end.

(** The keys of every dictionary inside a value are distinct, as Python's are. *)
Fixpoint wf_val (v : val) : bool :=
  match v with
  | VList l => forallb wf_val l
  | VDict d => bool_decide (NoDup d.*1) && forallb (λ '(_, x), wf_val x) d
  | _ => true
  end.

Lemma wf_val_dict d :
  wf_val (VDict d) = true ↔ NoDup d.*1 ∧ ∀ k v, (k, v) ∈ d → wf_val v = true.
Proof.
  simpl. rewrite andb_true_iff, bool_decide_eq_true, forallb_true. split.
  - intros [? H]. split; [done|]. intros k v Hin. apply (H (k, v) Hin).
  - intros [? H]. split; [done|]. intros [k v] Hin. by apply (H k v).
Qed.

Lemma dget_dset_eq k v d : dget k (dset k v d) = Some v.
Proof.
  induction d as [|[k' v'] d IH]; simpl; [by rewrite bool_decide_true|].
  case_bool_decide as Hk; simpl.
  - by rewrite bool_decide_true.
  - by rewrite bool_decide_false.
Qed.

Lemma dget_dset_ne k k' v d : k' ≠ k → dget k' (dset k v d) = dget k' d.
Proof.
  intros Hne. induction d as [|[k1 v1] d IH]; simpl; [by rewrite bool_decide_false|].
  case_bool_decide as Hk; simpl.
  - subst k1. by rewrite (bool_decide_false (k' = k)).
  - case_bool_decide; [done|apply IH].
Qed.

Lemma dget_Some_elem k v d : dget k d = Some v → (k, v) ∈ d.
Proof.
  induction d as [|[k' v'] d IH]; simpl; [done|].
  case_bool_decide as Hk; [intros [= ->]; subst; left|right; auto].
Qed.

Lemma dget_elem k v d : NoDup d.*1 → (k, v) ∈ d → dget k d = Some v.
Proof.
  induction d as [|[k' v'] d IH]; simpl; [by intros _ ?%not_elem_of_nil|].
  intros [Hnin Hnd]%NoDup_cons [[= <- <-]|Hin]%elem_of_cons; [by rewrite bool_decide_true|].
  rewrite bool_decide_false; [by apply IH|]. intros ->. apply Hnin.
  apply list_elem_of_fmap. by exists (k', v).
Qed.

Lemma dmem_true k d : dmem k d = true ↔ ∃ v, dget k d = Some v.
Proof. unfold dmem. rewrite bool_decide_eq_true. done. Qed.

Lemma dmem_dset k k' v d : dmem k' (dset k v d) = bool_decide (k' = k) || dmem k' d.
Proof.
  unfold dmem. destruct (decide (k' = k)) as [->|Hne].
  - rewrite dget_dset_eq. by rewrite !bool_decide_true by eauto.
  - rewrite dget_dset_ne by done. by rewrite (bool_decide_false (k' = k)).
Qed.

(** Overwriting a key that is there keeps the keys and their order. *)
Lemma dset_keys k v d : dmem k d = true → (dset k v d).*1 = d.*1.
Proof.
  unfold dmem. rewrite bool_decide_eq_true. intros [w Hw].
  induction d as [|[k' v'] d IH]; simpl in *; [done|].
  case_bool_decide as Hk; simpl; [by subst|]. f_equal. auto.
Qed.

Lemma elem_of_dset k v d k' v' : (k', v') ∈ dset k v d → (k' = k ∧ v' = v) ∨ (k', v') ∈ d.
Proof.
  induction d as [|[k1 v1] d IH]; simpl; [set_solver|]. case_bool_decide; set_solver.
Qed.

Lemma wf_val_dset k v d :
  wf_val (VDict d) = true → wf_val v = true → wf_val (VDict (dset k v d)) = true.
Proof.
  rewrite !wf_val_dict. intros [Hnd Hwf] Hv. split.
  - clear Hwf. induction d as [|[k1 v1] d IH]; simpl in *.
    + apply NoDup_singleton.
    + apply NoDup_cons in Hnd as [Hk1 Hnd]. case_bool_decide as Hk; simpl.
      * subst. by constructor.
      * constructor; [|by apply IH]. intros ([k2 v2] & -> & Hin)%list_elem_of_fmap.
        apply elem_of_dset in Hin as [[-> _]|Hin]; [done|]. apply Hk1.
        apply list_elem_of_fmap. by exists (k2, v2).
  - intros k' v' [[-> ->]|Hin]%elem_of_dset; eauto.
Qed.

(** Setting a fresh key appends. *)
Lemma dset_fresh k v d : k ∉ d.*1 → dset k v d = d ++ [(k, v)].
Proof.
  induction d as [|[k1 v1] d IH]; simpl; [done|]. intros Hk.
  rewrite bool_decide_false by set_solver. f_equal. apply IH. set_solver.
Qed.

#[export] Hint Rewrite dget_dset_eq dmem_dset : obsion_rw.
#[export] Hint Resolve wf_val_dset : obsion.

(** ** Equality and truth *)

Definition bool_int (b : bool) : Z := if b then 1 else 0.

(** [a == b]: booleans are the integers 0 and 1, dictionaries ignore order. *)
Fixpoint py_eq (a b : val) : bool :=
  match a, b with
  | VNone, VNone => true
  | VBool x, VBool y => Bool.eqb x y
  | VBool x, VInt y => (bool_int x =? y)%Z
  | VInt x, VBool y => (x =? bool_int y)%Z
  | VInt x, VInt y => (x =? y)%Z
  | VStr x, VStr y => bool_decide (x = y)
  | VList x, VList y =>
      (fix go x y := match x, y with
                     | [], [] => true
                     | v :: x', w :: y' => py_eq v w && go x' y'
                     | _, _ => false
                     end) x y
  | VDict x, VDict y =>
      bool_decide (length x = length y) &&
      (fix go x := match x with
                   | [] => true
                   | (k, v) :: x' =>
                       match dget k y with Some w => py_eq v w | None => false end && go x'
                   end) x
  | _, _ => false
  end.

(** [bool(v)] *)
Definition truth (v : val) : bool :=
  match v with
  | VNone => false
  | VBool b => b
  | VInt z => negb (z =? 0)%Z
  | VStr s => truthy s
  | VList l => negb (bool_decide (l = []))
  | VDict d => negb (bool_decide (d = []))
  end.

Definition is_dict (v : val) : bool := match v with VDict _ => true | _ => false end.

Lemma py_eq_refl v : wf_val v = true → py_eq v v = true.
Proof.
  induction v as [| | | |l IH|d IH] using val_ind'; intros Hwf; try done.
  - by destruct b.
  - apply Z.eqb_refl.
  - by apply bool_decide_true.
  - simpl in *. induction IH as [|v l Hv _ IHl]; [done|]. simpl in Hwf. split_bool.
    rewrite Hv by done. by apply IHl.
  - apply wf_val_dict in Hwf as [Hnd Hwf]. simpl. rewrite bool_decide_true by done. simpl.
    assert (∀ k v, (k, v) ∈ d → dget k d = Some v) as Hget by eauto using dget_elem.
    clear Hnd. revert Hget Hwf. generalize d at 2 4. intros d0.
    induction IH as [|[k v] d Hv _ IHd]; intros Hget Hwf; [done|].
    rewrite (Hget k v) by left. simpl in Hv. rewrite Hv by (eapply Hwf; left).
    apply IHd; intros; [apply Hget|eapply Hwf]; by right.
Qed.

(** ** [str(v)] and [repr(v)] *)

Definition byte_hex (c : ascii) : string := hex 2 (code c).

Definition repr_char (quote : ascii) (c : ascii) : string :=
  if bool_decide (c = quote) || bool_decide (c = "\"%char) then of_chars ["\"%char; c]
  else if (code c =? 9)%N then "\t"
  else if (code c =? 10)%N then "\n"
  else if (code c =? 13)%N then "\r"
  else if (code c <? 32)%N || (code c =? 127)%N then "\x" +:+ byte_hex c
  else of_chars [c].

Definition single_quote : ascii := ascii_of_N 39.
Definition double_quote : ascii := ascii_of_N 34.

Definition repr_str (s : string) : string :=
  let quote := if has_char single_quote s && negb (has_char double_quote s)
               then double_quote else single_quote in
  of_chars [quote] +:+ join "" (map (repr_char quote) (chars s)) +:+ of_chars [quote].

Fixpoint py_repr (v : val) : string :=
  match v with
  | VNone => "None"
  | VBool true => "True"
  | VBool false => "False"
  | VInt z => int_str z
  | VStr s => repr_str s
  | VList l => "[" +:+ join ", " (map py_repr l) +:+ "]"
  | VDict d => "{" +:+ join ", " (map (λ '(k, x), repr_str k +:+ ": " +:+ py_repr x) d) +:+ "}"
  end.

Definition py_str (v : val) : string :=
  match v with VStr s => s | _ => py_repr v end.

Example py_str_dict :
  py_str (VDict [("a", VList [VInt (-3); VBool true]); ("b'", VNone)])
  = "{'a': [-3, True], " +:+ of_chars [double_quote] +:+ "b'" +:+ of_chars [double_quote] +:+ ": None}".
Proof. vm_compute. reflexivity. Qed.

(** ** Canonical JSON and SHA-256

    [json.dumps] with the arguments the control plane passes it, and
    [hashlib.sha256(...).hexdigest()], by which fingerprints and plan checksums
    are computed. *)

(** ** Strings in JSON *)

(** The code points of a UTF-8 text; a byte that does not start a well-formed
    sequence stands for itself. *)
Fixpoint code_points (fuel : nat) (l : list N) : list N :=
  match fuel, l with
  | S f, b0 :: l0 =>
      if (b0 <? 192)%N then b0 :: code_points f l0
      else if (b0 <? 224)%N then
        match l0 with
        | b1 :: l1 => ((b0 mod 32) * 64 + b1 mod 64)%N :: code_points f l1
        | _ => [b0]
        end
      else if (b0 <? 240)%N then
        match l0 with
        | b1 :: b2 :: l2 =>
            ((b0 mod 16) * 4096 + (b1 mod 64) * 64 + b2 mod 64)%N :: code_points f l2
        | _ => [b0]
        end
      else
        match l0 with
        | b1 :: b2 :: b3 :: l3 =>
            ((b0 mod 8) * 262144 + (b1 mod 64) * 4096 + (b2 mod 64) * 64 + b3 mod 64)%N
              :: code_points f l3
        | _ => [b0]
        end
  | _, _ => []
  end.

Definition backslash : ascii := ascii_of_N 92.
Definition u_escape (n : N) : string := of_chars [backslash; "u"%char] +:+ hex 4 n.

(** One code point inside a JSON string, for [ensure_ascii=True]. *)
Definition json_point (n : N) : string :=
  if (n =? 34)%N || (n =? 92)%N then of_chars [backslash; ascii_of_N n]
  else if (n =? 10)%N then of_chars [backslash; "n"%char]
  else if (n =? 13)%N then of_chars [backslash; "r"%char]
  else if (n =? 9)%N then of_chars [backslash; "t"%char]
  else if (n =? 12)%N then of_chars [backslash; "f"%char]
  else if (n =? 8)%N then of_chars [backslash; "b"%char]
  else if (32 <=? n)%N && (n <=? 126)%N then of_chars [ascii_of_N n]
  else if (n <? 65536)%N then u_escape n
  else let m := (n - 65536)%N in
       u_escape (55296 + m / 1024)%N +:+ u_escape (56320 + m mod 1024)%N.

(** One byte inside a JSON string, for [ensure_ascii=False]. *)
Definition json_byte (n : N) : string :=
  if (126 <? n)%N then of_chars [ascii_of_N n] else json_point n.

Definition json_str (ensure_ascii : bool) (s : string) : string :=
  let bytes := map code (chars s) in
  let body := if ensure_ascii then map json_point (code_points (length bytes) bytes)
              else map json_byte bytes in
  of_chars [double_quote] +:+ join "" body +:+ of_chars [double_quote].

(** ** Documents *)

Fixpoint chars_le (x y : list ascii) : bool :=
  match x, y with
  | [], _ => true
  | _ :: _, [] => false
  | a :: x', b :: y' => (code a <? code b)%N || ((code a =? code b)%N && chars_le x' y')
  end.
(** Order of code points, which is the order of the UTF-8 bytes. *)
Definition string_le (x y : string) : bool := chars_le (chars x) (chars y).

Definition key_le {A} (p q : string * A) : bool := string_le p.1 q.1.

(** [json.dumps(v, sort_keys=True, separators=(",", ":"), ensure_ascii=a)] *)
Fixpoint json_dumps (ensure_ascii : bool) (v : val) : string :=
  match v with
  | VNone => "null"
  | VBool true => "true"
  | VBool false => "false"
  | VInt z => int_str z
  | VStr s => json_str ensure_ascii s
  | VList l => "[" +:+ join "," (map (json_dumps ensure_ascii) l) +:+ "]"
  | VDict d =>
      let items := map (λ '(k, x), (k, json_dumps ensure_ascii x)) d in
      "{" +:+ join "," (map (λ '(k, t), json_str ensure_ascii k +:+ ":" +:+ t)
                            (order_by key_le items)) +:+ "}"
  end.

(** [json.dumps(v, ensure_ascii=False)]: keys in their order, with spaces. *)
Fixpoint json_text (v : val) : string :=
  match v with
  | VNone => "null"
  | VBool true => "true"
  | VBool false => "false"
  | VInt z => int_str z
  | VStr s => json_str false s
  | VList l => "[" +:+ join ", " (map json_text l) +:+ "]"
  | VDict d => "{" +:+ join ", " (map (λ '(k, x), json_str false k +:+ ": " +:+ json_text x) d) +:+ "}"
  end.

Definition quoted (s : string) : string := of_chars [double_quote] +:+ s +:+ of_chars [double_quote].

Example json_dumps_sorts :
  json_dumps true (VDict [("b", VList [VInt 2; VNone]); ("a", VStr "é")])
  = "{" +:+ quoted "a" +:+ ":" +:+ quoted "\u00e9" +:+ "," +:+ quoted "b" +:+ ":[2,null]}".
Proof. vm_compute. reflexivity. Qed.

(** ** SHA-256 *)

Definition mask32 (n : N) : N := N.land n 4294967295.
Definition add32 (a b : N) : N := mask32 (a + b).
Definition rotr (k a : N) : N := N.lor (N.shiftr a k) (mask32 (N.shiftl a (32 - k))).

Definition round_constants : list N :=
  [1116352408; 1899447441; 3049323471; 3921009573; 961987163; 1508970993; 2453635748; 2870763221;
   3624381080; 310598401; 607225278; 1426881987; 1925078388; 2162078206; 2614888103; 3248222580;
   3835390401; 4022224774; 264347078; 604807628; 770255983; 1249150122; 1555081692; 1996064986;
   2554220882; 2821834349; 2952996808; 3210313671; 3336571891; 3584528711; 113926993; 338241895;
   666307205; 773529912; 1294757372; 1396182291; 1695183700; 1986661051; 2177026350; 2456956037;
   2730485921; 2820302411; 3259730800; 3345764771; 3516065817; 3600352804; 4094571909; 275423344;
   430227734; 506948616; 659060556; 883997877; 958139571; 1322822218; 1537002063; 1747873779;
   1955562222; 2024104815; 2227730452; 2361852424; 2428436474; 2756734187; 3204031479; 3329325298]%N.

Definition initial_hash : list N :=
  [1779033703; 3144134277; 1013904242; 2773480762; 1359893119; 2600822924; 528734635; 1541459225]%N.

Definition byte_of (n k : N) : N := N.land (N.shiftr n (8 * k)) 255.

(** The message, the bit 1, zeros to 56 modulo 64 and the bit length in 64 bits. *)
Definition sha_pad (bytes : list N) : list N :=
  let len := length bytes in
  let zeros := ((119 - len mod 64) mod 64)%nat in
  let bits := (8 * N.of_nat len)%N in
  bytes ++ [128%N] ++ replicate zeros 0%N ++ map (byte_of bits) [7; 6; 5; 4; 3; 2; 1; 0]%N.

Fixpoint words_of (l : list N) : list N :=
  match l with
  | a :: b :: c :: d :: l' =>
      (N.shiftl a 24 + N.shiftl b 16 + N.shiftl c 8 + d)%N :: words_of l'
  | _ => []
  end.

Fixpoint blocks (fuel : nat) (l : list N) : list (list N) :=
  match fuel, l with
  | S f, _ :: _ => take 16 l :: blocks f (drop 16 l)
  | _, _ => []
  end.

(** The message schedule, most recent word first. *)
Fixpoint extend (k : nat) (w : list N) : list N :=
  match k with
  | O => w
  | S k' =>
      let at_ i := nth i w 0%N in
      let s0 := let x := at_ 14 in N.lxor (N.lxor (rotr 7 x) (rotr 18 x)) (N.shiftr x 3) in
      let s1 := let x := at_ 1 in N.lxor (N.lxor (rotr 17 x) (rotr 19 x)) (N.shiftr x 10) in
      extend k' (add32 (add32 (at_ 15) s0) (add32 (at_ 6) s1) :: w)
  end.

Definition round (st : list N) (kw : N * N) : list N :=
  match st with
  | [a; b; c; d; e; f; g; h] =>
      let s1 := N.lxor (N.lxor (rotr 6 e) (rotr 11 e)) (rotr 25 e) in
      let ch := N.lxor (N.land e f) (N.land (N.lxor e 4294967295) g) in
      let t1 := add32 (add32 h s1) (add32 ch (add32 kw.1 kw.2)) in
      let s0 := N.lxor (N.lxor (rotr 2 a) (rotr 13 a)) (rotr 22 a) in
      let maj := N.lxor (N.lxor (N.land a b) (N.land a c)) (N.land b c) in
      [add32 t1 (add32 s0 maj); a; b; c; add32 d t1; e; f; g]
  | _ => st
  end.

Definition compress (st : list N) (block : list N) : list N :=
  let w := reverse (extend 48 (reverse block)) in
  zip_with add32 st (fold_left round (zip round_constants w) st).

(** [hashlib.sha256(s.encode()).hexdigest()] *)
Definition sha256 (s : string) : string :=
  let ws := words_of (sha_pad (map code (chars s))) in
  join "" (map (hex 8) (fold_left compress (blocks (length ws) ws) initial_hash)).

Example sha256_empty :
  sha256 "" = "e3b0c44298fc1c149afbf4c8996fb92427ae41e4649b934ca495991b7852b855".
Proof. vm_compute. reflexivity. Qed.
Example sha256_abc :
  sha256 "abc" = "ba7816bf8f01cfea414140de5dae2223b00361a396177a9cb410ff61f20015ad".
Proof. vm_compute. reflexivity. Qed.
