(* ===== verification/Regex.v ===== *)
(** * Regular expressions of Python's [re]

    A backtracking matcher for the part of the syntax the control plane uses:
    classes, concatenation, ordered alternation, greedy and lazy repetition,
    named groups, word boundaries and one-character look-arounds.  Preference
    among matches is that of [re]: left alternative first, longest first for a
    greedy repetition, shortest first for a lazy one. *)

From S2P Require Import Prelude PyText.

Inductive re : Type :=
| Eps
| Cls (f : ascii → bool)
| Cat (r1 r2 : re)
| Alt (r1 r2 : re)
| Rep (greedy : bool) (r : re)
| Group (name : nat) (r : re)
| Bound
| NotBehind (f : ascii → bool)
| NotAhead (f : ascii → bool)
| AtStart
| AtEnd.

(** Where the matcher stands: the character before, the text ahead, and the text
    of the groups matched so far. *)
Record cursor := Cursor {
  behind : option ascii;
  ahead : list ascii;
  groups : list (nat * list ascii)
}.

Definition advance (c : cursor) : option (ascii * cursor) :=
  match ahead c with
  | [] => None
  | a :: l => Some (a, Cursor (Some a) l (groups c))
  end.

Definition word_at (o : option ascii) : bool := match o with Some a => is_word a | None => false end.

Definition consumed (c c' : cursor) : list ascii :=
  take (length (ahead c) - length (ahead c')) (ahead c).

(** [mtch r c k]: the first match of [r] at [c] that the continuation [k] accepts.
    A repetition runs at most once per character left, as every round after which
    nothing was consumed ends it. *)
Fixpoint mtch {X} (r : re) (c : cursor) (k : cursor → option X) {struct r} : option X :=
  match r with
  | Eps => k c
  | Cls f => match advance c with
             | Some (a, c') => if f a then k c' else None
             | None => None
             end
  | Cat r1 r2 => mtch r1 c (λ c', mtch r2 c' k)
  | Alt r1 r2 => match mtch r1 c k with Some x => Some x | None => mtch r2 c k end
  | Rep greedy r1 =>
      (fix loop (n : nat) (c : cursor) : option X :=
         match n with
         | O => k c
         | S n' =>
             let more := mtch r1 c (λ c', if length (ahead c') <? length (ahead c)
                                          then loop n' c' else None) in
             if greedy then match more with Some x => Some x | None => k c end
             else match k c with Some x => Some x | None => more end
         end) (length (ahead c)) c
  | Group name r1 =>
      mtch r1 c (λ c', k (Cursor (behind c') (ahead c') ((name, consumed c c') :: groups c')))
  | Bound =>
      let next := match ahead c with a :: _ => is_word a | [] => false end in
      if xorb (word_at (behind c)) next then k c else None
  | NotBehind f => match behind c with
                   | Some a => if f a then None else k c
                   | None => k c
                   end
  | NotAhead f => match ahead c with
                  | a :: _ => if f a then None else k c
                  | [] => k c
                  end
  | AtStart => match behind c with None => k c | Some _ => None end
  | AtEnd => match ahead c with [] => k c | _ :: _ => None end
  end.

(** [r.match] at a cursor, and [r.search] from it on: where the match starts and
    ends. *)
Definition match_at (r : re) (c : cursor) : option cursor :=
  mtch r (Cursor (behind c) (ahead c) []) Some.

Fixpoint search_from (r : re) (prev : option ascii) (l : list ascii) : option (cursor * cursor) :=
  let c := Cursor prev l [] in
  match match_at r c with
  | Some c' => Some (c, c')
  | None => match l with
            | [] => None
            | a :: l' => search_from r (Some a) l'
            end
  end.

Definition search (r : re) (s : string) : bool :=
  match search_from r None (chars s) with Some _ => true | None => false end.

Definition fullmatch (r : re) (s : string) : bool :=
  match match_at (Cat r AtEnd) (Cursor None (chars s) []) with Some _ => true | None => false end.

(** The text of a group in a match, the last capture winning. *)
Definition group (name : nat) (c : cursor) : list ascii :=
  match find (λ p : nat * list ascii, p.1 =? name) (groups c) with
  | Some p => p.2
  | None => []
  end.

(** [r.sub(repl, s)] for expressions that match no empty text: each leftmost match
    is replaced and the scan goes on behind it. *)
Fixpoint sub_from (fuel : nat) (r : re) (repl : cursor → list ascii)
    (prev : option ascii) (l : list ascii) : list ascii :=
  match fuel, l with
  | S fuel', a :: l' =>
      match match_at r (Cursor prev l []) with
      | Some c' =>
          if length (ahead c') <? length l
          then repl c' ++ sub_from fuel' r repl (behind c') (ahead c')
          else a :: sub_from fuel' r repl (Some a) l'
      | None => a :: sub_from fuel' r repl (Some a) l'
      end
  | _, _ => []
  end.

Definition sub (r : re) (repl : cursor → list ascii) (s : string) : string :=
  let l := chars s in of_chars (sub_from (length l) r repl None l).

(** The leftmost matches of an expression that matches no empty text, each with its text,
    and the characters between them. *)
Fixpoint scan_from (fuel : nat) (r : re) (prev : option ascii) (l : list ascii) :
    list (ascii + list ascii * cursor) :=
  match fuel, l with
  | S fuel', a :: l' =>
      let c := Cursor prev l [] in
      match match_at r c with
      | Some c' =>
          if length (ahead c') <? length l
          then inr (consumed c c', c') :: scan_from fuel' r (behind c') (ahead c')
          else inl a :: scan_from fuel' r (Some a) l'
      | None => inl a :: scan_from fuel' r (Some a) l'
      end
  | _, _ => []
  end.

Definition scan (r : re) (s : string) : list (ascii + list ascii * cursor) :=
  let l := chars s in scan_from (length l) r None l.

(** [r.findall(s)] of an expression without groups. *)
Definition findall (r : re) (s : string) : list string :=
  omap (λ piece, match piece with inl _ => None | inr (text, _) => Some (of_chars text) end) (scan r s).

(** ** Building blocks *)

Definition same_char (a b : ascii) : bool := bool_decide (a = b).
Definition same_letter (a b : ascii) : bool := bool_decide (lower_char a = lower_char b).

Definition seq (l : list re) : re := foldr Cat Eps l.
Definition alts (l : list re) : re :=
  match l with [] => Cls (λ _, false) | r :: l' => fold_left Alt l' r end.
Definition star (r : re) : re := Rep true r.
Definition plus (r : re) : re := Cat r (star r).
Definition lazy (r : re) : re := Rep false r.
Definition opt (r : re) : re := Alt r Eps.
Definition lit (s : string) : re := seq (map (λ a, Cls (same_char a)) (chars s)).
(** Under [re.IGNORECASE]. *)
Definition ilit (s : string) : re := seq (map (λ a, Cls (same_letter a)) (chars s)).
Definition one_of (s : string) : ascii → bool := λ a, has_char a s.
Definition any : re := Cls (λ _, true).

(** ** Laws *)

(** Without a match the scan copies the text. *)
Lemma sub_no_match r repl s :
  search_from r None (chars s) = None → sub r repl s = s.
Proof.
  unfold sub. intros H. transitivity (of_chars (chars s)); [|apply String.string_of_list_ascii_of_string].
  f_equal. revert H. generalize (@None ascii) as prev. generalize (chars s) as l.
  induction l as [|a l IH]; intros prev H; simpl in *; [done|].
  destruct (match_at r (Cursor prev (a :: l) [])); [done|]. by rewrite IH.
Qed.

(** Substitution replaces the matches of the scan and keeps the rest. *)
Lemma sub_scan r repl s :
  sub r repl s = of_chars (scan r s ≫= λ piece, match piece with inl a => [a] | inr (_, c) => repl c end).
Proof.
  unfold sub, scan. f_equal. generalize (@None ascii) as prev. generalize (chars s) as l.
  intros l. generalize (length l) as n. intros n. revert l.
  induction n as [|n IH]; intros [|a l] prev; try done. cbn [sub_from scan_from].
  destruct (match_at r _) as [c'|]; [destruct (_ <? _)|]; csimpl; by rewrite IH.
Qed.

Example search_bound : search (seq [Bound; lit "ab"; Bound]) "x ab." = true.
Proof. vm_compute. reflexivity. Qed.
Example sub_lazy :
  sub (seq [lit "<"; lazy any; lit ">"]) (λ _, chars "T") "a<b>c<d>" = "aTcT".
Proof. vm_compute. reflexivity. Qed.

(** ** Shell patterns ([fnmatch.fnmatch])

    Policies match actions, agents and resource values against shell patterns.
    [fnmatch] is the function of Python's standard library on POSIX (no case
    folding): the pattern is read into tokens once, then matched against the whole
    text.  [matches] is its declarative meaning. *)

Inductive token : Type :=
| TStar
| TAny
| TLit (c : ascii)
| TSet (negated : bool) (ranges : list (ascii * ascii)).

#[export] Instance token_eq_dec : EqDecision token.
Proof. solve_decision. Defined.

(** ** Reading a pattern *)

Fixpoint until_bracket (acc l : list ascii) : option (list ascii * list ascii) :=
  match l with
  | [] => None
  | c :: l' => if bool_decide (c = "]"%char) then Some (reverse acc, l')
               else until_bracket (c :: acc) l'
  end.

(** The ranges of a bracket expression: [a-b], or a single character. *)
Fixpoint set_ranges (fuel : nat) (l : list ascii) : list (ascii * ascii) :=
  match fuel, l with
  | S f, a :: l1 =>
      match l1 with
      | d :: b :: l3 =>
          if bool_decide (d = "-"%char) then (a, b) :: set_ranges f l3
          else (a, a) :: set_ranges f l1
      | _ => (a, a) :: set_ranges f l1
      end
  | _, _ => []
  end.

(** What follows an opening bracket: a leading [!] negates, a bracket right at the
    start is a member, and without a closing bracket there is no set. *)
Definition read_set (l : list ascii) : option (token * list ascii) :=
  let '(negated, l1) := match l with
                        | c :: l' => if bool_decide (c = "!"%char) then (true, l') else (false, l)
                        | [] => (false, l)
                        end in
  let '(first, l2) := match l1 with
                      | c :: l' => if bool_decide (c = "]"%char) then ([c], l') else ([], l1)
                      | [] => ([], l1)
                      end in
  '(body, rest) ← until_bracket [] l2;
  let stuff := first ++ body in
  Some (TSet negated (set_ranges (length stuff) stuff), rest).

Fixpoint read_tokens (fuel : nat) (l : list ascii) : list token :=
  match fuel, l with
  | S f, c :: l' =>
      if bool_decide (c = "*"%char) then TStar :: read_tokens f l'
      else if bool_decide (c = "?"%char) then TAny :: read_tokens f l'
      else if bool_decide (c = "["%char) then
        match read_set l' with
        | Some (t, rest) => t :: read_tokens f rest
        | None => TLit c :: read_tokens f l'
        end
      else TLit c :: read_tokens f l'
  | _, _ => []
  end.

Definition translate (pat : string) : list token :=
  read_tokens (String.length pat) (chars pat).

(** ** Matching *)

Definition in_set (c : ascii) (ranges : list (ascii * ascii)) : bool :=
  existsb (λ '(lo, hi), in_range (code lo) (code hi) c) ranges.

Definition token_accepts (t : token) (c : ascii) : bool :=
  match t with
  | TStar => false
  | TAny => true
  | TLit d => bool_decide (c = d)
  | TSet negated ranges => xorb negated (in_set c ranges)
  end.

Fixpoint match_tokens (ts : list token) (s : list ascii) : bool :=
  match ts with
  | [] => bool_decide (s = [])
  | TStar :: ts' =>
      (fix go (s : list ascii) : bool :=
         match_tokens ts' s || match s with [] => false | _ :: s' => go s' end) s
  | t :: ts' => match s with
                | [] => false
                | c :: s' => token_accepts t c && match_tokens ts' s'
                end
  end.

Definition fnmatch (name pat : string) : bool := match_tokens (translate pat) (chars name).

(** ** Meaning *)

Inductive matches : list token → list ascii → Prop :=
| matches_nil : matches [] []
| matches_star ts s1 s2 : matches ts s2 → matches (TStar :: ts) (s1 ++ s2)
| matches_one t ts c s : token_accepts t c = true → matches ts s → matches (t :: ts) (c :: s).

Lemma match_star ts s :
  match_tokens (TStar :: ts) s = true ↔ ∃ s1 s2, s = s1 ++ s2 ∧ match_tokens ts s2 = true.
Proof.
  split.
  - induction s as [|c s IH]; simpl; intros H; apply orb_true_iff in H as [H|H]; try done.
    + by exists [], [].
    + by exists [], (c :: s).
    + destruct (IH H) as (s1 & s2 & -> & ?). by exists (c :: s1), s2.
  - intros (s1 & s2 & -> & H). induction s1 as [|c s1 IH]; simpl.
    + destruct s2; simpl; by rewrite H.
    + apply orb_true_iff. by right.
Qed.

Lemma match_tokens_matches ts s : match_tokens ts s = true ↔ matches ts s.
Proof.
  revert s. induction ts as [|t ts IH]; intros s.
  - simpl. rewrite bool_decide_eq_true. split; [intros ->; constructor|by inversion 1].
  - assert (t ≠ TStar → match_tokens (t :: ts) s =
      match s with [] => false | c :: s' => token_accepts t c && match_tokens ts s' end) as Hone
      by by destruct t.
    destruct (decide (t = TStar)) as [->|Hne].
    + rewrite match_star. split.
      * intros (s1 & s2 & -> & ?%IH). by constructor.
      * inversion 1 as [|? s1 s2 Hm|? ? ? ? Hacc]; subst; [|done]. exists s1, s2. by rewrite IH.
    + rewrite Hone by done. split.
      * destruct s as [|c s]; [done|]. intros [? ?%IH]%andb_true_iff. by constructor.
      * inversion 1; subst; [done|]. apply andb_true_iff. by rewrite IH.
Qed.

(** The matcher accepts exactly the texts the pattern denotes: a star any
    text, a question mark any character, a bracket expression the characters in
    (or, negated, outside) its ranges, anything else itself. *)
Theorem fnmatch_sound_complete name pat :
  fnmatch name pat = true ↔ matches (translate pat) (chars name).
Proof. apply match_tokens_matches. Qed.

(** The pattern [*] of the default conditions accepts everything. *)
Lemma fnmatch_star name : fnmatch name "*" = true.
Proof.
  apply fnmatch_sound_complete. rewrite <- (app_nil_r (chars name)). apply matches_star. constructor.
Qed.
#[export] Hint Rewrite fnmatch_star : obsion_rw.

Example fnmatch_examples :
  map (uncurry fnmatch)
    [ ("data.query.run", "data.*"); ("data", "data.*"); ("a-c", "a[!b]c"); ("ab", "a[c-a]");
      ("a]", "a[]]"); ("[x", "[x"); ("a.b", "?.[a-b]") ]
  = [true; false; true; false; true; true; true].
Proof. vm_compute. reflexivity. Qed.
