(* ===== verification/Redaction.v ===== *)
(** * Redaction and masking ([security/redaction.py], [security/masking.py])

    Redaction removes secrets from what is persisted; masking applies the
    obligations of a policy decision to a result. *)

From S2P Require Import Prelude PyText PyVal Regex.

(** ** [security/redaction.py] *)

Definition _SENSITIVE_KEY : re :=
  alts [ ilit "authorization"; ilit "cookie"; ilit "password"; ilit "passwd"; ilit "secret";
         ilit "token";
         seq [ilit "api"; opt (Cls (one_of "_-")); ilit "key"];
         seq [ilit "access"; opt (Cls (one_of "_-")); ilit "key"];
         seq [ilit "private"; opt (Cls (one_of "_-")); ilit "key"] ].

Definition is_alnum (a : ascii) : bool := is_upper a || is_lower a || is_digit a.

Definition _BEARER : re :=
  seq [Bound; ilit "bearer"; plus (Cls is_space);
       plus (Cls (λ a, is_alnum a || one_of "._~+/=-" a))].

Definition g_scheme : nat := 1.
Definition g_key : nat := 2.
Definition g_separator : nat := 3.

Definition _CREDENTIAL_URI : re :=
  seq [ Group g_scheme (seq [plus (Cls is_word); lit "://"]);
        plus (Cls (λ a, negb (one_of ":/" a || is_space a))); lit ":";
        plus (Cls (λ a, negb (one_of "@/" a || is_space a))); lit "@" ].

Definition _SECRET_ASSIGNMENT : re :=
  let dq := Cls (same_char double_quote) in
  let sq := Cls (same_char single_quote) in
  seq [ Bound;
        Group g_key (alts
          [ ilit "password"; ilit "passwd"; ilit "secret"; ilit "token";
            seq [ilit "api"; opt (Cls (one_of "_-")); ilit "key"];
            seq [ilit "access"; opt (Cls (one_of "_-")); ilit "key"];
            seq [ilit "private"; opt (Cls (one_of "_-")); ilit "key"];
            ilit "credential" ]);
        Group g_separator (seq [star (Cls is_space); Cls (one_of ":="); star (Cls is_space)]);
        alts [ seq [dq; star (Cls (λ a, negb (same_char double_quote a))); dq];
               seq [sq; star (Cls (λ a, negb (same_char single_quote a))); sq];
               plus (Cls (λ a, negb (is_space a || one_of ",;" a))) ] ].

Definition _PRIVATE_KEY_BLOCK : re :=
  let label := star (Cls (λ a, is_alnum a || same_char " " a)) in
  seq [ ilit "-----BEGIN "; label; ilit "PRIVATE KEY-----"; lazy any;
        ilit "-----END "; label; ilit "PRIVATE KEY-----" ].

Definition redact_text (value : string) : string :=
  let value := sub _PRIVATE_KEY_BLOCK (λ _, chars "[REDACTED PRIVATE KEY]") value in
  let value := sub _SECRET_ASSIGNMENT
    (λ m, group g_key m ++ group g_separator m ++ chars "[REDACTED]") value in
  let value := sub _BEARER (λ _, chars "Bearer [REDACTED]") value in
  sub _CREDENTIAL_URI (λ m, group g_scheme m ++ chars "[REDACTED]@") value.

(** [if key and _SENSITIVE_KEY.search(key)] *)
Definition sensitive_key (key : option string) : bool :=
  match key with Some k => truthy k && search _SENSITIVE_KEY k | None => false end.

Fixpoint redact (key : option string) (value : val) : val :=
  if sensitive_key key then VStr "[REDACTED]" else
  match value with
  | VStr s => VStr (redact_text s)
  | VDict d => VDict (map (λ '(k, item), (k, redact (Some k) item)) d)
  | VList l => VList (map (redact None) l)
  | _ => value
  end.

Example redact_text_examples :
  map redact_text
    [ "password = hunter2, next"; "Authorization: bearer abc.def"; "postgres://u:p@h/db";
      "plain" ]
  = [ "password = [REDACTED], next"; "Authorization: Bearer [REDACTED]";
      "postgres://[REDACTED]@h/db"; "plain" ].
Proof. vm_compute. reflexivity. Qed.

(** A document in which every item under a sensitive key has been replaced. *)
Fixpoint no_sensitive_item (v : val) : bool :=
  match v with
  | VList l => forallb no_sensitive_item l
  | VDict d =>
      forallb (λ '(k, x), (if sensitive_key (Some k) then bool_decide (x = VStr "[REDACTED]")
                           else true) && no_sensitive_item x) d
  | _ => true
  end.

(** ** [security/masking.py] *)

Definition stars : val := VStr "***".

(** The first sixteen hexadecimal digits of the SHA-256 of [str(v)]. *)
Definition hashed (v : val) : val :=
  VStr (of_chars (take 16 (chars (sha256 (py_str v))))).

(** Walk down nested dictionaries along [path] and, when its last part is there,
    assign [f] of the old value to it. *)
Fixpoint update_path (f : val → val) (value : dict) (path : list string) : dict :=
  match path with
  | [] => value
  | [field] => match dget field value with
               | Some v => dset field (f v) value
               | None => value
               end
  | part :: path' => match dget part value with
                     | Some (VDict nested) => dset part (VDict (update_path f nested path')) value
                     | _ => value
                     end
  end.

Definition _replace_path (value : dict) (path : list string) (replacement : val) : dict :=
  update_path (λ _, replacement) value path.

Definition _hash_path (value : dict) (path : list string) : dict :=
  update_path hashed value path.

(** [key in value], which raises on an unhashable key. *)
Definition key_in (key : val) (value : dict) : option bool :=
  match key with
  | VStr k => Some (dmem k value)
  | VList _ | VDict _ => None
  | _ => Some false
  end.

(** The keys that [_mask_annotated] overwrites in [value]. *)
Definition annotated_keys (value : dict) : option (list string) :=
  match dget "_classified_fields" value with
  | Some (VList classified) =>
      foldr (λ (key : val) (acc : option (list string)),
               present ← key_in key value; rest ← acc;
               Some (match key with VStr k => if (present : bool) then k :: rest else rest
                                  | _ => rest end))
            (Some []) classified
  | _ => Some []
  end.

Fixpoint _mask_annotated (value : val) : option val :=
  match value with
  | VDict d =>
      keys ← annotated_keys d;
      d' ← (fix go (l : dict) : option dict :=
              match l with
              | [] => Some []
              | (k, item) :: l' =>
                  item' ← (if bool_decide (k ∈ keys) then Some stars else _mask_annotated item);
                  rest ← go l';
                  Some ((k, item') :: rest)
              end) d;
      Some (VDict d')
  | VList l =>
      l' ← (fix go (l : list val) : option (list val) :=
              match l with
              | [] => Some []
              | item :: l' => item' ← _mask_annotated item; rest ← go l'; Some (item' :: rest)
              end) l;
      Some (VList l')
  | _ => Some value
  end.

(** [for x in v] *)
Definition py_iter (v : val) : option (list val) :=
  match v with
  | VList l => Some l
  | VStr s => Some (map (λ c, VStr (of_chars [c])) (chars s))
  | VDict d => Some (map VStr d.*1)
  | _ => None
  end.

(** [int(v)]; a [str] is read as an optionally signed decimal. *)
Fixpoint digits_value (l : list ascii) (acc : Z) : option Z :=
  match l with
  | [] => Some acc
  | c :: l' => if is_digit c then digits_value l' (10 * acc + (Z.of_N (code c) - 48))%Z else None
  end.
Definition py_int (v : val) : option Z :=
  match v with
  | VInt z => Some z
  | VBool b => Some (bool_int b)
  | VStr s =>
      match chars (strip s) with
      | [] => None
      | c :: l =>
          if bool_decide (c = "-"%char) then
            if bool_decide (l = []) then None else Z.opp <$> digits_value l 0
          else if bool_decide (c = "+"%char) then
            if bool_decide (l = []) then None else digits_value l 0
          else digits_value (c :: l) 0
      end
  | _ => None
  end.

(** [l[:n]], where a negative [n] counts from the end. *)
Definition slice_to {A} (l : list A) (n : Z) : list A :=
  take (Z.to_nat (if (n <? 0)%Z then Z.of_nat (length l) + n else n)) l.

Definition path_of (path : val) : list string := split "." (py_str path).

(** The body of the loop over the obligations; [None] is an uncaught
    [TypeError] or [ValueError]. *)
Definition apply_obligation (result : dict) (obligation : dict) : option dict :=
  let kind := dget "type" obligation in
  if bool_decide (kind = Some (VStr "mask_fields")) then
    fields ← py_iter (dget_or "fields" (VList []) obligation);
    Some (fold_left (λ r path, _replace_path r (path_of path) stars) fields result)
  else if bool_decide (kind = Some (VStr "hash_fields")) then
    fields ← py_iter (dget_or "fields" (VList []) obligation);
    Some (fold_left (λ r path, _hash_path r (path_of path)) fields result)
  else if bool_decide (kind = Some (VStr "limit_result_rows")) then
    match dget "rows" result with
    | Some (VList rows) =>
        n ← py_int (dget_or "value" (VInt 500) obligation);
        Some (dset "rows" (VList (slice_to rows n)) result)
    | _ => Some result
    end
  else if bool_decide (kind = Some (VStr "mask_classified_fields")) then
    masked ← _mask_annotated (VDict result);
    match masked with VDict d => Some d | _ => Some [] end
  else Some result.

Fixpoint apply_obligations (payload : dict) (obligations : list dict) : option dict :=
  match obligations with
  | [] => Some payload
  | o :: obligations' => r ← apply_obligation payload o; apply_obligations r obligations'
  end.

Example apply_obligations_example :
  apply_obligations
    [("user", VDict [("email", VStr "a@b"); ("id", VInt 7)]); ("rows", VList [VInt 1; VInt 2; VInt 3]);
     ("salary", VInt 10); ("_classified_fields", VList [VStr "salary"; VStr "absent"])]
    [ [("type", VStr "mask_fields"); ("fields", VList [VStr "user.email"; VStr "user.none"])];
      [("type", VStr "limit_result_rows"); ("value", VInt 2)];
      [("type", VStr "mask_classified_fields")] ]
  = Some [("user", VDict [("email", stars); ("id", VInt 7)]); ("rows", VList [VInt 1; VInt 2]);
          ("salary", stars); ("_classified_fields", VList [VStr "salary"; VStr "absent"])].
Proof. vm_compute. reflexivity. Qed.

(** ** Redaction laws *)

Lemma redact_nested key v : no_sensitive_item (redact key v) = true.
Proof.
  revert key. induction v as [| | | |l IH|d IH] using val_ind'; intros key;
    cbn [redact]; destruct (sensitive_key key); try done; cbn [no_sensitive_item].
  - apply forallb_true. intros x (y & -> & Hy)%list_elem_of_fmap.
    rewrite Forall_forall in IH. by apply IH.
  - apply forallb_true. intros [k x] ([k' y] & [= -> ->] & Hy)%list_elem_of_fmap.
    rewrite Forall_forall in IH. pose proof (IH _ Hy (Some k')) as Hn. cbn [snd] in Hn. rewrite Hn, andb_true_r.
    destruct (sensitive_key (Some k')) eqn:Hk; [|done].
    apply bool_decide_true. destruct y; cbn [redact]; by rewrite Hk.
Qed.

Lemma redact_keys d : ∃ d', redact None (VDict d) = VDict d' ∧ d'.*1 = d.*1.
Proof.
  eexists. split; [reflexivity|]. rewrite <- list_fmap_compose. apply list_fmap_ext.
  by intros ? [].
Qed.

(** ** Masking laws *)

(** The value at a nested path. *)
Fixpoint lookup_path (d : dict) (path : list string) : option val :=
  match path with
  | [] => Some (VDict d)
  | [part] => dget part d
  | part :: path' => match dget part d with
                     | Some (VDict d') => lookup_path d' path'
                     | _ => None
                     end
  end.

(** What a masked value can become: the mask, or hashes of the mask. *)
Inductive masked : val → Prop :=
| masked_stars : masked stars
| masked_hash v : masked v → masked (hashed v).

Definition hidden (o : option val) : Prop := ∀ v, o = Some v → masked v.

Lemma masked_str v : masked v → ∃ s, v = VStr s.
Proof. destruct 1; eexists; reflexivity. Qed.

Lemma hidden_not_dict d : ¬ hidden (Some (VDict d)).
Proof. intros H. by destruct (masked_str _ (H _ eq_refl)). Qed.

Lemma hidden_not_list l : ¬ hidden (Some (VList l)).
Proof. intros H. by destruct (masked_str _ (H _ eq_refl)). Qed.

Lemma hidden_none : hidden None.
Proof. done. Qed.
#[export] Hint Resolve hidden_none masked_stars masked_hash : obsion.

Lemma split_ne_nil sep s : split sep s ≠ [].
Proof.
  unfold split. generalize (@nil ascii) as acc. generalize (chars s) as l.
  induction l as [|c l IH]; intros acc; simpl; [done|]. by case_bool_decide.
Qed.

Section UpdatePath.
Context (f : val → val).
Hypothesis f_str : ∀ v, ∃ s, f v = VStr s.
Hypothesis f_masked : ∀ v, masked v → masked (f v).

Lemma update_path_hidden q d p :
  p ≠ [] → hidden (lookup_path d p) → hidden (lookup_path (update_path f d q) p).
Proof.
  revert d p. induction q as [|part q IH]; intros d p Hp Hh; [done|].
  destruct p as [|part' p']; [done|].
  destruct q as [|part2 q].
  - simpl. destruct (dget part d) as [v|] eqn:Hv; [|done].
    destruct (decide (part' = part)) as [->|Hne]; simpl in *.
    + rewrite dget_dset_eq, Hv in *. destruct p' as [|part3 p']; [intros w [= <-]; by apply f_masked, Hh|].
      destruct (f_str v) as [s ->]. done.
    + by rewrite dget_dset_ne.
  - change (update_path f d (part :: part2 :: q)) with
      (match dget part d with
       | Some (VDict nested) => dset part (VDict (update_path f nested (part2 :: q))) d
       | _ => d end).
    destruct (dget part d) as [[| | | | |nested]|] eqn:Hv; try done.
    destruct (decide (part' = part)) as [->|Hne]; simpl in *.
    + rewrite dget_dset_eq, Hv in *.
      destruct p' as [|part3 p']; [by destruct (hidden_not_dict nested)|]. by apply IH.
    + by rewrite dget_dset_ne.
Qed.
End UpdatePath.

Lemma replace_path_hidden d q : q ≠ [] → hidden (lookup_path (_replace_path d q stars) q).
Proof.
  unfold _replace_path. revert d. induction q as [|part q IH]; intros d Hq; [done|].
  destruct q as [|part2 q].
  - simpl. destruct (dget part d) eqn:Hv; simpl; [|by rewrite Hv].
    rewrite dget_dset_eq. intros ? [= <-]. constructor.
  - simpl in IH |- *. destruct (dget part d) as [[| | | | |nested]|] eqn:Hv;
      rewrite ?dget_dset_eq, ?Hv; auto with obsion.
Qed.

Lemma hashed_str v : ∃ s, hashed v = VStr s.
Proof. eexists; reflexivity. Qed.

Lemma replace_path_keeps_hidden d q p :
  p ≠ [] → hidden (lookup_path d p) → hidden (lookup_path (_replace_path d q stars) p).
Proof. apply update_path_hidden; [by eexists|auto with obsion]. Qed.

Lemma hash_path_keeps_hidden d q p :
  p ≠ [] → hidden (lookup_path d p) → hidden (lookup_path (_hash_path d q) p).
Proof. apply update_path_hidden; [apply hashed_str|auto with obsion]. Qed.

Lemma fold_left_inv {A B} (P : A → Prop) (f : A → B → A) l a :
  (∀ a b, P a → P (f a b)) → P a → P (fold_left f l a).
Proof. intros Hf. revert a. induction l; simpl; auto. Qed.

(** What [_mask_annotated] does to the items of a dictionary. *)
Lemma mask_annotated_dict d v :
  _mask_annotated (VDict d) = Some v →
  ∃ keys d', annotated_keys d = Some keys ∧ v = VDict d' ∧ d'.*1 = d.*1 ∧
    ∀ k, match dget k d with
         | None => dget k d' = None
         | Some x => if bool_decide (k ∈ keys) then dget k d' = Some stars
                     else ∃ x', _mask_annotated x = Some x' ∧ dget k d' = Some x'
         end.
Proof.
  simpl. intros (keys & Hkeys & (d' & Hgo & [= <-])%bind_Some)%bind_Some.
  exists keys, d'. split; [done|]. split; [done|]. clear Hkeys.
  revert d' Hgo. induction d as [|[k0 x0] d IH]; intros d' Hgo.
  { injection Hgo as <-. done. }
  apply bind_Some in Hgo as (x0' & Hx0 & (rest & Hrest & [= <-])%bind_Some).
  destruct (IH _ Hrest) as [Hks IHk]. split; [simpl; by f_equal|]. intros k. simpl.
  destruct (decide (k = k0)) as [->|Hne].
  - rewrite !bool_decide_true by done. case_bool_decide; [by injection Hx0 as <-|eauto].
  - rewrite !(bool_decide_false (k = k0)) by done. apply IHk.
Qed.

Lemma mask_annotated_str (s : string) v : _mask_annotated (VStr s) = Some v → v = VStr s.
Proof. by intros [= ->]. Qed.

Lemma mask_annotated_keeps_hidden p d d' :
  _mask_annotated (VDict d) = Some (VDict d') →
  p ≠ [] → hidden (lookup_path d p) → hidden (lookup_path d' p).
Proof.
  revert d d'. induction p as [|part p IH]; intros d d' Hm Hp Hh; [done|].
  destruct (mask_annotated_dict _ _ Hm) as (keys & d2 & _ & [= <-] & _ & Hget).
  specialize (Hget part).
  destruct p as [|part2 p].
  - simpl in *. destruct (dget part d) as [x|]; [|by rewrite Hget].
    case_bool_decide; [rewrite Hget; intros ? [= <-]; constructor|].
    destruct Hget as (x' & Hx & ->). destruct (masked_str x) as [s ->]; [by apply Hh|].
    by apply mask_annotated_str in Hx as ->.
  - cbn [lookup_path] in *. destruct (dget part d) as [x|]; [|by rewrite Hget].
    case_bool_decide; [by rewrite Hget|].
    destruct Hget as (x' & Hx & ->).
    destruct x as [| | | |l|nested]; try by injection Hx as <-.
    { simpl in Hx. by apply bind_Some in Hx as (? & _ & [= <-]). }
    destruct (mask_annotated_dict _ _ Hx) as (? & nested' & _ & -> & _).
    eapply IH; [exact Hx|done|done].
Qed.

(** One obligation keeps what is hidden hidden. *)
Lemma apply_obligation_keeps_hidden r o r' p :
  apply_obligation r o = Some r' → p ≠ [] → hidden (lookup_path r p) → hidden (lookup_path r' p).
Proof.
  unfold apply_obligation. intros Ho Hp Hh.
  repeat case_bool_decide; try by injection Ho as <-.
  - apply bind_Some in Ho as (fields & _ & [= <-]).
    apply (fold_left_inv (λ d, hidden (lookup_path d p))); auto using replace_path_keeps_hidden.
  - apply bind_Some in Ho as (fields & _ & [= <-]).
    apply (fold_left_inv (λ d, hidden (lookup_path d p))); auto using hash_path_keeps_hidden.
  - destruct (dget "rows" r) as [[| | | |rows|]|] eqn:Hrows; try by injection Ho as <-.
    apply bind_Some in Ho as (n & _ & [= <-]).
    destruct p as [|part p]; [done|]. destruct (decide (part = "rows")) as [->|Hne].
    + destruct p; simpl in *; rewrite Hrows in *; [by destruct (hidden_not_list rows)|].
      by rewrite dget_dset_eq.
    + destruct p; simpl in *; by rewrite dget_dset_ne.
  - apply bind_Some in Ho as (v & Hv & Ho).
    destruct (mask_annotated_dict _ _ Hv) as (? & d' & _ & -> & _). injection Ho as <-.
    by eapply mask_annotated_keeps_hidden.
Qed.

Lemma apply_obligations_keep_hidden os r r' p :
  apply_obligations r os = Some r' → p ≠ [] → hidden (lookup_path r p) → hidden (lookup_path r' p).
Proof.
  revert r. induction os as [|o os IH]; intros r; simpl; [by intros [= <-]|].
  intros (r1 & H1 & H2)%bind_Some Hp Hh. eauto using apply_obligation_keeps_hidden.
Qed.

Lemma apply_obligations_app os1 os2 r :
  apply_obligations r (os1 ++ os2) = (r1 ← apply_obligations r os1; apply_obligations r1 os2).
Proof.
  revert r. induction os1 as [|o os1 IH]; intros r; simpl; [done|].
  destruct (apply_obligation r o); simpl; [apply IH|done].
Qed.

Lemma mask_fields_applied r o r' fields path :
  dget "type" o = Some (VStr "mask_fields") →
  py_iter (dget_or "fields" (VList []) o) = Some fields → path ∈ fields →
  apply_obligation r o = Some r' → hidden (lookup_path r' (path_of path)).
Proof.
  intros Hkind Hfields Hin. unfold apply_obligation. rewrite Hkind, Hfields.
  rewrite bool_decide_true by done. simpl. intros [= <-].
  apply list_elem_of_split in Hin as (l1 & l2 & ->).
  rewrite fold_left_app. simpl.
  apply (fold_left_inv (λ d, hidden (lookup_path d (path_of path)))).
  - intros. apply replace_path_keeps_hidden; [apply split_ne_nil|done].
  - apply replace_path_hidden, split_ne_nil.
Qed.

(** Row limits. *)
Definition rows_within (n : nat) (d : dict) : Prop :=
  ∀ rows, dget "rows" d = Some (VList rows) → length rows ≤ n.

Lemma update_path_rows n f q d :
  (∀ v, ∃ s, f v = VStr s) → rows_within n d → rows_within n (update_path f d q).
Proof.
  intros Hf Hn. destruct q as [|part [|part2 q]]; [done| |]; simpl.
  - destruct (dget part d) as [v|] eqn:Hv; [|done]. intros rows.
    destruct (decide (part = "rows")) as [->|]; [|rewrite dget_dset_ne by done; apply Hn].
    rewrite dget_dset_eq. by destruct (Hf v) as [? ->].
  - destruct (dget part d) as [[| | | | |nested]|] eqn:Hv; try done. intros rows.
    destruct (decide (part = "rows")) as [->|]; [by rewrite dget_dset_eq|].
    rewrite dget_dset_ne by done. apply Hn.
Qed.

Lemma mask_annotated_list_length l v :
  _mask_annotated (VList l) = Some v → ∃ l', v = VList l' ∧ length l' = length l.
Proof.
  simpl. intros (l' & Hl & [= <-])%bind_Some. exists l'. split; [done|].
  revert l' Hl. induction l as [|x l IH]; intros l' Hl; [by injection Hl as <-|].
  apply bind_Some in Hl as (x' & _ & (rest & Hrest & [= <-])%bind_Some). simpl. f_equal. auto.
Qed.

Lemma mask_annotated_rows n d d' :
  _mask_annotated (VDict d) = Some (VDict d') → rows_within n d → rows_within n d'.
Proof.
  intros Hm Hn rows Hrows.
  destruct (mask_annotated_dict _ _ Hm) as (keys & ? & _ & [= <-] & _ & Hget).
  specialize (Hget "rows"). destruct (dget "rows" d) as [x|] eqn:Hx; [|congruence].
  case_bool_decide; [unfold stars in *; congruence|]. destruct Hget as (x' & Hx' & Hrows').
  assert (x' = VList rows) as -> by congruence.
  destruct x as [| | | |l|l]; try by injection Hx'.
  - destruct (mask_annotated_list_length _ _ Hx') as (? & [= <-] & ->). by apply Hn.
  - destruct (mask_annotated_dict _ _ Hx') as (? & ? & _ & ? & _). done.
Qed.

Lemma slice_to_length {A} (l : list A) n : length (slice_to l n) ≤ length l.
Proof. unfold slice_to. rewrite length_take. lia. Qed.

Lemma apply_obligation_rows n r o r' :
  apply_obligation r o = Some r' → rows_within n r → rows_within n r'.
Proof.
  unfold apply_obligation. intros Ho Hn.
  repeat case_bool_decide; try by injection Ho as <-.
  - apply bind_Some in Ho as (fields & _ & [= <-]). apply fold_left_inv; [|done].
    intros. apply update_path_rows; [by eexists|done].
  - apply bind_Some in Ho as (fields & _ & [= <-]). apply fold_left_inv; [|done].
    intros. apply update_path_rows; [apply hashed_str|done].
  - destruct (dget "rows" r) as [[| | | |rows|]|] eqn:Hrows; try by injection Ho as <-.
    apply bind_Some in Ho as (m & _ & [= <-]). intros rows'. rewrite dget_dset_eq.
    intros [= <-]. etransitivity; [apply slice_to_length|by apply Hn].
  - apply bind_Some in Ho as (v & Hv & Ho).
    destruct (mask_annotated_dict _ _ Hv) as (? & d' & _ & -> & _). injection Ho as <-.
    by eapply mask_annotated_rows.
Qed.

Lemma apply_obligations_rows n os r r' :
  apply_obligations r os = Some r' → rows_within n r → rows_within n r'.
Proof.
  revert r. induction os as [|o os IH]; intros r; simpl; [by intros [= <-]|].
  intros (r1 & H1 & H2)%bind_Some Hn. eauto using apply_obligation_rows.
Qed.

Lemma limit_applied r o r' n :
  dget "type" o = Some (VStr "limit_result_rows") →
  py_int (dget_or "value" (VInt 500) o) = Some n → (0 ≤ n)%Z →
  apply_obligation r o = Some r' → rows_within (Z.to_nat n) r'.
Proof.
  intros Hkind Hn Hpos. unfold apply_obligation. rewrite Hkind, Hn.
  rewrite !bool_decide_false, bool_decide_true by done.
  destruct (dget "rows" r) as [[| | | |rows|]|] eqn:Hrows; try (intros [= <-] ? ?; congruence).
  simpl. intros [= <-] rows'. rewrite dget_dset_eq. intros [= <-].
  unfold slice_to. rewrite length_take. destruct (Z.ltb_spec n 0); lia.
Qed.

(** ** Properties *)

(** [C38] No field named by a [mask_fields] obligation keeps its value: whatever
    obligations come before and after it, the dotted path leads to nothing, to
    ["***"], or to hashes of ["***"]. *)
Theorem mask_fields_hide payload obligations result o fields path :
  apply_obligations payload obligations = Some result →
  o ∈ obligations →
  dget "type" o = Some (VStr "mask_fields") →
  py_iter (dget_or "fields" (VList []) o) = Some fields →
  path ∈ fields →
  hidden (lookup_path result (path_of path)).
Proof.
  intros Happ (os1 & os2 & ->)%list_elem_of_split Hkind Hfields Hin.
  rewrite apply_obligations_app in Happ. apply bind_Some in Happ as (r1 & _ & Happ).
  simpl in Happ. apply bind_Some in Happ as (r2 & Hr2 & Happ).
  eapply apply_obligations_keep_hidden; [exact Happ|apply split_ne_nil|].
  by eapply mask_fields_applied.
Qed.

Lemma mask_fields_hide_witness :
  ∃ result,
    apply_obligations [("user", VDict [("email", VStr "a@b")])]
      [ [("type", VStr "mask_fields"); ("fields", VList [VStr "user.email"])];
        [("type", VStr "hash_fields"); ("fields", VList [VStr "user.email"])] ] = Some result ∧
    lookup_path result ["user"; "email"] = Some (hashed stars) ∧
    hidden (lookup_path result (path_of (VStr "user.email"))).
Proof.
  eexists. split; [vm_compute; reflexivity|]. split; [vm_compute; reflexivity|].
  eapply (mask_fields_hide [("user", VDict [("email", VStr "a@b")])]
            [ [("type", VStr "mask_fields"); ("fields", VList [VStr "user.email"])];
              [("type", VStr "hash_fields"); ("fields", VList [VStr "user.email"])] ] _
            [("type", VStr "mask_fields"); ("fields", VList [VStr "user.email"])]
            [VStr "user.email"] (VStr "user.email")).
  - vm_compute. reflexivity.
  - left.
  - reflexivity.
  - reflexivity.
  - left.
Defined.

(** A [limit_result_rows] obligation bounds the rows of the final result, for
    every non-negative limit and whatever the other obligations are. *)
Theorem limit_result_rows_bound payload obligations result o n rows :
  apply_obligations payload obligations = Some result →
  o ∈ obligations →
  dget "type" o = Some (VStr "limit_result_rows") →
  py_int (dget_or "value" (VInt 500) o) = Some n → (0 ≤ n)%Z →
  dget "rows" result = Some (VList rows) →
  (Z.of_nat (length rows) ≤ n)%Z.
Proof.
  intros Happ (os1 & os2 & ->)%list_elem_of_split Hkind Hn Hpos Hrows.
  rewrite apply_obligations_app in Happ. apply bind_Some in Happ as (r1 & _ & Happ).
  simpl in Happ. apply bind_Some in Happ as (r2 & Hr2 & Happ).
  assert (rows_within (Z.to_nat n) result) as Hw.
  { eapply apply_obligations_rows; [exact Happ|]. by eapply limit_applied. }
  specialize (Hw _ Hrows). lia.
Qed.

Lemma limit_result_rows_bound_witness : (Z.of_nat (length [VInt 1; VInt 2]) ≤ 2)%Z.
Proof.
  apply (limit_result_rows_bound [("rows", VList [VInt 1; VInt 2; VInt 3])]
           [ [("type", VStr "limit_result_rows"); ("value", VInt 2)] ]
           [("rows", VList [VInt 1; VInt 2])]
           [("type", VStr "limit_result_rows"); ("value", VInt 2)] 2).
  - vm_compute. reflexivity.
  - left.
  - reflexivity.
  - reflexivity.
  - lia.
  - reflexivity.
Defined.

(** After redaction every item under a sensitive key, at any depth, is
    ["[REDACTED]"], and redaction of a document keeps its keys and their order. *)
Theorem redact_hides_sensitive v :
  no_sensitive_item (redact None v) = true ∧
  ∀ d, v = VDict d → ∃ d', redact None v = VDict d' ∧ d'.*1 = d.*1.
Proof. split; [apply redact_nested|]. intros d ->. apply redact_keys. Qed.
