(* ===== verification/Enums.v ===== *)
(** * The enumerations of the domain ([domain/enums.py])

    One module per [StrEnum], with its members under their own names, their
    [value]s, and decidable equality. *)

From S2P Require Import Prelude PyText PyVal.

(** A [StrEnum]: members print as their values, and distinct members have distinct
    values. *)
Class StrEnum (A : Type) := {
  value_of : A → string;
  value_of_inj :: Inj (=) (=) value_of
}.


Module SystemRole.
Inductive SystemRole : Type :=
| ADMIN
| ENGINEER
| ANALYST
| OPERATOR
| SUPPORT
| VIEWER.
Definition value (x : SystemRole) : string :=
  match x with
  | ADMIN => "admin"
  | ENGINEER => "engineer"
  | ANALYST => "analyst"
  | OPERATOR => "operator"
  | SUPPORT => "support"
  | VIEWER => "viewer"
  end.
#[export] Instance eq_dec : EqDecision SystemRole.
Proof. solve_decision. Defined.
#[export] Instance str_enum : StrEnum SystemRole.
Proof. exists value. by intros [] [] [=]. Defined.
End SystemRole.
Export (hints) SystemRole.
Abbreviation SystemRole := SystemRole.SystemRole.

Module Classification.
Inductive Classification : Type :=
| PUBLIC
| INTERNAL
| CONFIDENTIAL
| RESTRICTED.
Definition value (x : Classification) : string :=
  match x with
  | PUBLIC => "PUBLIC"
  | INTERNAL => "INTERNAL"
  | CONFIDENTIAL => "CONFIDENTIAL"
  | RESTRICTED => "RESTRICTED"
  end.
#[export] Instance eq_dec : EqDecision Classification.
Proof. solve_decision. Defined.
#[export] Instance str_enum : StrEnum Classification.
Proof. exists value. by intros [] [] [=]. Defined.
End Classification.
Export (hints) Classification.
Abbreviation Classification := Classification.Classification.

Module ThreadStatus.
Inductive ThreadStatus : Type :=
| ACTIVE
| ARCHIVED.
Definition value (x : ThreadStatus) : string :=
  match x with
  | ACTIVE => "ACTIVE"
  | ARCHIVED => "ARCHIVED"
  end.
#[export] Instance eq_dec : EqDecision ThreadStatus.
Proof. solve_decision. Defined.
#[export] Instance str_enum : StrEnum ThreadStatus.
Proof. exists value. by intros [] [] [=]. Defined.
End ThreadStatus.
Export (hints) ThreadStatus.
Abbreviation ThreadStatus := ThreadStatus.ThreadStatus.

Module RunStatus.
Inductive RunStatus : Type :=
| PENDING
| RUNNING
| WAITING_APPROVAL
| WAITING_USER
| REPLANNING
| COMPLETED
| FAILED
| CANCELLED.
Definition value (x : RunStatus) : string :=
  match x with
  | PENDING => "PENDING"
  | RUNNING => "RUNNING"
  | WAITING_APPROVAL => "WAITING_APPROVAL"
  | WAITING_USER => "WAITING_USER"
  | REPLANNING => "REPLANNING"
  | COMPLETED => "COMPLETED"
  | FAILED => "FAILED"
  | CANCELLED => "CANCELLED"
  end.
#[export] Instance eq_dec : EqDecision RunStatus.
Proof. solve_decision. Defined.
#[export] Instance str_enum : StrEnum RunStatus.
Proof. exists value. by intros [] [] [=]. Defined.
End RunStatus.
Export (hints) RunStatus.
Abbreviation RunStatus := RunStatus.RunStatus.

Module StepStatus.
Inductive StepStatus : Type :=
| PENDING
| RUNNING
| WAITING_APPROVAL
| COMPLETED
| FAILED
| SKIPPED
| CANCELLED.
Definition value (x : StepStatus) : string :=
  match x with
  | PENDING => "PENDING"
  | RUNNING => "RUNNING"
  | WAITING_APPROVAL => "WAITING_APPROVAL"
  | COMPLETED => "COMPLETED"
  | FAILED => "FAILED"
  | SKIPPED => "SKIPPED"
  | CANCELLED => "CANCELLED"
  end.
#[export] Instance eq_dec : EqDecision StepStatus.
Proof. solve_decision. Defined.
#[export] Instance str_enum : StrEnum StepStatus.
Proof. exists value. by intros [] [] [=]. Defined.
End StepStatus.
Export (hints) StepStatus.
Abbreviation StepStatus := StepStatus.StepStatus.

Module StepKind.
Inductive StepKind : Type :=
| OBSERVE
| UNDERSTAND
| PLAN
| MODEL
| CAPABILITY
| VERIFY
| REFLECT
| RESPOND.
Definition value (x : StepKind) : string :=
  match x with
  | OBSERVE => "OBSERVE"
  | UNDERSTAND => "UNDERSTAND"
  | PLAN => "PLAN"
  | MODEL => "MODEL"
  | CAPABILITY => "CAPABILITY"
  | VERIFY => "VERIFY"
  | REFLECT => "REFLECT"
  | RESPOND => "RESPOND"
  end.
#[export] Instance eq_dec : EqDecision StepKind.
Proof. solve_decision. Defined.
#[export] Instance str_enum : StrEnum StepKind.
Proof. exists value. by intros [] [] [=]. Defined.
End StepKind.
Export (hints) StepKind.
Abbreviation StepKind := StepKind.StepKind.

Module RiskLevel.
Inductive RiskLevel : Type :=
| L0
| L1
| L2
| L3
| L4
| L5.
Definition value (x : RiskLevel) : string :=
  match x with
  | L0 => "L0"
  | L1 => "L1"
  | L2 => "L2"
  | L3 => "L3"
  | L4 => "L4"
  | L5 => "L5"
  end.
#[export] Instance eq_dec : EqDecision RiskLevel.
Proof. solve_decision. Defined.
#[export] Instance str_enum : StrEnum RiskLevel.
Proof. exists value. by intros [] [] [=]. Defined.
End RiskLevel.
Export (hints) RiskLevel.
Abbreviation RiskLevel := RiskLevel.RiskLevel.

Module DecisionEffect.
Inductive DecisionEffect : Type :=
| ALLOW
| MASK
| ASK
| DENY.
Definition value (x : DecisionEffect) : string :=
  match x with
  | ALLOW => "ALLOW"
  | MASK => "MASK"
  | ASK => "ASK"
  | DENY => "DENY"
  end.
#[export] Instance eq_dec : EqDecision DecisionEffect.
Proof. solve_decision. Defined.
#[export] Instance str_enum : StrEnum DecisionEffect.
Proof. exists value. by intros [] [] [=]. Defined.
End DecisionEffect.
Export (hints) DecisionEffect.
Abbreviation DecisionEffect := DecisionEffect.DecisionEffect.

Module ApprovalStatus.
Inductive ApprovalStatus : Type :=
| PENDING
| APPROVED
| REJECTED
| EXPIRED
| CANCELLED.
Definition value (x : ApprovalStatus) : string :=
  match x with
  | PENDING => "PENDING"
  | APPROVED => "APPROVED"
  | REJECTED => "REJECTED"
  | EXPIRED => "EXPIRED"
  | CANCELLED => "CANCELLED"
  end.
#[export] Instance eq_dec : EqDecision ApprovalStatus.
Proof. solve_decision. Defined.
#[export] Instance str_enum : StrEnum ApprovalStatus.
Proof. exists value. by intros [] [] [=]. Defined.
End ApprovalStatus.
Export (hints) ApprovalStatus.
Abbreviation ApprovalStatus := ApprovalStatus.ApprovalStatus.

Module SideEffect.
Inductive SideEffect : Type :=
| NONE
| IDEMPOTENT_WRITE
| WRITE
| DESTRUCTIVE.
Definition value (x : SideEffect) : string :=
  match x with
  | NONE => "NONE"
  | IDEMPOTENT_WRITE => "IDEMPOTENT_WRITE"
  | WRITE => "WRITE"
  | DESTRUCTIVE => "DESTRUCTIVE"
  end.
#[export] Instance eq_dec : EqDecision SideEffect.
Proof. solve_decision. Defined.
#[export] Instance str_enum : StrEnum SideEffect.
Proof. exists value. by intros [] [] [=]. Defined.
End SideEffect.
Export (hints) SideEffect.
Abbreviation SideEffect := SideEffect.SideEffect.

Module CapabilityTransport.
Inductive CapabilityTransport : Type :=
| INTERNAL
| HTTP
| GRPC
| MCP
| SDK
| SQL_PROXY
| AGENT
| WORKFLOW.
Definition value (x : CapabilityTransport) : string :=
  match x with
  | INTERNAL => "INTERNAL"
  | HTTP => "HTTP"
  | GRPC => "GRPC"
  | MCP => "MCP"
  | SDK => "SDK"
  | SQL_PROXY => "SQL_PROXY"
  | AGENT => "AGENT"
  | WORKFLOW => "WORKFLOW"
  end.
#[export] Instance eq_dec : EqDecision CapabilityTransport.
Proof. solve_decision. Defined.
#[export] Instance str_enum : StrEnum CapabilityTransport.
Proof. exists value. by intros [] [] [=]. Defined.
End CapabilityTransport.
Export (hints) CapabilityTransport.
Abbreviation CapabilityTransport := CapabilityTransport.CapabilityTransport.

Module ArtifactKind.
Inductive ArtifactKind : Type :=
| TEXT
| TABLE
| CHART
| SQL
| CODE
| DIFF
| REPORT
| DASHBOARD
| FILE
| DIAGRAM.
Definition value (x : ArtifactKind) : string :=
  match x with
  | TEXT => "TEXT"
  | TABLE => "TABLE"
  | CHART => "CHART"
  | SQL => "SQL"
  | CODE => "CODE"
  | DIFF => "DIFF"
  | REPORT => "REPORT"
  | DASHBOARD => "DASHBOARD"
  | FILE => "FILE"
  | DIAGRAM => "DIAGRAM"
  end.
#[export] Instance eq_dec : EqDecision ArtifactKind.
Proof. solve_decision. Defined.
#[export] Instance str_enum : StrEnum ArtifactKind.
Proof. exists value. by intros [] [] [=]. Defined.
End ArtifactKind.
Export (hints) ArtifactKind.
Abbreviation ArtifactKind := ArtifactKind.ArtifactKind.

Module EvidenceType.
Inductive EvidenceType : Type :=
| DOCUMENT
| DATA
| SQL
| METRIC
| LOG
| TRACE
| CODE
| GIT
| DEPLOYMENT
| CONFIG
| TOOL.
Definition value (x : EvidenceType) : string :=
  match x with
  | DOCUMENT => "DOCUMENT"
  | DATA => "DATA"
  | SQL => "SQL"
  | METRIC => "METRIC"
  | LOG => "LOG"
  | TRACE => "TRACE"
  | CODE => "CODE"
  | GIT => "GIT"
  | DEPLOYMENT => "DEPLOYMENT"
  | CONFIG => "CONFIG"
  | TOOL => "TOOL"
  end.
#[export] Instance eq_dec : EqDecision EvidenceType.
Proof. solve_decision. Defined.
#[export] Instance str_enum : StrEnum EvidenceType.
Proof. exists value. by intros [] [] [=]. Defined.
End EvidenceType.
Export (hints) EvidenceType.
Abbreviation EvidenceType := EvidenceType.EvidenceType.

Module Visibility.
Inductive Visibility : Type :=
| PRIVATE
| WORKSPACE
| ORGANIZATION.
Definition value (x : Visibility) : string :=
  match x with
  | PRIVATE => "PRIVATE"
  | WORKSPACE => "WORKSPACE"
  | ORGANIZATION => "ORGANIZATION"
  end.
#[export] Instance eq_dec : EqDecision Visibility.
Proof. solve_decision. Defined.
#[export] Instance str_enum : StrEnum Visibility.
Proof. exists value. by intros [] [] [=]. Defined.
End Visibility.
Export (hints) Visibility.
Abbreviation Visibility := Visibility.Visibility.

Module MemoryScope.
Inductive MemoryScope : Type :=
| TURN
| SESSION
| WORKSPACE
| USER_PREFERENCE.
Definition value (x : MemoryScope) : string :=
  match x with
  | TURN => "TURN"
  | SESSION => "SESSION"
  | WORKSPACE => "WORKSPACE"
  | USER_PREFERENCE => "USER_PREFERENCE"
  end.
#[export] Instance eq_dec : EqDecision MemoryScope.
Proof. solve_decision. Defined.
#[export] Instance str_enum : StrEnum MemoryScope.
Proof. exists value. by intros [] [] [=]. Defined.
End MemoryScope.
Export (hints) MemoryScope.
Abbreviation MemoryScope := MemoryScope.MemoryScope.

Module MemoryStatus.
Inductive MemoryStatus : Type :=
| CANDIDATE
| APPROVED
| REJECTED
| EXPIRED
| REVOKED.
Definition value (x : MemoryStatus) : string :=
  match x with
  | CANDIDATE => "CANDIDATE"
  | APPROVED => "APPROVED"
  | REJECTED => "REJECTED"
  | EXPIRED => "EXPIRED"
  | REVOKED => "REVOKED"
  end.
#[export] Instance eq_dec : EqDecision MemoryStatus.
Proof. solve_decision. Defined.
#[export] Instance str_enum : StrEnum MemoryStatus.
Proof. exists value. by intros [] [] [=]. Defined.
End MemoryStatus.
Export (hints) MemoryStatus.
Abbreviation MemoryStatus := MemoryStatus.MemoryStatus.

Module WorkspaceTaskStatus.
Inductive WorkspaceTaskStatus : Type :=
| OPEN
| IN_PROGRESS
| BLOCKED
| COMPLETED
| CANCELLED.
Definition value (x : WorkspaceTaskStatus) : string :=
  match x with
  | OPEN => "OPEN"
  | IN_PROGRESS => "IN_PROGRESS"
  | BLOCKED => "BLOCKED"
  | COMPLETED => "COMPLETED"
  | CANCELLED => "CANCELLED"
  end.
#[export] Instance eq_dec : EqDecision WorkspaceTaskStatus.
Proof. solve_decision. Defined.
#[export] Instance str_enum : StrEnum WorkspaceTaskStatus.
Proof. exists value. by intros [] [] [=]. Defined.
End WorkspaceTaskStatus.
Export (hints) WorkspaceTaskStatus.
Abbreviation WorkspaceTaskStatus := WorkspaceTaskStatus.WorkspaceTaskStatus.

Module WorkspaceTaskPriority.
Inductive WorkspaceTaskPriority : Type :=
| LOW
| NORMAL
| HIGH
| CRITICAL.
Definition value (x : WorkspaceTaskPriority) : string :=
  match x with
  | LOW => "LOW"
  | NORMAL => "NORMAL"
  | HIGH => "HIGH"
  | CRITICAL => "CRITICAL"
  end.
#[export] Instance eq_dec : EqDecision WorkspaceTaskPriority.
Proof. solve_decision. Defined.
#[export] Instance str_enum : StrEnum WorkspaceTaskPriority.
Proof. exists value. by intros [] [] [=]. Defined.
End WorkspaceTaskPriority.
Export (hints) WorkspaceTaskPriority.
Abbreviation WorkspaceTaskPriority := WorkspaceTaskPriority.WorkspaceTaskPriority.

Module WorkspaceDecisionStatus.
Inductive WorkspaceDecisionStatus : Type :=
| PROPOSED
| ACCEPTED
| REJECTED
| SUPERSEDED.
Definition value (x : WorkspaceDecisionStatus) : string :=
  match x with
  | PROPOSED => "PROPOSED"
  | ACCEPTED => "ACCEPTED"
  | REJECTED => "REJECTED"
  | SUPERSEDED => "SUPERSEDED"
  end.
#[export] Instance eq_dec : EqDecision WorkspaceDecisionStatus.
Proof. solve_decision. Defined.
#[export] Instance str_enum : StrEnum WorkspaceDecisionStatus.
Proof. exists value. by intros [] [] [=]. Defined.
End WorkspaceDecisionStatus.
Export (hints) WorkspaceDecisionStatus.
Abbreviation WorkspaceDecisionStatus := WorkspaceDecisionStatus.WorkspaceDecisionStatus.

Module ConnectorStatus.
Inductive ConnectorStatus : Type :=
| DRAFT
| ACTIVE
| DISABLED
| ERROR.
Definition value (x : ConnectorStatus) : string :=
  match x with
  | DRAFT => "DRAFT"
  | ACTIVE => "ACTIVE"
  | DISABLED => "DISABLED"
  | ERROR => "ERROR"
  end.
#[export] Instance eq_dec : EqDecision ConnectorStatus.
Proof. solve_decision. Defined.
#[export] Instance str_enum : StrEnum ConnectorStatus.
Proof. exists value. by intros [] [] [=]. Defined.
End ConnectorStatus.
Export (hints) ConnectorStatus.
Abbreviation ConnectorStatus := ConnectorStatus.ConnectorStatus.

Module RegistryStatus.
Inductive RegistryStatus : Type :=
| DRAFT
| ACTIVE
| RETIRED.
Definition value (x : RegistryStatus) : string :=
  match x with
  | DRAFT => "DRAFT"
  | ACTIVE => "ACTIVE"
  | RETIRED => "RETIRED"
  end.
#[export] Instance eq_dec : EqDecision RegistryStatus.
Proof. solve_decision. Defined.
#[export] Instance str_enum : StrEnum RegistryStatus.
Proof. exists value. by intros [] [] [=]. Defined.
End RegistryStatus.
Export (hints) RegistryStatus.
Abbreviation RegistryStatus := RegistryStatus.RegistryStatus.

Module ActorType.
Inductive ActorType : Type :=
| USER
| SERVICE
| AGENT
| SYSTEM.
Definition value (x : ActorType) : string :=
  match x with
  | USER => "USER"
  | SERVICE => "SERVICE"
  | AGENT => "AGENT"
  | SYSTEM => "SYSTEM"
  end.
#[export] Instance eq_dec : EqDecision ActorType.
Proof. solve_decision. Defined.
#[export] Instance str_enum : StrEnum ActorType.
Proof. exists value. by intros [] [] [=]. Defined.
End ActorType.
Export (hints) ActorType.
Abbreviation ActorType := ActorType.ActorType.

Module WorkflowStatus.
Inductive WorkflowStatus : Type :=
| DRAFT
| ACTIVE
| PAUSED
| RETIRED.
Definition value (x : WorkflowStatus) : string :=
  match x with
  | DRAFT => "DRAFT"
  | ACTIVE => "ACTIVE"
  | PAUSED => "PAUSED"
  | RETIRED => "RETIRED"
  end.
#[export] Instance eq_dec : EqDecision WorkflowStatus.
Proof. solve_decision. Defined.
#[export] Instance str_enum : StrEnum WorkflowStatus.
Proof. exists value. by intros [] [] [=]. Defined.
End WorkflowStatus.
Export (hints) WorkflowStatus.
Abbreviation WorkflowStatus := WorkflowStatus.WorkflowStatus.

Module WorkflowConcurrencyPolicy.
Inductive WorkflowConcurrencyPolicy : Type :=
| FORBID
| ALLOW
| REPLACE.
Definition value (x : WorkflowConcurrencyPolicy) : string :=
  match x with
  | FORBID => "FORBID"
  | ALLOW => "ALLOW"
  | REPLACE => "REPLACE"
  end.
#[export] Instance eq_dec : EqDecision WorkflowConcurrencyPolicy.
Proof. solve_decision. Defined.
#[export] Instance str_enum : StrEnum WorkflowConcurrencyPolicy.
Proof. exists value. by intros [] [] [=]. Defined.
End WorkflowConcurrencyPolicy.
Export (hints) WorkflowConcurrencyPolicy.
Abbreviation WorkflowConcurrencyPolicy := WorkflowConcurrencyPolicy.WorkflowConcurrencyPolicy.

Module WorkflowStepType.
Inductive WorkflowStepType : Type :=
| ANALYSIS
| HUMAN_REVIEW
| NOTIFICATION.
Definition value (x : WorkflowStepType) : string :=
  match x with
  | ANALYSIS => "ANALYSIS"
  | HUMAN_REVIEW => "HUMAN_REVIEW"
  | NOTIFICATION => "NOTIFICATION"
  end.
#[export] Instance eq_dec : EqDecision WorkflowStepType.
Proof. solve_decision. Defined.
#[export] Instance str_enum : StrEnum WorkflowStepType.
Proof. exists value. by intros [] [] [=]. Defined.
End WorkflowStepType.
Export (hints) WorkflowStepType.
Abbreviation WorkflowStepType := WorkflowStepType.WorkflowStepType.

Module AutomationTrigger.
Inductive AutomationTrigger : Type :=
| MANUAL
| SCHEDULE
| CAPABILITY.
Definition value (x : AutomationTrigger) : string :=
  match x with
  | MANUAL => "MANUAL"
  | SCHEDULE => "SCHEDULE"
  | CAPABILITY => "CAPABILITY"
  end.
#[export] Instance eq_dec : EqDecision AutomationTrigger.
Proof. solve_decision. Defined.
#[export] Instance str_enum : StrEnum AutomationTrigger.
Proof. exists value. by intros [] [] [=]. Defined.
End AutomationTrigger.
Export (hints) AutomationTrigger.
Abbreviation AutomationTrigger := AutomationTrigger.AutomationTrigger.

Module AutomationStatus.
Inductive AutomationStatus : Type :=
| PENDING
| RUNNING
| WAITING_REVIEW
| COMPLETED
| FAILED
| CANCELLED
| SKIPPED.
Definition value (x : AutomationStatus) : string :=
  match x with
  | PENDING => "PENDING"
  | RUNNING => "RUNNING"
  | WAITING_REVIEW => "WAITING_REVIEW"
  | COMPLETED => "COMPLETED"
  | FAILED => "FAILED"
  | CANCELLED => "CANCELLED"
  | SKIPPED => "SKIPPED"
  end.
#[export] Instance eq_dec : EqDecision AutomationStatus.
Proof. solve_decision. Defined.
#[export] Instance str_enum : StrEnum AutomationStatus.
Proof. exists value. by intros [] [] [=]. Defined.
End AutomationStatus.
Export (hints) AutomationStatus.
Abbreviation AutomationStatus := AutomationStatus.AutomationStatus.

Module AutomationStepStatus.
Inductive AutomationStepStatus : Type :=
| PENDING
| RUNNING
| WAITING_REVIEW
| COMPLETED
| FAILED
| CANCELLED
| SKIPPED.
Definition value (x : AutomationStepStatus) : string :=
  match x with
  | PENDING => "PENDING"
  | RUNNING => "RUNNING"
  | WAITING_REVIEW => "WAITING_REVIEW"
  | COMPLETED => "COMPLETED"
  | FAILED => "FAILED"
  | CANCELLED => "CANCELLED"
  | SKIPPED => "SKIPPED"
  end.
#[export] Instance eq_dec : EqDecision AutomationStepStatus.
Proof. solve_decision. Defined.
#[export] Instance str_enum : StrEnum AutomationStepStatus.
Proof. exists value. by intros [] [] [=]. Defined.
End AutomationStepStatus.
Export (hints) AutomationStepStatus.
Abbreviation AutomationStepStatus := AutomationStepStatus.AutomationStepStatus.

Module ScheduleMisfirePolicy.
Inductive ScheduleMisfirePolicy : Type :=
| SKIP
| FIRE_ONCE.
Definition value (x : ScheduleMisfirePolicy) : string :=
  match x with
  | SKIP => "SKIP"
  | FIRE_ONCE => "FIRE_ONCE"
  end.
#[export] Instance eq_dec : EqDecision ScheduleMisfirePolicy.
Proof. solve_decision. Defined.
#[export] Instance str_enum : StrEnum ScheduleMisfirePolicy.
Proof. exists value. by intros [] [] [=]. Defined.
End ScheduleMisfirePolicy.
Export (hints) ScheduleMisfirePolicy.
Abbreviation ScheduleMisfirePolicy := ScheduleMisfirePolicy.ScheduleMisfirePolicy.

Module ReviewDecision.
Inductive ReviewDecision : Type :=
| APPROVE
| REJECT.
Definition value (x : ReviewDecision) : string :=
  match x with
  | APPROVE => "APPROVE"
  | REJECT => "REJECT"
  end.
#[export] Instance eq_dec : EqDecision ReviewDecision.
Proof. solve_decision. Defined.
#[export] Instance str_enum : StrEnum ReviewDecision.
Proof. exists value. by intros [] [] [=]. Defined.
End ReviewDecision.
Export (hints) ReviewDecision.
Abbreviation ReviewDecision := ReviewDecision.ReviewDecision.

Module NotificationStatus.
Inductive NotificationStatus : Type :=
| DELIVERED
| READ.
Definition value (x : NotificationStatus) : string :=
  match x with
  | DELIVERED => "DELIVERED"
  | READ => "READ"
  end.
#[export] Instance eq_dec : EqDecision NotificationStatus.
Proof. solve_decision. Defined.
#[export] Instance str_enum : StrEnum NotificationStatus.
Proof. exists value. by intros [] [] [=]. Defined.
End NotificationStatus.
Export (hints) NotificationStatus.
Abbreviation NotificationStatus := NotificationStatus.NotificationStatus.

Module DingTalkOutboxStatus.
Inductive DingTalkOutboxStatus : Type :=
| BLOCKED
| QUEUED
| DISPATCHING
| ACCEPTED
| REJECTED
| UNKNOWN.
Definition value (x : DingTalkOutboxStatus) : string :=
  match x with
  | BLOCKED => "BLOCKED"
  | QUEUED => "QUEUED"
  | DISPATCHING => "DISPATCHING"
  | ACCEPTED => "ACCEPTED"
  | REJECTED => "REJECTED"
  | UNKNOWN => "UNKNOWN"
  end.
#[export] Instance eq_dec : EqDecision DingTalkOutboxStatus.
Proof. solve_decision. Defined.
#[export] Instance str_enum : StrEnum DingTalkOutboxStatus.
Proof. exists value. by intros [] [] [=]. Defined.
End DingTalkOutboxStatus.
Export (hints) DingTalkOutboxStatus.
Abbreviation DingTalkOutboxStatus := DingTalkOutboxStatus.DingTalkOutboxStatus.

Module ActionType.
Inductive ActionType : Type :=
| GENERATE_PR
| CREATE_TICKET
| MODIFY_CONFIG
| RESTART_SERVICE
| DEPLOY.
Definition value (x : ActionType) : string :=
  match x with
  | GENERATE_PR => "GENERATE_PR"
  | CREATE_TICKET => "CREATE_TICKET"
  | MODIFY_CONFIG => "MODIFY_CONFIG"
  | RESTART_SERVICE => "RESTART_SERVICE"
  | DEPLOY => "DEPLOY"
  end.
#[export] Instance eq_dec : EqDecision ActionType.
Proof. solve_decision. Defined.
#[export] Instance str_enum : StrEnum ActionType.
Proof. exists value. by intros [] [] [=]. Defined.
End ActionType.
Export (hints) ActionType.
Abbreviation ActionType := ActionType.ActionType.

Module ActionStatus.
Inductive ActionStatus : Type :=
| DRAFT
| PREFLIGHT_FAILED
| WAITING_APPROVAL
| APPROVED
| EXECUTING
| COMPLETED
| FAILED
| WAITING_ROLLBACK_APPROVAL
| ROLLBACK_APPROVED
| ROLLING_BACK
| ROLLED_BACK
| ROLLBACK_FAILED
| ROLLBACK_REJECTED
| REJECTED
| EXPIRED
| CANCELLED.
Definition value (x : ActionStatus) : string :=
  match x with
  | DRAFT => "DRAFT"
  | PREFLIGHT_FAILED => "PREFLIGHT_FAILED"
  | WAITING_APPROVAL => "WAITING_APPROVAL"
  | APPROVED => "APPROVED"
  | EXECUTING => "EXECUTING"
  | COMPLETED => "COMPLETED"
  | FAILED => "FAILED"
  | WAITING_ROLLBACK_APPROVAL => "WAITING_ROLLBACK_APPROVAL"
  | ROLLBACK_APPROVED => "ROLLBACK_APPROVED"
  | ROLLING_BACK => "ROLLING_BACK"
  | ROLLED_BACK => "ROLLED_BACK"
  | ROLLBACK_FAILED => "ROLLBACK_FAILED"
  | ROLLBACK_REJECTED => "ROLLBACK_REJECTED"
  | REJECTED => "REJECTED"
  | EXPIRED => "EXPIRED"
  | CANCELLED => "CANCELLED"
  end.
#[export] Instance eq_dec : EqDecision ActionStatus.
Proof. solve_decision. Defined.
#[export] Instance str_enum : StrEnum ActionStatus.
Proof. exists value. by intros [] [] [=]. Defined.
End ActionStatus.
Export (hints) ActionStatus.
Abbreviation ActionStatus := ActionStatus.ActionStatus.

Module ActionApprovalPurpose.
Inductive ActionApprovalPurpose : Type :=
| EXECUTE
| ROLLBACK.
Definition value (x : ActionApprovalPurpose) : string :=
  match x with
  | EXECUTE => "EXECUTE"
  | ROLLBACK => "ROLLBACK"
  end.
#[export] Instance eq_dec : EqDecision ActionApprovalPurpose.
Proof. solve_decision. Defined.
#[export] Instance str_enum : StrEnum ActionApprovalPurpose.
Proof. exists value. by intros [] [] [=]. Defined.
End ActionApprovalPurpose.
Export (hints) ActionApprovalPurpose.
Abbreviation ActionApprovalPurpose := ActionApprovalPurpose.ActionApprovalPurpose.

Module ActionAttemptStatus.
Inductive ActionAttemptStatus : Type :=
| PENDING
| RUNNING
| COMPLETED
| FAILED.
Definition value (x : ActionAttemptStatus) : string :=
  match x with
  | PENDING => "PENDING"
  | RUNNING => "RUNNING"
  | COMPLETED => "COMPLETED"
  | FAILED => "FAILED"
  end.
#[export] Instance eq_dec : EqDecision ActionAttemptStatus.
Proof. solve_decision. Defined.
#[export] Instance str_enum : StrEnum ActionAttemptStatus.
Proof. exists value. by intros [] [] [=]. Defined.
End ActionAttemptStatus.
Export (hints) ActionAttemptStatus.
Abbreviation ActionAttemptStatus := ActionAttemptStatus.ActionAttemptStatus.

(** [RiskLevel.ordinal] *)
Definition ordinal (r : RiskLevel) : nat :=
  match r with
  | RiskLevel.L0 => 0 | RiskLevel.L1 => 1 | RiskLevel.L2 => 2
  | RiskLevel.L3 => 3 | RiskLevel.L4 => 4 | RiskLevel.L5 => 5
  end.

(** [RiskLevel(s)]; [None] is the [ValueError]. *)
Definition parse_risk (s : string) : option RiskLevel :=
  find (λ r, bool_decide (RiskLevel.value r = s))
    [RiskLevel.L0; RiskLevel.L1; RiskLevel.L2; RiskLevel.L3; RiskLevel.L4; RiskLevel.L5].

Lemma parse_risk_value r : parse_risk (RiskLevel.value r) = Some r.
Proof. by destruct r. Qed.

(** ** Exceptions ([common/errors.py], [common/error_mapping.py])

    The exceptions services raise.  [ObsionError] carries a code of the error
    catalogue, the HTTP status that goes with it and the details shown to the
    client; every other Python exception is [PyError] with its class name. *)

Inductive exn : Type :=
| ObsionError (code message : string) (status_code : Z) (details : dict)
| PyError (class : string).

Abbreviation Py := (M exn).

Definition NotFoundError (resource resource_id : string) : exn :=
  ObsionError "resource_not_found" (resource +:+ " was not found") 404
    [("resource", VStr resource); ("id", VStr resource_id)].

Definition ConflictError (code message : string) (details : dict) : exn :=
  ObsionError code message 409 details.

Definition AuthorizationError (code message : string) (details : dict) : exn :=
  ObsionError code message 403 details.

Definition ValidationError (code message : string) (details : dict) : exn :=
  ObsionError code message 422 details.

Definition BudgetExceededError (budget limit : string) : exn :=
  ObsionError "budget_exceeded" "The governed run budget does not permit this operation" 429
    [("budget", VStr budget); ("limit", VStr limit)].

(** [ObsionError.__post_init__]: the code must be in the catalogue, and the status
    must be the one the catalogue prescribes, if any.  The catalogue is data the
    process loads: a code's entry is its prescribed status. *)
Definition post_init (catalog : string → option (option Z)) (e : exn) : exn :=
  match e with
  | ObsionError code _ status_code _ =>
      match catalog code with
      | None => PyError "ErrorContractDefinitionError"
      | Some (Some http_status) =>
          if (http_status =? status_code)%Z then e else PyError "ValueError"
      | Some None => e
      end
  | PyError _ => e
  end.

Definition error_code_of (e : exn) : option string :=
  match e with ObsionError code _ _ _ => Some code | PyError _ => None end.

Definition status_of (e : exn) : option Z :=
  match e with ObsionError _ _ s _ => Some s | PyError _ => None end.

(** [isinstance(e, AuthorizationError)] and the like, told apart by the status the
    classes fix. *)
Definition is_authorization (e : exn) : bool := bool_decide (status_of e = Some 403%Z).
Definition is_not_found (e : exn) : bool := bool_decide (error_code_of e = Some "resource_not_found").

(** [common/error_mapping.py] *)
Definition application_error_code (status_code : Z) : Z :=
  (if (status_code =? 401) || (status_code =? 403) then -32003
   else if status_code =? 404 then -32004
   else if status_code =? 409 then -32009
   else if status_code =? 422 then -32022
   else if status_code =? 429 then -32029
   else if 500 <=? status_code then -32050
   else -32000)%Z.
