(* ===== verification/Models.v ===== *)
(** * Rows of the database ([db/models.py], [db/im_models.py])

    One record per table the development reads or writes, with the columns the
    modelled code uses under their own names; a nullable column is an [option], a
    JSON column a [val] or a [dict], a timestamp the number of microseconds since
    the epoch.  Each record lives in a module of its name, so that a column reads
    [Run.status r]. *)

From S2P Require Import Prelude PyText PyVal Enums.

Open Scope string_scope.

Module User.
(** A provisioned member of an organization. *)
Record User : Type := Make {
  id : uuid;
  organization_id : uuid;
  external_id : string;
  display_name : string;
  department_id : option uuid;
  active : bool;
  attributes : dict
}.
End User.
Abbreviation User := User.User.

Module Department.
Record Department : Type := Make {
  id : uuid;
  organization_id : uuid;
  name : string
}.
End Department.
Abbreviation Department := Department.Department.

Module Role.
(** A named set of permissions; [permissions] is a JSON list. *)
Record Role : Type := Make {
  id : uuid;
  organization_id : uuid;
  name : string;
  permissions : list val
}.
End Role.
Abbreviation Role := Role.Role.

Module UserRole.
Record UserRole : Type := Make {
  organization_id : uuid;
  user_id : uuid;
  role_id : uuid
}.
End UserRole.
Abbreviation UserRole := UserRole.UserRole.

Module Workspace.
Record Workspace : Type := Make {
  id : uuid;
  organization_id : uuid;
  owner_id : uuid;
  classification : Classification;
  visibility : Visibility;
  archived_at : option Z;
  name : string;
  description : string;
  created_at : Z;
  updated_at : Z
}.
End Workspace.
Abbreviation Workspace := Workspace.Workspace.

Module WorkspaceMember.
Record WorkspaceMember : Type := Make {
  workspace_id : uuid;
  user_id : uuid;
  organization_id : uuid;
  can_write : bool;
  permissions : list string;
  created_by : uuid;
  created_at : Z
}.
End WorkspaceMember.
Abbreviation WorkspaceMember := WorkspaceMember.WorkspaceMember.

Module Thread.
Record Thread : Type := Make {
  id : uuid;
  organization_id : uuid;
  workspace_id : uuid;
  status : ThreadStatus;
  created_by : uuid;
  title : string;
  parent_thread_id : option uuid;
  forked_from_turn_id : option uuid;
  archived_at : option Z;
  created_at : Z;
  updated_at : Z
}.
End Thread.
Abbreviation Thread := Thread.Thread.

Module Turn.
Record Turn : Type := Make {
  id : uuid;
  organization_id : uuid;
  thread_id : uuid;
  ordinal : Z;
  created_by : uuid;
  input_text : string;
  sanitized_input : string;
  context_refs : list dict;
  attachment_refs : list dict;
  created_at : Z
}.
End Turn.
Abbreviation Turn := Turn.Turn.

Module Run.
(** [max_cost_amount] counts units of 10^-8, its scale in the table. *)
Record Run : Type := Make {
  id : uuid;
  organization_id : uuid;
  turn_id : uuid;
  status : RunStatus;
  agent_version_id : option uuid;
  workspace_context : dict;
  plan : dict;
  started_at : option Z;
  completed_at : option Z;
  deadline_at : option Z;
  cancellation_requested_at : option Z;
  lease_owner : option string;
  lease_expires_at : option Z;
  error_code : option string;
  error_message : option string;
  aggregate_version : Z;
  model_profile_id : option uuid;
  prompt_pins : list dict;
  context_budget : dict;
  conversation_compact : dict;
  max_steps : Z;
  timeout_seconds : Z;
  max_input_tokens : Z;
  max_output_tokens : Z;
  max_cost_amount : Z;
  replay_of_run_id : option uuid;
  created_at : Z;
  intent : dict;
  waiting_user_expires_at : option Z
}.
End Run.
Abbreviation Run := Run.Run.

Module Event.
Record Event : Type := Make {
  id : uuid;
  organization_id : uuid;
  aggregate_type : string;
  aggregate_id : uuid;
  sequence : Z;
  name : string;
  run_id : option uuid;
  run_sequence : option Z;
  causation_id : option uuid;
  correlation_id : uuid;
  actor_type : ActorType;
  actor_id : option uuid;
  schema_version : Z;
  classification : Classification;
  payload : dict;
  created_at : Z
}.
End Event.
Abbreviation Event := Event.Event.

Module AggregateHead.
Record AggregateHead : Type := Make {
  organization_id : uuid;
  aggregate_type : string;
  aggregate_id : uuid;
  sequence : Z;
  updated_at : Z
}.
End AggregateHead.
Abbreviation AggregateHead := AggregateHead.AggregateHead.

Module OutboxMessage.
Record OutboxMessage : Type := Make {
  id : uuid;
  event_id : uuid;
  topic : string;
  payload : dict;
  created_at : Z;
  published_at : option Z;
  attempt_count : Z
}.
End OutboxMessage.
Abbreviation OutboxMessage := OutboxMessage.OutboxMessage.

Module Policy.
Record Policy : Type := Make {
  id : uuid;
  organization_id : uuid;
  name : string;
  version : Z;
  priority : Z;
  effect : DecisionEffect;
  enabled : bool;
  conditions : val;
  obligations : list val;
  created_at : Z
}.
End Policy.
Abbreviation Policy := Policy.Policy.

Module PolicyDecision.
Record PolicyDecision : Type := Make {
  id : uuid;
  organization_id : uuid;
  run_id : option uuid;
  principal_id : uuid;
  agent_version_id : option uuid;
  capability_version_id : option uuid;
  action : string;
  resource : val;
  context : val;
  risk_level : RiskLevel;
  effect : DecisionEffect;
  matched_policy_ids : list string;
  obligations : list val;
  reason_codes : list string;
  input_fingerprint : string;
  created_at : Z
}.
End PolicyDecision.
Abbreviation PolicyDecision := PolicyDecision.PolicyDecision.

Module Approval.
Record Approval : Type := Make {
  id : uuid;
  organization_id : uuid;
  run_id : uuid;
  step_id : option uuid;
  policy_decision_id : uuid;
  status : ApprovalStatus;
  reason : string;
  requested_by : uuid;
  approver_constraints : dict;
  decided_by : option uuid;
  decision_reason : option string;
  expires_at : Z;
  decided_at : option Z;
  created_at : Z
}.
End Approval.
Abbreviation Approval := Approval.Approval.

Module AuditRecord.
Record AuditRecord : Type := Make {
  id : uuid;
  organization_id : uuid;
  correlation_id : uuid;
  actor_type : ActorType;
  actor_id : option uuid;
  action : string;
  resource_type : string;
  resource_id : option string;
  outcome : string;
  risk_level : option RiskLevel;
  policy_decision_id : option uuid;
  approval_id : option uuid;
  redacted_metadata : val;
  latency_ms : option Z;
  created_at : Z
}.
End AuditRecord.
Abbreviation AuditRecord := AuditRecord.AuditRecord.

Module CapabilityDefinition.
Record CapabilityDefinition : Type := Make {
  id : uuid;
  organization_id : uuid;
  name : string;
  status : RegistryStatus
}.
End CapabilityDefinition.
Abbreviation CapabilityDefinition := CapabilityDefinition.CapabilityDefinition.

Module CapabilityVersion.
Record CapabilityVersion : Type := Make {
  id : uuid;
  organization_id : uuid;
  capability_id : uuid;
  version : Z;
  transport : CapabilityTransport;
  risk_level : RiskLevel;
  side_effect : SideEffect;
  permission_action : string;
  input_schema : dict;
  output_schema : dict;
  timeout_seconds : Z;
  data_classification : Classification;
  checksum_sha256 : string
}.
End CapabilityVersion.
Abbreviation CapabilityVersion := CapabilityVersion.CapabilityVersion.

Module CapabilityBinding.
Record CapabilityBinding : Type := Make {
  id : uuid;
  organization_id : uuid;
  capability_version_id : uuid;
  connector_id : uuid;
  environment : string;
  resource_selector : dict;
  enabled : bool
}.
End CapabilityBinding.
Abbreviation CapabilityBinding := CapabilityBinding.CapabilityBinding.

Module Connector.
Record Connector : Type := Make {
  id : uuid;
  organization_id : uuid;
  name : string;
  status : ConnectorStatus;
  environment : string;
  endpoint : option string;
  configuration : dict;
  credential_ref : option string;
  declared_grants : list val;
  allowed_egress : list val;
  connector_type : string
}.
End Connector.
Abbreviation Connector := Connector.Connector.

Module ActionRequest.
Record ActionRequest : Type := Make {
  id : uuid;
  organization_id : uuid;
  workspace_id : uuid;
  action_type : ActionType;
  title : string;
  description : string;
  environment : string;
  target : dict;
  parameters : dict;
  rollback_parameters : dict;
  status : ActionStatus;
  owner_id : uuid;
  requested_by : uuid;
  idempotency_key : string;
  timeout_seconds : Z;
  deadline_at : option Z;
  plan_checksum_sha256 : option string;
  preflight : dict;
  result : dict;
  started_at : option Z;
  completed_at : option Z;
  cancellation_requested_at : option Z;
  lease_owner : option string;
  lease_expires_at : option Z;
  error_code : option string;
  error_message : option string;
  created_at : Z
}.
End ActionRequest.
Abbreviation ActionRequest := ActionRequest.ActionRequest.

Module ActionPlan.
Record ActionPlan : Type := Make {
  id : uuid;
  organization_id : uuid;
  action_request_id : uuid;
  spec : dict;
  checksum_sha256 : string;
  created_by : uuid;
  created_at : Z
}.
End ActionPlan.
Abbreviation ActionPlan := ActionPlan.ActionPlan.

Module ActionApproval.
Record ActionApproval : Type := Make {
  id : uuid;
  organization_id : uuid;
  action_request_id : uuid;
  purpose : ActionApprovalPurpose;
  revision : Z;
  plan_checksum_sha256 : string;
  status : ApprovalStatus;
  reason : string;
  requested_by : uuid;
  approver_constraints : dict;
  decided_by : option uuid;
  decision_reason : option string;
  expires_at : Z;
  decided_at : option Z;
  created_at : Z
}.
End ActionApproval.
Abbreviation ActionApproval := ActionApproval.ActionApproval.

Module ActionAttempt.
Record ActionAttempt : Type := Make {
  id : uuid;
  organization_id : uuid;
  action_request_id : uuid;
  purpose : ActionApprovalPurpose;
  ordinal : Z;
  status : ActionAttemptStatus;
  capability_version_id : uuid;
  connector_id : uuid;
  approval_id : uuid;
  policy_decision_id : option uuid;
  idempotency_key : string;
  input_payload : dict;
  output : dict;
  started_at : option Z;
  completed_at : option Z;
  error_code : option string;
  error_message : option string
}.
End ActionAttempt.
Abbreviation ActionAttempt := ActionAttempt.ActionAttempt.

Module NotificationDelivery.
Record NotificationDelivery : Type := Make {
  id : uuid;
  organization_id : uuid;
  workspace_id : uuid;
  execution_id : option uuid;
  action_request_id : option uuid;
  step_execution_id : option uuid;
  recipient_id : uuid;
  title : string;
  body : string;
  payload : dict;
  status : NotificationStatus;
  idempotency_key : string;
  delivered_at : Z;
  read_at : option Z;
  created_at : Z
}.
End NotificationDelivery.
Abbreviation NotificationDelivery := NotificationDelivery.NotificationDelivery.

Module WorkspaceTask.
Record WorkspaceTask : Type := Make {
  id : uuid;
  organization_id : uuid;
  workspace_id : uuid;
  title : string;
  description : string;
  status : WorkspaceTaskStatus;
  priority : WorkspaceTaskPriority;
  assignee_id : option uuid;
  created_by : uuid;
  source_run_id : option uuid;
  due_at : option Z;
  completed_at : option Z;
  version : Z;
  created_at : Z;
  updated_at : Z
}.
End WorkspaceTask.
Abbreviation WorkspaceTask := WorkspaceTask.WorkspaceTask.

Module WorkspaceDecision.
Record WorkspaceDecision : Type := Make {
  id : uuid;
  organization_id : uuid;
  workspace_id : uuid;
  status : WorkspaceDecisionStatus;
  current_version : Z;
  created_by : uuid;
  decided_by : option uuid;
  source_run_id : option uuid;
  supersedes_decision_id : option uuid;
  decided_at : option Z;
  created_at : Z;
  updated_at : Z
}.
End WorkspaceDecision.
Abbreviation WorkspaceDecision := WorkspaceDecision.WorkspaceDecision.

Module WorkspaceDecisionVersion.
Record WorkspaceDecisionVersion : Type := Make {
  id : uuid;
  organization_id : uuid;
  decision_id : uuid;
  version : Z;
  title : string;
  summary : string;
  rationale : string;
  alternatives : list string;
  created_by : uuid;
  checksum_sha256 : string;
  created_at : Z
}.
End WorkspaceDecisionVersion.
Abbreviation WorkspaceDecisionVersion := WorkspaceDecisionVersion.WorkspaceDecisionVersion.

Module ImInstallation.
Record ImInstallation : Type := Make {
  id : uuid;
  organization_id : uuid;
  provider : option string;
  external_corp_id : option string;
  external_app_id : option string;
  connector_id : option uuid;
  status : option string
}.
End ImInstallation.
Abbreviation ImInstallation := ImInstallation.ImInstallation.

Module ImInstallationBinding.
Record ImInstallationBinding : Type := Make {
  id : uuid;
  organization_id : uuid;
  installation_id : uuid;
  sender_id : string;
  user_id : uuid;
  active : bool
}.
End ImInstallationBinding.
Abbreviation ImInstallationBinding := ImInstallationBinding.ImInstallationBinding.

Module ImGroupAudience.
(** [member_user_ids] is a JSON list. *)
Record ImGroupAudience : Type := Make {
  id : uuid;
  organization_id : uuid;
  installation_id : uuid;
  conversation_id : string;
  workspace_id : uuid;
  member_user_ids : list val;
  member_fingerprint : string;
  max_classification : string;
  allow_final_answer : bool;
  allow_status : bool;
  status : string;
  verified_until : Z
}.
End ImGroupAudience.
Abbreviation ImGroupAudience := ImGroupAudience.ImGroupAudience.

Module ImInboxMessage.
Record ImInboxMessage : Type := Make {
  id : uuid;
  organization_id : uuid;
  installation_id : uuid;
  vendor_event_id : string;
  fingerprint : string;
  binding_id : uuid;
  subject_user_id : uuid;
  sender_id : string;
  conversation_id : string;
  conversation_type : string;
  text : string;
  status : string;
  turn_id : option uuid;
  run_id : option uuid;
  processed_at : option Z;
  created_at : Z
}.
End ImInboxMessage.
Abbreviation ImInboxMessage := ImInboxMessage.ImInboxMessage.

Module Artifact.
(** [inline_content] is a JSON value or null. *)
Record Artifact : Type := Make {
  id : uuid;
  organization_id : uuid;
  workspace_id : uuid;
  run_id : option uuid;
  kind : ArtifactKind;
  title : string;
  media_type : string;
  inline_content : val;
  classification : Classification;
  created_at : Z
}.
End Artifact.
Abbreviation Artifact := Artifact.Artifact.

Module DingTalkRobotOutbox.
Record DingTalkRobotOutbox : Type := Make {
  id : uuid;
  organization_id : uuid;
  installation_id : uuid;
  inbox_message_id : uuid;
  binding_id : uuid;
  run_id : uuid;
  recipient_user_id : uuid;
  recipient_sender_id : string;
  conversation_type : string;
  recipient_conversation_id : option string;
  audience_id : option uuid;
  audience_member_fingerprint : option string;
  delivery_mode : string;
  answer_classification : option string;
  connector_id : uuid;
  capability_version_id : option uuid;
  connector_fingerprint : string;
  content_fingerprint : string;
  status : DingTalkOutboxStatus;
  attempt_count : Z;
  fencing_token : Z;
  next_attempt_at : option Z;
  lease_expires_at : option Z;
  accepted_process_query_key : option string;
  vendor_send_status : option string;
  vendor_read_status : option string;
  vendor_read_at : option Z;
  last_reconciled_at : option Z;
  reconciliation_attempt_count : Z;
  policy_decision_id : option uuid;
  blocked_reason : option string;
  last_error_code : option string;
  created_at : Z;
  updated_at : Z
}.
End DingTalkRobotOutbox.
Abbreviation DingTalkRobotOutbox := DingTalkRobotOutbox.DingTalkRobotOutbox.

Module WorkflowDefinition.
Record WorkflowDefinition : Type := Make {
  id : uuid;
  organization_id : uuid;
  workspace_id : uuid;
  name : string;
  display_name : string;
  description : string;
  status : WorkflowStatus;
  owner_id : uuid;
  active_version : option Z;
  concurrency_policy : WorkflowConcurrencyPolicy;
  max_concurrency : Z;
  timeout_seconds : Z;
  notify_on_success : bool;
  notify_on_failure : bool;
  classification : Classification;
  created_at : Z;
  updated_at : Z
}.
End WorkflowDefinition.
Abbreviation WorkflowDefinition := WorkflowDefinition.WorkflowDefinition.

Module WorkflowVersion.
Record WorkflowVersion : Type := Make {
  id : uuid;
  organization_id : uuid;
  workflow_id : uuid;
  version : Z;
  spec : dict;
  checksum_sha256 : string;
  created_by : uuid;
  created_at : Z;
  published_at : option Z
}.
End WorkflowVersion.
Abbreviation WorkflowVersion := WorkflowVersion.WorkflowVersion.

Module WorkflowSchedule.
Record WorkflowSchedule : Type := Make {
  id : uuid;
  organization_id : uuid;
  workspace_id : uuid;
  workflow_id : uuid;
  workflow_version_id : uuid;
  name : string;
  cron_expression : string;
  timezone : string;
  misfire_policy : ScheduleMisfirePolicy;
  misfire_grace_seconds : Z;
  input_payload : dict;
  owner_id : uuid;
  enabled : bool;
  next_fire_at : Z;
  last_fire_at : option Z;
  last_error_code : option string;
  created_by : uuid;
  created_at : Z
}.
End WorkflowSchedule.
Abbreviation WorkflowSchedule := WorkflowSchedule.WorkflowSchedule.

Module AutomationExecution.
Record AutomationExecution : Type := Make {
  id : uuid;
  organization_id : uuid;
  workspace_id : uuid;
  workflow_id : uuid;
  workflow_version_id : uuid;
  schedule_id : option uuid;
  trigger : AutomationTrigger;
  scheduled_for : option Z;
  idempotency_key : string;
  status : AutomationStatus;
  owner_id : uuid;
  input_payload : dict;
  max_duration_seconds : Z;
  deadline_at : Z;
  started_at : option Z;
  completed_at : option Z;
  cancellation_requested_at : option Z;
  lease_owner : option string;
  lease_expires_at : option Z;
  error_code : option string;
  error_message : option string;
  summary : dict;
  created_at : Z
}.
End AutomationExecution.
Abbreviation AutomationExecution := AutomationExecution.AutomationExecution.

Module AutomationStepExecution.
(** [depends_on] is a JSON list of step keys, [output_refs] a JSON list. *)
Record AutomationStepExecution : Type := Make {
  id : uuid;
  organization_id : uuid;
  execution_id : uuid;
  step_key : string;
  ordinal : Z;
  name : string;
  step_type : WorkflowStepType;
  depends_on : list string;
  spec : dict;
  status : AutomationStepStatus;
  run_id : option uuid;
  output_refs : list val;
  review_decision : option ReviewDecision;
  reviewed_by : option uuid;
  review_reason : option string;
  reviewed_at : option Z;
  started_at : option Z;
  completed_at : option Z;
  error_code : option string;
  error_message : option string
}.
End AutomationStepExecution.
Abbreviation AutomationStepExecution := AutomationStepExecution.AutomationStepExecution.

Module RunStep.
Record RunStep : Type := Make {
  id : uuid;
  organization_id : uuid;
  run_id : uuid;
  ordinal : Z;
  status : StepStatus;
  completed_at : option Z
}.
End RunStep.
Abbreviation RunStep := RunStep.RunStep.

Module RunConversationSnapshot.
Record RunConversationSnapshot : Type := Make {
  id : uuid;
  organization_id : uuid;
  run_id : uuid;
  source_thread_id : uuid;
  source_turn_id : uuid;
  source_run_id : option uuid;
  source_artifact_id : option uuid;
  source_principal_id : uuid;
  ordinal : Z;
  user_content : string;
  assistant_content : option string;
  content_fingerprint : string;
  classification : Classification;
  captured_at : Z
}.
End RunConversationSnapshot.
Abbreviation RunConversationSnapshot := RunConversationSnapshot.RunConversationSnapshot.

Module AgentDefinition.
Record AgentDefinition : Type := Make {
  id : uuid;
  organization_id : uuid;
  name : string;
  status : RegistryStatus;
  active_version : option Z
}.
End AgentDefinition.
Abbreviation AgentDefinition := AgentDefinition.AgentDefinition.

Module AgentVersion.
Record AgentVersion : Type := Make {
  id : uuid;
  organization_id : uuid;
  agent_id : uuid;
  version : Z;
  spec : dict
}.
End AgentVersion.
Abbreviation AgentVersion := AgentVersion.AgentVersion.

Module ModelProfile.
Record ModelProfile : Type := Make {
  id : uuid;
  organization_id : uuid;
  name : string;
  enabled : bool
}.
End ModelProfile.
Abbreviation ModelProfile := ModelProfile.ModelProfile.

Module PromptDefinition.
Record PromptDefinition : Type := Make {
  id : uuid;
  organization_id : uuid;
  name : string
}.
End PromptDefinition.
Abbreviation PromptDefinition := PromptDefinition.PromptDefinition.

Module PromptVersion.
Record PromptVersion : Type := Make {
  id : uuid;
  organization_id : uuid;
  prompt_id : uuid;
  version : Z;
  checksum_sha256 : string
}.
End PromptVersion.
Abbreviation PromptVersion := PromptVersion.PromptVersion.

Module Memory.
Record Memory : Type := Make {
  id : uuid;
  organization_id : uuid;
  scope : MemoryScope;
  owner_ref : string;
  content : val;
  dedupe_key : string;
  sensitivity : Classification;
  status : MemoryStatus;
  policy_decision_id : option uuid;
  expires_at : option Z;
  created_at : Z;
  updated_at : Z
}.
End Memory.
Abbreviation Memory := Memory.Memory.

Module RunMemorySnapshot.
Record RunMemorySnapshot : Type := Make {
  id : uuid;
  organization_id : uuid;
  run_id : uuid;
  memory_id : uuid;
  principal_id : uuid;
  ordinal : Z;
  scope : MemoryScope;
  owner_ref : string;
  content : val;
  content_fingerprint : string;
  sensitivity : Classification;
  policy_decision_id : uuid;
  memory_updated_at : Z;
  captured_at : Z
}.
End RunMemorySnapshot.
Abbreviation RunMemorySnapshot := RunMemorySnapshot.RunMemorySnapshot.
