(* ===== verification/Kernel.v ===== *)
(** * The shared tables of a database session ([db/models.py], [common/ids.py],
      [common/time.py])

    Every service of the control plane records events, audit entries and policy
    decisions through the same few tables.  [Kernel] holds them, next to the
    directory of users and workspaces (which only the workspace service writes) and the two
    sources of nondeterminism a service consults: the wall clock and fresh ids.
    [Session] is the interface by which a service with tables of its own runs the
    operations written against [Kernel]. *)

From S2P Require Import Prelude PyText PyVal Enums Models.

(** What the process is deployed with: the ids of the third-party [uuid7], in the
    order they are drawn, and the name of the database dialect. *)
Class Environment := {
  uuid7 : nat → uuid;
  dialect : string
}.

Record Directory : Type := MkDirectory {
  users : gmap uuid User;
  departments : gmap uuid Department;
  roles : gmap uuid Role;
  user_roles : list UserRole;
  workspaces : gmap uuid Workspace;
  workspace_members : list WorkspaceMember;
  threads : gmap uuid Thread;
  turns : gmap uuid Turn
}.

Record Kernel : Type := MkKernel {
  clock : Z;
  readings : list Z;
  next_id : nat;
  directory : Directory;
  policies : gmap uuid Policy;
  runs : gmap uuid Run;
  aggregate_heads : gmap (string * uuid) AggregateHead;
  events : list Event;
  outbox_messages : list OutboxMessage;
  policy_decisions : list PolicyDecision;
  audit_logs : list AuditRecord
}.

(** [new_id()] *)
Definition new_id `{Environment} : Py Kernel uuid := λ k,
  Ok (uuid7 (next_id k)) (k <| next_id := S (next_id k) |>).

(** [utc_now()]: the next reading of the wall clock.  Readings are arbitrary, so
    nothing proved here relies on the clock being monotone. *)
Definition utc_now : Py Kernel Z := λ k,
  match readings k with
  | [] => Ok (clock k) k
  | t :: ts => Ok t (k <| clock := t |> <| readings := ts |>)
  end.

(** What a rollback to [old] leaves: time has passed and ids were drawn, but every
    table is as it was. *)
Definition kernel_rollback (old new : Kernel) : Kernel :=
  old <| clock := clock new |> <| readings := readings new |> <| next_id := next_id new |>.

(** No table differs. *)
Definition same_tables (k k' : Kernel) : Prop := k' = kernel_rollback k k'.

Lemma same_tables_trans k1 k2 k3 : same_tables k1 k2 → same_tables k2 k3 → same_tables k1 k3.
Proof. intros -> ->. done. Qed.

Lemma wp_new_id `{Environment} k (Q : uuid → Kernel → Prop) X :
  (∀ i k', same_tables k k' → Q i k') → wp new_id Q X k.
Proof. intros HQ. apply HQ. done. Qed.

Lemma wp_utc_now k (Q : Z → Kernel → Prop) X : (∀ t k', same_tables k k' → Q t k') → wp utc_now Q X k.
Proof.
  intros HQ. unfold wp, utc_now. destruct (readings k) eqn:Hr; apply HQ; [by destruct k|done].
Qed.

(** ** Sessions with a kernel *)

Class Session (S : Type) := {
  kernel : S → Kernel;
  set_kernel : Kernel → S → S;
  set_kernel_same s : set_kernel (kernel s) s = s;
  (** [rollback old new]: the tables of [old], the outside world of [new]. *)
  rollback : S → S → S;
  kernel_set_kernel k s : kernel (set_kernel k s) = k;
  set_kernel_twice k k' s : set_kernel k (set_kernel k' s) = set_kernel k s;
  kernel_of_rollback old new : kernel (rollback old new) = kernel_rollback (kernel old) (kernel new)
}.

#[export] Program Instance Kernel_session : Session Kernel := {
  kernel k := k;
  set_kernel k _ := k;
  rollback := kernel_rollback
}.
Solve Obligations with done.

Section InSession.
Context {S : Type} `{Session S}.

(** An operation on the shared tables, run in a larger session. *)
Definition in_kernel {A} (m : Py Kernel A) : Py S A := λ s,
  match m (kernel s) with
  | Ok a k => Ok a (set_kernel k s)
  | Raise e k => Raise e (set_kernel k s)
  end.

(** [async with session.begin()] and [async with session.begin_nested()]: keep the
    effects on return, roll them back on an exception. *)
Definition savepoint {A} (m : Py S A) : Py S A := λ s,
  match m s with
  | Ok a s' => Ok a s'
  | Raise e s' => Raise e (rollback s s')
  end.

Lemma wp_in_kernel {A} (m : Py Kernel A) (Q : A → S → Prop) X s :
  wp m (λ a k, Q a (set_kernel k s)) (λ e k, X e (set_kernel k s)) (kernel s) →
  wp (in_kernel m) Q X s.
Proof. unfold wp, in_kernel. by destruct (m (kernel s)). Qed.

(** A read leaves the session as it is. *)
Lemma wp_read {A} (m : Py Kernel A) `{!Pure m} (Q : A → S → Prop) X s :
  wp m (λ a _, Q a s) (λ e _, X e s) (kernel s) → wp (in_kernel m) Q X s.
Proof.
  intros Hm. apply wp_in_kernel. pose proof (pure (m := m) (kernel s)) as Hp.
  unfold wp in *. destruct (m (kernel s)); subst; by rewrite set_kernel_same.
Qed.

Lemma wp_savepoint {A} (m : Py S A) (Q : A → S → Prop) X s :
  wp m Q (λ e s', X e (rollback s s')) s → wp (savepoint m) Q X s.
Proof. unfold wp, savepoint. by destruct (m s). Qed.
End InSession.

Lemma in_kernel_id {A} (m : Py Kernel A) k : in_kernel m k = m k.
Proof. unfold in_kernel. cbn. by destruct (m k). Qed.

(** ** Recording

    What every operation on the shared tables respects: the directory, the policies
    and the Runs keep their contents (a Run only moves its event counter), and the
    journals only grow. *)

Definition with_version (v : Z) (r : Run) : Run := r <| Run.aggregate_version := v |>.

Record recorded (k k' : Kernel) : Prop := {
  recorded_directory : directory k' = directory k;
  recorded_policies : policies k' = policies k;
  recorded_runs id : ∃ v, runs k' !! id = with_version v <$> runs k !! id;
  recorded_events : events k `prefix_of` events k';
  recorded_outbox : outbox_messages k `prefix_of` outbox_messages k';
  recorded_decisions : policy_decisions k `prefix_of` policy_decisions k';
  recorded_audit : audit_logs k `prefix_of` audit_logs k'
}.

Lemma with_version_idemp v v' r : with_version v (with_version v' r) = with_version v r.
Proof. by destruct r. Qed.

Lemma with_version_same r : with_version (Run.aggregate_version r) r = r.
Proof. by destruct r. Qed.

Lemma same_runs (m : gmap uuid Run) id : ∃ v, m !! id = with_version v <$> m !! id.
Proof.
  destruct (m !! id) as [r|]; [|by exists 0%Z].
  exists (Run.aggregate_version r). simpl. by rewrite with_version_same.
Qed.

#[export] Instance recorded_preorder : PreOrder recorded.
Proof.
  split.
  - intros k. split; try done. apply same_runs.
  - intros k1 k2 k3 [] []. split; try congruence; try (etransitivity; eassumption).
    intros id. destruct (recorded_runs1 id) as [v ->]. destruct (recorded_runs0 id) as [v' ->].
    exists v. destruct (runs k1 !! id); simpl; [|done]. by rewrite with_version_idemp.
Qed.

(** A computation that records, whether it returns or raises. *)
Class Recording {A} (m : Py Kernel A) : Prop :=
  recording k : wp m (λ _, recorded k) (λ _, recorded k) k.

Lemma pure_recording {A} (m : Py Kernel A) : Pure m → Recording m.
Proof. intros Hm k. by apply wp_pure. Qed.

(** Only for single operations: a sequence is taken apart first. *)
#[export] Hint Extern 5 (Recording ?m) =>
  lazymatch m with
  | mbind _ _ => fail
  | match _ with _ => _ end => fail
  | _ => apply pure_recording
  end : typeclass_instances.

#[export] Instance bind_recording {A B} (m : Py Kernel A) (f : A → Py Kernel B) :
  Recording m → (∀ a, Recording (f a)) → Recording (m ≫= f).
Proof.
  intros Hm Hf k. apply wp_bind. eapply wp_mono; [apply Hm| |done].
  intros a k' Hk. eapply wp_mono; [apply Hf|..]; intros; cbv beta in *; by transitivity k'.
Qed.

#[export] Instance match_option_recording {A B} (o : option A) (f : A → Py Kernel B) m :
  (∀ a, Recording (f a)) → Recording m →
  Recording (match o with Some a => f a | None => m end).
Proof. by destruct o. Qed.

#[export] Instance if_recording {A} (b : bool) (m1 m2 : Py Kernel A) :
  Recording m1 → Recording m2 → Recording (if b then m1 else m2).
Proof. by destruct b. Qed.

#[export] Instance new_id_recording `{Environment} : Recording new_id.
Proof. intros k. split; try done. apply same_runs. Qed.

#[export] Instance utc_now_recording : Recording utc_now.
Proof. intros k. unfold wp, utc_now. destruct (readings k); [done|]. split; try done. apply same_runs. Qed.

Lemma rollback_recorded old new : recorded old (kernel_rollback old new).
Proof. split; try done. apply same_runs. Qed.

Lemma same_recorded k k' : same_tables k k' → recorded k k'.
Proof. intros ->. apply rollback_recorded. Qed.

#[export] Instance savepoint_recording {A} (m : Py Kernel A) : Recording m → Recording (savepoint m).
Proof.
  intros Hm k. apply wp_savepoint. eapply wp_mono; [apply Hm|done|].
  intros e k' _. apply rollback_recorded.
Qed.

Lemma wp_recording {S} `{Session S} {A} (m : Py Kernel A) `{!Recording m} (Q : A → S → Prop) X s :
  (∀ a k, recorded (kernel s) k → Q a (set_kernel k s)) →
  (∀ e k, recorded (kernel s) k → X e (set_kernel k s)) →
  wp (in_kernel m) Q X s.
Proof. intros HQ HX. apply wp_in_kernel. eapply wp_mono; [apply recording|auto..]. Qed.

(** The status of a Run survives recording. *)
Lemma recorded_run k k' id r :
  recorded k k' → runs k !! id = Some r → ∃ v, runs k' !! id = Some (with_version v r).
Proof. intros Hk Hr. destruct (recorded_runs _ _ Hk id) as [v Hv]. exists v. by rewrite Hv, Hr. Qed.
