(* ===== verification/Domain.v ===== *)
(** * Domain rules ([domain/run_state.py], [domain/workspace_collaboration.py],
      [security/classification.py])

    The lifecycle of a Run, the transitions of workspace tasks and decisions, and
    the order of data classifications. *)

From S2P Require Import Prelude PyText PyVal Enums.

(** ** Runs *)

Module RunState.
Import RunStatus.

Definition _TRANSITIONS (s : RunStatus) : list RunStatus :=
  match s with
  | PENDING => [RUNNING; CANCELLED; FAILED]
  | RUNNING => [WAITING_APPROVAL; WAITING_USER; REPLANNING; COMPLETED; FAILED; CANCELLED]
  | WAITING_APPROVAL => [RUNNING; FAILED; CANCELLED]
  | WAITING_USER => [RUNNING; FAILED; CANCELLED]
  | REPLANNING => [RUNNING; FAILED; CANCELLED]
  | COMPLETED => []
  | FAILED => []
  | CANCELLED => []
  end.

Definition allowed_run_transitions (status : RunStatus) : list RunStatus := _TRANSITIONS status.

Definition validate_run_transition {S} (current target : RunStatus) : Py S unit :=
  raise_if (negb (bool_decide (target ∈ allowed_run_transitions current)))
    (ConflictError "invalid_run_transition"
       ("Run cannot transition from " +:+ value current +:+ " to " +:+ value target)
       [("current", VStr (value current)); ("target", VStr (value target))]).

Definition is_terminal (status : RunStatus) : bool :=
  bool_decide (status ∈ [COMPLETED; FAILED; CANCELLED]).

(** One validated change of status. *)
Definition step (s s' : RunStatus) : Prop :=
  validate_run_transition (S := unit) s s' () = Ok () ().

Lemma step_allowed s s' : step s s' ↔ s' ∈ allowed_run_transitions s.
Proof.
  unfold step, validate_run_transition, raise_if.
  destruct (bool_decide_reflect (s' ∈ allowed_run_transitions s)); split; intros; try done.
Qed.

Lemma terminal_no_step s : is_terminal s = true ↔ ∀ s', ¬ step s s'.
Proof.
  split.
  - intros Ht s' Hs%step_allowed. destruct s; try done; by apply not_elem_of_nil in Hs.
  - intros H. destruct s; try done; exfalso.
    all: eapply (H FAILED), step_allowed; set_solver.
Qed.

Lemma terminal_final s s' : is_terminal s = true → steps step s s' → s' = s.
Proof.
  intros Ht. induction 1 as [|s1 s2 s3 _ IH Hs]; [done|]. rewrite IH in Hs by done.
  exfalso. by eapply terminal_no_step.
Qed.

(** The Run lifecycle: a status is terminal exactly when no change of status
    passes validation, and then no sequence of changes moves the Run; a Run that
    became COMPLETED by a validated change stood in RUNNING right before; and from
    every status that is not terminal COMPLETED can still be reached. *)
Theorem run_lifecycle :
  (∀ s, is_terminal s = true ↔ ∀ s', ¬ step s s') ∧
  (∀ s s', is_terminal s = true → steps step s s' → s' = s) ∧
  (∀ s, step s COMPLETED → s = RUNNING) ∧
  (∀ s, is_terminal s = false → steps step s COMPLETED).
Proof.
  split; [apply terminal_no_step|]. split; [apply terminal_final|]. split.
  - intros s Hs%step_allowed. destruct s; [set_solver|done|set_solver..].
  - intros s Hs.
    assert (step RUNNING COMPLETED) as Hrc by (apply step_allowed; set_solver).
    destruct s; try done; try (apply steps_one, step_allowed; set_solver).
    all: eapply steps_snoc; [apply steps_one|exact Hrc].
    all: apply step_allowed; set_solver.
Qed.
End RunState.

(** ** Workspace tasks and decisions *)

Module Collaboration.

Definition _TASK_TRANSITIONS (s : WorkspaceTaskStatus) : list WorkspaceTaskStatus :=
  match s with
  | WorkspaceTaskStatus.OPEN =>
      [WorkspaceTaskStatus.IN_PROGRESS; WorkspaceTaskStatus.BLOCKED;
       WorkspaceTaskStatus.COMPLETED; WorkspaceTaskStatus.CANCELLED]
  | WorkspaceTaskStatus.IN_PROGRESS =>
      [WorkspaceTaskStatus.OPEN; WorkspaceTaskStatus.BLOCKED;
       WorkspaceTaskStatus.COMPLETED; WorkspaceTaskStatus.CANCELLED]
  | WorkspaceTaskStatus.BLOCKED =>
      [WorkspaceTaskStatus.OPEN; WorkspaceTaskStatus.IN_PROGRESS;
       WorkspaceTaskStatus.COMPLETED; WorkspaceTaskStatus.CANCELLED]
  | WorkspaceTaskStatus.COMPLETED => [WorkspaceTaskStatus.OPEN]
  | WorkspaceTaskStatus.CANCELLED => [WorkspaceTaskStatus.OPEN]
  end.

Definition validate_task_transition {S} (current target : WorkspaceTaskStatus) : Py S unit :=
  if bool_decide (current = target) then mret ()
  else raise_if (negb (bool_decide (target ∈ _TASK_TRANSITIONS current)))
    (ConflictError "workspace_task_transition_invalid"
       "The requested workspace task status transition is not permitted"
       [("current_status", VStr (value_of current));
        ("requested_status", VStr (value_of target))]).

Definition _DECISION_TRANSITIONS (s : WorkspaceDecisionStatus) : list WorkspaceDecisionStatus :=
  match s with
  | WorkspaceDecisionStatus.PROPOSED =>
      [WorkspaceDecisionStatus.ACCEPTED; WorkspaceDecisionStatus.REJECTED]
  | WorkspaceDecisionStatus.ACCEPTED => [WorkspaceDecisionStatus.SUPERSEDED]
  | WorkspaceDecisionStatus.REJECTED => []
  | WorkspaceDecisionStatus.SUPERSEDED => []
  end.

Definition validate_decision_transition {S}
    (current target : WorkspaceDecisionStatus) : Py S unit :=
  raise_if (negb (bool_decide (target ∈ _DECISION_TRANSITIONS current)))
    (ConflictError "workspace_decision_transition_invalid"
       "The requested workspace decision status transition is not permitted"
       [("current_status", VStr (value_of current));
        ("requested_status", VStr (value_of target))]).

Lemma wp_task_transition {S} (s : S) c t (Q : () → S → Prop) X :
  (c = t ∨ t ∈ _TASK_TRANSITIONS c → Q () s) →
  (∀ e, c ≠ t → t ∉ _TASK_TRANSITIONS c → X e s) →
  wp (validate_task_transition c t) Q X s.
Proof.
  intros HQ HX. unfold validate_task_transition. case_bool_decide as Hct; [apply HQ; by left|].
  apply wp_raise_if; intros H; split_bool; auto.
Qed.

Lemma wp_decision_transition {S} (s : S) c t (Q : () → S → Prop) X :
  (t ∈ _DECISION_TRANSITIONS c → Q () s) →
  (∀ e, t ∉ _DECISION_TRANSITIONS c → X e s) →
  wp (validate_decision_transition c t) Q X s.
Proof.
  intros HQ HX. unfold validate_decision_transition. apply wp_raise_if; intros H; split_bool; auto.
Qed.
End Collaboration.

(** ** Classifications *)

Definition _RANK (c : Classification) : nat :=
  match c with
  | Classification.PUBLIC => 0
  | Classification.INTERNAL => 1
  | Classification.CONFIDENTIAL => 2
  | Classification.RESTRICTED => 3
  end.

(** [max(..., key=_RANK, default=PUBLIC)]: the first of the values of highest rank. *)
Definition maximum_classification (values : list (option Classification)) : Classification :=
  match omap id values with
  | [] => Classification.PUBLIC
  | c :: l => max_by _RANK c l
  end.

#[export] Instance _RANK_inj : Inj (=) (=) _RANK.
Proof. by intros [] []. Qed.

(** The classification of a combined result is the least upper bound of the
    classifications of its parts: it is at least as high as each of them, and it is
    one of them, or PUBLIC when there is none. *)
Theorem maximum_classification_spec values :
  (∀ c, Some c ∈ values → _RANK c ≤ _RANK (maximum_classification values)) ∧
  (Some (maximum_classification values) ∈ values ∨
   (∀ c, Some c ∉ values) ∧ maximum_classification values = Classification.PUBLIC).
Proof.
  assert (∀ c, c ∈ omap id values ↔ Some c ∈ values) as Hin.
  { intros c. rewrite list_elem_of_omap. split; [|by exists (Some c)]. intros (o & Ho & Hc). unfold id in Hc. by subst o. }
  unfold maximum_classification. destruct (omap id values) as [|c l] eqn:Hl.
  - split; [intros c Hc%Hin; by apply not_elem_of_nil in Hc|right].
    split; [|done]. intros c Hc%Hin. by apply not_elem_of_nil in Hc.
  - destruct (max_by_spec _RANK c l) as [Hm Hmax]. split.
    + intros v Hv%Hin. by apply Hmax.
    + left. by apply Hin.
Qed.
