(* ===== verification/CanonicalJson.v ===== *)
(** * Canonical JSON of Python values ([contracts/events/validation.py])

    Event payloads are built from Python objects: enum members, ids, datetimes and
    nested containers.  [canonicalize_json] turns them into the JSON data model or
    says where and why it cannot.  Floats and decimals, which no modelled service
    puts into a payload, are left out; a Gallina value holds no reference cycle, so
    the check for cyclic containers never applies. *)

From S2P Require Import Prelude PyText PyVal Enums.

Inductive obj : Type :=
| ONone
| OBool (b : bool)
| OInt (z : Z)
| OStr (s : string)
| OEnum (value : string)
| OUuid (u : uuid)
| ODatetime (aware : bool) (t : Z)
| OMap (items : list (obj * obj))
| OSeq (items : list obj)
| OOther (class : string).

(** [type(value).__name__] *)
Definition type_name (o : obj) : string :=
  match o with
  | ONone => "NoneType"
  | OBool _ => "bool"
  | OInt _ => "int"
  | OStr _ => "str"
  | OEnum _ => "Enum"
  | OUuid _ => "UUID"
  | ODatetime _ _ => "datetime"
  | OMap _ => "dict"
  | OSeq _ => "list"
  | OOther class => class
  end.

Definition _raise_not_json_safe {S A} (path python_type reason : string) : Py S A :=
  raise (ValidationError "event_payload_not_json_safe"
    "The event value cannot be represented safely as canonical JSON"
    [("path", VStr path); ("reason", VStr reason); ("python_type", VStr python_type)]).

(** [value.astimezone(UTC).isoformat().replace("+00:00", "Z")] *)
Definition iso_z (t : Z) : string := iso_local t +:+ "Z".

Definition _canonical_datetime {S} (aware : bool) (t : Z) (path : string) : Py S string :=
  if aware then mret (iso_z t) else _raise_not_json_safe path "datetime" "naive_datetime".

(** [isinstance(key, str)]: a string, or a member of a [StrEnum]. *)
Definition str_key (o : obj) : option string :=
  match o with
  | OStr s | OEnum s => Some s
  | _ => None
  end.

Fixpoint _canonicalize_json {S} (path : string) (value : obj) {struct value} : Py S val :=
  match value with
  | OEnum s => mret (VStr s)
  | ONone => mret VNone
  | OBool b => mret (VBool b)
  | OInt z => mret (VInt z)
  | OStr s => mret (VStr s)
  | OUuid u => mret (VStr (uuid_str u))
  | ODatetime aware t => s ← _canonical_datetime aware t path; mret (VStr s)
  | OMap items =>
      let fix go (items : list (obj * obj)) (result : dict) : Py S val :=
        match items with
        | [] => mret (VDict result)
        | (key, item) :: items' =>
            match str_key key with
            | None => _raise_not_json_safe path (type_name key) "non_string_object_key"
            | Some k =>
                v ← _canonicalize_json (path +:+ "." +:+ k) item;
                go items' (dset k v result)
            end
        end in
      go items []
  | OSeq items =>
      let fix go (index : Z) (items : list obj) (result : list val) : Py S val :=
        match items with
        | [] => mret (VList (reverse result))
        | item :: items' =>
            v ← _canonicalize_json (path +:+ "[" +:+ int_str index +:+ "]") item;
            go (index + 1)%Z items' (v :: result)
        end in
      go 0%Z items []
  | OOther class => _raise_not_json_safe path class "unsupported_type"
  end.

Definition canonicalize_json {S} (value : obj) : Py S val := _canonicalize_json "$" value.

(** JSON values are Python values. *)
Fixpoint obj_of (v : val) : obj :=
  match v with
  | VNone => ONone
  | VBool b => OBool b
  | VInt z => OInt z
  | VStr s => OStr s
  | VList l => OSeq (map obj_of l)
  | VDict d => OMap (map (λ '(k, x), (OStr k, obj_of x)) d)
  end.

(** ** Which values are accepted, and with what result *)

Section obj_induction.
Variable P : obj → Prop.
Hypothesis HNone : P ONone.
Hypothesis HBool : ∀ b, P (OBool b).
Hypothesis HInt : ∀ z, P (OInt z).
Hypothesis HStr : ∀ s, P (OStr s).
Hypothesis HEnum : ∀ s, P (OEnum s).
Hypothesis HUuid : ∀ u, P (OUuid u).
Hypothesis HDatetime : ∀ a t, P (ODatetime a t).
Hypothesis HMap : ∀ l, Forall (λ kv, P kv.2) l → P (OMap l).
Hypothesis HSeq : ∀ l, Forall P l → P (OSeq l).
Hypothesis HOther : ∀ c, P (OOther c).

Fixpoint obj_ind' (o : obj) : P o :=
  match o with
  | ONone => HNone
  | OBool b => HBool b
  | OInt z => HInt z
  | OStr s => HStr s
  | OEnum s => HEnum s
  | OUuid u => HUuid u
  | ODatetime a t => HDatetime a t
  | OMap l => HMap l ((fix go l := match l return Forall (λ kv, P kv.2) l with
                                   | [] => Forall_nil_2 _
                                   | kv :: l' => Forall_cons_2 _ _ _ (obj_ind' kv.2) (go l')
                                   end) l)
  | OSeq l => HSeq l ((fix go l := match l return Forall P l with
                                   | [] => Forall_nil_2 _
                                   | x :: l' => Forall_cons_2 _ _ _ (obj_ind' x) (go l')
                                   end) l)
  | OOther c => HOther c
  end.
End obj_induction.

(** Aware datetimes, string keys and supported types only. *)
Fixpoint json_safe (o : obj) : bool :=
  match o with
  | ODatetime aware _ => aware
  | OMap items =>
      forallb (λ '(k, x), match str_key k with Some _ => json_safe x | None => false end) items
  | OSeq items => forallb json_safe items
  | OOther _ => false
  | _ => true
  end.

Definition not_json_safe (e : exn) : Prop :=
  error_code_of e = Some "event_payload_not_json_safe".

Lemma canonicalize_result {S} (o : obj) (path : string) (s : S) :
  if json_safe o
  then ∃ v, _canonicalize_json path o s = Ok v s ∧ wf_val v = true
  else ∃ e, _canonicalize_json path o s = Raise e s ∧ not_json_safe e.
Proof.
  revert path. induction o as [| | | | | |[] t|items IH|items IH|c] using obj_ind'; intros path;
    try (eexists; split; [reflexivity|done]).
  - cbn [json_safe _canonicalize_json].
    enough (∀ result, wf_val (VDict result) = true →
      if forallb (λ '(k, x), match str_key k with Some _ => json_safe x | None => false end) items
      then ∃ v, _ items result s = Ok v s ∧ wf_val v = true
      else ∃ e, _ items result s = Raise e s ∧ not_json_safe e) as Hgo by (by apply (Hgo [])).
    induction IH as [|[k x] items Hx _ IHitems]; intros result Hres; cbn.
    { by exists (VDict result). }
    destruct (str_key k) as [k'|]; cbn; [|by eexists].
    unfold mbind, M_bind. specialize (Hx (path +:+ "." +:+ k')). cbn in Hx.
    destruct (json_safe x); destruct Hx as (r & -> & Hr); cbn; [|by exists r].
    apply IHitems. by apply wf_val_dset.
  - cbn [json_safe _canonicalize_json].
    enough (∀ index result, wf_val (VList result) = true →
      if forallb json_safe items
      then ∃ v, _ index items result s = Ok v s ∧ wf_val v = true
      else ∃ e, _ index items result s = Raise e s ∧ not_json_safe e) as Hgo
      by (by apply (Hgo 0%Z [])).
    induction IH as [|x items Hx _ IHitems]; intros index result Hres; cbn.
    { eexists. split; [done|]. cbn. apply forallb_true. intros v Hv. rewrite elem_of_reverse in Hv.
      cbn in Hres. rewrite forallb_true in Hres. exact (Hres v Hv). }
    unfold mbind, M_bind. specialize (Hx (path +:+ "[" +:+ int_str index +:+ "]")).
    destruct (json_safe x); destruct Hx as (r & -> & Hr); cbn; [|by exists r].
    apply IHitems. cbn in *. by rewrite Hr, Hres.
Qed.

(** Canonical JSON is its own canonical form. *)
Lemma canonicalize_obj_of {S} (v : val) (path : string) (s : S) :
  wf_val v = true → _canonicalize_json path (obj_of v) s = Ok v s.
Proof.
  revert path. induction v as [| | | |l IH|d IH] using val_ind'; intros path Hwf; try done.
  - cbn [obj_of _canonicalize_json]. cbn in Hwf.
    enough (∀ index result, _ index (map obj_of l) result s = Ok (VList (reverse result ++ l)) s)
      as Hgo by apply (Hgo 0%Z []).
    induction IH as [|x l Hx _ IHl]; intros index result; cbn; [by rewrite app_nil_r|].
    cbn in Hwf. split_bool. unfold mbind, M_bind. rewrite Hx by done. rewrite IHl by done.
    by rewrite reverse_cons, <-app_assoc.
  - cbn [obj_of _canonicalize_json]. apply wf_val_dict in Hwf as [Hnd Hwf].
    enough (∀ result, NoDup (result ++ d).*1 →
      _ (map (λ '(k, x), (OStr k, obj_of x)) d) result s = Ok (VDict (result ++ d)) s)
      as Hgo by apply (Hgo [] Hnd).
    clear Hnd. induction IH as [|[k x] d Hx _ IHd]; intros result Hnd; cbn; [by rewrite app_nil_r|].
    unfold mbind, M_bind. cbn in Hx. rewrite Hx by (eapply Hwf; left).
    pose proof Hnd as Hnd2. rewrite fmap_app in Hnd2. apply NoDup_app in Hnd2 as (_ & Hk & _).
    rewrite dset_fresh by (intros Hin; apply (Hk k Hin); cbn; left).
    rewrite IHd.
    + by rewrite <-app_assoc.
    + intros k' v' Hin. eapply Hwf. by right.
    + by rewrite <-app_assoc.
Qed.

(** What canonicalization returns does not depend on the session. *)
Lemma canonicalize_ok_any {S S'} (o : obj) (s : S) (s' : S') v :
  canonicalize_json o s = Ok v s → canonicalize_json o s' = Ok v s'.
Proof.
  enough (∀ (o : obj) path, (∃ v, _canonicalize_json path o s = Ok v s ∧ _canonicalize_json path o s' = Ok v s')
    ∨ (∃ e, _canonicalize_json path o s = Raise e s ∧ _canonicalize_json path o s' = Raise e s')) as Hgo.
  { unfold canonicalize_json. destruct (Hgo o "$") as [(? & -> & ->)|(? & -> & _)]; [by intros [= ->]|done]. }
  clear o v. intros o. induction o as [| | | | | |[] t|items IH|items IH|c] using obj_ind'; intros path;
    try (left; eexists; split; reflexivity); try (right; eexists; split; reflexivity).
  - cbn [_canonicalize_json].
    enough (∀ result, (∃ v, _ items result s = Ok v s ∧ _ items result s' = Ok v s') ∨
      (∃ e, _ items result s = Raise e s ∧ _ items result s' = Raise e s')) as Hgo by apply (Hgo []).
    induction IH as [|[k x] items Hx _ IHitems]; intros result; cbn; [left; by eexists|].
    destruct (str_key k) as [k'|]; cbn; [|right; by eexists]. unfold mbind, M_bind.
    destruct (Hx (path +:+ "." +:+ k')) as [(r & E1 & E2)|(r & E1 & E2)]; cbn in E1, E2; rewrite E1, E2.
    + apply IHitems.
    + right. by eexists.
  - cbn [_canonicalize_json].
    enough (∀ index result, (∃ v, _ index items result s = Ok v s ∧ _ index items result s' = Ok v s') ∨
      (∃ e, _ index items result s = Raise e s ∧ _ index items result s' = Raise e s')) as Hgo
      by apply (Hgo 0%Z []).
    induction IH as [|x items Hx _ IHitems]; intros index result; cbn; [left; by eexists|].
    unfold mbind, M_bind.
    destruct (Hx (path +:+ "[" +:+ int_str index +:+ "]")) as [(r & -> & ->)|(r & -> & ->)].
    + apply IHitems.
    + right. by eexists.
Qed.

