(* ===== verification/Events.v ===== *)
(** * The event log ([contracts/events/validation.py], [persistence/events.py],
      [persistence/audit.py])

    [EventStore.append] validates a draft against the registered contracts and
    writes the event, its sequence numbers and its outbox message under a savepoint;
    [AuditWriter.write] appends to the audit log. *)

From S2P Require Import Prelude PyText PyVal Redaction Enums Models Kernel CanonicalJson.

(** ** Contracts *)

(** An error of the third-party [jsonschema] package. *)
Record SchemaError : Type := MkSchemaError {
  absolute_path : list (string + Z);
  absolute_schema_path : list (string + Z);
  validator : string
}.

(** The registered contracts: a payload validator per event name and version, the
    validator of envelopes and the codes of the error catalogue.  A validator is
    [jsonschema]'s [iter_errors] of a schema. *)
Class EventContracts := {
  payload_validators : list ((string * Z) * (val → list SchemaError));
  envelope_validator : val → list SchemaError;
  error_code_registered : string → bool
}.

Definition _json_path (parts : list (string + Z)) : string :=
  fold_left (λ path part,
    match part with
    | inl name => path +:+ "." +:+ name
    | inr index => path +:+ "[" +:+ int_str index +:+ "]"
    end) parts "$".

Definition part_str (part : string + Z) : string :=
  match part with inl s => s | inr z => int_str z end.

(** Tuples of strings are ordered lexicographically. *)
Fixpoint strings_le (x y : list string) : bool :=
  match x, y with
  | [], _ => true
  | _, [] => false
  | a :: x', b :: y' => if bool_decide (a = b) then strings_le x' y' else string_le a b
  end.

Definition error_le (e1 e2 : SchemaError) : bool :=
  let k1 := map part_str (absolute_path e1) in
  let k2 := map part_str (absolute_path e2) in
  if bool_decide (k1 = k2)
  then strings_le (map part_str (absolute_schema_path e1)) (map part_str (absolute_schema_path e2))
  else strings_le k1 k2.

Definition _validate_instance {S} (iter_errors : val → list SchemaError) (instance : val)
    (code message : string) (details : dict) : Py S unit :=
  match order_by error_le (iter_errors instance) with
  | [] => mret ()
  | error :: _ =>
      raise (ValidationError code message
        ([("path", VStr (_json_path (absolute_path error)));
          ("schema_path", VStr (_json_path (absolute_schema_path error)));
          ("validator", VStr (validator error))] ++ details))
  end.

Section Contracts.
Context `{EventContracts}.

Definition find_validator (name : string) (version : Z) : option (val → list SchemaError) :=
  snd <$> find (λ entry, bool_decide (entry.1 = (name, version))) payload_validators.

Definition supported_versions (name : string) : list Z :=
  order_by Z.leb (map (λ entry, entry.1.2)
    (filter (λ entry, entry.1.1 = name) payload_validators)).

Definition _validate_payload_error_code {S} (payload : dict) (event_name : string)
    (schema_version : Z) : Py S unit :=
  let invalid message :=
    raise (ValidationError "event_payload_schema_invalid" message
      [("path", VStr "$.error_code"); ("event_name", VStr event_name);
       ("schema_version", VInt schema_version)]) in
  match dget_or "error_code" VNone payload with
  | VNone => mret ()
  | VStr code =>
      if error_code_registered code then mret ()
      else invalid "The event payload error_code is not registered"
  | _ => invalid "The event payload error_code must be a registered string"
  end.

Definition opt_uuid (o : option uuid) : val :=
  match o with Some u => VStr (uuid_str u) | None => VNone end.
Definition opt_int (o : option Z) : val :=
  match o with Some z => VInt z | None => VNone end.
Definition opt_str (o : option string) : val :=
  match o with Some s => VStr s | None => VNone end.

(** [build_event_envelope]: the JSON document of an event. *)
Definition build_event_envelope (e : Event) : dict :=
  [("id", VStr (uuid_str (Event.id e)));
   ("event_id", VStr (uuid_str (Event.id e)));
   ("organization_id", VStr (uuid_str (Event.organization_id e)));
   ("aggregate_type", VStr (Event.aggregate_type e));
   ("aggregate_id", VStr (uuid_str (Event.aggregate_id e)));
   ("sequence", VInt (Event.sequence e));
   ("name", VStr (Event.name e));
   ("run_id", opt_uuid (Event.run_id e));
   ("run_sequence", opt_int (Event.run_sequence e));
   ("causation_id", opt_uuid (Event.causation_id e));
   ("correlation_id", VStr (uuid_str (Event.correlation_id e)));
   ("actor_type", VStr (value_of (Event.actor_type e)));
   ("actor_id", opt_uuid (Event.actor_id e));
   ("schema_version", VInt (Event.schema_version e));
   ("classification", VStr (value_of (Event.classification e)));
   ("payload", VDict (Event.payload e));
   ("created_at", VStr (iso_z (Event.created_at e)))].

Definition validate_event_envelope {S} (envelope : dict) (event_name : option string)
    (schema_version : option Z) : Py S unit :=
  canonical ← canonicalize_json (obj_of (VDict envelope));
  match canonical with
  | VDict canonical_envelope =>
      let details := [("event_name", opt_str event_name);
                      ("schema_version", opt_int schema_version)] in
      raise_if (negb (py_eq (dget_or "id" VNone canonical_envelope)
                            (dget_or "event_id" VNone canonical_envelope)))
        (ValidationError "event_envelope_schema_invalid"
          "The Event envelope id and event_id must identify the same Event"
          (("path", VStr "$.event_id") :: details));;
      _validate_instance envelope_validator canonical "event_envelope_schema_invalid"
        "The Event envelope does not satisfy the frozen schema" details
  | _ => raise (ValidationError "event_envelope_schema_invalid"
                  "The Event envelope must be a JSON object" [])
  end.
End Contracts.

(** ** Drafts *)

Module EventDraft.
Record EventDraft : Type := Make {
  name : string;
  aggregate_type : string;
  aggregate_id : uuid;
  organization_id : uuid;
  correlation_id : uuid;
  actor_type : ActorType;
  actor_id : option uuid;
  payload : list (obj * obj);
  run_id : option uuid;
  causation_id : option uuid;
  classification : Classification;
  schema_version : Z;
  created_at : option Z
}.
End EventDraft.
Abbreviation EventDraft := EventDraft.EventDraft.

(** The dataclass with its defaults: only the fields without one are given. *)
Definition event_draft (name aggregate_type : string) (aggregate_id organization_id
    correlation_id : uuid) (actor_type : ActorType) (actor_id : option uuid) : EventDraft :=
  EventDraft.Make name aggregate_type aggregate_id organization_id correlation_id actor_type
    actor_id [] None None Classification.INTERNAL 1 None.

Module PreparedEventDraft.
Record PreparedEventDraft : Type := Make {
  event_id : uuid;
  created_at : Z;
  payload : dict
}.
End PreparedEventDraft.
Abbreviation PreparedEventDraft := PreparedEventDraft.PreparedEventDraft.

(** The event a draft becomes once its id, payload and sequence numbers are known. *)
Definition event_of (draft : EventDraft) (prepared : PreparedEventDraft) (sequence : Z)
    (run_sequence : option Z) : Event :=
  Event.Make (PreparedEventDraft.event_id prepared) (EventDraft.organization_id draft)
    (EventDraft.aggregate_type draft) (EventDraft.aggregate_id draft) sequence
    (EventDraft.name draft) (EventDraft.run_id draft) run_sequence
    (EventDraft.causation_id draft) (EventDraft.correlation_id draft)
    (EventDraft.actor_type draft) (EventDraft.actor_id draft) (EventDraft.schema_version draft)
    (EventDraft.classification draft) (PreparedEventDraft.payload prepared)
    (PreparedEventDraft.created_at prepared).

Section Preparation.
Context `{EventContracts}.

Definition prepare_event_draft {S} (event_id : uuid) (draft : EventDraft) (created_at : Z) :
    Py S PreparedEventDraft :=
  let name := EventDraft.name draft in
  let schema_version := EventDraft.schema_version draft in
  let details := [("event_name", VStr name); ("schema_version", VInt schema_version)] in
  match find_validator name schema_version with
  | None =>
      match supported_versions name with
      | [] => raise (ValidationError "event_name_unregistered"
                       "The event name is not registered" [("event_name", VStr name)])
      | versions => raise (ValidationError "event_schema_version_unsupported"
                       "The event schema version is not registered"
                       (details ++ [("supported_versions", VList (map VInt versions))]))
      end
  | Some payload_validator =>
      canonical_payload ← canonicalize_json (OMap (EventDraft.payload draft));
      match redact None canonical_payload with
      | VDict redacted_payload =>
          _validate_instance payload_validator (VDict redacted_payload)
            "event_payload_schema_invalid"
            "The event payload does not satisfy its registered schema" details;;
          _validate_payload_error_code redacted_payload name schema_version;;
          let prepared := PreparedEventDraft.Make event_id created_at redacted_payload in
          let run_sequence := match EventDraft.run_id draft with Some _ => Some 1%Z | None => None end in
          validate_event_envelope (build_event_envelope (event_of draft prepared 1 run_sequence))
            (Some name) (Some schema_version);;
          mret prepared
      | _ => raise (ValidationError "event_payload_not_object"
                      "The event payload must be a JSON object" details)
      end
  end.
End Preparation.

(** Validation only reads. *)
Section Purity.
Context `{EventContracts} {S : Type}.

#[export] Instance canonicalize_pure o : Pure (S := S) (canonicalize_json o).
Proof.
  intros s. unfold canonicalize_json. pose proof (canonicalize_result o "$" s) as Hc.
  unfold wp. destruct (json_safe o); by destruct Hc as (? & -> & _).
Qed.

#[export] Instance validate_instance_pure it i c m d :
  Pure (S := S) (_validate_instance it i c m d).
Proof. unfold _validate_instance. destruct (order_by _ _); apply _. Qed.

#[export] Instance error_code_pure p n v : Pure (S := S) (_validate_payload_error_code p n v).
Proof. unfold _validate_payload_error_code. destruct (dget_or _ _ _); apply _. Qed.

#[export] Instance validate_envelope_pure e n v : Pure (S := S) (validate_event_envelope e n v).
Proof. apply bind_pure; [apply _|]. intros []; apply _. Qed.

#[export] Instance prepare_pure i d t : Pure (S := S) (prepare_event_draft i d t).
Proof.
  unfold prepare_event_draft. destruct (find_validator _ _); [|destruct (supported_versions _); apply _].
  apply bind_pure; [apply _|]. intros v. destruct (redact None v); apply _.
Qed.
End Purity.

(** ** The event store *)

Section EventStore.
Context `{Environment, EventContracts}.

(** [UPDATE runs SET aggregate_version = aggregate_version + 1 ... RETURNING]. *)
Definition bump_run (run_id organization_id : uuid) : Py Kernel (option Z) := λ k,
  match runs k !! run_id with
  | Some r =>
      if bool_decide (Run.organization_id r = organization_id) then
        let v := (Run.aggregate_version r + 1)%Z in
        Ok (Some v) (k <| runs := <[run_id := with_version v r]> (runs k) |>)
      else Ok None k
  | None => Ok None k
  end.

(** [INSERT INTO aggregate_heads ... ON CONFLICT DO UPDATE ... WHERE ... RETURNING]. *)
Definition upsert_head (draft : EventDraft) (now : Z) : Py Kernel (option Z) := λ k,
  let key := (EventDraft.aggregate_type draft, EventDraft.aggregate_id draft) in
  let head sequence := AggregateHead.Make (EventDraft.organization_id draft)
    (EventDraft.aggregate_type draft) (EventDraft.aggregate_id draft) sequence now in
  match aggregate_heads k !! key with
  | None => Ok (Some 1%Z) (k <| aggregate_heads := <[key := head 1%Z]> (aggregate_heads k) |>)
  | Some h =>
      if bool_decide (AggregateHead.organization_id h = EventDraft.organization_id draft) then
        let v := (AggregateHead.sequence h + 1)%Z in
        Ok (Some v) (k <| aggregate_heads := <[key := head v]> (aggregate_heads k) |>)
      else Ok None k
  end.

(** [session.add(event); session.add(OutboxMessage(...)); flush]: the insertion
    fails when an id is taken. *)
Definition insert_event (event : Event) (topic : string) (envelope : dict) : Py Kernel unit :=
  outbox_id ← new_id;
  taken ← gets (λ k,
    existsb (λ e, bool_decide (Event.id e = Event.id event)) (events k) ||
    existsb (λ m, bool_decide (OutboxMessage.id m = outbox_id)) (outbox_messages k));
  raise_if taken (PyError "IntegrityError");;
  modify (λ k, k <| events := (events k ++ [event])%list |>
                 <| outbox_messages := (outbox_messages k ++
                      [OutboxMessage.Make outbox_id (Event.id event) topic envelope
                         (Event.created_at event) None 0])%list |>).

Definition _append_prepared (draft : EventDraft) (prepared : PreparedEventDraft) (now : Z) :
    Py Kernel Event :=
  run_sequence ←
    match EventDraft.run_id draft with
    | None => mret None
    | Some run_id =>
        v ← bump_run run_id (EventDraft.organization_id draft);
        match v with
        | None => raise (ConflictError "event_run_missing"
                           "A Run-associated event requires an existing Run"
                           [("run_id", VStr (uuid_str run_id))])
        | Some v => mret (Some v)
        end
    end;
  raise_if (negb (bool_decide (dialect = "postgresql") || bool_decide (dialect = "sqlite")))
    (PyError "ValueError");;
  sequence ← upsert_head draft now;
  match sequence with
  | None => raise (PyError "ValueError")
  | Some sequence =>
      let event := event_of draft prepared sequence run_sequence in
      let envelope := build_event_envelope event in
      validate_event_envelope envelope (Some (Event.name event)) (Some (Event.schema_version event));;
      insert_event event ("obsion." +:+ EventDraft.name draft) envelope;;
      mret event
  end.

Definition append (draft : EventDraft) : Py Kernel Event :=
  now ← match EventDraft.created_at draft with Some t => mret t | None => utc_now end;
  event_id ← new_id;
  prepared ← prepare_event_draft event_id draft now;
  savepoint (_append_prepared draft prepared now).

Definition run_sequence_or_zero (e : Event) : Z := default 0%Z (Event.run_sequence e).

Definition list_run (organization_id run_id : uuid) (after_sequence : Z) (limit : nat)
    (k : Kernel) : list Event :=
  take limit (order_by (λ e1 e2, (run_sequence_or_zero e1 <=? run_sequence_or_zero e2)%Z)
    (filter (λ e, Event.organization_id e = organization_id ∧ Event.run_id e = Some run_id ∧
                  (after_sequence < run_sequence_or_zero e)%Z) (events k))).

Definition list_aggregate (organization_id : uuid) (aggregate_type : string)
    (aggregate_id : uuid) (after_sequence : Z) (limit : nat) (k : Kernel) : list Event :=
  take limit (order_by (λ e1 e2, (Event.sequence e1 <=? Event.sequence e2)%Z)
    (filter (λ e, Event.organization_id e = organization_id ∧
                  (Event.aggregate_type e = aggregate_type ∧ Event.aggregate_id e = aggregate_id) ∧
                  (after_sequence < Event.sequence e)%Z) (events k))).

(** [list_workspace]: the events of Runs whose turn belongs to a thread of the
    workspace, latest first. *)
Definition run_workspace (k : Kernel) (run_id : uuid) : option uuid :=
  r ← runs k !! run_id;
  turn ← turns (directory k) !! Run.turn_id r;
  thread ← threads (directory k) !! Turn.thread_id turn;
  mret (Thread.workspace_id thread).

Definition list_workspace (organization_id workspace_id : uuid) (limit : nat) (k : Kernel) :
    list Event :=
  take limit (order_by (λ e1 e2, (Event.created_at e2 <=? Event.created_at e1)%Z)
    (filter (λ e, Event.organization_id e = organization_id ∧
       (r ← Event.run_id e ≫= λ id, runs k !! id; Some (Run.organization_id r)) = Some organization_id ∧
       Event.run_id e ≫= run_workspace k = Some workspace_id) (events k))).
End EventStore.

(** ** The audit log *)

Module AuditDraft.
Record AuditDraft : Type := Make {
  organization_id : uuid;
  correlation_id : uuid;
  actor_type : ActorType;
  actor_id : option uuid;
  action : string;
  resource_type : string;
  outcome : string;
  resource_id : option string;
  risk_level : option RiskLevel;
  policy_decision_id : option uuid;
  approval_id : option uuid;
  metadata : list (string * obj);
  latency_ms : option Z;
  agent_version_id : option uuid;
  model_profile_id : option uuid;
  capability_version_id : option uuid;
  resource : option (list (string * obj));
  result_classification : option Classification
}.
End AuditDraft.
Abbreviation AuditDraft := AuditDraft.AuditDraft.

(** The dataclass with its defaults. *)
Definition audit_draft (organization_id correlation_id : uuid) (actor_type : ActorType)
    (actor_id : option uuid) (action resource_type outcome : string) : AuditDraft :=
  AuditDraft.Make organization_id correlation_id actor_type actor_id action resource_type outcome
    None None None None [] None None None None None None.

(** [metadata.setdefault(key, value)] *)
Fixpoint setdefault {A} (key : string) (value : A) (d : list (string * A)) : list (string * A) :=
  match d with
  | [] => [(key, value)]
  | (k, v) :: d' => if bool_decide (k = key) then d else (k, v) :: setdefault key value d'
  end.

Definition omap_of (d : list (string * obj)) : obj := OMap (map (λ '(k, v), (OStr k, v)) d).

(** The dimensions copied into the metadata, in the order of the code. *)
Definition canonical_dimensions (draft : AuditDraft) : list (string * option obj) :=
  [("agent_version_id", OUuid <$> AuditDraft.agent_version_id draft);
   ("model_profile_id", OUuid <$> AuditDraft.model_profile_id draft);
   ("capability_version_id", OUuid <$> AuditDraft.capability_version_id draft);
   ("resource", omap_of <$> AuditDraft.resource draft);
   ("policy_decision_id", OUuid <$> AuditDraft.policy_decision_id draft);
   ("approval_id", OUuid <$> AuditDraft.approval_id draft);
   ("risk_level", (λ r, OEnum (value_of r)) <$> AuditDraft.risk_level draft);
   ("result_classification", (λ c, OEnum (value_of c)) <$> AuditDraft.result_classification draft);
   ("latency_ms", OInt <$> AuditDraft.latency_ms draft)].

Definition audit_metadata (draft : AuditDraft) : list (string * obj) :=
  fold_left (λ metadata '(key, value),
    match value with Some v => setdefault key v metadata | None => metadata end)
    (canonical_dimensions draft) (AuditDraft.metadata draft).

(** FastAPI's [jsonable_encoder]: the encoded document, or the class of the built-in
    exception it raises. *)
Class JsonEncoder := jsonable_encoder : obj → string + val.

Section AuditWriter.
Context `{Environment, JsonEncoder}.

Definition write (draft : AuditDraft) : Py Kernel AuditRecord :=
  record_id ← new_id;
  encoded ← match jsonable_encoder (omap_of (audit_metadata draft)) with
            | inl class => raise (PyError class)
            | inr v => mret v
            end;
  now ← utc_now;
  let record := AuditRecord.Make record_id (AuditDraft.organization_id draft)
    (AuditDraft.correlation_id draft) (AuditDraft.actor_type draft) (AuditDraft.actor_id draft)
    (AuditDraft.action draft) (AuditDraft.resource_type draft) (AuditDraft.resource_id draft)
    (AuditDraft.outcome draft) (AuditDraft.risk_level draft)
    (AuditDraft.policy_decision_id draft) (AuditDraft.approval_id draft)
    (redact None encoded) (AuditDraft.latency_ms draft) now in
  taken ← gets (λ k, existsb (λ r, bool_decide (AuditRecord.id r = record_id)) (audit_logs k));
  raise_if taken (PyError "IntegrityError");;
  modify (λ k, k <| audit_logs := (audit_logs k ++ [record])%list |>);;
  mret record.

#[export] Instance write_recording d : Recording (write d).
Proof.
  unfold write. apply bind_recording; [apply _|]. intros i.
  apply bind_recording; [destruct (jsonable_encoder _); apply _|]. intros v.
  apply bind_recording; [apply _|]. intros t. apply bind_recording; [apply _|]. intros b.
  apply bind_recording; [apply _|]. intros _. apply bind_recording; [|apply _].
  intros k. apply wp_modify. split; try done; [apply same_runs|..]; by apply prefix_app_r.
Qed.
End AuditWriter.

(** ** Exceptions

    Validation and the store raise errors of the event family or Python's own; the audit
    writer only Python's own. *)

Definition event_error (e : exn) : Prop :=
  match error_code_of e with Some code => String.prefix "event_" code = true | None => True end.

Definition python_error (e : exn) : Prop := error_code_of e = None.

Section Exceptions.
Context `{Environment, EventContracts, JsonEncoder}.

#[export] Instance canonicalize_raises {S} o : Raises (S := S) event_error (canonicalize_json o).
Proof.
  intros s. unfold canonicalize_json, wp. pose proof (canonicalize_result o "$" s) as Hc.
  destruct (json_safe o); [by destruct Hc as (? & -> & _)|]. destruct Hc as (e & -> & He).
  unfold event_error. by rewrite He.
Qed.

#[export] Instance validate_payload_raises {S} it i m d :
  Raises (S := S) event_error (_validate_instance it i "event_payload_schema_invalid" m d).
Proof. unfold _validate_instance. destruct (order_by _ _); apply _. Qed.

#[export] Instance validate_envelope_instance_raises {S} it i m d :
  Raises (S := S) event_error (_validate_instance it i "event_envelope_schema_invalid" m d).
Proof. unfold _validate_instance. destruct (order_by _ _); apply _. Qed.

#[export] Instance error_code_raises {S} p n v :
  Raises (S := S) event_error (_validate_payload_error_code p n v).
Proof. unfold _validate_payload_error_code. destruct (dget_or _ _ _); apply _. Qed.

#[export] Instance validate_envelope_raises {S} e n v :
  Raises (S := S) event_error (validate_event_envelope e n v).
Proof. apply bind_raises; [apply _|]. intros []; apply _. Qed.

#[export] Instance prepare_raises {S} i d t : Raises (S := S) event_error (prepare_event_draft i d t).
Proof.
  unfold prepare_event_draft.
  destruct (find_validator _ _); [|destruct (supported_versions _); apply _].
  apply bind_raises; [apply _|]. intros v. destruct (redact None v); apply _.
Qed.

#[export] Instance append_prepared_raises d p t : Raises event_error (_append_prepared d p t).
Proof.
  unfold _append_prepared. apply bind_raises.
  - destruct (EventDraft.run_id d) as [u|]; [|apply _]. apply bind_raises; [|intros []; apply _].
    intros k. unfold wp, bump_run. destruct (runs k !! u); [|done]. by case_bool_decide.
  - intros rs. apply bind_raises; [apply _|]. intros _. apply bind_raises.
    + intros k. unfold wp, upsert_head. destruct (aggregate_heads k !! _); [|done]. by case_bool_decide.
    + intros [sequence|]; [|apply _]. apply bind_raises; [apply _|]. intros _.
      apply bind_raises; [|intros _; apply _]. unfold insert_event.
      apply bind_raises; [done|]. intros i. apply _.
Qed.

#[export] Instance append_raises d : Raises event_error (append d).
Proof.
  unfold append. apply bind_raises.
  { destruct (EventDraft.created_at d); [apply _|]. intros k. unfold wp, utc_now. by destruct (readings k). }
  intros t. apply bind_raises; [done|]. intros i. apply bind_raises; [apply _|]. intros p k.
  apply wp_savepoint. apply append_prepared_raises.
Qed.

#[export] Instance write_raises d : Raises python_error (write d).
Proof.
  unfold write. apply bind_raises; [done|]. intros i.
  apply bind_raises; [destruct (jsonable_encoder _); apply _|]. intros v.
  apply bind_raises; [intros k; unfold wp, utc_now; by destruct (readings k)|]. intros t. apply _.
Qed.
End Exceptions.

(** ** Recording *)

Section Recording.
Context `{Environment, EventContracts}.

#[export] Instance bump_run_recording r o : Recording (bump_run r o).
Proof.
  intros k. unfold wp, bump_run. destruct (runs k !! r) as [row|] eqn:Hr; [|done].
  case_bool_decide; [|done]. split; try done. intros id. rec_simpl.
  destruct (decide (id = r)) as [->|Hne].
  - rewrite lookup_insert_eq, Hr. by eexists.
  - rewrite lookup_insert_ne by done. apply same_runs.
Qed.

#[export] Instance upsert_head_recording d t : Recording (upsert_head d t).
Proof.
  intros k. unfold wp, upsert_head. destruct (aggregate_heads k !! _); [case_bool_decide; [|done]|].
  all: split; try done; apply same_runs.
Qed.

#[export] Instance insert_event_recording e t d : Recording (insert_event e t d).
Proof.
  unfold insert_event. apply _ || (apply bind_recording; [apply _|]; intros i).
  apply bind_recording; [apply _|]. intros b. apply bind_recording; [apply _|]. intros _ k.
  apply wp_modify. split; try done; [apply same_runs|..]; by apply prefix_app_r.
Qed.

#[export] Instance append_prepared_recording d p t : Recording (_append_prepared d p t).
Proof.
  unfold _append_prepared. apply bind_recording.
  - destruct (EventDraft.run_id d); [|apply _]. apply bind_recording; [apply _|].
    intros []; apply _.
  - intros rs. apply bind_recording; [apply _|]. intros _. apply bind_recording; [apply _|].
    intros [sequence|]; apply _.
Qed.

#[export] Instance append_recording d : Recording (append d).
Proof. unfold append. apply bind_recording; [destruct (EventDraft.created_at d)|]; apply _. Qed.
End Recording.
