(* ===== verification/EventLog.v ===== *)
(** * What the event store promises

    [appended] is the abstract specification of a successful append; [ledger] is the
    invariant of the event tables.  The file proves that [EventStore.append] refines
    the former, that the latter holds after any sequence of appends, and that paging
    through a Run's events misses and repeats nothing. *)

From S2P Require Import Prelude PyText PyVal Redaction Enums Models Kernel CanonicalJson Events.

(** ** Abstract append *)

Definition event_key (e : Event) : string * uuid := (Event.aggregate_type e, Event.aggregate_id e).

(** The outbox message of an event. *)
Definition publishes (e : Event) (m : OutboxMessage) : Prop :=
  OutboxMessage.event_id m = Event.id e ∧
  OutboxMessage.topic m = "obsion." +:+ Event.name e ∧
  OutboxMessage.payload m = build_event_envelope e ∧
  OutboxMessage.created_at m = Event.created_at e.

Record appended (k : Kernel) (e : Event) (k' : Kernel) : Prop := {
  appended_fresh e' : e' ∈ events k → Event.id e' ≠ Event.id e;
  appended_events : events k' = (events k ++ [e])%list;
  appended_outbox : ∃ m, outbox_messages k' = (outbox_messages k ++ [m])%list ∧ publishes e m;
  appended_sequence :
    match aggregate_heads k !! event_key e with
    | None => Event.sequence e = 1%Z
    | Some h => AggregateHead.organization_id h = Event.organization_id e ∧
                Event.sequence e = (AggregateHead.sequence h + 1)%Z
    end;
  appended_heads : ∃ t, aggregate_heads k' =
    <[event_key e := AggregateHead.Make (Event.organization_id e) (Event.aggregate_type e)
                       (Event.aggregate_id e) (Event.sequence e) t]> (aggregate_heads k);
  appended_run :
    match Event.run_id e with
    | None => Event.run_sequence e = None ∧ runs k' = runs k
    | Some id => ∃ r, runs k !! id = Some r ∧ Run.organization_id r = Event.organization_id e ∧
        Event.run_sequence e = Some (Run.aggregate_version r + 1)%Z ∧
        runs k' = <[id := with_version (Run.aggregate_version r + 1) r]> (runs k)
    end;
  appended_other : directory k' = directory k ∧ policies k' = policies k ∧
    policy_decisions k' = policy_decisions k ∧ audit_logs k' = audit_logs k
}.

(** ** The invariant *)

(** [1, 2, ..., n] *)
Definition numbers (n : nat) : list Z := Z.of_nat <$> seq 1 n.

Definition aggregate_events (key : string * uuid) (k : Kernel) : list Event :=
  filter (λ e, event_key e = key) (events k).

Definition run_events (id : uuid) (k : Kernel) : list Event :=
  filter (λ e, Event.run_id e = Some id) (events k).

Record ledger (k : Kernel) : Prop := {
  ledger_sequences key :
    Event.sequence <$> aggregate_events key k = numbers (length (aggregate_events key k));
  ledger_heads key :
    match aggregate_heads k !! key with
    | Some h => AggregateHead.sequence h = Z.of_nat (length (aggregate_events key k)) ∧
        ∀ e, e ∈ aggregate_events key k → Event.organization_id e = AggregateHead.organization_id h
    | None => aggregate_events key k = []
    end;
  ledger_runs id r : runs k !! id = Some r →
    Run.aggregate_version r = Z.of_nat (length (run_events id k)) ∧
    Event.run_sequence <$> run_events id k = Some <$> numbers (length (run_events id k)) ∧
    ∀ e, e ∈ run_events id k → Event.organization_id e = Run.organization_id r;
  ledger_known_run e id : e ∈ events k → Event.run_id e = Some id → is_Some (runs k !! id);
  ledger_no_run e : e ∈ events k → Event.run_id e = None → Event.run_sequence e = None;
  ledger_ids : NoDup (Event.id <$> events k);
  ledger_outbox : Forall2 publishes (events k) (outbox_messages k)
}.

Lemma numbers_S n : numbers (S n) = (numbers n ++ [Z.of_nat (S n)])%list.
Proof. unfold numbers. rewrite seq_S, fmap_app. done. Qed.

Lemma aggregate_events_snoc k k' e key :
  events k' = (events k ++ [e])%list →
  aggregate_events key k' =
    (aggregate_events key k ++ if decide (event_key e = key) then [e] else [])%list.
Proof. intros He. unfold aggregate_events. rewrite He, filter_app, filter_cons. done. Qed.

Lemma run_events_snoc k k' e id :
  events k' = (events k ++ [e])%list →
  run_events id k' =
    (run_events id k ++ if decide (Event.run_id e = Some id) then [e] else [])%list.
Proof. intros He. unfold run_events. rewrite He, filter_app, filter_cons. done. Qed.

Lemma appended_same k k1 e k' : same_tables k k1 → appended k1 e k' → appended k e k'.
Proof. intros ->. by intros []; split. Qed.

Lemma ledger_same k k' : same_tables k k' → ledger k → ledger k'.
Proof. intros ->. by intros []; split. Qed.

Lemma ledger_empty k :
  aggregate_heads k = ∅ → events k = [] → outbox_messages k = [] →
  (∀ id r, runs k !! id = Some r → Run.aggregate_version r = 0%Z) → ledger k.
Proof.
  intros Hh He Ho Hr. split; unfold aggregate_events, run_events; rewrite ?Hh, ?He, ?Ho; cbn.
  - done.
  - intros key. by rewrite lookup_empty.
  - intros id r Hid. split; [by eapply Hr|]. split; [done|]. by intros e ?%not_elem_of_nil.
  - by intros e id ?%not_elem_of_nil.
  - by intros e ?%not_elem_of_nil.
  - constructor.
  - constructor.
Qed.

Section Preservation.
Context {k k' : Kernel} {e : Event} (Hk : ledger k) (Happ : appended k e k').

Lemma appended_number : Event.sequence e = Z.of_nat (S (length (aggregate_events (event_key e) k))).
Proof.
  pose proof (appended_sequence _ _ _ Happ) as Hs. pose proof (ledger_heads _ Hk (event_key e)) as Hh.
  destruct (aggregate_heads k !! event_key e); [lia|]. rewrite Hh. cbn. lia.
Qed.

Lemma appended_sequences key :
  Event.sequence <$> aggregate_events key k' = numbers (length (aggregate_events key k')).
Proof.
  rewrite (aggregate_events_snoc _ _ _ _ (appended_events _ _ _ Happ)).
  case_decide as Hkey; [|by rewrite app_nil_r; apply ledger_sequences].
  rewrite fmap_app, (ledger_sequences _ Hk), length_app, Nat.add_1_r, numbers_S. subst key.
  cbn. by rewrite appended_number.
Qed.

Lemma appended_ledger_heads key :
  match aggregate_heads k' !! key with
  | Some h => AggregateHead.sequence h = Z.of_nat (length (aggregate_events key k')) ∧
      ∀ e', e' ∈ aggregate_events key k' → Event.organization_id e' = AggregateHead.organization_id h
  | None => aggregate_events key k' = []
  end.
Proof.
  destruct (appended_heads _ _ _ Happ) as [t ->].
  rewrite (aggregate_events_snoc _ _ _ _ (appended_events _ _ _ Happ)).
  pose proof (ledger_heads _ Hk key) as Hh. case_decide as Hkey.
  - subst key. rewrite lookup_insert_eq. cbn. rewrite appended_number, length_app, Nat.add_1_r.
    split; [done|]. intros e' [He'|He'%list_elem_of_singleton]%elem_of_app; [|by subst e'].
    pose proof (appended_sequence _ _ _ Happ) as Hs.
    destruct (aggregate_heads k !! event_key e) as [h|].
    + destruct Hs as [<- _]. by apply Hh.
    + rewrite Hh in He'. by apply not_elem_of_nil in He'.
  - rewrite lookup_insert_ne by done. by rewrite app_nil_r.
Qed.

Lemma appended_ledger_runs id r : runs k' !! id = Some r →
  Run.aggregate_version r = Z.of_nat (length (run_events id k')) ∧
  Event.run_sequence <$> run_events id k' = Some <$> numbers (length (run_events id k')) ∧
  ∀ e', e' ∈ run_events id k' → Event.organization_id e' = Run.organization_id r.
Proof.
  pose proof (appended_run _ _ _ Happ) as Hr.
  rewrite (run_events_snoc _ _ _ _ (appended_events _ _ _ Happ)). case_decide as Hid.
  - rewrite Hid in Hr. destruct Hr as (r0 & Hr0 & Horg & Hseq & ->). rewrite lookup_insert_eq.
    intros [= <-]. destruct (ledger_runs _ Hk _ _ Hr0) as (Hv & Hs & Ho).
    rewrite length_app, Nat.add_1_r, fmap_app, Hs, numbers_S, fmap_app. unfold with_version. rec_simpl. split; [lia|].
    split; [by rewrite Hseq, Hv, Nat2Z.inj_succ|].
    intros e' [He'|He'%list_elem_of_singleton]%elem_of_app; [by apply Ho|by subst e'].
  - rewrite app_nil_r. intros Hid'. apply (ledger_runs _ Hk).
    destruct (Event.run_id e) as [id'|]; [|by destruct Hr as [_ <-]].
    destruct Hr as (r0 & _ & _ & _ & Hruns). rewrite Hruns, lookup_insert_ne in Hid' by congruence.
    done.
Qed.

Lemma appended_ledger : ledger k'.
Proof.
  pose proof (appended_events _ _ _ Happ) as He. pose proof (appended_run _ _ _ Happ) as Hr.
  split.
  - apply appended_sequences.
  - apply appended_ledger_heads.
  - apply appended_ledger_runs.
  - intros e' id. rewrite He. intros [He'|He'%list_elem_of_singleton]%elem_of_app Hid.
    + pose proof (ledger_known_run _ Hk _ _ He' Hid) as Hex.
      destruct (Event.run_id e) as [id'|]; [|by destruct Hr as [_ ->]].
      destruct Hr as (r0 & _ & _ & _ & ->). rewrite lookup_insert_is_Some'. by right.
    + subst e'. rewrite Hid in Hr. destruct Hr as (r0 & _ & _ & _ & ->).
      rewrite lookup_insert_is_Some'. by left.
  - intros e'. rewrite He. intros [He'|He'%list_elem_of_singleton]%elem_of_app Hid.
    + by apply (ledger_no_run _ Hk).
    + subst e'. rewrite Hid in Hr. by destruct Hr.
  - rewrite He, fmap_app. apply NoDup_app. split; [apply (ledger_ids _ Hk)|].
    split; [|apply NoDup_singleton]. cbn.
    intros x (e' & -> & He')%list_elem_of_fmap Hx%list_elem_of_singleton.
    by eapply (appended_fresh _ _ _ Happ).
  - destruct (appended_outbox _ _ _ Happ) as (m & -> & Hm). rewrite He.
    apply Forall2_app; [apply (ledger_outbox _ Hk)|]. by constructor.
Qed.
End Preservation.

(** ** The event store refines the abstract append *)

Section Refinement.
Context `{Environment, EventContracts}.

(** The event carries the draft's fields and its redacted canonical payload. *)
Record drafted (draft : EventDraft) (e : Event) : Prop := {
  drafted_name : Event.name e = EventDraft.name draft;
  drafted_aggregate :
    event_key e = (EventDraft.aggregate_type draft, EventDraft.aggregate_id draft);
  drafted_organization : Event.organization_id e = EventDraft.organization_id draft;
  drafted_run : Event.run_id e = EventDraft.run_id draft;
  drafted_causation : Event.causation_id e = EventDraft.causation_id draft;
  drafted_correlation : Event.correlation_id e = EventDraft.correlation_id draft;
  drafted_actor : Event.actor_type e = EventDraft.actor_type draft ∧
                  Event.actor_id e = EventDraft.actor_id draft;
  drafted_version : Event.schema_version e = EventDraft.schema_version draft ∧
                    Event.classification e = EventDraft.classification draft;
  drafted_payload : ∃ v, canonicalize_json (OMap (EventDraft.payload draft)) () = Ok v () ∧
                    redact None v = VDict (Event.payload e);
  drafted_registered : is_Some (find_validator (EventDraft.name draft) (EventDraft.schema_version draft))
}.

Definition prepared_for (draft : EventDraft) (p : PreparedEventDraft) : Prop :=
  is_Some (find_validator (EventDraft.name draft) (EventDraft.schema_version draft)) ∧
  ∃ v, canonicalize_json (OMap (EventDraft.payload draft)) () = Ok v () ∧
       redact None v = VDict (PreparedEventDraft.payload p).

Lemma drafted_event_of draft p n rs : prepared_for draft p → drafted draft (event_of draft p n rs).
Proof. intros [Hreg Hp]. by split. Qed.

Lemma wp_prepare {S} (s : S) i draft t (Q : PreparedEventDraft → S → Prop) X :
  (∀ p, prepared_for draft p → PreparedEventDraft.event_id p = i →
        PreparedEventDraft.created_at p = t → Q p s) →
  (∀ e, X e s) →
  wp (prepare_event_draft i draft t) Q X s.
Proof.
  intros HQ HX. unfold prepare_event_draft. destruct (find_validator _ _) as [it|] eqn:Hreg.
  2: { destruct (supported_versions _); by apply wp_raise. }
  apply wp_bind. apply (wp_pure _); [|auto]. intros v Hv.
  destruct (redact None v) as [| | | | |payload] eqn:Hp; try by apply wp_raise.
  apply wp_bind. apply (wp_pure _); [|auto]. intros [] _.
  apply wp_bind. apply (wp_pure _); [|auto]. intros [] _.
  apply wp_bind. apply (wp_pure _); [|auto]. intros [] _.
  apply wp_ret. apply HQ; [|done..]. split; [by rewrite Hreg|]. exists v.
  split; [|done]. by apply (canonicalize_ok_any _ s).
Qed.

(** What bumping the Run's counter has done before the event is inserted. *)
Definition bumped (draft : EventDraft) (k : Kernel) (rs : option Z) (k1 : Kernel) : Prop :=
  match EventDraft.run_id draft with
  | None => rs = None ∧ k1 = k
  | Some id => ∃ r, runs k !! id = Some r ∧
      Run.organization_id r = EventDraft.organization_id draft ∧
      rs = Some (Run.aggregate_version r + 1)%Z ∧
      k1 = k <| runs := <[id := with_version (Run.aggregate_version r + 1) r]> (runs k) |>
  end.

Lemma wp_bump draft k (Q : option Z → Kernel → Prop) X :
  (∀ rs k1, bumped draft k rs k1 → Q rs k1) → (∀ e k1, X e k1) →
  wp (match EventDraft.run_id draft with
      | None => mret None
      | Some run_id =>
          v ← bump_run run_id (EventDraft.organization_id draft);
          match v with
          | None => raise (ConflictError "event_run_missing"
                             "A Run-associated event requires an existing Run"
                             [("run_id", VStr (uuid_str run_id))])
          | Some v => mret (Some v)
          end
      end) Q X k.
Proof.
  intros HQ HX. unfold bumped in HQ. destruct (EventDraft.run_id draft) as [id|]; [|by apply wp_ret, HQ].
  apply wp_bind. unfold wp at 1, bump_run. destruct (runs k !! id) as [r|] eqn:Hr; [|by apply wp_raise].
  case_bool_decide; [|by apply wp_raise]. apply wp_ret, HQ. by exists r.
Qed.

Lemma wp_insert_event e topic envelope k (Q : () → Kernel → Prop) X :
  (∀ m, (∀ e', e' ∈ events k → Event.id e' ≠ Event.id e) →
     OutboxMessage.event_id m = Event.id e ∧ OutboxMessage.topic m = topic ∧
     OutboxMessage.payload m = envelope ∧ OutboxMessage.created_at m = Event.created_at e →
     Q () (k <| next_id := S (next_id k) |> <| events := (events k ++ [e])%list |>
             <| outbox_messages := (outbox_messages k ++ [m])%list |>)) →
  (∀ err k', X err k') →
  wp (insert_event e topic envelope) Q X k.
Proof.
  intros HQ HX. unfold insert_event. apply wp_bind. unfold wp at 1, new_id.
  apply wp_bind, wp_gets. apply wp_bind, wp_raise_if; [done|]. intros Htaken.
  apply wp_modify. apply HQ; [|done]. split_bool. intros e' He' Hid.
  assert (existsb (λ e1, bool_decide (Event.id e1 = Event.id e)) (events k) = true) as Hex.
  { apply existsb_true. exists e'. by rewrite bool_decide_true. }
  unfold set in *; cbn in *. congruence.
Qed.

Lemma wp_append_prepared draft p t k (Q : Event → Kernel → Prop) X :
  prepared_for draft p →
  (∀ e k', appended k e k' → drafted draft e → Event.id e = PreparedEventDraft.event_id p →
     Event.created_at e = PreparedEventDraft.created_at p → Q e k') →
  (∀ e k', X e k') →
  wp (_append_prepared draft p t) Q X k.
Proof.
  intros Hp HQ HX. unfold _append_prepared. apply wp_bind. apply wp_bump; [|done]. intros rs k1 Hb.
  apply wp_bind, wp_raise_if; [done|]. intros _. apply wp_bind.
  unfold wp at 1, upsert_head.
  assert (aggregate_heads k1 = aggregate_heads k ∧ events k1 = events k ∧
          outbox_messages k1 = outbox_messages k) as (Hh1 & He1 & Ho1).
  { unfold bumped in Hb. destruct (EventDraft.run_id draft); [|by destruct Hb as [_ ->]].
    by destruct Hb as (r & _ & _ & _ & ->). }
  rewrite Hh1.
  set (key := (EventDraft.aggregate_type draft, EventDraft.aggregate_id draft)).
  assert (∀ n, match aggregate_heads k !! key with
               | None => n = 1%Z
               | Some h => AggregateHead.organization_id h = EventDraft.organization_id draft ∧
                           n = (AggregateHead.sequence h + 1)%Z
               end →
     let e := event_of draft p n rs in
     wp (validate_event_envelope (build_event_envelope e) (Some (Event.name e))
           (Some (Event.schema_version e));;
         insert_event e ("obsion." +:+ EventDraft.name draft) (build_event_envelope e);;
         mret e) Q X
       (k1 <| aggregate_heads := <[key := AggregateHead.Make (EventDraft.organization_id draft)
           (EventDraft.aggregate_type draft) (EventDraft.aggregate_id draft) n t]>
           (aggregate_heads k) |>)) as Hinsert.
  { intros n Hn e. apply wp_bind. apply (wp_pure _); [|auto]. intros _ _.
    apply wp_bind. apply wp_insert_event; [|done]. intros m Hfresh Hm. apply wp_ret.
    rec_simpl. rewrite He1 in Hfresh. apply HQ; [|by apply drafted_event_of|done..].
    split; rec_simpl; rewrite ?He1, ?Ho1; try done.
    - exists m. by split.
    - by exists t.
    - unfold bumped in Hb. destruct (EventDraft.run_id draft); [|by destruct Hb as [-> ->]].
      destruct Hb as (r & Hr & Horg & -> & ->). by exists r.
    - unfold bumped in Hb. destruct (EventDraft.run_id draft); [|by destruct Hb as [-> ->]].
      by destruct Hb as (r & Hr & Horg & -> & ->). }
  destruct (aggregate_heads k !! key) as [h|] eqn:Hh; [|by apply Hinsert].
  case_bool_decide as Horg; [|by apply wp_raise]. by apply Hinsert.
Qed.

Lemma wp_append draft k (Q : Event → Kernel → Prop) X :
  (∀ e k', appended k e k' → drafted draft e → Q e k') →
  (∀ e k', same_tables k k' → X e k') →
  wp (append draft) Q X k.
Proof.
  intros HQ HX. unfold append. apply wp_bind.
  apply (wp_mono _ (λ _ k1, same_tables k k1) _ (λ _ _, False)); [|intros t k1 Hk1|done].
  { destruct (EventDraft.created_at draft); [by apply wp_ret; destruct k|].
    unfold wp, utc_now. destruct (readings k) eqn:Hr; unfold same_tables; [by destruct k|done]. }
  apply wp_bind. unfold wp at 1, new_id.
  remember (k1 <| next_id := S (next_id k1) |>) as k2 eqn:Hk12.
  assert (same_tables k k2) as Hk2 by (unfold same_tables in *; subst k2; by rewrite Hk1).
  remember (uuid7 (next_id k1)) as i eqn:Hi. clear Hi Hk12 Hk1 k1. apply wp_bind. apply wp_prepare; [|by intros; apply HX].
  intros p Hp _ _. apply wp_savepoint. apply wp_append_prepared; [done|by eauto using appended_same|].
  intros e k' . apply HX. unfold same_tables in *. cbn. by rewrite Hk2.
Qed.
End Refinement.

(** ** Journaling

    Most handlers end by appending an event and writing an audit entry. *)

Record audited (d : AuditDraft) (r : AuditRecord) : Prop := {
  audited_organization : AuditRecord.organization_id r = AuditDraft.organization_id d;
  audited_correlation : AuditRecord.correlation_id r = AuditDraft.correlation_id d;
  audited_actor : AuditRecord.actor_type r = AuditDraft.actor_type d ∧
                  AuditRecord.actor_id r = AuditDraft.actor_id d;
  audited_action : AuditRecord.action r = AuditDraft.action d ∧
                   AuditRecord.outcome r = AuditDraft.outcome d;
  audited_resource : AuditRecord.resource_type r = AuditDraft.resource_type d ∧
                     AuditRecord.resource_id r = AuditDraft.resource_id d;
  audited_approval : AuditRecord.approval_id r = AuditDraft.approval_id d ∧
                     AuditRecord.policy_decision_id r = AuditDraft.policy_decision_id d;
  audited_redacted : no_sensitive_item (AuditRecord.redacted_metadata r) = true
}.

Lemma ledger_audit k (l : list AuditRecord) : ledger k → ledger (k <| audit_logs := l |>).
Proof. by intros []; split. Qed.

Section Journal.
Context `{Environment, EventContracts, JsonEncoder}.

(** One event and one audit entry later. *)
Record journaled (d : EventDraft) (a : AuditDraft) (k k' : Kernel) : Prop := {
  journaled_event : ∃ e, events k' = (events k ++ [e])%list ∧ drafted d e;
  journaled_audit : ∃ r, audit_logs k' = (audit_logs k ++ [r])%list ∧ audited a r;
  journaled_recorded : recorded k k';
  journaled_ledger : ledger k → ledger k'
}.

Lemma wp_write d k (Q : AuditRecord → Kernel → Prop) X :
  (∀ r k1, same_tables k k1 → audited d r →
     Q r (k1 <| audit_logs := (audit_logs k1 ++ [r])%list |>)) →
  (∀ e k', same_tables k k' → python_error e → X e k') →
  wp (write d) Q X k.
Proof.
  intros HQ HX. unfold write. apply wp_bind, wp_new_id. intros i k1 Hk1. apply wp_bind.
  destruct (jsonable_encoder _) as [c|v]; [by apply wp_raise, HX|]. apply wp_ret.
  apply wp_bind, wp_utc_now. intros t k2 Hk2. pose proof (same_tables_trans _ _ _ Hk1 Hk2) as Hk.
  apply wp_bind, wp_gets. apply wp_bind, wp_raise_if; [intros _; by apply HX|]. intros _.
  apply wp_bind, wp_modify. apply wp_ret. apply HQ; [done|]. split; try done. apply redact_nested.
Qed.

Lemma wp_append_event {S} `{Session S} (s : S) d (Q : Event → S → Prop) X :
  (∀ e k', appended (kernel s) e k' → drafted d e → recorded (kernel s) k' → Q e (set_kernel k' s)) →
  (∀ e k', event_error e → same_tables (kernel s) k' → X e (set_kernel k' s)) →
  wp (in_kernel (append d)) Q X s.
Proof.
  intros HQ HX. apply wp_in_kernel. apply (wp_raises event_error (append d)).
  pose proof (recording (m := append d) (kernel s)) as Hrec.
  assert (wp (append d) (λ e k', appended (kernel s) e k' ∧ drafted d e)
            (λ _ k', same_tables (kernel s) k') (kernel s)) as Happ by (by apply wp_append).
  eapply wp_mono; [apply (wp_and _ _ _ _ _ _ Hrec Happ)|naive_solver..].
Qed.

Lemma wp_journal {S B} `{Session S} (s : S) d a (m : Py S B) (Q : B → S → Prop) X :
  (∀ k', journaled d a (kernel s) k' → wp m Q X (set_kernel k' s)) →
  (∀ e k', event_error e → recorded (kernel s) k' → X e (set_kernel k' s)) →
  wp (in_kernel (append d);; in_kernel (write a);; m) Q X s.
Proof.
  intros HQ HX. apply wp_bind. apply wp_append_event.
  2: { intros e k' He ->. apply HX; [done|apply rollback_recorded]. }
  intros e k1 Happ Hd Hr1. apply wp_bind. apply wp_in_kernel. rewrite kernel_set_kernel.
  apply wp_write.
  - intros r k2 -> Hau. rewrite set_kernel_twice. apply HQ.
    pose proof (appended_events _ _ _ Happ) as He. split.
    + by exists e.
    + exists r. split; [|done]. cbn. destruct (appended_other _ _ _ Happ) as (_ & _ & _ & Haud).
      unfold set. cbn. by rewrite Haud.
    + etransitivity; [exact Hr1|]. split; try done; cbn.
      * apply same_runs.
      * by apply prefix_app_r.
    + intros Hl. apply ledger_audit. eapply ledger_same, appended_ledger; done.
  - intros e' k2 -> Hp. rewrite set_kernel_twice. apply HX.
    + unfold event_error. by rewrite Hp.
    + etransitivity; [exact Hr1|]. apply rollback_recorded.
Qed.

Lemma wp_event d k (Q : Event → Kernel → Prop) X :
  (∀ e k', drafted d e → events k' = (events k ++ [e])%list → recorded k k' → Q e k') →
  (∀ e k', event_error e → same_tables k k' → X e k') → wp (append d) Q X k.
Proof.
  intros HQ HX. assert (wp (in_kernel (S := Kernel) (append d)) Q X k) as Hwp.
  { apply wp_append_event; [|done]. intros e k' Ha Hd Hk. apply HQ; [done|apply Ha|done]. }
  unfold wp in *. by rewrite in_kernel_id in Hwp.
Qed.

Lemma wp_journal_kernel {B} d a k (m : Py Kernel B) (Q : B → Kernel → Prop) X :
  (∀ k', journaled d a k k' → wp m Q X k') → (∀ e k', event_error e → recorded k k' → X e k') →
  wp (append d;; write a;; m) Q X k.
Proof.
  intros HQ HX. assert (wp (in_kernel (S := Kernel) (append d);; in_kernel (write a);; m) Q X k) as Hwp
    by by apply wp_journal.
  unfold wp, mbind, M_bind in *. rewrite in_kernel_id in Hwp. destruct (append d k) as [e k1|]; [|done].
  by rewrite in_kernel_id in Hwp.
Qed.
End Journal.

(** ** Properties *)

Section Properties.
Context `{Environment, EventContracts}.

(** [C35] Appending an event refines the abstract specification: it either adds one
    event, the draft's own with its payload redacted at every depth, under the next
    sequence number of its aggregate and of its Run, together with one outbox
    message holding its envelope, and changes nothing else; or it raises and no
    table has changed, the sequence counters included. *)
Theorem append_refines draft k :
  match append draft k with
  | Ok e k' => appended k e k' ∧ drafted draft e ∧ no_sensitive_item (VDict (Event.payload e)) = true
  | Raise _ k' => same_tables k k'
  end.
Proof.
  apply (wp_append draft k (λ e k', _ ∧ _ ∧ _) (λ _ k', _)); [|done].
  intros e k' Ha Hd. split; [done|]. split; [done|].
  destruct (drafted_payload _ _ Hd) as (v & _ & <-). apply redact_nested.
Qed.

(** One append, whatever its outcome. *)
Definition append_step (k k' : Kernel) : Prop := ∃ draft, k' = final (append draft k).

Lemma append_step_ledger k k' : ledger k → append_step k k' → ledger k'.
Proof.
  intros Hk [draft ->].
  assert (wp (append draft) (λ _, ledger) (λ _, ledger) k) as Hwp.
  { apply wp_append; [by intros; eapply appended_ledger|]. intros e k' Hs. by eapply ledger_same. }
  unfold wp in Hwp. by destruct (append draft k).
Qed.

(** [C36] Whatever sequence of appends runs, and whether each succeeds or raises, the
    event tables stay a ledger: each aggregate's events are numbered 1, 2, ... up to
    its head without gap or repetition, each Run's events likewise up to its
    [aggregate_version], all inside one organization, event ids are unique and the
    outbox holds exactly the envelopes of the events, in their order. *)
Theorem ledger_reachable k k' : ledger k → steps append_step k k' → ledger k'.
Proof. intros Hk. apply steps_invariant; [apply append_step_ledger|done]. Qed.

Lemma filter_org_id (P : Event → Prop) `{∀ e, Decision (P e)} org l :
  (∀ e, e ∈ l → Event.organization_id e = org) →
  ∀ org', filter (λ e, Event.organization_id e = org' ∧ P e) l =
    if decide (org' = org) then filter P l else [].
Proof.
  intros Horg org'. induction l as [|e l IH]; [by case_decide|].
  rewrite !filter_cons, IH by (intros; apply Horg; by right).
  assert (Event.organization_id e = org) as He by (apply Horg; left).
  repeat case_decide; naive_solver.
Qed.

(** Paging through a Run or an aggregate misses nothing and repeats nothing: the
    page after sequence number [after] is the next [limit] events following the first
    [after] ones, for the organization that owns the Run or aggregate, and empty for
    every other organization. *)
Theorem pages_complete k org after limit : ledger k →
  (∀ id r, runs k !! id = Some r →
     list_run org id (Z.of_nat after) limit k =
       if decide (org = Run.organization_id r) then take limit (drop after (run_events id k)) else []) ∧
  (∀ type id h, aggregate_heads k !! (type, id) = Some h →
     list_aggregate org type id (Z.of_nat after) limit k =
       if decide (org = AggregateHead.organization_id h)
       then take limit (drop after (aggregate_events (type, id) k)) else []).
Proof.
  intros Hk. split.
  - intros id r Hr. destruct (ledger_runs _ Hk _ _ Hr) as (_ & Hs & Horg).
    unfold list_run. rewrite (list_filter_iff _ (λ e, (Event.organization_id e = org ∧
      (Z.of_nat after < run_sequence_or_zero e)%Z) ∧ Event.run_id e = Some id)) by naive_solver.
    rewrite <-list_filter_filter. fold (run_events id k).
    rewrite (filter_org_id _ _ _ Horg). case_decide; [|by destruct limit].
    eapply (numbered_page _ _ (length (run_events id k))).
    unfold run_sequence_or_zero. rewrite (list_fmap_compose Event.run_sequence (default 0%Z)), Hs.
    rewrite <-list_fmap_compose. apply list_fmap_id.
  - intros type id h Hh. pose proof (ledger_heads _ Hk (type, id)) as Hhead. rewrite Hh in Hhead.
    destruct Hhead as [_ Horg].
    unfold list_aggregate. rewrite (list_filter_iff _ (λ e, (Event.organization_id e = org ∧
      (Z.of_nat after < Event.sequence e)%Z) ∧ event_key e = (type, id)))
      by (unfold event_key; naive_solver).
    rewrite <-list_filter_filter. fold (aggregate_events (type, id) k).
    rewrite (filter_org_id _ _ _ Horg). case_decide; [|by destruct limit].
    eapply numbered_page, ledger_sequences, Hk.
Qed.
End Properties.

(** ** A sample database

    One organization (10) with a workspace (20), a thread (30), a turn (40) and a
    running Run (50), contracts that accept every payload of the sample's event names,
    and consecutive ids.  Witnesses of this and later files run in it. *)

Module Sample.

#[local] Instance environment : Environment := {| uuid7 n := N.of_nat (1000 + n); dialect := "sqlite" |}.

Definition event_names : list string :=
  ["run.created"; "approval.approved"; "approval.rejected"; "approval.expired"].

#[local] Instance contracts : EventContracts := {|
  payload_validators := map (λ name, ((name, 1%Z), λ _, [])) event_names;
  envelope_validator _ := [];
  error_code_registered _ := true
|}.

Definition workspace : Workspace :=
  Workspace.Make 20 10 1 Classification.INTERNAL Visibility.PRIVATE None "team" "" 0 0.
Definition thread : Thread := Thread.Make 30 10 20 ThreadStatus.ACTIVE 1 "talk" None None None 0 0.
Definition turn : Turn := Turn.Make 40 10 30 1 1 "question" "question" [] [] 0.
Definition run : Run :=
  Run.Make 50 10 40 RunStatus.WAITING_APPROVAL None [] [] None None None None None None None None 0 None [] [] [] 30 300 120000 16000 1000000000 None 0 [] None.

Definition directory : Directory :=
  MkDirectory ∅ ∅ ∅ [] {[20%N := workspace]} [] {[30%N := thread]} {[40%N := turn]}.

Definition kernel : Kernel :=
  MkKernel 0 [1000%Z; 2000%Z; 3000%Z] 0 directory ∅ {[50%N := run]} ∅ [] [] [] [].

Definition draft : EventDraft :=
  (event_draft "run.created" "run" 50 10 50 ActorType.SYSTEM None)
    <| EventDraft.run_id := Some 50%N |>
    <| EventDraft.payload := [(OStr "api_key", OStr "k"); (OStr "n", OInt 3)] |>.

Definition appended_once : Kernel := final (append draft kernel).
Definition appended_twice : Kernel := final (append draft appended_once).

Lemma kernel_ledger : ledger kernel.
Proof.
  apply ledger_empty; try done. intros id r. cbn. intros Hr.
  apply lookup_singleton_Some in Hr as [_ <-]. done.
Qed.

Lemma reached : steps append_step kernel appended_twice.
Proof.
  eapply steps_snoc; [eapply steps_one|]; by exists draft.
Qed.

End Sample.
#[local] Existing Instances Sample.environment Sample.contracts.

Lemma ledger_reachable_witness :
  ledger Sample.appended_twice ∧ Event.run_sequence <$> events Sample.appended_twice = [Some 1; Some 2]%Z.
Proof.
  split; [|vm_compute; reflexivity].
  apply (ledger_reachable Sample.kernel); [apply Sample.kernel_ledger|apply Sample.reached].
Defined.

Lemma sample_ledger : ledger Sample.appended_twice.
Proof. eapply (steps_invariant append_step); [apply append_step_ledger|apply Sample.kernel_ledger|apply Sample.reached]. Qed.

Lemma pages_complete_witness :
  list_run 10 50 (Z.of_nat 1) 5 Sample.appended_twice =
    (if decide (10%N = Run.organization_id (with_version 2 Sample.run))
     then take 5 (drop 1 (run_events 50 Sample.appended_twice)) else []) ∧
  Event.run_sequence <$> list_run 10 50 1 5 Sample.appended_twice = [Some 2%Z].
Proof.
  split; [|vm_compute; reflexivity].
  assert (runs Sample.appended_twice !! 50%N = Some (with_version 2 Sample.run)) as Hr
    by (vm_compute; reflexivity).
  exact (proj1 (pages_complete Sample.appended_twice 10 1 5 sample_ledger) 50%N _ Hr).
Defined.
