(* ===== verification/Identity.v ===== *)
(** * Principals and access ([security/identity.py], [security/roles.py],
      [security/auth.py], [security/workspace_access.py])

    Who a request acts for, how the directory grants permissions, and which
    workspaces, threads and Runs a principal can reach. *)

From S2P Require Import Prelude PyText PyVal Enums Models Kernel.

(** ** Principals *)

Module Principal.
Record Principal : Type := Make {
  id : uuid;
  organization_id : uuid;
  external_id : string;
  display_name : string;
  department_id : option uuid;
  department : option string;
  roles : gset string;
  permissions : gset string;
  attributes : dict
}.
End Principal.
Abbreviation Principal := Principal.Principal.

Definition can (p : Principal) (permission : string) : bool :=
  bool_decide ("*" ∈ Principal.permissions p) || bool_decide (permission ∈ Principal.permissions p).

Lemma can_true p permission :
  can p permission = true ↔ "*" ∈ Principal.permissions p ∨ permission ∈ Principal.permissions p.
Proof. unfold can. by rewrite orb_true_iff, !bool_decide_eq_true. Qed.

(** ** System roles *)

Definition system_role_permissions (r : SystemRole) : list string :=
  match r with
  | SystemRole.ADMIN => ["*"]
  | SystemRole.ENGINEER =>
      ["artifact.write"; "automation.trigger"; "catalog.discover"; "code.read.confidential";
       "code.read.internal"; "code.write"; "evaluations.read"; "evaluations.write";
       "knowledge.read.confidential"; "knowledge.read.internal"; "knowledge.write";
       "memory.read"; "memory.write"; "registry.read"; "registry.write"]
  | SystemRole.ANALYST =>
      ["artifact.write"; "catalog.discover"; "evaluations.read"; "knowledge.read.confidential";
       "knowledge.read.internal"; "memory.read"; "memory.write"]
  | SystemRole.OPERATOR =>
      ["approval.decide"; "approval.read"; "artifact.write"; "automation.trigger";
       "catalog.discover"; "knowledge.read.confidential"; "knowledge.read.internal";
       "memory.read"; "memory.write"]
  | SystemRole.SUPPORT =>
      ["artifact.write"; "catalog.discover"; "knowledge.read.internal"; "memory.read"; "memory.write"]
  | SystemRole.VIEWER => ["catalog.discover"; "knowledge.read.internal"; "memory.read"]
  end.

(** ** Loading a principal from the directory *)

Definition role_of (d : Directory) (org : uuid) (ur : UserRole) : option Role :=
  r ← roles d !! UserRole.role_id ur;
  if bool_decide (Role.organization_id r = org) then Some r else None.

(** The roles joined to a user: rows of [user_roles] of the user's organization whose
    role exists there. *)
Definition user_role_rows (d : Directory) (u : User) : list Role :=
  omap (role_of d (User.organization_id u))
    (filter (λ ur, UserRole.organization_id ur = User.organization_id u ∧
                   UserRole.user_id ur = User.id u) (user_roles d)).

(** [{permission for permission in role.permissions if isinstance(permission, str)}] *)
Definition string_items (l : list val) : list string :=
  omap (λ v, match v with VStr s => Some s | _ => None end) l.

Definition user_department (d : Directory) (u : User) : option Department :=
  id ← User.department_id u;
  dept ← departments d !! id;
  if bool_decide (Department.organization_id dept = User.organization_id u) then Some dept else None.

Definition _load_principal {S} (d : Directory) (organization_id : uuid) (external_id : string) :
    Py S Principal :=
  match select (λ u, bool_decide (User.organization_id u = organization_id) &&
                     bool_decide (User.external_id u = external_id) && User.active u) (users d) with
  | [] => raise (AuthorizationError "unknown_principal" "The authenticated user is not provisioned" [])
  | user :: _ =>
      let rows := user_role_rows d user in
      mret (Principal.Make (User.id user) (User.organization_id user) (User.external_id user)
        (User.display_name user) (Department.id <$> user_department d user)
        (Department.name <$> user_department d user)
        (list_to_set (Role.name <$> rows))
        (list_to_set (rows ≫= λ r, string_items (Role.permissions r)))
        (User.attributes user))
  end.

Definition load_principal_by_id (organization_id user_id : uuid) : Py Kernel Principal :=
  d ← gets directory;
  match row_by User.id (users d) user_id with
  | Some user =>
      if bool_decide (User.organization_id user = organization_id) && User.active user
      then _load_principal d organization_id (User.external_id user)
      else raise (AuthorizationError "unknown_principal" "The run owner is not provisioned" [])
  | None => raise (AuthorizationError "unknown_principal" "The run owner is not provisioned" [])
  end.

(** ** Workspace access *)

Definition is_member (d : Directory) (p : Principal) (w : Workspace) (write : bool) : bool :=
  existsb (λ m, bool_decide (WorkspaceMember.workspace_id m = Workspace.id w) &&
                bool_decide (WorkspaceMember.organization_id m = Principal.organization_id p) &&
                bool_decide (WorkspaceMember.user_id m = Principal.id p) &&
                (negb write || WorkspaceMember.can_write m)) (workspace_members d).

Definition workspace_access_clause (d : Directory) (p : Principal) (write : bool) (w : Workspace) : bool :=
  if can p (if write then "workspace.manage.all" else "workspace.read.all") then true
  else bool_decide (Workspace.owner_id w = Principal.id p) ||
       (if write then is_member d p w write
        else bool_decide (Workspace.visibility w = Visibility.ORGANIZATION) || is_member d p w write).

(** A workspace the principal reaches inside its own organization. *)
Definition accessible (d : Directory) (p : Principal) (write : bool) (w : Workspace) : bool :=
  bool_decide (Workspace.organization_id w = Principal.organization_id p) &&
  workspace_access_clause d p write w.

Definition require_workspace_access (p : Principal) (workspace_id : uuid) (write : bool) :
    Py Kernel Workspace :=
  d ← gets directory;
  let missing := raise (NotFoundError "Workspace" (uuid_str workspace_id)) in
  match row_by Workspace.id (workspaces d) workspace_id with
  | None => missing
  | Some w =>
      if accessible d p write w then mret w
      else if write && bool_decide (Workspace.organization_id w = Principal.organization_id p)
      then raise (AuthorizationError "workspace_write_denied" "Workspace changes are not permitted" [])
      else missing
  end.

Definition require_thread_access (p : Principal) (thread_id : uuid) (write : bool) : Py Kernel Thread :=
  d ← gets directory;
  match (t ← row_by Thread.id (threads d) thread_id; w ← workspaces d !! Thread.workspace_id t; mret (t, w)) with
  | Some (t, w) =>
      if bool_decide (Thread.organization_id t = Principal.organization_id p) && accessible d p write w
      then mret t
      else raise (NotFoundError "Thread" (uuid_str thread_id))
  | None => raise (NotFoundError "Thread" (uuid_str thread_id))
  end.

Definition workspace_of_run (d : Directory) (r : Run) : option Workspace :=
  turn ← turns d !! Run.turn_id r;
  thread ← threads d !! Turn.thread_id turn;
  workspaces d !! Thread.workspace_id thread.

(** [require_run_access] without [source_content], which asks the knowledge
    publication guard. *)
Definition require_run_access (p : Principal) (run_id : uuid) (write : bool) : Py Kernel Run :=
  k ← gets (λ k, k);
  match (r ← row_by Run.id (runs k) run_id; w ← workspace_of_run (directory k) r; mret (r, w)) with
  | Some (r, w) =>
      if bool_decide (Run.organization_id r = Principal.organization_id p) &&
         accessible (directory k) p write w
      then mret r
      else raise (NotFoundError "Run" (uuid_str run_id))
  | None => raise (NotFoundError "Run" (uuid_str run_id))
  end.

#[export] Instance load_principal_pure {S} d org ext : Pure (S := S) (_load_principal d org ext).
Proof. unfold _load_principal. destruct (select _ _); apply _. Qed.

#[export] Instance load_principal_by_id_pure org id : Pure (load_principal_by_id org id).
Proof. unfold load_principal_by_id. apply _. Qed.

#[export] Instance workspace_access_pure p id write : Pure (require_workspace_access p id write).
Proof. unfold require_workspace_access. apply _. Qed.

#[export] Instance thread_access_pure p id write : Pure (require_thread_access p id write).
Proof. apply bind_pure; [apply _|]. intros d. destruct (_ : option (Thread * Workspace)) as [[t w]|]; apply _. Qed.

#[export] Instance run_access_pure p id write : Pure (require_run_access p id write).
Proof. apply bind_pure; [apply _|]. intros k. destruct (_ : option (Run * Workspace)) as [[r w]|]; apply _. Qed.

(** ** Rules *)

Lemma wp_run_access p id write k (Q : Run → Kernel → Prop) X :
  (∀ r w, row_by Run.id (runs k) id = Some r → workspace_of_run (directory k) r = Some w →
     Run.organization_id r = Principal.organization_id p →
     accessible (directory k) p write w = true → Q r k) →
  X (NotFoundError "Run" (uuid_str id)) k →
  wp (require_run_access p id write) Q X k.
Proof.
  intros HQ HX. unfold require_run_access. apply wp_bind, wp_gets.
  destruct (row_by Run.id (runs k) id) as [r|] eqn:Hr; [|by apply wp_raise]. cbn.
  destruct (workspace_of_run (directory k) r) as [w|] eqn:Hw; [|by apply wp_raise]. cbn.
  case_bool_decide as Ho; [|by apply wp_raise].
  destruct (accessible _ _ _ _) eqn:Ha; [|by apply wp_raise]. apply wp_ret. by eapply HQ.
Qed.

Lemma wp_workspace_access p id write k (Q : Workspace → Kernel → Prop) X :
  (∀ w, row_by Workspace.id (workspaces (directory k)) id = Some w →
     accessible (directory k) p write w = true → Q w k) →
  (∀ e, (∀ w, row_by Workspace.id (workspaces (directory k)) id = Some w →
           accessible (directory k) p write w = false) →
        e = NotFoundError "Workspace" (uuid_str id) ∨
        e = AuthorizationError "workspace_write_denied" "Workspace changes are not permitted" [] →
        X e k) →
  wp (require_workspace_access p id write) Q X k.
Proof.
  intros HQ HX. unfold require_workspace_access. apply wp_bind, wp_gets.
  destruct (row_by Workspace.id _ id) as [w|] eqn:Hw; [|apply wp_raise, HX; naive_solver].
  destruct (accessible _ _ _ _) eqn:Ha; [by apply wp_ret, HQ|].
  destruct (write && _); apply wp_raise, HX; naive_solver.
Qed.

Lemma load_principal_by_id_ok org id k p :
  load_principal_by_id org id k = Ok p k → Principal.organization_id p = org.
Proof.
  intros Hp.
  assert (wp (load_principal_by_id org id) (λ p _, Principal.organization_id p = org) (λ _ _, True) k) as Hwp.
  { unfold load_principal_by_id. apply wp_bind, wp_gets.
    destruct (row_by User.id _ id) as [u|]; [|by apply wp_raise].
    destruct (_ && _); [|by apply wp_raise]. unfold _load_principal.
    destruct (select _ _) as [|v l] eqn:Hl; [by apply wp_raise|]. apply wp_ret.
    assert (v ∈ select (λ u0, bool_decide (User.organization_id u0 = org) &&
      bool_decide (User.external_id u0 = User.external_id u) && User.active u0)
      (users (directory k))) as Hv by (rewrite Hl; left).
    apply elem_of_select in Hv as [Hv _]. by split_bool. }
  unfold wp in Hwp. by rewrite Hp in Hwp.
Qed.

(** ** Publication of source content ([security/source_fence.py],
      [security/workspace_access.py])

    Reading or delivering the content of a Run asks whether the sources it used may
    still be shown.  [PublicationGuard] is the interface of that check
    ([KnowledgePublicationGuard.check] in [knowledge/publication.py], which consults the
    knowledge service): it may decide anything and record policy decisions and audit
    entries, and it never touches another table. *)

Class PublicationGuard := {
  (** [check(session, principal, [], run_id=, stage=, expected_corp_id=, link_policy_run=)] *)
  check_publication : Principal → uuid → string → option string → bool → Py Kernel bool;
  check_publication_recording p run_id stage corp link :
    Recording (check_publication p run_id stage corp link);
  (** The database function [obsion_acquire_source_fence]. *)
  source_fence : uuid → Kernel → bool
}.

#[export] Existing Instance check_publication_recording.

Definition fence_unavailable : exn :=
  ObsionError "authorization_fence_unavailable" "无法在当前事务中确认资料权限，请稍后重试。" 503 [].

Definition acquire_source_publication_fence `{Environment, PublicationGuard} (organization_id : uuid) :
    Py Kernel unit :=
  if bool_decide (dialect = "sqlite") then mret ()
  else
    acquired ← gets (source_fence organization_id);
    raise_if (negb acquired) fence_unavailable.

(** [require_run_access(..., write=, source_content=True, source_corp_id=)]; a write links
    the policy decisions to the Run. *)
Definition require_run_content `{PublicationGuard} (p : Principal) (run_id : uuid) (write : bool)
    (source_corp_id : option string) : Py Kernel Run :=
  run ← require_run_access p run_id write;
  allowed ← check_publication p run_id "historical_content" source_corp_id write;
  raise_if (negb allowed) (NotFoundError "Run content" (uuid_str run_id));;
  mret run.

#[export] Instance acquire_fence_pure `{Environment, PublicationGuard} organization_id :
  Pure (acquire_source_publication_fence organization_id).
Proof. unfold acquire_source_publication_fence. apply _. Qed.

#[export] Instance require_run_content_recording `{PublicationGuard} p run_id write corp :
  Recording (require_run_content p run_id write corp).
Proof. unfold require_run_content. apply _. Qed.
