(* ===== verification/Policy.v ===== *)
(** * The policy engine ([security/policy.py])

    Policies are rows with JSON conditions.  [evaluate] decides capability reads,
    [evaluate_resource] control-plane resources and [evaluate_action] the governed
    write boundary; each records a [PolicyDecision]. *)

From S2P Require Import Prelude PyText PyVal Regex Redaction Enums Models Kernel.
From S2P Require Import Identity.

Definition _EFFECT_STRENGTH (e : DecisionEffect) : nat :=
  match e with
  | DecisionEffect.ALLOW => 0
  | DecisionEffect.MASK => 1
  | DecisionEffect.ASK => 2
  | DecisionEffect.DENY => 3
  end.

#[export] Instance _EFFECT_STRENGTH_inj : Inj (=) (=) _EFFECT_STRENGTH.
Proof. by intros [] []. Qed.

Module PolicyInput.
Record PolicyInput : Type := Make {
  principal : Principal;
  capability : CapabilityVersion;
  action : string;
  resource : dict;
  context : dict;
  agent_name : string;
  agent_version_id : option uuid;
  agent_capability_allowed : option bool;
  run_id : option uuid
}.
End PolicyInput.
Abbreviation PolicyInput := PolicyInput.PolicyInput.

Module ActionPolicyInput.
Record ActionPolicyInput : Type := Make {
  principal : Principal;
  capability : CapabilityVersion;
  action : string;
  resource : dict;
  context : dict;
  action_request_id : uuid;
  approval_valid : bool
}.
End ActionPolicyInput.
Abbreviation ActionPolicyInput := ActionPolicyInput.ActionPolicyInput.

Module ResourcePolicyInput.
Record ResourcePolicyInput : Type := Make {
  principal : Principal;
  action : string;
  resource : dict;
  context : dict;
  risk_level : RiskLevel;
  resource_type : string;
  capability_version_id : option uuid;
  agent_name : string;
  agent_version_id : option uuid;
  run_id : option uuid;
  resource_access_allowed : option bool
}.
End ResourcePolicyInput.
Abbreviation ResourcePolicyInput := ResourcePolicyInput.ResourcePolicyInput.

Module Decision.
Record Decision : Type := Make {
  id : uuid;
  effect : DecisionEffect;
  obligations : list val;
  reason_codes : list string;
  matched_policy_ids : list uuid
}.
End Decision.
Abbreviation Decision := Decision.Decision.

(** ** Matching *)

Definition _matches_scalar (actual expected : val) : bool :=
  match expected with
  | VList l => existsb (λ item, py_eq actual item) l
  | VStr pattern =>
      if has_char "*"%char pattern then fnmatch (py_str actual) pattern else py_eq actual expected
  | _ => py_eq actual expected
  end.

Definition _string_set (value : val) : gset string :=
  match value with
  | VStr s => {[ s ]}
  | VList l => list_to_set (map py_str l)
  | _ => ∅
  end.

Definition _patterns (value : val) : list string :=
  match value with
  | VStr s => [s]
  | VList l => map py_str l
  | _ => []
  end.

(** Walk [parts] down from [current]. *)
Fixpoint lookup_parts (current : val) (parts : list string) : option val :=
  match parts with
  | [] => Some current
  | part :: parts' =>
      match current with
      | VDict d => v ← dget part d; lookup_parts v parts'
      | _ => None
      end
  end.

Definition _matches_mapping (actual expected : dict) : bool :=
  forallb (λ '(key, value),
    match lookup_parts (VDict actual) (split "."%char key) with
    | Some current => _matches_scalar current value
    | None => false
    end) expected.

(** [RiskLevel(value)] *)
Definition risk_of_val (v : val) : option RiskLevel :=
  match v with VStr s => parse_risk s | _ => None end.

Definition set_nonempty (s : gset string) : bool := negb (bool_decide (s = ∅)).

Definition _policy_matches (policy : Policy) (principal : Principal) (action : string)
    (resource context : dict) (agent_name : string) (agent_version_id : option uuid)
    (risk_level : RiskLevel) : bool :=
  let conditions := match Policy.conditions policy with VDict d => d | _ => [] end in
  let get key := dget_or key (VList []) conditions in
  let permissions := Principal.permissions principal in
  let roles_any := _string_set (get "roles_any") in
  let roles_all := _string_set (get "roles_all") in
  let permissions_any := _string_set (get "permissions_any") in
  let permissions_all := _string_set (get "permissions_all") in
  let user_ids := _string_set (dget_or "user_ids" (dget_or "users_any" (get "users") conditions) conditions) in
  let department_ids := _string_set
    (dget_or "department_ids" (dget_or "departments_any" (get "departments") conditions) conditions) in
  let department_names := _string_set (get "department_names") in
  let attributes := dget_or "attributes" (VDict []) conditions in
  let agent_versions := _string_set (get "agent_version_ids") in
  let max_risk := dget_or "max_risk" VNone conditions in
  let wildcard := bool_decide ("*" ∈ permissions) in
  if negb (existsb (fnmatch action) (_patterns (dget_or "actions" (VList [VStr "*"]) conditions)))
  then false
  else if set_nonempty roles_any && bool_decide (roles_any ∩ Principal.roles principal = ∅) then false
  else if set_nonempty roles_all && negb (bool_decide (roles_all ⊆ Principal.roles principal)) then false
  else if set_nonempty permissions_any && negb wildcard &&
          bool_decide (permissions_any ∩ permissions = ∅) then false
  else if set_nonempty permissions_all && negb wildcard &&
          negb (bool_decide (permissions_all ⊆ permissions)) then false
  else if set_nonempty user_ids && negb (bool_decide (uuid_str (Principal.id principal) ∈ user_ids))
  then false
  else if set_nonempty department_ids &&
          match Principal.department_id principal with
          | None => true
          | Some d => negb (bool_decide (uuid_str d ∈ department_ids))
          end then false
  else if set_nonempty department_names &&
          match Principal.department principal with
          | None => true
          | Some d => negb (bool_decide (d ∈ department_names))
          end then false
  else if truth attributes &&
          match attributes with
          | VDict d => negb (_matches_mapping (Principal.attributes principal) d)
          | _ => true
          end then false
  else if negb (existsb (fnmatch agent_name) (_patterns (dget_or "agents" (VList [VStr "*"]) conditions)))
  then false
  else if set_nonempty agent_versions &&
          match agent_version_id with
          | None => true
          | Some v => negb (bool_decide (uuid_str v ∈ agent_versions))
          end then false
  else if truth max_risk &&
          match risk_of_val max_risk with
          | None => true
          | Some ceiling => (ordinal ceiling <? ordinal risk_level)%nat
          end then false
  else match dget_or "resource" (VDict []) conditions, dget_or "context" (VDict []) conditions with
       | VDict resource_conditions, VDict context_conditions =>
           if negb (_matches_mapping resource resource_conditions) then false
           else _matches_mapping context context_conditions
       | _, _ => false
       end.

(** ** Evaluation *)

Definition sorted_strings (s : gset string) : list val := map VStr (order_by string_le (elements s)).

Definition str_or_none (o : option uuid) : val :=
  match o with Some u => VStr (uuid_str u) | None => VNone end.
Definition bool_or_none (o : option bool) : val :=
  match o with Some b => VBool b | None => VNone end.

Definition _principal_fingerprint (p : Principal) : dict :=
  [("principal", VStr (uuid_str (Principal.id p)));
   ("department_id", str_or_none (Principal.department_id p));
   ("department", match Principal.department p with Some d => VStr d | None => VNone end);
   ("roles", VList (sorted_strings (Principal.roles p)));
   ("permissions", VList (sorted_strings (Principal.permissions p)));
   ("attributes", redact None (VDict (Principal.attributes p)))].

(** [hashlib.sha256(json.dumps(safe_input, sort_keys=True, ...).encode()).hexdigest()] *)
Definition input_fingerprint (safe_input : dict) : string := sha256 (json_dumps true (VDict safe_input)).

(** The enabled policies of an organization, by descending priority and age. *)
Definition policy_le (p q : Policy) : bool :=
  (Policy.priority q <? Policy.priority p)%Z ||
  ((Policy.priority p =? Policy.priority q)%Z && (Policy.created_at q <=? Policy.created_at p)%Z).

Definition enabled_policies (organization_id : uuid) (k : Kernel) : list Policy :=
  order_by policy_le
    (select (λ p, bool_decide (Policy.organization_id p = organization_id) && Policy.enabled p)
            (policies k)).

Definition policy_reason (p : Policy) : string :=
  "policy:" +:+ Policy.name p +:+ ":v" +:+ int_str (Policy.version p).

Definition with_effect (effect : DecisionEffect) (l : list Policy) : list Policy :=
  filter (λ p, Policy.effect p = effect) l.

Definition strongest (p : Policy) (l : list Policy) : Policy :=
  max_by (λ p, _EFFECT_STRENGTH (Policy.effect p)) p l.

(** What a resolution yields: effect, obligations, reasons and policy ids. *)
Definition resolution : Type := DecisionEffect * list val * list string * list uuid.

Definition deny (reason : string) : resolution := (DecisionEffect.DENY, [], [reason], []).

(** The matching policies of highest effect decide, unless the principal lacks the
    grant; without one a grant allows, masked at L2. *)
Definition resolve_matching (p : Principal) (action : string) (risk : RiskLevel)
    (matching : list Policy) (masked : resolution) : resolution :=
  match matching with
  | first :: rest =>
      let effect := Policy.effect (strongest first rest) in
      let selected := with_effect effect matching in
      if negb (bool_decide (effect = DecisionEffect.DENY)) && negb (can p action)
      then deny "no_matching_grant"
      else (effect, selected ≫= Policy.obligations, policy_reason <$> selected, Policy.id <$> selected)
  | [] =>
      if negb (can p action) then deny "no_matching_grant"
      else if bool_decide (risk = RiskLevel.L2) then masked
      else (DecisionEffect.ALLOW, [], ["principal_permission"], [])
  end.

Definition obligation (type : string) (rest : dict) : val := VDict (("type", VStr type) :: rest).

Definition request_matches (r : PolicyInput) (policy : Policy) : bool :=
  _policy_matches policy (PolicyInput.principal r) (PolicyInput.action r) (PolicyInput.resource r)
    (PolicyInput.context r) (PolicyInput.agent_name r) (PolicyInput.agent_version_id r)
    (CapabilityVersion.risk_level (PolicyInput.capability r)).

Definition matching_policies (r : PolicyInput) (k : Kernel) : list Policy :=
  filter (request_matches r)
    (enabled_policies (Principal.organization_id (PolicyInput.principal r)) k).

Definition _resolve (r : PolicyInput) (k : Kernel) : resolution :=
  let capability := PolicyInput.capability r in
  if bool_decide (PolicyInput.agent_capability_allowed r = Some false)
  then deny "agent_capability_not_allowed"
  else if negb (bool_decide (CapabilityVersion.side_effect capability = SideEffect.NONE)) ||
          (3 <=? ordinal (CapabilityVersion.risk_level capability))%nat
  then deny "v1_read_only_boundary"
  else resolve_matching (PolicyInput.principal r) (PolicyInput.action r)
         (CapabilityVersion.risk_level capability) (matching_policies r k)
         (DecisionEffect.MASK,
          [obligation "mask_classified_fields" []; obligation "limit_result_rows" [("value", VInt 500)]],
          ["default_sensitive_read"], []).

Section Engine.
Context `{Environment}.

(** [session.add(model); session.flush()] *)
Definition add_decision (model : PolicyDecision) : Py Kernel unit :=
  taken ← gets (λ k, existsb (λ d, bool_decide (PolicyDecision.id d = PolicyDecision.id model))
                       (policy_decisions k));
  raise_if taken (PyError "IntegrityError");;
  modify (λ k, k <| policy_decisions := (policy_decisions k ++ [model])%list |>).

(** Persist the decision and return it. *)
Definition record_decision (p : Principal) (run_id agent_version_id capability_version_id : option uuid)
    (action : string) (resource context : dict) (risk : RiskLevel) (r : resolution)
    (stored_obligations : list val) (safe_input : dict) : Py Kernel Decision :=
  let '(effect, obligations, reasons, policy_ids) := r in
  id ← new_id;
  now ← utc_now;
  add_decision
    (PolicyDecision.Make id (Principal.organization_id p) run_id (Principal.id p) agent_version_id
       capability_version_id action (redact None (VDict resource)) (redact None (VDict context)) risk
       effect (uuid_str <$> policy_ids) stored_obligations reasons (input_fingerprint safe_input) now);;
  mret (Decision.Make id effect obligations reasons policy_ids).

Definition evaluate (r : PolicyInput) : Py Kernel Decision :=
  k ← gets (λ k, k);
  let res := _resolve r k in
  let '(effect, obligations, reasons, policy_ids) := res in
  let p := PolicyInput.principal r in
  let capability := PolicyInput.capability r in
  let risk := CapabilityVersion.risk_level capability in
  let safe_input := (_principal_fingerprint p ++
    [("agent", VStr (PolicyInput.agent_name r));
     ("agent_version_id", str_or_none (PolicyInput.agent_version_id r));
     ("agent_capability_allowed", bool_or_none (PolicyInput.agent_capability_allowed r));
     ("capability", VStr (uuid_str (CapabilityVersion.id capability)));
     ("action", VStr (PolicyInput.action r));
     ("resource", redact None (VDict (PolicyInput.resource r)));
     ("context", redact None (VDict (PolicyInput.context r)));
     ("risk", VStr (value_of risk));
     ("effect", VStr (value_of effect));
     ("matched_policy_ids", VList (VStr ∘ uuid_str <$> policy_ids))])%list in
  record_decision p (PolicyInput.run_id r) (PolicyInput.agent_version_id r)
    (Some (CapabilityVersion.id capability)) (PolicyInput.action r) (PolicyInput.resource r)
    (PolicyInput.context r) risk res obligations safe_input.

Definition resource_matches (r : ResourcePolicyInput) (policy : Policy) : bool :=
  _policy_matches policy (ResourcePolicyInput.principal r) (ResourcePolicyInput.action r)
    (ResourcePolicyInput.resource r) (ResourcePolicyInput.context r)
    (ResourcePolicyInput.agent_name r) (ResourcePolicyInput.agent_version_id r)
    (ResourcePolicyInput.risk_level r).

Definition high_risk (risk : RiskLevel) : bool := (ordinal RiskLevel.L3 <=? ordinal risk)%nat.

Definition resource_matching (r : ResourcePolicyInput) (k : Kernel) : list Policy :=
  if high_risk (ResourcePolicyInput.risk_level r) then []
  else filter (resource_matches r)
         (enabled_policies (Principal.organization_id (ResourcePolicyInput.principal r)) k).

Definition resolve_resource (r : ResourcePolicyInput) (k : Kernel) : resolution :=
  if bool_decide (ResourcePolicyInput.resource_access_allowed r = Some false)
  then deny "resource_access_denied"
  else if high_risk (ResourcePolicyInput.risk_level r)
  then deny "high_risk_resource_mutation_denied"
  else resolve_matching (ResourcePolicyInput.principal r) (ResourcePolicyInput.action r)
         (ResourcePolicyInput.risk_level r) (resource_matching r k)
         (DecisionEffect.MASK, [obligation "redact_sensitive_fields" []],
          ["default_sensitive_resource"], []).

Definition evaluate_resource (r : ResourcePolicyInput) : Py Kernel Decision :=
  k ← gets (λ k, k);
  let res := resolve_resource r k in
  let '(effect, obligations, reasons, policy_ids) := res in
  let p := ResourcePolicyInput.principal r in
  let risk := ResourcePolicyInput.risk_level r in
  let safe_input := (_principal_fingerprint p ++
    [("agent", VStr (ResourcePolicyInput.agent_name r));
     ("agent_version_id", str_or_none (ResourcePolicyInput.agent_version_id r));
     ("resource_type", VStr (ResourcePolicyInput.resource_type r));
     ("capability_version_id", str_or_none (ResourcePolicyInput.capability_version_id r));
     ("action", VStr (ResourcePolicyInput.action r));
     ("resource", redact None (VDict (ResourcePolicyInput.resource r)));
     ("context", redact None (VDict (ResourcePolicyInput.context r)));
     ("risk", VStr (value_of risk));
     ("resource_access_allowed", bool_or_none (ResourcePolicyInput.resource_access_allowed r));
     ("effect", VStr (value_of effect));
     ("matched_policy_ids", VList (VStr ∘ uuid_str <$> policy_ids))])%list in
  record_decision p (ResourcePolicyInput.run_id r) None
    (ResourcePolicyInput.capability_version_id r) (ResourcePolicyInput.action r)
    (ResourcePolicyInput.resource r) (ResourcePolicyInput.context r) risk res obligations safe_input.

Definition action_input (r : ActionPolicyInput) : PolicyInput :=
  PolicyInput.Make (ActionPolicyInput.principal r) (ActionPolicyInput.capability r)
    (ActionPolicyInput.action r) (ActionPolicyInput.resource r) (ActionPolicyInput.context r)
    "action-agent" None None None.

(** [str(request.context.get("environment", "")) in {"development", "staging"}] *)
Definition write_environment (context : dict) : bool :=
  bool_decide (py_str (dget_or "environment" (VStr "") context) ∈ ["development"; "staging"]).

Definition resolve_action (r : ActionPolicyInput) (k : Kernel) : resolution :=
  let p := ActionPolicyInput.principal r in
  let capability := ActionPolicyInput.capability r in
  if negb (write_environment (ActionPolicyInput.context r))
  then deny "v1_production_action_boundary"
  else if negb (bool_decide (CapabilityVersion.risk_level capability = RiskLevel.L3)) ||
          negb (bool_decide (CapabilityVersion.side_effect capability = SideEffect.IDEMPOTENT_WRITE))
  then deny "v1_action_capability_boundary"
  else if negb (ActionPolicyInput.approval_valid r) then deny "action_approval_invalid"
  else if negb (can p "action.execute") || negb (can p (ActionPolicyInput.action r))
  then deny "no_matching_grant"
  else
    let matching := matching_policies (action_input r) k in
    let denying := with_effect DecisionEffect.DENY matching in
    match denying with
    | _ :: _ => (DecisionEffect.DENY, [], policy_reason <$> denying, Policy.id <$> denying)
    | [] => (DecisionEffect.ALLOW, [], "governed_action_approved" :: (policy_reason <$> matching),
             Policy.id <$> matching)
    end.

Definition evaluate_action (r : ActionPolicyInput) : Py Kernel Decision :=
  k ← gets (λ k, k);
  let res := resolve_action r k in
  let p := ActionPolicyInput.principal r in
  let capability := ActionPolicyInput.capability r in
  let risk := CapabilityVersion.risk_level capability in
  let safe_input := (_principal_fingerprint p ++
    [("action_request_id", VStr (uuid_str (ActionPolicyInput.action_request_id r)));
     ("capability", VStr (uuid_str (CapabilityVersion.id capability)));
     ("action", VStr (ActionPolicyInput.action r));
     ("resource", redact None (VDict (ActionPolicyInput.resource r)));
     ("context", redact None (VDict (ActionPolicyInput.context r)));
     ("risk", VStr (value_of risk));
     ("approval_valid", VBool (ActionPolicyInput.approval_valid r))])%list in
  record_decision p None None (Some (CapabilityVersion.id capability)) (ActionPolicyInput.action r)
    (ActionPolicyInput.resource r) (ActionPolicyInput.context r) risk res [] safe_input.
End Engine.

(** ** What decides *)

#[local] Open Scope nat_scope.

(** A policy that applies to a request: enabled, of the principal's organization, and
    matching. *)
Definition applies (organization_id : uuid) (matches : Policy → bool) (k : Kernel) (q : Policy) : Prop :=
  (∃ id, policies k !! id = Some q) ∧ Policy.organization_id q = organization_id ∧
  Policy.enabled q = true ∧ matches q = true.

Lemma elem_of_matching org (matches : Policy → bool) k q :
  q ∈ filter matches (enabled_policies org k) ↔ applies org matches k q.
Proof.
  unfold applies, enabled_policies. rewrite list_elem_of_filter, elem_of_order_by, elem_of_select,
    Is_true_true, andb_true_iff, bool_decide_eq_true. naive_solver.
Qed.

Lemma elem_of_with_effect e l q : q ∈ with_effect e l ↔ Policy.effect q = e ∧ q ∈ l.
Proof. unfold with_effect. by rewrite list_elem_of_filter. Qed.

(** The effect a resolution should have. *)
Definition expected_effect (granted : bool) (applying : Policy → Prop) (fallback e : DecisionEffect) : Prop :=
  (e = DecisionEffect.DENY ↔
     granted = false ∨ ∃ q, applying q ∧ Policy.effect q = DecisionEffect.DENY) ∧
  (e ≠ DecisionEffect.DENY →
     (∀ q, applying q → _EFFECT_STRENGTH (Policy.effect q) ≤ _EFFECT_STRENGTH e) ∧
     ((∃ q, applying q ∧ Policy.effect q = e) ∨ (∀ q, ¬ applying q) ∧ e = fallback)).

Definition effect_of (r : resolution) : DecisionEffect := r.1.1.1.

Definition default_effect (risk : RiskLevel) : DecisionEffect :=
  if bool_decide (risk = RiskLevel.L2) then DecisionEffect.MASK else DecisionEffect.ALLOW.

Lemma expected_effect_iff granted (P P' : Policy → Prop) fallback e :
  (∀ q, P q ↔ P' q) → expected_effect granted P fallback e → expected_effect granted P' fallback e.
Proof.
  unfold expected_effect. intros HP [H1 H2]. setoid_rewrite <-HP. done.
Qed.

Lemma resolve_matching_effect p action risk matching obligations reasons :
  expected_effect (can p action) (.∈ matching) (default_effect risk)
    (effect_of (resolve_matching p action risk matching (DecisionEffect.MASK, obligations, reasons, []))).
Proof.
  unfold resolve_matching, default_effect. destruct matching as [|q0 rest].
  - assert (∀ q : Policy, q ∉ []) as Hnil by apply not_elem_of_nil. unfold expected_effect.
    destruct (can p action); cbn; [|naive_solver]. case_bool_decide; cbn; naive_solver.
  - destruct (max_by_spec (λ q, _EFFECT_STRENGTH (Policy.effect q)) q0 rest) as [Hin Hmax].
    fold (strongest q0 rest) in Hin, Hmax. set (m := strongest q0 rest) in *. cbn in Hmax.
    assert (∀ q, q ∈ q0 :: rest → Policy.effect q = DecisionEffect.DENY → Policy.effect m = DecisionEffect.DENY) as Hdeny.
    { intros q Hq Hd. specialize (Hmax q Hq). rewrite Hd in Hmax. destruct (Policy.effect m); cbn in *; lia || done. }
    unfold expected_effect. case_bool_decide as Hm; cbn.
    + rewrite Hm. naive_solver.
    + destruct (can p action); cbn; [|naive_solver]. split; [naive_solver|]. intros _.
      split; [done|left]. by exists m.
Qed.

(** ** Decisions are recorded *)

(** [k'] is [k] with one more decision, which carries the principal, the action and
    the effect. *)
Definition records_decision (p : Principal) (action : string) (d : Decision) (k k' : Kernel) : Prop :=
  ∃ row, k' = (kernel_rollback k k') <| policy_decisions := (policy_decisions k ++ [row])%list |> ∧
    PolicyDecision.id row = Decision.id d ∧
    PolicyDecision.effect row = Decision.effect d ∧
    PolicyDecision.principal_id row = Principal.id p ∧
    PolicyDecision.organization_id row = Principal.organization_id p ∧
    PolicyDecision.action row = action ∧
    PolicyDecision.reason_codes row = Decision.reason_codes d ∧
    PolicyDecision.matched_policy_ids row = uuid_str <$> Decision.matched_policy_ids d ∧
    no_sensitive_item (PolicyDecision.resource row) = true ∧
    no_sensitive_item (PolicyDecision.context row) = true ∧
    (∀ row', row' ∈ policy_decisions k → PolicyDecision.id row' ≠ PolicyDecision.id row).

Lemma same_tables_add_decision k k2 row :
  same_tables k k2 →
  let k' := k2 <| policy_decisions := (policy_decisions k2 ++ [row])%list |> in
  k' = (kernel_rollback k k') <| policy_decisions := (policy_decisions k ++ [row])%list |>.
Proof.
  intros Hk k'. subst k'. destruct k, k2. unfold same_tables, kernel_rollback in *.
  rec_simpl. congruence.
Qed.

Section Recorded.
Context `{Environment}.

Lemma wp_add_decision row k (Q : () → Kernel → Prop) X :
  ((∀ row', row' ∈ policy_decisions k → PolicyDecision.id row' ≠ PolicyDecision.id row) →
   Q () (k <| policy_decisions := (policy_decisions k ++ [row])%list |>)) →
  X (PyError "IntegrityError") k →
  wp (add_decision row) Q X k.
Proof.
  intros HQ HX. unfold add_decision. apply wp_bind, wp_gets. apply wp_bind, wp_raise_if; [done|].
  intros Htaken. apply wp_modify. apply HQ. intros row' Hrow' Hid.
  assert (existsb (λ d, bool_decide (PolicyDecision.id d = PolicyDecision.id row))
            (policy_decisions k) = true) as Hex by (apply existsb_true; exists row'; by rewrite bool_decide_true).
  congruence.
Qed.

Lemma wp_record_decision p run ver cap action resource context risk r stored safe k
    (Q : Decision → Kernel → Prop) X :
  (∀ d k', Decision.effect d = effect_of r → records_decision p action d k k' → Q d k') →
  (∀ k', same_tables k k' → X (PyError "IntegrityError") k') →
  wp (record_decision p run ver cap action resource context risk r stored safe) Q X k.
Proof.
  intros HQ HX. destruct r as [[[effect obligations] reasons] ids]. unfold record_decision.
  apply wp_bind, wp_new_id. intros i k1 Hk1. apply wp_bind, wp_utc_now. intros t k2 Hk2.
  pose proof (same_tables_trans _ _ _ Hk1 Hk2) as Hk. clear Hk1 Hk2 k1.
  apply wp_bind, wp_add_decision; [|by apply HX]. intros Hfresh. apply wp_ret. apply HQ; [done|].
  eexists. split; [by apply same_tables_add_decision|]. repeat (split; [done|]).
  split; [apply redact_nested|]. split; [apply redact_nested|]. by rewrite Hk in Hfresh.
Qed.
End Recorded.

(** ** Properties *)

Section Properties.
Context `{Environment}.

Lemma wp_evaluate r k (Q : Decision → Kernel → Prop) X :
  (∀ d k', Decision.effect d = effect_of (_resolve r k) →
     records_decision (PolicyInput.principal r) (PolicyInput.action r) d k k' → Q d k') →
  (∀ k', same_tables k k' → X (PyError "IntegrityError") k') →
  wp (evaluate r) Q X k.
Proof.
  intros HQ HX. unfold evaluate. apply wp_bind, wp_gets.
  destruct (_resolve r k) as [[[effect obligations] reasons] ids].
  by apply wp_record_decision.
Qed.

Lemma wp_evaluate_resource r k (Q : Decision → Kernel → Prop) X :
  (∀ d k', Decision.effect d = effect_of (resolve_resource r k) →
     records_decision (ResourcePolicyInput.principal r) (ResourcePolicyInput.action r) d k k' → Q d k') →
  (∀ k', same_tables k k' → X (PyError "IntegrityError") k') →
  wp (evaluate_resource r) Q X k.
Proof.
  intros HQ HX. unfold evaluate_resource. apply wp_bind, wp_gets.
  destruct (resolve_resource r k) as [[[effect obligations] reasons] ids].
  by apply wp_record_decision.
Qed.

Lemma wp_evaluate_action r k (Q : Decision → Kernel → Prop) X :
  (∀ d k', Decision.effect d = effect_of (resolve_action r k) →
     records_decision (ActionPolicyInput.principal r) (ActionPolicyInput.action r) d k k' → Q d k') →
  (∀ k', same_tables k k' → X (PyError "IntegrityError") k') →
  wp (evaluate_action r) Q X k.
Proof.
  intros HQ HX. unfold evaluate_action. apply wp_bind, wp_gets. by apply wp_record_decision.
Qed.

(** The policies that apply to a capability request. *)
Definition capability_policies (r : PolicyInput) (k : Kernel) : Policy → Prop :=
  applies (Principal.organization_id (PolicyInput.principal r)) (request_matches r) k.

(** A capability request inside the read-only boundary. *)
Definition read_boundary (r : PolicyInput) : bool :=
  negb (bool_decide (PolicyInput.agent_capability_allowed r = Some false)) &&
  bool_decide (CapabilityVersion.side_effect (PolicyInput.capability r) = SideEffect.NONE) &&
  negb (3 <=? ordinal (CapabilityVersion.risk_level (PolicyInput.capability r))).

Lemma resolve_effect r k :
  expected_effect (read_boundary r && can (PolicyInput.principal r) (PolicyInput.action r))
    (λ q, read_boundary r = true ∧ capability_policies r k q)
    (default_effect (CapabilityVersion.risk_level (PolicyInput.capability r)))
    (effect_of (_resolve r k)).
Proof.
  unfold _resolve, read_boundary.
  case_bool_decide; cbn [negb andb]; [unfold expected_effect; naive_solver|].
  case_bool_decide; cbn [negb andb orb]; [|unfold expected_effect; naive_solver].
  destruct (3 <=? _); cbn [negb andb]; [unfold expected_effect; naive_solver|].
  eapply expected_effect_iff, resolve_matching_effect.
  intros q. unfold matching_policies, capability_policies. rewrite elem_of_matching. naive_solver.
Qed.


Definition resource_boundary (r : ResourcePolicyInput) : bool :=
  negb (bool_decide (ResourcePolicyInput.resource_access_allowed r = Some false)) &&
  negb (high_risk (ResourcePolicyInput.risk_level r)).

Definition resource_policies (r : ResourcePolicyInput) (k : Kernel) : Policy → Prop :=
  applies (Principal.organization_id (ResourcePolicyInput.principal r)) (resource_matches r) k.

Lemma resolve_resource_effect r k :
  expected_effect
    (resource_boundary r && can (ResourcePolicyInput.principal r) (ResourcePolicyInput.action r))
    (λ q, resource_boundary r = true ∧ resource_policies r k q)
    (default_effect (ResourcePolicyInput.risk_level r)) (effect_of (resolve_resource r k)).
Proof.
  unfold resolve_resource, resource_boundary, resource_matching.
  case_bool_decide; cbn [negb andb]; [unfold expected_effect; naive_solver|].
  destruct (high_risk _); cbn [negb andb]; [unfold expected_effect; naive_solver|].
  eapply expected_effect_iff, resolve_matching_effect.
  intros q. unfold resource_policies. rewrite elem_of_matching. naive_solver.
Qed.

(** Control-plane resources are decided by the same law, with their own
    boundary: a failed resource-native access check can never be turned into an
    allowance by any policy or permission, and mutations of risk L3 and above are
    denied. *)
Theorem evaluate_resource_spec r k :
  match evaluate_resource r k with
  | Ok d k' =>
      expected_effect
        (resource_boundary r && can (ResourcePolicyInput.principal r) (ResourcePolicyInput.action r))
        (λ q, resource_boundary r = true ∧ resource_policies r k q)
        (default_effect (ResourcePolicyInput.risk_level r)) (Decision.effect d) ∧
      records_decision (ResourcePolicyInput.principal r) (ResourcePolicyInput.action r) d k k'
  | Raise e k' => e = PyError "IntegrityError" ∧ same_tables k k'
  end.
Proof.
  apply (wp_evaluate_resource r k (λ d k', _ ∧ _) (λ e k', _ ∧ _)); [|done].
  intros d k' -> Hrec. split; [apply resolve_resource_effect|done].
Qed.

#[export] Instance evaluate_resource_recording r : Recording (evaluate_resource r).
Proof.
  intros k. apply wp_evaluate_resource.
  - intros d k' _ (row & -> & _). split; try done; cbn; [apply same_runs|by apply prefix_app_r].
  - intros k' ->. apply rollback_recorded.
Qed.

(** Everything the write boundary asks for. *)
Definition action_permitted (r : ActionPolicyInput) (k : Kernel) : Prop :=
  write_environment (ActionPolicyInput.context r) = true ∧
  CapabilityVersion.risk_level (ActionPolicyInput.capability r) = RiskLevel.L3 ∧
  CapabilityVersion.side_effect (ActionPolicyInput.capability r) = SideEffect.IDEMPOTENT_WRITE ∧
  ActionPolicyInput.approval_valid r = true ∧
  can (ActionPolicyInput.principal r) "action.execute" = true ∧
  can (ActionPolicyInput.principal r) (ActionPolicyInput.action r) = true ∧
  ∀ q, capability_policies (action_input r) k q → Policy.effect q ≠ DecisionEffect.DENY.

Lemma resolve_action_effect r k :
  (effect_of (resolve_action r k) = DecisionEffect.ALLOW ∧ action_permitted r k) ∨
  (effect_of (resolve_action r k) = DecisionEffect.DENY ∧ ¬ action_permitted r k).
Proof.
  unfold resolve_action, action_permitted.
  destruct (write_environment _); cbn; [|right; naive_solver].
  case_bool_decide; cbn; [|right; naive_solver].
  case_bool_decide; cbn; [|right; naive_solver].
  destruct (ActionPolicyInput.approval_valid r); cbn; [|right; naive_solver].
  destruct (can _ "action.execute"); cbn; [|right; naive_solver].
  destruct (can _ _); cbn; [|right; naive_solver].
  assert (∀ q, q ∈ with_effect DecisionEffect.DENY (matching_policies (action_input r) k) ↔
    Policy.effect q = DecisionEffect.DENY ∧ capability_policies (action_input r) k q) as Hin.
  { intros q. rewrite elem_of_with_effect. unfold matching_policies. by rewrite elem_of_matching. }
  destruct (with_effect _ _) as [|q l]; cbn; [left|right]; (split; [done|]).
  - repeat (split; [done|]). intros q Hq Hd. by apply (not_elem_of_nil q), Hin.
  - intros (_ & _ & _ & _ & _ & _ & Hall). destruct (proj1 (Hin q)) as [Hd Hq]; [left|]. by eapply Hall.
Qed.

(** The write boundary is closed: an action is allowed exactly when it targets
    development or staging, uses an L3 capability with idempotent writes, carries a
    valid approval, the principal holds both the execution permission and the
    capability's own, and no applicable policy denies it; in every other case the
    answer is DENY, never ASK or MASK.  The decision is persisted. *)
Theorem evaluate_action_spec r k :
  match evaluate_action r k with
  | Ok d k' =>
      (Decision.effect d = DecisionEffect.ALLOW ↔ action_permitted r k) ∧
      (Decision.effect d = DecisionEffect.DENY ↔ ¬ action_permitted r k) ∧
      records_decision (ActionPolicyInput.principal r) (ActionPolicyInput.action r) d k k'
  | Raise e k' => e = PyError "IntegrityError" ∧ same_tables k k'
  end.
Proof.
  apply (wp_evaluate_action r k (λ d k', _ ∧ _ ∧ _) (λ e k', _ ∧ _)); [|done].
  intros d k' -> Hrec. destruct (resolve_action_effect r k) as [[-> ?]|[-> ?]]; naive_solver.
Qed.

(** Adding policies never weakens a decision that some policy already made: if
    at least one policy applied, or the answer was DENY, then over a larger set of
    policies the effect is at least as strict.  (A first applicable policy may relax
    the default MASK of an L2 capability.) *)
Theorem policies_monotone r k k2 : policies k ⊆ policies k2 →
  (∃ q, capability_policies r k q) ∨ effect_of (_resolve r k) = DecisionEffect.DENY →
  _EFFECT_STRENGTH (effect_of (_resolve r k)) ≤ _EFFECT_STRENGTH (effect_of (_resolve r k2)).
Proof.
  intros Hsub Hsome.
  assert (∀ q, capability_policies r k q → capability_policies r k2 q) as Hmono.
  { intros q ((id & Hid) & ?). split; [|done]. exists id. by eapply lookup_weaken. }
  destruct (resolve_effect r k) as [Hd Hn], (resolve_effect r k2) as [Hd2 Hn2].
  destruct (decide (effect_of (_resolve r k2) = DecisionEffect.DENY)) as [->|Hne2].
  { destruct (effect_of (_resolve r k)); cbn; lia. }
  assert (effect_of (_resolve r k) ≠ DecisionEffect.DENY) as Hne.
  { intros He. apply Hne2, Hd2. apply Hd in He.
    destruct He as [He|(q & [Hb Hq] & He)]; [by left|right]. exists q. auto. }
  destruct Hsome as [[q0 Hq0]|]; [|done].
  destruct (Hn Hne) as [_ [(q & [Hb Hq] & <-)|[Hnone _]]].
  - apply Hn2; auto.
  - exfalso. apply (Hnone q0). split; [|done].
    destruct (read_boundary r); [done|]. exfalso. apply Hne, Hd. by left.
Qed.
End Properties.

(** ** Examples *)

Module PolicySample.

#[local] Instance environment : Environment := {| uuid7 n := N.of_nat (1000 + n); dialect := "sqlite" |}.

Definition principal : Principal :=
  Principal.Make 1 10 "u1" "User" None (Some "R&D") {["engineer"]} {["knowledge.read"]} [].

Definition capability : CapabilityVersion :=
  CapabilityVersion.Make 7 10 6 1 CapabilityTransport.HTTP RiskLevel.L2 SideEffect.NONE
    "knowledge.read" [] [] 30 Classification.INTERNAL "".

Definition request : PolicyInput :=
  PolicyInput.Make principal capability "knowledge.read" [("path", VStr "docs/a")] [] "analyst"
    None None None.

Definition policy (id : uuid) (effect : DecisionEffect) (pattern : string) : Policy :=
  Policy.Make id 10 "p" 1 100 effect true
    (VDict [("actions", VList [VStr "knowledge.*"]); ("resource", VDict [("path", VStr pattern)])]) [] 0.

Definition kernel (l : list Policy) : Kernel :=
  MkKernel 0 [] 0 (MkDirectory ∅ ∅ ∅ [] ∅ [] ∅ ∅)
    (list_to_map ((λ p, (Policy.id p, p)) <$> l)) ∅ ∅ [] [] [] [].

Definition allowed : Kernel := kernel [policy 100 DecisionEffect.ALLOW "docs/*"].
Definition denied : Kernel :=
  kernel [policy 100 DecisionEffect.ALLOW "docs/*"; policy 101 DecisionEffect.DENY "docs/a"].

Example default_mask : effect_of (_resolve request (kernel [])) = DecisionEffect.MASK.
Proof. vm_compute. reflexivity. Qed.
Example allowed_allow : effect_of (_resolve request allowed) = DecisionEffect.ALLOW.
Proof. vm_compute. reflexivity. Qed.
Example denied_deny : effect_of (_resolve request denied) = DecisionEffect.DENY.
Proof. vm_compute. reflexivity. Qed.

End PolicySample.

Lemma policies_monotone_witness :
  (∃ q, capability_policies PolicySample.request PolicySample.allowed q) ∧
  _EFFECT_STRENGTH (effect_of (_resolve PolicySample.request PolicySample.allowed)) ≤
  _EFFECT_STRENGTH (effect_of (_resolve PolicySample.request PolicySample.denied)).
Proof.
  assert (∃ q, capability_policies PolicySample.request PolicySample.allowed q) as Hq.
  { exists (PolicySample.policy 100 DecisionEffect.ALLOW "docs/*"). split; [|by vm_compute].
    exists 100%N. reflexivity. }
  split; [exact Hq|].
  apply (policies_monotone PolicySample.request PolicySample.allowed PolicySample.denied); [|by left].
  apply map_subseteq_spec. intros i q. unfold PolicySample.allowed, PolicySample.kernel. cbn.
  intros Hi. apply lookup_insert_Some in Hi as [[<- <-]|[_ Hi]]; [reflexivity|].
  by rewrite lookup_empty in Hi.
Defined.
