(* ===== verification/Approvals.v ===== *)
(** * Capability approvals ([application/approvals.py], [api/approvals.py])

    A Run that waits for a capability approval is resumed or failed by the decision of
    an approver.  [decide] is the service operation, [decide_endpoint] the request
    handler around it, which persists an expiry before reporting it. *)

From S2P Require Import Prelude PyText PyVal Enums Models Kernel Domain CanonicalJson Events.
From S2P Require Import EventLog Identity.

Record ApprovalState : Type := MkApprovalState {
  base : Kernel;
  approvals : gmap uuid Approval
}.

#[export] Program Instance approval_session : Session ApprovalState := {
  kernel := base;
  set_kernel k s := s <| base := k |>;
  rollback old new := old <| base := kernel_rollback (base old) (base new) |>
}.
Solve Obligations with (by intros; repeat match goal with s : ApprovalState |- _ => destruct s end).

(** Assign columns of a loaded row. *)
Definition update_approval (id : uuid) (f : Approval → Approval) : Py ApprovalState unit :=
  modify (λ s, MkApprovalState (base s) (alter f id (approvals s))).

Definition update_run (id : uuid) (f : Run → Run) : Py Kernel unit :=
  modify (λ k, k <| runs := alter f id (runs k) |>).

Definition is_conflict (e : exn) : bool := bool_decide (status_of e = Some 409%Z).

(** [principal.can(value)] for a JSON value: only strings are permissions, and an
    unhashable one raises. *)
Definition can_value {S} (p : Principal) (v : val) : Py S bool :=
  let wildcard := bool_decide ("*" ∈ Principal.permissions p) in
  match v with
  | VStr s => mret (can p s)
  | VList _ | VDict _ => if wildcard then mret true else raise (PyError "TypeError")
  | _ => mret wildcard
  end.

Section Service.
Context `{Environment, EventContracts, JsonEncoder}.

Definition run_event (name : string) (org run_id : uuid) (actor_type : ActorType)
    (actor_id : option uuid) (payload : list (obj * obj)) : EventDraft :=
  (event_draft name "run" run_id org run_id actor_type actor_id)
    <| EventDraft.run_id := Some run_id |> <| EventDraft.payload := payload |>.

Definition list_approvals (p : Principal) (status : option ApprovalStatus) : Py ApprovalState (list Approval) :=
  raise_if (negb (can p "approval.read") && negb (can p "approval.decide"))
    (AuthorizationError "approval_read_denied" "Approval access is not permitted" []);;
  s ← gets (λ s, s);
  let visible a :=
    bool_decide (Approval.organization_id a = Principal.organization_id p) &&
    match (r ← runs (base s) !! Approval.run_id a; workspace_of_run (directory (base s)) r) with
    | Some w => accessible (directory (base s)) p false w
    | None => false
    end &&
    match status with Some st => bool_decide (Approval.status a = st) | None => true end in
  mret (take 500 (order_by (λ a b, (Approval.created_at b <=? Approval.created_at a)%Z)
                   (select visible (approvals s)))).

(** The columns a decision and an expiry assign. *)
Definition with_decision (p : Principal) (approve : bool) (reason : string) (now : Z) (a : Approval) : Approval :=
  a <| Approval.status := if approve then ApprovalStatus.APPROVED else ApprovalStatus.REJECTED |>
    <| Approval.decided_by := Some (Principal.id p) |>
    <| Approval.decision_reason := Some (strip reason) |>
    <| Approval.decided_at := Some now |>.

Definition with_expiry (now : Z) (a : Approval) : Approval :=
  a <| Approval.status := ApprovalStatus.EXPIRED |> <| Approval.decided_at := Some now |>.

(** The expiry branch of [decide]. *)
Definition expire (p : Principal) (approval : Approval) (run : Run) (now : Z) : Py ApprovalState unit :=
  update_approval (Approval.id approval) (with_expiry now);;
  in_kernel (append (run_event "approval.expired" (Principal.organization_id p) (Run.id run)
    ActorType.SYSTEM None [(OStr "approval_id", OStr (uuid_str (Approval.id approval)))]));;
  in_kernel (write ((audit_draft (Principal.organization_id p) (Run.id run) ActorType.SYSTEM None
      "approval.expire" "approval" (value_of ApprovalStatus.EXPIRED))
    <| AuditDraft.resource_id := Some (uuid_str (Approval.id approval)) |>
    <| AuditDraft.approval_id := Some (Approval.id approval) |>));;
  raise (ConflictError "approval_expired" "The approval request has expired" []).

(** The constraints the approver must meet. *)
Definition check_constraints {S} (p : Principal) (approval : Approval) : Py S unit :=
  let constraints := Approval.approver_constraints approval in
  let required_permission := dget_or "permission" VNone constraints in
  (if truth required_permission then
     ok ← can_value p required_permission;
     raise_if (negb ok) (AuthorizationError "approver_constraint_failed"
       "The approver does not meet policy constraints" [])
   else mret ());;
  raise_if (truth (dget_or "disallow_self" VNone constraints) &&
            bool_decide (Approval.requested_by approval = Principal.id p))
    (AuthorizationError "self_approval_denied"
      "The requester cannot approve their own capability request" []).

(** What a decision does to the Run it belongs to. *)
Definition settle_run (run : Run) (approve : bool) (now : Z) : Py Kernel unit :=
  if RunState.is_terminal (Run.status run) then mret ()
  else if approve && bool_decide (Run.status run = RunStatus.WAITING_APPROVAL) then
    RunState.validate_run_transition (Run.status run) RunStatus.RUNNING;;
    update_run (Run.id run) (λ r, r <| Run.status := RunStatus.RUNNING |>
      <| Run.lease_owner := None |> <| Run.lease_expires_at := None |>)
  else if negb approve then
    RunState.validate_run_transition (Run.status run) RunStatus.FAILED;;
    update_run (Run.id run) (λ r, r <| Run.status := RunStatus.FAILED |>
      <| Run.error_code := Some "approval_rejected" |>
      <| Run.error_message := Some "The requested capability was rejected" |>
      <| Run.completed_at := Some now |>)
  else mret ().

Definition decide (p : Principal) (approval_id : uuid) (approve : bool) (reason : string) :
    Py ApprovalState Approval :=
  raise_if (negb (can p "approval.decide"))
    (AuthorizationError "approval_decide_denied" "Approval decisions are not permitted" []);;
  row ← gets (λ s, row_by Approval.id (approvals s) approval_id);
  match row with
  | None => raise (NotFoundError "Approval" (uuid_str approval_id))
  | Some approval =>
      raise_if (negb (bool_decide (Approval.organization_id approval = Principal.organization_id p)))
        (NotFoundError "Approval" (uuid_str approval_id));;
      raise_if (negb (bool_decide (Approval.status approval = ApprovalStatus.PENDING)))
        (ConflictError "approval_already_decided" "The approval is no longer pending"
          [("status", VStr (value_of (Approval.status approval)))]);;
      run ← in_kernel (require_run_access p (Approval.run_id approval) true);
      now ← in_kernel utc_now;
      (if (Approval.expires_at approval <=? now)%Z then expire p approval run now else mret ());;
      check_constraints p approval;;
      let status := if approve then ApprovalStatus.APPROVED else ApprovalStatus.REJECTED in
      update_approval approval_id (with_decision p approve reason now);;
      in_kernel (settle_run run approve now);;
      in_kernel (append (run_event (if approve then "approval.approved" else "approval.rejected")
        (Principal.organization_id p) (Run.id run) ActorType.USER (Some (Principal.id p))
        [(OStr "approval_id", OStr (uuid_str (Approval.id approval)));
         (OStr "reason", OStr (strip reason))]));;
      in_kernel (write ((audit_draft (Principal.organization_id p) (Run.id run) ActorType.USER
          (Some (Principal.id p)) "approval.decide" "approval" (value_of status))
        <| AuditDraft.resource_id := Some (uuid_str (Approval.id approval)) |>
        <| AuditDraft.approval_id := Some (Approval.id approval) |>));;
      row ← gets (λ s, approvals s !! approval_id);
      mret (default approval row)
  end.

(** [POST /approvals/{id}/approve] and [/reject]: an expiry is kept, and reported after
    the commit. *)
Definition decide_endpoint (p : Principal) (approval_id : uuid) (approve : bool) (reason : string) :
    Py ApprovalState Approval :=
  outcome ← savepoint (try_catch
    (a ← decide p approval_id approve reason; mret (inl a))
    (λ e, if is_conflict e && bool_decide (error_code_of e = Some "approval_expired")
          then Some (mret (inr e)) else None));
  match outcome with
  | inl a => mret a
  | inr e => raise e
  end.

(** ** The contract of a decision *)

(** A Run that waits for the approval resumes, a live one fails on a rejection. *)
Definition settle_row (approve : bool) (now : Z) (r : Run) : Run :=
  if RunState.is_terminal (Run.status r) then r
  else if approve then
    if bool_decide (Run.status r = RunStatus.WAITING_APPROVAL)
    then r <| Run.status := RunStatus.RUNNING |> <| Run.lease_owner := None |>
           <| Run.lease_expires_at := None |>
    else r
  else r <| Run.status := RunStatus.FAILED |> <| Run.error_code := Some "approval_rejected" |>
         <| Run.error_message := Some "The requested capability was rejected" |>
         <| Run.completed_at := Some now |>.

(** [v] is a permission the principal has. *)
Definition holds_value (p : Principal) (v : val) : bool :=
  match v with
  | VStr s => can p s
  | _ => bool_decide ("*" ∈ Principal.permissions p)
  end.

Definition meets_constraints (p : Principal) (a : Approval) : bool :=
  let required := dget_or "permission" VNone (Approval.approver_constraints a) in
  (negb (truth required) || holds_value p required) &&
  negb (truth (dget_or "disallow_self" VNone (Approval.approver_constraints a)) &&
        bool_decide (Approval.requested_by a = Principal.id p)).

(** The pending approval an authorized approver reaches, and its Run. *)
Record reachable_pending (p : Principal) (id : uuid) (s : ApprovalState) (a : Approval) (r : Run) : Prop := {
  pending_row : row_by Approval.id (approvals s) id = Some a;
  pending_status : Approval.status a = ApprovalStatus.PENDING;
  pending_organization : Approval.organization_id a = Principal.organization_id p;
  pending_permission : can p "approval.decide" = true;
  pending_run : row_by Run.id (runs (base s)) (Approval.run_id a) = Some r;
  pending_access : ∃ w, workspace_of_run (directory (base s)) r = Some w ∧
                        accessible (directory (base s)) p true w = true
}.

Definition decision_event (p : Principal) (a : Approval) (r : Run) (approve : bool) (reason : string) : EventDraft :=
  run_event (if approve then "approval.approved" else "approval.rejected")
    (Principal.organization_id p) (Run.id r) ActorType.USER (Some (Principal.id p))
    [(OStr "approval_id", OStr (uuid_str (Approval.id a))); (OStr "reason", OStr (strip reason))].

Definition decision_audit (p : Principal) (a : Approval) (r : Run) (approve : bool) : AuditDraft :=
  (audit_draft (Principal.organization_id p) (Run.id r) ActorType.USER (Some (Principal.id p))
     "approval.decide" "approval"
     (value_of (if approve then ApprovalStatus.APPROVED else ApprovalStatus.REJECTED)))
    <| AuditDraft.resource_id := Some (uuid_str (Approval.id a)) |>
    <| AuditDraft.approval_id := Some (Approval.id a) |>.

Definition expiry_event (p : Principal) (a : Approval) (r : Run) : EventDraft :=
  run_event "approval.expired" (Principal.organization_id p) (Run.id r) ActorType.SYSTEM None
    [(OStr "approval_id", OStr (uuid_str (Approval.id a)))].

Definition expiry_audit (p : Principal) (a : Approval) (r : Run) : AuditDraft :=
  (audit_draft (Principal.organization_id p) (Run.id r) ActorType.SYSTEM None
     "approval.expire" "approval" (value_of ApprovalStatus.EXPIRED))
    <| AuditDraft.resource_id := Some (uuid_str (Approval.id a)) |>
    <| AuditDraft.approval_id := Some (Approval.id a) |>.

(** [k'] is [k] with its Runs mapped, one event and one audit entry more. *)
Definition settled_kernel (d : EventDraft) (au : AuditDraft) (f : gmap uuid Run → gmap uuid Run)
    (k k' : Kernel) : Prop :=
  ∃ k0, same_tables k k0 ∧ journaled d au (k0 <| runs := f (runs k0) |>) k'.

Definition decided (p : Principal) (id : uuid) (approve : bool) (reason : string)
    (s : ApprovalState) (a : Approval) (s' : ApprovalState) : Prop :=
  ∃ a0 r now, reachable_pending p id s a0 r ∧ (now < Approval.expires_at a0)%Z ∧
    meets_constraints p a0 = true ∧ a = with_decision p approve reason now a0 ∧
    approvals s' = <[id := a]> (approvals s) ∧
    settled_kernel (decision_event p a0 r approve reason) (decision_audit p a0 r approve)
      (alter (settle_row approve now) (Run.id r)) (base s) (base s').

Definition expired (p : Principal) (id : uuid) (s s' : ApprovalState) : Prop :=
  ∃ a0 r now, reachable_pending p id s a0 r ∧ (Approval.expires_at a0 <= now)%Z ∧
    approvals s' = <[id := with_expiry now a0]> (approvals s) ∧
    settled_kernel (expiry_event p a0 r) (expiry_audit p a0 r) (λ m, m) (base s) (base s').

Definition expiry_error : exn := ConflictError "approval_expired" "The approval request has expired" [].

Definition is_expiry (e : exn) : bool :=
  is_conflict e && bool_decide (error_code_of e = Some "approval_expired").

Lemma event_error_not_expiry e : event_error e → is_expiry e = false.
Proof.
  unfold event_error, is_expiry. destruct (error_code_of e) as [c|]; intros He.
  - rewrite andb_false_iff. right. apply bool_decide_eq_false. by intros [= ->].
  - rewrite andb_false_iff. right. by apply bool_decide_eq_false.
Qed.

Lemma kernel_eta_runs k f : f (runs k) = runs k → k <| runs := f (runs k) |> = k.
Proof. intros Hf. destruct k. unfold set. cbn in *. by rewrite Hf. Qed.

Lemma wp_settle_run r approve now k (Q : () → Kernel → Prop) X :
  runs k !! Run.id r = Some r →
  Q () (k <| runs := alter (settle_row approve now) (Run.id r) (runs k) |>) →
  wp (settle_run r approve now) Q X k.
Proof.
  intros Hr HQ.
  assert (settle_row approve now r = r →
          k <| runs := alter (settle_row approve now) (Run.id r) (runs k) |> = k) as Hsame.
  { intros Hs. apply kernel_eta_runs. apply map_eq. intros i.
    destruct (decide_rel (=) i (Run.id r)) as [->|Hi]; [|by rewrite lookup_alter_ne].
    rewrite lookup_alter_eq, Hr. cbn. by rewrite Hs. }
  assert (∀ f, settle_row approve now r = f r →
          alter f (Run.id r) (runs k) = alter (settle_row approve now) (Run.id r) (runs k)) as Halter.
  { intros f Hf. apply map_eq. intros i.
    destruct (decide_rel (=) i (Run.id r)) as [->|Hi]; [|by rewrite !lookup_alter_ne].
    rewrite !lookup_alter_eq, Hr. cbn. by rewrite Hf. }
  unfold settle_run. destruct (RunState.is_terminal (Run.status r)) eqn:Ht.
  { apply wp_ret. rewrite <-Hsame; [done|]. unfold settle_row. by rewrite Ht. }
  assert (RunStatus.FAILED ∈ RunState.allowed_run_transitions (Run.status r)) as Hfail.
  { destruct (Run.status r); try done; set_solver. }
  destruct approve; cbn [negb andb]; [case_bool_decide as Hw|].
  - apply wp_bind. rewrite Hw. apply wp_raise_if; [done|]. intros _. apply wp_modify.
    erewrite Halter; [done|]. unfold settle_row. by rewrite Ht, Hw.
  - apply wp_ret. rewrite <-Hsame; [done|]. unfold settle_row. by rewrite Ht, bool_decide_false.
  - apply wp_bind. unfold RunState.validate_run_transition. rewrite bool_decide_true by done.
    apply wp_raise_if; [done|]. intros _. apply wp_modify.
    erewrite Halter; [done|]. unfold settle_row. by rewrite Ht.
Qed.

Lemma wp_update_approval id f (s : ApprovalState) (Q : () → ApprovalState → Prop) X :
  Q () (MkApprovalState (base s) (alter f id (approvals s))) → wp (update_approval id f) Q X s.
Proof. intros HQ. exact HQ. Qed.

Lemma wp_check_constraints {S} p a (s : S) (Q : () → S → Prop) X :
  (meets_constraints p a = true → Q () s) → (∀ e, is_expiry e = false → X e s) →
  wp (check_constraints p a) Q X s.
Proof.
  intros HQ HX. unfold check_constraints, meets_constraints in *.
  set (req := dget_or "permission" VNone (Approval.approver_constraints a)) in *.
  set (self := truth (dget_or "disallow_self" VNone _) && _) in *.
  apply wp_bind. apply (wp_mono _ (λ _ s', s' = s ∧ (truth req = true → holds_value p req = true)) _
    (λ e s', s' = s ∧ is_expiry e = false)); [|intros [] s' [-> Hreq]|naive_solver].
  - destruct (truth req); [|by apply wp_ret]. apply wp_bind.
    apply (wp_mono _ (λ b s', s' = s ∧ b = holds_value p req) _ (λ e s', s' = s ∧ is_expiry e = false)).
    + unfold can_value, holds_value. destruct req; try by apply wp_ret.
      all: case_bool_decide; by (apply wp_ret || apply wp_raise).
    + intros b s' [-> ->]. by apply wp_raise_if; intros Hb; split_bool.
    + done.
  - apply wp_raise_if; [intros _; by apply HX|]. intros Hself. apply HQ. rewrite Hself.
    destruct (truth req); cbn; [|done]. by rewrite Hreq.
Qed.

Lemma wp_expire p id a r now s (Q : () → ApprovalState → Prop) X :
  reachable_pending p id s a r → (Approval.expires_at a <= now)%Z →
  (∀ s', expired p id s s' → X expiry_error s') →
  (∀ e s', is_expiry e = false → X e s') →
  ∀ k1, same_tables (base s) k1 → wp (expire p a r now) Q X (s <| base := k1 |>).
Proof.
  intros Hp Hnow HX HX' k1 Hk1. unfold expire. apply wp_bind, wp_update_approval.
  apply wp_journal; [|intros; by apply HX', event_error_not_expiry].
  intros k' Hj. apply wp_raise, HX. exists a, r, now. split; [done|]. split; [done|].
  pose proof (pending_row _ _ _ _ _ Hp) as [Ha Hid]%row_by_Some. split.
  - cbn. rewrite Hid. by apply alter_insert_row.
  - exists k1. split; [done|]. rewrite kernel_eta_runs with (f := λ m, m) by done. exact Hj.
Qed.

Lemma wp_decide p id approve reason s (Q : Approval → ApprovalState → Prop) X :
  (∀ a s', decided p id approve reason s a s' → Q a s') →
  (∀ s', expired p id s s' → X expiry_error s') →
  (∀ e s', is_expiry e = false → X e s') →
  wp (decide p id approve reason) Q X s.
Proof.
  intros HQ HX HX'. unfold decide.
  apply wp_bind, wp_raise_if; [intros _; by apply HX'|]. intros Hcan. split_bool.
  apply wp_bind, wp_gets. destruct (row_by _ _ _) as [a|] eqn:Ha; [|by apply wp_raise, HX'].
  apply wp_bind, wp_raise_if; [intros _; by apply HX'|]. intros Horg. split_bool.
  apply wp_bind, wp_raise_if; [intros _; by apply HX'|]. intros Hst. split_bool.
  apply wp_bind, wp_read; [apply _|]. apply wp_run_access; [|by apply HX'].
  intros r w Hr Hw Hro Hacc.
  assert (reachable_pending p id s a r) as Hp by (split; eauto).
  apply wp_bind, wp_in_kernel, wp_utc_now. intros now k1 Hk1.
  apply wp_bind. destruct (Z.leb_spec (Approval.expires_at a) now) as [Hexp|Hlive].
  { eapply wp_expire; [exact Hp|done..]. }
  apply wp_ret. apply wp_bind, wp_check_constraints; [|intros; by apply HX']. intros Hmeets.
  apply wp_bind, wp_update_approval. apply wp_bind, wp_in_kernel.
  apply row_by_Some in Hr as Hr'. destruct Hr' as [Hrow Hrid].
  apply wp_settle_run; [rewrite Hrid; cbn; by rewrite Hk1|].
  apply wp_journal; [|intros; by apply HX', event_error_not_expiry].
  intros k' Hj. apply wp_bind, wp_gets.
  apply row_by_Some in Ha as Ha'. destruct Ha' as [Harow Haid].
  cbn [approvals set_kernel approval_session].
  assert (alter (with_decision p approve reason now) id (approvals s) =
          <[id := with_decision p approve reason now a]> (approvals s)) as Hmap
    by by apply alter_insert_row.
  change (wp (mret (default a (alter (with_decision p approve reason now) id (approvals s) !! id))) Q X
    (set_kernel k' (MkApprovalState k1 (alter (with_decision p approve reason now) id (approvals s))))).
  rewrite Hmap, lookup_insert_eq. apply wp_ret, HQ.
  exists a, r, now. split; [done|]. split; [done|]. split; [done|]. split; [done|]. split; [done|].
  exists k1. split; [done|exact Hj].
Qed.

(** No table of the session differs. *)
Definition unchanged (s s' : ApprovalState) : Prop :=
  approvals s' = approvals s ∧ same_tables (base s) (base s').

(** The approval endpoint, on every outcome.  It returns only for a pending
    approval of the caller's organization whose Run the caller may write, not past its
    expiry, with the approver's constraints met (the required permission, and not the
    requester itself when self-approval is disallowed); then exactly that approval is
    decided by the caller, the Run waiting for it resumes or a live one fails, and one
    event and one audit entry are added.  Past the expiry it raises [approval_expired]
    with the EXPIRED status persisted.  Any other exception leaves every table as it
    was. *)
Theorem decide_endpoint_spec p id approve reason s :
  match decide_endpoint p id approve reason s with
  | Ok a s' => decided p id approve reason s a s'
  | Raise e s' => (e = expiry_error ∧ expired p id s s') ∨ (is_expiry e = false ∧ unchanged s s')
  end.
Proof.
  apply (wp_bind _ _ (λ a s', decided p id approve reason s a s')
    (λ e s', (e = expiry_error ∧ expired p id s s') ∨ (is_expiry e = false ∧ unchanged s s'))).
  apply wp_savepoint, wp_try_catch. apply wp_bind. apply wp_decide.
  - intros a s' Hd. apply wp_ret. by apply wp_ret.
  - intros s' He. cbn. apply wp_raise. by left.
  - intros e s' He. unfold is_expiry in He. rewrite He. right. split; [exact He|]. done.
Qed.

(** One request to the endpoint, whatever its outcome. *)
Definition decision_step (s s' : ApprovalState) : Prop :=
  ∃ p id approve reason, s' = final (decide_endpoint p id approve reason s).

(** What holds of every approval: a decision has an author who met the constraints. *)
Definition soundly_decided (a : Approval) : Prop :=
  Approval.status a = ApprovalStatus.APPROVED ∨ Approval.status a = ApprovalStatus.REJECTED →
  ∃ p, Approval.decided_by a = Some (Principal.id p) ∧ can p "approval.decide" = true ∧
       Principal.organization_id p = Approval.organization_id a ∧ meets_constraints p a = true.

Lemma ledger_runs_map (f : Run → Run) i k :
  (∀ r, Run.aggregate_version (f r) = Run.aggregate_version r ∧
        Run.organization_id (f r) = Run.organization_id r) →
  ledger k → ledger (k <| runs := alter f i (runs k) |>).
Proof.
  intros Hf []. split; try done.
  - intros j r. unfold run_events. rec_simpl. rewrite lookup_alter_Some.
    intros [(-> & r0 & Hr0 & ->)|[_ Hr]]; [|by apply ledger_runs].
    destruct (Hf r0) as [-> ->]. by apply ledger_runs.
  - intros e j He Hid. rec_simpl. rewrite lookup_alter_is_Some. by eapply ledger_known_run.
Qed.

Lemma settle_row_counter approve now r :
  Run.aggregate_version (settle_row approve now r) = Run.aggregate_version r ∧
  Run.organization_id (settle_row approve now r) = Run.organization_id r.
Proof.
  unfold settle_row. destruct (RunState.is_terminal _); [done|].
  destruct approve; [case_bool_decide|]; done.
Qed.

(** What one request does to the approvals and the ledger. *)
Lemma decision_step_cases s s' : decision_step s s' →
  (∃ id a0 a, approvals s !! id = Some a0 ∧ Approval.status a0 = ApprovalStatus.PENDING ∧
     approvals s' = <[id := a]> (approvals s) ∧ Approval.status a ≠ ApprovalStatus.PENDING ∧
     soundly_decided a) ∨ approvals s' = approvals s.
Proof.
  intros (p & id & approve & reason & ->).
  assert (wp (decide_endpoint p id approve reason)
    (λ a s', decided p id approve reason s a s')
    (λ e s', expired p id s s' ∨ unchanged s s') s) as Hwp.
  { apply wp_bind, wp_savepoint, wp_try_catch, wp_bind. apply wp_decide.
    - intros a s' Hd. by apply wp_ret, wp_ret.
    - intros s' He. cbn. apply wp_raise. by left.
    - intros e s' He. unfold is_expiry in He. rewrite He. by right. }
  unfold wp in Hwp. destruct (decide_endpoint _ _ _ _ s) as [a s'|e s'].
  - left. destruct Hwp as (a0 & r & now & Hp & _ & Hm & -> & Happ & _).
    pose proof (pending_row _ _ _ _ _ Hp) as [Ha _]%row_by_Some. exists id, a0. eexists.
    split; [done|]. split; [by eapply pending_status|]. split; [exact Happ|]. split; [by destruct approve|]. intros _.
    exists p. split; [done|]. split; [by eapply pending_permission|].
    split; [symmetry; by eapply (pending_organization _ _ _ _ _ Hp)|exact Hm].
  - destruct Hwp as [(a0 & r & now & Hp & _ & Happ & _)|[Hun _]]; [left|right; exact Hun].
    pose proof (pending_row _ _ _ _ _ Hp) as [Ha _]%row_by_Some. exists id, a0. eexists.
    split; [done|]. split; [by eapply pending_status|]. split; [exact Happ|]. split; [done|]. by intros [?|?].
Qed.

Lemma settled_ledger d au f k k' :
  (∀ k0, ledger k0 → ledger (k0 <| runs := f (runs k0) |>)) →
  settled_kernel d au f k k' → ledger k → ledger k'.
Proof.
  intros Hf (k0 & Hk0 & Hj) Hk. apply (journaled_ledger _ _ _ _ Hj). apply Hf. by eapply ledger_same.
Qed.

Lemma decision_step_ledger s s' : decision_step s s' → ledger (base s) → ledger (base s').
Proof.
  intros (p & id & approve & reason & ->) Hl.
  assert (wp (decide_endpoint p id approve reason) (λ _ s', ledger (base s')) (λ _ s', ledger (base s')) s) as Hwp.
  { apply wp_bind, wp_savepoint, wp_try_catch, wp_bind. apply wp_decide.
    - intros a s' (a0 & r & now & _ & _ & _ & _ & _ & Hset). apply wp_ret, wp_ret.
      eapply settled_ledger; [|exact Hset|done]. intros k0. apply ledger_runs_map. intros r0.
      apply settle_row_counter.
    - intros s' (a0 & r & now & _ & _ & _ & Hset). cbn. apply wp_raise.
      eapply settled_ledger; [|exact Hset|done]. intros k0 Hk0. cbv beta.
      by rewrite (kernel_eta_runs k0 (λ m, m) eq_refl : _ = _).
    - intros e s' He. unfold is_expiry in He. rewrite He. by apply (ledger_same (base s)). }
  unfold wp in Hwp. by destruct (decide_endpoint _ _ _ _ s).
Qed.

(** Over any sequence of requests, whatever their outcomes, an approval is decided
    at most once: no approval disappears, each one is as it was or was pending and is
    no longer, and one that was approved or rejected on the way names an author of its
    organization who held the permission and met its constraints.  The event tables
    stay a ledger. *)
Theorem decided_once s s' : steps decision_step s s' →
  (∀ id a, approvals s !! id = Some a → ∃ a', approvals s' !! id = Some a' ∧
     (a' = a ∨ Approval.status a = ApprovalStatus.PENDING ∧
               Approval.status a' ≠ ApprovalStatus.PENDING ∧ soundly_decided a')) ∧
  (ledger (base s) → ledger (base s')).
Proof.
  induction 1 as [s|s1 s2 s3 _ [IH IHl] Hstep]; [naive_solver|].
  split; [|intros Hl; by eapply decision_step_ledger, IHl].
  intros id a Ha. destruct (IH _ _ Ha) as (a2 & Ha2 & Hcase).
  destruct (decision_step_cases _ _ Hstep) as
    [(id' & a0 & a3 & Ha0 & Hpend & Happ & Hst & Hsound)|Happ]; rewrite Happ; [|by exists a2].
  destruct (decide_rel (=) id id') as [<-|Hne].
  - rewrite lookup_insert_eq. exists a3. split; [done|]. rewrite Ha0 in Ha2. injection Ha2 as <-.
    right. destruct Hcase as [<-|(_ & Hn & _)]; done.
  - rewrite lookup_insert_ne by done. by exists a2.
Qed.
End Service.

(** ** A sample *)

Module ApprovalSample.

Definition approval : Approval :=
  Approval.Make 60 10 50 None 70 ApprovalStatus.PENDING "needs review" 2
    [("permission", VStr "approval.decide"); ("disallow_self", VBool true)] None None 5000 None 0.

Definition state : ApprovalState := MkApprovalState Sample.kernel {[60%N := approval]}.

Definition approver : Principal :=
  Principal.Make 1 10 "u1" "Owner" None None ∅ {["approval.decide"]} [].

#[local] Instance encoder : JsonEncoder := λ _, inr VNone.
#[local] Existing Instances Sample.environment Sample.contracts.

Definition approved : ApprovalState := final (decide_endpoint approver 60 true " ok " state).

(** The decision resumes the waiting Run. *)
Example approved_run :
  (Run.status <$> runs (base approved) !! 50%N, Approval.status <$> approvals approved !! 60%N) =
  (Some RunStatus.RUNNING, Some ApprovalStatus.APPROVED).
Proof. vm_compute. reflexivity. Qed.

Lemma approved_step : steps decision_step state approved.
Proof. apply steps_one. by exists approver, 60%N, true, " ok ". Qed.

End ApprovalSample.

Lemma decided_once_witness :
  ∃ a', approvals ApprovalSample.approved !! 60%N = Some a' ∧
    (a' = ApprovalSample.approval ∨ Approval.status ApprovalSample.approval = ApprovalStatus.PENDING ∧
       Approval.status a' ≠ ApprovalStatus.PENDING ∧ soundly_decided a').
Proof.
  exact (proj1 (decided_once _ _ ApprovalSample.approved_step) 60%N ApprovalSample.approval eq_refl).
Defined.
