(* ===== verification/RateLimit.v ===== *)
(** * Rate limiting of capabilities ([capabilities/rate_limit.py])

    A fixed-window counter per key, held in the process.  [RateLimiter] is the
    interface a gateway calls; the in-memory limiter is its instance here. *)

From S2P Require Import Prelude PyText PyVal.

(** [CapabilityRateLimiter]: a state, and [allow], which answers [None] when no decision
    can be made ([RateLimitUnavailable]). *)
Class RateLimiter (W : Type) := {
  allow : Z → string → option Z → W → option bool * W
}.

Definition _resolve_limit (limit : option Z) (default : Z) : Z :=
  match limit with
  | Some l => if (0 <? l)%Z then l else default
  | None => default
  end.

(** [_Window] *)
Record Window : Type := MkWindow { number : Z; count : Z }.

Section InMemory.
Context (default_limit window_seconds : Z).

Definition window_number (now : Z) : Z := (now / window_seconds)%Z.

(** [allow] at [now] seconds. *)
Definition allow_in_memory (now : Z) (key : string) (limit : option Z) (windows : gmap string Window) :
    option bool * gmap string Window :=
  let resolved_limit := _resolve_limit limit default_limit in
  let current := window_number now in
  let window :=
    match windows !! key with
    | Some w => if bool_decide (number w = current) then w else MkWindow current 0
    | None => MkWindow current 0
    end in
  let count' := (count window + 1)%Z in
  (Some (count' <=? resolved_limit)%Z, <[key := MkWindow current count']> windows).

(** A call: when, for which key and with which limit. *)
Record Call : Type := MkCall { at_time : Z; for_key : string; with_limit : option Z }.

Fixpoint run_calls (calls : list Call) (windows : gmap string Window) : list bool * gmap string Window :=
  match calls with
  | [] => ([], windows)
  | c :: calls' =>
      let '(answer, windows1) := allow_in_memory (at_time c) (for_key c) (with_limit c) windows in
      let '(answers, windows2) := run_calls calls' windows1 in
      (default false answer :: answers, windows2)
  end.

(** The calls among [before] that count against [c]. *)
Definition same_window (c c' : Call) : Prop :=
  for_key c' = for_key c ∧ window_number (at_time c') = window_number (at_time c).

#[export] Instance same_window_dec c c' : Decision (same_window c c').
Proof. unfold same_window. apply _. Defined.

Definition used (before : list Call) (c : Call) : Z := Z.of_nat (length (filter (same_window c) before)).

Definition specified (before : list Call) (c : Call) : bool :=
  (used before c + 1 <=? _resolve_limit (with_limit c) default_limit)%Z.

Fixpoint specified_answers (before calls : list Call) : list bool :=
  match calls with
  | [] => []
  | c :: calls' => specified before c :: specified_answers (before ++ [c]) calls'
  end.

(** The clock does not run backwards across a window. *)
Fixpoint windows_ordered (last : Z) (calls : list Call) : Prop :=
  match calls with
  | [] => True
  | c :: calls' => (last <= window_number (at_time c))%Z ∧ windows_ordered (window_number (at_time c)) calls'
  end.

(** The windows hold the counts of the latest window of each key. *)
Definition counted (before : list Call) (last : Z) (windows : gmap string Window) : Prop :=
  (∀ c, c ∈ before → (window_number (at_time c) <= last)%Z) ∧
  ∀ key, match windows !! key with
    | None => ∀ c, c ∈ before → for_key c ≠ key
    | Some w => (number w <= last)%Z ∧
        (∀ c, c ∈ before → for_key c = key → (window_number (at_time c) <= number w)%Z) ∧
        count w = Z.of_nat (length (filter (λ c, for_key c = key ∧ window_number (at_time c) = number w) before))
    end.

Lemma counted_used before last windows c :
  counted before last windows → (last <= window_number (at_time c))%Z →
  used before c =
    match windows !! for_key c with
    | Some w => if bool_decide (number w = window_number (at_time c)) then count w else 0%Z
    | None => 0%Z
    end.
Proof.
  intros [Hall Hkey] Hlast. unfold used. specialize (Hkey (for_key c)).
  destruct (windows !! for_key c) as [w|].
  - destruct Hkey as (Hw & Hmax & Hcount). case_bool_decide as Hn.
    + rewrite Hcount. do 2 f_equal. apply list_filter_iff. intros c'. unfold same_window. by rewrite Hn.
    + rewrite filter_none; [done|]. intros c' Hc' [Hk Hwin]. specialize (Hmax _ Hc' Hk). lia.
  - rewrite filter_none; [done|]. intros c' Hc' [Hk _]. by apply (Hkey c').
Qed.

Lemma allow_counted before last windows c :
  counted before last windows → (last <= window_number (at_time c))%Z →
  let r := allow_in_memory (at_time c) (for_key c) (with_limit c) windows in
  r.1 = Some (specified before c) ∧ counted (before ++ [c]) (window_number (at_time c)) r.2.
Proof.
  intros Hc Hlast. cbn. pose proof (counted_used _ _ _ _ Hc Hlast) as Hused.
  set (w := match windows !! for_key c with Some _ => _ | None => _ end).
  assert (count w = used before c) as Hw.
  { subst w. rewrite Hused. destruct (windows !! for_key c); [case_bool_decide|]; done. }
  rewrite Hw. split; [done|]. destruct Hc as [Hall Hkey]. split.
  - intros c' [Hc'|Hc'%list_elem_of_singleton]%elem_of_app; [specialize (Hall _ Hc')|subst c']; lia.
  - intros key. rewrite lookup_insert. case_decide as Hk.
    + subst key. cbn. split; [done|]. split.
      * intros c' [Hc'|Hc'%list_elem_of_singleton]%elem_of_app _; [specialize (Hall _ Hc')|subst c']; lia.
      * rewrite filter_app, length_app, filter_cons_True by done. cbn. unfold used.
        rewrite Nat2Z.inj_add. done.
    + specialize (Hkey key). destruct (windows !! key) as [w'|].
      * destruct Hkey as (Hn & Hmax & Hcount). split; [lia|]. split.
        -- intros c' [Hc'|Hc'%list_elem_of_singleton]%elem_of_app Hk'; [by apply Hmax|by subst c'].
        -- rewrite Hcount, filter_app, filter_cons_False, app_nil_r by naive_solver. done.
      * intros c' [Hc'|Hc'%list_elem_of_singleton]%elem_of_app; [by apply Hkey|by subst c'].
Qed.

(** The in-memory limiter implements its contract: as long as the clock does not
    run backwards across a window, the answer to each call is whether, with it, the
    calls of its key in its window stay within its limit (the default limit when none
    or a non-positive one is configured); other keys and earlier windows never count. *)
Theorem rate_limit_exact calls last : windows_ordered last calls →
  (run_calls calls ∅).1 = specified_answers [] calls.
Proof.
  enough (∀ before windows last, counted before last windows → windows_ordered last calls →
    (run_calls calls windows).1 = specified_answers before calls) as Hgo.
  { intros Hord. apply (Hgo [] ∅ last); [|done]. split; [by intros c ?%not_elem_of_nil|].
    intros key. rewrite lookup_empty. by intros c ?%not_elem_of_nil. }
  induction calls as [|c calls IH]; intros before windows l Hc Hord; [done|].
  destruct Hord as [Hl Hord]. destruct (allow_counted _ _ _ _ Hc Hl) as [Hans Hc'].
  cbn [run_calls specified_answers]. destruct (allow_in_memory _ _ _ _) as [answer windows1].
  cbn [fst snd] in *. subst answer.
  specialize (IH _ _ _ Hc' Hord). destruct (run_calls calls windows1). cbn [fst] in *. by rewrite IH.
Qed.

#[export] Instance in_memory_limiter : RateLimiter (gmap string Window) := {| allow := allow_in_memory |}.
End InMemory.

Lemma rate_limit_exact_witness :
  windows_ordered 60 0 [MkCall 1 "k" None; MkCall 2 "k" None; MkCall 3 "j" (Some 1%Z); MkCall 61 "k" None] ∧
  (run_calls 1 60 [MkCall 1 "k" None; MkCall 2 "k" None; MkCall 3 "j" (Some 1%Z); MkCall 61 "k" None] ∅).1 =
  specified_answers 1 60 [] [MkCall 1 "k" None; MkCall 2 "k" None; MkCall 3 "j" (Some 1%Z); MkCall 61 "k" None].
Proof.
  assert (windows_ordered 60 0 [MkCall 1 "k" None; MkCall 2 "k" None; MkCall 3 "j" (Some 1%Z);
                                MkCall 61 "k" None]) as Hord by (vm_compute; repeat split; done).
  split; [exact Hord|]. exact (rate_limit_exact 1 60 _ 0 Hord).
Defined.

Example rate_limit_answers :
  (run_calls 1 60 [MkCall 1 "k" None; MkCall 2 "k" None; MkCall 3 "j" (Some 1%Z); MkCall 61 "k" None] ∅).1
  = [true; false; true; true].
Proof. vm_compute. reflexivity. Qed.
