(* ===== verification/CircuitBreaker.v ===== *)
(** * The circuit breaker of HTTP connectors ([capabilities/circuit_breaker.py])

    [ConnectorCircuitBreaker] keeps two dictionaries by authority.  The reference below
    keeps nothing: it answers from the whole history of calls.  The two agree. *)

From S2P Require Import Prelude PyText PyVal Enums.

(** [Authority = str | tuple[str, int]] *)
Inductive Authority : Type :=
| Host (name : string)
| HostPort (name : string) (port : Z).

Definition _authority_key (a : Authority) : string :=
  match a with
  | HostPort name port => name +:+ ":" +:+ int_str port
  | Host name => name
  end.

Definition ConnectorCircuitOpenError (authority : string) : exn :=
  ObsionError "capabilities_unavailable" "The connector circuit is open after repeated failures" 503
    [("authority", VStr authority)].

(** [ConnectorCircuitBreaker(failure_threshold=, cooldown_seconds=)]; times are readings of
    [time.monotonic] in an arbitrary unit. *)
Class BreakerSettings := { failure_threshold : Z; cooldown : Z }.

Record Breaker : Type := MkBreaker { _failures : gmap string Z; _opened_at : gmap string Z }.

Section Circuit.
Context `{BreakerSettings}.

Definition guard (a : Authority) (now : Z) : Py Breaker unit :=
  let key := _authority_key a in
  opened ← gets (λ s, _opened_at s !! key);
  match opened with
  | None => mret ()
  | Some opened =>
      if (now - opened <? cooldown)%Z then raise (ConnectorCircuitOpenError key)
      else modify (λ s, MkBreaker (<[key := 0%Z]> (_failures s)) (delete key (_opened_at s)))
  end.

Definition record_success (a : Authority) : Py Breaker unit :=
  let key := _authority_key a in
  modify (λ s, MkBreaker (delete key (_failures s)) (delete key (_opened_at s))).

Definition record_failure (a : Authority) (now : Z) : Py Breaker unit :=
  let key := _authority_key a in
  count ← gets (λ s, default 0 (_failures s !! key) + 1)%Z;
  modify (λ s, MkBreaker (<[key := count]> (_failures s))
                 (if (failure_threshold <=? count)%Z then <[key := now]> (_opened_at s) else _opened_at s)).

(** ** Histories of calls *)

Inductive Call : Type :=
| Guard (now : Z)
| Success
| Failure (now : Z).

Definition call (a : Authority) (c : Call) : Py Breaker unit :=
  match c with
  | Guard now => guard a now
  | Success => record_success a
  | Failure now => record_failure a now
  end.

(** A call, and whether it raised. *)
Definition entry : Type := Authority * Call * bool.

Definition raised {A} (o : outcome exn Breaker A) : bool := match o with Ok _ _ => false | Raise _ _ => true end.

(** Make the calls one after another; the history lists the latest first. *)
Fixpoint perform (calls : list (Authority * Call)) (s : Breaker) (h : list entry) : Breaker * list entry :=
  match calls with
  | [] => (s, h)
  | (a, c) :: rest =>
      let o := call a c s in
      perform rest (final o) ((a, c, raised o) :: h)
  end.

(** ** The reference *)

Definition tripped (failures : list Z) : bool :=
  negb (bool_decide (failures = [])) && (failure_threshold <=? Z.of_nat (length failures))%Z.

(** The failures of an authority, latest first, since its last success or since a call was
    let through its tripped circuit as a trial. *)
Fixpoint failures_since (key : string) (h : list entry) : list Z :=
  match h with
  | [] => []
  | (a, c, r) :: h' =>
      let before := failures_since key h' in
      if bool_decide (_authority_key a = key) then
        match c with
        | Success => []
        | Failure now => now :: before
        | Guard _ => if negb r && tripped before then [] else before
        end
      else before
  end.

(** Enough failures in a row, the last of them less than the cooldown ago. *)
Definition refuses (key : string) (now : Z) (h : list entry) : bool :=
  let failures := failures_since key h in
  tripped failures && (now - default 0 (head failures) <? cooldown)%Z.

(** What a call should answer after a history. *)
Definition should_raise (h : list entry) (a : Authority) (c : Call) : bool :=
  match c with Guard now => refuses (_authority_key a) now h | _ => false end.

Fixpoint reference (calls : list (Authority * Call)) (h : list entry) : list entry :=
  match calls with
  | [] => h
  | (a, c) :: rest => reference rest ((a, c, should_raise h a c) :: h)
  end.

(** ** The two agree *)

(** The dictionaries hold, by key, the number of failures and the time of the last one if
    they tripped the circuit. *)
Definition represents (s : Breaker) (h : list entry) : Prop := ∀ key,
  default 0%Z (_failures s !! key) = Z.of_nat (length (failures_since key h)) ∧
  _opened_at s !! key = if tripped (failures_since key h) then head (failures_since key h) else None.

Lemma tripped_head l : tripped l = true → ∃ t, head l = Some t.
Proof. destruct l as [|t l]; [done|]. by exists t. Qed.

Lemma tripped_cons now l :
  tripped (now :: l) = (failure_threshold <=? Z.of_nat (length l) + 1)%Z.
Proof.
  unfold tripped. rewrite bool_decide_eq_false_2 by done. cbn [negb andb length]. f_equal. lia.
Qed.

(** An open circuit stays tripped by a further failure. *)
Lemma tripped_more now l : tripped l = true → tripped (now :: l) = true.
Proof. rewrite tripped_cons. unfold tripped. intros Ht. split_bool. lia. Qed.

Lemma call_agrees s h a c :
  represents s h →
  raised (call a c s) = should_raise h a c ∧
  represents (final (call a c s)) ((a, c, raised (call a c s)) :: h).
Proof.
  intros Hs. destruct (Hs (_authority_key a)) as [Hf Ho]. destruct c as [now| |now]; cbn [call should_raise].
  - unfold guard, refuses, mbind, M_bind, gets. rewrite Ho.
    destruct (tripped (failures_since (_authority_key a) h)) eqn:Ht.
    + destruct (tripped_head _ Ht) as [t Hhead]. rewrite Hhead. cbn [default]. unfold id.
      destruct (now - t <? cooldown)%Z; cbn; (split; [done|]); intros key; cbn.
      * case_bool_decide; apply Hs.
      * case_bool_decide as Hk.
        -- rewrite <-Hk, Ht, lookup_insert_eq, lookup_delete_eq. done.
        -- rewrite lookup_insert_ne, lookup_delete_ne by done. apply Hs.
    + cbn. split; [done|]. intros key. cbn. case_bool_decide as Hk; [|apply Hs]. rewrite <-Hk, Ht. by rewrite Hf, Ho, Ht.
  - cbn. split; [done|]. intros key. cbn. case_bool_decide as Hk.
    + by rewrite <-Hk, !lookup_delete_eq.
    + rewrite !lookup_delete_ne by done. apply Hs.
  - unfold record_failure, mbind, M_bind, gets, modify. cbn. split; [done|]. intros key. cbn.
    rewrite Hf. case_bool_decide as Hk.
    + rewrite <-Hk, lookup_insert_eq, tripped_cons. split; [cbn; lia|].
      destruct (failure_threshold <=? _)%Z eqn:Hlt; [by rewrite lookup_insert_eq|]. rewrite Ho.
      destruct (tripped (failures_since (_authority_key a) h)) eqn:Ht; [|done].
      apply (tripped_more now) in Ht. rewrite tripped_cons in Ht. congruence.
    + rewrite lookup_insert_ne by done. destruct (failure_threshold <=? _)%Z; [rewrite lookup_insert_ne by done|]; apply Hs.
Qed.

Lemma perform_agrees calls s h : represents s h → (perform calls s h).2 = reference calls h.
Proof.
  revert s h. induction calls as [|[a c] calls IH]; intros s h Hs; [done|]. cbn.
  destruct (call_agrees s h a c Hs) as [Hr Hs']. rewrite IH by done. by rewrite Hr.
Qed.

(** [C40] The breaker, with its dictionaries keyed by authority and updated call by call, is
    equivalent to the reference that looks at the whole history: it refuses a call exactly
    when its authority failed [failure_threshold] times or more since its last success or
    trial, most recently less than the cooldown ago.  Other authorities do not matter. *)
Theorem breaker_equivalent calls : (perform calls (MkBreaker ∅ ∅) []).2 = reference calls [].
Proof. apply perform_agrees. intros key. cbn. by rewrite lookup_empty. Qed.
End Circuit.
