(* ===== verification/Urls.v ===== *)
(** * URLs as the standard library parses them ([urllib.parse.urlparse])

    The parts of a URL that egress checks look at: scheme, host, port and user
    information, for ASCII text. *)

From S2P Require Import Prelude PyText.

(** Whether the standard library accepts a bracketed host: the verdict of its
    [ipaddress] module. *)
Class BracketedHosts := bracketed_host_ok : string → bool.

Definition take_until (stop : ascii → bool) (l : list ascii) : list ascii * option (list ascii) :=
  (fix go l acc := match l with
   | [] => (reverse acc, None)
   | c :: l' => if stop c then (reverse acc, Some l') else go l' (c :: acc)
   end) l [].

Definition is_char (a : ascii) : ascii → bool := λ c, bool_decide (c = a).

(** [s.partition(sep)] and [s.rpartition(sep)] for one character; [None] when it does
    not occur. *)
Definition partition (sep : ascii) (l : list ascii) : list ascii * option (list ascii) :=
  take_until (is_char sep) l.

Definition rpartition (sep : ascii) (l : list ascii) : option (list ascii) * list ascii :=
  match take_until (is_char sep) (reverse l) with
  | (after, Some before) => (Some (reverse before), reverse after)
  | (all, None) => (None, reverse all)
  end.

Definition scheme_char (c : ascii) : bool :=
  is_upper c || is_lower c || is_digit c || has_char c "+-.".

Record Url : Type := MkUrl { scheme : string; netloc : list ascii }.

(** Leading control characters and spaces are stripped, tabs and line breaks dropped. *)
Fixpoint drop_controls (l : list ascii) : list ascii :=
  match l with
  | c :: l' => if (code c <=? 32)%N then drop_controls l' else l
  | [] => []
  end.

Definition clean (l : list ascii) : list ascii :=
  filter (λ c, code c ≠ 9%N ∧ code c ≠ 10%N ∧ code c ≠ 13%N) (drop_controls l).

Section Urls.
Context `{BracketedHosts}.

(** [urlparse(url)] as far as the network location; [None] is a [ValueError]. *)
Definition urlparse (url : string) : option Url :=
  let l := clean (chars url) in
  let '(scheme, rest) :=
    match partition ":" l with
    | (c :: s, Some rest) =>
        if (is_upper c || is_lower c) && forallb scheme_char s
        then (lower (of_chars (c :: s)), rest) else ("", l)
    | _ => ("", l)
    end in
  match rest with
  | "/"%char :: "/"%char :: rest' =>
      let netloc := (take_until (λ c, has_char c "/?#") rest').1 in
      let opens := existsb (is_char "[") netloc in
      let closes := existsb (is_char "]") netloc in
      if negb (Bool.eqb opens closes) then None
      else if opens && negb (bracketed_host_ok (of_chars netloc)) then None
      else Some (MkUrl scheme netloc)
  | _ => Some (MkUrl scheme [])
  end.

Definition userinfo (u : Url) : option (list ascii) := (rpartition "@" (netloc u)).1.

Definition username (u : Url) : option string :=
  (λ info, of_chars (partition ":" info).1) <$> userinfo u.

Definition password (u : Url) : option string :=
  info ← userinfo u; of_chars <$> (partition ":" info).2.

(** [_hostinfo] *)
Definition hostinfo (u : Url) : list ascii * option (list ascii) :=
  let host := (rpartition "@" (netloc u)).2 in
  match partition "[" host with
  | (_, Some bracketed) =>
      let '(hostname, after) := partition "]" bracketed in
      (hostname, a ← after; (partition ":" a).2)
  | (_, None) => partition ":" host
  end.

(** [.hostname], folded to lower case as the callers do. *)
Definition hostname (u : Url) : option string :=
  let h := (hostinfo u).1 in
  if bool_decide (h = []) then None else Some (lower (of_chars h)).

(** [.port]: [Some None] is no port, [None] a [ValueError]. *)
Definition port (u : Url) : option (option Z) :=
  match (hostinfo u).2 with
  | None | Some [] => Some None
  | Some l =>
      if forallb is_digit l then
        let p := fold_left (λ acc c, 10 * acc + (Z.of_N (code c) - 48))%Z l 0%Z in
        if (p <=? 65535)%Z then Some (Some p) else None
      else None
  end.
End Urls.

Section Examples.
#[local] Instance no_brackets : BracketedHosts := λ _, true.

Example urlparse_https :
  (u ← urlparse "https://User:pw@Api.Example.com:8443/v1?x=1"; p ← port u;
   Some (scheme u, hostname u, p, username u, password u)) =
  Some ("https", Some "api.example.com", Some 8443%Z, Some "User", Some "pw").
Proof. vm_compute. reflexivity. Qed.

Example urlparse_ipv6 :
  (u ← urlparse "http://[::1]:80"; p ← port u; Some (hostname u, p)) = Some (Some "::1", Some 80%Z).
Proof. vm_compute. reflexivity. Qed.

Example urlparse_no_scheme : (scheme <$> urlparse "example.com/a", hostname <$> urlparse "example.com/a")
  = (Some "", Some None).
Proof. vm_compute. reflexivity. Qed.
End Examples.
