(* ===== verification/ActionState.v ===== *)
(** * The state of governed actions

    The tables of [actions/], the capability registry they read, and the outside world
    they act on: the requests posted to providers and the windows of the rate limiter,
    neither of which a rollback undoes. *)

From S2P Require Import Prelude PyText PyVal Redaction Enums Models Kernel CanonicalJson.
From S2P Require Import Events EventLog Identity RateLimit Urls.

(** A row of [secret_references]. *)
Record SecretReference : Type := MkSecretReference {
  secret_organization : uuid;
  secret_name : string;
  external_ref : string
}.

Record Registry : Type := MkRegistry {
  capability_definitions : gmap uuid CapabilityDefinition;
  capability_versions : gmap uuid CapabilityVersion;
  capability_bindings : gmap uuid CapabilityBinding;
  connectors : gmap uuid Connector;
  secret_references : list SecretReference
}.

(** An HTTP request sent to a provider. *)
Record Post : Type := MkPost {
  post_url : string;
  post_idempotency_key : string;
  post_action_id : uuid;
  post_purpose : ActionApprovalPurpose;
  post_authorization : option string;
  post_payload : dict;
  post_timeout : Z
}.

(** What [httpx] reports: an exception, or a response with its status, the length it
    announces, its size and its JSON body. *)
Inductive HttpReply : Type :=
| HttpRaised (timeout : bool)
| HttpResponse (success : bool) (content_length : option string) (size : Z) (body : option val).

(** The tables a transaction on actions reads and writes. *)
Record ActionTables : Type := MkTables {
  action_requests : gmap uuid ActionRequest;
  action_plans : gmap uuid ActionPlan;
  action_approvals : gmap uuid ActionApproval;
  action_attempts : gmap uuid ActionAttempt
}.

Definition with_requests (f : gmap uuid ActionRequest → gmap uuid ActionRequest) (t : ActionTables) : ActionTables :=
  MkTables (f (action_requests t)) (action_plans t) (action_approvals t) (action_attempts t).
Definition with_plans (f : gmap uuid ActionPlan → gmap uuid ActionPlan) (t : ActionTables) : ActionTables :=
  MkTables (action_requests t) (f (action_plans t)) (action_approvals t) (action_attempts t).
Definition with_approvals (f : gmap uuid ActionApproval → gmap uuid ActionApproval) (t : ActionTables) : ActionTables :=
  MkTables (action_requests t) (action_plans t) (f (action_approvals t)) (action_attempts t).
Definition with_attempts (f : gmap uuid ActionAttempt → gmap uuid ActionAttempt) (t : ActionTables) : ActionTables :=
  MkTables (action_requests t) (action_plans t) (action_approvals t) (f (action_attempts t)).

Record Actions : Type := MkActions {
  shared : Kernel;
  registry : Registry;
  tables : ActionTables;
  notifications : list NotificationDelivery;
  posts : list Post;
  windows : gmap string Window
}.

#[export] Program Instance actions_session : Session Actions := {
  kernel := shared;
  set_kernel k s := MkActions k (registry s) (tables s) (notifications s) (posts s) (windows s);
  rollback old new :=
    MkActions (kernel_rollback (shared old) (shared new)) (registry old) (tables old)
      (notifications old) (posts new) (windows new)
}.
Solve Obligations with (by intros; repeat match goal with s : Actions |- _ => destruct s end).

(** The third parties an action touches. *)
Class ActionPlatform := {
  (** [jsonschema]'s best error of a payload against a schema, as its path. *)
  schema_violation : dict → val → option (list (string + Z));
  (** The provider's reply to a request, given those sent before. *)
  http_post : list Post → Post → HttpReply;
  (** [os.environ] *)
  environ : string → option string
}.

(** ** Access to the tables *)

Definition change_tables (f : ActionTables → ActionTables) : Py Actions unit :=
  modify (λ s, MkActions (shared s) (registry s) (f (tables s)) (notifications s) (posts s) (windows s)).

(** Assign columns of a loaded row. *)
Definition update_request (id : uuid) (f : ActionRequest → ActionRequest) : Py Actions unit :=
  change_tables (with_requests (alter f id)).
Definition update_approval (id : uuid) (f : ActionApproval → ActionApproval) : Py Actions unit :=
  change_tables (with_approvals (alter f id)).
Definition update_attempt (id : uuid) (f : ActionAttempt → ActionAttempt) : Py Actions unit :=
  change_tables (with_attempts (alter f id)).

(** [session.add(row); flush()]: the primary key must be free. *)
Definition insert_row {V} (t : Actions → gmap uuid V) (put : (gmap uuid V → gmap uuid V) → ActionTables → ActionTables)
    (id : uuid) (row : V) : Py Actions unit :=
  taken ← gets (λ s, bool_decide (is_Some (t s !! id)));
  raise_if taken (PyError "IntegrityError");;
  change_tables (put (insert id row)).

Definition requests (s : Actions) := action_requests (tables s).
Definition plans (s : Actions) := action_plans (tables s).
Definition approvals (s : Actions) := action_approvals (tables s).
Definition attempts (s : Actions) := action_attempts (tables s).

Definition purpose_value (p : ActionApprovalPurpose) : string := value_of p.

(** The idempotency key of the attempt of an action for a purpose. *)
Definition attempt_key (action_id : uuid) (purpose : ActionApprovalPurpose) : string :=
  "action:" +:+ uuid_str action_id +:+ ":" +:+ lower (purpose_value purpose) +:+ ":1".

(** The plan of a request. *)
Definition plan_of (t : ActionTables) (action_id : uuid) : option ActionPlan :=
  head (select (λ p, bool_decide (ActionPlan.action_request_id p = action_id)) (action_plans t)).

(** [action_plan_checksum] *)
Definition action_plan_checksum (spec : dict) : string := sha256 (json_dumps true (VDict spec)).

Section Journal.
Context `{Environment, EventContracts, JsonEncoder}.

(** [_event] of the service and of the worker. *)
Definition _event (action : ActionRequest) (name : string) (actor_type : ActorType)
    (actor_id : option uuid) (payload : list (obj * obj)) : Py Actions unit :=
  in_kernel (append ((event_draft name "action_request" (ActionRequest.id action)
      (ActionRequest.organization_id action) (ActionRequest.id action) actor_type actor_id)
    <| EventDraft.payload := payload |>));;
  mret ().

(** [ActionService._audit] *)
Definition _audit (action : ActionRequest) (p : Principal) (operation outcome : string)
    (metadata : list (string * obj)) : Py Actions unit :=
  in_kernel (write ((audit_draft (ActionRequest.organization_id action) (ActionRequest.id action)
      ActorType.USER (Some (Principal.id p)) operation "action_request" outcome)
    <| AuditDraft.resource_id := Some (uuid_str (ActionRequest.id action)) |>
    <| AuditDraft.risk_level := Some RiskLevel.L3 |>
    <| AuditDraft.metadata := metadata |>));;
  mret ().
End Journal.
