(* ===== verification/ActionGateway.v ===== *)
(** * The action gateway ([actions/gateway.py])

    The only place that writes to the outside world: it resolves the capability an
    action is pinned to, asks the policy engine, and posts the payload to the
    connector's endpoint. *)

From S2P Require Import Prelude PyText PyVal Redaction Enums Models Kernel CanonicalJson Events.
From S2P Require Import EventLog Identity Policy RateLimit Urls ActionState.

(** [CredentialBroker.resolve] ([capabilities/connectors.py]) for a reference that needs
    no further look-up, and the look-up of a stored secret. *)
Definition partition_scheme (ref : string) : option (string * string) :=
  (fix go acc l := match l with
   | ":"%char :: "/"%char :: "/"%char :: rest =>
       if bool_decide (rest = []) then None else Some (of_chars (reverse acc), of_chars rest)
   | c :: l' => go (c :: acc) l'
   | [] => None
   end) [] (chars ref).

Section Credentials.
Context `{ActionPlatform}.

Definition resolve_reference {S} (ref : string) (secret : string → Py S (option string)) :
    Py S (option string) :=
  match partition_scheme ref with
  | None => raise (ValidationError "invalid_credential_reference" "Credential reference is invalid" [])
  | Some (scheme, reference) =>
      if bool_decide (scheme = "env") then
        match environ reference with
        | Some value => mret (Some value)
        | None => raise (ValidationError "credential_unavailable"
                           "The connector credential is not available" [])
        end
      else if bool_decide (scheme = "secret") then secret reference
      else raise (ValidationError "credential_provider_unsupported"
                    "The configured credential provider is not installed" [("provider", VStr scheme)])
  end.

(** [CredentialBroker.resolve], in a session with stored secrets. *)
Definition resolve_stored {S} (stored_secrets : S → list SecretReference) (credential_ref : option string)
    (organization_id : uuid) : Py S (option string) :=
  match credential_ref with
  | None => mret None
  | Some ref =>
      resolve_reference ref (λ reference,
        secrets ← gets stored_secrets;
        match head (filter (λ r, secret_organization r = organization_id ∧ secret_name r = reference) secrets) with
        | None => raise (ValidationError "credential_unavailable"
                           "The connector credential is not available" [])
        | Some stored =>
            resolve_reference (external_ref stored) (λ _,
              raise (ValidationError "credential_context_missing"
                "A secret reference requires organization-scoped resolution" []))
        end)
  end.

Definition resolve (credential_ref : option string) (organization_id : uuid) : Py Actions (option string) :=
  resolve_stored (λ s, secret_references (registry s)) credential_ref organization_id.
End Credentials.

(** ** Resolved capabilities *)

Module ResolvedActionCapability.
Record ResolvedActionCapability : Type := Make {
  definition : CapabilityDefinition;
  version : CapabilityVersion;
  binding : CapabilityBinding;
  connector : Connector
}.
End ResolvedActionCapability.
Abbreviation ResolvedActionCapability := ResolvedActionCapability.ResolvedActionCapability.

Definition plan_reference (r : ResolvedActionCapability) : dict :=
  let v := ResolvedActionCapability.version r in
  [("capability_name", VStr (CapabilityDefinition.name (ResolvedActionCapability.definition r)));
   ("capability_version_id", VStr (uuid_str (CapabilityVersion.id v)));
   ("version", VInt (CapabilityVersion.version v));
   ("checksum_sha256", VStr (CapabilityVersion.checksum_sha256 v));
   ("permission_action", VStr (CapabilityVersion.permission_action v));
   ("risk_level", VStr (value_of (CapabilityVersion.risk_level v)));
   ("side_effect", VStr (value_of (CapabilityVersion.side_effect v)));
   ("connector_id", VStr (uuid_str (Connector.id (ResolvedActionCapability.connector r))));
   ("binding_id", VStr (uuid_str (CapabilityBinding.id (ResolvedActionCapability.binding r))))].

Definition action_provider_payload (action : ActionRequest) (plan_checksum_sha256 : string)
    (purpose : ActionApprovalPurpose) (parameters : val) (original_output : option val) : dict :=
  let payload :=
    [("action_type", VStr (value_of (ActionRequest.action_type action)));
     ("purpose", VStr (purpose_value purpose));
     ("target", VDict (ActionRequest.target action));
     ("parameters", parameters);
     ("obsion", VDict [("action_request_id", VStr (uuid_str (ActionRequest.id action)));
                       ("plan_checksum_sha256", VStr plan_checksum_sha256)])] in
  match purpose with
  | ActionApprovalPurpose.ROLLBACK =>
      (payload ++ [("original_output",
         match original_output with
         | Some v => if truth v then v else VDict []
         | None => VDict []
         end)])%list
  | ActionApprovalPurpose.EXECUTE => payload
  end.

(** The rows of the four-way join, for one organization and environment. *)
Definition joined (g : Registry) : list ResolvedActionCapability :=
  b ← rows (capability_bindings g);
  v ← option_list (row_by CapabilityVersion.id (capability_versions g) (CapabilityBinding.capability_version_id b));
  d ← option_list (row_by CapabilityDefinition.id (capability_definitions g) (CapabilityVersion.capability_id v));
  c ← option_list (row_by Connector.id (connectors g) (CapabilityBinding.connector_id b));
  [ResolvedActionCapability.Make d v b c].

Definition usable (org : uuid) (environment : string) (r : ResolvedActionCapability) : bool :=
  let d := ResolvedActionCapability.definition r in
  let b := ResolvedActionCapability.binding r in
  let c := ResolvedActionCapability.connector r in
  bool_decide (CapabilityDefinition.organization_id d = org) &&
  bool_decide (CapabilityDefinition.status d = RegistryStatus.ACTIVE) &&
  bool_decide (CapabilityBinding.environment b = environment) &&
  CapabilityBinding.enabled b &&
  bool_decide (Connector.organization_id c = org) &&
  bool_decide (Connector.environment c = environment) &&
  bool_decide (Connector.status c = ConnectorStatus.ACTIVE).

Definition _selector_matches (selector resource : dict) : bool :=
  forallb (λ '(key, expected),
    match lookup_parts (VDict resource) (split "."%char key) with
    | Some current => py_eq current expected
    | None => false
    end) selector.

Definition _validate_contract {S} (r : ResolvedActionCapability) (p : Principal) (environment : string) : Py S unit :=
  let v := ResolvedActionCapability.version r in
  raise_if (negb (bool_decide (environment ∈ ["development"; "staging"])))
    (ValidationError "v1_production_action_boundary" "V1 actions are limited to development and staging" []);;
  raise_if (negb (bool_decide (CapabilityVersion.risk_level v = RiskLevel.L3)) ||
            negb (bool_decide (CapabilityVersion.side_effect v = SideEffect.IDEMPOTENT_WRITE)) ||
            negb (bool_decide (CapabilityVersion.transport v = CapabilityTransport.HTTP)))
    (ValidationError "v1_action_capability_boundary" "V1 actions require an L3 idempotent HTTP write capability" []);;
  raise_if (negb (can p "action.execute") || negb (can p (CapabilityVersion.permission_action v)))
    (ValidationError "action_permission_missing" "The action owner lacks the required execution permission" []);;
  raise_if (negb (existsb (py_eq (VStr (CapabilityVersion.permission_action v)))
                    (Connector.declared_grants (ResolvedActionCapability.connector r))))
    (ValidationError "connector_grant_missing" "The connector has not declared the capability permission" []).

Section Endpoints.
Context `{BracketedHosts}.

(** [None] is the [ValueError]. *)
Definition _endpoint_authority (value default_scheme : string) : option (string * Z) :=
  let candidate := if contains "://" value then value else default_scheme +:+ "://" +:+ value in
  u ← urlparse candidate;
  if bool_decide (scheme u ∈ ["http"; "https"]) then
    host ← hostname u;
    p ← port u;
    let fallback := if bool_decide (scheme u = "https") then 443%Z else 80%Z in
    Some (host, match p with Some p => if (p =? 0)%Z then fallback else p | None => fallback end)
  else None.

Definition _validate_endpoint {S} (c : Connector) : Py S unit :=
  match Connector.endpoint c with
  | None | Some "" =>
      raise (ValidationError "connector_endpoint_missing" "Action connector has no endpoint" [])
  | Some endpoint =>
      match urlparse endpoint with
      | None => raise (PyError "ValueError")
      | Some parsed =>
          raise_if (negb (bool_decide (scheme parsed ∈ ["http"; "https"])) ||
                    bool_decide (hostname parsed = None) || bool_decide (is_Some (username parsed)) ||
                    bool_decide (is_Some (password parsed)))
            (ValidationError "connector_egress_invalid" "Action connector endpoint is invalid" []);;
          match _endpoint_authority endpoint "https" with
          | None => raise (PyError "ValueError")
          | Some authority =>
              match mapM (λ item, _endpoint_authority item (scheme parsed))
                      (string_items (Connector.allowed_egress c)) with
              | None => raise (ValidationError "connector_egress_invalid"
                                 "Action connector egress configuration is invalid" [])
              | Some allowed =>
                  raise_if (negb (bool_decide (authority ∈ allowed)))
                    (ValidationError "connector_egress_denied"
                      "Action connector endpoint is outside its allowlist" []);;
                  raise_if (negb (bool_decide (scheme parsed = "https")) &&
                            negb (bool_decide (Connector.environment c = "development")))
                    (ValidationError "connector_tls_required"
                      "Non-development action connectors must use TLS" [])
              end
          end
      end
  end.
End Endpoints.

(** ** Requests and results *)

Module ActionGatewayRequest.
Record ActionGatewayRequest : Type := Make {
  principal : Principal;
  action : ActionRequest;
  approval : ActionApproval;
  attempt : ActionAttempt;
  plan_checksum_sha256 : string;
  purpose : ActionApprovalPurpose;
  payload : dict
}.
End ActionGatewayRequest.
Abbreviation ActionGatewayRequest := ActionGatewayRequest.ActionGatewayRequest.

Inductive ActionGatewayStatus : Type := COMPLETED | DENIED | FAILED.

Module ActionGatewayResult.
Record ActionGatewayResult : Type := Make {
  status : ActionGatewayStatus;
  policy_decision_id : uuid;
  output : option dict;
  error_code : option string;
  error_message : option string
}.
End ActionGatewayResult.
Abbreviation ActionGatewayResult := ActionGatewayResult.ActionGatewayResult.

Definition max_response_bytes : Z := 1048576.

Section Gateway.
Context `{Environment, EventContracts, JsonEncoder, ActionPlatform, BracketedHosts,
  RateLimiter (gmap string Window)}.

Definition _validate_schema {S} (schema payload : dict) (code : string) : Py S unit :=
  match schema_violation schema (VDict payload) with
  | None => mret ()
  | Some path => raise (ValidationError code "Action payload does not match its capability schema"
                          [("path", VStr (join "." (map part_str path)))])
  end.

Definition preflight_capability (p : Principal) (capability_name environment : string) (resource : dict) :
    Py Actions ResolvedActionCapability :=
  g ← gets registry;
  let org := Principal.organization_id p in
  let candidates := order_by
    (λ r1 r2, (CapabilityVersion.version (ResolvedActionCapability.version r2) <=?
               CapabilityVersion.version (ResolvedActionCapability.version r1))%Z)
    (filter (λ r, usable org environment r = true ∧
                  CapabilityDefinition.name (ResolvedActionCapability.definition r) = capability_name ∧
                  CapabilityBinding.organization_id (ResolvedActionCapability.binding r) = org) (joined g)) in
  match find (λ r, _selector_matches
                     (CapabilityBinding.resource_selector (ResolvedActionCapability.binding r)) resource) candidates with
  | None => raise (NotFoundError "Action capability binding" capability_name)
  | Some resolved =>
      _validate_contract resolved p environment;;
      _validate_endpoint (ResolvedActionCapability.connector resolved);;
      mret resolved
  end.

Definition validate_preflight_payload {S} (r : ResolvedActionCapability) (payload : dict) : Py S unit :=
  _validate_schema (CapabilityVersion.input_schema (ResolvedActionCapability.version r)) payload
    "action_input_invalid".

Definition _resolve_pinned (q : ActionGatewayRequest) : Py Actions ResolvedActionCapability :=
  g ← gets registry;
  let p := ActionGatewayRequest.principal q in
  let attempt := ActionGatewayRequest.attempt q in
  let environment := ActionRequest.environment (ActionGatewayRequest.action q) in
  match filter (λ r, usable (Principal.organization_id p) environment r = true ∧
      CapabilityVersion.id (ResolvedActionCapability.version r) = ActionAttempt.capability_version_id attempt ∧
      CapabilityBinding.connector_id (ResolvedActionCapability.binding r) = ActionAttempt.connector_id attempt)
    (joined g) with
  | [] => raise (NotFoundError "Pinned action capability"
                   (uuid_str (ActionAttempt.capability_version_id attempt)))
  | [resolved] =>
      _validate_contract resolved p environment;;
      _validate_endpoint (ResolvedActionCapability.connector resolved);;
      mret resolved
  | _ => raise (PyError "MultipleResultsFound")
  end.

(** The conjunction of [approval_valid]; the clock is read only when the rest holds. *)
Definition approval_matches (q : ActionGatewayRequest) : bool :=
  let a := ActionGatewayRequest.approval q in
  bool_decide (ActionApproval.organization_id a = Principal.organization_id (ActionGatewayRequest.principal q)) &&
  bool_decide (ActionApproval.action_request_id a = ActionRequest.id (ActionGatewayRequest.action q)) &&
  bool_decide (ActionApproval.purpose a = ActionGatewayRequest.purpose q) &&
  bool_decide (ActionApproval.status a = ApprovalStatus.APPROVED) &&
  bool_decide (ActionApproval.plan_checksum_sha256 a = ActionGatewayRequest.plan_checksum_sha256 q).

Definition approval_valid (q : ActionGatewayRequest) : Py Kernel bool :=
  if approval_matches q then
    now ← utc_now;
    mret (now <? ActionApproval.expires_at (ActionGatewayRequest.approval q))%Z
  else mret false.

Definition gateway_event (q : ActionGatewayRequest) (name : string) (actor_type : ActorType)
    (actor_id : option uuid) (payload : list (obj * obj)) : Py Kernel Event :=
  append ((event_draft name "action_request" (ActionRequest.id (ActionGatewayRequest.action q))
      (Principal.organization_id (ActionGatewayRequest.principal q))
      (ActionRequest.id (ActionGatewayRequest.action q)) actor_type actor_id)
    <| EventDraft.payload := payload |>).

Definition gateway_audit (q : ActionGatewayRequest) (r : ResolvedActionCapability) (decision_id : uuid)
    (outcome : string) (reasons : list string) (latency_ms : option Z) : Py Kernel AuditRecord :=
  let p := ActionGatewayRequest.principal q in
  let action := ActionGatewayRequest.action q in
  let v := ResolvedActionCapability.version r in
  write ((audit_draft (Principal.organization_id p) (ActionRequest.id action) ActorType.SERVICE
      (Some (Principal.id p)) (CapabilityVersion.permission_action v) "action_request" outcome)
    <| AuditDraft.resource_id := Some (uuid_str (ActionRequest.id action)) |>
    <| AuditDraft.risk_level := Some (CapabilityVersion.risk_level v) |>
    <| AuditDraft.policy_decision_id := Some decision_id |>
    <| AuditDraft.metadata :=
         [("attempt_id", OStr (uuid_str (ActionAttempt.id (ActionGatewayRequest.attempt q))));
          ("purpose", OStr (purpose_value (ActionGatewayRequest.purpose q)));
          ("reasons", OSeq (map OStr reasons))] |>
    <| AuditDraft.latency_ms := latency_ms |>).

(** [ActionGatewayResult(...)], whose error code must be registered. *)
Definition gateway_result {S} (status : ActionGatewayStatus) (decision_id : uuid) (output : option dict)
    (error_code error_message : option string) : Py S ActionGatewayResult :=
  raise_if (match error_code with Some c => negb (error_code_registered c) | None => false end)
    (PyError "ErrorContractDefinitionError");;
  mret (ActionGatewayResult.Make status decision_id output error_code error_message).

(** [perf_counter()]: one more reading of a clock. *)
Definition perf_counter : Py Kernel Z := utc_now.

Definition send (post : Post) : Py Actions HttpReply := λ s,
  Ok (http_post (posts s) post)
     (MkActions (shared s) (registry s) (tables s) (notifications s) (posts s ++ [post])%list (windows s)).

Definition too_large : exn :=
  ValidationError "action_response_too_large" "Action provider response is too large" [].

Definition _post (r : ResolvedActionCapability) (q : ActionGatewayRequest) : Py Actions dict :=
  let c := ResolvedActionCapability.connector r in
  match Connector.endpoint c with
  | None => raise (ValidationError "connector_endpoint_missing" "Action connector has no endpoint" [])
  | Some endpoint =>
      credential ← resolve (Connector.credential_ref c)
        (Principal.organization_id (ActionGatewayRequest.principal q));
      configured ← match py_int (dget_or "timeout_seconds" (VInt 120) (Connector.configuration c)) with
                   | Some z => mret z
                   | None => raise (PyError "ValueError")
                   end;
      reply ← send (MkPost endpoint (ActionAttempt.idempotency_key (ActionGatewayRequest.attempt q))
        (ActionRequest.id (ActionGatewayRequest.action q)) (ActionGatewayRequest.purpose q)
        (match credential with Some k => if truthy k then Some ("Bearer " +:+ k) else None | None => None end)
        (ActionGatewayRequest.payload q)
        (Z.min (CapabilityVersion.timeout_seconds (ResolvedActionCapability.version r)) configured));
      match reply with
      | HttpRaised timeout => raise (PyError (if timeout then "TimeoutError" else "HTTPError"))
      | HttpResponse success content_length size body =>
          raise_if (negb success) (PyError "HTTPStatusError");;
          match content_length with
          | None => mret ()
          | Some l =>
              match py_int (VStr l) with
              | None => raise (PyError "ValueError")
              | Some n => raise_if (max_response_bytes <? n)%Z too_large
              end
          end;;
          raise_if (max_response_bytes <? size)%Z too_large;;
          match body with
          | None => raise (PyError "JSONDecodeError")
          | Some (VDict output) => mret output
          | Some _ => raise (ValidationError "action_output_invalid"
                               "Action provider response must be a JSON object" [])
          end
      end
  end.

(** The code and message a provider failure is reported with. *)
Definition failure_of (e : exn) : string * string :=
  match e with
  | ObsionError code message status _ =>
      if (status =? 422)%Z then (code, message)
      else ("action_provider_failed", "The action provider could not complete the request")
  | PyError class =>
      if bool_decide (class = "TimeoutError") then ("action_provider_timeout", "The action provider timed out")
      else ("action_provider_failed", "The action provider could not complete the request")
  end.

(** [self.rate_limiter.allow(...)]; unavailable counts as not allowed. *)
Definition count_call (now : Z) (rate_key : string) (limit : option Z) : Py Actions bool := λ s,
  let '(answer, windows') := allow now rate_key limit (windows s) in
  Ok (default false answer)
     (MkActions (shared s) (registry s) (tables s) (notifications s) (posts s) windows').

Definition rate_allowed (q : ActionGatewayRequest) (r : ResolvedActionCapability) : Py Actions bool :=
  let c := ResolvedActionCapability.connector r in
  let p := ActionGatewayRequest.principal q in
  let rate_key := join ":" [uuid_str (Principal.organization_id p); uuid_str (Principal.id p);
    uuid_str (CapabilityVersion.id (ResolvedActionCapability.version r)); uuid_str (Connector.id c)] in
  let limit := match dget "rate_limit_per_minute" (Connector.configuration c) with
               | Some (VInt z) => Some z
               | _ => None
               end in
  now ← in_kernel utc_now;
  count_call (now / second)%Z rate_key limit.

(** The [try] block of [_invoke]: post, validate and record. *)
Definition call_provider (q : ActionGatewayRequest) (r : ResolvedActionCapability) (decision_id : uuid)
    (started : Z) : Py Actions ActionGatewayResult :=
  output ← _post r q;
  _validate_schema (CapabilityVersion.output_schema (ResolvedActionCapability.version r)) output
    "action_output_invalid";;
  let safe_output := match redact None (VDict output) with VDict d => d | _ => [] end in
  stopped ← in_kernel perf_counter;
  let latency_ms := (Z.quot (stopped - started) 1000) in
  in_kernel (gateway_event q "action.provider_completed" ActorType.SERVICE
    (Some (Principal.id (ActionGatewayRequest.principal q)))
    [(OStr "attempt_id", OStr (uuid_str (ActionAttempt.id (ActionGatewayRequest.attempt q))));
     (OStr "purpose", OStr (purpose_value (ActionGatewayRequest.purpose q)));
     (OStr "latency_ms", OInt latency_ms)]);;
  in_kernel (gateway_audit q r decision_id "SUCCESS" [] (Some latency_ms));;
  gateway_result COMPLETED decision_id (Some safe_output) None None.

(** The handler of any exception in it. *)
Definition provider_failed (q : ActionGatewayRequest) (r : ResolvedActionCapability) (decision_id : uuid)
    (started : Z) (e : exn) : Py Actions ActionGatewayResult :=
  stopped ← in_kernel perf_counter;
  let latency_ms := (Z.quot (stopped - started) 1000) in
  let '(error_code, error_message) := failure_of e in
  in_kernel (gateway_event q "action.provider_failed" ActorType.SERVICE
    (Some (Principal.id (ActionGatewayRequest.principal q)))
    [(OStr "attempt_id", OStr (uuid_str (ActionAttempt.id (ActionGatewayRequest.attempt q))));
     (OStr "purpose", OStr (purpose_value (ActionGatewayRequest.purpose q)));
     (OStr "error_code", OStr error_code)]);;
  in_kernel (gateway_audit q r decision_id "FAILED" [error_code] (Some latency_ms));;
  gateway_result FAILED decision_id None (Some error_code) (Some error_message).

Definition policy_input (q : ActionGatewayRequest) (r : ResolvedActionCapability) (valid : bool) : ActionPolicyInput :=
  let action := ActionGatewayRequest.action q in
  let v := ResolvedActionCapability.version r in
  ActionPolicyInput.Make (ActionGatewayRequest.principal q) v (CapabilityVersion.permission_action v)
    (ActionRequest.target action)
    [("environment", VStr (ActionRequest.environment action));
     ("action_type", VStr (value_of (ActionRequest.action_type action)));
     ("purpose", VStr (purpose_value (ActionGatewayRequest.purpose q)));
     ("plan_checksum_sha256", VStr (ActionGatewayRequest.plan_checksum_sha256 q))]
    (ActionRequest.id action) valid.

Definition with_policy_decision (decision_id : uuid) (a : ActionAttempt) : ActionAttempt :=
  a <| ActionAttempt.policy_decision_id := Some decision_id |>.

(** After an allowing decision: validate, rate-limit and call the provider. *)
Definition invoke_allowed (q : ActionGatewayRequest) (r : ResolvedActionCapability) (decision_id : uuid) :
    Py Actions ActionGatewayResult :=
  let v := ResolvedActionCapability.version r in
  match schema_violation (CapabilityVersion.input_schema v) (VDict (ActionGatewayRequest.payload q)) with
  | Some _ =>
      in_kernel (gateway_audit q r decision_id "FAILED" ["action_input_invalid"] None);;
      gateway_result FAILED decision_id None (Some "action_input_invalid")
        (Some "Action payload does not match its capability schema")
  | None =>
      allowed ← rate_allowed q r;
      if negb allowed then
        in_kernel (gateway_audit q r decision_id "DENIED" ["action_rate_limited"] None);;
        gateway_result DENIED decision_id None (Some "action_rate_limited")
          (Some "The action provider rate limit has been reached")
      else
        started ← in_kernel perf_counter;
        in_kernel (gateway_event q "action.provider_started" ActorType.SERVICE
          (Some (Principal.id (ActionGatewayRequest.principal q)))
          [(OStr "attempt_id", OStr (uuid_str (ActionAttempt.id (ActionGatewayRequest.attempt q))));
           (OStr "capability", OStr (CapabilityDefinition.name (ResolvedActionCapability.definition r)));
           (OStr "connector", OStr (Connector.name (ResolvedActionCapability.connector r)));
           (OStr "purpose", OStr (purpose_value (ActionGatewayRequest.purpose q)))]);;
        try_catch (call_provider q r decision_id started)
          (λ e, Some (provider_failed q r decision_id started e))
  end.

Definition _invoke (q : ActionGatewayRequest) : Py Actions ActionGatewayResult :=
  r ← _resolve_pinned q;
  valid ← in_kernel (approval_valid q);
  decision ← in_kernel (evaluate_action (policy_input q r valid));
  let decision_id := Decision.id decision in
  update_attempt (ActionAttempt.id (ActionGatewayRequest.attempt q)) (with_policy_decision decision_id);;
  in_kernel (gateway_event q "action.policy_decided" ActorType.SYSTEM None
    [(OStr "decision_id", OStr (uuid_str decision_id));
     (OStr "effect", OStr (value_of (Decision.effect decision)));
     (OStr "reasons", OSeq (map OStr (Decision.reason_codes decision)));
     (OStr "purpose", OStr (purpose_value (ActionGatewayRequest.purpose q)))]);;
  if bool_decide (Decision.effect decision = DecisionEffect.DENY) then
    in_kernel (gateway_audit q r decision_id "DENIED" (Decision.reason_codes decision) None);;
    gateway_result DENIED decision_id None (Some "action_policy_denied")
      (Some "The action was denied by policy")
  else invoke_allowed q r decision_id.
End Gateway.
