(* ===== verification/ActionService.v ===== *)
(** * The action service ([actions/service.py], [api/actions.py])

    Creating, preflighting, deciding, rolling back and cancelling governed actions; each
    endpoint runs the service operation in one transaction. *)

From S2P Require Import Prelude PyText PyVal Regex Redaction Enums Models Kernel.
From S2P Require Import CanonicalJson Events EventLog Identity Policy RateLimit Urls ActionState.
From S2P Require Import ActionGateway.

Module CreateActionRequest.
Record CreateActionRequest : Type := Make {
  action_type : ActionType;
  title : string;
  description : string;
  environment : string;
  target : dict;
  parameters : dict;
  rollback_parameters : dict;
  owner_id : option uuid;
  idempotency_key : string;
  timeout_seconds : Z
}.
End CreateActionRequest.
Abbreviation CreateActionRequest := CreateActionRequest.CreateActionRequest.

(** [password|passwd|secret|token|api[_-]?key|access[_-]?key|private[_-]?key|credential],
    ignoring case. *)
Definition _SECRET_KEY : re :=
  let key prefix := seq [ilit prefix; opt (Cls (one_of "_-")); ilit "key"] in
  alts [ilit "password"; ilit "passwd"; ilit "secret"; ilit "token"; key "api"; key "access";
        key "private"; ilit "credential"].

Definition _OPEN_ACTIONS : list ActionType := [ActionType.GENERATE_PR; ActionType.CREATE_TICKET].

Definition _CONTRACTS (t : ActionType) : option (string * string) :=
  match t with
  | ActionType.GENERATE_PR => Some ("action.pr.create", "action.pr.close")
  | ActionType.CREATE_TICKET => Some ("action.ticket.create", "action.ticket.close")
  | _ => None
  end.

Fixpoint _deny_secret_fields {S} (value : val) (path : string) {struct value} : Py S unit :=
  match value with
  | VDict items =>
      (fix go (items : dict) : Py S unit :=
        match items with
        | [] => mret ()
        | (key, item) :: items' =>
            raise_if (search _SECRET_KEY key)
              (ValidationError "action_inline_secret_denied"
                "Action requests cannot contain credentials or secret fields"
                [("path", VStr (path +:+ "." +:+ key))]);;
            _deny_secret_fields item (path +:+ "." +:+ key);;
            go items'
        end) items
  | VList items =>
      (fix go (index : Z) (items : list val) : Py S unit :=
        match items with
        | [] => mret ()
        | item :: items' =>
            _deny_secret_fields item (path +:+ "." +:+ int_str index);;
            go (index + 1)%Z items'
        end) 0%Z items
  | _ => mret ()
  end.

Definition _require {S} (p : Principal) (permission : string) : Py S unit :=
  raise_if (negb (can p permission))
    (AuthorizationError "action_permission_denied" "Action access is not permitted"
      [("permission", VStr permission)]).

Definition _same_request (existing : ActionRequest) (workspace_id : uuid) (r : CreateActionRequest)
    (owner_id : uuid) : bool :=
  bool_decide (ActionRequest.workspace_id existing = workspace_id) &&
  bool_decide (ActionRequest.action_type existing = CreateActionRequest.action_type r) &&
  bool_decide (ActionRequest.title existing = strip (CreateActionRequest.title r)) &&
  bool_decide (ActionRequest.description existing = strip (CreateActionRequest.description r)) &&
  bool_decide (ActionRequest.environment existing = CreateActionRequest.environment r) &&
  py_eq (VDict (ActionRequest.target existing)) (VDict (CreateActionRequest.target r)) &&
  py_eq (VDict (ActionRequest.parameters existing)) (VDict (CreateActionRequest.parameters r)) &&
  py_eq (VDict (ActionRequest.rollback_parameters existing)) (VDict (CreateActionRequest.rollback_parameters r)) &&
  bool_decide (ActionRequest.owner_id existing = owner_id) &&
  (ActionRequest.timeout_seconds existing =? CreateActionRequest.timeout_seconds r)%Z.

(** ** Columns assigned by the operations *)

Definition draft_action (id org workspace_id owner_id requested_by : uuid) (created_at : Z)
    (r : CreateActionRequest) : ActionRequest :=
  ActionRequest.Make id org workspace_id (CreateActionRequest.action_type r)
    (strip (CreateActionRequest.title r)) (strip (CreateActionRequest.description r))
    (CreateActionRequest.environment r) (CreateActionRequest.target r)
    (CreateActionRequest.parameters r) (CreateActionRequest.rollback_parameters r)
    ActionStatus.DRAFT owner_id requested_by (CreateActionRequest.idempotency_key r)
    (CreateActionRequest.timeout_seconds r) None None [] [] None None None None None None None created_at.

Definition with_preflight_failed (code message : string) (details : dict) (checked_at : Z)
    (a : ActionRequest) : ActionRequest :=
  a <| ActionRequest.status := ActionStatus.PREFLIGHT_FAILED |>
    <| ActionRequest.error_code := Some code |>
    <| ActionRequest.error_message := Some message |>
    <| ActionRequest.preflight :=
         [("passed", VBool false); ("checked_at", VStr (isoformat checked_at));
          ("error_code", VStr code); ("details", VDict details)] |>.

Definition with_preflight_passed (checksum execute_name rollback_name : string) (now : Z)
    (a : ActionRequest) : ActionRequest :=
  a <| ActionRequest.plan_checksum_sha256 := Some checksum |>
    <| ActionRequest.preflight :=
         [("passed", VBool true); ("checked_at", VStr (isoformat now));
          ("execute_capability", VStr execute_name); ("rollback_capability", VStr rollback_name)] |>
    <| ActionRequest.status := ActionStatus.WAITING_APPROVAL |>
    <| ActionRequest.error_code := None |> <| ActionRequest.error_message := None |>.

Definition with_error (status : ActionStatus) (code message : string) (a : ActionRequest) : ActionRequest :=
  a <| ActionRequest.status := status |> <| ActionRequest.error_code := Some code |>
    <| ActionRequest.error_message := Some message |>.

Definition with_approval (status : ActionStatus) (deadline : Z) (a : ActionRequest) : ActionRequest :=
  a <| ActionRequest.status := status |> <| ActionRequest.deadline_at := Some deadline |>
    <| ActionRequest.error_code := None |> <| ActionRequest.error_message := None |>.

Definition with_rejection (now : Z) (a : ActionRequest) : ActionRequest :=
  (with_error ActionStatus.REJECTED "action_rejected" "The action request was rejected" a)
    <| ActionRequest.completed_at := Some now |>.

Definition with_rollback_request (a : ActionRequest) : ActionRequest :=
  a <| ActionRequest.status := ActionStatus.WAITING_ROLLBACK_APPROVAL |>
    <| ActionRequest.completed_at := None |> <| ActionRequest.error_code := None |>
    <| ActionRequest.error_message := None |>.

Definition with_cancellation (now : Z) (a : ActionRequest) : ActionRequest :=
  a <| ActionRequest.status := ActionStatus.CANCELLED |>
    <| ActionRequest.cancellation_requested_at := Some now |>
    <| ActionRequest.completed_at := Some now |>.

Definition with_approval_status (status : ApprovalStatus) (now : Z) (a : ActionApproval) : ActionApproval :=
  a <| ActionApproval.status := status |> <| ActionApproval.decided_at := Some now |>.

Definition with_decision (p : Principal) (approve : bool) (reason : string) (now : Z)
    (a : ActionApproval) : ActionApproval :=
  (with_approval_status (if approve then ApprovalStatus.APPROVED else ApprovalStatus.REJECTED) now a)
    <| ActionApproval.decided_by := Some (Principal.id p) |>
    <| ActionApproval.decision_reason := Some (strip reason) |>.

Section Service.
Context `{Environment, EventContracts, JsonEncoder, ActionPlatform, BracketedHosts,
  RateLimiter (gmap string Window)}.

(** ** Creation *)

Definition create (p : Principal) (workspace_id : uuid) (r : CreateActionRequest) : Py Actions ActionRequest :=
  _require p "action.request";;
  in_kernel (require_workspace_access p workspace_id true);;
  _deny_secret_fields (VDict (CreateActionRequest.target r)) "payload";;
  _deny_secret_fields (VDict (CreateActionRequest.parameters r)) "payload";;
  _deny_secret_fields (VDict (CreateActionRequest.rollback_parameters r)) "payload";;
  let owner_id := default (Principal.id p) (CreateActionRequest.owner_id r) in
  raise_if (negb (bool_decide (owner_id = Principal.id p)) && negb (can p "action.request.all"))
    (AuthorizationError "action_owner_assignment_denied" "Cannot assign another action owner" []);;
  owner ← in_kernel (load_principal_by_id (Principal.organization_id p) owner_id);
  in_kernel (require_workspace_access owner workspace_id true);;
  existing ← gets (λ s, head (select (λ a,
    bool_decide (ActionRequest.organization_id a = Principal.organization_id p) &&
    bool_decide (ActionRequest.idempotency_key a = CreateActionRequest.idempotency_key r)) (requests s)));
  match existing with
  | Some existing =>
      raise_if (negb (_same_request existing workspace_id r owner_id))
        (ConflictError "action_idempotency_conflict"
          "The idempotency key is already used by a different action request" []);;
      in_kernel (require_workspace_access p (ActionRequest.workspace_id existing) false);;
      mret existing
  | None =>
      action_id ← in_kernel new_id;
      created_at ← in_kernel utc_now;
      let action := draft_action action_id (Principal.organization_id p) workspace_id owner_id
                      (Principal.id p) created_at r in
      insert_row requests with_requests action_id action;;
      _event action "action.created" ActorType.USER (Some (Principal.id p))
        [(OStr "action_type", OStr (value_of (ActionRequest.action_type action)));
         (OStr "environment", OStr (ActionRequest.environment action))];;
      _audit action p "action.create" "SUCCESS"
        [("action_type", OStr (value_of (ActionRequest.action_type action)));
         ("environment", OStr (ActionRequest.environment action))];;
      mret action
  end.

(** ** Reading *)

Definition list_actions (p : Principal) (workspace_id : uuid) (status : option ActionStatus) (limit : nat) :
    Py Actions (list ActionRequest) :=
  in_kernel (require_workspace_access p workspace_id false);;
  all ← gets (λ s, select (λ a,
    bool_decide (ActionRequest.organization_id a = Principal.organization_id p) &&
    bool_decide (ActionRequest.workspace_id a = workspace_id) &&
    match status with Some st => bool_decide (ActionRequest.status a = st) | None => true end) (requests s));
  mret (take limit (order_by (λ a b, (ActionRequest.created_at b <=? ActionRequest.created_at a)%Z) all)).

(** [get]; [for_update] locks the row, which a serial session does not see. *)
Definition get (p : Principal) (action_id : uuid) (write : bool) : Py Actions ActionRequest :=
  row ← gets (λ s, row_by ActionRequest.id (requests s) action_id);
  let missing := raise (NotFoundError "Action request" (uuid_str action_id)) in
  match row with
  | None => missing
  | Some action =>
      if bool_decide (ActionRequest.organization_id action = Principal.organization_id p) then
        in_kernel (require_workspace_access p (ActionRequest.workspace_id action) write);;
        mret action
      else missing
  end.

Definition list_approvals (p : Principal) (status : option ApprovalStatus) (limit : nat) :
    Py Actions (list ActionApproval) :=
  raise_if (negb (can p "action.approval.read") && negb (can p "action.approve"))
    (AuthorizationError "action_approval_read_denied" "Action approval access is not permitted" []);;
  s ← gets (λ s, s);
  let visible a :=
    bool_decide (ActionApproval.organization_id a = Principal.organization_id p) &&
    match row_by ActionRequest.id (requests s) (ActionApproval.action_request_id a) with
    | Some action =>
        bool_decide (ActionRequest.organization_id action = Principal.organization_id p) &&
        match row_by Workspace.id (workspaces (directory (shared s))) (ActionRequest.workspace_id action) with
        | Some w => accessible (directory (shared s)) p false w
        | None => false
        end
    | None => false
    end &&
    match status with Some st => bool_decide (ActionApproval.status a = st) | None => true end in
  mret (take limit (order_by (λ a b, (ActionApproval.created_at b <=? ActionApproval.created_at a)%Z)
                     (select visible (approvals s)))).

(** ** Preflight *)

Definition _require_owner (action : ActionRequest) : Py Actions Principal :=
  owner ← in_kernel (load_principal_by_id (ActionRequest.organization_id action) (ActionRequest.owner_id action));
  raise_if (negb (can owner "action.execute"))
    (ValidationError "action_owner_permission_missing"
      "The action owner must have action.execute permission" []);;
  in_kernel (require_workspace_access owner (ActionRequest.workspace_id action) true);;
  mret owner.

Definition _create_approval (action : ActionRequest) (purpose : ActionApprovalPurpose)
    (reason : string) (ttl_minutes : Z) : Py Actions ActionApproval :=
  match ActionRequest.plan_checksum_sha256 action with
  | None => raise (ConflictError "action_plan_missing" "The action has no sealed execution plan" [])
  | Some checksum =>
      latest ← gets (λ s, foldr Z.max 0%Z (ActionApproval.revision <$>
        select (λ a, bool_decide (ActionApproval.action_request_id a = ActionRequest.id action) &&
                     bool_decide (ActionApproval.purpose a = purpose)) (approvals s)));
      now ← in_kernel utc_now;
      approval_id ← in_kernel new_id;
      created_at ← in_kernel utc_now;
      let approval := ActionApproval.Make approval_id (ActionRequest.organization_id action)
        (ActionRequest.id action) purpose (latest + 1)%Z checksum ApprovalStatus.PENDING (strip reason)
        (ActionRequest.requested_by action)
        [("permission", VStr "action.approve"); ("disallow_self", VBool true)] None None
        (now + ttl_minutes * minute)%Z None created_at in
      insert_row approvals with_approvals approval_id approval;;
      _event action "action.approval_requested" ActorType.USER (Some (ActionRequest.requested_by action))
        [(OStr "approval_id", OStr (uuid_str approval_id)); (OStr "purpose", OStr (purpose_value purpose));
         (OStr "expires_at", OStr (isoformat (ActionApproval.expires_at approval)))];;
      mret approval
  end.

(** What a successful preflight found. *)
Record Preflight : Type := MkPreflight {
  plan_spec : dict;
  execute : ResolvedActionCapability;
  rollback_with : ResolvedActionCapability;
  checked_at : Z
}.

Definition plan_spec_of (action : ActionRequest) (execute rollback : ResolvedActionCapability) : dict :=
  [("schema_version", VInt 1);
   ("action_type", VStr (value_of (ActionRequest.action_type action)));
   ("environment", VStr (ActionRequest.environment action));
   ("target", VDict (ActionRequest.target action));
   ("parameters", VDict (ActionRequest.parameters action));
   ("rollback_parameters", VDict (ActionRequest.rollback_parameters action));
   ("execute", VDict (plan_reference execute));
   ("rollback", VDict (plan_reference rollback))].

(** The [try] block of [preflight]. *)
Definition preflight_checks (action : ActionRequest) : Py Actions Preflight :=
  raise_if (negb (bool_decide (ActionRequest.action_type action ∈ _OPEN_ACTIONS)))
    (ValidationError "v1_action_type_boundary" "This action type is planned but cannot execute in V1"
      [("action_type", VStr (value_of (ActionRequest.action_type action)))]);;
  raise_if (negb (bool_decide (ActionRequest.environment action ∈ ["development"; "staging"])))
    (ValidationError "v1_production_action_boundary" "V1 actions are limited to development and staging" []);;
  owner ← _require_owner action;
  match _CONTRACTS (ActionRequest.action_type action) with
  | None => raise (PyError "KeyError")
  | Some (execute_name, rollback_name) =>
      execute ← preflight_capability owner execute_name (ActionRequest.environment action)
                  (ActionRequest.target action);
      rollback ← preflight_capability owner rollback_name (ActionRequest.environment action)
                   (ActionRequest.target action);
      now ← in_kernel utc_now;
      let spec := plan_spec_of action execute rollback in
      let checksum := action_plan_checksum spec in
      validate_preflight_payload execute
        (action_provider_payload action checksum ActionApprovalPurpose.EXECUTE
          (VDict (ActionRequest.parameters action)) None);;
      validate_preflight_payload rollback
        (action_provider_payload action checksum ActionApprovalPurpose.ROLLBACK
          (VDict (ActionRequest.rollback_parameters action)) (Some (VDict [])));;
      mret (MkPreflight spec execute rollback now)
  end.

Definition capability_name (r : ResolvedActionCapability) : string :=
  CapabilityDefinition.name (ResolvedActionCapability.definition r).

Definition preflight (p : Principal) (action_id : uuid) (reason : string) (approval_ttl_minutes : Z) :
    Py Actions ActionRequest :=
  _require p "action.request";;
  action ← get p action_id true;
  raise_if (negb (bool_decide (ActionRequest.status action ∈ [ActionStatus.DRAFT; ActionStatus.PREFLIGHT_FAILED])))
    (ConflictError "action_not_preflightable" "Only a draft or failed preflight action can be checked"
      [("status", VStr (value_of (ActionRequest.status action)))]);;
  planned ← gets (λ s, bool_decide (is_Some (plan_of (tables s) action_id)));
  raise_if planned (ConflictError "action_plan_exists" "The action already has a sealed plan" []);;
  result ← try_catch (found ← preflight_checks action; mret (inr found))
    (λ e, match e with
          | ObsionError code message _ details => Some (mret (inl (code, message, details)))
          | PyError _ => None
          end);
  match result with
  | inl (code, message, details) =>
      checked_at ← in_kernel utc_now;
      let f := with_preflight_failed code message details checked_at in
      update_request action_id f;;
      _event (f action) "action.preflight_failed" ActorType.USER (Some (Principal.id p))
        [(OStr "error_code", OStr code)];;
      _audit (f action) p "action.preflight" "FAILED" [("error_code", OStr code)];;
      mret (f action)
  | inr found =>
      let checksum := action_plan_checksum (plan_spec found) in
      plan_id ← in_kernel new_id;
      let plan := ActionPlan.Make plan_id (ActionRequest.organization_id action) action_id
        (plan_spec found) checksum (Principal.id p) (checked_at found) in
      insert_row plans with_plans plan_id plan;;
      let f := with_preflight_passed checksum (capability_name (execute found))
                 (capability_name (rollback_with found)) (checked_at found) in
      update_request action_id f;;
      _create_approval (f action) ActionApprovalPurpose.EXECUTE reason approval_ttl_minutes;;
      _event (f action) "action.preflight_passed" ActorType.USER (Some (Principal.id p))
        [(OStr "plan_id", OStr (uuid_str plan_id)); (OStr "plan_checksum_sha256", OStr checksum);
         (OStr "execute_capability", OStr (capability_name (execute found)));
         (OStr "rollback_capability", OStr (capability_name (rollback_with found)))];;
      _audit (f action) p "action.preflight" "SUCCESS" [("plan_checksum_sha256", OStr checksum)];;
      mret (f action)
  end.

(** ** Decisions *)

Definition with_action_expired : ActionRequest → ActionRequest :=
  with_error ActionStatus.EXPIRED "action_approval_expired" "The action approval expired".

(** What a decision makes of the action. *)
Definition decided_action (purpose : ActionApprovalPurpose) (approve : bool) (now : Z) (a : ActionRequest) : ActionRequest :=
  let deadline := (now + ActionRequest.timeout_seconds a * second)%Z in
  match approve, purpose with
  | true, ActionApprovalPurpose.EXECUTE => with_approval ActionStatus.APPROVED deadline a
  | true, ActionApprovalPurpose.ROLLBACK => with_approval ActionStatus.ROLLBACK_APPROVED deadline a
  | false, ActionApprovalPurpose.EXECUTE => with_rejection now a
  | false, ActionApprovalPurpose.ROLLBACK =>
      with_error ActionStatus.ROLLBACK_REJECTED "action_rollback_rejected"
        "The rollback request was rejected" a
  end.

Definition expiry_error : exn := ConflictError "action_approval_expired" "The action approval has expired" [].

Definition decide (p : Principal) (approval_id : uuid) (approve : bool) (reason : string) :
    Py Actions ActionApproval :=
  _require p "action.approve";;
  row ← gets (λ s, row_by ActionApproval.id (approvals s) approval_id);
  let missing := raise (NotFoundError "Action approval" (uuid_str approval_id)) in
  match row with
  | None => missing
  | Some approval =>
      if negb (bool_decide (ActionApproval.organization_id approval = Principal.organization_id p)) then missing
      else
        raise_if (negb (bool_decide (ActionApproval.status approval = ApprovalStatus.PENDING)))
          (ConflictError "action_approval_already_decided" "The action approval is no longer pending"
            [("status", VStr (value_of (ActionApproval.status approval)))]);;
        action ← get p (ActionApproval.action_request_id approval) true;
        now ← in_kernel utc_now;
        let action_id := ActionApproval.action_request_id approval in
        let purpose := ActionApproval.purpose approval in
        (if (ActionApproval.expires_at approval <=? now)%Z then
           update_approval approval_id (with_approval_status ApprovalStatus.EXPIRED now);;
           update_request action_id with_action_expired;;
           _event (with_action_expired action) "action.approval_expired" ActorType.SYSTEM None
             [(OStr "approval_id", OStr (uuid_str approval_id)); (OStr "purpose", OStr (purpose_value purpose))];;
           raise expiry_error
         else mret ());;
        raise_if (bool_decide (ActionApproval.requested_by approval = Principal.id p))
          (AuthorizationError "action_self_approval_denied"
            "The requester cannot approve their own action" []);;
        raise_if (negb (bool_decide (ActionRequest.plan_checksum_sha256 action =
                                     Some (ActionApproval.plan_checksum_sha256 approval))))
          (ConflictError "action_plan_changed"
            "The approved action plan no longer matches the request" []);;
        let f := with_decision p approve reason now in
        let g := decided_action purpose approve now in
        update_approval approval_id f;;
        update_request action_id g;;
        let decision := value_of (ActionApproval.status (f approval)) in
        _event (g action) "action.approval_decided" ActorType.USER (Some (Principal.id p))
          [(OStr "approval_id", OStr (uuid_str approval_id)); (OStr "purpose", OStr (purpose_value purpose));
           (OStr "decision", OStr decision); (OStr "reason", OStr (strip reason))];;
        _audit (g action) p "action.approval.decide" decision
          [("approval_id", OStr (uuid_str approval_id)); ("purpose", OStr (purpose_value purpose))];;
        mret (f approval)
  end.

(** ** Rollback and cancellation *)

Definition _ROLLBACKABLE : list ActionStatus :=
  [ActionStatus.COMPLETED; ActionStatus.FAILED; ActionStatus.ROLLBACK_FAILED; ActionStatus.ROLLBACK_REJECTED].

Definition request_rollback (p : Principal) (action_id : uuid) (reason : string) (approval_ttl_minutes : Z) :
    Py Actions ActionRequest :=
  _require p "action.rollback";;
  action ← get p action_id true;
  raise_if (negb (bool_decide (ActionRequest.owner_id action = Principal.id p)) && negb (can p "action.rollback.all"))
    (AuthorizationError "action_rollback_denied" "Only the action owner can request rollback" []);;
  raise_if (negb (bool_decide (ActionRequest.status action ∈ _ROLLBACKABLE)))
    (ConflictError "action_not_rollbackable" "The action is not in a rollbackable state"
      [("status", VStr (value_of (ActionRequest.status action)))]);;
  _create_approval action ActionApprovalPurpose.ROLLBACK reason approval_ttl_minutes;;
  update_request action_id with_rollback_request;;
  let action' := with_rollback_request action in
  _event action' "action.rollback_requested" ActorType.USER (Some (Principal.id p)) [];;
  _audit action' p "action.rollback.request" "SUCCESS" [];;
  mret action'.

Definition _CANCELLABLE : list ActionStatus :=
  [ActionStatus.DRAFT; ActionStatus.PREFLIGHT_FAILED; ActionStatus.WAITING_APPROVAL; ActionStatus.APPROVED;
   ActionStatus.WAITING_ROLLBACK_APPROVAL; ActionStatus.ROLLBACK_APPROVED].

(** The pending approvals of a cancelled action are cancelled with it. *)
Definition cancel_pending (action_id : uuid) (now : Z) (a : ActionApproval) : ActionApproval :=
  if bool_decide (ActionApproval.action_request_id a = action_id) &&
     bool_decide (ActionApproval.status a = ApprovalStatus.PENDING)
  then with_approval_status ApprovalStatus.CANCELLED now a else a.

Definition cancel (p : Principal) (action_id : uuid) : Py Actions ActionRequest :=
  action ← get p action_id true;
  raise_if (negb (bool_decide (ActionRequest.owner_id action = Principal.id p)) && negb (can p "action.cancel.all"))
    (AuthorizationError "action_cancel_denied" "Only the action owner can cancel" []);;
  raise_if (negb (bool_decide (ActionRequest.status action ∈ _CANCELLABLE)))
    (ConflictError "action_not_cancellable" "The action can no longer be cancelled safely"
      [("status", VStr (value_of (ActionRequest.status action)))]);;
  now ← in_kernel utc_now;
  update_request action_id (with_cancellation now);;
  change_tables (with_approvals (fmap (cancel_pending action_id now)));;
  let action' := with_cancellation now action in
  _event action' "action.cancelled" ActorType.USER (Some (Principal.id p)) [];;
  _audit action' p "action.cancel" "SUCCESS" [];;
  mret action'.

(** ** Notifications *)

Definition add_notification (n : NotificationDelivery) : Py Actions unit :=
  modify (λ s, MkActions (shared s) (registry s) (tables s) (notifications s ++ [n])%list (posts s) (windows s)).

Definition deliver_notification (action : ActionRequest) (title body event : string) : Py Actions NotificationDelivery :=
  let key := "action:" +:+ uuid_str (ActionRequest.id action) +:+ ":" +:+ event in
  existing ← gets (λ s, find (λ n,
    bool_decide (NotificationDelivery.organization_id n = ActionRequest.organization_id action) &&
    bool_decide (NotificationDelivery.idempotency_key n = key)) (notifications s));
  match existing with
  | Some n => mret n
  | None =>
      now ← in_kernel utc_now;
      delivery_id ← in_kernel new_id;
      let delivery := NotificationDelivery.Make delivery_id (ActionRequest.organization_id action)
        (ActionRequest.workspace_id action) None (Some (ActionRequest.id action)) None
        (ActionRequest.owner_id action) title body
        [("action_request_id", VStr (uuid_str (ActionRequest.id action)));
         ("action_type", VStr (value_of (ActionRequest.action_type action)));
         ("status", VStr (value_of (ActionRequest.status action)))]
        NotificationStatus.DELIVERED key now None now in
      add_notification delivery;;
      _event action "notification.delivered" ActorType.SYSTEM None
        [(OStr "notification_id", OStr (uuid_str delivery_id)); (OStr "event", OStr event)];;
      mret delivery
  end.

(** ** Endpoints ([api/actions.py])

    Every endpoint is one transaction. *)

Definition create_action (p : Principal) (workspace_id : uuid) (r : CreateActionRequest) : Py Actions ActionRequest :=
  savepoint (create p workspace_id r).

Definition preflight_action (p : Principal) (action_id : uuid) (reason : string) (ttl : Z) : Py Actions ActionRequest :=
  savepoint (preflight p action_id reason ttl).

(** [_decide]: the handler catches the expiry outside the transaction it was raised in,
    and commits the (rolled back) session before re-raising. *)
Definition _decide (p : Principal) (approval_id : uuid) (approve : bool) (reason : string) : Py Actions ActionApproval :=
  try_catch (savepoint (decide p approval_id approve reason)) (λ e, Some (raise e)).

Definition request_action_rollback (p : Principal) (action_id : uuid) (reason : string) (ttl : Z) : Py Actions ActionRequest :=
  savepoint (request_rollback p action_id reason ttl).

Definition cancel_action (p : Principal) (action_id : uuid) : Py Actions ActionRequest :=
  savepoint (cancel p action_id).
End Service.
