(* ===== verification/ActionWorker.v ===== *)
(** * The action worker ([actions/worker.py])

    Claims approved actions under a lease, executes or rolls them back through the
    gateway, and expires approvals nobody decided.  Each method with a session of its
    own is one transaction. *)

From S2P Require Import Prelude PyText PyVal Enums Models Kernel CanonicalJson Events EventLog.
From S2P Require Import Identity Policy RateLimit Urls ActionState ActionGateway ActionService.

(** The worker's configuration: its name, the length of a lease, and the rows other
    transactions hold locked while it runs (skipped by [SKIP LOCKED]). *)
Class WorkerSettings := {
  worker_id : string;
  action_lease_seconds : Z;
  locked : uuid → bool
}.

Definition _CLAIMABLE : list ActionStatus :=
  [ActionStatus.APPROVED; ActionStatus.EXECUTING; ActionStatus.ROLLBACK_APPROVED; ActionStatus.ROLLING_BACK].

(** ** Columns assigned by the worker *)

Definition with_claim (owner : string) (now lease : Z) (a : ActionRequest) : ActionRequest :=
  a <| ActionRequest.status :=
         if bool_decide (ActionRequest.status a ∈ [ActionStatus.APPROVED; ActionStatus.EXECUTING])
         then ActionStatus.EXECUTING else ActionStatus.ROLLING_BACK |>
    <| ActionRequest.started_at := Some (default now (ActionRequest.started_at a)) |>
    <| ActionRequest.lease_owner := Some owner |>
    <| ActionRequest.lease_expires_at := Some (now + lease * second)%Z |>.

Definition with_completion (purpose : ActionApprovalPurpose) (output : dict) (now : Z) (a : ActionRequest) : ActionRequest :=
  a <| ActionRequest.status :=
         match purpose with
         | ActionApprovalPurpose.EXECUTE => ActionStatus.COMPLETED
         | ActionApprovalPurpose.ROLLBACK => ActionStatus.ROLLED_BACK
         end |>
    <| ActionRequest.result :=
         match purpose with
         | ActionApprovalPurpose.EXECUTE => [("execute", VDict output)]
         | ActionApprovalPurpose.ROLLBACK => dset "rollback" (VDict output) (ActionRequest.result a)
         end |>
    <| ActionRequest.completed_at := Some now |>
    <| ActionRequest.lease_owner := None |> <| ActionRequest.lease_expires_at := None |>
    <| ActionRequest.error_code := None |> <| ActionRequest.error_message := None |>.

Definition rolling_back (a : ActionRequest) : bool :=
  bool_decide (ActionRequest.status a = ActionStatus.ROLLING_BACK).

Definition with_failure (code message : string) (now : Z) (a : ActionRequest) : ActionRequest :=
  (with_error (if rolling_back a then ActionStatus.ROLLBACK_FAILED else ActionStatus.FAILED) code message a)
    <| ActionRequest.completed_at := Some now |>
    <| ActionRequest.lease_owner := None |> <| ActionRequest.lease_expires_at := None |>.

Definition with_approval_expiry (purpose : ActionApprovalPurpose) (now : Z) (a : ActionRequest) : ActionRequest :=
  match purpose with
  | ActionApprovalPurpose.EXECUTE => (with_action_expired a) <| ActionRequest.completed_at := Some now |>
  | ActionApprovalPurpose.ROLLBACK =>
      with_error ActionStatus.ROLLBACK_REJECTED "action_approval_expired" "The action approval expired" a
  end.

Definition with_running (now : Z) (a : ActionAttempt) : ActionAttempt :=
  a <| ActionAttempt.status := ActionAttemptStatus.RUNNING |>
    <| ActionAttempt.started_at := Some (default now (ActionAttempt.started_at a)) |>.

Definition with_result (r : ActionGatewayResult) (now : Z) (a : ActionAttempt) : ActionAttempt :=
  let a' := a <| ActionAttempt.policy_decision_id := Some (ActionGatewayResult.policy_decision_id r) |>
              <| ActionAttempt.completed_at := Some now |> in
  match ActionGatewayResult.status r with
  | COMPLETED =>
      a' <| ActionAttempt.status := ActionAttemptStatus.COMPLETED |>
         <| ActionAttempt.output := default [] (ActionGatewayResult.output r) |>
         <| ActionAttempt.error_code := None |> <| ActionAttempt.error_message := None |>
  | _ =>
      a' <| ActionAttempt.status := ActionAttemptStatus.FAILED |>
         <| ActionAttempt.error_code := ActionGatewayResult.error_code r |>
         <| ActionAttempt.error_message := ActionGatewayResult.error_message r |>
  end.

Section Worker.
Context `{Environment, EventContracts, JsonEncoder, ActionPlatform, BracketedHosts,
  RateLimiter (gmap string Window), WorkerSettings}.

Definition system_event (action : ActionRequest) (name : string) (payload : list (obj * obj)) : Py Actions unit :=
  _event action name ActorType.SYSTEM None payload.

(** ** Finishing an action *)

Definition _complete (action : ActionRequest) (purpose : ActionApprovalPurpose) (output : dict) : Py Actions unit :=
  now ← in_kernel utc_now;
  let f := with_completion purpose output now in
  update_request (ActionRequest.id action) f;;
  let title := ActionRequest.title action in
  match purpose with
  | ActionApprovalPurpose.EXECUTE =>
      system_event (f action) "action.completed" [(OStr "purpose", OStr (purpose_value purpose))];;
      deliver_notification (f action) (title +:+ " 已执行")
        "受控动作已完成，可在动作详情中查看执行记录并按需申请回滚。" "completed";;
      mret ()
  | ActionApprovalPurpose.ROLLBACK =>
      system_event (f action) "action.rolled_back" [(OStr "purpose", OStr (purpose_value purpose))];;
      deliver_notification (f action) (title +:+ " 已回滚")
        "补偿动作已完成，原变更已按封存的回滚计划处理。" "rolled-back";;
      mret ()
  end.

Definition _fail (action : ActionRequest) (code message : string) : Py Actions unit :=
  now ← in_kernel utc_now;
  let back := rolling_back action in
  let f := with_failure code message now in
  update_request (ActionRequest.id action) f;;
  system_event (f action) (if back then "action.rollback_failed" else "action.failed")
    [(OStr "error_code", OStr code)];;
  deliver_notification (f action)
    (ActionRequest.title action +:+ " " +:+ (if back then "回滚失败" else "执行失败"))
    "受控动作未能完成，请检查动作详情、连接器状态和权限。" (if back then "rollback-failed" else "failed");;
  mret ().

Definition in_progress (a : ActionRequest) : bool :=
  bool_decide (ActionRequest.status a ∈ [ActionStatus.EXECUTING; ActionStatus.ROLLING_BACK]).

(** The transaction of [_fail_after_exception]. *)
Definition _fail_after_exception (action_id : uuid) (code message : string) : Py Actions unit :=
  savepoint (
    row ← gets (λ s, row_by ActionRequest.id (requests s) action_id);
    match row with
    | Some action => if in_progress action then _fail action code message else mret ()
    | None => mret ()
    end).

(** ** Expiry *)

Definition _expire_one_approval : Py Actions unit :=
  now ← in_kernel utc_now;
  due ← gets (λ s, head (order_by
    (λ a b, (ActionApproval.expires_at a <=? ActionApproval.expires_at b)%Z)
    (select (λ a, bool_decide (ActionApproval.status a = ApprovalStatus.PENDING) &&
                  (ActionApproval.expires_at a <=? now)%Z && negb (locked (ActionApproval.id a))) (approvals s))));
  match due with
  | None => mret ()
  | Some approval =>
      let action_id := ActionApproval.action_request_id approval in
      row ← gets (λ s, row_by ActionRequest.id (requests s) action_id);
      update_approval (ActionApproval.id approval) (with_approval_status ApprovalStatus.EXPIRED now);;
      match row with
      | None => mret ()
      | Some action =>
          let purpose := ActionApproval.purpose approval in
          let f := with_approval_expiry purpose now in
          update_request action_id f;;
          system_event (f action) "action.approval_expired"
            [(OStr "approval_id", OStr (uuid_str (ActionApproval.id approval)));
             (OStr "purpose", OStr (purpose_value purpose))]
      end
  end.

(** ** Claiming *)

Definition claimable (now : Z) (a : ActionRequest) : bool :=
  bool_decide (ActionRequest.status a ∈ _CLAIMABLE) &&
  bool_decide (ActionRequest.cancellation_requested_at a = None) &&
  match ActionRequest.lease_expires_at a with None => true | Some t => (t <? now)%Z end &&
  negb (locked (ActionRequest.id a)).

Definition _claim : Py Actions (option uuid) :=
  now ← in_kernel utc_now;
  savepoint (
    _expire_one_approval;;
    row ← gets (λ s, head (order_by
      (λ a b, (ActionRequest.created_at a <=? ActionRequest.created_at b)%Z)
      (select (claimable now) (requests s))));
    match row with
    | None => mret None
    | Some action =>
        let f := with_claim worker_id now action_lease_seconds in
        let purpose := if bool_decide (ActionRequest.status action ∈ [ActionStatus.APPROVED; ActionStatus.EXECUTING])
                       then ActionApprovalPurpose.EXECUTE else ActionApprovalPurpose.ROLLBACK in
        update_request (ActionRequest.id action) f;;
        system_event (f action) "action.claimed"
          [(OStr "purpose", OStr (purpose_value purpose)); (OStr "worker", OStr worker_id)];;
        mret (Some (ActionRequest.id action))
    end).

(** ** Execution *)

(** The approved approval of the highest revision for a plan. *)
Definition current_approval (t : ActionTables) (action : ActionRequest) (purpose : ActionApprovalPurpose)
    (checksum : string) : option ActionApproval :=
  head (order_by (λ a b, (ActionApproval.revision b <=? ActionApproval.revision a)%Z)
    (select (λ a,
      bool_decide (ActionApproval.organization_id a = ActionRequest.organization_id action) &&
      bool_decide (ActionApproval.action_request_id a = ActionRequest.id action) &&
      bool_decide (ActionApproval.purpose a = purpose) &&
      bool_decide (ActionApproval.status a = ApprovalStatus.APPROVED) &&
      bool_decide (ActionApproval.plan_checksum_sha256 a = checksum)) (action_approvals t))).

Definition first_attempt (t : ActionTables) (action : ActionRequest) (purpose : ActionApprovalPurpose) :
    option ActionAttempt :=
  head (select (λ a,
    bool_decide (ActionAttempt.organization_id a = ActionRequest.organization_id action) &&
    bool_decide (ActionAttempt.action_request_id a = ActionRequest.id action) &&
    bool_decide (ActionAttempt.purpose a = purpose) && (ActionAttempt.ordinal a =? 1)%Z) (action_attempts t)).

(** [UUID(str(reference[key]))] *)
Definition reference_id (reference : dict) (key : string) : option uuid :=
  v ← dget key reference; parse_uuid (py_str v).

Definition plan_invalid {S A} (message : string) : Py S A :=
  raise (ValidationError "action_plan_invalid" message []).

(** What the sealed plan prescribes for a purpose: capability, connector, payload. *)
Definition prescribed (action : ActionRequest) (plan : ActionPlan) (purpose : ActionApprovalPurpose) :
    Py Actions (uuid * uuid * dict) :=
  let spec := ActionPlan.spec plan in
  let invalid {A} : Py Actions A := plan_invalid "The action plan capability reference is invalid" in
  match dget (match purpose with ActionApprovalPurpose.EXECUTE => "execute" | _ => "rollback" end) spec with
  | Some (VDict reference) =>
      match reference_id reference "capability_version_id", reference_id reference "connector_id" with
      | Some version_id, Some connector_id =>
          match dget (match purpose with ActionApprovalPurpose.EXECUTE => "parameters" | _ => "rollback_parameters" end) spec with
          | None => raise (PyError "KeyError")
          | Some parameters =>
              mret (version_id, connector_id,
                action_provider_payload action (ActionPlan.checksum_sha256 plan) purpose parameters
                  (match purpose with
                   | ActionApprovalPurpose.ROLLBACK => Some (dget_or "execute" (VDict []) (ActionRequest.result action))
                   | ActionApprovalPurpose.EXECUTE => None
                   end))
          end
      | _, _ => invalid
      end
  | _ => invalid
  end.

(** The attempt row of an action and purpose: created once, and checked against the
    plan when it is found again. *)
Definition ensure_attempt (action : ActionRequest) (purpose : ActionApprovalPurpose)
    (approval : ActionApproval) (version_id connector_id : uuid) (payload : dict) : Py Actions ActionAttempt :=
  existing ← gets (λ s, first_attempt (tables s) action purpose);
  match existing with
  | None =>
      attempt_id ← in_kernel new_id;
      let attempt := ActionAttempt.Make attempt_id (ActionRequest.organization_id action)
        (ActionRequest.id action) purpose 1 ActionAttemptStatus.PENDING version_id connector_id
        (ActionApproval.id approval) None (attempt_key (ActionRequest.id action) purpose) payload []
        None None None None in
      insert_row attempts with_attempts attempt_id attempt;;
      mret attempt
  | Some attempt =>
      raise_if (negb (bool_decide (ActionAttempt.capability_version_id attempt = version_id)) ||
                negb (bool_decide (ActionAttempt.connector_id attempt = connector_id)) ||
                negb (py_eq (VDict (ActionAttempt.input_payload attempt)) (VDict payload)))
        (ValidationError "action_attempt_mismatch"
          "A recovered action attempt does not match its sealed plan" []);;
      mret attempt
  end.

(** The checks before an attempt: deadline aside, the owner, the sealed plan and the
    approval. *)
Definition authorize_attempt (action : ActionRequest) (purpose : ActionApprovalPurpose) (now : Z) :
    Py Actions (Principal * ActionPlan * ActionApproval) :=
  principal ← in_kernel (load_principal_by_id (ActionRequest.organization_id action) (ActionRequest.owner_id action));
  raise_if (negb (can principal "action.execute"))
    (ValidationError "action_owner_permission_missing"
      "The action owner no longer has execution permission" []);;
  in_kernel (require_workspace_access principal (ActionRequest.workspace_id action) true);;
  t ← gets tables;
  match plan_of t (ActionRequest.id action) with
  | Some plan =>
      raise_if (negb (bool_decide (ActionPlan.organization_id plan = ActionRequest.organization_id action)) ||
                negb (bool_decide (ActionRequest.plan_checksum_sha256 action = Some (ActionPlan.checksum_sha256 plan))))
        (ValidationError "action_plan_invalid" "The immutable action plan is missing or mismatched" []);;
      match current_approval t action purpose (ActionPlan.checksum_sha256 plan) with
      | Some approval =>
          raise_if (ActionApproval.expires_at approval <=? now)%Z
            (ValidationError "action_approval_invalid" "No valid approval exists for this action plan" []);;
          mret (principal, plan, approval)
      | None => raise (ValidationError "action_approval_invalid"
                         "No valid approval exists for this action plan" [])
      end
  | None => plan_invalid "The immutable action plan is missing or mismatched"
  end.

Definition purpose_of (action : ActionRequest) : ActionApprovalPurpose :=
  if bool_decide (ActionRequest.status action = ActionStatus.EXECUTING)
  then ActionApprovalPurpose.EXECUTE else ActionApprovalPurpose.ROLLBACK.

(** Run an attempt through the gateway and record its result. *)
Definition run_attempt (action : ActionRequest) (purpose : ActionApprovalPurpose) (principal : Principal)
    (plan : ActionPlan) (approval : ActionApproval) (attempt : ActionAttempt) (payload : dict) (now : Z) :
    Py Actions unit :=
  update_attempt (ActionAttempt.id attempt) (with_running now);;
  result ← ActionGateway._invoke (ActionGatewayRequest.Make principal action approval (with_running now attempt)
    (ActionPlan.checksum_sha256 plan) purpose payload);
  finished ← in_kernel utc_now;
  update_attempt (ActionAttempt.id attempt) (with_result result finished);;
  match ActionGatewayResult.status result with
  | COMPLETED => _complete action purpose (default [] (ActionGatewayResult.output result))
  | _ => _fail action (default "action_provider_failed" (ActionGatewayResult.error_code result))
           (default "The action provider could not complete the request"
              (ActionGatewayResult.error_message result))
  end.

(** The transaction of [_invoke]. *)
Definition _invoke (action_id : uuid) : Py Actions unit :=
  savepoint (
    row ← gets (λ s, row_by ActionRequest.id (requests s) action_id);
    match row with
    | None => mret ()
    | Some action =>
        if negb (in_progress action) then mret ()
        else
          now ← in_kernel utc_now;
          if match ActionRequest.deadline_at action with None => true | Some t => (t <=? now)%Z end
          then _fail action "action_timeout" "The approved action exceeded its execution deadline"
          else
            let purpose := purpose_of action in
            '(principal, plan, approval) ← authorize_attempt action purpose now;
            '(version_id, connector_id, payload) ← prescribed action plan purpose;
            attempt ← ensure_attempt action purpose approval version_id connector_id payload;
            if bool_decide (ActionAttempt.status attempt = ActionAttemptStatus.COMPLETED)
            then _complete action purpose (ActionAttempt.output attempt)
            else run_attempt action purpose principal plan approval attempt payload now
    end).

(** [_execute]: a failed transaction is followed by one that records the failure. *)
Definition _execute (action_id : uuid) : Py Actions unit :=
  try_catch (_invoke action_id) (λ e,
    match e with
    | ObsionError code message _ _ => Some (_fail_after_exception action_id code message)
    | PyError _ => Some (_fail_after_exception action_id "action_worker_failed"
                           "The action worker could not complete this request")
    end).
End Worker.
