(* ===== verification/ActionFrame.v ===== *)
(** * What the operations on actions leave alone

    [Within R m]: whether [m] returns or raises, the session it leaves is related by
    [R] to the one it started from.  A relation that ignores the journals, the windows
    of the rate limiter and the notifications is a [Frame]; one that also ignores the
    tables of actions a [TableFrame], the requests sent a [SendFrame].  The operations
    are analysed once, for every such relation. *)

From S2P Require Import Prelude PyText PyVal Redaction Enums Models Kernel CanonicalJson.
From S2P Require Import Events EventLog Identity Policy RateLimit Urls ActionState ActionGateway.
From S2P Require Import ActionService ActionWorker.

Definition Within (R : relation Actions) {A} (m : Py Actions A) : Prop := ∀ s, wp m (λ _, R s) (λ _, R s) s.

Class Frame (R : relation Actions) : Prop := {
  frame_preorder :: PreOrder R;
  frame_kernel s k : recorded (shared s) k → R s (set_kernel k s);
  frame_rollback s s' : R s s' → R s (rollback s s');
  frame_windows s w : R s (MkActions (shared s) (registry s) (tables s) (notifications s) (posts s) w);
  frame_notifications s l : R s (MkActions (shared s) (registry s) (tables s) l (posts s) (windows s))
}.

Class TableFrame (R : relation Actions) : Prop :=
  frame_tables s t : R s (MkActions (shared s) (registry s) t (notifications s) (posts s) (windows s)).

Class SendFrame (R : relation Actions) : Prop :=
  frame_send s l : R s (MkActions (shared s) (registry s) (tables s) (notifications s) l (windows s)).

Create HintDb within discriminated.
#[export] Hint Constants Opaque : within.
#[export] Hint Transparent relation : within.

Section Rules.
Context {R : relation Actions} `{Frame R}.

Lemma ret_within {A} (a : A) : Within R (mret a).
Proof. intros s. by apply wp_ret. Qed.
Lemma raise_within {A} e : Within R (raise (A := A) e).
Proof. intros s. by apply wp_raise. Qed.
Lemma raise_if_within b e : Within R (raise_if b e).
Proof. intros s. by destruct b; apply wp_ret || apply wp_raise. Qed.
Lemma gets_within {A} (f : Actions → A) : Within R (gets f).
Proof. intros s. by apply wp_gets. Qed.
Lemma in_kernel_within {A} (m : Py Kernel A) : Recording m → Within R (in_kernel m).
Proof.
  intros Hm s. apply wp_in_kernel. eapply wp_mono; [apply Hm|..]; intros ? k Hk; by apply frame_kernel.
Qed.
Lemma bind_within {A B} (m : Py Actions A) (f : A → Py Actions B) :
  Within R m → (∀ a, Within R (f a)) → Within R (m ≫= f).
Proof.
  intros Hm Hf s. apply wp_bind. eapply wp_mono; [apply Hm| |done]. intros a s' Hs.
  eapply wp_mono; [apply Hf|..]; intros; cbv beta in *; by transitivity s'.
Qed.
Lemma try_catch_within {A} (m : Py Actions A) h :
  Within R m → (∀ e k, h e = Some k → Within R k) → Within R (try_catch m h).
Proof.
  intros Hm Hh s. apply wp_try_catch. eapply wp_mono; [apply Hm|done|].
  intros e s' Hs. cbv beta in *. destruct (h e) as [k|] eqn:He; [|done].
  eapply wp_mono; [by eapply Hh|..]; intros; cbv beta in *; by transitivity s'.
Qed.
Lemma savepoint_within {A} (m : Py Actions A) : Within R m → Within R (savepoint m).
Proof. intros Hm s. apply wp_savepoint. eapply wp_mono; [apply Hm|done|]. intros. by apply frame_rollback. Qed.
Lemma count_call_within `{RateLimiter (gmap string Window)} now key limit : Within R (count_call now key limit).
Proof. intros s. unfold wp, count_call. destruct (allow _ _ _ _). apply frame_windows. Qed.
Lemma add_notification_within n : Within R (add_notification n).
Proof. intros s. apply wp_modify, frame_notifications. Qed.
Lemma send_within `{ActionPlatform, !SendFrame R} post : Within R (send post).
Proof. intros s. apply (frame_send s). Qed.
Lemma change_tables_within `{!TableFrame R} f : Within R (change_tables f).
Proof. intros s. apply wp_modify, frame_tables. Qed.
End Rules.

#[export] Hint Resolve ret_within raise_within raise_if_within gets_within in_kernel_within bind_within
  savepoint_within count_call_within add_notification_within send_within change_tables_within : within.

(** Take a computation apart. *)
Ltac within :=
  repeat first
    [ solve [typeclasses eauto with within typeclass_instances]
    | apply bind_within; [|intros ?]
    | apply savepoint_within
    | match goal with |- Within _ (match ?x with _ => _ end) => destruct x eqn:? end
    | progress cbv zeta ].

(** Run a prefix that respects a frame. *)
Lemma wp_within {A} R (m : Py Actions A) (Q : A → Actions → Prop) (X : exn → Actions → Prop) s :
  Within R m → (∀ a s', m s = Ok a s' → R s s' → Q a s') → (∀ e s', R s s' → X e s') → wp m Q X s.
Proof. intros Hm HQ HX. specialize (Hm s). unfold wp in *. destruct (m s); auto. Qed.

(** The operations on the shared tables only record. *)
#[export] Instance evaluate_action_recording `{Environment} r : Recording (evaluate_action r).
Proof.
  intros k. apply wp_evaluate_action.
  - intros d k' _ (row & -> & _). split; try done; cbn; [apply same_runs|by apply prefix_app_r].
  - intros k' ->. apply rollback_recorded.
Qed.
#[export] Instance approval_valid_recording q : Recording (approval_valid q).
Proof. unfold approval_valid. destruct (approval_matches q); [|apply _]. apply bind_recording; apply _. Qed.

Section Operations.
Context `{Environment, EventContracts, JsonEncoder, ActionPlatform, BracketedHosts,
  RateLimiter (gmap string Window), WorkerSettings}.
Context {R : relation Actions} `{Frame R}.

Lemma event_within action name t i payload : Within R (_event action name t i payload).
Proof. unfold _event. within. Qed.
#[local] Hint Resolve event_within : within.
Lemma system_event_within action name payload : Within R (system_event action name payload).
Proof. unfold system_event. within. Qed.
#[local] Hint Resolve system_event_within : within.
Lemma audit_within action p o oc metadata : Within R (_audit action p o oc metadata).
Proof. unfold _audit. within. Qed.
#[local] Hint Resolve audit_within : within.
Lemma require_within p permission : Within R (_require p permission).
Proof. unfold _require. within. Qed.
#[local] Hint Resolve require_within : within.
Lemma get_within p i w : Within R (get p i w).
Proof. unfold get. within. Qed.
#[local] Hint Resolve get_within : within.
Lemma deliver_within a title body event : Within R (deliver_notification a title body event).
Proof. unfold deliver_notification. within. Qed.
#[local] Hint Resolve deliver_within : within.
Lemma deny_within v path : Within R (_deny_secret_fields v path).
Proof.
  revert path. induction v as [| | | |l IH|d IH] using val_ind'; intros path; simpl; within.
  - generalize 0%Z. induction IH as [|v l Hv _ IHl]; intros n; simpl; [within|]. apply bind_within; [apply Hv|]. intros []. apply IHl.
  - induction IH as [|[k v] d Hv _ IHd]; simpl; [within|]. apply bind_within; [within|]. intros [].
    apply bind_within; [apply Hv|]. intros []. exact IHd.
Qed.
#[local] Hint Resolve deny_within : within.
Lemma require_owner_within a : Within R (_require_owner a).
Proof. unfold _require_owner. within. Qed.
#[local] Hint Resolve require_owner_within : within.
Lemma validate_schema_within schema payload code : Within R (_validate_schema schema payload code).
Proof. unfold _validate_schema. within. Qed.
#[local] Hint Resolve validate_schema_within : within.
Lemma validate_endpoint_within c : Within R (_validate_endpoint c).
Proof. unfold _validate_endpoint. within. Qed.
#[local] Hint Resolve validate_endpoint_within : within.
Lemma validate_contract_within r p e : Within R (_validate_contract r p e).
Proof. unfold _validate_contract. within. Qed.
#[local] Hint Resolve validate_contract_within : within.
Lemma preflight_capability_within p n e r : Within R (preflight_capability p n e r).
Proof. unfold preflight_capability. within. Qed.
#[local] Hint Resolve preflight_capability_within : within.
Lemma preflight_payload_within r payload : Within R (validate_preflight_payload r payload).
Proof. unfold validate_preflight_payload. within. Qed.
#[local] Hint Resolve preflight_payload_within : within.
Lemma preflight_checks_within a : Within R (preflight_checks a).
Proof. unfold preflight_checks. within. Qed.
#[local] Hint Resolve preflight_checks_within : within.
Lemma resolve_pinned_within q : Within R (_resolve_pinned q).
Proof. unfold _resolve_pinned. within. Qed.
#[local] Hint Resolve resolve_pinned_within : within.
Lemma resolve_reference_within ref secret : (∀ r, Within R (secret r)) → Within R (resolve_reference ref secret).
Proof. intros Hs. unfold resolve_reference. within. Qed.
Lemma resolve_within r o : Within R (resolve r o).
Proof.
  unfold resolve, resolve_stored. destruct r as [ref|]; [|within]. apply resolve_reference_within. intros x. within.
  apply resolve_reference_within. within.
Qed.
#[local] Hint Resolve resolve_within : within.
Lemma post_within `{!SendFrame R} r q : Within R (_post r q).
Proof. unfold _post, too_large. within. Qed.
#[local] Hint Resolve post_within : within.
Lemma gateway_result_within st d o c m : Within R (gateway_result st d o c m).
Proof. unfold gateway_result. within. Qed.
#[local] Hint Resolve gateway_result_within : within.
Lemma call_provider_within `{!SendFrame R} q r d z : Within R (call_provider q r d z).
Proof. unfold call_provider. within. Qed.
#[local] Hint Resolve call_provider_within : within.
Lemma provider_failed_within q r d z e : Within R (provider_failed q r d z e).
Proof. unfold provider_failed. within. Qed.
#[local] Hint Resolve provider_failed_within : within.
Lemma rate_allowed_within q r : Within R (rate_allowed q r).
Proof. unfold rate_allowed. within. Qed.
#[local] Hint Resolve rate_allowed_within : within.
Lemma invoke_allowed_within `{!SendFrame R} q r d : Within R (invoke_allowed q r d).
Proof. unfold invoke_allowed. within. apply try_catch_within; [within|]. intros e k [= <-]. within. Qed.
#[local] Hint Resolve invoke_allowed_within : within.
Lemma authorize_within a purpose now : Within R (authorize_attempt a purpose now).
Proof. unfold authorize_attempt, plan_invalid. within. Qed.
#[local] Hint Resolve authorize_within : within.
Lemma prescribed_within a plan purpose : Within R (prescribed a plan purpose).
Proof. unfold prescribed, plan_invalid. within. Qed.
#[local] Hint Resolve prescribed_within : within.

(** Operations that write to the tables. *)
Section Tables.
Context `{!TableFrame R}.

Lemma update_request_within i f : Within R (update_request i f).
Proof. unfold update_request. within. Qed.
Lemma update_approval_within i f : Within R (update_approval i f).
Proof. unfold update_approval. within. Qed.
Lemma update_attempt_within i f : Within R (update_attempt i f).
Proof. unfold update_attempt. within. Qed.
Lemma insert_row_within {V} (tab : Actions → gmap uuid V) put i row : Within R (insert_row tab put i row).
Proof. unfold insert_row. within. Qed.
#[local] Hint Resolve update_request_within update_approval_within update_attempt_within insert_row_within : within.

Lemma create_approval_within a purpose reason ttl : Within R (_create_approval a purpose reason ttl).
Proof. unfold _create_approval. within. Qed.
#[local] Hint Resolve create_approval_within : within.
Lemma create_action_within p w r : Within R (create_action p w r).
Proof. unfold create_action, create. apply savepoint_within. within. Qed.
Lemma preflight_action_within p i reason ttl : Within R (preflight_action p i reason ttl).
Proof.
  unfold preflight_action, preflight. apply savepoint_within. within.
  apply try_catch_within; [within|]. intros [] k; [intros [= <-]; within|done].
Qed.
Lemma decide_within p j approve reason : Within R (_decide p j approve reason).
Proof.
  unfold _decide, decide. apply try_catch_within; [apply savepoint_within; within|]. intros e k [= <-]. within.
Qed.
Lemma rollback_within p i reason ttl : Within R (request_action_rollback p i reason ttl).
Proof. unfold request_action_rollback, request_rollback. apply savepoint_within. within. Qed.
Lemma cancel_within p i : Within R (cancel_action p i).
Proof. unfold cancel_action, cancel. apply savepoint_within. within. Qed.
Lemma expire_within : Within R _expire_one_approval.
Proof. unfold _expire_one_approval. within. Qed.
#[local] Hint Resolve expire_within : within.
Lemma claim_within : Within R _claim.
Proof. unfold _claim. within. Qed.
Lemma complete_within a purpose output : Within R (_complete a purpose output).
Proof. unfold _complete. within. Qed.
Lemma fail_within a code message : Within R (_fail a code message).
Proof. unfold _fail. within. Qed.
#[local] Hint Resolve fail_within : within.
Lemma fail_after_exception_within i code message : Within R (_fail_after_exception i code message).
Proof. unfold _fail_after_exception. within. Qed.
Lemma ensure_attempt_within a purpose ap v c payload : Within R (ensure_attempt a purpose ap v c payload).
Proof. unfold ensure_attempt. within. Qed.
End Tables.
End Operations.

#[export] Hint Resolve event_within system_event_within audit_within require_within get_within deliver_within deny_within require_owner_within validate_schema_within validate_endpoint_within validate_contract_within preflight_capability_within preflight_payload_within preflight_checks_within resolve_pinned_within resolve_within post_within gateway_result_within call_provider_within provider_failed_within rate_allowed_within invoke_allowed_within authorize_within prescribed_within create_approval_within expire_within fail_within update_request_within update_approval_within update_attempt_within insert_row_within create_action_within preflight_action_within decide_within rollback_within cancel_within claim_within complete_within fail_after_exception_within ensure_attempt_within : within.
