(* ===== verification/ActionSpec.v ===== *)
(** * The lifecycle of a governed action, abstractly

    [transition] is what one operation may do to the tables of actions; [invariant]
    is what holds of them whatever operations run.  ActionRefinement shows that the
    service and the worker only make such transitions. *)

From S2P Require Import Prelude PyText PyVal Redaction Enums Models Kernel Identity.
From S2P Require Import ActionState.

(** ** Rows *)

(** The columns fixed at creation. *)
Definition identity (a : ActionRequest) :=
  (ActionRequest.id a, ActionRequest.organization_id a, ActionRequest.workspace_id a,
   ActionRequest.action_type a, ActionRequest.environment a, ActionRequest.target a,
   ActionRequest.parameters a, ActionRequest.rollback_parameters a, ActionRequest.owner_id a,
   ActionRequest.requested_by a, ActionRequest.idempotency_key a, ActionRequest.timeout_seconds a).

(** The columns of an approval fixed at its request. *)
Definition approval_identity (a : ActionApproval) :=
  (ActionApproval.id a, ActionApproval.organization_id a, ActionApproval.action_request_id a,
   ActionApproval.purpose a, ActionApproval.revision a, ActionApproval.plan_checksum_sha256 a,
   ActionApproval.requested_by a, ActionApproval.expires_at a).

Definition attempt_identity (a : ActionAttempt) :=
  (ActionAttempt.id a, ActionAttempt.organization_id a, ActionAttempt.action_request_id a,
   ActionAttempt.purpose a, ActionAttempt.ordinal a, ActionAttempt.capability_version_id a,
   ActionAttempt.connector_id a, ActionAttempt.idempotency_key a, ActionAttempt.input_payload a).

(** The status an action waits in for an approval, and the one it is granted. *)
Definition waiting (p : ActionApprovalPurpose) : ActionStatus :=
  match p with
  | ActionApprovalPurpose.EXECUTE => ActionStatus.WAITING_APPROVAL
  | ActionApprovalPurpose.ROLLBACK => ActionStatus.WAITING_ROLLBACK_APPROVAL
  end.
Definition granted (p : ActionApprovalPurpose) : ActionStatus :=
  match p with
  | ActionApprovalPurpose.EXECUTE => ActionStatus.APPROVED
  | ActionApprovalPurpose.ROLLBACK => ActionStatus.ROLLBACK_APPROVED
  end.
Definition refused (p : ActionApprovalPurpose) : ActionStatus :=
  match p with
  | ActionApprovalPurpose.EXECUTE => ActionStatus.REJECTED
  | ActionApprovalPurpose.ROLLBACK => ActionStatus.ROLLBACK_REJECTED
  end.
Definition lapsed (p : ActionApprovalPurpose) : ActionStatus :=
  match p with
  | ActionApprovalPurpose.EXECUTE => ActionStatus.EXPIRED
  | ActionApprovalPurpose.ROLLBACK => ActionStatus.ROLLBACK_REJECTED
  end.

(** Changes of status that concern no approval. *)
Definition working_edges : list (ActionStatus * ActionStatus) :=
  [(ActionStatus.DRAFT, ActionStatus.PREFLIGHT_FAILED);
   (ActionStatus.PREFLIGHT_FAILED, ActionStatus.PREFLIGHT_FAILED);
   (ActionStatus.APPROVED, ActionStatus.EXECUTING); (ActionStatus.EXECUTING, ActionStatus.EXECUTING);
   (ActionStatus.ROLLBACK_APPROVED, ActionStatus.ROLLING_BACK);
   (ActionStatus.ROLLING_BACK, ActionStatus.ROLLING_BACK);
   (ActionStatus.EXECUTING, ActionStatus.COMPLETED); (ActionStatus.EXECUTING, ActionStatus.FAILED);
   (ActionStatus.ROLLING_BACK, ActionStatus.ROLLED_BACK);
   (ActionStatus.ROLLING_BACK, ActionStatus.ROLLBACK_FAILED)].

Definition rollbackable : list ActionStatus :=
  [ActionStatus.COMPLETED; ActionStatus.FAILED; ActionStatus.ROLLBACK_FAILED; ActionStatus.ROLLBACK_REJECTED].
Definition cancellable : list ActionStatus :=
  [ActionStatus.DRAFT; ActionStatus.PREFLIGHT_FAILED; ActionStatus.WAITING_APPROVAL; ActionStatus.APPROVED;
   ActionStatus.WAITING_ROLLBACK_APPROVAL; ActionStatus.ROLLBACK_APPROVED].
Definition unsealed : list ActionStatus := [ActionStatus.DRAFT; ActionStatus.PREFLIGHT_FAILED].

(** [a'] is [a] in another status, its plan untouched. *)
Definition moved (a a' : ActionRequest) (status : ActionStatus) : Prop :=
  identity a' = identity a ∧
  ActionRequest.plan_checksum_sha256 a' = ActionRequest.plan_checksum_sha256 a ∧
  ActionRequest.status a' = status.

(** A pending approval of [a] for its sealed plan. *)
Definition requested (a : ActionRequest) (purpose : ActionApprovalPurpose) (ap : ActionApproval) : Prop :=
  ActionApproval.action_request_id ap = ActionRequest.id a ∧
  ActionApproval.organization_id ap = ActionRequest.organization_id a ∧
  ActionApproval.purpose ap = purpose ∧
  ActionApproval.status ap = ApprovalStatus.PENDING ∧
  ActionApproval.requested_by ap = ActionRequest.requested_by a ∧
  ActionRequest.plan_checksum_sha256 a = Some (ActionApproval.plan_checksum_sha256 ap).

(** The plan seals the columns of the action. *)
Definition seals (plan : ActionPlan) (a : ActionRequest) : Prop :=
  ActionPlan.action_request_id plan = ActionRequest.id a ∧
  ActionPlan.checksum_sha256 plan = action_plan_checksum (ActionPlan.spec plan) ∧
  dget "environment" (ActionPlan.spec plan) = Some (VStr (ActionRequest.environment a)) ∧
  dget "target" (ActionPlan.spec plan) = Some (VDict (ActionRequest.target a)) ∧
  dget "parameters" (ActionPlan.spec plan) = Some (VDict (ActionRequest.parameters a)) ∧
  dget "rollback_parameters" (ActionPlan.spec plan) = Some (VDict (ActionRequest.rollback_parameters a)).

(** A pending approval loses that status, and nothing else but its decision. *)
Definition resolved (ap ap' : ActionApproval) (status : ApprovalStatus) : Prop :=
  approval_identity ap' = approval_identity ap ∧ ActionApproval.status ap = ApprovalStatus.PENDING ∧
  ActionApproval.status ap' = status.

Definition cancelled_with (i : uuid) (ap ap' : ActionApproval) : Prop :=
  if bool_decide (ActionApproval.action_request_id ap = i) && bool_decide (ActionApproval.status ap = ApprovalStatus.PENDING)
  then resolved ap ap' ApprovalStatus.CANCELLED else ap' = ap.

(** The attempt is the first of an action of its organization. *)
Definition attempted (m : gmap uuid ActionRequest) (t : ActionAttempt) : Prop :=
  ActionAttempt.ordinal t = 1%Z ∧
  ActionAttempt.idempotency_key t = attempt_key (ActionAttempt.action_request_id t) (ActionAttempt.purpose t) ∧
  ∃ a, m !! ActionAttempt.action_request_id t = Some a ∧
       ActionRequest.organization_id a = ActionAttempt.organization_id t.

(** ** Transitions *)

Inductive transition (t : ActionTables) : ActionTables → Prop :=
| T_created a :
    action_requests t !! ActionRequest.id a = None →
    ActionRequest.status a = ActionStatus.DRAFT → ActionRequest.plan_checksum_sha256 a = None →
    (∀ i b, action_requests t !! i = Some b → ActionRequest.organization_id b = ActionRequest.organization_id a →
       ActionRequest.idempotency_key b = ActionRequest.idempotency_key a → False) →
    transition t (with_requests (insert (ActionRequest.id a) a) t)
| T_moved i a a' status :
    action_requests t !! i = Some a → moved a a' status →
    (ActionRequest.status a, status) ∈ working_edges →
    transition t (with_requests (insert i a') t)
| T_sealed i a a' plan ap :
    action_requests t !! i = Some a → ActionRequest.status a ∈ unsealed →
    plan_of t i = None → identity a' = identity a →
    ActionRequest.status a' = ActionStatus.WAITING_APPROVAL →
    ActionRequest.plan_checksum_sha256 a' = Some (ActionPlan.checksum_sha256 plan) →
    seals plan a → action_plans t !! ActionPlan.id plan = None →
    requested a' ActionApprovalPurpose.EXECUTE ap → action_approvals t !! ActionApproval.id ap = None →
    transition t (with_approvals (insert (ActionApproval.id ap) ap)
      (with_requests (insert i a') (with_plans (insert (ActionPlan.id plan) plan) t)))
| T_decided j ap ap' a a' p approve :
    action_approvals t !! j = Some ap → resolved ap ap' (if approve : bool then ApprovalStatus.APPROVED else ApprovalStatus.REJECTED) →
    ActionApproval.decided_by ap' = Some (Principal.id p) → can p "action.approve" = true →
    Principal.organization_id p = ActionApproval.organization_id ap →
    ActionApproval.requested_by ap ≠ Principal.id p →
    action_requests t !! ActionApproval.action_request_id ap = Some a →
    ActionRequest.plan_checksum_sha256 a = Some (ActionApproval.plan_checksum_sha256 ap) →
    moved a a' ((if approve then granted else refused) (ActionApproval.purpose ap)) →
    transition t (with_requests (insert (ActionApproval.action_request_id ap) a') (with_approvals (insert j ap') t))
| T_rollback_requested i a a' ap :
    action_requests t !! i = Some a → ActionRequest.status a ∈ rollbackable →
    moved a a' ActionStatus.WAITING_ROLLBACK_APPROVAL →
    requested a ActionApprovalPurpose.ROLLBACK ap → action_approvals t !! ActionApproval.id ap = None →
    transition t (with_requests (insert i a') (with_approvals (insert (ActionApproval.id ap) ap) t))
| T_cancelled i a a' approvals' :
    action_requests t !! i = Some a → ActionRequest.status a ∈ cancellable →
    moved a a' ActionStatus.CANCELLED →
    (∀ j, option_Forall2 (cancelled_with i) (action_approvals t !! j) (approvals' !! j)) →
    transition t (with_approvals (λ _, approvals') (with_requests (insert i a') t))
| T_expired j ap ap' a a' :
    action_approvals t !! j = Some ap → resolved ap ap' ApprovalStatus.EXPIRED →
    action_requests t !! ActionApproval.action_request_id ap = Some a →
    moved a a' (lapsed (ActionApproval.purpose ap)) →
    transition t (with_requests (insert (ActionApproval.action_request_id ap) a') (with_approvals (insert j ap') t))
| T_expired_orphan j ap ap' :
    action_approvals t !! j = Some ap → resolved ap ap' ApprovalStatus.EXPIRED →
    action_requests t !! ActionApproval.action_request_id ap = None →
    transition t (with_approvals (insert j ap') t)
| T_attempted a :
    action_attempts t !! ActionAttempt.id a = None → attempted (action_requests t) a →
    (∀ j a0, action_attempts t !! j = Some a0 →
       ActionAttempt.action_request_id a0 = ActionAttempt.action_request_id a →
       ActionAttempt.purpose a0 = ActionAttempt.purpose a → False) →
    transition t (with_attempts (insert (ActionAttempt.id a) a) t)
| T_attempt_updated j a a' :
    action_attempts t !! j = Some a → attempt_identity a' = attempt_identity a →
    transition t (with_attempts (insert j a') t).

(** ** The invariant *)

(** The action of an approval waits for it. *)
Definition awaited (m : gmap uuid ActionRequest) (ap : ActionApproval) : Prop :=
  ∃ a, m !! ActionApproval.action_request_id ap = Some a ∧
       ActionRequest.status a = waiting (ActionApproval.purpose ap) ∧
       ActionRequest.plan_checksum_sha256 a = Some (ActionApproval.plan_checksum_sha256 ap).

(** The statuses of an action granted or under way for a purpose. *)
Definition underway (p : ActionApprovalPurpose) : list ActionStatus :=
  [granted p; match p with ActionApprovalPurpose.EXECUTE => ActionStatus.EXECUTING | _ => ActionStatus.ROLLING_BACK end].

(** The plan of an action was approved for a purpose. *)
Definition approved_for (m : gmap uuid ActionApproval) (i : uuid) (a : ActionRequest) (purpose : ActionApprovalPurpose) : Prop :=
  ∃ j ap, m !! j = Some ap ∧ ActionApproval.action_request_id ap = i ∧
    ActionApproval.purpose ap = purpose ∧ ActionApproval.status ap = ApprovalStatus.APPROVED ∧
    ActionRequest.plan_checksum_sha256 a = Some (ActionApproval.plan_checksum_sha256 ap).

Record invariant (t : ActionTables) : Prop := {
  (** Rows are stored under their keys. *)
  inv_request_key i a : action_requests t !! i = Some a → ActionRequest.id a = i;
  inv_approval_key j ap : action_approvals t !! j = Some ap → ActionApproval.id ap = j;
  inv_plan_key j p : action_plans t !! j = Some p → ActionPlan.id p = j;
  (** An idempotency key names one action of an organization. *)
  inv_idempotency i1 i2 a1 a2 : action_requests t !! i1 = Some a1 → action_requests t !! i2 = Some a2 →
    ActionRequest.organization_id a1 = ActionRequest.organization_id a2 →
    ActionRequest.idempotency_key a1 = ActionRequest.idempotency_key a2 → i1 = i2;
  (** A pending approval is what its action waits for, for the sealed plan; it is the
      only one. *)
  inv_pending j ap : action_approvals t !! j = Some ap → ActionApproval.status ap = ApprovalStatus.PENDING →
    awaited (action_requests t) ap;
  inv_pending_unique j1 j2 ap1 ap2 :
    action_approvals t !! j1 = Some ap1 → action_approvals t !! j2 = Some ap2 →
    ActionApproval.status ap1 = ApprovalStatus.PENDING → ActionApproval.status ap2 = ApprovalStatus.PENDING →
    ActionApproval.action_request_id ap1 = ActionApproval.action_request_id ap2 → j1 = j2;
  (** A granted approval was decided by somebody other than its requester. *)
  inv_decided j ap : action_approvals t !! j = Some ap → ActionApproval.status ap = ApprovalStatus.APPROVED →
    ∃ p, ActionApproval.decided_by ap = Some (Principal.id p) ∧ can p "action.approve" = true ∧
         Principal.organization_id p = ActionApproval.organization_id ap ∧
         ActionApproval.requested_by ap ≠ Principal.id p;
  (** An action granted or under way has an approval for that purpose and its plan. *)
  inv_granted i a purpose : action_requests t !! i = Some a →
    ActionRequest.status a ∈ underway purpose → approved_for (action_approvals t) i a purpose;
  (** An action has no plan before its preflight, and one sealed plan from then on. *)
  inv_unsealed i a : action_requests t !! i = Some a → ActionRequest.status a ∈ unsealed →
    ActionRequest.plan_checksum_sha256 a = None;
  inv_sealed i a c : action_requests t !! i = Some a → ActionRequest.plan_checksum_sha256 a = Some c →
    ∃ j plan, action_plans t !! j = Some plan ∧ seals plan a ∧ ActionPlan.checksum_sha256 plan = c;
  inv_plan j plan : action_plans t !! j = Some plan →
    ∃ a, action_requests t !! ActionPlan.action_request_id plan = Some a ∧
         ActionRequest.plan_checksum_sha256 a = Some (ActionPlan.checksum_sha256 plan);
  inv_plan_unique j1 j2 p1 p2 : action_plans t !! j1 = Some p1 → action_plans t !! j2 = Some p2 →
    ActionPlan.action_request_id p1 = ActionPlan.action_request_id p2 → j1 = j2;
  (** At most one attempt per action and purpose, the first. *)
  inv_attempted j a : action_attempts t !! j = Some a → attempted (action_requests t) a;
  inv_attempt_key j a : action_attempts t !! j = Some a → ActionAttempt.id a = j;
  inv_attempt j1 j2 a1 a2 : action_attempts t !! j1 = Some a1 → action_attempts t !! j2 = Some a2 →
    ActionAttempt.action_request_id a1 = ActionAttempt.action_request_id a2 →
    ActionAttempt.purpose a1 = ActionAttempt.purpose a2 → j1 = j2
}.

(** ** Preservation *)

Lemma identity_fields a a' : identity a' = identity a →
  ActionRequest.id a' = ActionRequest.id a ∧ ActionRequest.organization_id a' = ActionRequest.organization_id a ∧
  ActionRequest.environment a' = ActionRequest.environment a ∧ ActionRequest.target a' = ActionRequest.target a ∧
  ActionRequest.parameters a' = ActionRequest.parameters a ∧
  ActionRequest.rollback_parameters a' = ActionRequest.rollback_parameters a ∧
  ActionRequest.requested_by a' = ActionRequest.requested_by a ∧
  ActionRequest.idempotency_key a' = ActionRequest.idempotency_key a.
Proof. unfold identity. by intros [=]. Qed.

Lemma approval_identity_fields ap ap' : approval_identity ap' = approval_identity ap →
  ActionApproval.id ap' = ActionApproval.id ap ∧
  ActionApproval.organization_id ap' = ActionApproval.organization_id ap ∧
  ActionApproval.action_request_id ap' = ActionApproval.action_request_id ap ∧
  ActionApproval.purpose ap' = ActionApproval.purpose ap ∧
  ActionApproval.plan_checksum_sha256 ap' = ActionApproval.plan_checksum_sha256 ap ∧
  ActionApproval.requested_by ap' = ActionApproval.requested_by ap.
Proof. unfold approval_identity. by intros [=]. Qed.

Lemma attempt_identity_fields a a' : attempt_identity a' = attempt_identity a →
  ActionAttempt.id a' = ActionAttempt.id a ∧
  ActionAttempt.ordinal a' = ActionAttempt.ordinal a ∧
  ActionAttempt.idempotency_key a' = ActionAttempt.idempotency_key a ∧
  ActionAttempt.organization_id a' = ActionAttempt.organization_id a ∧
  ActionAttempt.action_request_id a' = ActionAttempt.action_request_id a ∧
  ActionAttempt.purpose a' = ActionAttempt.purpose a.
Proof. unfold attempt_identity. by intros [=]. Qed.

Lemma seals_identity plan a a' : identity a' = identity a → seals plan a → seals plan a'.
Proof.
  intros (Hid & _ & He & Ht & Hp & Hr & _)%identity_fields. unfold seals. by rewrite Hid, He, Ht, Hp, Hr.
Qed.

Lemma plan_of_none t i j plan :
  plan_of t i = None → action_plans t !! j = Some plan → ActionPlan.action_request_id plan ≠ i.
Proof.
  unfold plan_of. intros Hnone Hj Hi.
  assert (plan ∈ select (λ p, bool_decide (ActionPlan.action_request_id p = i)) (action_plans t)) as Hin.
  { apply elem_of_select. split; [by apply bool_decide_eq_true|]. by exists j. }
  destruct (select _ _); [by apply not_elem_of_nil in Hin|done].
Qed.

(** How a transition treats the approvals: all stay, except that pending ones may be
    resolved and one fresh pending one may appear. *)
Lemma cancelled_lookup i (m m' : gmap uuid ActionApproval) j ap' :
  (∀ j, option_Forall2 (cancelled_with i) (m !! j) (m' !! j)) → m' !! j = Some ap' →
  ∃ ap, m !! j = Some ap ∧ cancelled_with i ap ap'.
Proof. intros Hall Hj. specialize (Hall j). rewrite Hj in Hall. inversion Hall; subst. by eexists. Qed.

Lemma cancelled_lookup_old i (m m' : gmap uuid ActionApproval) j ap :
  (∀ j, option_Forall2 (cancelled_with i) (m !! j) (m' !! j)) → m !! j = Some ap →
  ∃ ap', m' !! j = Some ap' ∧ cancelled_with i ap ap'.
Proof. intros Hall Hj. specialize (Hall j). rewrite Hj in Hall. inversion Hall; subst. by eexists. Qed.

Lemma cancelled_cases i ap ap' : cancelled_with i ap ap' →
  (ap' = ap ∧ ¬ (ActionApproval.action_request_id ap = i ∧ ActionApproval.status ap = ApprovalStatus.PENDING)) ∨
  (ActionApproval.action_request_id ap = i ∧ resolved ap ap' ApprovalStatus.CANCELLED).
Proof.
  unfold cancelled_with. case_bool_decide; case_bool_decide; cbn; [by right|left; naive_solver..].
Qed.
