(* ===== verification/ActionInvariant.v ===== *)
(** * The invariant of governed actions is preserved

    Every transition of ActionSpec preserves the invariant, follows the edges of the
    status machine, and never changes what a plan sealed. *)

From S2P Require Import Prelude PyText PyVal Redaction Enums Models Kernel Identity.
From S2P Require Import ActionState ActionSpec.

(** Look up in an updated table. *)
Ltac look_only := cbn in *;
  repeat match goal with
  | H : <[_ := _]> _ !! _ = Some _ |- _ => apply lookup_insert_Some in H as [[? ?]|[? ?]]; simplify_eq
  | H : moved _ _ _ |- _ => destruct H as (? & ? & ?)
  | H : resolved _ _ _ |- _ => destruct H as (? & ? & ?)
  | H : requested _ _ _ |- _ => destruct H as (? & ? & ? & ? & ? & ?)
  | H : approval_identity _ = approval_identity _ |- _ =>
      apply approval_identity_fields in H as (? & ? & ? & ? & ? & ?)
  | H : attempt_identity _ = attempt_identity _ |- _ => apply attempt_identity_fields in H as (? & ? & ? & ? & ? & ?)
  end.
Ltac look := look_only;
  repeat match goal with
  | H : identity _ = identity _ |- _ => apply identity_fields in H as (? & ? & ? & ? & ? & ? & ? & ?)
  end.

(** The fate of an approval under a cancellation. *)
Ltac cancelled :=
  match goal with
  | Hall : ∀ j, option_Forall2 (cancelled_with _) _ _, H : _ !! _ = Some ?ap |- _ =>
      lazymatch type of ap with
      | ActionApproval =>
          apply (cancelled_lookup _ _ _ _ _ Hall) in H as (? & ? & [[-> ?]|[? ?]]%cancelled_cases)
      end
  end; look.

(** Membership in a list of statuses, case by case. *)
Ltac listed := set_unfold; intuition congruence.

(** No operation leads back to an unsealed status, and only a claim to a status of
    execution. *)
Lemma edge_unsealed s s' : (s, s') ∈ working_edges → s' ∈ unsealed → s ∈ unsealed.
Proof. unfold working_edges, unsealed. listed. Qed.

Lemma decision_sealed p (approve : bool) : (if approve then granted else refused) p ∉ unsealed.
Proof. destruct p, approve; unfold unsealed; listed. Qed.

Lemma lapsed_sealed p : lapsed p ∉ unsealed.
Proof. destruct p; unfold unsealed; listed. Qed.

Lemma other_sealed : ActionStatus.WAITING_APPROVAL ∉ unsealed ∧ ActionStatus.WAITING_ROLLBACK_APPROVAL ∉ unsealed ∧
  ActionStatus.CANCELLED ∉ unsealed.
Proof. unfold unsealed. split_and!; listed. Qed.

Lemma rollbackable_sealed s : s ∈ rollbackable → s ∉ unsealed.
Proof. unfold rollbackable, unsealed. listed. Qed.

Lemma waiting_edge p s : (waiting p, s) ∉ working_edges.
Proof. destruct p; unfold working_edges; listed. Qed.

Lemma waiting_other p : waiting p ∉ unsealed ∧ waiting p ∉ rollbackable.
Proof. destruct p; unfold unsealed, rollbackable; split; listed. Qed.

Lemma edge_underway p s s' : (s, s') ∈ working_edges → s' ∈ underway p → s ∈ underway p.
Proof. destruct p; unfold working_edges, underway; cbn; listed. Qed.

Lemma granted_underway p q : granted p ∈ underway q → p = q.
Proof. destruct p, q; unfold underway; cbn; listed. Qed.

Lemma not_underway q : ActionStatus.DRAFT ∉ underway q ∧ ActionStatus.WAITING_APPROVAL ∉ underway q ∧ ActionStatus.CANCELLED ∉ underway q ∧
  ActionStatus.WAITING_ROLLBACK_APPROVAL ∉ underway q ∧ ∀ p, refused p ∉ underway q ∧ lapsed p ∉ underway q.
Proof. destruct q; unfold underway; cbn; split_and!; try listed; intros []; cbn; split; listed. Qed.

Lemma kept_checksum i k a a' b c (m : gmap uuid ActionRequest) : m !! i = Some a → m !! k = Some b →
  ActionRequest.plan_checksum_sha256 a' = ActionRequest.plan_checksum_sha256 a →
  ActionRequest.plan_checksum_sha256 b = Some c →
  ∃ b', <[i := a']> m !! k = Some b' ∧ ActionRequest.plan_checksum_sha256 b' = Some c.
Proof.
  intros Hi Hk Ha Hb. destruct (decide (i = k)) as [->|Hne].
  - exists a'. rewrite lookup_insert_eq. split; [done|]. congruence.
  - exists b. by rewrite lookup_insert_ne.
Qed.

Lemma awaited_insert m ap i a' : awaited m ap → ActionApproval.action_request_id ap ≠ i → awaited (<[i := a']> m) ap.
Proof. intros (a & Ha & ?) Hne. exists a. by rewrite lookup_insert_ne. Qed.

Lemma resolved_pending ap ap' s : resolved ap ap' s → ActionApproval.status ap = ApprovalStatus.PENDING.
Proof. by intros (_ & ? & _). Qed.

Section Preservation.
Context {t t' : ActionTables} (Hinv : invariant t) (Htr : transition t t').

Lemma pres_request_key i a : action_requests t' !! i = Some a → ActionRequest.id a = i.
Proof using Hinv Htr.
  pose proof (inv_request_key t Hinv) as Hkey.
  destruct Htr; intros; look; eauto; etransitivity; try eassumption; eauto.
Qed.

Lemma pres_approval_key j ap : action_approvals t' !! j = Some ap → ActionApproval.id ap = j.
Proof using Hinv Htr.
  pose proof (inv_approval_key t Hinv) as Hkey.
  destruct Htr; intros; look; try cancelled; eauto; etransitivity; try eassumption; eauto.
Qed.

Lemma pres_plan_key j p : action_plans t' !! j = Some p → ActionPlan.id p = j.
Proof using Hinv Htr. pose proof (inv_plan_key t Hinv) as Hkey. destruct Htr; intros; look; eauto. Qed.

Lemma pres_idempotency i1 i2 a1 a2 : action_requests t' !! i1 = Some a1 → action_requests t' !! i2 = Some a2 →
  ActionRequest.organization_id a1 = ActionRequest.organization_id a2 →
  ActionRequest.idempotency_key a1 = ActionRequest.idempotency_key a2 → i1 = i2.
Proof using Hinv Htr.
  pose proof (inv_idempotency t Hinv) as Huniq.
  destruct Htr; intros; look; eauto; try (exfalso; by eauto).
  all: eapply Huniq; try eassumption; congruence.
Qed.

Lemma pres_decided j ap : action_approvals t' !! j = Some ap → ActionApproval.status ap = ApprovalStatus.APPROVED →
  ∃ p, ActionApproval.decided_by ap = Some (Principal.id p) ∧ can p "action.approve" = true ∧
       Principal.organization_id p = ActionApproval.organization_id ap ∧
       ActionApproval.requested_by ap ≠ Principal.id p.
Proof using Hinv Htr.
  pose proof (inv_decided t Hinv) as Hdec.
  destruct Htr; intros; look; try cancelled; try congruence; eauto.
  exists p. split_and!; congruence.
Qed.

Lemma pres_plan_unique j1 j2 p1 p2 : action_plans t' !! j1 = Some p1 → action_plans t' !! j2 = Some p2 →
  ActionPlan.action_request_id p1 = ActionPlan.action_request_id p2 → j1 = j2.
Proof using Hinv Htr.
  pose proof (inv_plan_unique t Hinv) as Huniq. pose proof (inv_request_key t Hinv) as Hkey.
  destruct Htr; intros; look; eauto; exfalso; unfold seals in *; destruct_and?;
    eapply plan_of_none; try eassumption; eauto; erewrite <-(Hkey i a) by done; congruence.
Qed.

Lemma pres_attempt j1 j2 a1 a2 : action_attempts t' !! j1 = Some a1 → action_attempts t' !! j2 = Some a2 →
  ActionAttempt.action_request_id a1 = ActionAttempt.action_request_id a2 →
  ActionAttempt.purpose a1 = ActionAttempt.purpose a2 → j1 = j2.
Proof using Hinv Htr.
  pose proof (inv_attempt t Hinv) as Huniq.
  destruct Htr; intros; look; eauto; try (exfalso; by eauto).
  all: eapply Huniq; try eassumption; congruence.
Qed.

Lemma pres_unsealed i a : action_requests t' !! i = Some a → ActionRequest.status a ∈ unsealed →
  ActionRequest.plan_checksum_sha256 a = None.
Proof using Hinv Htr.
  pose proof (inv_unsealed t Hinv) as Hun. pose proof other_sealed as (? & ? & ?).
  destruct Htr; intros; look; eauto; try congruence.
  all: match goal with
    | H : ActionRequest.status ?a = _, Hin : ActionRequest.status ?a ∈ unsealed |- _ => rewrite H in Hin
    | _ => idtac
    end; eauto; try done.
  - etransitivity; [eassumption|]. eapply Hun; [eassumption|]. by eapply edge_unsealed.
  - exfalso. by eapply decision_sealed.
  - exfalso. by eapply lapsed_sealed.
Qed.

Lemma pres_sealed i a c : action_requests t' !! i = Some a → ActionRequest.plan_checksum_sha256 a = Some c →
  ∃ j plan, action_plans t' !! j = Some plan ∧ seals plan a ∧ ActionPlan.checksum_sha256 plan = c.
Proof using Hinv Htr.
  assert (∀ i0 a0 a', action_requests t !! i0 = Some a0 → identity a' = identity a0 →
    ActionRequest.plan_checksum_sha256 a' = Some c → ActionRequest.plan_checksum_sha256 a' = ActionRequest.plan_checksum_sha256 a0 →
    ∃ j plan, action_plans t !! j = Some plan ∧ seals plan a' ∧ ActionPlan.checksum_sha256 plan = c) as Hsealed.
  { intros i0 a0 a' H0 Hid Hc Heq. rewrite Heq in Hc.
    destruct (inv_sealed t Hinv _ _ _ H0 Hc) as (j & plan & ? & ? & ?). exists j, plan.
    split_and!; [done| |done]. by eapply seals_identity. }
  destruct Htr; intros; look_only; eauto; try congruence.
  - eexists (ActionPlan.id plan), plan. rewrite lookup_insert_eq. split_and!; [done| |congruence].
    unfold seals in *. intuition congruence.
  - edestruct Hsealed as (j & plan' & ? & ? & ?); eauto. exists j, plan'. split; [|done].
    rewrite lookup_insert_ne; [done|]. intros <-. congruence.
Qed.

Lemma pres_plan j plan : action_plans t' !! j = Some plan →
  ∃ a, action_requests t' !! ActionPlan.action_request_id plan = Some a ∧
       ActionRequest.plan_checksum_sha256 a = Some (ActionPlan.checksum_sha256 plan).
Proof using Hinv Htr.
  pose proof (inv_plan t Hinv) as Hplan. pose proof (inv_request_key t Hinv) as Hkey.
  destruct Htr; intros; look_only; eauto.
  all: try (edestruct Hplan as (b & ? & ?); [eassumption|]; by eauto using kept_checksum).
  - edestruct Hplan as (b & ? & ?); [eassumption|]. exists b. split; [|done].
    rewrite lookup_insert_ne; [done|]. congruence.
  - unfold seals in *. destruct_and?. exists a'. split; [|done].
    rewrite (Hkey i a) in * by done. by replace (ActionPlan.action_request_id plan) with i; rewrite lookup_insert_eq.
  - edestruct Hplan as (b & ? & ?); [eassumption|]. exists b. split; [|done].
    rewrite lookup_insert_ne; [done|]. intros ->. by eapply plan_of_none.
Qed.

(** ** Pending approvals *)

Ltac fresh_approval :=
  rewrite ?lookup_insert_eq;
  match goal with H : ActionApproval.purpose _ = _ |- _ => rewrite H end; split_and!; [done|cbn; congruence..].

(** A pending approval concerns no action in another status. *)
Lemma pending_elsewhere j ap i a : action_approvals t !! j = Some ap → ActionApproval.status ap = ApprovalStatus.PENDING →
  action_requests t !! i = Some a → ActionRequest.status a ≠ waiting (ActionApproval.purpose ap) →
  ActionApproval.action_request_id ap ≠ i.
Proof using Hinv. intros Hj Hp Hi Hs <-. destruct (inv_pending t Hinv _ _ Hj Hp) as (b & Hb & Hw & _). congruence. Qed.

Lemma pres_pending j ap : action_approvals t' !! j = Some ap → ActionApproval.status ap = ApprovalStatus.PENDING →
  awaited (action_requests t') ap.
Proof using Hinv Htr.
  pose proof (inv_pending t Hinv) as Hpend. pose proof (inv_pending_unique t Hinv) as Huniq.
  pose proof (inv_request_key t Hinv) as Hkey.
  destruct Htr; intros; look; try congruence; try cancelled; try congruence.
  all: try (apply awaited_insert; [by eapply Hpend|]).
  all: try by eapply Hpend.
  - intros Heq. destruct (Hpend _ _ ltac:(eassumption) ltac:(eassumption)) as (? & ? & _). congruence.
  - eapply pending_elsewhere; [done..|]. intros Heq.
    eapply (waiting_edge (ActionApproval.purpose ap)). rewrite <-Heq. eassumption.
  - exists a'. replace (ActionApproval.action_request_id ap) with i by (rewrite <-(Hkey i a) by done; congruence).
    fresh_approval.
  - eapply pending_elsewhere; [done..|]. intros Heq. eapply (proj1 (waiting_other (ActionApproval.purpose ap))). by rewrite <-Heq.
  - destruct approve; congruence.
  - intros Heq. by assert (j0 = j) by eauto.
  - exists a'. replace (ActionApproval.action_request_id ap) with i by (rewrite <-(Hkey i a) by done; congruence).
    fresh_approval.
  - eapply pending_elsewhere; [done..|]. intros Heq. eapply (proj2 (waiting_other (ActionApproval.purpose ap))). by rewrite <-Heq.
  - intros Heq. naive_solver.
  - intros Heq. by assert (j0 = j) by eauto.
Qed.

(** A fresh approval finds no other pending for its action. *)
Lemma fresh_unique j ap ap0 i a : action_approvals t !! j = Some ap0 → ActionApproval.status ap0 = ApprovalStatus.PENDING →
  action_requests t !! i = Some a → ActionRequest.status a ∈ unsealed ∨ ActionRequest.status a ∈ rollbackable →
  ActionApproval.action_request_id ap = ActionRequest.id a →
  ActionApproval.action_request_id ap0 ≠ ActionApproval.action_request_id ap.
Proof using Hinv.
  intros Hj Hp Hi Hs ->. rewrite (inv_request_key t Hinv _ _ Hi). eapply pending_elsewhere; [done..|].
  intros Heq. rewrite Heq in Hs. destruct Hs as [Hs|Hs]; by apply waiting_other in Hs.
Qed.

Lemma pres_pending_unique j1 j2 ap1 ap2 :
  action_approvals t' !! j1 = Some ap1 → action_approvals t' !! j2 = Some ap2 →
  ActionApproval.status ap1 = ApprovalStatus.PENDING → ActionApproval.status ap2 = ApprovalStatus.PENDING →
  ActionApproval.action_request_id ap1 = ActionApproval.action_request_id ap2 → j1 = j2.
Proof using Hinv Htr.
  pose proof (inv_pending_unique t Hinv) as Huniq.
  destruct Htr; intros; look; try congruence; try cancelled; try cancelled; try congruence; eauto.
  all: try (exfalso; destruct approve; congruence).
  all: exfalso; match goal with
    | Hap : action_approvals t !! _ = Some ?ap0, Heq : ActionApproval.action_request_id ?x = ActionApproval.action_request_id ?ap0 |- _ =>
        refine (fresh_unique _ x ap0 i a Hap _ _ _ _ (eq_sym Heq)); try eassumption; auto; congruence
    | Hap : action_approvals t !! _ = Some ?ap0, Heq : ActionApproval.action_request_id ?ap0 = ActionApproval.action_request_id ?x |- _ =>
        refine (fresh_unique _ x ap0 i a Hap _ _ _ _ Heq); try eassumption; auto; congruence
    end.
Qed.

(** ** Granted actions *)

(** Approvals of a plan are never lost. *)
Lemma approval_kept j ap : action_approvals t !! j = Some ap → ActionApproval.status ap ≠ ApprovalStatus.PENDING →
  action_approvals t' !! j = Some ap.
Proof using Htr.
  intros Hj Hs. destruct Htr; look; try done.
  all: try (rewrite lookup_insert_ne; [done|congruence]).
  match goal with Hall : ∀ j, option_Forall2 _ _ _ |- _ => apply (cancelled_lookup_old _ _ _ _ _ Hall) in Hj as (ap' & Hap' & Hc) end.
  apply cancelled_cases in Hc as [[-> _]|[_ (_ & ? & _)]]; congruence.
Qed.

Lemma approved_for_kept i a a' purpose : approved_for (action_approvals t) i a purpose →
  ActionRequest.plan_checksum_sha256 a' = ActionRequest.plan_checksum_sha256 a →
  approved_for (action_approvals t') i a' purpose.
Proof using Htr.
  intros (j & ap & Hj & ? & ? & Hs & ?) Heq. exists j, ap. split_and!; try congruence.
  apply approval_kept; congruence.
Qed.

Lemma pres_granted i a purpose : action_requests t' !! i = Some a → ActionRequest.status a ∈ underway purpose →
  approved_for (action_approvals t') i a purpose.
Proof using Hinv Htr.
  pose proof (inv_granted t Hinv) as Hgr. pose proof (not_underway purpose) as (? & ? & ? & ? & Hnot).
  intros Hi Hs.
  assert (∀ i a0 a', action_requests t !! i = Some a0 → ActionRequest.status a0 ∈ underway purpose →
    ActionRequest.plan_checksum_sha256 a' = ActionRequest.plan_checksum_sha256 a0 →
    approved_for (action_approvals t') i a' purpose) as Hkeep by eauto using approved_for_kept.
  destruct Htr; look; try (by eauto).
  all: match goal with
    | H : ActionRequest.status ?a = _, Hin : ActionRequest.status ?a ∈ underway _ |- _ => rewrite H in Hin
    | _ => idtac
    end; try done.
  - eapply Hkeep; [done| |done]. eapply edge_underway; [done|congruence].
  - destruct approve; [|by apply Hnot in Hs]. apply granted_underway in Hs. subst.
    exists j, ap'. rewrite lookup_insert_eq. split_and!; congruence.
  - by apply Hnot in Hs.
Qed.

Lemma attempted_insert m i a a' b : m !! i = Some a → ActionRequest.organization_id a' = ActionRequest.organization_id a →
  attempted m b → attempted (<[i := a']> m) b.
Proof.
  intros Hi Ho (Hord & Hkey & c & Hc & ?). split; [done|]. split; [done|]. destruct (decide (ActionAttempt.action_request_id b = i)) as [Heq|Hne].
  - exists a'. rewrite Heq, lookup_insert_eq. split; [done|]. congruence.
  - exists c. by rewrite lookup_insert_ne.
Qed.

Lemma pres_attempted j b : action_attempts t' !! j = Some b → attempted (action_requests t') b.
Proof using Hinv Htr.
  pose proof (inv_attempted t Hinv) as Hatt. destruct Htr; intros; look; eauto.
  all: try by (eapply attempted_insert; eauto).
  - destruct (Hatt _ _ ltac:(eassumption)) as (? & ? & c & ? & ?). split; [done|]. split; [done|]. exists c.
    rewrite lookup_insert_ne; [done|]. congruence.
  - destruct (Hatt _ _ ltac:(eassumption)) as (? & ? & c & ? & ?). split; [congruence|]. split; [congruence|]. exists c. split; congruence.
Qed.

Lemma pres_attempt_key j a : action_attempts t' !! j = Some a → ActionAttempt.id a = j.
Proof using Hinv Htr.
  pose proof (inv_attempt_key t Hinv) as Hkey.
  destruct Htr; intros; look; eauto; etransitivity; try eassumption; eauto.
Qed.

Lemma preserved : invariant t'.
Proof using Hinv Htr.
  split.
  - exact pres_request_key.
  - exact pres_approval_key.
  - exact pres_plan_key.
  - exact pres_idempotency.
  - exact pres_pending.
  - exact pres_pending_unique.
  - exact pres_decided.
  - exact pres_granted.
  - exact pres_unsealed.
  - exact pres_sealed.
  - exact pres_plan.
  - exact pres_plan_unique.
  - exact pres_attempted.
  - exact pres_attempt_key.
  - exact pres_attempt.
Qed.
End Preservation.

Lemma empty_invariant : invariant (MkTables ∅ ∅ ∅ ∅).
Proof. split; intros *; cbn; rewrite ?lookup_empty; done. Qed.

Lemma steps_preserved t t' : invariant t → steps transition t t' → invariant t'.
Proof. apply steps_invariant. intros t1 t2 H1 H2. exact (preserved H1 H2). Qed.

(** ** The life of one action *)

(** The edges of the status machine. *)
Definition edge (s s' : ActionStatus) : Prop :=
  (s, s') ∈ working_edges ∨
  (s ∈ unsealed ∧ s' = ActionStatus.WAITING_APPROVAL) ∨
  (∃ p, s = waiting p ∧ s' ∈ [granted p; refused p; lapsed p]) ∨
  (s ∈ rollbackable ∧ s' = ActionStatus.WAITING_ROLLBACK_APPROVAL) ∨
  (s ∈ cancellable ∧ s' = ActionStatus.CANCELLED).

(** Statuses no operation leaves. *)
Definition terminal : list ActionStatus :=
  [ActionStatus.REJECTED; ActionStatus.EXPIRED; ActionStatus.CANCELLED; ActionStatus.ROLLED_BACK].

(** What a transition does to an action: its identity and sealed plan stay, its status
    follows an edge. *)
Record kept (a a' : ActionRequest) : Prop := {
  kept_identity : identity a' = identity a;
  kept_plan c : ActionRequest.plan_checksum_sha256 a = Some c → ActionRequest.plan_checksum_sha256 a' = Some c;
  kept_status : a' = a ∨ edge (ActionRequest.status a) (ActionRequest.status a')
}.

Lemma kept_refl a : kept a a.
Proof. split; auto. Qed.

Lemma kept_moved a a' s : moved a a' s → edge (ActionRequest.status a) s → kept a a'.
Proof. intros (Hid & Hp & <-) He. split; [done|by rewrite Hp|by right]. Qed.

Lemma transition_request t t' i a : invariant t → transition t t' → action_requests t !! i = Some a →
  ∃ a', action_requests t' !! i = Some a' ∧ kept a a'.
Proof.
  intros Hinv Htr Hi.
  assert (∀ k a0 a' m, m = action_requests t → m !! k = Some a0 → kept a0 a' → ∃ a'', <[k := a']> m !! i = Some a'' ∧ kept a a'') as Hins.
  { intros k a0 a' m -> Hk Hkept. destruct (decide (k = i)) as [->|Hne].
    - exists a'. rewrite lookup_insert_eq. split; [done|]. by simplify_eq.
    - exists a. rewrite lookup_insert_ne by done. eauto using kept_refl. }
  destruct Htr; cbn; eauto using kept_refl.
  - exists a. split; [|apply kept_refl]. rewrite lookup_insert_ne; [done|]. congruence.
  - eapply Hins; [done..|]. eapply kept_moved; [done|]. unfold edge. auto.
  - eapply Hins; [done..|]. split; [done| |].
    + intros c Hc. rewrite (inv_unsealed t Hinv i0 a0) in Hc by done. done.
    + right. unfold edge. auto.
  - eapply Hins; [done..|]. eapply kept_moved; [done|].
    destruct (inv_pending t Hinv j ap) as (b & Hb & Hw & _); [done|by eapply resolved_pending|].
    right; right; left. exists (ActionApproval.purpose ap). split; [congruence|]. destruct approve; set_solver.
  - eapply Hins; [done..|]. eapply kept_moved; [done|]. unfold edge. auto 6.
  - eapply Hins; [done..|]. eapply kept_moved; [done|]. unfold edge. auto 6.
  - eapply Hins; [done..|]. eapply kept_moved; [done|].
    destruct (inv_pending t Hinv j ap) as (b & Hb & Hw & _); [done|by eapply resolved_pending|].
    right; right; left. exists (ActionApproval.purpose ap). split; [congruence|]. set_solver.
Qed.

(** A sequence of transitions carries an action along. *)
Record carried (a a' : ActionRequest) : Prop := {
  carried_identity : identity a' = identity a;
  carried_plan c : ActionRequest.plan_checksum_sha256 a = Some c → ActionRequest.plan_checksum_sha256 a' = Some c;
  carried_terminal : ActionRequest.status a ∈ terminal → a' = a
}.

Lemma terminal_edge s s' : s ∈ terminal → ¬ edge s s'.
Proof.
  intros Hs [He|[[He _]|[(p & -> & _)|[[He _]|[He _]]]]]; revert Hs; try revert He.
  all: unfold terminal, working_edges, unsealed, rollbackable, cancellable, waiting; try destruct p; listed.
Qed.

Lemma steps_carried t t' i a : invariant t → steps transition t t' → action_requests t !! i = Some a →
  ∃ a', action_requests t' !! i = Some a' ∧ carried a a'.
Proof.
  intros Hinv Hsteps Hi. induction Hsteps as [t|t t1 t2 H1 IH H2]; [by exists a|].
  destruct (IH Hinv Hi) as (a1 & Ha1 & [Hid Hp Ht]).
  destruct (transition_request t1 t2 i a1) as (a2 & Ha2 & [Hid2 Hp2 Hs2]); [by eapply steps_preserved|done..|].
  exists a2. split; [done|]. split; [congruence|auto|]. intros Hterm. specialize (Ht Hterm). subst a1.
  destruct Hs2 as [->|He]; [done|]. by eapply terminal_edge in He.
Qed.
