(* ===== verification/ActionRefinement.v ===== *)
(** * The action service and worker implement the specification

    Every endpoint and every transaction of the worker, whether it returns or raises,
    moves the tables of actions by transitions of ActionSpec. *)

From S2P Require Import Prelude PyText PyVal Redaction Enums Models Kernel CanonicalJson.
From S2P Require Import Events EventLog Identity Policy RateLimit Urls ActionState ActionGateway.
From S2P Require Import ActionService ActionWorker ActionFrame ActionSpec ActionInvariant.

(** ** Operations that leave the tables of actions alone *)

Definition same_actions : relation Actions := λ s s', tables s' = tables s.

#[export] Instance same_actions_frame : Frame same_actions.
Proof. split; try done. split; [done|]. intros s1 s2 s3. unfold same_actions. congruence. Qed.
#[export] Instance same_actions_send : SendFrame same_actions.
Proof. done. Qed.

Abbreviation Quiet := (Within same_actions).

(** ** Transactions, seen from the tables

    [run m t Q]: started on the tables [t], [m] returns into [Q] of its result and of
    the tables it leaves.  What it raises needs no analysis: a transaction that raises
    is rolled back. *)

Record run {A} (m : Py Actions A) (t : ActionTables) (Q : A → ActionTables → Prop) : Prop := MkRun {
  run_wp s : tables s = t → wp m (λ a s', Q a (tables s')) (λ _ _, True) s
}.

Section Run.
Context {A B : Type}.
Implicit Types (t : ActionTables) (Q : A → ActionTables → Prop).

Lemma run_ret (a : A) t Q : Q a t → run (mret a) t Q.
Proof. intros HQ. split. intros s <-. exact HQ. Qed.

Lemma run_raise e t Q : run (raise e) t Q.
Proof. split. intros s _. exact I. Qed.

Lemma run_bind (m : Py Actions B) (k : B → Py Actions A) t Q :
  run m t (λ b t', run (k b) t' Q) → run (m ≫= k) t Q.
Proof.
  intros [Hm]. split. intros s Hs. apply wp_bind. eapply wp_mono; [by apply Hm| |done]. intros b s' [Hk]. by apply Hk.
Qed.

Lemma run_quiet (m : Py Actions A) t Q : Quiet m → (∀ a, Q a t) → run m t Q.
Proof. intros Hm HQ. split. intros s Hs. apply (wp_within same_actions); [done| |done]. intros a s' _ ->. by rewrite Hs. Qed.

Lemma run_gets (f : Actions → A) t Q : (∀ s, tables s = t → Q (f s) t) → run (gets f) t Q.
Proof. intros HQ. split. intros s Hs. apply wp_gets. rewrite Hs. by apply HQ. Qed.
End Run.

Lemma run_skip {A B} (m : Py Actions B) (k : B → Py Actions A) t (Q : A → ActionTables → Prop) :
  Quiet m → (∀ b, run (k b) t Q) → run (m ≫= k) t Q.
Proof. intros Hm Hk. by apply run_bind, run_quiet. Qed.

Lemma run_mono {A} (m : Py Actions A) t (Q Q' : A → ActionTables → Prop) :
  run m t Q → (∀ a t', Q a t' → Q' a t') → run m t Q'.
Proof. intros [Hm] HQ. split. intros s Hs. eapply wp_mono; [by apply Hm|auto|done]. Qed.

(** What a computation returns, whatever the session. *)
Definition returns {A} (m : Py Actions A) (P : A → Prop) : Prop := ∀ s, wp m (λ a _, P a) (λ _ _, True) s.

Lemma run_returns {A B} (m : Py Actions B) (k : B → Py Actions A) P t Q :
  Quiet m → returns m P → (∀ b, P b → run (k b) t Q) → run (m ≫= k) t Q.
Proof.
  intros Hm HP Hk. apply run_bind. split. intros s Hs. eapply wp_mono; [apply (wp_and _ _ _ _ _ _ (Hm s) (HP s))| |done].
  intros b s' [-> Hb]. rewrite Hs. by apply Hk.
Qed.

Lemma run_raise_if b e t (Q : () → ActionTables → Prop) : (b = false → Q () t) → run (raise_if b e) t Q.
Proof. intros HQ. split. intros s Hs. apply wp_raise_if; [done|]. rewrite Hs. done. Qed.

Lemma run_change_tables f t (Q : () → ActionTables → Prop) : Q () (f t) → run (change_tables f) t Q.
Proof. intros HQ. split. intros s <-. exact HQ. Qed.

Section Updates.
Context (t : ActionTables) (Q : () → ActionTables → Prop).

Lemma run_update_request i f a : action_requests t !! i = Some a →
  Q () (with_requests (insert i (f a)) t) → run (update_request i f) t Q.
Proof. intros Hi HQ. apply run_change_tables. unfold with_requests. by erewrite alter_found. Qed.

Lemma run_update_approval i f a : action_approvals t !! i = Some a →
  Q () (with_approvals (insert i (f a)) t) → run (update_approval i f) t Q.
Proof. intros Hi HQ. apply run_change_tables. unfold with_approvals. by erewrite alter_found. Qed.

Lemma run_update_attempt i f a : action_attempts t !! i = Some a →
  Q () (with_attempts (insert i (f a)) t) → run (update_attempt i f) t Q.
Proof. intros Hi HQ. apply run_change_tables. unfold with_attempts. by erewrite alter_found. Qed.

Lemma run_insert_row {V} (tab : Actions → gmap uuid V) (proj : ActionTables → gmap uuid V) put i row :
  (∀ s, tab s = proj (tables s)) → (proj t !! i = None → Q () (put (insert i row) t)) →
  run (insert_row tab put i row) t Q.
Proof.
  intros Htab HQ. apply run_bind, run_gets. intros s Hs. rewrite Htab, Hs.
  apply run_bind, run_raise_if. intros Hnone. case_bool_decide as Hi; [done|].
  apply run_change_tables, HQ. by apply eq_None_not_Some.
Qed.
End Updates.

Ltac skip := apply run_skip; [within|intros ?].

(** A computation whose effect on the tables is a sequence of transitions. *)
Definition evolves {A} (m : Py Actions A) : Prop := ∀ s, invariant (tables s) →
  wp m (λ _ s', steps transition (tables s) (tables s')) (λ _ s', steps transition (tables s) (tables s')) s.

Lemma savepoint_evolves {A} (m : Py Actions A) :
  (∀ t, invariant t → run m t (λ _, steps transition t)) → evolves (savepoint m).
Proof.
  intros Hm s Hs. apply wp_savepoint. eapply wp_mono; [by apply (run_wp _ _ _ (Hm _ Hs))|done|].
  intros e s' _. apply steps_refl.
Qed.

Section Endpoints.
Context `{Environment, EventContracts, JsonEncoder, ActionPlatform, BracketedHosts,
  RateLimiter (gmap string Window), WorkerSettings}.

(** The row [get] returns. *)
Lemma run_get p i w t (Q : ActionRequest → ActionTables → Prop) :
  (∀ a, action_requests t !! i = Some a → ActionRequest.id a = i →
     ActionRequest.organization_id a = Principal.organization_id p → Q a t) →
  run (get p i w) t Q.
Proof.
  intros HQ. unfold get. apply run_bind, run_gets. intros s Hs. unfold requests. rewrite Hs.
  destruct (row_by _ _ _) as [a|] eqn:Hrow; [|apply run_raise].
  apply row_by_Some in Hrow as [Hi Hid]. case_bool_decide as Ho; [|apply run_raise].
  skip. apply run_ret. by apply HQ.
Qed.

Lemma create_action_evolves p w r : evolves (create_action p w r).
Proof.
  apply savepoint_evolves. intros t _. unfold create. do 8 skip.
  apply run_bind, run_gets. intros s Hs. destruct (head _) as [found|] eqn:Hnone.
  - apply run_quiet; [within|]. intros. apply steps_refl.
  - do 2 skip. cbv zeta. remember (draft_action _ _ _ _ _ _ _) as action eqn:Ha.
    apply run_bind, (run_insert_row _ _ _ action_requests); [done|]. intros Hfree.
    do 2 skip. apply run_ret, steps_one.
    assert (ActionRequest.id action = b7 ∧ ActionRequest.status action = ActionStatus.DRAFT ∧
      ActionRequest.plan_checksum_sha256 action = None ∧
      ActionRequest.organization_id action = Principal.organization_id p ∧
      ActionRequest.idempotency_key action = CreateActionRequest.idempotency_key r) as (<- & ? & ? & Horg & Hkey) by (by subst).
    apply T_created; [done..|]. rewrite Horg, Hkey. intros i a Hi Ho Hk.
    assert (a ∈ @nil ActionRequest) as Hin; [|by apply not_elem_of_nil in Hin].
    match type of Hnone with head ?l = None => assert (l = []) as <- by (by destruct l) end.
    unfold requests. rewrite Hs. apply elem_of_select. split; [|by exists i]. by rewrite !bool_decide_true.
Qed.

Lemma cancelled_pending i now (m : gmap uuid ActionApproval) j :
  option_Forall2 (cancelled_with i) (m !! j) ((cancel_pending i now <$> m) !! j).
Proof.
  rewrite lookup_fmap. destruct (m !! j) as [ap|]; simpl; constructor.
  unfold cancelled_with, cancel_pending. destruct (_ && _) eqn:Hb; [|done]. split_bool.
  split_and!; [by destruct ap|done|by destruct ap].
Qed.

Lemma cancel_action_evolves p i : evolves (cancel_action p i).
Proof.
  apply savepoint_evolves. intros t _. unfold cancel. apply run_bind, run_get. intros a Ha Hid Ho.
  skip. apply run_bind, run_raise_if. intros Hst. skip. apply run_bind.
  eapply run_update_request; [done|]. apply run_bind, run_change_tables. do 2 skip.
  apply run_ret, steps_one. split_bool.
  apply (T_cancelled t i a (with_cancellation b0 a) (cancel_pending i b0 <$> action_approvals t)).
  - done.
  - done.
  - split_and!; by destruct a.
  - apply cancelled_pending.
Qed.

Lemma run_create_approval a purpose reason ttl t (Q : ActionApproval → ActionTables → Prop) :
  (∀ ap, requested a purpose ap → action_approvals t !! ActionApproval.id ap = None →
     Q ap (with_approvals (insert (ActionApproval.id ap) ap) t)) →
  run (_create_approval a purpose reason ttl) t Q.
Proof.
  intros HQ. unfold _create_approval. destruct (ActionRequest.plan_checksum_sha256 a) as [c|] eqn:Hc; [|apply run_raise].
  do 4 skip. cbv zeta. remember (ActionApproval.Make _ _ _ _ _ _ _ _ _ _ _ _ _ _ _) as ap eqn:Hap.
  assert (ActionApproval.id ap = b1 ∧ requested a purpose ap) as [<- Hreq] by (subst; by repeat split).
  clear Hap. apply run_bind, (run_insert_row _ _ _ action_approvals); [done|]. intros Hfree. skip. by apply run_ret, HQ.
Qed.

Lemma request_action_rollback_evolves p i reason ttl : evolves (request_action_rollback p i reason ttl).
Proof.
  apply savepoint_evolves. intros t _. unfold request_rollback. skip. apply run_bind, run_get. intros a Ha Hid Ho.
  skip. apply run_bind, run_raise_if. intros Hst. split_bool.
  apply run_bind, run_create_approval. intros ap Hreq Hfree. apply run_bind.
  eapply run_update_request; [exact Ha|]. do 2 skip. apply run_ret, steps_one.
  apply (T_rollback_requested t i a); [done|done|split_and!; by destruct a|done|done].
Qed.

Lemma decision_moved purpose approve now a :
  moved a (decided_action purpose approve now a) ((if approve then granted else refused) purpose).
Proof. destruct purpose, approve; split_and!; by destruct a. Qed.

(** [require] of a permission returns only to those who have it. *)
Lemma run_require {A} p permission t (k : () → Py Actions A) Q :
  (can p permission = true → run (k ()) t Q) → run (_require p permission ≫= k) t Q.
Proof. intros Hk. apply run_bind, run_raise_if. intros Hp. split_bool. by apply Hk. Qed.

Lemma decide_evolves p j approve reason : evolves (_decide p j approve reason).
Proof.
  intros s Hinv. unfold _decide. apply wp_try_catch.
  cut (evolves (savepoint (decide p j approve reason))).
  { intros Hev. eapply wp_mono; [by apply Hev|done|]. intros e s' Hs. by apply wp_raise. }
  clear s Hinv. apply savepoint_evolves. intros t Hinv. unfold decide. apply run_require. intros Hcan.
  apply run_bind, run_gets. intros s Hs. unfold approvals. rewrite Hs.
  destruct (row_by _ _ _) as [ap|] eqn:Hrow; [|apply run_raise]. apply row_by_Some in Hrow as [Hj Hid].
  cbv zeta. destruct (bool_decide (ActionApproval.organization_id ap = _)) eqn:Ho; [|apply run_raise]. cbn [negb].
  apply run_bind, run_raise_if. intros Hpend. split_bool.
  apply run_bind, run_get. intros a Ha Hia Hoa. skip. apply run_bind.
  destruct (_ <=? _)%Z.
  { eapply run_bind, run_update_approval; [exact Hj|]. apply run_bind. eapply run_update_request; [exact Ha|].
    skip. apply run_raise. }
  apply run_ret. apply run_bind, run_raise_if. intros Hself. apply run_bind, run_raise_if. intros Hplan. split_bool.
  apply run_bind. eapply run_update_approval; [exact Hj|]. apply run_bind. eapply run_update_request; [exact Ha|].
  do 2 skip. apply run_ret, steps_one.
  eapply (T_decided t j ap _ a _ p approve); [done|by destruct approve, ap|by destruct ap|done..|apply decision_moved].
Qed.

Lemma preflight_moved a code message details now : ActionRequest.status a ∈ unsealed →
  ∀ t i, action_requests t !! i = Some a →
  transition t (with_requests (insert i (with_preflight_failed code message details now a)) t).
Proof.
  intros Hst t i Ha. apply (T_moved t i a _ ActionStatus.PREFLIGHT_FAILED); [done|split_and!; by destruct a|].
  unfold unsealed, working_edges in *. set_unfold. destruct Hst as [->|[->|[]]]; auto.
Qed.

(** What a preflight that returns has found: the plan of the action's own columns. *)
Definition planned (a : ActionRequest) (f : Preflight) : Prop :=
  plan_spec f = plan_spec_of a (execute f) (rollback_with f).

Lemma checks_planned a : returns (preflight_checks a) (planned a).
Proof.
  intros s. unfold preflight_checks. do 3 (apply wp_bind, (wp_within same_actions); [within|intros ? ? _ _|done]).
  destruct (_CONTRACTS _) as [[e r]|]; [|done].
  do 3 (apply wp_bind, (wp_within same_actions); [within|intros ? ? _ _|done]). cbv zeta.
  do 2 (apply wp_bind, (wp_within same_actions); [within|intros ? ? _ _|done]). by apply wp_ret.
Qed.

(** The checks with their handler. *)
Definition checked (a : ActionRequest) : Py Actions (string * string * dict + Preflight) :=
  try_catch (found ← preflight_checks a; mret (inr found))
    (λ e, match e with
          | ObsionError code message _ details => Some (mret (inl (code, message, details)))
          | PyError _ => None
          end).

Lemma checked_quiet a : Quiet (checked a).
Proof. apply try_catch_within; [within|]. intros [] k; [intros [= <-]; within|done]. Qed.

Lemma checked_planned a : returns (checked a) (λ r, ∀ f, r = inr f → planned a f).
Proof.
  intros s1. apply wp_try_catch, wp_bind. eapply wp_mono; [apply checks_planned|..].
  - intros f s2 Hf. apply wp_ret. by intros ? [= <-].
  - intros [] s2 _; [|done]. by apply wp_ret.
Qed.

Lemma sealed_plan a i f org who at_ pid : ActionRequest.id a = i → planned a f →
  seals (ActionPlan.Make pid org i (plan_spec f) (action_plan_checksum (plan_spec f)) who at_) a.
Proof. unfold planned, seals. cbn. intros <- ->. repeat split. Qed.

Lemma passed_identity c e r now a : identity (with_preflight_passed c e r now a) = identity a ∧
  ActionRequest.status (with_preflight_passed c e r now a) = ActionStatus.WAITING_APPROVAL ∧
  ActionRequest.plan_checksum_sha256 (with_preflight_passed c e r now a) = Some c.
Proof. by destruct a. Qed.

Lemma preflight_action_evolves p i reason ttl : evolves (preflight_action p i reason ttl).
Proof.
  apply savepoint_evolves. intros t _. unfold preflight. skip. apply run_bind, run_get. intros a Ha Hid Ho.
  apply run_bind, run_raise_if. intros Hst. split_bool. apply run_bind, run_gets. intros s Hs. rewrite Hs.
  apply run_bind, run_raise_if. intros Hnone. split_bool. apply eq_None_not_Some in Hnone.
  apply (run_returns _ _ (λ r, ∀ f, r = inr f → planned a f)); [apply checked_quiet|apply checked_planned|].
  intros [[[code message] details]|found] Hfound.
  - skip. cbv zeta. apply run_bind. eapply run_update_request; [exact Ha|]. do 2 skip. apply run_ret, steps_one.
    by apply preflight_moved.
  - specialize (Hfound _ eq_refl). skip. cbv zeta.
    apply run_bind, (run_insert_row _ _ _ action_plans); [done|]. intros Hfree.
    apply run_bind. eapply run_update_request; [exact Ha|].
    destruct (passed_identity (action_plan_checksum (plan_spec found)) (capability_name (execute found))
      (capability_name (rollback_with found)) (checked_at found) a) as (? & ? & ?).
    remember (with_preflight_passed _ _ _ _ a) as a' eqn:Ha'. clear Ha'.
    apply run_bind, run_create_approval. intros ap Hreq Hfree'. do 2 skip. apply run_ret, steps_one.
    eapply (T_sealed t i a a' (ActionPlan.Make _ _ _ _ _ _ _)); try done. by apply sealed_plan.
Qed.

(** ** The worker *)

Lemma in_progress_purpose a : in_progress a = true →
  ActionRequest.status a =
    match purpose_of a with ActionApprovalPurpose.EXECUTE => ActionStatus.EXECUTING | _ => ActionStatus.ROLLING_BACK end.
Proof.
  unfold in_progress, purpose_of. intros Hin. split_bool. set_unfold. destruct Hin as [Hs|[Hs|[]]]; by rewrite Hs.
Qed.

Lemma run_complete a output t : action_requests t !! ActionRequest.id a = Some a → in_progress a = true →
  run (_complete a (purpose_of a) output) t (λ _, transition t).
Proof.
  intros Ha Hin%in_progress_purpose. unfold _complete. skip. cbv zeta. apply run_bind.
  eapply run_update_request; [exact Ha|].
  assert (transition t (with_requests (insert (ActionRequest.id a) (with_completion (purpose_of a) output b a)) t)).
  { apply (T_moved t _ a _ (ActionRequest.status (with_completion (purpose_of a) output b a))); [done|split_and!; by destruct a|].
    rewrite Hin. unfold working_edges. destruct (purpose_of a), a; cbn; set_solver. }
  destruct (purpose_of a); do 2 skip; by apply run_ret.
Qed.

Lemma run_fail a code message t : action_requests t !! ActionRequest.id a = Some a → in_progress a = true →
  run (_fail a code message) t (λ _, transition t).
Proof.
  intros Ha Hin. unfold _fail. skip. cbv zeta. apply run_bind. eapply run_update_request; [exact Ha|].
  do 2 skip. apply run_ret.
  apply (T_moved t _ a _ (if rolling_back a then ActionStatus.ROLLBACK_FAILED else ActionStatus.FAILED)); [done|split_and!; by destruct a|].
  apply in_progress_purpose in Hin. unfold rolling_back. rewrite Hin. unfold working_edges.
  destruct (purpose_of a); cbn; set_solver.
Qed.

Lemma fail_after_exception_evolves i code message : evolves (_fail_after_exception i code message).
Proof.
  apply savepoint_evolves. intros t _. apply run_bind, run_gets. intros s Hs. unfold requests. rewrite Hs.
  destruct (row_by _ _ _) as [a|] eqn:Hrow; [|apply run_ret, steps_refl]. apply row_by_Some in Hrow as [Ha <-].
  destruct (in_progress a) eqn:Hin; [|apply run_ret, steps_refl].
  eapply run_mono; [by apply run_fail|]. intros ? t' ?. by apply steps_one.
Qed.

Lemma run_expire t : invariant t → run _expire_one_approval t (λ _, steps transition t).
Proof.
  intros Hinv. unfold _expire_one_approval. skip. apply run_bind, run_gets. intros s Hs. unfold approvals. rewrite Hs.
  destruct (head _) as [ap|] eqn:Hhead; [|apply run_ret, steps_refl].
  apply head_elem in Hhead. rewrite elem_of_order_by, elem_of_select in Hhead. destruct Hhead as [Hdue [j Hj]]. split_bool.
  pose proof (inv_approval_key t Hinv _ _ Hj) as <-. cbv zeta.
  apply run_bind, run_gets. intros s1 Hs1. unfold requests. rewrite Hs1. apply run_bind.
  eapply run_update_approval; [exact Hj|].
  assert (resolved ap (with_approval_status ApprovalStatus.EXPIRED b ap) ApprovalStatus.EXPIRED) as Hres
    by (split_and!; [by destruct ap|done|by destruct ap]).
  destruct (inv_pending t Hinv _ _ Hj) as (a & Ha & _); [done|].
  destruct (row_by _ _ _) as [a'|] eqn:Hrow.
  - apply row_by_Some in Hrow as [Ha' Hid]. assert (a' = a) as -> by congruence.
    apply run_bind. eapply run_update_request; [exact Ha|]. apply run_quiet; [within|]. intros _. apply steps_one.
    eapply (T_expired t _ ap _ a); [done..|]. destruct (ActionApproval.purpose ap); split_and!; by destruct a.
  - exfalso. pose proof (inv_request_key t Hinv _ _ Ha) as Hid. assert (row_by ActionRequest.id (action_requests t)
      (ActionApproval.action_request_id ap) = Some a) as Heq by (by apply row_by_Some). congruence.
Qed.

Lemma claim_moved owner now lease a : ActionRequest.status a ∈ _CLAIMABLE →
  moved a (with_claim owner now lease a) (ActionRequest.status (with_claim owner now lease a)) ∧
  (ActionRequest.status a, ActionRequest.status (with_claim owner now lease a)) ∈ working_edges.
Proof.
  intros Hin. split; [split_and!; by destruct a|].
  change (ActionRequest.status (with_claim owner now lease a)) with
    (if bool_decide (ActionRequest.status a ∈ [ActionStatus.APPROVED; ActionStatus.EXECUTING])
     then ActionStatus.EXECUTING else ActionStatus.ROLLING_BACK).
  revert Hin. generalize (ActionRequest.status a). intros st Hin. unfold _CLAIMABLE, working_edges in *.
  set_unfold in Hin. destruct Hin as [Hst|[Hst|[Hst|[Hst|[]]]]]; rewrite Hst; cbn; set_solver.
Qed.

Lemma evolves_skip {A B} (m : Py Actions A) (k : A → Py Actions B) :
  Quiet m → (∀ a, evolves (k a)) → evolves (m ≫= k).
Proof.
  intros Hm Hk s Hinv. apply wp_bind, (wp_within same_actions); [done| |by intros e s' ->; apply steps_refl].
  intros a s' _ Hs. specialize (Hk a s'). rewrite Hs in Hk. by apply Hk.
Qed.

Lemma claim_evolves : evolves _claim.
Proof.
  unfold _claim. apply evolves_skip; [within|]. intros now. apply savepoint_evolves. intros t Hinv.
  apply run_bind. eapply run_mono; [by apply run_expire|]. intros [] t' Ht'. cbv beta.
  assert (invariant t') as Hinv' by (by eapply steps_preserved).
  apply run_bind, run_gets. intros s Hs. unfold requests. rewrite Hs.
  destruct (head _) as [a|] eqn:Hhead; [|by apply run_ret].
  apply head_elem in Hhead. rewrite elem_of_order_by, elem_of_select in Hhead. destruct Hhead as [Hc [i Hi]].
  pose proof (inv_request_key t' Hinv' _ _ Hi) as <-. unfold claimable in Hc. split_bool. cbv zeta.
  apply run_bind. eapply run_update_request; [exact Hi|]. skip. apply run_ret. eapply steps_snoc; [done|].
  edestruct claim_moved as [Hm He]; [done|]. by eapply T_moved.
Qed.

Lemma run_ensure a purpose ap v c payload t (Q : ActionAttempt → ActionTables → Prop) :
  invariant t → action_requests t !! ActionRequest.id a = Some a →
  (∀ b t', steps transition t t' → action_requests t' = action_requests t →
     action_attempts t' !! ActionAttempt.id b = Some b → Q b t') →
  run (ensure_attempt a purpose ap v c payload) t Q.
Proof.
  intros Hinv Ha HQ. unfold ensure_attempt. apply run_bind, run_gets. intros s Hs. rewrite Hs.
  destruct (first_attempt t a purpose) as [b|] eqn:Hfirst; unfold first_attempt in Hfirst.
  - apply head_elem in Hfirst. rewrite elem_of_select in Hfirst. destruct Hfirst as [_ [j Hj]].
    skip. apply run_ret. apply HQ; [apply steps_refl|done|]. by rewrite (inv_attempt_key t Hinv _ _ Hj).
  - skip. cbv zeta. apply run_bind, (run_insert_row _ _ _ action_attempts); [done|]. intros Hfree. apply run_ret.
    apply HQ; [|done|by apply lookup_insert_eq]. apply steps_one, T_attempted; [done|by split; [|split; [|exists a]]|].
    cbn. intros j b0 Hj Hact Hpur. destruct (inv_attempted t Hinv _ _ Hj) as (Hord & _ & a0 & Ha0 & Horg).
    assert (b0 ∈ @nil ActionAttempt) as Hin; [|by apply not_elem_of_nil in Hin].
    match type of Hfirst with head ?l = None => assert (l = []) as <- by (by destruct l) end.
    apply elem_of_select. split; [|by exists j]. rewrite Hact in Ha0. assert (a0 = a) as -> by congruence.
    rewrite Hord, Hpur, Hact, <-Horg. by rewrite !bool_decide_true.
Qed.

(** Only attempts change, and attempt [i] is still there. *)
Record attempting (i : uuid) (t t' : ActionTables) : Prop := {
  attempting_steps : steps transition t t';
  attempting_requests : action_requests t' = action_requests t;
  attempting_row : is_Some (action_attempts t' !! i)
}.

Lemma attempting_update i t t' f (Q : () → ActionTables → Prop) : attempting i t t' →
  (∀ b, attempt_identity (f b) = attempt_identity b) →
  (∀ t'', attempting i t t'' → Q () t'') → run (update_attempt i f) t' Q.
Proof.
  intros [Hsteps Hreq [b Hb]] Hf HQ. eapply run_update_attempt; [exact Hb|]. apply HQ. split; [|done|].
  - eapply steps_snoc; [done|]. by eapply T_attempt_updated.
  - cbn. rewrite lookup_insert_eq. by eexists.
Qed.

Lemma run_gateway q t t' (Q : ActionGatewayResult → ActionTables → Prop) :
  attempting (ActionAttempt.id (ActionGatewayRequest.attempt q)) t t' →
  (∀ r t'', attempting (ActionAttempt.id (ActionGatewayRequest.attempt q)) t t'' → Q r t'') →
  run (ActionGateway._invoke q) t' Q.
Proof.
  intros Ht HQ. unfold ActionGateway._invoke. do 3 skip. cbv zeta. apply run_bind.
  eapply attempting_update; [exact Ht|by intros []|]. intros t2 Ht2. skip.
  destruct (bool_decide _); (apply run_quiet; [within|intros r; by apply HQ]).
Qed.

Lemma run_attempt_steps a principal plan ap b payload now t t' : in_progress a = true →
  attempting (ActionAttempt.id b) t t' → action_requests t !! ActionRequest.id a = Some a →
  run (run_attempt a (purpose_of a) principal plan ap b payload now) t' (λ _, steps transition t).
Proof.
  intros Hin Ht Ha. unfold run_attempt. apply run_bind. eapply attempting_update; [exact Ht|by intros []|].
  intros t2 Ht2. apply run_bind, (run_gateway _ t t2); [by destruct b|]. intros r t3 Ht3. skip. apply run_bind.
  eapply (attempting_update _ t); [by destruct b| |].
  { intros []. unfold with_result. by destruct (ActionGatewayResult.status r). }
  intros t4 [Hsteps Hreq _]. rewrite <-Hreq in Ha.
  destruct (ActionGatewayResult.status r); (eapply run_mono;
    [first [simple apply run_complete | simple apply run_fail]; assumption|]); intros; by eapply steps_snoc.
Qed.

Lemma invoke_evolves i : evolves (_invoke i).
Proof.
  apply savepoint_evolves. intros t Hinv. apply run_bind, run_gets. intros s Hs. unfold requests. rewrite Hs.
  destruct (row_by _ _ _) as [a|] eqn:Hrow; [|apply run_ret, steps_refl]. apply row_by_Some in Hrow as [Ha <-].
  destruct (in_progress a) eqn:Hin; [|apply run_ret, steps_refl]. cbn [negb]. apply run_skip; [within|]. intros now.
  destruct (match ActionRequest.deadline_at a with None => _ | Some _ => _ end).
  { eapply run_mono; [by apply run_fail|]. intros. by apply steps_one. }
  cbv zeta. apply run_skip; [within|]. intros [[principal plan] ap]. apply run_skip; [within|]. intros [[v c] payload].
  apply run_bind, run_ensure; [done..|]. intros b t' Hsteps Hreq Hb.
  destruct (bool_decide _).
  - eapply run_mono; [apply run_complete; [by rewrite Hreq|done]|]. intros. by eapply steps_snoc.
  - apply run_attempt_steps; [done|by split|done].
Qed.

Lemma execute_evolves i : evolves (_execute i).
Proof.
  intros s Hinv. unfold _execute. apply wp_try_catch. eapply wp_mono; [by apply invoke_evolves|done|].
  intros e s' Hs. cbv beta in Hs. assert (invariant (tables s')) as Hinv' by (by eapply steps_preserved).
  destruct e; (eapply wp_mono; [by apply fail_after_exception_evolves|..]); intros; by eapply steps_trans.
Qed.

Lemma evolves_final {A} (m : Py Actions A) s : evolves m → invariant (tables s) →
  steps transition (tables s) (tables (final (m s))).
Proof. intros Hm Hinv. specialize (Hm s Hinv). unfold wp in Hm. by destruct (m s). Qed.

End Endpoints.
