(* ===== verification/ActionPosts.v ===== *)
(** * What reaches the outside world

    A call sends at most one request to a provider, and only the execution of a
    governed action does: the action is under way before its deadline, its owner still
    holds the permissions, its sealed plan is the approved one, the capability and the
    endpoint are those the plan pins, and the policies do not deny it. *)

From S2P Require Import Prelude PyText PyVal Redaction Enums Models Kernel CanonicalJson.
From S2P Require Import Events EventLog Identity Policy RateLimit Urls ActionState ActionGateway.
From S2P Require Import ActionService ActionWorker ActionFrame ActionSpec ActionInvariant.
From S2P Require Import ActionRefinement.

(** Nothing is sent, the registry stays, and the shared tables only record. *)
Record calmly (s s' : Actions) : Prop := {
  calm_posts : posts s' = posts s;
  calm_registry : registry s' = registry s;
  calm_recorded : recorded (shared s) (shared s')
}.

#[export] Instance calmly_frame : Frame calmly.
Proof.
  split; try done.
  - split; [done|]. intros s1 s2 s3 [] []. split; [congruence..|by etransitivity].
  - intros s s' []. split; [done..|]. apply rollback_recorded.
Qed.
#[export] Instance calmly_tables : TableFrame calmly.
Proof. done. Qed.

Abbreviation Calm := (Within calmly).

(** At most one request is sent, one that satisfies [P]. *)
Definition sends (P : Post → Prop) (s s' : Actions) : Prop :=
  posts s' = posts s ∨ ∃ post, posts s' = (posts s ++ [post])%list ∧ P post.

Lemma sends_mono (P P' : Post → Prop) s s' : (∀ post, P post → P' post) → sends P s s' → sends P' s s'.
Proof. intros HP [?|(post & ? & ?)]; [by left|right; eauto]. Qed.

Lemma sends_calm P s s1 s2 : calmly s s1 → sends P s1 s2 → sends P s s2.
Proof. intros [Hp _ _]. unfold sends. by rewrite Hp. Qed.

Lemma calm_sends P s s' : calmly s s' → sends P s s'.
Proof. intros [? _ _]. by left. Qed.

Lemma sends_then P s s1 s2 : sends P s s1 → calmly s1 s2 → sends P s s2.
Proof. intros Hs [Hp _ _]. unfold sends in *. by rewrite Hp. Qed.

(** A computation that sends at most one request, satisfying [P]. *)
Definition sending (P : Post → Prop) {A} (m : Py Actions A) (s : Actions) : Prop :=
  wp m (λ _, sends P s) (λ _, sends P s) s.

Section Rules.
Context {A B : Type} (P : Post → Prop).

Lemma sending_calm (m : Py Actions A) s : Calm m → sending P m s.
Proof. intros Hm. unfold sending. eapply wp_mono; [apply Hm|..]; intros; cbv beta in *; by eauto using calm_sends. Qed.

(** Run a calm prefix. *)
Lemma sending_skip (m : Py Actions B) (k : B → Py Actions A) s :
  Calm m → (∀ b s', m s = Ok b s' → calmly s s' → sending P (k b) s') → sending P (m ≫= k) s.
Proof.
  intros Hm Hk. apply wp_bind, (wp_within calmly); [done| |intros; cbv beta in *; by eauto using calm_sends].
  intros b s' Hok Hs. eapply wp_mono; [exact (Hk b s' Hok Hs)|..]; intros; cbv beta in *; by eauto using sends_calm.
Qed.

Lemma sending_bind (m : Py Actions B) (k : B → Py Actions A) s :
  wp m (λ b s', calmly s s' ∧ sending P (k b) s') (λ _, calmly s) s → sending P (m ≫= k) s.
Proof.
  intros Hm. apply wp_bind. eapply wp_mono; [exact Hm|..].
  - intros b s' [Hs Hk]. eapply wp_mono; [exact Hk|..]; intros; cbv beta in *; by eauto using sends_calm.
  - intros e s' Hs. by apply calm_sends.
Qed.

(** A calm rest sends nothing more. *)
Lemma sending_then (m : Py Actions B) (k : B → Py Actions A) s :
  sending P m s → (∀ b, Calm (k b)) → sending P (m ≫= k) s.
Proof.
  intros Hm Hk. apply wp_bind. eapply wp_mono; [exact Hm| |done]. intros b s' Hs.
  eapply wp_mono; [apply Hk|..]; intros; cbv beta in *; by eauto using sends_then.
Qed.

Lemma sending_catch (m : Py Actions A) h s :
  sending P m s → (∀ e k, h e = Some k → Calm k) → sending P (try_catch m h) s.
Proof.
  intros Hm Hh. apply wp_try_catch. eapply wp_mono; [exact Hm|done|]. intros e s' Hs. cbv beta in *.
  destruct (h e) as [k|] eqn:He; [|done].
  eapply wp_mono; [by eapply Hh|..]; intros; cbv beta in *; by eauto using sends_then.
Qed.

Lemma sending_savepoint (m : Py Actions A) s : sending P m s → sending P (savepoint m) s.
Proof. intros Hm. apply wp_savepoint. eapply wp_mono; [exact Hm|done|]. intros e s' Hs. exact Hs. Qed.

Lemma sending_mono (P' : Post → Prop) (m : Py Actions A) s :
  (∀ post, P post → P' post) → sending P m s → sending P' m s.
Proof. intros HP Hm. eapply wp_mono; [exact Hm|..]; intros; cbv beta in *; by eauto using sends_mono. Qed.
End Rules.

Ltac calm := apply sending_skip; [within|intros ? ? ? ?].

Section Gateway.
Context `{Environment, EventContracts, JsonEncoder, ActionPlatform, BracketedHosts,
  RateLimiter (gmap string Window), WorkerSettings}.

(** The request the gateway makes for [q] with the capability [r]. *)
Record posted (q : ActionGatewayRequest) (r : ResolvedActionCapability) (post : Post) : Prop := {
  posted_url : Connector.endpoint (ResolvedActionCapability.connector r) = Some (post_url post);
  posted_key : post_idempotency_key post = ActionAttempt.idempotency_key (ActionGatewayRequest.attempt q);
  posted_action : post_action_id post = ActionRequest.id (ActionGatewayRequest.action q);
  posted_purpose : post_purpose post = ActionGatewayRequest.purpose q;
  posted_payload : post_payload post = ActionGatewayRequest.payload q
}.

Lemma post_sending r q s : sending (posted q r) (_post r q) s.
Proof.
  unfold _post. destruct (Connector.endpoint _) as [endpoint|] eqn:He; [|apply sending_calm; within].
  do 2 calm. apply sending_then; [|intros reply; unfold too_large; within].
  right. eexists. split; [done|]. by split.
Qed.

Lemma invoke_allowed_sending q r d s : sending (posted q r) (invoke_allowed q r d) s.
Proof.
  unfold invoke_allowed. destruct (schema_violation _ _); [apply sending_calm; within|].
  calm. destruct (negb _); [apply sending_calm; within|]. do 2 calm. apply sending_catch.
  - unfold call_provider. apply sending_then; [apply post_sending|]. intros output. within.
  - intros e k [= <-]. within.
Qed.

(** What an action may use: an L3 capability of idempotent HTTP writes, outside
    production, for a principal who holds its permission, granted by the connector. *)
Definition contract (r : ResolvedActionCapability) (p : Principal) (environment : string) : Prop :=
  let v := ResolvedActionCapability.version r in
  environment ∈ ["development"; "staging"] ∧
  CapabilityVersion.risk_level v = RiskLevel.L3 ∧
  CapabilityVersion.side_effect v = SideEffect.IDEMPOTENT_WRITE ∧
  CapabilityVersion.transport v = CapabilityTransport.HTTP ∧
  can p "action.execute" = true ∧ can p (CapabilityVersion.permission_action v) = true ∧
  existsb (py_eq (VStr (CapabilityVersion.permission_action v)))
    (Connector.declared_grants (ResolvedActionCapability.connector r)) = true.

Lemma wp_validate_contract r p e (s : Actions) :
  wp (_validate_contract r p e) (λ _ s', s' = s ∧ contract r p e) (λ _ s', s' = s ∧ ¬ contract r p e) s.
Proof.
  unfold _validate_contract, contract. cbv zeta.
  apply wp_bind, wp_raise_if; intros Hc1; split_bool; [naive_solver|].
  apply wp_bind, wp_raise_if; intros Hc2; [|split_bool].
  { split; [done|]. intros (? & Hr & Hs & Ht & _). by rewrite Hr, Hs, Ht in Hc2. }
  apply wp_bind, wp_raise_if; intros Hc3; [|split_bool].
  { split; [done|]. intros (? & ? & ? & ? & Ha & Hb & _). by rewrite Ha, Hb in Hc3. }
  apply wp_raise_if; intros Hc4; split_bool; [|done]. split; [done|]. intros (? & ? & ? & ? & ? & ? & ?). congruence.
Qed.

(** The endpoint's host and port are on the connector's allowlist, and it is reached
    over TLS outside development. *)
Definition egress (c : Connector) : Prop :=
  ∃ endpoint parsed authority allowed,
    Connector.endpoint c = Some endpoint ∧ urlparse endpoint = Some parsed ∧
    scheme parsed ∈ ["http"; "https"] ∧ username parsed = None ∧ password parsed = None ∧
    _endpoint_authority endpoint "https" = Some authority ∧
    mapM (λ item, _endpoint_authority item (scheme parsed)) (string_items (Connector.allowed_egress c)) = Some allowed ∧
    authority ∈ allowed ∧
    (scheme parsed = "https" ∨ Connector.environment c = "development").

Lemma wp_validate_endpoint c (s : Actions) :
  wp (_validate_endpoint c) (λ _ s', s' = s ∧ egress c) (λ _ s', s' = s) s.
Proof.
  unfold _validate_endpoint. destruct (Connector.endpoint c) as [endpoint|] eqn:He; [|done].
  destruct endpoint as [|x endpoint]; [done|]. remember (String x endpoint) as ep.
  destruct (urlparse ep) as [parsed|] eqn:Hp; [|done].
  apply wp_bind, wp_raise_if; [done|]. intros Hc1. split_bool.
  destruct (_endpoint_authority ep "https") as [authority|] eqn:Hau; [|done].
  destruct (mapM _ _) as [allowed|] eqn:Hal; [|done].
  apply wp_bind, wp_raise_if; [done|]. intros Hc2. apply wp_raise_if; [done|]. intros Hc3. split_bool.
  split; [done|]. exists ep, parsed, authority, allowed. split_and!; try done.
  - by apply eq_None_not_Some.
  - by apply eq_None_not_Some.
  - apply andb_false_iff in Hc3 as [Hc3|Hc3]; split_bool; auto.
Qed.

(** The capability the gateway resolves is the one the attempt is pinned to. *)
Record pinned (g : Registry) (q : ActionGatewayRequest) (r : ResolvedActionCapability) : Prop := {
  pinned_joined : r ∈ joined g;
  pinned_usable : usable (Principal.organization_id (ActionGatewayRequest.principal q))
                    (ActionRequest.environment (ActionGatewayRequest.action q)) r = true;
  pinned_version : CapabilityVersion.id (ResolvedActionCapability.version r) =
                   ActionAttempt.capability_version_id (ActionGatewayRequest.attempt q);
  pinned_connector : CapabilityBinding.connector_id (ResolvedActionCapability.binding r) =
                     ActionAttempt.connector_id (ActionGatewayRequest.attempt q);
  pinned_contract : contract r (ActionGatewayRequest.principal q)
                      (ActionRequest.environment (ActionGatewayRequest.action q));
  pinned_egress : egress (ResolvedActionCapability.connector r)
}.

Lemma wp_resolve_pinned q s : wp (_resolve_pinned q) (λ r s', s' = s ∧ pinned (registry s) q r) (λ _ s', s' = s) s.
Proof.
  unfold _resolve_pinned. apply wp_bind, wp_gets. cbv zeta.
  destruct (filter _ _) as [|r [|]] eqn:Hf; [done| |done].
  assert (r ∈ [r]) as Hr by left. rewrite <-Hf in Hr. apply list_elem_of_filter in Hr as [(? & ? & ?) ?].
  apply wp_bind. eapply wp_mono; [apply wp_validate_contract| |by intros ? ? []]. intros [] ? [-> ?].
  apply wp_bind. eapply wp_mono; [apply wp_validate_endpoint| |done]. intros [] ? [-> ?]. apply wp_ret. by split.
Qed.

(** The policy engine lets the request pass, over the policies of the session. *)
Definition policed (k : Kernel) (q : ActionGatewayRequest) (r : ResolvedActionCapability) : Prop :=
  ∃ k', recorded k k' ∧ action_permitted (policy_input q r true) k'.

Definition gateway_post (s : Actions) (q : ActionGatewayRequest) (post : Post) : Prop :=
  ∃ r, pinned (registry s) q r ∧ policed (shared s) q r ∧ posted q r post.

Lemma gateway_sending q s : sending (gateway_post s q) (ActionGateway._invoke q) s.
Proof.
  unfold ActionGateway._invoke. apply sending_bind. eapply wp_mono; [apply wp_resolve_pinned| |by intros ? ? ->].
  intros r ? [-> Hr]. split; [done|]. apply sending_skip; [within|]. intros valid s1 _ Hs1.
  apply sending_bind, wp_in_kernel. change (kernel s1) with (shared s1).
  pose proof (recording (m := evaluate_action (policy_input q r valid)) (shared s1)) as Hrec.
  eapply wp_mono; [refine (wp_and _ _ _ _ _ _ Hrec (wp_evaluate_action _ _ (λ d _, Decision.effect d = effect_of (resolve_action (policy_input q r valid) (shared s1))) (λ _ _, True) _ _)); done|..].
  2: { intros e k [Hk _]. by apply frame_kernel. }
  intros d k [Hk Hd]. split; [by apply frame_kernel|]. cbv zeta. do 2 calm.
  case_bool_decide as Hdeny; [apply sending_calm; within|].
  destruct (resolve_action_effect (policy_input q r valid) (shared s1)) as [[_ Hperm]|[He _]]; [|congruence].
  assert (valid = true) as -> by (destruct Hperm as (_ & _ & _ & Hv & _); exact Hv).
  eapply sending_mono; [|apply invoke_allowed_sending]. intros post Hpost. exists r. split; [done|]. split; [|done].
  exists (shared s1). split; [apply Hs1|done].
Qed.

(** ** The worker *)

(** The next reading of the clock. *)
Definition reading (k : Kernel) : Z := match readings k with [] => clock k | t :: _ => t end.

Record authorized (s : Actions) (a : ActionRequest) (purpose : ActionApprovalPurpose) (now : Z)
    (p : Principal) (plan : ActionPlan) (ap : ActionApproval) : Prop := {
  authorized_owner : load_principal_by_id (ActionRequest.organization_id a) (ActionRequest.owner_id a) (shared s) = Ok p (shared s);
  authorized_permission : can p "action.execute" = true;
  authorized_workspace : ∃ w, require_workspace_access p (ActionRequest.workspace_id a) true (shared s) = Ok w (shared s);
  authorized_plan : plan_of (tables s) (ActionRequest.id a) = Some plan;
  authorized_sealed : ActionRequest.plan_checksum_sha256 a = Some (ActionPlan.checksum_sha256 plan);
  authorized_approval : current_approval (tables s) a purpose (ActionPlan.checksum_sha256 plan) = Some ap;
  authorized_expiry : (now < ActionApproval.expires_at ap)%Z
}.

Lemma wp_authorize a purpose now s :
  wp (authorize_attempt a purpose now) (λ '(p, plan, ap) s', s' = s ∧ authorized s a purpose now p plan ap)
    (λ _ s', s' = s) s.
Proof.
  unfold authorize_attempt. apply wp_bind, (wp_read (load_principal_by_id _ _)), wp_pure; [apply _| |done].
  intros p Hp. apply wp_bind, wp_raise_if; [done|]. intros Hcan. split_bool.
  apply wp_bind, (wp_read (require_workspace_access _ _ _)), wp_pure; [apply _| |done]. intros w Hw.
  apply wp_bind, wp_gets. destruct (plan_of _ _) as [plan|] eqn:Hplan; [|done].
  apply wp_bind, wp_raise_if; [done|]. intros Hsealed. split_bool.
  destruct (current_approval _ _ _ _) as [ap|] eqn:Hap; [|done].
  apply wp_bind, wp_raise_if; [done|]. intros Hexp%Z.leb_gt. apply wp_ret. split; [done|]. split; try done. by exists w.
Qed.

(** What a plan prescribes for a purpose. *)
Definition prescribes (a : ActionRequest) (plan : ActionPlan) (purpose : ActionApprovalPurpose)
    (version_id connector_id : uuid) (payload : dict) : Prop :=
  ∃ reference parameters,
    dget (match purpose with ActionApprovalPurpose.EXECUTE => "execute" | _ => "rollback" end) (ActionPlan.spec plan) = Some (VDict reference) ∧
    dget (match purpose with ActionApprovalPurpose.EXECUTE => "parameters" | _ => "rollback_parameters" end) (ActionPlan.spec plan) = Some parameters ∧
    reference_id reference "capability_version_id" = Some version_id ∧
    reference_id reference "connector_id" = Some connector_id ∧
    payload = action_provider_payload a (ActionPlan.checksum_sha256 plan) purpose parameters
      (match purpose with
       | ActionApprovalPurpose.ROLLBACK => Some (dget_or "execute" (VDict []) (ActionRequest.result a))
       | ActionApprovalPurpose.EXECUTE => None
       end).

Lemma wp_prescribed a plan purpose (s : Actions) :
  wp (prescribed a plan purpose) (λ '(v, c, payload) s', s' = s ∧ prescribes a plan purpose v c payload) (λ _ s', s' = s) s.
Proof.
  unfold prescribed, plan_invalid, prescribes. cbv zeta.
  set (part := match purpose with ActionApprovalPurpose.EXECUTE => "execute" | _ => "rollback" end).
  set (from := match purpose with ActionApprovalPurpose.EXECUTE => "parameters" | _ => "rollback_parameters" end).
  destruct (dget part _) as [[| | | | |reference]|]; try done.
  destruct (reference_id reference "capability_version_id") as [v|] eqn:Hv; [|done].
  destruct (reference_id reference "connector_id") as [c|] eqn:Hc; [|done].
  destruct (dget from _) as [parameters|]; [|done].
  apply wp_ret. split; [done|]. by exists reference, parameters.
Qed.

Lemma wp_ensure a purpose ap v c payload s : invariant (tables s) →
  wp (ensure_attempt a purpose ap v c payload)
    (λ b s', calmly s s' ∧ ActionAttempt.capability_version_id b = v ∧ ActionAttempt.connector_id b = c ∧
       ActionAttempt.idempotency_key b = attempt_key (ActionRequest.id a) purpose)
    (λ _, calmly s) s.
Proof.
  intros Hinv. eapply wp_mono; [apply (wp_and _ (λ _, calmly s) (λ b _, ActionAttempt.capability_version_id b = v ∧ ActionAttempt.connector_id b = c ∧
       ActionAttempt.idempotency_key b = attempt_key (ActionRequest.id a) purpose) (λ _, calmly s) (λ _ _, True))|naive_solver..].
  { apply ensure_attempt_within. }
  unfold ensure_attempt. apply wp_bind, wp_gets. destruct (first_attempt _ _ _) as [b|] eqn:Hb.
  - apply wp_bind, wp_raise_if; [done|]. intros Hm. split_bool. apply wp_ret. split; [done|]. split; [done|].
    unfold first_attempt in Hb. apply head_elem in Hb. rewrite elem_of_select in Hb. destruct Hb as [Hb [j Hj]]. split_bool.
    destruct (inv_attempted _ Hinv _ _ Hj) as (_ & Hkey & _). congruence.
  - apply wp_bind, (wp_within calmly); [within| |done]. intros i s1 _ _. cbv zeta.
    apply wp_bind, (wp_within calmly); [within| |done]. intros [] s2 _ _. by apply wp_ret.
Qed.

(** A request that was allowed to leave. *)
Definition governed (s : Actions) (post : Post) : Prop :=
  ∃ a p plan ap b deadline,
    requests s !! post_action_id post = Some a ∧ in_progress a = true ∧
    ActionRequest.deadline_at a = Some deadline ∧ (reading (shared s) < deadline)%Z ∧
    authorized s a (purpose_of a) (reading (shared s)) p plan ap ∧
    prescribes a plan (purpose_of a) (ActionAttempt.capability_version_id b) (ActionAttempt.connector_id b) (post_payload post) ∧
    post_purpose post = purpose_of a ∧
    post_idempotency_key post = attempt_key (post_action_id post) (post_purpose post) ∧
    gateway_post s (ActionGatewayRequest.Make p a ap b (ActionPlan.checksum_sha256 plan) (purpose_of a) (post_payload post)) post.

Lemma wp_clock (s : Actions) (Q : Z → Actions → Prop) X :
  (∀ s', tables s' = tables s → calmly s s' → directory (shared s') = directory (shared s) → Q (reading (shared s)) s') →
  wp (in_kernel utc_now) Q X s.
Proof.
  intros HQ. apply wp_in_kernel. unfold reading in HQ. unfold wp, utc_now. change (kernel s) with (shared s).
  pose proof (recording (m := utc_now) (shared s)) as Hrec. unfold wp, utc_now in Hrec.
  destruct (readings (shared s)); (apply HQ; [done|by apply frame_kernel|done]).
Qed.

Lemma run_attempt_sending a purpose principal plan ap b payload now s :
  sending (gateway_post s (ActionGatewayRequest.Make principal a ap (with_running now b) (ActionPlan.checksum_sha256 plan) purpose payload))
    (run_attempt a purpose principal plan ap b payload now) s.
Proof.
  unfold run_attempt. apply sending_skip; [within|]. intros [] s1 _ Hs1. apply sending_then.
  - eapply sending_mono; [|apply gateway_sending]. intros post (r & Hpin & (k & Hk & Hperm) & Hpost). exists r.
    destruct Hs1 as [_ Hreg Hrec]. rewrite Hreg in Hpin. split; [done|]. split; [|done]. exists k. split; [|done]. by etransitivity.
  - intros r. within.
Qed.

Lemma with_running_pins now b :
  ActionAttempt.capability_version_id (with_running now b) = ActionAttempt.capability_version_id b ∧
  ActionAttempt.connector_id (with_running now b) = ActionAttempt.connector_id b ∧
  ActionAttempt.idempotency_key (with_running now b) = ActionAttempt.idempotency_key b.
Proof. by destruct b. Qed.

(** Reads of the directory do not see the clock. *)
Lemma load_principal_directory org id k k1 p : directory k1 = directory k →
  load_principal_by_id org id k1 = Ok p k1 → load_principal_by_id org id k = Ok p k.
Proof.
  unfold load_principal_by_id, _load_principal, mbind, M_bind, gets, mret, M_ret, raise. intros ->.
  destruct (row_by _ _ _); [|done]. destruct (_ && _); [|done]. destruct (select _ _); [done|]. by intros [= <-].
Qed.

Lemma workspace_access_directory p i write k k1 w : directory k1 = directory k →
  require_workspace_access p i write k1 = Ok w k1 → require_workspace_access p i write k = Ok w k.
Proof.
  unfold require_workspace_access, mbind, M_bind, gets, mret, M_ret, raise. intros ->.
  destruct (row_by _ _ _); [|done]. destruct (accessible _ _ _ _); [by intros [= <-]|]. by destruct (_ && _).
Qed.

Lemma authorized_later s s1 a purpose now p plan ap : tables s1 = tables s →
  directory (shared s1) = directory (shared s) → authorized s1 a purpose now p plan ap → authorized s a purpose now p plan ap.
Proof.
  intros Ht Hd [Ho Hc [w Hw] Hplan Hseal Hap Hex]. rewrite Ht in Hplan, Hap. split; try done.
  - by eapply load_principal_directory.
  - exists w. by eapply workspace_access_directory.
Qed.

Lemma invoke_sending i s : invariant (tables s) → sending (governed s) (_invoke i) s.
Proof.
  intros Hinv. apply sending_savepoint. apply sending_bind, wp_gets. split; [done|].
  destruct (row_by _ _ _) as [a|] eqn:Hrow; [|apply sending_calm; within]. apply row_by_Some in Hrow as [Ha Hid].
  destruct (in_progress a) eqn:Hin; cbn [negb]; [|apply sending_calm; within].
  apply sending_bind, wp_clock. intros s1 Ht1 Hs1 Hd1. split; [done|]. set (now := reading (shared s)) in *.
  destruct (ActionRequest.deadline_at a) as [deadline|] eqn:Hdl; cbv iota; [|apply sending_calm; within].
  destruct (Z.leb_spec deadline now) as [|Hlt]; cbv iota; [apply sending_calm; within|]. cbv zeta.
  apply sending_bind. eapply wp_mono; [apply wp_authorize| |by intros ? ? ->].
  intros [[p plan] ap] ? [-> Hau]. split; [done|].
  apply sending_bind. eapply wp_mono; [apply wp_prescribed| |by intros ? ? ->].
  intros [[v c] payload] ? [-> Hpre]. split; [done|]. cbv beta iota.
  apply sending_bind. eapply wp_mono; [apply wp_ensure; by rewrite Ht1| |done].
  intros b s2 (Hs2 & <- & <- & Hkey). split; [done|].
  destruct (bool_decide _); [apply sending_calm; within|].
  eapply sending_mono; [|apply run_attempt_sending]. intros post Hpost.
  exists a, p, plan, ap, (with_running now b), deadline.
  destruct (with_running_pins now b) as (Hv & Hc & Hk). destruct Hpost as (r & Hpin & (k & Hrec & Hperm) & Hpost).
  pose proof Hpost as [_ Hpk Hpa Hpp Hpp']. cbn in Hpa, Hpp, Hpp', Hpk.
  rewrite Hpa, Hpp, Hpp', Hv, Hc. split_and!; try done.
  - by rewrite Hid.
  - by eapply authorized_later.
  - congruence.
  - exists r. destruct Hs1 as [_ Hreg1 Hrec1], Hs2 as [_ Hreg2 Hrec2]. rewrite Hreg2, Hreg1 in Hpin.
    split; [done|]. split; [|done]. exists k. split; [|done]. by do 2 (etransitivity; [eassumption|]).
Qed.

Lemma execute_sending i s : invariant (tables s) → sends (governed s) s (final (_execute i s)).
Proof.
  intros Hinv. assert (sending (governed s) (_execute i) s) as Hs.
  - apply sending_catch; [by apply invoke_sending|]. intros [] k [= <-]; within.
  - unfold sending, wp in Hs. by destruct (_execute i s).
Qed.

Lemma calm_final {A} P (m : Py Actions A) s : Calm m → sends P s (final (m s)).
Proof. intros Hm. specialize (Hm s). unfold wp in Hm. destruct (m s); by apply calm_sends. Qed.
End Gateway.
