(* ===== verification/ActionHistory.v ===== *)
(** * Histories of governed actions

    The guarantees of the action subsystem over any sequence of calls of its endpoints
    and of its worker. *)

From S2P Require Import Prelude PyText PyVal Redaction Enums Models Kernel CanonicalJson.
From S2P Require Import Events EventLog Identity Policy RateLimit Urls ActionState ActionGateway.
From S2P Require Import ActionService ActionWorker ActionFrame ActionSpec ActionInvariant.
From S2P Require Import ActionRefinement ActionPosts.

(** ** A running example *)

Module ActionSample.

#[local] Existing Instance Sample.environment.

Definition event_names : list string :=
  ["action.created"; "action.preflight_passed"; "action.preflight_failed"; "action.approval_requested";
   "action.approval_decided"; "action.approval_expired"; "action.claimed"; "action.policy_decided";
   "action.provider_started"; "action.provider_completed"; "action.provider_failed"; "action.completed";
   "action.failed"; "action.rollback_requested"; "action.cancelled"; "notification.delivered"].

#[local] Instance contracts : EventContracts := {|
  payload_validators := map (λ name, ((name, 1%Z), λ _, [])) event_names;
  envelope_validator _ := [];
  error_code_registered _ := true
|}.
#[local] Instance encoder : JsonEncoder := λ _, inr VNone.
#[local] Instance hosts : BracketedHosts := λ _, true.
#[local] Instance platform : ActionPlatform := {|
  schema_violation _ _ := None;
  http_post _ _ := HttpResponse true None 2 (Some (VDict [("url", VStr "https://tickets.example/7")]));
  environ _ := None
|}.
#[local] Instance limiter : RateLimiter (gmap string Window) := in_memory_limiter 60 60.
#[local] Instance settings : WorkerSettings := {| worker_id := "worker"; action_lease_seconds := 60; locked _ := false |}.

Definition user (i : uuid) (name : string) : User := User.Make i 10 name name None true [].
Definition role (i : uuid) (name : string) (permissions : list string) : Role :=
  Role.Make i 10 name (map VStr permissions).

Definition directory : Directory :=
  MkDirectory {[1%N := user 1 "requester"; 2%N := user 2 "approver"]} ∅
    {[3%N := role 3 "engineer" ["action.request"; "action.execute"; "action.rollback"; "ticket.write"];
      4%N := role 4 "owner" ["action.approve"; "action.rollback"; "action.rollback.all"; "workspace.read.all"; "workspace.manage.all"]]}
    [UserRole.Make 10 1 3; UserRole.Make 10 2 4]
    {[20%N := Workspace.Make 20 10 1 Classification.INTERNAL Visibility.PRIVATE None "team" "" 0 0]} [] ∅ ∅.

Definition version (i capability : uuid) : CapabilityVersion :=
  CapabilityVersion.Make i 10 capability 1 CapabilityTransport.HTTP RiskLevel.L3 SideEffect.IDEMPOTENT_WRITE
    "ticket.write" [] [] 30 Classification.INTERNAL "c".

Definition registry : Registry :=
  MkRegistry
    {[50%N := CapabilityDefinition.Make 50 10 "action.ticket.create" RegistryStatus.ACTIVE;
      51%N := CapabilityDefinition.Make 51 10 "action.ticket.close" RegistryStatus.ACTIVE]}
    {[52%N := version 52 50; 53%N := version 53 51]}
    {[54%N := CapabilityBinding.Make 54 10 52 56 "staging" [] true;
      55%N := CapabilityBinding.Make 55 10 53 56 "staging" [] true]}
    {[56%N := Connector.Make 56 10 "tickets" ConnectorStatus.ACTIVE "staging" (Some "https://tickets.example/api")
        [] None [VStr "ticket.write"] [VStr "tickets.example"] "ticket-api"]}
    [].

Definition no_actions : ActionTables := MkTables ∅ ∅ ∅ ∅.

Definition start : Actions :=
  MkActions (MkKernel 0 [] 0 directory ∅ ∅ ∅ [] [] [] []) registry no_actions [] [] ∅.

Definition principal (i : uuid) : Principal :=
  match load_principal_by_id 10 i (shared start) with
  | Ok p _ => p
  | Raise _ _ => Principal.Make 0 0 "" "" None None ∅ ∅ []
  end.

Definition request : CreateActionRequest :=
  CreateActionRequest.Make ActionType.CREATE_TICKET "Open a ticket" "" "staging" [("queue", VStr "ops")]
    [("title", VStr "disk full")] [("reason", VStr "done")] None "key-1" 600.

Definition created := final (create_action (principal 1) 20 request start).
Definition preflighted := final (preflight_action (principal 1) 1000 "please" 30 created).
Definition approval_id : uuid := default 0%N (ActionApproval.id <$> head (rows (approvals preflighted))).
Definition approved := final (_decide (principal 2) approval_id true "ok" preflighted).
Definition claimed := final (_claim approved).
Definition executed := final (_execute 1000 claimed).

Definition statuses (s : Actions) : list ActionStatus := ActionRequest.status <$> rows (requests s).

Example statuses_of : map statuses [created; preflighted; approved; claimed; executed] =
  [[ActionStatus.DRAFT]; [ActionStatus.WAITING_APPROVAL]; [ActionStatus.APPROVED]; [ActionStatus.EXECUTING];
   [ActionStatus.COMPLETED]].
Proof. vm_compute. reflexivity. Qed.

Example posts_of : post_idempotency_key <$> posts executed = [attempt_key 1000 ActionApprovalPurpose.EXECUTE].
Proof. vm_compute. reflexivity. Qed.

End ActionSample.

Section Histories.
Context `{Environment, EventContracts, JsonEncoder, ActionPlatform, BracketedHosts,
  RateLimiter (gmap string Window), WorkerSettings}.

(** One call of an endpoint, or one transaction of the worker, whatever its outcome. *)
Inductive call : Actions → Actions → Prop :=
| call_create p w r s : call s (final (create_action p w r s))
| call_preflight p i reason ttl s : call s (final (preflight_action p i reason ttl s))
| call_decide p i approve reason s : call s (final (_decide p i approve reason s))
| call_rollback p i reason ttl s : call s (final (request_action_rollback p i reason ttl s))
| call_cancel p i s : call s (final (cancel_action p i s))
| call_claim s : call s (final (_claim s))
| call_execute i s : call s (final (_execute i s)).

Lemma call_steps s s' : call s s' → invariant (tables s) → steps transition (tables s) (tables s').
Proof.
  destruct 1; apply evolves_final; auto using create_action_evolves, preflight_action_evolves, decide_evolves,
    request_action_rollback_evolves, cancel_action_evolves, claim_evolves, execute_evolves.
Qed.

Lemma calls_steps s s' : steps call s s' → invariant (tables s) → steps transition (tables s) (tables s').
Proof.
  intros Hcalls Hinv. induction Hcalls as [s|s1 s2 s3 H12 IH H23]; [apply steps_refl|].
  eapply steps_trans; [by apply IH|]. apply (call_steps _ _ H23). by eapply steps_preserved; [|apply IH].
Qed.

Lemma call_sends s s' : invariant (tables s) → call s s' → sends (governed s) s s'.
Proof. intros Hinv Hcall. destruct Hcall; [apply calm_final; within..|by apply execute_sending]. Qed.

(** The request of a post exists, and its sealed plan was approved for that purpose. *)
Definition covered (t : ActionTables) (post : Post) : Prop :=
  ∃ a, action_requests t !! post_action_id post = Some a ∧
       approved_for (action_approvals t) (post_action_id post) a (post_purpose post).

Lemma governed_covered s post : governed s post → covered (tables s) post.
Proof.
  intros (a & p & plan & ap & b & d & Ha & _ & _ & _ & Hau & _ & Hpur & _ & (r & _ & _ & Hpost)).
  exists a. split; [exact Ha|]. pose proof (authorized_approval _ _ _ _ _ _ _ Hau) as Hap.
  unfold current_approval in Hap. apply head_elem in Hap. rewrite elem_of_order_by, elem_of_select in Hap.
  destruct Hap as [Hap [j Hj]]. split_bool. exists j, ap. rewrite Hpur. split_and!; try done.
  - rewrite (posted_action _ _ _ Hpost). done.
  - rewrite (authorized_sealed _ _ _ _ _ _ _ Hau). congruence.
Qed.

Lemma covered_steps t t' post : invariant t → steps transition t t' → covered t post → covered t' post.
Proof.
  intros Hinv Hsteps Hc. induction Hsteps as [t|t t1 t2 Hs1 IH Hs2]; [done|].
  destruct (IH Hinv Hc) as (a & Ha & Hap). assert (invariant t1) as Hinv1 by (by eapply steps_preserved).
  destruct (transition_request t1 t2 _ _ Hinv1 Hs2 Ha) as (a' & Ha' & Hk). exists a'. split; [done|].
  eapply (approved_for_kept Hs2); [done|]. destruct Hap as (j & ap & _ & _ & _ & _ & Hc').
  rewrite Hc'. by apply (kept_plan _ _ Hk).
Qed.

(** Every request sent so far is covered and carries the key of its attempt. *)
Definition accounted (s : Actions) : Prop := ∀ post, post ∈ posts s →
  covered (tables s) post ∧ post_idempotency_key post = attempt_key (post_action_id post) (post_purpose post).

Lemma accounted_call s s' : invariant (tables s) → call s s' → accounted s → accounted s'.
Proof.
  intros Hinv Hcall Hacc post Hpost. pose proof (call_steps _ _ Hcall Hinv) as Hsteps.
  assert (covered (tables s) post ∧ post_idempotency_key post = attempt_key (post_action_id post) (post_purpose post)) as [Hc Hk].
  - destruct (call_sends _ _ Hinv Hcall) as [Hp|(post' & Hp & Hg)]; rewrite Hp in Hpost; [by apply Hacc|].
    apply elem_of_app in Hpost as [?|Hlast]; [by apply Hacc|]. apply list_elem_of_singleton in Hlast as ->.
    split; [by apply governed_covered|]. by destruct Hg as (? & ? & ? & ? & ? & ? & _ & _ & _ & _ & _ & _ & _ & Hkey & _).
  - split; [|done]. by eapply covered_steps.
Qed.

(** [C4] The endpoints and the worker implement the specification of governed
    actions: whatever a call does, whether it returns or raises, its effect on the
    tables is a sequence of the transitions of ActionSpec (a draft inserted, a plan
    sealed with its first approval request, a pending approval decided, expired or
    cancelled, an action moved along an edge of its status machine, an attempt
    created once or its row completed). *)
Theorem actions_refine s s' : invariant (tables s) → call s s' → steps transition (tables s) (tables s').
Proof. intros Hinv Hcall. by apply call_steps. Qed.

(** [C3] Whatever calls run, in whatever order and with whatever outcomes, the tables
    keep the invariant: an idempotency key names one action of its organization; a
    pending approval is the only one of its action, which waits for it with the same
    sealed plan; a granted approval was decided by somebody with the permission other
    than its requester; an action that is approved or under way has such an approval
    for its plan; an action has one plan, sealed at its preflight, whose checksum and
    contents are the action's own; and there is one attempt per action and purpose. *)
Theorem actions_reachable s s' : invariant (tables s) → steps call s s' → invariant (tables s').
Proof. intros Hinv Hcalls. eapply steps_preserved; [done|]. by apply calls_steps. Qed.


(** No call ever loses an action or changes what it is: its creation columns stay,
    a plan once sealed stays sealed under the same checksum, and a rejected, expired,
    cancelled or rolled-back action is frozen for good. *)
Theorem action_carried s s' i a : invariant (tables s) → steps call s s' → requests s !! i = Some a →
  ∃ a', requests s' !! i = Some a' ∧ carried a a'.
Proof. intros Hinv Hcalls Ha. eapply steps_carried; [done|by apply calls_steps|done]. Qed.

(** [C1] A call sends at most one request to a provider, and only to execute a governed
    action: the action is under way before its deadline; its owner, loaded afresh, is
    active, may execute and may write to the workspace; the plan is the sealed one and
    its highest approval of the purpose is granted and not expired; the capability and
    connector are those the plan pins, inside the L3 idempotent-write contract and the
    connector's egress allowlist; the policies permit it; the payload is the plan's and
    the idempotency key the attempt's.  What a rolled-back transaction sent counts. *)
Theorem posts_governed s s' : invariant (tables s) → call s s' →
  posts s' = posts s ∨ ∃ post, posts s' = (posts s ++ [post])%list ∧ governed s post.
Proof. intros Hinv Hcall. by apply call_sends. Qed.

(** [C5] Over any history from a session without actions, each request that was ever sent
    is for an action that still exists and whose sealed plan has an approval for that
    purpose, and all requests for one action and purpose (retries after a crash
    included) carry one and the same idempotency key. *)
Theorem posts_accounted s s' : tables s = MkTables ∅ ∅ ∅ ∅ → posts s = [] → steps call s s' →
  ∀ post, post ∈ posts s' →
    covered (tables s') post ∧ post_idempotency_key post = attempt_key (post_action_id post) (post_purpose post).
Proof.
  intros Ht Hp Hcalls.
  assert (invariant (tables s') ∧ accounted s') as [_ Hacc]; [|exact Hacc].
  apply (steps_invariant call (λ s, invariant (tables s) ∧ accounted s) s s'); [|split|done].
  - intros s1 s2 [Hinv Hacc] Hcall. split; [|by eapply accounted_call].
    eapply steps_preserved; [done|by apply call_steps].
  - rewrite Ht. apply empty_invariant.
  - intros post. rewrite Hp. by intros ?%not_elem_of_nil.
Qed.
End Histories.

(** ** Witnesses *)

Module ActionWitness.
Import ActionSample.
#[local] Existing Instances Sample.environment contracts encoder hosts platform limiter settings.

Lemma start_invariant : invariant (tables start).
Proof. apply empty_invariant. Qed.

Lemma call_created : call start created.
Proof. exact (call_create (principal 1) 20 request start). Qed.
Lemma call_executed : call claimed executed.
Proof. exact (call_execute 1000 claimed). Qed.

Lemma calls_to_claimed : steps call start claimed.
Proof.
  refine (steps_snoc _ _ approved _ _ (call_claim approved)).
  refine (steps_snoc _ _ preflighted _ _ (call_decide (principal 2) approval_id true "ok" preflighted)).
  refine (steps_snoc _ _ created _ _ (call_preflight (principal 1) 1000 "please" 30 created)).
  apply steps_one, call_created.
Qed.

Lemma calls_to_executed : steps call start executed.
Proof. exact (steps_snoc _ _ _ _ calls_to_claimed call_executed). Qed.

Lemma claimed_invariant : invariant (tables claimed).
Proof. eapply steps_preserved; [apply start_invariant|]. apply calls_steps; [apply calls_to_claimed|apply start_invariant]. Qed.
End ActionWitness.

Section Witnesses.
Import ActionSample ActionWitness.
#[local] Existing Instances Sample.environment contracts encoder hosts platform limiter settings.

Lemma actions_refine_witness : call start created ∧ steps transition (tables start) (tables created).
Proof.
  split; [exact call_created|]. exact (actions_refine start created start_invariant call_created).
Defined.

Lemma actions_reachable_witness : invariant (tables executed) ∧ statuses executed = [ActionStatus.COMPLETED].
Proof.
  split; [|vm_compute; reflexivity]. exact (actions_reachable start executed start_invariant calls_to_executed).
Defined.

Definition the_action : ActionRequest := draft_action 1000 10 20 1 1 0 request.
Definition claimed_action : ActionRequest := default the_action (requests claimed !! 1000%N).

Lemma claimed_executing : ActionRequest.status claimed_action ∈ underway ActionApprovalPurpose.EXECUTE.
Proof. vm_compute. right. left. Qed.
Lemma claimed_row : requests claimed !! 1000%N = Some claimed_action.
Proof. vm_compute. reflexivity. Qed.


Lemma action_carried_witness : ∃ a', requests executed !! 1000%N = Some a' ∧ carried claimed_action a'.
Proof.
  exact (action_carried claimed executed 1000 claimed_action claimed_invariant (steps_one _ _ _ call_executed) claimed_row).
Defined.

Lemma posts_governed_witness : ∃ post, posts executed = (posts claimed ++ [post])%list ∧ governed claimed post.
Proof.
  destruct (posts_governed claimed executed claimed_invariant call_executed) as [Hnone|Hone]; [|exact Hone].
  exfalso. assert (length (posts executed) ≠ length (posts claimed)) as Hlen by (vm_compute; discriminate).
  exact (Hlen (f_equal length Hnone)).
Defined.

Lemma posts_accounted_witness : map post_action_id (posts executed) = [1000%N] ∧
  ∀ post, post ∈ posts executed → covered (tables executed) post ∧
    post_idempotency_key post = attempt_key (post_action_id post) (post_purpose post).
Proof.
  split; [vm_compute; reflexivity|]. exact (posts_accounted start executed eq_refl eq_refl calls_to_executed).
Defined.
End Witnesses.
