(* ===== verification/ActionOperations.v ===== *)
(** * What each action endpoint does

    The functional behaviour of the endpoints on the tables of actions, on every
    branch; and two places where the code does not do what it means to. *)

From S2P Require Import Prelude PyText PyVal Regex Redaction Enums Models Kernel.
From S2P Require Import CanonicalJson Events EventLog Identity Policy RateLimit Urls ActionState.
From S2P Require Import ActionGateway ActionService ActionWorker ActionFrame ActionSpec ActionInvariant.
From S2P Require Import ActionRefinement ActionPosts ActionHistory.

(** ** Secrets in requests *)

(** No key at any depth names a credential. *)
Fixpoint secretless (v : val) : bool :=
  match v with
  | VDict items => forallb (λ '(key, item), negb (search _SECRET_KEY key) && secretless item) items
  | VList items => forallb secretless items
  | _ => true
  end.

Definition secret_denied (e : exn) : Prop :=
  ∃ details, e = ValidationError "action_inline_secret_denied"
    "Action requests cannot contain credentials or secret fields" details.

Lemma wp_deny {S} v path (s : S) :
  wp (_deny_secret_fields v path) (λ _ s', s' = s ∧ secretless v = true)
    (λ e s', s' = s ∧ secretless v = false ∧ secret_denied e) s.
Proof.
  revert path. induction v as [| | | |l IH|d IH] using val_ind'; intros path; simpl; try done.
  - generalize 0%Z. induction IH as [|v l Hv _ IHl]; intros n; simpl; [done|].
    apply wp_bind. eapply wp_mono; [apply Hv|..]; cbv beta; [|by intros e s' (-> & -> & ?)].
    intros [] s' [-> ->]. apply IHl.
  - induction IH as [|[k v] d Hv _ IHd]; simpl; [done|].
    apply wp_bind, wp_raise_if; intros Hk; rewrite Hk; cbn [negb andb]; [split; [done|]; split; [done|by eexists]|].
    simpl in Hv. apply wp_bind. eapply wp_mono; [apply Hv|..]; cbv beta; [|by intros e s' (-> & -> & ?)].
    intros [] s' [-> ->]. exact IHd.
Qed.

Section Operations.
Context `{Environment, EventContracts, JsonEncoder, ActionPlatform, BracketedHosts,
  RateLimiter (gmap string Window), WorkerSettings}.

(** A transaction either returns into its specification or leaves the tables as they were. *)
Lemma transaction {A} (m : Py Actions A) s (Q : A → ActionTables → Prop) : run m (tables s) Q →
  match savepoint m s with Ok a s' => Q a (tables s') | Raise _ s' => tables s' = tables s end.
Proof. intros [Hm]. specialize (Hm s eq_refl). unfold wp, savepoint in *. by destruct (m s). Qed.

Lemma run_deny {A} v (k : () → Py Actions A) t Q :
  (secretless v = true → run (k ()) t Q) → run (_deny_secret_fields v "payload" ≫= k) t Q.
Proof.
  intros Hk. apply run_returns with (P := λ _, secretless v = true); [within| |by intros []].
  intros s. eapply wp_mono; [apply wp_deny|naive_solver..].
Qed.

(** The request that made an action: the values a replay is compared with. *)
Definition owner_of (p : Principal) (r : CreateActionRequest) : uuid :=
  default (Principal.id p) (CreateActionRequest.owner_id r).

(** [a] is the answer to a creation that turned [t] into [t']. *)
Record creation (p : Principal) (w : uuid) (r : CreateActionRequest) (t : ActionTables) (a : ActionRequest)
    (t' : ActionTables) : Prop := {
  creation_permitted : can p "action.request" = true;
  creation_secretless : forallb secretless [VDict (CreateActionRequest.target r);
    VDict (CreateActionRequest.parameters r); VDict (CreateActionRequest.rollback_parameters r)] = true;
  creation_owner : owner_of p r = Principal.id p ∨ can p "action.request.all" = true;
  creation_row :
    (∃ i, action_requests t !! i = Some a ∧ ActionRequest.organization_id a = Principal.organization_id p ∧
       ActionRequest.idempotency_key a = CreateActionRequest.idempotency_key r ∧
       _same_request a w r (owner_of p r) = true ∧ t' = t) ∨
    (∃ i at_, a = draft_action i (Principal.organization_id p) w (owner_of p r) (Principal.id p) at_ r ∧
       action_requests t !! i = None ∧
       (∀ j b, action_requests t !! j = Some b → ActionRequest.organization_id b = Principal.organization_id p →
          ActionRequest.idempotency_key b ≠ CreateActionRequest.idempotency_key r) ∧
       t' = with_requests (insert i a) t)
}.

(** No row carries the key. *)
Lemma key_free (t : ActionTables) org key :
  head (select (λ a, bool_decide (ActionRequest.organization_id a = org) &&
                     bool_decide (ActionRequest.idempotency_key a = key)) (action_requests t)) = None →
  ∀ j b, action_requests t !! j = Some b → ActionRequest.organization_id b = org → ActionRequest.idempotency_key b ≠ key.
Proof.
  intros Hhead j c Hj Hco Hck. assert (c ∈ @nil ActionRequest) as Hin; [|by apply not_elem_of_nil in Hin].
  match type of Hhead with head ?l = None => assert (l = []) as <- by (by destruct l) end.
  apply elem_of_select. split; [|by exists j]. by rewrite !bool_decide_true.
Qed.


(** ** Decisions *)

(** [ap'] is the answer to a decision at [now]. *)
Record decision (p : Principal) (j : uuid) (approve : bool) (reason : string) (now : Z)
    (t : ActionTables) (ap' : ActionApproval) (t' : ActionTables) : Prop := {
  decision_permitted : can p "action.approve" = true;
  decision_row : ∃ ap a,
    action_approvals t !! j = Some ap ∧ action_requests t !! ActionApproval.action_request_id ap = Some a ∧
    ActionApproval.organization_id ap = Principal.organization_id p ∧
    ActionRequest.organization_id a = Principal.organization_id p ∧
    ActionApproval.status ap = ApprovalStatus.PENDING ∧ (now < ActionApproval.expires_at ap)%Z ∧
    ActionApproval.requested_by ap ≠ Principal.id p ∧
    ActionRequest.plan_checksum_sha256 a = Some (ActionApproval.plan_checksum_sha256 ap) ∧
    ap' = with_decision p approve reason now ap ∧
    t' = with_requests (insert (ActionApproval.action_request_id ap)
           (decided_action (ActionApproval.purpose ap) approve now a)) (with_approvals (insert j ap') t)
}.

(** [get] reads. *)
Lemma wp_get p i w s :
  wp (get p i w) (λ a s', s' = s ∧ requests s !! i = Some a ∧
    ActionRequest.organization_id a = Principal.organization_id p) (λ _ _, True) s.
Proof.
  unfold get. apply wp_bind, wp_gets. destruct (row_by _ _ _) as [a|] eqn:Hrow; [|done].
  apply row_by_Some in Hrow as [Hi _]. case_bool_decide; [|done].
  apply wp_bind, (wp_read (require_workspace_access _ _ _)), wp_pure; [apply _| |done]. intros. by apply wp_ret.
Qed.

(** The rest of a transaction, from the tables on. *)
Lemma wp_run {A} (m : Py Actions A) t s (Q : A → Actions → Prop) (Q' : A → ActionTables → Prop) :
  tables s = t → run m t Q' → (∀ a s', Q' a (tables s') → Q a s') → wp m Q (λ _ _, True) s.
Proof. intros Hs [Hm] HQ. eapply wp_mono; [by apply Hm|auto|done]. Qed.

Lemma wp_action_decide p j approve reason s :
  wp (decide p j approve reason)
    (λ ap' s', decision p j approve reason (reading (shared s)) (tables s) ap' (tables s')) (λ _ _, True) s.
Proof.
  unfold decide. apply wp_bind, wp_raise_if; [done|]. intros Hcan.
  apply wp_bind, wp_gets. destruct (row_by _ _ _) as [ap|] eqn:Hrow; [|done]. apply row_by_Some in Hrow as [Hj _].
  cbv zeta. destruct (bool_decide _) eqn:Ho; cbn [negb]; [|done]. apply wp_bind, wp_raise_if; [done|]. intros Hst.
  apply wp_bind. eapply wp_mono; [apply wp_get| |done]. intros a ? (-> & Ha & Hoa).
  apply wp_bind, wp_clock. intros s1 Ht _ _. set (now := reading (shared s)).
  split_bool. apply (wp_run _ (tables s) _ _ (decision p j approve reason now (tables s))); [done| |done].
  apply run_bind. destruct (Z.leb_spec (ActionApproval.expires_at ap) now) as [Hexp|Hexp].
  { apply run_bind. eapply run_update_approval; [exact Hj|]. apply run_bind. eapply run_update_request; [exact Ha|].
    apply run_skip; [within|intros _]. apply run_raise. }
  apply run_ret, run_bind, run_raise_if. intros Hself. apply run_bind, run_raise_if. intros Hplan. split_bool.
  apply run_bind. eapply run_update_approval; [exact Hj|]. apply run_bind. eapply run_update_request; [exact Ha|].
  do 2 (apply run_skip; [within|intros _]). apply run_ret. split; [done|]. exists ap, a. by split_and!.
Qed.

(** A decision is taken only on a pending, unexpired approval of the principal's
    organization, by somebody with action.approve who did not request it, and only
    while the action still carries the plan the approval was asked for; it then stamps
    the approval with the decider, the reason and the time and moves the action to
    the matching status, with the execution deadline counted from the decision.
    Whenever it raises, no table of actions has changed. *)
Theorem decide_action_spec p j approve reason s :
  match _decide p j approve reason s with
  | Ok ap' s' => decision p j approve reason (reading (shared s)) (tables s) ap' (tables s')
  | Raise _ s' => tables s' = tables s
  end.
Proof.
  pose proof (wp_action_decide p j approve reason s) as Hd. unfold _decide, try_catch, savepoint, wp in *.
  by destruct (decide p j approve reason s).
Qed.

(** A pending approval past its time, as the clock will read. *)
Definition overdue (s : Actions) (j : uuid) (ap : ActionApproval) : Prop :=
  approvals s !! j = Some ap ∧ ActionApproval.status ap = ApprovalStatus.PENDING ∧
  (ActionApproval.expires_at ap <= reading (shared s))%Z.

(** A decision on an expired approval raises, and the expiry is not recorded: the
    endpoint commits the session only after the transaction in which the service set
    EXPIRED was rolled back, so that the approval stays PENDING, and its action stays
    waiting, until the worker expires them. *)
Theorem decide_expired_pending p j approve reason s ap : overdue s j ap →
  ∃ e s', _decide p j approve reason s = Raise e s' ∧ approvals s' !! j = Some ap ∧ requests s' = requests s.
Proof.
  intros (Hj & Hst & Hexp). pose proof (wp_action_decide p j approve reason s) as Hd. unfold _decide, try_catch, savepoint, wp in *.
  destruct (decide p j approve reason s) as [ap' s'|e s'].
  - destruct Hd as [_ (ap0 & a & Hj0 & _ & _ & _ & _ & Hlt & _)]. unfold approvals in Hj. simplify_eq. lia.
  - by eexists e, _.
Qed.

(** ** Cancellation *)

Record cancellation (p : Principal) (i : uuid) (now : Z) (t : ActionTables) (a' : ActionRequest) (t' : ActionTables) : Prop := {
  cancellation_row : ∃ a, action_requests t !! i = Some a ∧
    ActionRequest.organization_id a = Principal.organization_id p ∧
    (ActionRequest.owner_id a = Principal.id p ∨ can p "action.cancel.all" = true) ∧
    ActionRequest.status a ∈ _CANCELLABLE ∧ a' = with_cancellation now a ∧
    action_requests t' = <[i := a']> (action_requests t);
  cancellation_approvals : action_approvals t' = cancel_pending i now <$> action_approvals t;
  cancellation_rest : action_plans t' = action_plans t ∧ action_attempts t' = action_attempts t
}.

(** Cancelling is for the owner, or those who may cancel any action, and only before
    the action is executed: it moves the action to CANCELLED and cancels exactly its
    pending approvals, in the same transaction; otherwise it raises and changes
    nothing. *)
Theorem cancel_action_spec p i s :
  match cancel_action p i s with
  | Ok a' s' => cancellation p i (reading (shared s)) (tables s) a' (tables s')
  | Raise _ s' => tables s' = tables s
  end.
Proof.
  assert (wp (cancel p i) (λ a' s', cancellation p i (reading (shared s)) (tables s) a' (tables s')) (λ _ _, True) s) as Hc.
  - unfold cancel. apply wp_bind. eapply wp_mono; [apply wp_get| |done]. intros a ? (-> & Ha & Ho).
    apply wp_bind, wp_raise_if; [done|]. intros Hown. apply wp_bind, wp_raise_if; [done|]. intros Hst. split_bool.
    apply wp_bind, wp_clock. intros s1 Ht _ _. set (now := reading (shared s)).
    apply (wp_run _ (tables s) _ _ (cancellation p i now (tables s))); [done| |done].
    apply run_bind. eapply run_update_request; [exact Ha|]. apply run_bind, run_change_tables.
    do 2 (apply run_skip; [within|intros _]). apply run_ret. split; [|done..]. exists a. split_and!; try done.
    apply andb_false_iff in Hown as [Hown|Hown]; split_bool; auto.
  - unfold cancel_action, savepoint, wp in *. by destruct (cancel p i s).
Qed.

(** ** Preflight and rollback *)

(** [a'] is the answer to a preflight. *)
Record preflighting (p : Principal) (i : uuid) (t : ActionTables) (a' : ActionRequest) (t' : ActionTables) : Prop := {
  preflighting_permitted : can p "action.request" = true;
  preflighting_row : ∃ a, action_requests t !! i = Some a ∧
    ActionRequest.organization_id a = Principal.organization_id p ∧
    ActionRequest.status a ∈ [ActionStatus.DRAFT; ActionStatus.PREFLIGHT_FAILED] ∧ plan_of t i = None ∧
    ((∃ code message details now, a' = with_preflight_failed code message details now a ∧
        t' = with_requests (insert i a') t) ∨
     (∃ f plan ap, planned a f ∧ seals plan a ∧ ActionPlan.spec plan = plan_spec f ∧
        ActionPlan.created_by plan = Principal.id p ∧
        a' = with_preflight_passed (ActionPlan.checksum_sha256 plan) (capability_name (execute f))
               (capability_name (rollback_with f)) (checked_at f) a ∧
        requested a' ActionApprovalPurpose.EXECUTE ap ∧
        action_plans t !! ActionPlan.id plan = None ∧ action_approvals t !! ActionApproval.id ap = None ∧
        t' = with_approvals (insert (ActionApproval.id ap) ap)
               (with_requests (insert i a') (with_plans (insert (ActionPlan.id plan) plan) t))))
}.

(** A preflight runs on a draft or a failed preflight without a plan.  If a check
    fails with one of the application's errors it returns, having marked the action
    PREFLIGHT_FAILED and sealed nothing; if all pass it seals one plan of the action's
    own columns and of the two resolved capabilities under its checksum, moves the
    action to WAITING_APPROVAL and requests its approval; any other exception leaves the
    tables as they were. *)
Theorem preflight_action_spec p i reason ttl s :
  match preflight_action p i reason ttl s with
  | Ok a' s' => preflighting p i (tables s) a' (tables s')
  | Raise _ s' => tables s' = tables s
  end.
Proof.
  apply transaction. unfold preflight. apply run_require. intros Hcan. apply run_bind, run_get. intros a Ha Hid Ho.
  apply run_bind, run_raise_if. intros Hst. split_bool. apply run_bind, run_gets. intros s1 Hs1. rewrite Hs1.
  apply run_bind, run_raise_if. intros Hnone. split_bool. apply eq_None_not_Some in Hnone.
  apply (run_returns _ _ (λ r, ∀ f, r = inr f → planned a f)); [apply checked_quiet|apply checked_planned|].
  intros [[[code message] details]|found] Hfound.
  - apply run_skip; [within|intros now]. cbv zeta. apply run_bind. eapply run_update_request; [exact Ha|].
    do 2 (apply run_skip; [within|intros _]). apply run_ret. split; [done|]. exists a. split_and!; try done. left.
    by eexists _, _, _, _.
  - specialize (Hfound _ eq_refl). apply run_skip; [within|intros plan_id]. cbv zeta.
    remember (ActionPlan.Make _ _ _ _ _ _ _) as plan eqn:Hplan.
    assert (ActionPlan.id plan = plan_id ∧ seals plan a ∧ ActionPlan.spec plan = plan_spec found ∧
      ActionPlan.created_by plan = Principal.id p ∧
      ActionPlan.checksum_sha256 plan = action_plan_checksum (plan_spec found)) as (<- & Hseals & Hspec & Hby & Hsum)
      by (rewrite Hplan; split_and!; [done|by apply sealed_plan|done..]).
    clear Hplan. rewrite <-Hsum. apply run_bind, (run_insert_row _ _ _ action_plans); [done|]. intros Hfree.
    apply run_bind. eapply run_update_request; [exact Ha|].
    apply run_bind, run_create_approval. intros ap Hreq Hfree'. do 2 (apply run_skip; [within|intros _]). apply run_ret.
    split; [done|]. exists a. split_and!; try done. right. exists found, plan, ap. by split_and!.
Qed.

(** [a'] is the answer to a request for rollback. *)
Record rolling (p : Principal) (i : uuid) (t : ActionTables) (a' : ActionRequest) (t' : ActionTables) : Prop := {
  rolling_permitted : can p "action.rollback" = true;
  rolling_row : ∃ a ap, action_requests t !! i = Some a ∧
    ActionRequest.organization_id a = Principal.organization_id p ∧
    (ActionRequest.owner_id a = Principal.id p ∨ can p "action.rollback.all" = true) ∧
    ActionRequest.status a ∈ _ROLLBACKABLE ∧ a' = with_rollback_request a ∧
    requested a ActionApprovalPurpose.ROLLBACK ap ∧ action_approvals t !! ActionApproval.id ap = None ∧
    t' = with_requests (insert i a') (with_approvals (insert (ActionApproval.id ap) ap) t)
}.

(** A rollback is requested by the owner, or those who may roll back any action, of a
    finished action or of a rollback that failed or was refused: the action waits for
    a fresh approval of purpose ROLLBACK for the plan sealed before its execution.  The
    approval's requester is the requester of the action, whoever asks for the
    rollback.  Otherwise it raises and changes nothing. *)
Theorem request_rollback_spec p i reason ttl s :
  match request_action_rollback p i reason ttl s with
  | Ok a' s' => rolling p i (tables s) a' (tables s')
  | Raise _ s' => tables s' = tables s
  end.
Proof.
  apply transaction. unfold request_rollback. apply run_require. intros Hcan. apply run_bind, run_get. intros a Ha Hid Ho.
  apply run_bind, run_raise_if. intros Hown. apply run_bind, run_raise_if. intros Hst. split_bool.
  apply run_bind, run_create_approval. intros ap Hreq Hfree. apply run_bind. eapply run_update_request; [exact Ha|].
  do 2 (apply run_skip; [within|intros _]). apply run_ret. split; [done|]. exists a, ap. split_and!; try done.
  apply andb_false_iff in Hown as [Hown|Hown]; split_bool; auto.
Qed.
End Operations.

(** ** Witnesses and counterexamples *)

Section Examples.
Import ActionSample.
#[local] Existing Instances Sample.environment contracts encoder hosts platform limiter settings.

(** The approval of [preflighted], read long after it expired. *)
Definition late : Actions :=
  MkActions ((shared preflighted) <| clock := 1000000000000%Z |>) (ActionState.registry preflighted) (tables preflighted) [] [] ∅.
Definition late_approval : option ActionApproval := approvals late !! approval_id.

Lemma decide_expired_pending_witness :
  ∃ ap e s', late_approval = Some ap ∧ _decide (principal 2) approval_id true "ok" late = Raise e s' ∧
    approvals s' !! approval_id = Some ap.
Proof.
  assert (∃ ap, overdue late approval_id ap) as (ap & Hdue).
  { eexists. split; [vm_compute; reflexivity|]. split; [reflexivity|]. vm_compute. discriminate. }
  destruct (decide_expired_pending (principal 2) approval_id true "ok" late ap Hdue) as (e & s' & Hd & Hj' & _).
  exists ap, e, s'. split; [exact (proj1 Hdue)|]. split; [exact Hd|exact Hj'].
Defined.

(** Whoever asks for a rollback of another's action can also approve it: the approval
    names the requester of the action. *)
Definition rollback_requested := final (request_action_rollback (principal 2) 1000 "undo" 30 executed).
Definition rollback_approval : uuid :=
  default 0%N (ActionApproval.id <$> head (select (λ a, bool_decide (ActionApproval.status a = ApprovalStatus.PENDING))
    (approvals rollback_requested))).

Example rollback_self_approved :
  statuses (final (_decide (principal 2) rollback_approval true "fine" rollback_requested)) = [ActionStatus.ROLLBACK_APPROVED].
Proof. vm_compute. reflexivity. Qed.
End Examples.
