(* ===== verification/CollaborationService.v ===== *)
(** * Workspace tasks and decisions ([collaboration/service.py],
      [collaboration/schemas.py], [api/collaboration.py])

    Tasks are edited under an optimistic version check.  A decision is proposed,
    revised while it is proposed, and accepted or rejected; its content lives in
    numbered versions that are only ever added.  Accepting a decision that supersedes
    another one retires the other.  Each endpoint runs the service operation in one
    transaction. *)

From S2P Require Import Prelude PyText PyVal Redaction Enums Models Kernel Domain.
From S2P Require Import CanonicalJson Events EventLog Identity.

(** ** Tables *)

Record Collab : Type := MkCollab {
  base : Kernel;
  tasks : gmap uuid WorkspaceTask;
  decisions : gmap uuid WorkspaceDecision;
  versions : list WorkspaceDecisionVersion
}.

#[export] Program Instance collab_session : Session Collab := {
  kernel := base;
  set_kernel k s := MkCollab k (tasks s) (decisions s) (versions s);
  rollback old new :=
    MkCollab (kernel_rollback (base old) (base new)) (tasks old) (decisions old) (versions old)
}.
Solve Obligations with (by intros; repeat match goal with s : Collab |- _ => destruct s end).

Definition put_task (id : uuid) (row : WorkspaceTask) : Py Collab unit :=
  modify (λ s, MkCollab (base s) (<[id := row]> (tasks s)) (decisions s) (versions s)).
Definition put_decision (id : uuid) (row : WorkspaceDecision) : Py Collab unit :=
  modify (λ s, MkCollab (base s) (tasks s) (<[id := row]> (decisions s)) (versions s)).
Definition add_version (row : WorkspaceDecisionVersion) : Py Collab unit :=
  modify (λ s, MkCollab (base s) (tasks s) (decisions s) (versions s ++ [row])%list).

(** [length(trim(title)) > 0]: SQL trims spaces only. *)
Definition nonempty_title (title : string) : bool :=
  existsb (λ c, negb (bool_decide (c = " "%char))) (chars title).

(** ** Requests *)

Module CreateWorkspaceTaskRequest.
Record CreateWorkspaceTaskRequest : Type := Make {
  title : string;
  description : string;
  priority : WorkspaceTaskPriority;
  assignee_id : option uuid;
  source_run_id : option uuid;
  due_at : option Z
}.
End CreateWorkspaceTaskRequest.
Abbreviation CreateWorkspaceTaskRequest := CreateWorkspaceTaskRequest.CreateWorkspaceTaskRequest.

(** A field is [None] when it is not in [model_fields_set], and [Some None] when it is
    set to null. *)
Module UpdateWorkspaceTaskRequest.
Record UpdateWorkspaceTaskRequest : Type := Make {
  expected_version : Z;
  title : option (option string);
  description : option (option string);
  status : option (option WorkspaceTaskStatus);
  priority : option (option WorkspaceTaskPriority);
  assignee_id : option (option uuid);
  due_at : option (option Z)
}.
End UpdateWorkspaceTaskRequest.
Abbreviation UpdateWorkspaceTaskRequest := UpdateWorkspaceTaskRequest.UpdateWorkspaceTaskRequest.

Module DecisionContentRequest.
Record DecisionContentRequest : Type := Make {
  title : string;
  summary : string;
  rationale : string;
  alternatives : list string
}.
End DecisionContentRequest.
Abbreviation DecisionContentRequest := DecisionContentRequest.DecisionContentRequest.

Module CreateWorkspaceDecisionRequest.
Record CreateWorkspaceDecisionRequest : Type := Make {
  content : DecisionContentRequest;
  source_run_id : option uuid;
  supersedes_decision_id : option uuid
}.
End CreateWorkspaceDecisionRequest.
Abbreviation CreateWorkspaceDecisionRequest :=
  CreateWorkspaceDecisionRequest.CreateWorkspaceDecisionRequest.

Module ReviseWorkspaceDecisionRequest.
Record ReviseWorkspaceDecisionRequest : Type := Make {
  content : DecisionContentRequest;
  expected_version : Z
}.
End ReviseWorkspaceDecisionRequest.
Abbreviation ReviseWorkspaceDecisionRequest :=
  ReviseWorkspaceDecisionRequest.ReviseWorkspaceDecisionRequest.

Definition is_set {A} (field : option A) : bool := bool_decide (is_Some field).

(** [UpdateWorkspaceTaskRequest.require_change] *)
Definition require_change (r : UpdateWorkspaceTaskRequest) : bool :=
  is_set (UpdateWorkspaceTaskRequest.title r) || is_set (UpdateWorkspaceTaskRequest.description r) ||
  is_set (UpdateWorkspaceTaskRequest.status r) || is_set (UpdateWorkspaceTaskRequest.priority r) ||
  is_set (UpdateWorkspaceTaskRequest.assignee_id r) || is_set (UpdateWorkspaceTaskRequest.due_at r).

(** [DecisionContentRequest.validate_alternatives] *)
Definition validate_alternatives (values : list string) : bool :=
  forallb (λ value, truthy (strip value) && (py_len value <=? 4000)%Z) values.

(** The bounds of a [Field]. *)
Definition length_within (lo hi : Z) (s : string) : bool := (lo <=? py_len s)%Z && (py_len s <=? hi)%Z.

Definition optional_within (lo hi : Z) (field : option (option string)) : bool :=
  match field with Some (Some s) => length_within lo hi s | _ => true end.

Definition valid_create_task (r : CreateWorkspaceTaskRequest) : bool :=
  length_within 1 300 (CreateWorkspaceTaskRequest.title r) &&
  length_within 0 20000 (CreateWorkspaceTaskRequest.description r).

Definition valid_update_task (r : UpdateWorkspaceTaskRequest) : bool :=
  (1 <=? UpdateWorkspaceTaskRequest.expected_version r)%Z &&
  optional_within 1 300 (UpdateWorkspaceTaskRequest.title r) &&
  optional_within 0 20000 (UpdateWorkspaceTaskRequest.description r) && require_change r.

Definition valid_content (r : DecisionContentRequest) : bool :=
  length_within 1 300 (DecisionContentRequest.title r) &&
  length_within 1 20000 (DecisionContentRequest.summary r) &&
  length_within 1 40000 (DecisionContentRequest.rationale r) &&
  (length (DecisionContentRequest.alternatives r) <=? 50)%nat &&
  validate_alternatives (DecisionContentRequest.alternatives r).

(** FastAPI answers a request body that does not validate before the handler runs. *)
Definition validated (valid : bool) : Py Collab unit :=
  raise_if (negb valid) (PyError "RequestValidationError").

(** ** Rows *)

Definition new_task (id : uuid) (p : Principal) (workspace : Workspace)
    (r : CreateWorkspaceTaskRequest) (now : Z) : WorkspaceTask :=
  WorkspaceTask.Make id (Principal.organization_id p) (Workspace.id workspace)
    (redact_text (strip (CreateWorkspaceTaskRequest.title r)))
    (redact_text (strip (CreateWorkspaceTaskRequest.description r)))
    WorkspaceTaskStatus.OPEN (CreateWorkspaceTaskRequest.priority r)
    (CreateWorkspaceTaskRequest.assignee_id r) (Principal.id p)
    (CreateWorkspaceTaskRequest.source_run_id r) (CreateWorkspaceTaskRequest.due_at r) None 1 now now.

Definition with_title (v : string) (t : WorkspaceTask) : WorkspaceTask := t <| WorkspaceTask.title := v |>.
Definition with_description (v : string) (t : WorkspaceTask) : WorkspaceTask :=
  t <| WorkspaceTask.description := v |>.
Definition with_priority (v : WorkspaceTaskPriority) (t : WorkspaceTask) : WorkspaceTask :=
  t <| WorkspaceTask.priority := v |>.
Definition with_assignee (v : option uuid) (t : WorkspaceTask) : WorkspaceTask :=
  t <| WorkspaceTask.assignee_id := v |>.
Definition with_due_at (v : option Z) (t : WorkspaceTask) : WorkspaceTask :=
  t <| WorkspaceTask.due_at := v |>.
Definition with_task_status (v : WorkspaceTaskStatus) (completed_at : option Z) (t : WorkspaceTask) :
    WorkspaceTask :=
  t <| WorkspaceTask.status := v |> <| WorkspaceTask.completed_at := completed_at |>.
(** [task.version += 1], and the [onupdate] of the flush. *)
Definition with_next_version (now : Z) (t : WorkspaceTask) : WorkspaceTask :=
  t <| WorkspaceTask.version := (WorkspaceTask.version t + 1)%Z |> <| WorkspaceTask.updated_at := now |>.

Definition with_current_version (v now : Z) (d : WorkspaceDecision) : WorkspaceDecision :=
  d <| WorkspaceDecision.current_version := v |> <| WorkspaceDecision.updated_at := now |>.
Definition with_superseded (now : Z) (d : WorkspaceDecision) : WorkspaceDecision :=
  d <| WorkspaceDecision.status := WorkspaceDecisionStatus.SUPERSEDED |>
    <| WorkspaceDecision.updated_at := now |>.
Definition with_decision (target : WorkspaceDecisionStatus) (p : Principal) (decided now : Z)
    (d : WorkspaceDecision) : WorkspaceDecision :=
  d <| WorkspaceDecision.status := target |> <| WorkspaceDecision.decided_by := Some (Principal.id p) |>
    <| WorkspaceDecision.decided_at := Some decided |> <| WorkspaceDecision.updated_at := now |>.

(** The alternatives, redacted and without repetition, in their order. *)
Definition distinct_alternatives (raw : list string) : list string :=
  fold_left (λ alternatives raw,
    let value := redact_text (strip raw) in
    if bool_decide (value ∈ alternatives) then alternatives else (alternatives ++ [value])%list) raw [].

Definition decision_checksum (title summary rationale : string) (alternatives : list string) : string :=
  sha256 (json_dumps false (VDict
    [("title", VStr title); ("summary", VStr summary); ("rationale", VStr rationale);
     ("alternatives", VList (map VStr alternatives))])).

(** The row but for its id, which the flush draws. *)
Definition _new_decision_version (p : Principal) (decision_id : uuid) (version : Z)
    (content : DecisionContentRequest) (created_at : Z) (id : uuid) : WorkspaceDecisionVersion :=
  let title := redact_text (strip (DecisionContentRequest.title content)) in
  let summary := redact_text (strip (DecisionContentRequest.summary content)) in
  let rationale := redact_text (strip (DecisionContentRequest.rationale content)) in
  let alternatives := distinct_alternatives (DecisionContentRequest.alternatives content) in
  WorkspaceDecisionVersion.Make id (Principal.organization_id p) decision_id version title summary
    rationale alternatives (Principal.id p)
    (decision_checksum title summary rationale alternatives) created_at.

(** ** Lookups *)

(** [_check_version] *)
Definition _check_version {S} (aggregate : string) (aggregate_id : uuid) (current expected : Z) : Py S unit :=
  raise_if (negb (current =? expected)%Z)
    (ConflictError (aggregate +:+ "_version_conflict")
      "The record changed after it was loaded; refresh and retry"
      [("id", VStr (uuid_str aggregate_id)); ("expected_version", VInt expected);
       ("current_version", VInt current)]).

(** [_task]; [for_update] locks the row, which a serial session does not see. *)
Definition _task (p : Principal) (task_id : uuid) (write : bool) : Py Collab (WorkspaceTask * Workspace) :=
  row ← gets (λ s, row_by WorkspaceTask.id (tasks s) task_id);
  let missing := raise (NotFoundError "WorkspaceTask" (uuid_str task_id)) in
  match row with
  | None => missing
  | Some task =>
      if bool_decide (WorkspaceTask.organization_id task = Principal.organization_id p) then
        workspace ← in_kernel (require_workspace_access p (WorkspaceTask.workspace_id task) write);
        mret (task, workspace)
      else missing
  end.

Definition _decision (p : Principal) (decision_id : uuid) (write : bool) :
    Py Collab (WorkspaceDecision * Workspace) :=
  row ← gets (λ s, row_by WorkspaceDecision.id (decisions s) decision_id);
  let missing := raise (NotFoundError "WorkspaceDecision" (uuid_str decision_id)) in
  match row with
  | None => missing
  | Some decision =>
      if bool_decide (WorkspaceDecision.organization_id decision = Principal.organization_id p) then
        workspace ← in_kernel (require_workspace_access p (WorkspaceDecision.workspace_id decision) write);
        mret (decision, workspace)
      else missing
  end.

(** The workspace of a Run of the principal's organization. *)
Definition source_workspace (p : Principal) (run_id : uuid) (k : Kernel) : option uuid :=
  run ← row_by Run.id (runs k) run_id;
  if bool_decide (Run.organization_id run = Principal.organization_id p) then
    turn ← turns (directory k) !! Run.turn_id run;
    thread ← threads (directory k) !! Turn.thread_id turn;
    Some (Thread.workspace_id thread)
  else None.

Definition _require_source_run (p : Principal) (workspace_id run_id : uuid) : Py Kernel unit :=
  require_run_access p run_id false;;
  source_workspace_id ← gets (source_workspace p run_id);
  raise_if (negb (bool_decide (source_workspace_id = Some workspace_id)))
    (ValidationError "workspace_source_run_mismatch"
      "The source run must belong to the same workspace" []).

(** A member of the workspace, in the principal's organization. *)
Definition has_membership (d : Directory) (organization_id workspace_id user_id : uuid) : bool :=
  existsb (λ m, bool_decide (WorkspaceMember.organization_id m = organization_id) &&
                bool_decide (WorkspaceMember.workspace_id m = workspace_id) &&
                bool_decide (WorkspaceMember.user_id m = user_id)) (workspace_members d).

Definition assignable (d : Directory) (p : Principal) (workspace : Workspace) (assignee_id : uuid) : bool :=
  match row_by User.id (users d) assignee_id with
  | None => false
  | Some u =>
      bool_decide (User.organization_id u = Principal.organization_id p) && User.active u &&
      (bool_decide (User.id u = Workspace.owner_id workspace) ||
       has_membership d (Principal.organization_id p) (Workspace.id workspace) (User.id u))
  end.

Definition _require_assignee (p : Principal) (workspace : Workspace) (assignee_id : uuid) : Py Kernel unit :=
  d ← gets directory;
  raise_if (negb (assignable d p workspace assignee_id))
    (ValidationError "workspace_task_assignee_invalid"
      "The assignee must be an active workspace member" []).

(** A check on a value that may be absent. *)
Definition when_given {A S} (o : option A) (check : A → Py S unit) : Py S unit :=
  match o with Some a => check a | None => mret () end.

(** The version a decision stands at. *)
Definition is_version (decision_id : uuid) (version : Z) (v : WorkspaceDecisionVersion) : bool :=
  bool_decide (WorkspaceDecisionVersion.decision_id v = decision_id) &&
  (WorkspaceDecisionVersion.version v =? version)%Z.

Definition current_of (d : WorkspaceDecision) (s : Collab) : option WorkspaceDecisionVersion :=
  head (List.filter (is_version (WorkspaceDecision.id d) (WorkspaceDecision.current_version d)) (versions s)).

Definition version_missing : exn :=
  ConflictError "workspace_decision_version_missing" "The current decision version is unavailable" [].

Section Service.
Context `{Environment, EventContracts, JsonEncoder}.

(** ** Journal *)

Definition collab_event (p : Principal) (workspace : Workspace) (event_name aggregate_type : string)
    (aggregate_id : uuid) (run_id : option uuid) (correlation : uuid) (payload : list (string * obj)) :
    EventDraft :=
  (event_draft event_name aggregate_type aggregate_id (Principal.organization_id p) correlation
     ActorType.USER (Some (Principal.id p)))
    <| EventDraft.run_id := run_id |> <| EventDraft.classification := Workspace.classification workspace |>
    <| EventDraft.payload := map (λ '(k, v), (OStr k, v)) payload |>.

Definition collab_audit (p : Principal) (audit_action aggregate_type : string) (aggregate_id : uuid)
    (correlation : uuid) (payload : list (string * obj)) : AuditDraft :=
  (audit_draft (Principal.organization_id p) correlation ActorType.USER (Some (Principal.id p))
     audit_action aggregate_type "SUCCESS")
    <| AuditDraft.resource_id := Some (uuid_str aggregate_id) |> <| AuditDraft.metadata := payload |>.

Definition _record (p : Principal) (workspace : Workspace) (event_name audit_action aggregate_type : string)
    (aggregate_id : uuid) (run_id : option uuid) (payload : list (string * obj))
    (correlation_id : option uuid) : Py Collab unit :=
  correlation ← match correlation_id with Some c => mret c | None => in_kernel new_id end;
  in_kernel (append (collab_event p workspace event_name aggregate_type aggregate_id run_id correlation payload));;
  in_kernel (write (collab_audit p audit_action aggregate_type aggregate_id correlation payload));;
  mret ().

(** ** Tasks *)

Definition create_task (p : Principal) (workspace_id : uuid) (r : CreateWorkspaceTaskRequest) :
    Py Collab WorkspaceTask :=
  workspace ← in_kernel (require_workspace_access p workspace_id true);
  when_given (CreateWorkspaceTaskRequest.assignee_id r) (λ a, in_kernel (_require_assignee p workspace a));;
  when_given (CreateWorkspaceTaskRequest.source_run_id r)
    (λ run_id, in_kernel (_require_source_run p (Workspace.id workspace) run_id));;
  id ← in_kernel new_id;
  now ← in_kernel utc_now;
  let task := new_task id p workspace r now in
  taken ← gets (λ s, bool_decide (is_Some (tasks s !! id)));
  raise_if (taken || negb (nonempty_title (WorkspaceTask.title task))) (PyError "IntegrityError");;
  put_task id task;;
  _record p workspace "workspace_task.created" "workspace_task.create" "workspace_task" id
    (WorkspaceTask.source_run_id task)
    [("workspace_id", OStr (uuid_str (Workspace.id workspace)));
     ("status", OEnum (value_of (WorkspaceTask.status task)));
     ("priority", OEnum (value_of (WorkspaceTask.priority task)));
     ("version", OInt (WorkspaceTask.version task))] None;;
  mret task.

Definition list_tasks (p : Principal) (workspace_id : uuid) (status : option WorkspaceTaskStatus)
    (assignee_id : option uuid) (limit : nat) : Py Collab (list WorkspaceTask) :=
  in_kernel (require_workspace_access p workspace_id false);;
  all ← gets (λ s, select (λ t,
    bool_decide (WorkspaceTask.organization_id t = Principal.organization_id p) &&
    bool_decide (WorkspaceTask.workspace_id t = workspace_id) &&
    match status with Some st => bool_decide (WorkspaceTask.status t = st) | None => true end &&
    match assignee_id with
    | Some a => bool_decide (WorkspaceTask.assignee_id t = Some a) | None => true end) (tasks s));
  mret (take limit (order_by (λ a b,
    (WorkspaceTask.updated_at b <? WorkspaceTask.updated_at a)%Z ||
    ((WorkspaceTask.updated_at b =? WorkspaceTask.updated_at a)%Z &&
     (WorkspaceTask.id a <=? WorkspaceTask.id b)%N)) all)).

(** The task as the assignments so far left it, with the names of the changed fields. *)
Definition editing : Type := WorkspaceTask * list string.

(** [if value != task.field: task.field = value; changed.append(name)] *)
Definition assign {A} `{EqDecision A} (name : string) (get : WorkspaceTask → A)
    (put : A → WorkspaceTask → WorkspaceTask) (value : A) (e : editing) : editing :=
  if bool_decide (value = get e.1) then e else (put value e.1, (e.2 ++ [name])%list).

(** [if name in request.model_fields_set: if value is None: raise ...] *)
Definition edit_required {A} (field : option (option A)) (code message : string)
    (edit : A → editing → editing) (e : editing) : Py Collab editing :=
  match field with
  | None => mret e
  | Some None => raise (ValidationError code message [])
  | Some (Some value) => mret (edit value e)
  end.

Definition edit_assignee (p : Principal) (workspace : Workspace) (field : option (option uuid))
    (e : editing) : Py Collab editing :=
  match field with
  | None => mret e
  | Some value =>
      when_given value (λ a, in_kernel (_require_assignee p workspace a));;
      mret (assign "assignee_id" WorkspaceTask.assignee_id with_assignee value e)
  end.

(** The last block also says what the event tells about the status. *)
Definition edit_status (field : option (option WorkspaceTaskStatus)) (e : editing) :
    Py Collab (editing * list (string * obj)) :=
  let unchanged := [("status", OEnum (value_of (WorkspaceTask.status e.1)))] in
  match field with
  | None => mret (e, unchanged)
  | Some None => raise (ValidationError "workspace_task_status_required" "Task status cannot be null" [])
  | Some (Some status) =>
      if bool_decide (status = WorkspaceTask.status e.1) then mret (e, unchanged)
      else
        let previous := WorkspaceTask.status e.1 in
        Collaboration.validate_task_transition previous status;;
        completed_at ← (if bool_decide (status = WorkspaceTaskStatus.COMPLETED)
                        then now ← in_kernel utc_now; mret (Some now) else mret None);
        mret ((with_task_status status completed_at e.1, (e.2 ++ ["status"; "completed_at"])%list),
              [("previous_status", OEnum (value_of previous)); ("status", OEnum (value_of status))])
  end.

(** [sorted(set(changed))] *)
Definition sorted_fields (changed : list string) : list string :=
  order_by string_le (remove_dups changed).

(** The edits of [update_task], in their order. *)
Definition edit_task (p : Principal) (workspace : Workspace) (r : UpdateWorkspaceTaskRequest)
    (task : WorkspaceTask) : Py Collab (editing * list (string * obj)) :=
  e ← edit_required (UpdateWorkspaceTaskRequest.title r) "workspace_task_title_required"
        "Task title cannot be null"
        (λ v, assign "title" WorkspaceTask.title with_title (redact_text (strip v))) (task, []);
  e ← edit_required (UpdateWorkspaceTaskRequest.description r) "workspace_task_description_required"
        "Task description cannot be null"
        (λ v, assign "description" WorkspaceTask.description with_description (redact_text (strip v))) e;
  e ← edit_required (UpdateWorkspaceTaskRequest.priority r) "workspace_task_priority_required"
        "Task priority cannot be null"
        (λ v, assign "priority" WorkspaceTask.priority with_priority v) e;
  e ← edit_assignee p workspace (UpdateWorkspaceTaskRequest.assignee_id r) e;
  edit_status (UpdateWorkspaceTaskRequest.status r)
    (match UpdateWorkspaceTaskRequest.due_at r with
     | None => e
     | Some due_at => assign "due_at" WorkspaceTask.due_at with_due_at due_at e
     end).

Definition update_task (p : Principal) (task_id : uuid) (r : UpdateWorkspaceTaskRequest) :
    Py Collab WorkspaceTask :=
  '(task, workspace) ← _task p task_id true;
  _check_version "workspace_task" (WorkspaceTask.id task) (WorkspaceTask.version task)
    (UpdateWorkspaceTaskRequest.expected_version r);;
  '(e, status_change) ← edit_task p workspace r task;
  raise_if (bool_decide (e.2 = []))
    (ConflictError "workspace_task_no_changes" "The task update does not change the record" []);;
  now ← in_kernel utc_now;
  let task := with_next_version now e.1 in
  raise_if (negb (nonempty_title (WorkspaceTask.title task))) (PyError "IntegrityError");;
  put_task task_id task;;
  _record p workspace "workspace_task.updated" "workspace_task.update" "workspace_task"
    (WorkspaceTask.id task) (WorkspaceTask.source_run_id task)
    ([("workspace_id", OStr (uuid_str (Workspace.id workspace)));
      ("changed_fields", OSeq (map OStr (sorted_fields e.2)));
      ("version", OInt (WorkspaceTask.version task))] ++ status_change)%list None;;
  mret task.

(** ** Decisions *)

(** [session.add(version); flush()]: the id must be free, [(decision_id, version)] too,
    and the title not blank. *)
Definition insert_version (row : uuid → WorkspaceDecisionVersion) : Py Collab WorkspaceDecisionVersion :=
  id ← in_kernel new_id;
  let v := row id in
  taken ← gets (λ s, existsb (λ v', bool_decide (WorkspaceDecisionVersion.id v' = id) ||
      is_version (WorkspaceDecisionVersion.decision_id v) (WorkspaceDecisionVersion.version v) v') (versions s));
  raise_if (taken || negb (nonempty_title (WorkspaceDecisionVersion.title v))) (PyError "IntegrityError");;
  add_version v;;
  mret v.

(** What a proposal may supersede. *)
Definition check_superseded (p : Principal) (workspace : Workspace) (decision_id : uuid) : Py Collab unit :=
  '(superseded, _) ← _decision p decision_id true;
  raise_if (negb (bool_decide (WorkspaceDecision.workspace_id superseded = Workspace.id workspace)))
    (ValidationError "workspace_decision_supersedes_workspace_mismatch"
      "A decision can only supersede a decision in the same workspace" []);;
  raise_if (negb (bool_decide (WorkspaceDecision.status superseded = WorkspaceDecisionStatus.ACCEPTED)))
    (ConflictError "workspace_decision_supersedes_not_accepted"
      "Only an accepted decision can be superseded"
      [("current_status", VStr (value_of (WorkspaceDecision.status superseded)))]).

Definition create_decision (p : Principal) (workspace_id : uuid) (r : CreateWorkspaceDecisionRequest) :
    Py Collab (WorkspaceDecision * WorkspaceDecisionVersion) :=
  workspace ← in_kernel (require_workspace_access p workspace_id true);
  when_given (CreateWorkspaceDecisionRequest.source_run_id r)
    (λ run_id, in_kernel (_require_source_run p (Workspace.id workspace) run_id));;
  when_given (CreateWorkspaceDecisionRequest.supersedes_decision_id r) (check_superseded p workspace);;
  id ← in_kernel new_id;
  now ← in_kernel utc_now;
  let decision := WorkspaceDecision.Make id (Principal.organization_id p) (Workspace.id workspace)
    WorkspaceDecisionStatus.PROPOSED 1 (Principal.id p) None
    (CreateWorkspaceDecisionRequest.source_run_id r)
    (CreateWorkspaceDecisionRequest.supersedes_decision_id r) None now now in
  taken ← gets (λ s, bool_decide (is_Some (decisions s !! id)));
  raise_if (taken || bool_decide (CreateWorkspaceDecisionRequest.supersedes_decision_id r = Some id))
    (PyError "IntegrityError");;
  put_decision id decision;;
  created_at ← in_kernel utc_now;
  version ← insert_version
    (_new_decision_version p id 1 (CreateWorkspaceDecisionRequest.content r) created_at);
  _record p workspace "workspace_decision.proposed" "workspace_decision.create" "workspace_decision" id
    (WorkspaceDecision.source_run_id decision)
    [("workspace_id", OStr (uuid_str (Workspace.id workspace))); ("version", OInt 1);
     ("checksum_sha256", OStr (WorkspaceDecisionVersion.checksum_sha256 version));
     ("supersedes_decision_id",
        match WorkspaceDecision.supersedes_decision_id decision with
        | Some i => OStr (uuid_str i) | None => ONone end)] None;;
  mret (decision, version).

Definition list_decisions (p : Principal) (workspace_id : uuid) (status : option WorkspaceDecisionStatus)
    (limit : nat) : Py Collab (list (WorkspaceDecision * WorkspaceDecisionVersion)) :=
  in_kernel (require_workspace_access p workspace_id false);;
  s ← gets (λ s, s);
  let matching d :=
    bool_decide (WorkspaceDecision.organization_id d = Principal.organization_id p) &&
    bool_decide (WorkspaceDecision.workspace_id d = workspace_id) &&
    match status with Some st => bool_decide (WorkspaceDecision.status d = st) | None => true end in
  let joined d := map (pair d) (List.filter (λ v,
    is_version (WorkspaceDecision.id d) (WorkspaceDecision.current_version d) v &&
    bool_decide (WorkspaceDecisionVersion.organization_id v = Principal.organization_id p)) (versions s)) in
  mret (take limit (order_by (λ a b,
    (WorkspaceDecision.updated_at b.1 <? WorkspaceDecision.updated_at a.1)%Z ||
    ((WorkspaceDecision.updated_at b.1 =? WorkspaceDecision.updated_at a.1)%Z &&
     (WorkspaceDecision.id a.1 <=? WorkspaceDecision.id b.1)%N))
    (select matching (decisions s) ≫= joined))).

Definition list_decision_versions (p : Principal) (decision_id : uuid) :
    Py Collab (list WorkspaceDecisionVersion) :=
  _decision p decision_id false;;
  all ← gets (λ s, List.filter (λ v,
    bool_decide (WorkspaceDecisionVersion.organization_id v = Principal.organization_id p) &&
    bool_decide (WorkspaceDecisionVersion.decision_id v = decision_id)) (versions s));
  mret (order_by (λ a b, (WorkspaceDecisionVersion.version b <=? WorkspaceDecisionVersion.version a)%Z) all).

Definition revise_decision (p : Principal) (decision_id : uuid) (r : ReviseWorkspaceDecisionRequest) :
    Py Collab (WorkspaceDecision * WorkspaceDecisionVersion) :=
  '(decision, workspace) ← _decision p decision_id true;
  _check_version "workspace_decision" (WorkspaceDecision.id decision)
    (WorkspaceDecision.current_version decision) (ReviseWorkspaceDecisionRequest.expected_version r);;
  raise_if (negb (bool_decide (WorkspaceDecision.status decision = WorkspaceDecisionStatus.PROPOSED)))
    (ConflictError "workspace_decision_revision_closed" "Only a proposed decision can be revised"
      [("current_status", VStr (value_of (WorkspaceDecision.status decision)))]);;
  current ← gets (current_of decision);
  match current with
  | None => raise version_missing
  | Some current =>
      let next_version := (WorkspaceDecision.current_version decision + 1)%Z in
      created_at ← in_kernel utc_now;
      let version := _new_decision_version p (WorkspaceDecision.id decision) next_version
                       (ReviseWorkspaceDecisionRequest.content r) created_at in
      raise_if (bool_decide (WorkspaceDecisionVersion.checksum_sha256 (version 0%N) =
                             WorkspaceDecisionVersion.checksum_sha256 current))
        (ConflictError "workspace_decision_no_changes"
          "The decision revision does not change the governed content" []);;
      now ← in_kernel utc_now;
      let decision := with_current_version next_version now decision in
      put_decision decision_id decision;;
      version ← insert_version version;
      _record p workspace "workspace_decision.revised" "workspace_decision.revise" "workspace_decision"
        (WorkspaceDecision.id decision) (WorkspaceDecision.source_run_id decision)
        [("workspace_id", OStr (uuid_str (Workspace.id workspace))); ("version", OInt next_version);
         ("previous_version", OInt (next_version - 1));
         ("checksum_sha256", OStr (WorkspaceDecisionVersion.checksum_sha256 version))] None;;
      mret (decision, version)
  end.

(** Accepting a decision retires the one it supersedes. *)
Definition supersede (p : Principal) (decision : WorkspaceDecision) (workspace : Workspace)
    (superseded_id : uuid) (correlation_id : uuid) : Py Collab unit :=
  '(superseded, superseded_workspace) ← _decision p superseded_id true;
  raise_if (negb (bool_decide
      (WorkspaceDecision.workspace_id superseded = WorkspaceDecision.workspace_id decision)))
    (ValidationError "workspace_decision_supersedes_workspace_mismatch"
      "The superseded decision no longer belongs to this workspace" []);;
  Collaboration.validate_decision_transition (WorkspaceDecision.status superseded)
    WorkspaceDecisionStatus.SUPERSEDED;;
  now ← in_kernel utc_now;
  put_decision superseded_id (with_superseded now superseded);;
  _record p superseded_workspace "workspace_decision.superseded" "workspace_decision.supersede"
    "workspace_decision" (WorkspaceDecision.id superseded) (WorkspaceDecision.source_run_id superseded)
    [("workspace_id", OStr (uuid_str (Workspace.id workspace)));
     ("superseded_by_decision_id", OStr (uuid_str (WorkspaceDecision.id decision)));
     ("version", OInt (WorkspaceDecision.current_version superseded))] (Some correlation_id).

Definition decide (p : Principal) (decision_id : uuid) (expected_version : Z)
    (target : WorkspaceDecisionStatus) : Py Collab (WorkspaceDecision * WorkspaceDecisionVersion) :=
  raise_if (negb (bool_decide
      (target ∈ [WorkspaceDecisionStatus.ACCEPTED; WorkspaceDecisionStatus.REJECTED])))
    (ValidationError "workspace_decision_target_invalid"
      "A proposed decision can only be accepted or rejected" []);;
  '(decision, workspace) ← _decision p decision_id true;
  _check_version "workspace_decision" (WorkspaceDecision.id decision)
    (WorkspaceDecision.current_version decision) expected_version;;
  Collaboration.validate_decision_transition (WorkspaceDecision.status decision) target;;
  correlation_id ← in_kernel new_id;
  let accepted := bool_decide (target = WorkspaceDecisionStatus.ACCEPTED) in
  when_given (if accepted then WorkspaceDecision.supersedes_decision_id decision else None)
    (λ superseded_id, supersede p decision workspace superseded_id correlation_id);;
  decided_at ← in_kernel utc_now;
  now ← in_kernel utc_now;
  let decision := with_decision target p decided_at now decision in
  put_decision decision_id decision;;
  version ← gets (current_of decision);
  match version with
  | None => raise version_missing
  | Some version =>
      _record p workspace
        (if accepted then "workspace_decision.accepted" else "workspace_decision.rejected")
        (if accepted then "workspace_decision.accept" else "workspace_decision.reject")
        "workspace_decision" (WorkspaceDecision.id decision) (WorkspaceDecision.source_run_id decision)
        [("workspace_id", OStr (uuid_str (Workspace.id workspace))); ("status", OEnum (value_of target));
         ("version", OInt (WorkspaceDecision.current_version decision));
         ("checksum_sha256", OStr (WorkspaceDecisionVersion.checksum_sha256 version))]
        (Some correlation_id);;
      mret (decision, version)
  end.

(** ** Event history *)

Definition list_task_events (p : Principal) (task_id : uuid) (after_sequence : Z) (limit : nat) :
    Py Collab (list Event) :=
  _task p task_id false;;
  gets (λ s, list_aggregate (Principal.organization_id p) "workspace_task" task_id after_sequence limit (base s)).

Definition list_decision_events (p : Principal) (decision_id : uuid) (after_sequence : Z) (limit : nat) :
    Py Collab (list Event) :=
  _decision p decision_id false;;
  gets (λ s, list_aggregate (Principal.organization_id p) "workspace_decision" decision_id after_sequence
               limit (base s)).

(** ** Endpoints ([api/collaboration.py]) *)

Definition create_workspace_task (p : Principal) (workspace_id : uuid) (r : CreateWorkspaceTaskRequest) :
    Py Collab WorkspaceTask :=
  validated (valid_create_task r);; savepoint (create_task p workspace_id r).

Definition update_workspace_task (p : Principal) (task_id : uuid) (r : UpdateWorkspaceTaskRequest) :
    Py Collab WorkspaceTask :=
  validated (valid_update_task r);; savepoint (update_task p task_id r).

Definition create_workspace_decision (p : Principal) (workspace_id : uuid)
    (r : CreateWorkspaceDecisionRequest) : Py Collab (WorkspaceDecision * WorkspaceDecisionVersion) :=
  validated (valid_content (CreateWorkspaceDecisionRequest.content r));;
  savepoint (create_decision p workspace_id r).

Definition revise_workspace_decision (p : Principal) (decision_id : uuid)
    (r : ReviseWorkspaceDecisionRequest) : Py Collab (WorkspaceDecision * WorkspaceDecisionVersion) :=
  validated (valid_content (ReviseWorkspaceDecisionRequest.content r) &&
             (1 <=? ReviseWorkspaceDecisionRequest.expected_version r)%Z);;
  savepoint (revise_decision p decision_id r).

(** [accept_workspace_decision] and [reject_workspace_decision]. *)
Definition _decide_workspace_decision (p : Principal) (decision_id : uuid) (expected_version : Z)
    (target : WorkspaceDecisionStatus) : Py Collab (WorkspaceDecision * WorkspaceDecisionVersion) :=
  validated (1 <=? expected_version)%Z;; savepoint (decide p decision_id expected_version target).

Definition accept_workspace_decision (p : Principal) (decision_id : uuid) (expected_version : Z) :=
  _decide_workspace_decision p decision_id expected_version WorkspaceDecisionStatus.ACCEPTED.
Definition reject_workspace_decision (p : Principal) (decision_id : uuid) (expected_version : Z) :=
  _decide_workspace_decision p decision_id expected_version WorkspaceDecisionStatus.REJECTED.
End Service.
