(* ===== verification/CollaborationFacts.v ===== *)
(** * What the collaboration service promises

    [move] is the abstract transition relation of the three tables, [well_formed] its
    invariant.  Every endpoint call is one [move], whatever its outcome; from that the
    file derives that no task update is lost, and how decisions can evolve. *)

From S2P Require Import Prelude PyText PyVal Redaction Enums Models Kernel Domain.
From S2P Require Import CanonicalJson Events EventLog Identity CollaborationService.

(** The rows, whatever the shared tables. *)
Definition same_rows (s s' : Collab) : Prop :=
  tasks s' = tasks s ∧ decisions s' = decisions s ∧ versions s' = versions s.

(** No table of the session differs. *)
Definition unchanged (s s' : Collab) : Prop := same_rows s s' ∧ same_tables (base s) (base s').

Lemma same_rows_set_kernel s k : same_rows s (set_kernel k s).
Proof. done. Qed.

Lemma rolled_back s s' : unchanged s (rollback s s').
Proof. done. Qed.

(** One event and one audit entry after an id was drawn and the clock was read. *)
Definition journaled_after `{Environment, EventContracts, JsonEncoder} (d : EventDraft) (a : AuditDraft)
    (k k' : Kernel) : Prop := ∃ k0, same_tables k k0 ∧ journaled d a k0 k'.

(** ** Rules *)

(** The row a principal may work on, and its workspace. *)
Record reaches_task (p : Principal) (id : uuid) (write : bool) (s : Collab) (t : WorkspaceTask)
    (w : Workspace) : Prop := {
  reached_task : row_by WorkspaceTask.id (tasks s) id = Some t;
  reached_task_organization : WorkspaceTask.organization_id t = Principal.organization_id p;
  reached_task_workspace :
    row_by Workspace.id (workspaces (directory (base s))) (WorkspaceTask.workspace_id t) = Some w;
  reached_task_access : accessible (directory (base s)) p write w = true
}.

Record reaches_decision (p : Principal) (id : uuid) (write : bool) (s : Collab) (d : WorkspaceDecision)
    (w : Workspace) : Prop := {
  reached_decision : row_by WorkspaceDecision.id (decisions s) id = Some d;
  reached_decision_organization : WorkspaceDecision.organization_id d = Principal.organization_id p;
  reached_decision_workspace :
    row_by Workspace.id (workspaces (directory (base s))) (WorkspaceDecision.workspace_id d) = Some w;
  reached_decision_access : accessible (directory (base s)) p write w = true
}.

Lemma wp__task p id write s (Q : WorkspaceTask * Workspace → Collab → Prop) X :
  (∀ t w, reaches_task p id write s t w → Q (t, w) s) → (∀ e, X e s) →
  wp (_task p id write) Q X s.
Proof.
  intros HQ HX. unfold _task. apply wp_bind, wp_gets.
  destruct (row_by _ _ _) as [t|] eqn:Ht; [|by apply wp_raise].
  case_bool_decide; [|by apply wp_raise]. apply wp_bind, wp_read; [apply _|].
  apply wp_workspace_access; [|auto]. intros w Hw Ha. apply wp_ret, HQ. by split.
Qed.

Lemma wp__decision p id write s (Q : WorkspaceDecision * Workspace → Collab → Prop) X :
  (∀ d w, reaches_decision p id write s d w → Q (d, w) s) → (∀ e, X e s) →
  wp (_decision p id write) Q X s.
Proof.
  intros HQ HX. unfold _decision. apply wp_bind, wp_gets.
  destruct (row_by _ _ _) as [d|] eqn:Hd; [|by apply wp_raise].
  case_bool_decide; [|by apply wp_raise]. apply wp_bind, wp_read; [apply _|].
  apply wp_workspace_access; [|auto]. intros w Hw Ha. apply wp_ret, HQ. by split.
Qed.

#[export] Instance require_assignee_pure p w a : Pure (_require_assignee p w a).
Proof. unfold _require_assignee. apply _. Qed.

#[export] Instance require_source_run_pure p w r : Pure (_require_source_run p w r).
Proof. unfold _require_source_run. apply _. Qed.

(** A drawn id, or a reading of the clock, and nothing else. *)
Lemma wp_tick {A} (m : Py Kernel A) s (Q : A → Collab → Prop) X :
  (∀ k (R : A → Kernel → Prop) Y, (∀ a k', same_tables k k' → R a k') → wp m R Y k) →
  (∀ a k', same_tables (base s) k' → Q a (set_kernel k' s)) →
  wp (in_kernel m) Q X s.
Proof. intros Hm HQ. apply wp_in_kernel, Hm. auto. Qed.

Ltac tick := apply wp_bind, wp_tick; [intros; (apply wp_utc_now || apply wp_new_id); by auto|].

Lemma wp_check_version {S} aggregate id current expected (s : S) (Q : () → S → Prop) X :
  (current = expected → Q () s) → (current ≠ expected → ∀ e, X e s) →
  wp (_check_version aggregate id current expected) Q X s.
Proof.
  intros HQ HX. apply wp_raise_if; intros Hc; split_bool.
  - apply HX. by apply Z.eqb_neq.
  - apply HQ. by apply Z.eqb_eq.
Qed.

(** The optional checks of a request either pass or raise. *)
Lemma wp_when_given {A} (o : option A) (check : A → Py Kernel unit) `{∀ a, Pure (check a)} s
    (Q : () → Collab → Prop) X :
  ((∀ a, o = Some a → check a (base s) = Ok () (base s)) → Q () s) → (∀ e, X e s) →
  wp (when_given o (λ a, in_kernel (check a))) Q X s.
Proof.
  intros HQ HX. destruct o as [a|]; [|by apply wp_ret, HQ]. cbn. apply wp_read; [apply _|].
  apply wp_pure; [apply _| |by auto]. intros [] Ha. apply HQ. by intros a' [= <-].
Qed.

Section Rules.
Context `{Environment, EventContracts, JsonEncoder}.

Lemma wp__record p w event_name audit_action ty id run_id payload c s (Q : () → Collab → Prop) X :
  (∀ correlation k', default correlation c = correlation →
     journaled_after (collab_event p w event_name ty id run_id correlation payload)
       (collab_audit p audit_action ty id correlation payload) (base s) k' → Q () (set_kernel k' s)) →
  (∀ e k', X e (set_kernel k' s)) →
  wp (_record p w event_name audit_action ty id run_id payload c) Q X s.
Proof.
  intros HQ HX. unfold _record.
  assert (∀ correlation k0, default correlation c = correlation → same_tables (base s) k0 →
    wp (in_kernel (append (collab_event p w event_name ty id run_id correlation payload));;
        in_kernel (write (collab_audit p audit_action ty id correlation payload));; mret ()) Q X
      (set_kernel k0 s)) as Hj.
  { intros correlation k0 Hc Hk0. apply wp_journal.
    - intros k' Hj. apply wp_ret. apply (HQ correlation); [done|]. by exists k0.
    - intros e k' _ _. apply HX. }
  destruct c as [c|].
  - apply wp_bind, wp_ret. specialize (Hj c (base s)). destruct s. apply Hj; [done|].
    unfold same_tables. cbn. by destruct base.
  - tick. intros c k0 Hk0. by apply Hj.
Qed.
End Rules.

(** ** Editing a task *)

(** A field set to null where a value is required. *)
Definition is_null {A} (field : option (option A)) : bool :=
  match field with Some None => true | _ => false end.

Module Requested.
Import UpdateWorkspaceTaskRequest.

(** The values a request asks for, as they would be stored. *)
Definition task_title (r : UpdateWorkspaceTaskRequest) : option string :=
  (λ v, redact_text (strip v)) <$> mjoin (title r).
Definition task_description (r : UpdateWorkspaceTaskRequest) : option string :=
  (λ v, redact_text (strip v)) <$> mjoin (description r).
Definition task_priority (r : UpdateWorkspaceTaskRequest) : option WorkspaceTaskPriority := mjoin (priority r).
Definition task_status (r : UpdateWorkspaceTaskRequest) : option WorkspaceTaskStatus := mjoin (status r).
End Requested.

(** A request that a task may be edited by. *)
Record editable (d : Directory) (p : Principal) (w : Workspace) (r : UpdateWorkspaceTaskRequest)
    (t : WorkspaceTask) : Prop := {
  editable_required :
    is_null (UpdateWorkspaceTaskRequest.title r) = false ∧
    is_null (UpdateWorkspaceTaskRequest.description r) = false ∧
    is_null (UpdateWorkspaceTaskRequest.priority r) = false ∧
    is_null (UpdateWorkspaceTaskRequest.status r) = false;
  editable_assignee a : UpdateWorkspaceTaskRequest.assignee_id r = Some (Some a) → assignable d p w a = true;
  editable_status st : Requested.task_status r = Some st →
    st = WorkspaceTask.status t ∨ st ∈ Collaboration._TASK_TRANSITIONS (WorkspaceTask.status t)
}.

(** The task after the edits: the columns a request sets, and [completed_at] when the
    status changes. *)
Definition edited (r : UpdateWorkspaceTaskRequest) (completed : Z) (t : WorkspaceTask) : WorkspaceTask :=
  let status := default (WorkspaceTask.status t) (Requested.task_status r) in
  WorkspaceTask.Make (WorkspaceTask.id t) (WorkspaceTask.organization_id t) (WorkspaceTask.workspace_id t)
    (default (WorkspaceTask.title t) (Requested.task_title r))
    (default (WorkspaceTask.description t) (Requested.task_description r))
    status
    (default (WorkspaceTask.priority t) (Requested.task_priority r))
    (default (WorkspaceTask.assignee_id t) (UpdateWorkspaceTaskRequest.assignee_id r))
    (WorkspaceTask.created_by t) (WorkspaceTask.source_run_id t)
    (default (WorkspaceTask.due_at t) (UpdateWorkspaceTaskRequest.due_at r))
    (if bool_decide (status = WorkspaceTask.status t) then WorkspaceTask.completed_at t
     else if bool_decide (status = WorkspaceTaskStatus.COMPLETED) then Some completed else None)
    (WorkspaceTask.version t) (WorkspaceTask.created_at t) (WorkspaceTask.updated_at t).

Definition differs {A} `{EqDecision A} (name : string) (get : WorkspaceTask → A) (t t' : WorkspaceTask) :
    list string :=
  if bool_decide (get t' = get t) then [] else [name].

(** The names of the columns in which two versions of a task differ; a change of status
    always names [completed_at]. *)
Definition changed_columns (t t' : WorkspaceTask) : list string :=
  (differs "title" WorkspaceTask.title t t' ++ differs "description" WorkspaceTask.description t t' ++
   differs "priority" WorkspaceTask.priority t t' ++ differs "assignee_id" WorkspaceTask.assignee_id t t' ++
   differs "due_at" WorkspaceTask.due_at t t' ++ differs "status" WorkspaceTask.status t t' ++
   (if bool_decide (WorkspaceTask.status t' = WorkspaceTask.status t) then [] else ["completed_at"]))%list.

Definition status_change (t t' : WorkspaceTask) : list (string * obj) :=
  if bool_decide (WorkspaceTask.status t' = WorkspaceTask.status t)
  then [("status", OEnum (value_of (WorkspaceTask.status t)))]
  else [("previous_status", OEnum (value_of (WorkspaceTask.status t)));
        ("status", OEnum (value_of (WorkspaceTask.status t')))].

(** One [if] of the edits, as a change of columns. *)
Lemma assign_eq {A} `{EqDecision A} name get put (value : A) t l :
  (∀ t, put (get t) t = t) →
  assign name get put value (t, l) =
  (put value t, (l ++ if bool_decide (value = get t) then [] else [name])%list).
Proof.
  intros Hput. unfold assign. cbn. case_bool_decide as Hv; [|done]. subst value.
  by rewrite Hput, app_nil_r.
Qed.

Lemma assign_opt {A} `{EqDecision A} name get put (o : option A) t l :
  (∀ t, put (get t) t = t) →
  match o with Some v => assign name get put v (t, l) | None => (t, l) end =
  (match o with Some v => put v t | None => t end,
   (l ++ if bool_decide (default (get t) o = get t) then [] else [name])%list).
Proof.
  intros Hput. destruct o as [v|]; cbn; [by apply assign_eq|].
  by rewrite bool_decide_true, app_nil_r.
Qed.

Lemma with_title_same t : with_title (WorkspaceTask.title t) t = t. Proof. by destruct t. Qed.
Lemma with_description_same t : with_description (WorkspaceTask.description t) t = t. Proof. by destruct t. Qed.
Lemma with_priority_same t : with_priority (WorkspaceTask.priority t) t = t. Proof. by destruct t. Qed.
Lemma with_assignee_same t : with_assignee (WorkspaceTask.assignee_id t) t = t. Proof. by destruct t. Qed.
Lemma with_due_at_same t : with_due_at (WorkspaceTask.due_at t) t = t. Proof. by destruct t. Qed.

(** The columns of a request, assigned one after the other. *)
Definition assigned (r : UpdateWorkspaceTaskRequest) (t : WorkspaceTask) : WorkspaceTask :=
  let t := match Requested.task_title r with Some v => with_title v t | None => t end in
  let t := match Requested.task_description r with Some v => with_description v t | None => t end in
  let t := match Requested.task_priority r with Some v => with_priority v t | None => t end in
  let t := match UpdateWorkspaceTaskRequest.assignee_id r with Some v => with_assignee v t | None => t end in
  match UpdateWorkspaceTaskRequest.due_at r with Some v => with_due_at v t | None => t end.

Lemma assigned_status r t : WorkspaceTask.status (assigned r t) = WorkspaceTask.status t.
Proof. unfold assigned. by repeat case_match. Qed.

Lemma assigned_edited r completed t :
  edited r completed t =
    match Requested.task_status r with
    | Some st =>
        if bool_decide (st = WorkspaceTask.status t) then assigned r t
        else with_task_status st (if bool_decide (st = WorkspaceTaskStatus.COMPLETED)
                                  then Some completed else None) (assigned r t)
    | None => assigned r t
    end.
Proof.
  unfold edited, assigned.
  destruct (Requested.task_status r) as [st|]; cbn.
  - case_bool_decide as Hst.
    + subst st. destruct t; by repeat case_match.
    + destruct t; by repeat case_match.
  - rewrite bool_decide_true by done. destruct t; by repeat case_match.
Qed.

(** The names collected on the way are those of the columns that differ in the end. *)
Definition renamed {A} `{EqDecision A} (name : string) (get : WorkspaceTask → A) (o : option A)
    (t : WorkspaceTask) : list string :=
  if bool_decide (default (get t) o = get t) then [] else [name].

Lemma wp_edit_column {A B} `{EqDecision B} (field : option (option A)) code message name get put
    (f : A → B) t l s (Q : editing → Collab → Prop) X :
  (∀ t, put (get t) t = t) →
  (is_null field = false →
     Q (match f <$> mjoin field with Some v => put v t | None => t end,
        (l ++ renamed name get (f <$> mjoin field) t)%list) s) →
  (∀ err, X err s) →
  wp (edit_required field code message (λ v, assign name get put (f v)) (t, l)) Q X s.
Proof.
  intros Hput HQ HX. unfold renamed in HQ. rewrite <-assign_opt in HQ by done.
  destruct field as [[v|]|]; [by apply HQ|by apply HX|by apply HQ].
Qed.

Lemma renamed_columns r completed t :
  changed_columns t (edited r completed t) =
    (renamed "title" WorkspaceTask.title (Requested.task_title r) t ++
     renamed "description" WorkspaceTask.description (Requested.task_description r) t ++
     renamed "priority" WorkspaceTask.priority (Requested.task_priority r) t ++
     renamed "assignee_id" WorkspaceTask.assignee_id (UpdateWorkspaceTaskRequest.assignee_id r) t ++
     renamed "due_at" WorkspaceTask.due_at (UpdateWorkspaceTaskRequest.due_at r) t ++
     renamed "status" WorkspaceTask.status (Requested.task_status r) t ++
     (if bool_decide (default (WorkspaceTask.status t) (Requested.task_status r) = WorkspaceTask.status t)
      then [] else ["completed_at"]))%list.
Proof. done. Qed.

Lemma wp_edit_status field t l s (Q : editing * list (string * obj) → Collab → Prop) X :
  (∀ completed k', is_null field = false → same_tables (base s) k' →
     (∀ st, mjoin field = Some st →
        st = WorkspaceTask.status t ∨ st ∈ Collaboration._TASK_TRANSITIONS (WorkspaceTask.status t)) →
     let t' := match mjoin field with
               | Some st => if bool_decide (st = WorkspaceTask.status t) then t
                            else with_task_status st (if bool_decide (st = WorkspaceTaskStatus.COMPLETED)
                                                      then Some completed else None) t
               | None => t
               end in
     Q ((t', (l ++ renamed "status" WorkspaceTask.status (mjoin field) t ++
              (if bool_decide (default (WorkspaceTask.status t) (mjoin field) = WorkspaceTask.status t)
               then [] else ["completed_at"]))%list), status_change t t') (set_kernel k' s)) →
  (∀ err s', X err s') → wp (edit_status field (t, l)) Q X s.
Proof.
  intros HQ HX. specialize (λ k', HQ 0%Z k') as HQ0. unfold edit_status. cbn [fst snd].
  assert (set_kernel (base s) s = s) as Hsame by by destruct s.
  assert (same_tables (base s) (base s)) as Hrefl by (unfold same_tables; by destruct (base s)).
  destruct field as [[st|]|]; [|by apply wp_raise|].
  2: { specialize (HQ0 (base s) eq_refl Hrefl). rewrite Hsame in HQ0. cbn in HQ0. unfold renamed, status_change in HQ0.
       cbn in HQ0. rewrite !bool_decide_true, app_nil_r in HQ0 by done. apply wp_ret, HQ0. done. }
  destruct (decide_rel (=) st (WorkspaceTask.status t)) as [Hst|Hst];
    [rewrite (bool_decide_true _ Hst)|rewrite (bool_decide_false _ Hst)].
  { specialize (HQ0 (base s) eq_refl Hrefl). rewrite Hsame in HQ0. cbn in HQ0. unfold renamed, status_change in HQ0.
    rewrite !(bool_decide_true (st = _)) in HQ0 by done. cbn in HQ0.
    rewrite bool_decide_true, !app_nil_r in HQ0 by done. apply wp_ret, HQ0.
    intros ? [= <-]. by left. }
  apply wp_bind, Collaboration.wp_task_transition; [intros Hok|by intros]. cbn in HQ.
  assert (∀ completed k', same_tables (base s) k' →
    Q (with_task_status st (if bool_decide (st = WorkspaceTaskStatus.COMPLETED) then Some completed else None) t,
       (l ++ ["status"; "completed_at"])%list,
       [("previous_status", OEnum (value_of (WorkspaceTask.status t))); ("status", OEnum (value_of st))])
      (set_kernel k' s)) as HQ'.
  { intros c k' Hk. specialize (HQ c k' eq_refl Hk). unfold renamed, status_change in HQ. cbn in HQ.
    rewrite !(bool_decide_false (st = WorkspaceTask.status t)) in HQ by done. cbn in HQ.
    rewrite ?(bool_decide_false (st = WorkspaceTask.status t)) in HQ by done. apply HQ.
    intros ? [= <-]. naive_solver. }
  destruct (bool_decide (st = WorkspaceTaskStatus.COMPLETED)).
  - apply wp_bind. tick. intros now k' Hk. apply wp_ret, wp_ret. by apply (HQ' now).
  - apply wp_bind, wp_ret, wp_ret. rewrite <-Hsame. by apply (HQ' 0%Z).
Qed.

Lemma wp_edit_assignee p w field t l s (Q : editing → Collab → Prop) X :
  ((∀ a, field = Some (Some a) → assignable (directory (base s)) p w a = true) →
     Q (match field with Some v => with_assignee v t | None => t end,
        (l ++ renamed "assignee_id" WorkspaceTask.assignee_id field t)%list) s) →
  (∀ err, X err s) → wp (edit_assignee p w field (t, l)) Q X s.
Proof.
  intros HQ HX. unfold renamed in HQ. rewrite <-assign_opt in HQ by apply with_assignee_same.
  destruct field as [value|]; [|by apply HQ]. cbn [edit_assignee]. apply wp_bind.
  apply (wp_when_given value (λ a, _require_assignee p w a)); [|auto]. intros Hv. apply wp_ret, HQ.
  intros a [= ->]. specialize (Hv a eq_refl).
  unfold _require_assignee, raise_if, gets, mbind, M_bind in Hv.
  by destruct (assignable _ p w a).
Qed.

Lemma wp_edit_task p w r t s (Q : editing * list (string * obj) → Collab → Prop) X :
  (∀ completed k', editable (directory (base s)) p w r t → same_tables (base s) k' →
     Q ((edited r completed t, changed_columns t (edited r completed t)),
        status_change t (edited r completed t)) (set_kernel k' s)) →
  (∀ err s', X err s') →
  wp (edit_task p w r t) Q X s.
Proof.
  intros HQ HX. unfold edit_task.
  apply wp_bind, wp_edit_column; [apply with_title_same| |auto]. intros Ht.
  apply wp_bind, wp_edit_column; [apply with_description_same| |auto]. intros Hd.
  apply wp_bind, (wp_edit_column _ _ _ _ _ _ (λ v, v)); [apply with_priority_same| |auto]. intros Hp.
  apply wp_bind, wp_edit_assignee; [|auto]. intros Ha. rewrite assign_opt by apply with_due_at_same.
  rewrite option_fmap_id.
  apply (wp_edit_status _ (assigned r t)); [|auto]. intros completed k' Hs Hk Hst t'.
  assert (t' = edited r completed t) as Hfinal.
  { rewrite assigned_edited, <-(assigned_status r t). done. }
  rewrite assigned_status in Hst.
  assert (status_change (assigned r t) t' = status_change t (edited r completed t)) as Hchange.
  { unfold status_change. by rewrite assigned_status, Hfinal. }
  rewrite Hchange, Hfinal.
  match goal with |- Q ((_, ?l), _) _ => assert (l = changed_columns t (edited r completed t)) as -> end.
  { rewrite renamed_columns. unfold assigned, Requested.task_title, Requested.task_description,
      Requested.task_priority, Requested.task_status.
    rewrite <-!(assoc_L (++)).
    by destruct (mjoin (UpdateWorkspaceTaskRequest.title r)),
      (mjoin (UpdateWorkspaceTaskRequest.description r)), (mjoin (UpdateWorkspaceTaskRequest.priority r)),
      (UpdateWorkspaceTaskRequest.assignee_id r), (UpdateWorkspaceTaskRequest.due_at r). }
  apply HQ; [|done]. by split.
Qed.

(** ** Tasks *)

Section Tasks.
Context `{Environment, EventContracts, JsonEncoder}.

Definition task_event (p : Principal) (w : Workspace) (t t' : WorkspaceTask) (correlation : uuid) : EventDraft :=
  collab_event p w "workspace_task.updated" "workspace_task" (WorkspaceTask.id t')
    (WorkspaceTask.source_run_id t') correlation
    ([("workspace_id", OStr (uuid_str (Workspace.id w)));
      ("changed_fields", OSeq (map OStr (sorted_fields (changed_columns t t'))));
      ("version", OInt (WorkspaceTask.version t'))] ++ status_change t t')%list.

Definition task_audit (p : Principal) (w : Workspace) (t t' : WorkspaceTask) (correlation : uuid) : AuditDraft :=
  collab_audit p "workspace_task.update" "workspace_task" (WorkspaceTask.id t') correlation
    ([("workspace_id", OStr (uuid_str (Workspace.id w)));
      ("changed_fields", OSeq (map OStr (sorted_fields (changed_columns t t'))));
      ("version", OInt (WorkspaceTask.version t'))] ++ status_change t t')%list.

(** A successful update of the task [id]: from [t] to [t']. *)
Record task_updated (p : Principal) (id : uuid) (r : UpdateWorkspaceTaskRequest) (s : Collab)
    (t' : WorkspaceTask) (s' : Collab) : Prop := {
  updated_from : ∃ t w completed now,
    reaches_task p id true s t w ∧ WorkspaceTask.version t = UpdateWorkspaceTaskRequest.expected_version r ∧
    editable (directory (base s)) p w r t ∧
    t' = with_next_version now (edited r completed t) ∧ changed_columns t t' ≠ [] ∧
    nonempty_title (WorkspaceTask.title t') = true ∧
    ∃ correlation, journaled_after (task_event p w t t' correlation) (task_audit p w t t' correlation)
                     (base s) (base s');
  updated_tasks : tasks s' = <[id := t']> (tasks s);
  updated_decisions : decisions s' = decisions s ∧ versions s' = versions s
}.

Lemma wp_update_task p id r s (Q : WorkspaceTask → Collab → Prop) X :
  (∀ t' s', task_updated p id r s t' s' → Q t' s') → (∀ e s', X e s') →
  wp (update_task p id r) Q X s.
Proof.
  intros HQ HX. unfold update_task. apply wp_bind, wp__task; [|auto]. intros t w Ht.
  apply wp_bind, wp_check_version; [intros Hv|by auto].
  apply wp_bind, wp_edit_task; [|auto]. intros completed k1 He Hk1. cbv beta iota. cbn [fst snd].
  apply wp_bind, wp_raise_if; [by auto|]. intros Hch. split_bool.
  tick. intros now k2 Hk2. apply wp_bind, wp_raise_if; [by auto|]. intros Htitle. split_bool.
  apply wp_bind, wp_modify. apply wp_bind, wp__record; [|auto].
  intros correlation k' _ Hj. apply wp_ret, HQ. split; [|done..].
  exists t, w, completed, now. do 6 (split; [done|]). exists correlation.
  destruct Hj as (k0 & Hk0 & Hj). exists k0. split; [|exact Hj].
  eapply same_tables_trans; [exact Hk1|]. eapply same_tables_trans; [exact Hk2|exact Hk0].
Qed.
End Tasks.

(** ** Decisions *)

(** [v] is a sealed version of [d]: its checksum is that of its content. *)
Record version_of (d : WorkspaceDecision) (n : Z) (v : WorkspaceDecisionVersion) : Prop := {
  version_decision : WorkspaceDecisionVersion.decision_id v = WorkspaceDecision.id d;
  version_number : WorkspaceDecisionVersion.version v = n;
  version_organization : WorkspaceDecisionVersion.organization_id v = WorkspaceDecision.organization_id d;
  version_sealed : WorkspaceDecisionVersion.checksum_sha256 v =
    decision_checksum (WorkspaceDecisionVersion.title v) (WorkspaceDecisionVersion.summary v)
      (WorkspaceDecisionVersion.rationale v) (WorkspaceDecisionVersion.alternatives v)
}.

(** The decision [d] was proposed to supersede, with what must hold of it. *)
Definition supersedes_in (ds : gmap uuid WorkspaceDecision) (d : WorkspaceDecision) (j : uuid)
    (statuses : list WorkspaceDecisionStatus) : Prop :=
  ∃ d', ds !! j = Some d' ∧
    WorkspaceDecision.organization_id d' = WorkspaceDecision.organization_id d ∧
    WorkspaceDecision.workspace_id d' = WorkspaceDecision.workspace_id d ∧
    WorkspaceDecision.status d' ∈ statuses.

Record proposed (s : Collab) (d : WorkspaceDecision) (v : WorkspaceDecisionVersion) : Prop := {
  proposed_fresh : decisions s !! WorkspaceDecision.id d = None;
  proposed_status : WorkspaceDecision.status d = WorkspaceDecisionStatus.PROPOSED;
  proposed_undecided : WorkspaceDecision.decided_by d = None;
  proposed_first : WorkspaceDecision.current_version d = 1%Z;
  proposed_version : version_of d 1 v;
  proposed_supersedes j : WorkspaceDecision.supersedes_decision_id d = Some j →
    supersedes_in (decisions s) d j [WorkspaceDecisionStatus.ACCEPTED]
}.

(** The rows after a decision: the decision itself and, when it supersedes another one
    and is accepted, that one. *)
Definition decided_rows (p : Principal) (target : WorkspaceDecisionStatus) (d : WorkspaceDecision)
    (decided_at now retired : Z) (ds : gmap uuid WorkspaceDecision) : gmap uuid WorkspaceDecision :=
  <[WorkspaceDecision.id d := with_decision target p decided_at now d]>
    (match WorkspaceDecision.supersedes_decision_id d with
     | Some j => if bool_decide (target = WorkspaceDecisionStatus.ACCEPTED)
                 then alter (with_superseded retired) j ds else ds
     | None => ds
     end).

(** What one call does to the tables: nothing, or one of five moves. *)
Inductive move (s s' : Collab) : Prop :=
| Kept : same_rows s s' → move s s'
| TaskCreated id t :
    tasks s !! id = None → WorkspaceTask.id t = id → WorkspaceTask.version t = 1%Z →
    WorkspaceTask.status t = WorkspaceTaskStatus.OPEN → WorkspaceTask.completed_at t = None →
    tasks s' = <[id := t]> (tasks s) → decisions s' = decisions s → versions s' = versions s → move s s'
| TaskUpdated id r completed now t :
    tasks s !! id = Some t → WorkspaceTask.id t = id →
    WorkspaceTask.version t = UpdateWorkspaceTaskRequest.expected_version r →
    (∀ st, Requested.task_status r = Some st →
       st = WorkspaceTask.status t ∨ st ∈ Collaboration._TASK_TRANSITIONS (WorkspaceTask.status t)) →
    tasks s' = <[id := with_next_version now (edited r completed t)]> (tasks s) →
    decisions s' = decisions s → versions s' = versions s → move s s'
| Proposed d v :
    proposed s d v → tasks s' = tasks s → decisions s' = <[WorkspaceDecision.id d := d]> (decisions s) →
    versions s' = (versions s ++ [v])%list → move s s'
| Revised d v v' now :
    decisions s !! WorkspaceDecision.id d = Some d →
    WorkspaceDecision.status d = WorkspaceDecisionStatus.PROPOSED →
    v ∈ versions s → is_version (WorkspaceDecision.id d) (WorkspaceDecision.current_version d) v = true →
    version_of d (WorkspaceDecision.current_version d + 1) v' →
    WorkspaceDecisionVersion.checksum_sha256 v' ≠ WorkspaceDecisionVersion.checksum_sha256 v →
    tasks s' = tasks s →
    decisions s' = <[WorkspaceDecision.id d := with_current_version (WorkspaceDecision.current_version d + 1) now d]>
                     (decisions s) →
    versions s' = (versions s ++ [v'])%list → move s s'
| Decided p target d decided_at now retired :
    decisions s !! WorkspaceDecision.id d = Some d →
    WorkspaceDecision.status d = WorkspaceDecisionStatus.PROPOSED →
    target ∈ [WorkspaceDecisionStatus.ACCEPTED; WorkspaceDecisionStatus.REJECTED] →
    (∀ j, target = WorkspaceDecisionStatus.ACCEPTED → WorkspaceDecision.supersedes_decision_id d = Some j →
       j ≠ WorkspaceDecision.id d ∧ supersedes_in (decisions s) d j [WorkspaceDecisionStatus.ACCEPTED]) →
    tasks s' = tasks s →
    decisions s' = decided_rows p target d decided_at now retired (decisions s) →
    versions s' = versions s → move s s'.

(** What the relation between decisions depends on. *)
Record face : Type := MkFace {
  face_organization : uuid;
  face_workspace : uuid;
  face_status : WorkspaceDecisionStatus;
  face_supersedes : option uuid
}.

Definition face_of (d : WorkspaceDecision) : face :=
  MkFace (WorkspaceDecision.organization_id d) (WorkspaceDecision.workspace_id d)
    (WorkspaceDecision.status d) (WorkspaceDecision.supersedes_decision_id d).

Definition faces (ds : gmap uuid WorkspaceDecision) (id : uuid) : option face := face_of <$> ds !! id.

(** Accepted at some time. *)
Definition adopted (f : face) : Prop :=
  face_status f = WorkspaceDecisionStatus.ACCEPTED ∨ face_status f = WorkspaceDecisionStatus.SUPERSEDED.

(** A decision refers to one of its workspace that was adopted; one is superseded exactly
    when an adopted one refers to it, and there is at most one such. *)
Record superseding (g : uuid → option face) : Prop := {
  superseding_target i f j : g i = Some f → face_supersedes f = Some j →
    ∃ f', g j = Some f' ∧ face_organization f' = face_organization f ∧
      face_workspace f' = face_workspace f ∧ adopted f';
  superseding_status j f' : g j = Some f' →
    face_status f' = WorkspaceDecisionStatus.SUPERSEDED ↔
    ∃ i f, g i = Some f ∧ face_supersedes f = Some j ∧ adopted f;
  superseding_once i1 i2 f1 f2 j : g i1 = Some f1 → g i2 = Some f2 →
    face_supersedes f1 = Some j → face_supersedes f2 = Some j → adopted f1 → adopted f2 → i1 = i2
}.

(** The invariant of the tables. *)
Record well_formed (s : Collab) : Prop := {
  formed_tasks id t : tasks s !! id = Some t →
    WorkspaceTask.id t = id ∧ (1 <= WorkspaceTask.version t)%Z ∧
    (is_Some (WorkspaceTask.completed_at t) ↔ WorkspaceTask.status t = WorkspaceTaskStatus.COMPLETED);
  formed_decisions id d : decisions s !! id = Some d →
    WorkspaceDecision.id d = id ∧
    (WorkspaceDecision.decided_by d = None ↔ WorkspaceDecision.status d = WorkspaceDecisionStatus.PROPOSED) ∧
    (1 <= WorkspaceDecision.current_version d)%Z ∧
    WorkspaceDecisionVersion.version <$>
      filter (λ v, WorkspaceDecisionVersion.decision_id v = id) (versions s) =
    numbers (Z.to_nat (WorkspaceDecision.current_version d));
  formed_versions v : v ∈ versions s → ∃ d,
    decisions s !! WorkspaceDecisionVersion.decision_id v = Some d ∧
    version_of d (WorkspaceDecisionVersion.version v) v;
  formed_graph : superseding (faces (decisions s))
}.

(** ** Every call is one move *)

Lemma new_version_of p d n content created id :
  Principal.organization_id p = WorkspaceDecision.organization_id d →
  version_of d n (_new_decision_version p (WorkspaceDecision.id d) n content created id).
Proof. by split. Qed.

Section Moves.
Context `{Environment, EventContracts, JsonEncoder}.

Lemma task_updated_move p id r s t' s' : task_updated p id r s t' s' → move s s'.
Proof.
  intros [(t & w & completed & now & Ht & Hv & He & -> & _) Htasks [Hd Hvs]].
  destruct (proj1 (row_by_Some _ _ _ _) (reached_task _ _ _ _ _ _ Ht)) as [Hrow Hid].
  eapply (TaskUpdated _ _ id r completed now t); try done. apply (editable_status _ _ _ _ _ He).
Qed.

Lemma wp_create_task p wid r s (Q : WorkspaceTask → Collab → Prop) X :
  (∀ t s', move s s' → Q t s') → (∀ e s', X e s') → wp (create_task p wid r) Q X s.
Proof.
  intros HQ HX. unfold create_task. apply wp_bind, wp_read; [apply _|].
  apply wp_workspace_access; [|auto]. intros w _ _.
  apply wp_bind, (wp_when_given _ (λ a, _require_assignee p w a)); [intros _|auto].
  apply wp_bind, (wp_when_given _ (λ a, _require_source_run p (Workspace.id w) a)); [intros _|auto].
  tick. intros id k1 _. tick. intros now k2 _. apply wp_bind, wp_gets.
  apply wp_bind, wp_raise_if; [auto|]. intros Hfresh. split_bool. apply wp_bind, wp_modify.
  apply wp_bind, wp__record; [|auto]. intros c k' _ _. apply wp_ret, HQ.
  apply (TaskCreated _ _ id (new_task id p w r now)); try done.
  by apply eq_None_not_Some.
Qed.

Lemma wp_insert_version row s (Q : WorkspaceDecisionVersion → Collab → Prop) X :
  (∀ id k', Q (row id) (MkCollab k' (tasks s) (decisions s) (versions s ++ [row id])%list)) →
  (∀ e s', X e s') → wp (insert_version row) Q X s.
Proof.
  intros HQ HX. unfold insert_version. tick. intros id k _. apply wp_bind, wp_gets.
  apply wp_bind, wp_raise_if; [auto|]. intros _. apply wp_bind, wp_modify. by apply wp_ret, HQ.
Qed.

Lemma wp_create_decision p wid r s (Q : WorkspaceDecision * WorkspaceDecisionVersion → Collab → Prop) X :
  (∀ dv s', move s s' → Q dv s') → (∀ e s', X e s') → wp (create_decision p wid r) Q X s.
Proof.
  intros HQ HX. unfold create_decision. apply wp_bind, wp_read; [apply _|].
  apply wp_workspace_access; [|auto]. intros w _ _.
  apply wp_bind, (wp_when_given _ (λ a, _require_source_run p (Workspace.id w) a)); [intros _|auto].
  apply wp_bind. apply (wp_mono _ (λ _ s', s' = s ∧ ∀ j,
    CreateWorkspaceDecisionRequest.supersedes_decision_id r = Some j →
    ∃ d', decisions s !! j = Some d' ∧
      WorkspaceDecision.organization_id d' = Principal.organization_id p ∧
      WorkspaceDecision.workspace_id d' = Workspace.id w ∧
      WorkspaceDecision.status d' ∈ [WorkspaceDecisionStatus.ACCEPTED]) _ (λ _ _, True)); [| |auto].
  { destruct (CreateWorkspaceDecisionRequest.supersedes_decision_id r) as [j|]; [|by apply wp_ret].
    cbn. unfold check_superseded. apply wp_bind, wp__decision; [|done]. intros d w' Hd.
    apply wp_bind, wp_raise_if; [done|]. intros Hw. apply wp_raise_if; [done|]. intros Hst. split_bool.
    split; [done|]. intros j' [= <-]. exists d.
    destruct (proj1 (row_by_Some _ _ _ _) (reached_decision _ _ _ _ _ _ Hd)) as [Hrow _].
    split; [done|]. split; [apply (reached_decision_organization _ _ _ _ _ _ Hd)|].
    split; [done|]. by apply list_elem_of_singleton. }
  intros [] s0 [-> Hsup]. tick. intros id k1 _. tick. intros now k2 _. apply wp_bind, wp_gets.
  apply wp_bind, wp_raise_if; [auto|]. intros Hfresh. split_bool. apply wp_bind, wp_modify.
  tick. intros created k3 _. apply wp_bind, wp_insert_version; [|auto]. intros vid k4.
  apply wp_bind, wp__record; [|auto]. intros c k' _ _. apply wp_ret, HQ.
  set (d := WorkspaceDecision.Make id _ _ _ _ _ _ _ _ _ _ _).
  apply (Proposed _ _ d (_new_decision_version p (WorkspaceDecision.id d) 1
           (CreateWorkspaceDecisionRequest.content r) created vid)); [|done..].
  split; try done. by apply eq_None_not_Some.
Qed.

Lemma current_of_Some d s v : current_of d s = Some v →
  v ∈ versions s ∧ is_version (WorkspaceDecision.id d) (WorkspaceDecision.current_version d) v = true.
Proof.
  unfold current_of. intros Hv%head_elem. apply list_elem_of_In, filter_In in Hv as [Hv Hc].
  by apply list_elem_of_In in Hv.
Qed.

Lemma wp_revise_decision p id r s (Q : WorkspaceDecision * WorkspaceDecisionVersion → Collab → Prop) X :
  (∀ dv s', move s s' → Q dv s') → (∀ e s', X e s') → wp (revise_decision p id r) Q X s.
Proof.
  intros HQ HX. unfold revise_decision. apply wp_bind, wp__decision; [|auto]. intros d w Hd.
  apply wp_bind, wp_check_version; [intros _|by auto]. apply wp_bind, wp_raise_if; [auto|]. intros Hst. split_bool.
  apply wp_bind, wp_gets. destruct (current_of d s) as [v|] eqn:Hv; [|by apply wp_raise].
  tick. intros created k1 _. apply wp_bind, wp_raise_if; [auto|]. intros Hsum. split_bool.
  tick. intros now k2 _. apply wp_bind, wp_modify. apply wp_bind, wp_insert_version; [|auto]. intros vid k3.
  apply wp_bind, wp__record; [|auto]. intros c k' _ _. apply wp_ret, HQ.
  destruct (proj1 (row_by_Some _ _ _ _) (reached_decision _ _ _ _ _ _ Hd)) as [Hrow Hid].
  destruct (current_of_Some _ _ _ Hv) as [Hin Hcur]. subst id.
  apply (Revised _ _ d v (_new_decision_version p (WorkspaceDecision.id d)
    (WorkspaceDecision.current_version d + 1) (ReviseWorkspaceDecisionRequest.content r) created vid) now
    Hrow Hst Hin Hcur); [|exact Hsum|done..].
  apply new_version_of. symmetry. apply (reached_decision_organization _ _ _ _ _ _ Hd).
Qed.

(** A decision, spelled out. *)
Record decided (p : Principal) (id : uuid) (expected : Z) (target : WorkspaceDecisionStatus) (s : Collab)
    (d' : WorkspaceDecision) (v : WorkspaceDecisionVersion) (s' : Collab) : Prop := {
  decided_target : target ∈ [WorkspaceDecisionStatus.ACCEPTED; WorkspaceDecisionStatus.REJECTED];
  decided_from : ∃ d w decided_at now retired,
    reaches_decision p id true s d w ∧ WorkspaceDecision.current_version d = expected ∧
    WorkspaceDecision.status d = WorkspaceDecisionStatus.PROPOSED ∧
    d' = with_decision target p decided_at now d ∧ current_of d s = Some v ∧
    (∀ j, target = WorkspaceDecisionStatus.ACCEPTED → WorkspaceDecision.supersedes_decision_id d = Some j →
       j ≠ id ∧ supersedes_in (decisions s) d j [WorkspaceDecisionStatus.ACCEPTED]) ∧
    decisions s' = decided_rows p target d decided_at now retired (decisions s);
  decided_other : tasks s' = tasks s ∧ versions s' = versions s;
  decided_recorded : recorded (base s) (base s')
}.

Lemma decided_move p id expected target s d' v s' :
  decided p id expected target s d' v s' → move s s'.
Proof.
  intros [Ht (d & w & decided_at & now & retired & Hd & _ & Hst & _ & _ & Hsup & Hds) [Htasks Hvs] _].
  destruct (proj1 (row_by_Some _ _ _ _) (reached_decision _ _ _ _ _ _ Hd)) as [Hrow Hid]. subst id.
  by eapply (Decided _ _ p target d decided_at now retired).
Qed.

(** What the decision finds of the one it supersedes. *)
Lemma wp_supersede p d w j correlation s (Q : () → Collab → Prop) X :
  WorkspaceDecision.organization_id d = Principal.organization_id p →
  (∀ retired k', supersedes_in (decisions s) d j [WorkspaceDecisionStatus.ACCEPTED] →
     recorded (base s) k' →
     Q () (MkCollab k' (tasks s) (alter (with_superseded retired) j (decisions s)) (versions s))) →
  (∀ e s', X e s') → wp (supersede p d w j correlation) Q X s.
Proof.
  intros Horg HQ HX. unfold supersede. apply wp_bind, wp__decision; [|auto]. intros e we He.
  destruct (proj1 (row_by_Some _ _ _ _) (reached_decision _ _ _ _ _ _ He)) as [Hrow Hid].
  apply wp_bind, wp_raise_if; [auto|]. intros Hw. split_bool.
  apply wp_bind, Collaboration.wp_decision_transition; [|auto]. intros Hst.
  tick. intros now k1 Hk1. apply wp_bind, wp_modify. apply wp__record; [|auto].
  intros c k' _ (k0 & Hk0 & Hj).
  assert (<[j := with_superseded now e]> (decisions s) = alter (with_superseded now) j (decisions s)) as Halter
    by (symmetry; by apply alter_found).
  change (Q () (MkCollab k' (tasks s) (<[j := with_superseded now e]> (decisions s)) (versions s))).
  rewrite Halter. apply HQ.
  - exists e. split; [done|]. split; [by rewrite (reached_decision_organization _ _ _ _ _ _ He)|].
    split; [done|]. apply list_elem_of_singleton. by destruct (WorkspaceDecision.status e); set_solver.
  - etransitivity; [|exact (journaled_recorded _ _ _ _ Hj)].
    etransitivity; [by apply same_recorded|]. by apply same_recorded.
Qed.

Lemma wp_collab_decide p id expected target s (Q : WorkspaceDecision * WorkspaceDecisionVersion → Collab → Prop) X :
  (∀ d v s', decided p id expected target s d v s' → Q (d, v) s') → (∀ e s', X e s') →
  wp (decide p id expected target) Q X s.
Proof.
  intros HQ HX. unfold decide. apply wp_bind, wp_raise_if; [auto|]. intros Ht. split_bool.
  apply wp_bind, wp__decision; [|auto]. intros d w Hd.
  destruct (proj1 (row_by_Some _ _ _ _) (reached_decision _ _ _ _ _ _ Hd)) as [Hrow Hid].
  pose proof (reached_decision_organization _ _ _ _ _ _ Hd) as Horg.
  apply wp_bind, wp_check_version; [intros Hv|by auto].
  apply wp_bind, Collaboration.wp_decision_transition; [|auto]. intros Htrans.
  assert (WorkspaceDecision.status d = WorkspaceDecisionStatus.PROPOSED) as Hst.
  { destruct (WorkspaceDecision.status d); set_solver. }
  tick. intros correlation k1 Hk1. apply wp_bind.
  apply (wp_mono _ (λ _ s1, ∃ retired, recorded (base s) (base s1) ∧ tasks s1 = tasks s ∧
    versions s1 = versions s ∧
    decisions s1 = match WorkspaceDecision.supersedes_decision_id d with
                   | Some j => if bool_decide (target = WorkspaceDecisionStatus.ACCEPTED)
                               then alter (with_superseded retired) j (decisions s) else decisions s
                   | None => decisions s end ∧
    ∀ j, target = WorkspaceDecisionStatus.ACCEPTED → WorkspaceDecision.supersedes_decision_id d = Some j →
      supersedes_in (decisions s) d j [WorkspaceDecisionStatus.ACCEPTED]) _ (λ _ _, True)); [| |auto].
  { destruct (WorkspaceDecision.supersedes_decision_id d) as [j|], (bool_decide (target = _)) eqn:Hacc;
      split_bool; try (apply wp_ret; exists 0%Z; (split; [by apply same_recorded|naive_solver])).
    cbn. apply wp_supersede; [done| |done]. intros retired k' Hsup Hrec. exists retired.
    split; [etransitivity; [by apply same_recorded|exact Hrec]|naive_solver]. }
  intros [] s1 (retired & Hrec & Htasks & Hversions & Hds & Hsup).
  tick. intros decided_at k2 Hk2. tick. intros now k3 Hk3. apply wp_bind, wp_modify.
  apply wp_bind, wp_gets.
  match goal with |- wp (match current_of ?d' ?s' with _ => _ end) _ _ _ =>
    assert (current_of d' s' = current_of d s) as -> end.
  { unfold current_of. cbn. by rewrite Hversions. }
  destruct (current_of d s) as [v|] eqn:Hv'; [|by apply wp_raise].
  apply wp_bind, wp__record; [|auto]. intros c k' _ (k0 & Hk0 & Hj). apply wp_ret, HQ.
  split; [done| |by split; [exact Htasks|exact Hversions]|].
  - exists d, w, decided_at, now, retired. do 5 (split; [done|]). split.
    + intros j Hacc Hj'. split; [|by apply Hsup]. intros ->.
      destruct (Hsup _ Hacc Hj') as (d' & Hd' & _ & _ & Hacc'%list_elem_of_singleton). rewrite Hrow in Hd'. injection Hd' as <-. congruence.
    + unfold decided_rows. rewrite <-Hds, Hid. by destruct s1.
  - etransitivity; [exact Hrec|]. etransitivity; [|exact (journaled_recorded _ _ _ _ Hj)].
    etransitivity; [by apply same_recorded|]. etransitivity; by apply same_recorded.
Qed.
End Moves.
