(* ===== verification/CollaborationHistory.v ===== *)
(** * Histories of tasks and decisions

    The invariant of the collaboration tables over any sequence of endpoint calls, what
    can happen to a task and to a decision on the way, and the endpoints on every
    branch. *)

From S2P Require Import Prelude PyText PyVal Redaction Enums Models Kernel Domain.
From S2P Require Import CanonicalJson Events EventLog Identity CollaborationService CollaborationFacts.

(** ** Moves preserve the invariant *)

Lemma same_rows_formed s s' : same_rows s s' → well_formed s → well_formed s'.
Proof. destruct s, s'. intros (Ht & Hd & Hv). cbn in *. subst. by intros []; split. Qed.

Lemma same_decisions_formed s s' :
  decisions s' = decisions s → versions s' = versions s →
  (∀ id t, tasks s' !! id = Some t →
    WorkspaceTask.id t = id ∧ (1 <= WorkspaceTask.version t)%Z ∧
    (is_Some (WorkspaceTask.completed_at t) ↔ WorkspaceTask.status t = WorkspaceTaskStatus.COMPLETED)) →
  well_formed s → well_formed s'.
Proof. intros Hd Hv Ht []. split; rewrite ?Hd, ?Hv; done. Qed.

Lemma edited_completed r completed t :
  (is_Some (WorkspaceTask.completed_at t) ↔ WorkspaceTask.status t = WorkspaceTaskStatus.COMPLETED) →
  is_Some (WorkspaceTask.completed_at (edited r completed t)) ↔
    WorkspaceTask.status (edited r completed t) = WorkspaceTaskStatus.COMPLETED.
Proof.
  intros Ht. cbn. set (st := default _ _). case_bool_decide as Hst; [by rewrite Hst|].
  case_bool_decide; [by subst|]. split; [by intros [? ?]|done].
Qed.

(** ** The supersession graph *)

Lemma superseding_ext g g' : (∀ i, g' i = g i) → superseding g → superseding g'.
Proof.
  intros Heq []. split.
  - intros i f j. rewrite Heq. intros Hi Hj. rewrite Heq. eauto.
  - intros j f'. rewrite Heq. intros Hj. rewrite superseding_status by done. by setoid_rewrite Heq.
  - intros i1 i2 f1 f2 j. rewrite !Heq. eauto.
Qed.

(** No decision refers to one that was never adopted. *)
Lemma superseding_never g i f j f' : superseding g → g j = Some f' → ¬ adopted f' →
  g i = Some f → face_supersedes f ≠ Some j.
Proof. intros Hg Hj Hn Hi Hs. destruct (superseding_target _ Hg _ _ _ Hi Hs) as (f2 & Hf2 & _ & _ & Ha). congruence. Qed.

(** A proposal joins the graph. *)
Lemma superseding_proposed g g' id f :
  g id = None → face_status f = WorkspaceDecisionStatus.PROPOSED →
  (∀ j, face_supersedes f = Some j → ∃ f', g j = Some f' ∧ face_organization f' = face_organization f ∧
     face_workspace f' = face_workspace f ∧ adopted f') →
  g' id = Some f → (∀ i, i ≠ id → g' i = g i) → superseding g → superseding g'.
Proof.
  intros Hfresh Hst Hsup Hid Hother Hg.
  assert (¬ adopted f) as Hn by (unfold adopted; intros [?|?]; congruence).
  assert (∀ i x, g i = Some x → g' i = Some x) as Hkeep.
  { intros i x Hi. rewrite Hother; [done|]. by intros ->; congruence. }
  assert (∀ i x, g' i = Some x → i = id ∧ x = f ∨ g i = Some x) as Hback.
  { intros i x Hi. destruct (decide_rel (=) i id) as [->|Hne]; [left; split; congruence|right; by rewrite <-Hother]. }
  split.
  - intros i x j Hi Hj.
    assert (∃ f', g j = Some f' ∧ face_organization f' = face_organization x ∧
      face_workspace f' = face_workspace x ∧ adopted f') as (f' & Hf' & ?).
    { destruct (Hback _ _ Hi) as [[-> ->]|Hi']; [by apply Hsup|by eapply superseding_target]. }
    exists f'. eauto.
  - intros j x Hj. destruct (Hback _ _ Hj) as [[-> ->]|Hj'].
    + split; [congruence|]. intros (i & y & Hi & Hy & Ha).
      destruct (Hback _ _ Hi) as [[-> ->]|Hi']; [done|].
      destruct (superseding_target _ Hg _ _ _ Hi' Hy) as (? & ? & _). congruence.
    + rewrite (superseding_status _ Hg _ _ Hj'). split; intros (i & y & Hi & Hy & Ha).
      * exists i, y. eauto.
      * destruct (Hback _ _ Hi) as [[-> ->]|Hi']; [done|]. by exists i, y.
  - intros i1 i2 f1 f2 j H1 H2 Hj1 Hj2 Ha1 Ha2.
    destruct (Hback _ _ H1) as [[-> ->]|H1']; [done|]. destruct (Hback _ _ H2) as [[-> ->]|H2']; [done|].
    by eapply (superseding_once _ Hg).
Qed.

Definition with_status (st : WorkspaceDecisionStatus) (f : face) : face :=
  MkFace (face_organization f) (face_workspace f) st (face_supersedes f).

(** A proposal [id] is decided, and an accepted one retires the decision it refers to. *)
Section Decided.
Context (g g' : uuid → option face) (id : uuid) (f : face) (target : WorkspaceDecisionStatus).
Context (Hid : g id = Some f) (Hst : face_status f = WorkspaceDecisionStatus.PROPOSED).
Context (Htarget : target = WorkspaceDecisionStatus.ACCEPTED ∨ target = WorkspaceDecisionStatus.REJECTED).

Definition retired (i : uuid) : Prop :=
  target = WorkspaceDecisionStatus.ACCEPTED ∧ face_supersedes f = Some i.

Context (Hsup : ∀ j, retired j → ∃ f', g j = Some f' ∧ face_status f' = WorkspaceDecisionStatus.ACCEPTED).
Context (Hafter : ∀ i, g' i =
  if bool_decide (i = id) then Some (with_status target f)
  else if bool_decide (target = WorkspaceDecisionStatus.ACCEPTED ∧ face_supersedes f = Some i)
       then with_status WorkspaceDecisionStatus.SUPERSEDED <$> g i else g i).

(** A row before and after. *)
Record evolves (i : uuid) (y x : face) : Prop := {
  evolves_organization : face_organization x = face_organization y;
  evolves_workspace : face_workspace x = face_workspace y;
  evolves_supersedes : face_supersedes x = face_supersedes y;
  evolves_status :
    i = id ∧ y = f ∧ face_status x = target ∨
    i ≠ id ∧ retired i ∧ face_status x = WorkspaceDecisionStatus.SUPERSEDED ∧
      face_status y = WorkspaceDecisionStatus.ACCEPTED ∨
    i ≠ id ∧ ¬ retired i ∧ x = y
}.

Lemma after_before i x : g' i = Some x → ∃ y, g i = Some y ∧ evolves i y x.
Proof.
  rewrite Hafter. case_bool_decide as Hi.
  { intros [= <-]. subst i. exists f. split; [done|]. split; try done. by left. }
  case_bool_decide as Hr; [|intros Hx; exists x; split; [done|]; split; try done; by right; right].
  destruct (Hsup _ Hr) as (y & Hy & Hya). rewrite Hy. intros [= <-]. exists y. split; [done|].
  split; try done. right. left. done.
Qed.

Lemma before_after i y : g i = Some y → ∃ x, g' i = Some x ∧ evolves i y x.
Proof.
  intros Hy. assert (is_Some (g' i)) as [x Hx].
  { rewrite Hafter, Hy. case_bool_decide; [done|]. by case_bool_decide. }
  exists x. split; [done|]. destruct (after_before _ _ Hx) as (y' & Hy' & Hev). congruence.
Qed.

Lemma proposal_not_adopted : ¬ adopted f.
Proof. intros [?|?]; congruence. Qed.

Lemma evolves_adopted i y x : evolves i y x →
  adopted x ↔ adopted y ∨ i = id ∧ target = WorkspaceDecisionStatus.ACCEPTED.
Proof.
  pose proof proposal_not_adopted as Hn. intros [_ _ _ [(-> & -> & Hx)|[(Hi & _ & Hx & Hy)|(Hi & _ & ->)]]].
  - unfold adopted at 1. rewrite Hx. destruct Htarget as [Ht|Ht]; rewrite Ht; split; auto.
    + intros [?|?]; congruence.
    + intros [?|[_ ?]]; [done|congruence].
  - split; [|by intros; right]. by left; left.
  - split; [by left|]. by intros [?|[? _]].
Qed.

Lemma superseding_decided : superseding g → superseding g'.
Proof.
  intros Hg. split.
  - intros i x j Hx Hj. destruct (after_before _ _ Hx) as (y & Hy & Hev).
    rewrite (evolves_supersedes _ _ _ Hev) in Hj.
    destruct (superseding_target _ Hg _ _ _ Hy Hj) as (f' & Hf' & Ho & Hw & Ha).
    destruct (before_after _ _ Hf') as (x' & Hx' & Hev'). exists x'. split; [done|].
    rewrite (evolves_organization _ _ _ Hev'), (evolves_organization _ _ _ Hev),
      (evolves_workspace _ _ _ Hev'), (evolves_workspace _ _ _ Hev).
    split; [done|]. split; [done|]. apply (evolves_adopted _ _ _ Hev'). by left.
  - intros j x' Hx'. destruct (after_before _ _ Hx') as (y' & Hy' & Hev').
    destruct (evolves_status _ _ _ Hev') as [(-> & -> & Hx)|[(Hj & Hr & Hx & _)|(Hj & Hr & ->)]].
    + split; [destruct Htarget; congruence|]. intros (i & x & Hxi & Hs & _).
      destruct (after_before _ _ Hxi) as (y & Hy & Hev). rewrite (evolves_supersedes _ _ _ Hev) in Hs.
      by destruct (superseding_never g i y id f Hg Hid proposal_not_adopted Hy).
    + split; [|done]. intros _. destruct Hr as [Ht Hs]. exists id, (with_status target f).
      rewrite Hafter, bool_decide_true by done. split; [done|]. split; [done|]. by left.
    + rewrite (superseding_status _ Hg _ _ Hy'). split; intros (i & x & Hxi & Hs & Ha).
      * destruct (before_after _ _ Hxi) as (z & Hz & Hev). exists i, z. split; [done|].
        rewrite (evolves_supersedes _ _ _ Hev). split; [done|]. apply (evolves_adopted _ _ _ Hev). by left.
      * destruct (after_before _ _ Hxi) as (y & Hy & Hev). rewrite (evolves_supersedes _ _ _ Hev) in Hs.
        apply (evolves_adopted _ _ _ Hev) in Ha as [Ha|[-> Ht]]; [by exists i, y|].
        destruct Hr. split; [done|]. congruence.
  - intros i1 i2 x1 x2 j H1 H2 Hj1 Hj2 Ha1 Ha2.
    destruct (after_before _ _ H1) as (y1 & Hy1 & Hev1), (after_before _ _ H2) as (y2 & Hy2 & Hev2).
    rewrite (evolves_supersedes _ _ _ Hev1) in Hj1. rewrite (evolves_supersedes _ _ _ Hev2) in Hj2.
    assert (∀ i y, g i = Some y → face_supersedes y = Some j → adopted y → retired j → False) as Hno.
    { intros i y Hy Hj Ha Hr. destruct (Hsup _ Hr) as (f' & Hf' & Hacc).
      assert (face_status f' = WorkspaceDecisionStatus.SUPERSEDED); [|congruence].
      apply (superseding_status _ Hg _ _ Hf'). by exists i, y. }
    apply (evolves_adopted _ _ _ Hev1) in Ha1. apply (evolves_adopted _ _ _ Hev2) in Ha2.
    destruct Ha1 as [Ha1|[-> Ht]], Ha2 as [Ha2|[-> Ht']]; try done.
    + by eapply (superseding_once _ Hg).
    + destruct (Hno _ _ Hy1 Hj1 Ha1). split; [done|]. congruence.
    + destruct (Hno _ _ Hy2 Hj2 Ha2). split; [done|]. congruence.
Qed.
End Decided.

(** ** The invariant *)

Lemma faces_insert ds id d i : faces (<[id := d]> ds) i = if bool_decide (i = id) then Some (face_of d) else faces ds i.
Proof.
  unfold faces. case_bool_decide as Hi; [by rewrite Hi, lookup_insert_eq|].
  by rewrite lookup_insert_ne.
Qed.

Lemma faces_same ds id d d' : ds !! id = Some d → face_of d' = face_of d →
  ∀ i, faces (<[id := d']> ds) i = faces ds i.
Proof.
  intros Hd Hf i. rewrite faces_insert. case_bool_decide as Hi; [|done]. unfold faces. by rewrite Hi, Hd, Hf.
Qed.

(** The rows of the decisions and their versions. *)
Definition numbered (ds : gmap uuid WorkspaceDecision) (vs : list WorkspaceDecisionVersion) : Prop :=
  (∀ id d, ds !! id = Some d →
    WorkspaceDecision.id d = id ∧
    (WorkspaceDecision.decided_by d = None ↔ WorkspaceDecision.status d = WorkspaceDecisionStatus.PROPOSED) ∧
    (1 <= WorkspaceDecision.current_version d)%Z ∧
    WorkspaceDecisionVersion.version <$> filter (λ v, WorkspaceDecisionVersion.decision_id v = id) vs =
    numbers (Z.to_nat (WorkspaceDecision.current_version d))) ∧
  (∀ v, v ∈ vs → ∃ d, ds !! WorkspaceDecisionVersion.decision_id v = Some d ∧
    version_of d (WorkspaceDecisionVersion.version v) v).

Lemma formed_numbered s : well_formed s → numbered (decisions s) (versions s).
Proof. intros Hs. split; [apply (formed_decisions _ Hs)|apply (formed_versions _ Hs)]. Qed.

(** A decision at its next version, or a new one at its first. *)
Lemma numbered_snoc ds vs d v n :
  match ds !! WorkspaceDecision.id d with
  | Some d0 => WorkspaceDecision.current_version d0 = (n - 1)%Z ∧
      WorkspaceDecision.organization_id d0 = WorkspaceDecision.organization_id d
  | None => n = 1%Z
  end →
  WorkspaceDecision.current_version d = n → version_of d n v →
  (WorkspaceDecision.decided_by d = None ↔ WorkspaceDecision.status d = WorkspaceDecisionStatus.PROPOSED) →
  numbered ds vs → numbered (<[WorkspaceDecision.id d := d]> ds) (vs ++ [v])%list.
Proof.
  intros Hd0 Hn Hv Hdec [Hds Hvs]. pose proof (version_decision _ _ _ Hv) as Hvd. split.
  - intros i e. rewrite lookup_insert_Some, filter_app. intros [[<- <-]|[Hi He]].
    + split; [done|]. split; [done|].
      rewrite filter_cons_True by done. rewrite fmap_app. cbn. rewrite (version_number _ _ _ Hv), Hn.
      destruct (ds !! WorkspaceDecision.id d) as [d0|] eqn:Hd.
      * destruct (Hds _ _ Hd) as (_ & _ & Hcur & ->). destruct Hd0 as [Hd0 _].
        rewrite Hd0 in *. split; [lia|].
        replace (Z.to_nat n) with (S (Z.to_nat (n - 1))) by lia. rewrite numbers_S. do 2 f_equal. lia.
      * subst n. split; [lia|]. rewrite filter_none; [done|].
        intros v' Hv' Heq. destruct (Hvs _ Hv') as (e & He & _). congruence.
    + destruct (Hds _ _ He) as (Hid & Hde & Hcur & Hnum). split; [done|]. split; [done|]. split; [done|].
      by rewrite filter_cons_False, app_nil_r by (rewrite Hvd; done).
  - intros v' [Hv'|Hv'%list_elem_of_singleton]%elem_of_app.
    + destruct (Hvs _ Hv') as (e & He & Hof).
      destruct (decide_rel (=) (WorkspaceDecision.id d) (WorkspaceDecisionVersion.decision_id v')) as [Heq|Hne].
      * exists d. rewrite <-Heq, lookup_insert_eq. split; [done|]. rewrite <-Heq in He. rewrite He in Hd0.
        destruct Hd0 as [_ Ho], Hof as [Ha Hb Hc Hd']. split; congruence.
      * exists e. by rewrite lookup_insert_ne.
    + subst v'. exists d. rewrite Hvd, lookup_insert_eq. split; [done|]. by rewrite (version_number _ _ _ Hv).
Qed.

(** A row whose version and identity stay. *)
Lemma numbered_insert ds vs id d d' :
  ds !! id = Some d → WorkspaceDecision.id d' = WorkspaceDecision.id d →
  WorkspaceDecision.organization_id d' = WorkspaceDecision.organization_id d →
  WorkspaceDecision.current_version d' = WorkspaceDecision.current_version d →
  (WorkspaceDecision.decided_by d' = None ↔ WorkspaceDecision.status d' = WorkspaceDecisionStatus.PROPOSED) →
  numbered ds vs → numbered (<[id := d']> ds) vs.
Proof.
  intros Hd Hid Horg Hcur Hdec [Hds Hvs]. split.
  - intros i e. rewrite lookup_insert_Some. intros [[<- <-]|[_ He]]; [|by apply Hds].
    destruct (Hds _ _ Hd) as (Hi & _ & Hc & Hn). rewrite Hid, Hcur. done.
  - intros v Hv. destruct (Hvs _ Hv) as (e & He & [Ha Hb Hc Hs]).
    destruct (decide_rel (=) id (WorkspaceDecisionVersion.decision_id v)) as [Heq|Hne].
    + exists d'. rewrite <-Heq, lookup_insert_eq. split; [done|]. rewrite <-Heq in He. split; congruence.
    + exists e. by rewrite lookup_insert_ne.
Qed.

Lemma graph_proposed s s' d v :
  proposed s d v → decisions s' = <[WorkspaceDecision.id d := d]> (decisions s) →
  superseding (faces (decisions s)) → superseding (faces (decisions s')).
Proof.
  intros Hp Hd Hg. rewrite Hd.
  apply (superseding_proposed (faces (decisions s)) _ (WorkspaceDecision.id d) (face_of d)); [| | | | |done].
  - unfold faces. by rewrite (proposed_fresh _ _ _ Hp).
  - apply (proposed_status _ _ _ Hp).
  - intros j Hj. destruct (proposed_supersedes _ _ _ Hp _ Hj) as (e & He & Ho & Hw & Hst).
    exists (face_of e). unfold faces. rewrite He. split; [done|]. split; [done|]. split; [done|]. left.
    by apply list_elem_of_singleton in Hst.
  - rewrite faces_insert. by rewrite bool_decide_true.
  - intros i Hi. rewrite faces_insert. by rewrite bool_decide_false.
Qed.

Lemma numbered_decided p target d decided_at now ret ds vs :
  ds !! WorkspaceDecision.id d = Some d →
  target ∈ [WorkspaceDecisionStatus.ACCEPTED; WorkspaceDecisionStatus.REJECTED] →
  (∀ j, target = WorkspaceDecisionStatus.ACCEPTED → WorkspaceDecision.supersedes_decision_id d = Some j →
     j ≠ WorkspaceDecision.id d ∧ supersedes_in ds d j [WorkspaceDecisionStatus.ACCEPTED]) →
  numbered ds vs → numbered (decided_rows p target d decided_at now ret ds) vs.
Proof.
  intros Hrow Htarget Hsup Hnum. unfold decided_rows.
  assert (∀ ds0, ds0 !! WorkspaceDecision.id d = Some d → numbered ds0 vs →
    numbered (<[WorkspaceDecision.id d := with_decision target p decided_at now d]> ds0) vs) as Hself.
  { intros ds0 Hd0 Hn0. eapply numbered_insert; [exact Hd0|done..| |done]. split; [done|].
    intros Ht. change (target = WorkspaceDecisionStatus.PROPOSED) in Ht. subst target. set_solver. }
  destruct (WorkspaceDecision.supersedes_decision_id d) as [j|] eqn:Hj; [|by apply Hself].
  case_bool_decide as Hacc; [|by apply Hself].
  destruct (Hsup _ Hacc eq_refl) as (Hne & e & He & _ & _ & Hst%list_elem_of_singleton).
  rewrite (alter_found _ _ _ e He). apply Hself; [by rewrite lookup_insert_ne|].
  eapply numbered_insert; [exact He|done..| |done]. split; [|done].
  intros Hnone. apply Hnum in He as (_ & Hiff & _). apply Hiff in Hnone. congruence.
Qed.

Lemma graph_decided p target d decided_at now ret ds :
  ds !! WorkspaceDecision.id d = Some d → WorkspaceDecision.status d = WorkspaceDecisionStatus.PROPOSED →
  target ∈ [WorkspaceDecisionStatus.ACCEPTED; WorkspaceDecisionStatus.REJECTED] →
  (∀ j, target = WorkspaceDecisionStatus.ACCEPTED → WorkspaceDecision.supersedes_decision_id d = Some j →
     j ≠ WorkspaceDecision.id d ∧ supersedes_in ds d j [WorkspaceDecisionStatus.ACCEPTED]) →
  superseding (faces ds) → superseding (faces (decided_rows p target d decided_at now ret ds)).
Proof.
  intros Hrow Hst Htarget Hsup.
  apply (superseding_decided (faces ds) _ (WorkspaceDecision.id d) (face_of d) target).
  - unfold faces. by rewrite Hrow.
  - exact Hst.
  - clear -Htarget. set_solver.
  - intros j [Hacc Hj]. destruct (Hsup _ Hacc Hj) as (_ & e & He & _ & _ & Hacc'%list_elem_of_singleton).
    exists (face_of e). unfold faces. by rewrite He.
  - intros i. unfold decided_rows. rewrite faces_insert. case_bool_decide; [done|].
    change (face_supersedes (face_of d)) with (WorkspaceDecision.supersedes_decision_id d).
    destruct (WorkspaceDecision.supersedes_decision_id d) as [j|] eqn:Hj.
    2: { rewrite bool_decide_false; [done|]. by intros [_ ?]. }
    destruct (decide_rel (=) target WorkspaceDecisionStatus.ACCEPTED) as [Hacc|Hacc].
    2: { rewrite !bool_decide_false; [done| |done]. by intros [? _]. }
    rewrite (bool_decide_true (target = _)) by done. unfold faces.
    destruct (decide_rel (=) i j) as [->|Hij].
    + rewrite bool_decide_true, lookup_alter_eq by done. by destruct (ds !! j).
    + rewrite bool_decide_false, lookup_alter_ne by (try intros [_ ?]; congruence). done.
Qed.

Lemma formed_move s s' : move s s' → well_formed s → well_formed s'.
Proof.
  intros Hmove Hs. pose proof (formed_numbered _ Hs) as Hnum.
  destruct Hmove as [Hrows|id t Hfresh Hid Hv Hst Hc Ht Hd Hvs|id r completed now t Hrow Hid Hv Hst Ht Hd Hvs
    |d v Hp Ht Hd Hvs|d v v' now Hrow Hst Hin Hcur Hv' Hsum Ht Hd Hvs
    |p target d decided_at now ret Hrow Hst Htarget Hsup Ht Hd Hvs].
  - by eapply same_rows_formed.
  - eapply same_decisions_formed; [done..| |done]. intros i u. rewrite Ht, lookup_insert_Some.
    intros [[<- <-]|[_ Hu]]; [|by apply (formed_tasks _ Hs)]. split; [done|]. split; [lia|].
    rewrite Hc, Hst. split; [by intros [? ?]|done].
  - eapply same_decisions_formed; [done..| |done]. intros i u. rewrite Ht, lookup_insert_Some.
    intros [[<- <-]|[_ Hu]]; [|by apply (formed_tasks _ Hs)].
    destruct (formed_tasks _ Hs _ _ Hrow) as (_ & Hpos & Hdone). split; [done|].
    split; [change (1 <= WorkspaceTask.version t + 1)%Z; lia|]. by apply edited_completed.
  - assert (numbered (decisions s') (versions s')) as [Hds' Hvs'].
    { destruct Hp as [Hfresh Hst Hby Hone Hver _]. rewrite Hd, Hvs. eapply (numbered_snoc _ _ d v 1); [by rewrite Hfresh|done|done|by rewrite Hby, Hst|done]. }
    split; [rewrite Ht; apply (formed_tasks _ Hs)|done..|]. by eapply graph_proposed, formed_graph.
  - assert (numbered (decisions s') (versions s')) as [Hds' Hvs'].
    { rewrite Hd, Hvs. apply (numbered_snoc (decisions s) (versions s)
        (with_current_version (WorkspaceDecision.current_version d + 1) now d) v'
        (WorkspaceDecision.current_version d + 1)); [|done| | |exact Hnum].
      - change (WorkspaceDecision.id (with_current_version _ _ _)) with (WorkspaceDecision.id d).
        rewrite Hrow. split; [lia|done].
      - destruct Hv'. by split.
      - apply (formed_decisions _ Hs _ _ Hrow). }
    split; [rewrite Ht; apply (formed_tasks _ Hs)|done..|].
    eapply superseding_ext; [|apply (formed_graph _ Hs)]. rewrite Hd. by eapply faces_same.
  - assert (numbered (decisions s') (versions s')) as [Hds' Hvs'] by (rewrite Hd, Hvs; by eapply numbered_decided).
    split; [rewrite Ht; apply (formed_tasks _ Hs)|done..|]. rewrite Hd. by apply graph_decided, formed_graph.
Qed.

(** ** Histories *)

(** A task later: unchanged, or at a higher version of the same task. *)
Record task_evolves (t t' : WorkspaceTask) : Prop := {
  task_same : WorkspaceTask.id t' = WorkspaceTask.id t ∧
    WorkspaceTask.organization_id t' = WorkspaceTask.organization_id t ∧
    WorkspaceTask.workspace_id t' = WorkspaceTask.workspace_id t ∧
    WorkspaceTask.created_by t' = WorkspaceTask.created_by t ∧
    WorkspaceTask.source_run_id t' = WorkspaceTask.source_run_id t;
  task_version : t' = t ∨ (WorkspaceTask.version t < WorkspaceTask.version t')%Z
}.

#[export] Instance task_evolves_preorder : PreOrder task_evolves.
Proof.
  split.
  - intros t. split; [done|by left].
  - intros t1 t2 t3 [H12 V12] [H23 V23]. split.
    + destruct H12 as (? & ? & ? & ? & ?), H23 as (? & ? & ? & ? & ?). repeat split; congruence.
    + destruct V12 as [->|V12]; [done|]. right. destruct V23 as [->|V23]; [done|lia].
Qed.

Definition decision_step (a b : WorkspaceDecisionStatus) : Prop := b ∈ Collaboration._DECISION_TRANSITIONS a.

(** A decision later: the same decision, its status moved along the transitions, its
    content and verdict frozen once it is decided. *)
Record decision_evolves (d d' : WorkspaceDecision) : Prop := {
  decision_same : WorkspaceDecision.id d' = WorkspaceDecision.id d ∧
    WorkspaceDecision.organization_id d' = WorkspaceDecision.organization_id d ∧
    WorkspaceDecision.workspace_id d' = WorkspaceDecision.workspace_id d ∧
    WorkspaceDecision.created_by d' = WorkspaceDecision.created_by d ∧
    WorkspaceDecision.supersedes_decision_id d' = WorkspaceDecision.supersedes_decision_id d;
  decision_status : rtc decision_step (WorkspaceDecision.status d) (WorkspaceDecision.status d');
  decision_version : (WorkspaceDecision.current_version d <= WorkspaceDecision.current_version d')%Z;
  decision_frozen : WorkspaceDecision.status d ≠ WorkspaceDecisionStatus.PROPOSED →
    WorkspaceDecision.current_version d' = WorkspaceDecision.current_version d ∧
    WorkspaceDecision.decided_by d' = WorkspaceDecision.decided_by d ∧
    WorkspaceDecision.decided_at d' = WorkspaceDecision.decided_at d
}.

Lemma decided_stays a b : rtc decision_step a b →
  a ≠ WorkspaceDecisionStatus.PROPOSED → b ≠ WorkspaceDecisionStatus.PROPOSED.
Proof.
  induction 1 as [|a b c Hab _ IH]; [done|]. intros _. apply IH. unfold decision_step in Hab.
  destruct a, b; (done || set_solver).
Qed.

#[export] Instance decision_evolves_preorder : PreOrder decision_evolves.
Proof.
  split.
  - intros d. split; [done|apply rtc_refl|done|done].
  - intros d1 d2 d3 [H12 S12 V12 F12] [H23 S23 V23 F23]. split.
    + destruct H12 as (? & ? & ? & ? & ?), H23 as (? & ? & ? & ? & ?). repeat split; congruence.
    + by etransitivity.
    + lia.
    + intros Hd. destruct (F12 Hd) as (? & ? & ?).
      destruct (F23 (decided_stays _ _ S12 Hd)) as (? & ? & ?). repeat split; congruence.
Qed.

(** Every row of a table is still there, evolved. *)
Definition rows_evolve {V} (R : V → V → Prop) (m m' : gmap uuid V) : Prop :=
  ∀ i x, m !! i = Some x → ∃ x', m' !! i = Some x' ∧ R x x'.

Lemma rows_evolve_refl {V} (R : V → V → Prop) `{!Reflexive R} m m' : m' = m → rows_evolve R m m'.
Proof. intros -> i x Hx. by exists x. Qed.

Lemma rows_evolve_trans {V} (R : V → V → Prop) `{!Transitive R} m1 m2 m3 :
  rows_evolve R m1 m2 → rows_evolve R m2 m3 → rows_evolve R m1 m3.
Proof.
  intros H12 H23 i x Hx. destruct (H12 _ _ Hx) as (y & Hy & Hxy). destruct (H23 _ _ Hy) as (z & Hz & Hyz).
  exists z. split; [done|]. by etransitivity.
Qed.

Lemma rows_evolve_insert {V} (R : V → V → Prop) `{!Reflexive R} m i x :
  (∀ y, m !! i = Some y → R y x) → rows_evolve R m (<[i := x]> m).
Proof.
  intros HR j y Hy. destruct (decide_rel (=) j i) as [->|Hne].
  - exists x. rewrite lookup_insert_eq. split; [done|]. by apply HR.
  - exists y. by rewrite lookup_insert_ne.
Qed.

Lemma adopted_evolves st (d d' : WorkspaceDecision) : WorkspaceDecision.status d = st →
  WorkspaceDecision.status d' ∈ Collaboration._DECISION_TRANSITIONS st →
  WorkspaceDecision.id d' = WorkspaceDecision.id d →
  WorkspaceDecision.organization_id d' = WorkspaceDecision.organization_id d →
  WorkspaceDecision.workspace_id d' = WorkspaceDecision.workspace_id d →
  WorkspaceDecision.created_by d' = WorkspaceDecision.created_by d →
  WorkspaceDecision.supersedes_decision_id d' = WorkspaceDecision.supersedes_decision_id d →
  WorkspaceDecision.current_version d' = WorkspaceDecision.current_version d →
  (st ≠ WorkspaceDecisionStatus.PROPOSED → WorkspaceDecision.decided_by d' = WorkspaceDecision.decided_by d ∧
     WorkspaceDecision.decided_at d' = WorkspaceDecision.decided_at d) →
  decision_evolves d d'.
Proof.
  intros Hst Ht ? ? ? ? ? Hc Hf. split; [done| |lia|].
  - apply rtc_once. unfold decision_step. by rewrite Hst.
  - rewrite Hst. intros Hn. destruct (Hf Hn). done.
Qed.

Lemma decided_rows_evolve p target d decided_at now ret ds :
  ds !! WorkspaceDecision.id d = Some d → WorkspaceDecision.status d = WorkspaceDecisionStatus.PROPOSED →
  target ∈ [WorkspaceDecisionStatus.ACCEPTED; WorkspaceDecisionStatus.REJECTED] →
  (∀ j, target = WorkspaceDecisionStatus.ACCEPTED → WorkspaceDecision.supersedes_decision_id d = Some j →
     j ≠ WorkspaceDecision.id d ∧ supersedes_in ds d j [WorkspaceDecisionStatus.ACCEPTED]) →
  rows_evolve decision_evolves ds (decided_rows p target d decided_at now ret ds).
Proof.
  intros Hrow Hst Htarget Hsup. unfold decided_rows.
  assert (∀ ds0, ds0 !! WorkspaceDecision.id d = Some d → rows_evolve decision_evolves ds0
    (<[WorkspaceDecision.id d := with_decision target p decided_at now d]> ds0)) as Hself.
  { intros ds0 Hd0. apply rows_evolve_insert; [apply _|]. intros y Hy. rewrite Hd0 in Hy. injection Hy as <-.
    by apply (adopted_evolves _ _ _ Hst). }
  destruct (WorkspaceDecision.supersedes_decision_id d) as [j|] eqn:Hj; [|by apply Hself].
  case_bool_decide as Hacc; [|by apply Hself].
  destruct (Hsup _ Hacc eq_refl) as (Hne & e & He & _ & _ & Hse%list_elem_of_singleton).
  rewrite (alter_found _ _ _ e He). eapply rows_evolve_trans; [apply _| |apply Hself; by rewrite lookup_insert_ne].
  apply rows_evolve_insert; [apply _|]. intros y Hy. rewrite He in Hy. injection Hy as <-.
  apply (adopted_evolves _ _ _ Hse); try done. by left.
Qed.

Lemma move_evolves s s' : move s s' →
  rows_evolve task_evolves (tasks s) (tasks s') ∧ rows_evolve decision_evolves (decisions s) (decisions s') ∧
  versions s `prefix_of` versions s'.
Proof.
  intros [(Ht & Hd & Hv)|id t Hfresh Hid Hone Hst Hc Ht Hd Hv|id r completed now t Hrow Hid Hver Hst Ht Hd Hv
    |d v Hp Ht Hd Hv|d v v' now Hrow Hst Hin Hcur Hv' Hsum Ht Hd Hv
    |p target d decided_at now ret Hrow Hst Htarget Hsup Ht Hd Hv].
  - rewrite Ht, Hd, Hv. split; [by apply (rows_evolve_refl _)|]. split; [by apply (rows_evolve_refl _)|done].
  - rewrite Ht, Hd, Hv. split; [|split; [by apply (rows_evolve_refl _)|done]].
    apply rows_evolve_insert; [apply _|]. congruence.
  - rewrite Ht, Hd, Hv. split; [|split; [by apply (rows_evolve_refl _)|done]].
    apply rows_evolve_insert; [apply _|]. intros y Hy. rewrite Hrow in Hy. injection Hy as <-.
    split; [done|]. right. change (WorkspaceTask.version t < WorkspaceTask.version t + 1)%Z. lia.
  - rewrite Ht, Hd, Hv. split; [by apply (rows_evolve_refl _)|]. split; [|by apply prefix_app_r].
    apply rows_evolve_insert; [apply _|]. intros y Hy. rewrite (proposed_fresh _ _ _ Hp) in Hy. done.
  - rewrite Ht, Hd, Hv. split; [by apply (rows_evolve_refl _)|]. split; [|by apply prefix_app_r].
    apply rows_evolve_insert; [apply _|]. intros y Hy. rewrite Hrow in Hy. injection Hy as <-.
    split; [done|apply rtc_refl| |done].
    change (WorkspaceDecision.current_version d <= WorkspaceDecision.current_version d + 1)%Z. lia.
  - rewrite Ht, Hd, Hv. split; [by apply (rows_evolve_refl _)|]. split; [by apply decided_rows_evolve|done].
Qed.

Section Calls.
Context `{Environment, EventContracts, JsonEncoder}.

(** The calls that change something, and whatever other services do to the shared
    tables in between. *)
Inductive collab_call : Type :=
| CallCreateTask (p : Principal) (workspace_id : uuid) (r : CreateWorkspaceTaskRequest)
| CallUpdateTask (p : Principal) (task_id : uuid) (r : UpdateWorkspaceTaskRequest)
| CallCreateDecision (p : Principal) (workspace_id : uuid) (r : CreateWorkspaceDecisionRequest)
| CallReviseDecision (p : Principal) (decision_id : uuid) (r : ReviseWorkspaceDecisionRequest)
| CallAccept (p : Principal) (decision_id : uuid) (expected_version : Z)
| CallReject (p : Principal) (decision_id : uuid) (expected_version : Z)
| Elsewhere (k : Kernel).

(** The tables after a call, whether it returned or raised. *)
Definition perform (c : collab_call) (s : Collab) : Collab :=
  match c with
  | CallCreateTask p workspace_id r => final (create_workspace_task p workspace_id r s)
  | CallUpdateTask p task_id r => final (update_workspace_task p task_id r s)
  | CallCreateDecision p workspace_id r => final (create_workspace_decision p workspace_id r s)
  | CallReviseDecision p decision_id r => final (revise_workspace_decision p decision_id r s)
  | CallAccept p decision_id expected => final (accept_workspace_decision p decision_id expected s)
  | CallReject p decision_id expected => final (reject_workspace_decision p decision_id expected s)
  | Elsewhere k => set_kernel k s
  end.

Definition collab_step (s s' : Collab) : Prop := ∃ c, s' = perform c s.

(** An endpoint: validation of the request, then one transaction. *)
Lemma endpoint_spec {A} valid (m : Py Collab A) s (Q : A → Collab → Prop) :
  wp m Q (λ _ _, True) s →
  match (validated valid;; savepoint m) s with
  | Ok a s' => valid = true ∧ Q a s'
  | Raise _ s' => unchanged s s'
  end.
Proof.
  intros Hm. unfold validated, raise_if. destruct valid; cbn.
  - unfold wp in Hm. unfold mbind, M_bind, mret, M_ret, savepoint. destruct (m s); [done|apply rolled_back].
  - split; [done|]. unfold same_tables. by destruct s as [[] ? ? ?].
Qed.

Lemma endpoint_move {A} valid (m : Py Collab A) s :
  wp m (λ _ s', move s s') (λ _ _, True) s → move s (final ((validated valid;; savepoint m) s)).
Proof.
  intros Hm. pose proof (endpoint_spec valid m s _ Hm) as He.
  destruct ((validated valid;; savepoint m) s) as [a s'|e s']; [by destruct He|]. apply Kept. by destruct He.
Qed.

Lemma perform_move c s : move s (perform c s).
Proof.
  destruct c as [p w r|p id r|p w r|p id r|p id v|p id v|k]; [| | | | | |by apply Kept].
  - apply endpoint_move. by apply wp_create_task.
  - apply endpoint_move. apply wp_update_task; [|done]. by intros; eapply task_updated_move.
  - apply endpoint_move. by apply wp_create_decision.
  - apply endpoint_move. by apply wp_revise_decision.
  - apply endpoint_move. apply wp_collab_decide; [|done]. by intros; eapply decided_move.
  - apply endpoint_move. apply wp_collab_decide; [|done]. by intros; eapply decided_move.
Qed.

Lemma steps_evolve s s' : steps collab_step s s' →
  rows_evolve task_evolves (tasks s) (tasks s') ∧ rows_evolve decision_evolves (decisions s) (decisions s') ∧
  versions s `prefix_of` versions s'.
Proof.
  induction 1 as [s|s1 s2 s3 _ (IHt & IHd & IHv) [c ->]].
  - by split; [apply (rows_evolve_refl _)|split; [apply (rows_evolve_refl _)|]].
  - destruct (move_evolves _ _ (perform_move c s2)) as (Ht & Hd & Hv).
    split; [by eapply rows_evolve_trans; [apply _|..]|]. split; [by eapply rows_evolve_trans; [apply _|..]|].
    by etransitivity.
Qed.

(** The task endpoint, on every outcome.  It returns only for a task of the
    caller's organization in a workspace the caller may write, at the version the
    request expects, for a request that sets no required field to null, assigns only to
    an active member of the workspace, follows the task transitions and changes
    something; then the columns the request sets hold their redacted values,
    [completed_at] follows the status, the version has advanced by one, no other row
    has changed, and one event and one audit entry name exactly the changed columns.
    Any other outcome leaves every table as it was; a stale version always is such an
    outcome, with the conflict error. *)
Theorem update_task_spec p id r s :
  match update_workspace_task p id r s with
  | Ok t' s' => valid_update_task r = true ∧ task_updated p id r s t' s'
  | Raise e s' => unchanged s s'
  end ∧
  (∀ t w, valid_update_task r = true → reaches_task p id true s t w →
     WorkspaceTask.version t ≠ UpdateWorkspaceTaskRequest.expected_version r →
     ∃ details s', update_workspace_task p id r s = Raise (ConflictError "workspace_task_version_conflict"
       "The record changed after it was loaded; refresh and retry" details) s').
Proof.
  split.
  - apply endpoint_spec. by apply wp_update_task.
  - intros t w Hvalid [Ht Horg Hw Hacc] Hver.
    unfold update_workspace_task, validated. rewrite Hvalid. cbn [negb raise_if].
    unfold update_task, _task, mbind, M_bind, mret, M_ret, savepoint, gets, in_kernel,
      require_workspace_access, raise_if, mbind, M_bind.
    rewrite Ht, bool_decide_true by done. cbn. rewrite Hw, Hacc. cbn.
    unfold _check_version, raise_if. rewrite (proj2 (Z.eqb_neq _ _)) by done. cbn. eauto.
Qed.

(** [C34] No update of a task is lost: after a successful update, whatever calls follow
    and whoever makes them, another update that expects the version the first one
    expected raises and changes nothing. *)
Theorem no_lost_update p1 p2 id r1 r2 s t s1 s2 :
  update_workspace_task p1 id r1 s = Ok t s1 → steps collab_step s1 s2 →
  UpdateWorkspaceTaskRequest.expected_version r2 = UpdateWorkspaceTaskRequest.expected_version r1 →
  ∃ e s3, update_workspace_task p2 id r2 s2 = Raise e s3 ∧ unchanged s2 s3.
Proof.
  intros Hok Hsteps Hr.
  assert (∀ p r s, match update_workspace_task p id r s with
    | Ok t' s' => task_updated p id r s t' s' | Raise e s' => unchanged s s' end) as Hspec.
  { intros p r s0. pose proof (endpoint_spec (valid_update_task r) (update_task p id r) s0 _
      (wp_update_task p id r s0 (λ t' s', task_updated p id r s0 t' s') (λ _ _, True)
        (λ _ _ Hu, Hu) (λ _ _, I))) as He.
    unfold update_workspace_task. by destruct ((validated _;; savepoint _) s0) as [a s'|e s']; [destruct He|]. }
  pose proof (Hspec p1 r1 s) as Hfirst. rewrite Hok in Hfirst.
  destruct Hfirst as [(t1 & w1 & c1 & n1 & _ & Hv1 & _ & -> & _) Htasks _].
  destruct (steps_evolve _ _ Hsteps) as (Hev & _).
  destruct (Hev id (with_next_version n1 (edited r1 c1 t1))) as (t2 & Ht2 & Hev2).
  { by rewrite Htasks, lookup_insert_eq. }
  pose proof (Hspec p2 r2 s2) as Hsecond. destruct (update_workspace_task p2 id r2 s2) as [t3 s3|e s3]; [|by exists e, s3].
  destruct Hsecond as [(t2' & w2 & c2 & n2 & Hreach & Hv2 & _) _ _].
  destruct (proj1 (row_by_Some _ _ _ _) (reached_task _ _ _ _ _ _ Hreach)) as [Hrow _].
  rewrite Ht2 in Hrow. injection Hrow as <-.
  assert (WorkspaceTask.version (with_next_version n1 (edited r1 c1 t1)) = (WorkspaceTask.version t1 + 1)%Z)
    as Hnext by done.
  destruct (task_version _ _ Hev2) as [->|Hlt]; lia.
Qed.

(** [C33] Over any sequence of calls by anyone, whatever they return or raise, the
    collaboration tables stay well formed: every decision's versions are numbered 1 up
    to its current version, without gap or repetition, each sealed by the checksum of
    its content; a decision is decided by someone exactly when it is no longer
    proposed; a decision is superseded exactly when a decision of its workspace that
    was accepted refers to it, and there is at most one such; a task has a completion
    time exactly when it is completed. *)
Theorem collab_well_formed s s' : steps collab_step s s' → well_formed s → well_formed s'.
Proof.
  intros Hsteps Hs. eapply steps_invariant; [|exact Hs|exact Hsteps].
  intros s1 s2 Hs1 [c ->]. exact (formed_move _ _ (perform_move c s1) Hs1).
Qed.

(** What can happen to decisions over any sequence of calls: none disappears or
    changes its identity, its status moves along the declared transitions only, its
    version never goes back, and once it is decided its current version, its author of
    record and its time are frozen; versions are only ever added. *)
Theorem decision_history s s' : steps collab_step s s' →
  rows_evolve decision_evolves (decisions s) (decisions s') ∧ versions s `prefix_of` versions s'.
Proof. intros Hsteps. by destruct (steps_evolve _ _ Hsteps) as (_ & ? & ?). Qed.

(** Accepting or rejecting a decision, on every outcome.  It returns only for a
    proposed decision of the caller's organization in a workspace the caller may write,
    at the version the caller expects, whose current version exists; then exactly that
    decision carries the verdict, its author and its time, an accepted decision that
    supersedes another one, accepted until then, retires that one in the same
    transaction, and nothing else has changed but the journals.  Any other outcome
    leaves every table as it was. *)
Theorem decide_spec p id expected target s :
  match _decide_workspace_decision p id expected target s with
  | Ok (d, v) s' => (1 <= expected)%Z ∧ decided p id expected target s d v s'
  | Raise e s' => unchanged s s'
  end.
Proof.
  pose proof (endpoint_spec (1 <=? expected)%Z (decide p id expected target) s
    (λ '(d, v) s', decided p id expected target s d v s')
    (wp_collab_decide p id expected target s _ _ (λ d v s' Hd, Hd) (λ _ _, I))) as He.
  unfold _decide_workspace_decision. destruct ((validated _;; savepoint _) s) as [[d v] s'|e s']; [|done].
  destruct He as [Hv Hd]. split; [by apply Z.leb_le|done].
Qed.
End Calls.

(** ** A sample *)

Module CollabSample.

#[local] Instance encoder : JsonEncoder := λ _, inr VNone.
#[local] Existing Instance Sample.environment.
#[local] Instance contracts : EventContracts := {|
  payload_validators := map (λ name, ((name, 1%Z), λ _, []))
    ["workspace_task.created"; "workspace_task.updated"; "workspace_decision.proposed";
     "workspace_decision.revised"; "workspace_decision.accepted"; "workspace_decision.superseded"];
  envelope_validator _ := [];
  error_code_registered _ := true
|}.

Definition member : Principal := Principal.Make 1 10 "u1" "Owner" None None ∅ ∅ [].

Definition empty : Collab := MkCollab Sample.kernel ∅ ∅ [].

Definition content (rationale : string) : DecisionContentRequest :=
  DecisionContentRequest.Make " Use Rocq " "We verify" rationale ["paper"; " paper"; "tests"].

Definition proposal (supersedes : option uuid) : CreateWorkspaceDecisionRequest :=
  CreateWorkspaceDecisionRequest.Make (content "because") None supersedes.

(** Ids are drawn in order from 1000: a task (1000), then decisions. *)
Definition with_task : Collab :=
  perform (CallCreateTask member 20 (CreateWorkspaceTaskRequest.Make " Plan " "" WorkspaceTaskPriority.NORMAL
    None (Some 50%N) None)) empty.

Definition task_id : uuid := 1000.

Definition finish : UpdateWorkspaceTaskRequest :=
  UpdateWorkspaceTaskRequest.Make 1 (Some (Some "Plan it")) None (Some (Some WorkspaceTaskStatus.COMPLETED))
    None None None.

Definition finished : Collab := perform (CallUpdateTask member task_id finish) with_task.

Definition first_id : uuid := 1009.
Definition second_id : uuid := 1019.

Definition decided_first : Collab :=
  perform (CallAccept member first_id 1) (perform (CallCreateDecision member 20 (proposal None)) finished).

(** The second decision is revised once, accepted, and retires the first. *)
Definition decided_second : Collab :=
  perform (CallAccept member second_id 2)
    (perform (CallReviseDecision member second_id (ReviseWorkspaceDecisionRequest.Make (content "proved") 1))
      (perform (CallCreateDecision member 20 (proposal (Some first_id))) decided_first)).

Example finished_task :
  (λ t, (WorkspaceTask.title t, WorkspaceTask.status t, WorkspaceTask.version t)) <$>
    tasks finished !! task_id = Some ("Plan it", WorkspaceTaskStatus.COMPLETED, 2%Z).
Proof. vm_compute. reflexivity. Qed.

Example both_decisions :
  (WorkspaceDecision.status <$> decisions decided_second !! first_id,
   (λ d, (WorkspaceDecision.status d, WorkspaceDecision.current_version d)) <$>
     decisions decided_second !! second_id) =
  (Some WorkspaceDecisionStatus.SUPERSEDED, Some (WorkspaceDecisionStatus.ACCEPTED, 2%Z)).
Proof. vm_compute. reflexivity. Qed.

(** Repeated alternatives are kept once. *)
Example alternatives_kept :
  WorkspaceDecisionVersion.alternatives <$> versions decided_first = [["paper"; "tests"]].
Proof. vm_compute. reflexivity. Qed.

Lemma step c s1 s2 : steps collab_step s1 s2 → steps collab_step s1 (perform c s2).
Proof. intros Hs. eapply steps_snoc; [exact Hs|]. by exists c. Qed.

Lemma after_finished : steps collab_step finished decided_second.
Proof. unfold decided_second, decided_first. do 5 apply step. apply steps_refl. Qed.

Lemma from_empty : steps collab_step empty decided_second.
Proof. eapply steps_trans; [|apply after_finished]. unfold finished, with_task. do 2 apply step. apply steps_refl. Qed.

Lemma empty_formed : well_formed empty.
Proof.
  split; cbn; [intros ? ? ?; set_solver..|by intros ? ?%not_elem_of_nil|].
  split; unfold faces; cbn; intros; set_solver.
Qed.

Definition update_result : outcome exn Collab WorkspaceTask :=
  update_workspace_task member task_id finish with_task.

Definition updated_row : WorkspaceTask :=
  match update_result with
  | Ok t _ => t
  | Raise _ _ => new_task 0 member Sample.workspace
      (CreateWorkspaceTaskRequest.Make "" "" WorkspaceTaskPriority.NORMAL None None None) 0
  end.

Lemma update_succeeds : update_workspace_task member task_id finish with_task = Ok updated_row finished.
Proof. vm_compute. reflexivity. Qed.

Lemma created_task : ∃ t, reaches_task member task_id true finished t Sample.workspace ∧
  WorkspaceTask.version t = 2%Z.
Proof.
  exists updated_row. split; [|vm_compute; reflexivity]. split; vm_compute; reflexivity.
Qed.
End CollabSample.

#[local] Existing Instances CollabSample.encoder Sample.environment CollabSample.contracts.

(** The second call of a stale client. *)
Lemma update_task_spec_witness : ∃ details s',
  update_workspace_task CollabSample.member CollabSample.task_id CollabSample.finish CollabSample.finished =
    Raise (ConflictError "workspace_task_version_conflict"
      "The record changed after it was loaded; refresh and retry" details) s'.
Proof.
  destruct CollabSample.created_task as (t & Ht & Hv).
  assert (valid_update_task CollabSample.finish = true) as Hvalid by (vm_compute; reflexivity).
  assert (WorkspaceTask.version t ≠ 1%Z) as Hne by (rewrite Hv; discriminate).
  destruct (update_task_spec CollabSample.member CollabSample.task_id CollabSample.finish
    CollabSample.finished) as [_ Hstale].
  exact (Hstale t Sample.workspace Hvalid Ht Hne).
Defined.

Lemma no_lost_update_witness :
  ∃ e s3, update_workspace_task CollabSample.member CollabSample.task_id CollabSample.finish
            CollabSample.decided_second = Raise e s3 ∧ unchanged CollabSample.decided_second s3.
Proof.
  exact (no_lost_update CollabSample.member CollabSample.member CollabSample.task_id CollabSample.finish
    CollabSample.finish _ _ _ _ CollabSample.update_succeeds CollabSample.after_finished eq_refl).
Defined.

Lemma collab_well_formed_witness : well_formed CollabSample.decided_second.
Proof. exact (collab_well_formed _ _ CollabSample.from_empty CollabSample.empty_formed). Defined.

Lemma decision_history_witness :
  rows_evolve decision_evolves (decisions CollabSample.finished) (decisions CollabSample.decided_second) ∧
  versions CollabSample.finished `prefix_of` versions CollabSample.decided_second.
Proof. exact (decision_history _ _ CollabSample.after_finished). Defined.
