(* ===== verification/AgentSpec.v ===== *)
(** * Agent specifications and the prompts they pin ([registry/agent_spec.py],
      [registry/prompt_pins.py])

    The document of an Agent version is checked and read when a Run starts under it: the
    model profile by name, the step and time limits, the declared prompts.  Every defect
    raises [RegistryManifestError], a [ValueError]; its text is not modelled. *)

From S2P Require Import Prelude PyText PyVal Regex Enums.

Definition manifest_error : exn := PyError "RegistryManifestError".

(** ** Connections and secrets *)

Definition _FORBIDDEN_RUNTIME_KEYS : list string :=
  ["accesskey"; "apikey"; "baseurl"; "connectionstring"; "credential"; "credentials"; "database";
   "databaseurl"; "dsn"; "endpoint"; "jdbcurl"; "modelid"; "password"; "passwd"; "privatekey";
   "provider"; "secret"; "token"].

Definition _FORBIDDEN_RUNTIME_VALUE : re :=
  let sep := opt (Cls (one_of "_-")) in
  alts
    [ seq [ alts [ seq [ilit "postgres"; opt (ilit "ql")]; ilit "mysql"; ilit "mariadb";
                   seq [ilit "mongodb"; opt (ilit "+srv")]; ilit "redis"; ilit "jdbc" ];
            lit ":"; opt (lit "//") ];
      seq [ alts [ ilit "password"; ilit "passwd"; ilit "secret"; ilit "token";
                   seq [ilit "api"; sep; ilit "key"]; seq [ilit "access"; sep; ilit "key"];
                   seq [ilit "private"; sep; ilit "key"] ];
            star (Cls is_space); Cls (one_of ":=") ];
      seq [ ilit "-----BEGIN "; star (Cls (λ a, is_upper a || is_lower a || same_char " " a));
            ilit "PRIVATE KEY-----" ] ].

(** [re.sub(r"[^a-z0-9]", "", str(key).casefold())] *)
Definition normalized_key (key : string) : string :=
  of_chars (List.filter (λ a, is_lower a || is_digit a) (chars (lower key))).

(** Whether [validate_model_context_configuration] raises. *)
Fixpoint forbidden_context (value : val) : bool :=
  match value with
  | VDict d => existsb (λ '(key, item),
      bool_decide (normalized_key key ∈ _FORBIDDEN_RUNTIME_KEYS) || forbidden_context item) d
  | VList l => existsb forbidden_context l
  | VStr s => search _FORBIDDEN_RUNTIME_VALUE s
  | _ => false
  end.

Definition validate_model_context_configuration {S} (value : val) : Py S unit :=
  raise_if (forbidden_context value) manifest_error.

(** ** The sandbox *)

Definition ALLOWED_SANDBOX_NETWORKS : list string := ["deny"; "gateway-only"].
Definition ALLOWED_SANDBOX_MOUNTS : list string := ["/workspace"; "/repo"; "/artifacts"; "/tmp"].
Definition _SANDBOX_INT_BOUNDS : list (string * (Z * Z)) :=
  [("cpuMillis", (1, 64000)%Z); ("memoryMb", (32, 65536)%Z); ("diskMb", (32, 1048576)%Z);
   ("processLimit", (1, 4096)%Z)].
Definition _ALLOWED_SANDBOX_KEYS : list string :=
  ["enabled"; "network"; "mounts"; "cpuMillis"; "memoryMb"; "diskMb"; "processLimit"].

(** An integer of a JSON document within bounds; [bool] is excluded. *)
Definition int_in (lo hi : Z) (v : val) : option Z :=
  match v with VInt z => if ((lo <=? z) && (z <=? hi))%Z then Some z else None | _ => None end.

(** The mounts, each allowed and none twice. *)
Fixpoint normalized_mounts {S} (seen : list string) (items : list val) : Py S (list string) :=
  match items with
  | [] => mret seen
  | VStr item :: items' =>
      raise_if (negb (bool_decide (item ∈ ALLOWED_SANDBOX_MOUNTS))) manifest_error;;
      raise_if (bool_decide (item ∈ seen)) manifest_error;;
      normalized_mounts (seen ++ [item])%list items'
  | _ :: _ => raise manifest_error
  end.

Fixpoint sandbox_limits {S} (bounds : list (string * (Z * Z))) (value : dict) : Py S dict :=
  match bounds with
  | [] => mret []
  | (key, (lo, hi)) :: bounds' =>
      match dget key value with
      | None => sandbox_limits bounds' value
      | Some raw =>
          match int_in lo hi raw with
          | None => raise manifest_error
          | Some z => rest ← sandbox_limits bounds' value; mret ((key, VInt z) :: rest)
          end
      end
  end.

(** Membership in a [frozenset] raises on an unhashable value. *)
Definition sandbox_network {S} (value : dict) : Py S string :=
  match dget_or "network" VNone value with
  | VNone => mret "gateway-only"
  | VStr network =>
      raise_if (negb (bool_decide (network ∈ ALLOWED_SANDBOX_NETWORKS))) manifest_error;; mret network
  | VList _ | VDict _ => raise (PyError "TypeError")
  | _ => raise manifest_error
  end.

Definition sandbox_mounts {S} (value : dict) : Py S (list string) :=
  match dget_or "mounts" VNone value with
  | VNone => mret ALLOWED_SANDBOX_MOUNTS
  | VList ((_ :: _) as items) => normalized_mounts [] items
  | _ => raise manifest_error
  end.

Definition normalize_sandbox {S} (value : val) : Py S dict :=
  value ← match value with VNone => mret [] | VDict d => mret d | _ => raise manifest_error end;
  raise_if (negb (forallb (λ key, bool_decide (key ∈ _ALLOWED_SANDBOX_KEYS)) value.*1)) manifest_error;;
  raise_if (negb (bool_decide (dget_or "enabled" (VBool true) value = VBool true))) manifest_error;;
  network ← sandbox_network value;
  mounts ← sandbox_mounts value;
  limits ← sandbox_limits _SANDBOX_INT_BOUNDS value;
  mret ([("enabled", VBool true); ("network", VStr network); ("mounts", VList (map VStr mounts))] ++ limits)%list.

(** ** The specification *)

Module AgentSpec.
Record AgentSpec : Type := Make {
  description : string;
  model_profile : string;
  max_steps : Z;
  timeout_seconds : Z;
  skills : list string;
  prompts : list string;
  capabilities : list string;
  risk_max_level : string;
  memory : dict;
  sandbox : dict
}.
End AgentSpec.
Abbreviation AgentSpec := AgentSpec.AgentSpec.

Definition _SUPPORTED_RISK_LEVELS : list string := ["L0"; "L1"; "L2"].

Definition _string {S} (spec : dict) (key : string) : Py S string :=
  match dget key spec with
  | Some (VStr value) => raise_if (negb (truthy (strip value))) manifest_error;; mret (strip value)
  | _ => raise manifest_error
  end.

(** The stripped strings of a list, without the blank ones and what is not a string. *)
Definition stripped_items (l : list val) : list string :=
  omap (λ v, match v with
             | VStr item => if truthy (strip item) then Some (strip item) else None
             | _ => None
             end) l.

Definition _string_tuple {S} (spec : dict) (key : string) (required : bool) : Py S (list string) :=
  match dget_or key (VList []) spec with
  | VList value =>
      raise_if (required && bool_decide (value = [])) manifest_error;;
      let normalized := stripped_items value in
      raise_if (negb (length normalized =? length value) || negb (bool_decide (NoDup normalized)))
        manifest_error;;
      mret normalized
  | _ => raise manifest_error
  end.

(** A required sub-document, and an optional one. *)
Definition dict_item {S} (v : option val) : Py S dict :=
  match v with Some (VDict d) => mret d | _ => raise manifest_error end.

Definition int_item {S} (lo hi : Z) (v : val) : Py S Z :=
  match int_in lo hi v with Some z => mret z | None => raise manifest_error end.

Definition from_dict {S} (spec : dict) : Py S AgentSpec :=
  validate_model_context_configuration (VDict spec);;
  description ← _string spec "description";
  model_policy ← dict_item (dget "modelPolicy" spec);
  model_profile ← _string model_policy "profile";
  raise_if (existsb (λ field, dmem field model_policy) ["provider"; "model"; "model_id"; "api_key"])
    manifest_error;;
  max_steps ← int_item 1 200 (dget_or "maxSteps" VNone spec);
  timeout ← int_item 1 3600 (dget_or "timeout" (VInt 300) spec);
  capabilities ← _string_tuple spec "capabilities" true;
  skills ← _string_tuple spec "skills" false;
  prompts ← _string_tuple spec "prompts" false;
  risk_policy ← dict_item (dget "riskPolicy" spec);
  risk_max_level ← _string risk_policy "maxLevel";
  raise_if (negb (bool_decide (risk_max_level ∈ _SUPPORTED_RISK_LEVELS))) manifest_error;;
  memory ← dict_item (Some (dget_or "memory" (VDict []) spec));
  sandbox ← normalize_sandbox (dget_or "sandbox" VNone spec);
  mret (AgentSpec.Make description model_profile max_steps timeout skills prompts capabilities
    risk_max_level memory sandbox).

(** [sandbox_allows_capabilities] *)
Definition sandbox_allows_capabilities (sandbox : dict) : bool :=
  negb (bool_decide (dget "network" sandbox = Some (VStr "deny"))).

(** ** Prompts *)

Definition SYSTEM_POLICY_PROMPT_NAME : string := "obsion-system-policy".

Definition names_for_agent_spec (spec : dict) : list string :=
  let declared := dget_or "prompts" (dget_or "prompt" (VList []) spec) spec in
  let extra := match declared with
               | VStr s => if truthy (strip s) then [strip s] else []
               | VList l => stripped_items l
               | _ => []
               end in
  fold_left (λ names name, if bool_decide (name ∈ names) then names else (names ++ [name])%list)
    extra [SYSTEM_POLICY_PROMPT_NAME].

(** ** Reading *)

Section Reading.
Context {S : Type}.

#[export] Instance string_pure spec key : Pure (S := S) (_string spec key).
Proof. unfold _string. destruct (dget key spec) as [[]|]; apply _. Qed.

#[export] Instance string_tuple_pure spec key required : Pure (S := S) (_string_tuple spec key required).
Proof. unfold _string_tuple. destruct (dget_or _ _ _); apply _. Qed.

#[export] Instance dict_item_pure v : Pure (S := S) (dict_item v).
Proof. destruct v as [[]|]; apply _. Qed.

#[export] Instance int_item_pure lo hi v : Pure (S := S) (int_item lo hi v).
Proof. unfold int_item. apply _. Qed.

#[export] Instance normalized_mounts_pure seen items : Pure (S := S) (normalized_mounts seen items).
Proof.
  revert seen. induction items as [|[] items IH]; intros seen; cbn [normalized_mounts]; apply _.
Qed.

#[export] Instance sandbox_limits_pure bounds value : Pure (S := S) (sandbox_limits bounds value).
Proof.
  induction bounds as [|[key [lo hi]] bounds IH]; cbn [sandbox_limits]; [apply _|].
  destruct (dget key value); [|apply IH]. destruct (int_in lo hi _); apply _.
Qed.

#[export] Instance normalize_sandbox_pure value : Pure (S := S) (normalize_sandbox value).
Proof.
  unfold normalize_sandbox. apply bind_pure; [destruct value; apply _|]. intros d.
  repeat (apply bind_pure; [apply _|intros _]). apply bind_pure.
  { unfold sandbox_network. destruct (dget_or _ _ _); apply _. }
  intros network. apply bind_pure; [|intros mounts; apply _].
  unfold sandbox_mounts. destruct (dget_or _ _ _) as [| | | |[]|]; apply _.
Qed.

#[export] Instance from_dict_pure spec : Pure (S := S) (from_dict spec).
Proof. unfold from_dict, validate_model_context_configuration. apply _. Qed.
End Reading.

(** ** Pinned sandboxes *)

Lemma int_in_Some lo hi v z : int_in lo hi v = Some z → v = VInt z ∧ (lo ≤ z ≤ hi)%Z.
Proof.
  destruct v; try done. simpl. destruct (_ && _) eqn:Hb; [|done]. intros [= <-].
  apply andb_true_iff in Hb as [?%Z.leb_le ?%Z.leb_le]. done.
Qed.

Lemma limits_keys {S} bounds value lim (s s' : S) key :
  sandbox_limits bounds value s = Ok lim s' → key ∉ bounds.*1 → dget key lim = None.
Proof.
  revert lim s'. induction bounds as [|[k [lo hi]] bounds IH]; intros lim s'; cbn [sandbox_limits]; [by intros [= <- <-]|].
  rewrite fmap_cons, not_elem_of_cons. intros Hrun [Hk Hin]. destruct (dget k value) as [raw|]; [|by eapply IH].
  destruct (int_in lo hi raw); [|done]. unfold mbind, M_bind in Hrun.
  destruct (sandbox_limits bounds value s) as [rest s1|] eqn:Hrest; [|done]. injection Hrun as <- <-.
  simpl. rewrite bool_decide_false by done. by eapply IH.
Qed.

(** Reading the limits back gives the limits. *)
Lemma limits_again {S} bounds value lim d (s s' : S) :
  NoDup bounds.*1 → sandbox_limits bounds value s = Ok lim s' →
  (∀ key, key ∈ bounds.*1 → dget key d = dget key lim) → sandbox_limits bounds d s = Ok lim s.
Proof.
  revert lim s'. induction bounds as [|[k [lo hi]] bounds IH]; intros lim s'; cbn [sandbox_limits];
    [by intros _ [= <- <-]|]. rewrite fmap_cons, NoDup_cons. intros [Hk Hnd] Hrun Hd.
  destruct (dget k value) as [raw|] eqn:Hraw.
  - destruct (int_in lo hi raw) as [z|] eqn:Hz; [|done]. unfold mbind, M_bind in *.
    destruct (sandbox_limits bounds value s) as [rest s1|] eqn:Hrest; [|done]. injection Hrun as <- <-.
    rewrite Hd by left. simpl. rewrite bool_decide_true by done.
    apply int_in_Some in Hz as [-> [Hlo Hhi]]. simpl. rewrite (proj2 (Z.leb_le _ _) Hlo), (proj2 (Z.leb_le _ _) Hhi). simpl.
    erewrite IH; [done|done|done|]. intros key Hkey. rewrite Hd by by right. simpl. rewrite bool_decide_false; [done|].
    intros ->. by apply Hk.
  - rewrite Hd, (limits_keys _ _ _ _ _ k Hrun Hk) by left. eapply IH; [done..|].
    intros key Hkey. apply Hd. by right.
Qed.

Definition allowed_mounts (l : list string) : Prop := NoDup l ∧ ∀ x, x ∈ l → x ∈ ALLOWED_SANDBOX_MOUNTS.

Lemma mounts_facts {S} seen items l (s s' : S) :
  normalized_mounts seen items s = Ok l s' → allowed_mounts seen →
  allowed_mounts l ∧ length l = (length seen + length items)%nat.
Proof.
  revert seen. induction items as [|[| | |item| |] items IH]; intros seen; cbn [normalized_mounts]; try done.
  - intros [= <- <-] ?. split; [done|]. simpl. lia.
  - unfold mbind, M_bind, raise_if. destruct (negb _) eqn:Hin; [done|]. destruct (bool_decide (item ∈ seen)) eqn:Hseen; [done|].
    split_bool. cbn. intros Hrun [Hnd Hall]. apply IH in Hrun as [Hl Hlen].
    + split; [done|]. rewrite Hlen, length_app. simpl. lia.
    + split; [apply NoDup_app; split; [done|]; split; [|apply NoDup_singleton]|].
      * by intros x Hx ->%list_elem_of_singleton.
      * intros x [Hx| ->%list_elem_of_singleton]%elem_of_app; [by apply Hall|done].
Qed.

Lemma mounts_again {S} seen l (s : S) :
  allowed_mounts (seen ++ l)%list → normalized_mounts seen (map VStr l) s = Ok (seen ++ l)%list s.
Proof.
  revert seen. induction l as [|x l IH]; intros seen [Hnd Hall]; cbn [map normalized_mounts]; [by rewrite app_nil_r|].
  rewrite (bool_decide_true (x ∈ ALLOWED_SANDBOX_MOUNTS)) by (apply Hall, elem_of_app; right; left).
  rewrite (bool_decide_false (x ∈ seen)).
  - unfold mbind, M_bind. cbn. assert (seen ++ x :: l = (seen ++ [x]) ++ l)%list as Heq by by rewrite <-app_assoc.
    rewrite Heq in *. by apply IH.
  - apply NoDup_app in Hnd as (_ & Hnd & _). intros Hx. apply (Hnd x Hx). left.
Qed.

(** What a sandbox is pinned to. *)
Record sandbox_ok (d : dict) : Prop := {
  sandbox_enabled : dget "enabled" d = Some (VBool true);
  sandbox_network_ok : ∃ network, dget "network" d = Some (VStr network) ∧ network ∈ ALLOWED_SANDBOX_NETWORKS;
  sandbox_mounts_ok : ∃ l, dget "mounts" d = Some (VList (map VStr l)) ∧ l ≠ [] ∧ allowed_mounts l;
  sandbox_limits_ok key lo hi v : (key, (lo, hi)) ∈ _SANDBOX_INT_BOUNDS → dget key d = Some v →
    ∃ z, v = VInt z ∧ (lo ≤ z ≤ hi)%Z
}.

Lemma limits_within {S} bounds value lim (s s' : S) key lo hi v :
  NoDup bounds.*1 → sandbox_limits bounds value s = Ok lim s' → (key, (lo, hi)) ∈ bounds →
  dget key lim = Some v → ∃ z, v = VInt z ∧ (lo ≤ z ≤ hi)%Z.
Proof.
  revert lim s'. induction bounds as [|[k [lo' hi']] bounds IH]; intros lim s'; [by intros _ _ ?%not_elem_of_nil|].
  cbn [sandbox_limits]. rewrite fmap_cons, NoDup_cons. intros [Hk Hnd] Hrun Hin Hv.
  assert (∀ lim' s1, sandbox_limits bounds value s = Ok lim' s1 → dget k lim' = None) as Hnone.
  { intros lim' s1 Hl. by eapply limits_keys. }
  destruct (dget k value) as [raw|].
  - destruct (int_in lo' hi' raw) as [z|] eqn:Hz; [|done]. unfold mbind, M_bind in Hrun.
    destruct (sandbox_limits bounds value s) as [rest s1|] eqn:Hrest; [|done]. injection Hrun as <- <-.
    simpl in Hv. case_bool_decide as Heq.
    + subst k. injection Hv as <-. apply elem_of_cons in Hin as [[= -> ->]|Hin].
      * exists z. split; [done|]. by destruct (int_in_Some _ _ _ _ Hz).
      * exfalso. apply Hk. apply list_elem_of_fmap. by exists (key, (lo, hi)).
    + apply elem_of_cons in Hin as [[= ? ? ?]|Hin]; [done|]. by eapply IH.
  - apply elem_of_cons in Hin as [[= -> -> ->]|Hin]; [|by eapply IH]. by rewrite (Hnone _ _ Hrun) in Hv.
Qed.

Lemma network_again {S} value network (s s' : S) :
  sandbox_network value s = Ok network s' → network ∈ ALLOWED_SANDBOX_NETWORKS.
Proof.
  unfold sandbox_network. destruct (dget_or _ _ _); try done.
  - intros [= <- <-]. right. left.
  - unfold mbind, M_bind, raise_if. destruct (negb _) eqn:Hin; [done|]. split_bool. by intros [= <- <-].
Qed.

Lemma mounts_of {S} value mounts (s s' : S) :
  sandbox_mounts value s = Ok mounts s' → mounts ≠ [] ∧ allowed_mounts mounts.
Proof.
  assert (allowed_mounts ALLOWED_SANDBOX_MOUNTS) as Hall by (split; [apply (bool_decide_unpack _); by vm_compute|done]).
  unfold sandbox_mounts. destruct (dget_or _ _ _) as [| | | |[|item items]|]; try done; [intros [= <- <-]; by split|].
  intros Hrun. apply (mounts_facts [] (item :: items)) in Hrun as [Hl Hlen];
    [|split; [constructor|by intros x ?%not_elem_of_nil]].
  split; [|done]. intros ->. simpl in Hlen. lia.
Qed.

Definition pinned_sandbox (network : string) (mounts : list string) (limits : dict) : dict :=
  ([("enabled", VBool true); ("network", VStr network); ("mounts", VList (map VStr mounts))] ++ limits)%list.

Lemma pinned_key network mounts limits key :
  key ∉ ["enabled"; "network"; "mounts"] → dget key (pinned_sandbox network mounts limits) = dget key limits.
Proof. intros Hk. unfold pinned_sandbox. simpl. by rewrite !bool_decide_false by set_solver. Qed.

Lemma limit_names key : key ∈ _SANDBOX_INT_BOUNDS.*1 → key ∉ ["enabled"; "network"; "mounts"].
Proof. simpl. set_solver. Qed.

Lemma limit_names_distinct : NoDup _SANDBOX_INT_BOUNDS.*1.
Proof. apply (bool_decide_unpack _). by vm_compute. Qed.

Lemma limit_rows {S} bounds value lim (s s' : S) key :
  sandbox_limits bounds value s = Ok lim s' → key ∈ lim.*1 → key ∈ bounds.*1.
Proof.
  revert lim s'. induction bounds as [|[k [lo hi]] bounds IH]; intros lim s'; cbn [sandbox_limits]; [by intros [= <- <-]|].
  rewrite fmap_cons, elem_of_cons. intros Hrun Hin. destruct (dget k value) as [raw|]; [|right; by eapply IH].
  destruct (int_in lo hi raw); [|done]. unfold mbind, M_bind in Hrun.
  destruct (sandbox_limits bounds value s) as [rest s1|] eqn:Hrest; [|done]. injection Hrun as <- <-.
  rewrite fmap_cons, elem_of_cons in Hin. destruct Hin as [Hin|Hin]; [by left|right; by eapply IH].
Qed.

Lemma bind_ok {S A B} (m : Py S A) (f : A → Py S B) s a s' : m s = Ok a s' → (m ≫= f) s = f a s'.
Proof. intros Hm. unfold mbind, M_bind. by rewrite Hm. Qed.

Lemma keep_going {S B} b e (f : () → Py S B) s : b = false → (raise_if b e ≫= f) s = f () s.
Proof. by intros ->. Qed.

Lemma pinned_again {S} value network mounts limits (s s' : S) :
  network ∈ ALLOWED_SANDBOX_NETWORKS → mounts ≠ [] → allowed_mounts mounts →
  sandbox_limits _SANDBOX_INT_BOUNDS value s = Ok limits s' →
  normalize_sandbox (VDict (pinned_sandbox network mounts limits)) s = Ok (pinned_sandbox network mounts limits) s.
Proof.
  intros Hn Hne Hm Hl. set (d := pinned_sandbox network mounts limits). unfold normalize_sandbox.
  rewrite (bind_ok _ _ s d s) by done. rewrite keep_going.
  2:{ apply negb_false_iff, forallb_true. intros key Hkey. apply bool_decide_eq_true. subst d.
      unfold pinned_sandbox in Hkey. rewrite fmap_app, elem_of_app in Hkey. destruct Hkey as [Hkey|Hkey].
      - simpl in *. set_solver.
      - pose proof (limit_rows _ _ _ _ _ key Hl Hkey) as Hrow. simpl in *. set_solver. }
  rewrite keep_going by done.
  rewrite (bind_ok _ _ s network s).
  2:{ unfold sandbox_network, dget_or. simpl. by rewrite keep_going by (by rewrite bool_decide_true). }
  rewrite (bind_ok _ _ s mounts s).
  2:{ unfold sandbox_mounts, dget_or. simpl. destruct mounts as [|m mounts]; [done|].
      apply (mounts_again [] (m :: mounts)). done. }
  rewrite (bind_ok _ _ s limits s); [done|].
  eapply limits_again; [apply limit_names_distinct|exact Hl|]. intros key Hkey. by apply pinned_key, limit_names.
Qed.

Lemma pinned_ok {S} value network mounts limits (s s' : S) :
  network ∈ ALLOWED_SANDBOX_NETWORKS → mounts ≠ [] → allowed_mounts mounts →
  sandbox_limits _SANDBOX_INT_BOUNDS value s = Ok limits s' → sandbox_ok (pinned_sandbox network mounts limits).
Proof.
  intros Hn Hne Hm Hl. split; [done|by exists network|by exists mounts|]. intros key lo hi v Hkey Hv.
  rewrite pinned_key in Hv by (apply limit_names, list_elem_of_fmap; by exists (key, (lo, hi))).
  eapply limits_within; [apply limit_names_distinct|exact Hl|exact Hkey|exact Hv].
Qed.



