(* ===== verification/TurnRequest.v ===== *)
(** * The request of a turn ([api/schemas.py], [domain/task_context.py])

    The body of the request for a new turn and what its validators accept: bounded fields,
    and at most one reference to a task context, which is rewritten in its canonical form. *)

From S2P Require Import Prelude PyText PyVal Redaction.

(** ** Task contexts *)

Module TaskContextReference.
Record TaskContextReference : Type := Make {
  document_ids : option (list string);
  output_format : option string;
  constraints : option (list string)
}.
End TaskContextReference.
Abbreviation TaskContextReference := TaskContextReference.TaskContextReference.

(** [item.get("type") == kind] *)
Definition has_type (kind : string) (item : dict) : bool := bool_decide (dget "type" item = Some (VStr kind)).

(** The strings of a strict [list[str]]. *)
Definition strict_strings (v : val) : option (list string) :=
  match v with
  | VList l => mapM (λ x, match x with VStr s => Some s | _ => None end) l
  | _ => None
  end.

Definition when {A} (b : bool) (a : A) : option A := if b then Some a else None.

(** A validator of a field that was given. *)
Definition given {A} (check : val → option A) (o : option val) : option (option A) :=
  match o with None => Some None | Some v => Some <$> check v end.

Definition canonical_documents (v : val) : option (list string) :=
  l ← strict_strings v;
  when ((length l <=? 4)%nat && bool_decide (NoDup l) &&
         forallb (λ item, bool_decide (uuid_str <$> parse_uuid item = Some item)) l) l.

Definition output_formats : list string := ["AUTO"; "TABLE"; "BULLETS"; "REPORT"].
Definition valid_format (v : val) : option string :=
  match v with VStr s => when (bool_decide (s ∈ output_formats)) s | _ => None end.

Definition bounded_constraints (v : val) : option (list string) :=
  l ← strict_strings v;
  when ((length l <=? 8)%nat && forallb (λ item, truthy (strip item) && (py_len item <=? 1000)%Z) l)
    ((λ item, redact_text (strip item)) <$> l).

(** [TaskContextReference.model_validate] on an item of that type: no other field. *)
Definition validate_reference (item : dict) : option TaskContextReference :=
  if forallb (λ key, bool_decide (key ∈ ["type"; "document_ids"; "output_format"; "constraints"])) item.*1 then
    documents ← given canonical_documents (dget "document_ids" item);
    format ← given valid_format (dget "output_format" item);
    constraints ← given bounded_constraints (dget "constraints" item);
    Some (TaskContextReference.Make documents format constraints)
  else None.

(** [model_dump(exclude_unset=True)] *)
Definition model_dump (r : TaskContextReference) : dict :=
  let item key (o : option val) := match o with Some v => [(key, v)] | None => [] end in
  ([("type", VStr "task_context")] ++
   item "document_ids" ((λ l, VList (map VStr l)) <$> TaskContextReference.document_ids r) ++
   item "output_format" (VStr <$> TaskContextReference.output_format r) ++
   item "constraints" ((λ l, VList (map VStr l)) <$> TaskContextReference.constraints r))%list.

(** [task_context_reference]: [None] when it raises. *)
Definition task_context_reference (references : list dict) : option (option TaskContextReference) :=
  match List.filter (has_type "task_context") references with
  | [] => Some None
  | [item] => Some <$> validate_reference item
  | _ => None
  end.

(** [CreateTurnRequest.validate_task_context]: the references that are kept. *)
Definition validate_task_context (references : list dict) : option (list dict) :=
  reference ← task_context_reference references;
  match reference with
  | None => Some references
  | Some r =>
      if bool_decide (default [] (TaskContextReference.document_ids r) ≠ []) &&
         existsb (has_type "repository") references
      then None
      else Some (map (λ item, if has_type "task_context" item then model_dump r else item) references)
  end.

(** ** Turns *)

(** [CreateTurnRequest]; the references are JSON documents. *)
Module CreateTurnRequest.
Record CreateTurnRequest : Type := Make {
  input : string;
  context_refs : list dict;
  attachment_refs : list dict;
  model_profile : option string
}.
End CreateTurnRequest.
Abbreviation CreateTurnRequest := CreateTurnRequest.CreateTurnRequest.

(** The bounds of its fields. *)
Definition bounded_turn (r : CreateTurnRequest) : bool :=
  (1 <=? py_len (CreateTurnRequest.input r))%Z && (py_len (CreateTurnRequest.input r) <=? 100000)%Z &&
  (length (CreateTurnRequest.context_refs r) <=? 100)%nat &&
  (length (CreateTurnRequest.attachment_refs r) <=? 50)%nat &&
  match CreateTurnRequest.model_profile r with Some m => (py_len m <=? 120)%Z | None => true end.

(** The request as its model validates it. *)
Definition valid_turn (r : CreateTurnRequest) : option CreateTurnRequest :=
  if bounded_turn r then
    refs ← validate_task_context (CreateTurnRequest.context_refs r);
    Some (r <| CreateTurnRequest.context_refs := refs |>)
  else None.

Example task_context_examples :
  validate_task_context [[("type", VStr "task_context"); ("constraints", VList [VStr " short "])]] =
    Some [[("type", VStr "task_context"); ("constraints", VList [VStr "short"])]] ∧
  validate_task_context [[("type", VStr "task_context"); ("output_format", VStr "POEM")]] = None ∧
  validate_task_context [[("type", VStr "task_context")]; [("type", VStr "task_context")]] = None.
Proof. by vm_compute. Qed.
