(* ===== verification/WorkspaceState.v ===== *)
(** * The session of workspaces, threads, turns and Runs

    What [application/workspaces.py] and [application/conversation_context.py] read and
    write next to the shared tables: the steps of Runs, the conversation pinned to them,
    the registry of Agents, model profiles and prompts, and artifacts.  The workspaces,
    members, threads and turns themselves are in the [directory] of the kernel, where every
    other service reads them.  [created_at] and [updated_at] are the database's [now()]. *)

From S2P Require Import Prelude PyText PyVal Enums Models Kernel Identity.

Record WorkspaceDb : Type := MkWorkspaceDb {
  base : Kernel;
  run_steps : gmap uuid RunStep;
  snapshots : list RunConversationSnapshot;
  agent_definitions : gmap uuid AgentDefinition;
  agent_versions : gmap uuid AgentVersion;
  model_profiles : gmap uuid ModelProfile;
  prompt_definitions : gmap uuid PromptDefinition;
  prompt_versions : gmap uuid PromptVersion;
  artifacts : gmap uuid Artifact
}.

#[export] Program Instance workspace_session : Session WorkspaceDb := {
  kernel := base;
  set_kernel k s := s <| base := k |>;
  rollback old new := old <| base := kernel_rollback (base old) (base new) |>
}.
Solve Obligations with (by intros; repeat match goal with s : WorkspaceDb |- _ => destruct s end).

(** The settings a Run is created under ([config.py]). *)
Class RunSettings := {
  run_timeout_seconds : Z;
  run_max_steps : Z;
  run_max_input_tokens : Z;
  run_max_output_tokens : Z;
  run_max_cost_amount : Z;
  conversation_context_max_turns : nat;
  conversation_context_max_chars : nat;
  conversation_context_max_chars_per_message : nat
}.

(** The bounds of those fields, with cost in units of 10^-8. *)
Class ValidSettings `{RunSettings} : Prop := {
  valid_timeout : (10 <= run_timeout_seconds <= 3600)%Z;
  valid_steps : (1 <= run_max_steps <= 200)%Z;
  valid_input_tokens : (1000 <= run_max_input_tokens <= 10000000)%Z;
  valid_output_tokens : (256 <= run_max_output_tokens <= 1000000)%Z;
  valid_cost : (0 < run_max_cost_amount <= 1000000 * 100000000)%Z;
  valid_max_turns : (1 <= conversation_context_max_turns <= 200)%nat
}.

(** ** Rows of the directory *)

Definition on_directory (f : Directory → Directory) : Py Kernel unit :=
  modify (λ k, k <| directory := f (directory k) |>).

Definition put_workspace (id : uuid) (row : Workspace) (d : Directory) : Directory :=
  d <| workspaces := <[id := row]> (workspaces d) |>.
Definition put_thread (id : uuid) (row : Thread) (d : Directory) : Directory :=
  d <| threads := <[id := row]> (threads d) |>.
Definition put_turn (id : uuid) (row : Turn) (d : Directory) : Directory :=
  d <| turns := <[id := row]> (turns d) |>.
Definition update_thread (id : uuid) (f : Thread → Thread) (d : Directory) : Directory :=
  d <| threads := alter f id (threads d) |>.
Definition put_members (l : list WorkspaceMember) (d : Directory) : Directory :=
  d <| workspace_members := l |>.

(** The [flush] of an [INSERT]: the constraints must hold. *)
Definition integrity (ok : bool) : Py Kernel unit := raise_if (negb ok) (PyError "IntegrityError").

(** A value of a [String(n)] column; only PostgreSQL enforces the length. *)
Definition varchar `{Environment} (n : Z) (s : string) : Py Kernel unit :=
  raise_if (negb (bool_decide (dialect = "sqlite")) && (n <? py_len s)%Z) (PyError "DBAPIError").

Definition free {V} (id : uuid) (table : gmap uuid V) : bool := negb (bool_decide (is_Some (table !! id))).

Definition insert_workspace `{Environment} (row : Workspace) : Py Kernel unit :=
  varchar 240 (Workspace.name row);;
  ok ← gets (λ k, free (Workspace.id row) (workspaces (directory k)));
  integrity ok;;
  on_directory (put_workspace (Workspace.id row) row).

Definition insert_thread `{Environment} (row : Thread) : Py Kernel unit :=
  varchar 300 (Thread.title row);;
  ok ← gets (λ k, free (Thread.id row) (threads (directory k)));
  integrity ok;;
  on_directory (put_thread (Thread.id row) row).

(** [UniqueConstraint("thread_id", "ordinal")] *)
Definition same_place (row row' : Turn) : bool :=
  bool_decide (Turn.thread_id row' = Turn.thread_id row) && (Turn.ordinal row' =? Turn.ordinal row)%Z.

Definition insert_turn (row : Turn) : Py Kernel unit :=
  ok ← gets (λ k, free (Turn.id row) (turns (directory k)) &&
                  bool_decide (select (same_place row) (turns (directory k)) = []));
  integrity ok;;
  on_directory (put_turn (Turn.id row) row).

Definition positive_limits (r : Run) : bool :=
  ((0 <? Run.max_steps r) && (0 <? Run.timeout_seconds r) && (0 <? Run.max_input_tokens r) &&
   (0 <? Run.max_output_tokens r) && (0 <? Run.max_cost_amount r))%Z.

Definition insert_run (row : Run) : Py Kernel unit :=
  ok ← gets (λ k, free (Run.id row) (runs k) && positive_limits row);
  integrity ok;;
  modify (λ k, k <| runs := <[Run.id row := row]> (runs k) |>).

Definition update_run (id : uuid) (f : Run → Run) : Py Kernel unit :=
  modify (λ k, k <| runs := alter f id (runs k) |>).

(** The snapshots pinned to a Run: one per source turn and per ordinal. *)
Definition snapshot_fits (l : list RunConversationSnapshot) (row : RunConversationSnapshot) : bool :=
  forallb (λ row',
    negb (bool_decide (RunConversationSnapshot.id row' = RunConversationSnapshot.id row)) &&
    negb (bool_decide (RunConversationSnapshot.run_id row' = RunConversationSnapshot.run_id row) &&
          (bool_decide (RunConversationSnapshot.source_turn_id row' = RunConversationSnapshot.source_turn_id row) ||
           (RunConversationSnapshot.ordinal row' =? RunConversationSnapshot.ordinal row)%Z))) l &&
  (0 <? RunConversationSnapshot.ordinal row)%Z &&
  (py_len (RunConversationSnapshot.content_fingerprint row) =? 64)%Z.

Definition insert_snapshot (row : RunConversationSnapshot) : Py WorkspaceDb unit :=
  ok ← gets (λ s, snapshot_fits (snapshots s) row);
  raise_if (negb ok) (PyError "IntegrityError");;
  modify (λ s, s <| snapshots := (snapshots s ++ [row])%list |>).

#[export] Instance integrity_pure ok : Pure (integrity ok).
Proof. unfold integrity. apply _. Qed.
#[export] Instance varchar_pure `{Environment} n s : Pure (varchar n s).
Proof. unfold varchar. apply _. Qed.

(** ** The history of a thread ([application/thread_history.py])

    A thread that was forked continues its parent up to the fork point: its history is
    that prefix of its parent's history, followed by its own turns. *)

Definition max_lineage_depth : nat := 32.

Definition lineage_invalid : exn :=
  ConflictError "thread_lineage_invalid" "Thread fork lineage contains a cycle or exceeds the supported depth" [].
Definition fork_point_missing : exn :=
  ConflictError "thread_fork_point_missing" "The persisted Thread fork point is no longer available" [].

(** [l[: i + 1]] for the first index [i] of a turn of that id. *)
Fixpoint up_to (turn_id : uuid) (l : list Turn) : option (list Turn) :=
  match l with
  | [] => None
  | turn :: l' =>
      if bool_decide (Turn.id turn = turn_id) then Some [turn] else cons turn <$> up_to turn_id l'
  end.

Definition ordinal_le (x y : Turn) : bool := (Turn.ordinal x <=? Turn.ordinal y)%Z.

(** The turns of the thread itself. *)
Definition of_thread (organization_id thread_id : uuid) (turn : Turn) : bool :=
  bool_decide (Turn.organization_id turn = organization_id) && bool_decide (Turn.thread_id turn = thread_id).
Definition local_turns (organization_id thread_id : uuid) (d : Directory) : list Turn :=
  order_by ordinal_le (select (of_thread organization_id thread_id) (turns d)).

(** The part of the parent's history that a fork inherits. *)
Definition inherited (thread : Thread) (parent_turns : list Turn) : option (list Turn) :=
  match Thread.forked_from_turn_id thread with
  | None => Some []
  | Some turn_id => up_to turn_id parent_turns
  end.

(** The fuel is the room that is left in the lineage: when it is used up, the check of the
    lineage has raised. *)
Fixpoint effective_from (fuel : nat) (p : Principal) (thread : Thread) (lineage : gset uuid) :
    Py Kernel (list Turn) :=
  raise_if (bool_decide (Thread.id thread ∈ lineage) || (max_lineage_depth <=? size lineage)%nat) lineage_invalid;;
  match fuel with
  | O => raise lineage_invalid
  | S fuel' =>
      inherited_turns ←
        match Thread.parent_thread_id thread with
        | None => mret []
        | Some parent_id =>
            parent ← require_thread_access p parent_id false;
            parent_turns ← effective_from fuel' p parent ({[Thread.id thread]} ∪ lineage);
            match inherited thread parent_turns with
            | None => raise fork_point_missing
            | Some l => mret l
            end
        end;
      own ← gets (λ k, local_turns (Principal.organization_id p) (Thread.id thread) (directory k));
      mret (inherited_turns ++ own)%list
  end.

Definition effective_turns (p : Principal) (thread : Thread) : Py Kernel (list Turn) :=
  effective_from max_lineage_depth p thread ∅.
