(* ===== verification/TaskContracts.v ===== *)
(** * Task contracts ([domain/task_contract.py])

    What a Run has been asked to do, as a versioned document of the Run's intent, sealed by a
    fingerprint.  First, how pydantic reads a document: a reader yields the validated value, or
    nothing where validation raises. *)

From S2P Require Import Prelude PyText PyVal Redaction TurnRequest.

#[local] Open Scope list_scope.

(** ** Reading documents *)

(** Tables of the standard library: [unicodedata.normalize("NFKC", s)], [s.casefold()], and the
    characters of [s] that [isalnum] holds of. *)
Class UnicodeData := {
  nfkc : string → string;
  casefold : string → string;
  keep_alnum : string → string
}.

(** [datetime.fromisoformat]: whether the time has an offset, and its instant, that of a naive
    time being read in UTC. *)
Class IsoFormats := { fromisoformat : string → option (bool * Z) }.

Definition Reader (A : Type) : Type := val → option A.

(** A document is read from and dumped to JSON. *)
Class Document (A : Type) := {
  model_validate : Reader A;
  dump : A → val
}.

Definition strict_str : Reader string := λ v, match v with VStr s => Some s | _ => None end.
Definition strict_bool : Reader bool := λ v, match v with VBool b => Some b | _ => None end.
Definition json_value : Reader val := Some.
Definition at_least (lo : Z) : Reader Z := λ v, match v with VInt z => when (lo <=? z)%Z z | _ => None end.
Definition int_between (lo hi : Z) : Reader Z := λ v, z ← at_least lo v; when (z <=? hi)%Z z.
Definition literal (values : list string) : Reader string := λ v, s ← strict_str v; when (bool_decide (s ∈ values)) s.
Definition sized (lo hi : Z) : Reader string := λ v,
  s ← strict_str v; when ((lo <=? py_len s)%Z && (py_len s <=? hi)%Z) s.
Definition nullable {A} (read : Reader A) : Reader (option A) := λ v,
  match v with VNone => Some None | _ => Some <$> read v end.
Definition listing {A} (lo hi : nat) (read : Reader A) : Reader (list A) := λ v,
  match v with VList l => if (lo <=? length l)%nat && (length l <=? hi)%nat then mapM read l else None | _ => None end.

Definition is_hex_digit (c : ascii) : bool := is_digit c || in_range 97 102 c.
Definition digest : Reader string := λ v,
  s ← strict_str v; when (forallb is_hex_digit (chars s) && (String.length s =? 64)%nat) s.

(** [extra="forbid"] *)
Definition fields_of (names : list string) : Reader dict := λ v,
  match v with VDict d => when (forallb (λ k, bool_decide (k ∈ names)) d.*1) d | _ => None end.
Definition required {A} (read : Reader A) (k : string) (d : dict) : option A := v ← dget k d; read v.
Definition defaulted {A} (read : Reader A) (k : string) (default : A) (d : dict) : option A :=
  match dget k d with Some v => read v | None => Some default end.

Definition dump_list {A} (f : A → val) (l : list A) : val := VList (map f l).
Definition dump_option {A} (f : A → val) (o : option A) : val := match o with Some a => f a | None => VNone end.

(** [str(UUID(value)) == value] *)
Definition canonical_uuid (s : string) : bool := bool_decide (uuid_str <$> parse_uuid s = Some s).

(** The digest of [json.dumps] with sorted keys. *)
Definition fingerprint_of_json (v : val) : string := sha256 (json_dumps false v).

Section Text.
Context `{UnicodeData}.

Definition normalize_text (value : string) : string := redact_text (strip (nfkc value)).

(** The validators that normalize a text and refuse a blank one. *)
Definition normalized (read : Reader string) : Reader string := λ v,
  s ← read v; let n := normalize_text s in when (truthy n) n.
End Text.

(** ** The parts of a contract *)

Module TaskSourceReference.
Record TaskSourceReference : Type := Make { kind : string; identifier : string; version : option Z }.
End TaskSourceReference.
Abbreviation TaskSourceReference := TaskSourceReference.TaskSourceReference.

Module TaskSourceScope.
Record TaskSourceScope : Type := Make {
  mode : string;
  references : list TaskSourceReference;
  organization_search_allowed : bool
}.
End TaskSourceScope.
Abbreviation TaskSourceScope := TaskSourceScope.TaskSourceScope.

Module TaskObject.
Record TaskObject : Type := Make { kind : string; identifier : string; label : option string }.
End TaskObject.
Abbreviation TaskObject := TaskObject.TaskObject.

Module TaskTimeWindow.
Record TaskTimeWindow : Type := Make { start : string; end_ : string; timezone : string }.
End TaskTimeWindow.
Abbreviation TaskTimeWindow := TaskTimeWindow.TaskTimeWindow.

Module TaskAccuracy.
Record TaskAccuracy : Type := Make {
  mode : string;
  exact_values_required : bool;
  citations_required : bool;
  withhold_unverified_claims : bool
}.
End TaskAccuracy.
Abbreviation TaskAccuracy := TaskAccuracy.TaskAccuracy.

Module TaskDeliverable.
Record TaskDeliverable : Type := Make { kind : string; format : string }.
End TaskDeliverable.
Abbreviation TaskDeliverable := TaskDeliverable.TaskDeliverable.

(** Its three flags are [Literal[True]]. *)
Module TaskAuthority.
Record TaskAuthority : Type := Make {
  principal_id : string;
  organization_id : string;
  permission_snapshot_sha256 : string;
  role_snapshot_sha256 : string
}.
End TaskAuthority.
Abbreviation TaskAuthority := TaskAuthority.TaskAuthority.

Module TaskBudget.
Record TaskBudget : Type := Make {
  max_steps : Z;
  timeout_seconds : Z;
  max_input_tokens : Z;
  max_output_tokens : Z;
  max_cost_amount : string
}.
End TaskBudget.
Abbreviation TaskBudget := TaskBudget.TaskBudget.

Module DimensionRequirement.
Record DimensionRequirement : Type := Make {
  id : string;
  domain : string;
  level : string;
  expected_scope : string;
  as_of : option string;
  precision : string;
  validation_rule : string;
  acceptable_evidence_kinds : list string
}.
End DimensionRequirement.
Abbreviation DimensionRequirement := DimensionRequirement.DimensionRequirement.

Module TaskContract.
Record TaskContract : Type := Make {
  revision : Z;
  fingerprint : string;
  parent_fingerprint : option string;
  goal : string;
  source_scope : TaskSourceScope;
  objects : list TaskObject;
  time_window : option TaskTimeWindow;
  accuracy : TaskAccuracy;
  deliverables : list TaskDeliverable;
  constraints : list string;
  allowed_environments : list string;
  authority : TaskAuthority;
  budget : TaskBudget;
  success_criteria : list string;
  dimensions : list DimensionRequirement;
  changed_fields : list string;
  invalidated_outputs : list string
}.
End TaskContract.
Abbreviation TaskContract := TaskContract.TaskContract.

Definition SourceScopeMode : list string :=
  ["EXACT_ATTACHMENTS"; "EXACT_DOCUMENTS"; "EXACT_REPOSITORY"; "AUTHORIZED_ENTERPRISE"; "NO_EXTERNAL_SOURCE"].
Definition TaskDomain : list string := ["KNOWLEDGE"; "LOCALIZATION"; "STATISTICS"; "INCIDENT"; "CODE"].
Definition AccuracyMode : list string := ["EXACT"; "EVIDENCE_BOUND"; "BEST_EFFORT"; "NON_FACTUAL"].
Definition InvalidatedOutput : list string :=
  ["PLAN"; "DATA_QUERY"; "STATISTICS"; "EVIDENCE_REVIEW"; "CLAIMS"; "ARTIFACTS"].
Definition ChangedField : list string :=
  ["GOAL"; "SOURCE_SCOPE"; "OBJECTS"; "TIME_WINDOW"; "ACCURACY"; "DELIVERABLES"; "CONSTRAINTS"; "AUTHORITY"; "BUDGET";
   "SUCCESS_CRITERIA"; "DIMENSIONS"].

(** ** Dumping a contract *)

Definition str_list (l : list string) : val := dump_list VStr l.
Definition int_or_none (o : option Z) : val := dump_option VInt o.
Definition text_or_none (o : option string) : val := dump_option VStr o.

Definition dump_reference (r : TaskSourceReference) : val :=
  VDict [("kind", VStr (TaskSourceReference.kind r)); ("identifier", VStr (TaskSourceReference.identifier r));
         ("version", int_or_none (TaskSourceReference.version r))].

Definition dump_scope (s : TaskSourceScope) : val :=
  VDict [("mode", VStr (TaskSourceScope.mode s));
         ("references", dump_list dump_reference (TaskSourceScope.references s));
         ("organization_search_allowed", VBool (TaskSourceScope.organization_search_allowed s))].

Definition dump_object (o : TaskObject) : val :=
  VDict [("kind", VStr (TaskObject.kind o)); ("identifier", VStr (TaskObject.identifier o));
         ("label", text_or_none (TaskObject.label o))].

Definition dump_window (w : TaskTimeWindow) : val :=
  VDict [("start", VStr (TaskTimeWindow.start w)); ("end", VStr (TaskTimeWindow.end_ w));
         ("timezone", VStr (TaskTimeWindow.timezone w))].

Definition dump_accuracy (a : TaskAccuracy) : val :=
  VDict [("mode", VStr (TaskAccuracy.mode a)); ("exact_values_required", VBool (TaskAccuracy.exact_values_required a));
         ("citations_required", VBool (TaskAccuracy.citations_required a));
         ("withhold_unverified_claims", VBool (TaskAccuracy.withhold_unverified_claims a))].

Definition dump_deliverable (d : TaskDeliverable) : val :=
  VDict [("kind", VStr (TaskDeliverable.kind d)); ("format", VStr (TaskDeliverable.format d))].

Definition required_flags : dict :=
  [("policy_engine_required", VBool true); ("capability_gateway_required", VBool true); ("descriptive_only", VBool true)].

Definition dump_authority (a : TaskAuthority) : val :=
  VDict ([("principal_id", VStr (TaskAuthority.principal_id a));
          ("organization_id", VStr (TaskAuthority.organization_id a));
          ("permission_snapshot_sha256", VStr (TaskAuthority.permission_snapshot_sha256 a));
          ("role_snapshot_sha256", VStr (TaskAuthority.role_snapshot_sha256 a))] ++ required_flags).

Definition dump_budget (b : TaskBudget) : val :=
  VDict [("max_steps", VInt (TaskBudget.max_steps b)); ("timeout_seconds", VInt (TaskBudget.timeout_seconds b));
         ("max_input_tokens", VInt (TaskBudget.max_input_tokens b));
         ("max_output_tokens", VInt (TaskBudget.max_output_tokens b));
         ("max_cost_amount", VStr (TaskBudget.max_cost_amount b))].

Definition dump_dimension (d : DimensionRequirement) : val :=
  VDict [("id", VStr (DimensionRequirement.id d)); ("domain", VStr (DimensionRequirement.domain d));
         ("level", VStr (DimensionRequirement.level d));
         ("expected_scope", VStr (DimensionRequirement.expected_scope d));
         ("as_of", text_or_none (DimensionRequirement.as_of d));
         ("precision", VStr (DimensionRequirement.precision d));
         ("validation_rule", VStr (DimensionRequirement.validation_rule d));
         ("acceptable_evidence_kinds", str_list (DimensionRequirement.acceptable_evidence_kinds d))].

(** [model_dump(mode="json", exclude={"fingerprint"})] *)
Definition contract_payload (c : TaskContract) : dict :=
  [("schema_version", VInt 1); ("revision", VInt (TaskContract.revision c));
   ("parent_fingerprint", text_or_none (TaskContract.parent_fingerprint c)); ("goal", VStr (TaskContract.goal c));
   ("source_scope", dump_scope (TaskContract.source_scope c));
   ("objects", dump_list dump_object (TaskContract.objects c));
   ("time_window", dump_option dump_window (TaskContract.time_window c));
   ("accuracy", dump_accuracy (TaskContract.accuracy c));
   ("deliverables", dump_list dump_deliverable (TaskContract.deliverables c));
   ("constraints", str_list (TaskContract.constraints c));
   ("allowed_environments", str_list (TaskContract.allowed_environments c));
   ("authority", dump_authority (TaskContract.authority c)); ("budget", dump_budget (TaskContract.budget c));
   ("success_criteria", str_list (TaskContract.success_criteria c));
   ("dimensions", dump_list dump_dimension (TaskContract.dimensions c));
   ("changed_fields", str_list (TaskContract.changed_fields c));
   ("invalidated_outputs", str_list (TaskContract.invalidated_outputs c))].

(** The order of the keys of the dump is that of the fields. *)
Definition dump_contract (c : TaskContract) : dict :=
  match contract_payload c with
  | schema :: revision :: rest => schema :: revision :: ("fingerprint", VStr (TaskContract.fingerprint c)) :: rest
  | payload => payload
  end.

Definition task_contract_fingerprint (value : dict) : string := fingerprint_of_json (VDict value).

(** ** Reading a contract *)

(** The pattern of an amount: no leading zero, and at most eight decimals. *)
Definition decimal_amount (s : string) : bool :=
  let whole (l : list ascii) := match l with
    | [] => false
    | c :: rest => forallb is_digit (c :: rest) && (negb (bool_decide (c = "0"%char)) || bool_decide (rest = []))
    end in
  match split "." s with
  | [units] => whole (chars units)
  | [units; cents] => whole (chars units) && forallb is_digit (chars cents) &&
                      (1 <=? String.length cents)%nat && (String.length cents <=? 8)%nat
  | _ => false
  end.

(** [^[a-z][a-z0-9_.-]{0,n}$] *)
Definition safe_identifier (n : nat) (s : string) : bool :=
  match chars s with
  | c :: l => is_lower c && forallb (λ c, is_lower c || is_digit c || has_char c "_.-") l && (length l <=? n)%nat
  | [] => false
  end.

Section Read.
Context `{UnicodeData, IsoFormats}.

Definition read_reference : Reader TaskSourceReference := λ v,
  d ← fields_of ["kind"; "identifier"; "version"] v;
  kind ← required (literal ["ATTACHMENT"; "DOCUMENT"; "REPOSITORY"]) "kind" d;
  identifier ← required (normalized (sized 1 500)) "identifier" d;
  version ← defaulted (nullable (at_least 1)) "version" None d;
  when ((bool_decide (kind = "REPOSITORY") || canonical_uuid identifier) &&
        (bool_decide (kind = "DOCUMENT") || bool_decide (version = None)))
    (TaskSourceReference.Make kind identifier version).

Definition exact_kind (mode : string) : option string :=
  if bool_decide (mode = "EXACT_ATTACHMENTS") then Some "ATTACHMENT" else
  if bool_decide (mode = "EXACT_DOCUMENTS") then Some "DOCUMENT" else
  if bool_decide (mode = "EXACT_REPOSITORY") then Some "REPOSITORY" else None.

Definition reference_identity (r : TaskSourceReference) : string * string * option Z :=
  (TaskSourceReference.kind r, TaskSourceReference.identifier r, TaskSourceReference.version r).

Definition validate_scope (s : TaskSourceScope) : bool :=
  let references := TaskSourceScope.references s in
  let search := TaskSourceScope.organization_search_allowed s in
  bool_decide (NoDup (map reference_identity references)) &&
  match exact_kind (TaskSourceScope.mode s) with
  | Some expected =>
      negb (bool_decide (references = [])) &&
      forallb (λ r, bool_decide (TaskSourceReference.kind r = expected)) references && negb search
  | None => bool_decide (references = [])
  end &&
  (negb (bool_decide (TaskSourceScope.mode s = "AUTHORIZED_ENTERPRISE")) || search) &&
  (negb (bool_decide (TaskSourceScope.mode s = "NO_EXTERNAL_SOURCE")) || negb search).

Definition read_scope : Reader TaskSourceScope := λ v,
  d ← fields_of ["mode"; "references"; "organization_search_allowed"] v;
  mode ← required (literal SourceScopeMode) "mode" d;
  references ← defaulted (listing 0 50 read_reference) "references" [] d;
  search ← defaulted strict_bool "organization_search_allowed" false d;
  let s := TaskSourceScope.Make mode references search in
  when (validate_scope s) s.

Definition read_object : Reader TaskObject := λ v,
  d ← fields_of ["kind"; "identifier"; "label"] v;
  kind ← required (literal ["METRIC"; "DIMENSION"; "SERVICE"; "REPOSITORY"; "DOCUMENT"; "ATTACHMENT"]) "kind" d;
  identifier ← required (normalized (sized 1 500)) "identifier" d;
  label ← defaulted (nullable (normalized (sized 0 500))) "label" None d;
  Some (TaskObject.Make kind identifier label).

Definition validate_window (w : TaskTimeWindow) : bool :=
  match fromisoformat (TaskTimeWindow.start w), fromisoformat (TaskTimeWindow.end_ w) with
  | Some (true, start), Some (true, end_) => (start <? end_)%Z && truthy (strip (TaskTimeWindow.timezone w))
  | _, _ => false
  end.

Definition read_window : Reader TaskTimeWindow := λ v,
  d ← fields_of ["start"; "end"; "timezone"] v;
  start ← required (sized 1 80) "start" d;
  end_ ← required (sized 1 80) "end" d;
  timezone ← required (sized 1 80) "timezone" d;
  let w := TaskTimeWindow.Make start end_ timezone in
  when (validate_window w) w.

Definition read_accuracy : Reader TaskAccuracy := λ v,
  d ← fields_of ["mode"; "exact_values_required"; "citations_required"; "withhold_unverified_claims"] v;
  mode ← required (literal AccuracyMode) "mode" d;
  exact ← required strict_bool "exact_values_required" d;
  citations ← required strict_bool "citations_required" d;
  withhold ← defaulted strict_bool "withhold_unverified_claims" true d;
  Some (TaskAccuracy.Make mode exact citations withhold).

Definition read_deliverable : Reader TaskDeliverable := λ v,
  d ← fields_of ["kind"; "format"] v;
  kind ← required (literal ["ANSWER"; "TABLE"; "REPORT"; "ARTIFACT"]) "kind" d;
  format ← defaulted (literal ["AUTO"; "TABLE"; "BULLETS"; "REPORT"; "JSON"]) "format" "AUTO" d;
  Some (TaskDeliverable.Make kind format).

(** Of the characters the pattern of an id allows, the canonical form has no other. *)
Definition uuid_text : Reader string := λ v, s ← strict_str v; when (canonical_uuid s) s.
Definition literal_true : Reader unit := λ v, match v with VBool true => Some () | _ => None end.

Definition read_authority : Reader TaskAuthority := λ v,
  d ← fields_of ["principal_id"; "organization_id"; "permission_snapshot_sha256"; "role_snapshot_sha256";
                 "policy_engine_required"; "capability_gateway_required"; "descriptive_only"] v;
  principal_id ← required uuid_text "principal_id" d;
  organization_id ← required uuid_text "organization_id" d;
  permissions ← required digest "permission_snapshot_sha256" d;
  roles ← required digest "role_snapshot_sha256" d;
  _ ← defaulted literal_true "policy_engine_required" () d;
  _ ← defaulted literal_true "capability_gateway_required" () d;
  _ ← defaulted literal_true "descriptive_only" () d;
  Some (TaskAuthority.Make principal_id organization_id permissions roles).

Definition read_budget : Reader TaskBudget := λ v,
  d ← fields_of ["max_steps"; "timeout_seconds"; "max_input_tokens"; "max_output_tokens"; "max_cost_amount"] v;
  steps ← required (at_least 1) "max_steps" d;
  timeout ← required (at_least 1) "timeout_seconds" d;
  input ← required (at_least 1) "max_input_tokens" d;
  output ← required (at_least 1) "max_output_tokens" d;
  cost ← required strict_str "max_cost_amount" d;
  when (decimal_amount cost) (TaskBudget.Make steps timeout input output cost).

Definition validate_evidence_kinds (value : list string) : option (list string) :=
  let kinds := map (λ item, upper (strip item)) value in
  when (forallb (λ item, truthy item && (py_len item <=? 80)%Z) kinds && bool_decide (NoDup kinds)) kinds.

Definition read_dimension : Reader DimensionRequirement := λ v,
  d ← fields_of ["id"; "domain"; "level"; "expected_scope"; "as_of"; "precision"; "validation_rule";
                 "acceptable_evidence_kinds"] v;
  id ← required strict_str "id" d;
  domain ← required (literal TaskDomain) "domain" d;
  level ← required (literal ["HARD"; "OPTIONAL"]) "level" d;
  scope ← required (normalized (sized 1 1000)) "expected_scope" d;
  as_of ← defaulted (nullable (normalized (sized 0 160))) "as_of" None d;
  precision ← required (normalized (sized 1 160)) "precision" d;
  rule ← required (normalized (sized 1 1000)) "validation_rule" d;
  kinds ← required (λ v, l ← listing 1 20 strict_str v; validate_evidence_kinds l) "acceptable_evidence_kinds" d;
  when (safe_identifier 119 id) (DimensionRequirement.Make id domain level scope as_of precision rule kinds).

Definition normalize_lists (lo hi : nat) : Reader (list string) := λ v,
  l ← listing lo hi strict_str v;
  let texts := map normalize_text l in
  when (forallb (λ item, truthy item && (py_len item <=? 1000)%Z) texts && bool_decide (NoDup texts)) texts.

Definition validate_contract (c : TaskContract) : bool :=
  bool_decide (NoDup (map (λ o, (TaskObject.kind o, TaskObject.identifier o)) (TaskContract.objects c))) &&
  bool_decide (NoDup (map DimensionRequirement.id (TaskContract.dimensions c))) &&
  Bool.eqb (TaskContract.revision c =? 1)%Z (bool_decide (TaskContract.parent_fingerprint c = None)) &&
  (bool_decide (TaskContract.invalidated_outputs c = []) || negb (TaskContract.revision c =? 1)%Z) &&
  bool_decide (TaskContract.fingerprint c = task_contract_fingerprint (contract_payload c)).

Definition contract_fields : list string :=
  ["schema_version"; "revision"; "fingerprint"; "parent_fingerprint"; "goal"; "source_scope"; "objects"; "time_window";
   "accuracy"; "deliverables"; "constraints"; "allowed_environments"; "authority"; "budget"; "success_criteria";
   "dimensions"; "changed_fields"; "invalidated_outputs"].

Definition read_contract : Reader TaskContract := λ v,
  d ← fields_of contract_fields v;
  _ ← defaulted (int_between 1 1) "schema_version" 1%Z d;
  revision ← defaulted (at_least 1) "revision" 1%Z d;
  fingerprint ← required digest "fingerprint" d;
  parent ← defaulted (nullable digest) "parent_fingerprint" None d;
  goal ← required (normalized (sized 1 100000)) "goal" d;
  scope ← required read_scope "source_scope" d;
  objects ← defaulted (listing 0 200 read_object) "objects" [] d;
  window ← defaulted (nullable read_window) "time_window" None d;
  accuracy ← required read_accuracy "accuracy" d;
  deliverables ← required (listing 1 10 read_deliverable) "deliverables" d;
  constraints ← defaulted (normalize_lists 0 24) "constraints" [] d;
  environments ← required (normalize_lists 1 10) "allowed_environments" d;
  authority ← required read_authority "authority" d;
  budget ← required read_budget "budget" d;
  criteria ← required (normalize_lists 1 30) "success_criteria" d;
  dimensions ← required (listing 1 50 read_dimension) "dimensions" d;
  changed ← defaulted (listing 0 12 (literal ChangedField)) "changed_fields" [] d;
  invalidated ← defaulted (listing 0 6 (literal InvalidatedOutput)) "invalidated_outputs" [] d;
  let c := TaskContract.Make revision fingerprint parent goal scope objects window accuracy deliverables constraints
             environments authority budget criteria dimensions changed invalidated in
  when (validate_contract c) c.

#[export] Instance contract_document : Document TaskContract := {|
  model_validate := read_contract;
  dump c := VDict (dump_contract c)
|}.

(** ** What the contract is read for *)

(** Absent where the model does not validate. *)
Definition create_task_contract (payload : dict) : option TaskContract :=
  let canonical := List.filter (λ kv, negb (bool_decide (kv.1 = "fingerprint"))) payload in
  read_contract (VDict (canonical ++ [("fingerprint", VStr (task_contract_fingerprint canonical))])).

(** [None] where it raises. *)
Definition contract_from_intent (intent : val) : option (option TaskContract) :=
  match intent with
  | VDict d =>
      match dget "task_contract" d with
      | None | Some VNone => Some None
      | Some (VDict c) => Some <$> read_contract (VDict c)
      | Some _ => None
      end
  | _ => Some None
  end.

(** The one summary that planning and output share: who is authorized becomes a digest. *)
Definition task_contract_summary (c : TaskContract) : dict :=
  let binding := match dump_authority (TaskContract.authority c) with VDict a => a | _ => [] end in
  List.filter (λ kv, negb (bool_decide (kv.1 = "authority"))) (dump_contract c) ++
  [("authority", VDict (("binding_sha256", VStr (task_contract_fingerprint binding)) :: required_flags))].

Definition task_contract_summary_from_intent (intent : val) : option (option dict) :=
  option_map task_contract_summary <$> contract_from_intent intent.

Definition source_scope_allows_organization_search (intent : val) : option bool :=
  (λ c, match c with
        | None => true
        | Some c => TaskSourceScope.organization_search_allowed (TaskContract.source_scope c)
        end) <$> contract_from_intent intent.

Definition task_contract_invalidates (intent : val) (output : string) : option bool :=
  (λ c, match c with
        | None => false
        | Some c => bool_decide (output ∈ TaskContract.invalidated_outputs c)
        end) <$> contract_from_intent intent.

Definition semantic_history_invalidated (intent : val) : option bool :=
  query ← task_contract_invalidates intent "DATA_QUERY";
  if (query : bool) then Some true else task_contract_invalidates intent "STATISTICS".
End Read.
