(* ===== verification/RunIntents.v ===== *)
(** * The intent of a Run ([domain/run_intent.py])

    The typed document a Run keeps of what it understood: the stage of its preparation, the slots
    that are resolved, and the clarifications it asked its user for, at most two, each with the
    answers that were given.  The document, its validators, and the operations that ask, answer
    and close. *)

From S2P Require Import Prelude PyText PyVal Redaction Enums Models Kernel TurnRequest TaskContracts.

#[local] Open Scope list_scope.

Definition INTENT_SCHEMA_VERSION : Z := 1.
Definition MAX_CLARIFICATION_ROUNDS : nat := 2.
Definition MAX_CLARIFICATION_FIELDS : nat := 3.
Definition MAX_CLARIFICATION_OPTIONS : nat := 3.
Definition MAX_CLARIFICATION_VALUE_BYTES : nat := 12000.

Definition _SENSITIVE_SLOT_PARTS : list string :=
  ["accesskey"; "apikey"; "authenticationheader"; "authorization"; "cookie"; "credential"; "dsn"; "endpoint";
   "password"; "passwd"; "privatekey"; "secret"; "token"].
Definition _DERIVED_SLOT_PARTS : list string :=
  ["agent"; "clarification"; "decision"; "domain"; "intent"; "needdata"; "needrootcause"; "question"; "risk"; "route";
   "schemaversion"; "skill"; "taskcontract"].
Definition _PUBLIC_INTENT_KEYS : list string :=
  ["schema_version"; "intent_revision"; "admission_intent"; "domain"; "route"; "intent"; "question"; "metrics";
   "dimensions"; "time_range"; "comparison"; "need_data"; "need_root_cause"; "risk"; "agent"; "skill"; "decision";
   "decision_reason"].

(** What the operations raise; pydantic's error is a [ValueError]. *)
Inductive ClarificationDomainError : Type :=
| ClarificationStateInvalid
| ClarificationNotPending
| ClarificationStaleRevision
| ClarificationAnswerInvalid (message : string)
| ClarificationNoProgress
| ValueError
| KeyError.

(** ** The parts of an intent *)

Module ClarificationStatus.
Inductive ClarificationStatus : Type :=
| OPEN
| ANSWERED
| EXPIRED
| CANCELLED.
Definition value (x : ClarificationStatus) : string :=
  match x with OPEN => "OPEN" | ANSWERED => "ANSWERED" | EXPIRED => "EXPIRED" | CANCELLED => "CANCELLED" end.
#[export] Instance eq_dec : EqDecision ClarificationStatus.
Proof. solve_decision. Defined.
#[export] Instance str_enum : StrEnum ClarificationStatus.
Proof. exists value. by intros [] [] [=]. Defined.
End ClarificationStatus.
Export (hints) ClarificationStatus.
Abbreviation ClarificationStatus := ClarificationStatus.ClarificationStatus.

Module PreparationStage.
Inductive PreparationStage : Type :=
| CONTEXT_RESOLVED
| WAITING_USER
| INTENT_RESOLVED
| PLANNED.
Definition value (x : PreparationStage) : string :=
  match x with
  | CONTEXT_RESOLVED => "CONTEXT_RESOLVED"
  | WAITING_USER => "WAITING_USER"
  | INTENT_RESOLVED => "INTENT_RESOLVED"
  | PLANNED => "PLANNED"
  end.
#[export] Instance eq_dec : EqDecision PreparationStage.
Proof. solve_decision. Defined.
#[export] Instance str_enum : StrEnum PreparationStage.
Proof. exists value. by intros [] [] [=]. Defined.
End PreparationStage.
Export (hints) PreparationStage.
Abbreviation PreparationStage := PreparationStage.PreparationStage.

Module IntentDecision.
Inductive IntentDecision : Type :=
| PROCEED
| CLARIFY
| UNAVAILABLE
| DENY.
Definition value (x : IntentDecision) : string :=
  match x with PROCEED => "PROCEED" | CLARIFY => "CLARIFY" | UNAVAILABLE => "UNAVAILABLE" | DENY => "DENY" end.
#[export] Instance eq_dec : EqDecision IntentDecision.
Proof. solve_decision. Defined.
#[export] Instance str_enum : StrEnum IntentDecision.
Proof. exists value. by intros [] [] [=]. Defined.
End IntentDecision.
Export (hints) IntentDecision.
Abbreviation IntentDecision := IntentDecision.IntentDecision.

Module ClarificationOption.
Record ClarificationOption : Type := Make {
  id : string;
  label : string;
  canonical_value : val;
  value_fingerprint : string
}.
End ClarificationOption.
Abbreviation ClarificationOption := ClarificationOption.ClarificationOption.

(** Its cardinality is always [ONE]. *)
Module ClarificationField.
Record ClarificationField : Type := Make {
  slot : string;
  reason_code : string;
  prompt : string;
  value_type : string;
  options : list ClarificationOption;
  allow_free_text : bool
}.
End ClarificationField.
Abbreviation ClarificationField := ClarificationField.ClarificationField.

Module StoredClarificationAnswer.
Record StoredClarificationAnswer : Type := Make {
  slot : string;
  kind : string;
  value : val;
  source_ref : string;
  value_fingerprint : string
}.
End StoredClarificationAnswer.
Abbreviation StoredClarificationAnswer := StoredClarificationAnswer.StoredClarificationAnswer.

Module ClarificationRequest.
Record ClarificationRequest : Type := Make {
  id : string;
  intent_revision : Z;
  round : Z;
  status : ClarificationStatus;
  question : string;
  fields : list ClarificationField;
  requested_at : string;
  expires_at : string;
  gap_fingerprint : string;
  request_fingerprint : string;
  answers : list StoredClarificationAnswer;
  answered_by : option string;
  answered_at : option string;
  response_fingerprint : option string;
  closed_at : option string
}.
End ClarificationRequest.
Abbreviation ClarificationRequest := ClarificationRequest.ClarificationRequest.

Module ClarificationState.
Record ClarificationState : Type := Make {
  active_id : option string;
  requests : list ClarificationRequest;
  remaining_execution_seconds : option Z
}.
End ClarificationState.
Abbreviation ClarificationState := ClarificationState.ClarificationState.

Module ResolvedSlot.
Record ResolvedSlot : Type := Make {
  slot : string;
  value : val;
  source : string;
  source_ref : string;
  confidence_rank : Z;
  fingerprint : string
}.
End ResolvedSlot.
Abbreviation ResolvedSlot := ResolvedSlot.ResolvedSlot.

Module RunIntent.
Record RunIntent : Type := Make {
  intent_revision : Z;
  preparation_stage : PreparationStage;
  admission_intent : option string;
  domain : string;
  route : string;
  intent : string;
  question : string;
  metrics : list dict;
  dimensions : list dict;
  time_range : list (string * string);
  comparison : option string;
  need_data : bool;
  need_root_cause : bool;
  risk : string;
  agent : option string;
  skill : option string;
  skill_version : option Z;
  skill_checksum_sha256 : option string;
  decision : option IntentDecision;
  decision_reason : option string;
  resolved_slots : list ResolvedSlot;
  task_contract : option TaskContract;
  clarification : ClarificationState
}.
End RunIntent.
Abbreviation RunIntent := RunIntent.RunIntent.

(** An answer names an option or gives a value. *)
Module ClarificationAnswerItem.
Record ClarificationAnswerItem : Type := Make { slot : string; option_id : option string; value : option val }.
End ClarificationAnswerItem.
Abbreviation ClarificationAnswerItem := ClarificationAnswerItem.ClarificationAnswerItem.

Module ClarificationAnswerSubmission.
Record ClarificationAnswerSubmission : Type := Make {
  expected_intent_revision : Z;
  answers : list ClarificationAnswerItem
}.
End ClarificationAnswerSubmission.
Abbreviation ClarificationAnswerSubmission := ClarificationAnswerSubmission.ClarificationAnswerSubmission.

Module AppliedClarificationAnswer.
Record AppliedClarificationAnswer : Type := Make {
  intent : RunIntent;
  clarification_id : string;
  answered_slots : list string;
  response_fingerprint : string
}.
End AppliedClarificationAnswer.
Abbreviation AppliedClarificationAnswer := AppliedClarificationAnswer.AppliedClarificationAnswer.

(** The request that waits for an answer. *)
Definition active_request (c : ClarificationState) : option ClarificationRequest :=
  match ClarificationState.active_id c with
  | None => None
  | Some id => List.find (λ r, bool_decide (ClarificationRequest.id r = id)) (ClarificationState.requests c)
  end.

(** [resolved_slot], of a name that is normalized. *)
Definition resolved_slot (i : RunIntent) (slot : string) : option ResolvedSlot :=
  List.find (λ r, bool_decide (ResolvedSlot.slot r = slot)) (RunIntent.resolved_slots i).

(** ** Dumping an intent *)

Definition dump_option_document (o : ClarificationOption) : val :=
  VDict [("id", VStr (ClarificationOption.id o)); ("label", VStr (ClarificationOption.label o));
         ("canonical_value", ClarificationOption.canonical_value o);
         ("value_fingerprint", VStr (ClarificationOption.value_fingerprint o))].

Definition dump_field (f : ClarificationField) : val :=
  VDict [("slot", VStr (ClarificationField.slot f)); ("reason_code", VStr (ClarificationField.reason_code f));
         ("prompt", VStr (ClarificationField.prompt f)); ("cardinality", VStr "ONE");
         ("value_type", VStr (ClarificationField.value_type f));
         ("options", dump_list dump_option_document (ClarificationField.options f));
         ("allow_free_text", VBool (ClarificationField.allow_free_text f))].

Definition dump_answer (a : StoredClarificationAnswer) : val :=
  VDict [("slot", VStr (StoredClarificationAnswer.slot a)); ("kind", VStr (StoredClarificationAnswer.kind a));
         ("value", StoredClarificationAnswer.value a); ("source_ref", VStr (StoredClarificationAnswer.source_ref a));
         ("value_fingerprint", VStr (StoredClarificationAnswer.value_fingerprint a))].

Definition dump_request (r : ClarificationRequest) : val :=
  VDict [("id", VStr (ClarificationRequest.id r)); ("intent_revision", VInt (ClarificationRequest.intent_revision r));
         ("round", VInt (ClarificationRequest.round r));
         ("status", VStr (value_of (ClarificationRequest.status r)));
         ("question", VStr (ClarificationRequest.question r));
         ("fields", dump_list dump_field (ClarificationRequest.fields r));
         ("requested_at", VStr (ClarificationRequest.requested_at r));
         ("expires_at", VStr (ClarificationRequest.expires_at r));
         ("gap_fingerprint", VStr (ClarificationRequest.gap_fingerprint r));
         ("request_fingerprint", VStr (ClarificationRequest.request_fingerprint r));
         ("answers", dump_list dump_answer (ClarificationRequest.answers r));
         ("answered_by", text_or_none (ClarificationRequest.answered_by r));
         ("answered_at", text_or_none (ClarificationRequest.answered_at r));
         ("response_fingerprint", text_or_none (ClarificationRequest.response_fingerprint r));
         ("closed_at", text_or_none (ClarificationRequest.closed_at r))].

Definition dump_clarification (c : ClarificationState) : val :=
  VDict [("active_id", text_or_none (ClarificationState.active_id c));
         ("requests", dump_list dump_request (ClarificationState.requests c));
         ("remaining_execution_seconds", int_or_none (ClarificationState.remaining_execution_seconds c))].

Definition slot_payload (r : ResolvedSlot) : dict :=
  [("slot", VStr (ResolvedSlot.slot r)); ("value", ResolvedSlot.value r); ("source", VStr (ResolvedSlot.source r));
   ("source_ref", VStr (ResolvedSlot.source_ref r)); ("confidence_rank", VInt (ResolvedSlot.confidence_rank r))].

Definition dump_slot (r : ResolvedSlot) : val :=
  VDict (slot_payload r ++ [("fingerprint", VStr (ResolvedSlot.fingerprint r))]).

Definition dump_intent (i : RunIntent) : dict :=
  [("schema_version", VInt INTENT_SCHEMA_VERSION); ("intent_revision", VInt (RunIntent.intent_revision i));
   ("preparation_stage", VStr (value_of (RunIntent.preparation_stage i)));
   ("admission_intent", text_or_none (RunIntent.admission_intent i)); ("domain", VStr (RunIntent.domain i));
   ("route", VStr (RunIntent.route i)); ("intent", VStr (RunIntent.intent i));
   ("question", VStr (RunIntent.question i)); ("metrics", dump_list VDict (RunIntent.metrics i));
   ("dimensions", dump_list VDict (RunIntent.dimensions i));
   ("time_range", VDict (map (λ '(k, s), (k, VStr s)) (RunIntent.time_range i)));
   ("comparison", text_or_none (RunIntent.comparison i)); ("need_data", VBool (RunIntent.need_data i));
   ("need_root_cause", VBool (RunIntent.need_root_cause i)); ("risk", VStr (RunIntent.risk i));
   ("agent", text_or_none (RunIntent.agent i)); ("skill", text_or_none (RunIntent.skill i));
   ("skill_version", int_or_none (RunIntent.skill_version i));
   ("skill_checksum_sha256", text_or_none (RunIntent.skill_checksum_sha256 i));
   ("decision", dump_option (λ d, VStr (value_of d)) (RunIntent.decision i));
   ("decision_reason", text_or_none (RunIntent.decision_reason i));
   ("resolved_slots", dump_list dump_slot (RunIntent.resolved_slots i));
   ("task_contract", dump_option (λ c, VDict (dump_contract c)) (RunIntent.task_contract i));
   ("clarification", dump_clarification (RunIntent.clarification i))].

(** ** Fingerprints *)

Definition fingerprint_value (v : val) : string := fingerprint_of_json v.

Definition by_slot {A} (slot : A → string) (l : list A) : list A := order_by (λ x y, string_le (slot x) (slot y)) l.

Definition fingerprint_gap (fields : list ClarificationField) : string :=
  fingerprint_value (dump_list (λ f,
    VDict [("slot", VStr (ClarificationField.slot f)); ("reason_code", VStr (ClarificationField.reason_code f));
           ("cardinality", VStr "ONE"); ("value_type", VStr (ClarificationField.value_type f));
           ("allow_free_text", VBool (ClarificationField.allow_free_text f));
           ("options", str_list (order_by string_le
              (map ClarificationOption.value_fingerprint (ClarificationField.options f))))])
    (by_slot ClarificationField.slot fields)).

(** What the user is shown of a field: no canonical value. *)
Definition public_field (f : ClarificationField) : val :=
  VDict [("slot", VStr (ClarificationField.slot f)); ("reason_code", VStr (ClarificationField.reason_code f));
         ("prompt", VStr (ClarificationField.prompt f)); ("cardinality", VStr "ONE");
         ("value_type", VStr (ClarificationField.value_type f));
         ("options", dump_list (λ o, VDict [("id", VStr (ClarificationOption.id o));
                                            ("label", VStr (ClarificationOption.label o))])
            (ClarificationField.options f));
         ("allow_free_text", VBool (ClarificationField.allow_free_text f))].

Definition fingerprint_request (r : ClarificationRequest) : string :=
  fingerprint_value (VDict
    [("id", VStr (ClarificationRequest.id r)); ("intent_revision", VInt (ClarificationRequest.intent_revision r));
     ("round", VInt (ClarificationRequest.round r)); ("question", VStr (ClarificationRequest.question r));
     ("fields", dump_list public_field (by_slot ClarificationField.slot (ClarificationRequest.fields r)));
     ("requested_at", VStr (ClarificationRequest.requested_at r));
     ("expires_at", VStr (ClarificationRequest.expires_at r))]).

(** ** Reading an intent *)

Definition enum_member {A} `{StrEnum A} (members : list A) : Reader A := λ v,
  s ← strict_str v; List.find (λ x, bool_decide (value_of x = s)) members.

Definition _ensure_bounded_json (v : val) : bool :=
  (String.length (json_dumps false v) <=? MAX_CLARIFICATION_VALUE_BYTES)%nat.

Definition canonical_id : Reader string := uuid_text.

Section Intents.
Context `{UnicodeData, IsoFormats}.

(** [_SAFE_ID] *)
Definition _normalize_safe_id : Reader string := λ v,
  s ← strict_str v; let id := casefold (strip (nfkc s)) in when (safe_identifier 79 id) id.

Definition _collapsed_identifier (s : string) : string := casefold (keep_alnum s).
Definition mentions (parts : list string) (s : string) : bool := existsb (λ part, contains part s) parts.

Fixpoint _normalize_json_value (v : val) : val :=
  match v with
  | VStr s => VStr (normalize_text s)
  | VList l => VList (map _normalize_json_value l)
  | VDict d => VDict (map (λ '(k, x), (k, _normalize_json_value x)) d)
  | _ => v
  end.

(** Whether a key of a dictionary inside names a secret. *)
Fixpoint has_sensitive_key (v : val) : bool :=
  match v with
  | VList l => existsb has_sensitive_key l
  | VDict d => existsb (λ '(k, x), mentions _SENSITIVE_SLOT_PARTS (_collapsed_identifier k) || has_sensitive_key x) d
  | _ => false
  end.

Definition bounded_value : Reader val := λ v,
  let n := _normalize_json_value v in when (_ensure_bounded_json n) n.

Definition _canonical_timestamp : Reader string := λ v,
  s ← strict_str v; t ← fromisoformat s; Some (isoformat t.2).

Definition read_option : Reader ClarificationOption := λ v,
  d ← fields_of ["id"; "label"; "canonical_value"; "value_fingerprint"] v;
  id ← required canonical_id "id" d;
  label ← required (normalized (sized 1 240)) "label" d;
  value ← required bounded_value "canonical_value" d;
  fingerprint ← required digest "value_fingerprint" d;
  when (negb (has_sensitive_key value) && bool_decide (fingerprint = fingerprint_value value))
    (ClarificationOption.Make id label value fingerprint).

(** [ClarificationField.validate_slot] *)
Definition requestable_slot : Reader string := λ v,
  slot ← _normalize_safe_id v;
  let collapsed := _collapsed_identifier slot in
  when (negb (mentions _SENSITIVE_SLOT_PARTS collapsed) && negb (mentions _DERIVED_SLOT_PARTS collapsed)) slot.

Definition validate_input_contract (f : ClarificationField) : bool :=
  bool_decide (NoDup (map ClarificationOption.id (ClarificationField.options f))) &&
  (negb (bool_decide (ClarificationField.options f = [])) || ClarificationField.allow_free_text f).

(** [ClarificationField(...)] with options that are models already. *)
Definition new_field (slot reason prompt : val) (value_type : string) (options : list ClarificationOption)
    (allow_free_text : bool) : option ClarificationField :=
  slot ← requestable_slot slot;
  reason ← _normalize_safe_id reason;
  prompt ← normalized (sized 1 1000) prompt;
  let f := ClarificationField.Make slot reason prompt value_type options allow_free_text in
  when ((length options <=? MAX_CLARIFICATION_OPTIONS)%nat && validate_input_contract f) f.

Definition read_field : Reader ClarificationField := λ v,
  d ← fields_of ["slot"; "reason_code"; "prompt"; "cardinality"; "value_type"; "options"; "allow_free_text"] v;
  _ ← defaulted (literal ["ONE"]) "cardinality" "ONE" d;
  value_type ← defaulted (literal ["STRING"; "TIME_RANGE"]) "value_type" "STRING" d;
  options ← defaulted (listing 0 MAX_CLARIFICATION_OPTIONS read_option) "options" [] d;
  free ← defaulted strict_bool "allow_free_text" false d;
  slot ← dget "slot" d; reason ← dget "reason_code" d; prompt ← dget "prompt" d;
  new_field slot reason prompt value_type options free.

Definition read_answer : Reader StoredClarificationAnswer := λ v,
  d ← fields_of ["slot"; "kind"; "value"; "source_ref"; "value_fingerprint"] v;
  slot ← required _normalize_safe_id "slot" d;
  kind ← required (literal ["OPTION"; "VALUE"]) "kind" d;
  value ← required bounded_value "value" d;
  source_ref ← required (sized 1 500) "source_ref" d;
  fingerprint ← required digest "value_fingerprint" d;
  when (bool_decide (fingerprint = fingerprint_value value))
    (StoredClarificationAnswer.Make slot kind value source_ref fingerprint).

(** The instant of a timestamp: [ensure_utc(datetime.fromisoformat(s))]. *)
Definition instant (s : string) : option Z := snd <$> fromisoformat s.

Definition field_slots (r : ClarificationRequest) : list string :=
  map ClarificationField.slot (ClarificationRequest.fields r).
Definition answer_slots (r : ClarificationRequest) : list string :=
  map StoredClarificationAnswer.slot (ClarificationRequest.answers r).
Definition same_names (x y : list string) : bool :=
  forallb (λ k, bool_decide (k ∈ y)) x && forallb (λ k, bool_decide (k ∈ x)) y.

Definition unanswered (r : ClarificationRequest) : bool :=
  bool_decide (ClarificationRequest.answers r = []) && bool_decide (ClarificationRequest.answered_by r = None) &&
  bool_decide (ClarificationRequest.answered_at r = None) &&
  bool_decide (ClarificationRequest.response_fingerprint r = None).

Definition validate_closure (r : ClarificationRequest) : bool :=
  match ClarificationRequest.status r with
  | ClarificationStatus.OPEN => unanswered r && bool_decide (ClarificationRequest.closed_at r = None)
  | ClarificationStatus.ANSWERED =>
      same_names (answer_slots r) (field_slots r) && bool_decide (is_Some (ClarificationRequest.answered_by r)) &&
      bool_decide (is_Some (ClarificationRequest.answered_at r)) &&
      bool_decide (is_Some (ClarificationRequest.response_fingerprint r)) &&
      bool_decide (ClarificationRequest.closed_at r = None)
  | _ => unanswered r && bool_decide (is_Some (ClarificationRequest.closed_at r))
  end.

Definition validate_lifecycle (r : ClarificationRequest) : bool :=
  bool_decide (NoDup (field_slots r)) &&
  match instant (ClarificationRequest.expires_at r), instant (ClarificationRequest.requested_at r) with
  | Some expires, Some requested => (requested <? expires)%Z
  | _, _ => false
  end &&
  bool_decide (NoDup (answer_slots r)) && validate_closure r &&
  bool_decide (ClarificationRequest.gap_fingerprint r = fingerprint_gap (ClarificationRequest.fields r)) &&
  bool_decide (ClarificationRequest.request_fingerprint r = fingerprint_request r).

Definition clarification_statuses : list ClarificationStatus :=
  [ClarificationStatus.OPEN; ClarificationStatus.ANSWERED; ClarificationStatus.EXPIRED; ClarificationStatus.CANCELLED].

Definition read_request : Reader ClarificationRequest := λ v,
  d ← fields_of ["id"; "intent_revision"; "round"; "status"; "question"; "fields"; "requested_at"; "expires_at";
                 "gap_fingerprint"; "request_fingerprint"; "answers"; "answered_by"; "answered_at";
                 "response_fingerprint"; "closed_at"] v;
  id ← required canonical_id "id" d;
  revision ← required (at_least 1) "intent_revision" d;
  round ← required (int_between 1 (Z.of_nat MAX_CLARIFICATION_ROUNDS)) "round" d;
  status ← required (enum_member clarification_statuses) "status" d;
  question ← required (normalized (sized 1 2000)) "question" d;
  fields ← required (listing 1 MAX_CLARIFICATION_FIELDS read_field) "fields" d;
  requested_at ← required _canonical_timestamp "requested_at" d;
  expires_at ← required _canonical_timestamp "expires_at" d;
  gap ← required digest "gap_fingerprint" d;
  fingerprint ← required digest "request_fingerprint" d;
  answers ← defaulted (listing 0 MAX_CLARIFICATION_FIELDS read_answer) "answers" [] d;
  answered_by ← defaulted (nullable canonical_id) "answered_by" None d;
  answered_at ← defaulted (nullable _canonical_timestamp) "answered_at" None d;
  response ← defaulted (nullable digest) "response_fingerprint" None d;
  closed_at ← defaulted (nullable _canonical_timestamp) "closed_at" None d;
  let r := ClarificationRequest.Make id revision round status question fields requested_at expires_at gap fingerprint
             answers answered_by answered_at response closed_at in
  when (validate_lifecycle r) r.

Definition is_open (r : ClarificationRequest) : bool :=
  bool_decide (ClarificationRequest.status r = ClarificationStatus.OPEN).

Definition validate_active_request (c : ClarificationState) : bool :=
  let requests := ClarificationState.requests c in
  bool_decide (NoDup (map ClarificationRequest.id requests)) &&
  bool_decide (map ClarificationRequest.round requests = map Z.of_nat (seq 1 (length requests))) &&
  match List.filter is_open requests with
  | [] => bool_decide (ClarificationState.active_id c = None) &&
          bool_decide (ClarificationState.remaining_execution_seconds c = None)
  | [open] =>
      bool_decide (ClarificationState.active_id c = Some (ClarificationRequest.id open)) &&
      bool_decide (ClarificationRequest.id <$> last requests = ClarificationState.active_id c) &&
      bool_decide (is_Some (ClarificationState.remaining_execution_seconds c)) &&
      forallb (λ r, bool_decide (ClarificationRequest.status r = ClarificationStatus.ANSWERED)) (removelast requests)
  | _ => false
  end.

(** [ClarificationState(...)] of requests that are models already. *)
Definition new_state (c : ClarificationState) : option ClarificationState :=
  when ((length (ClarificationState.requests c) <=? MAX_CLARIFICATION_ROUNDS)%nat &&
        match ClarificationState.active_id c with Some id => canonical_uuid id | None => true end &&
        match ClarificationState.remaining_execution_seconds c with Some s => (1 <=? s)%Z | None => true end &&
        validate_active_request c) c.

Definition read_clarification : Reader ClarificationState := λ v,
  d ← fields_of ["active_id"; "requests"; "remaining_execution_seconds"] v;
  active_id ← defaulted (nullable canonical_id) "active_id" None d;
  requests ← defaulted (listing 0 MAX_CLARIFICATION_ROUNDS read_request) "requests" [] d;
  remaining ← defaulted (nullable (at_least 1)) "remaining_execution_seconds" None d;
  new_state (ClarificationState.Make active_id requests remaining).

Definition slot_sources : list string :=
  ["INPUT"; "CONTEXT_REF"; "CONVERSATION"; "MEMORY"; "WORKSPACE"; "CATALOG"; "MANIFEST"; "CAPABILITY";
   "CLARIFICATION_OPTION"; "CLARIFICATION_VALUE"].

Definition read_slot : Reader ResolvedSlot := λ v,
  d ← fields_of ["slot"; "value"; "source"; "source_ref"; "confidence_rank"; "fingerprint"] v;
  slot ← required _normalize_safe_id "slot" d;
  value ← required bounded_value "value" d;
  source ← required (literal slot_sources) "source" d;
  source_ref ← required (sized 1 500) "source_ref" d;
  rank ← required (int_between 1 100) "confidence_rank" d;
  fingerprint ← required digest "fingerprint" d;
  let r := ResolvedSlot.Make slot value source source_ref rank fingerprint in
  when (bool_decide (fingerprint = fingerprint_value (VDict (slot_payload r)))) r.

(** [normalize_identifier] *)
Definition identifier (read : Reader string) : Reader string := λ v,
  s ← read v; let n := strip (nfkc s) in when (truthy n) n.

Definition risk_level : Reader string := λ v,
  s ← strict_str v;
  match chars s with
  | [l; d] => when (bool_decide (l = "L"%char) && in_range 48 53 d) s
  | _ => None
  end.

Definition json_object : Reader dict := λ v, match v with VDict d => Some d | _ => None end.
Definition str_dict : Reader (list (string * string)) := λ v,
  d ← json_object v; mapM (λ '(k, x), s ← strict_str x; Some (k, s)) d.

Definition validate_state (i : RunIntent) : bool :=
  let active := active_request (RunIntent.clarification i) in
  bool_decide (NoDup (map ResolvedSlot.slot (RunIntent.resolved_slots i))) &&
  match RunIntent.preparation_stage i, active with
  | PreparationStage.WAITING_USER, Some r =>
      bool_decide (RunIntent.decision i = Some IntentDecision.CLARIFY) &&
      (ClarificationRequest.intent_revision r =? RunIntent.intent_revision i)%Z
  | PreparationStage.WAITING_USER, None => false
  | _, Some _ => false
  | stage, None =>
      negb (bool_decide (RunIntent.decision i = Some IntentDecision.CLARIFY)) &&
      (negb (bool_decide (stage = PreparationStage.PLANNED)) ||
       bool_decide (RunIntent.decision i = Some IntentDecision.PROCEED))
  end &&
  Bool.eqb (bool_decide (RunIntent.skill_version i = None)) (bool_decide (RunIntent.skill_checksum_sha256 i = None)) &&
  (bool_decide (is_Some (RunIntent.skill i)) || bool_decide (RunIntent.skill_version i = None)).

Definition stages : list PreparationStage :=
  [PreparationStage.CONTEXT_RESOLVED; PreparationStage.WAITING_USER; PreparationStage.INTENT_RESOLVED;
   PreparationStage.PLANNED].
Definition decisions : list IntentDecision :=
  [IntentDecision.PROCEED; IntentDecision.CLARIFY; IntentDecision.UNAVAILABLE; IntentDecision.DENY].

Definition intent_fields : list string :=
  ["schema_version"; "intent_revision"; "preparation_stage"; "admission_intent"; "domain"; "route"; "intent";
   "question"; "metrics"; "dimensions"; "time_range"; "comparison"; "need_data"; "need_root_cause"; "risk"; "agent";
   "skill"; "skill_version"; "skill_checksum_sha256"; "decision"; "decision_reason"; "resolved_slots"; "task_contract";
   "clarification"].

Definition read_intent : Reader RunIntent := λ v,
  d ← fields_of intent_fields v;
  _ ← defaulted (int_between 1 1) "schema_version" 1%Z d;
  revision ← defaulted (at_least 1) "intent_revision" 1%Z d;
  stage ← required (enum_member stages) "preparation_stage" d;
  admission ← defaulted (nullable (sized 0 32)) "admission_intent" None d;
  domain ← required (identifier (sized 1 80)) "domain" d;
  route ← required (identifier (sized 1 80)) "route" d;
  intent ← required (identifier (sized 1 120)) "intent" d;
  question ← required (normalized (sized 1 100000)) "question" d;
  metrics ← defaulted (listing 0 100 json_object) "metrics" [] d;
  dimensions ← defaulted (listing 0 100 json_object) "dimensions" [] d;
  time_range ← defaulted str_dict "time_range" [] d;
  comparison ← defaulted (nullable (sized 0 120)) "comparison" None d;
  need_data ← defaulted strict_bool "need_data" false d;
  need_root_cause ← defaulted strict_bool "need_root_cause" false d;
  risk ← defaulted (identifier risk_level) "risk" "L1" d;
  agent ← defaulted (nullable (identifier (sized 0 160))) "agent" None d;
  skill ← defaulted (nullable (identifier (sized 0 160))) "skill" None d;
  skill_version ← defaulted (nullable (at_least 1)) "skill_version" None d;
  checksum ← defaulted (nullable digest) "skill_checksum_sha256" None d;
  decision ← defaulted (nullable (enum_member decisions)) "decision" None d;
  reason ← defaulted (nullable (sized 0 200)) "decision_reason" None d;
  slots ← defaulted (listing 0 20 read_slot) "resolved_slots" [] d;
  contract ← defaulted (nullable read_contract) "task_contract" None d;
  clarification ← defaulted read_clarification "clarification" (ClarificationState.Make None [] None) d;
  let i := RunIntent.Make revision stage admission domain route intent question metrics dimensions time_range
             comparison need_data need_root_cause risk agent skill skill_version checksum decision reason slots
             contract clarification in
  when (validate_state i) i.

#[export] Instance intent_document : Document RunIntent := {|
  model_validate := read_intent;
  dump i := VDict (dump_intent i)
|}.

(** ** Submissions *)

Definition read_answer_item : Reader ClarificationAnswerItem := λ v,
  d ← fields_of ["slot"; "option_id"; "value"] v;
  slot ← required _normalize_safe_id "slot" d;
  match dget "option_id" d, dget "value" d with
  | Some o, None => id ← canonical_id o; Some (ClarificationAnswerItem.Make slot (Some id) None)
  | None, Some x =>
      if bool_decide (x = VNone) then None
      else value ← bounded_value x; Some (ClarificationAnswerItem.Make slot None (Some value))
  | _, _ => None
  end.

Definition read_submission : Reader ClarificationAnswerSubmission := λ v,
  d ← fields_of ["expected_intent_revision"; "answers"] v;
  revision ← required (at_least 1) "expected_intent_revision" d;
  answers ← required (listing 1 MAX_CLARIFICATION_FIELDS read_answer_item) "answers" d;
  when (bool_decide (NoDup (map ClarificationAnswerItem.slot answers)))
    (ClarificationAnswerSubmission.Make revision (by_slot ClarificationAnswerItem.slot answers)).

(** A model that is built, or read again. *)
Definition validated {S A} (o : option A) : M ClarificationDomainError S A :=
  match o with Some a => mret a | None => raise ValueError end.

Section Operations.
Context {S : Type}.

Definition make_resolved_slot (slot : string) (value : val) (source source_ref : string) (confidence_rank : Z) :
    M ClarificationDomainError S ResolvedSlot :=
  let normalized := _normalize_json_value value in
  normalized_slot ← validated (_normalize_safe_id (VStr slot));
  let draft := ResolvedSlot.Make normalized_slot normalized source source_ref confidence_rank "" in
  validated (read_slot (VDict (slot_payload draft ++
    [("fingerprint", VStr (fingerprint_value (VDict (slot_payload draft))))]))).

(** ** Answering *)

Definition _validate_free_text_value (f : ClarificationField) (value : val) : M ClarificationDomainError S unit :=
  let invalid message := raise (ClarificationAnswerInvalid message) in
  if bool_decide (ClarificationField.value_type f = "STRING") then
    match value with
    | VStr s => raise_if (negb (truthy s)) (ClarificationAnswerInvalid "clarification field requires a non-empty string")
    | _ => invalid "clarification field requires a non-empty string"
    end
  else
    match value with
    | VDict d =>
        raise_if (negb (forallb (λ k, bool_decide (k ∈ ["start"; "end"; "timezone"])) d.*1) ||
                  negb (dmem "start" d && dmem "end" d))
          (ClarificationAnswerInvalid "time range clarification has unsupported fields");;
        match dget_or "start" VNone d, dget_or "end" VNone d with
        | VStr start, VStr end_ =>
            match instant start, instant end_ with
            | Some start_at, Some end_at =>
                raise_if (end_at <=? start_at)%Z
                  (ClarificationAnswerInvalid "time range start must be before its end")
            | _, _ => invalid "time range boundaries must be ISO-8601"
            end
        | _, _ => invalid "time range boundaries must be strings"
        end
    | _ => invalid "time range clarification requires an object"
    end.

(** The value an answer stands for, with its kind, source and reference. *)
Definition answer_value (active : ClarificationRequest) (f : ClarificationField) (a : ClarificationAnswerItem) :
    M ClarificationDomainError S (val * string * string * string) :=
  match ClarificationAnswerItem.option_id a with
  | Some option_id =>
      match List.find (λ o, bool_decide (ClarificationOption.id o = option_id)) (ClarificationField.options f) with
      | None => raise (ClarificationAnswerInvalid "answer references an unknown clarification option")
      | Some o => mret (ClarificationOption.canonical_value o, "OPTION", "CLARIFICATION_OPTION", ClarificationOption.id o)
      end
  | None =>
      raise_if (negb (ClarificationField.allow_free_text f))
        (ClarificationAnswerInvalid "free-text input is not allowed for this field");;
      let value := default VNone (ClarificationAnswerItem.value a) in
      _validate_free_text_value f value;;
      mret (value, "VALUE", "CLARIFICATION_VALUE", ClarificationRequest.id active)
  end.

Definition answer_field (active : ClarificationRequest) (submitted : list ClarificationAnswerItem)
    (f : ClarificationField) : M ClarificationDomainError S (StoredClarificationAnswer * ResolvedSlot) :=
  match List.find (λ a, bool_decide (ClarificationAnswerItem.slot a = ClarificationField.slot f)) submitted with
  | None => raise (ClarificationAnswerInvalid "answers must match every requested clarification field")
  | Some a =>
      answered ← answer_value active f a;
      let '(value, kind, source, source_ref) := answered in
      stored ← validated (read_answer (dump_answer
        (StoredClarificationAnswer.Make (ClarificationField.slot f) kind value source_ref (fingerprint_value value))));
      resolved ← make_resolved_slot (ClarificationField.slot f) value source source_ref 100;
      mret (stored, resolved)
  end.

Definition response_fingerprint (stored : list StoredClarificationAnswer) : string :=
  fingerprint_value (dump_list (λ a,
    VDict [("slot", VStr (StoredClarificationAnswer.slot a)); ("kind", VStr (StoredClarificationAnswer.kind a));
           ("value_fingerprint", VStr (StoredClarificationAnswer.value_fingerprint a))]) stored).

Definition with_answers (stored : list StoredClarificationAnswer) (answered_by : string) (answered_at : Z)
    (r : ClarificationRequest) : ClarificationRequest :=
  r <| ClarificationRequest.status := ClarificationStatus.ANSWERED |> <| ClarificationRequest.answers := stored |>
    <| ClarificationRequest.answered_by := Some answered_by |>
    <| ClarificationRequest.answered_at := Some (isoformat answered_at) |>
    <| ClarificationRequest.response_fingerprint := Some (response_fingerprint stored) |>.

Definition replace_request (active r : ClarificationRequest) (requests : list ClarificationRequest) :
    list ClarificationRequest :=
  map (λ x, if bool_decide (ClarificationRequest.id x = ClarificationRequest.id active) then r else x) requests.

(** The slots by name, the new ones in the place of old ones; old names are distinct. *)
Definition merge_slots (old new : list ResolvedSlot) : list ResolvedSlot :=
  by_slot ResolvedSlot.slot
    (List.filter (λ r, negb (bool_decide (ResolvedSlot.slot r ∈ map ResolvedSlot.slot new))) old ++ new).

Definition resumed (i : RunIntent) (slots : list ResolvedSlot) (c : ClarificationState) : RunIntent :=
  i <| RunIntent.intent_revision := (RunIntent.intent_revision i + 1)%Z |>
    <| RunIntent.preparation_stage := PreparationStage.CONTEXT_RESOLVED |> <| RunIntent.decision := None |>
    <| RunIntent.decision_reason := None |> <| RunIntent.resolved_slots := slots |> <| RunIntent.clarification := c |>.

Definition apply_clarification_answer (i : RunIntent) (submission : ClarificationAnswerSubmission)
    (clarification_id answered_by : string) (answered_at : Z) :
    M ClarificationDomainError S AppliedClarificationAnswer :=
  let clarification := RunIntent.clarification i in
  raise_if (negb (canonical_uuid clarification_id)) ValueError;;
  match active_request clarification with
  | None => raise ClarificationNotPending
  | Some active =>
      raise_if (negb (bool_decide (ClarificationRequest.id active = clarification_id)) || negb (is_open active))
        ClarificationNotPending;;
      raise_if (negb (ClarificationAnswerSubmission.expected_intent_revision submission =?
                      RunIntent.intent_revision i)%Z)
        ClarificationStaleRevision;;
      let submitted := ClarificationAnswerSubmission.answers submission in
      raise_if (negb (same_names (map ClarificationAnswerItem.slot submitted) (field_slots active)))
        (ClarificationAnswerInvalid "answers must match every requested clarification field");;
      pairs ← mapM (answer_field active submitted) (by_slot ClarificationField.slot (ClarificationRequest.fields active));
      let stored := pairs.*1 in
      raise_if (negb (canonical_uuid answered_by)) ValueError;;
      answered_request ← validated (read_request (dump_request (with_answers stored answered_by answered_at active)));
      let slots := merge_slots (RunIntent.resolved_slots i) (pairs.*2) in
      state ← validated (new_state (ClarificationState.Make None
        (replace_request active answered_request (ClarificationState.requests clarification)) None));
      updated ← validated (read_intent (VDict (dump_intent (resumed i slots state))));
      mret (AppliedClarificationAnswer.Make updated (ClarificationRequest.id active)
              (order_by string_le (map ClarificationAnswerItem.slot submitted)) (response_fingerprint stored))
  end.

(** ** Closing *)

Definition with_closure (status : ClarificationStatus) (closed_at : Z) (r : ClarificationRequest) : ClarificationRequest :=
  r <| ClarificationRequest.status := status |> <| ClarificationRequest.closed_at := Some (isoformat closed_at) |>.

Definition unavailable (i : RunIntent) (reason : string) (c : ClarificationState) : RunIntent :=
  i <| RunIntent.preparation_stage := PreparationStage.INTENT_RESOLVED |>
    <| RunIntent.decision := Some IntentDecision.UNAVAILABLE |> <| RunIntent.decision_reason := Some reason |>
    <| RunIntent.clarification := c |>.

Definition close_active_clarification (i : RunIntent) (status : ClarificationStatus) (closed_at : Z) :
    M ClarificationDomainError S RunIntent :=
  let clarification := RunIntent.clarification i in
  match active_request clarification with
  | None => mret i
  | Some active =>
      closed ← validated (read_request (dump_request (with_closure status closed_at active)));
      state ← validated (new_state (ClarificationState.Make None
        (replace_request active closed (ClarificationState.requests clarification)) None));
      mret (unavailable i (if bool_decide (status = ClarificationStatus.EXPIRED)
                           then "clarification_expired" else "clarification_cancelled") state)
  end.

(** ** What is stored with a Run, and what is shown of it *)

Definition has_schema (raw : dict) : bool := py_eq (dget_or "schema_version" VNone raw) (VInt INTENT_SCHEMA_VERSION).

Definition parse_run_intent (raw : dict) (waiting : bool) : M ClarificationDomainError S (option RunIntent) :=
  if negb (has_schema raw) then (if waiting then raise ClarificationStateInvalid else mret None) else
  match read_intent (VDict raw) with
  | None => raise ClarificationStateInvalid
  | Some i =>
      raise_if (waiting && negb (bool_decide (RunIntent.preparation_stage i = PreparationStage.WAITING_USER)))
        ClarificationStateInvalid;;
      mret (Some i)
  end.

(** [model_dump] of a [PendingClarification]. *)
Definition pending_clarification (run_id : uuid) (i : RunIntent) (active : ClarificationRequest) : dict :=
  [("id", VStr (ClarificationRequest.id active)); ("run_id", VStr (uuid_str run_id));
   ("intent_revision", VInt (RunIntent.intent_revision i)); ("round", VInt (ClarificationRequest.round active));
   ("status", VStr "OPEN"); ("question", VStr (ClarificationRequest.question active));
   ("gaps", dump_list public_field (ClarificationRequest.fields active));
   ("requested_at", VStr (ClarificationRequest.requested_at active));
   ("expires_at", VStr (ClarificationRequest.expires_at active))].

Definition pending_clarification_projection (raw : dict) (run_id : uuid) (status : RunStatus) :
    M ClarificationDomainError S (option dict) :=
  if negb (bool_decide (status = RunStatus.WAITING_USER)) then mret None else
  parsed ← parse_run_intent raw true;
  match parsed with
  | None => raise ClarificationStateInvalid
  | Some i =>
      match active_request (RunIntent.clarification i) with
      | None => raise ClarificationStateInvalid
      | Some active => mret (Some (pending_clarification run_id i active))
      end
  end.
End Operations.

(** ** Asking *)

Section Asking.
Context `{Environment}.

(** [new_id()] *)
Definition draw_id : M ClarificationDomainError Kernel uuid := λ k,
  match new_id k with Ok id k' => Ok id k' | Raise _ k' => Raise ValueError k' end.

Definition make_option (label : string) (canonical_value : val) : M ClarificationDomainError Kernel ClarificationOption :=
  let normalized := _normalize_json_value canonical_value in
  option_id ← draw_id;
  validated (read_option (dump_option_document
    (ClarificationOption.Make (uuid_str option_id) label normalized (fingerprint_value normalized)))).

(** The open request, with the id that was drawn, before it is validated. *)
Definition draft_request (i : RunIntent) (request_id : uuid) (question : string) (fields : list ClarificationField)
    (requested_at expires_at : Z) : ClarificationRequest :=
  let draft := ClarificationRequest.Make (uuid_str request_id) (RunIntent.intent_revision i)
    (Z.of_nat (length (ClarificationState.requests (RunIntent.clarification i))) + 1)%Z ClarificationStatus.OPEN
    (normalize_text question) fields (isoformat requested_at) (isoformat expires_at) (fingerprint_gap fields) ""
    [] None None None None in
  draft <| ClarificationRequest.request_fingerprint := fingerprint_request draft |>.

Definition waiting_for (i : RunIntent) (c : ClarificationState) : RunIntent :=
  i <| RunIntent.preparation_stage := PreparationStage.WAITING_USER |>
    <| RunIntent.decision := Some IntentDecision.CLARIFY |>
    <| RunIntent.decision_reason := Some "blocking_information_required" |> <| RunIntent.clarification := c |>.

Definition request_clarification (i : RunIntent) (question : string) (fields : list ClarificationField)
    (requested_at expires_at remaining_execution_seconds : Z) : M ClarificationDomainError Kernel RunIntent :=
  let requests := ClarificationState.requests (RunIntent.clarification i) in
  raise_if (bool_decide (is_Some (active_request (RunIntent.clarification i)))) ClarificationStateInvalid;;
  raise_if (MAX_CLARIFICATION_ROUNDS <=? length requests)%nat ClarificationNoProgress;;
  raise_if (bool_decide (fingerprint_gap fields ∈ map ClarificationRequest.gap_fingerprint requests))
    ClarificationNoProgress;;
  request_id ← draw_id;
  request ← validated (read_request (dump_request (draft_request i request_id question fields requested_at expires_at)));
  clarification ← validated (new_state (ClarificationState.Make (Some (ClarificationRequest.id request))
    (requests ++ [request]) (Some remaining_execution_seconds)));
  mret (waiting_for i clarification).
End Asking.

Definition task_context_slots : list string := ["selected_documents"; "output_format"; "task_constraints"].

Definition public_intent_projection (raw : dict) : dict :=
  if has_schema raw then
    match read_intent (VDict raw) with
    | None => []
    | Some i =>
        let dumped := dump_intent i in
        let shown := omap (λ key, v ← dget key dumped; when (negb (bool_decide (v = VNone))) (key, v))
                       _PUBLIC_INTENT_KEYS in
        let context := map (λ r, (ResolvedSlot.slot r, ResolvedSlot.value r))
          (List.filter (λ r, bool_decide (ResolvedSlot.slot r ∈ task_context_slots)) (RunIntent.resolved_slots i)) in
        shown ++ (if bool_decide (context = []) then [] else [("task_context", VDict context)]) ++
        match RunIntent.task_contract i with
        | Some c => [("task_contract", VDict (task_contract_summary c))]
        | None => []
        end
    end
  else
    let safe := omap (λ key, v ← dget key raw;
                  when (negb (bool_decide (key ∈ ["schema_version"; "intent_revision"]))) (key, v)) _PUBLIC_INTENT_KEYS in
    match redact None (VDict safe) with VDict d => d | _ => [] end.
End Intents.
