(* ===== verification/IntentResolution.v ===== *)
(** * Resolving an intent from its context ([harness/intent_resolution.py])

    Before it plans, the harness looks for the slots an intent needs in what the principal may
    see anyway: the question, references, earlier conversation, memory, the workspace and the
    catalogues.  A slot with one best candidate is resolved; for the others the user is asked. *)

From S2P Require Import Prelude PyText PyVal Regex Redaction Enums Models Kernel TurnRequest.
From S2P Require Import TaskContracts RunIntents.

#[local] Open Scope list_scope.

(** At most [n] repetitions, greedily. *)
Fixpoint up_to_times (n : nat) (r : re) : re :=
  match n with O => Eps | S n' => opt (Cat r (up_to_times n' r)) end.

(** Letters count in either case. *)
Definition _SERVICE_TOKEN : re :=
  let outside c := is_word c || has_char c ".-" in
  let letter c := is_lower c || is_upper c || is_digit c in
  seq [NotBehind outside; Cls letter; Cls (λ c, letter c || has_char c "._-");
       up_to_times 117 (Cls (λ c, letter c || has_char c "._-"));
       alts [ilit "-service"; ilit "-api"; ilit "-worker"]; NotAhead outside].

Definition _STRUCTURED_SLOTS : list string := ["repository"; "service"].

Module ExplorationText.
Record ExplorationText : Type := Make { source : string; source_ref : string; text : string; confidence_rank : Z }.
End ExplorationText.
Abbreviation ExplorationText := ExplorationText.ExplorationText.

Module VisibleIntentContext.
Record VisibleIntentContext : Type := Make {
  context_refs : list dict;
  conversation : list ExplorationText;
  memory : list ExplorationText;
  workspace : option ExplorationText;
  repositories : list string;
  metrics : list dict;
  previous_slots : list ResolvedSlot;
  previous_source_ref : string;
  current_question : option string
}.
End VisibleIntentContext.
Abbreviation VisibleIntentContext := VisibleIntentContext.VisibleIntentContext.

Module Candidate.
Record _Candidate : Type := Make {
  slot : string;
  value : val;
  label : string;
  source : string;
  source_ref : string;
  confidence_rank : Z
}.
End Candidate.
Abbreviation _Candidate := Candidate._Candidate.

Abbreviation Candidates := (gmap string (list _Candidate)).

Definition no_candidates : Candidates := list_to_map [("metric", []); ("repository", []); ("service", [])].

Definition add_candidate (c : _Candidate) (m : Candidates) : Candidates :=
  alter (λ l, l ++ [c]) (Candidate.slot c) m.
Definition add_candidates (l : list _Candidate) (m : Candidates) : Candidates := foldl (λ m c, add_candidate c m) m l.

(** [tuple(dict.fromkeys(l))] *)
Definition fromkeys (l : list string) : list string :=
  foldl (λ seen s, if bool_decide (s ∈ seen) then seen else seen ++ [s]) [] l.

(** [a or b] *)
Definition or_val (a b : val) : val := if truth a then a else b.

(** [str(metric.get("display_name") or metric.get("name") or "").strip()] *)
Definition metric_label (metric : dict) : string :=
  strip (py_str (or_val (or_val (dget_or "display_name" VNone metric) (dget_or "name" VNone metric)) (VStr ""))).

(** ** Ranking *)

(** [by_value[key] = item] *)
Fixpoint put_candidate (key : string) (c : _Candidate) (l : list (string * _Candidate)) : list (string * _Candidate) :=
  match l with
  | [] => [(key, c)]
  | (k, c') :: l' => if bool_decide (k = key) then (k, c) :: l' else (k, c') :: put_candidate key c l'
  end.

Definition keep_better (by_value : list (string * _Candidate)) (c : _Candidate) : list (string * _Candidate) :=
  let key := py_repr (Candidate.value c) in
  match List.find (λ kc, bool_decide (kc.1 = key)) by_value with
  | Some (_, current) =>
      if (Candidate.confidence_rank current <? Candidate.confidence_rank c)%Z then put_candidate key c by_value
      else by_value
  | None => put_candidate key c by_value
  end.

Definition best_by_value (items : list _Candidate) : list _Candidate := (foldl keep_better [] items).*2.

(** [max(item.confidence_rank for item in l)] *)
Definition highest_rank (l : list _Candidate) : Z :=
  match map Candidate.confidence_rank l with [] => 0 | rank :: ranks => foldr Z.max rank ranks end.

Section Explore.
Context `{UnicodeData, IsoFormats, Environment}.

Definition _ranked (items : list _Candidate) : list _Candidate :=
  let best := best_by_value items in
  order_by (λ x y, string_le (casefold (Candidate.label x)) (casefold (Candidate.label y)))
    (List.filter (λ c, (Candidate.confidence_rank c =? highest_rank best)%Z) best).

(** ** Candidates *)

Definition _service_tokens (s : string) : list string := fromkeys (map casefold (findall _SERVICE_TOKEN s)).

Definition plain (slot value source source_ref : string) (rank : Z) : _Candidate :=
  Candidate.Make slot (VStr value) value source source_ref rank.

Definition metric_candidate (metric : dict) (source source_ref : string) (rank : Z) : list _Candidate :=
  let label := metric_label metric in
  if truthy label then [Candidate.Make "metric" (VDict metric) label source source_ref rank] else [].

Definition _input_candidates (i : RunIntent) (context : VisibleIntentContext) : list _Candidate :=
  let current := default (RunIntent.question i) (VisibleIntentContext.current_question context) in
  concat (map (λ m, metric_candidate m "INPUT" "turn.input" 90) (RunIntent.metrics i)) ++
  concat (map (λ r, if contains (casefold r) (casefold current) then [plain "repository" r "INPUT" "turn.input" 90] else [])
    (VisibleIntentContext.repositories context)) ++
  map (λ s, plain "service" s "INPUT" "turn.input" 90) (_service_tokens current).

(** [{item.casefold(): item for item in repositories}.get(key)] *)
Definition authorized (repositories : list string) (key : string) : option string :=
  last (List.filter (λ r, bool_decide (casefold r = key)) repositories).

(** [str(reference.get(key) or "").strip().casefold()] *)
Definition reference_name (key : string) (reference : dict) : string :=
  casefold (strip (py_str (or_val (dget_or key VNone reference) (VStr "")))).

Definition context_ref_candidate (repositories : list string) (index : nat) (reference : dict) : list _Candidate :=
  let reference_type := reference_name "type" reference in
  let slot := if bool_decide (reference_type = "intent_slot") then reference_name "slot" reference else reference_type in
  if negb (bool_decide (slot ∈ _STRUCTURED_SLOTS)) then [] else
  match dget_or "value" (dget_or "name" VNone reference) reference with
  | VStr value =>
      if negb (truthy (strip value)) then [] else
      let normalized := redact_text (strip value) in
      let candidate value :=
        [plain slot value "CONTEXT_REF" ("turn.context_refs[" +:+ int_str (Z.of_nat index) +:+ "]") 95] in
      if bool_decide (slot = "repository") then
        match authorized repositories (casefold normalized) with
        | Some current => candidate current
        | None => []
        end
      else candidate normalized
  | _ => []
  end.

Definition _context_ref_candidates (context_refs : list dict) (repositories : list string) : list _Candidate :=
  concat (imap (context_ref_candidate repositories) context_refs).

Definition text_candidates (repositories : list string) (t : ExplorationText) : list _Candidate :=
  let make slot value := plain slot value (ExplorationText.source t) (ExplorationText.source_ref t)
                           (ExplorationText.confidence_rank t) in
  concat (map (λ r, if contains (casefold r) (casefold (ExplorationText.text t)) then [make "repository" r] else [])
    repositories) ++
  map (make "service") (_service_tokens (ExplorationText.text t)).

Definition _visible_text_candidates (context : VisibleIntentContext) : list _Candidate :=
  concat (map (text_candidates (VisibleIntentContext.repositories context))
    (VisibleIntentContext.conversation context ++ VisibleIntentContext.memory context ++
     option_list (VisibleIntentContext.workspace context))).

Definition metric_ref (metric : dict) : string :=
  "metric:" +:+ py_str (dget_or "id" (dget_or "name" (VStr (metric_label metric)) metric) metric).

Definition _catalog_candidates (context : VisibleIntentContext) : list _Candidate :=
  map (λ r, plain "repository" r "CATALOG" ("code-repository:" +:+ r) 50) (VisibleIntentContext.repositories context) ++
  concat (map (λ m, metric_candidate m "CATALOG" (metric_ref m) 50) (VisibleIntentContext.metrics context)).

(** What an earlier selection adds: the candidates, and the slots whose selection is no longer
    authorized, which leaves them what the user names now. *)
Definition previous_candidate (context : VisibleIntentContext) (st : Candidates * list string) (item : ResolvedSlot) :
    Candidates * list string :=
  let '(candidates, unavailable) := st in
  let slot := ResolvedSlot.slot item in
  if negb (bool_decide (slot ∈ _STRUCTURED_SLOTS)) then st else
  match ResolvedSlot.value item with
  | VStr value =>
      let carry value := (add_candidate (plain slot value "CONVERSATION"
        (VisibleIntentContext.previous_source_ref context) 89) candidates, unavailable) in
      if bool_decide (slot = "repository") then
        match authorized (VisibleIntentContext.repositories context) (casefold value) with
        | None => (alter (List.filter (λ c, bool_decide (Candidate.source c ∈ ["INPUT"; "CONTEXT_REF"]))) slot candidates,
                   unavailable ++ [slot])
        | Some current => carry current
        end
      else carry value
  | _ => st
  end.

Definition _previous_candidates (context : VisibleIntentContext) (candidates : Candidates) : Candidates * list string :=
  if negb (truthy (VisibleIntentContext.previous_source_ref context)) then (candidates, []) else
  foldl (previous_candidate context) (candidates, []) (VisibleIntentContext.previous_slots context).

(** Every candidate, and the slots whose earlier selection is not available. *)
Definition all_candidates (i : RunIntent) (context : VisibleIntentContext) : Candidates * list string :=
  _previous_candidates context
    (add_candidates (_input_candidates i context ++
       _context_ref_candidates (VisibleIntentContext.context_refs context) (VisibleIntentContext.repositories context) ++
       _visible_text_candidates context ++ _catalog_candidates context) no_candidates).

(** ** Exploring *)

Definition _blocking_slots (i : RunIntent) : list string :=
  (if bool_decide (RunIntent.route i ∈ ["DATA"; "ANALYTICS"]) && negb (length (RunIntent.metrics i) =? 1)%nat
   then ["metric"] else []) ++
  (if bool_decide (RunIntent.route i = "ENGINEERING") then ["repository"] else []) ++
  (if bool_decide (RunIntent.route i ∈ ["INCIDENT"; "OPERATION"]) then ["service"] else []).

Definition resolved_of (c : _Candidate) : M ClarificationDomainError Kernel ResolvedSlot :=
  make_resolved_slot (Candidate.slot c) (Candidate.value c) (Candidate.source c) (Candidate.source_ref c)
    (Candidate.confidence_rank c).

Definition prompt_of (slot : string) : option string :=
  if bool_decide (slot = "metric") then Some "请选择本次分析使用的指标" else
  if bool_decide (slot = "repository") then Some "请选择需要调查的代码库" else
  if bool_decide (slot = "service") then Some "请选择需要调查的服务" else None.

Definition slot_label (slot : string) : option string :=
  if bool_decide (slot = "metric") then Some "指标" else
  if bool_decide (slot = "repository") then Some "代码库" else
  if bool_decide (slot = "service") then Some "服务" else None.

Definition or_key_error {A} (o : option A) : M ClarificationDomainError Kernel A :=
  match o with Some a => mret a | None => raise KeyError end.

Definition _clarification_field (slot : string) (candidates : list _Candidate) :
    M ClarificationDomainError Kernel ClarificationField :=
  options ← mapM (λ c, make_option (Candidate.label c) (Candidate.value c)) (take MAX_CLARIFICATION_OPTIONS candidates);
  prompt ← or_key_error (prompt_of slot);
  validated (new_field (VStr slot)
    (VStr (if (1 <? length candidates)%nat then "multiple_" +:+ slot +:+ "_candidates" else "missing_" +:+ slot))
    (VStr prompt) "STRING" options (bool_decide (slot ∈ ["repository"; "service"]))).

Definition _clarification_question (fields : list ClarificationField) : M ClarificationDomainError Kernel string :=
  labels ← mapM (λ f, or_key_error (slot_label (ClarificationField.slot f))) fields;
  mret ("我已检查当前问题、任务历史、工作区上下文和可访问目录；还需要确认" +:+ join "、" labels +:+ "后才能安全继续。").

(** One round of the loop over the slots: the slots that are resolved, and the fields to ask. *)
Definition explore_slot (candidates : Candidates) (unavailable : list string)
    (st : list ResolvedSlot * list ClarificationField) (slot : string) :
    M ClarificationDomainError Kernel (list ResolvedSlot * list ClarificationField) :=
  let '(resolved, fields) := st in
  if bool_decide (slot ∈ map ResolvedSlot.slot resolved) then mret st else
  found ← or_key_error (candidates !! slot);
  match _ranked found with
  | [c] => r ← resolved_of c; mret (resolved ++ [r], fields)
  | ranked =>
      field ← _clarification_field slot ranked;
      let field := if bool_decide (slot ∈ unavailable)
        then field <| ClarificationField.reason_code := "previous_" +:+ slot +:+ "_unavailable" |> else field in
      mret (resolved, fields ++ [field])
  end.

Fixpoint explore_slots (candidates : Candidates) (unavailable slots : list string)
    (st : list ResolvedSlot * list ClarificationField) :
    M ClarificationDomainError Kernel (list ResolvedSlot * list ClarificationField) :=
  match slots with
  | [] => mret st
  | slot :: rest => st' ← explore_slot candidates unavailable st slot; explore_slots candidates unavailable rest st'
  end.

Definition proceeding (i : RunIntent) (slots : list ResolvedSlot) : RunIntent :=
  i <| RunIntent.resolved_slots := by_slot ResolvedSlot.slot slots |>
    <| RunIntent.preparation_stage := PreparationStage.INTENT_RESOLVED |>
    <| RunIntent.decision := Some IntentDecision.PROCEED |>
    <| RunIntent.decision_reason := Some "context_exploration_complete" |>.

Definition explore (i : RunIntent) (context : VisibleIntentContext)
    (now clarification_ttl_seconds remaining_execution_seconds : Z) (required_slots : option (list string)) :
    M ClarificationDomainError Kernel RunIntent :=
  let '(candidates, unavailable) := all_candidates i context in
  st ← explore_slots candidates unavailable (default (_blocking_slots i) required_slots) (RunIntent.resolved_slots i, []);
  let '(resolved, fields) := st in
  let updated := proceeding i resolved in
  updated ← match fields with
    | [] => mret updated
    | _ =>
        question ← _clarification_question fields;
        request_clarification updated question fields now (now + clarification_ttl_seconds * second)%Z
          remaining_execution_seconds
    end;
  validated (read_intent (VDict (dump_intent updated))).

(** ** Planning *)

(** What the planner is given: the intent, its resolved slots taking the place of fields. *)
Definition planning_input (i : RunIntent) : dict :=
  let payload := List.filter (λ kv, negb (bool_decide (kv.1 ∈ ["clarification"; "resolved_slots"; "preparation_stage"])))
                   (dump_intent i) in
  foldl (λ payload item,
    match ResolvedSlot.value item with
    | VDict d =>
        if bool_decide (ResolvedSlot.slot item = "metric") then dset "metrics" (VList [VDict d]) payload
        else dset (ResolvedSlot.slot item) (VDict d) payload
    | v => dset (ResolvedSlot.slot item) v payload
    end) payload (RunIntent.resolved_slots i).

Definition mark_planned (i : RunIntent) : M ClarificationDomainError Kernel RunIntent :=
  validated (read_intent (VDict (dump_intent
    (i <| RunIntent.preparation_stage := PreparationStage.PLANNED |>
       <| RunIntent.decision := Some IntentDecision.PROCEED |>
       <| RunIntent.decision_reason := Some "governed_plan_created" |>)))).
End Explore.

(** The slots a plan needs, given what the Run may invoke ([harness/runtime.py]). *)
Definition operation_capabilities : list string :=
  ["config.diff"; "config.get"; "deployment.list"; "k8s.status"; "log.aggregate"; "log.search"; "metric.anomaly";
   "metric.compare"; "metric.dimension"; "metric.query"; "trace.search"].

Definition _required_intent_slots (i : RunIntent) (context : VisibleIntentContext) (allowed_capabilities : list string) :
    list string :=
  let starts prefix item := String.prefix prefix item in
  (if bool_decide (RunIntent.route i ∈ ["DATA"; "ANALYTICS"]) && negb (length (RunIntent.metrics i) =? 1)%nat
   then ["metric"] else []) ++
  (if bool_decide (RunIntent.route i = "ENGINEERING") &&
      negb (bool_decide (VisibleIntentContext.repositories context = [])) &&
      existsb (λ item, starts "code." item || starts "git." item) allowed_capabilities
   then ["repository"] else []) ++
  (if bool_decide (RunIntent.route i ∈ ["INCIDENT"; "OPERATION"]) &&
      existsb (λ item, bool_decide (item ∈ operation_capabilities)) allowed_capabilities
   then ["service"] else []).
