(* ===== verification/RunIntentFacts.v ===== *)
(** * Intents over time

    What reading a document again keeps, what asking, answering and closing do to an intent, and
    what therefore holds of the clarifications of a Run over any history. *)

From S2P Require Import Prelude PyText PyVal Redaction Enums Models Kernel TurnRequest TaskContracts RunIntents.
From S2P Require Import IntentResolution.

#[local] Open Scope list_scope.

(** ** Reading again *)

Lemma when_Some {A} b (a x : A) : when b a = Some x ↔ b = true ∧ a = x.
Proof. unfold when. destruct b; naive_solver. Qed.

Lemma wp_read_again {E A} (o : option A) (Q : A → E → Prop) X s :
  (∀ a, o = Some a → Q a s) → (o = None → X ValueError s) → wp (validated o) Q X s.
Proof. intros HQ HX. destruct o; [by apply wp_ret, HQ|by apply wp_raise, HX]. Qed.

Lemma fields_of_Some names d d' : fields_of names (VDict d) = Some d' → d' = d.
Proof. cbn. by intros [_ <-]%when_Some. Qed.

Lemma listing_dumped {A B} (dump : A → val) (read : Reader B) lo hi (l : list A) l' :
  listing lo hi read (dump_list dump l) = Some l' → Forall2 (λ x x', read (dump x) = Some x') l l'.
Proof.
  cbn. destruct (_ && _); [|done]. intros Hl%mapM_Some. by apply Forall2_fmap_l in Hl.
Qed.

Lemma digest_kept s s' : digest (VStr s) = Some s' → s' = s.
Proof. cbn. by intros [_ <-]%when_Some. Qed.
Lemma canonical_id_kept s s' : canonical_id (VStr s) = Some s' → s' = s.
Proof. cbn. by intros [_ <-]%when_Some. Qed.
Lemma at_least_kept lo z z' : at_least lo (VInt z) = Some z' → z' = z.
Proof. cbn. by intros [_ <-]%when_Some. Qed.
Lemma int_between_kept lo hi z z' : int_between lo hi (VInt z) = Some z' → z' = z.
Proof. unfold int_between. intros (x & ->%at_least_kept & [_ <-]%when_Some)%bind_Some. done. Qed.
Lemma literal_kept l s s' : literal l (VStr s) = Some s' → s' = s.
Proof. cbn. by intros [_ <-]%when_Some. Qed.
Lemma sized_kept lo hi s s' : sized lo hi (VStr s) = Some s' → s' = s.
Proof. cbn. by intros [_ <-]%when_Some. Qed.
Lemma strict_bool_kept b b' : strict_bool (VBool b) = Some b' → b' = b.
Proof. cbn. congruence. Qed.

Lemma nullable_text_kept (read : Reader string) o o' :
  (∀ s s', read (VStr s) = Some s' → s' = s) → nullable read (text_or_none o) = Some o' → o' = o.
Proof.
  intros Hread. destruct o as [s|]; cbn; [|congruence]. intros (s1 & Hs & ->)%fmap_Some. by rewrite (Hread _ _ Hs).
Qed.
Lemma nullable_int_kept lo o o' : nullable (at_least lo) (int_or_none o) = Some o' → o' = o.
Proof.
  destruct o as [z|]; cbn; [|congruence]. intros (z1 & Hz & ->)%fmap_Some. by apply when_Some in Hz as [_ ->].
Qed.
Lemma status_kept s s' : enum_member clarification_statuses (VStr (value_of s)) = Some s' → s' = s.
Proof. intros Hs. destruct s; vm_compute in Hs; congruence. Qed.
Lemma stage_kept s s' : enum_member stages (VStr (value_of s)) = Some s' → s' = s.
Proof. intros Hs. destruct s; vm_compute in Hs; congruence. Qed.
Lemma decision_kept o o' :
  nullable (enum_member decisions) (dump_option (λ d, VStr (value_of d)) o) = Some o' → o' = o.
Proof. intros Hd. destruct o as [[]|]; vm_compute in Hd; congruence. Qed.

(** Take apart the reading of a document. *)
Ltac open_read H :=
  repeat lazymatch type of H with
  | mbind _ _ = Some _ =>
      let x := fresh "x" in let Hx := fresh "Hx" in apply bind_Some in H as (x & Hx & H)
  | when _ _ = Some _ => let Hok := fresh "Hok" in apply when_Some in H as [Hok H]
  end.

Section Facts.
Context `{UnicodeData, IsoFormats}.

(** What an answer keeps whenever its document is read. *)
Record same_answer (a a' : StoredClarificationAnswer) : Prop := {
  same_answer_kind : StoredClarificationAnswer.kind a' = StoredClarificationAnswer.kind a;
  same_answer_ref : StoredClarificationAnswer.source_ref a' = StoredClarificationAnswer.source_ref a;
  same_answer_value : StoredClarificationAnswer.value_fingerprint a' = StoredClarificationAnswer.value_fingerprint a
}.

Lemma read_answer_same a a' :
  read_answer (dump_answer a) = Some a' →
  same_answer a a' ∧ StoredClarificationAnswer.value_fingerprint a' = fingerprint_value (StoredClarificationAnswer.value a').
Proof.
  intros Hr. unfold read_answer, dump_answer in Hr. open_read Hr. apply fields_of_Some in Hx as ->.
  apply literal_kept in Hx1 as ->. apply sized_kept in Hx3 as ->. apply digest_kept in Hx4 as ->. subst a'. cbn.
  apply bool_decide_eq_true in Hok. done.
Qed.

(** A name the source has normalized. *)
Definition safe_name (s : string) : Prop := safe_identifier 79 s = true.

(** Normalizing leaves such a name alone: it has lower-case letters, digits, and [_.-] only. *)
Context (ascii_stable : ∀ s, safe_name s → casefold (strip (nfkc s)) = s).

Lemma normalize_safe_id s s' : _normalize_safe_id (VStr s) = Some s' → safe_name s' ∧ (safe_name s → s' = s).
Proof. cbn. intros [Hok <-]%when_Some. split; [done|]. intros Hs. by apply ascii_stable. Qed.

Definition safe_request (r : ClarificationRequest) : Prop := Forall safe_name (field_slots r).

Lemma read_field_same f f' :
  read_field (dump_field f) = Some f' →
  safe_name (ClarificationField.slot f) → ClarificationField.slot f' = ClarificationField.slot f.
Proof.
  intros Hr Hs. unfold read_field, dump_field in Hr. open_read Hr. apply fields_of_Some in Hx as ->.
  unfold new_field in Hr. open_read Hr. subst f'. cbn.
  match goal with Hs : requestable_slot ?v = _, Hv : _ = Some ?v |- _ => rename Hs into Hslot; injection Hv as <- end.
  unfold requestable_slot in Hslot. open_read Hslot. subst.
  match goal with Hn : _normalize_safe_id _ = Some _ |- _ => apply normalize_safe_id in Hn as [_ Hn]; by apply Hn end.
Qed.

Lemma read_fields_same fields fields' :
  Forall2 (λ f f', read_field (dump_field f) = Some f') fields fields' →
  Forall safe_name (map ClarificationField.slot fields) →
  map ClarificationField.slot fields' = map ClarificationField.slot fields.
Proof.
  induction 1 as [|f f' l l' Hf _ IH]; [done|]. cbn. intros [Hsafe Hl]%Forall_cons. f_equal; [|by apply IH].
  by apply read_field_same.
Qed.

(** And a request. *)
Record same_request (r r' : ClarificationRequest) : Prop := {
  same_id : ClarificationRequest.id r' = ClarificationRequest.id r;
  same_revision : ClarificationRequest.intent_revision r' = ClarificationRequest.intent_revision r;
  same_round : ClarificationRequest.round r' = ClarificationRequest.round r;
  same_status : ClarificationRequest.status r' = ClarificationRequest.status r;
  same_fields : safe_request r → field_slots r' = field_slots r;
  same_gap : ClarificationRequest.gap_fingerprint r' = ClarificationRequest.gap_fingerprint r;
  same_contract : ClarificationRequest.request_fingerprint r' = ClarificationRequest.request_fingerprint r;
  same_answers : Forall2 same_answer (ClarificationRequest.answers r) (ClarificationRequest.answers r');
  same_author : ClarificationRequest.answered_by r' = ClarificationRequest.answered_by r;
  same_response : ClarificationRequest.response_fingerprint r' = ClarificationRequest.response_fingerprint r
}.

Lemma read_request_same r r' :
  read_request (dump_request r) = Some r' → same_request r r' ∧ validate_lifecycle r' = true.
Proof.
  intros Hr. unfold read_request, dump_request in Hr. open_read Hr. apply fields_of_Some in Hx as ->.
  apply canonical_id_kept in Hx0 as ->. apply at_least_kept in Hx1 as ->. apply int_between_kept in Hx2 as ->.
  apply status_kept in Hx3 as ->. apply digest_kept in Hx8 as ->. apply digest_kept in Hx9 as ->.
  apply listing_dumped in Hx5. apply listing_dumped in Hx10. apply nullable_text_kept in Hx11 as ->; [|apply canonical_id_kept].
  apply nullable_text_kept in Hx13 as ->; [|apply digest_kept]. subst r'. split; [|done].
  split; try done; [by apply read_fields_same|]. cbn.
  eapply Forall2_impl; [exact Hx10|]. intros a a' Ha. by apply read_answer_same in Ha as [].
Qed.

Lemma new_state_Some c c' :
  new_state c = Some c' →
  c' = c ∧ (length (ClarificationState.requests c) ≤ 2)%nat ∧ validate_active_request c = true.
Proof. unfold new_state. intros [Hok <-]%when_Some. split_bool. split; [done|]. split; [by apply Nat.leb_le|done]. Qed.

(** And a resolved slot. *)
Record same_slot (r r' : ResolvedSlot) : Prop := {
  same_name : safe_name (ResolvedSlot.slot r) → ResolvedSlot.slot r' = ResolvedSlot.slot r;
  same_source : ResolvedSlot.source r' = ResolvedSlot.source r;
  same_source_ref : ResolvedSlot.source_ref r' = ResolvedSlot.source_ref r;
  same_rank : ResolvedSlot.confidence_rank r' = ResolvedSlot.confidence_rank r;
  same_fingerprint : ResolvedSlot.fingerprint r' = ResolvedSlot.fingerprint r
}.

Lemma read_slot_same r r' :
  read_slot (dump_slot r) = Some r' →
  same_slot r r' ∧ safe_name (ResolvedSlot.slot r') ∧
  ResolvedSlot.fingerprint r' = fingerprint_value (VDict (slot_payload r')).
Proof.
  intros Hr. unfold read_slot, dump_slot, slot_payload in Hr. cbn [app] in Hr. open_read Hr.
  apply fields_of_Some in Hx as ->. apply literal_kept in Hx2 as ->. apply sized_kept in Hx3 as ->.
  apply int_between_kept in Hx4 as ->. apply digest_kept in Hx5 as ->. apply normalize_safe_id in Hx0 as [? ?].
  subst r'. apply bool_decide_eq_true in Hok. done.
Qed.

(** What reading an intent keeps. *)
Record same_intent (i i' : RunIntent) : Prop := {
  kept_revision : RunIntent.intent_revision i' = RunIntent.intent_revision i;
  kept_stage : RunIntent.preparation_stage i' = RunIntent.preparation_stage i;
  kept_decision : RunIntent.decision i' = RunIntent.decision i;
  kept_active : ClarificationState.active_id (RunIntent.clarification i') =
                ClarificationState.active_id (RunIntent.clarification i);
  kept_remaining : ClarificationState.remaining_execution_seconds (RunIntent.clarification i') =
                   ClarificationState.remaining_execution_seconds (RunIntent.clarification i);
  kept_requests : Forall2 same_request (ClarificationState.requests (RunIntent.clarification i))
                    (ClarificationState.requests (RunIntent.clarification i'));
  kept_slots : Forall2 same_slot (RunIntent.resolved_slots i) (RunIntent.resolved_slots i')
}.

(** Neither a credential nor something the server decides. *)
Definition may_be_asked (slot : string) : Prop :=
  mentions _SENSITIVE_SLOT_PARTS (_collapsed_identifier slot) = false ∧
  mentions _DERIVED_SLOT_PARTS (_collapsed_identifier slot) = false.

Lemma read_field_slot v f :
  read_field v = Some f → may_be_asked (ClarificationField.slot f) ∧ safe_name (ClarificationField.slot f).
Proof.
  intros Hr. unfold read_field in Hr. open_read Hr. unfold new_field in Hr. open_read Hr. subst f. cbn.
  unfold requestable_slot in Hx7. open_read Hx7. subst. unfold _normalize_safe_id in Hx10. open_read Hx10. subst.
  by split_bool.
Qed.

Lemma read_request_fields v r :
  read_request v = Some r →
  (1 ≤ length (ClarificationRequest.fields r) ≤ 3)%nat ∧
  Forall (λ f, may_be_asked (ClarificationField.slot f) ∧ (length (ClarificationField.options f) ≤ 3)%nat)
    (ClarificationRequest.fields r) ∧
  safe_request r.
Proof.
  intros Hr. unfold read_request in Hr. open_read Hr. subst r. unfold safe_request, field_slots. cbn. unfold required in Hx5.
  apply bind_Some in Hx5 as (w & _ & Hl). destruct w as [| | | |l|]; try done. cbn in Hl.
  destruct (_ && _) eqn:Hlen; [|done]. apply mapM_Some in Hl. split_and!.
  - rewrite <-(Forall2_length _ _ _ Hl). split_bool. by apply Nat.leb_le.
  - rewrite <-(Forall2_length _ _ _ Hl). split_bool. by apply Nat.leb_le.
  - apply Forall_forall. intros f Hin. apply list_elem_of_lookup in Hin as [n Hn].
    destruct (Forall2_lookup_r _ _ _ _ _ Hl Hn) as (y & _ & Hy). split; [by eapply read_field_slot|].
    unfold read_field in Hy. open_read Hy. unfold new_field in Hy. open_read Hy. subst f. cbn.
    split_bool. by apply Nat.leb_le.
  - apply Forall_map, Forall_forall. intros f Hin. apply list_elem_of_lookup in Hin as [n Hn].
    destruct (Forall2_lookup_r _ _ _ _ _ Hl Hn) as (y & _ & Hy). by apply read_field_slot in Hy as [].
Qed.

(** What the validators of an intent check of its clarifications. *)
Record intent_ok (i : RunIntent) : Prop := {
  ok_state : validate_state i = true;
  ok_rounds : (length (ClarificationState.requests (RunIntent.clarification i)) ≤ 2)%nat;
  ok_active : validate_active_request (RunIntent.clarification i) = true;
  ok_fields : Forall safe_request (ClarificationState.requests (RunIntent.clarification i));
  ok_slots : Forall (λ r, safe_name (ResolvedSlot.slot r)) (RunIntent.resolved_slots i)
}.

Lemma read_clarification_same c c' :
  read_clarification (dump_clarification c) = Some c' →
  ClarificationState.active_id c' = ClarificationState.active_id c ∧
  ClarificationState.remaining_execution_seconds c' = ClarificationState.remaining_execution_seconds c ∧
  Forall2 same_request (ClarificationState.requests c) (ClarificationState.requests c') ∧
  (length (ClarificationState.requests c') ≤ 2)%nat ∧ validate_active_request c' = true.
Proof.
  intros Hr. unfold read_clarification, dump_clarification in Hr. open_read Hr. apply fields_of_Some in Hx as ->.
  apply new_state_Some in Hr as (-> & Hlen & Hv). apply nullable_text_kept in Hx0 as ->; [|apply canonical_id_kept].
  apply nullable_int_kept in Hx2 as ->. apply listing_dumped in Hx1. split_and!; try done.
  eapply Forall2_impl; [exact Hx1|]. intros r r' Hr. by apply read_request_same in Hr as [].
Qed.

Lemma listing_read {A} lo hi (read : Reader A) v l : listing lo hi read v = Some l → Forall (λ x, ∃ w, read w = Some x) l.
Proof.
  destruct v; try done. cbn. destruct (_ && _); [|done]. intros Hl%mapM_Some. apply Forall_forall. intros x Hx.
  apply list_elem_of_lookup in Hx as [n Hn]. destruct (Forall2_lookup_r _ _ _ _ _ Hl Hn) as (y & _ & Hy). eauto.
Qed.

Lemma defaulted_Some {A} (read : Reader A) k x d a :
  defaulted read k x d = Some a → a = x ∨ ∃ v, read v = Some a.
Proof. unfold defaulted. destruct (dget k d); [eauto|]. intros [= ->]. by left. Qed.

Lemma read_slot_safe v r : read_slot v = Some r → safe_name (ResolvedSlot.slot r).
Proof.
  intros Hr. unfold read_slot in Hr. open_read Hr. subst r. unfold required in Hx0. open_read Hx0.
  unfold _normalize_safe_id in Hx0. open_read Hx0. by subst.
Qed.

(** Whatever the document was read from. *)
Lemma read_intent_ok v i : read_intent v = Some i → intent_ok i.
Proof.
  intros Hr. unfold read_intent in Hr. open_read Hr. subst i.
  assert (Forall (λ r, safe_name (ResolvedSlot.slot r)) x21) as Hslots.
  { apply defaulted_Some in Hx21 as [->|[w Hw%listing_read]]; [constructor|]. eapply Forall_impl; [exact Hw|].
    intros r [u Hu]. by eapply read_slot_safe. }
  apply defaulted_Some in Hx23 as [->|[w Hw]]; [split; try done; cbn; try lia; constructor|].
  unfold read_clarification in Hw. open_read Hw. apply new_state_Some in Hw as (-> & ? & ?). split; try done.
  cbn. apply defaulted_Some in Hx25 as [->|[u Hu%listing_read]]; [constructor|]. eapply Forall_impl; [exact Hu|].
  intros r [y Hy]. by apply read_request_fields in Hy as (_ & _ & ?).
Qed.

Lemma read_intent_same i i' : read_intent (VDict (dump_intent i)) = Some i' → same_intent i i' ∧ intent_ok i'.
Proof.
  intros Hr. pose proof (read_intent_ok _ _ Hr). split; [|done]. unfold read_intent, dump_intent in Hr. open_read Hr.
  apply fields_of_Some in Hx as ->. apply at_least_kept in Hx1 as ->. apply stage_kept in Hx2 as ->.
  apply decision_kept in Hx19 as ->. apply listing_dumped in Hx21.
  apply read_clarification_same in Hx23 as (? & ? & ? & ? & ?). subst i'. split; try done.
  eapply Forall2_impl; [exact Hx21|]. intros r r' Hr. by apply read_slot_same in Hr as [].
Qed.

(** ** The requests of an intent *)

(** An open request is the last one, and those before it are answered. *)
Record open_at (c : ClarificationState) (front : list ClarificationRequest) (r : ClarificationRequest) : Prop := {
  open_requests : ClarificationState.requests c = front ++ [r];
  open_status : ClarificationRequest.status r = ClarificationStatus.OPEN;
  open_front : Forall (λ x, ClarificationRequest.status x = ClarificationStatus.ANSWERED) front;
  open_fresh : ClarificationRequest.id r ∉ ClarificationRequest.id <$> front;
  open_active : ClarificationState.active_id c = Some (ClarificationRequest.id r);
  open_remaining : is_Some (ClarificationState.remaining_execution_seconds c)
}.

Lemma find_open c front r : open_at c front r → active_request c = Some r.
Proof.
  intros [Hreqs _ _ Hfresh Hid _]. unfold active_request. rewrite Hid, Hreqs. apply find_last.
  - intros y Hy. apply bool_decide_eq_false. intros He. apply Hfresh. rewrite <-He. by apply list_elem_of_fmap_2.
  - by apply bool_decide_eq_true.
Qed.

Lemma map_fmap {A B} (f : A → B) l : map f l = f <$> l.
Proof. done. Qed.

Lemma filter_open_answered l :
  Forall (λ x, ClarificationRequest.status x = ClarificationStatus.ANSWERED) l → List.filter is_open l = [].
Proof. induction 1 as [|x l Hx _ IH]; [done|]. cbn. unfold is_open at 1. by rewrite Hx, IH. Qed.

Lemma validated_shape c :
  validate_active_request c = true →
  NoDup (ClarificationRequest.id <$> ClarificationState.requests c) ∧
  ClarificationRequest.round <$> ClarificationState.requests c =
    Z.of_nat <$> seq 1 (length (ClarificationState.requests c)) ∧
  match ClarificationState.active_id c with
  | None => Forall (λ r, is_open r = false) (ClarificationState.requests c) ∧
            ClarificationState.remaining_execution_seconds c = None
  | Some _ => ∃ front r, open_at c front r
  end.
Proof.
  unfold validate_active_request. destruct c as [active requests remaining]. cbn. intros Hv.
  apply andb_true_iff in Hv as [[Hids%bool_decide_eq_true Hrounds%bool_decide_eq_true]%andb_true_iff Hopen].
  split; [done|]. split; [done|]. destruct (List.filter is_open requests) as [|o [|]] eqn:Hf; [| |done].
  - apply andb_true_iff in Hopen as [->%bool_decide_eq_true ->%bool_decide_eq_true]. split; [|done].
    apply Forall_forall. intros x Hx. destruct (is_open x) eqn:Ho; [|done]. exfalso. apply (not_elem_of_nil x).
    rewrite <-Hf. by apply list_elem_of_In, filter_In; rewrite <-list_elem_of_In.
  - apply andb_true_iff in Hopen as [[[->%bool_decide_eq_true Hlast%bool_decide_eq_true]%andb_true_iff
      Hrem%bool_decide_eq_true]%andb_true_iff Hfront].
    destruct requests as [|x front _] using rev_ind; [done|]. rewrite removelast_last in Hfront.
    assert (Forall (λ x, ClarificationRequest.status x = ClarificationStatus.ANSWERED) front) as Hans.
    { apply Forall_forall. intros y Hy. by apply (proj1 (forallb_true _ _) Hfront) in Hy as ?%bool_decide_eq_true. }
    rewrite List.filter_app, filter_open_answered in Hf by done. cbn in Hf. destruct (is_open x) eqn:Ho; [|done].
    injection Hf as <-. exists front, x. split; try done; [by apply bool_decide_eq_true in Ho|].
    rewrite fmap_app in Hids. apply NoDup_app in Hids as (_ & Hd & _). intros Hin. by apply (Hd _ Hin), list_elem_of_singleton.
Qed.

Lemma replace_open c front r r' : open_at c front r → replace_request r r' (ClarificationState.requests c) = front ++ [r'].
Proof.
  intros [-> _ _ Hfresh _ _]. unfold replace_request. rewrite map_app. cbn. rewrite bool_decide_true by done. f_equal.
  rewrite <-(map_id front) at 2. apply map_ext_in. intros x Hx%list_elem_of_In. rewrite bool_decide_false; [done|].
  intros He. apply Hfresh. rewrite <-He. by apply list_elem_of_fmap_2.
Qed.
(** ** Asking *)

(** [i'] is [i] with one more request, [r], which waits for an answer. *)
Record asked (i : RunIntent) (fields : list ClarificationField) (remaining : Z) (i' : RunIntent)
    (r : ClarificationRequest) : Prop := {
  asked_intent : i' = waiting_for i (ClarificationState.Make (Some (ClarificationRequest.id r))
                   (ClarificationState.requests (RunIntent.clarification i) ++ [r]) (Some remaining));
  asked_status : ClarificationRequest.status r = ClarificationStatus.OPEN;
  asked_revision : ClarificationRequest.intent_revision r = RunIntent.intent_revision i;
  asked_round : (ClarificationRequest.round r =
                 Z.of_nat (length (ClarificationState.requests (RunIntent.clarification i))) + 1)%Z;
  asked_gap : ClarificationRequest.gap_fingerprint r = fingerprint_gap fields;
  asked_slots : Forall safe_name (map ClarificationField.slot fields) → field_slots r = map ClarificationField.slot fields;
  asked_new : fingerprint_gap fields ∉
              ClarificationRequest.gap_fingerprint <$> ClarificationState.requests (RunIntent.clarification i);
  asked_idle : active_request (RunIntent.clarification i) = None;
  asked_room : (length (ClarificationState.requests (RunIntent.clarification i)) < 2)%nat;
  asked_budget : (1 ≤ remaining)%Z;
  asked_fields : (1 ≤ length (ClarificationRequest.fields r) ≤ 3)%nat ∧
    Forall (λ f, may_be_asked (ClarificationField.slot f) ∧ (length (ClarificationField.options f) ≤ 3)%nat)
      (ClarificationRequest.fields r) ∧
    safe_request r
}.

Lemma wp_draw_id `{Environment} (Q : uuid → Kernel → Prop) X k :
  (∀ id k', same_tables k k' → Q id k') → wp draw_id Q X k.
Proof. intros HQ. by apply HQ. Qed.

Lemma wp_request_clarification `{Environment} i question fields t e remaining (Q : RunIntent → Kernel → Prop) X k :
  (∀ i' r k', same_tables k k' → asked i fields remaining i' r →
     validate_active_request (RunIntent.clarification i') = true → Q i' k') →
  (is_Some (active_request (RunIntent.clarification i)) → X ClarificationStateInvalid k) →
  ((2 ≤ length (ClarificationState.requests (RunIntent.clarification i)))%nat ∨
   fingerprint_gap fields ∈
     ClarificationRequest.gap_fingerprint <$> ClarificationState.requests (RunIntent.clarification i) →
   X ClarificationNoProgress k) →
  (∀ k', same_tables k k' → X ValueError k') →
  wp (request_clarification i question fields t e remaining) Q X k.
Proof.
  intros HQ Hactive Hprogress Hvalue. unfold request_clarification.
  apply wp_bind, wp_raise_if; [by intros ?%bool_decide_eq_true; auto|]. intros Hidle%bool_decide_eq_false.
  apply wp_bind, wp_raise_if; [intros ?%Nat.leb_le; auto|]. intros Hroom%Nat.leb_gt.
  apply wp_bind, wp_raise_if; [intros ?%bool_decide_eq_true; auto|]. intros Hnew%bool_decide_eq_false.
  apply wp_bind, wp_draw_id. intros id k1 Hk1. apply wp_bind, wp_read_again; [|auto]. intros r Hr.
  apply wp_bind, wp_read_again; [|auto]. intros c Hc. apply wp_ret.
  pose proof (read_request_fields _ _ Hr) as Hfields. apply read_request_same in Hr as [[] _].
  pose proof Hc as Hc'. apply new_state_Some in Hc as (-> & _ & Hv). eapply (HQ _ r); [done| |done].
  unfold new_state in Hc'. apply when_Some in Hc' as [Hc' _]. split_bool. split; try done.
  - by apply eq_None_not_Some.
  - by apply Z.leb_le.
Qed.

(** What asking leaves is valid, although it is not validated. *)
Lemma asked_ok i fields remaining i' r :
  intent_ok i → asked i fields remaining i' r → validate_active_request (RunIntent.clarification i') = true → intent_ok i'.
Proof.
  intros [Hst _ _ Hsafe Hslots] Ha Hv. pose proof Ha as [Hi' _ Hrev _ _ _ _ _ Hroom _ Hfields].
  split; [| |done|rewrite Hi'; apply Forall_app; split; [done|by constructor; [apply Hfields|constructor]]|by rewrite Hi'].
  - pose proof (validated_shape _ Hv) as (_ & _ & Hopen). rewrite Hi' in Hopen. cbn in Hopen.
    destruct Hopen as (front & r' & Hopen). pose proof (find_open _ _ _ Hopen) as Hfind.
    pose proof (open_requests _ _ _ Hopen) as Hreqs. cbn in Hreqs. apply app_inj_tail in Hreqs as [<- <-].
    unfold validate_state in *. rewrite Hi'. cbn in Hfind |- *. rewrite Hfind, Hrev, Z.eqb_refl,
      (bool_decide_true (Some IntentDecision.CLARIFY = _)) by done.
    repeat (apply andb_true_iff in Hst as [Hst ?]). by repeat (apply andb_true_iff; split).
  - rewrite Hi'. cbn. rewrite length_app. cbn. lia.
Qed.
(** ** Answering *)

(** A value of the type a field asks for. *)
Definition fits_type (f : ClarificationField) (v : val) : Prop :=
  if bool_decide (ClarificationField.value_type f = "STRING") then ∃ s, v = VStr s ∧ s ≠ ""
  else ∃ d start end_ x y,
    v = VDict d ∧ (∀ k, k ∈ d.*1 → k ∈ ["start"; "end"; "timezone"]) ∧
    dget "start" d = Some (VStr start) ∧ dget "end" d = Some (VStr end_) ∧
    instant start = Some x ∧ instant end_ = Some y ∧ (x < y)%Z.

(** What an answer stands for: the canonical value of an option that was offered, or a text where
    one is allowed; with its kind, its source and what it refers to. *)
Inductive chosen (active : ClarificationRequest) (f : ClarificationField) (a : ClarificationAnswerItem) :
    val → string → string → string → Prop :=
| chosen_option o :
    o ∈ ClarificationField.options f → ClarificationAnswerItem.option_id a = Some (ClarificationOption.id o) →
    chosen active f a (ClarificationOption.canonical_value o) "OPTION" "CLARIFICATION_OPTION" (ClarificationOption.id o)
| chosen_text v :
    ClarificationAnswerItem.option_id a = None → ClarificationField.allow_free_text f = true →
    v = default VNone (ClarificationAnswerItem.value a) → fits_type f v →
    chosen active f a v "VALUE" "CLARIFICATION_VALUE" (ClarificationRequest.id active).

(** [r] is the slot that answering [f] with [a] resolves, [st] the answer that is kept. *)
Record resolves (active : ClarificationRequest) (submitted : list ClarificationAnswerItem) (f : ClarificationField)
    (st : StoredClarificationAnswer) (r : ResolvedSlot) : Prop := {
  resolves_answer : ∃ a v, a ∈ submitted ∧ ClarificationAnswerItem.slot a = ClarificationField.slot f ∧
    chosen active f a v (StoredClarificationAnswer.kind st) (ResolvedSlot.source r) (ResolvedSlot.source_ref r) ∧
    StoredClarificationAnswer.value_fingerprint st = fingerprint_value v ∧
    ResolvedSlot.fingerprint r = fingerprint_value (VDict (slot_payload
      (ResolvedSlot.Make (ClarificationField.slot f) (_normalize_json_value v) (ResolvedSlot.source r)
         (ResolvedSlot.source_ref r) 100 "")));
  resolves_slot : ResolvedSlot.slot r = ClarificationField.slot f;
  resolves_safe : safe_name (ResolvedSlot.slot r);
  resolves_ref : StoredClarificationAnswer.source_ref st = ResolvedSlot.source_ref r;
  resolves_rank : ResolvedSlot.confidence_rank r = 100%Z
}.

Definition invalid_answer (e : ClarificationDomainError) : Prop :=
  (∃ message, e = ClarificationAnswerInvalid message) ∨ e = ValueError.

Lemma wp_validate_free_text {S} f v (s : S) :
  wp (_validate_free_text_value f v) (λ _ s', s' = s ∧ fits_type f v) (λ e s', s' = s ∧ invalid_answer e) s.
Proof.
  assert (∀ m, wp (S := S) (raise (ClarificationAnswerInvalid m)) (λ _ : (), λ s', s' = s ∧ fits_type f v)
    (λ e s', s' = s ∧ invalid_answer e) s) as Hinvalid by (intros m; apply wp_raise; split; [done|left; by exists m]).
  unfold _validate_free_text_value, fits_type in *. case_bool_decide as Htype.
  - destruct v as [| | |text| |]; try by apply Hinvalid. apply wp_raise_if.
    + intros _. apply (Hinvalid _).
    + intros Ht. split; [done|]. exists text. split; [done|]. intros ->. done.
  - destruct v as [| | | | |d]; try by apply Hinvalid. apply wp_bind, wp_raise_if; [intros _; apply (Hinvalid _)|].
    intros [Hkeys Hboth]%orb_false_iff. apply negb_false_iff in Hboth.
    apply andb_true_iff in Hboth as [(a & Ha)%dmem_true (b & Hb)%dmem_true]. unfold dget_or. rewrite Ha, Hb. cbn [from_option id].
    destruct a as [| | |start| |], b as [| | |end_| |]; try by apply Hinvalid. cbv beta iota.
    destruct (instant start) as [x|] eqn:Hx, (instant end_) as [y|] eqn:Hy; try by apply Hinvalid.
    apply wp_raise_if; [intros _; apply (Hinvalid _)|]. intros Hlt%Z.leb_gt. split; [done|].
    exists d, start, end_, x, y. split_and!; try done. apply negb_false_iff in Hkeys.
    intros k Hk. by apply (proj1 (forallb_true _ _) Hkeys) in Hk as ?%bool_decide_eq_true.
Qed.

Lemma wp_answer_value {S} active f a (s : S) :
  wp (answer_value active f a)
    (λ res s', s' = s ∧ chosen active f a res.1.1.1 res.1.1.2 res.1.2 res.2) (λ e s', s' = s ∧ invalid_answer e) s.
Proof.
  unfold answer_value. destruct (ClarificationAnswerItem.option_id a) as [id|] eqn:Hid.
  - destruct (List.find _ _) as [o|] eqn:Hf; [|apply wp_raise; split; [done|left; by eexists]].
    apply find_Some in Hf as [Hin Ho%bool_decide_eq_true]. apply wp_ret. split; [done|]. cbn. constructor; congruence.
  - apply wp_bind, wp_raise_if; [intros _; split; [done|left; by eexists]|]. intros Hfree%negb_false_iff.
    apply wp_bind. eapply wp_mono; [apply wp_validate_free_text|cbv beta|done]. intros [] s' [-> Hfits].
    apply wp_ret. split; [done|]. cbn. by constructor.
Qed.

Lemma wp_make_resolved_slot {S} slot v source ref rank (s : S) :
  safe_name slot →
  wp (make_resolved_slot slot v source ref rank)
    (λ r s', s' = s ∧ ResolvedSlot.slot r = slot ∧ ResolvedSlot.source r = source ∧ ResolvedSlot.source_ref r = ref ∧
       ResolvedSlot.confidence_rank r = rank ∧
       ResolvedSlot.fingerprint r = fingerprint_value (VDict (slot_payload
         (ResolvedSlot.Make slot (_normalize_json_value v) source ref rank ""))))
    (λ e s', s' = s ∧ e = ValueError) s.
Proof.
  intros Hsafe. unfold make_resolved_slot. apply wp_bind, wp_read_again; [|done]. intros name [_ Hname]%normalize_safe_id.
  rewrite (Hname Hsafe). apply wp_read_again; [|done]. intros r Hr. split; [done|].
  set (draft := ResolvedSlot.Make slot _ source ref rank _) in Hr.
  assert (read_slot (dump_slot (draft <| ResolvedSlot.fingerprint := fingerprint_value (VDict (slot_payload draft)) |>))
    = Some r) as [[Hslot] _]%read_slot_same by done. by rewrite Hslot.
Qed.

Lemma wp_answer_field {S} active submitted f (s : S) :
  safe_name (ClarificationField.slot f) →
  wp (answer_field active submitted f)
    (λ res s', s' = s ∧ resolves active submitted f res.1 res.2) (λ e s', s' = s ∧ invalid_answer e) s.
Proof.
  intros Hsafe. unfold answer_field.
  destruct (List.find _ _) as [a|] eqn:Hf; [|apply wp_raise; split; [done|left; by eexists]].
  apply find_Some in Hf as [Hin Ha%bool_decide_eq_true]. apply wp_bind.
  eapply wp_mono; [apply wp_answer_value|cbv beta|done]. intros [[[v kind] source] ref] s' [-> Hc]. cbn in Hc.
  apply wp_bind, wp_read_again; [|intros _; split; [done|by right]]. intros st [[] _]%read_answer_same. cbn in *.
  apply wp_bind. eapply wp_mono; [by apply wp_make_resolved_slot|cbv beta|].
  - intros r s' (-> & Hslot & Hsource & Href & Hrank & Hfp). apply wp_ret. split; [done|]. cbn.
    split; try congruence. exists a, v. split_and!; congruence.
  - intros e s' [-> ->]. split; [done|by right].
Qed.
Lemma same_request_trans r1 r2 r3 : same_request r1 r2 → same_request r2 r3 → same_request r1 r3.
Proof.
  intros [] []. split; try congruence.
  - intros Hs. assert (field_slots r2 = field_slots r1) as Heq by auto. rewrite <-Heq. unfold safe_request in *.
    rewrite <-Heq in Hs. auto.
  - eapply Forall2_trans; [|eassumption..]. intros a1 a2 a3 [] []. split; congruence.
Qed.

Lemma same_request_refl r : same_request r r.
Proof. split; try done. induction (ClarificationRequest.answers r); by constructor. Qed.

(** Of the slots that are merged, each is a new one, or an old one with another name. *)
Lemma elem_of_merge_slots old new r :
  r ∈ merge_slots old new ↔
  r ∈ new ∨ r ∈ old ∧ ResolvedSlot.slot r ∉ ResolvedSlot.slot <$> new.
Proof.
  unfold merge_slots, by_slot. rewrite elem_of_order_by, elem_of_app, list_elem_of_In, filter_In, <-list_elem_of_In.
  rewrite negb_true_iff, bool_decide_eq_false, map_fmap. tauto.
Qed.

(** [a] is what applying the answers to [i] gives. *)
Record applied (i : RunIntent) (submission : ClarificationAnswerSubmission) (clarification_id answered_by : string)
    (answered_at : Z) (front : list ClarificationRequest) (active : ClarificationRequest)
    (stored : list StoredClarificationAnswer) (a : AppliedClarificationAnswer) : Prop := {
  applied_open : open_at (RunIntent.clarification i) front active;
  applied_id : ClarificationRequest.id active = clarification_id;
  applied_current : ClarificationAnswerSubmission.expected_intent_revision submission = RunIntent.intent_revision i;
  applied_covers : same_names (map ClarificationAnswerItem.slot (ClarificationAnswerSubmission.answers submission))
                     (field_slots active) = true;
  applied_ok : intent_ok (AppliedClarificationAnswer.intent a);
  applied_revision : (RunIntent.intent_revision (AppliedClarificationAnswer.intent a) = RunIntent.intent_revision i + 1)%Z;
  applied_stage : RunIntent.preparation_stage (AppliedClarificationAnswer.intent a) = PreparationStage.CONTEXT_RESOLVED;
  applied_decision : RunIntent.decision (AppliedClarificationAnswer.intent a) = None;
  applied_requests : Forall2 same_request (front ++ [with_answers stored answered_by answered_at active])
    (ClarificationState.requests (RunIntent.clarification (AppliedClarificationAnswer.intent a)));
  applied_closed : ClarificationState.active_id (RunIntent.clarification (AppliedClarificationAnswer.intent a)) = None;
  applied_answers : ∃ resolved,
    Forall2 (λ f p, resolves active (ClarificationAnswerSubmission.answers submission) f p.1 p.2)
      (by_slot ClarificationField.slot (ClarificationRequest.fields active)) (zip stored resolved) ∧
    Forall2 same_slot (merge_slots (RunIntent.resolved_slots i) resolved)
      (RunIntent.resolved_slots (AppliedClarificationAnswer.intent a));
  applied_names : AppliedClarificationAnswer.answered_slots a =
    order_by string_le (map ClarificationAnswerItem.slot (ClarificationAnswerSubmission.answers submission));
  applied_to : AppliedClarificationAnswer.clarification_id a = clarification_id;
  applied_response : AppliedClarificationAnswer.response_fingerprint a = response_fingerprint stored
}.

(** Why answers are refused. *)
Inductive refused (i : RunIntent) (submission : ClarificationAnswerSubmission) (clarification_id : string) :
    ClarificationDomainError → Prop :=
| refused_not_pending :
    (ClarificationRequest.id <$> active_request (RunIntent.clarification i)) ≠ Some clarification_id →
    refused i submission clarification_id ClarificationNotPending
| refused_stale :
    ClarificationAnswerSubmission.expected_intent_revision submission ≠ RunIntent.intent_revision i →
    refused i submission clarification_id ClarificationStaleRevision
| refused_invalid e : invalid_answer e → refused i submission clarification_id e.

Lemma active_open i :
  intent_ok i →
  match active_request (RunIntent.clarification i) with
  | Some r => ∃ front, open_at (RunIntent.clarification i) front r
  | None => ClarificationState.active_id (RunIntent.clarification i) = None ∧
            Forall (λ r, is_open r = false) (ClarificationState.requests (RunIntent.clarification i))
  end.
Proof.
  intros Hok. destruct (validated_shape _ (ok_active _ Hok)) as (_ & _ & Hc).
  destruct (ClarificationState.active_id (RunIntent.clarification i)) as [id|] eqn:Hid.
  - destruct Hc as (front & r & Hopen). rewrite (find_open _ _ _ Hopen). by exists front.
  - unfold active_request. rewrite Hid. by destruct Hc.
Qed.

Lemma wp_apply {S} i submission cid who t (s : S) :
  intent_ok i →
  wp (apply_clarification_answer i submission cid who t)
    (λ a s', s' = s ∧ ∃ front active stored, applied i submission cid who t front active stored a)
    (λ e s', s' = s ∧ refused i submission cid e) s.
Proof.
  intros Hok. pose proof (active_open _ Hok) as Hactive. unfold apply_clarification_answer.
  assert (∀ e, invalid_answer e → s = s ∧ refused i submission cid e) as Hinvalid by (intros e He; split; [done|by constructor]).
  assert (s = s ∧ refused i submission cid ValueError) as Hvalue by (apply Hinvalid; by right).
  apply wp_bind, wp_raise_if; [done|]. intros _.
  destruct (active_request _) as [active|] eqn:Hfound;
    [|apply wp_raise; split; [done|]; constructor; by rewrite Hfound].
  destruct Hactive as (front & Hopen). apply wp_bind, wp_raise_if.
  { intros Hor. split; [done|]. constructor. rewrite Hfound. cbn. intros [= Hcid]. unfold is_open in Hor.
    rewrite Hcid, (open_status _ _ _ Hopen) in Hor. by rewrite !bool_decide_true in Hor by done. }
  intros [Hcid _]%orb_false_iff. apply negb_false_iff, bool_decide_eq_true in Hcid.
  apply wp_bind, wp_raise_if.
  { intros Hne%negb_true_iff%Z.eqb_neq. split; [done|]. by constructor. }
  intros Hcurrent%negb_false_iff%Z.eqb_eq. apply wp_bind, wp_raise_if; [intros _; apply Hinvalid; left; by eexists|].
  intros Hcovers%negb_false_iff. apply wp_bind.
  assert (safe_request active) as Hsafe.
  { pose proof (ok_fields _ Hok) as Hf. rewrite (open_requests _ _ _ Hopen) in Hf. apply Forall_app in Hf as [_ Hf].
    by inversion Hf. }
  apply (wp_mapM _ (λ f p, resolves active (ClarificationAnswerSubmission.answers submission) f p.1 p.2) (λ s', s' = s)).
  - done.
  - intros f s' Hf%elem_of_order_by ->. eapply wp_mono; [apply wp_answer_field|done|by intros e s' [-> He]; apply Hinvalid].
    apply (proj1 (Forall_forall _ _) Hsafe), (list_elem_of_fmap_2 ClarificationField.slot), Hf.
  - intros pairs s' -> Hpairs. cbv zeta. apply wp_bind, wp_raise_if; [done|]. intros _.
    apply wp_bind, wp_read_again; [|done]. intros r Hr. apply wp_bind, wp_read_again; [|done]. intros c Hc.
    apply wp_bind, wp_read_again; [|done]. intros i' Hi'. apply wp_ret. split; [done|].
    exists front, active, (pairs.*1). apply new_state_Some in Hc as (-> & _ & _). rewrite (replace_open _ _ _ _ Hopen) in Hi'.
    apply read_intent_same in Hi' as [[Hrev Hst Hdec Hact _ Hreqs Hslots] Hok']. apply read_request_same in Hr as [Hr _].
    cbn in Hrev, Hst, Hdec, Hact, Hreqs, Hslots. split; try done.
    + eapply Forall2_trans; [intros x y z; apply same_request_trans| |exact Hreqs].
      apply Forall2_app; [|by constructor; [exact Hr|constructor]]. clear. induction front; constructor; [apply same_request_refl|done].
    + exists (pairs.*2). by rewrite zip_fst_snd.
Qed.
(** ** Closing *)

(** [i'] is [i] with its open request closed unanswered. *)
Record closed (i : RunIntent) (status : ClarificationStatus) (i' : RunIntent) : Prop := {
  closed_requests : ∃ front active r,
    open_at (RunIntent.clarification i) front active ∧
    same_request (active <| ClarificationRequest.status := status |>) r ∧
    RunIntent.clarification i' = ClarificationState.Make None (front ++ [r]) None;
  closed_revision : RunIntent.intent_revision i' = RunIntent.intent_revision i;
  closed_stage : RunIntent.preparation_stage i' = PreparationStage.INTENT_RESOLVED;
  closed_decision : RunIntent.decision i' = Some IntentDecision.UNAVAILABLE;
  closed_slots : RunIntent.resolved_slots i' = RunIntent.resolved_slots i;
  closed_ok : intent_ok i'
}.

Lemma wp_close {S} i status t (Q : RunIntent → S → Prop) X (s : S) :
  intent_ok i →
  (∀ i', closed i status i' → Q i' s) → (active_request (RunIntent.clarification i) = None → Q i s) →
  X ValueError s →
  wp (close_active_clarification i status t) Q X s.
Proof.
  intros Hok HQ Hnone HX. pose proof (active_open _ Hok) as Hactive. unfold close_active_clarification.
  destruct (active_request _) as [active|] eqn:Hfound; [|by apply wp_ret, Hnone]. destruct Hactive as (front & Hopen).
  apply wp_bind, wp_read_again; [|done]. intros r Hr.
  pose proof (read_request_fields _ _ Hr) as (_ & _ & Hsafe'). apply read_request_same in Hr as [Hr _].
  apply wp_bind, wp_read_again; [|done]. intros c Hc. apply wp_ret, HQ.
  apply new_state_Some in Hc as (-> & Hlen & Hv). rewrite (replace_open _ _ _ _ Hopen) in *.
  assert (same_request (active <| ClarificationRequest.status := status |>) r) as Hsame by by destruct Hr.
  split; try done; [by exists front, active, r|]. destruct Hok as [Hst _ _ Hsafe Hslots]. split; try done.
  - unfold validate_state in *. cbn. repeat (apply andb_true_iff in Hst as [Hst ?]).
    by repeat (apply andb_true_iff; split).
  - rewrite (open_requests _ _ _ Hopen) in Hsafe. apply Forall_app in Hsafe as [Hfront _]. apply Forall_app.
    split; [done|]. by constructor; [|constructor].
Qed.
End Facts.
