(* ===== verification/IntentHistory.v ===== *)
(** * Intents over time

    What exploring finds: a slot is resolved without asking exactly if one value outranks the others
    that the context offers for it.  And what holds of the clarifications of a Run over any history
    of readings, explorations, answers and closings. *)

From S2P Require Import Prelude PyText PyVal Redaction Enums Models Kernel EventLog TurnRequest.
From S2P Require Import TaskContracts RunIntents IntentResolution RunIntentFacts.

#[local] Open Scope list_scope.

(** ** Ranking *)

(** [c] is of a rank that no candidate exceeds, and those of its rank have its value. *)
Definition unambiguous (l : list _Candidate) (c : _Candidate) : Prop :=
  c ∈ l ∧ ∀ x, x ∈ l →
    (Candidate.confidence_rank x ≤ Candidate.confidence_rank c)%Z ∧
    (Candidate.confidence_rank x = Candidate.confidence_rank c →
     py_repr (Candidate.value x) = py_repr (Candidate.value c)).

(** What the dictionary by value holds after the candidates [l]. *)
Record by_value_of (l : list _Candidate) (m : list (string * _Candidate)) : Prop := {
  by_value_keys : NoDup m.*1;
  by_value_from k c : (k, c) ∈ m → k = py_repr (Candidate.value c) ∧ c ∈ l;
  by_value_covers x : x ∈ l → ∃ c, (py_repr (Candidate.value x), c) ∈ m ∧
    (Candidate.confidence_rank x ≤ Candidate.confidence_rank c)%Z
}.

Lemma elem_of_put_candidate key c m k c' :
  NoDup m.*1 → ((k, c') ∈ put_candidate key c m ↔ k = key ∧ c' = c ∨ k ≠ key ∧ (k, c') ∈ m).
Proof.
  induction m as [|[k1 c1] m IH]; cbn [put_candidate fmap list_fmap fst].
  { intros _. rewrite list_elem_of_singleton. set_solver. }
  intros [Hk1 Hm]%NoDup_cons. case_bool_decide as Heq; rewrite !elem_of_cons.
  - subst k1. split; [|set_solver].
    intros [[= -> ->]|Hin]; [by left|]. right. split; [|by right].
    intros ->. apply Hk1. by apply (list_elem_of_fmap_2 fst) in Hin.
  - rewrite (IH Hm). set_solver.
Qed.

Lemma put_candidate_keys key c m : (put_candidate key c m).*1 = m.*1 ∨ key ∉ m.*1 ∧ (put_candidate key c m).*1 = m.*1 ++ [key].
Proof.
  induction m as [|[k1 c1] m IH]; cbn; [by right; split; [set_solver|]|]. case_bool_decide as Heq; cbn; [by left; subst|].
  destruct IH as [->|[Hn ->]]; [by left|right]. split; [set_solver|done].
Qed.

Lemma keep_better_by_value l m c : by_value_of l m → by_value_of (l ++ [c]) (keep_better m c).
Proof.
  intros [Hkeys Hfrom Hcov]. unfold keep_better.
  set (key := py_repr (Candidate.value c)).
  assert (∀ m', (∀ kc, kc ∈ m → kc.1 = key → (Candidate.confidence_rank kc.2 ≤ Candidate.confidence_rank c)%Z) →
    m' = put_candidate key c m → by_value_of (l ++ [c]) m') as Hput.
  { intros m' Hle ->. split.
    - destruct (put_candidate_keys key c m) as [->|[Hn ->]]; [done|]. apply NoDup_app. split; [done|].
      split; [set_solver|apply NoDup_singleton].
    - intros k c'. rewrite elem_of_put_candidate by done. intros [[-> ->]|[_ Hin%Hfrom]]; set_solver.
    - intros x [Hx| ->%list_elem_of_singleton]%elem_of_app.
      + destruct (Hcov x Hx) as (c' & Hin & Hr). destruct (decide (py_repr (Candidate.value x) = key)) as [Hk|Hk].
        * exists c. rewrite elem_of_put_candidate by done. split; [by left|]. specialize (Hle _ Hin Hk). cbn in Hle. lia.
        * exists c'. rewrite elem_of_put_candidate by done. split; [by right|done].
      + exists c. rewrite elem_of_put_candidate by done. split; [by left|done]. }
  destruct (List.find _ m) as [[k c0]|] eqn:Hf.
  - apply find_Some in Hf as [Hin Hk%bool_decide_eq_true]. cbn in Hk. subst k.
    assert (∀ c', (key, c') ∈ m → c' = c0) as Huniq.
    { intros c' Hc'. apply list_elem_of_lookup in Hin as [n Hn], Hc' as [n' Hn'].
      assert (n = n') as <-; [|congruence].
      eapply NoDup_lookup; [exact Hkeys| |]; rewrite list_lookup_fmap; [by rewrite Hn|by rewrite Hn']. }
    case_match eqn:Hlt; [apply Z.ltb_lt in Hlt|apply Z.ltb_ge in Hlt].
    + apply Hput; [|done]. intros [k c'] Hc' Hkc. cbn in *. subst k. rewrite (Huniq _ Hc'). lia.
    + split; [done| |].
      * intros k c' [Hk Hc']%Hfrom. split; [done|]. set_solver.
      * intros x [Hx| ->%list_elem_of_singleton]%elem_of_app; [by apply Hcov|]. by exists c0.
  - apply Hput; [|done]. intros [k c'] Hc' Hk. cbn in Hk. subst k. exfalso.
    apply list_elem_of_In, (find_none _ _ Hf), bool_decide_eq_false in Hc'. done.
Qed.

Lemma best_by_value_of l : by_value_of l (foldl keep_better [] l).
Proof.
  enough (∀ l' m, by_value_of l' m → by_value_of (l' ++ l) (foldl keep_better m l)) as Hg.
  { apply (Hg []). split; [constructor|set_solver|set_solver]. }
  induction l as [|c l IH]; intros l' m Hm; cbn; [by rewrite app_nil_r|].
  rewrite cons_middle, (assoc_L (++)). by apply IH, keep_better_by_value.
Qed.

Lemma highest_rank_spec l c :
  c ∈ l → (Candidate.confidence_rank c ≤ highest_rank l)%Z ∧ ∃ x, x ∈ l ∧ Candidate.confidence_rank x = highest_rank l.
Proof.
  unfold highest_rank. destruct l as [|c0 l]; [set_solver|]. cbn. intros Hc.
  assert (∀ r, (r ≤ foldr Z.max r (map Candidate.confidence_rank l))%Z ∧
    (∀ x, x ∈ l → Candidate.confidence_rank x ≤ foldr Z.max r (map Candidate.confidence_rank l))%Z ∧
    (foldr Z.max r (map Candidate.confidence_rank l) = r ∨
     ∃ x, x ∈ l ∧ Candidate.confidence_rank x = foldr Z.max r (map Candidate.confidence_rank l))) as Hmax.
  { intros r. clear. induction l as [|x l (Hr & Hl & Hex)]; cbn; [split_and!; [lia|set_solver|by left]|].
    split_and!; [lia|intros y [->|Hy]%elem_of_cons; [lia|specialize (Hl _ Hy); lia]|].
    destruct (Z.max_spec (Candidate.confidence_rank x) (foldr Z.max r (map Candidate.confidence_rank l))) as [[_ ->]|[_ ->]].
    - destruct Hex as [|(y & Hy & ?)]; [by left|right; exists y; split; [by right|done]].
    - right. exists x. split; [by left|done]. }
  destruct (Hmax (Candidate.confidence_rank c0)) as (Hr & Hl & Hex). split.
  - apply elem_of_cons in Hc as [->|Hc]; [done|by apply Hl].
  - destruct Hex as [Heq|(x & Hx & Heq)]; [exists c0|exists x]; (split; [by constructor|done]).
Qed.

Lemma NoDup_fst_snd {A B} (f : B → A) (m : list (A * B)) :
  NoDup m.*1 → (∀ k c, (k, c) ∈ m → k = f c) → NoDup (f <$> m.*2).
Proof.
  intros Hn Hf. replace (f <$> m.*2) with m.*1; [done|]. rewrite <-list_fmap_compose. apply list_fmap_ext.
  intros n [k c] Hin%list_elem_of_lookup_2. by apply Hf.
Qed.

Section Ranked.
Context `{UnicodeData}.

Lemma elem_of_ranked l c :
  c ∈ _ranked l ↔ c ∈ best_by_value l ∧ Candidate.confidence_rank c = highest_rank (best_by_value l).
Proof.
  unfold _ranked. rewrite elem_of_order_by, list_elem_of_In, filter_In, <-list_elem_of_In, Z.eqb_eq. done.
Qed.

(** The candidates that are shown are candidates. *)
Lemma ranked_from l c : c ∈ _ranked l → c ∈ l.
Proof.
  intros [(kc & -> & Hin)%list_elem_of_fmap _]%elem_of_ranked. destruct kc as [k x].
  by apply (by_value_from _ _ (best_by_value_of l)) in Hin as [_ ?].
Qed.

Lemma ranked_best l c : c ∈ _ranked l → ∀ x, x ∈ l →
  (Candidate.confidence_rank x ≤ Candidate.confidence_rank c)%Z ∧
  (Candidate.confidence_rank x = Candidate.confidence_rank c →
   ∃ c', c' ∈ _ranked l ∧ py_repr (Candidate.value c') = py_repr (Candidate.value x)).
Proof.
  intros [_ Hrank]%elem_of_ranked x Hx. rewrite Hrank.
  destruct (by_value_covers _ _ (best_by_value_of l) x Hx) as (c' & Hin & Hle).
  assert (c' ∈ best_by_value l) as Hb by by apply (list_elem_of_fmap_2 snd) in Hin.
  pose proof (highest_rank_spec _ _ Hb) as [Hc' _]. split; [lia|]. intros Heq. exists c'. rewrite elem_of_ranked.
  split; [split; [done|lia]|]. by apply (by_value_from _ _ (best_by_value_of l)) in Hin as [-> _].
Qed.

(** One candidate is left exactly if there is an unambiguous one, and then it is that. *)
Lemma ranked_singleton l c : _ranked l = [c] → unambiguous l c.
Proof.
  intros Hl. assert (c ∈ _ranked l) as Hc by (rewrite Hl; by left). split; [by apply ranked_from|]. intros x Hx.
  destruct (ranked_best _ _ Hc _ Hx) as [Hle Heq]. split; [done|]. intros (c' & Hc' & <-)%Heq. rewrite Hl in Hc'.
  by apply list_elem_of_singleton in Hc' as ->.
Qed.

Lemma unambiguous_ranked l c : unambiguous l c → ∃ c', _ranked l = [c'].
Proof.
  intros [Hc Hbest]. pose proof (best_by_value_of l) as Hof.
  destruct (by_value_covers _ _ Hof c Hc) as (c1 & Hin1 & Hle1).
  assert (c1 ∈ best_by_value l) as Hb1 by by apply (list_elem_of_fmap_2 snd) in Hin1.
  destruct (highest_rank_spec _ _ Hb1) as (Hle & x & Hx & Hrank).
  assert (x ∈ _ranked l) as Hxr by by apply elem_of_ranked.
  assert (∀ y, y ∈ _ranked l → py_repr (Candidate.value y) = py_repr (Candidate.value c)) as Hsame.
  { intros y Hy. pose proof (ranked_from _ _ Hy) as Hyl. destruct (Hbest _ Hyl) as [Hyc Heq]. apply Heq.
    destruct (ranked_best _ _ Hy _ Hc) as [? _]. lia. }
  assert (NoDup (py_repr <$> (Candidate.value <$> _ranked l))) as Hnd.
  { unfold _ranked. rewrite <-list_fmap_compose. rewrite order_by_perm.
    eapply sublist_NoDup; [|apply fmap_sublist, filter_sublist]. apply (NoDup_fst_snd (py_repr ∘ Candidate.value)); [apply Hof|].
    intros k y Hy. by apply (by_value_from _ _ Hof) in Hy as [-> _]. }
  destruct (_ranked l) as [|y [|z rest]]; [set_solver|by exists y|]. exfalso. cbn in Hnd.
  apply NoDup_cons in Hnd as [Hnot _]. apply Hnot. rewrite (Hsame y), (Hsame z) by set_solver. by left.
Qed.
End Ranked.

(** ** Candidates *)

(** The candidates of each slot are of that slot, whose name is normal. *)
Definition known_candidates (m : Candidates) : Prop :=
  ∀ s l, m !! s = Some l → safe_name s ∧ Forall (λ c, Candidate.slot c = s) l.

Lemma alter_known f slot m :
  known_candidates m →
  (∀ l, Forall (λ c, Candidate.slot c = slot) l → Forall (λ c, Candidate.slot c = slot) (f l)) →
  known_candidates (alter f slot m).
Proof.
  intros Hm Hf s l [(<- & l' & Hl & ->)|[_ Hl]]%lookup_alter_Some; [|by apply Hm]. apply Hm in Hl as [? ?]. auto.
Qed.

Lemma add_candidate_known c m : known_candidates m → known_candidates (add_candidate c m).
Proof. intros Hm. apply alter_known; [done|]. intros l Hl. apply Forall_app. by split; [|constructor]. Qed.

Lemma add_candidates_known l m : known_candidates m → known_candidates (add_candidates l m).
Proof. revert m. induction l as [|c l IH]; intros m Hm; [done|]. by apply IH, add_candidate_known. Qed.

Lemma no_candidates_known : known_candidates no_candidates.
Proof.
  intros s l. unfold no_candidates. cbn.
  rewrite !lookup_insert_Some, lookup_empty. intros [[<- <-]|[_ [[<- <-]|[_ [[<- <-]|[_ [=]]]]]]]; by split.
Qed.

Section Explored.
Context `{UnicodeData, IsoFormats, Environment}.
Context (ascii_stable : ∀ s, safe_name s → casefold (strip (nfkc s)) = s).

Lemma previous_candidate_known context st item :
  known_candidates st.1 → known_candidates (previous_candidate context st item).1.
Proof.
  destruct st as [m unavailable]. cbn. intros Hm. unfold previous_candidate. destruct (negb _); [done|].
  destruct (ResolvedSlot.value item); try done. case_bool_decide; [|by apply add_candidate_known].
  case_match; [by apply add_candidate_known|]. apply alter_known; [done|]. intros l Hl.
  induction Hl as [|c l Hc _ IH]; cbn; [done|]. case_bool_decide; [by constructor|done].
Qed.

Lemma all_candidates_known i context : known_candidates (all_candidates i context).1.
Proof.
  unfold all_candidates, _previous_candidates.
  assert (known_candidates (add_candidates (_input_candidates i context ++
       _context_ref_candidates (VisibleIntentContext.context_refs context) (VisibleIntentContext.repositories context) ++
       _visible_text_candidates context ++ _catalog_candidates context) no_candidates)) as Hm
    by apply add_candidates_known, no_candidates_known.
  revert Hm. generalize (add_candidates (_input_candidates i context ++
       _context_ref_candidates (VisibleIntentContext.context_refs context) (VisibleIntentContext.repositories context) ++
       _visible_text_candidates context ++ _catalog_candidates context) no_candidates). intros m Hm.
  destruct (negb _); [done|].
  enough (∀ l st, known_candidates st.1 → known_candidates (foldl (previous_candidate context) st l).1) as Hg by by apply Hg.
  induction l as [|item l IH]; intros st Hst; cbn; [done|]. by apply IH, previous_candidate_known.
Qed.

(** ** The slots one by one *)

(** [r] is the slot that [c] resolves. *)
Record resolved_by (c : _Candidate) (r : ResolvedSlot) : Prop := {
  resolved_by_slot : ResolvedSlot.slot r = Candidate.slot c;
  resolved_by_source : ResolvedSlot.source r = Candidate.source c;
  resolved_by_ref : ResolvedSlot.source_ref r = Candidate.source_ref c;
  resolved_by_rank : ResolvedSlot.confidence_rank r = Candidate.confidence_rank c;
  resolved_by_value : ResolvedSlot.fingerprint r = fingerprint_value (VDict (slot_payload
    (ResolvedSlot.Make (Candidate.slot c) (_normalize_json_value (Candidate.value c)) (Candidate.source c)
       (Candidate.source_ref c) (Candidate.confidence_rank c) "")))
}.

(** What decides a slot: the one candidate that outranks the others. *)
Definition decided (m : Candidates) (r : ResolvedSlot) : Prop :=
  ∃ l c, m !! ResolvedSlot.slot r = Some l ∧ unambiguous l c ∧ resolved_by c r.

(** What is asked for a slot that nothing decides: which of the best candidates is meant. *)
Definition asked_for (m : Candidates) (f : ClarificationField) : Prop :=
  ∃ l, m !! ClarificationField.slot f = Some l ∧ (∀ c, ¬ unambiguous l c) ∧
    map ClarificationOption.value_fingerprint (ClarificationField.options f) =
    map (λ c, fingerprint_value (_normalize_json_value (Candidate.value c))) (take MAX_CLARIFICATION_OPTIONS (_ranked l)).

Lemma wp_make_option label v k :
  wp (make_option label v)
    (λ o k', same_tables k k' ∧ ClarificationOption.value_fingerprint o = fingerprint_value (_normalize_json_value v))
    (λ _ k', same_tables k k') k.
Proof.
  unfold make_option. apply wp_bind, wp_draw_id. intros id k' Hk. apply wp_read_again; [|done]. intros o Ho. split; [done|].
  unfold read_option, dump_option_document in Ho. open_read Ho. apply fields_of_Some in Hx as ->.
  apply digest_kept in Hx3 as ->. by subst o.
Qed.

Lemma wp_clarification_field m slot l k :
  known_candidates m → m !! slot = Some l → (∀ c, ¬ unambiguous l c) →
  wp (_clarification_field slot (_ranked l))
    (λ f k', same_tables k k' ∧ ClarificationField.slot f = slot ∧ asked_for m f) (λ _ k', same_tables k k') k.
Proof.
  intros Hm Hl Hamb. unfold _clarification_field. apply wp_bind.
  apply (wp_mapM _ (λ c o, ClarificationOption.value_fingerprint o = fingerprint_value (_normalize_json_value (Candidate.value c)))
    (same_tables k)); [by destruct k| |].
  - intros c k1 _ Hk1. eapply wp_mono; [apply wp_make_option|cbv beta|].
    + intros o k2 [? ?]. split; [by eapply same_tables_trans|done].
    + intros e k2 ?. by eapply same_tables_trans.
  - intros options k1 Hk1 Hoptions. apply wp_bind. unfold or_key_error. destruct (prompt_of slot); [|by apply wp_raise].
    apply wp_ret. apply wp_read_again; [|done]. intros f Hf. split; [done|]. unfold new_field in Hf. open_read Hf. subst f.
    unfold requestable_slot in Hx. open_read Hx. subst. apply normalize_safe_id in Hx2 as [_ Hslot]; [|done].
    destruct (Hm _ _ Hl) as [Hsafe _]. specialize (Hslot Hsafe). subst. cbn. split; [done|]. exists l. split; [done|].
    split; [done|]. cbn. symmetry. apply list_eq_Forall2, Forall2_fmap. eapply Forall2_impl; [exact Hoptions|]. done.
Qed.

(** What going through the slots [seen] has found, from the slots [old]. *)
Record found (m : Candidates) (old : list ResolvedSlot) (seen : list string) (new : list ResolvedSlot)
    (fields : list ClarificationField) : Prop := {
  found_decided : Forall (decided m) new;
  found_asked : Forall (λ f, asked_for m f ∧ ClarificationField.slot f ∉ ResolvedSlot.slot <$> old) fields;
  found_safe : Forall safe_name (map ClarificationField.slot fields);
  found_all s : s ∈ seen → s ∈ ResolvedSlot.slot <$> old ++ new ∨ s ∈ ClarificationField.slot <$> fields
}.

Lemma wp_resolved_of c k :
  safe_name (Candidate.slot c) →
  wp (resolved_of c) (λ r k', k' = k ∧ resolved_by c r) (λ _ k', same_tables k k') k.
Proof.
  intros Hs. unfold resolved_of. eapply wp_mono; [by apply wp_make_resolved_slot|cbv beta|].
  - intros r k' (-> & ? & ? & ? & ? & ?). done.
  - intros e k' [-> _]. by destruct k.
Qed.

Lemma wp_explore_slot m unavailable old seen new fields slot k :
  known_candidates m → found m old seen new fields →
  wp (explore_slot m unavailable (old ++ new, fields) slot)
    (λ st k', same_tables k k' ∧ ∃ new', st.1 = old ++ new' ∧ found m old (seen ++ [slot]) new' st.2)
    (λ _ k', same_tables k k') k.
Proof.
  intros Hm [Hnew Hfields Hsafe Hall]. unfold explore_slot. case_bool_decide as Hin.
  { apply wp_ret. split; [by destruct k|]. exists new. split; [done|]. split; try done. set_solver. }
  apply wp_bind. unfold or_key_error. destruct (m !! slot) as [l|] eqn:Hl; [|apply wp_raise; by destruct k].
  apply wp_ret. destruct (Hm _ _ Hl) as [Hslot Hof]. destruct (singleton_or_not (_ranked l)) as [[c Hc]|Hmany].
  - rewrite Hc. apply ranked_singleton in Hc. pose proof (proj1 (Forall_forall _ _) Hof c (proj1 Hc)) as Hcs. cbv beta in Hcs.
    apply wp_bind. eapply wp_mono; [apply wp_resolved_of; by rewrite Hcs|cbv beta|done]. intros r k' [-> Hr].
    apply wp_ret. split; [by destruct k|]. exists (new ++ [r]). cbn. split; [by rewrite (assoc_L (++))|].
    assert (ResolvedSlot.slot r = slot) as Hrs by by destruct Hr; congruence. split; [|done..|].
    + apply Forall_app. split; [done|]. constructor; [|done]. exists l, c. by rewrite Hrs.
    + intros s [Hs%Hall| ->%list_elem_of_singleton]%elem_of_app; set_solver.
  - assert (∀ c, ¬ unambiguous l c) as Hamb by by intros c [c' Hc']%unambiguous_ranked; apply Hmany; exists c'.
    assert (wp (field ← _clarification_field slot (_ranked l);
        let field := if bool_decide (slot ∈ unavailable)
          then field <| ClarificationField.reason_code := "previous_" +:+ slot +:+ "_unavailable" |> else field in
        mret (old ++ new, fields ++ [field]))
      (λ st k', same_tables k k' ∧ ∃ new', st.1 = old ++ new' ∧ found m old (seen ++ [slot]) new' st.2)
      (λ _ k', same_tables k k') k) as Hask.
    { apply wp_bind. eapply wp_mono; [by eapply wp_clarification_field|cbv beta|done]. intros f k' (Hk & Hf & Hasked).
      apply wp_ret. split; [done|]. exists new. split; [done|]. cbn [snd].
      assert (∀ f', ClarificationField.slot f' = ClarificationField.slot f →
        ClarificationField.options f' = ClarificationField.options f →
        found m old (seen ++ [slot]) new (fields ++ [f'])) as Hfound.
      { intros f' Hs Ho. split; [done| | |].
        - apply Forall_app. split; [done|]. constructor; [|done]. unfold asked_for in *. rewrite Hs, Ho.
          split; [done|]. set_solver.
        - rewrite map_app. apply Forall_app. split; [done|]. constructor; [|done]. by rewrite Hs, Hf.
        - intros s [Hs'%Hall| ->%list_elem_of_singleton]%elem_of_app; set_solver. }
      case_bool_decide; by apply Hfound. }
    destruct (_ranked l) as [|c [|c' rest]]; [done|by exfalso; apply Hmany; exists c|done].
Qed.

Lemma wp_explore_slots m unavailable old seen new fields slots k :
  known_candidates m → found m old seen new fields →
  wp (explore_slots m unavailable slots (old ++ new, fields))
    (λ st k', same_tables k k' ∧ ∃ new', st.1 = old ++ new' ∧ found m old (seen ++ slots) new' st.2)
    (λ _ k', same_tables k k') k.
Proof.
  intros Hm. revert seen new fields k. induction slots as [|slot slots IH]; intros seen new fields k Hfound; cbn [explore_slots].
  - apply wp_ret. split; [by destruct k|]. exists new. by rewrite app_nil_r.
  - apply wp_bind. eapply wp_mono; [by apply wp_explore_slot|cbv beta|done]. intros [resolved fields1] k1 (Hk1 & new1 & Hr & Hf).
    cbn in Hr, Hf. subst resolved. eapply wp_mono; [by apply IH|cbv beta|].
    + intros st k2 (Hk2 & new2 & Hst & Hf2). split; [by eapply same_tables_trans|]. exists new2. split; [done|].
      by rewrite cons_middle, (assoc_L (++)).
    + intros e k2 ?. by eapply same_tables_trans.
Qed.

(** ** Exploring *)

(** [i'] is what exploring leaves of [i]: every slot is resolved, or the user is asked for those
    that are not. *)
Inductive explored (i : RunIntent) (context : VisibleIntentContext) (remaining : Z) (slots : list string)
    (i' : RunIntent) : Prop :=
| explored_resolved new :
    found (all_candidates i context).1 (RunIntent.resolved_slots i) slots new [] →
    same_intent (proceeding i (RunIntent.resolved_slots i ++ new)) i' →
    explored i context remaining slots i'
| explored_asks new fields j r :
    fields ≠ [] → found (all_candidates i context).1 (RunIntent.resolved_slots i) slots new fields →
    asked (proceeding i (RunIntent.resolved_slots i ++ new)) fields remaining j r →
    validate_active_request (RunIntent.clarification j) = true → same_intent j i' →
    explored i context remaining slots i'.

Lemma mapM_or_key_error (f : ClarificationField → option string) fields k :
  wp (mapM (λ x, or_key_error (f x)) fields) (λ _ k', k' = k) (λ _ k', k' = k) k.
Proof.
  apply (wp_mapM _ (λ _ _, True) (λ k', k' = k)); [done| |done]. intros x k1 _ ->. unfold or_key_error.
  destruct (f x); [by apply wp_ret|by apply wp_raise].
Qed.

Lemma wp_explore i context now ttl remaining required_slots k :
  wp (explore i context now ttl remaining required_slots)
    (λ i' k', same_tables k k' ∧ intent_ok i' ∧
       explored i context remaining (default (_blocking_slots i) required_slots) i')
    (λ _ k', same_tables k k') k.
Proof.
  unfold explore. pose proof (all_candidates_known i context) as Hm.
  destruct (all_candidates i context) as [m unavailable] eqn:Hall. cbn [fst] in Hm.
  set (slots := default _ _). apply wp_bind.
  eapply wp_mono; [|cbv beta|intros e k' Hk; exact Hk].
  { rewrite <-(app_nil_r (RunIntent.resolved_slots i)) at 1. apply (wp_explore_slots m _ _ []); [done|].
    split; [done..|]. set_solver. }
  intros [resolved fields] k1 (Hk1 & new & Hres & Hfound). cbn in Hres, Hfound. subst resolved.
  change (found m (RunIntent.resolved_slots i) slots new fields) in Hfound.
  assert (∀ (o : option RunIntent) (P : RunIntent → Prop) k2, same_tables k k2 → (∀ a, o = Some a → P a) →
    wp (validated o) (λ i' k', same_tables k k' ∧ P i') (λ _ k', same_tables k k') k2) as Hread.
  { intros o P k2 Hk2 HP. apply wp_read_again; [by auto|done]. }
  apply wp_bind. destruct fields as [|f fields].
  - apply wp_ret, Hread; [done|]. intros i' [Hsame Hok]%read_intent_same; [|done]. split; [done|].
    eapply explored_resolved; [by rewrite Hall|done].
  - apply wp_bind. unfold _clarification_question. apply wp_bind.
    eapply wp_mono; [apply mapM_or_key_error|cbv beta|by intros e k' ->]. intros labels k' ->. apply wp_ret.
    apply (wp_request_clarification ascii_stable); [|by intros _|by intros _|].
    + intros j r k2 Hk2 Hasked Hv. apply Hread; [by eapply same_tables_trans|].
      intros i' [Hsame Hok]%read_intent_same; [|done]. split; [done|].
      eapply explored_asks; [..|exact Hsame]; [|by rewrite Hall|done..]. done.
    + intros k2 ?. by eapply same_tables_trans.
Qed.
End Explored.

(** ** The clarifications of a Run over time

    The intent of a Run is read, explored, answered, closed and planned in turn.  Whatever the
    order, its user is asked at most twice and never the same thing again, and what was asked and
    answered stays as it is. *)

(** ** What the requests of an intent are *)

Definition requests_of (i : RunIntent) : list ClarificationRequest :=
  ClarificationState.requests (RunIntent.clarification i).

Definition statuses (i : RunIntent) : list ClarificationStatus := ClarificationRequest.status <$> requests_of i.

Definition answered_count (l : list ClarificationStatus) : nat :=
  length (List.filter (λ s, bool_decide (s = ClarificationStatus.ANSWERED)) l).

(** Of an intent whose first revision was [first]: no gap was asked for twice, every request but
    the last is answered, each was made for the revision that the answers before it led to, and
    the revision counts the answers. *)
Record sound (first : Z) (i : RunIntent) : Prop := {
  sound_gaps : NoDup (ClarificationRequest.gap_fingerprint <$> requests_of i);
  sound_front : Forall (λ s, s = ClarificationStatus.ANSWERED) (removelast (statuses i));
  sound_requests : ClarificationRequest.intent_revision <$> requests_of i =
                   (λ n, first + Z.of_nat n)%Z <$> seq 0 (length (requests_of i));
  sound_revision : RunIntent.intent_revision i = (first + Z.of_nat (answered_count (statuses i)))%Z
}.

(** A request keeps its contract; once it is no longer open, it keeps everything. *)
Record kept (r r' : ClarificationRequest) : Prop := {
  kept_id : ClarificationRequest.id r' = ClarificationRequest.id r;
  kept_for : ClarificationRequest.intent_revision r' = ClarificationRequest.intent_revision r;
  kept_round : ClarificationRequest.round r' = ClarificationRequest.round r;
  kept_gap : ClarificationRequest.gap_fingerprint r' = ClarificationRequest.gap_fingerprint r;
  kept_contract : ClarificationRequest.request_fingerprint r' = ClarificationRequest.request_fingerprint r;
  kept_settled : ClarificationRequest.status r ≠ ClarificationStatus.OPEN → same_request r r'
}.

(** The requests of [i] are the first ones of [i']. *)
Definition extends (i i' : RunIntent) : Prop :=
  ∃ l1 l2, requests_of i' = l1 ++ l2 ∧ Forall2 kept (requests_of i) l1.

Lemma kept_same r r' : same_request r r' → kept r r'.
Proof. intros Hs. by split; try by destruct Hs. Qed.

Lemma kept_trans r1 r2 r3 : kept r1 r2 → kept r2 r3 → kept r1 r3.
Proof.
  intros H12 H23. split; try (destruct H12, H23; congruence). intros Hst. pose proof (kept_settled _ _ H12 Hst) as Hs.
  eapply same_request_trans; [exact Hs|]. apply (kept_settled _ _ H23). by rewrite (same_status _ _ Hs).
Qed.

Lemma extends_trans i1 i2 i3 : extends i1 i2 → extends i2 i3 → extends i1 i3.
Proof.
  intros (a & b & H2 & Hk) (c & d & H3 & Hk'). rewrite H2 in Hk'. apply Forall2_app_inv_l in Hk' as (c1 & c2 & Hc1 & _ & ->).
  exists c1, (c2 ++ d). rewrite H3, <-(assoc_L (++)). split; [done|]. eapply Forall2_trans; [|exact Hk|exact Hc1].
  apply kept_trans.
Qed.

Lemma extends_same i i' : Forall2 same_request (requests_of i) (requests_of i') → extends i i'.
Proof.
  intros Hl. exists (requests_of i'), []. rewrite app_nil_r. split; [done|]. eapply Forall2_impl; [exact Hl|].
  apply kept_same.
Qed.

Lemma extends_refl i : extends i i.
Proof. apply extends_same. induction (requests_of i); constructor; [apply same_request_refl|done]. Qed.

(** ** What each change keeps *)

(** Only the revision and the requests matter. *)
Lemma sound_same_requests first i i' :
  Forall2 same_request (requests_of i) (requests_of i') → RunIntent.intent_revision i' = RunIntent.intent_revision i →
  sound first i → sound first i'.
Proof.
  intros Hreqs Hrev [Hgaps Hfront Hfor Hcount].
  assert (statuses i' = statuses i) as Hst by (eapply Forall2_fmap_same; [exact Hreqs|]; by intros ? ? []).
  split.
  - erewrite Forall2_fmap_same; [exact Hgaps|exact Hreqs|]. by intros ? ? [].
  - by rewrite Hst.
  - erewrite Forall2_fmap_same; [|exact Hreqs|by intros ? ? []]. by rewrite Hfor, (Forall2_length _ _ _ Hreqs).
  - by rewrite Hst, Hrev.
Qed.

Lemma answered_count_all l : Forall (λ s, s = ClarificationStatus.ANSWERED) l → answered_count l = length l.
Proof. induction 1 as [|s l -> _ IH]; [done|].
  change (S (answered_count l) = S (length l)). by f_equal.
Qed.

Lemma answered_count_app l1 l2 : answered_count (l1 ++ l2) = (answered_count l1 + answered_count l2)%nat.
Proof. unfold answered_count. by rewrite List.filter_app, length_app. Qed.

(** A last request after answered ones. *)
Lemma sound_last first i front r :
  requests_of i = front ++ [r] →
  Forall (λ x, ClarificationRequest.status x = ClarificationStatus.ANSWERED) front →
  NoDup (ClarificationRequest.gap_fingerprint <$> requests_of i) →
  ClarificationRequest.intent_revision <$> requests_of i =
    (λ n, first + Z.of_nat n)%Z <$> seq 0 (length (requests_of i)) →
  RunIntent.intent_revision i = (first + Z.of_nat (length front) +
    Z.of_nat (answered_count [ClarificationRequest.status r]))%Z →
  sound first i.
Proof.
  intros Hreqs Hfront Hgaps Hfor Hrev.
  assert (Forall (λ s, s = ClarificationStatus.ANSWERED) (ClarificationRequest.status <$> front)) as Hans
    by by apply Forall_fmap.
  split; try done; unfold statuses; rewrite Hreqs, fmap_app; cbn [fmap list_fmap].
  - by rewrite removelast_last.
  - rewrite answered_count_app, answered_count_all, length_fmap by done. lia.
Qed.

Lemma open_front_revisions first i front r :
  sound first i → open_at (RunIntent.clarification i) front r →
  RunIntent.intent_revision i = (first + Z.of_nat (length front))%Z.
Proof.
  intros [_ _ _ ->] [Hreqs Hst Hfront _ _ _]. unfold statuses, requests_of. rewrite Hreqs, fmap_app. cbn [fmap list_fmap].
  rewrite Hst, answered_count_app, answered_count_all, length_fmap by by apply Forall_fmap.
  change (answered_count [ClarificationStatus.OPEN]) with 0%nat. lia.
Qed.

Section Changes.
Context `{UnicodeData, IsoFormats, Environment}.
Context (ascii_stable : ∀ s, safe_name s → casefold (strip (nfkc s)) = s).

Lemma asked_sound first i fields remaining i' r :
  sound first i → asked i fields remaining i' r → validate_active_request (RunIntent.clarification i') = true →
  sound first i' ∧ extends i i'.
Proof.
  intros Hs Ha Hv. pose proof (validated_shape _ Hv) as (_ & _ & Hopen). pose proof Ha as [Hi' _ Hfor _ Hgap _ Hnew _ _ _ _].
  assert (requests_of i' = requests_of i ++ [r]) as Hreqs by by rewrite Hi'.
  rewrite Hi' in Hopen. cbn in Hopen. destruct Hopen as (front & r' & [Hr Hst Hfront _ _ _]). cbn in Hr.
  apply app_inj_tail in Hr as [<- <-]. destruct Hs as [Hgaps _ Hrevs Hrev].
  assert (RunIntent.intent_revision i = first + Z.of_nat (length (requests_of i)))%Z as Hcount.
  { rewrite Hrev. unfold statuses. rewrite answered_count_all, length_fmap; [done|]. by apply Forall_fmap. }
  split.
  - eapply sound_last; [exact Hreqs|done|..].
    + rewrite Hreqs, fmap_app. apply NoDup_app. split; [done|]. split; [|apply NoDup_singleton].
      cbn. rewrite Hgap. set_solver.
    + rewrite Hreqs, fmap_app, Hrevs, length_app, seq_app, fmap_app. cbn. by rewrite Hfor, Hcount.
    + rewrite Hst, Hi'. change (answered_count [ClarificationStatus.OPEN]) with 0%nat. cbn. rewrite Hcount. unfold requests_of. lia.
  - exists (requests_of i), [r]. split; [done|]. pose proof (extends_refl i) as (l1 & l2 & Hl & Hk).
    clear. induction (requests_of i); constructor; [apply kept_same, same_request_refl|done].
Qed.

(** An open request that is answered or closed: [r'] has its contract, and another status. *)
Lemma settled_sound first i i' front r r' :
  sound first i → open_at (RunIntent.clarification i) front r → kept r r' →
  Forall2 same_request (front ++ [r']) (requests_of i') →
  RunIntent.intent_revision i' = (RunIntent.intent_revision i +
    Z.of_nat (answered_count [ClarificationRequest.status r']))%Z →
  sound first i' ∧ extends i i'.
Proof.
  intros Hs Hopen Hk Hreqs Hrev. rewrite (open_front_revisions _ _ _ _ Hs Hopen) in Hrev.
  pose proof Hopen as [Hi _ Hfront _ _ _]. pose proof Hs as [Hgaps _ Hfor _].
  assert (requests_of i = front ++ [r]) as Hold by done.
  assert (Forall2 kept (requests_of i) (requests_of i')) as Hkept.
  { rewrite Hold. eapply Forall2_trans; [apply kept_trans| |].
    - apply Forall2_app; [|by constructor; [exact Hk|constructor]].
      instantiate (1 := front). clear. induction front; constructor; [apply kept_same, same_request_refl|done].
    - eapply Forall2_impl; [exact Hreqs|apply kept_same]. }
  split; [|by exists (requests_of i'), []; rewrite app_nil_r].
  apply Forall2_app_inv_l in Hreqs as (front' & last' & Hf & Hl & Hi').
  inversion Hl as [|? r2 ? ? Hr2 Hnil]; subst. inversion Hnil; subst.
  assert (ClarificationRequest.status <$> front' = ClarificationRequest.status <$> front) as Hsts
    by (eapply Forall2_fmap_same; [exact Hf|]; by intros ? ? []).
  eapply sound_last; [exact Hi'|..].
  - apply (Forall_fmap ClarificationRequest.status (λ s, s = ClarificationStatus.ANSWERED)). rewrite Hsts. by apply Forall_fmap.
  - erewrite Forall2_fmap_same; [exact Hgaps|exact Hkept|by intros ? ? []].
  - erewrite Forall2_fmap_same; [|exact Hkept|by intros ? ? []]. by rewrite Hfor, (Forall2_length _ _ _ Hkept).
  - by rewrite Hrev, <-(Forall2_length _ _ _ Hf), (same_status _ _ Hr2).
Qed.

(** ** Any history *)

(** What happens to the intent of a Run: its document is read again, given a task contract or
    slots of its task context, explored for the slots it needs, answered, closed, or planned. *)
Inductive step : RunIntent → RunIntent → Prop :=
| step_read i i' : read_intent (VDict (dump_intent i)) = Some i' → step i i'
| step_contract i contract i' :
    read_intent (VDict (dump_intent (i <| RunIntent.task_contract := contract |>))) = Some i' → step i i'
| step_context i slots i' :
    read_intent (VDict (dump_intent (i <| RunIntent.resolved_slots := slots |>))) = Some i' → step i i'
| step_explore i context now ttl remaining required k i' k' :
    explore i context now ttl remaining required k = Ok i' k' → step i i'
| step_answer i submission clarification_id answered_by t (k k' : Kernel) a :
    apply_clarification_answer i submission clarification_id answered_by t k = Ok a k' →
    step i (AppliedClarificationAnswer.intent a)
| step_close i status t (k k' : Kernel) i' :
    status ∈ [ClarificationStatus.EXPIRED; ClarificationStatus.CANCELLED] →
    close_active_clarification i status t k = Ok i' k' → step i i'
| step_planned i (k k' : Kernel) i' : mark_planned i k = Ok i' k' → step i i'.

Lemma read_sound first i j i' :
  requests_of j = requests_of i → RunIntent.intent_revision j = RunIntent.intent_revision i →
  read_intent (VDict (dump_intent j)) = Some i' → sound first i →
  intent_ok i' ∧ sound first i' ∧ extends i i'.
Proof.
  intros Hreqs Hrev [[] Hok]%read_intent_same Hs; [|done]. split; [done|].
  assert (Forall2 same_request (requests_of i) (requests_of i')) by by rewrite <-Hreqs.
  split; [|by apply extends_same]. eapply sound_same_requests; [done| |done]. congruence.
Qed.

Lemma step_sound first i i' : intent_ok i → sound first i → step i i' → intent_ok i' ∧ sound first i' ∧ extends i i'.
Proof.
  intros Hok Hs Hstep. destruct Hstep as [i i' Hr|i contract i' Hr|i slots i' Hr|i context now ttl remaining required k i' k' He
    |i submission id who t k k' a Ha|i status t k k' i' Hst Hc|i k k' i' Hp].
  - by eapply read_sound.
  - by eapply read_sound in Hr.
  - by eapply read_sound in Hr.
  - pose proof (wp_inv_ok _ _ _ _ _ _ (wp_explore ascii_stable i context now ttl remaining required k) He) as (_ & Hok' & Hex).
    split; [done|].
    destruct Hex as [new _ [Hrev _ _ _ _ Hreqs _]|new fields j r _ _ Hasked Hv [Hrev _ _ _ _ Hreqs _]].
    + split; [by apply (sound_same_requests first i)|by apply extends_same].
    + set (p := proceeding _ _) in Hasked. assert (sound first p) as Hp by by destruct Hs; split.
      destruct (asked_sound first p _ _ _ _ Hp Hasked Hv) as [Hsj Hext].
      split; [by eapply sound_same_requests|]. eapply extends_trans; [exact Hext|]. by apply extends_same.
  - destruct (wp_inv_ok _ _ _ _ _ _ (wp_apply ascii_stable i submission id who t k Hok) Ha) as (_ & front & active & stored & Hap).
    split; [apply Hap|]. eapply (settled_sound _ _ _ _ _ _ Hs); [apply Hap| |apply Hap|].
    + split; try done. intros Hne. by destruct Hne, (applied_open _ _ _ _ _ _ _ _ _ Hap).
    + by rewrite (applied_revision _ _ _ _ _ _ _ _ _ Hap).
  - assert (i' = i ∨ closed i status i') as [->|Hclosed]; [|by split; [|split; [|apply extends_refl]]|].
    { refine (wp_inv_ok _ (λ i1 _, i1 = i ∨ closed i status i1) (λ _ _, True) _ _ _ _ Hc).
      apply wp_close; [done|done|by right|by left|done]. }
    destruct Hclosed as [(front & active & r & Hopen & Hr & Hc') Hrev _ _ _ Hok']. split; [done|].
    assert (requests_of i' = front ++ [r]) as Hreqs by (unfold requests_of; by rewrite Hc').
    eapply (settled_sound _ _ _ _ _ r Hs); [exact Hopen| | |].
    + destruct Hr. split; try done. intros Hne. by destruct Hne, Hopen.
    + rewrite Hreqs. generalize (front ++ [r]). intros l. induction l; constructor; [apply same_request_refl|done].
    + assert (answered_count [ClarificationRequest.status r] = 0)%nat as ->; [|lia]. rewrite (same_status _ _ Hr).
      apply elem_of_cons in Hst as [->| ->%list_elem_of_singleton]; done.
  - eapply read_sound; [..|exact Hs]; [| |refine (wp_inv_ok _ (λ i1 _, read_intent _ = Some i1) (λ _ _, True) _ _ _ _ Hp)].
    3: unfold mark_planned; by apply wp_read_again. all: done.
Qed.

Lemma steps_sound first i i' :
  intent_ok i → sound first i → steps step i i' → intent_ok i' ∧ sound first i' ∧ extends i i'.
Proof.
  intros Hok Hs Hsteps.
  apply (steps_invariant step (λ j, intent_ok j ∧ sound first j ∧ extends i j)) in Hsteps; [done| |].
  - intros i1 i2 (Hok1 & Hs1 & He1) H12. destruct (step_sound _ _ _ Hok1 Hs1 H12) as (? & ? & ?).
    split; [done|]. split; [done|]. by eapply extends_trans.
  - split; [done|]. split; [done|]. apply extends_refl.
Qed.

Lemma answered_not_pending {S} i submission clarification_id who t (s : S) :
  canonical_uuid clarification_id = true → ClarificationState.active_id (RunIntent.clarification i) = None →
  apply_clarification_answer i submission clarification_id who t s = Raise ClarificationNotPending s.
Proof. intros Hid Hnone. unfold apply_clarification_answer, active_request. by rewrite Hid, Hnone. Qed.

Lemma apply_canonical {S} i submission clarification_id who t (s s' : S) a :
  apply_clarification_answer i submission clarification_id who t s = Ok a s' → canonical_uuid clarification_id = true.
Proof. unfold apply_clarification_answer. by destruct (canonical_uuid clarification_id). Qed.

(** A document without clarifications is where a Run starts. *)
Lemma started_sound d i :
  read_intent (VDict d) = Some i → dget "clarification" d = None →
  intent_ok i ∧ requests_of i = [] ∧ sound (RunIntent.intent_revision i) i.
Proof.
  intros Hr Hnone. pose proof (read_intent_ok _ _ Hr) as Hok. split; [done|].
  assert (requests_of i = []) as Hempty.
  { unfold read_intent in Hr. open_read Hr. unfold fields_of in Hx. open_read Hx. subst.
    unfold defaulted in Hx23. rewrite Hnone in Hx23. injection Hx23 as <-. done. }
  split; [done|]. split; unfold statuses; rewrite Hempty; cbn; try constructor. change (answered_count []) with 0%nat. lia.
Qed.

(** The stage says whether a request is open. *)
Lemma waiting_iff_active i :
  intent_ok i → (RunIntent.preparation_stage i = PreparationStage.WAITING_USER ↔
                 is_Some (active_request (RunIntent.clarification i))).
Proof.
  intros [Hv _ _ _ _]. unfold validate_state in Hv. split_bool.
  destruct (RunIntent.preparation_stage i), (active_request _); split; intros; try done; by eexists.
Qed.

(** [C20] Whatever happens to the intent of a Run, its user is asked at most twice, never twice for the
    same gap, and again only after an answer; a request that waits is the last one and is for the
    revision the intent has, which counts the answers; and the intent waits exactly if a request
    does. *)
Theorem clarifications_bounded d i i' :
  read_intent (VDict d) = Some i → dget "clarification" d = None → steps step i i' →
  (length (requests_of i') ≤ 2)%nat ∧
  NoDup (ClarificationRequest.gap_fingerprint <$> requests_of i') ∧
  ClarificationRequest.round <$> requests_of i' = Z.of_nat <$> seq 1 (length (requests_of i')) ∧
  Forall (λ s, s = ClarificationStatus.ANSWERED) (removelast (statuses i')) ∧
  ClarificationRequest.intent_revision <$> requests_of i' =
    (λ n, RunIntent.intent_revision i + Z.of_nat n)%Z <$> seq 0 (length (requests_of i')) ∧
  RunIntent.intent_revision i' = (RunIntent.intent_revision i + Z.of_nat (answered_count (statuses i')))%Z ∧
  (RunIntent.preparation_stage i' = PreparationStage.WAITING_USER ↔
   ∃ front r, requests_of i' = front ++ [r] ∧ active_request (RunIntent.clarification i') = Some r ∧
     ClarificationRequest.status r = ClarificationStatus.OPEN ∧
     ClarificationRequest.intent_revision r = RunIntent.intent_revision i').
Proof.
  intros Hread Hnone Hsteps. destruct (started_sound _ _ Hread Hnone) as (Hok & _ & Hs). destruct (steps_sound _ _ _ Hok Hs Hsteps) as (Hok' & Hs' & _).
  pose proof Hs' as [Hgaps Hfront Hfor Hrev]. destruct (validated_shape _ (ok_active _ Hok')) as (_ & Hrounds & _).
  split_and!; try done; [apply Hok'|]. rewrite waiting_iff_active by done. pose proof (active_open _ Hok') as Hactive. split.
  - intros [r Hr]. rewrite Hr in Hactive. destruct Hactive as [front Hopen]. exists front, r.
    split; [apply Hopen|]. split; [done|]. split; [apply Hopen|]. rewrite (open_front_revisions _ _ _ _ Hs' Hopen).
    assert (requests_of i' = front ++ [r]) as Hreqs by apply Hopen. rewrite Hreqs in Hfor.
    rewrite fmap_app, length_app, seq_app, fmap_app in Hfor.
    apply app_inj_2 in Hfor as [_ Hlast]; [|done]. by injection Hlast.
  - intros (front & r & _ & Hr & _). by exists r.
Qed.

(** [C24] What was asked stays: over any further history the requests of an intent are the first ones of
    the later intent, each with its id, gap and contract; and what was answered, expired or
    cancelled stays with its status, its answers and their author. *)
Theorem clarifications_kept d i i1 i2 :
  read_intent (VDict d) = Some i → dget "clarification" d = None → steps step i i1 → steps step i1 i2 → extends i1 i2.
Proof.
  intros Hread Hnone Hsteps Hsteps2. destruct (started_sound _ _ Hread Hnone) as (Hok & _ & Hs).
  destruct (steps_sound _ _ _ Hok Hs Hsteps) as (Hok1 & Hs1 & _).
  by destruct (steps_sound _ _ _ Hok1 Hs1 Hsteps2) as (_ & _ & ?).
Qed.


Lemma decided_same m r r' : safe_name (ResolvedSlot.slot r) → decided m r → same_slot r r' → decided m r'.
Proof.
  intros Hsafe (l & c & Hl & Hc & []) [Hslot]. specialize (Hslot Hsafe). exists l, c. rewrite Hslot. split; [done|].
  split; [done|]. split; congruence.
Qed.

(** What [explored] says of the slots of [i'], once those of [i] have names that are normal. *)
Record slots_explored (i : RunIntent) (m : Candidates) (new : list ResolvedSlot) (i' : RunIntent) : Prop := {
  slots_named : ∀ s, s ∈ ResolvedSlot.slot <$> RunIntent.resolved_slots i' ↔
                     s ∈ ResolvedSlot.slot <$> RunIntent.resolved_slots i ++ new;
  slots_from : ∀ r', r' ∈ RunIntent.resolved_slots i' →
               (∃ r, r ∈ RunIntent.resolved_slots i ∧ same_slot r r') ∨ decided m r'
}.

Lemma explored_slots i m new i' :
  intent_ok i → known_candidates m → Forall (decided m) new →
  Forall2 same_slot (by_slot ResolvedSlot.slot (RunIntent.resolved_slots i ++ new)) (RunIntent.resolved_slots i') →
  slots_explored i m new i'.
Proof.
  intros Hok Hm Hnew Hsame.
  assert (∀ r, r ∈ RunIntent.resolved_slots i ++ new → safe_name (ResolvedSlot.slot r)) as Hsafe.
  { intros r [Hr|Hr]%elem_of_app; [by apply (proj1 (Forall_forall _ _) (ok_slots _ Hok))|].
    apply (proj1 (Forall_forall _ _) Hnew) in Hr as (l & c & Hl & _). by apply Hm in Hl as []. }
  assert (∀ r, r ∈ by_slot ResolvedSlot.slot (RunIntent.resolved_slots i ++ new) ↔ r ∈ RunIntent.resolved_slots i ++ new)
    as Hby by (intros r; apply elem_of_order_by). split.
  - intros s. rewrite !list_elem_of_fmap. split.
    + intros (r' & -> & [n Hn]%list_elem_of_lookup). destruct (Forall2_lookup_r _ _ _ _ _ Hsame Hn) as (r & Hr & Hs).
      apply list_elem_of_lookup_2, Hby in Hr. exists r. split; [|done]. by apply Hs, Hsafe.
    + intros (r & -> & Hr). pose proof Hr as [n Hn]%Hby%list_elem_of_lookup.
      destruct (Forall2_lookup_l _ _ _ _ _ Hsame Hn) as (r' & Hr' & Hs). exists r'.
      split; [symmetry; by apply Hs, Hsafe|by apply list_elem_of_lookup_2 in Hr'].
  - intros r' [n Hn]%list_elem_of_lookup. destruct (Forall2_lookup_r _ _ _ _ _ Hsame Hn) as (r & Hr & Hs).
    apply list_elem_of_lookup_2, Hby in Hr. pose proof (Hsafe _ Hr). apply elem_of_app in Hr as [Hr|Hr]; [left; by exists r|].
    right. eapply decided_same; [done| |done]. by apply (proj1 (Forall_forall _ _) Hnew).
Qed.

(** The request that is asked is the active one once the intent is read again. *)
Lemma asked_active i fields remaining j r i' :
  asked i fields remaining j r → Forall safe_name (map ClarificationField.slot fields) → same_intent j i' → intent_ok i' →
  ∃ r', active_request (RunIntent.clarification i') = Some r' ∧ field_slots r' = map ClarificationField.slot fields.
Proof.
  intros Ha Hsafe Hsame Hok. pose proof (active_open _ Hok) as Hactive.
  assert (RunIntent.preparation_stage i' = PreparationStage.WAITING_USER) as Hstage
    by by rewrite (kept_stage _ _ Hsame), (asked_intent _ _ _ _ _ Ha).
  apply (waiting_iff_active _ Hok) in Hstage as [r' Hr']. rewrite Hr' in Hactive. destruct Hactive as [front Hopen].
  exists r'. split; [done|]. pose proof (kept_requests _ _ Hsame) as Hreqs.
  rewrite (asked_intent _ _ _ _ _ Ha), (open_requests _ _ _ Hopen) in Hreqs. cbn in Hreqs.
  apply Forall2_app_inv_l in Hreqs as (l1 & l2 & _ & Hlast & Heq). inversion Hlast as [|? x ? ? Hx Hnil]; subst.
  inversion Hnil; subst. apply app_inj_tail in Heq as [_ ->].
  rewrite (same_fields _ _ Hx); [by apply (asked_slots _ _ _ _ _ Ha)|apply Ha].
Qed.

End Changes.

(** ** A conversation that runs

    The user asks why one of two services is slow, and says which one. *)

Module IntentSample.

(** Unicode and time stamps, on ASCII. *)
#[export] Instance ascii_unicode : UnicodeData := {|
  nfkc s := s;
  casefold := lower;
  keep_alnum s := of_chars (List.filter (λ c, is_upper c || is_lower c || is_digit c) (chars s))
|}.

Lemma safe_stable s : safe_name s → casefold (strip (nfkc s)) = s.
Proof.
  unfold safe_name, safe_identifier. cbn [nfkc casefold ascii_unicode]. intros Hs.
  assert (Forall (λ c, is_space c = false ∧ is_upper c = false) (chars s)) as Hchars.
  { destruct (chars s) as [|c l]; [done|]. apply andb_true_iff in Hs as [[Hc Hl]%andb_true_iff _].
    assert (∀ x, is_lower x || is_digit x || has_char x "_.-" = true → is_space x = false ∧ is_upper x = false) as Hx.
    { intros x Hx. destruct x as [[] [] [] [] [] [] [] []]; vm_compute in Hx |- *; done. }
    constructor; [apply Hx; by rewrite Hc|]. apply Forall_forall. intros x Hin. apply Hx.
    by apply (proj1 (forallb_true _ _) Hl). }
  assert (∀ l, Forall (λ c, is_space c = false ∧ is_upper c = false) l → drop_spaces l = l) as Hdrop.
  { intros l Hl. destruct Hl as [|c l [Hc _] _]; [done|]. cbn. by rewrite Hc. }
  unfold strip. rewrite (Hdrop (chars s)), (Hdrop (reverse (chars s))), reverse_involutive by (done || by apply Forall_reverse).
  unfold lower. rewrite chars_of_chars. replace (map lower_char (chars s)) with (chars s); [apply String.string_of_list_ascii_of_string|].
  clear Hs. induction Hchars as [|c l [_ Hc] _ IH]; [done|]. cbn [map]. rewrite <-IH. unfold lower_char. by rewrite Hc.
Qed.

Fixpoint decimal (l : list ascii) (acc : Z) : option Z :=
  match l with
  | [] => Some acc
  | c :: l' => if is_digit c then decimal l' (acc * 10 + Z.of_N (code c) - 48)%Z else None
  end.

Definition days_from_civil (y m d : Z) : Z :=
  let y := if (m <=? 2)%Z then (y - 1)%Z else y in
  let era := (y / 400)%Z in
  let yoe := (y - era * 400)%Z in
  let doy := ((153 * (if (2 <? m)%Z then m - 3 else m + 9) + 2) / 5 + d - 1)%Z in
  (era * 146097 + yoe * 365 + yoe / 4 - yoe / 100 + doy - 719468)%Z.

(** [datetime.fromisoformat] of what [isoformat] gives for an instant in UTC. *)
Definition parse_iso (s : string) : option (bool * Z) :=
  let l := chars s in
  let part at_ n := decimal (take n (drop at_ l)) 0 in
  y ← part 0 4; m ← part 5 2; d ← part 8 2; h ← part 11 2; mi ← part 14 2; se ← part 17 2;
  us ← match nth_error l 19 with Some "."%char => part 20 6 | _ => Some 0%Z end;
  Some (true, (days_from_civil y m d * day_us + ((h * 60 + mi) * 60 + se) * second + us)%Z).

#[export] Instance utc_formats : IsoFormats := {| fromisoformat := parse_iso |}.
#[local] Existing Instance EventLog.Sample.environment.

Definition now : Z := 951782399000042.

Example parse_now : parse_iso (isoformat now) = Some (true, now).
Proof. vm_compute. reflexivity. Qed.

Definition document : dict :=
  [("preparation_stage", VStr "CONTEXT_RESOLVED"); ("domain", VStr "ops"); ("route", VStr "INCIDENT");
   ("intent", VStr "diagnose"); ("question", VStr "why is checkout-api or cart-service slow? token=abc")].

Definition context : VisibleIntentContext := VisibleIntentContext.Make [] [] [] None [] [] [] "" None.

Definition no_intent : RunIntent :=
  RunIntent.Make 1 PreparationStage.CONTEXT_RESOLVED None "" "" "" "" [] [] [] None false false "" None None None None
    None None [] None (ClarificationState.Make None [] None).

Definition kernel : Kernel := EventLog.Sample.kernel.

Definition result {A} (d : A) (x : outcome ClarificationDomainError Kernel A) : A := match x with Ok a _ => a | Raise _ _ => d end.

Definition started : RunIntent := default no_intent (read_intent (VDict document)).
Definition asking : outcome ClarificationDomainError Kernel RunIntent := explore started context now 600 100 None kernel.
Definition asked_once : RunIntent := result no_intent asking.

Definition submission : ClarificationAnswerSubmission :=
  ClarificationAnswerSubmission.Make 1 [ClarificationAnswerItem.Make "service" None (Some (VStr "cart-service"))].
Definition asked_id : string := default "" (ClarificationState.active_id (RunIntent.clarification asked_once)).
Definition answering : outcome ClarificationDomainError Kernel AppliedClarificationAnswer :=
  apply_clarification_answer asked_once submission asked_id (uuid_str 7) (now + 1) kernel.
Definition answered_once : RunIntent :=
  AppliedClarificationAnswer.intent (result (AppliedClarificationAnswer.Make no_intent "" [] "") answering).
Definition exploring_again : outcome ClarificationDomainError Kernel RunIntent :=
  explore answered_once context (now + 2) 600 100 None kernel.
Definition ready : RunIntent := result no_intent exploring_again.

(** The services the user is offered, and what is resolved in the end. *)
Example offered :
  map ClarificationOption.label (concat (map ClarificationField.options (concat (map ClarificationRequest.fields (requests_of asked_once))))) =
    ["cart-service"; "checkout-api"].
Proof. vm_compute. reflexivity. Qed.

Example resolved :
  (RunIntent.intent_revision ready, statuses ready, map ResolvedSlot.value (RunIntent.resolved_slots ready),
   RunIntent.decision ready) =
    (2%Z, [ClarificationStatus.ANSWERED], [VStr "cart-service"], Some IntentDecision.PROCEED).
Proof. vm_compute. reflexivity. Qed.

(** Without any metric to choose from, the question cannot be asked: its field would have neither
    an option nor a free text, and what is raised is the error of its validation. *)
Definition metric_document : dict :=
  [("preparation_stage", VStr "CONTEXT_RESOLVED"); ("domain", VStr "data"); ("route", VStr "ANALYTICS");
   ("intent", VStr "analyse"); ("question", VStr "why did sales drop?")].
Example no_metric_to_ask_for :
  match explore (default no_intent (read_intent (VDict metric_document))) context now 600 100 None kernel with
  | Raise ValueError _ => True
  | _ => False
  end.
Proof. vm_compute. exact I. Qed.

Lemma started_read : read_intent (VDict document) = Some started.
Proof. vm_compute. reflexivity. Qed.

Definition kernel_after {A} (x : outcome ClarificationDomainError Kernel A) : Kernel := match x with Ok _ k | Raise _ k => k end.

Lemma asking_ok : explore started context now 600 100 None kernel = Ok asked_once (kernel_after asking).
Proof. vm_compute. reflexivity. Qed.
Lemma answering_ok :
  apply_clarification_answer asked_once submission asked_id (uuid_str 7) (now + 1) kernel = Ok (result (AppliedClarificationAnswer.Make no_intent "" [] "") answering) (kernel_after answering).
Proof. vm_compute. reflexivity. Qed.
Lemma exploring_again_ok :
  explore answered_once context (now + 2) 600 100 None kernel = Ok ready (kernel_after exploring_again).
Proof. vm_compute. reflexivity. Qed.

Lemma to_question : steps step started asked_once.
Proof. exact (steps_one _ _ _ (step_explore _ _ _ _ _ _ _ _ _ asking_ok)). Qed.
Lemma to_decided : steps step asked_once ready.
Proof.
  exact (steps_snoc _ _ _ _ (steps_one _ _ _ (step_answer _ _ _ _ _ _ _ _ answering_ok))
    (step_explore _ _ _ _ _ _ _ _ _ exploring_again_ok)).
Qed.

Lemma clarifications_bounded_witness :
  length (requests_of ready) = 1%nat ∧ (length (requests_of ready) ≤ 2)%nat ∧
  NoDup (ClarificationRequest.gap_fingerprint <$> requests_of ready) ∧
  RunIntent.intent_revision ready = (1 + Z.of_nat (answered_count (statuses ready)))%Z.
Proof.
  destruct (clarifications_bounded safe_stable document started ready started_read eq_refl
    (steps_trans _ _ _ _ to_question to_decided)) as (Hlen & Hgaps & _ & _ & _ & Hrev & _).
  split; [vm_compute; reflexivity|]. split; [exact Hlen|]. split; [exact Hgaps|exact Hrev].
Defined.

Lemma clarifications_kept_witness :
  length (requests_of asked_once) = 1%nat ∧ extends asked_once ready.
Proof.
  split; [vm_compute; reflexivity|].
  exact (clarifications_kept safe_stable document started asked_once ready started_read eq_refl to_question to_decided).
Defined.

Lemma started_ok : intent_ok started.
Proof. exact (read_intent_ok _ _ started_read). Qed.

Lemma asked_intent_ok : intent_ok asked_once.
Proof.
  destruct (started_sound _ _ started_read eq_refl) as (Hok & _ & Hs).
  exact (proj1 (steps_sound safe_stable _ _ _ Hok Hs to_question)).
Qed.


End IntentSample.
