(* ===== verification/ThreadFacts.v ===== *)
(** * What the history of a thread is

    [history d t l c]: in the directory [d] the history of the thread [t] is [l], along the
    lineage [c], the ids from [t] up to its root.  Histories are unique and only grow; the
    resolver of [application/thread_history.py] computes them within its depth. *)

From S2P Require Import Prelude PyText PyVal Enums Models Kernel Identity WorkspaceState.

#[local] Open Scope nat_scope.

(** The turns of a thread within its organization. *)
Definition own_turns (d : Directory) (t : Thread) : list Turn :=
  local_turns (Thread.organization_id t) (Thread.id t) d.

Inductive history (d : Directory) : Thread → list Turn → list uuid → Prop :=
| history_root t :
    Thread.parent_thread_id t = None → history d t (own_turns d t) [Thread.id t]
| history_fork t parent_id parent l c pre :
    Thread.parent_thread_id t = Some parent_id → threads d !! parent_id = Some parent →
    Thread.organization_id parent = Thread.organization_id t →
    Thread.workspace_id parent = Thread.workspace_id t →
    history d parent l c → inherited t l = Some pre →
    history d t (pre ++ own_turns d t)%list (Thread.id t :: c).

Lemma history_unique d t l c l' c' : history d t l c → history d t l' c' → l = l' ∧ c = c'.
Proof.
  intros Hh. revert l' c'. induction Hh as [t Hp|t pid parent l c pre Hp Hparent _ _ Hh IH Hpre];
    intros l' c' Hh'; inversion Hh' as [? Hp'|? pid' parent' l2 c2 pre' Hp' Hparent' _ _ Hl2 Hpre'];
    subst; try congruence; [done|].
  assert (parent' = parent) as -> by congruence. destruct (IH _ _ Hl2) as [<- <-].
  split; [|done]. f_equal. congruence.
Qed.

(** ** Inherited prefixes *)

Lemma up_to_prefix id l pre : up_to id l = Some pre → pre `prefix_of` l.
Proof.
  revert pre. induction l as [|u l IH]; intros pre; [done|]. simpl. case_bool_decide.
  - intros [= <-]. by exists l.
  - destruct (up_to id l); [|done]. intros [= <-]. by apply prefix_cons, IH.
Qed.

Lemma up_to_grows id l l' pre : l `prefix_of` l' → up_to id l = Some pre → up_to id l' = Some pre.
Proof.
  intros [k ->]. revert pre. induction l as [|u l IH]; intros pre; [done|]. simpl.
  case_bool_decide; [done|]. destruct (up_to id l); [|done]. intros [= <-]. by rewrite (IH l0).
Qed.

Lemma up_to_found id l : id ∈ Turn.id <$> l → is_Some (up_to id l).
Proof.
  induction l as [|u l IH]; simpl; [by intros ?%not_elem_of_nil|]. case_bool_decide; [by eexists|].
  intros [->|Hin]%elem_of_cons; [done|]. destruct (IH Hin) as [? ->]. by eexists.
Qed.

Lemma inherited_prefix t l pre : inherited t l = Some pre → pre `prefix_of` l.
Proof.
  unfold inherited. destruct (Thread.forked_from_turn_id t); [apply up_to_prefix|].
  intros [= <-]. apply prefix_nil.
Qed.

Lemma inherited_grows t t' l l' pre :
  Thread.forked_from_turn_id t' = Thread.forked_from_turn_id t → l `prefix_of` l' →
  inherited t l = Some pre → inherited t' l' = Some pre.
Proof. unfold inherited. intros ->. destruct (Thread.forked_from_turn_id t); [apply up_to_grows|done]. Qed.

(** ** Growth *)

(** What never changes of a thread. *)
Definition lineage (t : Thread) : uuid * uuid * uuid * option uuid * option uuid :=
  (Thread.id t, Thread.organization_id t, Thread.workspace_id t, Thread.parent_thread_id t,
   Thread.forked_from_turn_id t).

Record grows (d d' : Directory) : Prop := {
  grows_threads i t : threads d !! i = Some t → ∃ t', threads d' !! i = Some t' ∧ lineage t' = lineage t;
  grows_turns i t : threads d !! i = Some t →
    local_turns (Thread.organization_id t) i d `prefix_of` local_turns (Thread.organization_id t) i d'
}.

#[export] Instance grows_preorder : PreOrder grows.
Proof.
  split.
  - intros d. split; [by eauto|done].
  - intros d1 d2 d3 [Ht1 Hu1] [Ht2 Hu2]. split.
    + intros i t Ht. destruct (Ht1 i t Ht) as (t2 & Ht2' & He). destruct (Ht2 i t2 Ht2') as (t3 & ? & He').
      exists t3. split; [done|congruence].
    + intros i t Ht. etransitivity; [by apply Hu1|]. destruct (Ht1 i t Ht) as (t2 & Ht2' & [= ? Ho ???]).
      rewrite <-Ho. by apply Hu2.
Qed.

(** A table of threads under their ids. *)
Definition keyed (d : Directory) : Prop := ∀ i t, threads d !! i = Some t → Thread.id t = i.

Lemma history_grows d d' t t' l c :
  grows d d' → keyed d → threads d !! Thread.id t = Some t → lineage t' = lineage t →
  history d t l c → ∃ l', history d' t' l' c ∧ l `prefix_of` l'.
Proof.
  intros Hg Hk Ht He Hh. revert t' Ht He.
  induction Hh as [t Hp|t pid parent l c pre Hp Hparent Ho Hw Hh IH Hpre]; intros t' Ht He;
    pose proof (grows_turns _ _ Hg _ _ Ht) as Hown; injection He as Hi Ho' Hw' Hp' Hf'.
  - exists (own_turns d' t'). rewrite <-Hi. split; [apply history_root; congruence|].
    unfold own_turns. by rewrite Hi, Ho'.
  - destruct (grows_threads _ _ Hg _ _ Hparent) as (parent' & Hparent' & He').
    pose proof (Hk _ _ Hparent) as Hpid.
    destruct (IH parent') as (lp & Hlp & Hpref); [by rewrite Hpid|done|].
    injection He' as ? ? ? ? ?. exists (pre ++ own_turns d' t')%list. rewrite <-Hi. split.
    + apply (history_fork _ _ pid parent' lp); [congruence|done|congruence|congruence|done|by eapply inherited_grows].
    + apply prefix_app. unfold own_turns. by rewrite Hi, Ho'.
Qed.

(** A lineage never comes back to a thread. *)
Lemma history_lineage d t l c x :
  keyed d → history d t l c → x ∈ c →
  x = Thread.id t ∨ ∃ t' l' c', threads d !! x = Some t' ∧ history d t' l' c' ∧ length c' < length c.
Proof.
  intros Hk. induction 1 as [t Hp|t pid parent l c pre Hp Hparent Ho Hw Hh IH Hpre].
  - intros ->%list_elem_of_singleton. by left.
  - intros [->|Hx]%elem_of_cons; [by left|]. right. destruct (IH Hx) as [->|(t' & l' & c' & ? & ? & ?)].
    + rewrite (Hk _ _ Hparent). exists parent, l, c. split; [done|]. split; [done|]. simpl. lia.
    + exists t', l', c'. split; [done|]. split; [done|]. simpl. lia.
Qed.

(** The lineage above a thread does not contain the thread. *)
Lemma history_acyclic d t l c :
  keyed d → threads d !! Thread.id t = Some t → history d t l c → NoDup c.
Proof.
  intros Hk. induction c as [|x c IH] in t, l |- *; intros Ht Hh; [by constructor|].
  inversion Hh as [|? pid parent lp cp pre Hp Hparent ? ? Hl Hpre]; subst; [apply NoDup_singleton|].
  assert (threads d !! Thread.id parent = Some parent) as Hself by (by rewrite (Hk _ _ Hparent)).
  constructor; [|by eapply IH]. intros Hin.
  destruct (history_lineage _ _ _ _ _ Hk Hl Hin) as [Heq|(t' & l1 & c1 & Ht' & Hh1 & Hlen)].
  - assert (parent = t) as -> by congruence.
    destruct (history_unique _ _ _ _ _ _ Hh Hl) as [_ Hc]. apply (f_equal length) in Hc. simpl in Hc. lia.
  - assert (t' = t) as -> by congruence.
    destruct (history_unique _ _ _ _ _ _ Hh Hh1) as [_ Hc]. apply (f_equal length) in Hc. simpl in Hc. lia.
Qed.

(** ** The resolver *)

(** One level of the resolver. *)
Lemma effective_unfold fuel p t visited k :
  effective_from (S fuel) p t visited k =
  if bool_decide (Thread.id t ∈ visited) || (max_lineage_depth <=? size visited) then Raise lineage_invalid k
  else match Thread.parent_thread_id t with
  | None => Ok (local_turns (Principal.organization_id p) (Thread.id t) (directory k)) k
  | Some pid =>
      match require_thread_access p pid false k with
      | Raise e k' => Raise e k'
      | Ok parent k' =>
          match effective_from fuel p parent ({[Thread.id t]} ∪ visited) k' with
          | Raise e k'' => Raise e k''
          | Ok l k'' =>
              match inherited t l with
              | None => Raise fork_point_missing k''
              | Some pre =>
                  Ok (pre ++ local_turns (Principal.organization_id p) (Thread.id t) (directory k''))%list k''
              end
          end
      end
  end.
Proof.
  cbn [effective_from]. unfold mbind, M_bind. destruct (_ || _); [done|]. cbn [raise_if].
  destruct (Thread.parent_thread_id t) as [pid|]; [|done]. unfold mret, M_ret. destruct (require_thread_access _ _ _ _); [|done].
  destruct (effective_from _ _ _ _ _); [|done]. by destruct (inherited _ _).
Qed.

Lemma effective_full fuel p t visited k :
  max_lineage_depth ≤ size visited → effective_from fuel p t visited k = Raise lineage_invalid k.
Proof.
  intros Hsz%Nat.leb_le. destruct fuel; cbn [effective_from]; unfold mbind, M_bind; by rewrite Hsz, orb_true_r.
Qed.

(** Fuel beyond the room left in the lineage changes nothing. *)
Lemma effective_fuel fuel p t (visited : gset uuid) k :
  max_lineage_depth ≤ size visited + fuel →
  effective_from fuel p t visited k = effective_from (S fuel) p t visited k.
Proof.
  revert t visited k. induction fuel as [|fuel IH]; intros t visited k Hroom.
  - by rewrite !effective_full by lia.
  - rewrite !(effective_unfold _ _ t). destruct (bool_decide (Thread.id t ∈ visited)) eqn:Hin; [done|].
    destruct (_ || _); [done|]. destruct (Thread.parent_thread_id t) as [pid|]; [|done].
    destruct (require_thread_access p pid false k) as [parent k'|]; [|done].
    apply bool_decide_eq_false in Hin.
    rewrite <-IH; [done|]. rewrite size_union by set_solver. rewrite size_singleton. lia.
Qed.

(** A thread and its workspace, which the principal can read. *)
Definition readable (d : Directory) (p : Principal) (t : Thread) : Prop :=
  Thread.organization_id t = Principal.organization_id p ∧
  ∃ w, workspaces d !! Thread.workspace_id t = Some w ∧ accessible d p false w = true.

Lemma read_access d p i t k :
  directory k = d → keyed d → threads d !! i = Some t → readable d p t →
  require_thread_access p i false k = Ok t k.
Proof.
  intros <- Hk Ht (Ho & w & Hw & Ha). unfold require_thread_access, mbind, M_bind, gets.
  assert (row_by Thread.id (threads (directory k)) i = Some t) as -> by (apply row_by_Some; split; [done|by eapply Hk]).
  simpl. rewrite Hw. simpl. rewrite Ho, bool_decide_true by done. by rewrite Ha.
Qed.

Lemma effective_spec fuel p t l c (visited : gset uuid) k :
  keyed (directory k) → threads (directory k) !! Thread.id t = Some t →
  history (directory k) t l c → readable (directory k) p t → (∀ x, x ∈ c → x ∉ visited) →
  size visited + fuel = max_lineage_depth →
  effective_from fuel p t visited k =
    if size visited + length c <=? max_lineage_depth then Ok l k else Raise lineage_invalid k.
Proof.
  intros Hk Ht Hh. revert fuel visited Ht.
  induction Hh as [t Hp|t pid parent l c pre Hp Hparent Ho Hw Hh IH Hpre]; intros fuel visited Ht Hr Hv Hf.
  all: destruct fuel as [|fuel];
    [rewrite effective_full by lia; rewrite (proj2 (Nat.leb_gt _ _)) by (simpl; lia); done|].
  all: rewrite effective_unfold, bool_decide_false by (apply Hv; left).
  all: rewrite (proj2 (Nat.leb_gt max_lineage_depth (size visited))) by lia; cbn [orb]; rewrite Hp.
  - rewrite (proj2 (Nat.leb_le _ _)) by (simpl; lia). unfold own_turns. by rewrite (proj1 Hr).
  - assert (NoDup (Thread.id t :: c)) as [Hnin _]%NoDup_cons.
    { eapply (history_acyclic _ t); [done|done|by eapply history_fork]. }
    assert (threads (directory k) !! Thread.id parent = Some parent) as Hself by (by rewrite (Hk _ _ Hparent)).
    assert (readable (directory k) p parent) as Hrp by (unfold readable in *; by rewrite Ho, Hw).
    rewrite (read_access _ p pid parent k eq_refl Hk Hparent Hrp).
    assert (size ({[Thread.id t]} ∪ visited) = S (size visited)) as Hsz.
    { rewrite size_union, size_singleton; [done|]. intros x ->%elem_of_singleton. apply Hv. left. }
    rewrite IH; [|done|done| |by rewrite Hsz; lia].
    + rewrite Hsz. replace (S (size visited) + length c) with (size visited + length (Thread.id t :: c)) by (simpl; lia).
      destruct (_ <=? _); [|done]. rewrite Hpre. unfold own_turns. by rewrite (proj1 Hr).
    + intros x Hx. rewrite not_elem_of_union, not_elem_of_singleton. split; [by intros ->|apply Hv; by right].
Qed.

Lemma thread_access_ok p i write k t k' :
  require_thread_access p i write k = Ok t k' →
  k' = k ∧ threads (directory k) !! i = Some t ∧ Thread.id t = i ∧
  Thread.organization_id t = Principal.organization_id p ∧
  ∃ w, workspaces (directory k) !! Thread.workspace_id t = Some w ∧ accessible (directory k) p write w = true.
Proof.
  unfold require_thread_access, mbind, M_bind, gets. cbn.
  destruct (row_by Thread.id _ i) as [t'|] eqn:Hrow; [|done]. apply row_by_Some in Hrow as [Ht Hi]. cbn.
  destruct (workspaces (directory k) !! Thread.workspace_id t') as [w|] eqn:Hw; [|done]. cbn.
  case_bool_decide as Ho; [|done]. destruct (accessible _ _ _ _) eqn:Ha; [|done]. intros [= <- <-]. eauto 10.
Qed.

(** What the resolver returns is the history. *)
Lemma effective_sound fuel p t l c (visited : gset uuid) k l' k' :
  history (directory k) t l c → Thread.organization_id t = Principal.organization_id p →
  effective_from fuel p t visited k = Ok l' k' → l' = l ∧ k' = k.
Proof.
  intros Hh. revert fuel visited l' k'.
  induction Hh as [t Hp|t pid parent l c pre Hp Hparent Ho Hw Hh IH Hpre]; intros fuel visited l' k' Horg.
  all: destruct fuel as [|fuel]; [cbn [effective_from]; unfold mbind, M_bind; by destruct (_ || _)|].
  all: rewrite effective_unfold, Hp; destruct (_ || _); [done|].
  - rewrite <-Horg. by intros [= <- <-].
  - destruct (require_thread_access p pid false k) as [parent' k1|] eqn:Hacc; [|done].
    apply thread_access_ok in Hacc as (-> & Hparent' & _ & Horg' & _).
    assert (parent' = parent) as -> by congruence.
    destruct (effective_from fuel p parent _ k) as [lp k2|] eqn:Hlp; [|done].
    destruct (IH _ _ _ _ Horg' Hlp) as [-> ->]. rewrite Hpre. intros [= <- <-]. unfold own_turns. by rewrite Horg.
Qed.

#[export] Instance effective_pure p t : Pure (effective_turns p t).
Proof.
  unfold effective_turns. generalize max_lineage_depth at 1 as fuel. intros fuel. generalize (∅ : gset uuid).
  revert t. induction fuel as [|fuel IH]; intros t visited; cbn [effective_from].
  - apply bind_pure; [apply _|]. intros _. apply _.
  - apply bind_pure; [apply _|]. intros _. apply bind_pure; [|intros ?; apply _].
    destruct (Thread.parent_thread_id t) as [pid|]; [|apply _]. apply bind_pure; [apply _|]. intros parent.
    apply bind_pure; [apply IH|]. intros lp. destruct (inherited t lp); apply _.
Qed.
