(* ===== verification/ConversationContext.v ===== *)
(** * The conversation a Run is given ([application/conversation_context.py])

    A new Run is pinned to a bounded excerpt of the thread's history: of the last turns, the
    newest first, as many characters as the budget allows, each with the latest answer that
    a completed Run left for it and that may still be shown. *)

From S2P Require Import Prelude PyText PyVal Redaction Enums Models Kernel Domain.
From S2P Require Import Identity WorkspaceState.

Module ConversationTurn.
Record ConversationTurn : Type := Make {
  turn : Turn;
  source_run_id : option uuid;
  source_artifact_id : option uuid;
  user_content : string;
  assistant_content : option string;
  classification : Classification
}.
End ConversationTurn.
Abbreviation ConversationTurn := ConversationTurn.ConversationTurn.

(** ** Candidates *)

(** [ORDER BY completed_at DESC, created_at DESC, id DESC] and [ORDER BY created_at DESC, id DESC]. *)
Definition newest_run (x y : Run) : bool :=
  let cx := default 0%Z (Run.completed_at x) in let cy := default 0%Z (Run.completed_at y) in
  (cy <? cx)%Z || ((cy =? cx)%Z &&
    ((Run.created_at y <? Run.created_at x)%Z ||
     ((Run.created_at y =? Run.created_at x)%Z && (Run.id y <=? Run.id x)%N))).
Definition newest_artifact (x y : Artifact) : bool :=
  (Artifact.created_at y <? Artifact.created_at x)%Z ||
  ((Artifact.created_at y =? Artifact.created_at x)%Z && (Artifact.id y <=? Artifact.id x)%N).

(** The Runs that completed for those turns by then. *)
Definition completed_runs (org : uuid) (turn_ids : list uuid) (captured_at : Z) (k : Kernel) : list Run :=
  order_by newest_run (select (λ r,
    bool_decide (Run.organization_id r = org) && bool_decide (Run.turn_id r ∈ turn_ids) &&
    bool_decide (Run.status r = RunStatus.COMPLETED) &&
    match Run.completed_at r with Some t => (t <=? captured_at)%Z | None => false end) (runs k)).

Definition answer_artifacts (org : uuid) (run_ids : list uuid) (captured_at : Z) (s : WorkspaceDb) :
    list Artifact :=
  order_by newest_artifact (select (λ a,
    bool_decide (Artifact.organization_id a = org) &&
    match Artifact.run_id a with Some r => bool_decide (r ∈ run_ids) | None => false end &&
    bool_decide (Artifact.kind a = ArtifactKind.TEXT) && bool_decide (Artifact.media_type a = "text/markdown") &&
    (Artifact.created_at a <=? captured_at)%Z) (artifacts s)).

(** The answer in an artifact: a text that is not blank, redacted. *)
Definition answer_of (a : Artifact) : option string :=
  match Artifact.inline_content a with
  | VDict content =>
      match dget "markdown" content with
      | Some (VStr markdown) => if truthy (strip markdown) then Some (redact_text markdown) else None
      | _ => None
      end
  | _ => None
  end.

(** The newest artifact of each Run that has an answer. *)
Definition answer_by_run (l : list Artifact) : gmap uuid (Artifact * string) :=
  fold_left (λ answers a,
    match Artifact.run_id a, answer_of a with
    | Some r, Some answer => match answers !! r with
                             | Some _ => answers
                             | None => <[r := (a, answer)]> answers
                             end
    | _, _ => answers
    end) l ∅.

Definition _highest_classification (workspace : Classification) (artifact : option Classification) :
    Classification :=
  match artifact with
  | Some c => if (_RANK workspace <? _RANK c)%nat then c else workspace
  | None => workspace
  end.

Definition candidate (runs : list Run) (answers : gmap uuid (Artifact * string))
    (workspace : Classification) (turn : Turn) : ConversationTurn :=
  let selected := head (List.filter (λ r, bool_decide (Run.turn_id r = Turn.id turn) &&
                                          bool_decide (is_Some (answers !! Run.id r))) runs) in
  let answer := r ← selected; answers !! Run.id r in
  ConversationTurn.Make turn (Run.id <$> selected) ((λ a, Artifact.id a.1) <$> answer)
    (Turn.sanitized_input turn) (snd <$> answer)
    (_highest_classification workspace ((λ a, Artifact.classification a.1) <$> answer)).

Definition _candidates (org : uuid) (turns : list Turn) (captured_at : Z) (workspace : Classification)
    (s : WorkspaceDb) : list ConversationTurn :=
  let runs := completed_runs org (Turn.id <$> turns) captured_at (base s) in
  let found := match runs with [] => [] | _ => answer_artifacts org (Run.id <$> runs) captured_at s end in
  candidate runs (answer_by_run found) workspace <$> turns.

(** ** The budget *)

Definition count (s : string) : nat := Z.to_nat (py_len s).

Section Bounded.
Context `{RunSettings}.

Definition clip (remaining : nat) (content : string) : string :=
  py_take remaining (py_take conversation_context_max_chars_per_message content).

(** [if item.assistant_content and remaining > 0] *)
Definition clip_answer (remaining : nat) (content : option string) : option string :=
  match content with
  | Some c => if truthy c && (0 <? remaining)%nat then Some (clip remaining c) else None
  | None => None
  end.

Definition opt_count (o : option string) : nat := match o with Some c => count c | None => 0 end.
Definition opt_truthy (o : option string) : bool := match o with Some c => truthy c | None => false end.

(** The loop, over the candidates from the newest on. *)
Fixpoint take_budget (remaining : nat) (l : list ConversationTurn) : list ConversationTurn :=
  match l with
  | [] => []
  | item :: l' =>
      if (remaining =? 0)%nat then [] else
      let user := clip remaining (ConversationTurn.user_content item) in
      let left := (remaining - count user)%nat in
      let assistant := clip_answer left (ConversationTurn.assistant_content item) in
      let rest := take_budget (left - opt_count assistant)%nat l' in
      if negb (truthy user) && negb (opt_truthy assistant) then rest
      else (item <| ConversationTurn.user_content := user |>
                 <| ConversationTurn.assistant_content := assistant |>) :: rest
  end.

(** [l[-n:]], which is all of [l] when [n] is 0. *)
Definition last_items {A} (n : nat) (l : list A) : list A :=
  if (n =? 0)%nat then l else drop (length l - n) l.

Definition _bounded (candidates : list ConversationTurn) : list ConversationTurn :=
  reverse (take_budget conversation_context_max_chars
    (reverse (last_items conversation_context_max_turns candidates))).
End Bounded.

(** ** Snapshots *)

Definition optional_str (o : option string) : val := match o with Some s => VStr s | None => VNone end.

Definition _fingerprint (item : ConversationTurn) (ordinal : Z) : string :=
  let turn := ConversationTurn.turn item in
  sha256 (json_dumps true (VDict
    [("ordinal", VInt ordinal);
     ("source_thread_id", VStr (uuid_str (Turn.thread_id turn)));
     ("source_turn_id", VStr (uuid_str (Turn.id turn)));
     ("source_run_id", optional_str (uuid_str <$> ConversationTurn.source_run_id item));
     ("source_artifact_id", optional_str (uuid_str <$> ConversationTurn.source_artifact_id item));
     ("source_principal_id", VStr (uuid_str (Turn.created_by turn)));
     ("user_content", VStr (ConversationTurn.user_content item));
     ("assistant_content", optional_str (ConversationTurn.assistant_content item));
     ("classification", VStr (value_of (ConversationTurn.classification item)))])).

Definition snapshot_of (id org run_id : uuid) (captured_at ordinal : Z) (item : ConversationTurn) :
    RunConversationSnapshot :=
  let turn := ConversationTurn.turn item in
  RunConversationSnapshot.Make id org run_id (Turn.thread_id turn) (Turn.id turn)
    (ConversationTurn.source_run_id item) (ConversationTurn.source_artifact_id item) (Turn.created_by turn)
    ordinal (ConversationTurn.user_content item) (ConversationTurn.assistant_content item)
    (_fingerprint item ordinal) (ConversationTurn.classification item) captured_at.

Section Capture.
Context `{Environment, RunSettings, PublicationGuard}.

(** The items whose answers may still be shown to the principal. *)
Fixpoint publishable (p : Principal) (l : list ConversationTurn) : Py Kernel (list ConversationTurn) :=
  match l with
  | [] => mret []
  | item :: l' =>
      shown ← match ConversationTurn.source_run_id item with
              | Some run_id => check_publication p run_id "conversation_capture" None true
              | None => mret true
              end;
      rest ← publishable p l';
      mret (if (shown : bool) then item :: rest else rest)
  end.

(** [enumerate(selected, start=ordinal)], added and flushed. *)
Fixpoint pin (org run_id : uuid) (captured_at ordinal : Z) (l : list ConversationTurn) :
    Py WorkspaceDb (list RunConversationSnapshot) :=
  match l with
  | [] => mret []
  | item :: l' =>
      id ← in_kernel new_id;
      let row := snapshot_of id org run_id captured_at ordinal item in
      insert_snapshot row;;
      rest ← pin org run_id captured_at (ordinal + 1) l';
      mret (row :: rest)
  end.

Definition capture (p : Principal) (run_id : uuid) (current_turn : Turn) (thread : Thread)
    (effective_prior_turns : list Turn) : Py WorkspaceDb (list RunConversationSnapshot) :=
  if (length effective_prior_turns =? 0)%nat then mret [] else
  d ← gets (directory ∘ base);
  match row_by Workspace.id (workspaces d) (Thread.workspace_id thread) with
  | None => raise (NotFoundError "Workspace" (uuid_str (Thread.workspace_id thread)))
  | Some workspace =>
      raise_if (negb (bool_decide (Workspace.organization_id workspace = Principal.organization_id p)))
        (NotFoundError "Workspace" (uuid_str (Thread.workspace_id thread)));;
      candidates ← gets (_candidates (Principal.organization_id p) effective_prior_turns
        (Turn.created_at current_turn) (Workspace.classification workspace));
      selected ← in_kernel (publishable p (_bounded candidates));
      pin (Principal.organization_id p) run_id (Turn.created_at current_turn) 1 selected
  end.
End Capture.
