(* ===== verification/WorkspaceService.v ===== *)
(** * Workspaces, threads, turns and Runs ([application/workspaces.py],
      [application/run_lifecycle.py], [registry/prompt_pins.py], [api/workspaces.py])

    A workspace has members and threads; a turn of a thread is numbered behind the history
    the thread continues, and starts a Run under the active general Agent, with prompts,
    model profile, workspace and conversation pinned.  Threads are archived, resumed and
    forked, Runs are cancelled and replayed.  Each endpoint that writes runs one operation
    in one transaction. *)

From S2P Require Import Prelude PyText PyVal Redaction Enums Models Kernel Domain.
From S2P Require Import CanonicalJson Events Identity AgentSpec TurnRequest.
From S2P Require Import WorkspaceState ConversationContext.

(** ** Requests *)

Module CreateWorkspaceRequest.
Record CreateWorkspaceRequest : Type := Make {
  name : string;
  description : string;
  classification : Classification;
  visibility : Visibility
}.
End CreateWorkspaceRequest.
Abbreviation CreateWorkspaceRequest := CreateWorkspaceRequest.CreateWorkspaceRequest.

Definition bounded (lo hi : Z) (s : string) : bool := (lo <=? py_len s)%Z && (py_len s <=? hi)%Z.

Definition valid_create_workspace (r : CreateWorkspaceRequest) : bool :=
  bounded 1 240 (CreateWorkspaceRequest.name r) && bounded 0 4000 (CreateWorkspaceRequest.description r).

(** [SetWorkspaceMemberRequest], [CreateThreadRequest] and [ForkThreadRequest]: the bounded
    fields. *)
Definition valid_permissions (permissions : list string) : bool :=
  (1 <=? length permissions)%nat && (length permissions <=? 2)%nat.
Definition valid_title (title : string) : bool := bounded 1 300 title.
Definition valid_fork_title (title : option string) : bool :=
  match title with Some s => bounded 1 300 s | None => true end.

(** ** Assignments *)

Definition with_archived (archived_at now : Z) (t : Thread) : Thread :=
  t <| Thread.status := ThreadStatus.ARCHIVED |> <| Thread.archived_at := Some archived_at |>
    <| Thread.updated_at := now |>.
Definition with_resumed (now : Z) (t : Thread) : Thread :=
  t <| Thread.status := ThreadStatus.ACTIVE |> <| Thread.archived_at := None |> <| Thread.updated_at := now |>.
Definition with_permissions (permissions : list string) (m : WorkspaceMember) : WorkspaceMember :=
  m <| WorkspaceMember.permissions := permissions |>
    <| WorkspaceMember.can_write := bool_decide ("write" ∈ permissions) |>.
Definition with_run_cancelled (now : Z) (r : Run) : Run :=
  r <| Run.cancellation_requested_at := Some now |> <| Run.status := RunStatus.CANCELLED |>
    <| Run.completed_at := Some now |> <| Run.lease_owner := None |> <| Run.lease_expires_at := None |>.
Definition with_step_cancelled (completed_at : Z) (st : RunStep) : RunStep :=
  st <| RunStep.status := StepStatus.CANCELLED |> <| RunStep.completed_at := Some completed_at |>.

(** ** Lookups *)

(** The membership of a user in a workspace. *)
Definition membership (workspace_id user_id : uuid) (m : WorkspaceMember) : bool :=
  bool_decide (WorkspaceMember.workspace_id m = workspace_id) && bool_decide (WorkspaceMember.user_id m = user_id).

(** A Run of a turn of the thread, all within the organization, that is not over. *)
Definition active_run_of (org thread_id : uuid) (k : Kernel) (r : Run) : bool :=
  match turns (directory k) !! Run.turn_id r with
  | Some turn =>
      bool_decide (Turn.thread_id turn = thread_id) && bool_decide (Turn.organization_id turn = org) &&
      bool_decide (Run.organization_id r = org) && negb (RunState.is_terminal (Run.status r))
  | None => false
  end.

(** The active version of the general Agent. *)
Definition is_active_agent (org : uuid) (s : WorkspaceDb) (v : AgentVersion) : bool :=
  match agent_definitions s !! AgentVersion.agent_id v with
  | Some d =>
      bool_decide (AgentDefinition.organization_id d = org) &&
      bool_decide (AgentDefinition.name d = "general-agent") &&
      bool_decide (AgentDefinition.status d = RegistryStatus.ACTIVE) &&
      bool_decide (AgentDefinition.active_version d = Some (AgentVersion.version v))
  | None => false
  end.

Definition is_enabled_profile (org : uuid) (name : string) (m : ModelProfile) : bool :=
  bool_decide (ModelProfile.organization_id m = org) && bool_decide (ModelProfile.name m = name) &&
  ModelProfile.enabled m.

(** ** Prompt pins *)

Definition pin_record (d : PromptDefinition) (v : PromptVersion) : dict :=
  [("definition_id", VStr (uuid_str (PromptDefinition.id d))); ("name", VStr (PromptDefinition.name d));
   ("prompt_id", VStr (uuid_str (PromptDefinition.id d))); ("version_id", VStr (uuid_str (PromptVersion.id v)));
   ("version", VInt (PromptVersion.version v)); ("checksum_sha256", VStr (PromptVersion.checksum_sha256 v))].

(** The requested version of a prompt, or its latest. *)
Definition prompt_version (org : uuid) (d : PromptDefinition) (number : option Z) (s : WorkspaceDb) :
    option PromptVersion :=
  let mine := select (λ v, bool_decide (PromptVersion.organization_id v = org) &&
                           bool_decide (PromptVersion.prompt_id v = PromptDefinition.id d) &&
                           match number with Some n => (PromptVersion.version v =? n)%Z | None => true end)
                     (prompt_versions s) in
  head (match number with
        | Some _ => mine
        | None => order_by (λ x y, (PromptVersion.version y <=? PromptVersion.version x)%Z) mine
        end).

Definition resolve_pin (org : uuid) (overrides : list (string * Z)) (name : string) : Py WorkspaceDb dict :=
  definition ← gets (λ s, head (select (λ d, bool_decide (PromptDefinition.organization_id d = org) &&
    bool_decide (PromptDefinition.name d = name)) (prompt_definitions s)));
  match definition with
  | None => raise (NotFoundError "Prompt" name)
  | Some d =>
      let number := snd <$> find (λ kv, bool_decide (kv.1 = name)) overrides in
      version ← gets (prompt_version org d number);
      match version with
      | None => raise (NotFoundError "Prompt version"
                  (match number with Some n => if (n =? 0)%Z then name else int_str n | None => name end))
      | Some v => mret (pin_record d v)
      end
  end.

Fixpoint resolve_pins (org : uuid) (overrides : list (string * Z)) (names : list string) :
    Py WorkspaceDb (list dict) :=
  match names with
  | [] => mret []
  | name :: rest =>
      pin ← resolve_pin org overrides name;
      pins ← resolve_pins org overrides rest;
      mret (pin :: pins)
  end.

Definition resolve_prompt_pins (org : uuid) (names : list string) (overrides : list (string * Z)) :
    Py WorkspaceDb (list dict) :=
  let unknown := order_by string_le (remove_dups (List.filter (λ name, negb (bool_decide (name ∈ names))) overrides.*1)) in
  raise_if (negb (length unknown =? 0)%nat)
    (ValidationError "registry_spec_invalid"
      "Prompt pins must name prompts declared by the Agent spec or the system policy"
      [("names", VList (map VStr unknown))]);;
  resolve_pins org overrides names.

(** [snapshot_workspace] ([model_gateway/workspace_context.py]) *)
Definition snapshot_workspace (w : Workspace) : dict :=
  let safe_description := redact_text (Workspace.description w) in
  [("workspace_id", VStr (uuid_str (Workspace.id w))); ("name", VStr (redact_text (Workspace.name w)));
   ("classification", VStr (value_of (Workspace.classification w)));
   ("visibility", VStr (value_of (Workspace.visibility w))); ("description", VStr safe_description);
   ("description_fingerprint", VStr (sha256 safe_description))].

(** [cancel_active_run_steps]: how many steps were still active. *)
Definition ACTIVE_STEP_STATUSES : list StepStatus :=
  [StepStatus.PENDING; StepStatus.RUNNING; StepStatus.WAITING_APPROVAL].
Definition active_step_of (org run_id : uuid) (st : RunStep) : bool :=
  bool_decide (RunStep.organization_id st = org) && bool_decide (RunStep.run_id st = run_id) &&
  bool_decide (RunStep.status st ∈ ACTIVE_STEP_STATUSES).

Definition cancel_active_run_steps (org run_id : uuid) (completed_at : Z) : Py WorkspaceDb Z :=
  count ← gets (λ s, Z.of_nat (length (select (active_step_of org run_id) (run_steps s))));
  modify (λ s, s <| run_steps :=
    (λ st, if active_step_of org run_id st then with_step_cancelled completed_at st else st) <$> run_steps s |>);;
  mret count.

Section Service.
Context `{Environment, EventContracts, JsonEncoder, PublicationGuard, RunSettings}.

(** ** Journal *)

Definition items (payload : list (string * obj)) : list (obj * obj) := map (λ '(k, v), (OStr k, v)) payload.

Definition journal (p : Principal) (actor : ActorType) (name aggregate : string) (id correlation : uuid)
    (payload : list (string * obj)) : EventDraft :=
  (event_draft name aggregate id (Principal.organization_id p) correlation actor (Some (Principal.id p)))
    <| EventDraft.payload := items payload |>.

(** An event of a Run, which is its own correlation. *)
Definition run_journal (org run_id : uuid) (actor : ActorType) (actor_id : option uuid) (name : string)
    (payload : list (string * obj)) : EventDraft :=
  (event_draft name "run" run_id org run_id actor actor_id)
    <| EventDraft.run_id := Some run_id |> <| EventDraft.payload := items payload |>.

Definition audit_entry (p : Principal) (actor : ActorType) (action resource : string) (id correlation : uuid)
    (outcome : string) (metadata : list (string * obj)) : AuditDraft :=
  (audit_draft (Principal.organization_id p) correlation actor (Some (Principal.id p)) action resource outcome)
    <| AuditDraft.resource_id := Some (uuid_str id) |> <| AuditDraft.metadata := metadata |>.

(** ** Workspaces *)

Definition create_workspace (p : Principal) (r : CreateWorkspaceRequest) : Py WorkspaceDb Workspace :=
  id ← in_kernel new_id;
  now ← in_kernel utc_now;
  let workspace := Workspace.Make id (Principal.organization_id p) (Principal.id p)
    (CreateWorkspaceRequest.classification r) (CreateWorkspaceRequest.visibility r) None
    (strip (CreateWorkspaceRequest.name r)) (strip (CreateWorkspaceRequest.description r)) now now in
  in_kernel (insert_workspace workspace);;
  correlation ← in_kernel new_id;
  in_kernel (append (journal p ActorType.USER "workspace.created" "workspace" id correlation
    [("name", OStr (Workspace.name workspace));
     ("classification", OEnum (value_of (Workspace.classification workspace)))]));;
  in_kernel (write (audit_entry p ActorType.USER "workspace.create" "workspace" id correlation "SUCCESS" []));;
  mret workspace.

Definition list_workspaces (p : Principal) (include_archived : bool) : Py WorkspaceDb (list Workspace) :=
  gets (λ s, let d := directory (base s) in
    take 200 (order_by (λ x y, (Workspace.updated_at y <=? Workspace.updated_at x)%Z)
      (select (λ w, accessible d p false w &&
        (include_archived || bool_decide (Workspace.archived_at w = None))) (workspaces d)))).

(** ** Members *)

Definition membership_denied : exn :=
  AuthorizationError "workspace_membership_denied" "Workspace membership changes are not permitted" [].

Definition add_member (p : Principal) (workspace_id user_id : uuid) (permissions : list string) :
    Py WorkspaceDb WorkspaceMember :=
  workspace ← in_kernel (require_workspace_access p workspace_id false);
  raise_if (negb (bool_decide (Workspace.owner_id workspace = Principal.id p)) && negb (can p "workspace.manage.all"))
    membership_denied;;
  let normalized := order_by string_le (remove_dups permissions) in
  raise_if ((length normalized =? 0)%nat || negb (forallb (λ x, bool_decide (x ∈ ["read"; "write"])) normalized))
    (ValidationError "workspace_permissions_invalid" "Workspace permissions must be read or write" []);;
  user ← gets (λ s, row_by User.id (users (directory (base s))) user_id);
  raise_if (negb match user with
                 | Some u => bool_decide (User.organization_id u = Principal.organization_id p) && User.active u
                 | None => false
                 end) (NotFoundError "User" (uuid_str user_id));;
  let mine := membership (Workspace.id workspace) user_id in
  existing ← gets (λ s, head (List.filter mine (workspace_members (directory (base s)))));
  member ← match existing with
           | None =>
               now ← in_kernel utc_now;
               let member := WorkspaceMember.Make (Workspace.id workspace) user_id (Principal.organization_id p)
                 (bool_decide ("write" ∈ normalized)) normalized (Principal.id p) now in
               in_kernel (on_directory (λ d, put_members (workspace_members d ++ [member])%list d));;
               mret member
           | Some member =>
               in_kernel (on_directory (λ d, put_members
                 (map (λ m, if mine m then with_permissions normalized m else m) (workspace_members d)) d));;
               mret (with_permissions normalized member)
           end;
  correlation ← in_kernel new_id;
  in_kernel (append (journal p ActorType.USER "workspace.member_changed" "workspace" (Workspace.id workspace)
    correlation [("user_id", OStr (uuid_str user_id)); ("permissions", OSeq (map OStr normalized))]));;
  mret member.

Definition list_members (p : Principal) (workspace_id : uuid) : Py WorkspaceDb (list WorkspaceMember) :=
  in_kernel (require_workspace_access p workspace_id false);;
  gets (λ s, order_by (λ x y, (WorkspaceMember.created_at x <=? WorkspaceMember.created_at y)%Z)
    (List.filter (λ m, bool_decide (WorkspaceMember.workspace_id m = workspace_id) &&
                       bool_decide (WorkspaceMember.organization_id m = Principal.organization_id p))
      (workspace_members (directory (base s))))).

Definition remove_member (p : Principal) (workspace_id user_id : uuid) : Py WorkspaceDb unit :=
  workspace ← in_kernel (require_workspace_access p workspace_id false);
  raise_if (negb (bool_decide (Workspace.owner_id workspace = Principal.id p)) && negb (can p "workspace.manage.all"))
    membership_denied;;
  let mine m := membership (Workspace.id workspace) user_id m &&
                bool_decide (WorkspaceMember.organization_id m = Principal.organization_id p) in
  existing ← gets (λ s, existsb mine (workspace_members (directory (base s))));
  raise_if (negb existing) (NotFoundError "Workspace member" (uuid_str user_id));;
  in_kernel (on_directory (λ d, put_members (List.filter (λ m, negb (mine m)) (workspace_members d)) d));;
  correlation ← in_kernel new_id;
  in_kernel (append (journal p ActorType.USER "workspace.member_removed" "workspace" (Workspace.id workspace)
    correlation [("user_id", OStr (uuid_str user_id))]));;
  mret ().

(** ** Threads *)

Definition new_thread (id : uuid) (p : Principal) (workspace_id : uuid) (title : string)
    (parent forked_from : option uuid) (now : Z) : Thread :=
  Thread.Make id (Principal.organization_id p) workspace_id ThreadStatus.ACTIVE (Principal.id p) title
    parent forked_from None now now.

Definition create_thread (p : Principal) (workspace_id : uuid) (title : string) (actor : ActorType) :
    Py WorkspaceDb Thread :=
  in_kernel (require_workspace_access p workspace_id true);;
  id ← in_kernel new_id;
  now ← in_kernel utc_now;
  let thread := new_thread id p workspace_id (strip title) None None now in
  in_kernel (insert_thread thread);;
  correlation ← in_kernel new_id;
  in_kernel (append (journal p actor "thread.created" "thread" id correlation
    [("workspace_id", OStr (uuid_str workspace_id)); ("title", OStr (Thread.title thread))]));;
  in_kernel (write (audit_entry p actor "thread.create" "thread" id correlation "SUCCESS"
    [("workspace_id", OStr (uuid_str workspace_id))]));;
  mret thread.

Definition list_threads (p : Principal) (workspace_id : uuid) (include_archived : bool) :
    Py WorkspaceDb (list Thread) :=
  in_kernel (require_workspace_access p workspace_id false);;
  gets (λ s, take 500 (order_by (λ x y, (Thread.updated_at y <=? Thread.updated_at x)%Z)
    (select (λ t, bool_decide (Thread.organization_id t = Principal.organization_id p) &&
                  bool_decide (Thread.workspace_id t = workspace_id) &&
                  (include_archived || bool_decide (Thread.status t = ThreadStatus.ACTIVE)))
      (threads (directory (base s)))))).

Definition archive_thread (p : Principal) (thread_id : uuid) : Py WorkspaceDb Thread :=
  thread ← in_kernel (require_thread_access p thread_id true);
  if bool_decide (Thread.status thread = ThreadStatus.ARCHIVED) then mret thread else
  active ← gets (λ s, select (active_run_of (Principal.organization_id p) (Thread.id thread) (base s)) (runs (base s)));
  raise_if (negb (length active =? 0)%nat)
    (ConflictError "thread_has_active_run"
      "A thread with an active run must finish or be cancelled before archiving" []);;
  archived_at ← in_kernel utc_now;
  now ← in_kernel utc_now;
  in_kernel (on_directory (update_thread (Thread.id thread) (with_archived archived_at now)));;
  correlation ← in_kernel new_id;
  in_kernel (append (journal p ActorType.USER "thread.archived" "thread" (Thread.id thread) correlation []));;
  in_kernel (write (audit_entry p ActorType.USER "thread.archive" "thread" (Thread.id thread) correlation "SUCCESS" []));;
  mret (with_archived archived_at now thread).

Definition resume_thread (p : Principal) (thread_id : uuid) : Py WorkspaceDb Thread :=
  thread ← in_kernel (require_thread_access p thread_id true);
  if bool_decide (Thread.status thread = ThreadStatus.ACTIVE) then mret thread else
  now ← in_kernel utc_now;
  in_kernel (on_directory (update_thread (Thread.id thread) (with_resumed now)));;
  correlation ← in_kernel new_id;
  in_kernel (append (journal p ActorType.USER "thread.resumed" "thread" (Thread.id thread) correlation []));;
  in_kernel (write (audit_entry p ActorType.USER "thread.resume" "thread" (Thread.id thread) correlation "SUCCESS" []));;
  mret (with_resumed now thread).

Definition last_turn_id (l : list Turn) : option uuid := Turn.id <$> last l.

Definition fork_origin (from_turn_id : option uuid) (parent_turns : list Turn) : option uuid :=
  match from_turn_id with Some id => Some id | None => last_turn_id parent_turns end.

(** [title or f"{parent.title} (fork)"] *)
Definition fork_title (title : option string) (parent : Thread) : string :=
  strip (match title with
         | Some t => if truthy t then t else Thread.title parent +:+ " (fork)"
         | None => Thread.title parent +:+ " (fork)"
         end).

Definition optional_id (o : option uuid) : obj := match o with Some u => OStr (uuid_str u) | None => ONone end.

Definition archive_parent (p : Principal) (parent : Thread) (fork_id correlation : uuid) : Py WorkspaceDb unit :=
  if negb (bool_decide (Thread.status parent = ThreadStatus.ACTIVE)) then mret () else
  archived_at ← in_kernel utc_now;
  now ← in_kernel utc_now;
  in_kernel (on_directory (update_thread (Thread.id parent) (with_archived archived_at now)));;
  in_kernel (append (journal p ActorType.USER "thread.archived" "thread" (Thread.id parent) correlation []));;
  in_kernel (write (audit_entry p ActorType.USER "thread.archive" "thread" (Thread.id parent) correlation "SUCCESS"
    [("reason", OStr "fork"); ("fork_thread_id", OStr (uuid_str fork_id))]));;
  mret ().

Definition fork_thread (p : Principal) (thread_id : uuid) (from_turn_id : option uuid) (title : option string) :
    Py WorkspaceDb Thread :=
  parent ← in_kernel (require_thread_access p thread_id true);
  parent_turns ← in_kernel (effective_turns p parent);
  let origin := fork_origin from_turn_id parent_turns in
  match origin with
  | Some turn_id =>
      raise_if (negb (existsb (λ turn, bool_decide (Turn.id turn = turn_id)) parent_turns))
        (NotFoundError "Turn" (uuid_str turn_id))
  | None => mret ()
  end;;
  id ← in_kernel new_id;
  now ← in_kernel utc_now;
  let thread := new_thread id p (Thread.workspace_id parent) (fork_title title parent)
    (Some (Thread.id parent)) origin now in
  in_kernel (insert_thread thread);;
  correlation ← in_kernel new_id;
  archive_parent p parent id correlation;;
  let details := [("parent_thread_id", OStr (uuid_str (Thread.id parent))); ("forked_from_turn_id", optional_id origin)] in
  in_kernel (append (journal p ActorType.USER "thread.forked" "thread" id correlation details));;
  in_kernel (write (audit_entry p ActorType.USER "thread.fork" "thread" id correlation "SUCCESS" details));;
  mret thread.

Definition list_thread_events (p : Principal) (thread_id : uuid) (after_sequence : Z) (limit : nat) :
    Py WorkspaceDb (list Event) :=
  in_kernel (require_thread_access p thread_id false);;
  gets (λ s, list_aggregate (Principal.organization_id p) "thread" thread_id after_sequence limit (base s)).

(** ** Turns *)

(** [_validate_attachments]: one reference, normalized. *)
Definition attachment_ref (a : Artifact) : dict :=
  [("type", VStr "artifact"); ("artifact_id", VStr (uuid_str (Artifact.id a)));
   ("title", VStr (Artifact.title a)); ("media_type", VStr (Artifact.media_type a));
   ("classification", VStr (value_of (Artifact.classification a)))].

Definition validated_attachment (p : Principal) (workspace_id : uuid) (reference : dict) : Py WorkspaceDb dict :=
  raise_if (negb (has_type "artifact" reference))
    (ValidationError "attachment_type_unsupported" "Turn attachments must reference a workspace artifact" []);;
  match parse_uuid (py_str (dget_or "artifact_id" (VStr "") reference)) with
  | None => raise (ValidationError "attachment_reference_invalid" "Attachment artifact ID is invalid" [])
  | Some artifact_id =>
      row ← gets (λ s, row_by Artifact.id (artifacts s) artifact_id);
      match row with
      | None => raise (NotFoundError "Artifact" (uuid_str artifact_id))
      | Some a =>
          raise_if (negb (bool_decide (Artifact.organization_id a = Principal.organization_id p) &&
                          bool_decide (Artifact.workspace_id a = workspace_id)))
            (NotFoundError "Artifact" (uuid_str artifact_id));;
          match Artifact.run_id a with
          | Some run_id => in_kernel (require_run_content p run_id false None);; mret ()
          | None => mret ()
          end;;
          mret (attachment_ref a)
      end
  end.

Fixpoint _validate_attachments (p : Principal) (workspace_id : uuid) (references : list dict) :
    Py WorkspaceDb (list dict) :=
  match references with
  | [] => mret []
  | reference :: rest =>
      normalized ← validated_attachment p workspace_id reference;
      others ← _validate_attachments p workspace_id rest;
      mret (normalized :: others)
  end.

Definition next_ordinal (l : list Turn) : Z :=
  (match last l with Some turn => Turn.ordinal turn | None => 0 end + 1)%Z.

(** What a Run is created under: the Agent version with its limits, the model profile, the
    prompts and the workspace. *)
Record RunPlan : Type := MkRunPlan {
  plan_agent : AgentVersion;
  plan_spec : AgentSpec;
  plan_profile : ModelProfile;
  plan_prompts : list dict;
  plan_workspace : Workspace
}.

Definition run_plan (p : Principal) (thread : Thread) (model_profile : option string) : Py WorkspaceDb RunPlan :=
  let org := Principal.organization_id p in
  agent ← gets (λ s, head (select (is_active_agent org s) (agent_versions s)));
  match agent with
  | None => raise (NotFoundError "Active GeneralAgent" "general-agent")
  | Some version =>
      spec ← from_dict (AgentVersion.spec version);
      let profile_name := match model_profile with
                          | Some m => if truthy m then m else AgentSpec.model_profile spec
                          | None => AgentSpec.model_profile spec
                          end in
      profile ← gets (λ s, head (select (is_enabled_profile org profile_name) (model_profiles s)));
      match profile with
      | None => raise (NotFoundError "Model profile" profile_name)
      | Some m =>
          pins ← resolve_prompt_pins org (names_for_agent_spec (AgentVersion.spec version)) [];
          row ← gets (λ s, row_by Workspace.id (workspaces (directory (base s))) (Thread.workspace_id thread));
          match row with
          | None => raise (NotFoundError "Workspace" (uuid_str (Thread.workspace_id thread)))
          | Some workspace =>
              raise_if (negb (bool_decide (Workspace.organization_id workspace = org)))
                (NotFoundError "Workspace" (uuid_str (Thread.workspace_id thread)));;
              mret (MkRunPlan version spec m pins workspace)
          end
      end
  end.

Definition turn_timeout (plan : RunPlan) : Z := Z.min run_timeout_seconds (AgentSpec.timeout_seconds (plan_spec plan)).

Definition new_turn (id : uuid) (p : Principal) (thread_id : uuid) (ordinal now : Z) (r : CreateTurnRequest)
    (attachments : list dict) : Turn :=
  let sanitized_input := redact_text (CreateTurnRequest.input r) in
  Turn.Make id (Principal.organization_id p) thread_id ordinal (Principal.id p) sanitized_input sanitized_input
    (CreateTurnRequest.context_refs r) attachments now.

Definition pending_run (id : uuid) (p : Principal) (turn_id : uuid) (plan : RunPlan) (now created_at : Z) : Run :=
  Run.Make id (Principal.organization_id p) turn_id RunStatus.PENDING
    (Some (AgentVersion.id (plan_agent plan))) (snapshot_workspace (plan_workspace plan)) [] None None
    (Some (now + turn_timeout plan * second)%Z) None None None None None 0
    (Some (ModelProfile.id (plan_profile plan))) (plan_prompts plan) [] []
    (Z.min run_max_steps (AgentSpec.max_steps (plan_spec plan))) (turn_timeout plan)
    run_max_input_tokens run_max_output_tokens run_max_cost_amount None created_at [] None.

Definition record_turn (p : Principal) (actor : ActorType) (turn : Turn) (run : Run) (pinned : nat) :
    Py Kernel unit :=
  append (run_journal (Principal.organization_id p) (Run.id run) actor (Some (Principal.id p)) "turn.created"
    [("turn_id", OStr (uuid_str (Turn.id turn))); ("thread_id", OStr (uuid_str (Turn.thread_id turn)));
     ("ordinal", OInt (Turn.ordinal turn)); ("input", OStr (Turn.sanitized_input turn))]);;
  append (run_journal (Principal.organization_id p) (Run.id run) ActorType.SYSTEM None "run.created"
    [("turn_id", OStr (uuid_str (Turn.id turn))); ("status", OEnum (value_of (Run.status run)));
     ("conversation_snapshot_count", OInt (Z.of_nat pinned))]);;
  mret ().

Definition create_turn (p : Principal) (thread_id : uuid) (r : CreateTurnRequest) (actor : ActorType) :
    Py WorkspaceDb (Turn * Run) :=
  thread ← in_kernel (require_thread_access p thread_id true);
  raise_if (negb (bool_decide (Thread.status thread = ThreadStatus.ACTIVE)))
    (ConflictError "thread_archived" "An archived thread must be resumed first" []);;
  turns ← in_kernel (effective_turns p thread);
  now ← in_kernel utc_now;
  plan ← run_plan p thread (CreateTurnRequest.model_profile r);
  attachments ← _validate_attachments p (Thread.workspace_id thread) (CreateTurnRequest.attachment_refs r);
  turn_id ← in_kernel new_id;
  let turn := new_turn turn_id p (Thread.id thread) (next_ordinal turns) now r attachments in
  in_kernel (insert_turn turn);;
  run_id ← in_kernel new_id;
  created_at ← in_kernel utc_now;
  let run := pending_run run_id p turn_id plan now created_at in
  in_kernel (insert_run run);;
  pinned ← capture p run_id turn thread turns;
  in_kernel (record_turn p actor turn run (length pinned));;
  mret (turn, run).

Definition list_turns (p : Principal) (thread_id : uuid) : Py WorkspaceDb (list Turn) :=
  thread ← in_kernel (require_thread_access p thread_id false);
  in_kernel (effective_turns p thread).

Definition list_thread_runs (p : Principal) (thread_id : uuid) : Py WorkspaceDb (list Run) :=
  thread ← in_kernel (require_thread_access p thread_id false);
  turns ← in_kernel (effective_turns p thread);
  gets (λ s,
    let found := order_by (λ x y, (Run.created_at x <=? Run.created_at y)%Z)
      (select (λ r, bool_decide (Run.organization_id r = Principal.organization_id p) &&
                    bool_decide (Run.turn_id r ∈ Turn.id <$> turns)) (runs (base s))) in
    turns ≫= λ turn, List.filter (λ r, bool_decide (Run.turn_id r = Turn.id turn)) found).

(** ** Runs *)

Definition get_run (p : Principal) (run_id : uuid) : Py WorkspaceDb Run :=
  in_kernel (require_run_access p run_id false).

Definition cancel_run (p : Principal) (run_id : uuid) : Py WorkspaceDb Run :=
  run ← in_kernel (require_run_access p run_id true);
  if RunState.is_terminal (Run.status run) then mret run else
  now ← in_kernel utc_now;
  RunState.validate_run_transition (Run.status run) RunStatus.CANCELLED;;
  in_kernel (update_run (Run.id run) (with_run_cancelled now));;
  cancelled_steps ← cancel_active_run_steps (Principal.organization_id p) (Run.id run) now;
  let event := run_journal (Principal.organization_id p) (Run.id run) ActorType.USER (Some (Principal.id p)) in
  in_kernel (append (event "run.cancellation_requested" [("status", OEnum (value_of (Run.status run)))]));;
  in_kernel (append (event "run.cancelled" []));;
  in_kernel (write (audit_entry p ActorType.USER "run.cancel" "run" (Run.id run) (Run.id run) "SUCCESS"
    [("previous_status", OEnum (value_of (Run.status run))); ("cancelled_steps", OInt cancelled_steps)]));;
  mret (with_run_cancelled now run).

Definition replay_of (id : uuid) (p : Principal) (source : Run) (now created_at : Z) : Run :=
  Run.Make id (Principal.organization_id p) (Run.turn_id source) RunStatus.PENDING (Run.agent_version_id source)
    (Run.workspace_context source) [] None None (Some (now + Run.timeout_seconds source * second)%Z)
    None None None None None 0 (Run.model_profile_id source) (Run.prompt_pins source)
    (Run.context_budget source) (Run.conversation_compact source) (Run.max_steps source)
    (Run.timeout_seconds source) (Run.max_input_tokens source) (Run.max_output_tokens source)
    (Run.max_cost_amount source) (Some (Run.id source)) created_at [] None.

Definition replay_run (p : Principal) (run_id : uuid) : Py WorkspaceDb Run :=
  source ← in_kernel (require_run_content p run_id true None);
  raise_if (negb (RunState.is_terminal (Run.status source)))
    (ConflictError "run_not_replayable" "Only a terminal run has a stable replay snapshot"
      [("status", VStr (value_of (Run.status source)))]);;
  now ← in_kernel utc_now;
  id ← in_kernel new_id;
  created_at ← in_kernel utc_now;
  let replay := replay_of id p source now created_at in
  in_kernel (insert_run replay);;
  in_kernel (append (run_journal (Principal.organization_id p) id ActorType.USER (Some (Principal.id p))
    "run.replay_requested" [("source_run_id", OStr (uuid_str (Run.id source)))]));;
  in_kernel (write (audit_entry p ActorType.USER "run.replay.request" "run" id id "QUEUED"
    [("source_run_id", OStr (uuid_str (Run.id source)));
     ("source_status", OEnum (value_of (Run.status source)))]));;
  mret replay.

(** ** Endpoints *)

Definition validated (valid : bool) : Py WorkspaceDb unit :=
  raise_if (negb valid) (PyError "RequestValidationError").

Definition create_workspace_endpoint (p : Principal) (r : CreateWorkspaceRequest) : Py WorkspaceDb Workspace :=
  validated (valid_create_workspace r);; savepoint (create_workspace p r).

(** [_member_views] of one member: there is none when its user is not in the organization. *)
Definition set_workspace_member (p : Principal) (workspace_id user_id : uuid) (permissions : list string) :
    Py WorkspaceDb WorkspaceMember :=
  validated (valid_permissions permissions);;
  member ← savepoint (add_member p workspace_id user_id permissions);
  user ← gets (λ s, row_by User.id (users (directory (base s))) (WorkspaceMember.user_id member));
  match user with
  | Some u => raise_if (negb (bool_decide (User.organization_id u = Principal.organization_id p))) (PyError "IndexError")
  | None => raise (PyError "IndexError")
  end;;
  mret member.

Definition remove_workspace_member (p : Principal) (workspace_id user_id : uuid) : Py WorkspaceDb unit :=
  savepoint (remove_member p workspace_id user_id).

Definition create_thread_endpoint (p : Principal) (workspace_id : uuid) (title : string) : Py WorkspaceDb Thread :=
  validated (valid_title title);; savepoint (create_thread p workspace_id title ActorType.USER).

Definition archive_thread_endpoint (p : Principal) (thread_id : uuid) : Py WorkspaceDb Thread :=
  savepoint (archive_thread p thread_id).
Definition resume_thread_endpoint (p : Principal) (thread_id : uuid) : Py WorkspaceDb Thread :=
  savepoint (resume_thread p thread_id).
Definition fork_thread_endpoint (p : Principal) (thread_id : uuid) (from_turn_id : option uuid)
    (title : option string) : Py WorkspaceDb Thread :=
  validated (valid_fork_title title);; savepoint (fork_thread p thread_id from_turn_id title).

Definition create_turn_endpoint (p : Principal) (thread_id : uuid) (r : CreateTurnRequest) :
    Py WorkspaceDb (Turn * Run) :=
  match valid_turn r with
  | None => raise (PyError "RequestValidationError")
  | Some r' => savepoint (create_turn p thread_id r' ActorType.USER)
  end.

(** [public_run_view] ([api/run_projection.py]): whether the content may be shown, and the
    Run as it is shown, without its planning context otherwise. *)
Definition without_content (r : Run) : Run :=
  r <| Run.plan := [] |> <| Run.context_budget := [] |> <| Run.conversation_compact := [] |>
    <| Run.workspace_context := [] |> <| Run.prompt_pins := [] |> <| Run.error_message := None |>.

Definition public_run_view (p : Principal) (run : Run) : Py Kernel (bool * Run) :=
  available ← check_publication p (Run.id run) "run_metadata" None false;
  mret (available, if (available : bool) then run else without_content run).

Fixpoint public_run_views (p : Principal) (l : list Run) : Py Kernel (list (bool * Run)) :=
  match l with
  | [] => mret []
  | run :: rest =>
      view ← public_run_view p run;
      views ← public_run_views p rest;
      mret (view :: views)
  end.

Definition list_thread_runs_endpoint (p : Principal) (thread_id : uuid) : Py WorkspaceDb (list (bool * Run)) :=
  runs ← list_thread_runs p thread_id; in_kernel (public_run_views p runs).
Definition get_run_endpoint (p : Principal) (run_id : uuid) : Py WorkspaceDb (bool * Run) :=
  run ← get_run p run_id; in_kernel (public_run_view p run).
Definition cancel_run_endpoint (p : Principal) (run_id : uuid) : Py WorkspaceDb (bool * Run) :=
  savepoint (run ← cancel_run p run_id; in_kernel (public_run_view p run)).
Definition replay_run_endpoint (p : Principal) (run_id : uuid) : Py WorkspaceDb (bool * Run) :=
  savepoint (run ← replay_run p run_id; in_kernel (public_run_view p run)).
End Service.
