(* ===== verification/ConversationFacts.v ===== *)
(** * The budget of a conversation

    The excerpt that a Run is pinned to stays within the settings, is taken from the last
    turns in their order, and leaves nothing out while the budget lasts. *)

From S2P Require Import Prelude PyText PyVal Redaction Enums Models Kernel Domain.
From S2P Require Import Identity WorkspaceState ConversationContext.

#[local] Open Scope nat_scope.

(** ** Code points *)

Definition starts (l : list ascii) : nat := length (List.filter (λ c, negb (in_range 128 191 c)) l).

Lemma count_starts s : count s = starts (chars s).
Proof. unfold count, py_len. by rewrite Nat2Z.id. Qed.

Lemma chars_of l : chars (of_chars l) = l.
Proof. apply String.list_ascii_of_string_of_list_ascii. Qed.

Lemma take_points_starts k l : starts (take_points k l) = min k (starts l).
Proof.
  revert k. induction l as [|a l IH]; intros k; [unfold starts; simpl; lia|]. unfold starts in *. simpl.
  destruct (in_range 128 191 a) eqn:Ha; simpl; [rewrite Ha; apply IH|].
  destruct k as [|k]; simpl; [done|]. rewrite Ha. simpl. by rewrite IH.
Qed.

Lemma take_points_all k l : starts l ≤ k → take_points k l = l.
Proof.
  revert k. induction l as [|a l IH]; intros k; [done|]. unfold starts in *. simpl.
  destruct (in_range 128 191 a); simpl; [intros ?; by rewrite IH|].
  destruct k as [|k]; [lia|]. intros ?. by rewrite IH by lia.
Qed.

Lemma take_points_prefix k l : take_points k l `prefix_of` l.
Proof.
  revert k. induction l as [|a l IH]; intros k; [done|]. simpl.
  destruct (in_range 128 191 a); [by apply prefix_cons|]. destruct k; [apply prefix_nil|by apply prefix_cons].
Qed.

Lemma count_take k s : count (py_take k s) = min k (count s).
Proof. rewrite !count_starts. unfold py_take. by rewrite chars_of, take_points_starts. Qed.

Lemma take_all k s : count s ≤ k → py_take k s = s.
Proof.
  rewrite count_starts. unfold py_take. intros Hk. rewrite take_points_all by done.
  apply String.string_of_list_ascii_of_string.
Qed.

Section Budget.
Context `{RunSettings}.

Abbreviation user := ConversationTurn.user_content.
Abbreviation assistant := ConversationTurn.assistant_content.
Abbreviation max_message := conversation_context_max_chars_per_message.

(** The characters of an item, and of a conversation. *)
Definition size_of (item : ConversationTurn) : nat := count (user item) + opt_count (assistant item).
Definition total (l : list ConversationTurn) : nat := sum_list_with size_of l.

Definition blank (item : ConversationTurn) : bool := negb (truthy (user item)) && negb (opt_truthy (assistant item)).

(** An item cut to the limit of one message. *)
Definition clipped (item : ConversationTurn) : ConversationTurn :=
  item <| ConversationTurn.user_content := py_take max_message (user item) |>
       <| ConversationTurn.assistant_content :=
            match assistant item with
            | Some c => if truthy c then Some (py_take max_message c) else None
            | None => None
            end |>.

(** What may be kept of an item: its turn and sources, and the beginning of its texts. *)
Definition excerpt (item kept : ConversationTurn) : Prop :=
  kept = item <| ConversationTurn.user_content := user kept |> <| ConversationTurn.assistant_content := assistant kept |> ∧
  chars (user kept) `prefix_of` chars (user item) ∧ count (user kept) ≤ max_message ∧
  match assistant kept with
  | None => True
  | Some c => ∃ c', assistant item = Some c' ∧ chars c `prefix_of` chars c' ∧ count c ≤ max_message
  end.

Lemma clip_count r c : count (clip r c) ≤ r ∧ count (clip r c) ≤ max_message.
Proof. unfold clip. rewrite !count_take. lia. Qed.

Lemma clip_prefix r c : chars (clip r c) `prefix_of` chars c.
Proof.
  unfold clip, py_take. rewrite !chars_of. etransitivity; apply take_points_prefix.
Qed.

Lemma clip_answer_count r o : opt_count (clip_answer r o) ≤ r.
Proof. destruct o as [c|]; simpl; [|lia]. destruct (_ && _); simpl; [apply clip_count|lia]. Qed.

Lemma clip_excerpt r r' item :
  excerpt item (item <| ConversationTurn.user_content := clip r (user item) |>
                     <| ConversationTurn.assistant_content := clip_answer r' (assistant item) |>).
Proof.
  unfold excerpt. rec_simpl. split; [done|]. split; [apply clip_prefix|]. split; [apply clip_count|].
  destruct (ConversationTurn.assistant_content item) as [c|]; simpl; [|done]. destruct (_ && _); [|done].
  exists c. split; [done|]. split; [apply clip_prefix|apply clip_count].
Qed.

Lemma take_budget_total r l : total (take_budget r l) ≤ r.
Proof.
  revert r. induction l as [|item l IH]; intros r; cbn [take_budget]; [simpl; lia|].
  destruct (r =? 0); [simpl; lia|]. destruct (clip_count r (user item)) as [Hu _].
  pose proof (clip_answer_count (r - count (clip r (user item))) (assistant item)) as Ha.
  match goal with |- context[take_budget ?x l] => pose proof (IH x) end.
  destruct (_ && _); [lia|]. unfold total, size_of in *. rec_simpl. lia.
Qed.

(** Each kept item is an excerpt of its own candidate, in their order, and none is blank. *)
Inductive excerpts : list ConversationTurn → list ConversationTurn → Prop :=
| excerpts_nil : excerpts [] []
| excerpts_drop item l k : excerpts l k → excerpts (item :: l) k
| excerpts_keep item kept l k :
    excerpt item kept → blank kept = false → excerpts l k → excerpts (item :: l) (kept :: k).

Lemma excerpts_none l : excerpts l [].
Proof. induction l; by constructor. Qed.

Lemma take_budget_excerpts r l : excerpts l (take_budget r l).
Proof.
  revert r. induction l as [|item l IH]; intros r; cbn [take_budget]; [constructor|].
  destruct (r =? 0); [apply excerpts_drop, excerpts_none|].
  destruct (negb (truthy (clip r (user item))) && _) eqn:Hb; [by apply excerpts_drop|].
  by apply excerpts_keep; [apply clip_excerpt|..].
Qed.

Lemma excerpts_app l1 l2 k1 k2 : excerpts l1 k1 → excerpts l2 k2 → excerpts (l1 ++ l2)%list (k1 ++ k2)%list.
Proof. induction 1; intros; simpl; [done|by apply excerpts_drop; auto|by apply excerpts_keep; auto]. Qed.

Lemma excerpts_reverse l k : excerpts l k → excerpts (reverse l) (reverse k).
Proof.
  induction 1 as [|item l k _ IH|item kept l k He Hb _ IH]; [constructor|..]; rewrite !reverse_cons.
  - rewrite <-(app_nil_r (reverse k)). apply excerpts_app; [done|apply excerpts_none].
  - apply excerpts_app; [done|]. by apply excerpts_keep; [..|constructor].
Qed.

Lemma excerpts_length l k : excerpts l k → length k ≤ length l.
Proof. induction 1; simpl; lia. Qed.

Lemma total_reverse l : total (reverse l) = total l.
Proof. unfold total. by rewrite reverse_Permutation. Qed.

(** While the budget lasts, nothing but blank items is left out. *)
Lemma take_budget_all r l :
  total (clipped <$> l) < r → take_budget r l = List.filter (λ x, negb (blank x)) (clipped <$> l).
Proof.
  revert r. induction l as [|item l IH]; intros r Hr; [done|]. cbn [take_budget]. rewrite fmap_cons in *.
  unfold total in Hr. cbn [sum_list_with] in Hr. unfold size_of in Hr at 1.
  change (user (clipped item)) with (py_take max_message (user item)) in Hr.
  destruct (Nat.eqb_spec r 0); [lia|].
  assert (clip r (user item) = py_take max_message (user item)) as Hu by (unfold clip; apply take_all; lia).
  rewrite Hu.
  assert (clip_answer (r - count (py_take max_message (user item))) (assistant item) = assistant (clipped item)) as Ha.
  { unfold clipped in *. rec_simpl. destruct (ConversationTurn.assistant_content item) as [c|]; [|done]. simpl.
    destruct (truthy c); [|done]. simpl in *.
    rewrite (proj2 (Nat.ltb_lt _ _)) by lia. f_equal. unfold clip. apply take_all. lia. }
  rewrite Ha, IH by (unfold total; lia).
  set (rest := List.filter (λ x, negb (blank x)) (clipped <$> l)).
  change (List.filter (λ x, negb (blank x)) (clipped item :: (clipped <$> l)))
    with (if negb (blank (clipped item)) then clipped item :: rest else rest).
  transitivity (if blank (clipped item) then rest else clipped item :: rest); [done|].
  by destruct (blank (clipped item)).
Qed.

Abbreviation window := (last_items conversation_context_max_turns).

Lemma bounded_from candidates : excerpts (window candidates) (_bounded candidates).
Proof.
  unfold _bounded. rewrite <-(reverse_involutive (window candidates)) at 1.
  apply excerpts_reverse, take_budget_excerpts.
Qed.

Lemma bounded_total candidates : total (_bounded candidates) ≤ conversation_context_max_chars.
Proof. unfold _bounded. rewrite total_reverse. apply take_budget_total. Qed.

Lemma window_length {A} (l : list A) :
  1 ≤ conversation_context_max_turns → length (window l) ≤ conversation_context_max_turns.
Proof.
  intros Hmax. unfold last_items. destruct (Nat.eqb_spec conversation_context_max_turns 0); [lia|].
  rewrite length_drop. lia.
Qed.

End Budget.
