(* ===== verification/RunWorker.v ===== *)
(** * Claiming Runs ([harness/worker.py])

    A worker of the harness leases the oldest Run that waits for one, or fails it when its
    deadline has passed.  What it then executes is not modelled. *)

From S2P Require Import Prelude PyText PyVal Enums Models Kernel Domain CanonicalJson Events.
From S2P Require Import Identity WorkspaceState.

(** The Runs a worker may claim at [now]. *)
Definition claimable_run (now : Z) (r : Run) : bool :=
  bool_decide (Run.status r ∈ [RunStatus.PENDING; RunStatus.RUNNING]) &&
  bool_decide (Run.cancellation_requested_at r = None) &&
  match Run.lease_expires_at r with Some t => (t <? now)%Z | None => true end.

Definition with_timeout (now : Z) (r : Run) : Run :=
  r <| Run.status := RunStatus.FAILED |> <| Run.error_code := Some "run_timeout" |>
    <| Run.error_message := Some "The run deadline expired before execution completed" |>
    <| Run.completed_at := Some now |>.

Definition with_start (now : Z) (r : Run) : Run :=
  r <| Run.status := RunStatus.RUNNING |> <| Run.started_at := Some now |>.
Definition with_run_lease (worker_id : string) (now : Z) (r : Run) : Run :=
  r <| Run.lease_owner := Some worker_id |>
    <| Run.lease_expires_at := Some (now + (Run.timeout_seconds r + 30) * second)%Z |>.

Definition overdue_run (now : Z) (r : Run) : bool :=
  match Run.deadline_at r with Some t => (t <=? now)%Z | None => false end.

Section Worker.
Context `{Environment, EventContracts}.

Definition worker_event (r : Run) (name : string) (payload : list (obj * obj)) : EventDraft :=
  (event_draft name "run" (Run.id r) (Run.organization_id r) (Run.id r) ActorType.SYSTEM None)
    <| EventDraft.run_id := Some (Run.id r) |> <| EventDraft.payload := payload |>.

(** The organization and id of the claimed Run. *)
Definition claim_at (worker_id : string) (now : Z) : Py Kernel (option (uuid * uuid)) :=
  found ← gets (λ k, head (order_by (λ x y, (Run.created_at x <=? Run.created_at y)%Z)
    (select (claimable_run now) (runs k))));
  match found with
  | None => mret None
  | Some run =>
      if overdue_run now run then
        RunState.validate_run_transition (Run.status run) RunStatus.FAILED;;
        update_run (Run.id run) (with_timeout now);;
        append (worker_event run "run.failed" [(OStr "error_code", OStr "run_timeout")]);;
        mret None
      else
        let pending := bool_decide (Run.status run = RunStatus.PENDING) in
        (if pending then
           RunState.validate_run_transition (Run.status run) RunStatus.RUNNING;;
           update_run (Run.id run) (with_start now)
         else mret ());;
        update_run (Run.id run) (with_run_lease worker_id now);;
        append (worker_event run (if pending then "run.started" else "run.resumed")
          [(OStr "worker", OStr worker_id)]);;
        mret (Some (Run.organization_id run, Run.id run))
  end.

Definition _claim (worker_id : string) : Py Kernel (option (uuid * uuid)) :=
  now ← utc_now; savepoint (claim_at worker_id now).
End Worker.
