(* ===== verification/WorkspaceFacts.v ===== *)
(** * What holds of the directory of threads

    The invariant of threads, turns and members, and how each kind of write keeps it while
    the histories of threads only grow. *)

From S2P Require Import Prelude PyText PyVal Enums Models Kernel Identity.
From S2P Require Import WorkspaceState ThreadFacts.

#[local] Open Scope nat_scope.

(** A history whose turns are numbered from 1 on. *)
Definition numbered (l : list Turn) : Prop := Turn.ordinal <$> l = Z.of_nat <$> seq 1 (length l).

Record threads_ok (d : Directory) : Prop := {
  ok_keyed : keyed d;
  ok_turns i u : turns d !! i = Some u →
    Turn.id u = i ∧ ∃ t, threads d !! Turn.thread_id u = Some t ∧ Turn.organization_id u = Thread.organization_id t;
  ok_history i t : threads d !! i = Some t → ∃ l c, history d t l c ∧ numbered l
}.

(** Each user is a member of a workspace once, with the permission to read, to write, or
    both, and may write exactly with the latter. *)
Definition member_key (m : WorkspaceMember) : uuid * uuid := (WorkspaceMember.workspace_id m, WorkspaceMember.user_id m).
Definition member_ok (m : WorkspaceMember) : Prop :=
  WorkspaceMember.permissions m ∈ [["read"]; ["write"]; ["read"; "write"]] ∧
  WorkspaceMember.can_write m = bool_decide ("write" ∈ WorkspaceMember.permissions m).
Definition members_ok (l : list WorkspaceMember) : Prop := NoDup (member_key <$> l) ∧ Forall member_ok l.

Record directory_ok (d : Directory) : Prop := {
  ok_threads : threads_ok d;
  ok_members : members_ok (workspace_members d)
}.

(** ** Numbered histories *)

Lemma numbered_prefix l k : numbered (l ++ k)%list → numbered l.
Proof.
  unfold numbered. rewrite fmap_app, length_app, seq_app, fmap_app. intros Heq.
  apply app_inj_1 in Heq as [Heq _]; [done|]. by rewrite !length_fmap, length_seq.
Qed.

Lemma turns_numbered_snoc l u : numbered l → Turn.ordinal u = Z.of_nat (S (length l)) → numbered (l ++ [u])%list.
Proof.
  unfold numbered. intros Hl Hu. rewrite fmap_app, length_app, Hl. cbn [length].
  replace (length l + 1) with (S (length l)) by lia. rewrite seq_S, fmap_app. csimpl. by rewrite Hu.
Qed.

Lemma numbered_last l : numbered l → default 0%Z (Turn.ordinal <$> last l) = Z.of_nat (length l).
Proof.
  unfold numbered. destruct l as [|u l _] using rev_ind; [done|]. rewrite last_snoc, length_app. cbn [length].
  replace (length l + 1) with (S (length l)) by lia. rewrite seq_S, !fmap_app. csimpl. intros Heq.
  apply app_inj_2 in Heq as [_ Heq]; [|done]. by injection Heq.
Qed.

Lemma numbered_distinct l : numbered l → NoDup (Turn.ordinal <$> l).
Proof. unfold numbered. intros ->. apply NoDup_fmap_2; [apply _|]. apply NoDup_seq. Qed.

(** ** Sorted turns *)

Definition in_order (x y : Turn) : Prop := ordinal_le x y = true.

Lemma ordered_turns l : StronglySorted in_order (order_by ordinal_le l).
Proof. apply order_by_strongly; unfold ordinal_le; intros; rewrite ?Z.leb_le in *; lia. Qed.

Lemma ordered_unique l l' :
  l ≡ₚ l' → StronglySorted in_order l → StronglySorted in_order l' → NoDup (Turn.ordinal <$> l) → l = l'.
Proof.
  intros Hp Hs Hs' Hnd. eapply (StronglySorted_unique_strong in_order); [|done..]. clear Hs Hs'.
  intros x y Hx Hy Hxy Hyx. rewrite <-Hp in Hy. unfold in_order, ordinal_le in *. rewrite Z.leb_le in *.
  assert (Turn.ordinal x = Turn.ordinal y) as Heq by lia. clear Hxy Hyx Hp.
  apply list_elem_of_lookup in Hx as [i Hi]. apply list_elem_of_lookup in Hy as [j Hj].
  assert (i = j) as ->; [|congruence]. eapply NoDup_lookup; [exact Hnd|..]; rewrite list_lookup_fmap.
  - by rewrite Hi.
  - rewrite Hj. simpl. by rewrite Heq.
Qed.

Lemma numbered_ordered l k : numbered (l ++ k)%list → StronglySorted in_order k.
Proof.
  intros Hn. assert (StronglySorted in_order (l ++ k)%list) as Hs.
  { apply (numbered_sorted Turn.ordinal 1 _ (length (l ++ k)%list) Hn). }
  clear Hn. induction l as [|u l IH]; [done|]. apply IH. by apply StronglySorted_inv in Hs as [? _].
Qed.

(** A new turn behind the turns of its thread, and nowhere else. *)
Lemma local_put_turn org id i u d :
  turns d !! i = None →
  (let l := (local_turns org id d ++ (if of_thread org id u then [u] else []))%list in
   StronglySorted in_order l ∧ NoDup (Turn.ordinal <$> l)) →
  local_turns org id (put_turn i u d) =
    (local_turns org id d ++ (if of_thread org id u then [u] else []))%list.
Proof.
  intros Hi [Hs Hnd]. symmetry. apply ordered_unique; [|done|apply ordered_turns|done].
  unfold local_turns. rewrite !order_by_perm. unfold put_turn.
  change (turns (_ <| turns := _ |>)) with (<[i:=u]> (turns d)).
  rewrite select_insert by done. apply Permutation_app_comm.
Qed.

Lemma own_numbered d t l c : history d t l c → numbered l →
  NoDup (Turn.ordinal <$> own_turns d t) ∧ ∃ pre, l = (pre ++ own_turns d t)%list.
Proof.
  intros Hh Hn.
  assert (∃ pre, l = (pre ++ own_turns d t)%list) as [pre ->] by (inversion Hh; subst; [by exists []|eauto]).
  split; [|eauto]. apply numbered_distinct in Hn. rewrite fmap_app in Hn. by apply NoDup_app in Hn as (_ & _ & ?).
Qed.

(** ** Writes *)

(** The same threads but for what is not of their lineage, and the same turns. *)
Record kept (d d' : Directory) : Prop := {
  kept_turns : turns d' = turns d;
  kept_forth i t : threads d !! i = Some t → ∃ t', threads d' !! i = Some t' ∧ lineage t' = lineage t;
  kept_back i t' : threads d' !! i = Some t' → ∃ t, threads d !! i = Some t ∧ lineage t' = lineage t
}.

Lemma kept_grows d d' : kept d d' → grows d d'.
Proof. intros [Hu Hf _]. split; [done|]. intros i t _. unfold local_turns. by rewrite Hu. Qed.

Lemma history_kept d d' t t' l c : kept d d' → lineage t' = lineage t → history d t l c → history d' t' l c.
Proof.
  intros [Hu Hf _] He Hh. revert t' He.
  induction Hh as [t Hp|t pid parent l c pre Hp Hparent Ho Hw Hh IH Hpre]; intros t' [= Hi Ho' Hw' Hp' Hf'].
  all: assert (own_turns d t = own_turns d' t') as -> by (unfold own_turns, local_turns; by rewrite Hu, Hi, Ho').
  all: rewrite <-Hi.
  - apply history_root. congruence.
  - destruct (Hf _ _ Hparent) as (parent' & Hparent' & He'). pose proof He' as [= ? ? ? ? ?].
    apply (history_fork _ _ pid parent' l); [congruence|done|congruence|congruence|by apply IH|].
    by eapply inherited_grows.
Qed.

Lemma kept_ok d d' : kept d d' → threads_ok d → threads_ok d'.
Proof.
  intros Hkept [Hk Ht Hh]. split.
  - intros i t' (t & Hi & [= -> _ _ _ _])%(kept_back _ _ Hkept). by apply Hk.
  - intros i u. rewrite (kept_turns _ _ Hkept). intros (Hi & t & Hu & Ho)%Ht. split; [done|].
    destruct (kept_forth _ _ Hkept _ _ Hu) as (t' & Hu' & [= _ Ho' _ _ _]). exists t'. split; congruence.
  - intros i t' (t & Hi & He)%(kept_back _ _ Hkept). destruct (Hh _ _ Hi) as (l & c & Hl & Hn).
    exists l, c. split; [by eapply history_kept|done].
Qed.

Lemma same_kept d d' : threads d' = threads d → turns d' = turns d → kept d d'.
Proof. intros Ht Hu. split; [done|rewrite Ht; eauto..]. Qed.

(** Columns of a thread that are not of its lineage. *)
Lemma update_thread_kept i f d : (∀ t, lineage (f t) = lineage t) → kept d (update_thread i f d).
Proof.
  intros Hf. split; [done|..]; change (threads (update_thread i f d)) with (alter f i (threads d)).
  - intros j t Ht. destruct (decide_rel (=) i j) as [->|Hne].
    + exists (f t). by rewrite lookup_alter_eq, Ht.
    + exists t. by rewrite lookup_alter_ne.
  - intros j t'. rewrite lookup_alter_Some. intros [(-> & t & Hj & ->)|[_ ?]]; eauto.
Qed.

(** *** A new thread *)

Lemma put_thread_grows t d : threads d !! Thread.id t = None → grows d (put_thread (Thread.id t) t d).
Proof.
  intros Hfree. split; [|done]. intros i t' Hi. exists t'. split; [|done].
  change (threads (put_thread (Thread.id t) t d)) with (<[Thread.id t:=t]> (threads d)).
  by rewrite lookup_insert_ne by congruence.
Qed.

(** Nobody wrote in a thread that is not there. *)
Lemma absent_turns d org i : threads_ok d → threads d !! i = None → local_turns org i d = [].
Proof.
  intros [_ Ht _] Hi. unfold local_turns.
  assert (select (of_thread org i) (turns d) = []) as ->; [|done].
  unfold select. apply filter_none. intros u [j Hj]%elem_of_rows. unfold of_thread.
  destruct (Ht j u Hj) as (_ & t & Hu & _). rewrite Is_true_true, andb_true_iff, !bool_decide_eq_true.
  intros [_ He]. congruence.
Qed.

Lemma put_thread_history d t t' l c :
  threads d !! Thread.id t' = None → history d t l c → history (put_thread (Thread.id t') t' d) t l c.
Proof.
  intros Hfree. induction 1 as [t Hp|t pid parent l c pre Hp Hparent Ho Hw Hh IH Hpre].
  - by apply (history_root (put_thread _ t' d)).
  - apply (history_fork (put_thread _ t' d) t pid parent l); try done.
    change (<[Thread.id t':=t']> (threads d) !! pid = Some parent). by rewrite lookup_insert_ne by congruence.
Qed.

Lemma put_thread_ok t d :
  threads_ok d → threads d !! Thread.id t = None →
  (Thread.parent_thread_id t = None ∨
   ∃ parent l c pre, Thread.parent_thread_id t = Some (Thread.id parent) ∧
     threads d !! Thread.id parent = Some parent ∧ Thread.organization_id parent = Thread.organization_id t ∧
     Thread.workspace_id parent = Thread.workspace_id t ∧ history d parent l c ∧ numbered l ∧
     inherited t l = Some pre) →
  threads_ok (put_thread (Thread.id t) t d).
Proof.
  intros Hok Hfree Hparent. pose proof Hok as [Hk Ht Hh].
  change (threads (put_thread (Thread.id t) t d)) with (<[Thread.id t:=t]> (threads d)) in *.
  assert (own_turns (put_thread (Thread.id t) t d) t = []) as Hown
    by exact (absent_turns d _ _ Hok Hfree).
  split; unfold keyed; change (threads (put_thread (Thread.id t) t d)) with (<[Thread.id t:=t]> (threads d)).
  - intros i x [[<- <-]|[_ ?]]%lookup_insert_Some; [done|by apply Hk].
  - intros i u Hi. destruct (Ht i u Hi) as (? & x & Hx & Ho). split; [done|]. exists x.
    by rewrite lookup_insert_ne by congruence.
  - intros i x [[<- <-]|[_ Hx]]%lookup_insert_Some.
    + destruct Hparent as [Hp|(parent & l & c & pre & Hp & Hps & Ho & Hw & Hl & Hn & Hpre)].
      * exists (own_turns (put_thread (Thread.id t) t d) t), [Thread.id t]. split; [by apply history_root|by rewrite Hown].
      * exists (pre ++ own_turns (put_thread (Thread.id t) t d) t)%list, (Thread.id t :: c). split.
        -- apply (history_fork _ _ (Thread.id parent) parent l); try done; [|by apply put_thread_history].
           change (<[Thread.id t:=t]> (threads d) !! Thread.id parent = Some parent).
           by rewrite lookup_insert_ne by congruence.
        -- rewrite Hown, app_nil_r. apply inherited_prefix in Hpre as [k ->]. by eapply numbered_prefix.
    + destruct (Hh _ _ Hx) as (l & c & Hl & Hn). exists l, c. split; [by apply put_thread_history|done].
Qed.

(** *** A new turn *)

Section PutTurn.
Context (d : Directory) (t : Thread) (l : list Turn) (c : list uuid) (u : Turn).
Context (Hok : threads_ok d) (Ht : threads d !! Thread.id t = Some t) (Hl : history d t l c).
Context (Hfree : turns d !! Turn.id u = None) (Hthread : Turn.thread_id u = Thread.id t).
Context (Horg : Turn.organization_id u = Thread.organization_id t).
Context (Hnext : Turn.ordinal u = Z.of_nat (S (length l))).

Let d' := put_turn (Turn.id u) u d.

(** The turns of each thread: those of [t] have the new one behind them. *)
Lemma put_turn_own i x :
  threads d !! i = Some x →
  own_turns d' x = (own_turns d x ++ if bool_decide (i = Thread.id t) then [u] else [])%list.
Proof.
  intros Hi. pose proof (ok_keyed _ Hok _ _ Hi) as Hix. unfold own_turns at 1, d'.
  assert (of_thread (Thread.organization_id x) (Thread.id x) u = bool_decide (i = Thread.id t)) as Hof.
  { unfold of_thread. rewrite Hthread, Horg, Hix. case_bool_decide as Ho; simpl.
    - case_bool_decide; case_bool_decide; congruence.
    - rewrite bool_decide_false; [done|]. intros ->. congruence. }
  rewrite local_put_turn; [by rewrite Hof|done|]. rewrite Hof. cbv zeta.
  change (local_turns (Thread.organization_id x) (Thread.id x) d) with (own_turns d x).
  destruct (ok_history _ Hok _ _ Hi) as (lx & cx & Hx & Hn).
  destruct (own_numbered _ _ _ _ Hx Hn) as [Hnd [pre ->]]. case_bool_decide as Hit; [|rewrite app_nil_r].
  - assert (x = t) as -> by congruence. destruct (history_unique _ _ _ _ _ _ Hl Hx) as [-> _].
    pose proof (turns_numbered_snoc _ u Hn Hnext) as Hsnoc. rewrite <-app_assoc in Hsnoc. split; [by eapply numbered_ordered|].
    apply numbered_distinct in Hsnoc. rewrite fmap_app in Hsnoc. by apply NoDup_app in Hsnoc as (_ & _ & ?).
  - split; [by eapply numbered_ordered|done].
Qed.

Lemma put_turn_grows : grows d d'.
Proof.
  split; [eauto|]. intros i x Hi. pose proof (put_turn_own i x Hi) as Hown. unfold own_turns in Hown.
  rewrite (ok_keyed _ Hok _ _ Hi) in Hown. rewrite Hown. by apply prefix_app_r.
Qed.

(** Only the history of [t] itself is longer, by the new turn. *)
Lemma put_turn_history i x lx cx :
  threads d !! i = Some x → history d x lx cx →
  history d' x (lx ++ if bool_decide (i = Thread.id t) then [u] else [])%list cx.
Proof.
  intros Hi Hx. pose proof (put_turn_own i x Hi) as Hown.
  inversion Hx as [? Hp|? pid parent lp cp pre Hp Hparent Ho Hw Hlp Hpre]; subst.
  - rewrite <-Hown. by apply history_root.
  - assert (threads d !! Thread.id parent = Some parent) as Hself by (by rewrite (ok_keyed _ Hok _ _ Hparent)).
    destruct (history_grows _ _ _ parent _ _ put_turn_grows (ok_keyed _ Hok) Hself eq_refl Hlp) as (lp' & Hlp' & Hpref).
    rewrite <-app_assoc, <-Hown. apply (history_fork _ _ pid parent lp'); try done. by eapply inherited_grows.
Qed.

Lemma put_turn_ok : threads_ok d'.
Proof.
  split.
  - apply (ok_keyed _ Hok).
  - intros i v. change (turns d') with (<[Turn.id u:=u]> (turns d)). change (threads d') with (threads d).
    intros [[<- <-]|[_ Hv]]%lookup_insert_Some; [|by apply (ok_turns _ Hok)]. split; [done|].
    exists t. by rewrite Hthread.
  - intros i x Hi. change (threads d !! i = Some x) in Hi. destruct (ok_history _ Hok i x Hi) as (lx & cx & Hx & Hn).
    eexists _, cx. split; [by apply (put_turn_history i)|]. case_bool_decide as Hit; [|by rewrite app_nil_r].
    apply turns_numbered_snoc; [done|]. assert (x = t) as -> by (subst i; congruence).
    by destruct (history_unique _ _ _ _ _ _ Hl Hx) as [<- _].
Qed.
End PutTurn.
