(* ===== verification/WorkspaceKeeps.v ===== *)
(** * What the operations on workspaces keep

    Each operation keeps the invariant of the directory while histories only grow
    ([Evolving]), and moves Runs along the declared transitions only, without changing what
    they were created under ([Moving]). *)

From S2P Require Import Prelude PyText PyVal Enums Models Kernel Domain CanonicalJson Events.
From S2P Require Import Identity AgentSpec TurnRequest WorkspaceState ThreadFacts.
From S2P Require Import ConversationContext WorkspaceService RunWorker WorkspaceFacts.

Definition dir {S} `{Session S} (s : S) : Directory := directory (kernel s).

(** ** Runs *)

(** What a Run was created under. *)
Definition sealed (r : Run) :=
  (Run.id r, Run.organization_id r, Run.turn_id r, Run.agent_version_id r, Run.model_profile_id r,
   Run.prompt_pins r, Run.workspace_context r,
   (Run.max_steps r, Run.timeout_seconds r, Run.max_input_tokens r, Run.max_output_tokens r,
    Run.max_cost_amount r, Run.replay_of_run_id r, Run.created_at r)).

Definition moved (r r' : Run) : Prop :=
  sealed r' = sealed r ∧ steps RunState.step (Run.status r) (Run.status r').

(** A table of Runs under their ids. *)
Definition runs_keyed (k : Kernel) : Prop := ∀ i r, runs k !! i = Some r → Run.id r = i.

Definition runs_move (k k' : Kernel) : Prop :=
  runs_keyed k →
  runs_keyed k' ∧ ∀ i r, runs k !! i = Some r → ∃ r', runs k' !! i = Some r' ∧ moved r r'.

#[export] Instance moved_preorder : PreOrder moved.
Proof.
  split; [split; [done|apply steps_refl]|]. intros r1 r2 r3 [? ?] [? ?]. split; [congruence|by eapply steps_trans].
Qed.

#[export] Instance runs_move_preorder : PreOrder runs_move.
Proof.
  split; [intros k Hk; split; [done|intros i r Hr; exists r; split; [done|reflexivity]]|]. intros k1 k2 k3 H12 H23 Hk1.
  destruct (H12 Hk1) as [Hk2 H12']. destruct (H23 Hk2) as [Hk3 H23']. split; [done|].
  intros i r (r' & Hr' & Hm)%H12'. destruct (H23' i r' Hr') as (r'' & Hr'' & Hm').
  exists r''. split; [done|by transitivity r'].
Qed.

Lemma recorded_move k k' : recorded k k' → runs_move k k'.
Proof.
  intros Hk Hkeyed. split.
  - intros i r' Hr'. destruct (recorded_runs _ _ Hk i) as [v Hv]. rewrite Hv in Hr'.
    apply fmap_Some in Hr' as (r & Hr & ->). exact (Hkeyed i r Hr).
  - intros i r Hr. destruct (recorded_run _ _ _ _ Hk Hr) as [v Hv]. exists (with_version v r).
    split; [done|]. split; [done|apply steps_refl].
Qed.

Lemma same_runs_move k k' : runs k' = runs k → runs_move k k'.
Proof. intros He Hk. split; [intros i r; rewrite He; apply Hk|]. intros i r Hr. exists r. rewrite He. split; [done|reflexivity]. Qed.

(** ** The classes *)

Section Classes.
Context {S : Type} `{Session S}.

(** The directory is not written. *)
Class SameDir {A} (m : Py S A) : Prop :=
  same_dir s : wp m (λ _ s', dir s' = dir s) (λ _ _, True) s.

Class Evolving {A} (m : Py S A) : Prop :=
  evolving s : directory_ok (dir s) →
    wp m (λ _ s', directory_ok (dir s') ∧ grows (dir s) (dir s')) (λ _ _, True) s.

Class Moving {A} (m : Py S A) : Prop :=
  moving s : wp m (λ _ s', runs_move (kernel s) (kernel s')) (λ _ _, True) s.

Lemma same_dir_evolving {A} (m : Py S A) : SameDir m → Evolving m.
Proof. intros Hm s Hok. eapply wp_mono; [apply Hm|intros a s' ->; by split|done]. Qed.

Lemma pure_same_dir {A} (m : Py S A) : Pure m → SameDir m.
Proof. intros Hm s. eapply wp_mono; [apply Hm|intros a s' ->; done|done]. Qed.

Lemma pure_moving {A} (m : Py S A) : Pure m → Moving m.
Proof. intros Hm s. eapply wp_mono; [apply Hm|intros a s' ->; reflexivity|done]. Qed.

#[export] Instance bind_same_dir {A B} (m : Py S A) (f : A → Py S B) :
  SameDir m → (∀ a, SameDir (f a)) → SameDir (m ≫= f).
Proof.
  intros Hm Hf s. apply wp_bind. eapply wp_mono; [apply Hm| |done]. intros a s' He.
  eapply wp_mono; [apply Hf| |done]. intros b s'' He'. congruence.
Qed.

#[export] Instance bind_evolving {A B} (m : Py S A) (f : A → Py S B) :
  Evolving m → (∀ a, Evolving (f a)) → Evolving (m ≫= f).
Proof.
  intros Hm Hf s Hok. apply wp_bind. eapply wp_mono; [by apply Hm| |done]. intros a s' [Hok' Hg].
  eapply wp_mono; [by apply Hf| |done]. intros b s'' [? Hg']. split; [done|by etransitivity].
Qed.

#[export] Instance bind_moving {A B} (m : Py S A) (f : A → Py S B) :
  Moving m → (∀ a, Moving (f a)) → Moving (m ≫= f).
Proof.
  intros Hm Hf s. apply wp_bind. eapply wp_mono; [apply Hm| |done]. intros a s' Hr.
  eapply wp_mono; [apply Hf| |done]. intros b s'' Hr'. cbv beta in *.
  by transitivity (kernel s').
Qed.

#[export] Instance option_same_dir {A B} (o : option A) (f : A → Py S B) m :
  (∀ a, SameDir (f a)) → SameDir m → SameDir (match o with Some a => f a | None => m end).
Proof. by destruct o. Qed.
#[export] Instance option_evolving {A B} (o : option A) (f : A → Py S B) m :
  (∀ a, Evolving (f a)) → Evolving m → Evolving (match o with Some a => f a | None => m end).
Proof. by destruct o. Qed.
#[export] Instance option_moving {A B} (o : option A) (f : A → Py S B) m :
  (∀ a, Moving (f a)) → Moving m → Moving (match o with Some a => f a | None => m end).
Proof. by destruct o. Qed.
#[export] Instance if_same_dir {A} (b : bool) (m1 m2 : Py S A) :
  SameDir m1 → SameDir m2 → SameDir (if b then m1 else m2).
Proof. by destruct b. Qed.
#[export] Instance if_evolving {A} (b : bool) (m1 m2 : Py S A) :
  Evolving m1 → Evolving m2 → Evolving (if b then m1 else m2).
Proof. by destruct b. Qed.
#[export] Instance if_moving {A} (b : bool) (m1 m2 : Py S A) :
  Moving m1 → Moving m2 → Moving (if b then m1 else m2).
Proof. by destruct b. Qed.

Lemma recording_same_dir {A} (m : Py Kernel A) : Recording m → SameDir (in_kernel m).
Proof.
  intros Hm s. apply wp_in_kernel. eapply wp_mono; [apply Hm| |done].
  intros a k Hk. unfold dir. rewrite kernel_set_kernel. apply Hk.
Qed.
Lemma recording_moving {A} (m : Py Kernel A) : Recording m → Moving (in_kernel m).
Proof.
  intros Hm s. apply wp_in_kernel. eapply wp_mono; [apply Hm| |done].
  intros a k Hk. rewrite kernel_set_kernel. by apply recorded_move.
Qed.

(** A transaction: an exception leaves the tables as they were. *)
Lemma savepoint_evolving {A} (m : Py S A) s :
  Evolving m → directory_ok (dir s) →
  wp (savepoint m) (λ _ s', directory_ok (dir s') ∧ grows (dir s) (dir s'))
    (λ _ s', directory_ok (dir s') ∧ grows (dir s) (dir s')) s.
Proof.
  intros Hm Hok. apply wp_savepoint. eapply wp_mono; [by apply Hm|done|]. intros e s' _.
  unfold dir. rewrite kernel_of_rollback. by split.
Qed.
Lemma savepoint_moving {A} (m : Py S A) s :
  Moving m → wp (savepoint m) (λ _ s', runs_move (kernel s) (kernel s')) (λ _ s', runs_move (kernel s) (kernel s')) s.
Proof.
  intros Hm. apply wp_savepoint. eapply wp_mono; [by apply Hm|done|]. intros e s' _.
  rewrite kernel_of_rollback. by apply same_runs_move.
Qed.
End Classes.

#[export] Hint Extern 5 (SameDir ?m) =>
  lazymatch m with
  | mbind _ _ => fail
  | match _ with _ => _ end => fail
  | in_kernel _ => apply recording_same_dir
  | _ => apply pure_same_dir
  end : typeclass_instances.
#[export] Hint Extern 5 (Moving ?m) =>
  lazymatch m with
  | mbind _ _ => fail
  | match _ with _ => _ end => fail
  | in_kernel _ => apply recording_moving
  | _ => apply pure_moving
  end : typeclass_instances.
#[export] Hint Extern 6 (Evolving ?m) =>
  lazymatch m with
  | mbind _ _ => fail
  | match _ with _ => _ end => fail
  | _ => apply same_dir_evolving
  end : typeclass_instances.

(** ** Single writes *)

Section Writes.
Context {S : Type} `{Session S} `{Environment}.

(** A write of the kernel, run in a session. *)
Lemma in_kernel_same_dir {A} (m : Py Kernel A) : SameDir m → SameDir (in_kernel m).
Proof.
  intros Hm s. apply wp_in_kernel. eapply wp_mono; [apply Hm| |done]. intros a k He.
  unfold dir in *. by rewrite kernel_set_kernel.
Qed.
Lemma in_kernel_evolving {A} (m : Py Kernel A) : Evolving m → Evolving (in_kernel m).
Proof.
  intros Hm s Hok. apply wp_in_kernel. eapply wp_mono; [by apply Hm| |done]. intros a k He.
  unfold dir in *. by rewrite kernel_set_kernel.
Qed.
Lemma in_kernel_moving {A} (m : Py Kernel A) : Moving m → Moving (in_kernel m).
Proof.
  intros Hm s. apply wp_in_kernel. eapply wp_mono; [by apply Hm| |done]. intros a k He.
  by rewrite kernel_set_kernel.
Qed.

(** The directory is not part of a Run, nor a Run of the directory. *)
#[export] Instance on_directory_moving f : Moving (on_directory f).
Proof. intros k. by apply same_runs_move. Qed.

#[export] Instance insert_run_same_dir row : SameDir (insert_run row).
Proof. unfold insert_run, integrity. repeat (apply bind_same_dir; [apply _|intros ?]). by intros k. Qed.

#[export] Instance update_run_same_dir i f : SameDir (update_run i f).
Proof. by intros k. Qed.

#[export] Instance insert_run_moving row : Moving (insert_run row).
Proof.
  intros k. unfold insert_run, integrity, free. repeat wp_step; [done|]. split_bool. intros Hk.
  unfold runs_keyed. cbn [kernel Kernel_session].
  change (runs (_ <| runs := _ |>)) with (<[Run.id row:=row]> (runs k)). split.
  - intros i r [[<- <-]|[_ ?]]%lookup_insert_Some; [done|by apply Hk].
  - intros i r Hi. exists r. split; [|reflexivity]. rewrite lookup_insert_ne; [done|].
    intros <-. match goal with Hn : ¬ is_Some _ |- _ => apply Hn end. by exists r.
Qed.

(** Moving a Run along a validated transition, or leaving its status. *)
Lemma update_run_moves i f k :
  (∀ r, runs k !! i = Some r → Run.id r = i → moved r (f r)) →
  wp (update_run i f) (λ _, runs_move k) (λ _ _, True) k.
Proof.
  intros Hf Hk. unfold runs_keyed.
  change (runs (k <| runs := alter f i (runs k) |>)) with (alter f i (runs k)). split.
  - intros j r'. rewrite lookup_alter_Some. intros [(<- & r & Hr & ->)|[_ Hr]]; [|by apply Hk].
    destruct (Hf r Hr (Hk _ _ Hr)) as [Hs _]. pose proof (Hk _ _ Hr). unfold sealed in Hs. congruence.
  - intros j r Hj. destruct (decide_rel (=) i j) as [->|Hne].
    + exists (f r). rewrite lookup_alter_eq, Hj. split; [done|]. apply Hf; [done|by apply Hk].
    + exists r. rewrite lookup_alter_ne by done. split; [done|reflexivity].
Qed.

#[export] Instance update_thread_evolving i f :
  (∀ t, lineage (f t) = lineage t) → Evolving (on_directory (update_thread i f)).
Proof.
  intros Hf k [Hok Hm]. pose proof (update_thread_kept i f (directory k) Hf) as Hk.
  split; [|by apply kept_grows]. split; [by eapply kept_ok|done].
Qed.

#[export] Instance insert_workspace_evolving row : Evolving (insert_workspace row).
Proof.
  unfold insert_workspace, varchar, integrity. repeat (apply bind_evolving; [apply _|intros ?]).
  intros k [Hok Hm].
  assert (kept (directory k) (put_workspace (Workspace.id row) row (directory k))) as Hk by by apply same_kept.
  split; [|by apply kept_grows]. split; [by eapply kept_ok|done].
Qed.

(** A thread that has no parent. *)
Lemma insert_root_evolving row : Thread.parent_thread_id row = None → Evolving (insert_thread row).
Proof.
  intros Hp k [Hok Hm]. unfold insert_thread, varchar, integrity, free. repeat wp_step; try done.
  split_bool.
  assert (threads (directory k) !! Thread.id row = None) as Hfree by (by apply eq_None_not_Some).
  split; [|by apply put_thread_grows]. split; [|done]. apply put_thread_ok; auto.
Qed.
End Writes.
