(* ===== verification/Clarifications.v ===== *)
(** * Answering clarifications ([application/clarifications.py])

    A Run that waits for its user is resumed by an answer to its open clarification, or failed by
    an answer that comes too late. *)

From S2P Require Import Prelude PyText PyVal Redaction Enums Models Kernel Domain CanonicalJson.
From S2P Require Import Events EventLog Identity TurnRequest WorkspaceState TaskContracts.
From S2P Require Import RunIntents RunIntentFacts IntentHistory WorkspaceService RunWorker.
From S2P Require Import WorkspaceKeeps.

#[local] Open Scope list_scope.

(** A domain error that nothing translates. *)
Definition uncaught (e : ClarificationDomainError) : exn :=
  PyError match e with
    | ClarificationStateInvalid => "ClarificationStateInvalid"
    | ClarificationNotPending => "ClarificationNotPending"
    | ClarificationStaleRevision => "ClarificationStaleRevision"
    | ClarificationAnswerInvalid _ => "ClarificationAnswerInvalid"
    | ClarificationNoProgress => "ClarificationNoProgress"
    | ValueError => "ValidationError"
    | KeyError => "KeyError"
    end.

Definition state_invalid (message : string) : exn := ConflictError "clarification_state_invalid" message [].
Definition not_pending (message : string) (details : dict) : exn :=
  ConflictError "clarification_not_pending" message details.

(** What [answer] raises for what the domain raises when the document is read. *)
Definition parse_error (e : ClarificationDomainError) : exn :=
  match e with
  | ValueError | KeyError => uncaught e
  | _ => state_invalid "The persisted clarification state cannot be resumed"
  end.

(** And when the answer is applied. *)
Definition answer_error (e : ClarificationDomainError) : exn :=
  match e with
  | ClarificationStaleRevision =>
      ConflictError "clarification_stale_revision" "The clarification answer targets a stale intent revision" []
  | ClarificationNotPending => not_pending "The clarification is no longer pending" []
  | ClarificationAnswerInvalid message => ValidationError "clarification_answer_invalid" message []
  | ClarificationStateInvalid | ClarificationNoProgress => state_invalid "The clarification state rejected the answer"
  | ValueError | KeyError => uncaught e
  end.

Definition translated {S A} (translate : ClarificationDomainError → exn) (m : M ClarificationDomainError S A) : Py S A :=
  λ s, match m s with
       | Ok a s' => Ok a s'
       | Raise e s' => Raise (translate e) s'
       end.

Definition with_expired_clarification (intent : dict) (expired_at : Z) (r : Run) : Run :=
  r <| Run.intent := intent |> <| Run.status := RunStatus.FAILED |>
    <| Run.error_code := Some "clarification_expired" |>
    <| Run.error_message := Some "The clarification request expired before an answer was received" |>
    <| Run.completed_at := Some expired_at |> <| Run.deadline_at := None |>
    <| Run.waiting_user_expires_at := None |> <| Run.lease_owner := None |> <| Run.lease_expires_at := None |>.

Definition with_answer (intent : dict) (deadline_at : Z) (r : Run) : Run :=
  r <| Run.intent := intent |> <| Run.status := RunStatus.RUNNING |> <| Run.deadline_at := Some deadline_at |>
    <| Run.waiting_user_expires_at := None |> <| Run.lease_owner := None |> <| Run.lease_expires_at := None |>.

(** The metadata and the payload of an answer. *)
Definition answer_items (applied : AppliedClarificationAnswer) : list (string * obj) :=
  [("clarification_id", OStr (AppliedClarificationAnswer.clarification_id applied));
   ("intent_revision", OInt (RunIntent.intent_revision (AppliedClarificationAnswer.intent applied)));
   ("answered_slots", OSeq (map OStr (AppliedClarificationAnswer.answered_slots applied)));
   ("response_fingerprint", OStr (AppliedClarificationAnswer.response_fingerprint applied))].

Section Service.
Context `{UnicodeData, IsoFormats, Environment, EventContracts, JsonEncoder}.

Definition expire (run : Run) (i : RunIntent) (expired_at : Z) : Py Kernel unit :=
  closed ← translated uncaught (close_active_clarification i ClarificationStatus.EXPIRED expired_at);
  RunState.validate_run_transition (Run.status run) RunStatus.FAILED;;
  update_run (Run.id run) (with_expired_clarification (dump_intent closed) expired_at);;
  let id := match active_request (RunIntent.clarification i) with
            | Some active => OStr (ClarificationRequest.id active)
            | None => ONone
            end in
  let journal name payload := run_journal (Run.organization_id run) (Run.id run) ActorType.SYSTEM None name payload in
  append (journal "clarification.expired" [("clarification_id", id)]);;
  append (journal "run.failed" [("error_code", OStr "clarification_expired")]);;
  write ((audit_draft (Run.organization_id run) (Run.id run) ActorType.SYSTEM None "run.clarification.expire" "run" "EXPIRED")
    <| AuditDraft.resource_id := Some (uuid_str (Run.id run)) |>
    <| AuditDraft.metadata := [("clarification_id", id)] |>);;
  mret ().

(** The typed intent of a Run that waits, and the request that is answered. *)
Definition answerable (run : Run) (clarification_id : uuid) : Py Kernel (RunIntent * ClarificationRequest) :=
  raise_if (negb (bool_decide (Run.status run = RunStatus.WAITING_USER)))
    (not_pending "The run is not waiting for clarification" [("status", VStr (value_of (Run.status run)))]);;
  parsed ← translated parse_error (parse_run_intent (Run.intent run) true);
  match parsed with
  | None => raise (state_invalid "The persisted clarification state cannot be resumed")
  | Some i =>
      match active_request (RunIntent.clarification i) with
      | None => raise (not_pending "The clarification is no longer the active request" [])
      | Some active =>
          raise_if (negb (bool_decide (ClarificationRequest.id active = uuid_str clarification_id)))
            (not_pending "The clarification is no longer the active request" []);;
          mret (i, active)
      end
  end.

Definition answer (p : Principal) (run_id clarification_id : uuid) (submission : ClarificationAnswerSubmission) :
    Py Kernel Run :=
  run ← require_run_access p run_id true;
  found ← answerable run clarification_id;
  let '(i, active) := found in
  now ← utc_now;
  match instant (ClarificationRequest.expires_at active) with
  | None => raise (PyError "ValueError")
  | Some expires_at =>
      (if (expires_at <=? now)%Z then
         expire run i now;;
         raise (ConflictError "clarification_expired" "The clarification request has expired" [])
       else mret ());;
      match ClarificationState.remaining_execution_seconds (RunIntent.clarification i) with
      | None => raise (state_invalid "The clarification has no resumable execution budget")
      | Some remaining =>
          applied ← translated answer_error
            (apply_clarification_answer i submission (uuid_str clarification_id) (uuid_str (Principal.id p)) now);
          RunState.validate_run_transition (Run.status run) RunStatus.RUNNING;;
          let answered := with_answer (dump_intent (AppliedClarificationAnswer.intent applied))
                            (now + remaining * second)%Z in
          update_run (Run.id run) answered;;
          append (run_journal (Run.organization_id run) (Run.id run) ActorType.USER (Some (Principal.id p))
            "clarification.answered" (answer_items applied));;
          write ((audit_draft (Run.organization_id run) (Run.id run) ActorType.USER (Some (Principal.id p))
              "run.clarification.answer" "run" "SUCCESS")
            <| AuditDraft.resource_id := Some (uuid_str (Run.id run)) |>
            <| AuditDraft.metadata := answer_items applied |>);;
          mret (answered run)
      end
  end.
End Service.

(** The request that answers ([_mutate] in [application/app_server.py]) commits what was written
    before a domain error. *)
Definition keeping_refusals {A} (m : Py Kernel A) : Py Kernel A := λ k,
  match m k with
  | Raise (PyError class) k' => Raise (PyError class) (rollback k k')
  | outcome => outcome
  end.

(** ** Answering clarifications on every branch *)

(** The Run [run_id] is [r'], and otherwise only journals have grown. *)
Definition replaced (run_id : uuid) (r' : Run) (k k' : Kernel) : Prop :=
  recorded (k <| runs := <[run_id := r']> (runs k) |>) k'.

Section Facts.
Context `{UnicodeData, IsoFormats, Environment, EventContracts, JsonEncoder}.
Context (ascii_stable : ∀ s, safe_name s → casefold (strip (nfkc s)) = s).

(** The Run that is answered for: [p] may write to its workspace, it waits for its user, and
    [active] is the request of its intent that is open. *)
Record awaits (k : Kernel) (p : Principal) (run_id clarification_id : uuid) (run : Run) (i : RunIntent)
    (active : ClarificationRequest) : Prop := {
  awaits_row : runs k !! run_id = Some run ∧ Run.id run = run_id;
  awaits_access : ∃ w, workspace_of_run (directory k) run = Some w ∧ accessible (directory k) p true w = true;
  awaits_organization : Run.organization_id run = Principal.organization_id p;
  awaits_user : Run.status run = RunStatus.WAITING_USER;
  awaits_intent : read_intent (VDict (Run.intent run)) = Some i;
  awaits_active : active_request (RunIntent.clarification i) = Some active;
  awaits_id : ClarificationRequest.id active = uuid_str clarification_id
}.

Lemma wp_translated {S A} translate (m : M ClarificationDomainError S A) (Q : A → S → Prop) X s :
  wp m Q (λ e, X (translate e)) s → wp (translated translate m) Q X s.
Proof. unfold wp, translated. by destruct (m s). Qed.

Lemma wp_parse_run_intent {S} raw waiting (Q : option RunIntent → S → Prop) X (s : S) :
  (∀ i, read_intent (VDict raw) = Some i → Q (Some i) s) → Q None s → X ClarificationStateInvalid s →
  wp (parse_run_intent raw waiting) Q X s.
Proof.
  intros HQ HN HX. unfold parse_run_intent. destruct (negb (has_schema raw)).
  - destruct waiting; [by apply wp_raise|by apply wp_ret].
  - destruct (read_intent _) as [i|] eqn:Hr; [|by apply wp_raise]. apply wp_bind, wp_raise_if; [done|]. intros _.
    by apply wp_ret, HQ.
Qed.

Lemma wp_answerable k p run_id clarification_id run (Q : RunIntent * ClarificationRequest → Kernel → Prop) X :
  row_by Run.id (runs k) run_id = Some run → (∃ w, workspace_of_run (directory k) run = Some w ∧ accessible (directory k) p true w = true) →
  Run.organization_id run = Principal.organization_id p →
  (∀ i active, awaits k p run_id clarification_id run i active → Q (i, active) k) →
  (∀ e, X e k) →
  wp (answerable run clarification_id) Q X k.
Proof.
  intros Hrow Hacc Horg HQ HX. unfold answerable. apply wp_bind, wp_raise_if; [done|].
  intros Hst%negb_false_iff%bool_decide_eq_true. apply wp_bind, wp_translated, wp_parse_run_intent; [|by apply wp_raise|done].
  intros i Hi. destruct (active_request _) as [active|] eqn:Ha; [|by apply wp_raise].
  apply wp_bind, wp_raise_if; [done|]. intros Hid%negb_false_iff%bool_decide_eq_true. apply wp_ret, HQ.
  split; try done. by apply row_by_Some.
Qed.

(** The answer to [active], in time, is applied to [i] and gives [a], and the Run goes on as [run']
    for the time that was left when it was asked. *)
Record goes_on (p : Principal) (submission : ClarificationAnswerSubmission) (now : Z) (run : Run) (i : RunIntent)
    (active : ClarificationRequest) (a : AppliedClarificationAnswer) (run' : Run) : Prop := {
  goes_on_in_time : ∃ t, instant (ClarificationRequest.expires_at active) = Some t ∧ (now < t)%Z;
  goes_on_applied : ∃ front stored, applied i submission (ClarificationRequest.id active) (uuid_str (Principal.id p)) now
                      front active stored a;
  goes_on_run : ∃ remaining,
    ClarificationState.remaining_execution_seconds (RunIntent.clarification i) = Some remaining ∧
    run' = with_answer (dump_intent (AppliedClarificationAnswer.intent a)) (now + remaining * second)%Z run
}.

(** What is journaled of an answer. *)
Definition answer_event (p : Principal) (run : Run) (a : AppliedClarificationAnswer) : EventDraft :=
  run_journal (Run.organization_id run) (Run.id run) ActorType.USER (Some (Principal.id p)) "clarification.answered"
    (answer_items a).
Definition answer_audit (p : Principal) (run : Run) (a : AppliedClarificationAnswer) : AuditDraft :=
  (audit_draft (Run.organization_id run) (Run.id run) ActorType.USER (Some (Principal.id p))
     "run.clarification.answer" "run" "SUCCESS")
    <| AuditDraft.resource_id := Some (uuid_str (Run.id run)) |> <| AuditDraft.metadata := answer_items a |>.

(** An answer that comes too late: the request is closed as expired, and the Run fails. *)
Record too_late (now : Z) (run : Run) (i : RunIntent) (active : ClarificationRequest) (run' : Run) : Prop := {
  too_late_expired : ∃ t, instant (ClarificationRequest.expires_at active) = Some t ∧ (t ≤ now)%Z;
  too_late_run : ∃ i', closed i ClarificationStatus.EXPIRED i' ∧
                 run' = with_expired_clarification (dump_intent i') now run
}.

Definition expired_error : exn := ConflictError "clarification_expired" "The clarification request has expired" [].

(** The events of an expiry. *)
Definition expiry_event (run : Run) (name : string) (payload : list (string * obj)) : EventDraft :=
  run_journal (Run.organization_id run) (Run.id run) ActorType.SYSTEM None name payload.

(** What an answer that is not taken leaves. *)
Inductive not_taken (p : Principal) (run_id clarification_id : uuid) (k : Kernel) : exn → Kernel → Prop :=
| nothing_changes e k' : same_tables k k' → not_taken p run_id clarification_id k e k'
| run_expires run i active now run' k' :
    awaits k p run_id clarification_id run i active → too_late now run i active run' → replaced run_id run' k k' →
    (∃ e1 e2, events k' = events k ++ [e1; e2] ∧
       drafted (expiry_event run "clarification.expired" [("clarification_id", OStr (ClarificationRequest.id active))]) e1 ∧
       drafted (expiry_event run "run.failed" [("error_code", OStr "clarification_expired")]) e2) →
    not_taken p run_id clarification_id k expired_error k'
| journal_refuses run i active run' e k' :
    awaits k p run_id clarification_id run i active → RunState.step (Run.status run) (Run.status run') →
    sealed run' = sealed run → replaced run_id run' k k' → event_error e →
    not_taken p run_id clarification_id k e k'.

Lemma wp_update_awaited k k1 p run_id clarification_id run i active (f : Run → Run) (Q : () → Kernel → Prop) X :
  awaits k p run_id clarification_id run i active → same_tables k k1 →
  (∀ k2, recorded (k <| runs := <[run_id := f run]> (runs k) |>) k2 → events k2 = events k → audit_logs k2 = audit_logs k → Q () k2) →
  wp (update_run (Run.id run) f) Q X k1.
Proof.
  intros [[Hrow <-] _ _ _ _ _ _] Hk HQ. apply wp_modify, HQ; [|by rewrite Hk..].
  apply same_recorded. rewrite Hk. unfold same_tables. cbn. by rewrite (alter_insert_row _ _ _ _ Hrow).
Qed.

Lemma wp_expire_run k k1 p run_id clarification_id run i active now (Q : () → Kernel → Prop) :
  awaits k p run_id clarification_id run i active → same_tables k k1 →
  (∃ t, instant (ClarificationRequest.expires_at active) = Some t ∧ (t ≤ now)%Z) →
  (∀ k', not_taken p run_id clarification_id k expired_error k' → Q () k') →
  wp (expire run i now) Q (not_taken p run_id clarification_id k) k1.
Proof.
  intros Haw Hk Ht HQ. unfold expire. apply wp_bind, wp_translated.
  pose proof (read_intent_ok _ _ (awaits_intent _ _ _ _ _ _ _ Haw)) as Hok.
  apply wp_close; [done|done| |by rewrite (awaits_active _ _ _ _ _ _ _ Haw)|by constructor].
  intros i' Hclosed. set (run' := with_expired_clarification (dump_intent i') now run).
  apply wp_bind. unfold RunState.validate_run_transition. apply wp_raise_if; [by constructor|].
  intros Hstep%negb_false_iff%bool_decide_eq_true%RunState.step_allowed. apply wp_bind.
  eapply wp_update_awaited; [done|done|]. intros k2 Hk2 Hevents _. cbv zeta.
  rewrite (awaits_active _ _ _ _ _ _ _ Haw).
  assert (∀ e k', event_error e → recorded k2 k' → not_taken p run_id clarification_id k e k') as Hrefuse.
  { intros e k' He Hk'. eapply (journal_refuses _ _ _ _ run i active run'); [done..| |done]. unfold replaced. by transitivity k2. }
  apply wp_bind, wp_event; [|intros e k3 He Hk3; by apply Hrefuse, same_recorded].
  intros e1 k3 He1 Hev1 Hr3. apply wp_bind, wp_event.
  2:{ intros e k4 He Hk4. apply Hrefuse; [done|]. transitivity k3; [done|by apply same_recorded]. }
  intros e2 k4 He2 Hev2 Hr4. assert (recorded k2 k4) as Hr24 by by transitivity k3.
  apply wp_bind. apply wp_write.
  - intros r k5 Hk5 _. apply wp_ret, HQ. eapply (run_expires _ _ _ _ run i active now run'); [done| | |].
    + split; [done|]. by exists i'.
    + unfold replaced. transitivity k2; [done|]. transitivity k4; [done|]. rewrite Hk5. split; try done; cbn; [apply same_runs|by apply prefix_app_r].
    + exists e1, e2. rewrite Hk5. cbn. rewrite Hev2, Hev1, Hevents, <-(assoc_L (++)). done.
  - intros e k5 Hk5 He. apply Hrefuse; [unfold event_error; by rewrite He|]. transitivity k4; [done|by apply same_recorded].
Qed.

End Facts.

(** ** Among other requests *)

(** The Run of an answer moves as declared, and nothing else changes. *)
Definition run_moved (k k' : Kernel) : Prop :=
  recorded k k' ∨
  ∃ run run', runs k !! Run.id run = Some run ∧ sealed run' = sealed run ∧
    RunState.step (Run.status run) (Run.status run') ∧ replaced (Run.id run) run' k k'.

Lemma run_moved_recorded k k1 k2 : run_moved k k1 → recorded k1 k2 → run_moved k k2.
Proof.
  intros [Hr|(run & run' & ? & ? & ? & Hrep)] H12; [left; by transitivity k1|right]. exists run, run'.
  repeat (split; [done|]). unfold replaced in *. by transitivity k1.
Qed.

Lemma run_moved_runs k k' : run_moved k k' → runs_move k k' ∧ directory k' = directory k.
Proof.
  intros [Hr|(run & run' & Hrun & Hs & Hstep & Hrep)]; [split; [by apply recorded_move|apply Hr]|].
  split; [|by rewrite (recorded_directory _ _ Hrep)].
  transitivity (k <| runs := <[Run.id run := run']> (runs k) |>); [|by apply recorded_move].
  pose proof (update_run_moves (Run.id run) (λ _, run') k) as Hm. unfold wp, update_run, modify in Hm.
  rewrite (alter_insert_row _ _ _ _ Hrun) in Hm. apply Hm. intros r Hr _. rewrite Hrun in Hr. injection Hr as <-.
  split; [done|by apply steps_one].
Qed.

Section Among.
Context `{UnicodeData, IsoFormats, Environment, EventContracts, JsonEncoder}.

#[export] Instance translated_pure {S A} t (m : M ClarificationDomainError S A) : Pure m → Pure (translated t m).
Proof. intros Hm s. unfold wp, translated. pose proof (Hm s) as Hs. unfold wp in Hs. by destruct (m s). Qed.
#[export] Instance validated_pure {S A} (o : option A) : Pure (S := S) (RunIntents.validated o).
Proof. destruct o; apply _. Qed.
#[export] Instance mapM_pure {S A B} (f : A → M ClarificationDomainError S B) l : (∀ x, Pure (f x)) → Pure (mapM f l).
Proof. intros Hf. induction l as [|x l IH]; [apply _|]. change (mapM f (x :: l)) with (b ← f x; bs ← mapM f l; mret (b :: bs)). apply _. Qed.
#[export] Instance parse_pure {S} raw waiting : Pure (S := S) (parse_run_intent raw waiting).
Proof. unfold parse_run_intent. destruct (negb _), waiting; apply _. Qed.
#[export] Instance close_pure {S} i status t : Pure (S := S) (close_active_clarification i status t).
Proof. unfold close_active_clarification. apply _. Qed.
#[export] Instance free_text_pure {S} f v : Pure (S := S) (_validate_free_text_value f v).
Proof.
  unfold _validate_free_text_value. case_bool_decide; destruct v as [| | | | |d]; try by apply _.
  apply bind_pure; [apply _|]. intros _. destruct (dget_or "start" VNone d), (dget_or "end" VNone d); apply _.
Qed.
#[export] Instance answer_field_pure {S} active l f : Pure (S := S) (answer_field active l f).
Proof.
  unfold answer_field, answer_value, make_resolved_slot. destruct (List.find _ _); [|apply _].
  apply bind_pure; [apply _|]. intros [[[v kind] source] ref]. apply _.
Qed.
#[export] Instance apply_pure {S} i sub c w t : Pure (S := S) (apply_clarification_answer i sub c w t).
Proof. unfold apply_clarification_answer. apply _. Qed.
#[export] Instance answerable_pure run c : Pure (answerable run c).
Proof. unfold answerable. apply bind_pure; [apply _|]. intros _. apply bind_pure; [apply _|]. intros [i|]; apply _. Qed.

Lemma wp_update_moves k k1 run f (Q : () → Kernel → Prop) X :
  runs k !! Run.id run = Some run → same_tables k k1 → sealed (f run) = sealed run →
  RunState.step (Run.status run) (Run.status (f run)) → (∀ k2, run_moved k k2 → Q () k2) →
  wp (update_run (Run.id run) f) Q X k1.
Proof.
  intros Hrow Hk Hs Hstep HQ. apply wp_modify, HQ. right. exists run, (f run). repeat (split; [done|]).
  apply same_recorded. rewrite Hk. unfold same_tables. cbn. by rewrite (alter_insert_row _ _ _ _ Hrow).
Qed.

Lemma wp_recording_moves {A} (m : Py Kernel A) k k1 :
  Recording m → run_moved k k1 → wp m (λ _, run_moved k) (λ _, run_moved k) k1.
Proof.
  intros Hm Hk. eapply wp_mono; [apply Hm|..]; intros a k2 Hk2; by eapply run_moved_recorded.
Qed.

Lemma wp_validated_step {S} a b (s : S) (Q : () → S → Prop) X :
  (∀ e, X e s) → (RunState.step a b → Q () s) → wp (RunState.validate_run_transition a b) Q X s.
Proof.
  intros HX HQ. unfold RunState.validate_run_transition. apply wp_raise_if; [done|].
  intros Hv%negb_false_iff%bool_decide_eq_true%RunState.step_allowed. by apply HQ.
Qed.

Lemma answer_moves p run_id clarification_id submission k :
  wp (answer p run_id clarification_id submission) (λ _, run_moved k) (λ _, run_moved k) k.
Proof.
  assert (∀ k', same_tables k k' → run_moved k k') as Hsame by by intros k' ?; left; apply same_recorded.
  assert (run_moved k k) as Hrefl by by left.
  unfold answer. apply wp_bind, wp_run_access; [|done]. intros run w [Hrow <-]%row_by_Some _ _ _.
  apply wp_bind, wp_pure; [apply _| |done]. intros [i active] _. apply wp_bind, wp_utc_now. intros now k1 Hk1.
  destruct (instant _) as [t|]; [|apply wp_raise; auto]. apply wp_bind. destruct (t <=? now)%Z.
  - unfold expire. apply wp_bind, wp_bind, wp_pure; [apply _| |auto]. intros i' _.
    apply wp_bind, wp_validated_step; [auto|]. intros Hstep. apply wp_bind. eapply wp_update_moves; [done..|].
    intros k2 Hk2. cbv zeta. eapply wp_mono; [apply wp_recording_moves; [apply _|exact Hk2]| |done].
    intros [] k3 Hk3. by apply wp_raise.
  - apply wp_ret. destruct (ClarificationState.remaining_execution_seconds _); [|apply wp_raise; auto].
    apply wp_bind, wp_pure; [apply _| |auto]. intros a _. apply wp_bind, wp_validated_step; [auto|]. intros Hstep.
    apply wp_bind. eapply wp_update_moves; [done..|]. intros k2 Hk2. apply wp_recording_moves; [apply _|done].
Qed.

(** What a worker claims is not a Run that waits for its user, however long ago its request has
    expired: such a Run stays as it is. *)
Definition left_alone (i : uuid) (r : Run) (k : Kernel) : Prop := ∃ v, runs k !! i = Some (with_version v r).

Lemma recorded_left_alone i r k k' : left_alone i r k → recorded k k' → left_alone i r k'.
Proof. intros [v Hv] Hk. destruct (recorded_run _ _ _ _ Hk Hv) as [v' Hv']. exists v'. by rewrite Hv', with_version_idemp. Qed.

Lemma wp_update_left_alone i r j f k : j ≠ i → left_alone i r k → wp (update_run j f) (λ _, left_alone i r) (λ _ _, True) k.
Proof.
  intros Hj [v Hv]. apply wp_modify. exists v. change (alter f j (runs k) !! i = Some (with_version v r)).
  by rewrite lookup_alter_ne.
Qed.

Lemma wp_recording_left_alone {A} (m : Py Kernel A) i r k :
  Recording m → left_alone i r k → wp m (λ _, left_alone i r) (λ _ _, True) k.
Proof. intros Hm Hk. eapply wp_mono; [apply Hm| |done]. intros a k' ?. by eapply recorded_left_alone. Qed.

Lemma claim_leaves_waiting worker k i r :
  runs_keyed k → runs k !! i = Some r → Run.status r = RunStatus.WAITING_USER →
  wp (_claim worker) (λ _, left_alone i r) (λ _ _, True) k.
Proof.
  intros Hkeyed Hi Hst. unfold _claim. apply wp_bind, wp_utc_now. intros now k1 Hk1. apply wp_savepoint.
  assert (runs k1 = runs k) as Hruns by by rewrite Hk1.
  assert (left_alone i r k1) as Hl. { exists (Run.aggregate_version r). by rewrite Hruns, with_version_same. }
  unfold claim_at. apply wp_bind, wp_gets. destruct (head _) as [run|] eqn:Hfound; [|by apply wp_ret].
  apply head_elem, elem_of_order_by, elem_of_select in Hfound as [Hclaim [j Hrun]]. rewrite Hruns in Hrun.
  assert (Run.id run ≠ i) as Hne.
  { intros Hid. rewrite (Hkeyed _ _ Hrun) in Hid. subst j. assert (run = r) as -> by congruence.
    unfold claimable_run in Hclaim. rewrite Hst in Hclaim. done. }
  assert (∀ B f (m : () → Py Kernel B) k2, left_alone i r k2 → (∀ u k3, left_alone i r k3 → wp (m u) (λ _, left_alone i r) (λ _ _, True) k3) →
    wp (update_run (Run.id run) f ≫= m) (λ _, left_alone i r) (λ _ _, True) k2) as Hthen.
  { intros B f m k2 Hk2 Hm. apply wp_bind. eapply wp_mono; [by apply wp_update_left_alone|by intros u k3; apply Hm|done]. }
  destruct (overdue_run now run).
  - apply wp_bind, wp_validated_step; [done|]. intros _. apply Hthen; [done|]. intros u k3 Hk3.
    by apply wp_recording_left_alone; [apply _|].
  - assert (∀ k2, left_alone i r k2 → wp (update_run (Run.id run) (with_run_lease worker now);;
      append (worker_event run (if bool_decide (Run.status run = RunStatus.PENDING) then "run.started" else "run.resumed")
          [(OStr "worker", OStr worker)]);; mret (Some (Run.organization_id run, Run.id run)))
      (λ _, left_alone i r) (λ _ _, True) k2) as Hlease.
    { intros k2 Hk2. apply Hthen; [done|]. intros u k3 Hk3. by apply wp_recording_left_alone; [apply _|]. }
    cbv zeta. apply wp_bind. case_bool_decide; [|by apply wp_ret, Hlease].
    apply wp_bind, wp_validated_step; [done|]. intros _. eapply wp_mono; [by apply wp_update_left_alone| |done].
    intros u k3 Hk3. by apply Hlease.
Qed.
End Among.

(** ** Answers that run *)

Module ClarificationSample.
#[local] Existing Instance EventLog.Sample.environment.
#[local] Existing Instance IntentSample.ascii_unicode.
#[local] Existing Instance IntentSample.utc_formats.

#[local] Instance contracts : EventContracts := {|
  payload_validators := map (λ name, ((name, 1%Z), λ _, []))
    ["clarification.answered"; "clarification.expired"; "run.failed"];
  envelope_validator _ := [];
  error_code_registered _ := true
|}.
#[local] Instance encoder : JsonEncoder := λ _, inr VNone.

Definition waiting : Run :=
  EventLog.Sample.run <| Run.status := RunStatus.WAITING_USER |>
    <| Run.intent := dump_intent IntentSample.asked_once |> <| Run.deadline_at := None |>.

Definition owner : Principal := Principal.Make 1 10 "u1" "Owner" None None ∅ ∅ [].

(** The Run waits, and the clock shows [t]. *)
Definition at_time (t : Z) : Kernel :=
  EventLog.Sample.kernel <| readings := [t; t; t] |> <| next_id := 100 |> <| runs := {[50%N := waiting]} |>.

Definition asked : uuid := EventLog.Sample.environment.(uuid7) 2.

Definition answer_at (t : Z) : outcome exn Kernel Run := answer owner 50 asked IntentSample.submission (at_time t).

Definition summary (x : outcome exn Kernel Run) : option (RunStatus * option Z) * (RunStatus + exn) * list string :=
  match x with
  | Ok r k => ((λ r, (Run.status r, Run.deadline_at r)) <$> runs k !! 50%N, inl (Run.status r), map Event.name (events k))
  | Raise e k => ((λ r, (Run.status r, Run.deadline_at r)) <$> runs k !! 50%N, inr e, map Event.name (events k))
  end.

Example in_time :
  summary (answer_at (IntentSample.now + 1)) =
    (Some (RunStatus.RUNNING, Some (IntentSample.now + 1 + 100 * second)%Z), inl RunStatus.RUNNING, ["clarification.answered"]).
Proof. vm_compute. reflexivity. Qed.

Example expired_one :
  summary (answer_at (IntentSample.now + 600 * second)) =
    (Some (RunStatus.FAILED, None), inr expired_error, ["clarification.expired"; "run.failed"]).
Proof. vm_compute. reflexivity. Qed.

Definition answered_in_time (x : outcome exn Kernel Run) : bool := match x with Ok _ _ => true | Raise _ _ => false end.

Lemma in_time_ok : answered_in_time (answer_at (IntentSample.now + 1)) = true.
Proof. vm_compute. reflexivity. Qed.

End ClarificationSample.
