(* ===== verification/WorkspaceOperations.v ===== *)
(** * The operations on workspaces, threads and turns

    Every operation of [application/workspaces.py] is [Evolving] and [Moving]. *)

From S2P Require Import Prelude PyText PyVal Redaction Enums Models Kernel Domain CanonicalJson.
From S2P Require Import Events Identity AgentSpec TurnRequest WorkspaceState.
From S2P Require Import ThreadFacts ConversationContext WorkspaceService RunWorker WorkspaceFacts WorkspaceKeeps.

Section Operations.
Context `{Environment, EventContracts, JsonEncoder, PublicationGuard, RunSettings}.

(** ** Reads and records *)

#[export] Instance publishable_recording p l : Recording (publishable p l).
Proof. induction l as [|item l IH]; cbn [publishable]; apply _. Qed.

#[export] Instance record_turn_recording p actor turn run n : Recording (record_turn p actor turn run n).
Proof. unfold record_turn. apply _. Qed.

#[export] Instance public_run_view_recording p run : Recording (public_run_view p run).
Proof. unfold public_run_view. apply _. Qed.

#[export] Instance resolve_pins_pure org overrides names : Pure (resolve_pins org overrides names).
Proof.
  induction names as [|name names IH]; cbn [resolve_pins]; [apply _|].
  apply bind_pure; [|intros pin; apply _]. unfold resolve_pin. apply _.
Qed.

#[export] Instance run_plan_pure p thread m : Pure (run_plan p thread m).
Proof. unfold run_plan, resolve_prompt_pins. apply _. Qed.

Lemma modify_steps_same f : SameDir (modify (λ s : WorkspaceDb, s <| run_steps := f s |>)).
Proof. by intros s. Qed.
Lemma modify_steps_moving f : Moving (modify (λ s : WorkspaceDb, s <| run_steps := f s |>)).
Proof. intros s. by apply same_runs_move. Qed.

#[export] Instance cancel_steps_same org run_id t : SameDir (cancel_active_run_steps org run_id t).
Proof. unfold cancel_active_run_steps. apply bind_same_dir; [apply _|]. intros n. apply bind_same_dir; [apply modify_steps_same|apply _]. Qed.
#[export] Instance cancel_steps_moving org run_id t : Moving (cancel_active_run_steps org run_id t).
Proof. unfold cancel_active_run_steps. apply bind_moving; [apply _|]. intros n. apply bind_moving; [apply modify_steps_moving|apply _]. Qed.

#[export] Instance insert_snapshot_same row : SameDir (insert_snapshot row).
Proof. unfold insert_snapshot. apply bind_same_dir; [apply _|]. intros b. apply bind_same_dir; [apply _|]. by intros _ s. Qed.
#[export] Instance insert_snapshot_moving row : Moving (insert_snapshot row).
Proof.
  unfold insert_snapshot. apply bind_moving; [apply _|]. intros b. apply bind_moving; [apply _|].
  intros _ s. by apply same_runs_move.
Qed.

#[export] Instance pin_same org run_id t n l : SameDir (pin org run_id t n l).
Proof. revert n. induction l as [|item l IH]; intros n; cbn [pin]; apply _. Qed.
#[export] Instance pin_moving org run_id t n l : Moving (pin org run_id t n l).
Proof. revert n. induction l as [|item l IH]; intros n; cbn [pin]; apply _. Qed.

#[export] Instance capture_same p run_id turn thread l : SameDir (capture p run_id turn thread l).
Proof. unfold capture. apply _. Qed.
#[export] Instance capture_moving p run_id turn thread l : Moving (capture p run_id turn thread l).
Proof. unfold capture. apply _. Qed.

#[export] Instance attachment_same p w reference : SameDir (validated_attachment p w reference).
Proof. unfold validated_attachment. apply _. Qed.
#[export] Instance attachment_moving p w reference : Moving (validated_attachment p w reference).
Proof. unfold validated_attachment. apply _. Qed.
#[export] Instance attachments_same p w l : SameDir (_validate_attachments p w l).
Proof. induction l; cbn [_validate_attachments]; apply _. Qed.
#[export] Instance attachments_moving p w l : Moving (_validate_attachments p w l).
Proof. induction l; cbn [_validate_attachments]; apply _. Qed.

(** ** Writes in a session *)

#[export] Instance insert_workspace_in row : Evolving (S := WorkspaceDb) (in_kernel (insert_workspace row)).
Proof. apply in_kernel_evolving, _. Qed.
#[export] Instance insert_workspace_moving row : Moving (S := WorkspaceDb) (in_kernel (insert_workspace row)).
Proof. apply in_kernel_moving. unfold insert_workspace. apply _. Qed.
#[export] Instance insert_thread_moving row : Moving (S := WorkspaceDb) (in_kernel (insert_thread row)).
Proof. apply in_kernel_moving. unfold insert_thread. apply _. Qed.
#[export] Instance insert_turn_moving row : Moving (S := WorkspaceDb) (in_kernel (insert_turn row)).
Proof. apply in_kernel_moving. unfold insert_turn. apply _. Qed.
#[export] Instance insert_run_in row : SameDir (S := WorkspaceDb) (in_kernel (insert_run row)).
Proof. apply in_kernel_same_dir, _. Qed.
#[export] Instance insert_run_moving_in row : Moving (S := WorkspaceDb) (in_kernel (insert_run row)).
Proof. apply in_kernel_moving, _. Qed.
#[export] Instance update_run_in i f : SameDir (S := WorkspaceDb) (in_kernel (update_run i f)).
Proof. apply in_kernel_same_dir, _. Qed.
#[export] Instance on_directory_moving_in f : Moving (S := WorkspaceDb) (in_kernel (on_directory f)).
Proof. apply in_kernel_moving, _. Qed.
#[export] Instance with_archived_in i t t' :
  Evolving (S := WorkspaceDb) (in_kernel (on_directory (update_thread i (with_archived t t')))).
Proof. by apply in_kernel_evolving, update_thread_evolving. Qed.
#[export] Instance with_resumed_in i t :
  Evolving (S := WorkspaceDb) (in_kernel (on_directory (update_thread i (with_resumed t)))).
Proof. by apply in_kernel_evolving, update_thread_evolving. Qed.

(** ** Workspaces and threads *)

#[export] Instance create_workspace_evolving p r : Evolving (create_workspace p r).
Proof. unfold create_workspace. apply _. Qed.
#[export] Instance create_workspace_moving p r : Moving (create_workspace p r).
Proof. unfold create_workspace. apply _. Qed.

#[export] Instance create_thread_evolving p w title actor : Evolving (create_thread p w title actor).
Proof.
  unfold create_thread. apply bind_evolving; [apply _|]. intros ws. apply bind_evolving; [apply _|]. intros i.
  apply bind_evolving; [apply _|]. intros now. apply bind_evolving; [|intros _; apply _].
  by apply in_kernel_evolving, insert_root_evolving.
Qed.
#[export] Instance create_thread_moving p w title actor : Moving (create_thread p w title actor).
Proof. unfold create_thread. apply _. Qed.

#[export] Instance archive_thread_evolving p i : Evolving (archive_thread p i).
Proof. unfold archive_thread. apply _. Qed.
#[export] Instance archive_thread_moving p i : Moving (archive_thread p i).
Proof. unfold archive_thread. apply _. Qed.
#[export] Instance resume_thread_evolving p i : Evolving (resume_thread p i).
Proof. unfold resume_thread. apply _. Qed.
#[export] Instance resume_thread_moving p i : Moving (resume_thread p i).
Proof. unfold resume_thread. apply _. Qed.
#[export] Instance archive_parent_evolving p parent i c : Evolving (archive_parent p parent i c).
Proof. unfold archive_parent. apply _. Qed.
#[export] Instance archive_parent_moving p parent i c : Moving (archive_parent p parent i c).
Proof. unfold archive_parent. apply _. Qed.
#[export] Instance fork_thread_moving p i from title : Moving (fork_thread p i from title).
Proof.
  unfold fork_thread. apply bind_moving; [apply _|]. intros parent. apply bind_moving; [apply _|]. intros l.
  apply bind_moving; [destruct (fork_origin from l); apply _|]. intros _. apply _.
Qed.
#[export] Instance create_turn_moving p i r actor : Moving (create_turn p i r actor).
Proof. unfold create_turn. apply _. Qed.
#[export] Instance replay_run_same p i : SameDir (replay_run p i).
Proof. unfold replay_run. apply _. Qed.
#[export] Instance replay_run_moving p i : Moving (replay_run p i).
Proof. unfold replay_run. apply _. Qed.
#[export] Instance cancel_run_same p i : SameDir (cancel_run p i).
Proof. unfold cancel_run, RunState.validate_run_transition. apply _. Qed.

(** ** Forks and turns *)

Lemma bind_same_at {A B} (m : Py WorkspaceDb A) (f : A → Py WorkspaceDb B) s Q :
  SameDir m → (∀ a s', dir s' = dir s → wp (f a) Q (λ _ _, True) s') → wp (m ≫= f) Q (λ _ _, True) s.
Proof. intros Hm Hf. apply wp_bind. eapply wp_mono; [apply Hm|intros a s'; apply Hf|done]. Qed.

Definition evolved (s s' : WorkspaceDb) : Prop := directory_ok (dir s') ∧ grows (dir s) (dir s').

Lemma evolve_rest {A} (m : Py WorkspaceDb A) s s' :
  Evolving m → evolved s s' → wp m (λ _, evolved s) (λ _ _, True) s'.
Proof.
  intros Hm [Hok Hg]. eapply wp_mono; [by apply Hm| |done]. intros a s'' [? Hg']. split; [done|by etransitivity].
Qed.

(** Reaching a thread for a write, and its history. *)
Lemma wp_thread p i (s : WorkspaceDb) (Q : Thread → WorkspaceDb → Prop) :
  (∀ t, threads (dir s) !! i = Some t → Thread.id t = i → Thread.organization_id t = Principal.organization_id p →
     Q t s) →
  wp (in_kernel (require_thread_access p i true)) Q (λ _ _, True) s.
Proof.
  intros HQ. apply wp_read; [apply _|]. apply wp_pure; [apply _| |done]. intros t Ht.
  apply thread_access_ok in Ht as (_ & Ht & Hi & Ho & _). by apply HQ.
Qed.

Lemma wp_history p t (s : WorkspaceDb) (Q : list Turn → WorkspaceDb → Prop) :
  directory_ok (dir s) → threads (dir s) !! Thread.id t = Some t →
  Thread.organization_id t = Principal.organization_id p →
  (∀ l c, history (dir s) t l c → numbered l → Q l s) →
  wp (in_kernel (effective_turns p t)) Q (λ _ _, True) s.
Proof.
  intros [Hok _] Ht Ho HQ. destruct (ok_history _ Hok _ _ Ht) as (l & c & Hl & Hn).
  apply wp_read; [apply _|]. apply wp_pure; [apply _| |done]. intros l' Hl'.
  destruct (effective_sound _ _ _ _ _ _ _ _ _ Hl Ho Hl') as [-> _]. by eapply HQ.
Qed.

Lemma wp_insert_turn row (s : WorkspaceDb) (Q : () → WorkspaceDb → Prop) :
  (turns (dir s) !! Turn.id row = None →
   Q () (set_kernel ((base s) <| directory := put_turn (Turn.id row) row (dir s) |>) s)) →
  wp (in_kernel (insert_turn row)) Q (λ _ _, True) s.
Proof.
  intros HQ. apply wp_in_kernel. unfold insert_turn, integrity, free. repeat wp_step; [done|]. split_bool.
  apply HQ. by apply eq_None_not_Some.
Qed.

Lemma wp_insert_thread row (s : WorkspaceDb) (Q : () → WorkspaceDb → Prop) :
  (threads (dir s) !! Thread.id row = None →
   Q () (set_kernel ((base s) <| directory := put_thread (Thread.id row) row (dir s) |>) s)) →
  wp (in_kernel (insert_thread row)) Q (λ _ _, True) s.
Proof.
  intros HQ. apply wp_in_kernel. unfold insert_thread, varchar, integrity, free. repeat wp_step; try done.
  split_bool. apply HQ. by apply eq_None_not_Some.
Qed.

Lemma next_ordinal_numbered l : numbered l → next_ordinal l = Z.of_nat (S (length l)).
Proof. intros Hn%numbered_last. unfold next_ordinal. destruct (last l); simpl in *; lia. Qed.

(** The turn that [create_turn] numbers behind the history of its thread. *)
Lemma put_turn_ok_grows d t l c u :
  directory_ok d → threads d !! Thread.id t = Some t → history d t l c → numbered l →
  turns d !! Turn.id u = None → Turn.thread_id u = Thread.id t →
  Turn.organization_id u = Thread.organization_id t → Turn.ordinal u = next_ordinal l →
  directory_ok (put_turn (Turn.id u) u d) ∧ grows d (put_turn (Turn.id u) u d).
Proof.
  intros [Hok Hm] Ht Hl Hn Hfree Hthread Horg Hnext. rewrite next_ordinal_numbered in Hnext by done.
  split; [split; [by eapply (put_turn_ok d t l c)|done]|by eapply (put_turn_grows d t l c)].
Qed.

#[export] Instance create_turn_evolving p i r actor : Evolving (create_turn p i r actor).
Proof.
  intros s Hok. unfold create_turn. apply wp_bind, wp_thread. intros t Ht Hi Ho. subst i.
  apply wp_bind, wp_raise_if; [done|]. intros _. apply wp_bind, wp_history; [done..|]. intros l c Hl Hn.
  apply bind_same_at; [apply _|]. intros now s1 Hs1. apply bind_same_at; [apply _|]. intros plan s2 Hs2.
  apply bind_same_at; [apply _|]. intros refs s3 Hs3. apply bind_same_at; [apply _|]. intros turn_id s4 Hs4.
  assert (dir s4 = dir s) as Hd by congruence. apply wp_bind, wp_insert_turn. rewrite Hd. intros Hfree.
  apply evolve_rest; [apply _|]. unfold evolved. unfold dir at 1 3. rewrite kernel_set_kernel.
  by apply (put_turn_ok_grows _ t l c).
Qed.

(** A fork point that was found in the history of the parent. *)
Lemma fork_inherits t l turn_id :
  Thread.forked_from_turn_id t = fork_origin turn_id l →
  (∀ x, fork_origin turn_id l = Some x → x ∈ Turn.id <$> l) → is_Some (inherited t l).
Proof.
  unfold inherited. intros -> Hin. destruct (fork_origin turn_id l) as [x|]; [|done].
  by apply up_to_found, Hin.
Qed.

Lemma wp_fork_point turn_id l (s : WorkspaceDb) (Q : () → WorkspaceDb → Prop) :
  ((∀ x, fork_origin turn_id l = Some x → x ∈ Turn.id <$> l) → Q () s) →
  wp (match fork_origin turn_id l with
      | Some x => raise_if (negb (existsb (λ turn, bool_decide (Turn.id turn = x)) l))
                    (NotFoundError "Turn" (uuid_str x))
      | None => mret ()
      end) Q (λ _ _, True) s.
Proof.
  intros HQ. destruct (fork_origin turn_id l) as [x|]; [|by apply wp_ret, HQ]. apply wp_raise_if; [done|].
  intros Hex%negb_false_iff. apply existsb_true in Hex as (u & Hu & Hid). split_bool.
  apply HQ. intros ? [= <-]. rewrite <-Hid. by apply list_elem_of_fmap_2.
Qed.

(** The rest of an operation that returns a value it already has. *)
Lemma evolve_then {A B} (m : Py WorkspaceDb A) (f : A → Py WorkspaceDb B) s s' (Q : B → WorkspaceDb → Prop) :
  Evolving m → evolved s s' → (∀ a s'', evolved s s'' → wp (f a) Q (λ _ _, True) s'') →
  wp (m ≫= f) Q (λ _ _, True) s'.
Proof. intros Hm Hs Hf. apply wp_bind. eapply wp_mono; [by apply evolve_rest|apply Hf|done]. Qed.

(** What a fork leaves: the new thread below its parent. *)
Lemma fork_row p i from title s :
  directory_ok (dir s) →
  wp (fork_thread p i from title) (λ thread s', evolved s s' ∧ Thread.parent_thread_id thread = Some i ∧
    ∃ t', threads (dir s') !! Thread.id thread = Some t' ∧ lineage t' = lineage thread) (λ _ _, True) s.
Proof.
  intros Hok. unfold fork_thread. apply wp_bind, wp_thread. intros t Ht Hi Ho. subst i.
  apply wp_bind, wp_history; [done..|]. intros l c Hl Hn. apply wp_bind, wp_fork_point. intros Hin.
  apply bind_same_at; [apply _|]. intros id s1 Hs1. apply bind_same_at; [apply _|]. intros now s2 Hs2.
  assert (dir s2 = dir s) as Hd by congruence. apply wp_bind, wp_insert_thread. rewrite Hd.
  set (thread := new_thread id p (Thread.workspace_id t) (fork_title title t) (Some (Thread.id t))
    (fork_origin from l) now). intros Hfree.
  set (d := put_thread (Thread.id thread) thread (dir s)). set (s3 := set_kernel _ s2).
  assert (dir s3 = d) as Hd3 by (unfold dir, s3; by rewrite kernel_set_kernel).
  destruct Hok as [Hok Hm]. assert (grows (dir s) d) as Hg by by apply put_thread_grows.
  assert (directory_ok d) as Hokd.
  { split; [|done]. destruct (fork_inherits thread l from eq_refl Hin) as [pre Hpre].
    apply put_thread_ok; [done..|]. right. by exists t, l, c, pre. }
  assert (threads d !! Thread.id thread = Some thread) as Hrow by apply lookup_insert_eq.
  assert (evolved s3 s3) as He3 by (split; [by rewrite Hd3|done]).
  do 4 (eapply evolve_then; [apply _|eassumption|]; intros ? ? ?). apply wp_ret.
  match goal with He : evolved s3 ?x |- context[evolved s ?x] => destruct He as [Hokx Hgx] end.
  rewrite Hd3 in Hgx. split; [split; [done|by transitivity d]|]. split; [done|].
  by apply (grows_threads _ _ Hgx).
Qed.

#[export] Instance fork_thread_evolving p i from title : Evolving (fork_thread p i from title).
Proof. intros s Hok. eapply wp_mono; [by apply fork_row|by intros ? ? []|done]. Qed.

(** ** Members *)

Lemma member_permissions permissions :
  let normalized := order_by string_le (remove_dups permissions) in
  length normalized ≠ 0%nat → forallb (λ x, bool_decide (x ∈ ["read"; "write"])) normalized = true →
  normalized ∈ [["read"]; ["write"]; ["read"; "write"]].
Proof.
  intros normalized Hne Hall. subst normalized. pose proof (NoDup_remove_dups permissions) as Hnd.
  assert (∀ x, x ∈ remove_dups permissions → x = "read" ∨ x = "write") as Hx.
  { intros x Hx. rewrite forallb_true in Hall. specialize (Hall x). rewrite elem_of_order_by in Hall.
    specialize (Hall Hx). split_bool. set_solver. }
  clear Hall. assert (length (remove_dups permissions) ≠ 0%nat) as Hlen.
  { intros He. apply Hne. by rewrite order_by_perm. }
  clear Hne. destruct (remove_dups permissions) as [|x [|y [|z l]]]; [done|..].
  - destruct (Hx x) as [->| ->]; [left|by vm_compute; left|by vm_compute; right; left].
  - apply NoDup_cons in Hnd as [Hxy _].
    destruct (Hx x) as [->| ->]; [left| |]; (destruct (Hx y) as [->| ->]; [right; left| |]); try set_solver.
    all: vm_compute; do 2 right; left.
  - exfalso. rewrite !NoDup_cons in Hnd. destruct Hnd as (? & ? & ? & _).
    destruct (Hx x), (Hx y), (Hx z); set_solver.
Qed.

Lemma members_put (l : list WorkspaceMember) d :
  directory_ok d → members_ok l → directory_ok (put_members l d) ∧ grows d (put_members l d).
Proof.
  intros [Hok _] Hl. assert (kept d (put_members l d)) as Hk by by apply same_kept.
  split; [|by apply kept_grows]. split; [by eapply kept_ok|done].
Qed.

Lemma members_snoc l m :
  members_ok l → member_ok m → (∀ m', m' ∈ l → member_key m' ≠ member_key m) → members_ok (l ++ [m])%list.
Proof.
  intros [Hnd Hl] Hm Hne. split; [|by rewrite Forall_app, Forall_singleton].
  rewrite fmap_app, NoDup_app. split; [done|]. split; [|apply NoDup_singleton].
  intros k (m' & -> & Hm')%list_elem_of_fmap Hk. apply list_elem_of_singleton in Hk. by eapply Hne.
Qed.

Lemma members_map l f : members_ok l → (∀ m, member_key (f m) = member_key m) →
  (∀ m, member_ok m → member_ok (f m)) → members_ok (map f l).
Proof.
  intros [Hnd Hl] Hkey Hok. split.
  - assert (member_key <$> map f l = member_key <$> l) as ->; [|done].
    rewrite <-list_fmap_compose. apply list_fmap_ext. intros i m _. apply Hkey.
  - apply Forall_fmap. eapply Forall_impl; [exact Hl|]. exact Hok.
Qed.

Lemma members_filter l f : members_ok l → members_ok (List.filter f l).
Proof.
  intros [Hnd Hl]. induction l as [|m l IH]; [done|]. apply NoDup_cons in Hnd as [Hm Hnd].
  apply Forall_cons in Hl as [Hmok Hl]. destruct (IH Hnd Hl) as [Hnd' Hl']. simpl. destruct (f m); [|done].
  split; [|by constructor]. csimpl. constructor; [|done]. intros (m' & He & Hin)%list_elem_of_fmap. apply Hm.
  rewrite He. apply list_elem_of_fmap_2. apply list_elem_of_In in Hin. apply filter_In in Hin as [Hin _].
  by apply list_elem_of_In.
Qed.

(** The row of a member that was not there, and of one that was. *)
Lemma wp_put_members (l : Directory → list WorkspaceMember) (s : WorkspaceDb) :
  directory_ok (dir s) → members_ok (l (dir s)) →
  wp (in_kernel (on_directory (λ d, put_members (l d) d))) (λ _, evolved s) (λ _ _, True) s.
Proof.
  intros Hok Hl. apply wp_in_kernel. unfold on_directory. apply wp_modify. unfold evolved. unfold dir at 1 3.
  rewrite kernel_set_kernel. by apply members_put.
Qed.

Definition save_member (p : Principal) (workspace_id user_id : uuid) (normalized : list string)
    (existing : option WorkspaceMember) : Py WorkspaceDb WorkspaceMember :=
  let mine := membership workspace_id user_id in
  match existing with
  | None =>
      now ← in_kernel utc_now;
      let member := WorkspaceMember.Make workspace_id user_id (Principal.organization_id p)
        (bool_decide ("write" ∈ normalized)) normalized (Principal.id p) now in
      in_kernel (on_directory (λ d, put_members (workspace_members d ++ [member])%list d));;
      mret member
  | Some member =>
      in_kernel (on_directory (λ d, put_members
        (map (λ m, if mine m then with_permissions normalized m else m) (workspace_members d)) d));;
      mret (with_permissions normalized member)
  end.

Lemma save_member_evolves p w user_id normalized (s : WorkspaceDb) :
  normalized ∈ [["read"]; ["write"]; ["read"; "write"]] → directory_ok (dir s) →
  wp (save_member p w user_id normalized
        (head (List.filter (membership w user_id) (workspace_members (dir s)))))
    (λ _, evolved s) (λ _ _, True) s.
Proof.
  intros Hn Hok. pose proof (ok_members _ Hok) as Hm. unfold save_member.
  destruct (head _) as [member|] eqn:Hhead.
  - apply wp_bind. eapply wp_mono; [apply (wp_put_members
      (λ d, map (λ m, if membership w user_id m then with_permissions normalized m else m) (workspace_members d))); [done|]
      |intros ? s' ?; by apply wp_ret|done].
    apply members_map; [done|..]; intros m; destruct (membership w user_id m); try done.
  - apply bind_same_at; [apply _|]. intros now s' Hs'. apply wp_bind.
    eapply wp_mono; [apply (wp_put_members (λ d, workspace_members d ++
      [WorkspaceMember.Make w user_id (Principal.organization_id p) (bool_decide ("write" ∈ normalized)) normalized
         (Principal.id p) now])%list)|intros ? s'' ?; apply wp_ret|done]; [by rewrite Hs'| |].
    + rewrite Hs'. apply members_snoc; [done|by split|]. intros m Hin [= Hw Hu].
      assert (m ∈ List.filter (membership w user_id) (workspace_members (dir s))) as Hf.
      { apply list_elem_of_In, filter_In. split; [by apply list_elem_of_In|]. unfold membership.
        by rewrite Hw, Hu, !bool_decide_true. }
      destruct (List.filter _ _); [by apply not_elem_of_nil in Hf|done].
    + unfold evolved in *. rewrite Hs' in *. done.
Qed.

#[export] Instance add_member_evolving p w user_id permissions : Evolving (add_member p w user_id permissions).
Proof.
  intros s Hok. unfold add_member. apply wp_bind, wp_read; [apply _|]. apply wp_pure; [apply _| |done].
  intros ws _. apply wp_bind, wp_raise_if; [done|]. intros _.
  apply wp_bind, wp_raise_if; [done|]. intros Hn. apply orb_false_iff in Hn as [Hlen Hall%negb_false_iff].
  apply Nat.eqb_neq in Hlen. pose proof (member_permissions _ Hlen Hall) as Hperm.
  apply wp_bind, wp_gets, wp_bind, wp_raise_if; [done|]. intros _. apply wp_bind, wp_gets.
  apply wp_bind. eapply wp_mono; [by apply (save_member_evolves p)| |done].
  intros m s' Hs'. by apply evolve_rest; [apply _|].
Qed.

#[export] Instance remove_member_evolving p w user_id : Evolving (remove_member p w user_id).
Proof.
  unfold remove_member. do 4 (apply bind_evolving; [apply _|intros ?]). apply bind_evolving; [|intros _; apply _].
  intros s Hok. apply (wp_put_members (λ d, List.filter _ (workspace_members d))); [done|].
  apply members_filter, Hok.
Qed.
#[export] Instance add_member_moving p w user_id permissions : Moving (add_member p w user_id permissions).
Proof. unfold add_member. apply _. Qed.
#[export] Instance remove_member_moving p w user_id : Moving (remove_member p w user_id).
Proof. unfold remove_member. apply _. Qed.

(** ** Runs *)

(** Moving from a state, where what is known of it helps. *)
Definition moves (s : WorkspaceDb) {A} (m : Py WorkspaceDb A) (s' : WorkspaceDb) : Prop :=
  wp m (λ _ s'', runs_move (kernel s) (kernel s'')) (λ _ _, True) s'.

Lemma moves_rest {A} (m : Py WorkspaceDb A) s s' :
  Moving m → runs_move (kernel s) (kernel s') → moves s m s'.
Proof. intros Hm Hs. unfold moves. eapply wp_mono; [apply Hm| |done]. intros a s'' ?. cbv beta in *. by transitivity (kernel s'). Qed.

Lemma moved_status r r' :
  sealed r' = sealed r → (Run.status r' = Run.status r ∨ RunState.step (Run.status r) (Run.status r')) → moved r r'.
Proof. intros Hs [He|He]; (split; [done|]); [rewrite He; apply steps_refl|by apply steps_one]. Qed.

Lemma validated_step {S} a b (s : S) (Q : () → S → Prop) :
  (RunState.step a b → Q () s) → wp (RunState.validate_run_transition a b) Q (λ _ _, True) s.
Proof.
  intros HQ. unfold RunState.validate_run_transition. apply wp_raise_if; [done|]. intros Hv. apply HQ.
  split_bool. by apply RunState.step_allowed.
Qed.

Lemma wp_utc_now_in (s : WorkspaceDb) (Q : Z → WorkspaceDb → Prop) :
  (∀ t s', runs (base s') = runs (base s) → Q t s') → wp (in_kernel utc_now) Q (λ _ _, True) s.
Proof.
  intros HQ. apply wp_in_kernel, wp_utc_now. intros t k Hk. apply HQ.
  change (base (set_kernel k s)) with k. by rewrite Hk.
Qed.

#[export] Instance cancel_run_moving p i : Moving (cancel_run p i).
Proof.
  intros s. change (moves s (cancel_run p i) s). unfold moves, cancel_run. apply wp_bind, wp_read; [apply _|].
  apply wp_run_access; [|done]. intros run w [Hrun Hi]%row_by_Some _ _ _. subst i.
  destruct (RunState.is_terminal (Run.status run)) eqn:Hterm; [by apply wp_ret|].
  apply wp_bind, wp_utc_now_in. intros now s1 Hs1. apply wp_bind, validated_step. intros Hstep.
  apply wp_bind, wp_in_kernel. eapply wp_mono; [apply update_run_moves| |done].
  - intros r. change (kernel s1) with (base s1). rewrite Hs1. intros Hr _. assert (r = run) as -> by (change (kernel s) with (base s) in Hrun; congruence).
    apply moved_status; [done|by right].
  - intros [] k Hk. apply moves_rest; [apply _|]. transitivity (kernel s1); [by apply same_runs_move|done].
Qed.

#[export] Instance claim_same worker now : SameDir (claim_at worker now).
Proof.
  unfold claim_at, RunState.validate_run_transition. apply bind_same_dir; [apply _|]. intros [run|]; [|apply _].
  destruct (overdue_run now run).
  - do 3 (apply bind_same_dir; [try apply _|intros ?]); [|apply _]. intros k.
    eapply wp_mono; [apply append_recording|by intros ? ? []|done].
  - apply bind_same_dir; [case_bool_decide; apply _|]. intros _. do 2 (apply bind_same_dir; [try apply _|intros ?]); [|apply _].
    intros k. eapply wp_mono; [apply append_recording|by intros ? ? []|done].
Qed.

Lemma moving_keyed {A} (m : Py Kernel A) k :
  (runs_keyed k → wp m (λ _, runs_move k) (λ _ _, True) k) → wp m (λ _, runs_move k) (λ _ _, True) k.
Proof. intros Hm. unfold wp in *. destruct (m k); [|done]. intros Hk. by apply Hm. Qed.

#[export] Instance claim_moving worker now : Moving (claim_at worker now).
Proof.
  assert (∀ r name payload, Moving (S := Kernel) (append (worker_event r name payload))) as Happend.
  { intros r name payload k. eapply wp_mono; [apply append_recording|intros a k'; apply recorded_move|done]. }
  assert (∀ i f, (∀ r, moved r (f r)) → Moving (S := Kernel) (update_run i f)) as Hfree.
  { intros i f Hf k. apply update_run_moves. intros; apply Hf. }
  intros k. apply moving_keyed. intros Hk. unfold claim_at. apply wp_bind, wp_gets.
  destruct (head _) as [run|] eqn:Hfound; [|by apply wp_ret; unfold kernel; simpl].
  apply head_elem, elem_of_order_by, elem_of_select in Hfound as [_ [j Hrun]]. pose proof (Hk _ _ Hrun) as Hj. subst j.
  assert (∀ f, sealed (f run) = sealed run → RunState.step (Run.status run) (Run.status (f run)) →
    wp (update_run (Run.id run) f) (λ _, runs_move k) (λ _ _, True) k) as Hupdate.
  { intros f Hs Hstep. apply update_run_moves. intros r Hr _. assert (r = run) as -> by congruence.
    apply moved_status; [done|by right]. }
  assert (∀ B (m : () → Py Kernel B) f, sealed (f run) = sealed run →
    RunState.step (Run.status run) (Run.status (f run)) → (∀ u, Moving (m u)) →
    wp (update_run (Run.id run) f ≫= m) (λ _, runs_move k) (λ _ _, True) k) as Hthen.
  { intros B m f Hs Hstep Hm. apply wp_bind. eapply wp_mono; [by apply Hupdate| |done]. intros u k' Hk'.
    eapply wp_mono; [apply Hm| |done]. intros b k'' ?. cbv beta in *. by transitivity k'. }
  assert (∀ name payload, Moving (S := Kernel)
    (update_run (Run.id run) (with_run_lease worker now);; append (worker_event run name payload);;
     mret (Some (Run.organization_id run, Run.id run)))) as Htail.
  { intros name payload. apply bind_moving; [apply Hfree; intros r; apply moved_status; [done|by left]|].
    intros u. apply _. }
  destruct (overdue_run now run).
  - apply wp_bind, validated_step. intros Hstep. apply Hthen; [done|done|]. intros u. apply _.
  - apply wp_bind. case_bool_decide as Hp.
    + apply wp_bind, validated_step. intros Hstep. eapply wp_mono; [by apply (Hupdate (with_start now))| |done].
      intros u k' Hk'. cbv beta in *. eapply wp_mono; [apply Htail| |done].
      intros a k'' ?. cbv beta in *. by transitivity k'.
    + apply wp_ret, Htail.
Qed.
End Operations.
