(* ===== verification/WorkspaceTurns.v ===== *)
(** * What a new turn is

    The functional behaviour of [create_turn]: the turn it adds, the Run it starts and the
    conversation it pins to that Run. *)

From S2P Require Import Prelude PyText PyVal Redaction Enums Models Kernel Domain CanonicalJson.
From S2P Require Import Events Identity AgentSpec TurnRequest WorkspaceState.
From S2P Require Import ThreadFacts ConversationContext ConversationFacts WorkspaceService WorkspaceFacts.
From S2P Require Import WorkspaceKeeps WorkspaceOperations.

#[local] Open Scope nat_scope.

Section Turns.
Context `{Environment, EventContracts, JsonEncoder, PublicationGuard, RunSettings}.

(** ** Computations that only record *)

Definition only_records (s s' : WorkspaceDb) : Prop := ∃ k, recorded (base s) k ∧ s' = set_kernel k s.

#[export] Instance only_records_preorder : PreOrder only_records.
Proof.
  split; [intros s; exists (base s); split; [done|by destruct s]|].
  intros s1 s2 s3 (k & Hk & ->) (k' & Hk' & ->). exists k'. split; [by transitivity k|by destruct s1].
Qed.

Class Records {A} (m : Py WorkspaceDb A) : Prop := records s : wp m (λ _, only_records s) (λ _ _, True) s.

#[export] Instance bind_records {A B} (m : Py WorkspaceDb A) (f : A → Py WorkspaceDb B) :
  Records m → (∀ a, Records (f a)) → Records (m ≫= f).
Proof.
  intros Hm Hf s. apply wp_bind. eapply wp_mono; [apply Hm| |done]. intros a s' Hs.
  eapply wp_mono; [apply Hf| |done]. intros b s'' ?. cbv beta in *. by transitivity s'.
Qed.
#[export] Instance option_records {A B} (o : option A) (f : A → Py WorkspaceDb B) m :
  (∀ a, Records (f a)) → Records m → Records (match o with Some a => f a | None => m end).
Proof. by destruct o. Qed.
Lemma recording_records {A} (m : Py Kernel A) : Recording m → Records (in_kernel m).
Proof. intros Hm s. apply wp_recording; [done| |done]. intros a k Hk. by exists k. Qed.
Lemma pure_records {A} (m : Py WorkspaceDb A) : Pure m → Records m.
Proof. intros Hm s. apply wp_pure; [done|intros; reflexivity|done]. Qed.

#[local] Hint Extern 5 (Records ?m) =>
  lazymatch m with
  | mbind _ _ => fail
  | match _ with _ => _ end => fail
  | in_kernel _ => apply recording_records
  | _ => apply pure_records
  end : typeclass_instances.

#[export] Instance attachments_records p w l : Records (_validate_attachments p w l).
Proof.
  induction l as [|r l IH]; cbn [_validate_attachments]; [apply _|].
  apply bind_records; [unfold validated_attachment; apply _|]. intros a. apply _.
Qed.

(** ** Pinning *)

Inductive pins (org run_id : uuid) (t : Z) : Z → list ConversationTurn → list RunConversationSnapshot → Prop :=
| pins_nil n : pins org run_id t n [] []
| pins_cons n id item items rows :
    pins org run_id t (n + 1) items rows →
    pins org run_id t n (item :: items) (snapshot_of id org run_id t n item :: rows).

Definition snapshot_size (row : RunConversationSnapshot) : nat :=
  count (RunConversationSnapshot.user_content row) + opt_count (RunConversationSnapshot.assistant_content row).

Lemma pins_facts org run_id t n items rows :
  pins org run_id t (Z.of_nat n) items rows →
  Forall (λ row, RunConversationSnapshot.run_id row = run_id) rows ∧
  RunConversationSnapshot.ordinal <$> rows = Z.of_nat <$> seq n (length rows) ∧
  RunConversationSnapshot.source_turn_id <$> rows = Turn.id ∘ ConversationTurn.turn <$> items ∧
  sum_list_with snapshot_size rows = total items.
Proof.
  remember (Z.of_nat n) as z eqn:Hz. intros Hp. revert n Hz.
  induction Hp as [m|m id item items rows Hp IH]; intros n ->; [by repeat split; try constructor|].
  destruct (IH (S n)) as (Hr & Ho & Ht & Hs); [lia|]. csimpl. rewrite Ho, Ht.
  repeat split; [by constructor|]. unfold total in *. cbn [sum_list_with]. by rewrite Hs.
Qed.

Definition with_snapshots (l : list RunConversationSnapshot) (s : WorkspaceDb) : WorkspaceDb :=
  s <| snapshots := l |>.

(** Recording, and snapshots added. *)
Definition pinned_by (rows : list RunConversationSnapshot) (s s' : WorkspaceDb) : Prop :=
  ∃ k, recorded (base s) k ∧ s' = with_snapshots (snapshots s ++ rows)%list (set_kernel k s).

Lemma pin_spec org run_id t n l s :
  wp (pin org run_id t n l) (λ rows s', pins org run_id t n l rows ∧ pinned_by rows s s') (λ _ _, True) s.
Proof.
  revert n s. induction l as [|item l IH]; intros n s; cbn [pin].
  - apply wp_ret. split; [constructor|]. exists (base s). split; [done|]. rewrite app_nil_r. by destruct s.
  - apply wp_bind. eapply wp_mono; [apply (recording_records new_id), _| |done].
    intros id s1 (k1 & Hk1 & ->). apply wp_bind. unfold insert_snapshot.
    apply wp_bind, wp_gets, wp_bind, wp_raise_if; [done|]. intros _. apply wp_modify.
    apply wp_bind. eapply wp_mono; [apply IH| |done]. intros rows s2 [Hrows (k2 & Hk2 & ->)]. apply wp_ret.
    split; [by constructor|]. exists k2. split; [by transitivity k1|].
    unfold with_snapshots, set_kernel. destruct s as [b st sn ? ? ? ? ? ?].
    match goal with |- _ = ?x => transitivity (x <| snapshots := ((sn ++ [snapshot_of id org run_id t n item]) ++ rows)%list |>) end;
      [done|by rewrite <-app_assoc].
Qed.

(** The shown items of a list, in their order. *)
Lemma publishable_sublist p l k :
  wp (publishable p l) (λ l' k', l' `sublist_of` l ∧ recorded k k') (λ _ _, True) k.
Proof.
  revert k. induction l as [|item l IH]; intros k; cbn [publishable]; [by apply wp_ret|].
  apply wp_bind. eapply wp_mono; [apply (recording (m := match ConversationTurn.source_run_id item with
    | Some run_id => check_publication p run_id "conversation_capture" None true | None => mret true end))| |done].
  intros shown k1 Hk1. apply wp_bind. eapply wp_mono; [apply IH| |done]. intros rest k2 [Hsub Hk2].
  apply wp_ret. cbv beta in *. split; [|by transitivity k1].
  destruct shown; [by apply sublist_skip|by apply sublist_cons].
Qed.

Lemma excerpts_turns l k :
  excerpts l k → ConversationTurn.turn <$> k `sublist_of` ConversationTurn.turn <$> l.
Proof.
  induction 1 as [|item l k _ IH|item kept l k [He _] _ _ IH]; [done|by apply sublist_cons|].
  csimpl. assert (ConversationTurn.turn kept = ConversationTurn.turn item) as -> by (rewrite He; done).
  by apply sublist_skip.
Qed.

Lemma total_sublist l l' : l' `sublist_of` l → total l' ≤ total l.
Proof. unfold total. induction 1; simpl; lia. Qed.

Lemma last_items_sublist {A} n (l : list A) : last_items n l `sublist_of` l.
Proof. unfold last_items. destruct (_ =? _); [done|apply sublist_drop]. Qed.

(** What [capture] leaves: rows of that Run, numbered from 1 on, of prior turns in their order,
    within the budget. *)
Record captured (run_id : uuid) (l : list Turn) (rows : list RunConversationSnapshot) : Prop := {
  captured_run : Forall (λ row, RunConversationSnapshot.run_id row = run_id) rows;
  captured_numbered : RunConversationSnapshot.ordinal <$> rows = Z.of_nat <$> seq 1 (length rows);
  captured_turns : RunConversationSnapshot.source_turn_id <$> rows `sublist_of` Turn.id <$> l;
  captured_size : sum_list_with snapshot_size rows ≤ conversation_context_max_chars;
  captured_length : 1 ≤ conversation_context_max_turns → length rows ≤ conversation_context_max_turns
}.

Lemma capture_none run_id l : captured run_id l [].
Proof. split; simpl; try done; [apply sublist_nil_l|lia|lia]. Qed.

Lemma window_captured run_id org t (l : list Turn) candidates items rows :
  ConversationTurn.turn <$> candidates = l → items `sublist_of` _bounded candidates →
  pins org run_id t 1 items rows → captured run_id l rows.
Proof.
  intros Hl Hsub Hpins. destruct (pins_facts org run_id t 1 items rows Hpins) as (Hr & Ho & Ht & Hs).
  pose proof (bounded_from candidates) as Hex. split; [done|done|..].
  - rewrite Ht, list_fmap_compose. apply fmap_sublist. rewrite <-Hl.
    transitivity (ConversationTurn.turn <$> _bounded candidates); [by apply fmap_sublist|].
    transitivity (ConversationTurn.turn <$> last_items conversation_context_max_turns candidates);
      [by apply excerpts_turns|]. apply fmap_sublist, last_items_sublist.
  - rewrite Hs. transitivity (total (_bounded candidates)); [by apply total_sublist|apply bounded_total].
  - intros Hmax. assert (length rows = length items) as ->.
    { apply (f_equal length) in Ht. by rewrite !length_fmap in Ht. }
    transitivity (length (_bounded candidates)); [by apply sublist_length|].
    transitivity (length (last_items conversation_context_max_turns candidates)); [by apply excerpts_length|].
    by apply window_length.
Qed.

Lemma capture_spec p run_id turn thread l s :
  wp (capture p run_id turn thread l)
    (λ rows s', captured run_id l rows ∧ pinned_by rows s s') (λ _ _, True) s.
Proof.
  unfold capture. destruct (length l =? 0).
  { apply wp_ret. split; [apply capture_none|]. exists (base s). split; [done|]. rewrite app_nil_r. by destruct s. }
  apply wp_bind, wp_gets. destruct (row_by _ _ _) as [w|]; [|done]. apply wp_bind, wp_raise_if; [done|]. intros _.
  apply wp_bind, wp_gets, wp_bind, wp_in_kernel. eapply wp_mono; [apply publishable_sublist| |done].
  intros items k [Hsub Hk]. eapply wp_mono; [apply pin_spec| |done]. intros rows s' [Hpins (k' & Hk' & ->)].
  split; [eapply window_captured; [|exact Hsub|exact Hpins]|].
  - unfold _candidates. rewrite <-list_fmap_compose. by apply list_fmap_id.
  - exists k'. split; [by transitivity k|by destruct s].
Qed.

(** ** Starting the Run of a turn *)

Lemma recorded_free k k' i : recorded k k' → runs k' !! i = None → runs k !! i = None.
Proof. intros Hk. destruct (recorded_runs _ _ Hk i) as [v ->]. by destruct (runs k !! i). Qed.

Record started (p : Principal) (turn : Turn) (l : list Turn) (plan : RunPlan) (now : Z) (run : Run)
    (s s' : WorkspaceDb) : Prop := {
  started_run : ∃ created_at, run = pending_run (Run.id run) p (Turn.id turn) plan now created_at;
  started_limits : positive_limits run = true;
  started_free : runs (base s) !! Run.id run = None;
  started_row : ∃ v, runs (base s') !! Run.id run = Some (with_version v run);
  started_dir : dir s' = dir s;
  started_rows : ∃ rows, captured (Run.id run) l rows ∧ snapshots s' = (snapshots s ++ rows)%list
}.

Lemma start_run_spec p actor t l turn plan now s :
  wp (run_id ← in_kernel new_id;
      created_at ← in_kernel utc_now;
      let run := pending_run run_id p (Turn.id turn) plan now created_at in
      in_kernel (insert_run run);;
      pinned ← capture p run_id turn t l;
      in_kernel (record_turn p actor turn run (length pinned));;
      mret (turn, run))
    (λ tr s', tr.1 = turn ∧ started p turn l plan now tr.2 s s') (λ _ _, True) s.
Proof.
  apply wp_bind. eapply wp_mono; [apply (recording_records new_id), _| |done]. intros run_id s1 (k1 & Hk1 & ->).
  apply wp_bind. eapply wp_mono; [apply (recording_records utc_now), _| |done]. intros created s2 (k2 & Hk2 & ->).
  set (run := pending_run run_id p (Turn.id turn) plan now created).
  apply wp_bind, wp_in_kernel. unfold insert_run, integrity, free. repeat wp_step; [done|]. split_bool.
  match goal with Hn : ¬ is_Some _, Hl : positive_limits _ = true |- _ =>
    apply eq_None_not_Some in Hn; rename Hn into Hfree; rename Hl into Hlimits end.
  eapply wp_mono; [apply capture_spec| |done]. intros rows s3 [Hcap (k3 & Hk3 & ->)].
  apply wp_bind. eapply wp_mono; [apply (recording_records (record_turn p actor turn run (length rows))), _| |done].
  intros [] s4 (k4 & Hk4 & ->). apply wp_ret. split; [done|]. cbn [snd].
  change (kernel _) with k2 in *. change (base (set_kernel k1 s)) with k1 in *.
  change (recorded (k2 <| runs := <[Run.id run:=run]> (runs k2) |>) k3) in Hk3.
  change (recorded k3 k4) in Hk4.
  assert (recorded (base s) k2) as Hk by (by transitivity k1).
  split.
  - by exists created.
  - done.
  - by eapply recorded_free.
  - change (base _) with k4. eapply recorded_run; [by transitivity k3|]. apply lookup_insert_eq.
  - unfold dir. change (kernel (set_kernel k4 _)) with k4. rewrite (recorded_directory _ _ Hk4), (recorded_directory _ _ Hk3).
    apply Hk.
  - by exists rows.
Qed.

(** The steps of [create_turn]. *)
Record turn_created (p : Principal) (i : uuid) (r : CreateTurnRequest) (s : WorkspaceDb) (turn : Turn)
    (run : Run) (s' : WorkspaceDb) (t : Thread) (l : list Turn) (c : list uuid) : Prop := {
  tc_thread : threads (dir s) !! i = Some t ∧ Thread.id t = i ∧ Thread.status t = ThreadStatus.ACTIVE ∧
    Thread.organization_id t = Principal.organization_id p;
  tc_access : ∃ w, workspaces (dir s) !! Thread.workspace_id t = Some w ∧ accessible (dir s) p true w = true;
  tc_history : history (dir s) t l c ∧ numbered l;
  tc_turn : ∃ now refs, turn = new_turn (Turn.id turn) p i (next_ordinal l) now r refs;
  tc_free : turns (dir s) !! Turn.id turn = None;
  tc_run : ∃ plan s4, dir s4 = put_turn (Turn.id turn) turn (dir s) ∧ snapshots s4 = snapshots s ∧
    (∀ j, runs (base s4) !! j = None → runs (base s) !! j = None) ∧
    started p turn l plan (Turn.created_at turn) run s4 s'
}.

Lemma create_turn_steps p i r actor s :
  directory_ok (dir s) →
  wp (create_turn p i r actor) (λ tr s', ∃ t l c, turn_created p i r s tr.1 tr.2 s' t l c) (λ _ _, True) s.
Proof.
  intros Hok. unfold create_turn. apply wp_bind, wp_read; [apply _|]. apply wp_pure; [apply _| |done].
  intros t (_ & Ht & Hi & Ho & Hw)%thread_access_ok. subst i. apply wp_bind, wp_raise_if; [done|].
  intros Hst%negb_false_iff. split_bool. apply wp_bind, wp_history; [done..|]. intros l c Hl Hn.
  apply wp_bind. eapply wp_mono; [apply (recording_records utc_now), _| |done]. intros now s1 Hs1.
  apply wp_bind, wp_pure; [apply _| |done]. intros plan _.
  apply wp_bind. eapply wp_mono; [apply attachments_records| |done]. intros refs s2 Hs2.
  apply wp_bind. eapply wp_mono; [apply (recording_records new_id), _| |done]. intros id s3 Hs3.
  assert (only_records s s3) as (k & Hk & ->) by (transitivity s2; [by transitivity s1|done]). clear Hs1 Hs2 Hs3 s1 s2.
  assert (dir (set_kernel k s) = dir s) as Hd by apply Hk.
  apply wp_bind, wp_insert_turn. rewrite Hd. intros Hfree.
  set (turn := new_turn id p (Thread.id t) (next_ordinal l) now r refs) in *.
  eapply wp_mono; [apply (start_run_spec p actor t l turn plan now)| |done]. intros [turn' run] s' [Hturn Hstart].
  cbn [fst snd] in *. subst turn'. exists t, l, c. split; try done; [by exists now, refs|].
  eexists plan, _. split; [|split; [|split; [|exact Hstart]]]; [done..|].
  intros j Hj. by eapply (recorded_free (base s) k).
Qed.

End Turns.
