(* ===== verification/WorkspaceHistory.v ===== *)
(** * Workspaces over time

    [step] interleaves the requests, the workers that claim Runs, lost transactions and
    whatever other services write.  Over all its histories the history of a thread is
    numbered and only grows, and Runs move along the declared transitions. *)

From S2P Require Import Prelude PyText PyVal Redaction Enums Models Kernel Domain CanonicalJson.
From S2P Require Import Events Identity AgentSpec TurnRequest WorkspaceState TaskContracts.
From S2P Require Import RunIntents ThreadFacts ConversationContext WorkspaceService RunWorker.
From S2P Require Import WorkspaceFacts WorkspaceKeeps Clarifications.
From S2P Require Import WorkspaceOperations.

#[local] Open Scope nat_scope.

Section History.
Context `{UnicodeData, IsoFormats, Environment, EventContracts, JsonEncoder, PublicationGuard, RunSettings}.

(** The requests, the same operations called by a service within its own transaction, and
    the workers. *)
Inductive Operation : Type :=
| CreateWorkspace (p : Principal) (r : CreateWorkspaceRequest)
| SetMember (p : Principal) (workspace_id user_id : uuid) (permissions : list string)
| RemoveMember (p : Principal) (workspace_id user_id : uuid)
| CreateThread (p : Principal) (workspace_id : uuid) (title : string)
| ArchiveThread (p : Principal) (thread_id : uuid)
| ResumeThread (p : Principal) (thread_id : uuid)
| ForkThread (p : Principal) (thread_id : uuid) (from_turn_id : option uuid) (title : option string)
| CreateTurn (p : Principal) (thread_id : uuid) (r : CreateTurnRequest)
| ServiceThread (p : Principal) (workspace_id : uuid) (title : string) (actor : ActorType)
| ServiceTurn (p : Principal) (thread_id : uuid) (r : CreateTurnRequest) (actor : ActorType)
| CancelRun (p : Principal) (run_id : uuid)
| ReplayRun (p : Principal) (run_id : uuid)
| ShowRun (p : Principal) (run_id : uuid)
| ShowRuns (p : Principal) (thread_id : uuid)
| AnswerClarification (p : Principal) (run_id clarification_id : uuid) (submission : ClarificationAnswerSubmission)
| ClaimRun (worker_id : string).

Definition perform (o : Operation) : Py WorkspaceDb unit :=
  match o with
  | CreateWorkspace p r => create_workspace_endpoint p r;; mret ()
  | SetMember p w u l => set_workspace_member p w u l;; mret ()
  | RemoveMember p w u => remove_workspace_member p w u
  | CreateThread p w title => create_thread_endpoint p w title;; mret ()
  | ArchiveThread p t => archive_thread_endpoint p t;; mret ()
  | ResumeThread p t => resume_thread_endpoint p t;; mret ()
  | ForkThread p t from title => fork_thread_endpoint p t from title;; mret ()
  | CreateTurn p t r => create_turn_endpoint p t r;; mret ()
  | ServiceThread p w title actor => savepoint (create_thread p w title actor);; mret ()
  | ServiceTurn p t r actor => savepoint (create_turn p t r actor);; mret ()
  | CancelRun p i => cancel_run_endpoint p i;; mret ()
  | ReplayRun p i => replay_run_endpoint p i;; mret ()
  | ShowRun p i => get_run_endpoint p i;; mret ()
  | ShowRuns p t => list_thread_runs_endpoint p t;; mret ()
  | AnswerClarification p i c submission => in_kernel (keeping_refusals (answer p i c submission));; mret ()
  | ClaimRun w => in_kernel (_claim w);; mret ()
  end.

(** What the other services write: anything but threads, turns and members, where Runs move
    along the same transitions. *)
Record elsewhere (s s' : WorkspaceDb) : Prop := {
  elsewhere_threads : threads (dir s') = threads (dir s);
  elsewhere_turns : turns (dir s') = turns (dir s);
  elsewhere_members : workspace_members (dir s') = workspace_members (dir s);
  elsewhere_runs : runs_move (kernel s) (kernel s')
}.

Inductive step : WorkspaceDb → WorkspaceDb → Prop :=
| operation_step o s : step s (final (perform o s))
| operation_lost o s : step s (rollback s (final (perform o s)))
| elsewhere_step s s' : elsewhere s s' → step s s'.

(** ** What every step keeps *)

Definition advances (s s' : WorkspaceDb) : Prop :=
  (directory_ok (dir s) → evolved s s') ∧ runs_move (kernel s) (kernel s').

#[export] Instance advances_preorder : PreOrder advances.
Proof.
  split; [intros s; split; [by split|reflexivity]|]. intros s1 s2 s3 [Hd1 Hr1] [Hd2 Hr2].
  split; [|by transitivity (kernel s2)]. intros [Hok2 Hg]%Hd1. destruct (Hd2 Hok2). split; [done|by etransitivity].
Qed.

Class Serving {A} (m : Py WorkspaceDb A) : Prop := serving s : wp m (λ _, advances s) (λ _, advances s) s.

#[export] Instance bind_serving {A B} (m : Py WorkspaceDb A) (f : A → Py WorkspaceDb B) :
  Serving m → (∀ a, Serving (f a)) → Serving (m ≫= f).
Proof.
  intros Hm Hf s. apply wp_bind. eapply wp_mono; [apply Hm| |done]. intros a s' Hs.
  eapply wp_mono; [apply Hf|..]; intros ? s'' ?; cbv beta in *; by transitivity s'.
Qed.

#[export] Instance option_serving {A B} (o : option A) (f : A → Py WorkspaceDb B) m :
  (∀ a, Serving (f a)) → Serving m → Serving (match o with Some a => f a | None => m end).
Proof. by destruct o. Qed.

Lemma pure_serving {A} (m : Py WorkspaceDb A) : Pure m → Serving m.
Proof. intros Hm s. by apply wp_pure. Qed.

Lemma recorded_advances (s : WorkspaceDb) k : recorded (kernel s) k → advances s (set_kernel k s).
Proof.
  intros Hk. split; [|rewrite kernel_set_kernel; by apply recorded_move]. intros Hok.
  assert (dir (set_kernel k s) = dir s) as Hd by (unfold dir; rewrite kernel_set_kernel; apply Hk).
  unfold evolved. by rewrite Hd.
Qed.

Lemma recording_serving {A} (m : Py Kernel A) : Recording m → Serving (in_kernel m).
Proof. intros Hm s. apply wp_recording; [done|..]; intros; by apply recorded_advances. Qed.

#[export] Instance savepoint_serving {A} (m : Py WorkspaceDb A) : Evolving m → Moving m → Serving (savepoint m).
Proof.
  intros He Hm s. unfold wp, savepoint. pose proof (Hm s) as Hms. unfold wp in Hms.
  destruct (m s) as [a s'|e s'] eqn:Heq.
  - split; [|done]. intros Hok. pose proof (He s Hok) as Hes. unfold wp in Hes. by rewrite Heq in Hes.
  - apply (recorded_advances s). apply rollback_recorded.
Qed.

#[local] Hint Extern 5 (Serving ?m) =>
  lazymatch m with
  | mbind _ _ => fail
  | savepoint _ => fail
  | match _ with _ => _ end => fail
  | in_kernel _ => apply recording_serving
  | _ => apply pure_serving
  end : typeclass_instances.

#[export] Instance public_run_views_recording p l : Recording (public_run_views p l).
Proof. induction l; cbn [public_run_views]; apply _. Qed.

#[export] Instance claim_serving w : Serving (in_kernel (_claim w)).
Proof.
  unfold _claim. intros s. apply wp_in_kernel, wp_bind, wp_utc_now. intros now k Hk.
  assert (recorded (kernel s) k) as Hrec by by apply same_recorded. unfold wp, savepoint.
  pose proof (claim_moving w now k) as Hm. pose proof (claim_same w now k) as Hd. unfold wp, dir in Hm, Hd.
  destruct (claim_at w now k) as [a k'|e k'].
  - split; [|rewrite kernel_set_kernel; transitivity k; [by apply recorded_move|done]]. intros Hok.
    assert (dir (set_kernel k' s) = dir s) as He.
    { unfold dir. rewrite kernel_set_kernel. transitivity (directory k); [done|apply Hrec]. }
    unfold evolved. by rewrite He.
  - apply recorded_advances. transitivity k; [done|apply rollback_recorded].
Qed.

#[export] Instance answer_serving p i c submission : Serving (in_kernel (keeping_refusals (answer p i c submission))).
Proof.
  intros s. apply wp_in_kernel.
  assert (∀ k, run_moved (kernel s) k → advances s (set_kernel k s)) as Hadv.
  { intros k [Hm Hd]%run_moved_runs. split; [|by rewrite kernel_set_kernel]. intros Hok. unfold evolved.
    assert (dir (set_kernel k s) = dir s) as He by by unfold dir; rewrite kernel_set_kernel. by rewrite He. }
  pose proof (answer_moves p i c submission (kernel s)) as Hwp. unfold wp, keeping_refusals in *.
  destruct (answer _ _ _ _ _) as [r k|[] k]; auto. apply recorded_advances, rollback_recorded.
Qed.

Lemma perform_serving o : Serving (perform o).
Proof.
  destruct o; cbn [perform]; try (apply bind_serving; [|intros ?; apply _]).
  - unfold create_workspace_endpoint, validated. apply _.
  - unfold set_workspace_member, validated. apply bind_serving; [apply _|]. intros _. apply bind_serving; [apply _|].
    intros m. apply bind_serving; [apply _|]. intros [u|]; apply _.
  - unfold remove_workspace_member. apply _.
  - unfold create_thread_endpoint, validated. apply _.
  - unfold archive_thread_endpoint. apply _.
  - unfold resume_thread_endpoint. apply _.
  - unfold fork_thread_endpoint, validated. apply _.
  - unfold create_turn_endpoint. apply _.
  - apply _.
  - apply _.
  - unfold cancel_run_endpoint. apply savepoint_serving; [|apply _].
    apply same_dir_evolving, _.
  - unfold replay_run_endpoint. apply _.
  - unfold get_run_endpoint, get_run. apply _.
  - unfold list_thread_runs_endpoint, list_thread_runs. apply _.
  - apply _.
  - apply _.
Qed.

Lemma step_advances s s' : step s s' → advances s s'.
Proof.
  intros [o t|o t|t t' He].
  - pose proof (perform_serving o t) as Hwp. unfold wp, final in *. by destruct (perform o t).
  - apply (recorded_advances t). apply rollback_recorded.
  - split; [|apply He]. intros [Hok Hm]. assert (kept (dir t) (dir t')) as Hk by (apply same_kept; apply He).
    split; [|by apply kept_grows]. split; [by eapply kept_ok|]. by rewrite (elsewhere_members _ _ He).
Qed.

Lemma history_advances s s' : rtc step s s' → advances s s'.
Proof. induction 1 as [|x y z Hxy _ IH]; [done|]. transitivity y; [by apply step_advances|done]. Qed.

Lemma empty_ok d : threads d = ∅ → turns d = ∅ → workspace_members d = [] → directory_ok d.
Proof.
  intros Ht Hu Hm. split; [|rewrite Hm; by split; constructor]. split.
  - intros i t. by rewrite Ht.
  - intros i u. by rewrite Hu.
  - intros i t. by rewrite Ht.
Qed.

(** [C13] The history of a thread, over any history of requests, services and lost
    transactions from an empty directory: every thread has exactly one, numbered from 1 on;
    whatever happens later, forks and archiving included, it is only extended behind its end,
    and the thread keeps its lineage. *)
Theorem histories_append_only s0 s1 s2 i t1 :
  threads (dir s0) = ∅ → turns (dir s0) = ∅ → workspace_members (dir s0) = [] →
  rtc step s0 s1 → rtc step s1 s2 → threads (dir s1) !! i = Some t1 →
  ∃ t2 l1 l2 c, history (dir s1) t1 l1 c ∧ numbered l1 ∧
    (∀ l c', history (dir s1) t1 l c' → l = l1 ∧ c' = c) ∧
    threads (dir s2) !! i = Some t2 ∧ lineage t2 = lineage t1 ∧
    history (dir s2) t2 l2 c ∧ numbered l2 ∧ l1 `prefix_of` l2.
Proof.
  intros Ht Hu Hm [Hev _]%history_advances [Hev' _]%history_advances Hi.
  destruct (Hev (empty_ok _ Ht Hu Hm)) as [Hok1 _]. destruct (Hev' Hok1) as [[Hok2 _] Hg].
  destruct Hok1 as [Hok1 _]. destruct (ok_history _ Hok1 _ _ Hi) as (l1 & c & Hl1 & Hn1).
  pose proof (ok_keyed _ Hok1 _ _ Hi) as Hkey. subst i.
  destruct (grows_threads _ _ Hg _ _ Hi) as (t2 & Ht2 & He).
  destruct (history_grows _ _ _ _ _ _ Hg (ok_keyed _ Hok1) Hi He Hl1) as (l2 & Hl2 & Hpre).
  destruct (ok_history _ Hok2 _ _ Ht2) as (l & c' & Hl & Hn). destruct (history_unique _ _ _ _ _ _ Hl2 Hl) as [-> _].
  exists t2, l1, l, c. repeat (split; [done|]). split; [|done].
  intros l' c'' Hl'. by destruct (history_unique _ _ _ _ _ _ Hl1 Hl') as [-> ->].
Qed.

End History.

(** ** How deep threads can be forked

    The resolver follows a lineage of at most 32 threads.  Within that depth it returns the
    history; a fork of a thread at that depth still succeeds, and can never take a turn. *)


(** Each thread of the lineage takes one unit of the fuel. *)
Lemma effective_depth fuel p t l c (visited : gset uuid) k l' k' :
  history (directory k) t l c → effective_from fuel p t visited k = Ok l' k' → length c ≤ fuel.
Proof.
  intros Hh. revert fuel visited l' k'.
  induction Hh as [t Hp|t pid parent l c pre Hp Hparent Ho Hw Hh IH Hpre]; intros fuel visited l' k'.
  all: destruct fuel as [|fuel]; [cbn [effective_from]; unfold mbind, M_bind; by destruct (_ || _)|].
  all: rewrite effective_unfold, Hp; destruct (_ || _); [done|].
  { intros _. simpl. lia. }
  destruct (require_thread_access p pid false k) as [parent' k1|] eqn:Hacc; [|done].
  apply thread_access_ok in Hacc as (-> & Hparent' & _). assert (parent' = parent) as -> by congruence.
  destruct (effective_from fuel p parent _ k) as [lp k2|] eqn:Hlp; [|done]. intros _.
  apply IH in Hlp. simpl. lia.
Qed.

(** The lineage of a thread, computed. *)
Fixpoint computed_lineage (fuel : nat) (d : Directory) (t : Thread) : option (list uuid) :=
  match fuel with
  | O => None
  | S fuel' =>
      match Thread.parent_thread_id t with
      | None => Some [Thread.id t]
      | Some pid => match threads d !! pid with
                    | None => None
                    | Some parent => cons (Thread.id t) <$> computed_lineage fuel' d parent
                    end
      end
  end.

Lemma computed_lineage_history fuel d t l c c' : history d t l c → computed_lineage fuel d t = Some c' → c = c'.
Proof.
  intros Hh. revert fuel c'.
  induction Hh as [t Hp|t pid parent l c pre Hp Hparent _ _ Hh IH Hpre]; intros [|fuel] c'; try done; simpl; rewrite Hp.
  - by intros [= <-].
  - rewrite Hparent. destruct (computed_lineage fuel d parent) as [c2|] eqn:Hc; [|done]. intros [= <-].
    by rewrite (IH _ _ Hc).
Qed.

Section Forks.
Context `{Environment, EventContracts, JsonEncoder, PublicationGuard, RunSettings}.

(** No history is read below the depth that the resolver follows. *)
Lemma wp_deep p t l c (s : WorkspaceDb) (Q : list Turn → WorkspaceDb → Prop) :
  history (dir s) t l c → max_lineage_depth < length c →
  wp (in_kernel (effective_turns p t)) Q (λ _ _, True) s.
Proof.
  intros Hh Hdeep. apply wp_read; [apply _|]. apply wp_pure; [apply _| |done].
  intros l' Hl'. apply (effective_depth _ _ _ _ _ _ _ _ _ Hh) in Hl'. lia.
Qed.

Lemma wp_raises_always {A} (m : Py WorkspaceDb A) s :
  wp m (λ _ _, False) (λ _ _, True) s → ∃ e s', m s = Raise e s'.
Proof. unfold wp. destruct (m s); [done|eauto]. Qed.

Lemma deep_turn_raises p i r actor s t l c :
  threads (dir s) !! i = Some t → history (dir s) t l c → max_lineage_depth < length c →
  ∃ e s', create_turn p i r actor s = Raise e s'.
Proof.
  intros Ht Hh Hdeep. apply wp_raises_always. unfold create_turn. apply wp_bind, wp_thread. intros t' Ht' _ _.
  assert (t' = t) as -> by congruence. apply wp_bind, wp_raise_if; [done|]. intros _.
  apply wp_bind. by eapply wp_deep.
Qed.

Lemma deep_list_raises p i s t l c :
  threads (dir s) !! i = Some t → history (dir s) t l c → max_lineage_depth < length c →
  ∃ e s', list_turns p i s = Raise e s'.
Proof.
  intros Ht Hh Hdeep. apply wp_raises_always. unfold list_turns. apply wp_bind, wp_read; [apply _|].
  apply wp_pure; [apply _| |done]. intros t' Ht'. apply thread_access_ok in Ht' as (_ & Ht' & _).
  assert (t' = t) as -> by (unfold dir in Ht; congruence). by eapply wp_deep.
Qed.

End Forks.
