(* ===== verification/WorkspaceSample.v ===== *)
(** * Workspaces, concretely

    A thread is created, asked twice and forked; a secret in a question is not stored; a chain
    of forks reaches the depth the resolver follows, and goes beyond it. *)

From S2P Require Import Prelude PyText PyVal Redaction Enums Models Kernel Domain CanonicalJson.
From S2P Require Import Events EventLog Identity AgentSpec TurnRequest WorkspaceState.
From S2P Require Import IntentHistory ThreadFacts ConversationContext WorkspaceService.
From S2P Require Import ConversationFacts WorkspaceFacts WorkspaceKeeps WorkspaceOperations.
From S2P Require Import WorkspaceTurns WorkspaceHistory.

#[local] Existing Instance Sample.environment.
#[local] Existing Instances IntentSample.ascii_unicode IntentSample.utc_formats.

#[local] Instance contracts : EventContracts := {|
  payload_validators := map (λ name, ((name, 1%Z), λ _, []))
    ["workspace.created"; "thread.created"; "thread.archived"; "thread.forked"; "turn.created"; "run.created";
     "run.cancellation_requested"; "run.cancelled"];
  envelope_validator _ := [];
  error_code_registered _ := true
|}.
#[local] Instance encoder : JsonEncoder := λ _, inr VNone.

(** Every source may be shown. *)
#[local] Instance guard : PublicationGuard := {|
  check_publication _ _ _ _ _ := mret true;
  check_publication_recording _ _ _ _ _ := pure_recording _ _;
  source_fence _ _ := true
|}.

#[local] Instance settings : RunSettings := {|
  run_timeout_seconds := 300; run_max_steps := 30; run_max_input_tokens := 120000;
  run_max_output_tokens := 16000; run_max_cost_amount := 1000000000;
  conversation_context_max_turns := 20; conversation_context_max_chars := 1000;
  conversation_context_max_chars_per_message := 256
|}.

Definition agent : dict :=
  [("description", VStr "General"); ("modelPolicy", VDict [("profile", VStr "default")]); ("maxSteps", VInt 12);
   ("timeout", VInt 600); ("capabilities", VList [VStr "search"]); ("riskPolicy", VDict [("maxLevel", VStr "L1")])].

Definition owner : Principal := Principal.Make 1 10 "owner" "Owner" None None ∅ ∅ [].

Definition empty : Directory :=
  MkDirectory {[1%N := User.Make 1 10 "owner" "Owner" None true []]} ∅ ∅ []
    {[20%N := Workspace.Make 20 10 1 Classification.INTERNAL Visibility.PRIVATE None "team" "" 0 0]} [] ∅ ∅.

Definition start : WorkspaceDb :=
  MkWorkspaceDb (MkKernel (1000 * second) [] 0 empty ∅ ∅ ∅ [] [] [] []) ∅ []
    {[60%N := AgentDefinition.Make 60 10 "general-agent" RegistryStatus.ACTIVE (Some 3%Z)]}
    {[61%N := AgentVersion.Make 61 10 60 3 agent]} {[62%N := ModelProfile.Make 62 10 "default" true]}
    {[63%N := PromptDefinition.Make 63 10 SYSTEM_POLICY_PROMPT_NAME]}
    {[64%N := PromptVersion.Make 64 10 63 1 "checksum"]} ∅.

(** The first thread has the id 1000. *)
Definition ask (input : string) (thread_id : uuid) : Operation :=
  CreateTurn owner thread_id (CreateTurnRequest.Make input [] [] None).

Definition talking : WorkspaceDb := Eval vm_compute in final (perform (CreateThread owner 20 " plans ") start).
Definition asked : WorkspaceDb := Eval vm_compute in final (perform (ask "password = hunter2" 1000) talking).
Definition asked_again : WorkspaceDb := Eval vm_compute in final (perform (ask "and now?" 1000) asked).

(** The turns, the Runs and what is pinned to them. *)
Definition outline (s : WorkspaceDb) :=
  ((λ u, (Turn.ordinal u, Turn.sanitized_input u)) <$> order_by ordinal_le (rows (turns (dir s))),
   (λ r, (Run.status r, Run.max_steps r, Run.timeout_seconds r)) <$> rows (runs (base s)),
   (λ r, (RunConversationSnapshot.ordinal r, RunConversationSnapshot.user_content r)) <$> snapshots s).

Example two_turns :
  outline asked_again =
    ([(1%Z, "password = [REDACTED]"); (2%Z, "and now?")],
     [(RunStatus.PENDING, 12%Z, 300%Z); (RunStatus.PENDING, 12%Z, 300%Z)],
     [(1%Z, "password = [REDACTED]")]).
Proof. vm_compute. reflexivity. Qed.

(** ** Witnesses *)

Lemma to_asked : rtc step start asked.
Proof.
  eapply rtc_l; [exact (operation_step (CreateThread owner 20 " plans ") start)|].
  exact (rtc_once _ _ (operation_step (ask "password = hunter2" 1000) talking)).
Qed.

Lemma to_asked_again : rtc step asked asked_again.
Proof. exact (rtc_once _ _ (operation_step (ask "and now?" 1000) asked)). Qed.

Lemma reached_ok s : rtc step start s → directory_ok (dir s).
Proof. intros [Hev _]%history_advances. apply Hev. by apply empty_ok. Qed.

Lemma histories_append_only_witness :
  is_Some (threads (dir asked) !! 1000%N) ∧
  ∃ t l1 l2, history (dir asked) t l1 [1000%N] ∧ l1 `prefix_of` l2.
Proof.
  split; [by eexists|].
  destruct (histories_append_only start asked asked_again 1000 _ eq_refl eq_refl eq_refl
    to_asked to_asked_again eq_refl) as (t2 & l1 & l2 & c & H1 & _ & Huniq & _ & _ & _ & _ & Hpre).
  eexists _, l1, l2. split; [|exact Hpre].
  assert (c = [1000%N]) as <-; [|exact H1]. by apply (computed_lineage_history 2 _ _ _ _ _ H1).
Defined.

Definition first_run : uuid := Eval vm_compute in
  match rows (runs (base asked)) with r :: _ => Run.id r | [] => 0 end.
Definition cancelled : WorkspaceDb := Eval vm_compute in final (perform (CancelRun owner first_run) asked).

Example cancelled_run : Run.status <$> rows (runs (base cancelled)) = [RunStatus.CANCELLED].
Proof. vm_compute. reflexivity. Qed.


Definition question : CreateTurnRequest := CreateTurnRequest.Make "password = hunter2" [] [] None.

Lemma talking_ok : directory_ok (dir talking).
Proof. apply reached_ok. exact (rtc_once _ _ (operation_step (CreateThread owner 20 " plans ") start)). Qed.


(** ** A chain of forks *)

Fixpoint fork_chain (n : nat) (i : uuid) (s : WorkspaceDb) : uuid * WorkspaceDb :=
  match n with
  | O => (i, s)
  | S n' => match fork_thread_endpoint owner i None (Some "fork") s with
            | Ok t s' => fork_chain n' (Thread.id t) s'
            | Raise _ s' => (i, s')
            end
  end.

Lemma fork_chain_steps n i s : rtc step s (fork_chain n i s).2.
Proof.
  revert i s. induction n as [|n IH]; intros i s; [done|]. simpl.
  pose proof (operation_step (ForkThread owner i None (Some "fork")) s) as Hstep. cbn [perform] in Hstep.
  unfold mbind, M_bind in Hstep. destruct (fork_thread_endpoint owner i None (Some "fork") s) as [t s'|e s'].
  - eapply rtc_l; [exact Hstep|apply IH].
  - by apply rtc_once.
Qed.

Definition deepest : uuid * WorkspaceDb := Eval vm_compute in fork_chain 31 1000 asked.

Lemma deepest_ok : directory_ok (dir deepest.2).
Proof.
  apply reached_ok. assert (fork_chain 31 1000 asked = deepest) as <- by (vm_compute; reflexivity).
  transitivity asked; [apply to_asked|apply fork_chain_steps].
Qed.

Definition deepest_thread : Thread := Eval vm_compute in
  default (new_thread 0 owner 0 "" None None 0) (threads (dir deepest.2) !! deepest.1).
Definition deepest_lineage : list uuid := Eval vm_compute in
  default [] (computed_lineage 40 (dir deepest.2) deepest_thread).

Lemma deepest_history : ∃ l c, threads (dir deepest.2) !! deepest.1 = Some deepest_thread ∧
  history (dir deepest.2) deepest_thread l c ∧ length c = max_lineage_depth.
Proof.
  assert (threads (dir deepest.2) !! deepest.1 = Some deepest_thread) as Ht by (vm_compute; reflexivity).
  assert (computed_lineage 40 (dir deepest.2) deepest_thread = Some deepest_lineage) as Hc by (vm_compute; reflexivity).
  destruct (ok_history _ (ok_threads _ deepest_ok) _ _ Ht) as (l & c & Hl & _).
  exists l, c. split; [exact Ht|]. split; [exact Hl|].
  by rewrite (computed_lineage_history 40 _ _ _ _ _ Hl Hc).
Qed.



(** The other end of the chain: the title of an untitled fork is seven characters longer than
    its parent's, and PostgreSQL refuses more than 300. *)
Definition postgresql : Environment := {| uuid7 := @uuid7 Sample.environment; dialect := "postgresql" |}.

Definition long_title : string := of_chars (replicate 294 "a"%char).

Example long_title_forks :
  let created := create_thread_endpoint owner 20 long_title start in
  let fork env := @fork_thread_endpoint env contracts encoder owner 1000 None None (final created) in
  match created with Ok t _ => Thread.title t = long_title | Raise _ _ => False end ∧
  match fork Sample.environment with Ok t _ => py_len (Thread.title t) = 301%Z | Raise _ _ => False end ∧
  match fork postgresql with Ok _ _ => False | Raise e _ => e = PyError "DBAPIError" end.
Proof. split_and!; vm_compute; reflexivity. Qed.
