(* ===== verification/AppServer.v ===== *)
(** * The application server ([app_server/], [application/app_server.py],
      [persistence/app_server_requests.py])

    Clients ask for mutations by JSON-RPC messages.  Here are the messages; the ledger that
    binds a client's request id to its outcome; and [_mutate], which makes a mutation once: it
    claims the request, runs the handler, records what it returned or the domain error it
    raised, and commits all of that together.  Then the methods a client can call, each a
    handler of [_mutate]; [RunView], which projects columns that are not modelled, is a
    parameter. *)

From S2P Require Import Prelude PyText PyVal Enums Models Kernel CanonicalJson Events.
From S2P Require Import Identity Policy Approvals TurnRequest WorkspaceState TaskContracts RunIntents WorkspaceService.
From S2P Require Import Clarifications.

#[local] Open Scope list_scope.

(** ** JSON-RPC messages ([app_server/protocol.py])

    What the transport of the application server accepts as a request, and the shapes of what
    it sends.  [json.loads] is the parameter of [parse_request]; the values it yields here have
    no floats, which the source refuses wherever a number is expected. *)

Definition JSONRPC_VERSION : string := "2.0".
Definition PROTOCOL_VERSION : string := "2026-08-26".
Definition PARSE_ERROR : Z := -32700.
Definition INVALID_REQUEST : Z := -32600.
Definition METHOD_NOT_FOUND : Z := -32601.
Definition INVALID_PARAMS : Z := -32602.
Definition INTERNAL_ERROR : Z := -32603.

Module JsonRpcRequest.
Record JsonRpcRequest : Type := Make {
  request_id : val;
  has_id : bool;
  method : string;
  params : dict
}.
End JsonRpcRequest.
Abbreviation JsonRpcRequest := JsonRpcRequest.JsonRpcRequest.

Module ProtocolFailure.
Record ProtocolFailure : Type := Make {
  code : Z;
  message : string;
  request_id : val;
  data : option dict
}.
End ProtocolFailure.
Abbreviation ProtocolFailure := ProtocolFailure.ProtocolFailure.

(** [isinstance(request_id, (str, int)) and not isinstance(request_id, bool)] *)
Definition is_request_id (v : val) : bool :=
  match v with VStr _ | VInt _ => true | _ => false end.

Definition request_fields : list string := ["jsonrpc"; "id"; "method"; "params"].

(** [sorted(set(body) - allowed)] *)
Definition unknown_fields (body : dict) : list string :=
  order_by string_le (filter (λ k, k ∉ request_fields) (body.*1)).

Definition parse_request (loads : string → option val) (raw : string) : ProtocolFailure + JsonRpcRequest :=
  let fail code message request_id data := inl (ProtocolFailure.Make code message request_id data) in
  match loads raw with
  | None => fail PARSE_ERROR "Parse error" VNone None
  | Some (VDict body) =>
      let has_id := dmem "id" body in
      let request_id := dget_or "id" VNone body in
      if has_id && negb (is_request_id request_id)
      then fail INVALID_REQUEST "Request id must be a non-null string or integer" VNone None else
      if negb (py_eq (dget_or "jsonrpc" VNone body) (VStr JSONRPC_VERSION))
      then fail INVALID_REQUEST "jsonrpc must be exactly '2.0'" request_id None else
      match dget_or "method" VNone body with
      | VStr method =>
          if (py_len method =? 0)%Z || (120 <? py_len method)%Z
          then fail INVALID_REQUEST "method must be a non-empty string" request_id None else
          match dget_or "params" (VDict []) body with
          | VDict params =>
              match unknown_fields body with
              | [] => inr (JsonRpcRequest.Make request_id has_id method params)
              | unknown => fail INVALID_REQUEST "Request contains unknown fields" request_id
                             (Some [("fields", VList (map VStr unknown))])
              end
          | _ => fail INVALID_PARAMS "params must be an object" request_id None
          end
      | _ => fail INVALID_REQUEST "method must be a non-empty string" request_id None
      end
  | Some _ => fail INVALID_REQUEST "Request must be one JSON object" VNone None
  end.

Definition success_response (request_id result : val) : dict :=
  [("jsonrpc", VStr JSONRPC_VERSION); ("id", request_id); ("result", result)].

Definition error_response (request_id : val) (code : Z) (message : string) (data : option dict) : dict :=
  let error := [("code", VInt code); ("message", VStr message)] ++
               match data with Some ((_ :: _) as d) => [("data", VDict d)] | _ => [] end in
  [("jsonrpc", VStr JSONRPC_VERSION); ("id", request_id); ("error", VDict error)].

Definition notification (method : string) (params : dict) : dict :=
  [("jsonrpc", VStr JSONRPC_VERSION); ("method", VStr method); ("params", VDict params)].

(** *** The requests that are accepted *)

(** What the protocol asks of a request, field by field. *)
Record valid_body (body : dict) : Prop := {
  wf_version : dget "jsonrpc" body = Some (VStr JSONRPC_VERSION);
  wf_id : ∀ v, dget "id" body = Some v → is_request_id v = true;
  wf_method : ∃ method, dget "method" body = Some (VStr method) ∧ (1 ≤ py_len method ≤ 120)%Z;
  wf_params : ∀ v, dget "params" body = Some v → is_dict v = true;
  wf_fields : ∀ k, k ∈ body.*1 → k ∈ request_fields
}.

Lemma unknown_fields_nil body : unknown_fields body = [] ↔ ∀ k, k ∈ body.*1 → k ∈ request_fields.
Proof.
  unfold unknown_fields. split.
  - intros Hnil k Hk. destruct (bool_decide_reflect (k ∈ request_fields)) as [|Hn]; [done|]. exfalso.
    apply (not_elem_of_nil k). rewrite <-Hnil. by apply elem_of_order_by, list_elem_of_filter.
  - intros Hall. rewrite filter_none; [done|]. intros k Hk Hn. by apply Hn, Hall.
Qed.

Lemma py_eq_str v s : py_eq v (VStr s) = true ↔ v = VStr s.
Proof. destruct v; cbn; split; try done; [by intros ->%bool_decide_eq_true|intros [= ->]; by apply bool_decide_eq_true]. Qed.

Lemma dget_or_default k v v' d : v ≠ v' → dget_or k v d = v' → dget k d = Some v'.
Proof. unfold dget_or. destruct (dget k d); cbn; congruence. Qed.

(** The request a well-formed body is. *)
Definition request_of (body : dict) : JsonRpcRequest :=
  JsonRpcRequest.Make (dget_or "id" VNone body) (dmem "id" body)
    (match dget "method" body with Some (VStr m) => m | _ => "" end)
    (match dget "params" body with Some (VDict p) => p | _ => [] end).

(** A message is accepted exactly if it is one JSON object with the four fields of the
    protocol, well formed, and none other; what is accepted is read field by field, and what is
    not is refused with one of the protocol's codes, echoing an id only if that is a string or
    an integer. *)
Theorem parse_request_spec loads raw :
  match parse_request loads raw with
  | inr r => ∃ body, loads raw = Some (VDict body) ∧ valid_body body ∧ r = request_of body
  | inl f =>
      ¬ (∃ body, loads raw = Some (VDict body) ∧ valid_body body) ∧
      ProtocolFailure.code f ∈ [PARSE_ERROR; INVALID_REQUEST; INVALID_PARAMS] ∧
      (ProtocolFailure.request_id f = VNone ∨ is_request_id (ProtocolFailure.request_id f) = true)
  end.
Proof.
  unfold parse_request. destruct (loads raw) as [v|] eqn:Hl.
  2: { split; [by intros (? & ? & _)|]. split; [by left|by left]. }
  destruct v as [| | | | |body]; try (split; [by intros (? & ? & _)|]; split; [by right; left|by left]).
  assert (¬ valid_body body → ¬ ∃ body', Some (VDict body) = Some (VDict body') ∧ valid_body body') as Hwf
    by (intros HP (b & [= <-] & Hb); auto).
  destruct (_ && _) eqn:Hid.
  { apply andb_true_iff in Hid as [(v & Hv)%dmem_true Hn%negb_true_iff]. unfold dget_or in Hn. rewrite Hv in Hn.
    split; [|split; [by right; left|by left]]. apply Hwf. intros Hb. cbn in Hn. by rewrite (wf_id _ Hb v Hv) in Hn. }
  assert (∀ v, dget "id" body = Some v → is_request_id v = true) as Hids.
  { intros v Hv. unfold dget_or in Hid. rewrite Hv, (proj2 (dmem_true _ _)) in Hid by by exists v.
    by apply negb_false_iff in Hid. }
  assert (dget_or "id" VNone body = VNone ∨ is_request_id (dget_or "id" VNone body) = true) as Hecho.
  { unfold dget_or. destruct (dget "id" body) as [v|] eqn:Hv; cbn; [right; by apply Hids|by left]. }
  clear Hid. destruct (py_eq _ _) eqn:Hver; cbn [negb].
  2: { split; [|split; [by right; left|done]]. apply Hwf. intros Hb. unfold dget_or in Hver.
       by rewrite (wf_version _ Hb) in Hver. }
  apply py_eq_str, dget_or_default in Hver; [|done].
  destruct (dget_or "method" VNone body) as [| | |method| |] eqn:Hm;
    try (split; [|split; [by right; left|done]]; apply Hwf; intros [_ _ (m & Hm' & _) _ _];
         unfold dget_or in Hm; by rewrite Hm' in Hm).
  apply dget_or_default in Hm; [|done].
  destruct (_ || _) eqn:Hlen.
  { split; [|split; [by right; left|done]]. apply Hwf. intros [_ _ (m & Hm' & ?) _ _].
    apply orb_true_iff in Hlen as [Hlen%Z.eqb_eq|Hlen%Z.ltb_lt]; replace m with method in * by congruence; lia. }
  apply orb_false_iff in Hlen as [Hlen1%Z.eqb_neq Hlen2%Z.ltb_ge]. assert (0 ≤ py_len method)%Z by (unfold py_len; lia).
  destruct (dget_or "params" (VDict []) body) as [| | | | |params] eqn:Hp;
    try (split; [|split; [by right; right; left|done]]; apply Hwf; intros [_ _ _ Hp' _]; unfold dget_or in Hp;
         destruct (dget "params" body) as [v|]; [cbn in Hp; subst v; by specialize (Hp' _ eq_refl)|done]).
  destruct (unknown_fields body) as [|k l] eqn:Hu.
  - exists body. split; [done|]. pose proof (proj1 (unknown_fields_nil body) Hu) as Hfields. split.
    + split; [done..| | |done]; [exists method; split; [done|lia]|]. intros v Hv. unfold dget_or in Hp.
      rewrite Hv in Hp. cbn in Hp. by subst v.
    + unfold request_of. rewrite Hm. unfold dget_or in Hp. destruct (dget "params" body) as [v|]; cbn in Hp.
      * by subst v.
      * by injection Hp as <-.
  - split; [|split; [by right; left|done]]. apply Hwf. intros Hb.
    by rewrite (proj2 (unknown_fields_nil body) (wf_fields _ Hb)) in Hu.
Qed.

(** ** The ledger of client requests ([persistence/app_server_requests.py])

    A mutation that a client of the application server sends carries a [client_request_id].  The
    ledger binds it, per principal and for a retention window, to the method, to a fingerprint
    of the parameters and, once the mutation has been made, to its outcome.  The ledger stands
    next to the tables of any session; the constraints of its table and, on PostgreSQL, its
    trigger are those of [db/models.py] and of the migration that creates it. *)

Module AppServerRequest.
Record AppServerRequest : Type := Make {
  id : uuid;
  organization_id : uuid;
  principal_id : uuid;
  client_request_id : string;
  method : string;
  params_fingerprint : string;
  response : option val;
  created_at : Z;
  completed_at : option Z;
  expires_at : Z
}.
End AppServerRequest.
Abbreviation AppServerRequest := AppServerRequest.AppServerRequest.

Record Ledger (S : Type) : Type := MkLedger {
  inner : S;
  requests : list AppServerRequest
}.
Arguments MkLedger {S} inner requests.
Arguments inner {S} l.
Arguments requests {S} l.

#[export] Program Instance ledger_session {S} `{Session S} : Session (Ledger S) := {
  kernel l := kernel (inner l);
  set_kernel k l := MkLedger (set_kernel k (inner l)) (requests l);
  rollback old new := MkLedger (rollback (inner old) (inner new)) (requests old)
}.
Next Obligation. intros S HS [l r]. cbn. by rewrite set_kernel_same. Qed.
Next Obligation. intros S HS k [l r]. cbn. apply kernel_set_kernel. Qed.
Next Obligation. intros S HS k k' [l r]. cbn. by rewrite set_kernel_twice. Qed.
Next Obligation. intros S HS [l r] [l' r']. cbn. apply kernel_of_rollback. Qed.

(** A computation on the tables beside the ledger. *)
Definition inside {S A} (m : Py S A) : Py (Ledger S) A := λ l,
  match m (inner l) with
  | Ok a s => Ok a (MkLedger s (requests l))
  | Raise e s => Raise e (MkLedger s (requests l))
  end.

Definition params_fingerprint (params : dict) : string := sha256 (json_dumps false (VDict params)).

Module IdempotencyClaim.
Record IdempotencyClaim : Type := Make {
  record : AppServerRequest;
  replayed_response : option val
}.
End IdempotencyClaim.
Abbreviation IdempotencyClaim := IdempotencyClaim.IdempotencyClaim.

(** ** The table *)

Definition key_of (r : AppServerRequest) : uuid * uuid * string :=
  (AppServerRequest.organization_id r, AppServerRequest.principal_id r, AppServerRequest.client_request_id r).

(** [length(trim(client_request_id)) > 0], where SQL trims spaces only. *)
Definition nonempty_key (key : string) : bool := existsb (λ c, negb (bool_decide (c = " "%char))) (chars key).

(** [completion_consistent]: a row has a response exactly if it has a completion time. *)
Definition consistent (r : AppServerRequest) : bool :=
  bool_decide (AppServerRequest.response r = None ↔ AppServerRequest.completed_at r = None).

Definition request_constraints (r : AppServerRequest) : bool :=
  nonempty_key (AppServerRequest.client_request_id r) &&
  (py_len (AppServerRequest.params_fingerprint r) =? 64)%Z && consistent r.

(** What the trigger asks of an [UPDATE]. *)
Definition guard_request_update (old new : AppServerRequest) : bool :=
  bool_decide (AppServerRequest.id old = AppServerRequest.id new) &&
  bool_decide (key_of old = key_of new) &&
  bool_decide (AppServerRequest.method old = AppServerRequest.method new) &&
  bool_decide (AppServerRequest.params_fingerprint old = AppServerRequest.params_fingerprint new) &&
  bool_decide (AppServerRequest.created_at old = AppServerRequest.created_at new) &&
  bool_decide (AppServerRequest.expires_at old = AppServerRequest.expires_at new) &&
  bool_decide (AppServerRequest.response old = None) && bool_decide (AppServerRequest.completed_at old = None) &&
  negb (bool_decide (AppServerRequest.response new = None)) &&
  negb (bool_decide (AppServerRequest.completed_at new = None)).

Definition with_outcome (response : val) (now : Z) (r : AppServerRequest) : AppServerRequest :=
  r <| AppServerRequest.response := Some response |> <| AppServerRequest.completed_at := Some now |>.

(** ** The store *)

Definition is_integrity_error (e : exn) : bool :=
  match e with PyError class => bool_decide (class = "IntegrityError") | ObsionError _ _ _ _ => false end.

Section Store.
Context {S : Type} `{Session S, Environment}.

(** The values of [String(n)] columns count on PostgreSQL only. *)
Definition fits_columns (r : AppServerRequest) : bool :=
  bool_decide (dialect = "sqlite") ||
  ((py_len (AppServerRequest.client_request_id r) <=? 200) && (py_len (AppServerRequest.method r) <=? 120))%Z.

Definition insert_request (row : AppServerRequest) : Py (Ledger S) unit :=
  raise_if (negb (fits_columns row)) (PyError "DBAPIError");;
  taken ← gets (λ l, existsb (λ r, bool_decide (AppServerRequest.id r = AppServerRequest.id row) ||
                                   bool_decide (key_of r = key_of row)) (requests l));
  raise_if (taken || negb (request_constraints row)) (PyError "IntegrityError");;
  modify (λ l, MkLedger (inner l) (requests l ++ [row])).

Definition expired_request (key : uuid * uuid * string) (now : Z) (r : AppServerRequest) : bool :=
  bool_decide (key_of r = key) && (AppServerRequest.expires_at r <=? now)%Z.

(** The [DELETE] of an expired row.  The trigger compares with the clock of the database. *)
Definition delete_expired (key : uuid * uuid * string) (now : Z) : Py (Ledger S) unit :=
  due ← gets (λ l, List.filter (expired_request key now) (requests l));
  (if negb (bool_decide (due = [])) && bool_decide (dialect = "postgresql") then
     database_now ← in_kernel utc_now;
     raise_if (existsb (λ r, (database_now <? AppServerRequest.expires_at r)%Z) due) (PyError "DBAPIError")
   else mret ());;
  modify (λ l, MkLedger (inner l) (List.filter (λ r, negb (expired_request key now r)) (requests l))).

Definition find_request (key : uuid * uuid * string) (l : Ledger S) : option AppServerRequest :=
  head (List.filter (λ r, bool_decide (key_of r = key)) (requests l)).

(** What an existing row answers. *)
Definition existing_claim (method fingerprint : string) (existing : option AppServerRequest) :
    Py (Ledger S) IdempotencyClaim :=
  match existing with
  | None => raise (ConflictError "idempotency_claim_lost" "The idempotency claim could not be resolved" [])
  | Some r =>
      raise_if (negb (bool_decide (AppServerRequest.method r = method)) ||
                negb (bool_decide (AppServerRequest.params_fingerprint r = fingerprint)))
        (ConflictError "idempotency_key_reused" "The client request ID is already bound to another operation"
           [("original_method", VStr (AppServerRequest.method r))]);;
      match AppServerRequest.response r with
      | None => raise (ConflictError "idempotency_request_in_progress" "The original request is still in progress" [])
      | Some response => mret (IdempotencyClaim.Make r (Some response))
      end
  end.

Definition hour_us : Z := 3600 * 1000000.

Definition claim (p : Principal) (client_request_id method fingerprint : string) (retention_hours : Z) :
    Py (Ledger S) IdempotencyClaim :=
  now ← in_kernel utc_now;
  let key := (Principal.organization_id p, Principal.id p, client_request_id) in
  delete_expired key now;;
  id ← in_kernel new_id;
  let record := AppServerRequest.Make id (Principal.organization_id p) (Principal.id p) client_request_id method
    fingerprint None now None (now + retention_hours * hour_us)%Z in
  inserted ← try_catch (savepoint (insert_request record);; mret true)
    (λ e, if is_integrity_error e then Some (mret false) else None);
  if (inserted : bool) then mret (IdempotencyClaim.Make record None) else
  existing ← gets (find_request key);
  existing_claim method fingerprint existing.

Definition complete_request (record : AppServerRequest) (response : val) : Py (Ledger S) unit :=
  raise_if (bool_decide (is_Some (AppServerRequest.response record)))
    (ConflictError "idempotency_already_completed" "The idempotency outcome is immutable" []);;
  now ← in_kernel utc_now;
  let update r := if bool_decide (AppServerRequest.id r = AppServerRequest.id record)
                  then with_outcome response now r else r in
  refused ← gets (λ l, bool_decide (dialect = "postgresql") &&
    existsb (λ r, bool_decide (AppServerRequest.id r = AppServerRequest.id record) &&
                  negb (guard_request_update r (with_outcome response now r))) (requests l));
  raise_if refused (PyError "DBAPIError");;
  modify (λ l, MkLedger (inner l) (map update (requests l))).
End Store.

(** ** Mutations *)

(** What [_mutate] raises: an exception of a service, or an error that was recorded. *)
Inductive app_exn : Type :=
| Raised (e : exn)
| RecordedAppServerError (error : val).

Definition as_app {S A} (m : Py S A) : M app_exn S A := λ s,
  match m s with
  | Ok a s' => Ok a s'
  | Raise e s' => Raise (Raised e) s'
  end.

Class AppServerSettings := { app_server_idempotency_retention_hours : Z }.

(** [RunView.model_validate(run).model_dump(mode="json")], given whether its content is
    available; and the id of the Run in a dict that [RunView.model_validate] accepts. *)
Class RunViews := {
  run_view : bool → Run → dict;
  read_run_view : dict → option uuid
}.

Definition _domain_error (code message : string) (status_code : Z) (details : dict) (correlation_id : uuid) : val :=
  VDict [("code", VInt (application_error_code status_code)); ("message", VStr message);
         ("data", VDict [("code", VStr code); ("status", VInt status_code);
                         ("correlation_id", VStr (uuid_str correlation_id)); ("details", VDict details)])].

(** The methods whose outcome carries the content of a Run. *)
Definition content_methods : list string := ["turn.create"; "run.cancel"; "run.replay"; "run.clarification.answer"].

(** [view.model_copy(update=...)] of [public_run_view], on the dump of the view. *)
Definition hidden_view (view : dict) : dict :=
  dset "source_content_available" (VBool false) (dset "intent" (VDict []) (dset "plan" (VDict [])
    (dset "pending_clarification" VNone (dset "context_budget" (VDict []) (dset "conversation_compact" (VDict [])
      (dset "workspace_context" (VDict []) (dset "prompt_pins" (VList []) (dset "error_message" VNone view)))))))).

Section Mutate.
Context {S : Type} `{Session S, Environment, PublicationGuard, AppServerSettings, RunViews}.

(** The handler's outcome, as it is recorded. *)
Definition handled (correlation_id : uuid) (handler : Py S val) : Py (Ledger S) val :=
  try_catch (result ← inside handler; mret (VDict [("result", result)]))
    (λ e, match e with
          | ObsionError code message status details =>
              Some (mret (VDict [("error", _domain_error code message status details correlation_id)]))
          | PyError _ => None
          end).

(** The transaction of [_mutate]. *)
Definition transact (method : string) (p : Principal) (correlation_id : uuid) (client_request_id : string)
    (params : dict) (handler : Py S val) : Py (Ledger S) val :=
  savepoint (
    c ← claim p client_request_id method (params_fingerprint params) app_server_idempotency_retention_hours;
    match IdempotencyClaim.replayed_response c with
    | Some outcome => mret outcome
    | None =>
        outcome ← handled correlation_id handler;
        complete_request (IdempotencyClaim.record c) outcome;;
        mret outcome
    end).

Definition assertion {A} : Py (Ledger S) A := raise (PyError "AssertionError").

(** [audited_read_session] ([persistence/reads.py]): a domain error keeps the journal of the read,
    any other exception rolls it back. *)
Definition audited_read {A} (m : Py (Ledger S) A) : Py (Ledger S) A := λ s,
  match m s with
  | Ok a s' => Ok a s'
  | Raise (ObsionError code message status details) s' => Raise (ObsionError code message status details) s'
  | Raise (PyError class) s' => Raise (PyError class) (rollback s s')
  end.

(** The outcome that is delivered: content only while its sources may be shown. *)
Definition _project_mutation_content (method : string) (p : Principal) (result : val) : Py (Ledger S) val :=
  if negb (bool_decide (method ∈ content_methods)) then mret result else
  let nested := bool_decide (method = "turn.create") in
  match result with
  | VDict d =>
      match (if nested then dget "run" d else Some result) with
      | Some (VDict view) =>
          match read_run_view view with
          | Some run_id =>
              available ← audited_read (run ← in_kernel (require_run_access p run_id false);
                            in_kernel (check_publication p (Run.id run) "run_metadata" None false));
              if (available : bool) then mret result else
              let projected := VDict (hidden_view view) in
              mret (if nested then VDict (dset "run" projected d) else projected)
          | None => raise (PyError "ValidationError")
          end
      | Some _ => raise (PyError "ValidationError")
      | None => raise (PyError "KeyError")
      end
  | _ => assertion
  end.

(** What follows the transaction. *)
Definition deliver_outcome (method : string) (p : Principal) (outcome : val) : M app_exn (Ledger S) val :=
  match outcome with
  | VDict d =>
      let error := dget_or "error" VNone d in
      if truth error then (if is_dict error then raise (RecordedAppServerError error) else as_app assertion) else
      match dget "result" d with
      | Some ((VDict _ | VList _) as result) => as_app (_project_mutation_content method p result)
      | _ => as_app assertion
      end
  | _ => as_app assertion
  end.

Definition _mutate (method : string) (p : Principal) (correlation_id : uuid) (client_request_id : string)
    (params : dict) (handler : Py S val) : M app_exn (Ledger S) val :=
  outcome ← as_app (transact method p correlation_id client_request_id params handler);
  deliver_outcome method p outcome.
End Mutate.

(** ** The methods *)

Definition optional_time (o : option Z) : val := match o with Some t => VStr (iso_z t) | None => VNone end.

Definition thread_view (t : Thread) : dict :=
  [("id", VStr (uuid_str (Thread.id t))); ("workspace_id", VStr (uuid_str (Thread.workspace_id t)));
   ("title", VStr (Thread.title t)); ("status", VStr (value_of (Thread.status t)));
   ("created_by", VStr (uuid_str (Thread.created_by t)));
   ("parent_thread_id", str_or_none (Thread.parent_thread_id t));
   ("forked_from_turn_id", str_or_none (Thread.forked_from_turn_id t));
   ("created_at", VStr (iso_z (Thread.created_at t))); ("updated_at", VStr (iso_z (Thread.updated_at t)));
   ("archived_at", optional_time (Thread.archived_at t))].

Definition turn_view (t : Turn) : dict :=
  [("id", VStr (uuid_str (Turn.id t))); ("thread_id", VStr (uuid_str (Turn.thread_id t)));
   ("ordinal", VInt (Turn.ordinal t)); ("created_by", VStr (uuid_str (Turn.created_by t)));
   ("input_text", VStr (Turn.input_text t)); ("context_refs", VList (map VDict (Turn.context_refs t)));
   ("attachment_refs", VList (map VDict (Turn.attachment_refs t))); ("created_at", VStr (iso_z (Turn.created_at t)))].

Definition approval_view (a : Approval) : dict :=
  [("id", VStr (uuid_str (Approval.id a))); ("run_id", VStr (uuid_str (Approval.run_id a)));
   ("step_id", str_or_none (Approval.step_id a));
   ("policy_decision_id", VStr (uuid_str (Approval.policy_decision_id a)));
   ("status", VStr (value_of (Approval.status a))); ("reason", VStr (Approval.reason a));
   ("requested_by", VStr (uuid_str (Approval.requested_by a)));
   ("approver_constraints", VDict (Approval.approver_constraints a));
   ("decided_by", str_or_none (Approval.decided_by a)); ("decision_reason", opt_str (Approval.decision_reason a));
   ("expires_at", VStr (iso_z (Approval.expires_at a))); ("decided_at", optional_time (Approval.decided_at a));
   ("created_at", VStr (iso_z (Approval.created_at a)))].

(** The mutations of threads, turns and Runs a client can ask for ([app_server/schemas.py]), with
    the params as they were sent. *)
Inductive Mutation : Type :=
| ThreadCreate (workspace_id : uuid) (title : string)
| ThreadArchive (thread_id : uuid)
| ThreadResume (thread_id : uuid)
| ThreadFork (thread_id : uuid) (from_turn_id : option uuid) (title : option string)
| TurnCreate (thread_id : uuid) (request : CreateTurnRequest)
| RunCancel (run_id : uuid)
| RunReplay (run_id : uuid)
| RunClarificationAnswer (run_id clarification_id : uuid) (submission : dict).

Definition method_of (m : Mutation) : string :=
  match m with
  | ThreadCreate _ _ => "thread.create"
  | ThreadArchive _ => "thread.archive"
  | ThreadResume _ => "thread.resume"
  | ThreadFork _ _ _ => "thread.fork"
  | TurnCreate _ _ => "turn.create"
  | RunCancel _ => "run.cancel"
  | RunReplay _ => "run.replay"
  | RunClarificationAnswer _ _ _ => "run.clarification.answer"
  end.

(** [submission.model_dump(mode="json")]. *)
Definition dump_submission (s : ClarificationAnswerSubmission) : dict :=
  [("expected_intent_revision", VInt (ClarificationAnswerSubmission.expected_intent_revision s));
   ("answers", dump_list (λ a,
      VDict [("slot", VStr (ClarificationAnswerItem.slot a)); ("option_id", opt_str (ClarificationAnswerItem.option_id a));
             ("value", default VNone (ClarificationAnswerItem.value a))])
      (ClarificationAnswerSubmission.answers s))].

Section Params.
Context `{UnicodeData, IsoFormats}.

(** [params.model_dump(mode="json")] without the [client_request_id]. *)
Definition _fingerprint_params (m : Mutation) : dict :=
  match m with
  | ThreadCreate workspace_id title => [("workspace_id", VStr (uuid_str workspace_id)); ("title", VStr title)]
  | ThreadArchive thread_id | ThreadResume thread_id => [("thread_id", VStr (uuid_str thread_id))]
  | ThreadFork thread_id from_turn_id title =>
      [("thread_id", VStr (uuid_str thread_id)); ("from_turn_id", str_or_none from_turn_id); ("title", opt_str title)]
  | TurnCreate thread_id r =>
      [("thread_id", VStr (uuid_str thread_id)); ("input", VStr (CreateTurnRequest.input r));
       ("context_refs", VList (map VDict (CreateTurnRequest.context_refs r)));
       ("attachment_refs", VList (map VDict (CreateTurnRequest.attachment_refs r)));
       ("model_profile", opt_str (CreateTurnRequest.model_profile r))]
  | RunCancel run_id | RunReplay run_id => [("run_id", VStr (uuid_str run_id))]
  | RunClarificationAnswer run_id clarification_id submission =>
      [("run_id", VStr (uuid_str run_id)); ("clarification_id", VStr (uuid_str clarification_id))] ++
      match read_submission (VDict submission) with Some s => dump_submission s | None => [] end
  end.

(** [CreateTurnRequest] and [ClarificationAnswerSubmission] refuse some params before anything else
    happens. *)
Definition accepted (m : Mutation) : bool :=
  match m with
  | TurnCreate _ r => bool_decide (is_Some (valid_turn r))
  | RunClarificationAnswer _ _ submission => bool_decide (is_Some (read_submission (VDict submission)))
  | _ => true
  end.
End Params.

Section Methods.
Context `{UnicodeData, IsoFormats, Environment, EventContracts, JsonEncoder, PublicationGuard, RunSettings, AppServerSettings, RunViews}.

(** The [operation] each method hands to [_mutate]. *)
Definition create_thread_operation (p : Principal) (workspace_id : uuid) (title : string) : Py WorkspaceDb val :=
  t ← create_thread p workspace_id title ActorType.USER; mret (VDict (thread_view t)).

Definition archive_thread_operation (p : Principal) (thread_id : uuid) : Py WorkspaceDb val :=
  t ← archive_thread p thread_id; mret (VDict (thread_view t)).

Definition resume_thread_operation (p : Principal) (thread_id : uuid) : Py WorkspaceDb val :=
  t ← resume_thread p thread_id; mret (VDict (thread_view t)).

Definition fork_thread_operation (p : Principal) (thread_id : uuid) (from_turn_id : option uuid)
    (title : option string) : Py WorkspaceDb val :=
  t ← fork_thread p thread_id from_turn_id title; mret (VDict (thread_view t)).

Definition create_turn_operation (p : Principal) (thread_id : uuid) (request : CreateTurnRequest) : Py WorkspaceDb val :=
  created ← create_turn p thread_id request ActorType.USER;
  mret (VDict [("turn", VDict (turn_view created.1)); ("run", VDict (run_view true created.2))]).

Definition cancel_run_operation (p : Principal) (run_id : uuid) : Py WorkspaceDb val :=
  run ← cancel_run p run_id;
  view ← in_kernel (public_run_view p run);
  mret (VDict (run_view view.1 view.2)).

Definition replay_run_operation (p : Principal) (run_id : uuid) : Py WorkspaceDb val :=
  run ← replay_run p run_id; mret (VDict (run_view true run)).

Definition answer_run_operation (p : Principal) (run_id clarification_id : uuid)
    (submission : ClarificationAnswerSubmission) : Py WorkspaceDb val :=
  run ← in_kernel (answer p run_id clarification_id submission); mret (VDict (run_view true run)).

Definition operation (p : Principal) (m : Mutation) : Py WorkspaceDb val :=
  match m with
  | ThreadCreate workspace_id title => create_thread_operation p workspace_id title
  | ThreadArchive thread_id => archive_thread_operation p thread_id
  | ThreadResume thread_id => resume_thread_operation p thread_id
  | ThreadFork thread_id from_turn_id title => fork_thread_operation p thread_id from_turn_id title
  | TurnCreate thread_id request => create_turn_operation p thread_id (default request (valid_turn request))
  | RunCancel run_id => cancel_run_operation p run_id
  | RunReplay run_id => replay_run_operation p run_id
  | RunClarificationAnswer run_id clarification_id submission =>
      answer_run_operation p run_id clarification_id
        (default (ClarificationAnswerSubmission.Make 1 []) (read_submission (VDict submission)))
  end.

Definition mutate (p : Principal) (correlation_id : uuid) (client_request_id : string) (m : Mutation) :
    M app_exn (Ledger WorkspaceDb) val :=
  if accepted m
  then _mutate (method_of m) p correlation_id client_request_id (_fingerprint_params m) (operation p m)
  else raise (Raised (PyError "ValidationError")).

Definition decide_approval (p : Principal) (correlation_id : uuid) (client_request_id : string) (approval_id : uuid)
    (approve : bool) (reason : string) : M app_exn (Ledger ApprovalState) val :=
  _mutate "approval.decide" p correlation_id client_request_id
    [("approval_id", VStr (uuid_str approval_id)); ("decision", VStr (if approve then "approve" else "reject"));
     ("reason", VStr reason)]
    (a ← decide p approval_id approve reason; mret (VDict (approval_view a))).

(** [dispatch] of a mutation: the message that answers it.  A notification, which carries no id,
    is not even tried.  What pydantic's error says is the parameter [issues]. *)
Definition dispatch_mutation (issues : val) (r : JsonRpcRequest) (p : Principal) (correlation_id : uuid)
    (client_request_id : string) (m : Mutation) : M app_exn (Ledger WorkspaceDb) (option dict) :=
  let failed error := mret (Some [("jsonrpc", VStr JSONRPC_VERSION); ("id", JsonRpcRequest.request_id r);
                                  ("error", error)]) in
  if negb (JsonRpcRequest.has_id r) then mret None else
  try_catch (result ← mutate p correlation_id client_request_id m;
             mret (Some (success_response (JsonRpcRequest.request_id r) result)))
    (λ e, match e with
          | RecordedAppServerError error => Some (failed error)
          | Raised (ObsionError code message status details) =>
              Some (failed (_domain_error code message status details correlation_id))
          | Raised (PyError class) =>
              if bool_decide (class = "ValidationError")
              then Some (mret (Some (error_response (JsonRpcRequest.request_id r) INVALID_PARAMS
                                       "Invalid method params" (Some [("issues", issues)]))))
              else None
          end).
End Methods.
