(* ===== verification/AppServerFacts.v ===== *)
(** * Client requests are made once

    The ledger over time: what it holds is sound, a transaction of [_mutate] runs its handler at
    most once and keeps its effects exactly if it records its outcome, and a request that was
    answered is answered the same for as long as its row is retained. *)

From S2P Require Import Prelude PyText PyVal Enums Models Kernel Events EventLog Identity Approvals.
From S2P Require Import TurnRequest WorkspaceState TaskContracts RunIntents IntentHistory.
From S2P Require Import WorkspaceService WorkspaceSample AppServer.

#[local] Open Scope list_scope.

(** A rollback undoes nothing where only the kernel's clock has moved. *)
Class RollsBack (S : Type) `{Session S} : Prop :=
  rollback_kernel s k : rollback s (set_kernel k s) = set_kernel (kernel_rollback (kernel s) k) s.

#[export] Instance workspace_rolls_back : RollsBack WorkspaceDb.
Proof. intros [] k. done. Qed.

#[export] Instance approvals_roll_back : RollsBack ApprovalState.
Proof. intros [] k. done. Qed.

(** Nothing but time has passed. *)
Definition elapsed {S} `{Session S} (s s' : S) : Prop := ∃ k, same_tables (kernel s) k ∧ s' = set_kernel k s.

(** The next reading of the clock. *)
Definition next_reading (k : Kernel) : Z := match readings k with t :: _ => t | [] => clock k end.

Record request_ok `{Environment} (r : AppServerRequest) : Prop := {
  ok_answered : is_Some (AppServerRequest.response r);
  ok_outcome outcome : AppServerRequest.response r = Some outcome →
    ∃ v, outcome = VDict [("result", v)] ∨ outcome = VDict [("error", v)] ∧ is_dict v = true ∧ truth v = true;
  ok_constraints : request_constraints r = true;
  ok_columns : fits_columns r = true
}.

Record ledger_ok {S} `{Environment} (l : Ledger S) : Prop := {
  ok_ids : NoDup (AppServerRequest.id <$> requests l);
  ok_keys : NoDup (key_of <$> requests l);
  ok_requests : Forall request_ok (requests l)
}.

Section Facts.
Context {S : Type} `{Session S, !RollsBack S, Environment, PublicationGuard, AppServerSettings, RunViews}.

#[export] Instance elapsed_preorder : PreOrder (elapsed (S := S)).
Proof.
  split.
  - intros s. exists (kernel s). rewrite set_kernel_same. split; [|done]. unfold same_tables. by destruct (kernel s).
  - intros s1 s2 s3 (k1 & Hk1 & ->) (k2 & Hk2 & ->). rewrite kernel_set_kernel in Hk2. exists k2.
    rewrite set_kernel_twice. split; [by eapply same_tables_trans|done].
Qed.

Lemma elapsed_set (s : S) k : same_tables (kernel s) k → elapsed s (set_kernel k s).
Proof. intros Hk. by exists k. Qed.

Lemma elapsed_rollback (s s' : S) : elapsed s s' → elapsed s (rollback s s').
Proof.
  intros (k & Hk & ->). rewrite rollback_kernel. apply elapsed_set. unfold same_tables in *. by rewrite Hk.
Qed.

(** The ledger is the same, and nothing but time has passed beside it. *)
Definition untouched (l l' : Ledger S) : Prop := elapsed (inner l) (inner l') ∧ requests l' = requests l.

#[export] Instance untouched_preorder : PreOrder untouched.
Proof. split; [by split|]. intros l1 l2 l3 [] []. split; [by etransitivity|congruence]. Qed.

Lemma untouched_rollback l l' : untouched l l' → untouched l (rollback l l').
Proof. intros [He _]. split; [by apply elapsed_rollback|done]. Qed.

Lemma untouched_set (l : Ledger S) k : same_tables (kernel l) k → untouched l (set_kernel k l).
Proof. intros Hk. split; [by apply elapsed_set|done]. Qed.

Lemma wp_ledger_clock (Q : Z → Ledger S → Prop) X l :
  (∀ l', untouched l l' → Q (next_reading (kernel l)) l') → wp (in_kernel utc_now) Q X l.
Proof.
  intros HQ. apply wp_in_kernel. unfold wp, utc_now, next_reading in *. destruct (readings (kernel l)) eqn:Hr;
    apply HQ, untouched_set; unfold same_tables; [by destruct (kernel l)|done].
Qed.

Lemma wp_fresh (Q : uuid → Ledger S → Prop) X l :
  (∀ id l', untouched l l' → Q id l') → wp (in_kernel new_id) Q X l.
Proof. intros HQ. apply wp_in_kernel, wp_new_id. intros id k Hk. by apply HQ, untouched_set. Qed.

(** ** Claims *)

(** The rows that are left once the expired row of a key is deleted. *)
Definition retained (key : uuid * uuid * string) (now : Z) (l : Ledger S) : list AppServerRequest :=
  List.filter (λ r, negb (expired_request key now r)) (requests l).

Lemma elem_of_retained key now l r :
  r ∈ retained key now l ↔ r ∈ requests l ∧ expired_request key now r = false.
Proof. unfold retained. by rewrite !list_elem_of_In, filter_In, negb_true_iff. Qed.

Lemma wp_delete_expired key now (Q : () → Ledger S → Prop) X l :
  (∀ l', elapsed (inner l) (inner l') → requests l' = retained key now l → Q () l') →
  (∀ e l', untouched l l' → X e l') →
  wp (delete_expired key now) Q X l.
Proof.
  intros HQ HX. unfold delete_expired. apply wp_bind, wp_gets, wp_bind.
  apply (wp_mono _ (λ _ l', untouched l l') _ (λ _ l', untouched l l')); [|intros _ l' [He Hr]|by intros; apply HX].
  - destruct (_ && _); [|by apply wp_ret]. apply wp_bind, wp_ledger_clock. intros l' Hl'. by apply wp_raise_if.
  - apply wp_modify, HQ; [done|]. unfold retained. cbn. by rewrite Hr.
Qed.

Lemma wp_insert_request row (Q : () → Ledger S → Prop) X l :
  (fits_columns row = true → request_constraints row = true →
   AppServerRequest.id row ∉ AppServerRequest.id <$> requests l → key_of row ∉ key_of <$> requests l →
   Q () (MkLedger (inner l) (requests l ++ [row]))) →
  (fits_columns row = false → X (PyError "DBAPIError") l) →
  (fits_columns row = true → X (PyError "IntegrityError") l) →
  wp (insert_request row) Q X l.
Proof.
  intros HQ HX1 HX2. unfold insert_request. apply wp_bind, wp_raise_if; [intros Hf%negb_true_iff; auto|].
  intros Hf%negb_false_iff. apply wp_bind, wp_gets, wp_bind, wp_raise_if; [auto|].
  intros [Htaken Hc%negb_false_iff]%orb_false_iff. apply wp_modify, HQ; [done..| |].
  - intros (r & Hid & Hr)%list_elem_of_fmap. apply Bool.not_true_iff_false in Htaken. apply Htaken.
    apply existsb_exists. exists r. split; [by apply list_elem_of_In|]. by rewrite bool_decide_true.
  - intros (r & Hk & Hr)%list_elem_of_fmap. apply Bool.not_true_iff_false in Htaken. apply Htaken.
    apply existsb_exists. exists r. split; [by apply list_elem_of_In|].
    by rewrite (bool_decide_true (key_of r = _)), orb_true_r.
Qed.

(** The row of a new request. *)
Record fresh_request (p : Principal) (client_request_id method fingerprint : string) (hours now : Z)
    (rows : list AppServerRequest) (r : AppServerRequest) : Prop := {
  fresh_key : key_of r = (Principal.organization_id p, Principal.id p, client_request_id);
  fresh_method : AppServerRequest.method r = method;
  fresh_fingerprint : AppServerRequest.params_fingerprint r = fingerprint;
  fresh_pending : AppServerRequest.response r = None ∧ AppServerRequest.completed_at r = None;
  fresh_expires : AppServerRequest.expires_at r = (now + hours * hour_us)%Z;
  fresh_constraints : request_constraints r = true;
  fresh_columns : fits_columns r = true;
  fresh_id_new : AppServerRequest.id r ∉ AppServerRequest.id <$> rows;
  fresh_key_new : key_of r ∉ key_of <$> rows
}.

Definition same_operation (method fingerprint : string) (r : AppServerRequest) : Prop :=
  AppServerRequest.method r = method ∧ AppServerRequest.params_fingerprint r = fingerprint.

Lemma wp_claim p crid method fp hours (Q : IdempotencyClaim → Ledger S → Prop) X l :
  let key := (Principal.organization_id p, Principal.id p, crid) in
  let now := next_reading (kernel l) in
  (∀ r l', elapsed (inner l) (inner l') → fresh_request p crid method fp hours now (retained key now l) r →
     requests l' = retained key now l ++ [r] → Q (IdempotencyClaim.Make r None) l') →
  (∀ r o l', elapsed (inner l) (inner l') → requests l' = retained key now l → r ∈ retained key now l →
     key_of r = key → same_operation method fp r → AppServerRequest.response r = Some o →
     Q (IdempotencyClaim.Make r (Some o)) l') →
  (∀ e l', elapsed (inner l) (inner l') → X e l') →
  wp (claim p crid method fp hours) Q X l.
Proof.
  intros key now HQ1 HQ2 HX. unfold claim. apply wp_bind, wp_ledger_clock. intros l1 [He1 Hr1]. fold now key. cbv zeta.
  assert (retained key now l1 = retained key now l) as Hret by (unfold retained; by rewrite Hr1).
  apply wp_bind, wp_delete_expired; [|intros e l' [He' _]; apply HX; by etransitivity].
  intros l2 He2 Hr2. apply wp_bind, wp_fresh. intros id l3 [He3 Hr3]. rewrite Hr2, Hret in Hr3.
  assert (elapsed (inner l) (inner l3)) as He by (etransitivity; [done|]; by etransitivity).
  assert (elapsed (inner l) (rollback (inner l3) (inner l3))) as He' by (etransitivity; [done|]; by apply elapsed_rollback).
  apply wp_bind, wp_try_catch, wp_bind, wp_savepoint, wp_insert_request.
  - intros Hf Hc Hid Hkey. apply wp_ret. rewrite Hr3 in *. apply HQ1; [done| |done].
    by split.
  - intros _. by apply HX.
  - intros _. cbn. apply wp_ret. apply wp_bind, wp_gets.
    destruct (find_request key _) as [r|] eqn:Hfind; cbn [existing_claim]; [|by apply HX].
    unfold find_request in Hfind. apply head_elem in Hfind. cbn in Hfind. rewrite Hr3, list_elem_of_In in Hfind.
    apply filter_In in Hfind as [Hin%list_elem_of_In Hk%bool_decide_eq_true].
    apply wp_bind, wp_raise_if; [by intros; apply HX|].
    intros [Hm%negb_false_iff%bool_decide_eq_true Hfp%negb_false_iff%bool_decide_eq_true]%orb_false_iff.
    destruct (AppServerRequest.response r) as [o|] eqn:Ho; [|by apply HX]. apply wp_ret. by apply (HQ2 r).
Qed.

(** ** The transaction *)

Lemma wp_complete_request rows r response (Q : () → Ledger S → Prop) X l :
  requests l = rows ++ [r] → AppServerRequest.id r ∉ AppServerRequest.id <$> rows → AppServerRequest.response r = None →
  (∀ now l', elapsed (inner l) (inner l') → requests l' = rows ++ [with_outcome response now r] → Q () l') →
  (∀ e l', elapsed (inner l) (inner l') → X e l') →
  wp (complete_request r response) Q X l.
Proof.
  intros Hl Hid Hnone HQ HX. unfold complete_request. apply wp_bind, wp_raise_if; [intros _; by apply HX|]. intros _.
  apply wp_bind, wp_ledger_clock. intros l1 [He1 Hr1]. cbv zeta. apply wp_bind, wp_gets, wp_bind, wp_raise_if; [intros _; by apply HX|].
  intros _. apply wp_modify, (HQ (next_reading (kernel l))); [done|]. cbn. rewrite Hr1, Hl, map_app. cbn.
  rewrite bool_decide_true by done. f_equal. rewrite <-(map_id rows) at 2. apply map_ext_in. intros x Hx%list_elem_of_In. rewrite bool_decide_false; [done|].
  intros Heq. apply Hid. rewrite <-Heq. by apply list_elem_of_fmap_2.
Qed.

(** What a handler's run is recorded as; any other exception is not recorded. *)
Definition outcome_of (correlation_id : uuid) (x : outcome exn S val) : option (val * S) :=
  match x with
  | Ok v s => Some (VDict [("result", v)], s)
  | Raise (ObsionError code message status details) s =>
      Some (VDict [("error", _domain_error code message status details correlation_id)], s)
  | Raise (PyError _) _ => None
  end.

Lemma wp_handled corr handler (Q : val → Ledger S → Prop) X l :
  (∀ o s, outcome_of corr (handler (inner l)) = Some (o, s) → Q o (MkLedger s (requests l))) →
  (∀ e s, outcome_of corr (handler (inner l)) = None → X e (MkLedger s (requests l))) →
  wp (handled corr handler) Q X l.
Proof.
  intros HQ HX. unfold handled. apply wp_try_catch, wp_bind. unfold wp, inside.
  destruct (handler (inner l)) as [v s|[code message status details|class] s]; cbn in *; auto.
Qed.

(** The request was answered before. *)
Definition replayed (method : string) (p : Principal) (crid : string) (params : dict) (o : val) (l l' : Ledger S) : Prop :=
  let key := (Principal.organization_id p, Principal.id p, crid) in
  let rows := retained key (next_reading (kernel l)) l in
  elapsed (inner l) (inner l') ∧ requests l' = rows ∧
  ∃ r, r ∈ rows ∧ key_of r = key ∧ same_operation method (params_fingerprint params) r ∧ AppServerRequest.response r = Some o.

(** The handler ran, once, on the tables as they were; what it did is kept, with its outcome. *)
Definition ran (method : string) (p : Principal) (corr : uuid) (crid : string) (params : dict) (handler : Py S val)
    (o : val) (l l' : Ledger S) : Prop :=
  let now := next_reading (kernel l) in
  let rows := retained (Principal.organization_id p, Principal.id p, crid) now l in
  ∃ r s s' now', fresh_request p crid method (params_fingerprint params) app_server_idempotency_retention_hours now rows r ∧
    elapsed (inner l) s ∧ outcome_of corr (handler s) = Some (o, s') ∧ elapsed s' (inner l') ∧
    requests l' = rows ++ [with_outcome o now' r].

Lemma wp_transact method p corr crid params handler l :
  wp (transact method p corr crid params handler)
    (λ o l', replayed method p crid params o l l' ∨ ran method p corr crid params handler o l l')
    (λ _ l', requests l' = requests l ∧ ∃ s, inner l' = rollback (inner l) s) l.
Proof.
  unfold transact. apply wp_savepoint.
  assert (∀ l' : Ledger S, requests (rollback l l') = requests l ∧ ∃ s, inner (rollback l l') = rollback (inner l) s) as HX
    by (intros l'; split; [done|by exists (inner l')]).
  apply wp_bind, wp_claim; cbn [IdempotencyClaim.replayed_response IdempotencyClaim.record].
  - intros r l1 He1 Hfresh Hr1. apply wp_bind, wp_handled; [|by intros]. intros o s' Ho. apply wp_bind.
    eapply (wp_complete_request _ r); [done|apply Hfresh|apply Hfresh| |by intros].
    intros now' l2 He2 Hr2. apply wp_ret. right. by exists r, (inner l1), s', now'.
  - intros r o l1 He1 Hr1 Hin Hkey Hm Ho. apply wp_ret. left. split; [done|]. split; [done|]. by exists r.
  - by intros.
Qed.

(** ** The ledger stays sound *)

Lemma retained_ok key now (l : Ledger S) : ledger_ok l → ledger_ok (MkLedger (inner l) (retained key now l)).
Proof.
  assert (retained key now l `sublist_of` requests l) as Hsub.
  { unfold retained. induction (requests l) as [|x rows IH]; cbn; [done|]. destruct (negb _); by constructor. }
  intros [Hids Hkeys Hall]. split; cbn; [by eapply sublist_NoDup, fmap_sublist..|].
  rewrite Forall_forall in *. intros r Hr. apply Hall. by apply elem_of_retained in Hr as [? _].
Qed.

Lemma outcome_shape corr x o s :
  outcome_of corr x = Some (o, s) →
  ∃ v, o = VDict [("result", v)] ∨ o = VDict [("error", v)] ∧ is_dict v = true ∧ truth v = true.
Proof. destruct x as [v s'|[]]; intros [= <- _]; eexists; [by left|by right]. Qed.

Lemma fresh_answered p crid method fp hours now rows r corr x o s now' :
  fresh_request p crid method fp hours now rows r → outcome_of corr x = Some (o, s) →
  request_ok (with_outcome o now' r).
Proof.
  intros Hf Ho. split; [by eexists| | |].
  - intros o' [= <-]. by eapply outcome_shape.
  - pose proof (fresh_constraints _ _ _ _ _ _ _ _ Hf) as Hc. unfold request_constraints in *.
    rewrite !andb_true_iff in *. destruct Hc as [[Hk Hl] _]. split; [by split|]. by apply bool_decide_eq_true.
  - apply (fresh_columns _ _ _ _ _ _ _ _ Hf).
Qed.

Lemma transacted_ok method p corr crid params handler o l l' :
  ledger_ok l →
  replayed method p crid params o l l' ∨ ran method p corr crid params handler o l l' → ledger_ok l'.
Proof.
  intros Hok.
  pose proof (retained_ok (Principal.organization_id p, Principal.id p, crid) (next_reading (kernel l)) l Hok) as Hret.
  intros [(_ & Hr & _)|(r & s & s' & now' & Hf & _ & Ho & _ & Hr)].
  - destruct Hret as [? ? ?]. split; by rewrite Hr.
  - destruct Hret as [Hids Hkeys Hall]. split; rewrite Hr.
    + rewrite fmap_app. apply NoDup_app. split; [done|]. split; [|apply NoDup_singleton].
      intros x Hx ->%list_elem_of_singleton. by apply (fresh_id_new _ _ _ _ _ _ _ _ Hf).
    + rewrite fmap_app. apply NoDup_app. split; [done|]. split; [|apply NoDup_singleton].
      intros x Hx ->%list_elem_of_singleton. by apply (fresh_key_new _ _ _ _ _ _ _ _ Hf).
    + apply Forall_app. split; [done|]. apply Forall_singleton. by eapply fresh_answered.
Qed.

(** ** A request that was answered *)

(** A row that answers a request, and is retained when the clock is read next. *)
Record answers (p : Principal) (crid : string) (o : val) (l : Ledger S) (r : AppServerRequest) : Prop := {
  answers_in : r ∈ requests l;
  answers_key : key_of r = (Principal.organization_id p, Principal.id p, crid);
  answers_outcome : AppServerRequest.response r = Some o;
  answers_retained : (next_reading (kernel l) < AppServerRequest.expires_at r)%Z
}.

Lemma same_key_same_row (l : Ledger S) r x : ledger_ok l → r ∈ requests l → x ∈ requests l → key_of x = key_of r → x = r.
Proof.
  intros Hok [i Hi]%list_elem_of_lookup [j Hj]%list_elem_of_lookup Heq.
  assert (i = j) as <-; [|congruence]. eapply (NoDup_lookup _ _ _ (key_of r) (ok_keys _ Hok)); rewrite list_lookup_fmap.
  - by rewrite Hi.
  - by rewrite Hj, <-Heq.
Qed.

Lemma nothing_expired p crid o (l : Ledger S) r x :
  ledger_ok l → answers p crid o l r → x ∈ requests l →
  expired_request (Principal.organization_id p, Principal.id p, crid) (next_reading (kernel l)) x = false.
Proof.
  intros Hok [Hin Hkey _ Hlate] Hx. unfold expired_request. case_bool_decide as Hk; [|done]. cbn.
  rewrite (same_key_same_row l r x) by (done || congruence). by apply Z.leb_gt.
Qed.

Lemma list_filter_all {A} (f : A → bool) rows : (∀ x, x ∈ rows → f x = true) → List.filter f rows = rows.
Proof.
  induction rows as [|x rows IH]; intros Hall; cbn; [done|]. rewrite Hall by by left. f_equal. apply IH.
  intros y Hy. apply Hall. by right.
Qed.

Lemma list_filter_none {A} (f : A → bool) rows : (∀ x, x ∈ rows → f x = false) → List.filter f rows = [].
Proof.
  induction rows as [|x rows IH]; intros Hall; cbn; [done|]. rewrite Hall by by left. apply IH. intros y Hy. apply Hall. by right.
Qed.

(** With nothing to delete the ledger is as it was. *)
Lemma wp_delete_nothing key now (Q : () → Ledger S → Prop) X l :
  (∀ x, x ∈ requests l → expired_request key now x = false) → Q () l → wp (delete_expired key now) Q X l.
Proof.
  intros Hnone HQ. unfold delete_expired. apply wp_bind, wp_gets. rewrite list_filter_none by done.
  rewrite bool_decide_true by done. apply wp_bind, wp_ret, wp_modify. rewrite list_filter_all; [by destruct l|].
  intros x Hx. by rewrite Hnone.
Qed.

Lemma wp_claim_answered p crid method fp hours o l r :
  ledger_ok l → answers p crid o l r →
  wp (claim p crid method fp hours)
    (λ c l', c = IdempotencyClaim.Make r (Some o) ∧ same_operation method fp r ∧ untouched l l')
    (λ _ l', untouched l l' ∧ ¬ same_operation method fp r) l.
Proof.
  intros Hok Ha. pose proof Ha as [Hin Hkey Hout _]. unfold claim. apply wp_bind, wp_ledger_clock. intros l1 Hl1. cbv zeta.
  apply wp_bind, wp_delete_nothing.
  { rewrite (proj2 Hl1). intros x Hx. by eapply nothing_expired. }
  apply wp_bind, wp_fresh. intros id l2 Hl2. assert (untouched l l2) as Hl by by transitivity l1.
  assert (untouched l (rollback l2 l2)) as Hl' by (etransitivity; [done|]; by apply untouched_rollback).
  apply wp_bind, wp_try_catch, wp_bind, wp_savepoint, wp_insert_request.
  - intros _ _ _ Hnew. destruct Hnew. rewrite (proj2 Hl). apply list_elem_of_fmap. by exists r.
  - intros Hf. split; [done|]. intros [Hm _]. pose proof (proj1 (Forall_forall _ _) (ok_requests _ Hok) r Hin) as Hr.
    apply ok_columns in Hr. unfold fits_columns in *. cbn in Hf. rewrite Hm in Hr.
    assert (AppServerRequest.client_request_id r = crid) as Hc by (unfold key_of in Hkey; congruence). congruence.
  - intros _. cbn. apply wp_ret. apply wp_bind, wp_gets.
    match goal with |- context [find_request ?k ?l'] => assert (find_request k l' = Some r) as -> end.
    { unfold find_request. change (requests (MkLedger _ ?x)) with x. rewrite (proj2 Hl). destruct (List.filter _ _) as [|x rest] eqn:Hfilter.
      - exfalso. apply (not_elem_of_nil r). rewrite <-Hfilter. apply list_elem_of_In, filter_In.
        split; [by apply list_elem_of_In|]. by apply bool_decide_eq_true.
      - assert (x ∈ x :: rest) as Hx by by left. rewrite <-Hfilter, list_elem_of_In in Hx.
        apply filter_In in Hx as [Hx%list_elem_of_In Hxk%bool_decide_eq_true]. cbn. f_equal.
        apply (same_key_same_row l); congruence. }
    cbn [existing_claim]. apply wp_bind, wp_raise_if.
    + intros Hne. split; [done|]. intros [Hm Hfp]. rewrite !bool_decide_true in Hne by done. done.
    + intros [Hm%negb_false_iff%bool_decide_eq_true Hfp%negb_false_iff%bool_decide_eq_true]%orb_false_iff.
      rewrite Hout. by apply wp_ret.
Qed.

Lemma wp_transact_answered method p corr crid params handler o l r :
  ledger_ok l → answers p crid o l r →
  wp (transact method p corr crid params handler)
    (λ o' l', o' = o ∧ same_operation method (params_fingerprint params) r ∧ untouched l l')
    (λ _ l', untouched l l' ∧ ¬ same_operation method (params_fingerprint params) r) l.
Proof.
  intros Hok Ha. unfold transact. apply wp_savepoint, wp_bind.
  eapply wp_mono; [by apply wp_claim_answered| |].
  - intros c l' (-> & Hm & Hl). cbn [IdempotencyClaim.replayed_response]. by apply wp_ret.
  - intros e l' [Hl Hm]. split; [by apply untouched_rollback|done].
Qed.

(** ** Over time *)

(** Requests of clients, transactions that are lost, and whatever else happens beside the
    ledger; with a bound on the readings of the clock by which claims are made. *)
Definition early (bound : option Z) (l : Ledger S) : Prop :=
  match bound with Some t => (next_reading (kernel l) < t)%Z | None => True end.

Inductive step (bound : option Z) : Ledger S → Ledger S → Prop :=
| request_step method p corr crid params handler l :
    early bound l → step bound l (final (_mutate method p corr crid params handler l))
| lost_step method p corr crid params handler l :
    early bound l → step bound l (rollback l (final (transact method p corr crid params handler l)))
| elsewhere_step l l' : requests l' = requests l → step bound l l'.

Lemma audited_requests {A} (m : Py (Ledger S) A) l :
  wp m (λ _ l', requests l' = requests l) (λ _ l', requests l' = requests l) l →
  wp (audited_read m) (λ _ l', requests l' = requests l) (λ _ l', requests l' = requests l) l.
Proof. unfold wp, audited_read. by destruct (m l) as [|[]]. Qed.

(** Delivering an outcome leaves the ledger alone. *)
Lemma deliver_outcome_requests method p o l : requests (final (deliver_outcome method p o l)) = requests l.
Proof.
  assert (wp (deliver_outcome method p o) (λ _ l', requests l' = requests l) (λ _ l', requests l' = requests l) l) as Hwp.
  2: { unfold wp, final in *. by destruct (deliver_outcome method p o l). }
  assert (∀ m : Py (Ledger S) val,
    wp m (λ _ l', requests l' = requests l) (λ _ l', requests l' = requests l) l →
    wp (as_app m) (λ _ l', requests l' = requests l) (λ _ l', requests l' = requests l) l) as Happ
    by (intros m; unfold wp, as_app; by destruct (m l)).
  unfold deliver_outcome. destruct o as [| | | | |d]; try by apply Happ. cbv zeta. destruct (truth _); [by destruct (is_dict _)|].
  destruct (dget "result" d) as [[| | | |rows|d']|]; try by apply Happ.
  all: apply Happ; unfold _project_mutation_content; destruct (negb _); [by apply wp_ret|]; try done.
  destruct (if bool_decide _ then _ else _) as [[| | | | |view]|]; try done. destruct (read_run_view view); [|done].
  apply wp_bind. eapply wp_mono; [apply audited_requests| |done].
  - apply wp_bind. unfold in_kernel, wp. destruct (require_run_access _ _ _ _) as [run k|e k]; [|done].
    by destruct (check_publication _ _ _ _ _ _).
  - intros [] l' Hl'; by apply wp_ret.
Qed.

Lemma transact_ok method p corr crid params handler l :
  ledger_ok l → ledger_ok (final (transact method p corr crid params handler l)).
Proof.
  intros Hok. pose proof (wp_transact method p corr crid params handler l) as Hwp. unfold wp in Hwp.
  destruct (transact _ _ _ _ _ _ l) as [o l'|e l']; cbn [final].
  - by eapply transacted_ok.
  - destruct Hwp as [Hr _], Hok as [? ? ?]. split; by rewrite Hr.
Qed.

Lemma transact_keeps method p corr crid params handler (l : Ledger S) r :
  r ∈ requests l → (next_reading (kernel l) < AppServerRequest.expires_at r)%Z →
  r ∈ requests (final (transact method p corr crid params handler l)).
Proof.
  intros Hin Hlate. pose proof (wp_transact method p corr crid params handler l) as Hwp. unfold wp in Hwp.
  assert (∀ key, r ∈ retained key (next_reading (kernel l)) l) as Hret.
  { intros key. apply elem_of_retained. split; [done|]. unfold expired_request. apply andb_false_iff. right. by apply Z.leb_gt. }
  destruct (transact _ _ _ _ _ _ l) as [o l'|e l']; cbn [final]; [|by rewrite (proj1 Hwp)].
  destruct Hwp as [(_ & -> & _)|(? & ? & ? & ? & _ & _ & _ & _ & ->)]; [apply Hret|].
  apply elem_of_app. left. apply Hret.
Qed.

Lemma mutate_requests method p corr crid params handler (l : Ledger S) :
  requests (final (_mutate method p corr crid params handler l)) =
    requests (final (transact method p corr crid params handler l)).
Proof.
  unfold _mutate, mbind, M_bind, as_app. destruct (transact _ _ _ _ _ _ l) as [o l'|e l']; [|done].
  apply deliver_outcome_requests.
Qed.

Lemma ledger_ok_requests (l l' : Ledger S) : requests l' = requests l → ledger_ok l → ledger_ok l'.
Proof. intros Hr [? ? ?]. split; by rewrite Hr. Qed.

Lemma ledger_step_ok bound l l' : step bound l l' → ledger_ok l → ledger_ok l'.
Proof.
  intros [method p corr crid params handler l1 _|method p corr crid params handler l1 _|l1 l2 Hr] Hok.
  - eapply ledger_ok_requests; [apply mutate_requests|by apply transact_ok].
  - by apply (ledger_ok_requests l1).
  - by apply (ledger_ok_requests l1).
Qed.

Lemma ledger_step_keeps r l l' :
  step (Some (AppServerRequest.expires_at r)) l l' → r ∈ requests l → r ∈ requests l'.
Proof.
  intros [method p corr crid params handler l1 He|method p corr crid params handler l1 _|l1 l2 Hr] Hin; [|done|by rewrite Hr].
  rewrite mutate_requests. by apply transact_keeps.
Qed.

Lemma history_ok bound l l' : rtc (step bound) l l' → ledger_ok l → ledger_ok l'.
Proof. induction 1; [done|]. intros Hok. eauto using ledger_step_ok. Qed.

Lemma ledger_history_keeps r l l' :
  rtc (step (Some (AppServerRequest.expires_at r))) l l' → r ∈ requests l → r ∈ requests l'.
Proof. induction 1; [done|]. intros Hin. eauto using ledger_step_keeps. Qed.

Lemma empty_ledger_ok (l : Ledger S) : requests l = [] → ledger_ok l.
Proof. intros Hr. split; rewrite Hr; constructor. Qed.

(** [C31] What the ledger holds after any history of requests, lost transactions and anything
    else: one row per principal and client request, and every row complete, with a result or an
    error, so that no request is ever found in progress. *)
Theorem ledger_sound l0 l :
  requests l0 = [] → rtc (step None) l0 l →
  NoDup (AppServerRequest.id <$> requests l) ∧ NoDup (key_of <$> requests l) ∧ Forall request_ok (requests l).
Proof. intros Hr Hh. by destruct (history_ok _ _ _ Hh (empty_ledger_ok _ Hr)). Qed.

(** The state of a request after its first answer. *)
Lemma first_answer method p corr crid params handler l o l' :
  ledger_ok l → transact method p corr crid params handler l = Ok o l' →
  ∃ r, r ∈ requests l' ∧ key_of r = (Principal.organization_id p, Principal.id p, crid) ∧
    same_operation method (params_fingerprint params) r ∧ AppServerRequest.response r = Some o.
Proof.
  intros Hok Hrun. pose proof (wp_transact method p corr crid params handler l) as Hwp. unfold wp in Hwp.
  rewrite Hrun in Hwp. destruct Hwp as [(_ & Hr & r & Hin & Hk & Hm & Ho)|(r & s & s' & now' & Hf & _ & _ & _ & Hr)].
  - exists r. by rewrite Hr.
  - exists (with_outcome o now' r). rewrite Hr. split; [apply elem_of_app; right; by left|].
    split; [apply Hf|]. split; [split; apply Hf|done].
Qed.

(** [C29] A client request is made once.  When it has been answered, over any history and with
    whatever outcome, then for as long as its row is retained, over any further history: the
    same request is answered by delivering the same outcome again, whatever its handler would
    do by now, and nothing but time has passed; and another method or other parameters under
    the same id are refused, and change nothing. *)
Theorem mutate_once l0 l1 l2 method p corr crid params handler o :
  requests l0 = [] → rtc (step None) l0 l1 → transact method p corr crid params handler l1 = Ok o l2 →
  ∃ r, r ∈ requests l2 ∧ key_of r = (Principal.organization_id p, Principal.id p, crid) ∧
    ∀ l3, rtc (step (Some (AppServerRequest.expires_at r))) l2 l3 →
      (next_reading (kernel l3) < AppServerRequest.expires_at r)%Z →
      (∀ corr' handler', ∃ l4, untouched l3 l4 ∧
         _mutate method p corr' crid params handler' l3 = deliver_outcome method p o l4) ∧
      (∀ method' corr' params' handler',
         method' ≠ method ∨ params_fingerprint params' ≠ params_fingerprint params →
         ∃ e l4, untouched l3 l4 ∧ _mutate method' p corr' crid params' handler' l3 = Raise (Raised e) l4).
Proof.
  intros Hempty Hh1 Hrun. pose proof (history_ok _ _ _ Hh1 (empty_ledger_ok _ Hempty)) as Hok1.
  destruct (first_answer _ _ _ _ _ _ _ _ _ Hok1 Hrun) as (r & Hin & Hk & [Hm Hfp] & Ho). exists r. split; [done|].
  split; [done|]. intros l3 Hh2 Hlate.
  assert (ledger_ok l2) as Hok2 by (pose proof (transact_ok method p corr crid params handler l1 Hok1) as Ht; by rewrite Hrun in Ht).
  pose proof (history_ok _ _ _ Hh2 Hok2) as Hok3. pose proof (ledger_history_keeps _ _ _ Hh2 Hin) as Hin3.
  assert (answers p crid o l3 r) as Ha by done. split.
  - intros corr' handler'. pose proof (wp_transact_answered method p corr' crid params handler' o l3 r Hok3 Ha) as Hwp.
    unfold wp in Hwp. unfold _mutate, mbind, M_bind, as_app. destruct (transact _ _ _ _ _ _ l3) as [o' l4|e l4].
    + destruct Hwp as (-> & _ & Hl). by exists l4.
    + destruct Hwp as [_ []]. by split.
  - intros method' corr' params' handler' Hne.
    pose proof (wp_transact_answered method' p corr' crid params' handler' o l3 r Hok3 Ha) as Hwp.
    unfold wp in Hwp. unfold _mutate, mbind, M_bind, as_app. destruct (transact _ _ _ _ _ _ l3) as [o' l4|e l4].
    + destruct Hwp as (_ & [Hm' Hfp'] & _). destruct Hne; congruence.
    + exists e, l4. by destruct Hwp.
Qed.

End Facts.

(** ** A turn that is asked for twice *)

Module Sample.

#[local] Existing Instance EventLog.Sample.environment.
#[local] Existing Instances WorkspaceSample.contracts WorkspaceSample.encoder WorkspaceSample.guard.
#[local] Existing Instance WorkspaceSample.settings.
#[local] Existing Instances IntentSample.ascii_unicode IntentSample.utc_formats.
#[local] Instance retention : AppServerSettings := {| app_server_idempotency_retention_hours := 24 |}.
#[local] Instance views : RunViews := {|
  run_view available r := [("id", VStr (uuid_str (Run.id r))); ("source_content_available", VBool available)];
  read_run_view view := match dget "id" view with Some (VStr s) => parse_uuid s | _ => None end
|}.

Definition start : Ledger WorkspaceDb := MkLedger WorkspaceSample.talking [].
Definition asks (input : string) : Mutation := TurnCreate 1000 (CreateTurnRequest.Make input [] [] None).
Definition ask (key input : string) : M app_exn (Ledger WorkspaceDb) val :=
  mutate WorkspaceSample.owner 7 key (asks input).

Definition asked : Ledger WorkspaceDb := Eval vm_compute in final (ask "request-1" "what now?" start).
Definition turn_count (l : Ledger WorkspaceDb) : nat := size (turns (directory (base (inner l)))).

(** What a client is answered. *)
Definition answered (x : outcome app_exn (Ledger WorkspaceDb) val) : val + option (string + string) :=
  match x with
  | Ok v _ => inl v
  | Raise (Raised (ObsionError code _ _ _)) _ => inr (Some (inl code))
  | Raise (Raised (PyError class)) _ => inr (Some (inr class))
  | Raise (RecordedAppServerError _) _ => inr None
  end.

Example once :
  turn_count asked = 1 ∧
  answered (ask "request-1" "what now?" asked) = answered (ask "request-1" "what now?" start) ∧
  turn_count (final (ask "request-1" "what now?" asked)) = 1 ∧
  answered (ask "request-1" "what then?" asked) = inr (Some (inl "idempotency_key_reused")) ∧
  turn_count (final (ask "request-2" "what now?" asked)) = 2.
Proof. split_and!; vm_compute; reflexivity. Qed.

(** A domain error is recorded too. *)
Example error_recorded :
  answered (mutate WorkspaceSample.owner 7 "request-3" (ThreadArchive 5) asked) = inr None ∧
  length (requests (final (mutate WorkspaceSample.owner 7 "request-3" (ThreadArchive 5) asked))) = 2.
Proof. split; vm_compute; reflexivity. Qed.

(** *** Witnesses *)

Definition requested : outcome app_exn (Ledger WorkspaceDb) val :=
  _mutate (method_of (asks "what now?")) WorkspaceSample.owner 7 "request-1" (_fingerprint_params (asks "what now?"))
    (operation WorkspaceSample.owner (asks "what now?")) start.

Lemma to_requested : rtc (step None) start asked.
Proof.
  assert (asked = final requested) as -> by (vm_compute; reflexivity).
  apply rtc_once. unfold requested. by apply request_step.
Qed.

Lemma ledger_sound_witness : Forall request_ok (requests asked) ∧ length (requests asked) = 1.
Proof.
  split; [|vm_compute; reflexivity].
  destruct (ledger_sound start asked eq_refl to_requested) as (_ & _ & Hall). exact Hall.
Defined.

(** The transaction that answers the first request. *)
Definition first : outcome exn (Ledger WorkspaceDb) val :=
  transact (method_of (asks "what now?")) WorkspaceSample.owner 7 "request-1" (_fingerprint_params (asks "what now?"))
    (operation WorkspaceSample.owner (asks "what now?")) start.


Lemma mutate_once_witness :
  ∃ o l l', first = Ok o l ∧ untouched l l' ∧
    ask "request-1" "what now?" l = deliver_outcome "turn.create" WorkspaceSample.owner o l'.
Proof.
  destruct first as [o l|e l] eqn:Hfirst; [|vm_compute in Hfirst; discriminate].
  pose proof Hfirst as Hrun. unfold first in Hrun.
  destruct (mutate_once start start l (method_of (asks "what now?")) WorkspaceSample.owner 7 "request-1"
    (_fingerprint_params (asks "what now?")) (operation WorkspaceSample.owner (asks "what now?")) o
    eq_refl (rtc_refl _ _) Hrun) as (r & Hin & _ & Hlater).
  assert (next_reading (kernel l) < AppServerRequest.expires_at r)%Z as Hlate.
  { vm_compute in Hfirst. injection Hfirst as <- <-. apply list_elem_of_singleton in Hin as ->. vm_compute. reflexivity. }
  destruct (Hlater l (rtc_refl _ _) Hlate) as [Hsame _].
  destruct (Hsame 7%N (operation WorkspaceSample.owner (asks "what now?"))) as (l' & Hl & Hagain).
  exists o, l, l'. split; [reflexivity|]. split; [exact Hl|exact Hagain].
Defined.
End Sample.
