(* ===== verification/MemoryService.v ===== *)
(** * Governed memory ([application/memory.py], [api/memory.py])

    A memory is proposed, reviewed by someone who may approve memories, and, while it is
    approved and has not expired, pinned to the Runs of its owner.  Method by method; the
    telemetry counter is left out. *)

From S2P Require Import Prelude PyText PyVal Redaction Enums Models Kernel Domain.
From S2P Require Import CanonicalJson Events Identity Policy.

#[local] Open Scope list_scope.

(** ** The session of governed memory

    The memories and the snapshots of them pinned to Runs ([db/models.py]), next to the shared
    tables, with what the database itself enforces: the unique constraints, and on PostgreSQL
    the trigger [obsion_guard_memory_mutation] as its last migration leaves it. *)

Record MemoryDb : Type := MkMemoryDb {
  base : Kernel;
  memories : gmap uuid Memory;
  snapshots : list RunMemorySnapshot
}.

#[export] Program Instance memory_session : Session MemoryDb := {
  kernel := base;
  set_kernel k s := s <| base := k |>;
  rollback old new := old <| base := kernel_rollback (base old) (base new) |>
}.
Solve Obligations with (by intros; repeat match goal with s : MemoryDb |- _ => destruct s end).

(** The settings of memory ([config.py]), with the name of the environment. *)
Class MemorySettings := {
  environment : string;
  memory_default_ttl_days : Z;
  memory_max_ttl_days : Z;
  memory_max_context_items : nat;
  memory_max_context_chars : Z
}.

(** ** What the database enforces *)

(** The columns of [UniqueConstraint("organization_id", "scope", "owner_ref", "dedupe_key")] *)
Definition identity_of (m : Memory) : uuid * MemoryScope * string * string :=
  (Memory.organization_id m, Memory.scope m, Memory.owner_ref m, Memory.dedupe_key m).

Definition same_identity (m m' : Memory) : bool := bool_decide (identity_of m' = identity_of m).

(** [a::jsonb IS NOT DISTINCT FROM b::jsonb]: equal up to the order of keys. *)
Definition jsonb_eq (a b : val) : bool := bool_decide (json_dumps true a = json_dumps true b).

(** The transitions of the status the trigger lets through. *)
Definition guarded_transition (old new : MemoryStatus) : bool :=
  match old, new with
  | MemoryStatus.CANDIDATE, (MemoryStatus.APPROVED | MemoryStatus.REJECTED | MemoryStatus.EXPIRED |
                             MemoryStatus.REVOKED) => true
  | MemoryStatus.APPROVED, (MemoryStatus.EXPIRED | MemoryStatus.REVOKED) => true
  | _, _ => bool_decide (old = new)
  end.

(** Whether the trigger returns the new row of an [UPDATE]. *)
Definition guard_memory_mutation (old new : Memory) : bool :=
  bool_decide (Memory.organization_id old = Memory.organization_id new) &&
  bool_decide (Memory.scope old = Memory.scope new) &&
  bool_decide (Memory.owner_ref old = Memory.owner_ref new) &&
  jsonb_eq (Memory.content old) (Memory.content new) &&
  bool_decide (Memory.dedupe_key old = Memory.dedupe_key new) &&
  bool_decide (Memory.sensitivity old = Memory.sensitivity new) &&
  bool_decide (Memory.policy_decision_id old = Memory.policy_decision_id new) &&
  bool_decide (Memory.created_at old = Memory.created_at new) &&
  guarded_transition (Memory.status old) (Memory.status new).

(** ** Rows *)

Definition put_memory (row : Memory) : Py MemoryDb unit :=
  modify (λ s, s <| memories := <[Memory.id row := row]> (memories s) |>).

Definition insert_memory (row : Memory) : Py MemoryDb unit :=
  taken ← gets (λ s, bool_decide (is_Some (memories s !! Memory.id row)) ||
                     negb (bool_decide (select (same_identity row) (memories s) = [])));
  raise_if taken (PyError "IntegrityError");;
  put_memory row.

(** The [flush] of an [UPDATE]: [f] is given the new [updated_at].  The row must still be the
    only one of its identity, and pass the trigger where there is one. *)
Definition update_memory_row `{Environment} (row : Memory) (f : Z → Memory → Memory) : Py MemoryDb Memory :=
  now ← in_kernel utc_now;
  let row' := f now row in
  taken ← gets (λ s, negb (bool_decide (select (λ m, same_identity row' m &&
                            negb (bool_decide (Memory.id m = Memory.id row))) (memories s) = [])));
  raise_if (taken || (bool_decide (dialect = "postgresql") && negb (guard_memory_mutation row row')))
    (PyError "IntegrityError");;
  put_memory row';;
  mret row'.

(** One snapshot per Run and memory, and per Run and ordinal. *)
Definition snapshot_fits (l : list RunMemorySnapshot) (row : RunMemorySnapshot) : bool :=
  forallb (λ row',
    negb (bool_decide (RunMemorySnapshot.id row' = RunMemorySnapshot.id row)) &&
    negb (bool_decide (RunMemorySnapshot.run_id row' = RunMemorySnapshot.run_id row) &&
          (bool_decide (RunMemorySnapshot.memory_id row' = RunMemorySnapshot.memory_id row) ||
           (RunMemorySnapshot.ordinal row' =? RunMemorySnapshot.ordinal row)%Z))) l &&
  (0 <? RunMemorySnapshot.ordinal row)%Z.

Definition insert_snapshot (row : RunMemorySnapshot) : Py MemoryDb unit :=
  fits ← gets (λ s, snapshot_fits (snapshots s) row);
  raise_if (negb fits) (PyError "IntegrityError");;
  modify (λ s, s <| snapshots := snapshots s ++ [row] |>).

(** ** Requests ([api/schemas.py]) *)

Module CreateMemoryRequest.
Record CreateMemoryRequest : Type := Make {
  scope : MemoryScope;
  owner_ref : string;
  content : dict;
  sensitivity : Classification;
  expires_at : option Z
}.
End CreateMemoryRequest.
Abbreviation CreateMemoryRequest := CreateMemoryRequest.CreateMemoryRequest.

Module UpdateMemoryRequest.
Record UpdateMemoryRequest : Type := Make {
  content : dict;
  sensitivity : option Classification;
  expires_at : option Z
}.
End UpdateMemoryRequest.
Abbreviation UpdateMemoryRequest := UpdateMemoryRequest.UpdateMemoryRequest.

Definition text_within (lo hi : Z) (s : string) : bool := ((lo <=? py_len s) && (py_len s <=? hi))%Z.

(** ** Tables of constants *)

Definition _CLASSIFICATION_ORDER (c : Classification) : nat :=
  match c with
  | Classification.PUBLIC => 0
  | Classification.INTERNAL => 1
  | Classification.CONFIDENTIAL => 2
  | Classification.RESTRICTED => 3
  end.

Definition _CLASSIFICATION_RISK (c : Classification) : RiskLevel :=
  match c with
  | Classification.PUBLIC => RiskLevel.L0
  | Classification.INTERNAL => RiskLevel.L1
  | Classification.CONFIDENTIAL => RiskLevel.L2
  | Classification.RESTRICTED => RiskLevel.L3
  end.

Definition _SCOPE_PRIORITY (scope : MemoryScope) : Z :=
  match scope with
  | MemoryScope.TURN => 400
  | MemoryScope.SESSION => 300
  | MemoryScope.WORKSPACE => 200
  | MemoryScope.USER_PREFERENCE => 100
  end.

Module MemoryWriteResult.
Record MemoryWriteResult : Type := Make {
  memory : option Memory;
  decision : option Decision
}.
End MemoryWriteResult.
Abbreviation MemoryWriteResult := MemoryWriteResult.MemoryWriteResult.

Definition denied (r : MemoryWriteResult) : bool :=
  match MemoryWriteResult.decision r with
  | Some d => bool_decide (Decision.effect d = DecisionEffect.DENY)
  | None => false
  end.

(** [max((requested, owner), key=...)]: the first of them if they are equal. *)
Definition _highest_classification (requested owner : Classification) : Classification :=
  max_by _CLASSIFICATION_ORDER requested [owner].

(** ** Assignments *)

Definition with_memory_status (status : MemoryStatus) (updated_at : Z) (m : Memory) : Memory :=
  m <| Memory.status := status |> <| Memory.updated_at := updated_at |>.

Definition with_memory_edit (content : val) (dedupe_key : string) (sensitivity : Classification)
    (expires_at : option Z) (decision_id : uuid) (updated_at : Z) (m : Memory) : Memory :=
  m <| Memory.content := content |> <| Memory.dedupe_key := dedupe_key |>
    <| Memory.sensitivity := sensitivity |> <| Memory.expires_at := expires_at |>
    <| Memory.status := MemoryStatus.CANDIDATE |> <| Memory.policy_decision_id := Some decision_id |>
    <| Memory.updated_at := updated_at |>.

(** ** Lookups *)

Definition memory_of (p : Principal) (memory_id : uuid) (s : MemoryDb) : option Memory :=
  match row_by Memory.id (memories s) memory_id with
  | Some m => if bool_decide (Memory.organization_id m = Principal.organization_id p) then Some m else None
  | None => None
  end.

(** [memory.status in {CANDIDATE, APPROVED}] *)
Definition open_memory (m : Memory) : bool :=
  bool_decide (Memory.status m = MemoryStatus.CANDIDATE) || bool_decide (Memory.status m = MemoryStatus.APPROVED).

(** [memory.expires_at is not None and ensure_utc(memory.expires_at) <= now] *)
Definition expired_at (now : Z) (m : Memory) : bool :=
  match Memory.expires_at m with Some t => (t <=? now)%Z | None => false end.

(** The canonical text of a content, which is measured and hashed. *)
Definition canonical_content (content : dict) : string := json_dumps true (redact None (VDict content)).

Section Service.
Context `{Environment, EventContracts, JsonEncoder, MemorySettings}.

Definition _default_ttl_days (scope : MemoryScope) : Z :=
  match scope with
  | MemoryScope.TURN => Z.min 7 memory_default_ttl_days
  | MemoryScope.SESSION => Z.min 30 memory_default_ttl_days
  | _ => memory_default_ttl_days
  end.

(** ** Journal *)

Definition memory_payload (m : Memory) (payload : list (string * obj)) : list (string * obj) :=
  ("memory_id", OStr (uuid_str (Memory.id m))) :: ("scope", OEnum (value_of (Memory.scope m))) :: payload.

Definition _record (p : Principal) (m : Memory) (name outcome : string) (payload : list (string * obj))
    (policy_decision_id : option uuid) : Py Kernel unit :=
  append ((event_draft name "memory" (Memory.id m) (Principal.organization_id p) (Memory.id m)
             ActorType.USER (Some (Principal.id p)))
    <| EventDraft.payload := map (λ '(k, v), (OStr k, v)) (memory_payload m payload) |>);;
  write ((audit_draft (Principal.organization_id p) (Memory.id m) ActorType.USER (Some (Principal.id p))
            name "memory" outcome)
    <| AuditDraft.resource_id := Some (uuid_str (Memory.id m)) |>
    <| AuditDraft.risk_level := Some (_CLASSIFICATION_RISK (Memory.sensitivity m)) |>
    <| AuditDraft.policy_decision_id := policy_decision_id |>
    <| AuditDraft.metadata := ("scope", OEnum (value_of (Memory.scope m))) :: payload |>);;
  mret ().

Definition reason_list (d : Decision) : obj := OSeq (map OStr (Decision.reason_codes d)).

(** The audit entry of a denial. *)
Definition record_denial (p : Principal) (correlation : uuid) (action resource_id : string)
    (sensitivity : Classification) (d : Decision) (metadata : list (string * obj)) : Py Kernel unit :=
  write ((audit_draft (Principal.organization_id p) correlation ActorType.USER (Some (Principal.id p))
            action "memory" "DENIED")
    <| AuditDraft.resource_id := Some resource_id |>
    <| AuditDraft.risk_level := Some (_CLASSIFICATION_RISK sensitivity) |>
    <| AuditDraft.policy_decision_id := Some (Decision.id d) |>
    <| AuditDraft.metadata := metadata |>);;
  mret ().

Definition policy_payload (d : Decision) : list (string * obj) :=
  [("policy_effect", OEnum (value_of (Decision.effect d))); ("policy_reason_codes", reason_list d)].

Definition memory_policy (p : Principal) (action : string) (resource context : dict)
    (sensitivity : Classification) : Py Kernel Decision :=
  evaluate_resource (ResourcePolicyInput.Make p action resource context (_CLASSIFICATION_RISK sensitivity)
    "memory" None "control-plane" None None None).

Definition optional_instant (o : option Z) : val :=
  match o with Some t => VStr (isoformat t) | None => VNone end.

(** ** Owners *)

Definition _require_owner (p : Principal) (scope : option MemoryScope) (owner_ref : string) (write : bool) :
    Py Kernel Classification :=
  let of_thread thread_id :=
    thread ← require_thread_access p thread_id write;
    workspace ← require_workspace_access p (Thread.workspace_id thread) write;
    mret (Workspace.classification workspace) in
  match scope with
  | None =>
      raise_if (negb (can p "memory.admin"))
        (ValidationError "memory_scope_required" "Scope is required when filtering by owner" []);;
      mret Classification.INTERNAL
  | Some scope =>
      match parse_uuid owner_ref with
      | None => raise (ValidationError "memory_owner_invalid" "Memory owner must be a UUID" [])
      | Some owner_id =>
          match scope with
          | MemoryScope.USER_PREFERENCE =>
              raise_if (negb (bool_decide (owner_id = Principal.id p)) && negb (can p "memory.admin"))
                (AuthorizationError "memory_owner_denied" "Another user's memory is not accessible" []);;
              mret Classification.INTERNAL
          | MemoryScope.WORKSPACE =>
              workspace ← require_workspace_access p owner_id write;
              mret (Workspace.classification workspace)
          | MemoryScope.SESSION => of_thread owner_id
          | MemoryScope.TURN =>
              turn ← gets (λ k, row_by Turn.id (turns (directory k)) owner_id);
              match turn with
              | None => raise (NotFoundError "Turn memory owner" (uuid_str owner_id))
              | Some turn =>
                  raise_if (negb (bool_decide (Turn.organization_id turn = Principal.organization_id p)))
                    (NotFoundError "Turn memory owner" (uuid_str owner_id));;
                  of_thread (Turn.thread_id turn)
              end
          end
      end
  end.

Definition memory_owner (p : Principal) (m : Memory) (write : bool) : Py MemoryDb Classification :=
  in_kernel (_require_owner p (Some (Memory.scope m)) (Memory.owner_ref m) write).

(** ** Expiry and content, as every operation checks them *)

(** The memory, marked as expired if its time has passed. *)
Definition expire_due (p : Principal) (now : Z) (m : Memory) : Py MemoryDb Memory :=
  if expired_at now m && open_memory m then
    m' ← update_memory_row m (with_memory_status MemoryStatus.EXPIRED);
    in_kernel (_record p m' "memory.expired" "EXPIRED" [] None);;
    mret m'
  else mret m.

Definition max_ttl : Z := (memory_max_ttl_days * day_us)%Z.

Definition check_expiry {S} (now : Z) (expires_at : option Z) : Py S unit :=
  match expires_at with
  | None => mret ()
  | Some t =>
      raise_if (t <=? now)%Z (ValidationError "memory_expiry_invalid" "Memory expiry must be in the future" []);;
      raise_if (now + max_ttl <? t)%Z
        (ValidationError "memory_expiry_exceeds_policy"
          "Memory expiry exceeds the configured retention boundary" [("max_ttl_days", VInt memory_max_ttl_days)])
  end.

Definition check_size {S} (canonical : string) : Py S unit :=
  raise_if (memory_max_context_chars <? py_len canonical)%Z
    (ValidationError "memory_content_too_large" "A memory item exceeds the governed context size limit"
      [("max_chars", VInt memory_max_context_chars)]).

Definition already_decided {S A} (message : string) (m : Memory) : Py S A :=
  raise (ConflictError "memory_already_decided" message [("status", VStr (value_of (Memory.status m)))]).

Definition duplicate_conflict (message : string) (existing : Memory) (sensitivity : Classification) : exn :=
  ConflictError "memory_duplicate_classification_conflict" message
    [("memory_id", VStr (uuid_str (Memory.id existing)));
     ("existing_sensitivity", VStr (value_of (Memory.sensitivity existing)));
     ("requested_sensitivity", VStr (value_of sensitivity))].

(** ** Operations *)

Definition write_denied (message : string) : exn := AuthorizationError "memory_write_denied" message [].
Definition read_denied : exn := AuthorizationError "memory_read_denied" "Memory access is not permitted" [].

Definition duplicates (p : Principal) (scope : MemoryScope) (owner_ref dedupe_key : string) (m : Memory) : bool :=
  bool_decide (Memory.organization_id m = Principal.organization_id p) && bool_decide (Memory.scope m = scope) &&
  bool_decide (Memory.owner_ref m = owner_ref) && bool_decide (Memory.dedupe_key m = dedupe_key).

Definition new_memory (id : uuid) (p : Principal) (r : CreateMemoryRequest) (sensitivity : Classification)
    (expires_at : Z) (decision_id : uuid) (now : Z) : Memory :=
  Memory.Make id (Principal.organization_id p) (CreateMemoryRequest.scope r) (CreateMemoryRequest.owner_ref r)
    (redact None (VDict (CreateMemoryRequest.content r))) (sha256 (canonical_content (CreateMemoryRequest.content r)))
    sensitivity MemoryStatus.CANDIDATE (Some decision_id) (Some expires_at) now now.

Definition expiry_of (r : CreateMemoryRequest) (now : Z) : Z :=
  match CreateMemoryRequest.expires_at r with
  | Some t => t
  | None => (now + _default_ttl_days (CreateMemoryRequest.scope r) * day_us)%Z
  end.

(** The part of [create_candidate] after the search for a duplicate. *)
Definition propose (p : Principal) (r : CreateMemoryRequest) (sensitivity : Classification) (expires_at : Z) :
    Py MemoryDb MemoryWriteResult :=
  let scope := CreateMemoryRequest.scope r in
  let dedupe_key := sha256 (canonical_content (CreateMemoryRequest.content r)) in
  decision ← in_kernel (memory_policy p "memory.write"
    [("scope", VStr (value_of scope)); ("owner_ref", VStr (CreateMemoryRequest.owner_ref r));
     ("classification", VStr (value_of sensitivity)); ("content_fingerprint", VStr dedupe_key)]
    [("environment", VStr environment); ("expires_at", VStr (isoformat expires_at))] sensitivity);
  if bool_decide (Decision.effect decision = DecisionEffect.DENY) then
    in_kernel (record_denial p (Decision.id decision) "memory.write" (CreateMemoryRequest.owner_ref r) sensitivity
      decision [("scope", OEnum (value_of scope)); ("classification", OEnum (value_of sensitivity));
                ("reason_codes", reason_list decision)]);;
    mret (MemoryWriteResult.Make None (Some decision))
  else
    id ← in_kernel new_id;
    now ← in_kernel utc_now;
    let memory := new_memory id p r sensitivity expires_at (Decision.id decision) now in
    insert_memory memory;;
    in_kernel (_record p memory "memory.candidate" "CANDIDATE" (policy_payload decision) (Some (Decision.id decision)));;
    mret (MemoryWriteResult.Make (Some memory) (Some decision)).

Definition create_candidate (p : Principal) (r : CreateMemoryRequest) : Py MemoryDb MemoryWriteResult :=
  raise_if (negb (can p "memory.write")) (write_denied "Memory creation is not permitted");;
  owner_classification ← in_kernel (_require_owner p (Some (CreateMemoryRequest.scope r))
                                      (CreateMemoryRequest.owner_ref r) true);
  now ← in_kernel utc_now;
  let expires_at := expiry_of r now in
  check_expiry now (Some expires_at);;
  let canonical := canonical_content (CreateMemoryRequest.content r) in
  check_size canonical;;
  let sensitivity := _highest_classification (CreateMemoryRequest.sensitivity r) owner_classification in
  existing ← gets (λ s, head (select (duplicates p (CreateMemoryRequest.scope r) (CreateMemoryRequest.owner_ref r)
                                        (sha256 canonical)) (memories s)));
  match existing with
  | Some m =>
      raise_if (_CLASSIFICATION_ORDER (Memory.sensitivity m) <? _CLASSIFICATION_ORDER sensitivity)%nat
        (duplicate_conflict "Matching memory exists at a lower sensitivity classification" m sensitivity);;
      mret (MemoryWriteResult.Make (Some m) None)
  | None => propose p r sensitivity expires_at
  end.

(** The memories of a list whose owner the principal may read. *)
Fixpoint authorized (p : Principal) (l : list Memory) : Py MemoryDb (list Memory) :=
  match l with
  | [] => mret []
  | m :: l' =>
      readable ← try_catch (memory_owner p m false;; mret true)
                   (λ e, if is_authorization e || is_not_found e then Some (mret false) else None);
      rest ← authorized p l';
      mret (if (readable : bool) then m :: rest else rest)
  end.

Fixpoint expire_each (p : Principal) (now : Z) (l : list Memory) : Py MemoryDb (list Memory) :=
  match l with
  | [] => mret []
  | m :: l' => m' ← expire_due p now m; rest ← expire_each p now l'; mret (m' :: rest)
  end.

Definition list_memories (p : Principal) (scope : option MemoryScope) (owner_ref : option string)
    (status : option MemoryStatus) : Py MemoryDb (list Memory) :=
  raise_if (negb (can p "memory.read")) read_denied;;
  match owner_ref with
  | Some o => in_kernel (_require_owner p scope o false);; mret ()
  | None => mret ()
  end;;
  found ← gets (λ s, take 500 (order_by (λ x y, (Memory.updated_at y <=? Memory.updated_at x)%Z)
    (select (λ m, bool_decide (Memory.organization_id m = Principal.organization_id p) &&
                  match scope with Some x => bool_decide (Memory.scope m = x) | None => true end &&
                  match owner_ref with Some o => bool_decide (Memory.owner_ref m = o) | None => true end)
       (memories s))));
  shown ← (if bool_decide (owner_ref = None) && negb (can p "memory.admin") then authorized p found else mret found);
  now ← in_kernel utc_now;
  current ← expire_each p now shown;
  mret (match status with
        | Some x => List.filter (λ m, bool_decide (Memory.status m = x)) current
        | None => current
        end).

Definition get_memory (p : Principal) (memory_id : uuid) : Py MemoryDb Memory :=
  raise_if (negb (can p "memory.read")) read_denied;;
  memory ← gets (memory_of p memory_id);
  match memory with
  | None => raise (NotFoundError "Memory" (uuid_str memory_id))
  | Some m =>
      memory_owner p m false;;
      now ← in_kernel utc_now;
      expire_due p now m
  end.

Definition next_expiry (r : UpdateMemoryRequest) (m : Memory) : option Z :=
  match UpdateMemoryRequest.expires_at r with Some t => Some t | None => Memory.expires_at m end.

Definition next_sensitivity (r : UpdateMemoryRequest) (m : Memory) (owner : Classification) : Classification :=
  _highest_classification (default (Memory.sensitivity m) (UpdateMemoryRequest.sensitivity r)) owner.

(** The part of [update_memory] after the checks of the request. *)
Definition edit (p : Principal) (m : Memory) (r : UpdateMemoryRequest) (sensitivity : Classification) :
    Py MemoryDb MemoryWriteResult :=
  let dedupe_key := sha256 (canonical_content (UpdateMemoryRequest.content r)) in
  let expires_at := next_expiry r m in
  decision ← in_kernel (memory_policy p "memory.write"
    [("memory_id", VStr (uuid_str (Memory.id m))); ("scope", VStr (value_of (Memory.scope m)));
     ("owner_ref", VStr (Memory.owner_ref m)); ("classification", VStr (value_of sensitivity));
     ("content_fingerprint", VStr dedupe_key)]
    [("environment", VStr environment); ("expires_at", optional_instant expires_at)] sensitivity);
  if bool_decide (Decision.effect decision = DecisionEffect.DENY) then
    in_kernel (record_denial p (Memory.id m) "memory.write" (uuid_str (Memory.id m)) sensitivity decision
      [("scope", OEnum (value_of (Memory.scope m))); ("classification", OEnum (value_of sensitivity));
       ("reason_codes", reason_list decision)]);;
    mret (MemoryWriteResult.Make (Some m) (Some decision))
  else
    m' ← update_memory_row m (with_memory_edit (redact None (VDict (UpdateMemoryRequest.content r))) dedupe_key
           sensitivity expires_at (Decision.id decision));
    in_kernel (_record p m' "memory.candidate" "CANDIDATE" (policy_payload decision) (Some (Decision.id decision)));;
    mret (MemoryWriteResult.Make (Some m') (Some decision)).

Definition update_memory (p : Principal) (memory_id : uuid) (r : UpdateMemoryRequest) :
    Py MemoryDb MemoryWriteResult :=
  raise_if (negb (can p "memory.write")) (write_denied "Memory updates are not permitted");;
  memory ← gets (memory_of p memory_id);
  match memory with
  | None => raise (NotFoundError "Memory" (uuid_str memory_id))
  | Some m0 =>
      memory_owner p m0 true;;
      now ← in_kernel utc_now;
      m ← expire_due p now m0;
      if negb (open_memory m) then already_decided "This memory can no longer be edited" m else
      check_expiry now (next_expiry r m);;
      let canonical := canonical_content (UpdateMemoryRequest.content r) in
      check_size canonical;;
      owner ← memory_owner p m true;
      let sensitivity := next_sensitivity r m owner in
      existing ← gets (λ s, head (select (λ m', duplicates p (Memory.scope m) (Memory.owner_ref m) (sha256 canonical) m' &&
                                             negb (bool_decide (Memory.id m' = Memory.id m))) (memories s)));
      match existing with
      | Some m' => raise (duplicate_conflict "Matching memory exists for this owner and content" m' sensitivity)
      | None => edit p m r sensitivity
      end
  end.

(** The policy resource of a memory that is not being edited. *)
Definition memory_resource (m : Memory) : dict :=
  [("memory_id", VStr (uuid_str (Memory.id m))); ("scope", VStr (value_of (Memory.scope m)));
   ("owner_ref", VStr (Memory.owner_ref m)); ("classification", VStr (value_of (Memory.sensitivity m)))].

Definition revoke_memory (p : Principal) (memory_id : uuid) : Py MemoryDb MemoryWriteResult :=
  raise_if (negb (can p "memory.write")) (write_denied "Memory deletion is not permitted");;
  memory ← gets (memory_of p memory_id);
  match memory with
  | None => raise (NotFoundError "Memory" (uuid_str memory_id))
  | Some m0 =>
      memory_owner p m0 true;;
      now ← in_kernel utc_now;
      m ← expire_due p now m0;
      if negb (open_memory m) then already_decided "This memory can no longer be revoked" m else
      decision ← in_kernel (memory_policy p "memory.write" (memory_resource m)
        [("environment", VStr environment); ("decision", VStr "REVOKE")] (Memory.sensitivity m));
      if bool_decide (Decision.effect decision = DecisionEffect.DENY) then
        in_kernel (record_denial p (Memory.id m) "memory.write" (uuid_str (Memory.id m)) (Memory.sensitivity m)
          decision [("scope", OEnum (value_of (Memory.scope m))); ("reason_codes", reason_list decision)]);;
        mret (MemoryWriteResult.Make (Some m) (Some decision))
      else
        m' ← update_memory_row m (with_memory_status MemoryStatus.REVOKED);
        in_kernel (_record p m' "memory.revoked" "REVOKED" [("reason", OStr "manual_delete")]
          (Some (Decision.id decision)));;
        mret (MemoryWriteResult.Make (Some m') (Some decision))
  end.

Definition verdict (approve : bool) : MemoryStatus := if approve then MemoryStatus.APPROVED else MemoryStatus.REJECTED.

(** The part of [decide] for a candidate that has not expired. *)
Definition review (p : Principal) (m : Memory) (approve : bool) (reason : string) : Py MemoryDb MemoryWriteResult :=
  decision ← in_kernel (memory_policy p "memory.approve" (memory_resource m)
    [("environment", VStr environment); ("decision", VStr (if approve then "APPROVE" else "REJECT"));
     ("human_review", VBool true)] (Memory.sensitivity m));
  if bool_decide (Decision.effect decision = DecisionEffect.DENY) then
    in_kernel (record_denial p (Memory.id m) "memory.approve" (uuid_str (Memory.id m)) (Memory.sensitivity m)
      decision [("reason_codes", reason_list decision)]);;
    mret (MemoryWriteResult.Make (Some m) (Some decision))
  else
    m' ← update_memory_row m (with_memory_status (verdict approve));
    in_kernel (_record p m' (if approve then "memory.approved" else "memory.rejected")
      (value_of (verdict approve)) [("reason", OStr (strip reason))] (Some (Decision.id decision)));;
    mret (MemoryWriteResult.Make (Some m') (Some decision)).

Definition decide (p : Principal) (memory_id : uuid) (approve : bool) (reason : string) :
    Py MemoryDb MemoryWriteResult :=
  raise_if (negb (can p "memory.approve"))
    (AuthorizationError "memory_approval_denied" "Memory approval is not permitted" []);;
  memory ← gets (memory_of p memory_id);
  match memory with
  | None => raise (NotFoundError "Memory" (uuid_str memory_id))
  | Some m =>
      memory_owner p m true;;
      if negb (bool_decide (Memory.status m = MemoryStatus.CANDIDATE))
      then already_decided "The memory candidate is no longer pending" m else
      expired ← (if bool_decide (Memory.expires_at m = None) then mret false
                 else now ← in_kernel utc_now; mret (expired_at now m));
      if (expired : bool) then
        m' ← update_memory_row m (with_memory_status MemoryStatus.EXPIRED);
        in_kernel (_record p m' "memory.expired" "EXPIRED" [] None);;
        mret (MemoryWriteResult.Make (Some m') None)
      else review p m approve reason
  end.

(** ** What a Run receives *)

Definition owners (p : Principal) (turn_id : uuid) (thread : Thread) (scope : MemoryScope) : uuid :=
  match scope with
  | MemoryScope.TURN => turn_id
  | MemoryScope.SESSION => Thread.id thread
  | MemoryScope.WORKSPACE => Thread.workspace_id thread
  | MemoryScope.USER_PREFERENCE => Principal.id p
  end.

(** The [WHERE] of the candidates. *)
Definition available (p : Principal) (turn_id : uuid) (thread : Thread) (now : Z) (m : Memory) : bool :=
  bool_decide (Memory.organization_id m = Principal.organization_id p) &&
  bool_decide (Memory.status m = MemoryStatus.APPROVED) &&
  bool_decide (is_Some (Memory.policy_decision_id m)) &&
  negb (expired_at now m) &&
  bool_decide (Memory.owner_ref m = uuid_str (owners p turn_id thread (Memory.scope m))).

(** The sort key: scope by priority, then the latest first, then by id. *)
Definition ranked (x y : Memory) : bool :=
  let px := _SCOPE_PRIORITY (Memory.scope x) in
  let py := _SCOPE_PRIORITY (Memory.scope y) in
  (py <? px)%Z ||
  ((px =? py) && ((Memory.updated_at y <? Memory.updated_at x) ||
    ((Memory.updated_at x =? Memory.updated_at y) &&
     string_le (uuid_str (Memory.id x)) (uuid_str (Memory.id y)))))%Z.

Definition size_of (m : Memory) : Z := py_len (json_text (Memory.content m)).

(** The loop of the selection: how many may still be taken, the characters used, and the
    fingerprints taken. *)
Fixpoint choose (items : nat) (used : Z) (fingerprints : list string) (l : list Memory) : list Memory :=
  match l with
  | [] => []
  | m :: l' =>
      if (items =? 0)%nat then [] else
      if bool_decide (Memory.dedupe_key m ∈ fingerprints) then choose items used fingerprints l' else
      if (memory_max_context_chars <? used + size_of m)%Z then choose items used fingerprints l' else
      m :: choose (items - 1) (used + size_of m) (Memory.dedupe_key m :: fingerprints) l'
  end.

Definition chosen (l : list Memory) : list Memory := choose memory_max_context_items 0 [] l.

Definition snapshot_of (id : uuid) (p : Principal) (run_id : uuid) (captured_at ordinal : Z) (decision_id : uuid)
    (m : Memory) : RunMemorySnapshot :=
  RunMemorySnapshot.Make id (Principal.organization_id p) run_id (Memory.id m) (Principal.id p) ordinal
    (Memory.scope m) (Memory.owner_ref m) (redact None (Memory.content m)) (Memory.dedupe_key m)
    (Memory.sensitivity m) decision_id (Memory.updated_at m) captured_at.

Fixpoint pin (p : Principal) (run_id : uuid) (captured_at ordinal : Z) (l : list Memory) :
    Py MemoryDb (list RunMemorySnapshot) :=
  match l with
  | [] => mret []
  | m :: l' =>
      match Memory.policy_decision_id m with
      | None => raise (PyError "IntegrityError")
      | Some decision_id =>
          id ← in_kernel new_id;
          let row := snapshot_of id p run_id captured_at ordinal decision_id m in
          insert_snapshot row;;
          rest ← pin p run_id captured_at (ordinal + 1) l';
          mret (row :: rest)
      end
  end.

(** The snapshots of a Run, in their order. *)
Definition snapshots_of (organization_id run_id : uuid) (s : MemoryDb) : list RunMemorySnapshot :=
  order_by (λ x y, (RunMemorySnapshot.ordinal x <=? RunMemorySnapshot.ordinal y)%Z)
    (List.filter (λ x, bool_decide (RunMemorySnapshot.organization_id x = organization_id) &&
                       bool_decide (RunMemorySnapshot.run_id x = run_id)) (snapshots s)).

Definition capture_run_context (p : Principal) (run_id turn_id : uuid) (thread : Thread) :
    Py MemoryDb (list RunMemorySnapshot) :=
  existing ← gets (snapshots_of (Principal.organization_id p) run_id);
  if negb (length existing =? 0)%nat || negb (can p "memory.read") then mret existing else
  now ← in_kernel utc_now;
  candidates ← gets (λ s, order_by ranked (select (available p turn_id thread now) (memories s)));
  pin p run_id now 1 (chosen candidates).

(** What the replay of a Run copies of its memory ([harness/replay.py]). *)
Definition copied (id target : uuid) (x : RunMemorySnapshot) : RunMemorySnapshot :=
  x <| RunMemorySnapshot.id := id |> <| RunMemorySnapshot.run_id := target |>.

Fixpoint copy_snapshots (target : uuid) (l : list RunMemorySnapshot) : Py MemoryDb unit :=
  match l with
  | [] => mret ()
  | x :: l' => id ← in_kernel new_id; insert_snapshot (copied id target x);; copy_snapshots target l'
  end.

Definition copy_memory_snapshots (organization_id source target : uuid) : Py MemoryDb unit :=
  source_memories ← gets (snapshots_of organization_id source);
  copy_snapshots target source_memories.

(** ** Endpoints *)

(** What follows the transaction: the memory, or the denial. *)
Definition policy_denied (message : string) (r : MemoryWriteResult) : exn :=
  AuthorizationError "memory_policy_denied" message
    [("reason_codes", match MemoryWriteResult.decision r with
                      | Some d => VList (map VStr (Decision.reason_codes d))
                      | None => VList []
                      end)].

Definition answer_with (message : string) (r : MemoryWriteResult) : Py MemoryDb Memory :=
  match MemoryWriteResult.memory r with
  | Some m => if denied r then raise (policy_denied message r) else mret m
  | None => raise (policy_denied message r)
  end.

Definition validated (valid : bool) : Py MemoryDb unit := raise_if (negb valid) (PyError "RequestValidationError").

Definition create_memory_candidate (p : Principal) (r : CreateMemoryRequest) : Py MemoryDb Memory :=
  validated (text_within 1 300 (CreateMemoryRequest.owner_ref r));;
  result ← savepoint (create_candidate p r);
  answer_with "Policy denied persistence of this memory candidate" result.

Definition list_memories_endpoint (p : Principal) (scope : option MemoryScope) (owner_ref : option string)
    (status : option MemoryStatus) : Py MemoryDb (list Memory) :=
  validated (match owner_ref with Some o => (py_len o <=? 300)%Z | None => true end);;
  savepoint (list_memories p scope owner_ref status).

Definition get_memory_endpoint (p : Principal) (memory_id : uuid) : Py MemoryDb Memory :=
  savepoint (get_memory p memory_id).

Definition update_memory_endpoint (p : Principal) (memory_id : uuid) (r : UpdateMemoryRequest) : Py MemoryDb Memory :=
  result ← savepoint (update_memory p memory_id r);
  answer_with "Policy denied this memory update" result.

Definition revoke_memory_endpoint (p : Principal) (memory_id : uuid) : Py MemoryDb Memory :=
  result ← savepoint (revoke_memory p memory_id);
  answer_with "Policy denied revocation of this memory" result.

(** [approve_memory] and [reject_memory]: the result always has its memory. *)
Definition decide_memory (approve : bool) (p : Principal) (memory_id : uuid) (reason : string) : Py MemoryDb Memory :=
  validated (text_within 3 1000 reason);;
  result ← savepoint (decide p memory_id approve reason);
  if denied result then raise (policy_denied "Policy denied this memory decision" result) else
  match MemoryWriteResult.memory result with
  | Some m => mret m
  | None => raise (PyError "RuntimeError")
  end.
End Service.
