(* ===== verification/MemoryFacts.v ===== *)
(** * What the calls of the memory service do to the tables

    The invariant of the memories, the change each call may make to a memory, and that each
    transaction makes only such changes. *)

From S2P Require Import Prelude PyText PyVal Redaction Enums Models Kernel Domain.
From S2P Require Import CanonicalJson Events Identity Policy MemoryService.

#[local] Open Scope list_scope.

(** ** The invariant *)

Definition decisions (s : MemoryDb) : list PolicyDecision := policy_decisions (base s).

(** Whether the decision a memory cites is recorded, and let it be written. *)
Definition backed (l : list PolicyDecision) (m : Memory) : Prop :=
  ∃ row, row ∈ l ∧ Memory.policy_decision_id m = Some (PolicyDecision.id row) ∧
    PolicyDecision.effect row ≠ DecisionEffect.DENY ∧ PolicyDecision.action row = "memory.write".

Record memory_ok (l : list PolicyDecision) (m : Memory) : Prop := {
  ok_fingerprint : Memory.dedupe_key m = sha256 (json_dumps true (Memory.content m));
  ok_redacted : no_sensitive_item (Memory.content m) = true;
  ok_classified : Memory.sensitivity m ≠ Classification.RESTRICTED;
  ok_expires : is_Some (Memory.expires_at m);
  ok_backed : backed l m
}.

Record memories_ok (s : MemoryDb) : Prop := {
  ok_key i m : memories s !! i = Some m → Memory.id m = i;
  ok_distinct i j m m' : memories s !! i = Some m → memories s !! j = Some m' →
    identity_of m = identity_of m' → i = j;
  ok_memory i m : memories s !! i = Some m → memory_ok (decisions s) m
}.

Lemma memory_ok_later l l' m : l `prefix_of` l' → memory_ok l m → memory_ok l' m.
Proof.
  intros [k ->] [H1 H2 H3 H4 (row & Hrow & Hb)]. split; [done..|]. exists row. split; [|done].
  apply elem_of_app. by left.
Qed.

(** ** Computations that change neither table *)

Record still (s s' : MemoryDb) : Prop := {
  still_memories : memories s' = memories s;
  still_snapshots : snapshots s' = snapshots s;
  still_decisions : decisions s `prefix_of` decisions s'
}.

#[export] Instance still_preorder : PreOrder still.
Proof. split; [done|]. intros s1 s2 s3 [] []. split; [congruence..|]. by etransitivity. Qed.

Lemma still_ok s s' : still s s' → memories_ok s → memories_ok s'.
Proof.
  intros Hq [Hk Hd Hm]. split; rewrite ?(still_memories _ _ Hq); [done..|]. intros i m Hi.
  eapply memory_ok_later; [apply Hq|by eapply Hm].
Qed.

Class Still {A} (m : Py MemoryDb A) : Prop := stilled s : wp m (λ _, still s) (λ _, still s) s.

Lemma pure_still {A} (m : Py MemoryDb A) : Pure m → Still m.
Proof. intros Hm s. apply wp_pure; done. Qed.

Lemma recorded_still (s : MemoryDb) k : recorded (kernel s) k → still s (set_kernel k s).
Proof. intros Hk. split; [done..|apply Hk]. Qed.

Lemma recording_still {A} (m : Py Kernel A) : Recording m → Still (in_kernel m).
Proof. intros Hm s. apply wp_recording; [done|..]; intros; by apply recorded_still. Qed.

#[export] Instance bind_still {A B} (m : Py MemoryDb A) (f : A → Py MemoryDb B) :
  Still m → (∀ a, Still (f a)) → Still (m ≫= f).
Proof.
  intros Hm Hf s. apply wp_bind. eapply wp_mono; [apply Hm| |done]. intros a s' Hs.
  eapply wp_mono; [apply Hf|..]; intros ? s'' Hs'; cbv beta in *; by transitivity s'.
Qed.

#[export] Instance option_still {A B} (o : option A) (f : A → Py MemoryDb B) m :
  (∀ a, Still (f a)) → Still m → Still (match o with Some a => f a | None => m end).
Proof. by destruct o. Qed.

#[export] Instance if_still {A} (b : bool) (m1 m2 : Py MemoryDb A) : Still m1 → Still m2 → Still (if b then m1 else m2).
Proof. by destruct b. Qed.

#[export] Instance try_catch_still {A} (m : Py MemoryDb A) h :
  Still m → (∀ e k, h e = Some k → Still k) → Still (try_catch m h).
Proof.
  intros Hm Hh s. apply wp_try_catch. eapply wp_mono; [apply Hm|done|]. intros e s' Hs.
  destruct (h e) as [k|] eqn:Hk; [|done]. eapply wp_mono; [by eapply Hh|..]; intros ? s'' Hs'; cbv beta in *;
    by transitivity s'.
Qed.

#[export] Hint Extern 5 (Still ?m) =>
  lazymatch m with
  | mbind _ _ => fail
  | try_catch _ _ => fail
  | match _ with _ => _ end => fail
  | in_kernel _ => apply recording_still
  | _ => apply pure_still
  end : typeclass_instances.

(** Run a prefix that changes no table. *)
Lemma wp_still {A} (m : Py MemoryDb A) (Q : A → MemoryDb → Prop) s :
  Still m → (∀ a s', still s s' → Q a s') → wp m Q (λ _ _, True) s.
Proof. intros Hm HQ. eapply wp_mono; [apply Hm|auto|done]. Qed.

Section Facts.
Context `{Environment, EventContracts, JsonEncoder, MemorySettings}.

#[export] Instance require_owner_pure p scope owner_ref write : Pure (_require_owner p scope owner_ref write).
Proof.
  unfold _require_owner. destruct scope as [scope|]; [|apply _]. destruct (parse_uuid owner_ref); [|apply _].
  destruct scope; apply _.
Qed.

#[export] Instance memory_owner_pure p m write : Pure (memory_owner p m write).
Proof.
  intros s. unfold memory_owner. apply wp_read; [apply _|]. apply (wp_pure (_require_owner _ _ _ _)); done.
Qed.

#[export] Instance record_recording p m name outcome payload d : Recording (_record p m name outcome payload d).
Proof. unfold _record. apply _. Qed.
#[export] Instance record_denial_recording p c a i c' d l : Recording (record_denial p c a i c' d l).
Proof. unfold record_denial. apply _. Qed.
#[export] Instance memory_policy_recording p a r c v : Recording (memory_policy p a r c v).
Proof. unfold memory_policy. apply _. Qed.
#[export] Instance check_expiry_pure {S} now o : Pure (S := S) (check_expiry now o).
Proof. unfold check_expiry. apply _. Qed.
#[export] Instance check_size_pure {S} c : Pure (S := S) (check_size c).
Proof. unfold check_size. apply _. Qed.

#[export] Instance authorized_still p l : Still (authorized p l).
Proof.
  induction l as [|m l IH]; cbn [authorized]; [apply _|]. apply bind_still; [|intros ?; apply _].
  apply try_catch_still; [apply _|]. intros e k. destruct (_ || _); [|done]. intros [= <-]. apply _.
Qed.

(** ** The steps that write *)

(** A decision of the engine: if it is not a denial, the principal holds the permission and the
    classification is not RESTRICTED; it is recorded under an id that was not in use. *)
Lemma wp_memory_policy p action resource context c (Q : Decision → MemoryDb → Prop) s :
  (∀ d s' row, still s s' → row ∈ decisions s' → PolicyDecision.id row = Decision.id d →
     PolicyDecision.effect row = Decision.effect d → PolicyDecision.action row = action →
     (∀ row', row' ∈ decisions s → PolicyDecision.id row' ≠ Decision.id d) →
     (Decision.effect d ≠ DecisionEffect.DENY → can p action = true ∧ c ≠ Classification.RESTRICTED) → Q d s') →
  wp (in_kernel (memory_policy p action resource context c)) Q (λ _ _, True) s.
Proof.
  intros HQ. apply wp_in_kernel. unfold memory_policy. apply wp_evaluate_resource; [|done].
  intros d k' Heff (row & Hk & Hid & He & _ & _ & Ha & _ & _ & _ & _ & Hfresh).
  apply (HQ d _ row); try done.
  - split; [done..|]. unfold decisions. cbn. rewrite Hk. by apply prefix_app_r.
  - unfold decisions. cbn. rewrite Hk. apply elem_of_app. right. by apply list_elem_of_singleton.
  - intros row' Hrow' Heq. apply (Hfresh row' Hrow'). by rewrite Heq, Hid.
  - rewrite Heff. match goal with |- effect_of (resolve_resource ?r ?k) ≠ _ → _ =>
      destruct (resolve_resource_effect r k) as [Hdeny _] end. intros Hne.
    split.
    + destruct (can p action) eqn:Hc; [done|]. destruct Hne. apply Hdeny. left. cbn. rewrite Hc. apply andb_false_r.
    + intros ->. destruct Hne. apply Hdeny. by left.
Qed.

(** The table with one memory changed. *)
Definition with_row (m : Memory) (s : MemoryDb) : MemoryDb := s <| memories := <[Memory.id m := m]> (memories s) |>.

Lemma with_row_ok m s :
  memories_ok s → memory_ok (decisions s) m →
  (∀ i m', memories s !! i = Some m' → identity_of m' = identity_of m → i = Memory.id m) →
  memories_ok (with_row m s).
Proof.
  intros [Hk Hd Hm] Hok Hfresh.
  split; change (memories (with_row m s)) with (<[Memory.id m := m]> (memories s)); change (decisions (with_row m s)) with (decisions s).
  - intros i m' [[<- <-]|[_ Hi]]%lookup_insert_Some; [done|by apply Hk].
  - intros i j m1 m2 [[<- <-]|[Hi1 Hi]]%lookup_insert_Some [[<- <-]|[Hj1 Hj]]%lookup_insert_Some Heq.
    + done.
    + symmetry. by apply (Hfresh j m2).
    + by apply (Hfresh i m1).
    + by eapply Hd.
  - intros i m' [[<- <-]|[_ Hi]]%lookup_insert_Some; [done|by eapply Hm].
Qed.

Lemma wp_insert_memory m (Q : () → MemoryDb → Prop) s :
  memories_ok s → memory_ok (decisions s) m →
  (memories s !! Memory.id m = None → memories_ok (with_row m s) → Q () (with_row m s)) →
  wp (insert_memory m) Q (λ _ _, True) s.
Proof.
  intros Hs Hm HQ. unfold insert_memory. apply wp_bind, wp_gets, wp_bind, wp_raise_if; [done|].
  intros [Hfree Hid]%orb_false_iff. apply bool_decide_eq_false, eq_None_not_Some in Hfree.
  apply negb_false_iff, bool_decide_eq_true in Hid. apply wp_modify, HQ; [done|]. apply with_row_ok; [done..|].
  intros i m' Hi Heq. exfalso. eapply (not_elem_of_nil m'). rewrite <-Hid. apply elem_of_select.
  split; [by apply bool_decide_eq_true|by exists i].
Qed.

Lemma wp_update_memory_row m f (Q : Memory → MemoryDb → Prop) s :
  memories_ok s → memories s !! Memory.id m = Some m →
  (∀ now, Memory.id (f now m) = Memory.id m ∧ memory_ok (decisions s) (f now m)) →
  (∀ now s', still s s' → memories_ok (with_row (f now m) s') →
     (dialect = "postgresql" → guard_memory_mutation m (f now m) = true) → Q (f now m) (with_row (f now m) s')) →
  wp (update_memory_row m f) Q (λ _ _, True) s.
Proof.
  intros Hs Hm Hf HQ. unfold update_memory_row. apply wp_bind, wp_still; [apply _|]. intros now s' Hq.
  destruct (Hf now) as [Hid Hok]. apply wp_bind, wp_gets, wp_bind, wp_raise_if; [done|].
  intros [Hdup Hguard]%orb_false_iff. apply negb_false_iff, bool_decide_eq_true in Hdup.
  apply wp_bind, wp_modify, wp_ret, HQ; [done| |].
  - apply with_row_ok; [by eapply still_ok|by eapply memory_ok_later; [apply Hq|]|].
    intros i m' Hi Heq. rewrite Hid. rewrite (still_memories _ _ Hq) in Hi, Hdup.
    pose proof (ok_key _ Hs _ _ Hi) as Hkey. destruct (N.eq_dec (Memory.id m') (Memory.id m)) as [He|Hne]; [congruence|].
    exfalso. eapply (not_elem_of_nil m'). rewrite <-Hdup. apply elem_of_select. split; [|by exists i].
    unfold same_identity. rewrite bool_decide_true by done. by rewrite bool_decide_false.
  - intros Hd. rewrite bool_decide_true in Hguard by done. by apply negb_false_iff in Hguard.
Qed.
End Facts.

(** ** The calls *)

Inductive Operation : Type :=
| CreateMemory (p : Principal) (r : CreateMemoryRequest)
| ListMemories (p : Principal) (scope : option MemoryScope) (owner_ref : option string) (status : option MemoryStatus)
| GetMemory (p : Principal) (memory_id : uuid)
| UpdateMemory (p : Principal) (memory_id : uuid) (r : UpdateMemoryRequest)
| RevokeMemory (p : Principal) (memory_id : uuid)
| DecideMemory (approve : bool) (p : Principal) (memory_id : uuid) (reason : string)
| CaptureMemory (p : Principal) (run_id turn_id : uuid) (thread : Thread)
| CopyMemory (organization_id source target : uuid).

(** The change a call may make to a memory.  Rewriting the content takes a database without the
    trigger. *)
Inductive change `{Environment} (o : Operation) (m : Memory) : Memory → Prop :=
| change_none : change o m m
| change_expired now :
    open_memory m = true → change o m (with_memory_status MemoryStatus.EXPIRED now m)
| change_edited p r sensitivity d now :
    o = UpdateMemory p (Memory.id m) r → can p "memory.write" = true → open_memory m = true →
    dialect ≠ "postgresql" →
    change o m (with_memory_edit (redact None (VDict (UpdateMemoryRequest.content r)))
      (sha256 (canonical_content (UpdateMemoryRequest.content r))) sensitivity (next_expiry r m) d now m)
| change_revoked p now :
    o = RevokeMemory p (Memory.id m) → can p "memory.write" = true → open_memory m = true →
    change o m (with_memory_status MemoryStatus.REVOKED now m)
| change_decided approve p reason now :
    o = DecideMemory approve p (Memory.id m) reason → can p "memory.approve" = true →
    Memory.status m = MemoryStatus.CANDIDATE →
    change o m (with_memory_status (verdict approve) now m).

(** A memory that a call proposes. *)
Definition proposed (o : Operation) (m : Memory) : Prop :=
  ∃ p r, o = CreateMemory p r ∧ can p "memory.write" = true ∧ Memory.status m = MemoryStatus.CANDIDATE ∧
    Memory.organization_id m = Principal.organization_id p ∧ Memory.scope m = CreateMemoryRequest.scope r ∧
    Memory.owner_ref m = CreateMemoryRequest.owner_ref r ∧
    Memory.content m = redact None (VDict (CreateMemoryRequest.content r)).

Definition changed `{Environment} (o : Operation) (t t' : gmap uuid Memory) : Prop := ∀ i,
  match t !! i, t' !! i with
  | Some m, Some m' => change o m m'
  | Some _, None => False
  | None, Some m' => proposed o m'
  | None, None => True
  end.

Record moved `{Environment} (o : Operation) (s s' : MemoryDb) : Prop := {
  moved_memories : changed o (memories s) (memories s');
  moved_snapshots : snapshots s' = snapshots s;
  moved_decisions : decisions s `prefix_of` decisions s';
  moved_ok : memories_ok s'
}.

Section Moves.
Context `{Environment, EventContracts, JsonEncoder, MemorySettings}.

Lemma still_moved o s s' : memories_ok s → still s s' → moved o s s'.
Proof.
  intros Hok Hs. split; [|apply Hs..|by eapply still_ok]. intros i. rewrite (still_memories _ _ Hs).
  destruct (memories s !! i); [constructor|done].
Qed.

Lemma moved_still o s1 s2 s3 : moved o s1 s2 → still s2 s3 → moved o s1 s3.
Proof.
  intros [Hc Hx Hd Hok] Hs. split; [by rewrite (still_memories _ _ Hs)|rewrite <-Hx; apply Hs| |by eapply still_ok].
  etransitivity; [done|apply Hs].
Qed.

Lemma still_then_moved o s1 s2 s3 : still s1 s2 → moved o s2 s3 → moved o s1 s3.
Proof.
  intros Hs [Hc Hx Hd Hok]. rewrite (still_memories _ _ Hs) in Hc. split; [done| |etransitivity; [apply Hs|done]|done].
  rewrite Hx. apply Hs.
Qed.

Lemma with_row_moved o m s s' :
  still s s' → memories_ok (with_row m s') →
  match memories s !! Memory.id m with Some m0 => change o m0 m | None => proposed o m end →
  moved o s (with_row m s').
Proof.
  intros Hs Hok Hm. split; [|apply Hs|apply Hs|done]. intros i.
  change (memories (with_row m s')) with (<[Memory.id m := m]> (memories s')). rewrite (still_memories _ _ Hs).
  destruct (N.eq_dec (Memory.id m) i) as [<-|Hi]; [by rewrite lookup_insert_eq|rewrite lookup_insert_ne by done].
  destruct (memories s !! i); [constructor|done].
Qed.

(** The row that is there after a change to another memory. *)
Lemma with_row_other m s i : i ≠ Memory.id m → memories (with_row m s) !! i = memories s !! i.
Proof. intros Hi. by apply lookup_insert_ne. Qed.

Lemma open_expires m now : open_memory (with_memory_status MemoryStatus.EXPIRED now m) = false.
Proof. done. Qed.

(** Marking a memory keeps it as it should be. *)
Lemma status_ok l m status now : memory_ok l m → memory_ok l (with_memory_status status now m).
Proof. by intros []. Qed.

(** Flush a change of the status, and record it. *)
Lemma wp_mark o p m status name outcome payload d (Q : Memory → MemoryDb → Prop) s :
  memories_ok s → memories s !! Memory.id m = Some m → (∀ now, change o m (with_memory_status status now m)) →
  (∀ now s', moved o s s' → memories s' !! Memory.id m = Some (with_memory_status status now m) →
     (∀ i, i ≠ Memory.id m → memories s' !! i = memories s !! i) → Q (with_memory_status status now m) s') →
  wp (m' ← update_memory_row m (with_memory_status status); in_kernel (_record p m' name outcome payload d);; mret m')
    Q (λ _ _, True) s.
Proof.
  intros Hok Hm Hc HQ. apply wp_bind, wp_update_memory_row; [done..| |].
  { intros now. split; [done|]. by eapply status_ok, ok_memory. }
  intros now s1 Hs1 Hok1 _. apply wp_bind, wp_still; [apply _|]. intros _ s2 Hs2. apply wp_ret, HQ.
  - eapply moved_still; [|exact Hs2]. apply with_row_moved; [done..|]. cbn -[lookup]. rewrite Hm. apply Hc.
  - rewrite (still_memories _ _ Hs2). apply lookup_insert_eq.
  - intros i Hi. rewrite (still_memories _ _ Hs2), with_row_other by done. by rewrite (still_memories _ _ Hs1).
Qed.

Lemma wp_expire_due o p now m (Q : Memory → MemoryDb → Prop) s :
  memories_ok s → memories s !! Memory.id m = Some m →
  (∀ m' s', moved o s s' → memories s' !! Memory.id m = Some m' →
     (∀ i, i ≠ Memory.id m → memories s' !! i = memories s !! i) →
     (open_memory m' = true → m' = m ∧ still s s') → Q m' s') →
  wp (expire_due p now m) Q (λ _ _, True) s.
Proof.
  intros Hok Hm HQ. unfold expire_due. destruct (_ && _) eqn:Hdue.
  - apply andb_true_iff in Hdue as [_ Hopen]. apply (wp_mark o); [done..| |].
    + intros now'. by apply change_expired.
    + intros now' s' Hs' Hi Hother. by apply HQ.
  - apply wp_ret, HQ; try done. by apply still_moved.
Qed.

Lemma memory_of_Some p id s m :
  memory_of p id s = Some m → memories s !! Memory.id m = Some m ∧ Memory.id m = id.
Proof.
  unfold memory_of. destruct (row_by _ _ _) as [m'|] eqn:Hrow; [|done]. case_bool_decide; [|done].
  intros [= ->]. apply row_by_Some in Hrow as [Hi Hid]. by rewrite Hid.
Qed.

(** ** Each operation makes only such changes *)

(** What a content is stored as. *)
Lemma content_ok l content sensitivity expires_at row m :
  Memory.content m = redact None (VDict content) → Memory.dedupe_key m = sha256 (canonical_content content) →
  Memory.sensitivity m = sensitivity → sensitivity ≠ Classification.RESTRICTED →
  Memory.expires_at m = Some expires_at → row ∈ l → Memory.policy_decision_id m = Some (PolicyDecision.id row) →
  PolicyDecision.effect row ≠ DecisionEffect.DENY → PolicyDecision.action row = "memory.write" → memory_ok l m.
Proof.
  intros Hc Hk Hs Hr He Hrow Hd Heff Ha. split; rewrite ?Hc, ?Hk, ?Hs, ?He; try done; [apply redact_nested|].
  by exists row.
Qed.

Lemma wp_propose p r sensitivity expires_at s :
  memories_ok s → can p "memory.write" = true →
  wp (propose p r sensitivity expires_at) (λ _, moved (CreateMemory p r) s) (λ _ _, True) s.
Proof.
  intros Hok Hcan. unfold propose. cbv zeta. apply wp_bind, wp_memory_policy.
  intros d s1 row Hs1 Hrow Hid Heff Ha _ Hgrant. case_bool_decide as Hdeny.
  - apply wp_bind, wp_still; [apply _|]. intros _ s2 Hs2. apply wp_ret, still_moved; [done|]. by transitivity s1.
  - apply wp_bind, wp_still; [apply _|]. intros id s2 Hs2. apply wp_bind, wp_still; [apply _|]. intros now s3 Hs3.
    assert (still s s3) as Hs by (transitivity s1; [done|by transitivity s2]).
    apply wp_bind, wp_insert_memory; [by eapply still_ok| |].
    + eapply (content_ok _ _ _ _ row); try reflexivity; cbn; try congruence; [by apply Hgrant|].
      eapply elem_of_prefix; [exact Hrow|]. etransitivity; [apply Hs2|apply Hs3].
    + intros Hfree Hok'. apply wp_bind, wp_still; [apply _|]. intros _ s4 Hs4. apply wp_ret.
      eapply moved_still; [|exact Hs4]. apply with_row_moved; [done..|].
      rewrite (still_memories _ _ Hs) in Hfree. rewrite Hfree. by exists p, r.
Qed.

Lemma wp_create_candidate p r s :
  memories_ok s → wp (create_candidate p r) (λ _, moved (CreateMemory p r) s) (λ _ _, True) s.
Proof.
  intros Hok. unfold create_candidate. apply wp_bind, wp_raise_if; [done|]. intros Hcan%negb_false_iff.
  apply wp_bind, wp_still; [apply _|]. intros owner s1 Hs1. apply wp_bind, wp_still; [apply _|]. intros now s2 Hs2.
  apply wp_bind, wp_still; [apply _|]. intros _ s3 Hs3. apply wp_bind, wp_still; [apply _|]. intros _ s4 Hs4.
  assert (still s s4) as Hs by (transitivity s1; [done|]; transitivity s2; [done|]; by transitivity s3).
  apply wp_bind, wp_gets. destruct (head _) as [m|].
  - apply wp_bind, wp_raise_if; [done|]. intros _. apply wp_ret. by apply still_moved.
  - eapply wp_mono; [apply wp_propose; [by eapply still_ok|done]| |done]. intros a s' Hm. by eapply still_then_moved.
Qed.

Lemma wp_get_memory p id s :
  memories_ok s → wp (get_memory p id) (λ _, moved (GetMemory p id) s) (λ _ _, True) s.
Proof.
  intros Hok. unfold get_memory. apply wp_bind, wp_raise_if; [done|]. intros _. apply wp_bind, wp_gets.
  destruct (memory_of p id s) as [m|] eqn:Hm; [|done]. apply memory_of_Some in Hm as [Hm _].
  apply wp_bind, wp_still; [apply _|]. intros _ s1 Hs1. apply wp_bind, wp_still; [apply _|]. intros now s2 Hs2.
  assert (still s s2) as Hs by by transitivity s1.
  apply (wp_expire_due (GetMemory p id)); [by eapply still_ok|by rewrite (still_memories _ _ Hs)|].
  intros m' s' Hs' _ _ _. by eapply still_then_moved.
Qed.

Lemma list_moved_trans p scope owner status s1 s2 s3 :
  moved (ListMemories p scope owner status) s1 s2 → moved (ListMemories p scope owner status) s2 s3 →
  moved (ListMemories p scope owner status) s1 s3.
Proof.
  intros [Hc1 Hx1 Hd1 _] [Hc2 Hx2 Hd2 Hok]. split; [|congruence|by etransitivity|done]. intros i.
  specialize (Hc1 i). specialize (Hc2 i).
  destruct (memories s1 !! i), (memories s2 !! i), (memories s3 !! i); try done.
  - destruct Hc1 as [|now Ho| | |]; try discriminate; [done|].
    inversion Hc2; subst; try discriminate; by constructor.
  - by destruct Hc1 as (? & ? & ? & _).
Qed.

Lemma wp_expire_each p scope owner status now l s :
  memories_ok s → NoDup (Memory.id <$> l) → Forall (λ m, memories s !! Memory.id m = Some m) l →
  wp (expire_each p now l) (λ _, moved (ListMemories p scope owner status) s) (λ _ _, True) s.
Proof.
  revert s. induction l as [|m l IH]; intros s Hok Hnd Hl; cbn [expire_each].
  - apply wp_ret. by apply still_moved.
  - apply NoDup_cons in Hnd as [Hm Hnd]. inversion_clear Hl as [|? ? Hrow Hl'].
    apply wp_bind, (wp_expire_due (ListMemories p scope owner status)); [done..|].
    intros m' s1 Hs1 _ Hother _. apply wp_bind. eapply wp_mono; [apply IH; [apply Hs1|done|]| |done].
    + rewrite Forall_forall in *. intros x Hx. rewrite Hother; [by apply Hl'|].
      intros Heq. apply Hm. rewrite <-Heq. by apply list_elem_of_fmap_2.
    + intros rest s2 Hs2. apply wp_ret. by eapply list_moved_trans.
Qed.

Lemma select_ids (t : gmap uuid Memory) P :
  (∀ i m, t !! i = Some m → Memory.id m = i) →
  NoDup (Memory.id <$> select P t) ∧ Forall (λ m, t !! Memory.id m = Some m) (select P t).
Proof.
  intros Hkey. split.
  - unfold select, rows. eapply sublist_NoDup; [|apply fmap_sublist, sublist_filter].
    rewrite <-list_fmap_compose. rewrite (list_fmap_ext _ fst) ; [apply NoDup_fst_map_to_list|].
    intros i [k m] Hi. apply list_elem_of_lookup_2, elem_of_map_to_list in Hi. by apply Hkey.
  - apply Forall_forall. intros m (_ & i & Hi)%elem_of_select. by rewrite (Hkey _ _ Hi).
Qed.

Lemma authorized_sublist p l s l' s' : authorized p l s = Ok l' s' → l' `sublist_of` l.
Proof.
  revert s l' s'. induction l as [|m l IH]; intros s l' s'; cbn [authorized]; [by intros [= <- _]|].
  unfold mbind, M_bind. destruct (try_catch _ _ s) as [[] s1|]; [..|done];
    (destruct (authorized p l s1) as [rest s2|] eqn:Hrest; [|done]); intros [= <- _]; apply IH in Hrest;
    by constructor.
Qed.

(** Rows of the table, each once. *)
Definition listed (s : MemoryDb) (l : list Memory) : Prop :=
  NoDup (Memory.id <$> l) ∧ Forall (λ m, memories s !! Memory.id m = Some m) l.

Lemma listed_sublist s l l' : l' `sublist_of` l → listed s l → listed s l'.
Proof.
  intros Hsub [Hnd Hl]. split; [eapply sublist_NoDup; [done|by apply fmap_sublist]|].
  rewrite Forall_forall in *. intros m Hm. apply Hl. eapply elem_of_submseteq; [done|by apply sublist_submseteq].
Qed.

Lemma listed_found s le P : memories_ok s → listed s (take 500 (order_by le (select P (memories s)))).
Proof.
  intros Hok. apply (listed_sublist s (order_by le (select P (memories s)))); [apply sublist_take|].
  destruct (select_ids (memories s) P (ok_key s Hok)) as [Hnd Hl].
  split; [by rewrite (order_by_perm le)|]. rewrite Forall_forall in *. intros m Hm. apply Hl. by apply elem_of_order_by in Hm.
Qed.

Lemma wp_list_memories p scope owner status s :
  memories_ok s →
  wp (list_memories p scope owner status) (λ _, moved (ListMemories p scope owner status) s) (λ _ _, True) s.
Proof.
  intros Hok. unfold list_memories. apply wp_bind, wp_raise_if; [done|]. intros _.
  apply wp_bind, wp_still; [apply _|]. intros _ s1 Hs1. apply wp_bind, wp_gets, wp_bind.
  match goal with |- wp (if _ then authorized p ?l else _) _ _ _ => set (found := l) end.
  assert (memories_ok s1) as Hok1 by by eapply still_ok.
  assert (listed s1 found) as Hfound by by apply listed_found.
  eapply (wp_mono _ (λ shown s2, still s1 s2 ∧ listed s1 shown)); [| |intros ? ? H'; exact H'].
  - destruct (_ && _); [|by apply wp_ret]. pose proof (stilled (m := authorized p found) s1) as Hst. unfold wp in *.
    destruct (authorized p found s1) as [shown s2|] eqn:Hrun; [|done]. split; [done|].
    eapply listed_sublist; [by eapply authorized_sublist|done].
  - intros shown s2 [Hs2 [Hnd Hl]]. apply wp_bind, wp_still; [apply _|]. intros now s3 Hs3.
    assert (still s1 s3) as Hs by by transitivity s2.
    apply wp_bind. eapply wp_mono; [apply (wp_expire_each p scope owner status)| |done].
    + by eapply still_ok.
    + done.
    + rewrite (still_memories _ _ Hs). exact Hl.
    + intros current s4 Hs4. apply wp_ret. eapply still_then_moved; [|exact Hs4]. by transitivity s1.
Qed.

(** The trigger lets no memory cite another decision. *)
Lemma guarded_decision m m' :
  guard_memory_mutation m m' = true → Memory.policy_decision_id m = Memory.policy_decision_id m'.
Proof. unfold guard_memory_mutation. rewrite !andb_true_iff, !bool_decide_eq_true. naive_solver. Qed.

Lemma wp_edit p m r sensitivity s :
  memories_ok s → memories s !! Memory.id m = Some m → can p "memory.write" = true → open_memory m = true →
  wp (edit p m r sensitivity) (λ _, moved (UpdateMemory p (Memory.id m) r) s) (λ _ _, True) s.
Proof.
  intros Hok Hm Hcan Hopen. unfold edit. cbv zeta. apply wp_bind, wp_memory_policy.
  intros d s1 row Hs1 Hrow Hid Heff Ha Hfresh Hgrant.
  assert (memories s1 !! Memory.id m = Some m) as Hm1 by by rewrite (still_memories _ _ Hs1).
  case_bool_decide as Hdeny.
  - apply wp_bind, wp_still; [apply _|]. intros _ s2 Hs2. apply wp_ret, still_moved; [done|]. by transitivity s1.
  - destruct (ok_memory s Hok _ _ Hm) as [_ _ _ [t Ht] (row0 & Hrow0 & Hid0 & _)].
    apply wp_bind, wp_update_memory_row; [by eapply still_ok|done| |].
    + intros now. split; [done|].
      eapply (content_ok _ _ _ (default t (UpdateMemoryRequest.expires_at r)) row); try reflexivity; cbn; try congruence.
      * by apply Hgrant.
      * unfold next_expiry. destruct (UpdateMemoryRequest.expires_at r); [done|]. exact Ht.
      * change (Some (Decision.id d) = Some (PolicyDecision.id row)). congruence.
    + intros now s2 Hs2 Hok2 Hguard. apply wp_bind, wp_still; [apply _|]. intros _ s3 Hs3. apply wp_ret.
      eapply moved_still; [|exact Hs3]. apply with_row_moved; [by transitivity s1|done|].
      cbn -[lookup]. rewrite Hm. eapply change_edited; try done. intros Hpg.
      specialize (Hguard Hpg). apply guarded_decision in Hguard.
      change (Memory.policy_decision_id m = Some (Decision.id d)) in Hguard.
      apply (Hfresh row0 Hrow0). congruence.
Qed.

Lemma wp_update_memory p id r s :
  memories_ok s → wp (update_memory p id r) (λ _, moved (UpdateMemory p id r) s) (λ _ _, True) s.
Proof.
  intros Hok. unfold update_memory. apply wp_bind, wp_raise_if; [done|]. intros Hcan%negb_false_iff.
  apply wp_bind, wp_gets. destruct (memory_of p id s) as [m|] eqn:Hm; [|done].
  apply memory_of_Some in Hm as [Hm <-].
  apply wp_bind, wp_still; [apply _|]. intros _ s1 Hs1. apply wp_bind, wp_still; [apply _|]. intros now s2 Hs2.
  assert (still s s2) as Hs by by transitivity s1.
  apply wp_bind, (wp_expire_due (UpdateMemory p (Memory.id m) r)); [by eapply still_ok|by rewrite (still_memories _ _ Hs)|].
  intros m' s3 _ Hm' _ Hsame. destruct (open_memory m') eqn:Hopen; [|done]. destruct (Hsame eq_refl) as [-> Hs3].
  cbn [negb]. apply wp_bind, wp_still; [apply _|]. intros _ s4 Hs4. cbv zeta.
  apply wp_bind, wp_still; [apply _|]. intros _ s5 Hs5. apply wp_bind, wp_still; [apply _|]. intros owner s6 Hs6.
  assert (still s s6) as Hs' by (transitivity s2; [done|]; transitivity s3; [done|]; transitivity s4; [done|]; by transitivity s5).
  apply wp_bind, wp_gets. destruct (head _); [done|]. eapply wp_mono; [apply wp_edit| |done]; try done.
  - by eapply still_ok.
  - by rewrite (still_memories _ _ Hs').
  - intros a s7 Hmoved. by eapply still_then_moved.
Qed.

(** A call that marks a memory unless policy denies it. *)
Lemma wp_mark_decided o p m status name outcome payload d d' (s : MemoryDb) :
  memories_ok s → memories s !! Memory.id m = Some m → (∀ now, change o m (with_memory_status status now m)) →
  wp (m' ← update_memory_row m (with_memory_status status);
      in_kernel (_record p m' name outcome payload d);; mret (MemoryWriteResult.Make (Some m') d'))
    (λ _, moved o s) (λ _ _, True) s.
Proof.
  intros Hok Hm Hc. apply wp_bind, wp_update_memory_row; [done..| |].
  { intros now. split; [done|]. by eapply status_ok, ok_memory. }
  intros now s1 Hs1 Hok1 _. apply wp_bind, wp_still; [apply _|]. intros _ s2 Hs2. apply wp_ret.
  eapply moved_still; [|exact Hs2]. apply with_row_moved; [done..|]. cbn -[lookup]. rewrite Hm. apply Hc.
Qed.

Lemma wp_revoke_memory p id s :
  memories_ok s → wp (revoke_memory p id) (λ _, moved (RevokeMemory p id) s) (λ _ _, True) s.
Proof.
  intros Hok. unfold revoke_memory. apply wp_bind, wp_raise_if; [done|]. intros Hcan%negb_false_iff.
  apply wp_bind, wp_gets. destruct (memory_of p id s) as [m|] eqn:Hm; [|done].
  apply memory_of_Some in Hm as [Hm <-].
  apply wp_bind, wp_still; [apply _|]. intros _ s1 Hs1. apply wp_bind, wp_still; [apply _|]. intros now s2 Hs2.
  assert (still s s2) as Hs by by transitivity s1.
  apply wp_bind, (wp_expire_due (RevokeMemory p (Memory.id m))); [by eapply still_ok|by rewrite (still_memories _ _ Hs)|].
  intros m' s3 _ Hm' _ Hsame. destruct (open_memory m') eqn:Hopen; [|done]. destruct (Hsame eq_refl) as [-> Hs3].
  cbn [negb]. apply wp_bind, wp_memory_policy. intros d s4 row Hs4 _ _ _ _ _ _.
  assert (still s s4) as Hs' by (transitivity s2; [done|]; by transitivity s3).
  case_bool_decide.
  - apply wp_bind, wp_still; [apply _|]. intros _ s5 Hs5. apply wp_ret, still_moved; [done|]. by transitivity s4.
  - eapply wp_mono; [apply (wp_mark_decided (RevokeMemory p (Memory.id m)))| |done].
    + by eapply still_ok.
    + by rewrite (still_memories _ _ Hs').
    + intros now'. by eapply change_revoked.
    + intros a s5 Hmoved. by eapply still_then_moved.
Qed.

Lemma wp_review p m approve reason s :
  memories_ok s → memories s !! Memory.id m = Some m → can p "memory.approve" = true →
  Memory.status m = MemoryStatus.CANDIDATE →
  wp (review p m approve reason) (λ _, moved (DecideMemory approve p (Memory.id m) reason) s) (λ _ _, True) s.
Proof.
  intros Hok Hm Hcan Hst. unfold review. apply wp_bind, wp_memory_policy. intros d s1 row Hs1 _ _ _ _ _ _.
  case_bool_decide.
  - apply wp_bind, wp_still; [apply _|]. intros _ s2 Hs2. apply wp_ret, still_moved; [done|]. by transitivity s1.
  - eapply wp_mono; [apply (wp_mark_decided (DecideMemory approve p (Memory.id m) reason))| |done].
    + by eapply still_ok.
    + by rewrite (still_memories _ _ Hs1).
    + intros now'. by eapply change_decided.
    + intros a s2 Hmoved. by eapply still_then_moved.
Qed.

Lemma wp_decide_memory p id approve reason s :
  memories_ok s → wp (decide p id approve reason) (λ _, moved (DecideMemory approve p id reason) s) (λ _ _, True) s.
Proof.
  intros Hok. unfold decide. apply wp_bind, wp_raise_if; [done|]. intros Hcan%negb_false_iff.
  apply wp_bind, wp_gets. destruct (memory_of p id s) as [m|] eqn:Hm; [|done].
  apply memory_of_Some in Hm as [Hm <-]. apply wp_bind, wp_still; [apply _|]. intros _ s1 Hs1.
  case_bool_decide as Hst; [|done]. cbn [negb]. apply wp_bind, wp_still; [apply _|]. intros [] s2 Hs2;
    (assert (still s s2) as Hs by by transitivity s1).
  - eapply wp_mono; [apply (wp_mark_decided (DecideMemory approve p (Memory.id m) reason))| |done].
    + by eapply still_ok.
    + by rewrite (still_memories _ _ Hs).
    + intros now'. apply change_expired. unfold open_memory. by rewrite bool_decide_true.
    + intros a s3 Hmoved. by eapply still_then_moved.
  - eapply wp_mono; [apply wp_review| |done]; try done.
    + by eapply still_ok.
    + by rewrite (still_memories _ _ Hs).
    + intros a s3 Hmoved. by eapply still_then_moved.
Qed.
End Moves.
