(* ===== verification/MemoryContext.v ===== *)
(** * The memory a Run receives

    Which of the available memories are chosen, that they are pinned to a Run once, and that a
    replay copies them. *)

From S2P Require Import Prelude PyText PyVal Redaction Enums Models Kernel Domain.
From S2P Require Import CanonicalJson Events Identity Policy MemoryService MemoryFacts.

#[local] Open Scope list_scope.

(** ** The choice *)

Section Choice.
Context `{MemorySettings}.
#[local] Open Scope Z_scope.

Definition total_size (l : list Memory) : Z := foldr Z.add 0 (size_of <$> l).

(** Whether a memory still fits behind those already chosen. *)
Definition fits (items : nat) (used : Z) (seen : list string) (l : list Memory) (m : Memory) : bool :=
  (length l <? items)%nat && negb (bool_decide (Memory.dedupe_key m ∈ seen ++ (Memory.dedupe_key <$> l))) &&
  (used + total_size l + size_of m <=? memory_max_context_chars).

Lemma total_size_app l1 l2 : total_size (l1 ++ l2) = total_size l1 + total_size l2.
Proof. unfold total_size. induction l1 as [|m l1 IH]; cbn in *; lia. Qed.

Lemma choose_snoc items used seen l m :
  choose items used seen (l ++ [m]) =
    choose items used seen l ++ (if fits items used seen (choose items used seen l) m then [m] else []).
Proof.
  revert items used seen. induction l as [|x l IH]; intros items used seen; cbn [app choose].
  - unfold fits. cbn. rewrite app_nil_r. destruct items as [|items]; [done|]. cbn.
    case_bool_decide; [done|]. cbn. replace (used + 0 + size_of m) with (used + size_of m) by lia.
    destruct (Z.ltb_spec memory_max_context_chars (used + size_of m)), (Z.leb_spec (used + size_of m) memory_max_context_chars);
      done || lia.
  - destruct items as [|items]; [done|]. cbn [Nat.eqb]. case_bool_decide; [apply IH|].
    destruct (memory_max_context_chars <? used + size_of x); [apply IH|]. rewrite IH. cbn [app]. f_equal. f_equal.
    match goal with |- (if ?a then _ else _) = (if ?b then _ else _) => replace b with a; [done|] end.
    unfold fits. replace (S items - 1)%nat with items by lia.
    set (c := choose items (used + size_of x) (Memory.dedupe_key x :: seen) l).
    replace (used + total_size (x :: c) + size_of m) with (used + size_of x + total_size c + size_of m)
      by (unfold total_size; cbn; lia).
    f_equal. f_equal. f_equal. apply bool_decide_ext. cbn. rewrite !elem_of_app, !elem_of_cons, elem_of_app. tauto.
Qed.

Lemma choose_sublist items used seen l : choose items used seen l `sublist_of` l.
Proof.
  revert items used seen. induction l as [|m l IH]; intros items used seen; cbn [choose]; [done|].
  destruct (_ =? _)%nat; [apply sublist_nil_l|]. case_bool_decide; [by constructor|].
  destruct (_ <? _); by constructor.
Qed.

(** The memories chosen for a Run: each available memory, in the order of the ranking, is
    taken exactly if there is still room for one, none with the same content was taken, and the
    characters suffice; so that there are never more than the limit, none twice, within the
    budget of characters, and in their order. *)
Theorem chosen_exact l m :
  chosen [] = [] ∧
  chosen (l ++ [m]) = chosen l ++ (if (length (chosen l) <? memory_max_context_items)%nat &&
      negb (bool_decide (Memory.dedupe_key m ∈ Memory.dedupe_key <$> chosen l)) &&
      (total_size (chosen l) + size_of m <=? memory_max_context_chars) then [m] else []) ∧
  (length (chosen l) <= memory_max_context_items)%nat ∧ NoDup (Memory.dedupe_key <$> chosen l) ∧
  (0 <= memory_max_context_chars → total_size (chosen l) <= memory_max_context_chars) ∧
  chosen l `sublist_of` l.
Proof.
  split; [done|]. split; [apply choose_snoc|]. unfold chosen. induction l as [|x l IH] using rev_ind.
  - cbn. split; [lia|]. split; [constructor|]. by split.
  - destruct IH as (Hlen & Hnd & Hsize & Hsub). rewrite choose_snoc.
    destruct (fits _ _ _ _ x) eqn:Hfits.
    + unfold fits in Hfits. rewrite !andb_true_iff, negb_true_iff, bool_decide_eq_false in Hfits.
      destruct Hfits as [[Hl%Nat.ltb_lt Hx] Hs%Z.leb_le]. rewrite length_app, fmap_app, total_size_app. cbn.
      split; [lia|]. split; [|split; [intros; unfold total_size in *; cbn in *; lia|by apply sublist_app]].
      apply NoDup_app. split; [done|]. split; [|by apply NoDup_singleton].
      intros k Hk ->%list_elem_of_singleton. by apply Hx.
    + rewrite app_nil_r. repeat (split; [done|]). by apply sublist_inserts_r.
Qed.
End Choice.

(** ** The snapshots of a Run *)

Definition of_run (run_id : uuid) (l : list RunMemorySnapshot) : list RunMemorySnapshot :=
  List.filter (λ x, bool_decide (RunMemorySnapshot.run_id x = run_id)) l.

(** The snapshots of every Run belong to one organization and are numbered from 1 on. *)
Record snapshots_ok (l : list RunMemorySnapshot) : Prop := {
  ok_numbered run_id :
    RunMemorySnapshot.ordinal <$> of_run run_id l = seqZ 1 (Z.of_nat (length (of_run run_id l)));
  ok_one_org x y : x ∈ l → y ∈ l → RunMemorySnapshot.run_id x = RunMemorySnapshot.run_id y →
    RunMemorySnapshot.organization_id x = RunMemorySnapshot.organization_id y
}.

(** Snapshots added behind the others: all of one Run, which had none, numbered from 1 on. *)
Record pinned (run_id org : uuid) (l l' rows : list RunMemorySnapshot) : Prop := {
  pinned_behind : l' = l ++ rows;
  pinned_run : Forall (λ x, RunMemorySnapshot.run_id x = run_id) rows;
  pinned_org : Forall (λ x, RunMemorySnapshot.organization_id x = org) rows;
  pinned_once : rows = [] ∨ of_run run_id l = [];
  pinned_numbered : RunMemorySnapshot.ordinal <$> rows = seqZ 1 (Z.of_nat (length rows))
}.

Lemma of_run_app run_id l1 l2 : of_run run_id (l1 ++ l2) = of_run run_id l1 ++ of_run run_id l2.
Proof. apply List.filter_app. Qed.

Lemma of_run_all run_id l : Forall (λ x, RunMemorySnapshot.run_id x = run_id) l → of_run run_id l = l.
Proof.
  induction 1 as [|x l Hx _ IH]; [done|]. unfold of_run in *. cbn. by rewrite bool_decide_true, IH by done.
Qed.

Lemma of_run_none run_id run_id' l :
  Forall (λ x, RunMemorySnapshot.run_id x = run_id) l → run_id ≠ run_id' → of_run run_id' l = [].
Proof.
  intros Hl Hne. induction Hl as [|x l Hx _ IH]; [done|]. unfold of_run in *. cbn.
  by rewrite bool_decide_false by congruence.
Qed.

Lemma elem_of_run run_id l x : x ∈ of_run run_id l ↔ RunMemorySnapshot.run_id x = run_id ∧ x ∈ l.
Proof.
  unfold of_run. rewrite !list_elem_of_In, filter_In, bool_decide_eq_true. tauto.
Qed.

Lemma pinned_snapshots_ok run_id org l l' rows : snapshots_ok l → pinned run_id org l l' rows → snapshots_ok l'.
Proof.
  intros [Hnum Horg] [-> Hrun Ho Honce Hrows]. split.
  - intros r. rewrite of_run_app. destruct (N.eq_dec run_id r) as [<-|Hne].
    + rewrite (of_run_all _ rows Hrun). destruct Honce as [-> | ->]; [|done]. rewrite app_nil_r. apply Hnum.
    + by rewrite (of_run_none _ _ _ Hrun Hne), app_nil_r.
  - assert (∀ x y, x ∈ l → y ∈ rows → RunMemorySnapshot.run_id x = RunMemorySnapshot.run_id y → False) as Hdisj.
    { intros x y Hx Hy Heq. destruct Honce as [->|Hnone]; [by apply not_elem_of_nil in Hy|].
      apply (not_elem_of_nil x). rewrite <-Hnone. apply elem_of_run. split; [|done]. rewrite Heq.
      by apply (proj1 (Forall_forall _ _) Hrun). }
    rewrite Forall_forall in Ho.
    intros x y Hx Hy Heq. apply elem_of_app in Hx as [Hx|Hx]; apply elem_of_app in Hy as [Hy|Hy]; [by apply Horg|..].
    + by destruct (Hdisj x y).
    + by destruct (Hdisj y x).
    + by rewrite (Ho x Hx), (Ho y Hy).
Qed.

(** A snapshot that is numbered 1 is inserted only for a Run without one. *)
Lemma first_fits l x :
  snapshots_ok l → snapshot_fits l x = true → RunMemorySnapshot.ordinal x = 1%Z →
  of_run (RunMemorySnapshot.run_id x) l = [].
Proof.
  intros [Hnum _] Hfits Hone. specialize (Hnum (RunMemorySnapshot.run_id x)).
  destruct (of_run _ l) as [|y rest] eqn:Hl; [done|]. exfalso.
  assert (y ∈ of_run (RunMemorySnapshot.run_id x) l) as Hin by (rewrite Hl; by left).
  apply elem_of_run in Hin as [Hrun Hy].
  assert (RunMemorySnapshot.ordinal y = 1%Z) as Hy1.
  { cbn [length fmap list_fmap] in Hnum. rewrite Nat2Z.inj_succ, seqZ_cons in Hnum by lia. by injection Hnum. }
  apply andb_true_iff in Hfits as [Hfits _]. rewrite forallb_true in Hfits. specialize (Hfits y Hy).
  rewrite (bool_decide_true (RunMemorySnapshot.run_id y = _)), Hy1, Hone, orb_true_r, andb_false_r in Hfits by done.
  done.
Qed.

(** Inserting rows one after another, from the first on. *)
Lemma wp_insert_snapshot x (Q : () → MemoryDb → Prop) s :
  (snapshot_fits (snapshots s) x = true → Q () (s <| snapshots := snapshots s ++ [x] |>)) →
  wp (insert_snapshot x) Q (λ _ _, True) s.
Proof.
  intros HQ. apply wp_bind, wp_gets, wp_bind, wp_raise_if; [done|]. intros Hf%negb_false_iff. by apply wp_modify, HQ.
Qed.

(** The rows a loop adds behind [l], the next ordinal being [n]. *)
Record adding (run_id org : uuid) (l l' : list RunMemorySnapshot) (n : Z) (rows : list RunMemorySnapshot) : Prop := {
  adding_behind : l' = l ++ rows;
  adding_run : Forall (λ x, RunMemorySnapshot.run_id x = run_id) rows;
  adding_org : Forall (λ x, RunMemorySnapshot.organization_id x = org) rows;
  adding_first : rows = [] ∨ ∃ x, snapshot_fits l x = true ∧ RunMemorySnapshot.ordinal x = n ∧
                                   RunMemorySnapshot.run_id x = run_id;
  adding_numbered : RunMemorySnapshot.ordinal <$> rows = seqZ n (Z.of_nat (length rows))
}.

Lemma adding_nil run_id org l n : adding run_id org l l n [].
Proof. split; try constructor; [by rewrite app_nil_r|done]. Qed.

Lemma adding_cons run_id org l l' n x rows :
  snapshot_fits l x = true → RunMemorySnapshot.ordinal x = n → RunMemorySnapshot.run_id x = run_id →
  RunMemorySnapshot.organization_id x = org → adding run_id org (l ++ [x]) l' (n + 1) rows →
  adding run_id org l l' n (x :: rows).
Proof.
  intros Hf Hn Hr Ho [-> Hrun Horg _ Hnum]. split; [by rewrite <-app_assoc|by constructor|by constructor| |].
  - right. by exists x.
  - cbn [fmap list_fmap length]. rewrite Nat2Z.inj_succ, seqZ_cons, Hn by lia. f_equal.
    change (RunMemorySnapshot.ordinal <$> rows = seqZ (Z.succ n) (Z.pred (Z.succ (Z.of_nat (length rows))))).
    by rewrite Hnum, Z.pred_succ, Z.add_1_r.
Qed.

Lemma adding_pinned run_id org l l' rows : snapshots_ok l → adding run_id org l l' 1 rows → pinned run_id org l l' rows.
Proof.
  intros Hok [-> Hrun Horg Hfirst Hnum]. split; [done..| |done].
  destruct Hfirst as [?|(x & Hf & Hone & <-)]; [by left|right]. by apply first_fits.
Qed.

(** ** Pinning and copying *)

(** A snapshot of a memory. *)
Definition snapshot_from (m : Memory) (x : RunMemorySnapshot) : Prop :=
  RunMemorySnapshot.memory_id x = Memory.id m ∧ RunMemorySnapshot.organization_id x = Memory.organization_id m ∧
  RunMemorySnapshot.scope x = Memory.scope m ∧ RunMemorySnapshot.owner_ref x = Memory.owner_ref m ∧
  RunMemorySnapshot.content x = redact None (Memory.content m) ∧
  RunMemorySnapshot.content_fingerprint x = Memory.dedupe_key m ∧
  RunMemorySnapshot.sensitivity x = Memory.sensitivity m ∧
  Memory.policy_decision_id m = Some (RunMemorySnapshot.policy_decision_id x).

Lemma filter_all {A} (f : A → bool) l : (∀ x, x ∈ l → f x = true) → List.filter f l = l.
Proof.
  induction l as [|x l IH]; intros Hl; cbn; [done|]. rewrite Hl by by left. f_equal. apply IH. intros y Hy. apply Hl. by right.
Qed.
Lemma filter_nothing {A} (f : A → bool) l : (∀ x, x ∈ l → f x = false) → List.filter f l = [].
Proof.
  induction l as [|x l IH]; intros Hl; cbn; [done|]. rewrite Hl by by left. apply IH. intros y Hy. apply Hl. by right.
Qed.

Section Pinning.
Context `{Environment, MemorySettings}.

Lemma wp_pin p run_id at_ n l s :
  Forall (λ m, Memory.organization_id m = Principal.organization_id p) l →
  wp (pin p run_id at_ n l)
    (λ rows s', memories s' = memories s ∧ decisions s' = decisions s ∧
       adding run_id (Principal.organization_id p) (snapshots s) (snapshots s') n rows ∧
       Forall2 (λ m x, snapshot_from m x ∧ RunMemorySnapshot.captured_at x = at_) l rows)
    (λ _ _, True) s.
Proof.
  revert n s. induction l as [|m l IH]; intros n s Horg; cbn [pin].
  - apply wp_ret. split_and!; try done. apply adding_nil.
  - inversion_clear Horg as [|? ? Hm Horg']. destruct (Memory.policy_decision_id m) as [d|] eqn:Hd; [|done].
    apply wp_bind, wp_in_kernel. apply wp_new_id. intros id k Hk. cbv zeta.
    set (s1 := set_kernel k s). apply wp_bind, wp_insert_snapshot. intros Hfits. apply wp_bind.
    eapply wp_mono; [by apply IH| |done]. intros rows s' (Hmem & Hdec & Hadd & Hrows). apply wp_ret.
    split_and!.
    + by rewrite Hmem.
    + rewrite Hdec. unfold decisions. cbn. unfold same_tables in Hk. by rewrite Hk.
    + by eapply adding_cons.
    + constructor; [|done]. by repeat split.
Qed.

(** What [capture_run_context] does: nothing, or it pins the chosen memories to a Run that had
    none. *)
Lemma wp_capture p run_id turn_id thread s :
  snapshots_ok (snapshots s) →
  wp (capture_run_context p run_id turn_id thread)
    (λ _ s', memories s' = memories s ∧ decisions s `prefix_of` decisions s' ∧
       ∃ rows, pinned run_id (Principal.organization_id p) (snapshots s) (snapshots s') rows ∧
         Forall (λ x, can p "memory.read" = true ∧ ∃ m i, memories s !! i = Some m ∧
           available p turn_id thread (RunMemorySnapshot.captured_at x) m = true ∧ snapshot_from m x) rows)
    (λ _ _, True) s.
Proof.
  intros Hok. unfold capture_run_context. apply wp_bind, wp_gets. destruct (_ || _) eqn:Hskip.
  - apply wp_ret. split_and!; [done..|]. exists []. split; [|constructor]. by apply adding_pinned, adding_nil.
  - apply orb_false_iff in Hskip as [_ Hcan%negb_false_iff]. apply wp_bind, wp_still; [apply _|]. intros now s1 Hs1.
    apply wp_bind, wp_gets. rewrite (still_memories _ _ Hs1). set (l := order_by ranked _).
    assert (∀ m, m ∈ chosen l → (∃ i, memories s !! i = Some m) ∧ available p turn_id thread now m = true) as Hl.
    { intros m Hm. eapply elem_of_submseteq in Hm; [|apply sublist_submseteq, choose_sublist].
      apply elem_of_order_by, elem_of_select in Hm. tauto. }
    eapply wp_mono; [apply wp_pin| |done].
    + apply Forall_forall. intros m Hm. apply Hl in Hm as [_ Ha]. unfold available in Ha.
      rewrite !andb_true_iff, !bool_decide_eq_true in Ha. naive_solver.
    + intros rows s' (Hmem & Hdec & Hadd & Hrows). rewrite (still_snapshots _ _ Hs1) in Hadd.
      split_and!; [by rewrite Hmem, (still_memories _ _ Hs1)|rewrite Hdec; apply Hs1|].
      exists rows. split; [by apply adding_pinned|]. apply Forall_forall. intros x Hx. split; [done|].
      apply list_elem_of_lookup in Hx as [i Hi]. destruct (Forall2_lookup_r _ _ _ _ _ Hrows Hi) as (m & Hm & Hfrom & <-).
      apply list_elem_of_lookup_2, Hl in Hm as [[j Hj] Ha]. by exists m, j.
Qed.

Lemma order_by_ordinals n l :
  RunMemorySnapshot.ordinal <$> l = seqZ n (Z.of_nat (length l)) →
  order_by (λ x y, (RunMemorySnapshot.ordinal x <=? RunMemorySnapshot.ordinal y)%Z) l = l.
Proof.
  revert n. induction l as [|x l IH]; intros n Hl; [done|].
  cbn [fmap list_fmap length] in Hl. rewrite Nat2Z.inj_succ, seqZ_cons, Z.pred_succ in Hl by lia.
  injection Hl as Hx Hl. unfold order_by in *. cbn. rewrite (IH _ Hl). destruct l as [|y l]; [done|]. cbn.
  cbn [fmap list_fmap length] in Hl. rewrite Nat2Z.inj_succ, seqZ_cons in Hl by lia. injection Hl as Hy _.
  by rewrite (proj2 (Z.leb_le _ _)) by lia.
Qed.

(** The snapshots a replay copies are all those of its source, in their order, or none. *)
Lemma snapshots_of_ok org run_id s :
  snapshots_ok (snapshots s) →
  (snapshots_of org run_id s = of_run run_id (snapshots s) ∧
     Forall (λ x, RunMemorySnapshot.organization_id x = org) (of_run run_id (snapshots s))) ∨
  snapshots_of org run_id s = [].
Proof.
  intros [Hnum Horg]. unfold snapshots_of.
  replace (List.filter (λ x, bool_decide (RunMemorySnapshot.organization_id x = org) &&
             bool_decide (RunMemorySnapshot.run_id x = run_id)) (snapshots s))
    with (List.filter (λ x, bool_decide (RunMemorySnapshot.organization_id x = org)) (of_run run_id (snapshots s))).
  2: { clear. unfold of_run. induction (snapshots s) as [|x l IH]; [done|]. cbn.
       destruct (bool_decide (RunMemorySnapshot.run_id x = run_id)), (bool_decide (RunMemorySnapshot.organization_id x = org))
         eqn:Horg; cbn; rewrite ?Horg; by rewrite ?IH. }
  assert (∀ x y, x ∈ of_run run_id (snapshots s) → y ∈ of_run run_id (snapshots s) →
    RunMemorySnapshot.organization_id x = RunMemorySnapshot.organization_id y) as Hone.
  { intros x y [Hx Hxl]%elem_of_run [Hy Hyl]%elem_of_run. apply Horg; congruence || done. }
  specialize (Hnum run_id). destruct (of_run run_id (snapshots s)) as [|x l] eqn:Hl; [by right|].
  destruct (N.eq_dec (RunMemorySnapshot.organization_id x) org) as [<-|Hne].
  - left. split; [|apply Forall_forall; intros y Hy; apply Hone; [done|by left]].
    rewrite filter_all; [by eapply order_by_ordinals|]. intros y Hy. apply bool_decide_eq_true, Hone; [done|by left].
  - right. rewrite filter_nothing; [done|]. intros y Hy. apply bool_decide_eq_false. intros <-.
    apply Hne, Hone; [by left|done].
Qed.

(** A copy is the snapshot of another Run. *)
Definition copy_of (y x : RunMemorySnapshot) : Prop :=
  ∃ id target, x = copied id target y.

Lemma wp_copy_snapshots target org n l s :
  RunMemorySnapshot.ordinal <$> l = seqZ n (Z.of_nat (length l)) →
  Forall (λ y, RunMemorySnapshot.organization_id y = org) l →
  wp (copy_snapshots target l)
    (λ _ s', memories s' = memories s ∧ decisions s' = decisions s ∧
       ∃ rows, adding target org (snapshots s) (snapshots s') n rows ∧ Forall2 copy_of l rows)
    (λ _ _, True) s.
Proof.
  revert n s. induction l as [|y l IH]; intros n s Hnum Horg; cbn [copy_snapshots].
  - apply wp_ret. split_and!; try done. exists []. split; [apply adding_nil|constructor].
  - cbn [fmap list_fmap length] in Hnum. rewrite Nat2Z.inj_succ, seqZ_cons, Z.pred_succ in Hnum by lia.
    injection Hnum as Hy Hnum. inversion_clear Horg as [|? ? Ho Horg'].
    apply wp_bind, wp_in_kernel, wp_new_id. intros id k Hk. apply wp_bind, wp_insert_snapshot. intros Hfits.
    eapply wp_mono; [by apply (IH (Z.succ n))| |done]. intros [] s' (Hmem & Hdec & rows & Hadd & Hrows).
    split_and!; [by rewrite Hmem|rewrite Hdec; unfold decisions; cbn; unfold same_tables in Hk; by rewrite Hk|].
    exists (copied id target y :: rows). split.
    + by eapply adding_cons.
    + constructor; [by exists id, target|done].
Qed.

Lemma wp_copy org source target s :
  snapshots_ok (snapshots s) →
  wp (copy_memory_snapshots org source target)
    (λ _ s', memories s' = memories s ∧ decisions s `prefix_of` decisions s' ∧
       ∃ rows, pinned target org (snapshots s) (snapshots s') rows ∧
         Forall (λ x, ∃ y, y ∈ snapshots s ∧ copy_of y x) rows)
    (λ _ _, True) s.
Proof.
  intros Hok. apply wp_bind, wp_gets. destruct (snapshots_of_ok org source s Hok) as [[-> Horg] | ->].
  - eapply wp_mono; [by eapply wp_copy_snapshots, Horg; apply Hok| |done].
    intros _ s' (Hmem & Hdec & rows & Hadd & Hrows). split_and!; [done|by rewrite Hdec|].
    exists rows. split; [by apply adding_pinned|]. apply Forall_forall. intros x Hx.
    apply list_elem_of_lookup in Hx as [i Hi]. destruct (Forall2_lookup_r _ _ _ _ _ Hrows Hi) as (y & Hy & Hc).
    apply list_elem_of_lookup_2, elem_of_run in Hy as [_ Hy]. by exists y.
  - apply wp_ret. split_and!; [done..|]. exists []. split; [by apply adding_pinned, adding_nil|constructor].
Qed.
End Pinning.
