(* ===== verification/MemoryHistory.v ===== *)
(** * Governed memory over time

    [step] interleaves the requests, the Runs that receive memory, replays, lost transactions
    and whatever else writes to the shared tables.  Over all its histories a Run receives only
    what was reviewed; memories that are over stay as they are; and on PostgreSQL a memory
    cannot be edited at all. *)

From S2P Require Import Prelude PyText PyVal Redaction Enums Models Kernel Domain.
From S2P Require Import CanonicalJson Events Identity Policy MemoryService MemoryFacts MemoryContext.

#[local] Open Scope list_scope.

Section History.
Context `{Environment, EventContracts, JsonEncoder, MemorySettings}.

Definition perform (o : Operation) : Py MemoryDb unit :=
  match o with
  | CreateMemory p r => create_memory_candidate p r;; mret ()
  | ListMemories p scope owner status => list_memories_endpoint p scope owner status;; mret ()
  | GetMemory p id => get_memory_endpoint p id;; mret ()
  | UpdateMemory p id r => update_memory_endpoint p id r;; mret ()
  | RevokeMemory p id => revoke_memory_endpoint p id;; mret ()
  | DecideMemory approve p id reason => decide_memory approve p id reason;; mret ()
  | CaptureMemory p run_id turn_id thread => savepoint (capture_run_context p run_id turn_id thread);; mret ()
  | CopyMemory org source target => savepoint (copy_memory_snapshots org source target)
  end.

Inductive step : MemoryDb → MemoryDb → Prop :=
| operation_step o s : step s (final (perform o s))
| operation_lost o s : step s (rollback s (final (perform o s)))
| elsewhere_step s s' : still s s' → step s s'.

(** ** What a step does *)

(** The snapshots a call adds. *)
Definition supplied (o : Operation) (s s' : MemoryDb) : Prop :=
  ∃ run_id org rows, pinned run_id org (snapshots s) (snapshots s') rows ∧
    Forall (λ x,
      match o with
      | CaptureMemory p _ turn_id thread =>
          can p "memory.read" = true ∧ ∃ m i, memories s !! i = Some m ∧
            available p turn_id thread (RunMemorySnapshot.captured_at x) m = true ∧ snapshot_from m x
      | CopyMemory _ _ _ => ∃ y, y ∈ snapshots s ∧ copy_of y x
      | _ => False
      end) rows.

Record done_by (o : Operation) (s s' : MemoryDb) : Prop := {
  done_memories : changed o (memories s) (memories s');
  done_snapshots : supplied o s s';
  done_decisions : decisions s `prefix_of` decisions s';
  done_ok : memories_ok s'
}.

Definition good (s : MemoryDb) : Prop := memories_ok s ∧ snapshots_ok (snapshots s).

Lemma nothing_pinned o s s' : snapshots_ok (snapshots s) → snapshots s' = snapshots s → supplied o s s'.
Proof. intros Hok Hs. exists 0%N, 0%N, []. rewrite Hs. split; [by apply adding_pinned, adding_nil|constructor]. Qed.

Lemma moved_done o s s' : good s → moved o s s' → done_by o s s'.
Proof. intros [_ Hsn] [Hc Hs Hd Hok]. split; [done| |done..]. by apply nothing_pinned. Qed.

Lemma rollback_still s s' : still s (rollback s s').
Proof. by split. Qed.

Lemma rollback_done o s s' : good s → done_by o s (rollback s s').
Proof. intros Hg. apply moved_done; [done|]. apply still_moved; [apply Hg|apply rollback_still]. Qed.

(** A transaction that makes only the changes of the call. *)
Lemma savepoint_done {A} (m : Py MemoryDb A) o s :
  good s → wp m (λ _, moved o s) (λ _ _, True) s →
  wp (savepoint m) (λ _, done_by o s) (λ _, done_by o s) s.
Proof.
  intros Hg Hm. apply wp_savepoint. eapply wp_mono; [exact Hm| |].
  - intros a s' Hs. by apply moved_done.
  - intros e s' _. by apply rollback_done.
Qed.

(** What follows the transaction only reads. *)
Lemma after_done {A B} (m : Py MemoryDb A) (f : A → Py MemoryDb B) o s :
  wp m (λ _, done_by o s) (λ _, done_by o s) s → (∀ a, Pure (f a)) →
  wp (m ≫= f) (λ _, done_by o s) (λ _, done_by o s) s.
Proof. intros Hm Hf. apply wp_bind. eapply wp_mono; [exact Hm| |done]. intros a s' Hs. by apply wp_pure. Qed.

Lemma before_done {B} b (m : Py MemoryDb B) o s :
  good s → wp m (λ _, done_by o s) (λ _, done_by o s) s →
  wp (validated b;; m) (λ _, done_by o s) (λ _, done_by o s) s.
Proof.
  intros Hg Hm. apply wp_bind. destruct b; [exact Hm|].
  apply (moved_done _ _ _ Hg), still_moved; [apply Hg|done].
Qed.

#[local] Instance answer_pure message r : Pure (answer_with message r).
Proof. unfold answer_with. apply _. Qed.

Lemma perform_done o s : good s → done_by o s (final (perform o s)).
Proof.
  intros Hg. pose proof (proj1 Hg) as Hok.
  enough (wp (perform o) (λ _, done_by o s) (λ _, done_by o s) s) as Hwp
    by (unfold wp, final in *; by destruct (perform o s)).
  destruct o as [p r|p scope owner status|p id|p id r|p id|approve p id reason|p run_id turn_id thread|org source target];
    cbn [perform]; try (apply after_done; [|intros ?; apply _]).
  - unfold create_memory_candidate. apply before_done; [done|]. apply after_done; [|intros ?; apply _].
    apply savepoint_done; [done|]. by apply wp_create_candidate.
  - unfold list_memories_endpoint. apply before_done; [done|]. apply savepoint_done; [done|]. by apply wp_list_memories.
  - apply savepoint_done; [done|]. by apply wp_get_memory.
  - unfold update_memory_endpoint. apply after_done; [|intros ?; apply _]. apply savepoint_done; [done|].
    by apply wp_update_memory.
  - unfold revoke_memory_endpoint. apply after_done; [|intros ?; apply _]. apply savepoint_done; [done|].
    by apply wp_revoke_memory.
  - unfold decide_memory. apply before_done; [done|]. apply after_done; [|intros ?; apply _].
    apply savepoint_done; [done|]. by apply wp_decide_memory.
  - apply wp_savepoint. eapply wp_mono; [apply wp_capture, Hg| |intros; by apply rollback_done].
    intros _ s' (Hmem & Hdec & rows & Hpin & Hrows).
    split; [| |done|].
    + intros i. rewrite Hmem. destruct (memories s !! i); [constructor|done].
    + by exists run_id, (Principal.organization_id p), rows.
    + destruct Hok as [Hk Hd Hm]. split; rewrite ?Hmem; [done..|]. intros i m Hi.
      eapply memory_ok_later; [exact Hdec|by eapply Hm].
  - apply wp_savepoint. eapply wp_mono; [apply wp_copy, Hg| |intros; by apply rollback_done].
    intros _ s' (Hmem & Hdec & rows & Hpin & Hrows).
    split; [| |done|].
    + intros i. rewrite Hmem. destruct (memories s !! i); [constructor|done].
    + by exists target, org, rows.
    + destruct Hok as [Hk Hd Hm]. split; rewrite ?Hmem; [done..|]. intros i m Hi.
      eapply memory_ok_later; [exact Hdec|by eapply Hm].
Qed.

(** ** Histories *)

Lemma empty_good s : memories s = ∅ → snapshots s = [] → good s.
Proof.
  intros Hm Hs. split; [|rewrite Hs].
  - split; [intros i m|intros i j m m'|intros i m]; by rewrite Hm.
  - split; [done|]. by intros x y Hx%not_elem_of_nil.
Qed.

Lemma still_good s s' : still s s' → good s → good s'.
Proof. intros Hs [Hm Hsn]. split; [by eapply still_ok|]. by rewrite (still_snapshots _ _ Hs). Qed.

Lemma done_good o s s' : done_by o s s' → good s → good s'.
Proof.
  intros [_ (r & org & rows & Hpin & _) _ Hok] [_ Hsn]. split; [done|]. by eapply pinned_snapshots_ok.
Qed.

Lemma step_cases s s' :
  step s s' → good s → still s s' ∨ ∃ o, s' = final (perform o s) ∧ done_by o s s'.
Proof.
  intros [o t|o t|t t' Hs] Hg; [right|left; apply rollback_still|by left].
  exists o. split; [done|]. by apply perform_done.
Qed.

Lemma step_good s s' : step s s' → good s → good s'.
Proof.
  intros Hst Hg. destruct (step_cases s s' Hst Hg) as [Hs|(o & _ & Hd)]; [by eapply still_good|by eapply done_good].
Qed.

Lemma history_good s s' : rtc step s s' → good s → good s'.
Proof. induction 1 as [|x y z Hxy _ IH]; [done|]. intros Hg. by apply IH, (step_good x). Qed.

(** What no call changes of a memory. *)
Definition origin (m : Memory) : uuid * uuid * MemoryScope * string * Z :=
  (Memory.id m, Memory.organization_id m, Memory.scope m, Memory.owner_ref m, Memory.created_at m).

(** A memory later on: of the same origin, unchanged once it is over, and with its content where
    the trigger guards it. *)
Record later (m m' : Memory) : Prop := {
  later_origin : origin m' = origin m;
  later_over : open_memory m = false → m' = m;
  later_content : dialect = "postgresql" → Memory.content m' = Memory.content m
}.

#[export] Instance later_preorder : PreOrder later.
Proof.
  split; [done|]. intros m1 m2 m3 [Ho1 Hc1 Hd1] [Ho2 Hc2 Hd2]. split; [congruence| |].
  - intros Hover. rewrite <-(Hc1 Hover) in Hover |- *. by apply Hc2.
  - intros Hpg. rewrite (Hd2 Hpg). by apply Hd1.
Qed.

Lemma change_later o m m' : change o m m' → later m m'.
Proof.
  intros [|now Ho|p r c d now _ _ Ho Hd|p now _ _ Ho|approve p reason now _ _ Hst]; split; try done; rewrite ?Ho; try done.
  unfold open_memory. by rewrite Hst.
Qed.

Lemma step_later s s' i m :
  step s s' → good s → memories s !! i = Some m → ∃ m', memories s' !! i = Some m' ∧ later m m'.
Proof.
  intros Hst Hg Hi. destruct (step_cases s s' Hst Hg) as [Hs|(o & _ & Hd)].
  - exists m. by rewrite (still_memories _ _ Hs).
  - pose proof (done_memories _ _ _ Hd i) as Hc. rewrite Hi in Hc. destruct (memories s' !! i) as [m'|]; [|done].
    exists m'. split; [done|by eapply change_later].
Qed.

Lemma history_later s s' i m :
  rtc step s s' → good s → memories s !! i = Some m → ∃ m', memories s' !! i = Some m' ∧ later m m'.
Proof.
  intros Hst. revert m. induction Hst as [s|x y z Hxy _ IH]; intros m Hg Hi; [by exists m|].
  destruct (step_later x y i m Hxy Hg Hi) as (m1 & Hi1 & Hl1).
  destruct (IH m1 (step_good _ _ Hxy Hg) Hi1) as (m2 & Hi2 & Hl2). exists m2. split; [done|by transitivity m1].
Qed.

(** [C26] Over any history of requests, Runs, replays and lost transactions, a memory holds only
    redacted content under the fingerprint of that content, is never RESTRICTED, expires, and
    cites a recorded decision that let it be written; there is one memory per owner and
    content; it stays, with its owner, is frozen once it is rejected, expired or revoked, and
    on PostgreSQL keeps its content. *)
Theorem memories_governed s0 s1 s2 i m :
  memories s0 = ∅ → snapshots s0 = [] → rtc step s0 s1 → rtc step s1 s2 → memories s1 !! i = Some m →
  Memory.id m = i ∧ memory_ok (decisions s1) m ∧
  (∀ j m', memories s1 !! j = Some m' → identity_of m' = identity_of m → j = i) ∧
  ∃ m', memories s2 !! i = Some m' ∧ later m m'.
Proof.
  intros Hm Hs H01 H12 Hi. pose proof (history_good _ _ H01 (empty_good _ Hm Hs)) as Hg.
  pose proof (proj1 Hg) as [Hkey Hone Hok]. split; [by apply Hkey|]. split; [by eapply Hok|].
  split; [intros j m' Hj Heq; by eapply Hone|]. by eapply history_later.
Qed.

(** ** Review *)

(** The memory was approved, as it is, by someone who may approve memories. *)
Definition reviewed (s0 s : MemoryDb) (m : Memory) : Prop :=
  ∃ s1 p reason candidate now,
    rtc step s0 s1 ∧ rtc step (final (perform (DecideMemory true p (Memory.id m) reason) s1)) s ∧
    can p "memory.approve" = true ∧ memories s1 !! Memory.id m = Some candidate ∧
    Memory.status candidate = MemoryStatus.CANDIDATE ∧
    m = with_memory_status MemoryStatus.APPROVED now candidate.

Lemma reviewed_later s0 s s' m : reviewed s0 s m → rtc step s s' → reviewed s0 s' m.
Proof.
  intros (s1 & p & reason & c & now & H01 & Hrun & Hrest) Hs. exists s1, p, reason, c, now.
  split; [done|]. split; [by transitivity s|done].
Qed.

Lemma step_reviewed s0 s s' :
  rtc step s0 s → step s s' → good s →
  (∀ i m, memories s !! i = Some m → Memory.status m = MemoryStatus.APPROVED → reviewed s0 s m) →
  ∀ i m, memories s' !! i = Some m → Memory.status m = MemoryStatus.APPROVED → reviewed s0 s' m.
Proof.
  intros Hh Hst Hg IH i m Hi Ha. destruct (step_cases s s' Hst Hg) as [Hs|(o & He & Hd)].
  - rewrite (still_memories _ _ Hs) in Hi. eapply reviewed_later; [by eapply IH|by apply rtc_once].
  - pose proof (done_memories _ _ _ Hd i) as Hc. rewrite Hi in Hc. destruct (memories s !! i) as [m0|] eqn:Hi0.
    + destruct Hc as [|now Ho|p r c d now _ _ Ho _|p now _ _ Ho|approve p reason now Hop Hcan Hcand]; try discriminate.
      * eapply reviewed_later; [by eapply IH|by apply rtc_once].
      * destruct approve; [|discriminate]. subst o s'. exists s, p, reason, m0, now. split_and!; try done.
        transitivity (memories s !! Memory.id m0); [done|]. by rewrite (ok_key s (proj1 Hg) _ _ Hi0).
    + destruct Hc as (p & r & _ & _ & Hcand & _). congruence.
Qed.

Lemma history_reviewed s0 s i m :
  good s0 → memories s0 = ∅ → rtc step s0 s → memories s !! i = Some m → Memory.status m = MemoryStatus.APPROVED →
  reviewed s0 s m.
Proof.
  intros Hg Hm Hh. revert i m. pattern s. eapply rtc_ind_r; [..|exact Hh].
  - intros i m. by rewrite Hm.
  - clear s Hh. intros s s' Hh Hst IH. apply (step_reviewed s0 s s' Hh Hst); [by eapply history_good|exact IH].
Qed.

(** Where the content of a snapshot comes from: a memory that was reviewed, and that was
    available to the Run it was captured for by someone who may read memories. *)
Definition provenance (s0 s : MemoryDb) (x : RunMemorySnapshot) : Prop :=
  ∃ s1 p turn_id thread m,
    reviewed s0 s1 m ∧ rtc step s1 s ∧ can p "memory.read" = true ∧
    memories s1 !! Memory.id m = Some m ∧
    available p turn_id thread (RunMemorySnapshot.captured_at x) m = true ∧ snapshot_from m x.

Lemma provenance_later s0 s s' x : provenance s0 s x → rtc step s s' → provenance s0 s' x.
Proof.
  intros (s1 & p & t & th & m & Hr & Hrun & Hrest) Hs. exists s1, p, t, th, m. split; [done|]. split; [by transitivity s|done].
Qed.

Lemma copy_provenance s0 s x y : copy_of y x → provenance s0 s y → provenance s0 s x.
Proof. by intros (id & target & ->). Qed.

Lemma available_approved p t th now m : available p t th now m = true → Memory.status m = MemoryStatus.APPROVED.
Proof. unfold available. rewrite !andb_true_iff, !bool_decide_eq_true. tauto. Qed.

Lemma history_provenance s0 s x :
  good s0 → memories s0 = ∅ → snapshots s0 = [] → rtc step s0 s → x ∈ snapshots s → provenance s0 s x.
Proof.
  intros Hg0 Hm Hsn Hh. revert x. pattern s. eapply rtc_ind_r; [..|exact Hh].
  - intros x. rewrite Hsn. by intros Hx%not_elem_of_nil.
  - clear s Hh. intros s s' Hh Hst IH. pose proof (history_good _ _ Hh Hg0) as Hg. intros x Hx.
    destruct (step_cases s s' Hst Hg) as [Hs|(o & He & Hd)].
    + rewrite (still_snapshots _ _ Hs) in Hx. eapply provenance_later; [by apply IH|by apply rtc_once].
    + destruct (done_snapshots _ _ _ Hd) as (run_id & org & rows & Hpin & Hrows). rewrite (pinned_behind _ _ _ _ _ Hpin) in Hx.
      apply elem_of_app in Hx as [Hx|Hx]; [eapply provenance_later; [by apply IH|by apply rtc_once]|].
      pose proof (proj1 (Forall_forall _ _) Hrows x Hx) as Hsup. destruct o; try done.
      * destruct Hsup as (Hcan & m & i & Hi & Ha & Hfrom). eapply provenance_later; [|by apply rtc_once].
        exists s, p, turn_id, thread, m. split_and!; try done.
        -- eapply history_reviewed; [done..|by eapply available_approved].
        -- by rewrite (ok_key s (proj1 Hg) _ _ Hi).
      * destruct Hsup as (y & Hy & Hcopy). eapply copy_provenance; [done|].
        eapply provenance_later; [by apply IH|by apply rtc_once].
Qed.

(** ** What a Run has received stays *)

Lemma step_pinned s s' run_id :
  step s s' → good s → of_run run_id (snapshots s) ≠ [] → of_run run_id (snapshots s') = of_run run_id (snapshots s).
Proof.
  intros Hst Hg Hne. destruct (step_cases s s' Hst Hg) as [Hs|(o & _ & Hd)]; [by rewrite (still_snapshots _ _ Hs)|].
  destruct (done_snapshots _ _ _ Hd) as (r & org & rows & [-> Hrun _ Honce _] & _). rewrite of_run_app.
  destruct (N.eq_dec r run_id) as [<-|Hr].
  - destruct Honce as [-> | Hnone]; [by rewrite app_nil_r|done].
  - by rewrite (of_run_none _ _ _ Hrun Hr), app_nil_r.
Qed.

Lemma history_pinned s s' run_id :
  rtc step s s' → good s → of_run run_id (snapshots s) ≠ [] → of_run run_id (snapshots s') = of_run run_id (snapshots s).
Proof.
  induction 1 as [|x y z Hxy _ IH]; [done|]. intros Hg Hne. pose proof (step_pinned x y run_id Hxy Hg Hne) as Heq.
  rewrite <-Heq in Hne |- *. by apply IH; [eapply step_good|].
Qed.

End History.
