(* ===== verification/MemoryOperations.v ===== *)
(** * What the requests of the memory service answer

    On PostgreSQL no edit of a memory goes through.  A proposal and a review are described on
    every branch: what they check, the row they leave, and what they journal. *)

From S2P Require Import Prelude PyText PyVal Redaction Enums Models Kernel Domain.
From S2P Require Import CanonicalJson Events EventLog Identity Policy MemoryService.
From S2P Require Import MemoryFacts MemoryContext MemoryHistory.

#[local] Open Scope list_scope.

Section Operations.
Context `{Environment, EventContracts, JsonEncoder, MemorySettings}.

(** ** Edits on PostgreSQL *)

(** A new decision is not the one the memory cites: the trigger refuses the update. *)
Lemma wp_edit_refused p m r sensitivity s :
  dialect = "postgresql" → memories_ok s → memories s !! Memory.id m = Some m →
  wp (edit p m r sensitivity) (λ a s', denied a = true ∧ still s s') (λ _ _, True) s.
Proof.
  intros Hpg Hok Hm. unfold edit. cbv zeta. apply wp_bind, wp_memory_policy.
  intros d s1 row Hs1 _ _ _ _ Hfresh _. case_bool_decide as Hdeny.
  - apply wp_bind, wp_still; [apply _|]. intros _ s2 Hs2. apply wp_ret. split; [|by transitivity s1].
    unfold denied. cbn. by apply bool_decide_eq_true.
  - destruct (ok_memory s Hok _ _ Hm) as [_ _ _ _ (row0 & Hrow0 & Hid0 & _)].
    apply wp_bind. unfold update_memory_row. apply wp_bind, wp_still; [apply _|]. intros now s2 _.
    apply wp_bind, wp_gets, wp_bind, wp_raise_if; [done|]. intros [_ Hguard]%orb_false_iff. exfalso.
    rewrite bool_decide_true in Hguard by done. apply negb_false_iff, guarded_decision in Hguard.
    change (Memory.policy_decision_id m = Some (Decision.id d)) in Hguard. apply (Hfresh row0 Hrow0). congruence.
Qed.

Lemma wp_update_refused p id r s :
  dialect = "postgresql" → memories_ok s →
  wp (update_memory p id r) (λ a s', denied a = true ∧ still s s') (λ _ _, True) s.
Proof.
  intros Hpg Hok. unfold update_memory. apply wp_bind, wp_raise_if; [done|]. intros _.
  apply wp_bind, wp_gets. destruct (memory_of p id s) as [m|] eqn:Hm; [|done].
  apply memory_of_Some in Hm as [Hm <-].
  apply wp_bind, wp_still; [apply _|]. intros _ s1 Hs1. apply wp_bind, wp_still; [apply _|]. intros now s2 Hs2.
  assert (still s s2) as Hs by by transitivity s1.
  apply wp_bind, (wp_expire_due (UpdateMemory p (Memory.id m) r)); [by eapply still_ok|by rewrite (still_memories _ _ Hs)|].
  intros m' s3 _ Hm' _ Hsame. destruct (open_memory m') eqn:Hopen; [|done]. destruct (Hsame eq_refl) as [-> Hs3].
  cbn [negb]. apply wp_bind, wp_still; [apply _|]. intros _ s4 Hs4. cbv zeta.
  apply wp_bind, wp_still; [apply _|]. intros _ s5 Hs5. apply wp_bind, wp_still; [apply _|]. intros owner s6 Hs6.
  assert (still s s6) as Hs' by (transitivity s2; [done|]; transitivity s3; [done|]; transitivity s4; [done|]; by transitivity s5).
  apply wp_bind, wp_gets. destruct (head _); [done|]. eapply wp_mono; [apply wp_edit_refused| |done]; try done.
  - by eapply still_ok.
  - by rewrite (still_memories _ _ Hs').
  - intros a s7 [Hd Hs7]. split; [done|]. by transitivity s6.
Qed.

(** [C27] On PostgreSQL no request to edit a memory succeeds: whatever the history, the memory,
    the principal and the new content, the endpoint answers with an error, and no memory and no
    snapshot has changed. *)
Theorem edits_refused s0 s p id r :
  dialect = "postgresql" → memories s0 = ∅ → snapshots s0 = [] → rtc step s0 s →
  ∃ e s', update_memory_endpoint p id r s = Raise e s' ∧ memories s' = memories s ∧ snapshots s' = snapshots s.
Proof.
  intros Hpg Hm Hs Hh. pose proof (history_good _ _ Hh (empty_good _ Hm Hs)) as [Hok _].
  enough (wp (update_memory_endpoint p id r) (λ _ _, False)
            (λ _ s', memories s' = memories s ∧ snapshots s' = snapshots s) s) as Hwp.
  { unfold wp in Hwp. destruct (update_memory_endpoint p id r s) as [a s'|e s']; [done|]. by exists e, s'. }
  unfold update_memory_endpoint. apply wp_bind, wp_savepoint. eapply wp_mono; [by apply wp_update_refused| |done].
  intros a s' [Hd [Hmem Hsn _]]. unfold answer_with. rewrite Hd. by destruct (MemoryWriteResult.memory a).
Qed.

(** ** What a request journals *)

(** The next reading of the clock. *)
Definition reading (k : Kernel) : Z := match readings k with t :: _ => t | [] => clock k end.

(** One event of the memory and one audit entry, both of the principal, and no others. *)
Definition announced (p : Principal) (memory_id : uuid) (name outcome : string) (k k' : Kernel) : Prop :=
  ∃ e a, events k' = events k ++ [e] ∧ audit_logs k' = audit_logs k ++ [a] ∧
    Event.name e = name ∧ event_key e = ("memory", memory_id) ∧ Event.actor_id e = Some (Principal.id p) ∧
    AuditRecord.action a = name ∧ AuditRecord.outcome a = outcome ∧
    AuditRecord.resource_id a = Some (uuid_str memory_id) ∧ AuditRecord.actor_id a = Some (Principal.id p).

(** Neither the tables of memory nor the journal differ. *)
Record hushed (s s' : MemoryDb) : Prop := {
  hushed_still : still s s';
  hushed_events : events (base s') = events (base s);
  hushed_audit : audit_logs (base s') = audit_logs (base s)
}.

#[local] Instance hushed_preorder : PreOrder hushed.
Proof. split; [done|]. intros s1 s2 s3 [] []. split; [by transitivity s2|congruence..]. Qed.

Lemma same_hushed s k : same_tables (base s) k → hushed s (set_kernel k s).
Proof. intros Hk. split; [apply recorded_still, same_recorded, Hk|cbn; by rewrite Hk..]. Qed.

Lemma wp_reading (Q : Z → MemoryDb → Prop) s :
  (∀ s', hushed s s' → Q (reading (base s)) s') → wp (in_kernel utc_now) Q (λ _ _, True) s.
Proof.
  intros HQ. apply wp_in_kernel. unfold wp, utc_now, reading in *. change (kernel s) with (base s).
  destruct (readings (base s)) eqn:Hr; apply HQ, same_hushed; unfold same_tables; [by destruct (base s)|done].
Qed.

Lemma wp_owner p scope owner_ref write (Q : Classification → MemoryDb → Prop) s :
  (∀ owner, _require_owner p scope owner_ref write (base s) = Ok owner (base s) → Q owner s) →
  wp (in_kernel (_require_owner p scope owner_ref write)) Q (λ _ _, True) s.
Proof.
  intros HQ. apply wp_read; [apply _|]. apply wp_pure; [apply _| |done]. intros owner. apply HQ.
Qed.

Lemma wp_hushed_policy p action resource context c (Q : Decision → MemoryDb → Prop) s :
  (∀ d s', hushed s s' → Q d s') → wp (in_kernel (memory_policy p action resource context c)) Q (λ _ _, True) s.
Proof.
  intros HQ. apply wp_in_kernel. unfold memory_policy. apply wp_evaluate_resource; [|done].
  intros d k' _ (row & Hk & _). apply HQ. split; [|cbn; by rewrite Hk..].
  split; [done..|]. unfold decisions. cbn. rewrite Hk. by apply prefix_app_r.
Qed.

Lemma in_kernel_self {A} (m : Py Kernel A) k : in_kernel (S := Kernel) m k = m k.
Proof. unfold in_kernel. cbn. by destruct (m k). Qed.

Lemma wp_journal_self d a (Q : () → Kernel → Prop) k :
  (∀ k', journaled d a k k' → Q () k') → wp (append d;; write a;; mret ()) Q (λ _ _, True) k.
Proof.
  intros HQ. assert (wp (in_kernel (append d);; in_kernel (write a);; mret ()) Q (λ _ _, True) k) as Hj.
  { apply (wp_journal (S := Kernel)); [|done]. intros k' Hk. by apply wp_ret, HQ. }
  unfold wp, mbind, M_bind in *. rewrite in_kernel_self in Hj. destruct (append d k) as [e k1|]; [|done].
  by rewrite in_kernel_self in Hj.
Qed.

Lemma wp_record p m name outcome payload d (Q : () → MemoryDb → Prop) s :
  (∀ s', still s s' → announced p (Memory.id m) name outcome (base s) (base s') → Q () s') →
  wp (in_kernel (_record p m name outcome payload d)) Q (λ _ _, True) s.
Proof.
  intros HQ. apply wp_in_kernel. unfold _record.
  apply wp_journal_self. intros k' [(e & He & Hd) (a & Ha & Hau) Hrec _].
  apply HQ; [by apply recorded_still|]. exists e, a.
  split_and!; [exact He|exact Ha|by rewrite (drafted_name _ _ Hd)|by rewrite (drafted_aggregate _ _ Hd)|..].
  - apply (drafted_actor _ _ Hd).
  - apply (audited_action _ _ Hau).
  - apply (audited_action _ _ Hau).
  - apply (audited_resource _ _ Hau).
  - apply (audited_actor _ _ Hau).
Qed.

Lemma announced_after p id name outcome k k1 k' :
  events k1 = events k → audit_logs k1 = audit_logs k →
  announced p id name outcome k1 k' → announced p id name outcome k k'.
Proof. intros He Ha (e & a & H1' & H2' & Hrest). exists e, a. rewrite <-He, <-Ha. done. Qed.

(** ** Proposals *)

Lemma wp_check_expiry {S} now t (Q : () → S → Prop) s :
  ((now < t ≤ now + max_ttl)%Z → Q () s) → wp (check_expiry now (Some t)) Q (λ _ _, True) s.
Proof.
  intros HQ. unfold check_expiry. apply wp_bind, wp_raise_if; [done|]. intros Hlo%Z.leb_gt.
  apply wp_raise_if; [done|]. intros Hhi%Z.ltb_ge. apply HQ. lia.
Qed.

Lemma wp_check_size {S} c (Q : () → S → Prop) s :
  ((py_len c ≤ memory_max_context_chars)%Z → Q () s) → wp (check_size c) Q (λ _ _, True) s.
Proof. intros HQ. apply wp_raise_if; [done|]. intros Hlen%Z.ltb_ge. by apply HQ. Qed.

(** The memory a proposal adds: a candidate with the redacted content, a decision that let it be
    written, and nothing else with that owner and content. *)
Record new_candidate (p : Principal) (r : CreateMemoryRequest) (sensitivity : Classification) (expires_at : Z)
    (s s' : MemoryDb) (m : Memory) : Prop := {
  candidate_new : memories s !! Memory.id m = None;
  candidate_added : memories s' = <[Memory.id m := m]> (memories s);
  candidate_row : ∃ d now, m = new_memory (Memory.id m) p r sensitivity expires_at d now;
  candidate_only i m' : memories s !! i = Some m' → identity_of m' ≠ identity_of m;
  candidate_announced : announced p (Memory.id m) "memory.candidate" "CANDIDATE" (base s) (base s')
}.

Lemma wp_insert_new m (Q : () → MemoryDb → Prop) s :
  (memories s !! Memory.id m = None → (∀ i m', memories s !! i = Some m' → identity_of m' ≠ identity_of m) →
     Q () (with_row m s)) →
  wp (insert_memory m) Q (λ _ _, True) s.
Proof.
  intros HQ. apply wp_bind, wp_gets, wp_bind, wp_raise_if; [done|].
  intros [Hfree Hid]%orb_false_iff. apply bool_decide_eq_false, eq_None_not_Some in Hfree.
  apply negb_false_iff, bool_decide_eq_true in Hid. apply wp_modify, HQ; [done|].
  intros i m' Hi Heq. apply (not_elem_of_nil m'). rewrite <-Hid. apply elem_of_select.
  split; [by apply bool_decide_eq_true|by exists i].
Qed.

Lemma wp_propose_spec p r sensitivity expires_at s :
  wp (propose p r sensitivity expires_at)
    (λ a s', snapshots s' = snapshots s ∧ if denied a then memories s' = memories s else
       ∃ m, MemoryWriteResult.memory a = Some m ∧ new_candidate p r sensitivity expires_at s s' m)
    (λ _ _, True) s.
Proof.
  unfold propose. cbv zeta. apply wp_bind, wp_hushed_policy. intros d s1 Hs1. case_bool_decide as Hdeny.
  - apply wp_bind, wp_still; [apply _|]. intros _ s2 Hs2. apply wp_ret. unfold denied. cbn.
    rewrite bool_decide_true by done. split; [rewrite (still_snapshots _ _ Hs2)|rewrite (still_memories _ _ Hs2)]; apply Hs1.
  - apply wp_bind, wp_in_kernel, wp_new_id. intros id k Hk.
    pose proof (transitivity Hs1 (same_hushed s1 k Hk)) as Hs2.
    apply wp_bind, wp_reading. intros s3 Hs3. pose proof (transitivity Hs2 Hs3) as Hs.
    remember (reading _) as now eqn:Hnow. clear Hnow Hk Hs2 Hs3.
    set (m := new_memory id p r sensitivity expires_at (Decision.id d) now).
    apply wp_bind, wp_insert_new. intros Hfree Honly. apply wp_bind, wp_record. intros s4 Hs4 Hann. apply wp_ret.
    destruct Hs as [[Hmem Hsn _] He Ha]. rewrite Hmem in Hfree, Honly. split.
    + by rewrite (still_snapshots _ _ Hs4).
    + unfold denied. cbn. rewrite bool_decide_false by done. exists m. split; [done|]. split; [done| | |done|].
      * rewrite (still_memories _ _ Hs4). change (memories (with_row m s3)) with (<[Memory.id m := m]> (memories s3)).
        by rewrite Hmem.
      * by exists (Decision.id d), now.
      * by eapply announced_after.
Qed.

(** What a proposal that succeeds has checked, and that it answers with the memory it added or
    with the one that has the same owner and content, if that is classified highly enough. *)
Record proposal (p : Principal) (r : CreateMemoryRequest) (owner : Classification) (s s' : MemoryDb) (m : Memory) :
    Prop := {
  proposal_allowed : can p "memory.write" = true;
  proposal_owner : _require_owner p (Some (CreateMemoryRequest.scope r)) (CreateMemoryRequest.owner_ref r) true
                     (base s) = Ok owner (base s);
  proposal_expiry : (reading (base s) < expiry_of r (reading (base s)) ≤ reading (base s) + max_ttl)%Z;
  proposal_size : (py_len (canonical_content (CreateMemoryRequest.content r)) ≤ memory_max_context_chars)%Z;
  proposal_snapshots : snapshots s' = snapshots s;
  proposal_memory :
    (memories s' = memories s ∧ (∃ i, memories s !! i = Some m) ∧
     duplicates p (CreateMemoryRequest.scope r) (CreateMemoryRequest.owner_ref r)
       (sha256 (canonical_content (CreateMemoryRequest.content r))) m = true ∧
     (_CLASSIFICATION_ORDER (_highest_classification (CreateMemoryRequest.sensitivity r) owner) ≤
      _CLASSIFICATION_ORDER (Memory.sensitivity m))%nat) ∨
    new_candidate p r (_highest_classification (CreateMemoryRequest.sensitivity r) owner)
      (expiry_of r (reading (base s))) s s' m
}.

Lemma wp_create_spec p r s :
  wp (create_candidate p r)
    (λ a s', if denied a then memories s' = memories s ∧ snapshots s' = snapshots s else
       ∃ m owner, MemoryWriteResult.memory a = Some m ∧ proposal p r owner s s' m)
    (λ _ _, True) s.
Proof.
  unfold create_candidate. apply wp_bind, wp_raise_if; [done|]. intros Hcan%negb_false_iff.
  apply wp_bind, wp_owner. intros owner Howner. apply wp_bind, wp_reading. intros s1 Hs1. cbv zeta.
  set (now := reading (base s)) in *.
  apply wp_bind, wp_check_expiry. intros Hexp. apply wp_bind, wp_check_size. intros Hsize.
  apply wp_bind, wp_gets. destruct Hs1 as [[Hmem Hsn Hdec] He Ha].
  destruct (head _) as [m|] eqn:Hhead.
  - apply wp_bind, wp_raise_if; [done|]. intros Hle%Nat.ltb_ge. apply wp_ret. cbn.
    apply head_elem, elem_of_select in Hhead as [Hdup Hi]. rewrite Hmem in Hi.
    exists m, owner. split; [done|]. split; [done..|]. by left.
  - eapply wp_mono; [apply wp_propose_spec| |done]. intros a s' [Hsn' Hres].
    destruct (denied a); [split; congruence|]. destruct Hres as (m & Hm & [Hnew Hadd Hrow Honly Hann]).
    exists m, owner. rewrite Hmem in Hnew, Hadd, Honly. split; [done|]. split; [done..|congruence|]. right.
    split; try done. by eapply announced_after.
Qed.

(** A proposal of a memory, on every branch: it succeeds only with the permission, for an
    owner the principal may write to, with a time to live within the limit and a content
    within the budget; then it answers with the memory that has this owner and content
    already, unless that is classified lower, or adds one: a candidate of the redacted
    content, classified at least as its owner, the only one of its owner and content, announced
    by one event and one audit entry.  Otherwise no memory has changed. *)
Theorem create_memory_spec p r s :
  match create_memory_candidate p r s with
  | Ok m s' => text_within 1 300 (CreateMemoryRequest.owner_ref r) = true ∧ ∃ owner, proposal p r owner s s' m
  | Raise _ s' => memories s' = memories s ∧ snapshots s' = snapshots s
  end.
Proof.
  change (wp (create_memory_candidate p r)
    (λ m s', text_within 1 300 (CreateMemoryRequest.owner_ref r) = true ∧ ∃ owner, proposal p r owner s s' m)
    (λ _ s', memories s' = memories s ∧ snapshots s' = snapshots s) s).
  unfold create_memory_candidate. apply wp_bind, wp_raise_if; [done|]. intros Htext%negb_false_iff.
  apply wp_bind, wp_savepoint. eapply wp_mono; [apply wp_create_spec| |done]. intros a s' Hres. cbv beta in Hres.
  unfold answer_with. destruct (denied a).
  - destruct Hres. by destruct (MemoryWriteResult.memory a).
  - destruct Hres as (m & owner & -> & Hp). apply wp_ret. split; [done|]. by exists owner.
Qed.

(** ** Reviews *)

Lemma wp_update_status m status (Q : Memory → MemoryDb → Prop) s :
  (∀ now s', hushed s s' → Q (with_memory_status status now m) (with_row (with_memory_status status now m) s')) →
  wp (update_memory_row m (with_memory_status status)) Q (λ _ _, True) s.
Proof.
  intros HQ. unfold update_memory_row. apply wp_bind, wp_reading. intros s' Hs'. apply wp_bind, wp_gets, wp_bind.
  apply wp_raise_if; [done|]. intros _. apply wp_bind, wp_modify, wp_ret, HQ. done.
Qed.

(** The row a review leaves, and what it journals. *)
Record marked (p : Principal) (m : Memory) (status : MemoryStatus) (name : string) (s s' : MemoryDb) (m' : Memory) :
    Prop := {
  marked_row : ∃ now, m' = with_memory_status status now m;
  marked_memories : memories s' = <[Memory.id m := m']> (memories s);
  marked_snapshots : snapshots s' = snapshots s;
  marked_announced : announced p (Memory.id m) name (value_of status) (base s) (base s')
}.

Lemma wp_mark_spec p m status name payload d d' s :
  wp (m' ← update_memory_row m (with_memory_status status);
      in_kernel (_record p m' name (value_of status) payload d);; mret (MemoryWriteResult.Make (Some m') d'))
    (λ a s', ∃ m', a = MemoryWriteResult.Make (Some m') d' ∧ marked p m status name s s' m') (λ _ _, True) s.
Proof.
  apply wp_bind, wp_update_status. intros now s1 [[Hmem Hsn _] He Ha]. apply wp_bind, wp_record.
  intros s2 Hs2 Hann. apply wp_ret. eexists. split; [done|]. split.
  - by exists now.
  - rewrite (still_memories _ _ Hs2). cbn -[insert]. by rewrite Hmem.
  - by rewrite (still_snapshots _ _ Hs2).
  - by eapply announced_after.
Qed.

Lemma marked_after p m status name s s1 s' m' :
  hushed s s1 → marked p m status name s1 s' m' → marked p m status name s s' m'.
Proof.
  intros [[Hmem Hsn _] He Ha] [Hrow Hm Hs Hann]. rewrite Hmem in Hm. rewrite Hsn in Hs. split; try done.
  by eapply announced_after.
Qed.

(** The decision on a candidate: it has expired, or it is approved or rejected. *)
Definition decided (approve : bool) (p : Principal) (id : uuid) (s s' : MemoryDb) (m' : Memory) : Prop :=
  ∃ m, memory_of p id s = Some m ∧ Memory.status m = MemoryStatus.CANDIDATE ∧
    (if expired_at (reading (base s)) m
     then marked p m MemoryStatus.EXPIRED "memory.expired" s s' m'
     else marked p m (verdict approve) (if approve then "memory.approved" else "memory.rejected") s s' m').

Lemma wp_review_spec p m approve reason s :
  wp (review p m approve reason)
    (λ a s', if denied a then memories s' = memories s ∧ snapshots s' = snapshots s else
       ∃ m', MemoryWriteResult.memory a = Some m' ∧
         marked p m (verdict approve) (if approve then "memory.approved" else "memory.rejected") s s' m')
    (λ _ _, True) s.
Proof.
  unfold review. apply wp_bind, wp_hushed_policy. intros d s1 Hs1. case_bool_decide as Hdeny.
  - apply wp_bind, wp_still; [apply _|]. intros _ s2 Hs2. apply wp_ret. unfold denied. cbn.
    rewrite bool_decide_true by done.
    split; [rewrite (still_memories _ _ Hs2)|rewrite (still_snapshots _ _ Hs2)]; apply Hs1.
  - eapply wp_mono; [apply wp_mark_spec| |done]. intros a s2 (m' & -> & Hm). unfold denied. cbn.
    rewrite bool_decide_false by done. exists m'. split; [done|]. by eapply marked_after.
Qed.

Lemma wp_decide_spec approve p id reason s :
  wp (decide p id approve reason)
    (λ a s', if denied a then memories s' = memories s ∧ snapshots s' = snapshots s else
       ∃ m', MemoryWriteResult.memory a = Some m' ∧ can p "memory.approve" = true ∧ decided approve p id s s' m')
    (λ _ _, True) s.
Proof.
  unfold decide. apply wp_bind, wp_raise_if; [done|]. intros Hcan%negb_false_iff.
  apply wp_bind, wp_gets. destruct (memory_of p id s) as [m|] eqn:Hm; [|done].
  unfold memory_owner. apply wp_bind, wp_owner. intros owner _.
  case_bool_decide as Hst; [|done]. cbn [negb]. apply wp_bind.
  apply (wp_mono _ (λ b s1, b = expired_at (reading (base s)) m ∧ hushed s s1) _ (λ _ _, True)); [| |done].
  { case_bool_decide as Hnone; [apply wp_ret; split; [unfold expired_at; by rewrite Hnone|done]|].
    apply wp_bind, wp_reading. intros s1 Hs1. by apply wp_ret. }
  intros b s1 [Hb Hs1]. destruct b.
  - eapply wp_mono; [apply (wp_mark_spec p m MemoryStatus.EXPIRED)| |done]. intros a s2 (m' & -> & Hm').
    cbn. exists m'. split; [done|]. split; [done|]. exists m. rewrite <-Hb. split; [done|]. split; [done|].
    by eapply marked_after.
  - eapply wp_mono; [apply wp_review_spec| |done]. intros a s2 Hres. cbv beta in Hres. destruct Hs1 as [[Hmem Hsn Hdec] He Ha].
    destruct (denied a); [destruct Hres; split; congruence|]. destruct Hres as (m' & Ha' & Hm'). exists m'.
    split; [done|]. split; [done|]. exists m. rewrite <-Hb. split; [done|]. split; [done|].
    by apply (marked_after _ _ _ _ s s1).
Qed.

End Operations.

(** ** Governed memory, concretely

    A preference is proposed, approved and pinned to a Run, on PostgreSQL; an edit of it is
    refused there and accepted by a database without the trigger.  A memory whose owner is
    not written as the service writes ids reaches no Run, and an expiry that a revocation
    notices is rolled back with it. *)

Module Sample.

Definition on (name : string) : Environment := {| uuid7 n := N.of_nat (1000 + n); dialect := name |}.
#[local] Instance postgresql : Environment := on "postgresql".

#[local] Instance contracts : EventContracts := {|
  payload_validators := map (λ name, ((name, 1%Z), λ _, []))
    ["memory.candidate"; "memory.approved"; "memory.rejected"; "memory.expired"; "memory.revoked"];
  envelope_validator _ := [];
  error_code_registered _ := true
|}.
#[local] Instance encoder : JsonEncoder := λ _, inr VNone.
#[local] Instance settings : MemorySettings := {|
  environment := "test"; memory_default_ttl_days := 90; memory_max_ttl_days := 365;
  memory_max_context_items := 10; memory_max_context_chars := 6000
|}.

Definition alice : Principal :=
  Principal.Make 1 10 "alice" "Alice" None None ∅ {["memory.read"; "memory.write"; "memory.approve"]} [].

Definition empty : Directory :=
  MkDirectory {[1%N := User.Make 1 10 "alice" "Alice" None true []]} ∅ ∅ [] ∅ [] ∅ ∅.

Definition start : MemoryDb :=
  MkMemoryDb (MkKernel (1000 * second) [] 0 empty ∅ ∅ ∅ [] [] [] []) ∅ [].

Definition preference (owner_ref : string) (expires_at : option Z) : CreateMemoryRequest :=
  CreateMemoryRequest.Make MemoryScope.USER_PREFERENCE owner_ref
    [("language", VStr "German"); ("password", VStr "hunter2")] Classification.INTERNAL expires_at.

Definition thread : Thread := Thread.Make 30 10 20 ThreadStatus.ACTIVE 1 "plans" None None None 0 0.
Definition captures (run_id : uuid) : Operation := CaptureMemory alice run_id 40 thread.

Definition the_memory (s : MemoryDb) : uuid :=
  match rows (memories s) with m :: _ => Memory.id m | [] => 0%N end.

Definition proposed_one : MemoryDb := Eval vm_compute in
  final (perform (CreateMemory alice (preference (uuid_str 1) None)) start).
Definition approval : Operation := DecideMemory true alice (the_memory proposed_one) "looks right".
Definition approved_one : MemoryDb := Eval vm_compute in final (perform approval proposed_one).
Definition pinned_one : MemoryDb := Eval vm_compute in final (perform (captures 50) approved_one).

(** What a Run is handed. *)
Definition handed (s : MemoryDb) :=
  (λ x, (RunMemorySnapshot.run_id x, RunMemorySnapshot.ordinal x, RunMemorySnapshot.content x)) <$> snapshots s.

Example only_after_review :
  handed (final (perform (captures 50) proposed_one)) = [] ∧
  handed pinned_one = [(50%N, 1%Z, VDict [("language", VStr "German"); ("password", VStr "[REDACTED]")])] ∧
  Event.name <$> events (base pinned_one) = ["memory.candidate"; "memory.approved"].
Proof. vm_compute. done. Qed.

(** A second proposal of the same content adds nothing, and a Run keeps what it was handed. *)
Example proposed_once :
  memories (final (perform (CreateMemory alice (preference (uuid_str 1) None)) pinned_one)) = memories pinned_one ∧
  handed (final (perform (captures 50) pinned_one)) = handed pinned_one.
Proof. split; vm_compute; reflexivity. Qed.

(** ** Edits *)

Definition edited : UpdateMemoryRequest := UpdateMemoryRequest.Make [("language", VStr "English")] None None.

(** What an edit answers: the new status, or the error. *)
Definition answer (r : outcome exn MemoryDb Memory) : MemoryStatus + exn :=
  match r with Ok m _ => inl (Memory.status m) | Raise e _ => inr e end.

Example refused_by_the_trigger :
  answer (update_memory_endpoint alice (the_memory approved_one) edited approved_one) = inr (PyError "IntegrityError") ∧
  answer (update_memory_endpoint (H := on "sqlite") alice (the_memory approved_one) edited approved_one) =
    inl MemoryStatus.CANDIDATE.
Proof. split; vm_compute; reflexivity. Qed.

(** ** Owners *)

(** The owner of a preference written without its hyphens: it is the same user to
    [_require_owner], and another to [capture_run_context] and to the search for duplicates. *)
Definition unhyphenated : string := "00000000000000000000000000000001".

Definition proposed_two : MemoryDb := Eval vm_compute in
  final (perform (CreateMemory alice (preference unhyphenated None)) start).
Definition approved_two : MemoryDb := Eval vm_compute in
  final (perform (DecideMemory true alice (the_memory proposed_two) "looks right") proposed_two).

Example approved_but_never_given :
  parse_uuid unhyphenated = parse_uuid (uuid_str 1) ∧
  Memory.status <$> rows (memories approved_two) = [MemoryStatus.APPROVED] ∧
  handed (final (perform (captures 50) approved_two)) = [] ∧
  size (memories (final (perform (CreateMemory alice (preference (uuid_str 1) None)) approved_two))) = 2.
Proof. split_and!; vm_compute; reflexivity. Qed.

(** ** Expiry *)

Definition later_on (s : MemoryDb) : MemoryDb := s <| base := ((base s) <| clock := (2000 * second)%Z |>) |>.
Definition short_lived : MemoryDb := Eval vm_compute in
  later_on (final (perform (CreateMemory alice (preference (uuid_str 1) (Some (1500 * second)%Z))) start)).

(** A revocation finds that the memory has expired, says so and rolls that back; to read it
    marks it. *)
Example expiry_rolled_back :
  answer (revoke_memory_endpoint alice (the_memory short_lived) short_lived) =
    inr (ConflictError "memory_already_decided" "This memory can no longer be revoked" [("status", VStr "EXPIRED")]) ∧
  memories (final (perform (RevokeMemory alice (the_memory short_lived)) short_lived)) = memories short_lived ∧
  Memory.status <$> rows (memories (final (perform (GetMemory alice (the_memory short_lived)) short_lived))) =
    [MemoryStatus.EXPIRED].
Proof. split_and!; vm_compute; reflexivity. Qed.

(** ** Witnesses *)

Lemma to_approved : rtc step start approved_one.
Proof.
  eapply rtc_l; [exact (operation_step (CreateMemory alice (preference (uuid_str 1) None)) start)|].
  exact (rtc_once _ _ (operation_step approval proposed_one)).
Qed.

Lemma to_pinned : rtc step start pinned_one.
Proof. eapply rtc_r; [exact to_approved|]. exact (operation_step (captures 50) approved_one). Qed.

Lemma from_pinned : rtc step pinned_one (final (perform (RevokeMemory alice (the_memory pinned_one)) pinned_one)).
Proof. exact (rtc_once _ _ (operation_step (RevokeMemory alice (the_memory pinned_one)) pinned_one)). Qed.


Lemma memories_governed_witness :
  ∃ m, memories pinned_one !! the_memory pinned_one = Some m ∧ memory_ok (decisions pinned_one) m.
Proof.
  destruct (memories pinned_one !! the_memory pinned_one) as [m|] eqn:Hm; [|vm_compute in Hm; discriminate].
  exists m. split; [reflexivity|].
  destruct (memories_governed start pinned_one _ _ m eq_refl eq_refl to_pinned from_pinned Hm) as (_ & Hok & _).
  exact Hok.
Defined.

Lemma edits_refused_witness :
  ∃ e s', update_memory_endpoint alice (the_memory approved_one) edited approved_one = Raise e s' ∧
    memories s' = memories approved_one.
Proof.
  destruct (edits_refused (H := postgresql) start approved_one alice (the_memory approved_one) edited eq_refl eq_refl eq_refl to_approved)
    as (e & s' & Hrun & Hm & _).
  exists e, s'. split; [exact Hrun|exact Hm].
Defined.

End Sample.
