(* ===== verification/RobotTransport.v ===== *)
(** * The DingTalk robot transport ([capabilities/dingtalk_robot.py])

    One token request, then at most one message request per call.  [httpx] is a
    parameter: [call] sends a request to the vendor and answers its reply. *)

From S2P Require Import Prelude PyText PyVal Enums Models Kernel RateLimit ActionState.

Definition TOKEN_PATH : string := "/v1.0/oauth2/accessToken".
Definition SEND_PATH : string := "/v1.0/robot/oToMessages/batchSend".
Definition GROUP_SEND_PATH : string := "/v1.0/robot/groupMessages/send".
Definition QUERY_PATH : string := "/v1.0/robot/oToMessages/readStatus".
Definition MAX_TEXT_BYTES : Z := 4096.
Definition MAX_RESPONSE_BYTES : Z := 65536.
Definition DINGTALK_ROBOT_CAPABILITY : string := "im.dingtalk.robot.reply".
Definition DINGTALK_ROBOT_PROTOCOL : string := "dingtalk.robot.oto.v1".

Module RobotSendState.
Inductive RobotSendState : Type :=
| NOT_ATTEMPTED
| ACCEPTED
| REJECTED
| UNKNOWN.
Definition value (x : RobotSendState) : string :=
  match x with
  | NOT_ATTEMPTED => "NOT_ATTEMPTED"
  | ACCEPTED => "ACCEPTED"
  | REJECTED => "REJECTED"
  | UNKNOWN => "UNKNOWN"
  end.
#[export] Instance eq_dec : EqDecision RobotSendState.
Proof. solve_decision. Defined.
End RobotSendState.
Export (hints) RobotSendState.
Abbreviation RobotSendState := RobotSendState.RobotSendState.

Module RobotQueryState.
Inductive RobotQueryState : Type :=
| SUCCESS
| FAILURE
| UNKNOWN.
Definition value (x : RobotQueryState) : string :=
  match x with
  | SUCCESS => "SUCCESS"
  | FAILURE => "FAILURE"
  | UNKNOWN => "UNKNOWN"
  end.
#[export] Instance eq_dec : EqDecision RobotQueryState.
Proof. solve_decision. Defined.
End RobotQueryState.
Export (hints) RobotQueryState.
Abbreviation RobotQueryState := RobotQueryState.RobotQueryState.

Record RobotCredentials : Type := MkCredentials { app_key : string; app_secret : string }.

Module RobotSendResult.
Record RobotSendResult : Type := Make {
  state : RobotSendState;
  process_query_key : option string;
  reason : option string
}.
End RobotSendResult.
Abbreviation RobotSendResult := RobotSendResult.RobotSendResult.

Module RobotQueryResult.
Record RobotQueryResult : Type := Make {
  state : RobotQueryState;
  send_status : option string;
  read_status : option string;
  read_timestamp_ms : option Z;
  reason : option string
}.
End RobotQueryResult.
Abbreviation RobotQueryResult := RobotQueryResult.RobotQueryResult.

(** A request to the vendor.  [origin] is not sent: it names the delivery on whose
    behalf the request leaves. *)
Record VendorRequest : Type := MkRequest {
  origin : uuid;
  request_path : string;
  request_method : string;
  request_data : dict;
  request_token : option string
}.

(** What [httpx] reports: an exception by its class, or a response with its status, its
    content encoding, its size and its JSON value, if it is JSON. *)
Inductive VendorReply : Type :=
| VendorRaised (class : string)
| VendorResponse (status_code : Z) (content_encoding : option string) (size : Z) (body : option val).

(** A request that creates a message. *)
Definition is_message (q : VendorRequest) : bool :=
  bool_decide (request_path q = SEND_PATH) || bool_decide (request_path q = GROUP_SEND_PATH).

(** The exceptions the transport turns into results. *)
Definition transport_error (e : exn) : bool :=
  match e with
  | ObsionError _ _ _ _ => false
  | PyError class => bool_decide (class ∈ ["HTTPError"; "OSError"; "TimeoutError"; "ValueError";
                                           "TypeError"; "RecursionError"])
  end.

(** [_opaque]: a nonempty string of at most [maximum] printable ASCII characters. *)
Definition opaque_str (value : string) (maximum : Z) : bool :=
  truthy value && (py_len value <=? maximum)%Z && forallb (in_range 33 126) (chars value).

Definition _opaque (value : val) (maximum : Z) : bool :=
  match value with VStr s => opaque_str s maximum | _ => false end.

Definition value_error {S A} : Py S A := raise (PyError "ValueError").

Definition credentials_of {S} (key secret : string) : Py S RobotCredentials :=
  if opaque_str key 255 && opaque_str secret 4096 then mret (MkCredentials key secret) else value_error.

Definition _validate_text {S} (text : string) (credentials : RobotCredentials) : Py S unit :=
  let control c := (code c <? 32)%N && negb (bool_decide (code c ∈ [9; 10]%N)) in
  if negb (truthy (strip text)) || (MAX_TEXT_BYTES <? py_len text)%Z || existsb control (chars text)
     || (MAX_TEXT_BYTES <? Z.of_nat (String.length text))%Z
     || contains (app_secret credentials) text
  then value_error else mret ().

Definition connector_fingerprint (connector_type environment : string) (endpoint : option string)
    (configuration : dict) (credential_ref : option string) (declared_grants allowed_egress : list val) : string :=
  let opt o := match o with Some s => VStr s | None => VNone end in
  sha256 (json_dumps false (VDict
    [("connector_type", VStr connector_type); ("environment", VStr environment); ("endpoint", opt endpoint);
     ("configuration", VDict configuration); ("credential_ref", opt credential_ref);
     ("declared_grants", VList declared_grants); ("allowed_egress", VList allowed_egress)])).

Definition _access_token {S} (response : dict) (credentials : RobotCredentials) : Py S string :=
  match dget "accessToken" response, dget "expireIn" response with
  | Some (VStr token), Some (VInt expire) =>
      if opaque_str token 4096 && (0 <? expire)%Z && (expire <=? 86400)%Z &&
         negb (bool_decide (token = app_key credentials)) && negb (bool_decide (token = app_secret credentials))
      then mret token else value_error
  | _, _ => value_error
  end.

(** The recipients a vendor refused, each of them expected. *)
Definition refused {S} (recipient_id : option string) (values : val) : Py S bool :=
  let expected v :=
    _opaque v 255 && match recipient_id with Some r => bool_decide (v = VStr r) | None => true end in
  match values with
  | VList l =>
      let most := match recipient_id with Some _ => 1 | None => 500 end in
      if (most <? length l)%nat || negb (forallb expected l) then value_error
      else mret (negb (bool_decide (l = [])))
  | _ => value_error
  end.

Definition _receipt {S} (response : dict) (recipient_id : option string) (credentials : list string) :
    Py S RobotSendResult :=
  invalid ← refused recipient_id (dget_or "invalidStaffIdList" (VList []) response);
  flow_controlled ← refused recipient_id (dget_or "flowControlledStaffIdList" (VList []) response);
  if invalid || flow_controlled
  then mret (RobotSendResult.Make RobotSendState.REJECTED None (Some "recipient_rejected"))
  else
    match dget "processQueryKey" response with
    | Some (VStr key) =>
        if negb (opaque_str key 500) || existsb (λ secret, contains secret key) credentials then value_error
        else mret (RobotSendResult.Make RobotSendState.ACCEPTED (Some key) None)
    | _ => value_error
    end.

Definition invalid_receipt (send_status : option string) : RobotQueryResult :=
  RobotQueryResult.Make RobotQueryState.UNKNOWN send_status None None (Some "reconciliation_response_invalid").

(** The state a vendor status stands for. *)
Definition query_state (status : string) : RobotQueryState :=
  let normalized := upper status in
  if bool_decide (normalized = "SUCCESS") then RobotQueryState.SUCCESS
  else if bool_decide (normalized ∈ ["FAIL"; "FAILED"; "FAILURE"]) then RobotQueryState.FAILURE
  else RobotQueryState.UNKNOWN.

(** One entry of [messageReadInfoList]: the read status and its time in milliseconds. *)
Definition read_info (user_id : option string) (item : val) : option (string * option Z) :=
  match item with
  | VDict d =>
      let owner := match user_id with
                   | Some u => bool_decide (dget "userId" d = Some (VStr u))
                   | None => true
                   end in
      match dget "readStatus" d, dget_or "readTimestamp" VNone d with
      | Some (VStr status), VNone => if owner && opaque_str status 32 then Some (status, None) else None
      | Some (VStr status), VInt t =>
          if owner && opaque_str status 32 && (0 <=? t)%Z
          then Some (status, Some (if (0 <? t)%Z && (t <? 100000000000)%Z then t * 1000 else t)%Z)
          else None
      | _, _ => None
      end
  | _ => None
  end.

Definition _query_receipt (response : dict) (user_id : option string) : RobotQueryResult :=
  match dget "sendStatus" response with
  | Some (VStr status) =>
      if opaque_str status 64 then
        let state := query_state status in
        let result read_status read_timestamp_ms :=
          RobotQueryResult.Make state (Some status) read_status read_timestamp_ms
            (if bool_decide (state = RobotQueryState.UNKNOWN) then Some "reconciliation_status_unknown" else None) in
        match dget_or "messageReadInfoList" (VList []) response with
        | VList [] => result None None
        | VList [item] =>
            match read_info user_id item with
            | Some (read_status, read_at) => result (Some read_status) read_at
            | None => invalid_receipt (Some status)
            end
        | _ => invalid_receipt (Some status)
        end
      else invalid_receipt None
  | _ => invalid_receipt None
  end.

Section Transport.
Context {S : Type} (call : VendorRequest → Py S VendorReply).

(** [_json]: the JSON object of a successful plain response within the budget. *)
Definition _json (q : VendorRequest) : Py S dict :=
  reply ← call q;
  match reply with
  | VendorRaised class => raise (PyError class)
  | VendorResponse status_code content_encoding size body =>
      let encoding := lower (strip (default "identity" content_encoding)) in
      if negb (status_code =? 200)%Z || negb (bool_decide (encoding = "identity")) ||
         (MAX_RESPONSE_BYTES <? size)%Z
      then value_error
      else
        match body with
        | Some (VDict parsed) =>
            if dmem "code" parsed || dmem "errcode" parsed then value_error else mret parsed
        | _ => value_error
        end
  end.

(** The token of this call. *)
Definition request_access (id : uuid) (credentials : RobotCredentials) : Py S string :=
  token_response ← _json (MkRequest id TOKEN_PATH "POST"
    [("appKey", VStr (app_key credentials)); ("appSecret", VStr (app_secret credentials))] None);
  _access_token token_response credentials.

Definition not_attempted (reason : string) : RobotSendResult :=
  RobotSendResult.Make RobotSendState.NOT_ATTEMPTED None (Some reason).

(** The part of a send before the message leaves: a token, or a reason not to send. *)
Definition before_message (id : uuid) (credentials : RobotCredentials) (text : string)
    (authorize_send : Py S bool) : Py S (string + string) :=
  token ← request_access id credentials;
  if contains token text then mret (inr "credential_in_text")
  else
    authorized ← authorize_send;
    mret (if authorized : bool then inl token else inr "delivery_not_authorized").

(** [try: ... except (httpx.HTTPError, OSError, ...)], with [message_attempted] as the
    statement that had been reached. *)
Definition send_message (id : uuid) (path : string) (data : dict) (recipient_id : option string)
    (credentials : RobotCredentials) (text : string) (authorize_send : Py S bool) : Py S RobotSendResult :=
  ready ← try_catch (before_message id credentials text authorize_send)
    (λ e, if transport_error e then Some (mret (inr "authentication_failed")) else None);
  match ready with
  | inr reason => mret (not_attempted reason)
  | inl token =>
      try_catch
        (response ← _json (MkRequest id path "POST" data (Some token));
         _receipt response recipient_id [token; app_secret credentials])
        (λ e, if transport_error e
              then Some (mret (RobotSendResult.Make RobotSendState.UNKNOWN None (Some "unverified_send_response")))
              else None)
  end.

(** [json.dumps({"content": text}, ensure_ascii=False)], whose separators are the
    default ones. *)
Definition message_content (text : string) : string :=
  "{" +:+ quoted "content" +:+ ": " +:+ json_str false text +:+ "}".

Definition send_text (id : uuid) (credentials : RobotCredentials) (robot_code user_id text : string)
    (authorize_send : Py S bool) : Py S RobotSendResult :=
  if negb (opaque_str robot_code 255) || negb (opaque_str user_id 255) then value_error
  else
    _validate_text text credentials;;
    send_message id SEND_PATH
      [("robotCode", VStr robot_code); ("userIds", VList [VStr user_id]); ("msgKey", VStr "sampleText");
       ("msgParam", VStr (message_content text))] (Some user_id) credentials text authorize_send.

Definition send_group_text (id : uuid) (credentials : RobotCredentials)
    (robot_code open_conversation_id text : string) (authorize_send : Py S bool) : Py S RobotSendResult :=
  if negb (opaque_str robot_code 255) || negb (opaque_str open_conversation_id 512) then value_error
  else
    _validate_text text credentials;;
    send_message id GROUP_SEND_PATH
      [("robotCode", VStr robot_code); ("openConversationId", VStr open_conversation_id);
       ("msgKey", VStr "sampleText"); ("msgParam", VStr (message_content text))] None credentials text
      authorize_send.

Definition query_status (id : uuid) (credentials : RobotCredentials) (robot_code : string)
    (user_id open_conversation_id : option string) (process_query_key : string) : Py S RobotQueryResult :=
  let bad o maximum := match o with Some s => negb (opaque_str s maximum) | None => false end in
  if negb (opaque_str robot_code 255) || bad user_id 255%Z || bad open_conversation_id 512%Z ||
     (bool_decide (user_id = None) && bool_decide (open_conversation_id = None)) ||
     negb (opaque_str process_query_key 500)
  then value_error
  else
    try_catch
      (token ← request_access id credentials;
       response ← _json (MkRequest id QUERY_PATH "GET"
         ([("processQueryKey", VStr process_query_key); ("robotCode", VStr robot_code)] ++
          match open_conversation_id with Some c => [("openConversationId", VStr c)] | None => [] end)%list
         (Some token));
       mret (_query_receipt response user_id))
      (λ e, if transport_error e
            then Some (mret (RobotQueryResult.Make RobotQueryState.UNKNOWN None None None
                               (Some "reconciliation_unavailable")))
            else None).
End Transport.

Example receipt_accepted :
  _receipt [("processQueryKey", VStr "k1")] (Some "u1") ["token"; "secret"] () =
  Ok (RobotSendResult.Make RobotSendState.ACCEPTED (Some "k1") None) ().
Proof. vm_compute. reflexivity. Qed.

Example receipt_other_recipient :
  _receipt [("invalidStaffIdList", VList [VStr "u2"]); ("processQueryKey", VStr "k1")] (Some "u1") [] () =
  Raise (PyError "ValueError") ().
Proof. vm_compute. reflexivity. Qed.

(** ** The state of DingTalk delivery

    The IM tables, the outbox, the capability registry and the rate limiter's windows,
    and the requests sent to the vendor, which no rollback undoes. *)

Record ImTables : Type := MkIm {
  installations : gmap uuid ImInstallation;
  bindings : gmap uuid ImInstallationBinding;
  audiences : gmap uuid ImGroupAudience;
  inbox : gmap uuid ImInboxMessage;
  artifacts : gmap uuid Artifact
}.

Record OutboxDb : Type := MkOutboxDb {
  core : Kernel;
  catalog : Registry;
  im : ImTables;
  outbox : gmap uuid DingTalkRobotOutbox;
  vendor : list VendorRequest;
  limits : gmap string Window
}.

#[export] Program Instance outbox_session : Session OutboxDb := {
  kernel := core;
  set_kernel k s := MkOutboxDb k (catalog s) (im s) (outbox s) (vendor s) (limits s);
  rollback old new :=
    MkOutboxDb (kernel_rollback (core old) (core new)) (catalog old) (im old) (outbox old)
      (vendor new) (limits new)
}.
Solve Obligations with (by intros; repeat match goal with s : OutboxDb |- _ => destruct s end).

(** [httpx] and the vendor behind it: the reply to a request, given those sent before. *)
Class RobotVendor := vendor_reply : list VendorRequest → VendorRequest → VendorReply.

Definition vendor_call `{RobotVendor} (q : VendorRequest) : Py OutboxDb VendorReply := λ s,
  Ok (vendor_reply (vendor s) q)
     (MkOutboxDb (core s) (catalog s) (im s) (outbox s) (vendor s ++ [q])%list (limits s)).

(** Assign columns of a loaded outbox row. *)
Definition update_outbox (id : uuid) (f : DingTalkRobotOutbox → DingTalkRobotOutbox) : Py OutboxDb unit :=
  modify (λ s, MkOutboxDb (core s) (catalog s) (im s) (alter f id (outbox s)) (vendor s) (limits s)).
