(* ===== verification/RobotGateway.v ===== *)
(** * Robot delivery through the capability gateway ([capabilities/gateway.py])

    [invoke_dingtalk_robot_outbox] sends one claimed delivery and
    [reconcile_dingtalk_robot_outbox] asks for its receipt: both resolve the versioned
    capability and its connector, ask the policy engine, check grants, schema and rate
    limit, and fetch the credential, before the transport is called. *)

From S2P Require Import Prelude PyText PyVal Enums Models Kernel Domain CanonicalJson Events EventLog.
From S2P Require Import Identity Policy RateLimit ActionState ActionGateway RobotTransport.

(** The fields [DingTalkRobotOutboxRequest] and [DingTalkRobotOutboxQueryRequest] share. *)
Module Delivery.
Record Delivery : Type := Make {
  principal : Principal;
  run_id : uuid;
  outbox_id : uuid;
  installation_id : uuid;
  recipient_sender_id : string;
  app_key : string;
  robot_code : string;
  connector_id : uuid;
  connector_fingerprint : string;
  environment : string;
  capability_version_id : uuid;
  conversation_type : string;
  recipient_conversation_id : option string
}.
End Delivery.
Abbreviation Delivery := Delivery.Delivery.

Record DingTalkRobotOutboxRequest : Type := MkSend { send_delivery : Delivery; send_body : string }.
Record DingTalkRobotOutboxQueryRequest : Type :=
  MkQuery { query_delivery : Delivery; query_key : string }.

Record DingTalkRobotOutboxResult : Type := MkSendResult {
  send_result : RobotSendResult;
  send_policy_decision_id : option uuid;
  send_capability_version_id : option uuid;
  send_connector_id : option uuid
}.

Record DingTalkRobotOutboxQueryResult : Type := MkQueryResult {
  query_result : RobotQueryResult;
  query_policy_decision_id : option uuid;
  query_capability_version_id : option uuid;
  query_connector_id : option uuid
}.

Definition _configured_rate_limit (c : Connector) : option Z :=
  match dget "rate_limit_per_minute" (Connector.configuration c) with
  | Some (VInt z) => Some z
  | _ => None
  end.

Definition _connector_grant_allows (c : Connector) (v : CapabilityVersion) : bool :=
  let granted x := existsb (λ g, py_eq g (VStr x)) (Connector.declared_grants c) in
  granted "*" || granted (CapabilityVersion.permission_action v).

Definition fingerprint_of (c : Connector) : string :=
  connector_fingerprint (Connector.connector_type c) (Connector.environment c) (Connector.endpoint c)
    (Connector.configuration c) (Connector.credential_ref c) (Connector.declared_grants c)
    (Connector.allowed_egress c).

Definition _dingtalk_robot_contract_valid (r : ResolvedActionCapability) (q : Delivery) : bool :=
  let v := ResolvedActionCapability.version r in
  let c := ResolvedActionCapability.connector r in
  bool_decide (CapabilityDefinition.name (ResolvedActionCapability.definition r) = DINGTALK_ROBOT_CAPABILITY) &&
  bool_decide (CapabilityVersion.risk_level v = RiskLevel.L2) &&
  bool_decide (CapabilityVersion.side_effect v = SideEffect.WRITE) &&
  bool_decide (CapabilityVersion.permission_action v = "im.reply.deliver") &&
  bool_decide (CapabilityVersion.transport v = CapabilityTransport.HTTP) &&
  bool_decide (Connector.id c = Delivery.connector_id q) &&
  bool_decide (Connector.connector_type c = "dingtalk-robot") &&
  bool_decide (dget "protocol" (Connector.configuration c) = Some (VStr DINGTALK_ROBOT_PROTOCOL)) &&
  bool_decide (Delivery.conversation_type q ∈ ["direct"; "group"]) &&
  (bool_decide (Delivery.conversation_type q = "direct") ||
   match Delivery.recipient_conversation_id q with Some i => truthy (strip i) | None => false end) &&
  bool_decide (Delivery.connector_fingerprint q = fingerprint_of c).

(** What distinguishes the two uses of the boundary. *)
Record Purpose : Type := MkPurpose {
  purpose_agent : string;
  purpose_resource : list (string * string);
  purpose_resource_type : string;
  purpose_entrypoint : string;
  purpose_refusal : string → list (string * obj);
  purpose_announces_rate_limit : bool
}.

Definition robot_payload (q : Delivery) : dict :=
  [("operation", VStr DINGTALK_ROBOT_CAPABILITY);
   ("installation_id", VStr (uuid_str (Delivery.installation_id q)));
   ("recipient_sender_id", VStr (Delivery.recipient_sender_id q));
   ("outbox_id", VStr (uuid_str (Delivery.outbox_id q)));
   ("conversation_type", VStr (Delivery.conversation_type q));
   ("recipient_conversation_id", VStr (default "" (Delivery.recipient_conversation_id q)))].

Definition robot_resource (q : Delivery) : list (string * string) :=
  let conversation := default "" (Delivery.recipient_conversation_id q) in
  [("installation_id", uuid_str (Delivery.installation_id q));
   ("recipient_sender_id", Delivery.recipient_sender_id q);
   ("outbox_id", uuid_str (Delivery.outbox_id q));
   ("channel", "dingtalk");
   ("conversation_type", Delivery.conversation_type q);
   ("conversation_id", if truthy conversation then conversation else Delivery.recipient_sender_id q)].

Definition sending (q : Delivery) : Purpose :=
  MkPurpose "experience-im-outbox" (robot_resource q) "im_delivery" "dingtalk-robot-outbox"
    (λ reason, [("error_code",
       OStr (if bool_decide (reason = "delivery_not_authorized") then "im_delivery_denied" else reason))]) true.

Definition reconciling (q : Delivery) : Purpose :=
  MkPurpose "experience-im-outbox-reconciliation" (robot_resource q ++ [("operation", "reconcile")])%list
    "im_delivery_reconciliation" "dingtalk-robot-outbox-reconciliation"
    (λ reason, [("operation", OStr "reconcile"); ("reason", OStr reason)]) false.

(** A refusal before the vendor is asked anything. *)
Record Refusal : Type := MkRefusal {
  refusal_reason : string;
  refusal_decision : option uuid;
  refusal_version : option uuid;
  refusal_connector : option uuid
}.

Section Gateway.
Context `{Environment, EventContracts, JsonEncoder, ActionPlatform, RobotVendor,
  RateLimiter (gmap string Window)}.

(** [_resolve] for a pinned version: the first binding whose selector matches. *)
Definition _resolve (q : Delivery) (resource : dict) : Py OutboxDb ResolvedActionCapability :=
  g ← gets catalog;
  let org := Principal.organization_id (Delivery.principal q) in
  let candidates := order_by
    (λ r1 r2, (CapabilityVersion.version (ResolvedActionCapability.version r2) <=?
               CapabilityVersion.version (ResolvedActionCapability.version r1))%Z)
    (filter (λ r, usable org (Delivery.environment q) r = true ∧
                  CapabilityDefinition.name (ResolvedActionCapability.definition r) = DINGTALK_ROBOT_CAPABILITY ∧
                  CapabilityVersion.organization_id (ResolvedActionCapability.version r) = org ∧
                  CapabilityBinding.organization_id (ResolvedActionCapability.binding r) = org ∧
                  CapabilityVersion.id (ResolvedActionCapability.version r) = Delivery.capability_version_id q)
       (joined g)) in
  match find (λ r, _selector_matches
                     (CapabilityBinding.resource_selector (ResolvedActionCapability.binding r)) resource) candidates with
  | None => raise (NotFoundError "Capability binding" DINGTALK_ROBOT_CAPABILITY)
  | Some resolved => mret resolved
  end.

Definition run_event_draft (q : Delivery) (name : string) (payload : list (obj * obj)) : EventDraft :=
  (event_draft name "run" (Delivery.run_id q) (Principal.organization_id (Delivery.principal q))
     (Delivery.run_id q) ActorType.SYSTEM None)
    <| EventDraft.run_id := Some (Delivery.run_id q) |> <| EventDraft.payload := payload |>.

Definition _policy_event (q : Delivery) (d : Decision) : Py Kernel Event :=
  append (run_event_draft q "policy.decided"
    [(OStr "decision_id", OStr (uuid_str (Decision.id d)));
     (OStr "effect", OEnum (value_of (Decision.effect d)));
     (OStr "reason_codes", OSeq (map OStr (Decision.reason_codes d)))]).

Definition _gateway_event (q : Delivery) (name : string) : Py Kernel Event :=
  append (run_event_draft q name [(OStr "capability", OStr DINGTALK_ROBOT_CAPABILITY)]).

(** [_audit]: the request names no agent version. *)
Definition robot_audit (q : Delivery) (purpose : Purpose) (v : CapabilityVersion) (decision_id : uuid)
    (outcome : string) (latency_ms : option Z) (metadata : list (string * obj)) : Py Kernel AuditRecord :=
  write ((audit_draft (Principal.organization_id (Delivery.principal q)) (Delivery.run_id q) ActorType.AGENT
      None (CapabilityVersion.permission_action v) "capability" outcome)
    <| AuditDraft.resource_id := Some (uuid_str (CapabilityVersion.id v)) |>
    <| AuditDraft.risk_level := Some (CapabilityVersion.risk_level v) |>
    <| AuditDraft.policy_decision_id := Some decision_id |>
    <| AuditDraft.metadata := metadata |>
    <| AuditDraft.latency_ms := latency_ms |>
    <| AuditDraft.capability_version_id := Some (CapabilityVersion.id v) |>
    <| AuditDraft.resource := Some (map (λ '(k, x), (k, OStr x)) (purpose_resource purpose)) |>
    <| AuditDraft.result_classification :=
         Some (maximum_classification [Some (CapabilityVersion.data_classification v); None]) |>).

(** [self._validate(version.input_schema, ...)], which raises, and
    [self.rate_limiter.allow(...)], which may be unavailable ([None]). *)
Definition valid_input (v : CapabilityVersion) (payload : dict) : bool :=
  bool_decide (schema_violation (CapabilityVersion.input_schema v) (VDict payload) = None).

Definition limit_call (now : Z) (rate_key : string) (limit : option Z) : Py OutboxDb (option bool) := λ s,
  let '(answer, limits') := allow now rate_key limit (limits s) in
  Ok answer (MkOutboxDb (core s) (catalog s) (im s) (outbox s) (vendor s) limits').

Definition allow_call (q : Delivery) (r : ResolvedActionCapability) : Py OutboxDb (option bool) :=
  now ← in_kernel utc_now;
  let p := Delivery.principal q in
  let c := ResolvedActionCapability.connector r in
  let rate_key := join ":" [uuid_str (Principal.organization_id p); uuid_str (Principal.id p);
    uuid_str (CapabilityVersion.id (ResolvedActionCapability.version r)); uuid_str (Connector.id c)] in
  limit_call (now / second)%Z rate_key (_configured_rate_limit c).

Definition policy_request (q : Delivery) (purpose : Purpose) (v : CapabilityVersion) : ResourcePolicyInput :=
  ResourcePolicyInput.Make (Delivery.principal q) (CapabilityVersion.permission_action v)
    (map (λ '(k, x), (k, VStr x)) (purpose_resource purpose))
    [("entrypoint", VStr (purpose_entrypoint purpose)); ("environment", VStr (Delivery.environment q))]
    (CapabilityVersion.risk_level v) (purpose_resource_type purpose) (Some (CapabilityVersion.id v))
    (purpose_agent purpose) None (Some (Delivery.run_id q)) None.

(** The checks before the vendor is asked, in their order. *)
Definition admission (q : Delivery) (purpose : Purpose) :
    Py OutboxDb (Refusal + (ResolvedActionCapability * Decision)) :=
  resolved ← try_catch (r ← _resolve q (map (λ '(k, x), (k, VStr x)) (purpose_resource purpose)); mret (Some r))
    (λ e, match e with ObsionError _ _ _ _ => Some (mret None) | PyError _ => None end);
  match resolved with
  | None => mret (inl (MkRefusal "capability_unavailable" None None None))
  | Some r =>
      let v := ResolvedActionCapability.version r in
      let c := ResolvedActionCapability.connector r in
      if negb (_dingtalk_robot_contract_valid r q) then
        mret (inl (MkRefusal "delivery_configuration_invalid" None (Some (CapabilityVersion.id v))
                     (Some (Connector.id c))))
      else
        decision ← in_kernel (evaluate_resource (policy_request q purpose v));
        in_kernel (_policy_event q decision);;
        let refuse outcome reason :=
          in_kernel (robot_audit q purpose v (Decision.id decision) outcome None (purpose_refusal purpose reason));;
          mret (inl (MkRefusal reason (Some (Decision.id decision)) (Some (CapabilityVersion.id v))
                       (Some (Connector.id c)))) in
        if negb (bool_decide (Decision.effect decision = DecisionEffect.ALLOW)) ||
           negb (bool_decide (Decision.obligations decision = []))
        then refuse "DENIED" "delivery_not_authorized"
        else if negb (_connector_grant_allows c v) then refuse "DENIED" "connector_grant_missing"
        else if negb (valid_input v (robot_payload q)) then refuse "FAILED" "delivery_gateway_unavailable"
        else
          rate_allowed ← allow_call q r;
          match rate_allowed with
          | None => refuse "FAILED" "delivery_gateway_unavailable"
          | Some false =>
              (if purpose_announces_rate_limit purpose
               then in_kernel (_gateway_event q "capability.rate_limited");; mret ()
               else mret ());;
              refuse "DENIED" "capability_rate_limited"
          | Some true => mret (inr (r, decision))
          end
  end.

(** The credential of the connector: present and not empty. *)
Definition robot_credential (q : Delivery) (c : Connector) : Py OutboxDb string :=
  credential ← resolve_stored (λ s, secret_references (catalog s)) (Connector.credential_ref c)
                 (Principal.organization_id (Delivery.principal q));
  let unavailable := raise (ValidationError "credential_unavailable"
                              "The connector credential is not available" []) in
  match credential with
  | Some k => if truthy k then mret k else unavailable
  | None => unavailable
  end.

(** [except ObsionError: ...], [except (OSError, TimeoutError, ValueError): ...] *)
Definition caught {A} (on_obsion on_precondition : A) (e : exn) : option (Py OutboxDb A) :=
  match e with
  | ObsionError _ _ _ _ => Some (mret on_obsion)
  | PyError class =>
      if bool_decide (class ∈ ["OSError"; "TimeoutError"; "ValueError"]) then Some (mret on_precondition) else None
  end.

Definition deliver (q : Delivery) (c : Connector) (text : string) (authorize_send : Py OutboxDb bool) :
    Py OutboxDb RobotSendResult :=
  credential ← robot_credential q c;
  credentials ← credentials_of (Delivery.app_key q) credential;
  if bool_decide (Delivery.conversation_type q = "group") then
    match Delivery.recipient_conversation_id q with
    | Some conversation =>
        if truthy conversation
        then send_group_text vendor_call (Delivery.outbox_id q) credentials (Delivery.robot_code q) conversation
               text authorize_send
        else value_error
    | None => value_error
    end
  else
    send_text vendor_call (Delivery.outbox_id q) credentials (Delivery.robot_code q)
      (Delivery.recipient_sender_id q) text authorize_send.

Definition latency (started stopped : Z) : Z := Z.quot (stopped - started) 1000.

Definition invoke_dingtalk_robot_outbox (q : DingTalkRobotOutboxRequest) (authorize_send : Py OutboxDb bool) :
    Py OutboxDb DingTalkRobotOutboxResult :=
  let d := send_delivery q in
  admitted ← admission d (sending d);
  match admitted with
  | inl refusal =>
      mret (MkSendResult (not_attempted (refusal_reason refusal)) (refusal_decision refusal)
              (refusal_version refusal) (refusal_connector refusal))
  | inr (r, decision) =>
      let v := ResolvedActionCapability.version r in
      let c := ResolvedActionCapability.connector r in
      let capability := CapabilityDefinition.name (ResolvedActionCapability.definition r) in
      in_kernel (append (run_event_draft d "tool.started"
        [(OStr "capability", OStr capability); (OStr "connector", OStr (Connector.name c))]));;
      started ← in_kernel perf_counter;
      outcome ← try_catch (deliver d c (send_body q) authorize_send)
        (caught (not_attempted "credential_unavailable") (not_attempted "delivery_precondition_failed"));
      let state := RobotSendState.value (RobotSendResult.state outcome) in
      stopped ← in_kernel perf_counter;
      in_kernel (append (run_event_draft d "im.delivery.attempted"
        [(OStr "capability", OStr capability); (OStr "outbox_id", OStr (uuid_str (Delivery.outbox_id d)));
         (OStr "state", OEnum state); (OStr "latency_ms", OInt (latency started stopped))]));;
      stopped ← in_kernel perf_counter;
      in_kernel (robot_audit d (sending d) v (Decision.id decision)
        (if bool_decide (RobotSendResult.state outcome = RobotSendState.ACCEPTED) then "SUCCESS" else state)
        (Some (latency started stopped))
        [("state", OEnum state);
         ("reason", match RobotSendResult.reason outcome with Some r => OStr r | None => ONone end)]);;
      mret (MkSendResult outcome (Some (Decision.id decision)) (Some (CapabilityVersion.id v))
              (Some (Connector.id c)))
  end.

Definition unknown_query (reason : string) : RobotQueryResult :=
  RobotQueryResult.Make RobotQueryState.UNKNOWN None None None (Some reason).

Definition ask_status (q : DingTalkRobotOutboxQueryRequest) (c : Connector) : Py OutboxDb RobotQueryResult :=
  let d := query_delivery q in
  credential ← robot_credential d c;
  credentials ← credentials_of (Delivery.app_key d) credential;
  query_status vendor_call (Delivery.outbox_id d) credentials (Delivery.robot_code d)
    (if bool_decide (Delivery.conversation_type d = "direct") then Some (Delivery.recipient_sender_id d) else None)
    (if bool_decide (Delivery.conversation_type d = "group") then Delivery.recipient_conversation_id d else None)
    (query_key q).

Definition opt_text (o : option string) : obj := match o with Some s => OStr s | None => ONone end.

Definition reconcile_dingtalk_robot_outbox (q : DingTalkRobotOutboxQueryRequest) :
    Py OutboxDb DingTalkRobotOutboxQueryResult :=
  let d := query_delivery q in
  admitted ← admission d (reconciling d);
  match admitted with
  | inl refusal =>
      mret (MkQueryResult (unknown_query (refusal_reason refusal)) (refusal_decision refusal)
              (refusal_version refusal) (refusal_connector refusal))
  | inr (r, decision) =>
      let v := ResolvedActionCapability.version r in
      let c := ResolvedActionCapability.connector r in
      started ← in_kernel perf_counter;
      query ← try_catch (ask_status q c)
        (caught (unknown_query "credential_unavailable") (unknown_query "reconciliation_unavailable"));
      let state := RobotQueryState.value (RobotQueryResult.state query) in
      stopped ← in_kernel perf_counter;
      in_kernel (robot_audit d (reconciling d) v (Decision.id decision)
        (if bool_decide (RobotQueryResult.state query = RobotQueryState.SUCCESS) then "SUCCESS" else state)
        (Some (latency started stopped))
        [("operation", OStr "reconcile"); ("state", OEnum state);
         ("send_status", opt_text (RobotQueryResult.send_status query));
         ("read_status", opt_text (RobotQueryResult.read_status query));
         ("reason", opt_text (RobotQueryResult.reason query))]);;
      mret (MkQueryResult query (Some (Decision.id decision)) (Some (CapabilityVersion.id v))
              (Some (Connector.id c)))
  end.
End Gateway.
