(* ===== verification/OutboxService.v ===== *)
(** * The DingTalk outbox ([application/dingtalk_outbox.py])

    One durable row per completed Run of an IM message.  A worker enqueues rows, claims
    one under a fencing token, and dispatches the claim after checking again everything
    the delivery depends on; a claim whose lease ran out is never sent again. *)

From S2P Require Import Prelude PyText PyVal Enums Models Kernel CanonicalJson Events EventLog.
From S2P Require Import Identity Policy RateLimit ActionState ActionGateway RobotTransport.
From S2P Require Import RobotGateway.

Definition _CAPABILITY : string := "im.dingtalk.robot.reply".
Definition _PROTOCOL : string := "dingtalk.robot.oto.v1".
Definition _FALLBACK_FINGERPRINT : string := sha256 "".
Definition _SAFE_GROUP_STATUS : string :=
  "任务已完成，结果未在群内公开。请在 Obsion 工作台登录查看。".

Definition _CLASSIFICATION_RANK (c : string) : option nat :=
  if bool_decide (c = "PUBLIC") then Some 0
  else if bool_decide (c = "INTERNAL") then Some 1
  else if bool_decide (c = "CONFIDENTIAL") then Some 2
  else if bool_decide (c = "RESTRICTED") then Some 3
  else None.

(** [_ENV_NAME.fullmatch] *)
Definition env_name (s : string) : bool :=
  match chars s with
  | "O" :: "B" :: "S" :: "I" :: "O" :: "N" :: "_" :: c :: l =>
      is_upper c && forallb (λ d, is_upper d || is_digit d || bool_decide (d = "_")) l
  | _ => false
  end%char.

Record OutboxClaim : Type := MkClaim { claim_outbox : uuid; fencing_token : Z }.
Record OutboxReconciliationClaim : Type := MkReconciliationClaim { reconciled_outbox : uuid; attempt_count : Z }.

(** [DingTalkOutboxService(lease_seconds=, max_attempts=)] *)
Class OutboxSettings := { lease_seconds : Z; max_attempts : Z }.

Definition max_reconciliation_attempts `{OutboxSettings} : Z := Z.max 1 max_attempts.

(** ** Columns the service assigns *)

Module Row.
Import DingTalkRobotOutbox.

Definition with_updated (now : Z) (o : DingTalkRobotOutbox) : DingTalkRobotOutbox := o <| updated_at := now |>.

Definition with_last_error (mapped : option string) (o : DingTalkRobotOutbox) : DingTalkRobotOutbox :=
  o <| last_error_code := mapped |>.

Definition with_expired_claim (o : DingTalkRobotOutbox) : DingTalkRobotOutbox :=
  o <| status := DingTalkOutboxStatus.UNKNOWN |> <| lease_expires_at := None |>.

Definition with_claim (lease : Z) (o : DingTalkRobotOutbox) : DingTalkRobotOutbox :=
  o <| status := DingTalkOutboxStatus.DISPATCHING |> <| fencing_token := (fencing_token o + 1)%Z |>
    <| attempt_count := (attempt_count o + 1)%Z |> <| lease_expires_at := Some lease |>
    <| next_attempt_at := None |>.

Definition with_policy_decision (d : option uuid) (o : DingTalkRobotOutbox) : DingTalkRobotOutbox :=
  o <| policy_decision_id := d |>.

Definition with_accepted (key : option string) (o : DingTalkRobotOutbox) : DingTalkRobotOutbox :=
  o <| status := DingTalkOutboxStatus.ACCEPTED |> <| accepted_process_query_key := key |>
    <| lease_expires_at := None |>.

Definition with_settled (st : DingTalkOutboxStatus) (o : DingTalkRobotOutbox) : DingTalkRobotOutbox :=
  o <| status := st |> <| lease_expires_at := None |>.

Definition with_retry (at_time : Z) (o : DingTalkRobotOutbox) : DingTalkRobotOutbox :=
  o <| status := DingTalkOutboxStatus.QUEUED |> <| lease_expires_at := None |>
    <| next_attempt_at := Some at_time |>.

Definition with_block (reason : string) (mapped : option string) (o : DingTalkRobotOutbox) : DingTalkRobotOutbox :=
  o <| status := DingTalkOutboxStatus.BLOCKED |> <| blocked_reason := Some reason |>
    <| last_error_code := mapped |> <| next_attempt_at := None |> <| lease_expires_at := None |>.

Definition with_reconciliation_claim (now : Z) (o : DingTalkRobotOutbox) : DingTalkRobotOutbox :=
  o <| reconciliation_attempt_count := (reconciliation_attempt_count o + 1)%Z |>
    <| last_reconciled_at := Some now |>.

Definition with_receipt (decision : option uuid) (q : RobotQueryResult) (read_at : option Z)
    (o : DingTalkRobotOutbox) : DingTalkRobotOutbox :=
  o <| policy_decision_id := match decision with Some d => Some d | None => policy_decision_id o end |>
    <| vendor_send_status := RobotQueryResult.send_status q |>
    <| vendor_read_status := RobotQueryResult.read_status q |>
    <| vendor_read_at := read_at |>.

Definition with_rejection (o : DingTalkRobotOutbox) : DingTalkRobotOutbox :=
  o <| status := DingTalkOutboxStatus.REJECTED |>.

(** The assignments of a successful [_prepare_queue]. *)
Definition with_queue (m : ImInboxMessage) (b : ImInstallationBinding) (audience : option ImGroupAudience)
    (mode classification : string) (c : Connector) (version : option uuid) (content : string) (now : Z)
    (o : DingTalkRobotOutbox) : DingTalkRobotOutbox :=
  o <| binding_id := ImInstallationBinding.id b |>
    <| recipient_user_id := ImInboxMessage.subject_user_id m |>
    <| recipient_sender_id := ImInboxMessage.sender_id m |>
    <| conversation_type := ImInboxMessage.conversation_type m |>
    <| recipient_conversation_id :=
         if bool_decide (ImInboxMessage.conversation_type m = "group")
         then Some (ImInboxMessage.conversation_id m) else None |>
    <| audience_id := ImGroupAudience.id <$> audience |>
    <| audience_member_fingerprint := ImGroupAudience.member_fingerprint <$> audience |>
    <| delivery_mode := mode |> <| answer_classification := Some classification |>
    <| connector_id := Connector.id c |> <| capability_version_id := version |>
    <| connector_fingerprint := fingerprint_of c |> <| content_fingerprint := content |>
    <| status := DingTalkOutboxStatus.QUEUED |> <| blocked_reason := None |>
    <| last_error_code := None |> <| next_attempt_at := Some now |> <| lease_expires_at := None |>.
End Row.

(** [_set_last_error]: a transport reason as a code of the error catalogue. *)
Definition mapped_error (value : string) : string :=
  let eq v := bool_decide (value = v) in
  if eq "delivery_lease_expired" then "im_delivery_receipt_conflict"
  else if eq "delivery_preconditions_changed" then "im_delivery_lineage_changed"
  else if eq "delivery_retry_exhausted" then "dependency_failed"
  else if eq "delivery_answer_or_access_missing" then "im_delivery_answer_missing"
  else if eq "delivery_configuration_missing" then "credential_unavailable"
  else if eq "group_audience_denied" then "im_delivery_denied"
  else if eq "reconciliation_unavailable" || eq "reconciliation_response_invalid" ||
          eq "reconciliation_status_unknown" then "im_delivery_receipt_conflict"
  else if eq "capability_rate_limited" then "capability_rate_limited"
  else if eq "authorization_fence_unavailable" then "authorization_fence_unavailable"
  else if eq "connector_grant_missing" then "connector_grant_missing"
  else if eq "credential_unavailable" then "credential_unavailable"
  else if eq "capability_unavailable" then "dependency_failed"
  else if eq "delivery_configuration_invalid" then "connector_egress_invalid"
  else if eq "delivery_not_authorized" then "im_delivery_denied"
  else if eq "delivery_gateway_unavailable" then "dependency_failed"
  else if eq "delivery_precondition_failed" then "im_delivery_lineage_changed"
  else if eq "unverified_send_response" then "im_delivery_receipt_conflict"
  else if eq "recipient_rejected" then "im_delivery_denied"
  else if eq "credential_in_text" then "inline_secret_denied"
  else if eq "authentication_failed" then "credential_unavailable"
  else "dependency_failed".

Definition _retry_delay (attempts : Z) : Z := Z.min 300 (5 * 2 ^ Z.min (Z.max (attempts - 1) 0) 5).

(** The last instant of the year 9999, in milliseconds. *)
Definition max_millis : Z := 253402300799999.

Definition _millis_to_datetime (value : option Z) : option Z :=
  match value with
  | Some v => if (v <=? 0)%Z || (max_millis <? v)%Z then None else Some (v * 1000)%Z
  | None => None
  end.

(** [ORDER BY column]: PostgreSQL puts nulls last, SQLite first. *)
Definition le_nullable `{Environment} (x y : option Z) : bool :=
  match x, y with
  | Some a, Some b => (a <=? b)%Z
  | None, None => true
  | None, Some _ => bool_decide (dialect = "sqlite")
  | Some _, None => negb (bool_decide (dialect = "sqlite"))
  end.

(** [ORDER BY first, second] *)
Definition then_by {A} (first second : A → A → bool) (x y : A) : bool :=
  if first x y && first y x then second x y else first x y.

(** The constraints of the table that a row built by the service can violate. *)
Definition outbox_constraints (o : DingTalkRobotOutbox) : bool :=
  existsb (λ c, negb (bool_decide (c = " "%char))) (chars (DingTalkRobotOutbox.recipient_sender_id o)) &&
  match DingTalkRobotOutbox.answer_classification o with
  | Some c => bool_decide (is_Some (_CLASSIFICATION_RANK c)) | None => true end &&
  (bool_decide (DingTalkRobotOutbox.conversation_type o = "direct") &&
     bool_decide (DingTalkRobotOutbox.audience_id o = None) &&
     bool_decide (DingTalkRobotOutbox.recipient_conversation_id o = None) &&
     bool_decide (DingTalkRobotOutbox.delivery_mode o = "FINAL") ||
   bool_decide (DingTalkRobotOutbox.conversation_type o = "group") &&
     bool_decide (is_Some (DingTalkRobotOutbox.audience_id o)) &&
     bool_decide (is_Some (DingTalkRobotOutbox.recipient_conversation_id o)) &&
     bool_decide (is_Some (DingTalkRobotOutbox.audience_member_fingerprint o)) &&
     bool_decide (DingTalkRobotOutbox.delivery_mode o ∈ ["FINAL"; "STATUS"])).

(** ** Reading *)

(** The rows one delivery depends on, joined from its inbox message. *)
Record Lineage : Type := MkLineage {
  line_inbox : ImInboxMessage;
  line_run : Run;
  line_installation : ImInstallation;
  line_binding : ImInstallationBinding;
  line_connector : Connector
}.

Definition lineage_of (s : OutboxDb) (m : ImInboxMessage) : option Lineage :=
  run_id ← ImInboxMessage.run_id m;
  run ← row_by Run.id (runs (core s)) run_id;
  installation ← row_by ImInstallation.id (installations (im s)) (ImInboxMessage.installation_id m);
  binding ← row_by ImInstallationBinding.id (bindings (im s)) (ImInboxMessage.binding_id m);
  connector_id ← ImInstallation.connector_id installation;
  connector ← row_by Connector.id (connectors (catalog s)) connector_id;
  Some (MkLineage m run installation binding connector).

(** The lineage of a stored delivery, while it is still the one recorded and its Run is
    completed. *)
Definition delivery_lineage (s : OutboxDb) (o : DingTalkRobotOutbox) : option Lineage :=
  m ← row_by ImInboxMessage.id (inbox (im s)) (DingTalkRobotOutbox.inbox_message_id o);
  l ← lineage_of s m;
  if bool_decide (ImInboxMessage.organization_id m = DingTalkRobotOutbox.organization_id o) &&
     bool_decide (Run.id (line_run l) = DingTalkRobotOutbox.run_id o) &&
     bool_decide (Run.status (line_run l) = RunStatus.COMPLETED) &&
     bool_decide (ImInstallation.id (line_installation l) = DingTalkRobotOutbox.installation_id o) &&
     bool_decide (ImInstallationBinding.id (line_binding l) = DingTalkRobotOutbox.binding_id o) &&
     bool_decide (Connector.id (line_connector l) = DingTalkRobotOutbox.connector_id o)
  then Some l else None.

(** The active audiences of a conversation. *)
Definition active_audiences (s : OutboxDb) (org installation_id : uuid) (conversation_id : string) :
    list ImGroupAudience :=
  select (λ a, bool_decide (ImGroupAudience.organization_id a = org) &&
               bool_decide (ImGroupAudience.installation_id a = installation_id) &&
               bool_decide (ImGroupAudience.conversation_id a = conversation_id) &&
               bool_decide (ImGroupAudience.status a = "ACTIVE")) (audiences (im s)).

Definition workspace_id_of_run (s : OutboxDb) (org : uuid) (r : Run) : option uuid :=
  turn ← turns (directory (core s)) !! Run.turn_id r;
  thread ← threads (directory (core s)) !! Turn.thread_id turn;
  if bool_decide (Thread.organization_id thread = org) then Some (Thread.workspace_id thread) else None.

(** The members of a workspace and its owner. *)
Definition workspace_people (s : OutboxDb) (org workspace_id : uuid) : gset uuid :=
  let members := filter (λ m, WorkspaceMember.organization_id m = org ∧
                              WorkspaceMember.workspace_id m = workspace_id)
                   (workspace_members (directory (core s))) in
  list_to_set (WorkspaceMember.user_id <$> members) ∪
  match row_by Workspace.id (workspaces (directory (core s))) workspace_id with
  | Some w => if bool_decide (Workspace.organization_id w = org) then {[ Workspace.owner_id w ]} else ∅
  | None => ∅
  end.

(** [{UUID(str(value)) for value in audience.member_user_ids}], if all of them parse. *)
Definition configured_members (a : ImGroupAudience) : option (gset uuid) :=
  list_to_set <$> mapM (λ v, parse_uuid (py_str v)) (ImGroupAudience.member_user_ids a).

(** What both group checks ask of an audience at a time [now]. *)
Definition audience_holds (s : OutboxDb) (org : uuid) (r : Run) (p : Principal) (a : ImGroupAudience) :
    option (gset uuid) :=
  members ← configured_members a;
  if bool_decide (Principal.id p ∈ members) &&
     bool_decide (workspace_id_of_run s org r = Some (ImGroupAudience.workspace_id a)) &&
     bool_decide (members ⊆ workspace_people s org (ImGroupAudience.workspace_id a))
  then Some members else None.

(** The nonempty answer of a Run and its classification. *)
Definition answer_text (content : dict) : option string :=
  let usable v := match v with
                  | Some (VStr s) => if truthy (strip s) then Some (strip s) else None
                  | _ => None
                  end in
  match usable (dget "markdown" content) with
  | Some s => Some s
  | None => usable (dget "text" content)
  end.

Definition answer_artifact (s : OutboxDb) (org run_id : uuid) : option Artifact :=
  head (order_by (λ a b, (Artifact.created_at b <=? Artifact.created_at a)%Z)
    (select (λ a, bool_decide (Artifact.organization_id a = org) &&
                  bool_decide (Artifact.run_id a = Some run_id) &&
                  bool_decide (Artifact.kind a = ArtifactKind.TEXT) &&
                  bool_decide (Artifact.title a = "Obsion answer")) (artifacts (im s)))).

Definition _answer_for_run_metadata (org run_id : uuid) : Py OutboxDb (string * string) :=
  artifact ← gets (λ s, answer_artifact s org run_id);
  match Artifact.inline_content <$> artifact, Artifact.classification <$> artifact with
  | Some (VDict content), Some c =>
      match answer_text content with
      | Some text =>
          if bool_decide (is_Some (_CLASSIFICATION_RANK (value_of c))) then mret (text, value_of c)
          else value_error
      | None => value_error
      end
  | _, _ => value_error
  end.

(** The newest version of the reply capability bound to a connector. *)
Definition _bound_capability_version (s : OutboxDb) (org connector_id : uuid) (environment : string) :
    option uuid :=
  let bound b :=
    v ← capability_versions (catalog s) !! CapabilityBinding.capability_version_id b;
    d ← capability_definitions (catalog s) !! CapabilityVersion.capability_id v;
    if bool_decide (CapabilityDefinition.organization_id d = org) &&
       bool_decide (CapabilityDefinition.name d = _CAPABILITY) &&
       bool_decide (CapabilityDefinition.status d = RegistryStatus.ACTIVE) &&
       bool_decide (CapabilityVersion.organization_id v = org) &&
       bool_decide (CapabilityVersion.risk_level v = RiskLevel.L2) &&
       bool_decide (CapabilityVersion.side_effect v = SideEffect.WRITE) &&
       bool_decide (CapabilityVersion.permission_action v = "im.reply.deliver") &&
       bool_decide (CapabilityBinding.organization_id b = org) &&
       bool_decide (CapabilityBinding.connector_id b = connector_id) &&
       bool_decide (CapabilityBinding.environment b = environment) &&
       CapabilityBinding.enabled b
    then Some v else None in
  CapabilityVersion.id <$> head (order_by
    (λ v v', (CapabilityVersion.version v' <=? CapabilityVersion.version v)%Z)
    (omap bound (rows (capability_bindings (catalog s))))).

Section Service.
Context `{Environment, EventContracts, JsonEncoder, ActionPlatform, RobotVendor,
  RateLimiter (gmap string Window), PublicationGuard, OutboxSettings}.

(** ** The robot's public identity *)

Definition _configured_identity (c : Connector) (key : string) (fallback : option string) : string :=
  match dget_or (key +:+ "_env") VNone (Connector.configuration c) with
  | VNone =>
      match dget key (Connector.configuration c) with
      | Some (VStr s) => strip s
      | Some _ => ""
      | None => strip (default "" fallback)
      end
  | VStr name => if env_name name then strip (default "" (environ name)) else ""
  | _ => ""
  end.

Definition _app_key (c : Connector) (i : ImInstallation) : string :=
  _configured_identity c "app_key" (ImInstallation.external_app_id i).

Definition _robot_code (c : Connector) (i : ImInstallation) : string :=
  _configured_identity c "robot_code" (Some (_app_key c i)).

Definition _queue_is_ready (m : ImInboxMessage) (i : ImInstallation) (b : ImInstallationBinding)
    (c : Connector) (capability_version_id : option uuid) : bool :=
  bool_decide (ImInboxMessage.conversation_type m ∈ ["direct"; "group"]) &&
  bool_decide (ImInstallation.provider i = Some "dingtalk") &&
  bool_decide (ImInstallation.status i = Some "ACTIVE") &&
  ImInstallationBinding.active b &&
  bool_decide (ImInstallationBinding.id b = ImInboxMessage.binding_id m) &&
  bool_decide (ImInstallationBinding.user_id b = ImInboxMessage.subject_user_id m) &&
  bool_decide (ImInstallationBinding.sender_id b = ImInboxMessage.sender_id m) &&
  bool_decide (Connector.status c = ConnectorStatus.ACTIVE) &&
  bool_decide (Connector.connector_type c = "dingtalk-robot") &&
  bool_decide (dget "protocol" (Connector.configuration c) = Some (VStr _PROTOCOL)) &&
  bool_decide (is_Some capability_version_id) &&
  truthy (strip (_app_key c i)) &&
  truthy (strip (_robot_code c i)).

(** ** Writing *)

(** Assign columns of a loaded row: the object and the table change together. *)
Definition assign (f : DingTalkRobotOutbox → DingTalkRobotOutbox) (o : DingTalkRobotOutbox) :
    Py OutboxDb DingTalkRobotOutbox :=
  update_outbox (DingTalkRobotOutbox.id o) f;;
  mret (f o).

(** [updated_at] has [onupdate=func.now()]. *)
Definition touch (o : DingTalkRobotOutbox) : Py OutboxDb DingTalkRobotOutbox :=
  now ← in_kernel utc_now;
  assign (Row.with_updated now) o.

Definition _set_last_error (value : option string) : DingTalkRobotOutbox → Py OutboxDb DingTalkRobotOutbox :=
  assign (Row.with_last_error (mapped_error <$> value)).

(** [_audit], whose [metadata] is merged over the common entries. *)
Definition outbox_audit (o : DingTalkRobotOutbox) (outcome : string) (metadata : list (string * obj)) :
    Py OutboxDb unit :=
  in_kernel (write ((audit_draft (DingTalkRobotOutbox.organization_id o) (DingTalkRobotOutbox.run_id o)
      ActorType.SYSTEM None "im.dingtalk.outbox.dispatch" "dingtalk_robot_outbox" outcome)
    <| AuditDraft.resource_id := Some (uuid_str (DingTalkRobotOutbox.id o)) |>
    <| AuditDraft.metadata :=
         ([("installation_id", OStr (uuid_str (DingTalkRobotOutbox.installation_id o)));
           ("status", OEnum (value_of (DingTalkRobotOutbox.status o)));
           ("attempt_count", OInt (DingTalkRobotOutbox.attempt_count o));
           ("fencing_token", OInt (DingTalkRobotOutbox.fencing_token o));
           ("blocked_reason", opt_text (DingTalkRobotOutbox.blocked_reason o));
           ("last_error_code", opt_text (DingTalkRobotOutbox.last_error_code o))] ++ metadata)%list |>));;
  mret ().

Definition _block (reason : string) (error_code : option string) (o : DingTalkRobotOutbox) :
    Py OutboxDb DingTalkRobotOutbox :=
  let code := match error_code with Some c => if truthy c then c else reason | None => reason end in
  o ← assign (Row.with_block reason (Some (mapped_error code))) o;
  outbox_audit o "BLOCKED" [];;
  mret o.

(** [except (AuthorizationError, NotFoundError, ValueError)] *)
Definition denied (e : exn) : bool :=
  match e with
  | ObsionError _ _ _ _ => is_authorization e || is_not_found e
  | PyError class => bool_decide (class = "ValueError")
  end.

(** ** Group audiences *)

(** [load_principal_by_id] and the publication check of one member; a member who is not
    provisioned is not permitted. *)
Definition member_permitted (org run_id : uuid) (corp_id : string) (member_id : uuid) : Py OutboxDb bool :=
  try_catch
    (member ← in_kernel (load_principal_by_id org member_id);
     in_kernel (check_publication member run_id "im_group_delivery" (Some corp_id) true))
    (λ e, if is_authorization e || is_not_found e then Some (mret false) else None).

(** [for member_id in sorted(configured_members): ...; if not permitted: break] *)
Fixpoint all_permitted (org run_id : uuid) (corp_id : string) (members : list uuid) : Py OutboxDb bool :=
  match members with
  | [] => mret true
  | member_id :: rest =>
      permitted ← member_permitted org run_id corp_id member_id;
      if permitted : bool then all_permitted org run_id corp_id rest else mret false
  end.

Definition classification_permitted (a : ImGroupAudience) (classification : string) : bool :=
  ImGroupAudience.allow_final_answer a &&
  match _CLASSIFICATION_RANK classification, _CLASSIFICATION_RANK (ImGroupAudience.max_classification a) with
  | Some rank, Some most => (rank <=? most)%nat
  | _, _ => false
  end.

Definition external_corp (s : OutboxDb) (org installation_id : uuid) : string :=
  match row_by ImInstallation.id (installations (im s)) installation_id with
  | Some i => if bool_decide (ImInstallation.organization_id i = org)
              then default "" (ImInstallation.external_corp_id i) else ""
  | None => ""
  end.

Definition _group_delivery (r : Run) (m : ImInboxMessage) (p : Principal) (text classification : string) :
    Py OutboxDb (option (ImGroupAudience * string * string)) :=
  let org := Run.organization_id r in
  s ← gets (λ s, s);
  match head (active_audiences s org (ImInboxMessage.installation_id m) (ImInboxMessage.conversation_id m)) with
  | None => mret None
  | Some a =>
      now ← in_kernel utc_now;
      if (ImGroupAudience.verified_until a <=? now)%Z then mret None
      else
        match audience_holds s org r p a with
        | None => mret None
        | Some members =>
            permitted ←
              (if classification_permitted a classification
               then all_permitted org (Run.id r) (external_corp s org (ImInboxMessage.installation_id m))
                      (order_by N.leb (elements members))
               else mret false);
            if permitted : bool then mret (Some (a, "FINAL", text))
            else if ImGroupAudience.allow_status a then mret (Some (a, "STATUS", _SAFE_GROUP_STATUS))
            else mret None
        end
  end.

Definition _load_group_audience_for_delivery (o : DingTalkRobotOutbox) (m : ImInboxMessage) (r : Run)
    (p : Principal) : Py OutboxDb (option ImGroupAudience) :=
  let org := DingTalkRobotOutbox.organization_id o in
  if negb (bool_decide (ImInboxMessage.conversation_type m = "group")) ||
     bool_decide (DingTalkRobotOutbox.audience_id o = None) ||
     negb (bool_decide (DingTalkRobotOutbox.recipient_conversation_id o = Some (ImInboxMessage.conversation_id m)))
  then mret None
  else
    s ← gets (λ s, s);
    match find (λ a, bool_decide (Some (ImGroupAudience.id a) = DingTalkRobotOutbox.audience_id o))
            (active_audiences s org (DingTalkRobotOutbox.installation_id o) (ImInboxMessage.conversation_id m)) with
    | None => mret None
    | Some a =>
        now ← in_kernel utc_now;
        if (ImGroupAudience.verified_until a <=? now)%Z then mret None
        else if negb (bool_decide (Some (ImGroupAudience.member_fingerprint a) =
                                   DingTalkRobotOutbox.audience_member_fingerprint o)) then mret None
        else
          match audience_holds s org r p a with
          | None => mret None
          | Some _ => mret (Some a)
          end
    end.

(** ** Enqueueing *)

(** Insert a new row: one per Run and per inbox message. *)
Definition insert_outbox (o : DingTalkRobotOutbox) : Py OutboxDb unit :=
  clash ← gets (λ s, existsb (λ o', bool_decide (DingTalkRobotOutbox.run_id o' = DingTalkRobotOutbox.run_id o) ||
                                    bool_decide (DingTalkRobotOutbox.inbox_message_id o' =
                                                 DingTalkRobotOutbox.inbox_message_id o)) (rows (outbox s)) ||
                     bool_decide (is_Some (outbox s !! DingTalkRobotOutbox.id o)));
  raise_if (clash || negb (outbox_constraints o)) (PyError "IntegrityError");;
  modify (λ s, MkOutboxDb (core s) (catalog s) (im s) (insert (DingTalkRobotOutbox.id o) o (outbox s))
                 (vendor s) (limits s)).

Definition _prepare_queue (l : Lineage) (o : DingTalkRobotOutbox) : Py OutboxDb DingTalkRobotOutbox :=
  let '(MkLineage m r i b c) := l in
  let org := Run.organization_id r in
  inputs ← try_catch
    (answer ← _answer_for_run_metadata org (Run.id r);
     principal ← in_kernel (load_principal_by_id org (ImInboxMessage.subject_user_id m));
     in_kernel (require_run_content principal (Run.id r) false
      (Some (default "" (ImInstallation.external_corp_id i))));;
     mret (Some (answer, principal)))
    (λ e, if denied e then Some (mret None) else None);
  match inputs with
  | None => _block "delivery_answer_or_access_missing" None o
  | Some ((text, classification), principal) =>
      delivery ←
        (if bool_decide (ImInboxMessage.conversation_type m = "group") then
           group ← _group_delivery r m principal text classification;
           mret ((λ '(a, mode, text'), (Some a, mode, text')) <$> group)
         else mret (Some (None, "FINAL", text)));
      match delivery with
      | None => _block "group_audience_denied" None o
      | Some (audience, mode, content) =>
          s ← gets (λ s, s);
          let version := _bound_capability_version s org (Connector.id c) (Connector.environment c) in
          if negb (_queue_is_ready m i b c version) then _block "delivery_configuration_missing" None o
          else
            now ← in_kernel utc_now;
            o ← assign (Row.with_queue m b audience mode classification c version (sha256 content) now) o;
            outbox_audit o "QUEUED" [];;
            mret o
      end
  end.

(** An inbox message whose Run is to be delivered, with its outbox row, if it has one,
    and an active audience of its conversation. *)
Record Candidate : Type := MkCandidate {
  candidate_line : Lineage;
  candidate_outbox : option DingTalkRobotOutbox;
  candidate_audience : option ImGroupAudience
}.

(** [LEFT OUTER JOIN] *)
Definition outer {A} (l : list A) : list (option A) :=
  match l with [] => [None] | _ => Some <$> l end.

Definition deliverable (c : Candidate) : bool :=
  let m := line_inbox (candidate_line c) in
  bool_decide (ImInstallation.provider (line_installation (candidate_line c)) = Some "dingtalk") &&
  bool_decide (Run.status (line_run (candidate_line c)) = RunStatus.COMPLETED) &&
  (bool_decide (ImInboxMessage.conversation_type m = "direct") ||
   bool_decide (ImInboxMessage.conversation_type m = "group") && bool_decide (is_Some (candidate_audience c))) &&
  match candidate_outbox c with
  | None => true
  | Some o =>
      bool_decide (DingTalkRobotOutbox.status o = DingTalkOutboxStatus.BLOCKED) &&
      match DingTalkRobotOutbox.blocked_reason o with
      | Some reason => negb (bool_decide (reason = "delivery_retry_exhausted"))
      | None => false
      end
  end.

Definition candidates (s : OutboxDb) : list Candidate :=
  filter deliverable
    (m ← rows (inbox (im s));
     match lineage_of s m with
     | None => []
     | Some l =>
         o ← outer (select (λ o, bool_decide (DingTalkRobotOutbox.run_id o = Run.id (line_run l))) (outbox s));
         a ← outer (active_audiences s (ImInboxMessage.organization_id m) (ImInboxMessage.installation_id m)
                      (ImInboxMessage.conversation_id m));
         [MkCandidate l o a]
     end).

(** [FOR UPDATE ... SKIP LOCKED]: [locked] are the rows other transactions hold. *)
Definition next_candidate (locked : gset uuid) (s : OutboxDb) : option Candidate :=
  head (order_by
    (then_by (λ c c', le_nullable (Run.completed_at (line_run (candidate_line c)))
                        (Run.completed_at (line_run (candidate_line c'))))
       (λ c c', (ImInboxMessage.created_at (line_inbox (candidate_line c)) <=?
                 ImInboxMessage.created_at (line_inbox (candidate_line c')))%Z))
    (filter (λ c, ImInboxMessage.id (line_inbox (candidate_line c)) ∉ locked) (candidates s))).

(** The row as it is first inserted. *)
Definition new_outbox (id : uuid) (now : Z) (l : Lineage) (audience : option ImGroupAudience) :
    DingTalkRobotOutbox :=
  let '(MkLineage m r i b c) := l in
  DingTalkRobotOutbox.Make id (ImInboxMessage.organization_id m) (ImInstallation.id i) (ImInboxMessage.id m)
    (ImInstallationBinding.id b) (Run.id r) (ImInboxMessage.subject_user_id m) (ImInboxMessage.sender_id m)
    (ImInboxMessage.conversation_type m)
    (if bool_decide (ImInboxMessage.conversation_type m = "group")
     then Some (ImInboxMessage.conversation_id m) else None)
    (ImGroupAudience.id <$> audience) (ImGroupAudience.member_fingerprint <$> audience) "FINAL" None
    (Connector.id c) None (fingerprint_of c) _FALLBACK_FINGERPRINT DingTalkOutboxStatus.BLOCKED 0 0
    None None None None None None None 0 None None None now now.

Definition enqueue_next (locked : gset uuid) : Py OutboxDb (option DingTalkRobotOutbox) :=
  candidate ← gets (next_candidate locked);
  match candidate with
  | None => mret None
  | Some c =>
      item ←
        match candidate_outbox c with
        | Some o => mret (Some o)
        | None =>
            id ← in_kernel new_id;
            now ← in_kernel utc_now;
            let o := new_outbox id now (candidate_line c) (candidate_audience c) in
            try_catch (insert_outbox o;; mret (Some o))
              (λ e, match e with
                    | PyError class => if bool_decide (class = "IntegrityError") then Some (mret None) else None
                    | ObsionError _ _ _ _ => None
                    end)
        end;
      match item with
      | None => mret None
      | Some o =>
          o ← _prepare_queue (candidate_line c) o;
          o ← touch o;
          mret (Some o)
      end
  end.

(** ** Claims *)

(** The rows a sweep looks at, oldest lease first. *)
Definition expired (now : Z) (o : DingTalkRobotOutbox) : bool :=
  bool_decide (DingTalkRobotOutbox.status o = DingTalkOutboxStatus.DISPATCHING) &&
  match DingTalkRobotOutbox.lease_expires_at o with Some t => (t <? now)%Z | None => false end.

Definition expired_rows (locked : gset uuid) (now : Z) (s : OutboxDb) : list DingTalkRobotOutbox :=
  take 100 (order_by (λ o o', le_nullable (DingTalkRobotOutbox.lease_expires_at o)
                                (DingTalkRobotOutbox.lease_expires_at o'))
    (filter (λ o, DingTalkRobotOutbox.id o ∉ locked) (select (expired now) (outbox s)))).

Definition expire_claim (o : DingTalkRobotOutbox) : Py OutboxDb unit :=
  o ← assign Row.with_expired_claim o;
  o ← _set_last_error (Some "delivery_lease_expired") o;
  outbox_audit o "UNKNOWN" [];;
  touch o;;
  mret ().

Definition expire_claims (locked : gset uuid) : Py OutboxDb Z :=
  now ← in_kernel utc_now;
  found ← gets (expired_rows locked now);
  for_each found expire_claim;;
  mret (Z.of_nat (length found)).

Definition due (now : Z) (o : DingTalkRobotOutbox) : bool :=
  bool_decide (DingTalkRobotOutbox.status o = DingTalkOutboxStatus.QUEUED) &&
  match DingTalkRobotOutbox.next_attempt_at o with Some t => (t <=? now)%Z | None => false end.

Definition next_due (locked : gset uuid) (now : Z) (s : OutboxDb) : option DingTalkRobotOutbox :=
  head (order_by
    (then_by (λ o o', le_nullable (DingTalkRobotOutbox.next_attempt_at o) (DingTalkRobotOutbox.next_attempt_at o'))
       (λ o o', (DingTalkRobotOutbox.created_at o <=? DingTalkRobotOutbox.created_at o')%Z))
    (filter (λ o, DingTalkRobotOutbox.id o ∉ locked) (select (due now) (outbox s)))).

Definition claim_next (locked : gset uuid) : Py OutboxDb (option OutboxClaim) :=
  now ← in_kernel utc_now;
  found ← gets (next_due locked now);
  match found with
  | None => mret None
  | Some o =>
      o ← assign (Row.with_claim (now + lease_seconds * second)) o;
      o ← _set_last_error None o;
      outbox_audit o "DISPATCHING" [];;
      o ← touch o;
      mret (Some (MkClaim (DingTalkRobotOutbox.id o) (DingTalkRobotOutbox.fencing_token o)))
  end.

Definition reconcilable (before : Z) (outbox_id organization_id : option uuid) (o : DingTalkRobotOutbox) : bool :=
  let asked x wanted := match wanted with Some w => bool_decide (x = w) | None => true end in
  bool_decide (DingTalkRobotOutbox.status o = DingTalkOutboxStatus.ACCEPTED) &&
  bool_decide (is_Some (DingTalkRobotOutbox.accepted_process_query_key o)) &&
  (DingTalkRobotOutbox.reconciliation_attempt_count o <? max_reconciliation_attempts)%Z &&
  match DingTalkRobotOutbox.last_reconciled_at o with Some t => (t <=? before)%Z | None => true end &&
  asked (DingTalkRobotOutbox.id o) outbox_id && asked (DingTalkRobotOutbox.organization_id o) organization_id.

Definition next_reconcilable (locked : gset uuid) (before : Z) (outbox_id organization_id : option uuid)
    (s : OutboxDb) : option DingTalkRobotOutbox :=
  head (order_by
    (then_by (λ o o', le_nullable (DingTalkRobotOutbox.last_reconciled_at o) (DingTalkRobotOutbox.last_reconciled_at o'))
       (λ o o', (DingTalkRobotOutbox.created_at o <=? DingTalkRobotOutbox.created_at o')%Z))
    (filter (λ o, DingTalkRobotOutbox.id o ∉ locked)
       (select (reconcilable before outbox_id organization_id) (outbox s)))).

Definition claim_reconciliation (locked : gset uuid) (outbox_id organization_id : option uuid) :
    Py OutboxDb (option OutboxReconciliationClaim) :=
  now ← in_kernel utc_now;
  found ← gets (next_reconcilable locked (now - lease_seconds * second) outbox_id organization_id);
  match found with
  | None => mret None
  | Some o =>
      reconciled_at ← in_kernel utc_now;
      o ← assign (Row.with_reconciliation_claim reconciled_at) o;
      o ← touch o;
      mret (Some (MkReconciliationClaim (DingTalkRobotOutbox.id o)
                    (DingTalkRobotOutbox.reconciliation_attempt_count o)))
  end.
End Service.
