(* ===== verification/OutboxDispatch.v ===== *)
(** * Dispatching and reconciling a claimed delivery
      ([application/dingtalk_outbox.py], [application/dingtalk_outbox_worker.py])

    A claim is checked against the row, and everything the delivery depends on is checked
    again, before the gateway is asked; the transport asks a last time before the message
    leaves.  [DingTalkOutboxWorker] runs one round of the service's operations, each in a
    transaction of its own. *)

From S2P Require Import Prelude PyText PyVal Enums Models Kernel CanonicalJson Events EventLog.
From S2P Require Import Identity Policy RateLimit ActionState ActionGateway RobotTransport.
From S2P Require Import RobotGateway OutboxService.

(** What [_dispatch_inputs] answers. *)
Record DispatchInputs : Type := MkInputs {
  input_line : Lineage;
  input_text : string;
  input_version : uuid;
  input_principal : Principal
}.

Section Dispatch.
Context `{Environment, EventContracts, JsonEncoder, ActionPlatform, RobotVendor,
  RateLimiter (gmap string Window), PublicationGuard, OutboxSettings}.

(** The lineage of a delivery whose configuration is still the one it was queued with. *)
Definition current_lineage (s : OutboxDb) (o : DingTalkRobotOutbox) : option (Lineage * uuid) :=
  l ← delivery_lineage s o;
  version ← DingTalkRobotOutbox.capability_version_id o;
  if _queue_is_ready (line_inbox l) (line_installation l) (line_binding l) (line_connector l) (Some version) &&
     bool_decide (fingerprint_of (line_connector l) = DingTalkRobotOutbox.connector_fingerprint o)
  then Some (l, version) else None.

(** The text to deliver, when it is still the text that was queued. *)
Definition current_text (o : DingTalkRobotOutbox) (l : Lineage) : Py OutboxDb (option string) :=
  let org := DingTalkRobotOutbox.organization_id o in
  let m := line_inbox l in
  answer ← _answer_for_run_metadata org (Run.id (line_run l));
  let '(text, classification) := answer in
  delivered ←
    (if bool_decide (ImInboxMessage.conversation_type m = "group") then
       principal ← in_kernel (load_principal_by_id org (DingTalkRobotOutbox.recipient_user_id o));
       group ← _group_delivery (line_run l) m principal text classification;
       match group with
       | None => mret None
       | Some (a, mode, text') =>
           if negb (bool_decide (DingTalkRobotOutbox.audience_id o = Some (ImGroupAudience.id a))) ||
              negb (bool_decide (DingTalkRobotOutbox.audience_member_fingerprint o =
                                 Some (ImGroupAudience.member_fingerprint a))) ||
              negb (bool_decide (DingTalkRobotOutbox.delivery_mode o = mode)) ||
              negb (bool_decide (DingTalkRobotOutbox.recipient_conversation_id o =
                                 Some (ImInboxMessage.conversation_id m)))
           then mret None else mret (Some text')
       end
     else mret (Some text));
  match delivered with
  | None => mret None
  | Some content =>
      if negb (bool_decide (sha256 content = DingTalkRobotOutbox.content_fingerprint o)) ||
         negb (bool_decide (DingTalkRobotOutbox.answer_classification o = Some classification))
      then mret None else mret (Some content)
  end.

Definition _dispatch_inputs (o : DingTalkRobotOutbox) : Py OutboxDb (option DispatchInputs) :=
  s ← gets (λ s, s);
  match current_lineage s o with
  | None => mret None
  | Some (l, version) =>
      try_catch
        (text ← current_text o l;
         match text with
         | None => mret None
         | Some text =>
             principal ← in_kernel (load_principal_by_id (DingTalkRobotOutbox.organization_id o)
                                      (DingTalkRobotOutbox.recipient_user_id o));
             in_kernel (require_run_content principal (Run.id (line_run l)) false
      (Some (default "" (ImInstallation.external_corp_id (line_installation l)))));;
             mret (Some (MkInputs l text version principal))
         end)
        (λ e, if denied e then Some (mret None) else None)
  end.

(** The closure the transport calls after the token and before the message. *)
Definition authorize_send (o : DingTalkRobotOutbox) (text : string) : Py OutboxDb bool :=
  match DingTalkRobotOutbox.lease_expires_at o with
  | None => mret false
  | Some lease =>
      now ← in_kernel utc_now;
      if (lease <=? now)%Z then mret false
      else
        current ← _dispatch_inputs o;
        mret (bool_decide (input_text <$> current = Some text))
  end.

Definition delivery_of (o : DingTalkRobotOutbox) (l : Lineage) (sender : string) (version : uuid)
    (principal : Principal) : Delivery :=
  let c := line_connector l in
  let i := line_installation l in
  Delivery.Make principal (DingTalkRobotOutbox.run_id o) (DingTalkRobotOutbox.id o) (ImInstallation.id i)
    sender (_app_key c i) (_robot_code c i) (Connector.id c) (DingTalkRobotOutbox.connector_fingerprint o)
    (Connector.environment c) version (DingTalkRobotOutbox.conversation_type o)
    (DingTalkRobotOutbox.recipient_conversation_id o).

(** The [if state == ...] of [dispatch]. *)
Definition settle (sent : RobotSendResult) (o : DingTalkRobotOutbox) : Py OutboxDb DingTalkRobotOutbox :=
  let reason := RobotSendResult.reason sent in
  let finish o := outbox_audit o (value_of (DingTalkRobotOutbox.status o)) [];; mret o in
  match RobotSendResult.state sent with
  | RobotSendState.ACCEPTED =>
      o ← assign (Row.with_accepted (RobotSendResult.process_query_key sent)) o;
      o ← _set_last_error None o;
      finish o
  | RobotSendState.REJECTED =>
      o ← assign (Row.with_settled DingTalkOutboxStatus.REJECTED) o;
      o ← _set_last_error reason o;
      finish o
  | RobotSendState.UNKNOWN =>
      o ← assign (Row.with_settled DingTalkOutboxStatus.UNKNOWN) o;
      o ← _set_last_error reason o;
      finish o
  | RobotSendState.NOT_ATTEMPTED =>
      if (max_attempts <=? DingTalkRobotOutbox.attempt_count o)%Z
      then _block "delivery_retry_exhausted" reason o
      else
        now ← in_kernel utc_now;
        o ← assign (Row.with_retry (now + _retry_delay (DingTalkRobotOutbox.attempt_count o) * second)) o;
        o ← _set_last_error reason o;
        finish o
  end.

(** [except ObsionError as error: if error.code != ...: raise] *)
Definition fence_held (o : DingTalkRobotOutbox) : Py OutboxDb bool :=
  try_catch (in_kernel (acquire_source_publication_fence (DingTalkRobotOutbox.organization_id o));; mret true)
    (λ e, if bool_decide (error_code_of e = Some "authorization_fence_unavailable") then Some (mret false) else None).

(** The row a claim is still good for. *)
Definition claimed_row (c : OutboxClaim) (s : OutboxDb) : option DingTalkRobotOutbox :=
  o ← row_by DingTalkRobotOutbox.id (outbox s) (claim_outbox c);
  if bool_decide (DingTalkRobotOutbox.status o = DingTalkOutboxStatus.DISPATCHING) &&
     (DingTalkRobotOutbox.fencing_token o =? fencing_token c)%Z
  then Some o else None.

Definition dispatch (c : OutboxClaim) : Py OutboxDb (option DingTalkRobotOutbox) :=
  found ← gets (claimed_row c);
  match found with
  | None => mret None
  | Some o =>
      let answer o := o ← touch o; mret (Some o) in
      held ← fence_held o;
      if negb held then o ← _block "authorization_fence_unavailable" None o; answer o
      else
        inputs ← _dispatch_inputs o;
        match inputs with
        | None => o ← _block "delivery_preconditions_changed" None o; answer o
        | Some (MkInputs l text version principal) =>
            result ← invoke_dingtalk_robot_outbox
              (MkSend (delivery_of o l (ImInboxMessage.sender_id (line_inbox l)) version principal) text)
              (authorize_send o text);
            o ← assign (Row.with_policy_decision (send_policy_decision_id result)) o;
            o ← settle (send_result result) o;
            answer o
        end
  end.

(** ** Reconciliation *)

Definition _reconciliation_inputs (o : DingTalkRobotOutbox) :
    Py OutboxDb (option (Lineage * uuid * Principal)) :=
  s ← gets (λ s, s);
  match current_lineage s o with
  | None => mret None
  | Some (l, version) =>
      try_catch
        (principal ← in_kernel (load_principal_by_id (DingTalkRobotOutbox.organization_id o)
                                  (DingTalkRobotOutbox.recipient_user_id o));
         in_kernel (require_run_access principal (DingTalkRobotOutbox.run_id o) false);;
         if bool_decide (ImInboxMessage.conversation_type (line_inbox l) = "group") then
           audience ← _load_group_audience_for_delivery o (line_inbox l) (line_run l) principal;
           mret ((λ _, (l, version, principal)) <$> audience)
         else mret (Some (l, version, principal)))
        (λ e, if denied e then Some (mret None) else None)
  end.

(** The key of a delivery a reconciliation claim is still good for. *)
Definition reconciled_row (c : OutboxReconciliationClaim) (s : OutboxDb) : option (DingTalkRobotOutbox * string) :=
  o ← row_by DingTalkRobotOutbox.id (outbox s) (reconciled_outbox c);
  key ← DingTalkRobotOutbox.accepted_process_query_key o;
  if bool_decide (DingTalkRobotOutbox.status o = DingTalkOutboxStatus.ACCEPTED) &&
     (DingTalkRobotOutbox.reconciliation_attempt_count o =? attempt_count c)%Z && truthy key
  then Some (o, key) else None.

(** [reason or "reconciliation_status_unknown"] *)
Definition reconciliation_reason (q : RobotQueryResult) : string :=
  match RobotQueryResult.reason q with
  | Some r => if truthy r then r else "reconciliation_status_unknown"
  | None => "reconciliation_status_unknown"
  end.

Definition reconcile (c : OutboxReconciliationClaim) : Py OutboxDb (option DingTalkRobotOutbox) :=
  found ← gets (reconciled_row c);
  match found with
  | None => mret None
  | Some (o, key) =>
      inputs ← _reconciliation_inputs o;
      match inputs with
      | None =>
          o ← _set_last_error (Some "delivery_preconditions_changed") o;
          outbox_audit o "RECONCILIATION_BLOCKED" [];;
          o ← touch o;
          mret (Some o)
      | Some (l, version, principal) =>
          result ← reconcile_dingtalk_robot_outbox
            (MkQuery (delivery_of o l (DingTalkRobotOutbox.recipient_sender_id o) version principal) key);
          let query := query_result result in
          o ← assign (Row.with_receipt (query_policy_decision_id result) query
                        (_millis_to_datetime (RobotQueryResult.read_timestamp_ms query))) o;
          outcome ←
            match RobotQueryResult.state query with
            | RobotQueryState.SUCCESS =>
                o ← _set_last_error None o; mret (o, "RECONCILED")
            | RobotQueryState.FAILURE =>
                o ← assign Row.with_rejection o;
                o ← _set_last_error (Some "delivery_gateway_unavailable") o; mret (o, "RECONCILED_FAILURE")
            | RobotQueryState.UNKNOWN =>
                o ← _set_last_error (Some (reconciliation_reason query)) o; mret (o, "RECONCILIATION_UNKNOWN")
            end;
          let '(o, label) := outcome in
          outbox_audit o label
            [("operation", OStr "reconcile");
             ("vendor_send_status", opt_text (RobotQueryResult.send_status query));
             ("vendor_read_status", opt_text (RobotQueryResult.read_status query));
             ("reconciliation_reason", OStr (reconciliation_reason query))];;
          o ← touch o;
          mret (Some o)
      end
  end.

Definition list_for_admin (p : Principal) (limit : Z) : Py OutboxDb (list DingTalkRobotOutbox) :=
  raise_if (negb (can p "admin.read"))
    (AuthorizationError "admin_access_denied" "Administration access is not permitted" []);;
  gets (λ s, take (Z.to_nat (Z.min (Z.max limit 1) 100))
    (order_by (λ o o', (DingTalkRobotOutbox.updated_at o' <=? DingTalkRobotOutbox.updated_at o)%Z)
       (select (λ o, bool_decide (DingTalkRobotOutbox.organization_id o = Principal.organization_id p)) (outbox s)))).

(** ** The worker *)

Record Stats : Type := MkStats { queued : Z; dispatched : Z; reconciled : Z; unknown : Z; blocked : Z }.

(** [async with session.begin()]: what an exception leaves is rolled back; the rows other
    transactions have locked are skipped. *)
Definition run_once (locked : gset uuid) : Py OutboxDb Stats :=
  unknown ← savepoint (expire_claims locked);
  item ← savepoint (enqueue_next locked);
  let queued := match item with Some _ => 1 | None => 0 end%Z in
  claim ← savepoint (claim_next locked);
  sent ←
    match claim with
    | None => mret (0, 0)%Z
    | Some c =>
        item ← savepoint (dispatch c);
        mret (1, match item with
                 | Some o => if bool_decide (DingTalkRobotOutbox.status o = DingTalkOutboxStatus.BLOCKED)
                             then 1 else 0
                 | None => 0
                 end)%Z
    end;
  reconciliation_claim ← savepoint (claim_reconciliation locked None None);
  reconciled ←
    match reconciliation_claim with
    | None => mret 0%Z
    | Some c =>
        item ← savepoint (reconcile c);
        mret (match item with Some _ => 1 | None => 0 end)%Z
    end;
  mret (MkStats queued (fst sent) reconciled unknown (snd sent)).
End Dispatch.
