(* ===== verification/OutboxSample.v ===== *)
(** * One delivery, concretely

    A completed Run of a direct message, everything it needs to be delivered, and a
    vendor that accepts it. *)

From S2P Require Import Prelude PyText PyVal Enums Models Kernel CanonicalJson Events EventLog.
From S2P Require Import Identity Policy RateLimit ActionState ActionGateway RobotTransport.
From S2P Require Import RobotGateway OutboxService OutboxDispatch.

Module OutboxSample.

#[local] Existing Instance Sample.environment.

#[local] Instance contracts : EventContracts := {|
  payload_validators := map (λ name, ((name, 1%Z), λ _, []))
    ["policy.decided"; "tool.started"; "im.delivery.attempted"; "capability.rate_limited"];
  envelope_validator _ := [];
  error_code_registered _ := true
|}.
#[local] Instance encoder : JsonEncoder := λ _, inr VNone.
#[local] Instance platform : ActionPlatform := {|
  schema_violation _ _ := None;
  http_post _ _ := HttpRaised true;
  environ name := if bool_decide (name = "OBSION_ROBOT_SECRET") then Some "secret-7" else None
|}.
#[local] Instance robot : RobotVendor := λ _ q,
  VendorResponse 200 None 64 (Some (VDict
    (if bool_decide (request_path q = TOKEN_PATH)
     then [("accessToken", VStr "token-1"); ("expireIn", VInt 7200)]
     else [("processQueryKey", VStr "query-1")]))).
#[local] Instance limiter : RateLimiter (gmap string Window) := in_memory_limiter 60 60.
#[local] Program Instance guard : PublicationGuard := {|
  check_publication _ _ _ _ _ := mret true;
  source_fence _ _ := true
|}.
#[local] Instance settings : OutboxSettings := {| lease_seconds := 30; max_attempts := 3 |}.

Definition directory : Directory :=
  MkDirectory {[1%N := User.Make 1 10 "reader" "reader" None true []]} ∅
    {[3%N := Role.Make 3 10 "reader" [VStr "im.reply.deliver"]]} [UserRole.Make 10 1 3]
    {[20%N := Workspace.Make 20 10 1 Classification.INTERNAL Visibility.PRIVATE None "team" "" 0 0]} []
    {[30%N := Thread.Make 30 10 20 ThreadStatus.ACTIVE 1 "talk" None None None 0 0]} {[40%N := Turn.Make 40 10 30 1 1 "question" "question" [] [] 0]}.

Definition allow_replies : Policy :=
  Policy.Make 60 10 "replies" 1 1 DecisionEffect.ALLOW true
    (VDict [("actions", VList [VStr "im.reply.deliver"])]) [] 0.

Definition run : Run :=
  Run.Make 50 10 40 RunStatus.COMPLETED None [] [] None (Some 5%Z) None None None None None None 0 None [] [] [] 30 300 120000 16000 1000000000 None 0 [] None.

Definition now : Z := 1000 * second.

Definition kernel : Kernel :=
  MkKernel now [] 0 directory {[60%N := allow_replies]} {[50%N := run]} ∅ [] [] [] [].

Definition catalog : Registry :=
  MkRegistry
    {[70%N := CapabilityDefinition.Make 70 10 "im.dingtalk.robot.reply" RegistryStatus.ACTIVE]}
    {[71%N := CapabilityVersion.Make 71 10 70 1 CapabilityTransport.HTTP RiskLevel.L2 SideEffect.WRITE
                "im.reply.deliver" [] [] 30 Classification.INTERNAL "c"]}
    {[72%N := CapabilityBinding.Make 72 10 71 73 "production" [] true]}
    {[73%N := Connector.Make 73 10 "robot" ConnectorStatus.ACTIVE "production" None
                [("protocol", VStr "dingtalk.robot.oto.v1"); ("app_key", VStr "app-1"); ("robot_code", VStr "robot-1")]
                (Some "env://OBSION_ROBOT_SECRET") [VStr "im.reply.deliver"] [] "dingtalk-robot"]}
    [].

Definition im : ImTables :=
  MkIm
    {[80%N := ImInstallation.Make 80 10 (Some "dingtalk") (Some "corp") None (Some 73%N) (Some "ACTIVE")]}
    {[81%N := ImInstallationBinding.Make 81 10 80 "sender-1" 1 true]} ∅
    {[82%N := ImInboxMessage.Make 82 10 80 "event-1" "f" 81 1 "sender-1" "conversation-1" "direct" "question"
                "PROCESSED" (Some 40%N) (Some 50%N) None 4]}
    {[83%N := Artifact.Make 83 10 20 (Some 50%N) ArtifactKind.TEXT "Obsion answer" "text/markdown"
                (VDict [("markdown", VStr "forty-two")]) Classification.INTERNAL 5]}.

Definition start : OutboxDb := MkOutboxDb kernel catalog im ∅ [] ∅.

(** The same before a clock that has moved on. *)
Definition later (t : Z) (s : OutboxDb) : OutboxDb :=
  MkOutboxDb ((core s) <| clock := t |>) (RobotTransport.catalog s) (RobotTransport.im s) (outbox s) (vendor s) (limits s).

Definition enqueued : OutboxDb := Eval vm_compute in final (enqueue_next ∅ start).
Definition claimed : OutboxDb := Eval vm_compute in final (claim_next ∅ enqueued).
Definition the_claim : OutboxClaim := Eval vm_compute in
  match claim_next ∅ enqueued with Ok (Some c) _ => c | _ => MkClaim 0 0 end.
Definition delivered : OutboxDb := Eval vm_compute in final (dispatch the_claim claimed).

Definition statuses (s : OutboxDb) : list DingTalkOutboxStatus := DingTalkRobotOutbox.status <$> rows (outbox s).

Example delivered_statuses : map statuses [start; enqueued; claimed; delivered] =
  [[]; [DingTalkOutboxStatus.QUEUED]; [DingTalkOutboxStatus.DISPATCHING]; [DingTalkOutboxStatus.ACCEPTED]].
Proof. vm_compute. reflexivity. Qed.

Example delivered_requests : request_path <$> vendor delivered = [TOKEN_PATH; SEND_PATH].
Proof. vm_compute. reflexivity. Qed.

(** ** A blocked delivery ahead of another

    The same Run, but without its answer, and a later Run that could be delivered. *)

Definition second_run : Run :=
  Run.Make 51 10 40 RunStatus.COMPLETED None [] [] None (Some 6%Z) None None None None None None 0 None [] [] [] 30 300 120000 16000 1000000000 None 0 [] None.

Definition crowded : OutboxDb :=
  MkOutboxDb (kernel <| runs := {[50%N := run; 51%N := second_run]} |>) catalog
    (MkIm (installations im) (bindings im) ∅
       (<[84%N := ImInboxMessage.Make 84 10 80 "event-2" "f" 81 1 "sender-1" "conversation-1" "direct" "question"
                    "PROCESSED" (Some 41%N) (Some 51%N) None 5]> (inbox im))
       {[85%N := Artifact.Make 85 10 20 (Some 51%N) ArtifactKind.TEXT "Obsion answer" "text/markdown"
                   (VDict [("markdown", VStr "forty-two")]) Classification.INTERNAL 5]})
    ∅ [] ∅.

Fixpoint rounds (n : nat) (s : OutboxDb) : OutboxDb :=
  match n with O => s | S n' => rounds n' (final (run_once ∅ s)) end.

(** The Runs that have an outbox row, and the status of that row. *)
Definition outcomes (s : OutboxDb) : list (uuid * DingTalkOutboxStatus) :=
  (λ o, (DingTalkRobotOutbox.run_id o, DingTalkRobotOutbox.status o)) <$> rows (outbox s).

(** Round after round the worker looks at the oldest delivery only, finds it blocked
    again, and never enqueues the one behind it; alone, that one is delivered. *)
Example blocked_head :
  (λ n, outcomes (rounds n crowded)) <$> [1; 2; 3] =
    replicate 3 [(50%N, DingTalkOutboxStatus.BLOCKED)] ∧
  outcomes (rounds 1 (MkOutboxDb ((core crowded) <| runs := {[51%N := second_run]} |>) catalog
    (RobotTransport.im crowded) ∅ [] ∅)) = [(51%N, DingTalkOutboxStatus.ACCEPTED)].
Proof. split; vm_compute; reflexivity. Qed.
End OutboxSample.
