(* ===== verification/OutboxFacts.v ===== *)
(** * What one delivery sends

    [Asks id m]: [m] only records, and of the vendor it asks nothing but tokens and
    receipts, on behalf of [id].  From it the file derives what a dispatch can do: it
    sends at most one message, and only of a row it then settles. *)

From S2P Require Import Prelude PyText PyVal Enums Models Kernel CanonicalJson Events EventLog.
From S2P Require Import Identity Policy RateLimit ActionState ActionGateway RobotTransport.
From S2P Require Import RobotGateway OutboxService OutboxDispatch.

(** The tables of delivery are as they were, and the vendor was sent [l] for [id]. *)
Record delivers (id : uuid) (l : list VendorRequest) (s s' : OutboxDb) : Prop := {
  delivers_core : recorded (core s) (core s');
  delivers_catalog : catalog s' = catalog s;
  delivers_im : im s' = im s;
  delivers_outbox : outbox s' = outbox s;
  delivers_vendor : vendor s' = (vendor s ++ l)%list;
  delivers_origin : Forall (λ q, origin q = id) l
}.

(** The messages among requests. *)
Definition messages (l : list VendorRequest) : list VendorRequest := filter is_message l.

(** Of the requests sent for [id], [ms] are messages. *)
Definition sent (id : uuid) (ms : list VendorRequest) (s s' : OutboxDb) : Prop :=
  ∃ l, delivers id l s s' ∧ messages l = ms.

Definition asked (id : uuid) : OutboxDb → OutboxDb → Prop := sent id [].

Lemma delivers_refl id s : delivers id [] s s.
Proof. split; try done. by rewrite app_nil_r. Qed.

Lemma delivers_trans id l1 l2 s1 s2 s3 :
  delivers id l1 s1 s2 → delivers id l2 s2 s3 → delivers id (l1 ++ l2) s1 s3.
Proof.
  intros [? ? ? ? Hv1 Ho1] [? ? ? ? Hv2 Ho2]. split; try congruence.
  - by transitivity (core s2).
  - by rewrite Hv2, Hv1, app_assoc.
  - by apply Forall_app.
Qed.

Lemma messages_app l1 l2 : messages (l1 ++ l2) = (messages l1 ++ messages l2)%list.
Proof. apply filter_app. Qed.

Lemma sent_trans id m1 m2 s1 s2 s3 : sent id m1 s1 s2 → sent id m2 s2 s3 → sent id (m1 ++ m2) s1 s3.
Proof.
  intros (l1 & H1 & <-) (l2 & H2 & <-). exists (l1 ++ l2)%list.
  split; [by eapply delivers_trans|apply messages_app].
Qed.

#[export] Instance asked_preorder id : PreOrder (asked id).
Proof.
  split.
  - intros s. exists []. split; [apply delivers_refl|done].
  - intros s1 s2 s3. apply sent_trans.
Qed.

Lemma asked_sent id ms s1 s2 s3 : asked id s1 s2 → sent id ms s2 s3 → sent id ms s1 s3.
Proof. apply sent_trans. Qed.

Lemma sent_asked id ms s1 s2 s3 : sent id ms s1 s2 → asked id s2 s3 → sent id ms s1 s3.
Proof. intros H12 H23. rewrite <-(app_nil_r ms). by eapply sent_trans. Qed.

Lemma delivers_kernel id s k : recorded (core s) k → delivers id [] s (set_kernel k s).
Proof. intros Hk. split; try done. by rewrite app_nil_r. Qed.

Definition Asks (id : uuid) {A} (m : Py OutboxDb A) : Prop := ∀ s, wp m (λ _, asked id s) (λ _, asked id s) s.

Create HintDb asks discriminated.
#[export] Hint Constants Opaque : asks.

Section Rules.
Context {id : uuid}.

Lemma ret_asks {A} (a : A) : Asks id (mret a).
Proof. intros s. by apply wp_ret. Qed.
Lemma raise_asks {A} e : Asks id (raise (A := A) e).
Proof. intros s. by apply wp_raise. Qed.
Lemma raise_if_asks b e : Asks id (raise_if b e).
Proof. intros s. by destruct b; apply wp_ret || apply wp_raise. Qed.
Lemma gets_asks {A} (f : OutboxDb → A) : Asks id (gets f).
Proof. intros s. by apply wp_gets. Qed.
Lemma in_kernel_asks {A} (m : Py Kernel A) : Recording m → Asks id (in_kernel m).
Proof.
  intros Hm s. apply wp_recording; [apply Hm|..]; intros ? k Hk; exists []; split; (by apply delivers_kernel) || done.
Qed.
Lemma bind_asks {A B} (m : Py OutboxDb A) (f : A → Py OutboxDb B) :
  Asks id m → (∀ a, Asks id (f a)) → Asks id (m ≫= f).
Proof.
  intros Hm Hf s. apply wp_bind. eapply wp_mono; [apply Hm| |done]. intros a s' Hs.
  eapply wp_mono; [apply Hf|..]; intros; cbv beta in *; by transitivity s'.
Qed.
Lemma try_catch_asks {A} (m : Py OutboxDb A) h :
  Asks id m → (∀ e k, h e = Some k → Asks id k) → Asks id (try_catch m h).
Proof.
  intros Hm Hh s. apply wp_try_catch. eapply wp_mono; [apply Hm|done|].
  intros e s' Hs. cbv beta in *. destruct (h e) as [k|] eqn:He; [|done].
  eapply wp_mono; [by eapply Hh|..]; intros; cbv beta in *; by transitivity s'.
Qed.
Lemma limit_call_asks `{RateLimiter (gmap string Window)} now key limit : Asks id (limit_call now key limit).
Proof.
  intros s. unfold wp, limit_call. destruct (allow _ _ _ _). exists []. split; [|done].
  split; try done. by rewrite app_nil_r.
Qed.
Lemma vendor_call_asks `{RobotVendor} q : origin q = id → is_message q = false → Asks id (vendor_call q).
Proof.
  intros Hid Hq s. exists [q]. split; [split; done || by apply Forall_singleton|].
  unfold messages. rewrite filter_cons_False; [done|]. rewrite Hq. intros [].
Qed.
End Rules.

#[export] Hint Resolve ret_asks raise_asks raise_if_asks gets_asks in_kernel_asks limit_call_asks : asks.

(** Take a computation apart. *)
Ltac asks :=
  repeat first
    [ solve [typeclasses eauto with asks typeclass_instances]
    | apply bind_asks; [|intros ?]
    | apply try_catch_asks; [|intros ? ? Hk; repeat case_match; (discriminate Hk || injection Hk as <-)]
    | match goal with |- Asks _ (match ?x with _ => _ end) => destruct x eqn:? end
    | progress cbv zeta
    | progress cbv beta ].

(** Run a prefix that sends no message. *)
Lemma wp_asks {A} id (m : Py OutboxDb A) (Q : A → OutboxDb → Prop) (X : exn → OutboxDb → Prop) s :
  Asks id m → (∀ a s', asked id s s' → Q a s') → (∀ e s', asked id s s' → X e s') → wp m Q X s.
Proof. intros Hm HQ HX. eapply wp_mono; [apply Hm|auto..]. Qed.

(** ** The transport *)

Section Transport.
Context `{RobotVendor}.

Lemma _json_asks id q : origin q = id → is_message q = false → Asks id (_json vendor_call q).
Proof. intros Hid Hq. unfold _json. apply bind_asks; [by apply vendor_call_asks|]. intros reply. unfold value_error. asks. Qed.

Lemma request_access_asks id credentials : Asks id (request_access vendor_call id credentials).
Proof.
  unfold request_access, _access_token, value_error. apply bind_asks; [by apply _json_asks|]. intros r. asks.
Qed.

Lemma before_message_asks id credentials text authorize :
  Asks id authorize → Asks id (before_message vendor_call id credentials text authorize).
Proof.
  intros Ha. unfold before_message. apply bind_asks; [apply request_access_asks|]. intros token. asks.
Qed.

Lemma query_status_asks id credentials code user conversation key :
  Asks id (query_status vendor_call id credentials code user conversation key).
Proof.
  unfold query_status, value_error. case_match; [asks|]. apply try_catch_asks.
  apply bind_asks; [apply request_access_asks|]. intros token.
  apply bind_asks; [by apply _json_asks|]. intros response. asks.
  intros e k Hk. destruct (transport_error e); [injection Hk as <-|done]. asks.
Qed.

(** A message left for [id], after the sender authorized it. *)
Record message_sent (id : uuid) (path : string) (data : dict) (text : string) (authorize : Py OutboxDb bool)
    (s s' : OutboxDb) : Prop := {
  message_request : ∃ token,
    sent id [MkRequest id path "POST" data (Some token)] s s' ∧ contains token text = false;
  message_authorized : ∃ s1 s2, asked id s s1 ∧ authorize s1 = Ok true s2
}.

(** An exception nobody on the way turns into a result. *)
Definition stray (e : exn) : Prop := python_error e ∧ transport_error e = false.

(** What a send leaves when it raises: an exception after the message is a stray one. *)
Definition sent_or_not (id : uuid) (path : string) (data : dict) (text : string) (authorize : Py OutboxDb bool)
    (s : OutboxDb) (e : exn) (s' : OutboxDb) : Prop :=
  asked id s s' ∨ (stray e ∧ message_sent id path data text authorize s s').

(** What a send leaves when it answers: a message exactly when the state says so. *)
Definition send_outcome (id : uuid) (path : string) (data : dict) (text : string) (authorize : Py OutboxDb bool)
    (s : OutboxDb) (r : RobotSendResult) (s' : OutboxDb) : Prop :=
  (RobotSendResult.state r = RobotSendState.NOT_ATTEMPTED ∧ asked id s s') ∨
  (RobotSendResult.state r ≠ RobotSendState.NOT_ATTEMPTED ∧ message_sent id path data text authorize s s').

(** What is asked before and after a send changes neither. *)
Lemma message_sent_before id path data text authorize s s1 s' :
  asked id s s1 → message_sent id path data text authorize s1 s' → message_sent id path data text authorize s s'.
Proof.
  intros Hs1 [(token & ? & ?) (s2 & s3 & ? & ?)]. split.
  - exists token. split; [by eapply asked_sent|done].
  - exists s2, s3. split; [by etransitivity|done].
Qed.

Lemma message_sent_after id path data text authorize s s1 s' :
  message_sent id path data text authorize s s1 → asked id s1 s' → message_sent id path data text authorize s s'.
Proof. intros [(token & ? & ?) ?] Hs'. split; [|done]. exists token. split; [by eapply sent_asked|done]. Qed.

Lemma send_outcome_before id path data text authorize s s1 r s' :
  asked id s s1 → send_outcome id path data text authorize s1 r s' →
  send_outcome id path data text authorize s r s'.
Proof.
  intros Hs1 [[? ?]|[? ?]]; [left|right]; split; try done; [by etransitivity|by eapply message_sent_before].
Qed.

Lemma sent_or_not_before id path data text authorize s s1 e s' :
  asked id s s1 → sent_or_not id path data text authorize s1 e s' →
  sent_or_not id path data text authorize s e s'.
Proof.
  intros Hs1 [?|[? ?]]; [left; by etransitivity|right]. split; [done|by eapply message_sent_before].
Qed.

Lemma wp_message_call q s Q X :
  is_message q = true → (∀ r s', sent (origin q) [q] s s' → Q r s') → wp (vendor_call q) Q X s.
Proof.
  intros Hq HQ. apply HQ. exists [q]. split; [split; done || by apply Forall_singleton|].
  unfold messages. rewrite filter_cons_True; [done|]. rewrite Hq. exact I.
Qed.

(** The request is sent once; reading its response sends nothing. *)
Lemma wp_json_message q s Q X :
  is_message q = true →
  (∀ d s', sent (origin q) [q] s s' → Q d s') →
  (∀ e s', python_error e → sent (origin q) [q] s s' → X e s') →
  wp (_json vendor_call q) Q X s.
Proof.
  intros Hq HQ HX. unfold _json. apply wp_bind, wp_message_call; [done|]. intros r s1 Hs1.
  unfold value_error. repeat wp_step; auto; by apply HX.
Qed.

Lemma receipt_asks id response recipient secrets : Asks id (_receipt response recipient secrets).
Proof. unfold _receipt, refused, value_error. asks. Qed.

(** A receipt never says that nothing was attempted. *)
Lemma receipt_state response recipient secrets (s : OutboxDb) :
  wp (_receipt response recipient secrets) (λ r _, RobotSendResult.state r ≠ RobotSendState.NOT_ATTEMPTED)
    (λ e _, python_error e) s.
Proof. unfold _receipt, refused, value_error. repeat wp_step; done. Qed.

Lemma wp_send_message id path data recipient credentials text authorize s Q X :
  (path = SEND_PATH ∨ path = GROUP_SEND_PATH) → Asks id authorize →
  (∀ r s', send_outcome id path data text authorize s r s' → Q r s') →
  (∀ e s', sent_or_not id path data text authorize s e s' → X e s') →
  wp (send_message vendor_call id path data recipient credentials text authorize) Q X s.
Proof.
  intros Hpath Ha HQ HX.
  assert (∀ token, is_message (MkRequest id path "POST" data (Some token)) = true) as Hmessage
    by (intros token; destruct Hpath as [->| ->]; reflexivity).
  unfold send_message. apply wp_bind, wp_try_catch. unfold before_message. apply wp_bind.
  apply (wp_asks id); [apply request_access_asks| |].
  2:{ intros e s1 Hs1. destruct (transport_error e); [|apply HX; by left].
      repeat apply wp_ret. apply HQ. by left. }
  intros token s1 Hs1. destruct (contains token text) eqn:Hleak.
  { repeat apply wp_ret. apply HQ. by left. }
  apply wp_bind. eapply (wp_mono _ (λ b s2, asked id s1 s2 ∧ authorize s1 = Ok b s2)).
  { specialize (Ha s1). unfold wp in *. destruct (authorize s1); [by split|exact Ha]. }
  2:{ intros e s2 Hs2. assert (asked id s s2) by by etransitivity.
      destruct (transport_error e); [|apply HX; by left]. repeat apply wp_ret. apply HQ. by left. }
  intros [] s2 [Hs2 Hok]; apply wp_ret.
  2:{ apply wp_ret. apply HQ. left. split; [done|]. by etransitivity. }
  assert (∀ s', sent id [MkRequest id path "POST" data (Some token)] s2 s' →
    message_sent id path data text authorize s s') as Hsent.
  { intros s' Hs'. split; [|by exists s1, s2]. exists token. split; [|done].
    eapply asked_sent; [by etransitivity|done]. }
  apply wp_try_catch, wp_bind, wp_json_message; [done| |].
  - intros response s3 Hs3.
    eapply wp_mono; [apply (wp_and _ _ _ _ _ _ (receipt_asks id response recipient _ s3) (receipt_state _ _ _ s3))|..].
    + intros r s4 [Hs4 Hr]. apply HQ. right. split; [done|]. apply Hsent. by eapply sent_asked.
    + intros e s4 [Hs4 Hpy]. assert (sent id [MkRequest id path "POST" data (Some token)] s2 s4)
        by by eapply sent_asked. destruct (transport_error e) eqn:He.
      * apply wp_ret, HQ. right. split; [done|by apply Hsent].
      * apply HX. right. split; [done|by apply Hsent].
  - intros e s3 Hpy Hs3. destruct (transport_error e) eqn:He.
    + apply wp_ret, HQ. right. split; [done|by apply Hsent].
    + apply HX. right. split; [done|by apply Hsent].
Qed.
End Transport.

(** ** The gateway *)

(** What the gateway made sure of before a message left. *)
Record governed `{Environment} (q : Delivery) (s : OutboxDb) (r : ResolvedActionCapability) (d : Decision) : Prop := {
  governed_contract : _dingtalk_robot_contract_valid r q = true;
  governed_grant : _connector_grant_allows (ResolvedActionCapability.connector r)
                     (ResolvedActionCapability.version r) = true;
  governed_decision : ∃ k k', recorded (core s) k ∧
    evaluate_resource (policy_request q (sending q) (ResolvedActionCapability.version r)) k = Ok d k';
  governed_effect : Decision.effect d = DecisionEffect.ALLOW;
  governed_obligations : Decision.obligations d = []
}.

(** Where the message of a delivery goes. *)
Definition recipient_path (q : Delivery) : string :=
  if bool_decide (Delivery.conversation_type q = "group") then GROUP_SEND_PATH else SEND_PATH.

Definition recipient_data (q : Delivery) (text : string) : dict :=
  if bool_decide (Delivery.conversation_type q = "group")
  then [("robotCode", VStr (Delivery.robot_code q));
        ("openConversationId", VStr (default "" (Delivery.recipient_conversation_id q)));
        ("msgKey", VStr "sampleText"); ("msgParam", VStr (message_content text))]
  else [("robotCode", VStr (Delivery.robot_code q)); ("userIds", VList [VStr (Delivery.recipient_sender_id q)]);
        ("msgKey", VStr "sampleText"); ("msgParam", VStr (message_content text))].

Section Gateway.
Context `{Environment, EventContracts, JsonEncoder, ActionPlatform, RobotVendor,
  RateLimiter (gmap string Window)}.

Lemma robot_audit_asks id q purpose v d outcome latency metadata :
  Asks id (in_kernel (robot_audit q purpose v d outcome latency metadata)).
Proof. apply in_kernel_asks. unfold robot_audit. apply _. Qed.
Lemma policy_event_asks id q d : Asks id (in_kernel (_policy_event q d)).
Proof. apply in_kernel_asks. unfold _policy_event. apply _. Qed.
Lemma gateway_event_asks id q name : Asks id (in_kernel (_gateway_event q name)).
Proof. apply in_kernel_asks. unfold _gateway_event. apply _. Qed.
#[local] Hint Resolve robot_audit_asks policy_event_asks gateway_event_asks : asks.

Lemma resolve_asks id q resource : Asks id (_resolve q resource).
Proof. unfold _resolve. asks. Qed.
Lemma allow_call_asks id q r : Asks id (allow_call q r).
Proof. unfold allow_call. asks. Qed.
#[local] Hint Resolve resolve_asks allow_call_asks : asks.

Lemma admission_asks id q purpose : Asks id (admission q purpose).
Proof. unfold admission. asks. Qed.

Lemma wp_admission q s Q X :
  (∀ refusal s', asked (Delivery.outbox_id q) s s' → Q (inl refusal) s') →
  (∀ r d s', asked (Delivery.outbox_id q) s s' → governed q s r d → Q (inr (r, d)) s') →
  (∀ e s', asked (Delivery.outbox_id q) s s' → X e s') →
  wp (admission q (sending q)) Q X s.
Proof.
  set (id := Delivery.outbox_id q). intros Hrefused Hgoverned HX.
  assert (wp (admission q (sending q))
    (λ a _, match a with inl _ => True | inr (r, d) => governed q s r d end) (λ _ _, True) s) as Hg.
  { unfold admission. apply wp_bind.
    eapply (wp_asks id); [asks| |done]. intros resolved s1 Hs1.
    destruct resolved as [r|]; [|by apply wp_ret]. cbv zeta.
    destruct (_dingtalk_robot_contract_valid r q) eqn:Hcontract; [|by apply wp_ret]. cbn [negb].
    apply wp_bind.
    eapply (wp_mono _ (λ d _, ∃ k', evaluate_resource (policy_request q (sending q)
              (ResolvedActionCapability.version r)) (core s1) = Ok d k') _ (λ _ _, True)).
    { apply wp_in_kernel. cbn [kernel outbox_session]. unfold wp.
      destruct (evaluate_resource _ _) as [d k'|]; [by exists k'|done]. }
    2: done.
    intros d s2 [k' Hd]. apply wp_bind. eapply (wp_asks id); [asks| |done]. intros _ s3 _. cbv beta.
    destruct (negb (bool_decide (Decision.effect d = DecisionEffect.ALLOW)) || _) eqn:Heffect.
    { apply wp_bind. eapply (wp_asks id); [asks| |done]. intros. by apply wp_ret. }
    destruct (_connector_grant_allows _ _) eqn:Hgrant; cbn [negb].
    2:{ apply wp_bind. eapply (wp_asks id); [asks| |done]. intros. by apply wp_ret. }
    destruct (valid_input _ _); cbn [negb].
    2:{ apply wp_bind. eapply (wp_asks id); [asks| |done]. intros. by apply wp_ret. }
    apply wp_bind. eapply (wp_asks id); [asks| |done]. intros [[]|] s4 _.
    - apply wp_ret. split_bool. split; try done. exists (core s1), k'. split; [|done].
      by destruct Hs1 as (l & [] & _).
    - apply wp_bind. eapply (wp_asks id); [asks| |done]. intros _ s5 _. apply wp_bind.
      eapply (wp_asks id); [asks| |done]. intros. by apply wp_ret.
    - apply wp_bind. eapply (wp_asks id); [asks| |done]. intros. by apply wp_ret. }
  eapply wp_mono; [apply (wp_and _ _ _ _ _ _ (admission_asks id q (sending q) s) Hg)|..].
  - intros [refusal|[r d]] s' [Hs' Ha]; auto.
  - intros e s' [Hs' _]. auto.
Qed.

Lemma robot_credential_asks id q c : Asks id (robot_credential q c).
Proof. unfold robot_credential, resolve_stored, resolve_reference. asks. Qed.
Lemma credentials_asks id key secret : Asks id (credentials_of key secret).
Proof. unfold credentials_of, value_error. asks. Qed.

Lemma validate_text_pure text credentials : Pure (S := OutboxDb) (_validate_text text credentials).
Proof. unfold _validate_text, value_error. apply _. Qed.

(** The two uses of [send_message]. *)
Lemma wp_validated id path data recipient credentials text authorize (b : bool) s Q X :
  (path = SEND_PATH ∨ path = GROUP_SEND_PATH) → Asks id authorize →
  (∀ r s', send_outcome id path data text authorize s r s' → Q r s') →
  (∀ e s', sent_or_not id path data text authorize s e s' → X e s') →
  wp (if b then value_error
      else _validate_text text credentials;;
           send_message vendor_call id path data recipient credentials text authorize) Q X s.
Proof.
  intros Hpath Ha HQ HX. destruct b; [apply wp_raise, HX; by left|].
  apply wp_bind. pose proof (validate_text_pure text credentials) as Hp. apply wp_pure; [done|..].
  - intros _ _. by apply wp_send_message.
  - intros e _. apply HX. by left.
Qed.

Lemma wp_deliver q c text authorize s Q X :
  Asks (Delivery.outbox_id q) authorize →
  (∀ r s', send_outcome (Delivery.outbox_id q) (recipient_path q) (recipient_data q text) text authorize s r s' →
     Q r s') →
  (∀ e s', sent_or_not (Delivery.outbox_id q) (recipient_path q) (recipient_data q text) text authorize s e s' →
     X e s') →
  wp (deliver q c text authorize) Q X s.
Proof.
  set (id := Delivery.outbox_id q). set (path := recipient_path q). set (data := recipient_data q text).
  intros Ha HQ HX.
  unfold deliver. apply wp_bind, (wp_asks id); [apply robot_credential_asks| |].
  2:{ intros e s1 Hs1. apply HX. by left. }
  intros credential s1 Hs1. apply wp_bind, (wp_asks id); [apply credentials_asks| |].
  2:{ intros e s2 Hs2. apply HX. left. by etransitivity. }
  intros credentials s2 Hs2. assert (asked id s s2) as Hs by by etransitivity.
  subst path data. unfold recipient_path, recipient_data in *.
  case_bool_decide as Hgroup.
  - destruct (Delivery.recipient_conversation_id q) as [conversation|]; [|apply wp_raise, HX; by left].
    destruct (truthy conversation); [|apply wp_raise, HX; by left].
    unfold send_group_text. apply wp_validated; [by right|done|..].
    + intros r s' Hr. apply HQ. by eapply send_outcome_before.
    + intros e s' He. apply HX. by eapply sent_or_not_before.
  - unfold send_text. apply wp_validated; [by left|done|..].
    + intros r s' Hr. apply HQ. by eapply send_outcome_before.
    + intros e s' He. apply HX. by eapply sent_or_not_before.
Qed.

(** The gateway answers that nothing was attempted exactly when no message left. *)
Lemma wp_invoke q authorize s Q X :
  let d := send_delivery q in
  Asks (Delivery.outbox_id d) authorize →
  (∀ r s', RobotSendResult.state (send_result r) = RobotSendState.NOT_ATTEMPTED →
     asked (Delivery.outbox_id d) s s' → Q r s') →
  (∀ r c decision s', RobotSendResult.state (send_result r) ≠ RobotSendState.NOT_ATTEMPTED →
     governed d s c decision →
     message_sent (Delivery.outbox_id d) (recipient_path d) (recipient_data d (send_body q)) (send_body q)
       authorize s s' → Q r s') →
  (∀ e s', asked (Delivery.outbox_id d) s s' → X e s') →
  (∀ e c decision s', governed d s c decision →
     message_sent (Delivery.outbox_id d) (recipient_path d) (recipient_data d (send_body q)) (send_body q)
       authorize s s' → X e s') →
  wp (invoke_dingtalk_robot_outbox q authorize) Q X s.
Proof.
  cbv zeta. set (d := send_delivery q). set (id := Delivery.outbox_id d).
  intros Ha Hnot Hsent HX HXsent. unfold invoke_dingtalk_robot_outbox. apply wp_bind, wp_admission.
  - intros refusal s1 Hs1. apply wp_ret. by apply Hnot.
  - intros r decision s1 Hs1 Hg. apply wp_bind, (wp_asks id); [asks| |].
    2:{ intros e s2 Hs2. apply HX. by transitivity s1. }
    intros _ s2 Hs2. apply wp_bind, (wp_asks id); [unfold perf_counter; asks| |].
    2:{ intros e s3 Hs3. apply HX. transitivity s2; [by transitivity s1|done]. }
    intros started s3 Hs3. assert (asked id s s3) as Hs by (transitivity s2; [by transitivity s1|done]).
    clear Hs1 Hs2 Hs3.
    match goal with |- wp (_ ≫= ?f) _ _ _ => set (rest := f) end. apply wp_bind, wp_try_catch.
    assert (∀ outcome, Asks id (rest outcome)) as Hrest.
    { intros outcome. unfold rest, perf_counter. asks. }
    assert (∀ outcome s, wp (rest outcome) (λ r _, send_result r = outcome) (λ _ _, True) s) as Hsame.
    { intros outcome s'. unfold rest. do 4 (apply wp_bind, (wp_asks id); [unfold perf_counter; asks| |done]; intros).
      by apply wp_ret. }
    assert (∀ outcome s4, send_outcome id (recipient_path d) (recipient_data d (send_body q)) (send_body q) authorize
      s outcome s4 → wp (rest outcome) Q X s4) as Hfinish.
    { intros outcome s4 Hs4.
      eapply wp_mono; [apply (wp_and _ _ _ _ _ _ (Hrest outcome s4) (Hsame outcome s4))|..].
      - intros result s5 [Hs5 <-]. destruct Hs4 as [[Hstate Hs4]|[Hstate Hs4]].
        + apply Hnot; [done|]. by etransitivity.
        + eapply Hsent; [done..|]. by eapply message_sent_after.
      - intros e s5 [Hs5 _]. destruct Hs4 as [[Hstate Hs4]|[Hstate Hs4]].
        + apply HX. by etransitivity.
        + eapply HXsent; [done..|]. by eapply message_sent_after. }
    apply wp_deliver; [done|..].
    + intros outcome s4 Hs4. apply Hfinish. by eapply send_outcome_before.
    + intros e s4 [Hs4|[[Hpy Htransport] Hs4]].
      * assert (asked id s s4) by by etransitivity. unfold caught.
        destruct e; [|case_bool_decide]; [| |by apply HX]; apply wp_ret, Hfinish; by left.
      * unfold caught. destruct e as [|class]; [done|]. rewrite bool_decide_eq_false_2.
        { eapply HXsent; [done|]. by eapply message_sent_before. }
        unfold transport_error in Htransport. apply bool_decide_eq_false in Htransport.
        intros Hin%list_elem_of_In. apply Htransport, list_elem_of_In. simpl in *. tauto.
  - intros e s1 Hs1. by apply HX.
Qed.
(** Asking for a receipt sends no message. *)
Lemma reconcile_robot_asks q : Asks (Delivery.outbox_id (query_delivery q)) (reconcile_dingtalk_robot_outbox q).
Proof.
  unfold reconcile_dingtalk_robot_outbox. apply bind_asks; [apply admission_asks|]. intros [refusal|[r d]]; [asks|].
  apply bind_asks; [unfold perf_counter; asks|]. intros started. apply bind_asks.
  - apply try_catch_asks.
    + unfold ask_status. apply bind_asks; [apply robot_credential_asks|]. intros credential.
      apply bind_asks; [apply credentials_asks|]. intros credentials. apply query_status_asks.
    + intros e k. unfold caught. destruct e; [|case_bool_decide; [|done]]; intros [= <-]; asks.
  - intros query. unfold perf_counter. asks.
Qed.
End Gateway.
