(* ===== verification/OutboxSettles.v ===== *)
(** * What a dispatch does to its row

    A dispatch sends at most one message, under a governed text and after a last check,
    and settles the row accordingly; if it raises, what it wrote is rolled back and only
    what it sent remains. *)

From S2P Require Import Prelude PyText PyVal Enums Models Kernel CanonicalJson Events EventLog.
From S2P Require Import Identity Policy RateLimit ActionState ActionGateway RobotTransport.
From S2P Require Import RobotGateway OutboxService OutboxDispatch OutboxFacts.

(** ** Holding a row *)

(** The vendor was sent [ms] as messages for [id]. *)
Definition vendor_grew (id : uuid) (ms : list VendorRequest) (s s' : OutboxDb) : Prop :=
  ∃ l, vendor s' = (vendor s ++ l)%list ∧ Forall (λ q, origin q = id) l ∧ messages l = ms.

(** Since [s0] the row [o] is the only one written, and [ms] were sent for it. *)
Record holds (ms : list VendorRequest) (o : DingTalkRobotOutbox) (s0 s : OutboxDb) : Prop := {
  holds_core : recorded (core s0) (core s);
  holds_catalog : catalog s = catalog s0;
  holds_im : im s = im s0;
  holds_outbox : outbox s = <[DingTalkRobotOutbox.id o := o]> (outbox s0);
  holds_vendor : vendor_grew (DingTalkRobotOutbox.id o) ms s0 s
}.

Lemma holds_start ms o s0 s :
  sent (DingTalkRobotOutbox.id o) ms s0 s → outbox s0 !! DingTalkRobotOutbox.id o = Some o → holds ms o s0 s.
Proof.
  intros (l & [] & Hms) Ho. split; try done; [|by exists l]. by rewrite delivers_outbox, insert_id.
Qed.

Lemma sent_grew id ms s s' : sent id ms s s' → vendor_grew id ms s s'.
Proof. intros (l & [] & Hms). by exists l. Qed.

Lemma holds_kernel ms o s0 s k : holds ms o s0 s → recorded (core s) k → holds ms o s0 (set_kernel k s).
Proof. intros [] Hk. split; try done. by transitivity (core s). Qed.

Section Rules.
Context {ms : list VendorRequest} {s0 : OutboxDb} (X : exn → OutboxDb → Prop).

Lemma wp_held_kernel {A} (m : Py Kernel A) o s (Q : A → OutboxDb → Prop) :
  Recording m → holds ms o s0 s →
  (∀ a s', holds ms o s0 s' → Q a s') → (∀ e s', holds ms o s0 s' → X e s') → wp (in_kernel m) Q X s.
Proof. intros Hm Hs HQ HX. apply wp_recording; [done|..]; intros ? k Hk; [apply HQ|apply HX]; by apply holds_kernel. Qed.

Lemma wp_assign f o s (Q : DingTalkRobotOutbox → OutboxDb → Prop) :
  holds ms o s0 s → DingTalkRobotOutbox.id (f o) = DingTalkRobotOutbox.id o →
  (∀ s', holds ms (f o) s0 s' → Q (f o) s') → wp (assign f o) Q X s.
Proof.
  intros [Hc Hg Hi Ho Hv] Hid HQ. apply wp_bind, wp_modify, wp_ret, HQ. split; try done.
  - cbn. by rewrite Ho, alter_insert_eq, Hid.
  - by rewrite Hid.
Qed.

Lemma wp_touch o s (Q : DingTalkRobotOutbox → OutboxDb → Prop) :
  holds ms o s0 s → (∀ now s', holds ms (Row.with_updated now o) s0 s' → Q (Row.with_updated now o) s') →
  (∀ e s', holds ms o s0 s' → X e s') → wp (touch o) Q X s.
Proof.
  intros Hs HQ HX. apply wp_bind. eapply wp_held_kernel; [apply _|done| |done].
  intros now s1 Hs1. eapply wp_assign; [done|by destruct o|]. apply HQ.
Qed.

Lemma wp_set_last_error v o s (Q : DingTalkRobotOutbox → OutboxDb → Prop) :
  holds ms o s0 s →
  (∀ s', holds ms (Row.with_last_error (mapped_error <$> v) o) s0 s' →
     Q (Row.with_last_error (mapped_error <$> v) o) s') →
  wp (_set_last_error v o) Q X s.
Proof. intros Hs HQ. eapply wp_assign; [done|by destruct o|]. apply HQ. Qed.

Section Audited.
Context `{Environment, JsonEncoder}.

Lemma wp_outbox_audit o outcome metadata s (Q : () → OutboxDb → Prop) :
  holds ms o s0 s → (∀ s', holds ms o s0 s' → Q () s') → (∀ e s', holds ms o s0 s' → X e s') →
  wp (outbox_audit o outcome metadata) Q X s.
Proof.
  intros Hs HQ HX. apply wp_bind. eapply wp_held_kernel; [apply _|done| |done].
  intros r s1 Hs1. by apply wp_ret, HQ.
Qed.

Lemma wp_block reason code o s (Q : DingTalkRobotOutbox → OutboxDb → Prop) :
  holds ms o s0 s →
  (∀ mapped s', holds ms (Row.with_block reason mapped o) s0 s' → Q (Row.with_block reason mapped o) s') →
  (∀ e mapped s', holds ms (Row.with_block reason mapped o) s0 s' → X e s') →
  wp (_block reason code o) Q X s.
Proof.
  intros Hs HQ HX. apply wp_bind, wp_assign; [done|by destruct o|]. intros s1 Hs1.
  apply wp_bind, wp_outbox_audit; [done| |eauto]. intros s2 Hs2. by apply wp_ret, HQ.
Qed.
End Audited.
End Rules.

(** ** The checks of a dispatch *)

(** What [_dispatch_inputs] found in [s]. *)
Record inputs_hold `{ActionPlatform, PublicationGuard} (o : DingTalkRobotOutbox) (s : OutboxDb)
    (i : DispatchInputs) : Prop := {
  input_lineage : current_lineage s o = Some (input_line i, input_version i);
  input_fingerprint : sha256 (input_text i) = DingTalkRobotOutbox.content_fingerprint o;
  input_recipient : ∃ k k', recorded (core s) k ∧
    load_principal_by_id (DingTalkRobotOutbox.organization_id o) (DingTalkRobotOutbox.recipient_user_id o) k =
      Ok (input_principal i) k';
  input_access : ∃ k k' run, recorded (core s) k ∧
    require_run_content (input_principal i) (Run.id (line_run (input_line i))) false
      (Some (default "" (ImInstallation.external_corp_id (line_installation (input_line i))))) k = Ok run k'
}.

(** Run a prefix that sends nothing, remembering that it answered. *)
Lemma wp_asks_eq {A} id (m : Py OutboxDb A) (Q : A → OutboxDb → Prop) (X : exn → OutboxDb → Prop) s :
  Asks id m → (∀ a s', m s = Ok a s' → asked id s s' → Q a s') → (∀ e s', asked id s s' → X e s') → wp m Q X s.
Proof. intros Hm HQ HX. specialize (Hm s). unfold wp in *. destruct (m s) eqn:Hs; eauto. Qed.

Lemma wp_kernel_eq {A} (m : Py Kernel A) (Q : A → OutboxDb → Prop) (X : exn → OutboxDb → Prop) s :
  Recording m → (∀ a k, m (core s) = Ok a k → recorded (core s) k → Q a (set_kernel k s)) →
  (∀ e k, X e (set_kernel k s)) → wp (in_kernel m) Q X s.
Proof.
  intros Hm HQ HX. apply wp_in_kernel. specialize (Hm (core s)). unfold wp in *. cbn.
  destruct (m (core s)) eqn:Hk; [by apply HQ|apply HX].
Qed.

Section Checks.
Context `{Environment, EventContracts, JsonEncoder, ActionPlatform, RobotVendor,
  RateLimiter (gmap string Window), PublicationGuard, OutboxSettings}.

Lemma answer_asks id org run_id : Asks id (_answer_for_run_metadata org run_id).
Proof. unfold _answer_for_run_metadata, value_error. asks. Qed.
#[local] Hint Resolve answer_asks : asks.

Lemma member_permitted_asks id org run_id corp member : Asks id (member_permitted org run_id corp member).
Proof. unfold member_permitted. asks. Qed.
#[local] Hint Resolve member_permitted_asks : asks.

Lemma all_permitted_asks id org run_id corp members : Asks id (all_permitted org run_id corp members).
Proof. induction members as [|m l IH]; cbn; asks. Qed.
#[local] Hint Resolve all_permitted_asks : asks.

Lemma group_delivery_asks id r m p text classification : Asks id (_group_delivery r m p text classification).
Proof. unfold _group_delivery. asks. Qed.
#[local] Hint Resolve group_delivery_asks : asks.

Lemma current_text_asks id o l : Asks id (current_text o l).
Proof. unfold current_text. asks. Qed.
#[local] Hint Resolve current_text_asks : asks.

Lemma dispatch_inputs_asks id o : Asks id (_dispatch_inputs o).
Proof. unfold _dispatch_inputs. asks. Qed.
#[local] Hint Resolve dispatch_inputs_asks : asks.

Lemma authorize_send_asks id o text : Asks id (authorize_send o text).
Proof. unfold authorize_send. asks. Qed.

Lemma wp_fence_held o s (Q : bool → OutboxDb → Prop) X :
  (∀ held, Q held s) → (∀ e, X e s) → wp (fence_held o) Q X s.
Proof.
  intros HQ HX. unfold fence_held. apply wp_try_catch, wp_bind, wp_read; [apply _|].
  apply wp_pure; [apply _| |]; intros; [by apply wp_ret|]. case_bool_decide; [by apply wp_ret|done].
Qed.

Lemma current_text_ok o l s :
  wp (current_text o l) (λ t _, ∀ text, t = Some text → sha256 text = DingTalkRobotOutbox.content_fingerprint o)
    (λ _ _, True) s.
Proof.
  unfold current_text. apply wp_bind. eapply (wp_asks 0%N); [asks| |done]. intros [text classification] s1 _.
  apply wp_bind. eapply (wp_asks 0%N); [asks| |done]. intros [content|] s2 _; [|by apply wp_ret].
  destruct (_ || _) eqn:Hc; apply wp_ret; [done|]. intros ? [= <-]. by split_bool.
Qed.

Lemma wp_dispatch_inputs id o s Q X :
  (∀ s', asked id s s' → Q None s') → (∀ i s', asked id s s' → inputs_hold o s i → Q (Some i) s') →
  (∀ e s', asked id s s' → X e s') → wp (_dispatch_inputs o) Q X s.
Proof.
  intros HN HS HX.
  assert (wp (_dispatch_inputs o) (λ r _, ∀ i, r = Some i → inputs_hold o s i) (λ _ _, True) s) as Hok.
  { unfold _dispatch_inputs. apply wp_bind, wp_gets.
    destruct (current_lineage s o) as [[l version]|] eqn:Hl; [|by apply wp_ret].
    apply wp_try_catch, wp_bind.
    eapply wp_mono; [apply (wp_and _ _ _ _ _ _ (current_text_asks id o l s) (current_text_ok o l s))|..].
    2:{ intros e s1 _. destruct (denied e); [by apply wp_ret|done]. }
    intros [text|] s1 [Hs1 Htext]; [|by apply wp_ret]. apply wp_bind, wp_kernel_eq; [apply _| |].
    2:{ intros e k. destruct (denied e); [by apply wp_ret|done]. }
    intros principal k1 Hp Hk1. apply wp_bind, wp_kernel_eq; [apply _| |].
    2:{ intros e k. destruct (denied e); [by apply wp_ret|done]. }
    intros run k2 Hr Hk2. apply wp_ret. intros i [= <-].
    assert (recorded (core s) (core s1)) as Hs by by destruct Hs1 as (? & [] & _).
    split; cbn; [done|by apply Htext|by exists (core s1), k1|].
    exists k1, k2, run. split; [by transitivity (core s1)|done]. }
  eapply wp_mono; [apply (wp_and _ _ _ _ _ _ (dispatch_inputs_asks id o s) Hok)|..].
  - intros [i|] s' [Hs' Hi]; [apply HS|apply HN]; auto.
  - intros e s' [Hs' _]. auto.
Qed.

(** An authorized send: the lease had not run out when it was read, and the checks were
    passed once more with the same text. *)
Lemma authorize_send_true o text s s' :
  authorize_send o text s = Ok true s' →
  ∃ lease now k i, DingTalkRobotOutbox.lease_expires_at o = Some lease ∧ (now < lease)%Z ∧
    utc_now (core s) = Ok now k ∧ inputs_hold o (set_kernel k s) i ∧ input_text i = text.
Proof.
  intros Hok.
  assert (wp (authorize_send o text) (λ b _, b = true →
    ∃ lease now k i, DingTalkRobotOutbox.lease_expires_at o = Some lease ∧ (now < lease)%Z ∧
      utc_now (core s) = Ok now k ∧ inputs_hold o (set_kernel k s) i ∧ input_text i = text) (λ _ _, True) s) as Hwp.
  { unfold authorize_send. destruct (DingTalkRobotOutbox.lease_expires_at o) as [lease|]; [|by apply wp_ret].
    apply wp_bind, wp_kernel_eq; [apply _| |done]. intros now k Hnow _.
    destruct (Z.leb_spec lease now); [by apply wp_ret|].
    apply wp_bind. apply (wp_dispatch_inputs 0%N); [| |done].
    - intros s1 _. apply wp_ret. intros Hb. by apply bool_decide_eq_true in Hb.
    - intros i s1 _ Hi. apply wp_ret. intros Hb. apply bool_decide_eq_true in Hb.
      exists lease, now, k, i. by injection Hb. }
  unfold wp in Hwp. rewrite Hok in Hwp. by apply Hwp.
Qed.
End Checks.

(** ** The outcome of a dispatch *)

Definition after_sending : list DingTalkOutboxStatus :=
  [DingTalkOutboxStatus.ACCEPTED; DingTalkOutboxStatus.REJECTED; DingTalkOutboxStatus.UNKNOWN].

(** The same delivery, at the same attempt. *)
Definition same_attempt (o o' : DingTalkRobotOutbox) : Prop :=
  DingTalkRobotOutbox.id o' = DingTalkRobotOutbox.id o ∧
  DingTalkRobotOutbox.run_id o' = DingTalkRobotOutbox.run_id o ∧
  DingTalkRobotOutbox.inbox_message_id o' = DingTalkRobotOutbox.inbox_message_id o ∧
  DingTalkRobotOutbox.fencing_token o' = DingTalkRobotOutbox.fencing_token o ∧
  DingTalkRobotOutbox.attempt_count o' = DingTalkRobotOutbox.attempt_count o.

(** The row [o'] says that nothing was sent: it waits for its next attempt, or it is
    blocked. *)
Definition settled_unsent `{OutboxSettings} (o o' : DingTalkRobotOutbox) : Prop :=
  DingTalkRobotOutbox.status o' = DingTalkOutboxStatus.BLOCKED ∧
  (DingTalkRobotOutbox.blocked_reason o' = Some "delivery_retry_exhausted" →
     (max_attempts ≤ DingTalkRobotOutbox.attempt_count o)%Z) ∨
  DingTalkRobotOutbox.status o' = DingTalkOutboxStatus.QUEUED ∧
  is_Some (DingTalkRobotOutbox.next_attempt_at o') ∧
  (DingTalkRobotOutbox.attempt_count o < max_attempts)%Z.

(** The message [q] is one a dispatch of [o] in [s] may send. *)
Definition message_governed `{Environment, EventContracts, JsonEncoder, ActionPlatform, RobotVendor,
    RateLimiter (gmap string Window), PublicationGuard, OutboxSettings}
    (o : DingTalkRobotOutbox) (s : OutboxDb) (q : VendorRequest) : Prop :=
  ∃ i token r decision s1 s2,
    let d := delivery_of o (input_line i) (ImInboxMessage.sender_id (line_inbox (input_line i)))
               (input_version i) (input_principal i) in
    inputs_hold o s i ∧ governed d s r decision ∧ contains token (input_text i) = false ∧
    q = MkRequest (DingTalkRobotOutbox.id o) (recipient_path d) "POST" (recipient_data d (input_text i)) (Some token) ∧
    asked (DingTalkRobotOutbox.id o) s s1 ∧ authorize_send o (input_text i) s1 = Ok true s2.

#[export] Instance same_attempt_preorder : PreOrder same_attempt.
Proof.
  split; [done|]. intros o1 o2 o3 (? & ? & ? & ? & ?) (? & ? & ? & ? & ?). split_and!; congruence.
Qed.

Lemma holds_grew ms o s0 s id : holds ms o s0 s → DingTalkRobotOutbox.id o = id → vendor_grew id ms s0 s.
Proof. by intros [] <-. Qed.

Section Outcome.
Context `{Environment, EventContracts, JsonEncoder, ActionPlatform, RobotVendor,
  RateLimiter (gmap string Window), PublicationGuard, OutboxSettings}.

(** The end all branches of [settle] but one share. *)
Lemma wp_finish ms f v o s0 s (Q : DingTalkRobotOutbox → OutboxDb → Prop) (X : exn → OutboxDb → Prop) :
  holds ms o s0 s → DingTalkRobotOutbox.id (f o) = DingTalkRobotOutbox.id o →
  (∀ mapped s', holds ms (Row.with_last_error mapped (f o)) s0 s' → Q (Row.with_last_error mapped (f o)) s') →
  (∀ e s', vendor_grew (DingTalkRobotOutbox.id o) ms s0 s' → X e s') →
  wp (o' ← assign f o; o' ← _set_last_error v o';
      outbox_audit o' (value_of (DingTalkRobotOutbox.status o')) [];; mret o') Q X s.
Proof.
  intros Hs Hid HQ HX. apply wp_bind. eapply wp_assign; [done..|]. intros s1 Hs1.
  apply wp_bind. eapply wp_set_last_error; [done|]. intros s2 Hs2.
  apply wp_bind. eapply wp_outbox_audit; [done|..].
  - intros s3 Hs3. by apply wp_ret, HQ.
  - intros e s3 Hs3. eapply HX, holds_grew; [done|]. by destruct (f o).
Qed.

Lemma wp_settle ms sent o s0 s (Q : DingTalkRobotOutbox → OutboxDb → Prop) (X : exn → OutboxDb → Prop) :
  holds ms o s0 s →
  (∀ o' s', holds ms o' s0 s' → same_attempt o o' →
     (if bool_decide (RobotSendResult.state sent = RobotSendState.NOT_ATTEMPTED) then settled_unsent o o'
      else DingTalkRobotOutbox.status o' ∈ after_sending) → Q o' s') →
  (∀ e s', vendor_grew (DingTalkRobotOutbox.id o) ms s0 s' → X e s') →
  wp (settle sent o) Q X s.
Proof.
  intros Hs HQ HX. unfold settle. destruct (RobotSendResult.state sent) eqn:Hstate.
  2-4: eapply wp_finish; [done|by destruct o| |done]; intros mapped s1 Hs1; eapply HQ; [done|by destruct o|];
    destruct o; cbn; set_solver.
  destruct (Z.leb_spec max_attempts (DingTalkRobotOutbox.attempt_count o)).
  - eapply wp_block; [done|..].
    + intros mapped s1 Hs1. eapply HQ; [done|by destruct o|]. left. by destruct o.
    + intros e mapped s1 Hs1. eapply HX, holds_grew; [done|by destruct o].
  - apply wp_bind. eapply wp_held_kernel; [apply _|done| |].
    2:{ intros e s1 Hs1. by eapply HX, holds_grew. }
    intros now s1 Hs1. eapply wp_finish; [done|by destruct o| |done].
    intros mapped s2 Hs2. eapply HQ; [done|by destruct o|]. right. by destruct o.
Qed.

(** How a dispatch settled the row [o] of [s]: by whether a message left. *)
Definition outcome_for (o : DingTalkRobotOutbox) (s : OutboxDb) (ms : list VendorRequest)
    (o' : DingTalkRobotOutbox) : Prop :=
  ms = [] ∧ settled_unsent o o' ∨
  (∃ q, ms = [q] ∧ message_governed o s q) ∧ DingTalkRobotOutbox.status o' ∈ after_sending.

Definition settled (o : DingTalkRobotOutbox) (s : OutboxDb) (r : option DingTalkRobotOutbox) (s' : OutboxDb) : Prop :=
  ∃ o' ms, r = Some o' ∧ holds ms o' s s' ∧ same_attempt o o' ∧ outcome_for o s ms o'.

Definition interrupted (o : DingTalkRobotOutbox) (s s' : OutboxDb) : Prop :=
  ∃ ms, vendor_grew (DingTalkRobotOutbox.id o) ms s s' ∧ (ms = [] ∨ ∃ q, ms = [q] ∧ message_governed o s q).

(** What a dispatch leaves: nothing, if the claim is stale; otherwise the row settled. *)
Definition dispatched (c : OutboxClaim) (s : OutboxDb) (r : option DingTalkRobotOutbox) (s' : OutboxDb) : Prop :=
  match claimed_row c s with
  | None => r = None ∧ s' = s
  | Some o => settled o s r s'
  end.

Definition dispatch_raised (c : OutboxClaim) (s s' : OutboxDb) : Prop :=
  ∃ o, claimed_row c s = Some o ∧ interrupted o s s'.

Lemma claimed_row_Some c s o :
  claimed_row c s = Some o →
  outbox s !! claim_outbox c = Some o ∧ DingTalkRobotOutbox.id o = claim_outbox c ∧
  DingTalkRobotOutbox.status o = DingTalkOutboxStatus.DISPATCHING ∧
  DingTalkRobotOutbox.fencing_token o = fencing_token c.
Proof.
  unfold claimed_row. destruct (row_by _ _ _) as [o1|] eqn:Ho; [|done]. apply row_by_Some in Ho as [Ho Hid].
  cbn. destruct (bool_decide _ && _) eqn:Hc; [|done]. intros [= <-]. split_bool.
  split_and!; try done. by apply Z.eqb_eq.
Qed.

Lemma governed_before id q s s1 r d : asked id s s1 → governed q s1 r d → governed q s r d.
Proof.
  intros (l & [] & _) [? ? (k & k' & Hk & ?) ? ?]. split; try done. exists k, k'.
  split; [by transitivity (core s1)|done].
Qed.

(** [touch; return], the end of every branch. *)
Lemma wp_answer o o' ms s s1 (X : exn → OutboxDb → Prop) :
  holds ms o' s s1 → same_attempt o o' → outcome_for o s ms o' → (∀ e s', interrupted o s s' → X e s') →
  wp (o0 ← touch o'; mret (Some o0)) (settled o s) X s1.
Proof.
  intros Hs1 Hsame Hout HX. apply wp_bind. eapply wp_touch; [done|..].
  - intros now s2 Hs2. apply wp_ret. exists (Row.with_updated now o'), ms. split; [done|].
    split; [done|]. split; [destruct o'; exact Hsame|]. destruct o'; exact Hout.
  - intros e s2 Hs2. apply HX. exists ms. split; [eapply holds_grew; [done|by destruct Hsame]|].
    by destruct Hout as [[? _]|[? _]]; [left|right].
Qed.

Lemma interrupted_asked o s s' : asked (DingTalkRobotOutbox.id o) s s' → interrupted o s s'.
Proof. intros Hs'. exists []. split; [by apply sent_grew|by left]. Qed.

(** The branches that block before the gateway is called. *)
Lemma wp_blocked o reason s s1 (X : exn → OutboxDb → Prop) :
  outbox s !! DingTalkRobotOutbox.id o = Some o → asked (DingTalkRobotOutbox.id o) s s1 →
  reason ≠ "delivery_retry_exhausted" → (∀ e s', interrupted o s s' → X e s') →
  wp (o' ← _block reason None o; o0 ← touch o'; mret (Some o0)) (settled o s) X s1.
Proof.
  intros Ho Hs1 Hreason HX. apply wp_bind. eapply wp_block; [by apply holds_start|..].
  - intros mapped s2 Hs2. eapply wp_answer; [done|by destruct o| |done]. left. split; [done|]. left. destruct o. cbn.
    split; [done|]. by intros [=].
  - intros e mapped s2 Hs2. apply HX. exists []. split; [|by left].
    eapply holds_grew; [done|by destruct o].
Qed.

(** What the gateway answered is written down. *)
Lemma wp_written o r ms s s1 (X : exn → OutboxDb → Prop) :
  outbox s !! DingTalkRobotOutbox.id o = Some o → sent (DingTalkRobotOutbox.id o) ms s s1 →
  (RobotSendResult.state (send_result r) = RobotSendState.NOT_ATTEMPTED ∧ ms = [] ∨
   RobotSendResult.state (send_result r) ≠ RobotSendState.NOT_ATTEMPTED ∧ ∃ q, ms = [q] ∧ message_governed o s q) →
  (∀ e s', interrupted o s s' → X e s') →
  wp (o' ← assign (Row.with_policy_decision (send_policy_decision_id r)) o;
      o' ← settle (send_result r) o'; o0 ← touch o'; mret (Some o0)) (settled o s) X s1.
Proof.
  intros Ho Hs1 Hms HX. apply wp_bind. eapply wp_assign; [by apply holds_start|by destruct o|]. intros s2 Hs2.
  apply wp_bind. eapply wp_settle; [done|..].
  - intros o' s3 Hs3 Hsame Hout. eapply wp_answer; [done|by destruct o| |done].
    destruct Hms as [[Hstate ->]|[Hstate Hq]].
    + rewrite bool_decide_eq_true_2 in Hout by done. left. split; [done|]. by destruct o.
    + rewrite bool_decide_eq_false_2 in Hout by done. by right.
  - intros e s3 Hs3. apply HX. exists ms. split; [by destruct o|]. by destruct Hms as [[_ ->]|[_ ?]]; [left|right].
Qed.

(** A message the gateway sends on behalf of a dispatch is a governed one. *)
Lemma message_is_governed o l text version principal s s1 s2 r decision :
  let d := delivery_of o l (ImInboxMessage.sender_id (line_inbox l)) version principal in
  asked (DingTalkRobotOutbox.id o) s s1 → inputs_hold o s (MkInputs l text version principal) →
  governed d s1 r decision →
  message_sent (DingTalkRobotOutbox.id o) (recipient_path d) (recipient_data d text) text (authorize_send o text) s1 s2 →
  ∃ q, sent (DingTalkRobotOutbox.id o) [q] s s2 ∧ message_governed o s q.
Proof.
  cbv zeta. intros Hs1 Hi Hg [(token & Hq & Hleak) (s3 & s4 & Hs3 & Ha)]. eexists.
  split; [by eapply asked_sent|].
  exists (MkInputs l text version principal), token, r, decision, s3, s4.
  split; [done|]. split; [by eapply governed_before|]. split; [done|]. split; [done|].
  split; [by transitivity s1|done].
Qed.

Lemma wp_dispatch c s : wp (dispatch c) (dispatched c s) (λ _, dispatch_raised c s) s.
Proof.
  unfold dispatch, dispatched, dispatch_raised. apply wp_bind, wp_gets.
  destruct (claimed_row c s) as [o|] eqn:Hc; [|by apply wp_ret].
  apply claimed_row_Some in Hc as (Ho & Hid & _). rewrite <-Hid in Ho. cbv zeta.
  assert (∀ (e : exn) s', interrupted o s s' → ∃ o0, Some o = Some o0 ∧ interrupted o0 s s') as HX
    by (intros e s' ?; by exists o).
  apply wp_bind, wp_fence_held.
  2:{ intros e. apply (HX e), interrupted_asked. done. }
  intros held. destruct held; cbn [negb]; [|by apply wp_blocked].
  apply wp_bind, (wp_dispatch_inputs (DingTalkRobotOutbox.id o)).
  { intros s1 Hs1. by apply wp_blocked. }
  2:{ intros e s1 Hs1. by apply (HX e), interrupted_asked. }
  intros [l text version principal] s1 Hs1 Hi.
  apply wp_bind, wp_invoke; [apply authorize_send_asks|..].
  - intros r s2 Hstate Hs2. apply (wp_written _ _ []); [done|by transitivity s1|by left|done].
  - intros r rc decision s2 Hstate Hg Hs2.
    eapply message_is_governed in Hs2 as (q & Hq & Hgov); [|done..].
    apply (wp_written _ _ [q]); [done|done| |done]. right. split; [done|by exists q].
  - intros e s2 Hs2. apply (HX e), interrupted_asked. by transitivity s1.
  - intros e rc decision s2 Hg Hs2. eapply message_is_governed in Hs2 as (q & Hq & Hgov); [|done..].
    apply (HX e). exists [q]. split; [by eapply sent_grew|]. right. by exists q.
Qed.
(** What holds of a message [q] that leaves for the claimed row [o] of [s]. *)
Record accountable (o : DingTalkRobotOutbox) (s : OutboxDb) (q : VendorRequest) : Prop := {
  (** It carries the very text that was queued, to the conversation of the delivery. *)
  accountable_message : ∃ i token,
    let d := delivery_of o (input_line i) (ImInboxMessage.sender_id (line_inbox (input_line i)))
               (input_version i) (input_principal i) in
    inputs_hold o s i ∧
    q = MkRequest (DingTalkRobotOutbox.id o) (recipient_path d) "POST" (recipient_data d (input_text i)) (Some token) ∧
    contains token (input_text i) = false ∧
    (** The policy engine allowed it without obligations, through a granted connector
        whose configuration is the one that was queued. *)
    ∃ r decision, governed d s r decision;
  (** After the vendor issued its token, the lease still ran and every check passed again,
      with the same text. *)
  accountable_recheck : ∃ s1 lease now k i,
    asked (DingTalkRobotOutbox.id o) s s1 ∧ utc_now (core s1) = Ok now k ∧
    DingTalkRobotOutbox.lease_expires_at o = Some lease ∧ (now < lease)%Z ∧ inputs_hold o (set_kernel k s1) i ∧
    sha256 (input_text i) = DingTalkRobotOutbox.content_fingerprint o
}.

Lemma governed_accountable o s q : message_governed o s q → accountable o s q.
Proof.
  intros (i & token & r & decision & s1 & s2 & Hi & Hg & Hleak & Hq & Hs1 & Ha). split.
  - exists i, token. split; [done|]. split; [done|]. split; [done|]. by exists r, decision.
  - apply authorize_send_true in Ha as (lease & now & k & i' & Hl & Hlt & Hnow & Hi' & Htext).
    exists s1, lease, now, k, i'. split_and!; try done. by destruct Hi'.
Qed.

End Outcome.
