(* ===== verification/OutboxJobs.v ===== *)
(** * The other transactions on the outbox

    [background] is what every transaction but a claim and a dispatch may do: settle
    expired claims, enqueue or refresh one delivery, note a receipt.  None of them sends
    a message. *)

From S2P Require Import Prelude PyText PyVal Enums Models Kernel CanonicalJson Events EventLog.
From S2P Require Import Identity Policy RateLimit ActionState ActionGateway RobotTransport.
From S2P Require Import RobotGateway OutboxService OutboxDispatch OutboxFacts OutboxSettles.

(** Every row is stored under its id. *)
Definition keyed (s : OutboxDb) : Prop := ∀ k o, outbox s !! k = Some o → DingTalkRobotOutbox.id o = k.

(** No message left between two states. *)
Definition quiet (s s' : OutboxDb) : Prop := messages (vendor s') = messages (vendor s).

#[export] Instance quiet_preorder : PreOrder quiet.
Proof. split; [done|]. unfold quiet. intros ? ? ? -> ->. done. Qed.

Lemma grew_quiet id s s' : vendor_grew id [] s s' → quiet s s'.
Proof. intros (l & Hv & _ & Hl). unfold quiet. by rewrite Hv, messages_app, Hl, app_nil_r. Qed.

Lemma holds_quiet o s s' : holds [] o s s' → quiet s s'.
Proof. intros []. by eapply grew_quiet. Qed.

Lemma asked_quiet id s s' : asked id s s' → quiet s s'.
Proof. intros Hs. by eapply grew_quiet, sent_grew. Qed.

(** A delivery that may be queued again. *)
Definition retryable (o : DingTalkRobotOutbox) : Prop :=
  DingTalkRobotOutbox.status o = DingTalkOutboxStatus.BLOCKED ∧
  DingTalkRobotOutbox.blocked_reason o ≠ Some "delivery_retry_exhausted".

Definition waiting (o : DingTalkRobotOutbox) : Prop :=
  retryable o ∨
  DingTalkRobotOutbox.status o = DingTalkOutboxStatus.QUEUED ∧ is_Some (DingTalkRobotOutbox.next_attempt_at o).

Definition new_run (s : OutboxDb) (o' : DingTalkRobotOutbox) : Prop :=
  ∀ k o, outbox s !! k = Some o → DingTalkRobotOutbox.run_id o ≠ DingTalkRobotOutbox.run_id o'.

Inductive row_evolves (s : OutboxDb) : option DingTalkRobotOutbox → option DingTalkRobotOutbox → Prop :=
| unmoved x : row_evolves s x x
| appears o' :
    waiting o' → new_run s o' → DingTalkRobotOutbox.fencing_token o' = 0%Z →
    DingTalkRobotOutbox.attempt_count o' = 0%Z → row_evolves s None (Some o')
| refreshes o o' : retryable o → waiting o' → same_attempt o o' → row_evolves s (Some o) (Some o')
| expires o o' :
    DingTalkRobotOutbox.status o = DingTalkOutboxStatus.DISPATCHING →
    DingTalkRobotOutbox.status o' = DingTalkOutboxStatus.UNKNOWN → same_attempt o o' →
    row_evolves s (Some o) (Some o')
| receives o o' :
    DingTalkRobotOutbox.status o = DingTalkOutboxStatus.ACCEPTED →
    DingTalkRobotOutbox.status o' ∈ [DingTalkOutboxStatus.ACCEPTED; DingTalkOutboxStatus.REJECTED] →
    same_attempt o o' → row_evolves s (Some o) (Some o').

Record background (s s' : OutboxDb) : Prop := {
  background_quiet : quiet s s';
  background_rows k : row_evolves s (outbox s !! k) (outbox s' !! k);
  background_keyed : keyed s → keyed s';
  background_one_new k1 k2 :
    outbox s !! k1 = None → outbox s !! k2 = None → is_Some (outbox s' !! k1) → is_Some (outbox s' !! k2) → k1 = k2
}.

Lemma background_idle s s' : outbox s' = outbox s → quiet s s' → background s s'.
Proof.
  intros Ho Hq. split; unfold keyed; rewrite ?Ho; [done|intros; apply unmoved|done|].
  intros k1 k2 -> _ [? ?]. done.
Qed.

(** A transaction that writes one row. *)
Lemma background_row o' s s' :
  holds [] o' s s' → row_evolves s (outbox s !! DingTalkRobotOutbox.id o') (Some o') → background s s'.
Proof.
  intros Hs Hrow. split.
  - by eapply holds_quiet.
  - intros k. rewrite (holds_outbox _ _ _ _ Hs). destruct (decide_rel eq k (DingTalkRobotOutbox.id o')) as [->|Hne].
    + by rewrite lookup_insert_eq.
    + rewrite lookup_insert_ne by done. apply unmoved.
  - intros Hk k o. rewrite (holds_outbox _ _ _ _ Hs), lookup_insert_Some. intros [[<- <-]|[_ Ho]]; [done|by eapply Hk].
  - intros k1 k2. rewrite (holds_outbox _ _ _ _ Hs), !lookup_insert_is_Some. intros Hk1 Hk2 [<-|[_ []]] [<-|[_ []]]; congruence.
Qed.

(** ** Expiry *)

(** The rows of [l] are settled as unknown, all others are as they were. *)
Record swept (l : list DingTalkRobotOutbox) (s s' : OutboxDb) : Prop := {
  swept_quiet : quiet s s';
  swept_rows o : o ∈ l → ∃ o', outbox s' !! DingTalkRobotOutbox.id o = Some o' ∧ same_attempt o o' ∧
    DingTalkRobotOutbox.status o' = DingTalkOutboxStatus.UNKNOWN;
  swept_others k : k ∉ DingTalkRobotOutbox.id <$> l → outbox s' !! k = outbox s !! k
}.

Section Expiry.
Context `{Environment, JsonEncoder}.

Lemma wp_expire_claim o s Q (X : exn → OutboxDb → Prop) :
  outbox s !! DingTalkRobotOutbox.id o = Some o →
  (∀ o' s', holds [] o' s s' → same_attempt o o' →
     DingTalkRobotOutbox.status o' = DingTalkOutboxStatus.UNKNOWN → Q () s') →
  (∀ e s', quiet s s' → X e s') → wp (expire_claim o) Q X s.
Proof.
  intros Ho HQ HX. apply wp_bind. eapply (wp_assign (ms := [])); [by apply holds_start|by destruct o|].
  intros s1 Hs1. apply wp_bind. eapply wp_set_last_error; [done|]. intros s2 Hs2.
  apply wp_bind. eapply wp_outbox_audit; [done|..]; [|intros; by eapply HX, holds_quiet].
  intros s3 Hs3. apply wp_bind. eapply wp_touch; [done|..]; [|intros; by eapply HX, holds_quiet].
  intros now s4 Hs4. apply wp_ret. eapply HQ; [done|by destruct o..].
Qed.

Lemma wp_expire_all l s Q (X : exn → OutboxDb → Prop) :
  NoDup (DingTalkRobotOutbox.id <$> l) → (∀ o, o ∈ l → outbox s !! DingTalkRobotOutbox.id o = Some o) →
  (∀ s', swept l s s' → Q () s') → (∀ e s', quiet s s' → X e s') →
  wp (for_each l expire_claim) Q X s.
Proof.
  revert s Q X. induction l as [|o l IH]; intros s Q X Hd Hl HQ HX.
  { apply wp_ret, HQ. split; [done|intros o Ho; by apply not_elem_of_nil in Ho|done]. }
  apply NoDup_cons in Hd as [Hno Hd]. cbn. apply wp_bind, wp_expire_claim; [apply Hl; left| |done].
  intros o' s1 Hs1 Hsame Hstatus.
  assert (∀ k, k ≠ DingTalkRobotOutbox.id o → outbox s1 !! k = outbox s !! k) as Hother.
  { intros k Hk. rewrite (holds_outbox _ _ _ _ Hs1), lookup_insert_ne; [done|]. by destruct Hsame as [-> _]. }
  apply IH; [done| | |].
  - intros x Hx. rewrite Hother; [apply Hl; by right|]. intros Hid. apply Hno. rewrite <-Hid. by apply list_elem_of_fmap_2.
  - intros s2 [Hq Hrows Hothers]. apply HQ. split.
    + transitivity s1; [by eapply holds_quiet|done].
    + intros x [->|Hx]%elem_of_cons; [|by apply Hrows]. exists o'. split; [|done].
      rewrite Hothers by done. rewrite (holds_outbox _ _ _ _ Hs1). destruct Hsame as [<- _]. by rewrite lookup_insert_eq.
    + intros k [Hk Hkl]%not_elem_of_cons. rewrite Hothers by done. by apply Hother.
  - intros e s2 Hs2. apply HX. transitivity s1; [by eapply holds_quiet|done].
Qed.
End Expiry.

Lemma keyed_ids s : keyed s → DingTalkRobotOutbox.id <$> rows (outbox s) = (map_to_list (outbox s)).*1.
Proof.
  intros Hk. unfold rows. rewrite <-list_fmap_compose. apply list_fmap_ext. intros i [k o] Ho. cbn.
  apply Hk. by apply elem_of_map_to_list, list_elem_of_lookup_2 with i.
Qed.

(** The rows of a query, in any order, are rows of the table, once each. *)
Lemma queried_ids le (P : DingTalkRobotOutbox → Prop) `{∀ o, base.Decision (P o)} (Q : DingTalkRobotOutbox → bool) s n :
  keyed s → NoDup (DingTalkRobotOutbox.id <$> take n (order_by le (filter P (select Q (outbox s))))).
Proof.
  intros Hk. eapply sublist_NoDup; [|apply fmap_sublist, sublist_take]. rewrite order_by_perm.
  eapply sublist_NoDup; [|apply fmap_sublist, sublist_filter].
  eapply sublist_NoDup; [|apply fmap_sublist, sublist_filter].
  rewrite keyed_ids by done. apply NoDup_fst_map_to_list.
Qed.

Lemma queried_row le (P : DingTalkRobotOutbox → Prop) `{∀ o, base.Decision (P o)} (Q : DingTalkRobotOutbox → bool) s o :
  keyed s → o ∈ order_by le (filter P (select Q (outbox s))) →
  outbox s !! DingTalkRobotOutbox.id o = Some o ∧ Q o = true ∧ P o.
Proof.
  intros Hk. rewrite elem_of_order_by, list_elem_of_filter, elem_of_select.
  intros (HP & HQ & k & Ho). by rewrite (Hk _ _ Ho).
Qed.

Section Jobs.
Context `{Environment, EventContracts, JsonEncoder, ActionPlatform, RobotVendor,
  RateLimiter (gmap string Window), PublicationGuard, OutboxSettings}.

(** Read the clock. *)
Lemma wp_now s (Q : Z → OutboxDb → Prop) X :
  (∀ now k, utc_now (core s) = Ok now k → same_tables (core s) k → Q now (set_kernel k s)) →
  wp (in_kernel utc_now) Q X s.
Proof.
  intros HQ. apply wp_in_kernel.
  pose proof (wp_utc_now (core s) (λ now k, same_tables (core s) k) (λ _ _, False)) as Hk.
  unfold wp in *. cbn. destruct (utc_now (core s)) as [now k|] eqn:Hnow; [|by destruct Hk]. apply HQ; [done|by apply Hk].
Qed.

Lemma swept_background l s0 s s' :
  outbox s = outbox s0 → vendor s = vendor s0 → keyed s →
  (∀ o, o ∈ l → outbox s !! DingTalkRobotOutbox.id o = Some o ∧
                DingTalkRobotOutbox.status o = DingTalkOutboxStatus.DISPATCHING) →
  swept l s s' → background s0 s'.
Proof.
  intros Ho Hv Hk Hl [Hq Hrows Hothers].
  assert (∀ k, (∃ o o', k = DingTalkRobotOutbox.id o ∧ o ∈ l ∧ outbox s !! k = Some o ∧ outbox s' !! k = Some o' ∧
      same_attempt o o' ∧ DingTalkRobotOutbox.status o' = DingTalkOutboxStatus.UNKNOWN) ∨
    outbox s' !! k = outbox s !! k) as Hcase.
  { intros k. destruct (decide_rel elem_of k (DingTalkRobotOutbox.id <$> l)) as [Hin|Hin]; [left|right; auto].
    apply list_elem_of_fmap in Hin as (o & -> & Hin). destruct (Hrows o Hin) as (o' & ? & ? & ?).
    exists o, o'. by destruct (Hl o Hin). }
  split.
  - unfold quiet in *. by rewrite Hq, Hv.
  - intros k. rewrite <-Ho. destruct (Hcase k) as [(o & o' & -> & Hin & -> & -> & Hs & Hu)| ->]; [|apply unmoved].
    by apply expires; [apply Hl| |].
  - intros _ k x Hx. destruct (Hcase k) as [(o & o' & -> & Hin & _ & Ho' & Hs & Hu)|Hsame].
    + rewrite Ho' in Hx. injection Hx as <-. by destruct Hs.
    + rewrite Hsame in Hx. by apply Hk.
  - intros k1 k2 Hk1 _ [x Hx] _. rewrite <-Ho in Hk1.
    destruct (Hcase k1) as [(o & o' & _ & _ & ? & _)|Hsame]; congruence.
Qed.

(** A sweep settles the rows it found, and says how many. *)
Lemma wp_expire_claims locked s Q (X : exn → OutboxDb → Prop) :
  keyed s →
  (∀ now k s', utc_now (core s) = Ok now k → let l := expired_rows locked now s in
     swept l s s' → background s s' → Q (Z.of_nat (length l)) s') →
  (∀ e s', quiet s s' → X e s') → wp (expire_claims locked) Q X s.
Proof.
  intros Hk HQ HX. apply wp_bind, wp_now. intros now k Hnow Hk0. apply wp_bind, wp_gets.
  change (expired_rows locked now (set_kernel k s)) with (expired_rows locked now s).
  assert (∀ o, o ∈ expired_rows locked now s → outbox s !! DingTalkRobotOutbox.id o = Some o ∧
    DingTalkRobotOutbox.status o = DingTalkOutboxStatus.DISPATCHING) as Hl.
  { intros o Ho%subseteq_take. apply queried_row in Ho as (Ho & He & _); [|done]. split; [done|].
    unfold expired in He. by split_bool. }
  apply wp_bind, wp_expire_all.
  - by apply queried_ids.
  - intros o Ho. by apply Hl.
  - intros s' Hs'. apply wp_ret. eapply (HQ now k); [done|by destruct Hs'|].
    by apply (swept_background (expired_rows locked now s) s (set_kernel k s)).
  - done.
Qed.

(** ** Enqueueing *)

Lemma wp_block_waiting o s0 s reason (Q : DingTalkRobotOutbox → OutboxDb → Prop) (X : exn → OutboxDb → Prop) :
  holds [] o s0 s → reason ≠ "delivery_retry_exhausted" →
  (∀ o' s', holds [] o' s0 s' → same_attempt o o' → waiting o' → Q o' s') → (∀ e s', quiet s0 s' → X e s') →
  wp (_block reason None o) Q X s.
Proof.
  intros Hs Hreason HQ HX. eapply wp_block; [done|..].
  - intros mapped s1 Hs1. eapply HQ; [done|by destruct o|]. left. destruct o; cbn. split; [done|]. by intros [=].
  - intros e mapped s1 Hs1. by eapply HX, holds_quiet.
Qed.

Lemma holds_asked o s0 s s' :
  holds [] o s0 s → asked (DingTalkRobotOutbox.id o) s s' → holds [] o s0 s'.
Proof.
  intros [? ? ? ? (l1 & Hv1 & Ho1 & Hl1)] (l2 & [] & Hl2). split; try congruence.
  - by transitivity (core s).
  - exists (l1 ++ l2)%list. rewrite delivers_vendor, Hv1, app_assoc, messages_app, Hl1, Hl2.
    split; [done|]. split; [by apply Forall_app|done].
Qed.

(** A prefix that asks nothing of importance, while a row is held. *)
Lemma wp_held_asks {A} (m : Py OutboxDb A) o s0 s (Q : A → OutboxDb → Prop) (X : exn → OutboxDb → Prop) :
  Asks (DingTalkRobotOutbox.id o) m → holds [] o s0 s →
  (∀ a s', holds [] o s0 s' → Q a s') → (∀ e s', holds [] o s0 s' → X e s') → wp m Q X s.
Proof. intros Hm Hs HQ HX. eapply wp_asks; [done|..]; intros; [apply HQ|apply HX]; by eapply holds_asked. Qed.

Lemma prepared_inputs_asks id m r i :
  Asks id (try_catch
    (answer ← _answer_for_run_metadata (Run.organization_id r) (Run.id r);
     principal ← in_kernel (load_principal_by_id (Run.organization_id r) (ImInboxMessage.subject_user_id m));
     in_kernel (require_run_content principal (Run.id r) false
      (Some (default "" (ImInstallation.external_corp_id i))));;
     mret (Some (answer, principal)))
    (λ e, if denied e then Some (mret None) else None)).
Proof.
  apply try_catch_asks.
  - apply bind_asks; [apply answer_asks|]. intros answer. asks.
  - intros e k. destruct (denied e); [intros [= <-]; asks|done].
Qed.

Lemma wp_prepare_queue l o s0 s (Q : DingTalkRobotOutbox → OutboxDb → Prop) (X : exn → OutboxDb → Prop) :
  holds [] o s0 s →
  (∀ o' s', holds [] o' s0 s' → same_attempt o o' → waiting o' → Q o' s') → (∀ e s', quiet s0 s' → X e s') →
  wp (_prepare_queue l o) Q X s.
Proof.
  intros Hs HQ HX. destruct l as [m r i b c]. unfold _prepare_queue. cbv zeta.
  apply wp_bind. eapply wp_held_asks; [apply prepared_inputs_asks|done| |].
  2:{ intros e s1 Hs1. by eapply HX, holds_quiet. }
  intros [[[text classification] principal]|] s1 Hs1; [|by eapply wp_block_waiting].
  apply wp_bind. eapply wp_held_asks; [|done|..].
  { destruct (bool_decide _); [|asks]. apply bind_asks; [apply group_delivery_asks|asks]. }
  2:{ intros e s2 Hs2. by eapply HX, holds_quiet. }
  intros [[[audience mode] content]|] s2 Hs2; [|by eapply wp_block_waiting].
  apply wp_bind, wp_gets. destruct (negb _); [by eapply wp_block_waiting|].
  apply wp_bind. eapply wp_held_kernel; [apply _|done| |].
  2:{ intros e s3 Hs3. by eapply HX, holds_quiet. }
  intros now s3 Hs3. apply wp_bind. eapply wp_assign; [done|by destruct o|]. intros s4 Hs4.
  apply wp_bind. eapply wp_outbox_audit; [done|..]; [|intros e s5 Hs5; by eapply HX, holds_quiet].
  intros s5 Hs5. apply wp_ret. eapply HQ; [done|by destruct o|]. right. by destruct o.
Qed.

Lemma next_candidate_outbox locked s c o :
  keyed s → next_candidate locked s = Some c → candidate_outbox c = Some o →
  outbox s !! DingTalkRobotOutbox.id o = Some o ∧ retryable o.
Proof.
  intros Hk Hc%head_elem Ho. rewrite elem_of_order_by, list_elem_of_filter in Hc. destruct Hc as [_ Hc].
  unfold candidates in Hc. rewrite list_elem_of_filter in Hc. destruct Hc as [Hd%Is_true_true Hc]. split.
  - apply list_elem_of_bind in Hc as (m & Hc & _). destruct (lineage_of s m) as [l|]; [|by apply not_elem_of_nil in Hc].
    apply list_elem_of_bind in Hc as (o1 & Hc & Hin). apply list_elem_of_bind in Hc as (a & ->%list_elem_of_singleton & _).
    cbn in Ho. subst o1. unfold outer in Hin. destruct (select _ _) as [|x xs] eqn:Hsel; [by apply list_elem_of_singleton in Hin|].
    rewrite <-Hsel in Hin. apply list_elem_of_fmap in Hin as (o1 & [= <-] & Hin).
    apply elem_of_select in Hin as (_ & k & Hin). by rewrite (Hk _ _ Hin).
  - unfold deliverable in Hd. rewrite Ho in Hd. apply andb_true_iff in Hd as [_ Hd]. split_bool. split; [done|].
    destruct (DingTalkRobotOutbox.blocked_reason o); [|done]. split_bool. by intros [= ->].
Qed.

Lemma wp_insert_outbox o s (Q : () → OutboxDb → Prop) X :
  (∀ s', outbox s !! DingTalkRobotOutbox.id o = None → new_run s o → holds [] o s s' → Q () s') →
  X (PyError "IntegrityError") s → wp (insert_outbox o) Q X s.
Proof.
  intros HQ HX. apply wp_bind, wp_gets, wp_bind, wp_raise_if; intros Hc; [done|]. split_bool.
  apply wp_modify, HQ.
  - match goal with H : _ ≠ _ |- _ => rename H into Hid | H : ¬ _ |- _ => rename H into Hid end.
    by apply eq_None_not_Some.
  - intros k o1 Ho1 Hrun.
    match goal with H : existsb _ _ = false |- _ => apply not_true_iff_false in H; apply H end.
    apply existsb_true. exists o1. split; [apply elem_of_rows; by exists k|].
    apply orb_true_iff. left. by apply bool_decide_eq_true.
  - split; try done. exists []. by rewrite app_nil_r.
Qed.

Lemma wp_enqueue_next locked s Q (X : exn → OutboxDb → Prop) :
  keyed s → (∀ r s', background s s' → Q r s') → (∀ e s', quiet s s' → X e s') →
  wp (enqueue_next locked) Q X s.
Proof.
  intros Hk HQ HX. apply wp_bind, wp_gets.
  destruct (next_candidate locked s) as [c|] eqn:Hc; [|by apply wp_ret, HQ, background_idle].
  (* what follows the row *)
  assert (∀ o s1, holds [] o s s1 →
    (∀ o', same_attempt o o' → waiting o' → row_evolves s (outbox s !! DingTalkRobotOutbox.id o) (Some o')) →
    wp (o' ← _prepare_queue (candidate_line c) o; o' ← touch o'; mret (Some o')) Q X s1) as Hrest.
  { intros o s1 Hs1 Hrow. apply wp_bind. eapply wp_prepare_queue; [done| |done].
    intros o' s2 Hs2 Hsame Hw. apply wp_bind. eapply wp_touch; [done|..].
    - intros now s3 Hs3. apply wp_ret, HQ. eapply background_row; [done|].
      replace (DingTalkRobotOutbox.id (Row.with_updated now o')) with (DingTalkRobotOutbox.id o)
        by (destruct o', Hsame; symmetry; done).
      apply Hrow; destruct o'; done.
    - intros e s3 Hs3. by eapply HX, holds_quiet. }
  apply wp_bind. destruct (candidate_outbox c) as [o|] eqn:Ho.
  - apply wp_ret. destruct (next_candidate_outbox locked s c o Hk Hc Ho) as [Hrow Hretry].
    apply Hrest; [by apply holds_start|]. intros o' Hsame Hw. rewrite Hrow. by apply refreshes.
  - apply wp_bind, wp_in_kernel, wp_new_id. intros id k1 Hk1.
    apply wp_bind, wp_now. intros now k2 _ Hk2. apply wp_try_catch, wp_bind.
    set (s1 := set_kernel k2 _). assert (recorded (core s) (core s1)) as Hrec.
    { transitivity k1; by apply same_recorded. }
    apply wp_insert_outbox.
    + intros s2 Hid Hnew [Hc2 Hg Hi Ho2 Hv]. apply wp_ret. apply Hrest.
      * split; try done. by transitivity (core s1).
      * intros o' Hsame Hw. change (outbox s) with (outbox s1). rewrite Hid.
        destruct (candidate_line c). destruct Hsame as (? & Hrun & ? & Htoken & Hattempt).
        apply appears; [done| |done..].
        intros k x Hx. rewrite Hrun. by eapply Hnew.
    + cbn. apply wp_ret, wp_ret, HQ. by apply background_idle.
Qed.

(** ** Claims *)

(** A waiting row, claimed under a new token. *)
Record claims (s : OutboxDb) (o o' : DingTalkRobotOutbox) : Prop := {
  claims_id : DingTalkRobotOutbox.id o' = DingTalkRobotOutbox.id o;
  claims_run : DingTalkRobotOutbox.run_id o' = DingTalkRobotOutbox.run_id o;
  claims_status : DingTalkRobotOutbox.status o = DingTalkOutboxStatus.QUEUED ∧
                  DingTalkRobotOutbox.status o' = DingTalkOutboxStatus.DISPATCHING;
  claims_token : DingTalkRobotOutbox.fencing_token o' = (DingTalkRobotOutbox.fencing_token o + 1)%Z;
  claims_attempt : DingTalkRobotOutbox.attempt_count o' = (DingTalkRobotOutbox.attempt_count o + 1)%Z;
  claims_lease : ∃ now k, utc_now (core s) = Ok now k ∧
    DingTalkRobotOutbox.lease_expires_at o' = Some (now + lease_seconds * second)%Z
}.

Lemma wp_claim_next locked s Q (X : exn → OutboxDb → Prop) :
  keyed s →
  (∀ s', outbox s' = outbox s → quiet s s' → Q None s') →
  (∀ o o' s', outbox s !! DingTalkRobotOutbox.id o = Some o → claims s o o' → holds [] o' s s' →
     Q (Some (MkClaim (DingTalkRobotOutbox.id o') (DingTalkRobotOutbox.fencing_token o'))) s') →
  (∀ e s', quiet s s' → X e s') → wp (claim_next locked) Q X s.
Proof.
  intros Hk HN HS HX. apply wp_bind, wp_now. intros now k Hnow Hk1. apply wp_bind, wp_gets.
  change (next_due locked now (set_kernel k s)) with (next_due locked now s).
  destruct (next_due locked now s) as [o|] eqn:Ho; [|by apply wp_ret, HN].
  apply head_elem, queried_row in Ho as (Ho & Hdue & _); [|done].
  unfold due in Hdue. split_bool. set (s1 := set_kernel k s).
  assert (holds [] o s s1) as Hs1.
  { apply holds_start; [|done]. exists []. split; [|done]. apply delivers_kernel. by apply same_recorded. }
  apply wp_bind. eapply wp_assign; [done|by destruct o|]. intros s2 Hs2.
  apply wp_bind. eapply wp_set_last_error; [done|]. intros s3 Hs3.
  apply wp_bind. eapply wp_outbox_audit; [done|..]; [|intros e s4 Hs4; by eapply HX, holds_quiet].
  intros s4 Hs4. apply wp_bind. eapply wp_touch; [done|..]; [|intros e s5 Hs5; by eapply HX, holds_quiet].
  intros touched s5 Hs5. apply wp_ret. eapply HS; [done| |done]. split; try by destruct o. exists now, k. by destruct o.
Qed.

Lemma wp_claim_reconciliation locked outbox_id organization_id s Q (X : exn → OutboxDb → Prop) :
  keyed s → (∀ r s', background s s' → Q r s') → (∀ e s', quiet s s' → X e s') →
  wp (claim_reconciliation locked outbox_id organization_id) Q X s.
Proof.
  intros Hk HQ HX. apply wp_bind, wp_now. intros now k Hnow Hk1. apply wp_bind, wp_gets.
  set (s1 := set_kernel k s).
  destruct (next_reconcilable _ _ _ _ s1) as [o|] eqn:Ho; [|by apply wp_ret, HQ, background_idle].
  apply head_elem, (queried_row _ _ _ s1) in Ho as (Ho & Hr & _); [|done].
  assert (DingTalkRobotOutbox.status o = DingTalkOutboxStatus.ACCEPTED) as Hstatus.
  { unfold reconcilable in Hr. by split_bool. }
  assert (holds [] o s s1) as Hs1.
  { apply holds_start; [|done]. exists []. split; [|done]. apply delivers_kernel. by apply same_recorded. }
  apply wp_bind. eapply wp_held_kernel; [apply _|done| |]; [|intros e s2 Hs2; by eapply HX, holds_quiet].
  intros at_time s2 Hs2. apply wp_bind. eapply wp_assign; [done|by destruct o|]. intros s3 Hs3.
  apply wp_bind. eapply wp_touch; [done|..]; [|intros e s4 Hs4; by eapply HX, holds_quiet].
  intros touched s4 Hs4. apply wp_ret, HQ. eapply background_row; [done|].
  replace (outbox s !! _) with (Some o) by (symmetry; destruct o; exact Ho).
  apply receives; [done| |by destruct o]. destruct o; cbn in *. subst. left.
Qed.

Lemma reconciliation_inputs_asks id o : Asks id (_reconciliation_inputs o).
Proof. unfold _reconciliation_inputs, _load_group_audience_for_delivery. asks. Qed.

Lemma wp_reconcile c s Q (X : exn → OutboxDb → Prop) :
  keyed s → (∀ r s', background s s' → Q r s') → (∀ e s', quiet s s' → X e s') → wp (reconcile c) Q X s.
Proof.
  intros Hk HQ HX. apply wp_bind, wp_gets.
  destruct (reconciled_row c s) as [[o key]|] eqn:Hc; [|by apply wp_ret, HQ, background_idle].
  assert (outbox s !! DingTalkRobotOutbox.id o = Some o ∧
          DingTalkRobotOutbox.status o = DingTalkOutboxStatus.ACCEPTED) as [Ho Hstatus].
  { unfold reconciled_row in Hc. destruct (row_by _ _ _) as [o1|] eqn:Ho; [|done]. cbn in Hc.
    destruct (DingTalkRobotOutbox.accepted_process_query_key o1); [|done]. cbn in Hc.
    destruct (_ && _) eqn:Hb; [|done]. injection Hc as -> _. apply row_by_Some in Ho as [Ho Hid]. split_bool.
    by rewrite Hid. }
  (* the end of every branch *)
  assert (∀ o' s', holds [] o' s s' → same_attempt o o' →
    DingTalkRobotOutbox.status o' ∈ [DingTalkOutboxStatus.ACCEPTED; DingTalkOutboxStatus.REJECTED] →
    wp (o0 ← touch o'; mret (Some o0)) Q X s') as Hanswer.
  { intros o' s' Hs' Hsame Hin. apply wp_bind. eapply wp_touch; [done|..]; [|intros e s2 Hs2; by eapply HX, holds_quiet].
    intros now s2 Hs2. apply wp_ret, HQ. eapply background_row; [done|].
    replace (outbox s !! _) with (Some o) by (destruct o', Hsame as [Hid _]; cbn in *; by rewrite Hid).
    apply receives; [done|by destruct o'|]. by destruct o'. }
  apply wp_bind. eapply wp_held_asks; [apply reconciliation_inputs_asks|by apply holds_start| |].
  2:{ intros e s1 Hs1. by eapply HX, holds_quiet. }
  intros [[[l version] principal]|] s1 Hs1.
  - apply wp_bind. eapply (wp_held_asks _ o); [exact (reconcile_robot_asks (MkQuery (delivery_of _ _ _ _ _) _))|done| |]; [|intros e s2 Hs2; by eapply HX, holds_quiet].
    intros r s2 Hs2. cbv zeta. apply wp_bind. eapply wp_assign; [done|by destruct o|]. intros s3 Hs3.
    apply wp_bind.
    eapply (wp_mono _ (λ ol s', holds [] ol.1 s s' ∧ same_attempt o ol.1 ∧
      DingTalkRobotOutbox.status ol.1 ∈ [DingTalkOutboxStatus.ACCEPTED; DingTalkOutboxStatus.REJECTED]) _ X); [|..|done].
    { destruct (RobotQueryResult.state _).
      - apply wp_bind. eapply wp_set_last_error; [done|]. intros s4 Hs4. apply wp_ret.
        split; [done|]. split; [by destruct o|]. destruct o; cbn in *. subst. left.
      - apply wp_bind. eapply wp_assign; [done|by destruct o|]. intros s4 Hs4.
        apply wp_bind. eapply wp_set_last_error; [done|]. intros s5 Hs5. apply wp_ret.
        split; [done|]. split; [by destruct o|]. destruct o; cbn in *. right; left.
      - apply wp_bind. eapply wp_set_last_error; [done|]. intros s4 Hs4. apply wp_ret.
        split; [done|]. split; [by destruct o|]. destruct o; cbn in *. subst. left. }
    intros [o' label] s4 (Hs4 & Hsame & Hin). cbn in *.
    apply wp_bind. eapply wp_outbox_audit; [done|..]; [|intros e s5 Hs5; by eapply HX, holds_quiet].
    intros s5 Hs5. by eapply Hanswer.
  - apply wp_bind. eapply wp_set_last_error; [done|]. intros s2 Hs2.
    apply wp_bind. eapply wp_outbox_audit; [done|..]; [|intros e s3 Hs3; by eapply HX, holds_quiet].
    intros s3 Hs3. eapply Hanswer; [done|by destruct o|]. destruct o; cbn in *. subst. left.
Qed.
End Jobs.
