(* ===== verification/OutboxHistory.v ===== *)
(** * Delivery as a whole: workers, crashes and the vendor

    [step] lets any number of workers interleave their transactions, lose them before
    they commit, die after claiming, and share the database with every other service.
    Over all its histories a Run is announced by at most one message. *)

From S2P Require Import Prelude PyText PyVal Enums Models Kernel CanonicalJson Events EventLog.
From S2P Require Import Identity Policy RateLimit ActionState ActionGateway RobotTransport.
From S2P Require Import RobotGateway OutboxService OutboxDispatch OutboxSample OutboxFacts OutboxSettles OutboxJobs.

(** The database, and the claims committed but not yet dispatched. *)
Record World : Type := MkWorld { db : OutboxDb; outstanding : list OutboxClaim }.

Section System.
Context `{Environment, EventContracts, JsonEncoder, ActionPlatform, RobotVendor,
  RateLimiter (gmap string Window), PublicationGuard, OutboxSettings}.

(** The transactions of a round other than claiming and dispatching. *)
Inductive Job : Type :=
| Expire (locked : gset uuid)
| Enqueue (locked : gset uuid)
| ClaimReconciliation (locked : gset uuid) (outbox_id organization_id : option uuid)
| Reconcile (c : OutboxReconciliationClaim).

Definition run_job (j : Job) : Py OutboxDb unit :=
  match j with
  | Expire locked => expire_claims locked;; mret ()
  | Enqueue locked => enqueue_next locked;; mret ()
  | ClaimReconciliation locked i org => claim_reconciliation locked i org;; mret ()
  | Reconcile c => reconcile c;; mret ()
  end.

(** A transaction that did not commit: it raised, or its commit failed. *)
Definition aborted {A} (m : Py OutboxDb A) (s : OutboxDb) : OutboxDb := rollback s (final (m s)).

Inductive step : World → World → Prop :=
| job_step j s s' cs : run_job j s = Ok () s' → step (MkWorld s cs) (MkWorld s' cs)
| job_lost j s cs : step (MkWorld s cs) (MkWorld (aborted (run_job j) s) cs)
| claim_step locked c s s' cs :
    claim_next locked s = Ok (Some c) s' → step (MkWorld s cs) (MkWorld s' (c :: cs))
| claim_none locked s s' cs : claim_next locked s = Ok None s' → step (MkWorld s cs) (MkWorld s' cs)
| claim_lost locked s cs : step (MkWorld s cs) (MkWorld (aborted (claim_next locked) s) cs)
| dispatch_step c r s s' cs1 cs2 :
    dispatch c s = Ok r s' → step (MkWorld s (cs1 ++ c :: cs2)) (MkWorld s' (cs1 ++ cs2))
| dispatch_lost c s cs1 cs2 :
    step (MkWorld s (cs1 ++ c :: cs2)) (MkWorld (aborted (dispatch c) s) (cs1 ++ cs2))
| claim_abandoned c s cs1 cs2 : step (MkWorld s (cs1 ++ c :: cs2)) (MkWorld s (cs1 ++ cs2))
| elsewhere s s' cs :
    outbox s' = outbox s → vendor s' = vendor s → step (MkWorld s cs) (MkWorld s' cs).

(** ** Abstractly *)

(** The messages sent for a delivery. *)
Definition messages_for (k : uuid) (s : OutboxDb) : list VendorRequest :=
  filter (λ q, origin q = k) (messages (vendor s)).

(** [Some q]: one more message left, for the row [k]. *)
Definition one_more (k : uuid) (q : option VendorRequest) (s s' : OutboxDb) : Prop :=
  messages (vendor s') = (messages (vendor s) ++ option_list q)%list ∧ ∀ x, q = Some x → origin x = k.

(** The four kinds of step. *)
Inductive move : World → World → Prop :=
| move_background s s' cs : (keyed s → background s s') → move (MkWorld s cs) (MkWorld s' cs)
| move_claim s s' o o' cs :
    outbox s !! DingTalkRobotOutbox.id o = Some o → claims s o o' →
    outbox s' = <[DingTalkRobotOutbox.id o' := o']> (outbox s) → quiet s s' →
    move (MkWorld s cs)
      (MkWorld s' (MkClaim (DingTalkRobotOutbox.id o') (DingTalkRobotOutbox.fencing_token o') :: cs))
| move_settle c o o' q s s' cs1 cs2 :
    claimed_row c s = Some o → same_attempt o o' →
    outbox s' = <[DingTalkRobotOutbox.id o' := o']> (outbox s) → one_more (claim_outbox c) q s s' →
    (q = None ∧ settled_unsent o o' ∨ is_Some q ∧ DingTalkRobotOutbox.status o' ∈ after_sending) →
    move (MkWorld s (cs1 ++ c :: cs2)) (MkWorld s' (cs1 ++ cs2))
| move_lost c q s s' cs1 cs2 :
    outbox s' = outbox s → one_more (claim_outbox c) q s s' →
    (is_Some q → is_Some (claimed_row c s)) →
    move (MkWorld s (cs1 ++ c :: cs2)) (MkWorld s' (cs1 ++ cs2)).

Lemma grew_one_more id ms s s' k q :
  vendor_grew id ms s s' → ms = option_list q → id = k → one_more k q s s'.
Proof.
  intros (l & Hv & Ho & Hl) -> <-. split; [by rewrite Hv, messages_app, Hl|].
  intros x ->. cbn in Hl. rewrite Forall_forall in Ho. apply Ho.
  assert (x ∈ messages l) as Hx by (rewrite Hl; left). unfold messages in Hx.
  by apply list_elem_of_filter in Hx as [_ ?].
Qed.

Lemma quiet_one_more k s s' : quiet s s' → one_more k None s s'.
Proof. intros Hq. split; [by rewrite app_nil_r|done]. Qed.

Lemma quiet_rollback s s' : quiet s s' → quiet s (rollback s s').
Proof. done. Qed.

Lemma one_more_rollback k q s s' : one_more k q s s' → one_more k q s (rollback s s').
Proof. done. Qed.

Lemma wp_run_job j s :
  keyed s → wp (run_job j) (λ _ s', background s s') (λ _ s', quiet s s') s.
Proof.
  intros Hk. destruct j; cbn; apply wp_bind;
    [apply wp_expire_claims|apply wp_enqueue_next|apply wp_claim_reconciliation|apply wp_reconcile]; auto;
    intros; by apply wp_ret.
Qed.

Lemma job_aborted_quiet {A} (m : Py OutboxDb A) s Q :
  wp m Q (λ _ s', quiet s s') s → (∀ a s', Q a s' → quiet s s') → quiet s (aborted m s).
Proof. intros Hm HQ. apply quiet_rollback. unfold wp, final in *. destruct (m s); eauto. Qed.

Lemma claim_wp locked s :
  keyed s →
  wp (claim_next locked)
    (λ r s', match r with
             | None => outbox s' = outbox s ∧ quiet s s'
             | Some c => ∃ o o', outbox s !! DingTalkRobotOutbox.id o = Some o ∧ claims s o o' ∧ holds [] o' s s' ∧
                 c = MkClaim (DingTalkRobotOutbox.id o') (DingTalkRobotOutbox.fencing_token o')
             end)
    (λ _ s', quiet s s') s.
Proof. intros Hk. apply wp_claim_next; [done|done| |done]. intros o o' s' Ho Hc Hs'. by exists o, o'. Qed.

(** What a dispatch leaves, committed or not. *)
Lemma dispatch_cases c s s' cs1 cs2 :
  (∃ r, dispatch c s = Ok r s') ∨ s' = aborted (dispatch c) s →
  move (MkWorld s (cs1 ++ c :: cs2)) (MkWorld s' (cs1 ++ cs2)).
Proof.
  pose proof (wp_dispatch c s) as Hwp. unfold wp, aborted, final in *.
  intros [[r Hr]| ->].
  - rewrite Hr in Hwp. unfold dispatched in Hwp. destruct (claimed_row c s) as [o|] eqn:Hc.
    + destruct Hwp as (o' & ms & -> & Hs' & Hsame & Hout). pose proof Hs' as [_ _ _ Ho' Hv].
      assert (DingTalkRobotOutbox.id o' = claim_outbox c) as Hid.
      { apply claimed_row_Some in Hc as (_ & <- & _). by destruct Hsame. }
      destruct Hout as [[-> Hun]|[(q & -> & _) Hin]].
      * apply (move_settle c o o' None); [done..|by eapply grew_one_more|by left].
      * apply (move_settle c o o' (Some q)); [done..|by eapply grew_one_more|by right].
    + destruct Hwp as [-> ->]. apply (move_lost c None); [done|by apply quiet_one_more|by intros []].
  - unfold dispatched, dispatch_raised in Hwp. destruct (dispatch c s) as [r s1|e s1].
    + destruct (claimed_row c s) as [o|] eqn:Hc.
      * destruct Hwp as (o' & ms & _ & [_ _ _ _ Hv] & Hsame & Hout).
        assert (DingTalkRobotOutbox.id o' = claim_outbox c) as Hid.
        { apply claimed_row_Some in Hc as (_ & <- & _). by destruct Hsame. }
        destruct Hout as [[-> _]|[(q & -> & _) _]].
        -- apply (move_lost c None); [done|by eapply one_more_rollback, grew_one_more|done].
        -- apply (move_lost c (Some q)); [done|by eapply one_more_rollback, grew_one_more|by rewrite Hc].
      * destruct Hwp as [_ ->]. apply (move_lost c None); [done|by apply quiet_one_more|by intros []].
    + destruct Hwp as (o & Hc & ms & Hv & Hms).
      assert (DingTalkRobotOutbox.id o = claim_outbox c) as Hid by by apply claimed_row_Some in Hc as (_ & <- & _).
      destruct Hms as [->|(q & -> & _)].
      * apply (move_lost c None); [done|by eapply one_more_rollback, grew_one_more|done].
      * apply (move_lost c (Some q)); [done|by eapply one_more_rollback, grew_one_more|by rewrite Hc].
Qed.

Lemma step_move w w' : keyed (db w) → step w w' → move w w'.
Proof.
  intros Hk. destruct 1 as [j s s' cs Hj|j s cs|locked c s s' cs Hc|locked s s' cs Hc|locked s cs
    |c r s s' cs1 cs2 Hd|c s cs1 cs2|c s cs1 cs2|s s' cs Ho Hv]; cbn in Hk.
  - apply move_background. intros _. by apply (wp_inv_ok _ _ _ _ _ _ (wp_run_job j s Hk) Hj).
  - apply move_background. intros _. apply background_idle; [done|].
    eapply job_aborted_quiet; [by apply wp_run_job|]. by intros a s' [].
  - destruct (wp_inv_ok _ _ _ _ _ _ (claim_wp locked s Hk) Hc) as (o & o' & Ho & Hcl & Hs' & ->).
    eapply move_claim; [done..|by apply holds_outbox in Hs'|by eapply holds_quiet].
  - destruct (wp_inv_ok _ _ _ _ _ _ (claim_wp locked s Hk) Hc) as [Ho Hq].
    apply move_background. intros _. by apply background_idle.
  - apply move_background. intros _. apply background_idle; [done|].
    eapply job_aborted_quiet; [by apply claim_wp|]. intros [c|] s'; [|by intros []].
    intros (o & o' & _ & _ & Hs' & _). by eapply holds_quiet.
  - apply dispatch_cases. left. by exists r.
  - apply dispatch_cases. by right.
  - apply (move_lost c None); [done|by apply quiet_one_more|by intros []].
  - apply move_background. intros _. apply background_idle; [done|]. unfold quiet. by rewrite Hv.
Qed.

(** ** The invariant *)

(** A delivery that will not be sent (again): it is settled, or its claim is used up. *)
Definition spent (cs : list OutboxClaim) (o : DingTalkRobotOutbox) : Prop :=
  DingTalkRobotOutbox.status o ∈ after_sending ∨
  DingTalkRobotOutbox.status o = DingTalkOutboxStatus.DISPATCHING ∧
  MkClaim (DingTalkRobotOutbox.id o) (DingTalkRobotOutbox.fencing_token o) ∉ cs.

Record delivery_ok (w : World) : Prop := {
  ok_keyed : keyed (db w);
  ok_runs k1 k2 o1 o2 : outbox (db w) !! k1 = Some o1 → outbox (db w) !! k2 = Some o2 →
    DingTalkRobotOutbox.run_id o1 = DingTalkRobotOutbox.run_id o2 → k1 = k2;
  ok_nodup : NoDup (outstanding w);
  ok_claims c : c ∈ outstanding w → ∃ o, outbox (db w) !! claim_outbox c = Some o ∧
    (fencing_token c ≤ DingTalkRobotOutbox.fencing_token o)%Z;
  ok_sent k : messages_for k (db w) = [] ∨
    (∃ q, messages_for k (db w) = [q]) ∧ ∃ o, outbox (db w) !! k = Some o ∧ spent (outstanding w) o
}.

Lemma messages_for_quiet k s s' : quiet s s' → messages_for k s' = messages_for k s.
Proof. unfold messages_for. by intros ->. Qed.

Lemma messages_for_more k k' q s s' :
  one_more k' q s s' → messages_for k s' = (messages_for k s ++ if bool_decide (k = k') then option_list q else [])%list.
Proof.
  intros [Hq Ho]. unfold messages_for. rewrite Hq, filter_app. f_equal.
  destruct q as [q|]; [|by case_bool_decide]. change (option_list (Some q)) with [q]. rewrite <-(Ho q eq_refl).
  rewrite filter_cons, filter_nil. case_decide; case_bool_decide; congruence.
Qed.

Lemma evolves_persists s o y : row_evolves s (Some o) y → ∃ o', y = Some o' ∧ same_attempt o o'.
Proof. inversion 1; subst; eauto. by exists o. Qed.

Lemma evolves_origin s x o' :
  row_evolves s x (Some o') →
  (∃ o, x = Some o ∧ DingTalkRobotOutbox.run_id o' = DingTalkRobotOutbox.run_id o) ∨ x = None ∧ new_run s o'.
Proof.
  inversion 1 as [| |? ? ? ? Hs|? ? ? ? Hs|? ? ? ? Hs]; subst; [by left; eexists|by right|..];
    left; eexists; split; try done; by destruct Hs as (_ & ? & _).
Qed.

Lemma evolves_spent cs s o o' : row_evolves s (Some o) (Some o') → spent cs o → spent cs o'.
Proof.
  inversion 1 as [| |? ? [Hb _] ? Hs|? ? Hd Hu Hs|? ? Ha Hin Hs]; subst; [done|..]; intros Hspent.
  - unfold spent in Hspent. rewrite Hb in Hspent. destruct Hspent as [Hin|[? _]]; [|done]. unfold after_sending in Hin. set_solver.
  - left. rewrite Hu. unfold after_sending. set_solver.
  - left. unfold after_sending. set_solver.
Qed.

Lemma background_ok s s' cs : delivery_ok (MkWorld s cs) → background s s' → delivery_ok (MkWorld s' cs).
Proof.
  intros [Hk Hr Hd Hc Hs] [Hq Hrows Hkeyed Hone]; cbn in *. split; cbn; [auto| |done|..].
  - intros k1 k2 o1 o2 Hk1 Hk2 Hrun. pose proof (Hrows k1) as E1. pose proof (Hrows k2) as E2. rewrite Hk1 in E1.
    rewrite Hk2 in E2. apply evolves_origin in E1 as [(x1 & E1 & R1)|[E1 N1]];
      apply evolves_origin in E2 as [(x2 & E2 & R2)|[E2 N2]].
    + eapply Hr; [done..|congruence].
    + exfalso. eapply N2; [exact E1|congruence].
    + exfalso. eapply N1; [exact E2|congruence].
    + by apply Hone.
  - intros c Hin. destruct (Hc c Hin) as (o & Ho & Ht). pose proof (Hrows (claim_outbox c)) as E. rewrite Ho in E.
    apply evolves_persists in E as (o' & -> & (_ & _ & _ & Htoken & _)). exists o'. by rewrite Htoken.
  - intros k. rewrite (messages_for_quiet k s s') by done. destruct (Hs k) as [?|[? (o & Ho & Hsp)]]; [by left|right].
    split; [done|]. pose proof (Hrows k) as E. rewrite Ho in E. destruct (evolves_persists _ _ _ E) as (o' & Ho' & _).
    exists o'. split; [done|]. rewrite Ho' in E. by eapply evolves_spent.
Qed.

(** Writing the row [o'] over [o], under new outstanding claims. *)
Lemma overwritten_ok s s' o o' cs cs' :
  delivery_ok (MkWorld s cs) → outbox s !! DingTalkRobotOutbox.id o = Some o →
  DingTalkRobotOutbox.id o' = DingTalkRobotOutbox.id o →
  DingTalkRobotOutbox.run_id o' = DingTalkRobotOutbox.run_id o →
  (DingTalkRobotOutbox.fencing_token o ≤ DingTalkRobotOutbox.fencing_token o')%Z →
  outbox s' = <[DingTalkRobotOutbox.id o' := o']> (outbox s) → NoDup cs' →
  (∀ c, c ∈ cs' → c ∈ cs ∨ c = MkClaim (DingTalkRobotOutbox.id o') (DingTalkRobotOutbox.fencing_token o')) →
  (∀ k, k ≠ DingTalkRobotOutbox.id o → messages_for k s' = messages_for k s) →
  (messages_for (DingTalkRobotOutbox.id o) s' = [] ∨
   (∃ q, messages_for (DingTalkRobotOutbox.id o) s' = [q]) ∧ spent cs' o') →
  delivery_ok (MkWorld s' cs').
Proof.
  intros [Hk Hr Hd Hc Hs] Ho Hid Hrun Htoken Ho' Hd' Hcs Hother Hmsg; cbn in *. rewrite Hid in *.
  set (i := DingTalkRobotOutbox.id o) in *. split; cbn; rewrite ?Ho'; [| |done|..].
  - intros k x. rewrite Ho', lookup_insert_Some. intros [[<- <-]|[_ Hx]]; [done|by apply Hk].
  - intros k1 k2 x1 x2. rewrite !lookup_insert_Some.
    intros [[<- <-]|[? Hk1]] [[<- <-]|[? Hk2]] Heq; [done|..].
    + eapply Hr; [exact Ho|exact Hk2|congruence].
    + eapply Hr; [exact Hk1|exact Ho|congruence].
    + by eapply Hr.
  - intros c [Hin|Hnew]%Hcs.
    + destruct (Hc c Hin) as (x & Hx & Ht). destruct (decide_rel eq (claim_outbox c) i) as [Heq|Hne].
      * exists o'. rewrite Heq, lookup_insert_eq. split; [done|]. rewrite Heq, Ho in Hx. injection Hx as <-. lia.
      * exists x. by rewrite lookup_insert_ne.
    + subst c. cbn. exists o'. by rewrite lookup_insert_eq.
  - intros k. destruct (decide_rel eq k i) as [->|Hne].
    + destruct Hmsg as [?|[? ?]]; [by left|right]. split; [done|]. exists o'. by rewrite lookup_insert_eq.
    + rewrite Hother by done. destruct (Hs k) as [?|[? (x & Hx & Hsp)]]; [by left|right]. split; [done|].
      exists x. rewrite lookup_insert_ne by done. split; [done|]. destruct Hsp as [?|[? Hnot]]; [by left|right].
      split; [done|]. intros [?|Hnew]%Hcs; [done|]. rewrite (Hk _ _ Hx) in Hnew. injection Hnew as -> _. done.
Qed.

Lemma spent_fewer cs cs' o : (∀ c, c ∈ cs' → c ∈ cs) → spent cs o → spent cs' o.
Proof. intros Hcs [?|[? Hn]]; [by left|right]. split; [done|]. intros Hin. by apply Hn, Hcs. Qed.

(** A current claim is of a delivery nothing was sent for. *)
Lemma claimed_unsent s cs c o :
  delivery_ok (MkWorld s cs) → c ∈ cs → claimed_row c s = Some o → messages_for (claim_outbox c) s = [].
Proof.
  intros [_ _ _ _ Hs] Hin Hc. apply claimed_row_Some in Hc as (Ho & Hid & Hstatus & Htoken).
  destruct (Hs (claim_outbox c)) as [?|[_ (x & Hx & Hsp)]]; [done|exfalso]. cbn in *.
  rewrite Ho in Hx. injection Hx as <-. destruct Hsp as [Hsp|[_ Hsp]].
  - rewrite Hstatus in Hsp. unfold after_sending in Hsp. set_solver.
  - apply Hsp. rewrite Hid, Htoken. by destruct c.
Qed.

Lemma move_ok w w' : delivery_ok w → move w w' → delivery_ok w'.
Proof.
  intros Hok Hm. destruct Hm as [s s' cs Hb|s s' o o' cs Ho [Hid Hrun [Hst Hst'] Htok _ _] Ho' Hq
    |c o o' q s s' cs1 cs2 Hc (Hid & Hrun & _ & Htok & _) Ho' Hq Hout|c q s s' cs1 cs2 Ho' Hq Hcur].
  - eapply background_ok; [done|]. apply Hb, Hok.
  - eapply (overwritten_ok s s' o o'); [done|done|done|done|lia|done| | |..].
    + apply NoDup_cons. split; [|apply Hok]. intros (x & Hx & Ht)%(ok_claims _ Hok). cbn in *.
      rewrite Hid, Ho in Hx. injection Hx as <-. lia.
    + intros c [->|?]%elem_of_cons; [by right|by left].
    + intros k _. by apply messages_for_quiet.
    + rewrite (messages_for_quiet _ s) by done.
      destruct (ok_sent _ Hok (DingTalkRobotOutbox.id o)) as [?|[_ (x & Hx & Hsp)]]; [by left|exfalso]. cbn in *.
      rewrite Ho in Hx. injection Hx as <-. unfold spent, after_sending in Hsp. rewrite Hst in Hsp. set_solver.
  - assert (c ∈ (cs1 ++ c :: cs2)%list) as Hin by (apply elem_of_app; right; left).
    pose proof (claimed_unsent _ _ _ _ Hok Hin Hc) as Hnone.
    apply claimed_row_Some in Hc as (Ho & Hid' & Hstatus & Htoken). rewrite <-Hid' in *.
    eapply (overwritten_ok s s' o o'); [done|done|done|done|lia|done| | |..].
    + pose proof (ok_nodup _ Hok) as Hd. cbn in Hd. by apply NoDup_middle in Hd as [? ?].
    + intros x Hx. left. set_solver.
    + intros k Hk. rewrite (messages_for_more k _ q s s' Hq), bool_decide_eq_false_2 by done. by rewrite app_nil_r.
    + rewrite (messages_for_more _ _ q s s' Hq), Hnone, bool_decide_eq_true_2 by done. cbn.
      destruct Hout as [[-> _]|[[x ->] Hin']]; [by left|right]. split; [by exists x|by left].
  - pose proof (ok_nodup _ Hok) as Hd. cbn in Hd.
    assert (∀ x, x ∈ (cs1 ++ cs2)%list → x ∈ (cs1 ++ c :: cs2)%list) as Hfewer by (intros; set_solver).
    split; cbn; unfold keyed; rewrite ?Ho'.
    + apply Hok.
    + apply Hok.
    + by apply NoDup_middle in Hd as [? ?].
    + intros x Hx. by apply (ok_claims _ Hok), Hfewer.
    + intros k. rewrite (messages_for_more k _ q s s' Hq).
      assert (messages_for k s = [] ∨ (∃ q', messages_for k s = [q']) ∧
        ∃ o, outbox s !! k = Some o ∧ spent (cs1 ++ cs2) o) as Hold.
      { destruct (ok_sent _ Hok k) as [?|[? (x & Hx & Hsp)]]; [by left|right]. split; [done|]. exists x.
        split; [done|]. by eapply spent_fewer. }
      destruct q as [q|]; case_bool_decide as Hk; rewrite ?app_nil_r; [|done..].
      destruct Hcur as [o Hc]; [by eexists|].
      assert (c ∈ (cs1 ++ c :: cs2)%list) as Hin by (apply elem_of_app; right; left).
      rewrite Hk, (claimed_unsent _ _ _ _ Hok Hin Hc). right. split; [by exists q|].
      apply claimed_row_Some in Hc as (Ho & Hid & Hstatus & Htoken). exists o. split; [done|]. right. split; [done|].
      rewrite Hid, Htoken. destruct c. by apply NoDup_middle in Hd as [? ?].
Qed.

(** Before the first delivery. *)
Definition fresh (w : World) : Prop :=
  outbox (db w) = ∅ ∧ messages (vendor (db w)) = [] ∧ outstanding w = [].

Lemma fresh_ok w : fresh w → delivery_ok w.
Proof.
  intros (Ho & Hv & Hc). split; unfold keyed; rewrite ?Ho, ?Hc.
  - intros k o. by rewrite lookup_empty.
  - intros k1 k2 o1 o2. by rewrite lookup_empty.
  - constructor.
  - intros c Hin. by apply not_elem_of_nil in Hin.
  - intros k. left. unfold messages_for. by rewrite Hv.
Qed.

Lemma step_ok w w' : delivery_ok w → step w w' → delivery_ok w'.
Proof. intros Hw Hs. eapply move_ok; [done|]. apply step_move; [apply Hw|done]. Qed.

Lemma reachable_ok w0 w : fresh w0 → steps step w0 w → delivery_ok w.
Proof. intros Hw. apply steps_invariant; [apply step_ok|by apply fresh_ok]. Qed.

(** The messages sent for the deliveries of a Run. *)
Definition run_messages (run_id : uuid) (s : OutboxDb) : list VendorRequest :=
  filter (λ q, DingTalkRobotOutbox.run_id <$> outbox s !! origin q = Some run_id) (messages (vendor s)).

Lemma run_messages_row k o w :
  delivery_ok w → outbox (db w) !! k = Some o →
  run_messages (DingTalkRobotOutbox.run_id o) (db w) = messages_for k (db w).
Proof.
  intros Hw Ho. unfold run_messages, messages_for. apply list_filter_iff. intros q. split.
  - destruct (outbox (db w) !! origin q) as [o'|] eqn:Ho'; [|done]. intros [= Hrun].
    by apply (ok_runs _ Hw _ _ o' o).
  - intros ->. by rewrite Ho.
Qed.

(** [C6] However many workers there are, however their transactions interleave, whichever
    of them are lost before they commit and whatever the vendor answers: every message
    belongs to a delivery that is settled or still being dispatched, and a Run is
    announced by at most one message. *)
Theorem at_most_once w0 w :
  fresh w0 → steps step w0 w →
  (∀ q, q ∈ messages (vendor (db w)) → ∃ o, outbox (db w) !! origin q = Some o ∧
     DingTalkRobotOutbox.status o ∈ DingTalkOutboxStatus.DISPATCHING :: after_sending) ∧
  ∀ run_id, (length (run_messages run_id (db w)) ≤ 1)%nat.
Proof.
  intros Hw0 Hs. assert (delivery_ok w) as Hw by by eapply reachable_ok.
  assert (∀ q, q ∈ messages (vendor (db w)) → messages_for (origin q) (db w) ≠ []) as Hfor.
  { intros q Hq Hnil. assert (q ∈ messages_for (origin q) (db w)) as Hin by by apply list_elem_of_filter.
    rewrite Hnil in Hin. by apply not_elem_of_nil in Hin. }
  split.
  - intros q Hq. destruct (ok_sent _ Hw (origin q)) as [?|[_ (o & Ho & Hsp)]]; [by destruct (Hfor q Hq)|].
    exists o. split; [done|]. destruct Hsp as [?|[-> _]]; [by right|left].
  - intros run_id. destruct (run_messages run_id (db w)) as [|q l] eqn:Hrun; [cbn; lia|].
    assert (q ∈ run_messages run_id (db w)) as Hq by (rewrite Hrun; left).
    apply list_elem_of_filter in Hq as [Hq _]. destruct (outbox (db w) !! origin q) as [o|] eqn:Ho; [|done].
    injection Hq as <-. rewrite <-Hrun, (run_messages_row _ _ _ Hw Ho).
    destruct (ok_sent _ Hw (origin q)) as [->|[[x ->] _]]; cbn; lia.
Qed.

(** ** Bounded retries *)

(** A step after which the delivery [k] is not blocked for a reason that may pass. *)
Definition unblocked (k : uuid) (w w' : World) : Prop :=
  step w w' ∧ ∀ o, outbox (db w') !! k = Some o → ¬ retryable o.

Definition attempts_ok (k : uuid) (w : World) : Prop :=
  delivery_ok w ∧ ∀ o, outbox (db w) !! k = Some o → ¬ retryable o ∧
    (DingTalkRobotOutbox.attempt_count o ≤ max_attempts)%Z ∧
    (DingTalkRobotOutbox.status o = DingTalkOutboxStatus.QUEUED →
       (DingTalkRobotOutbox.attempt_count o < max_attempts)%Z) ∧
    (DingTalkRobotOutbox.status o = DingTalkOutboxStatus.BLOCKED →
       DingTalkRobotOutbox.attempt_count o = max_attempts).

Lemma attempts_evolve s o o' :
  row_evolves s (Some o) (Some o') → ¬ retryable o →
  o' = o ∨ same_attempt o o' ∧ DingTalkRobotOutbox.status o' ∈ after_sending.
Proof.
  inversion 1 as [| |? ? Hr|? ? Hd Hu Hs|? ? Ha Hin Hs]; subst; intros Hn; [by left|done|..]; right.
  - rewrite Hu. unfold after_sending. set_solver.
  - unfold after_sending. set_solver.
Qed.

Lemma after_sending_status st :
  st ∈ after_sending → st ≠ DingTalkOutboxStatus.QUEUED ∧ st ≠ DingTalkOutboxStatus.BLOCKED.
Proof. unfold after_sending. intros Hin. split; intros ->; set_solver. Qed.

Lemma attempts_step k w w' : (1 ≤ max_attempts)%Z → attempts_ok k w → unblocked k w w' → attempts_ok k w'.
Proof.
  intros Hmax [Hok Ha] [Hs Hun]. split; [by eapply step_ok|]. intros x Hx. split; [by apply Hun|].
  specialize (Hun x Hx). pose proof (ok_keyed _ Hok) as Hk. apply step_move in Hs; [|done].
  destruct Hs as [s s' cs Hb|s s' o o' cs Ho [Hid _ [Hq Hst] _ Hatt _] Ho' _
    |c o o' q s s' cs1 cs2 Hc (Hid & _ & _ & _ & Hatt) Ho' _ Hout|c q s s' cs1 cs2 Ho' _ _]; cbn in *.
  - pose proof (background_rows _ _ (Hb Hk) k) as E. rewrite Hx in E.
    destruct (outbox s !! k) as [o|] eqn:Ho.
    + destruct (Ha o eq_refl) as (Hn & Hle & Hq & Hbl).
      apply attempts_evolve in E as [->|[(_ & _ & _ & _ & ->) Hin%after_sending_status]]; [done| |done].
      split_and!; [done|tauto|tauto].
    + inversion E as [|? Hw _ _ Hzero| | |]; subst. rewrite Hzero. split_and!; [lia|lia|].
      intros Hbl. destruct Hw as [?|[Hq _]]; [done|]. congruence.
  - rewrite Ho', lookup_insert_Some in Hx. destruct Hx as [[Hki ->]|[_ Hx]]; [|by apply Ha].
    rewrite Hid in Hki. rewrite <-Hki in Ha. destruct (Ha o Ho) as (_ & _ & Hlt & _). specialize (Hlt Hq).
    rewrite Hst. split_and!; [lia|done|done].
  - rewrite Ho', lookup_insert_Some in Hx. destruct Hx as [[Hki ->]|[_ Hx]]; [|by apply Ha].
    apply claimed_row_Some in Hc as (Ho & Hid' & _). rewrite Hid, Hid' in Hki. rewrite <-Hki in Ha.
    destruct (Ha o Ho) as (_ & Hle & _). rewrite Hatt.
    destruct Hout as [[_ [[Hbl Hex]|[Hqd [_ Hlt]]]]|[_ Hin%after_sending_status]].
    + rewrite Hbl. split_and!; [done|done|]. intros _. assert (max_attempts ≤ DingTalkRobotOutbox.attempt_count o)%Z; [|lia].
      apply Hex. destruct (decide_rel eq (DingTalkRobotOutbox.blocked_reason x) (Some "delivery_retry_exhausted")); [done|].
      by destruct Hun.
    + rewrite Hqd. by split_and!.
    + split_and!; [done|tauto|tauto].
  - rewrite Ho' in Hx. by apply Ha.
Qed.

End System.

(** ** A history *)

Module OutboxHistorySample.
Import OutboxSample.
#[export] Existing Instances Sample.environment contracts encoder platform robot limiter guard settings.

Definition before : World := MkWorld start [].
Definition after_claim : World := MkWorld claimed [the_claim].
Definition after_dispatch : World := MkWorld delivered [].

(** The id of the one row. *)
Definition row : uuid := 1000.

Lemma before_fresh : fresh before.
Proof. split; [reflexivity|]. split; vm_compute; reflexivity. Qed.

Lemma enqueued_step : step before (MkWorld enqueued []).
Proof. apply (job_step (Enqueue ∅)). vm_compute. reflexivity. Qed.

Lemma claimed_step : step (MkWorld enqueued []) after_claim.
Proof. apply (claim_step ∅). vm_compute. reflexivity. Qed.

Lemma dispatched_step : step after_claim after_dispatch.
Proof. apply (dispatch_step the_claim (outbox delivered !! row) claimed delivered [] []). vm_compute. reflexivity. Qed.

Lemma history : steps step before after_dispatch.
Proof.
  eapply steps_snoc; [|exact dispatched_step]. eapply steps_snoc; [|exact claimed_step].
  apply steps_one, enqueued_step.
Qed.

(** No step leaves the row blocked. *)
Definition not_blocked (s : OutboxDb) : bool :=
  match outbox s !! row with
  | Some o => negb (bool_decide (DingTalkRobotOutbox.status o = DingTalkOutboxStatus.BLOCKED))
  | None => true
  end.

Lemma unblocked_step w w' : not_blocked (db w') = true → step w w' → unblocked row w w'.
Proof.
  intros Hb Hs. split; [done|]. intros o Ho [Hst _]. unfold not_blocked in Hb. rewrite Ho in Hb. by split_bool.
Qed.

Lemma unblocked_history : steps (unblocked row) before after_dispatch.
Proof.
  eapply steps_snoc; [|apply unblocked_step, dispatched_step; vm_compute; reflexivity].
  eapply steps_snoc; [|apply unblocked_step, claimed_step; vm_compute; reflexivity].
  apply steps_one, unblocked_step, enqueued_step. vm_compute. reflexivity.
Qed.
End OutboxHistorySample.

Section Witnesses.
Import OutboxHistorySample.
#[local] Existing Instances Sample.environment OutboxSample.contracts OutboxSample.encoder OutboxSample.platform
  OutboxSample.robot OutboxSample.limiter OutboxSample.guard OutboxSample.settings.

Lemma at_most_once_witness :
  fresh before ∧ steps step before after_dispatch ∧ length (run_messages 50 OutboxSample.delivered) = 1%nat ∧
  ∀ run_id, (length (run_messages run_id OutboxSample.delivered) ≤ 1)%nat.
Proof.
  split; [exact before_fresh|]. split; [exact history|]. split; [vm_compute; reflexivity|].
  destruct (at_most_once before after_dispatch before_fresh history) as [_ H]. exact H.
Defined.

End Witnesses.
