(* ===== verification/OutboxLiveness.v ===== *)
(** * Claims that ran out, and the worker's round

    A claim whose lease ran out is settled by the sweeps, however many workers go on;
    and a round of the worker is a sequence of the steps of [OutboxHistory]. *)

From S2P Require Import Prelude PyText PyVal Enums Models Kernel CanonicalJson Events EventLog.
From S2P Require Import Identity Policy RateLimit ActionState ActionGateway RobotTransport.
From S2P Require Import RobotGateway OutboxService OutboxDispatch OutboxSample OutboxFacts OutboxSettles OutboxJobs.
From S2P Require Import OutboxHistory.

(** The claims whose lease ended before [T]. *)
Definition stale (T : Z) (s : OutboxDb) : gset uuid := dom (filter (λ p, expired T p.2 = true) (outbox s)).

(** The clock shows [T] or later. *)
Definition past (T : Z) (s : OutboxDb) : Prop := ∀ now k, utc_now (core s) = Ok now k → (T ≤ now)%Z.

Lemma elem_of_stale T s k : k ∈ stale T s ↔ ∃ o, outbox s !! k = Some o ∧ expired T o = true.
Proof.
  unfold stale. rewrite elem_of_dom. split.
  - intros [o Ho]. apply map_lookup_filter_Some in Ho as [Ho He]. by exists o.
  - intros (o & Ho & He). exists o. by apply map_lookup_filter_Some.
Qed.

Lemma expired_dispatching T o :
  expired T o = true ↔ DingTalkRobotOutbox.status o = DingTalkOutboxStatus.DISPATCHING ∧
    ∃ t, DingTalkRobotOutbox.lease_expires_at o = Some t ∧ (t < T)%Z.
Proof.
  unfold expired. rewrite andb_true_iff, bool_decide_eq_true.
  destruct (DingTalkRobotOutbox.lease_expires_at o) as [t|]; [rewrite Z.ltb_lt|]; split; intros [? Ht]; split; try done.
  - by exists t.
  - by destruct Ht as (? & [= ->] & ?).
  - by destruct Ht as (? & ? & ?).
Qed.

Lemma expired_later T now o : (T ≤ now)%Z → expired T o = true → expired now o = true.
Proof. rewrite !expired_dispatching. intros ? (? & t & ? & ?). split; [done|]. exists t. split; [done|lia]. Qed.

Section Liveness.
Context `{Environment, EventContracts, JsonEncoder, ActionPlatform, RobotVendor,
  RateLimiter (gmap string Window), PublicationGuard, OutboxSettings}.

Lemma evolves_dispatching s x o' :
  row_evolves s x (Some o') → DingTalkRobotOutbox.status o' = DingTalkOutboxStatus.DISPATCHING → x = Some o'.
Proof.
  inversion 1 as [|? [[Hb _]|[Hq _]]|? ? ? [[Hb _]|[Hq _]]|? ? ? Hu|? ? ? Hin]; subst; intros Hd; try congruence.
  rewrite Hd in Hin. set_solver.
Qed.

(** A claimed row was there, or it was claimed just now. *)
Lemma move_dispatching w w' k o' :
  keyed (db w) → move w w' → outbox (db w') !! k = Some o' →
  DingTalkRobotOutbox.status o' = DingTalkOutboxStatus.DISPATCHING →
  outbox (db w) !! k = Some o' ∨
  ∃ now k', utc_now (core (db w)) = Ok now k' ∧
    DingTalkRobotOutbox.lease_expires_at o' = Some (now + lease_seconds * second)%Z.
Proof.
  intros Hk Hm Ho' Hd. destruct Hm as [s s' cs Hb|s s' o x cs Ho Hcl Hx Hq
    |c o x q s s' cs1 cs2 Hc Hsame Hx Hq Hout|c q s s' cs1 cs2 Hx Hq Hcur]; cbn in *.
  - left. pose proof (background_rows _ _ (Hb Hk) k) as E. rewrite Ho' in E. by eapply evolves_dispatching.
  - rewrite Hx, lookup_insert_Some in Ho'. destruct Ho' as [[_ <-]|[_ ?]]; [right|by left].
    apply (claims_lease _ _ _ Hcl).
  - rewrite Hx, lookup_insert_Some in Ho'. destruct Ho' as [[_ <-]|[_ ?]]; [exfalso|by left].
    destruct Hout as [[_ [[? _]|[? _]]]|[_ Hin]]; [congruence..|]. rewrite Hd in Hin. unfold after_sending in Hin. set_solver.
  - left. by rewrite <-Hx.
Qed.

(** While the clock is past [T], no claim joins those that ended before it. *)
Lemma move_stale T w w' :
  (0 ≤ lease_seconds)%Z → keyed (db w) → past T (db w) → move w w' → stale T (db w') ⊆ stale T (db w).
Proof.
  intros Hlease Hk Hp Hm k. rewrite !elem_of_stale. intros (o & Ho & He). pose proof He as [Hd (t & Ht & HtT)]%expired_dispatching.
  destruct (move_dispatching _ _ _ _ Hk Hm Ho Hd) as [Hold|(now & k' & Hnow & Hl)]; [by exists o|exfalso].
  specialize (Hp _ _ Hnow). rewrite Hl in Ht. injection Ht as <-. unfold second in HtT. lia.
Qed.

Lemma le_nullable_total x y : le_nullable x y = true ∨ le_nullable y x = true.
Proof. destruct x, y; simpl; rewrite ?Z.leb_le; try case_bool_decide; auto; lia. Qed.

Lemma le_nullable_trans x y z : le_nullable x y = true → le_nullable y z = true → le_nullable x z = true.
Proof. destruct x, y, z; simpl; rewrite ?Z.leb_le; try case_bool_decide; simpl; intros; try done; lia. Qed.

(** What a sweep finds: of the claims that ended before [T], a hundred or all. *)
Lemma expired_rows_found T now s :
  keyed s → (T ≤ now)%Z → ∃ F : gset uuid,
    (∀ k, k ∈ F → k ∈ DingTalkRobotOutbox.id <$> expired_rows ∅ now s) ∧ F ⊆ stale T s ∧
    (100 `min` size (stale T s) ≤ size F)%nat.
Proof.
  intros Hk HT. unfold expired_rows. set (le := λ o o' : DingTalkRobotOutbox, le_nullable _ _).
  set (L := order_by le _). set (LT := filter (λ o, expired T o = true) L).
  assert (∀ o, o ∈ L → outbox s !! DingTalkRobotOutbox.id o = Some o ∧ expired now o = true) as HL.
  { intros o Ho. by apply queried_row in Ho as (? & ? & _). }
  assert (LT = take (length LT) L) as Hprefix.
  { apply (sorted_prefix (λ o o', le o o' = true)).
    - intros x y Hx Hy Hxy. apply HL in Hx as [_ [Hd (t & Ht & _)]%expired_dispatching]. unfold le in Hxy.
      rewrite !expired_dispatching. intros (_ & t' & Ht' & HtT). split; [done|]. exists t. split; [done|].
      rewrite Ht, Ht' in Hxy. simpl in Hxy. lia.
    - apply order_by_strongly; unfold le; intros; [apply le_nullable_total|by eapply le_nullable_trans]. }
  assert (NoDup (DingTalkRobotOutbox.id <$> L)) as Hids.
  { rewrite <-(firstn_all L). by apply queried_ids. }
  assert (NoDup (DingTalkRobotOutbox.id <$> take 100 LT)) as HidsT.
  { rewrite Hprefix, take_take. eapply sublist_NoDup; [exact Hids|]. apply fmap_sublist, sublist_take. }
  exists (list_to_set (DingTalkRobotOutbox.id <$> take 100 LT)). split_and!.
  - intros k. rewrite elem_of_list_to_set. intros (o & -> & Ho)%list_elem_of_fmap. apply list_elem_of_fmap_2.
    rewrite Hprefix, take_take in Ho. apply elem_of_take in Ho as (i & Hi & Hlt). apply elem_of_take. exists i.
    split; [done|lia].
  - intros k. rewrite elem_of_list_to_set. intros (o & -> & Ho%subseteq_take)%list_elem_of_fmap.
    apply list_elem_of_filter in Ho as [HoT Ho]. apply elem_of_stale. exists o. split; [by apply HL|done].
  - rewrite size_list_to_set, length_fmap, length_take by done.
    enough (size (stale T s) ≤ length LT)%nat by lia.
    transitivity (size (list_to_set (C := gset uuid) (DingTalkRobotOutbox.id <$> LT))).
    + apply subseteq_size. intros k (o & Ho & He)%elem_of_stale. rewrite elem_of_list_to_set, list_elem_of_fmap.
      exists o. split; [symmetry; by apply Hk|]. apply list_elem_of_filter. split; [done|]. apply elem_of_order_by.
      apply list_elem_of_filter. split; [set_solver|]. apply elem_of_select.
      split; [by eapply expired_later|by exists k].
    + rewrite size_list_to_set; [by rewrite length_fmap|]. rewrite Hprefix.
      eapply sublist_NoDup; [exact Hids|]. apply fmap_sublist, sublist_take.
Qed.

(** A committed sweep settles a hundred of the claims that ended before [T], or all. *)
Lemma sweep_stale T s z s' :
  keyed s → past T s → expire_claims ∅ s = Ok z s' → (size (stale T s') ≤ size (stale T s) - 100)%nat.
Proof.
  intros Hk Hp Hz.
  assert (wp (expire_claims ∅) (λ _ s', size (stale T s') ≤ size (stale T s) - 100)%nat (λ _ _, True) s) as Hwp.
  { apply wp_expire_claims; [done| |done]. intros now k s1 Hnow l [_ Hrows Hothers] _.
    destruct (expired_rows_found T now s Hk (Hp _ _ Hnow)) as (F & HF & HFs & Hsize).
    assert (stale T s1 ⊆ stale T s ∖ F) as Hsub.
    { intros i (o & Ho & He)%elem_of_stale.
      assert (i ∉ DingTalkRobotOutbox.id <$> l) as Hi.
      { intros (x & -> & Hx)%list_elem_of_fmap. destruct (Hrows x Hx) as (x' & Hx' & _ & Hu).
        rewrite Ho in Hx'. injection Hx' as <-. apply expired_dispatching in He as [Hd _]. congruence. }
      apply elem_of_difference. split; [|intros HiF; by apply Hi, HF].
      apply elem_of_stale. exists o. by rewrite <-Hothers. }
    apply subseteq_size in Hsub. rewrite size_difference in Hsub by done. lia. }
  exact (wp_inv_ok _ _ _ _ _ _ Hwp Hz).
Qed.

(** Histories in which the clock is past [T], with their number of committed sweeps. *)
Inductive draining (T : Z) : nat → World → World → Prop :=
| draining_refl w : draining T 0 w w
| draining_step n w1 w2 w3 : draining T n w1 w2 → past T (db w2) → step w2 w3 → draining T n w1 w3
| draining_sweep n w1 w2 z s' :
    draining T n w1 w2 → past T (db w2) → expire_claims ∅ (db w2) = Ok z s' →
    draining T (S n) w1 (MkWorld s' (outstanding w2)).

Lemma sweep_step w z s' : expire_claims ∅ (db w) = Ok z s' → step w (MkWorld s' (outstanding w)).
Proof.
  destruct w as [s cs]. intros Hz. apply (job_step (Expire ∅)). cbn in *. unfold mbind, M_bind. by rewrite Hz.
Qed.

Lemma draining_stale T n w1 w2 :
  (0 ≤ lease_seconds)%Z → delivery_ok w1 → draining T n w1 w2 →
  delivery_ok w2 ∧ (size (stale T (db w2)) ≤ size (stale T (db w1)) - 100 * n)%nat.
Proof.
  intros Hlease Hok. induction 1 as [|n w1 w2 w3 _ IH Hp Hs|n w1 w2 z s' _ IH Hp Hz]; [split; [done|lia]|..];
    destruct (IH Hok) as [Hok2 Hsize].
  - split; [by eapply step_ok|]. apply step_move in Hs; [|apply Hok2].
    apply (move_stale T) in Hs; [|done|apply Hok2|done]. apply subseteq_size in Hs. lia.
  - split; [eapply step_ok, sweep_step; done|]. apply (sweep_stale T) in Hz; [cbn; lia|apply Hok2|done].
Qed.

(** Every claimed row has a lease. *)
Definition leased (w : World) : Prop := ∀ k o, outbox (db w) !! k = Some o →
  DingTalkRobotOutbox.status o = DingTalkOutboxStatus.DISPATCHING → is_Some (DingTalkRobotOutbox.lease_expires_at o).

Lemma step_leased w w' : delivery_ok w ∧ leased w → step w w' → delivery_ok w' ∧ leased w'.
Proof.
  intros [Hok Hl] Hs. split; [by eapply step_ok|]. intros k o Ho Hd. apply step_move in Hs; [|apply Hok].
  destruct (move_dispatching _ _ _ _ (ok_keyed _ Hok) Hs Ho Hd) as [Hold|(now & k' & _ & ->)]; [by eapply Hl|by eexists].
Qed.

Lemma draining_steps T n w1 w2 : draining T n w1 w2 → steps step w1 w2.
Proof. induction 1; [apply steps_refl|by eapply steps_snoc|eapply steps_snoc; [done|by eapply sweep_step]]. Qed.

(** [C8] No claim stays stuck: whatever the other workers do meanwhile, once the clock is
    past [T], one committed sweep per hundred claims that ended before [T] leaves none of
    them; every delivery still claimed then has a lease that ends at [T] or later. *)
Theorem expired_claims_drain T n w0 w1 w2 :
  (0 ≤ lease_seconds)%Z → fresh w0 → steps step w0 w1 → draining T n w1 w2 →
  (size (stale T (db w1)) ≤ 100 * n)%nat →
  ∀ k o, outbox (db w2) !! k = Some o → DingTalkRobotOutbox.status o = DingTalkOutboxStatus.DISPATCHING →
    ∃ lease, DingTalkRobotOutbox.lease_expires_at o = Some lease ∧ (T ≤ lease)%Z.
Proof.
  intros Hlease Hw0 Hs Hd Hn k o Ho Hdisp.
  assert (delivery_ok w2 ∧ leased w2) as [_ Hl].
  { apply (steps_invariant step (λ w, delivery_ok w ∧ leased w) w0); [exact step_leased|split; [by apply fresh_ok|]|].
    - intros i x. destruct Hw0 as [He _]. by rewrite He, lookup_empty.
    - eapply steps_trans; [exact Hs|by eapply draining_steps]. }
  destruct (Hl k o Ho Hdisp) as [lease Hlo]. exists lease. split; [done|].
  destruct (draining_stale T n w1 w2) as [_ Hsize]; [done|by eapply reachable_ok|done|].
  destruct (Z.le_gt_cases T lease) as [?|Hlt]; [done|exfalso].
  assert (k ∈ stale T (db w2)) as Hk.
  { apply elem_of_stale. exists o. split; [done|]. apply expired_dispatching. split; [done|]. exists lease. split; [done|lia]. }
  assert (size (stale T (db w2)) = 0%nat) as Hzero by lia. apply size_empty_inv in Hzero. set_solver.
Qed.

(** ** The worker *)

Lemma savepoint_cases {A} (m : Py OutboxDb A) s :
  (∃ a s', m s = Ok a s' ∧ savepoint m s = Ok a s') ∨ (∃ e, savepoint m s = Raise e (aborted m s)).
Proof. unfold savepoint, aborted, final. destruct (m s); [left; eauto|right; eauto]. Qed.

(** A transaction that is a job of the model: committed or lost, it is one step. *)
Lemma job_round {A} (m : Py OutboxDb A) j s cs :
  run_job j = (m;; mret ()) → step (MkWorld s cs) (MkWorld (final (savepoint m s)) cs).
Proof.
  intros Hj. destruct (savepoint_cases m s) as [(a & s' & Hm & ->)|[e ->]].
  - apply (job_step j). rewrite Hj. unfold mbind, M_bind. by rewrite Hm.
  - change (final (Raise e (aborted m s))) with (aborted m s). replace (aborted m s) with (aborted (run_job j) s); [apply job_lost|]. rewrite Hj.
    unfold aborted, final, mbind, M_bind. by destruct (m s).
Qed.

(** Run [m] as a transaction that takes the world to a related one, then go on. *)
Lemma round_bind {A B} (m : Py OutboxDb A) (f : A → Py OutboxDb B) s cs cs' :
  (∀ a s', savepoint m s = Ok a s' →
     ∃ cs1, steps step (MkWorld s cs) (MkWorld s' cs1) ∧
            steps step (MkWorld s' cs1) (MkWorld (final (f a s')) cs')) →
  (∀ e s', savepoint m s = Raise e s' → steps step (MkWorld s cs) (MkWorld s' cs')) →
  steps step (MkWorld s cs) (MkWorld (final ((savepoint m ≫= f) s)) cs').
Proof.
  intros HO HR. unfold mbind, M_bind. destruct (savepoint m s) as [a s'|e s'] eqn:Hm; [|by eapply HR].
  destruct (HO a s' eq_refl) as (cs1 & H1s & H2s). by eapply steps_trans.
Qed.

Lemma round_job {A B} j (m : Py OutboxDb A) (f : A → Py OutboxDb B) s cs :
  run_job j = (m;; mret ()) →
  (∀ a s', steps step (MkWorld s' cs) (MkWorld (final (f a s')) cs)) →
  steps step (MkWorld s cs) (MkWorld (final ((savepoint m ≫= f) s)) cs).
Proof.
  intros Hj Hf. pose proof (job_round m j s cs Hj) as Hs. apply round_bind.
  - intros a s' Hm. exists cs. rewrite Hm in Hs. split; [by apply steps_one|apply Hf].
  - intros e s' Hm. rewrite Hm in Hs. by apply steps_one.
Qed.

(** The reconciliation at the end of a round. *)
Lemma reconciliation_round (locked : gset uuid) (result : Z → Stats) s cs :
  steps step (MkWorld s cs) (MkWorld (final ((
    claim ← savepoint (claim_reconciliation locked None None);
    reconciled ← match claim with
                 | None => mret 0%Z
                 | Some c => item ← savepoint (reconcile c);
                             mret (match item with Some _ => 1 | None => 0 end)%Z
                 end;
    mret (result reconciled)) s)) cs).
Proof.
  apply (round_job (ClaimReconciliation locked None None)); [done|]. intros [c|] s'; [|apply steps_refl].
  pose proof (job_round (reconcile c) (Reconcile c) s' cs eq_refl) as Hs.
  unfold mbind at 1, M_bind at 1. unfold mbind at 1, M_bind at 1.
  destruct (savepoint (reconcile c) s') as [r s1|e s1]; by apply steps_one.
Qed.

(** The world after a round of a worker, however it ended. *)
Definition worker_round (locked : gset uuid) (w : World) : World :=
  MkWorld (final (run_once locked (db w))) (outstanding w).

(** One round of the worker, whether it returns or an exception ends it anywhere, is a
    sequence of the steps whose histories the other theorems are about; a claim it makes
    is used up before the round is over. *)
Theorem run_once_steps locked w : steps step w (worker_round locked w).
Proof.
  destruct w as [s cs]. unfold worker_round, run_once. cbn [db outstanding]. apply (round_job (Expire locked)); [done|]. intros unknown s1.
  apply (round_job (Enqueue locked)); [done|]. intros item s2. cbv zeta. apply round_bind.
  - intros claim s3 Hm. destruct (savepoint_cases (claim_next locked) s2) as [(a & s' & Hc & He)|[e He]];
      rewrite Hm in He; [injection He as <- <-|done]. destruct claim as [c|].
    + exists (c :: cs). split; [by eapply steps_one, claim_step|].
      unfold mbind at 1, M_bind at 1. unfold mbind at 1, M_bind at 1.
      destruct (savepoint_cases (dispatch c) s3) as [(r & s4 & Hd & ->)|[e ->]].
      * eapply steps_trans; [|apply reconciliation_round]. apply steps_one. by apply (dispatch_step c r s3 s4 []).
      * apply steps_one. apply (dispatch_lost c s3 []).
    + exists cs. split; [by eapply steps_one, claim_none|]. apply reconciliation_round.
  - intros e s3 Hm. destruct (savepoint_cases (claim_next locked) s2) as [(a & s' & Hc & He)|[e' He]];
      rewrite Hm in He; [done|]. injection He as -> ->. apply steps_one, claim_lost.
Qed.
End Liveness.

Section Witness.
Import OutboxHistorySample.
#[local] Existing Instances Sample.environment OutboxSample.contracts OutboxSample.encoder OutboxSample.platform
  OutboxSample.robot OutboxSample.limiter OutboxSample.guard OutboxSample.settings.

(** The claiming worker dies; 40 seconds later another one sweeps. *)
Definition waiting_world : World :=
  MkWorld (OutboxSample.later (OutboxSample.now + 40 * second) OutboxSample.claimed) [OutboxSample.the_claim].
Definition swept_db : OutboxDb := Eval vm_compute in final (expire_claims ∅ (db waiting_world)).
Definition deadline : Z := (OutboxSample.now + 40 * second)%Z.

Lemma later_step t s cs : step (MkWorld s cs) (MkWorld (OutboxSample.later t s) cs).
Proof. by apply elsewhere. Qed.

Lemma past_later T t s : readings (core s) = [] → (T ≤ t)%Z → past T (OutboxSample.later t s).
Proof. intros Hr Ht now k. unfold utc_now. cbn. rewrite Hr. by intros [= <- _]. Qed.

Lemma reaches_waiting : steps step before waiting_world.
Proof.
  apply steps_snoc with after_claim.
  - eapply steps_snoc; [|exact claimed_step]. apply steps_one, enqueued_step.
  - apply later_step.
Qed.

Lemma one_sweep : draining deadline 1 waiting_world (MkWorld swept_db [OutboxSample.the_claim]).
Proof.
  apply (draining_sweep deadline 0 waiting_world waiting_world 1); [apply draining_refl| |vm_compute; reflexivity].
  apply past_later; [vm_compute; reflexivity|reflexivity || by vm_compute].
Qed.

Lemma expired_claims_drain_witness :
  size (stale deadline (db waiting_world)) = 1%nat ∧ OutboxSample.statuses swept_db = [DingTalkOutboxStatus.UNKNOWN] ∧
  ∀ k o, outbox swept_db !! k = Some o → DingTalkRobotOutbox.status o = DingTalkOutboxStatus.DISPATCHING →
    ∃ lease, DingTalkRobotOutbox.lease_expires_at o = Some lease ∧ (deadline ≤ lease)%Z.
Proof.
  split; [vm_compute; reflexivity|]. split; [vm_compute; reflexivity|].
  apply (expired_claims_drain deadline 1 before waiting_world (MkWorld swept_db [OutboxSample.the_claim]));
    [by vm_compute|exact before_fresh|exact reaches_waiting|exact one_sweep|].
  replace (size (stale deadline (db waiting_world))) with 1%nat by (vm_compute; reflexivity). lia.
Defined.
End Witness.
