(* ===== verification/WorkflowSpec.v ===== *)
(** * Workflow specifications ([automation/schemas.py])

    A workflow is a list of steps that name the steps they depend on.  The validators of
    [WorkflowStepSpec] and [WorkflowSpec] are below, the search for cycles with its two
    sets of marks.  Reading the fields of a JSON document is pydantic's, and a
    parameter ([SpecFields]). *)

From S2P Require Import Prelude PyText PyVal Regex Enums.

Module WorkflowStepSpec.
Record WorkflowStepSpec : Type := Make {
  id : string;
  name : string;
  type : WorkflowStepType;
  depends_on : list string;
  prompt : option string;
  model_profile : option string;
  title : option string;
  body : option string;
  review_instructions : option string;
  disallow_self_review : bool
}.
End WorkflowStepSpec.
Abbreviation WorkflowStepSpec := WorkflowStepSpec.WorkflowStepSpec.

Definition WorkflowSpec : Type := list WorkflowStepSpec.

(** ** Templates *)

(** [^[a-z][a-z0-9_-]{0,63}$] *)
Definition _STEP_KEY (s : string) : bool :=
  match chars s with
  | a :: l => is_lower a && forallb (λ c, is_lower c || is_digit c || one_of "_-" c) l &&
              (length l <=? 63)%nat
  | [] => false
  end.

Definition key_char (c : ascii) : bool := is_lower c || is_upper c || is_digit c || one_of "_-" c.

Definition _PLACEHOLDER : re :=
  seq [lit "{{"; star (Cls is_space);
       Group 1 (alts [Cat (lit "input") (plus (Cat (lit ".") (plus (Cls key_char))));
                      lit "execution.id"; lit "workflow.id"; lit "scheduled_for"]);
       star (Cls is_space); lit "}}"].

(** A dot is any character but a line feed. *)
Definition _ANY_PLACEHOLDER : re :=
  seq [lit "{{"; lazy (Cls (λ c, negb (code c =? 10)%N)); lit "}}"].

Definition supported_placeholders (template : string) : bool :=
  forallb (fullmatch _PLACEHOLDER) (findall _ANY_PLACEHOLDER template).

(** ** One step *)

(** The message of the first check that fails: [if check: raise ValueError(message)]. *)
Definition first_failure (checks : list (bool * string)) : option string :=
  snd <$> find fst checks.

Definition is_none {A} (o : option A) : bool := match o with None => true | Some _ => false end.

Definition validate_type_contract (s : WorkflowStepSpec) : option string :=
  let kind t := bool_decide (WorkflowStepSpec.type s = t) in
  first_failure
    [(negb (_STEP_KEY (WorkflowStepSpec.id s)),
      "step id must start with a letter and contain lowercase safe characters");
     (negb (length (remove_dups (WorkflowStepSpec.depends_on s)) =?
            length (WorkflowStepSpec.depends_on s))%nat,
      "step dependencies must be unique");
     (bool_decide (WorkflowStepSpec.id s ∈ WorkflowStepSpec.depends_on s),
      "a workflow step cannot depend on itself");
     (kind WorkflowStepType.ANALYSIS && is_none (WorkflowStepSpec.prompt s),
      "analysis steps require a prompt");
     (kind WorkflowStepType.NOTIFICATION &&
        (is_none (WorkflowStepSpec.title s) || is_none (WorkflowStepSpec.body s)),
      "notification steps require title and body");
     (kind WorkflowStepType.HUMAN_REVIEW && is_none (WorkflowStepSpec.review_instructions s),
      "human review steps require review instructions");
     (negb (forallb supported_placeholders
        (omap id [WorkflowStepSpec.prompt s; WorkflowStepSpec.title s; WorkflowStepSpec.body s])),
      "workflow template contains an unsupported placeholder")].

(** The bounds of the fields. *)
Definition length_in (lo hi : Z) (s : string) : bool := (lo <=? py_len s)%Z && (py_len s <=? hi)%Z.
Definition optional_in (lo hi : Z) (o : option string) : bool :=
  match o with Some s => length_in lo hi s | None => true end.

Definition step_fields (s : WorkflowStepSpec) : bool :=
  length_in 1 64 (WorkflowStepSpec.id s) && length_in 1 200 (WorkflowStepSpec.name s) &&
  (length (WorkflowStepSpec.depends_on s) <=? 49)%nat &&
  optional_in 1 100000 (WorkflowStepSpec.prompt s) &&
  optional_in 1 120 (WorkflowStepSpec.model_profile s) &&
  optional_in 1 300 (WorkflowStepSpec.title s) &&
  optional_in 1 20000 (WorkflowStepSpec.body s) &&
  optional_in 1 20000 (WorkflowStepSpec.review_instructions s).

(** ** The graph of dependencies *)

(** [visiting] and [visited] *)
Record Marks : Type := MkMarks { visiting : gset string; visited : gset string }.

Definition by_id (spec : WorkflowSpec) : gmap string WorkflowStepSpec :=
  list_to_map (reverse (map (λ s, (WorkflowStepSpec.id s, s)) spec)).

Definition cyclic : string := "workflow dependency graph must be acyclic".

(** The recursion is as deep as there are steps being visited; the fuel stands for Python's
    recursion limit, far beyond the fifty steps of a specification. *)
Fixpoint visit (fuel : nat) (steps : gmap string WorkflowStepSpec) (step_id : string) :
    M string Marks unit :=
  match fuel with
  | O => raise "RecursionError"
  | S fuel =>
      marks ← gets (λ m, m);
      if bool_decide (step_id ∈ visiting marks) then raise cyclic
      else if bool_decide (step_id ∈ visited marks) then mret ()
      else
        modify (λ m, MkMarks ({[step_id]} ∪ visiting m) (visited m));;
        match steps !! step_id with
        | None => raise "KeyError"
        | Some step => for_each (WorkflowStepSpec.depends_on step) (visit fuel steps)
        end;;
        modify (λ m, MkMarks (visiting m ∖ {[step_id]}) ({[step_id]} ∪ visited m))
  end.

Definition unknown_dependencies (spec : WorkflowSpec) (s : WorkflowStepSpec) : list string :=
  order_by string_le
    (List.filter (λ d, is_none (by_id spec !! d)) (remove_dups (WorkflowStepSpec.depends_on s))).

Definition unknown_message (spec : WorkflowSpec) (s : WorkflowStepSpec) : string :=
  "workflow step " +:+ WorkflowStepSpec.id s +:+ " has unknown dependencies: " +:+
  py_repr (VList (map VStr (unknown_dependencies spec s))).

(** [None] when the specification is accepted, or the message of the [ValueError]. *)
Definition validate_dag (spec : WorkflowSpec) : option string :=
  let ids := map WorkflowStepSpec.id spec in
  if negb (size (by_id spec) =? length spec)%nat then Some "workflow step ids must be unique"
  else match List.filter (λ s, negb (bool_decide (unknown_dependencies spec s = []))) spec with
  | s :: _ => Some (unknown_message spec s)
  | [] =>
      match for_each ids (visit (S (length spec)) (by_id spec)) (MkMarks ∅ ∅) with
      | Ok _ _ => None
      | Raise message _ => Some message
      end
  end.

(** A document that validates: fields, steps, graph. *)
Definition valid_spec (spec : WorkflowSpec) : bool :=
  (1 <=? length spec)%nat && (length spec <=? 50)%nat && forallb step_fields spec &&
  forallb (λ s, is_none (validate_type_contract s)) spec && is_none (validate_dag spec).

(** ** Documents *)

Definition opt_val (o : option string) : val := match o with Some s => VStr s | None => VNone end.

(** [step.model_dump(mode="json")] *)
Definition dump_step (s : WorkflowStepSpec) : dict :=
  [("id", VStr (WorkflowStepSpec.id s)); ("name", VStr (WorkflowStepSpec.name s));
   ("type", VStr (value_of (WorkflowStepSpec.type s)));
   ("depends_on", VList (map VStr (WorkflowStepSpec.depends_on s)));
   ("prompt", opt_val (WorkflowStepSpec.prompt s));
   ("model_profile", opt_val (WorkflowStepSpec.model_profile s));
   ("title", opt_val (WorkflowStepSpec.title s)); ("body", opt_val (WorkflowStepSpec.body s));
   ("review_instructions", opt_val (WorkflowStepSpec.review_instructions s));
   ("disallow_self_review", VBool (WorkflowStepSpec.disallow_self_review s))].

Definition dump_spec (spec : WorkflowSpec) : dict := [("steps", VList (map (VDict ∘ dump_step) spec))].

(** How pydantic reads the fields of a specification from a JSON document. *)
Class SpecFields := spec_fields : dict → option WorkflowSpec.

(** [WorkflowSpec.model_validate]: the fields, then the validators. *)
Definition model_validate `{SpecFields} (document : dict) : option WorkflowSpec :=
  spec ← spec_fields document; if valid_spec spec then Some spec else None.

(** ** Correctness of the search *)

(** Step [a] names [b] as a dependency. *)
Definition depends (spec : WorkflowSpec) (a b : string) : Prop :=
  ∃ s, s ∈ spec ∧ WorkflowStepSpec.id s = a ∧ b ∈ WorkflowStepSpec.depends_on s.

Definition acyclic (spec : WorkflowSpec) : Prop := ∀ a, ¬ tc (depends spec) a a.

Definition known_dependencies (spec : WorkflowSpec) : Prop :=
  ∀ a b, depends spec a b → b ∈ map WorkflowStepSpec.id spec.

(** An accessible element is on no cycle. *)
Lemma Acc_tc {A} (R : A → A → Prop) a : Acc (flip R) a → ¬ tc R a a.
Proof.
  induction 1 as [a _ IH]. intros Hc.
  assert (∃ b, R a b ∧ rtc R b a) as (b & Hab & Hba).
  { inversion Hc as [? ? H1|? b ? H1 H2]; subst; [by exists a|]. exists b. split; [done|by apply tc_rtc]. }
  apply (IH b Hab). eapply tc_rtc_l; [exact Hba|by apply tc_once].
Qed.

Lemma NoDup_map_inj {A B} (f : A → B) l x y : NoDup (map f l) → x ∈ l → y ∈ l → f x = f y → x = y.
Proof.
  induction l as [|z l IH]; cbn; [by intros _ ?%elem_of_nil|]. rewrite NoDup_cons. intros [Hz Hl] Hx Hy Heq.
  apply elem_of_cons in Hx as [->|Hx], Hy as [->|Hy]; try done; [..|by apply IH]; destruct Hz;
    [rewrite Heq|rewrite <-Heq]; by apply list_elem_of_In, in_map, list_elem_of_In.
Qed.

Lemma size_of_list_le (l : list string) : size (list_to_set (C := gset string) l) ≤ length l.
Proof.
  induction l as [|a l IH]; cbn; [by rewrite size_empty|].
  rewrite size_union_alt, size_singleton.
  assert (size (list_to_set l ∖ {[a]} : gset string) ≤ size (list_to_set l : gset string)); [|lia].
  apply subseteq_size. set_solver.
Qed.

Section Visit.
Context (spec : WorkflowSpec).
Let ids : list string := map WorkflowStepSpec.id spec.
Let dep := depends spec.
Context (by_id_spec : ∀ s, s ∈ spec → by_id spec !! WorkflowStepSpec.id s = Some s).
Context (known : known_dependencies spec).

Definition settled (m : Marks) : Prop := ∀ a, a ∈ visited m → Acc (flip dep) a.

(** What a visit leaves: nothing is left being visited, and whatever was visited is on no
    cycle. *)
Definition visited_through (m : Marks) (l : list string) (m' : Marks) : Prop :=
  visiting m' = visiting m ∧ visited m ⊆ visited m' ∧ (∀ a, a ∈ l → a ∈ visited m') ∧ settled m'.

Definition found_cycle (e : string) (m : Marks) : Prop := e = cyclic ∧ ∃ a, tc dep a a.

(** Visiting a list, when visiting each of its elements is understood. *)
Lemma wp_visit_all (f : string → M string Marks unit) (l : list string) m :
  settled m →
  (∀ a m', a ∈ l → visiting m' = visiting m → settled m' → wp (f a) (λ _, visited_through m' [a]) found_cycle m') →
  wp (for_each l f) (λ _, visited_through m l) found_cycle m.
Proof.
  clear by_id_spec known. intros Hm Hf. revert m Hm Hf. induction l as [|a l IH]; intros m Hm Hf; cbn [for_each].
  - apply wp_ret. split_and!; try done. set_solver.
  - apply wp_bind. eapply wp_mono; [apply Hf; [left|done|done]| |done]. cbv beta.
    intros _ m1 (Hv1 & Hs1 & Ha1 & Hm1). eapply wp_mono; [apply IH; [done|]| |done].
    + intros b m' Hb Hv. apply Hf; [by right|congruence].
    + intros _ m2 (Hv2 & Hs2 & Ha2 & Hm2). split_and!; [congruence|set_solver| |done].
      intros b [->|Hb]%elem_of_cons; [|auto]. apply Hs2, Ha1. left.
Qed.

Lemma wp_visit fuel a m :
  a ∈ ids → length spec < size (visiting m) + fuel →
  (∀ v, v ∈ visiting m → v ∈ ids ∧ tc dep v a) → settled m →
  wp (visit fuel (by_id spec) a) (λ _, visited_through m [a]) found_cycle m.
Proof.
  revert a m. induction fuel as [|fuel IH]; intros a m Ha Hfuel Hv Hm.
  - exfalso. assert (size (visiting m) ≤ size (list_to_set (C := gset string) ids)) as Hle.
    { apply subseteq_size. intros v Hin. apply elem_of_list_to_set. by apply Hv. }
    pose proof (size_of_list_le ids). unfold ids in *. rewrite length_map in *. lia.
  - cbn [visit]. apply wp_bind, wp_gets. cbv beta.
    case_bool_decide as Hin; [apply wp_raise; split; [done|]; exists a; by apply Hv|].
    case_bool_decide as Hdone; [apply wp_ret; split_and!; set_solver|].
    apply wp_bind, wp_modify. cbv beta. apply list_elem_of_In, in_map_iff in Ha as (s & <- & Hs%list_elem_of_In).
    rewrite (by_id_spec s Hs). apply wp_bind.
    eapply wp_mono; [apply wp_visit_all; [done|]| |done].
    + intros b m' Hb Hv' Hm'. cbn [visiting] in Hv'. assert (dep (WorkflowStepSpec.id s) b) as Hsb by (by exists s).
      apply IH; [by eapply known|..|done].
      * rewrite Hv', size_union, size_singleton by set_solver. lia.
      * rewrite Hv'. intros v [->%elem_of_singleton|Hin']%elem_of_union.
        -- split; [|by apply tc_once]. by apply list_elem_of_In, in_map, list_elem_of_In.
        -- destruct (Hv v Hin'). split; [done|]. by eapply tc_r.
    + cbv beta. intros _ m' (Hv' & Hs' & Ha' & Hm'). apply wp_modify. cbn in *. split_and!; cbn.
      * rewrite Hv'. set_solver.
      * set_solver.
      * set_solver.
      * intros b [->%elem_of_singleton|Hb]%elem_of_union; [|auto]. constructor.
        intros c (s' & Hs1 & Hid & Hc). apply Hm', Ha'. pose proof (by_id_spec s' Hs1) as H1.
        rewrite Hid, (by_id_spec s Hs) in H1. by simplify_eq.
Qed.
End Visit.

(** ** What is accepted *)

Lemma by_id_in spec a s : by_id spec !! a = Some s → s ∈ spec ∧ WorkflowStepSpec.id s = a.
Proof.
  unfold by_id. intros Hs%elem_of_list_to_map_2. rewrite elem_of_reverse in Hs.
  apply list_elem_of_In, in_map_iff in Hs as (s' & [= <- <-] & Hs%list_elem_of_In). done.
Qed.

Lemma by_id_known spec a : a ∈ map WorkflowStepSpec.id spec ↔ is_Some (by_id spec !! a).
Proof.
  unfold by_id. split.
  - intros Ha. destruct (list_to_map _ !! a) eqn:He; [done|]. apply not_elem_of_list_to_map in He.
    rewrite fmap_reverse, elem_of_reverse, <-list_fmap_compose in He. done.
  - intros [s Hs%by_id_in]. destruct Hs as [Hs <-]. by apply list_elem_of_In, in_map, list_elem_of_In.
Qed.

(** The size of the dictionary tells whether two steps share an id. *)
Lemma by_id_size spec :
  size (by_id spec) = length spec ↔ NoDup (map WorkflowStepSpec.id spec).
Proof.
  assert (dom (by_id spec) = list_to_set (map WorkflowStepSpec.id spec)) as Hdom.
  { apply set_eq. intros a. by rewrite elem_of_dom, <-by_id_known, elem_of_list_to_set. }
  rewrite <-size_dom, Hdom. clear Hdom. induction spec as [|s spec IH]; cbn.
  - rewrite size_empty. split; [constructor|done].
  - rewrite NoDup_cons, size_union_alt, size_singleton, <-IH.
    pose proof (size_of_list_le (map WorkflowStepSpec.id spec)) as Hle. rewrite length_map in Hle.
    destruct (decide_rel (∈) (WorkflowStepSpec.id s) (map WorkflowStepSpec.id spec)) as [Hin|Hout].
    + split; [|tauto]. intros Heq.
      assert (size (list_to_set (map WorkflowStepSpec.id spec) ∖ {[WorkflowStepSpec.id s]} : gset string) <
              size (list_to_set (map WorkflowStepSpec.id spec) : gset string)); [|lia].
      apply subset_size. set_solver.
    + replace (list_to_set (map WorkflowStepSpec.id spec) ∖ {[WorkflowStepSpec.id s]} : gset string)
        with (list_to_set (C := gset string) (map WorkflowStepSpec.id spec)) by set_solver.
      split; [intros; split; [done|lia]|lia].
Qed.

Lemma elem_of_unknown spec s d :
  d ∈ unknown_dependencies spec s ↔
  d ∈ WorkflowStepSpec.depends_on s ∧ d ∉ map WorkflowStepSpec.id spec.
Proof.
  unfold unknown_dependencies. rewrite elem_of_order_by, list_elem_of_In, filter_In, <-list_elem_of_In.
  rewrite elem_of_remove_dups, by_id_known, <-eq_None_not_Some. destruct (by_id spec !! d); naive_solver.
Qed.

Lemma unknown_dependencies_nil spec s :
  unknown_dependencies spec s = [] ↔
  ∀ d, d ∈ WorkflowStepSpec.depends_on s → d ∈ map WorkflowStepSpec.id spec.
Proof.
  split.
  - intros Hnil d Hd. destruct (decide_rel (∈) d (map WorkflowStepSpec.id spec)) as [|Hout]; [done|exfalso].
    assert (d ∈ unknown_dependencies spec s) as Hin by by apply elem_of_unknown. rewrite Hnil in Hin.
    by apply elem_of_nil in Hin.
  - intros Hall. destruct (unknown_dependencies spec s) as [|d l] eqn:He; [done|].
    assert (d ∈ unknown_dependencies spec s) as [Hd Hout]%elem_of_unknown by (rewrite He; left).
    by destruct Hout; apply Hall.
Qed.

Lemma known_steps spec :
  known_dependencies spec ↔ ∀ s, s ∈ spec → unknown_dependencies spec s = [].
Proof.
  unfold known_dependencies, depends. setoid_rewrite unknown_dependencies_nil. naive_solver.
Qed.

Lemma unknown_none spec :
  List.filter (λ s, negb (bool_decide (unknown_dependencies spec s = []))) spec = [] → known_dependencies spec.
Proof.
  intros Hf. apply known_steps. intros s Hs. destruct (unknown_dependencies spec s) eqn:He; [done|].
  assert (s ∈ List.filter (λ s, negb (bool_decide (unknown_dependencies spec s = []))) spec) as Hin.
  { apply list_elem_of_In, filter_In. split; [by apply list_elem_of_In|]. by rewrite He. }
  rewrite Hf in Hin. by apply elem_of_nil in Hin.
Qed.

Lemma wp_search spec :
  NoDup (map WorkflowStepSpec.id spec) → known_dependencies spec →
  wp (for_each (map WorkflowStepSpec.id spec) (visit (S (length spec)) (by_id spec)))
     (λ _ _, well_founded (flip (depends spec))) (found_cycle spec) (MkMarks ∅ ∅).
Proof.
  intros Hnodup Hknown. assert (∀ s, s ∈ spec → by_id spec !! WorkflowStepSpec.id s = Some s) as Hby.
  { intros s Hs. destruct (proj1 (by_id_known spec (WorkflowStepSpec.id s))) as [s' Hs'].
    { by apply list_elem_of_In, in_map, list_elem_of_In. }
    rewrite Hs'. f_equal. apply by_id_in in Hs' as [Hin Hid].
    by apply (NoDup_map_inj WorkflowStepSpec.id spec). }
  eapply wp_mono; [apply (wp_visit_all spec)|..].
  - by intros a Ha%elem_of_empty.
  - intros a m Ha Hv Hm. cbn in Hv. apply wp_visit; try done.
    + rewrite Hv, size_empty. lia.
    + rewrite Hv. intros v Hin. by apply elem_of_empty in Hin.
  - cbv beta. intros _ m (_ & _ & Hin & Hm) a. constructor. intros b (s & Hs & <- & Hb).
    apply Hm, Hin, Hknown with (WorkflowStepSpec.id s). by exists s.
  - done.
Qed.

(** The steps of an accepted specification can be taken in the order of their
    dependencies. *)
Lemma validate_dag_accepts spec :
  validate_dag spec = None →
  NoDup (map WorkflowStepSpec.id spec) ∧ known_dependencies spec ∧ well_founded (flip (depends spec)).
Proof.
  unfold validate_dag. destruct (Nat.eqb_spec (size (by_id spec)) (length spec)) as [Hsize|]; [|done].
  apply by_id_size in Hsize. cbn [negb]. destruct (List.filter _ spec) eqn:Hf; [|done].
  apply unknown_none in Hf as Hknown. pose proof (wp_search spec Hsize Hknown) as Hw. unfold wp in Hw.
  by destruct (for_each _ _ _).
Qed.

Lemma valid_spec_graph spec : valid_spec spec = true → known_dependencies spec ∧ well_founded (flip (depends spec)).
Proof.
  intros [_ Hdag]%andb_true_iff. unfold is_none in Hdag. destruct (validate_dag spec) eqn:Hv; [done|].
  by apply validate_dag_accepts in Hv as [_ ?].
Qed.

(** [C12] The validation of a specification, on every branch.  It accepts exactly the
    specifications whose step ids are distinct, whose dependencies are steps, and where no
    step depends on itself through others; a rejection names the first of these that fails.
    The search never runs out of its depth. *)
Theorem validate_dag_spec spec :
  let ids := map WorkflowStepSpec.id spec in
  match validate_dag spec with
  | None => NoDup ids ∧ known_dependencies spec ∧ acyclic spec
  | Some message =>
      (message = "workflow step ids must be unique" ∧ ¬ NoDup ids) ∨
      (NoDup ids ∧ ∃ s d, s ∈ spec ∧ d ∈ WorkflowStepSpec.depends_on s ∧ d ∉ ids ∧
         message = unknown_message spec s) ∨
      (NoDup ids ∧ known_dependencies spec ∧ ¬ acyclic spec ∧ message = cyclic)
  end.
Proof.
  cbv zeta. unfold validate_dag. destruct (Nat.eqb_spec (size (by_id spec)) (length spec)) as [Hsize|Hsize]; cycle 1.
  { cbn. left. split; [done|]. by rewrite <-by_id_size. }
  apply by_id_size in Hsize as Hnodup. cbn [negb].
  destruct (List.filter _ spec) as [|s l] eqn:Hf; cycle 1.
  { right; left. split; [done|]. assert (s ∈ s :: l) as Hs by left. rewrite <-Hf in Hs.
    apply list_elem_of_In, filter_In in Hs as [Hs%list_elem_of_In Hn]. case_bool_decide as He; [done|].
    destruct (unknown_dependencies spec s) as [|d l'] eqn:Hu; [done|].
    assert (d ∈ unknown_dependencies spec s) as [Hd Hout]%elem_of_unknown by (rewrite Hu; left).
    by exists s, d. }
  apply unknown_none in Hf as Hknown.
  pose proof (wp_search spec Hnodup Hknown) as Hw. unfold wp in Hw.
  destruct (for_each _ _ _) as [[] m|e m]; [split_and!; [done..|]; intros a; by apply Acc_tc|]. destruct Hw as [-> [a Ha]].
  right; right. split_and!; try done. intros Hac. by apply (Hac a).
Qed.

(** ** Examples *)

Definition step_named (id : string) (depends_on : list string) : WorkflowStepSpec :=
  WorkflowStepSpec.Make id id WorkflowStepType.ANALYSIS depends_on (Some ("About {{ input." +:+ id +:+ " }}"))
    None None None None false.

Example diamond_accepted :
  valid_spec [step_named "d" ["b"; "c"]; step_named "b" ["a"]; step_named "c" ["a"]; step_named "a" []] = true.
Proof. vm_compute. reflexivity. Qed.

Example cycle_rejected :
  validate_dag [step_named "a" ["c"]; step_named "b" ["a"]; step_named "c" ["b"]] = Some cyclic.
Proof. vm_compute. reflexivity. Qed.

Example unknown_rejected :
  validate_dag [step_named "a" ["x"; "b"; "c"]; step_named "b" []] =
    Some "workflow step a has unknown dependencies: ['c', 'x']".
Proof. vm_compute. reflexivity. Qed.

Example placeholder_rejected : supported_placeholders "{{ input.a }} and {{ secrets.b }}" = false.
Proof. vm_compute. reflexivity. Qed.
