(* ===== verification/AutomationState.v ===== *)
(** * The tables of automation, and what its code calls

    Workflows with numbered versions, schedules, executions with their steps, and
    notifications ([db/models.py]); the session they live in; the rows a service writes,
    and the interfaces of what automation calls: [croniter] and the time zone database
    ([Cron]), and the creation of threads and turns by [application/workspaces.py]
    ([AnalysisRuns]). *)

From S2P Require Import Prelude PyText PyVal Enums Models Kernel CanonicalJson.
From S2P Require Import Events Identity TurnRequest WorkflowSpec.

Record Automation : Type := MkAutomation {
  base : Kernel;
  workflows : gmap uuid WorkflowDefinition;
  workflow_versions : gmap uuid WorkflowVersion;
  schedules : gmap uuid WorkflowSchedule;
  executions : gmap uuid AutomationExecution;
  step_executions : gmap uuid AutomationStepExecution;
  notifications : gmap uuid NotificationDelivery;
  artifacts : gmap uuid Artifact
}.

#[export] Program Instance automation_session : Session Automation := {
  kernel := base;
  set_kernel k s := s <| base := k |>;
  rollback old new := old <| base := kernel_rollback (base old) (base new) |>
}.
Solve Obligations with (by intros; repeat match goal with s : Automation |- _ => destruct s end).

(** ** Rows *)

Definition put_workflow (id : uuid) (row : WorkflowDefinition) : Py Automation unit :=
  modify (λ s, s <| workflows := <[id := row]> (workflows s) |>).
Definition put_version (id : uuid) (row : WorkflowVersion) : Py Automation unit :=
  modify (λ s, s <| workflow_versions := <[id := row]> (workflow_versions s) |>).
Definition put_schedule (id : uuid) (row : WorkflowSchedule) : Py Automation unit :=
  modify (λ s, s <| schedules := <[id := row]> (schedules s) |>).
Definition put_execution (id : uuid) (row : AutomationExecution) : Py Automation unit :=
  modify (λ s, s <| executions := <[id := row]> (executions s) |>).
Definition put_step (id : uuid) (row : AutomationStepExecution) : Py Automation unit :=
  modify (λ s, s <| step_executions := <[id := row]> (step_executions s) |>).
Definition put_notification (id : uuid) (row : NotificationDelivery) : Py Automation unit :=
  modify (λ s, s <| notifications := <[id := row]> (notifications s) |>).

(** Assigning columns of a loaded row. *)
Definition update_workflow (id : uuid) (f : WorkflowDefinition → WorkflowDefinition) : Py Automation unit :=
  modify (λ s, s <| workflows := alter f id (workflows s) |>).
Definition update_schedule (id : uuid) (f : WorkflowSchedule → WorkflowSchedule) : Py Automation unit :=
  modify (λ s, s <| schedules := alter f id (schedules s) |>).
Definition update_execution (id : uuid) (f : AutomationExecution → AutomationExecution) : Py Automation unit :=
  modify (λ s, s <| executions := alter f id (executions s) |>).
Definition update_step (id : uuid) (f : AutomationStepExecution → AutomationStepExecution) : Py Automation unit :=
  modify (λ s, s <| step_executions := alter f id (step_executions s) |>).
(** The same assignment to every row of the steps. *)
Definition update_steps (f : AutomationStepExecution → AutomationStepExecution) : Py Automation unit :=
  modify (λ s, s <| step_executions := f <$> step_executions s |>).
Definition update_run (id : uuid) (f : Run → Run) : Py Kernel unit :=
  modify (λ k, k <| runs := alter f id (runs k) |>).

(** The value of an object that was loaded before. *)
Definition loaded {A} (o : option A) : Py Automation A :=
  match o with Some a => mret a | None => raise (PyError "StaleDataError") end.

(** [session.add(row); flush()]: the primary key must be free, and the constraints hold. *)
Definition integrity (ok : bool) : Py Automation unit := raise_if (negb ok) (PyError "IntegrityError").

Definition workflow_constraints (w : WorkflowDefinition) (s : Automation) : bool :=
  negb (bool_decide (is_Some (workflows s !! WorkflowDefinition.id w))) &&
  bool_decide (select (λ w', bool_decide (WorkflowDefinition.organization_id w' = WorkflowDefinition.organization_id w) &&
    bool_decide (WorkflowDefinition.workspace_id w' = WorkflowDefinition.workspace_id w) &&
    bool_decide (WorkflowDefinition.name w' = WorkflowDefinition.name w)) (workflows s) = []) &&
  (0 <? WorkflowDefinition.max_concurrency w)%Z && (0 <? WorkflowDefinition.timeout_seconds w)%Z.

Definition version_constraints (v : WorkflowVersion) (s : Automation) : bool :=
  negb (bool_decide (is_Some (workflow_versions s !! WorkflowVersion.id v))) &&
  bool_decide (select (λ v', bool_decide (WorkflowVersion.workflow_id v' = WorkflowVersion.workflow_id v) &&
    (WorkflowVersion.version v' =? WorkflowVersion.version v)%Z) (workflow_versions s) = []).

Definition schedule_constraints (c : WorkflowSchedule) (s : Automation) : bool :=
  negb (bool_decide (is_Some (schedules s !! WorkflowSchedule.id c))) &&
  bool_decide (select (λ c', bool_decide (WorkflowSchedule.workflow_id c' = WorkflowSchedule.workflow_id c) &&
    bool_decide (WorkflowSchedule.name c' = WorkflowSchedule.name c)) (schedules s) = []) &&
  (0 <=? WorkflowSchedule.misfire_grace_seconds c)%Z.

(** [(schedule_id, scheduled_for)] is unique where neither is null. *)
Definition same_slot (e e' : AutomationExecution) : bool :=
  match AutomationExecution.schedule_id e, AutomationExecution.scheduled_for e with
  | Some c, Some t => bool_decide (AutomationExecution.schedule_id e' = Some c) &&
                      bool_decide (AutomationExecution.scheduled_for e' = Some t)
  | _, _ => false
  end.

Definition execution_constraints (e : AutomationExecution) (s : Automation) : bool :=
  negb (bool_decide (is_Some (executions s !! AutomationExecution.id e))) &&
  bool_decide (select (λ e', bool_decide (AutomationExecution.organization_id e' = AutomationExecution.organization_id e) &&
    bool_decide (AutomationExecution.idempotency_key e' = AutomationExecution.idempotency_key e)) (executions s) = []) &&
  bool_decide (select (same_slot e) (executions s) = []) &&
  (0 <? AutomationExecution.max_duration_seconds e)%Z.

Definition step_constraints (st : AutomationStepExecution) (s : Automation) : bool :=
  negb (bool_decide (is_Some (step_executions s !! AutomationStepExecution.id st))) &&
  bool_decide (select (λ st',
    bool_decide (AutomationStepExecution.execution_id st' = AutomationStepExecution.execution_id st) &&
    (bool_decide (AutomationStepExecution.step_key st' = AutomationStepExecution.step_key st) ||
     (AutomationStepExecution.ordinal st' =? AutomationStepExecution.ordinal st)%Z)) (step_executions s) = []).

Definition notification_constraints (n : NotificationDelivery) (s : Automation) : bool :=
  negb (bool_decide (is_Some (notifications s !! NotificationDelivery.id n))) &&
  bool_decide (select (λ n', bool_decide (NotificationDelivery.organization_id n' = NotificationDelivery.organization_id n) &&
    bool_decide (NotificationDelivery.idempotency_key n' = NotificationDelivery.idempotency_key n)) (notifications s) = []).

(** ** The interfaces *)

(** [croniter.is_valid], [ZoneInfo(name)] and [croniter(...).get_next], which raises when
    there is no next date. *)
Class Cron := {
  is_valid : string → bool;
  zone_known : string → bool;
  get_next : string → string → Z → option Z
}.

(** [WorkspaceService.create_thread] and [create_turn], for a service: the ids of the thread
    and of the Run.  They may raise anything and write any shared table. *)
Class AnalysisRuns := {
  create_thread : Principal → uuid → string → Py Kernel uuid;
  create_turn : Principal → uuid → CreateTurnRequest → Py Kernel uuid
}.

(** ** Statuses *)

Definition _ACTIVE_EXECUTION_STATUSES : list AutomationStatus :=
  [AutomationStatus.PENDING; AutomationStatus.RUNNING; AutomationStatus.WAITING_REVIEW].
Definition _TERMINAL_EXECUTION_STATUSES : list AutomationStatus :=
  [AutomationStatus.COMPLETED; AutomationStatus.FAILED; AutomationStatus.CANCELLED; AutomationStatus.SKIPPED].
Definition _TERMINAL_RUN_STATUSES : list RunStatus :=
  [RunStatus.COMPLETED; RunStatus.FAILED; RunStatus.CANCELLED].
Definition _STEP_TERMINAL : list AutomationStepStatus :=
  [AutomationStepStatus.COMPLETED; AutomationStepStatus.FAILED; AutomationStepStatus.CANCELLED;
   AutomationStepStatus.SKIPPED].

Definition active (e : AutomationExecution) : bool :=
  bool_decide (AutomationExecution.status e ∈ _ACTIVE_EXECUTION_STATUSES).
Definition terminal (e : AutomationExecution) : bool :=
  bool_decide (AutomationExecution.status e ∈ _TERMINAL_EXECUTION_STATUSES).
Definition step_terminal (st : AutomationStepExecution) : bool :=
  bool_decide (AutomationStepExecution.status st ∈ _STEP_TERMINAL).
Definition step_is (status : AutomationStepStatus) (st : AutomationStepExecution) : bool :=
  bool_decide (AutomationStepExecution.status st = status).

(** The steps of an execution within its organization. *)
Definition step_of (e : AutomationExecution) (st : AutomationStepExecution) : bool :=
  bool_decide (AutomationStepExecution.organization_id st = AutomationExecution.organization_id e) &&
  bool_decide (AutomationStepExecution.execution_id st = AutomationExecution.id e).
