(* ===== verification/AutomationService.v ===== *)
(** * The automation service ([automation/service.py], [api/automation.py])

    Workflows are drafted in numbered versions, published, paused and retired; schedules
    fire them; a trigger creates an execution with the steps of a version, as far as the
    concurrency policy of the workflow admits it.  Reviews, cancellation and
    notifications are below too.  Each endpoint runs one operation in one transaction. *)

From S2P Require Import Prelude PyText PyVal Enums Models Kernel CanonicalJson Events Identity.
From S2P Require Import WorkflowSpec AutomationState.

(** [workflow_checksum]: values of a JSON document never need [default=str]. *)
Definition workflow_checksum (spec : dict) : string := sha256 (json_dumps true (VDict spec)).

(** [len(s.split())] *)
Fixpoint word_count (inside : bool) (l : list ascii) : nat :=
  match l with
  | [] => 0
  | a :: l' => if is_space a then word_count false l'
               else (if inside then 0 else 1) + word_count true l'
  end.

Definition next_cron_occurrence `{Cron} {S} (expression timezone : string) (after : Z) : Py S Z :=
  raise_if (negb (word_count false (chars expression) =? 5)%nat || negb (is_valid expression))
    (ValidationError "schedule_cron_invalid" "Schedules require a valid five-field cron expression" []);;
  raise_if (negb (zone_known timezone))
    (ValidationError "schedule_timezone_invalid" "Schedule timezone must be a valid IANA timezone" []);;
  match get_next expression timezone after with
  | None => raise (PyError "CroniterBadDateError")
  | Some t => mret t
  end.

(** ** Requests *)

Module CreateWorkflowRequest.
Record CreateWorkflowRequest : Type := Make {
  name : string;
  display_name : string;
  description : string;
  owner_id : option uuid;
  concurrency_policy : WorkflowConcurrencyPolicy;
  max_concurrency : Z;
  timeout_seconds : Z;
  notify_on_success : bool;
  notify_on_failure : bool;
  classification : Classification;
  spec : WorkflowSpec
}.
End CreateWorkflowRequest.
Abbreviation CreateWorkflowRequest := CreateWorkflowRequest.CreateWorkflowRequest.

Module CreateScheduleRequest.
Record CreateScheduleRequest : Type := Make {
  name : string;
  cron_expression : string;
  timezone : string;
  misfire_policy : ScheduleMisfirePolicy;
  misfire_grace_seconds : Z;
  input_payload : dict;
  workflow_version : option Z;
  enabled : bool
}.
End CreateScheduleRequest.
Abbreviation CreateScheduleRequest := CreateScheduleRequest.CreateScheduleRequest.

Module TriggerWorkflowRequest.
Record TriggerWorkflowRequest : Type := Make { input_payload : dict; idempotency_key : option string }.
End TriggerWorkflowRequest.
Abbreviation TriggerWorkflowRequest := TriggerWorkflowRequest.TriggerWorkflowRequest.

Module ReviewAutomationStepRequest.
Record ReviewAutomationStepRequest : Type := Make { decision : ReviewDecision; reason : string }.
End ReviewAutomationStepRequest.
Abbreviation ReviewAutomationStepRequest := ReviewAutomationStepRequest.ReviewAutomationStepRequest.

(** [^[a-z][a-z0-9-]{0,79}$], where a dollar is the end of the text. *)
Definition workflow_name (s : string) : bool :=
  match chars s with
  | a :: l => is_lower a && forallb (λ c, is_lower c || is_digit c || bool_decide (c = "-"%char)) l &&
              (length l <=? 79)%nat
  | [] => false
  end.

Definition between (lo hi z : Z) : bool := (lo <=? z)%Z && (z <=? hi)%Z.

Definition valid_create_workflow (r : CreateWorkflowRequest) : bool :=
  workflow_name (CreateWorkflowRequest.name r) &&
  length_in 1 240 (CreateWorkflowRequest.display_name r) &&
  length_in 0 4000 (CreateWorkflowRequest.description r) &&
  between 1 64 (CreateWorkflowRequest.max_concurrency r) &&
  between 60 604800 (CreateWorkflowRequest.timeout_seconds r) &&
  valid_spec (CreateWorkflowRequest.spec r).

Definition valid_create_schedule (r : CreateScheduleRequest) : bool :=
  length_in 1 200 (CreateScheduleRequest.name r) &&
  length_in 9 100 (CreateScheduleRequest.cron_expression r) &&
  length_in 1 100 (CreateScheduleRequest.timezone r) &&
  between 0 86400 (CreateScheduleRequest.misfire_grace_seconds r) &&
  match CreateScheduleRequest.workflow_version r with Some v => (1 <=? v)%Z | None => true end.

Definition valid_trigger (r : TriggerWorkflowRequest) : bool :=
  optional_in 8 200 (TriggerWorkflowRequest.idempotency_key r).

Definition valid_review (r : ReviewAutomationStepRequest) : bool :=
  length_in 3 4000 (ReviewAutomationStepRequest.reason r).

(** FastAPI answers a request body that does not validate before the handler runs. *)
Definition validated (valid : bool) : Py Automation unit :=
  raise_if (negb valid) (PyError "RequestValidationError").

(** ** Assignments *)

#[export] Instance workflow_eq_dec : EqDecision WorkflowDefinition.
Proof. solve_decision. Defined.

(** An update that changes a column moves [updated_at]. *)
Definition touched (now : Z) (f : WorkflowDefinition → WorkflowDefinition) (w : WorkflowDefinition) :
    WorkflowDefinition :=
  if bool_decide (f w = w) then w else (f w) <| WorkflowDefinition.updated_at := now |>.

Definition with_published (version : Z) (w : WorkflowDefinition) : WorkflowDefinition :=
  w <| WorkflowDefinition.active_version := Some version |>
    <| WorkflowDefinition.status := WorkflowStatus.ACTIVE |>.
Definition with_workflow_status (status : WorkflowStatus) (w : WorkflowDefinition) : WorkflowDefinition :=
  w <| WorkflowDefinition.status := status |>.
Definition with_published_at (now : Z) (v : WorkflowVersion) : WorkflowVersion :=
  v <| WorkflowVersion.published_at := Some now |>.
Definition with_enabled (enabled : bool) (c : WorkflowSchedule) : WorkflowSchedule :=
  c <| WorkflowSchedule.enabled := enabled |>.
Definition with_schedule_error (code : option string) (c : WorkflowSchedule) : WorkflowSchedule :=
  c <| WorkflowSchedule.last_error_code := code |>.
Definition with_next_fire (t : Z) (c : WorkflowSchedule) : WorkflowSchedule :=
  c <| WorkflowSchedule.next_fire_at := t |>.

(** The lease of an execution is given up. *)
Definition released (e : AutomationExecution) : AutomationExecution :=
  e <| AutomationExecution.lease_owner := None |> <| AutomationExecution.lease_expires_at := None |>.
Definition with_execution_status (status : AutomationStatus) (e : AutomationExecution) : AutomationExecution :=
  e <| AutomationExecution.status := status |>.
Definition with_cancelled_execution (now : Z) (e : AutomationExecution) : AutomationExecution :=
  released (e <| AutomationExecution.cancellation_requested_at := Some now |>
              <| AutomationExecution.status := AutomationStatus.CANCELLED |>
              <| AutomationExecution.completed_at := Some now |>).
Definition with_failure (code message : string) (now : Z) (e : AutomationExecution) : AutomationExecution :=
  e <| AutomationExecution.status := AutomationStatus.FAILED |>
    <| AutomationExecution.error_code := Some code |> <| AutomationExecution.error_message := Some message |>
    <| AutomationExecution.completed_at := Some now |>.

Definition with_step_status (status : AutomationStepStatus) (st : AutomationStepExecution) :
    AutomationStepExecution := st <| AutomationStepExecution.status := status |>.
(** A step that ends without having run its course. *)
Definition ended (status : AutomationStepStatus) (now : Z) (code : string) (st : AutomationStepExecution) :
    AutomationStepExecution :=
  (with_step_status status st) <| AutomationStepExecution.completed_at := Some now |>
    <| AutomationStepExecution.error_code := Some code |>.

Definition cancel_step (e : AutomationExecution) (now : Z) (st : AutomationStepExecution) :
    AutomationStepExecution :=
  if step_of e st && negb (step_terminal st)
  then ended AutomationStepStatus.CANCELLED now "automation_cancelled" st else st.

Definition skip_pending (execution_id : uuid) (now : Z) (code : string) (st : AutomationStepExecution) :
    AutomationStepExecution :=
  if bool_decide (AutomationStepExecution.execution_id st = execution_id) &&
     (step_is AutomationStepStatus.PENDING st || step_is AutomationStepStatus.WAITING_REVIEW st)
  then ended AutomationStepStatus.SKIPPED now code st else st.

Definition with_review (r : ReviewAutomationStepRequest) (p : Principal) (now : Z) (st : AutomationStepExecution) :
    AutomationStepExecution :=
  st <| AutomationStepExecution.review_decision := Some (ReviewAutomationStepRequest.decision r) |>
     <| AutomationStepExecution.reviewed_by := Some (Principal.id p) |>
     <| AutomationStepExecution.review_reason := Some (strip (ReviewAutomationStepRequest.reason r)) |>
     <| AutomationStepExecution.reviewed_at := Some now |>
     <| AutomationStepExecution.completed_at := Some now |>.

(** ** Lookups *)

Definition _require {S} (p : Principal) (permission : string) : Py S unit :=
  raise_if (negb (can p permission))
    (AuthorizationError "automation_permission_denied" "Automation operation is not permitted" []).

(** [get_workflow]; [for_update] locks the row, which a serial session does not see. *)
Definition get_workflow (p : Principal) (workflow_id : uuid) (write : bool) : Py Automation WorkflowDefinition :=
  row ← gets (λ s, row_by WorkflowDefinition.id (workflows s) workflow_id);
  let missing := raise (NotFoundError "Workflow" (uuid_str workflow_id)) in
  match row with
  | None => missing
  | Some workflow =>
      if bool_decide (WorkflowDefinition.organization_id workflow = Principal.organization_id p) then
        in_kernel (require_workspace_access p (WorkflowDefinition.workspace_id workflow) write);;
        mret workflow
      else missing
  end.

Definition get_execution (p : Principal) (execution_id : uuid) (write : bool) : Py Automation AutomationExecution :=
  row ← gets (λ s, row_by AutomationExecution.id (executions s) execution_id);
  let missing := raise (NotFoundError "Automation execution" (uuid_str execution_id)) in
  match row with
  | None => missing
  | Some execution =>
      if bool_decide (AutomationExecution.organization_id execution = Principal.organization_id p) then
        in_kernel (require_workspace_access p (AutomationExecution.workspace_id execution) write);;
        mret execution
      else missing
  end.

Definition numbered_version (organization_id workflow_id : uuid) (version_number : Z) (v : WorkflowVersion) : bool :=
  bool_decide (WorkflowVersion.organization_id v = organization_id) &&
  bool_decide (WorkflowVersion.workflow_id v = workflow_id) &&
  (WorkflowVersion.version v =? version_number)%Z.

Definition _published_version (organization_id workflow_id : uuid) (version_number : Z) :
    Py Automation WorkflowVersion :=
  found ← gets (λ s, head (select (λ v, numbered_version organization_id workflow_id version_number v &&
    bool_decide (is_Some (WorkflowVersion.published_at v))) (workflow_versions s)));
  match found with
  | None => raise (NotFoundError "Published workflow version" (int_str version_number))
  | Some version => mret version
  end.

Definition _require_owner (p : Principal) (owner_id workspace_id : uuid) : Py Kernel Principal :=
  raise_if (negb (bool_decide (owner_id = Principal.id p)) && negb (can p "automation.manage.all"))
    (AuthorizationError "workflow_owner_assignment_denied" "Cannot assign another workflow owner" []);;
  owner ← load_principal_by_id (Principal.organization_id p) owner_id;
  raise_if (negb (can owner "automation.trigger"))
    (ValidationError "workflow_owner_permission_missing"
      "Workflow owner must have automation.trigger permission" []);;
  require_workspace_access owner workspace_id true;;
  mret owner.

Section Service.
Context `{Environment, EventContracts, JsonEncoder}.

(** ** Journal *)

Definition automation_event (organization_id aggregate_id : uuid) (name : string) (actor_type : ActorType)
    (actor_id : option uuid) (aggregate_type : string) (payload : list (string * obj)) : EventDraft :=
  (event_draft name aggregate_type aggregate_id organization_id aggregate_id actor_type actor_id)
    <| EventDraft.payload := map (λ '(k, v), (OStr k, v)) payload |>.

Definition _event (organization_id aggregate_id : uuid) (name : string) (p : Principal)
    (payload : list (string * obj)) (actor_type : ActorType) (aggregate_type : string) : Py Automation unit :=
  in_kernel (append (automation_event organization_id aggregate_id name actor_type (Some (Principal.id p))
                       aggregate_type payload));;
  mret ().

Definition _audit (p : Principal) (resource_id : uuid) (action : string) (metadata : list (string * obj))
    (outcome resource_type : string) (actor_type : ActorType) : Py Automation unit :=
  in_kernel (write ((audit_draft (Principal.organization_id p) resource_id actor_type (Some (Principal.id p))
      action resource_type outcome)
    <| AuditDraft.resource_id := Some (uuid_str resource_id) |> <| AuditDraft.metadata := metadata |>));;
  mret ().

(** With the defaults of the two helpers: an operation on a workflow by a user. *)
Definition workflow_event (p : Principal) (workflow_id : uuid) (name : string) (payload : list (string * obj)) :
    Py Automation unit :=
  _event (Principal.organization_id p) workflow_id name p payload ActorType.USER "workflow".
Definition workflow_audit (p : Principal) (workflow_id : uuid) (action : string) (metadata : list (string * obj)) :
    Py Automation unit :=
  _audit p workflow_id action metadata "SUCCESS" "workflow" ActorType.USER.

(** ** Workflows *)

Definition insert_version (row : uuid → WorkflowVersion) : Py Automation WorkflowVersion :=
  id ← in_kernel new_id;
  let version := row id in
  ok ← gets (version_constraints version);
  integrity ok;;
  put_version id version;;
  mret version.

Definition create_workflow (p : Principal) (workspace_id : uuid) (r : CreateWorkflowRequest) :
    Py Automation (WorkflowDefinition * WorkflowVersion) :=
  _require p "automation.manage";;
  in_kernel (require_workspace_access p workspace_id true);;
  let owner_id := default (Principal.id p) (CreateWorkflowRequest.owner_id r) in
  in_kernel (_require_owner p owner_id workspace_id);;
  raise_if (bool_decide (CreateWorkflowRequest.concurrency_policy r = WorkflowConcurrencyPolicy.FORBID) &&
            negb (CreateWorkflowRequest.max_concurrency r =? 1)%Z)
    (ValidationError "workflow_concurrency_invalid"
      "FORBID workflows must have max_concurrency set to one" []);;
  existing ← gets (λ s, head (select (λ w,
    bool_decide (WorkflowDefinition.organization_id w = Principal.organization_id p) &&
    bool_decide (WorkflowDefinition.workspace_id w = workspace_id) &&
    bool_decide (WorkflowDefinition.name w = CreateWorkflowRequest.name r)) (workflows s)));
  raise_if (bool_decide (is_Some existing))
    (ConflictError "workflow_name_exists" "Workflow name already exists" []);;
  now ← in_kernel utc_now;
  id ← in_kernel new_id;
  created_at ← in_kernel utc_now;
  let workflow := WorkflowDefinition.Make id (Principal.organization_id p) workspace_id
    (CreateWorkflowRequest.name r) (strip (CreateWorkflowRequest.display_name r))
    (strip (CreateWorkflowRequest.description r)) WorkflowStatus.DRAFT owner_id None
    (CreateWorkflowRequest.concurrency_policy r) (CreateWorkflowRequest.max_concurrency r)
    (CreateWorkflowRequest.timeout_seconds r) (CreateWorkflowRequest.notify_on_success r)
    (CreateWorkflowRequest.notify_on_failure r) (CreateWorkflowRequest.classification r)
    created_at created_at in
  ok ← gets (workflow_constraints workflow);
  integrity ok;;
  put_workflow id workflow;;
  let spec := dump_spec (CreateWorkflowRequest.spec r) in
  version ← insert_version (λ version_id, WorkflowVersion.Make version_id (Principal.organization_id p) id 1
    spec (workflow_checksum spec) (Principal.id p) now None);
  workflow_event p id "workflow.created" [("version", OInt 1); ("owner_id", OStr (uuid_str owner_id))];;
  workflow_audit p id "workflow.create"
    [("version", OInt 1); ("workspace_id", OStr (uuid_str workspace_id))];;
  mret (workflow, version).

Definition list_workflows (p : Principal) (workspace_id : uuid) : Py Automation (list WorkflowDefinition) :=
  in_kernel (require_workspace_access p workspace_id false);;
  gets (λ s, order_by (λ w w', (WorkflowDefinition.updated_at w' <=? WorkflowDefinition.updated_at w)%Z)
    (select (λ w, bool_decide (WorkflowDefinition.organization_id w = Principal.organization_id p) &&
                  bool_decide (WorkflowDefinition.workspace_id w = workspace_id)) (workflows s))).

Definition version_of (p : Principal) (workflow_id : uuid) (v : WorkflowVersion) : bool :=
  bool_decide (WorkflowVersion.organization_id v = Principal.organization_id p) &&
  bool_decide (WorkflowVersion.workflow_id v = workflow_id).

Definition list_versions (p : Principal) (workflow_id : uuid) : Py Automation (list WorkflowVersion) :=
  get_workflow p workflow_id false;;
  gets (λ s, order_by (λ v v', (WorkflowVersion.version v' <=? WorkflowVersion.version v)%Z)
    (select (version_of p workflow_id) (workflow_versions s))).

(** [func.max(version)], or zero. *)
Definition latest_version (workflow_id : uuid) (s : Automation) : Z :=
  foldr Z.max 0%Z (WorkflowVersion.version <$>
    select (λ v, bool_decide (WorkflowVersion.workflow_id v = workflow_id)) (workflow_versions s)).

Definition create_version (p : Principal) (workflow_id : uuid) (spec : WorkflowSpec) :
    Py Automation WorkflowVersion :=
  _require p "automation.manage";;
  workflow ← get_workflow p workflow_id true;
  raise_if (bool_decide (WorkflowDefinition.status workflow = WorkflowStatus.RETIRED))
    (ConflictError "workflow_retired" "A retired workflow cannot be revised" []);;
  latest ← gets (latest_version (WorkflowDefinition.id workflow));
  let version_number := (latest + 1)%Z in
  let serialized := dump_spec spec in
  now ← in_kernel utc_now;
  version ← insert_version (λ id, WorkflowVersion.Make id (Principal.organization_id p)
    (WorkflowDefinition.id workflow) version_number serialized (workflow_checksum serialized)
    (Principal.id p) now None);
  workflow_event p (WorkflowDefinition.id workflow) "workflow.version_created"
    [("version", OInt version_number)];;
  workflow_audit p (WorkflowDefinition.id workflow) "workflow.version.create"
    [("version", OInt version_number)];;
  mret version.

Definition publish_version (p : Principal) (workflow_id : uuid) (version_number : Z) :
    Py Automation (WorkflowDefinition * WorkflowVersion) :=
  _require p "automation.manage";;
  workflow ← get_workflow p workflow_id true;
  raise_if (bool_decide (WorkflowDefinition.status workflow = WorkflowStatus.RETIRED))
    (ConflictError "workflow_retired" "A retired workflow cannot be published" []);;
  found ← gets (λ s, head (select (numbered_version (Principal.organization_id p)
    (WorkflowDefinition.id workflow) version_number) (workflow_versions s)));
  match found with
  | None => raise (NotFoundError "Workflow version" (int_str version_number))
  | Some version =>
      version ← match WorkflowVersion.published_at version with
                | Some _ => mret version
                | None => published_at ← in_kernel utc_now; mret (with_published_at published_at version)
                end;
      put_version (WorkflowVersion.id version) version;;
      now ← in_kernel utc_now;
      let workflow := touched now (with_published (WorkflowVersion.version version)) workflow in
      put_workflow workflow_id workflow;;
      workflow_event p (WorkflowDefinition.id workflow) "workflow.version_published"
        [("version", OInt (WorkflowVersion.version version))];;
      workflow_audit p (WorkflowDefinition.id workflow) "workflow.publish"
        [("version", OInt (WorkflowVersion.version version))];;
      mret (workflow, version)
  end.

(** The enabled schedules of a workflow that stops being active are disabled. *)
Definition disable_schedule (p : Principal) (workflow_id : uuid) (c : WorkflowSchedule) : WorkflowSchedule :=
  if bool_decide (WorkflowSchedule.organization_id c = Principal.organization_id p) &&
     bool_decide (WorkflowSchedule.workflow_id c = workflow_id) && WorkflowSchedule.enabled c
  then with_enabled false c else c.

Definition set_workflow_status (p : Principal) (workflow_id : uuid) (target : WorkflowStatus) :
    Py Automation WorkflowDefinition :=
  _require p "automation.manage";;
  workflow ← get_workflow p workflow_id true;
  raise_if (negb (bool_decide (target ∈ [WorkflowStatus.ACTIVE; WorkflowStatus.PAUSED; WorkflowStatus.RETIRED])))
    (ValidationError "workflow_status_invalid" "Unsupported workflow status target" []);;
  raise_if (bool_decide (target = WorkflowStatus.ACTIVE) &&
            bool_decide (WorkflowDefinition.active_version workflow = None))
    (ConflictError "workflow_unpublished" "Publish a workflow version first" []);;
  raise_if (bool_decide (WorkflowDefinition.status workflow = WorkflowStatus.RETIRED) &&
            negb (bool_decide (target = WorkflowStatus.RETIRED)))
    (ConflictError "workflow_retired" "A retired workflow cannot be resumed" []);;
  now ← in_kernel utc_now;
  let workflow := touched now (with_workflow_status target) workflow in
  put_workflow workflow_id workflow;;
  (if bool_decide (target = WorkflowStatus.ACTIVE) then mret ()
   else modify (λ s, s <| schedules := disable_schedule p (WorkflowDefinition.id workflow) <$> schedules s |>));;
  workflow_event p (WorkflowDefinition.id workflow) ("workflow." +:+ lower (value_of target)) [];;
  workflow_audit p (WorkflowDefinition.id workflow) "workflow.status.change"
    [("status", OStr (value_of target))];;
  mret workflow.

(** ** Schedules *)

Definition create_schedule `{Cron} (p : Principal) (workflow_id : uuid) (r : CreateScheduleRequest) :
    Py Automation WorkflowSchedule :=
  _require p "automation.manage";;
  workflow ← get_workflow p workflow_id true;
  let not_active := ConflictError "workflow_not_active" "Only active workflows can be scheduled" [] in
  match WorkflowDefinition.status workflow, WorkflowDefinition.active_version workflow with
  | WorkflowStatus.ACTIVE, Some active_version =>
      version ← _published_version (Principal.organization_id p) (WorkflowDefinition.id workflow)
        (default active_version (CreateScheduleRequest.workflow_version r));
      existing ← gets (λ s, head (select (λ c,
        bool_decide (WorkflowSchedule.workflow_id c = WorkflowDefinition.id workflow) &&
        bool_decide (WorkflowSchedule.name c = CreateScheduleRequest.name r)) (schedules s)));
      raise_if (bool_decide (is_Some existing))
        (ConflictError "schedule_name_exists" "Schedule name already exists" []);;
      now ← in_kernel utc_now;
      next_fire_at ← next_cron_occurrence (strip (CreateScheduleRequest.cron_expression r))
        (strip (CreateScheduleRequest.timezone r)) now;
      id ← in_kernel new_id;
      created_at ← in_kernel utc_now;
      let schedule := WorkflowSchedule.Make id (Principal.organization_id p)
        (WorkflowDefinition.workspace_id workflow) (WorkflowDefinition.id workflow)
        (WorkflowVersion.id version) (strip (CreateScheduleRequest.name r))
        (strip (CreateScheduleRequest.cron_expression r)) (strip (CreateScheduleRequest.timezone r))
        (CreateScheduleRequest.misfire_policy r) (CreateScheduleRequest.misfire_grace_seconds r)
        (CreateScheduleRequest.input_payload r) (WorkflowDefinition.owner_id workflow)
        (CreateScheduleRequest.enabled r) next_fire_at None None (Principal.id p) created_at in
      ok ← gets (schedule_constraints schedule);
      integrity ok;;
      put_schedule id schedule;;
      workflow_event p (WorkflowDefinition.id workflow) "schedule.created"
        [("schedule_id", OStr (uuid_str id)); ("next_fire_at", OStr (isoformat next_fire_at))];;
      _audit p id "schedule.create" [("workflow_id", OStr (uuid_str (WorkflowDefinition.id workflow)))]
        "SUCCESS" "schedule" ActorType.USER;;
      mret schedule
  | _, _ => raise not_active
  end.

Definition list_schedules (p : Principal) (workflow_id : uuid) : Py Automation (list WorkflowSchedule) :=
  get_workflow p workflow_id false;;
  gets (λ s, order_by (λ c c', (WorkflowSchedule.created_at c' <=? WorkflowSchedule.created_at c)%Z)
    (select (λ c, bool_decide (WorkflowSchedule.organization_id c = Principal.organization_id p) &&
                  bool_decide (WorkflowSchedule.workflow_id c = workflow_id)) (schedules s))).

Definition set_schedule_enabled `{Cron} (p : Principal) (schedule_id : uuid) (enabled : bool) :
    Py Automation WorkflowSchedule :=
  _require p "automation.manage";;
  row ← gets (λ s, row_by WorkflowSchedule.id (schedules s) schedule_id);
  let missing := raise (NotFoundError "Schedule" (uuid_str schedule_id)) in
  match row with
  | None => missing
  | Some schedule =>
      if bool_decide (WorkflowSchedule.organization_id schedule = Principal.organization_id p) then
        workflow ← get_workflow p (WorkflowSchedule.workflow_id schedule) true;
        raise_if (enabled && negb (bool_decide (WorkflowDefinition.status workflow = WorkflowStatus.ACTIVE)))
          (ConflictError "workflow_not_active" "Paused workflows cannot enable schedules" []);;
        let schedule := with_schedule_error None (with_enabled enabled schedule) in
        schedule ← (if enabled then
                      now ← in_kernel utc_now;
                      next_fire_at ← next_cron_occurrence (WorkflowSchedule.cron_expression schedule)
                                       (WorkflowSchedule.timezone schedule) now;
                      mret (with_next_fire next_fire_at schedule)
                    else mret schedule);
        put_schedule schedule_id schedule;;
        workflow_event p (WorkflowDefinition.id workflow)
          (if enabled then "schedule.enabled" else "schedule.disabled")
          [("schedule_id", OStr (uuid_str (WorkflowSchedule.id schedule)))];;
        mret schedule
      else missing
  end.

(** ** Executions *)

(** The Run of a cancelled step: it is asked to stop, and stops if it has not begun. *)
Definition with_cancelled_run (now : Z) (r : Run) : Run :=
  if bool_decide (Run.status r = RunStatus.PENDING) then
    r <| Run.cancellation_requested_at := Some now |> <| Run.status := RunStatus.CANCELLED |>
      <| Run.completed_at := Some now |>
  else r <| Run.cancellation_requested_at := Some now |>.

(** An assignment to the Run of a step, unless it is missing or ended. *)
Definition on_child_run (e : AutomationExecution) (f : Run → Run) (st : AutomationStepExecution) : Py Kernel unit :=
  match AutomationStepExecution.run_id st with
  | None => mret ()
  | Some run_id =>
      row ← gets (λ k, row_by Run.id (runs k) run_id);
      match row with
      | None => mret ()
      | Some run =>
          if bool_decide (Run.organization_id run = AutomationExecution.organization_id e) &&
             negb (bool_decide (Run.status run ∈ _TERMINAL_RUN_STATUSES))
          then update_run run_id f
          else mret ()
      end
  end.

(** The rows are read before they are assigned to; an assignment to one does not change what
    is read of another. *)
Definition _cancel_execution_rows (e : AutomationExecution) (actor_id : uuid) : Py Automation unit :=
  if terminal e then mret ()
  else
    now ← in_kernel utc_now;
    update_execution (AutomationExecution.id e) (with_cancelled_execution now);;
    steps ← gets (λ s, select (λ st, step_of e st && negb (step_terminal st)) (step_executions s));
    update_steps (cancel_step e now);;
    in_kernel (for_each steps (on_child_run e (with_cancelled_run now)));;
    in_kernel (append (automation_event (AutomationExecution.organization_id e) (AutomationExecution.id e)
                         "automation.cancelled" ActorType.USER (Some actor_id) "automation_execution" []));;
    mret ().

Definition _cancel_pending_steps (execution_id : uuid) (error_code : string) : Py Automation unit :=
  now ← in_kernel utc_now;
  update_steps (skip_pending execution_id now error_code).

(** The executions that count against the policy of a workflow. *)
Definition occupies (organization_id workflow_id : uuid) (e : AutomationExecution) : bool :=
  bool_decide (AutomationExecution.organization_id e = organization_id) &&
  bool_decide (AutomationExecution.workflow_id e = workflow_id) && active e.

(** Whether the policy turns a trigger down, and why. *)
Definition skip_reason (w : WorkflowDefinition) (running : nat) : option string :=
  match WorkflowDefinition.concurrency_policy w with
  | WorkflowConcurrencyPolicy.FORBID =>
      if (0 <? running)%nat then Some "workflow_concurrency_forbidden" else None
  | WorkflowConcurrencyPolicy.ALLOW =>
      if (WorkflowDefinition.max_concurrency w <=? Z.of_nat running)%Z
      then Some "workflow_concurrency_limit" else None
  | WorkflowConcurrencyPolicy.REPLACE => None
  end.

Definition new_execution (w : WorkflowDefinition) (version_id : uuid) (schedule_id : option uuid)
    (trigger : AutomationTrigger) (scheduled_for : option Z) (key : string) (skip_code : option string)
    (input_payload : dict) (now : Z) (organization_id id : uuid) (created_at : Z) : AutomationExecution :=
  let admitted := bool_decide (skip_code = None) in
  AutomationExecution.Make id organization_id (WorkflowDefinition.workspace_id w) (WorkflowDefinition.id w)
    version_id schedule_id trigger scheduled_for key
    (if admitted then AutomationStatus.PENDING else AutomationStatus.SKIPPED)
    (WorkflowDefinition.owner_id w) input_payload (WorkflowDefinition.timeout_seconds w)
    (now + WorkflowDefinition.timeout_seconds w * second)%Z None (if admitted then None else Some now)
    None None None skip_code
    (if admitted then None else Some "Workflow concurrency policy skipped this trigger")
    (match skip_code with None => [] | Some code => [("reason", VStr code)] end) created_at.

Definition new_step (e : AutomationExecution) (skip_code : option string) (now : Z) (ordinal : Z)
    (spec : WorkflowStepSpec) (id : uuid) : AutomationStepExecution :=
  let admitted := bool_decide (skip_code = None) in
  AutomationStepExecution.Make id (AutomationExecution.organization_id e) (AutomationExecution.id e)
    (WorkflowStepSpec.id spec) ordinal (WorkflowStepSpec.name spec) (WorkflowStepSpec.type spec)
    (WorkflowStepSpec.depends_on spec) (dump_step spec)
    (if admitted then AutomationStepStatus.PENDING else AutomationStepStatus.SKIPPED)
    None [] None None None None None (if admitted then None else Some now) skip_code None.

Definition insert_step (row : uuid → AutomationStepExecution) : Py Automation unit :=
  id ← in_kernel new_id;
  let step := row id in
  ok ← gets (step_constraints step);
  integrity ok;;
  put_step id step.

(** [for ordinal, step_spec in enumerate(steps, start=ordinal)] *)
Fixpoint insert_steps (e : AutomationExecution) (skip_code : option string) (now ordinal : Z)
    (spec : WorkflowSpec) : Py Automation unit :=
  match spec with
  | [] => mret ()
  | step_spec :: rest =>
      insert_step (new_step e skip_code now ordinal step_spec);;
      insert_steps e skip_code now (ordinal + 1)%Z rest
  end.

(** The execution and its steps, as far as the policy admits them, and the journal. *)
Definition admit_execution `{SpecFields} (p : Principal) (workflow : WorkflowDefinition)
    (version : WorkflowVersion) (schedule_id : option uuid) (trigger : AutomationTrigger)
    (scheduled_for : option Z) (key : string) (input_payload : dict) : Py Automation AutomationExecution :=
  running ← gets (λ s, order_by (λ e e', (AutomationExecution.created_at e <=? AutomationExecution.created_at e')%Z)
    (select (occupies (Principal.organization_id p) (WorkflowDefinition.id workflow)) (executions s)));
  let skip_code := skip_reason workflow (length running) in
  (if bool_decide (WorkflowDefinition.concurrency_policy workflow = WorkflowConcurrencyPolicy.REPLACE)
   then for_each running (λ current, _cancel_execution_rows current (Principal.id p)) else mret ());;
  now ← in_kernel utc_now;
  id ← in_kernel new_id;
  created_at ← in_kernel utc_now;
  let execution := new_execution workflow (WorkflowVersion.id version) schedule_id trigger scheduled_for key
                     skip_code input_payload now (Principal.organization_id p) id created_at in
  ok ← gets (execution_constraints execution);
  integrity ok;;
  put_execution id execution;;
  match model_validate (WorkflowVersion.spec version) with
  | None => raise (PyError "ValidationError")
  | Some spec => insert_steps execution skip_code now 1 spec
  end;;
  _event (Principal.organization_id p) id
    (if bool_decide (skip_code = None) then "automation.execution_created" else "automation.execution_skipped") p
    [("workflow_id", OStr (uuid_str (WorkflowDefinition.id workflow)));
     ("workflow_version", OInt (WorkflowVersion.version version)); ("trigger", OStr (value_of trigger));
     ("error_code", match skip_code with Some code => OStr code | None => ONone end)]
    ActorType.USER "automation_execution";;
  _audit p id "automation.trigger"
    [("workflow_id", OStr (uuid_str (WorkflowDefinition.id workflow))); ("trigger", OStr (value_of trigger))]
    (if bool_decide (skip_code = None) then "SUCCESS" else "SKIPPED") "automation_execution" ActorType.USER;;
  mret execution.

Definition trigger_workflow `{SpecFields} (p : Principal) (workflow_id : uuid) (input_payload : dict)
    (idempotency_key : option string) (trigger : AutomationTrigger) (schedule_id : option uuid)
    (scheduled_for : option Z) (pinned_version : option WorkflowVersion) : Py Automation AutomationExecution :=
  _require p "automation.trigger";;
  workflow ← get_workflow p workflow_id true;
  match WorkflowDefinition.status workflow, WorkflowDefinition.active_version workflow with
  | WorkflowStatus.ACTIVE, Some active_version =>
      raise_if (negb (bool_decide (Principal.id p = WorkflowDefinition.owner_id workflow)) &&
                negb (can p "automation.trigger.all"))
        (AuthorizationError "workflow_owner_required"
          "Only the accountable owner can trigger this workflow" []);;
      version ← match pinned_version with
                | Some version => mret version
                | None => _published_version (Principal.organization_id p) (WorkflowDefinition.id workflow)
                            active_version
                end;
      key ← match idempotency_key with
            | Some key =>
                if truthy key then mret key
                else i ← in_kernel new_id;
                     mret ("manual:" +:+ uuid_str (WorkflowDefinition.id workflow) +:+ ":" +:+ uuid_str i)
            | None => i ← in_kernel new_id;
                      mret ("manual:" +:+ uuid_str (WorkflowDefinition.id workflow) +:+ ":" +:+ uuid_str i)
            end;
      existing ← gets (λ s, head (select (λ e,
        bool_decide (AutomationExecution.organization_id e = Principal.organization_id p) &&
        bool_decide (AutomationExecution.idempotency_key e = key)) (executions s)));
      match existing with
      | Some e =>
          raise_if (negb (bool_decide (AutomationExecution.workflow_id e = WorkflowDefinition.id workflow)))
            (ConflictError "automation_idempotency_conflict"
              "The idempotency key belongs to another workflow" []);;
          mret e
      | None => admit_execution p workflow version schedule_id trigger scheduled_for key input_payload
      end
  | _, _ => raise (ConflictError "workflow_not_active" "Only active workflows can be triggered" [])
  end.

Definition list_executions (p : Principal) (workflow_id : uuid) (limit : nat) :
    Py Automation (list AutomationExecution) :=
  get_workflow p workflow_id false;;
  gets (λ s, take limit (order_by
    (λ e e', (AutomationExecution.created_at e' <=? AutomationExecution.created_at e)%Z)
    (select (λ e, bool_decide (AutomationExecution.organization_id e = Principal.organization_id p) &&
                  bool_decide (AutomationExecution.workflow_id e = workflow_id)) (executions s)))).

Definition by_ordinal (st st' : AutomationStepExecution) : bool :=
  (AutomationStepExecution.ordinal st <=? AutomationStepExecution.ordinal st')%Z.

Definition list_steps (p : Principal) (execution_id : uuid) : Py Automation (list AutomationStepExecution) :=
  get_execution p execution_id false;;
  gets (λ s, order_by by_ordinal
    (select (λ st, bool_decide (AutomationStepExecution.organization_id st = Principal.organization_id p) &&
                   bool_decide (AutomationStepExecution.execution_id st = execution_id)) (step_executions s))).

Definition execution_event (p : Principal) (execution_id : uuid) (name : string) (payload : list (string * obj)) :
    Py Automation unit :=
  _event (Principal.organization_id p) execution_id name p payload ActorType.USER "automation_execution".

Definition cancel_execution (p : Principal) (execution_id : uuid) : Py Automation AutomationExecution :=
  _require p "automation.trigger";;
  execution ← get_execution p execution_id true;
  raise_if (negb (bool_decide (Principal.id p = AutomationExecution.owner_id execution)) &&
            negb (can p "automation.trigger.all"))
    (AuthorizationError "workflow_owner_required"
      "Only the accountable owner can cancel this workflow execution" []);;
  if terminal execution then mret execution
  else
    _cancel_execution_rows execution (Principal.id p);;
    execution_event p (AutomationExecution.id execution) "automation.cancellation_requested" [];;
    _audit p (AutomationExecution.id execution) "automation.cancel" [] "SUCCESS" "automation_execution"
      ActorType.USER;;
    row ← gets (λ s, executions s !! execution_id);
    loaded row.

(** ** Notifications *)

Definition deliver_notification (e : AutomationExecution) (step_id : option uuid) (title body : string)
    (payload : dict) (idempotency_key : string) : Py Automation NotificationDelivery :=
  existing ← gets (λ s, head (select (λ n,
    bool_decide (NotificationDelivery.organization_id n = AutomationExecution.organization_id e) &&
    bool_decide (NotificationDelivery.idempotency_key n = idempotency_key)) (notifications s)));
  match existing with
  | Some n => mret n
  | None =>
      now ← in_kernel utc_now;
      id ← in_kernel new_id;
      let delivery := NotificationDelivery.Make id (AutomationExecution.organization_id e)
        (AutomationExecution.workspace_id e) (Some (AutomationExecution.id e)) None step_id
        (AutomationExecution.owner_id e) (strip title) (strip body) payload NotificationStatus.DELIVERED
        idempotency_key now None now in
      ok ← gets (notification_constraints delivery);
      integrity ok;;
      put_notification id delivery;;
      let system_principal := Principal.Make (AutomationExecution.owner_id e)
        (AutomationExecution.organization_id e) "automation-service" "Obsion Automation" None None ∅ ∅ [] in
      _event (AutomationExecution.organization_id e) (AutomationExecution.id e) "notification.delivered"
        system_principal
        [("notification_id", OStr (uuid_str id));
         ("recipient_id", OStr (uuid_str (NotificationDelivery.recipient_id delivery)))]
        ActorType.SYSTEM "automation_execution";;
      _audit system_principal id "notification.deliver"
        [("execution_id", OStr (uuid_str (AutomationExecution.id e)))] "SUCCESS" "notification" ActorType.SYSTEM;;
      mret delivery
  end.

Definition list_notifications (p : Principal) (unread_only : bool) (limit : nat) :
    Py Automation (list NotificationDelivery) :=
  _require p "notification.read";;
  gets (λ s, take limit (order_by
    (λ n n', (NotificationDelivery.created_at n' <=? NotificationDelivery.created_at n)%Z)
    (select (λ n, bool_decide (NotificationDelivery.organization_id n = Principal.organization_id p) &&
      (can p "notification.read.all" || bool_decide (NotificationDelivery.recipient_id n = Principal.id p)) &&
      (negb unread_only || bool_decide (NotificationDelivery.status n = NotificationStatus.DELIVERED)))
      (notifications s)))).

Definition with_read (now : Z) (n : NotificationDelivery) : NotificationDelivery :=
  n <| NotificationDelivery.status := NotificationStatus.READ |> <| NotificationDelivery.read_at := Some now |>.

Definition mark_notification_read (p : Principal) (notification_id : uuid) : Py Automation NotificationDelivery :=
  _require p "notification.read";;
  row ← gets (λ s, row_by NotificationDelivery.id (notifications s) notification_id);
  let missing := raise (NotFoundError "Notification" (uuid_str notification_id)) in
  match row with
  | None => missing
  | Some n =>
      if bool_decide (NotificationDelivery.organization_id n = Principal.organization_id p) &&
         (bool_decide (NotificationDelivery.recipient_id n = Principal.id p) || can p "notification.read.all")
      then
        if bool_decide (NotificationDelivery.status n = NotificationStatus.READ) then mret n
        else
          now ← in_kernel utc_now;
          let n := with_read now n in
          put_notification notification_id n;;
          mret n
      else missing
  end.

(** ** Reviews *)

(** What a rejection does beyond the step: the execution fails, what had not begun is
    skipped, and the owner is told. *)
Definition reject_execution (e : AutomationExecution) (now : Z) : Py Automation unit :=
  let code := "human_review_rejected" in
  update_execution (AutomationExecution.id e) (with_failure code "A human reviewer rejected the workflow" now);;
  _cancel_pending_steps (AutomationExecution.id e) code;;
  workflow ← gets (λ s, row_by WorkflowDefinition.id (workflows s) (AutomationExecution.workflow_id e));
  match workflow with
  | None => mret ()
  | Some w =>
      if bool_decide (WorkflowDefinition.organization_id w = AutomationExecution.organization_id e) &&
         WorkflowDefinition.notify_on_failure w
      then
        deliver_notification e None (WorkflowDefinition.display_name w +:+ " 审核未通过")
          "人工审核拒绝了本次自动化运行，请查看审核意见和证据链路。"
          [("workflow_id", VStr (uuid_str (WorkflowDefinition.id w))); ("status", VStr "FAILED");
           ("code", VStr code)]
          ("execution:" +:+ uuid_str (AutomationExecution.id e) +:+ ":failure");;
        mret ()
      else mret ()
  end.

Definition reviewed_step (r : ReviewAutomationStepRequest) (p : Principal) (now : Z) (st : AutomationStepExecution) :
    AutomationStepExecution :=
  match ReviewAutomationStepRequest.decision r with
  | ReviewDecision.APPROVE => with_step_status AutomationStepStatus.COMPLETED (with_review r p now st)
  | ReviewDecision.REJECT =>
      (with_step_status AutomationStepStatus.FAILED (with_review r p now st))
        <| AutomationStepExecution.error_code := Some "human_review_rejected" |>
  end.

Definition review_step (p : Principal) (step_id : uuid) (r : ReviewAutomationStepRequest) :
    Py Automation AutomationStepExecution :=
  _require p "automation.review";;
  row ← gets (λ s, row_by AutomationStepExecution.id (step_executions s) step_id);
  let missing := raise (NotFoundError "Automation step" (uuid_str step_id)) in
  match row with
  | None => missing
  | Some step =>
      if bool_decide (AutomationStepExecution.organization_id step = Principal.organization_id p) then
        execution ← get_execution p (AutomationStepExecution.execution_id step) true;
        raise_if (negb (step_is AutomationStepStatus.WAITING_REVIEW step))
          (ConflictError "automation_step_not_waiting_review" "The workflow step is not awaiting review" []);;
        raise_if (bool_decide (dget "disallow_self_review" (AutomationStepExecution.spec step) = Some (VBool true)) &&
                  bool_decide (Principal.id p = AutomationExecution.owner_id execution))
          (AuthorizationError "automation_self_review_denied"
            "The workflow owner cannot review this gate" []);;
        now ← in_kernel utc_now;
        let step := reviewed_step r p now step in
        put_step step_id step;;
        match ReviewAutomationStepRequest.decision r with
        | ReviewDecision.APPROVE =>
            update_execution (AutomationExecution.id execution) (with_execution_status AutomationStatus.RUNNING)
        | ReviewDecision.REJECT => reject_execution execution now
        end;;
        update_execution (AutomationExecution.id execution) released;;
        execution_event p (AutomationExecution.id execution) "automation.review_decided"
          [("step_id", OStr (uuid_str (AutomationStepExecution.id step)));
           ("decision", OStr (value_of (ReviewAutomationStepRequest.decision r)))];;
        _audit p (AutomationStepExecution.id step) "automation.review"
          [("execution_id", OStr (uuid_str (AutomationExecution.id execution)));
           ("decision", OStr (value_of (ReviewAutomationStepRequest.decision r)))]
          "SUCCESS" "automation_step" ActorType.USER;;
        row ← gets (λ s, step_executions s !! step_id);
        loaded row
      else missing
  end.

(** ** What the worker asks for *)

Definition dependency_artifacts (e : AutomationExecution) (dependencies : list string) :
    Py Automation (list Artifact) :=
  if bool_decide (dependencies = []) then mret []
  else
    run_ids ← gets (λ s, omap AutomationStepExecution.run_id (select (λ st, step_of e st &&
      bool_decide (AutomationStepExecution.step_key st ∈ dependencies)) (step_executions s)));
    if bool_decide (run_ids = []) then mret []
    else
      gets (λ s, order_by (λ a a', (Artifact.created_at a <=? Artifact.created_at a')%Z)
        (select (λ a, bool_decide (Artifact.organization_id a = AutomationExecution.organization_id e) &&
          bool_decide (Artifact.workspace_id a = AutomationExecution.workspace_id e) &&
          match Artifact.run_id a with Some r => bool_decide (r ∈ run_ids) | None => false end) (artifacts s))).

Definition load_schedule_owner (c : WorkflowSchedule) : Py Kernel Principal :=
  d ← gets directory;
  match row_by User.id (users d) (WorkflowSchedule.owner_id c) with
  | Some u =>
      raise_if (negb (bool_decide (User.organization_id u = WorkflowSchedule.organization_id c) && User.active u))
        (AuthorizationError "workflow_owner_inactive" "Workflow owner is inactive" []);;
      load_principal_by_id (WorkflowSchedule.organization_id c) (WorkflowSchedule.owner_id c)
  | None => raise (AuthorizationError "workflow_owner_inactive" "Workflow owner is inactive" [])
  end.
End Service.
