(* ===== verification/AutomationApi.v ===== *)
(** * The endpoints of automation ([api/automation.py])

    A request body that does not validate is answered before the handler runs; a handler is one
    transaction. *)

From S2P Require Import Prelude PyText PyVal Enums Models Kernel CanonicalJson.
From S2P Require Import Events Identity WorkflowSpec AutomationState AutomationService.

Section Endpoints.
Context `{Environment, EventContracts, JsonEncoder}.

Definition create_workflow (p : Principal) (workspace_id : uuid) (r : CreateWorkflowRequest) :
    Py Automation (WorkflowDefinition * WorkflowVersion) :=
  validated (valid_create_workflow r);; savepoint (AutomationService.create_workflow p workspace_id r).

Definition create_workflow_version (p : Principal) (workflow_id : uuid) (spec : WorkflowSpec) :
    Py Automation WorkflowVersion :=
  validated (valid_spec spec);; savepoint (create_version p workflow_id spec).

Definition publish_workflow_version (p : Principal) (workflow_id : uuid) (version : Z) :
    Py Automation (WorkflowDefinition * WorkflowVersion) := savepoint (publish_version p workflow_id version).

(** [pause_workflow], [activate_workflow] and [retire_workflow]. *)
Definition _set_workflow_status (p : Principal) (workflow_id : uuid) (target : WorkflowStatus) :
    Py Automation WorkflowDefinition := savepoint (set_workflow_status p workflow_id target).

Definition create_schedule `{Cron} (p : Principal) (workflow_id : uuid) (r : CreateScheduleRequest) :
    Py Automation WorkflowSchedule :=
  validated (valid_create_schedule r);; savepoint (AutomationService.create_schedule p workflow_id r).

Definition update_schedule `{Cron} (p : Principal) (schedule_id : uuid) (enabled : bool) :
    Py Automation WorkflowSchedule := savepoint (set_schedule_enabled p schedule_id enabled).

Definition trigger_workflow `{SpecFields} (p : Principal) (workflow_id : uuid) (r : TriggerWorkflowRequest) :
    Py Automation AutomationExecution :=
  validated (valid_trigger r);;
  savepoint (AutomationService.trigger_workflow p workflow_id (TriggerWorkflowRequest.input_payload r)
    (TriggerWorkflowRequest.idempotency_key r) AutomationTrigger.MANUAL None None None).

Definition cancel_execution (p : Principal) (execution_id : uuid) : Py Automation AutomationExecution :=
  savepoint (AutomationService.cancel_execution p execution_id).

Definition review_step (p : Principal) (step_id : uuid) (r : ReviewAutomationStepRequest) :
    Py Automation AutomationStepExecution :=
  validated (valid_review r);; savepoint (AutomationService.review_step p step_id r).

Definition mark_notification_read (p : Principal) (notification_id : uuid) : Py Automation NotificationDelivery :=
  savepoint (AutomationService.mark_notification_read p notification_id).
End Endpoints.
