(* ===== verification/AutomationWorker.v ===== *)
(** * The automation worker ([automation/worker.py])

    [tick_schedules] fires the schedule that is due first; [_claim_execution] leases an
    execution; [_execute] advances it by one transaction: analyses that ended are
    reconciled, steps whose dependencies are complete are started, and the execution is
    completed, fails or waits.  Polling loops and telemetry are not modelled. *)

From S2P Require Import Prelude PyText PyVal Regex Enums Models Kernel CanonicalJson.
From S2P Require Import Events Identity TurnRequest WorkflowSpec AutomationState AutomationService.

(** ** Templates *)

(** The value at [input.a.b] in the input of the execution. *)
Fixpoint input_value {S} (key : string) (parts : list string) (current : val) : Py S val :=
  match parts with
  | [] => mret current
  | part :: rest =>
      match current with
      | VDict d =>
          match dget part d with
          | Some v => input_value key rest v
          | None => raise (ValidationError "workflow_template_value_missing"
                      "Workflow input does not provide a required template value" [("key", VStr key)])
          end
      | _ => raise (ValidationError "workflow_template_value_missing"
                      "Workflow input does not provide a required template value" [("key", VStr key)])
      end
  end.

(** What a placeholder stands for. *)
Definition replace {S} (e : AutomationExecution) (w : WorkflowDefinition) (key : string) : Py S string :=
  if bool_decide (key = "execution.id") then mret (uuid_str (AutomationExecution.id e))
  else if bool_decide (key = "workflow.id") then mret (uuid_str (WorkflowDefinition.id w))
  else if bool_decide (key = "scheduled_for") then
    mret (match AutomationExecution.scheduled_for e with Some t => isoformat t | None => "manual" end)
  else
    v ← input_value key (tail (split "."%char key)) (VDict (AutomationExecution.input_payload e));
    match v with
    | VDict _ | VList _ =>
        raise (ValidationError "workflow_template_value_invalid"
          "Workflow placeholders may only render scalar input values" [("key", VStr key)])
    | _ => mret (py_str v)
    end.

(** [_PLACEHOLDER.sub(replace, template)] over the pieces of the template. *)
Fixpoint render_pieces {S} (e : AutomationExecution) (w : WorkflowDefinition)
    (pieces : list (ascii + list ascii * cursor)) : Py S string :=
  match pieces with
  | [] => mret ""
  | inl a :: rest => text ← render_pieces e w rest; mret (of_chars [a] +:+ text)
  | inr (_, c) :: rest =>
      value ← replace e w (of_chars (group 1 c));
      text ← render_pieces e w rest;
      mret (value +:+ text)
  end.

Definition render_automation_template {S} (template : string) (e : AutomationExecution)
    (w : WorkflowDefinition) : Py S string :=
  raise_if (negb (supported_placeholders template))
    (ValidationError "workflow_template_invalid"
      "Workflow template contains an unsupported placeholder" []);;
  render_pieces e w (scan _PLACEHOLDER template).

(** ** Summaries *)

Definition count_status (counts : dict) (st : AutomationStepExecution) : dict :=
  let key := value_of (AutomationStepExecution.status st) in
  dset key (VInt (match dget key counts with Some (VInt n) => n + 1 | _ => 1 end)%Z) counts.

Definition _summary (steps : list AutomationStepExecution) : dict :=
  [("step_counts", VDict (fold_left count_status steps []));
   ("run_ids", VList (map (VStr ∘ uuid_str) (omap AutomationStepExecution.run_id steps)));
   ("output_refs", VList (steps ≫= AutomationStepExecution.output_refs))].

(** ** Assignments *)

(** [value or fallback] *)
Definition or_text (value : option string) (fallback : string) : string :=
  match value with Some v => if truthy v then v else fallback | None => fallback end.

Class WorkerConfig := {
  automation_worker_id : string;
  automation_lease : Z;
  automation_poll_interval : Z
}.

Definition with_fired (scheduled_for next_fire_at : Z) (c : WorkflowSchedule) : WorkflowSchedule :=
  c <| WorkflowSchedule.last_fire_at := Some scheduled_for |> <| WorkflowSchedule.next_fire_at := next_fire_at |>.

Definition with_started (now : Z) (e : AutomationExecution) : AutomationExecution :=
  (with_execution_status AutomationStatus.RUNNING e) <| AutomationExecution.started_at := Some now |>.
Definition with_lease `{WorkerConfig} (now : Z) (e : AutomationExecution) : AutomationExecution :=
  e <| AutomationExecution.lease_owner := Some automation_worker_id |>
    <| AutomationExecution.lease_expires_at := Some (now + automation_lease)%Z |>.
Definition with_completion (summary : dict) (now : Z) (e : AutomationExecution) : AutomationExecution :=
  (with_execution_status AutomationStatus.COMPLETED e) <| AutomationExecution.completed_at := Some now |>
    <| AutomationExecution.summary := summary |>.
Definition with_summary (summary : dict) (e : AutomationExecution) : AutomationExecution :=
  e <| AutomationExecution.summary := summary |>.
(** A running execution is looked at again after a pause. *)
Definition with_pause `{WorkerConfig} (now : Z) (e : AutomationExecution) : AutomationExecution :=
  e <| AutomationExecution.lease_owner := None |>
    <| AutomationExecution.lease_expires_at :=
         if bool_decide (AutomationExecution.status e = AutomationStatus.RUNNING)
         then Some (now + automation_poll_interval)%Z else None |>.

Definition with_run (run_id : uuid) (now : Z) (st : AutomationStepExecution) : AutomationStepExecution :=
  (with_step_status AutomationStepStatus.RUNNING st) <| AutomationStepExecution.run_id := Some run_id |>
    <| AutomationStepExecution.started_at := Some now |>.
Definition with_review_request (now : Z) (st : AutomationStepExecution) : AutomationStepExecution :=
  (with_step_status AutomationStepStatus.WAITING_REVIEW st) <| AutomationStepExecution.started_at := Some now |>.
Definition with_outputs (now : Z) (refs : list val) (st : AutomationStepExecution) : AutomationStepExecution :=
  (with_step_status AutomationStepStatus.COMPLETED st) <| AutomationStepExecution.completed_at := Some now |>
    <| AutomationStepExecution.output_refs := refs |>.
Definition with_step_started (now : Z) (st : AutomationStepExecution) : AutomationStepExecution :=
  st <| AutomationStepExecution.started_at := Some (default now (AutomationStepExecution.started_at st)) |>.
Definition with_missing_run (st : AutomationStepExecution) : AutomationStepExecution :=
  (with_step_status AutomationStepStatus.FAILED st)
    <| AutomationStepExecution.error_code := Some "automation_child_run_missing" |>
    <| AutomationStepExecution.error_message := Some "The child Harness run is missing" |>.
Definition with_failed_run (run : Run) (now : Z) (st : AutomationStepExecution) : AutomationStepExecution :=
  (with_step_status AutomationStepStatus.FAILED st) <| AutomationStepExecution.completed_at := Some now |>
    <| AutomationStepExecution.error_code := Some (or_text (Run.error_code run) "automation_child_run_failed") |>
    <| AutomationStepExecution.error_message :=
         Some (or_text (Run.error_message run) "The child Harness run did not complete") |>.

(** The steps that have not ended, of those listed, end with the execution. *)
Definition skip_open (ids : list uuid) (now : Z) (code : string) (st : AutomationStepExecution) :
    AutomationStepExecution :=
  if bool_decide (AutomationStepExecution.id st ∈ ids) && negb (step_terminal st)
  then ended AutomationStepStatus.SKIPPED now code st else st.

Definition with_cancellation_request (now : Z) (r : Run) : Run :=
  r <| Run.cancellation_requested_at := Some now |>.

Section Worker.
Context `{Environment, EventContracts, JsonEncoder, SpecFields, Cron, AnalysisRuns, WorkerConfig}.

(** ** Journal *)

Definition _execution_event (e : AutomationExecution) (name : string) (payload : list (string * obj)) :
    Py Automation unit :=
  in_kernel (append (automation_event (AutomationExecution.organization_id e) (AutomationExecution.id e)
                       name ActorType.SYSTEM None "automation_execution" payload));;
  mret ().

Definition schedule_event (c : WorkflowSchedule) (name : string) (payload : list (string * obj)) :
    Py Automation unit :=
  in_kernel (append ((event_draft name "workflow" (WorkflowSchedule.workflow_id c)
      (WorkflowSchedule.organization_id c) (WorkflowSchedule.id c) ActorType.SYSTEM None)
    <| EventDraft.payload := map (λ '(k, v), (OStr k, v)) payload |>));;
  mret ().

(** ** Schedules *)

(** The enabled schedule that is due first, among those no other worker holds. *)
Definition due_schedule (locked : gset uuid) (current : Z) (s : Automation) : option WorkflowSchedule :=
  head (order_by (λ c c', (WorkflowSchedule.next_fire_at c <=? WorkflowSchedule.next_fire_at c')%Z)
    (filter (λ c, WorkflowSchedule.id c ∉ locked)
      (select (λ c, WorkflowSchedule.enabled c && (WorkflowSchedule.next_fire_at c <=? current)%Z) (schedules s)))).

Definition schedule_workflow (c : WorkflowSchedule) (s : Automation) : option WorkflowDefinition :=
  w ← row_by WorkflowDefinition.id (workflows s) (WorkflowSchedule.workflow_id c);
  if bool_decide (WorkflowDefinition.organization_id w = WorkflowSchedule.organization_id c) then Some w else None.

(** Firing on behalf of the owner. *)
Definition fire (c : WorkflowSchedule) (scheduled_for : Z) : Py Automation unit :=
  owner ← in_kernel (load_schedule_owner c);
  raise_if (negb (can owner "automation.trigger"))
    (ValidationError "workflow_owner_permission_missing"
      "Workflow owner no longer has automation.trigger permission" []);;
  in_kernel (require_workspace_access owner (WorkflowSchedule.workspace_id c) true);;
  version ← gets (λ s, v ← row_by WorkflowVersion.id (workflow_versions s) (WorkflowSchedule.workflow_version_id c);
    if bool_decide (WorkflowVersion.organization_id v = WorkflowSchedule.organization_id c) &&
       bool_decide (WorkflowVersion.workflow_id v = WorkflowSchedule.workflow_id c) &&
       bool_decide (is_Some (WorkflowVersion.published_at v)) then Some v else None);
  raise_if (bool_decide (version = None))
    (ValidationError "workflow_version_unavailable" "Pinned workflow version is unavailable" []);;
  trigger_workflow owner (WorkflowSchedule.workflow_id c) (WorkflowSchedule.input_payload c)
    (Some ("schedule:" +:+ uuid_str (WorkflowSchedule.id c) +:+ ":" +:+ isoformat scheduled_for))
    AutomationTrigger.SCHEDULE (Some (WorkflowSchedule.id c)) (Some scheduled_for) version;;
  update_schedule (WorkflowSchedule.id c) (with_schedule_error None).

(** [except ObsionError]: the schedule is disabled; what was done before the error stays. *)
Definition disable_after (c : WorkflowSchedule) (e : exn) : option (Py Automation unit) :=
  code ← error_code_of e;
  Some (update_schedule (WorkflowSchedule.id c) (with_schedule_error (Some code) ∘ with_enabled false);;
        schedule_event c "schedule.disabled"
          [("schedule_id", OStr (uuid_str (WorkflowSchedule.id c))); ("error_code", OStr code)]).

Definition fire_due (current : Z) (c : WorkflowSchedule) (w : WorkflowDefinition) : Py Automation unit :=
  let scheduled_for := WorkflowSchedule.next_fire_at c in
  let overdue := Z.max 0 (current - scheduled_for) in
  let misfired := (WorkflowSchedule.misfire_grace_seconds c * second <? overdue)%Z in
  next_fire_at ← next_cron_occurrence (WorkflowSchedule.cron_expression c) (WorkflowSchedule.timezone c)
    (if misfired then current else scheduled_for);
  update_schedule (WorkflowSchedule.id c) (with_fired scheduled_for next_fire_at);;
  if misfired && bool_decide (WorkflowSchedule.misfire_policy c = ScheduleMisfirePolicy.SKIP) then
    update_schedule (WorkflowSchedule.id c) (with_schedule_error (Some "schedule_misfire_skipped"));;
    schedule_event c "schedule.misfire_skipped"
      [("schedule_id", OStr (uuid_str (WorkflowSchedule.id c)));
       ("scheduled_for", OStr (isoformat scheduled_for))]
  else try_catch (fire c scheduled_for) (disable_after c).

Definition tick_schedules (locked : gset uuid) : Py Automation bool :=
  current ← in_kernel utc_now;
  savepoint (
    due ← gets (due_schedule locked current);
    match due with
    | None => mret false
    | Some c =>
        workflow ← gets (schedule_workflow c);
        match workflow with
        | Some w =>
            if bool_decide (WorkflowDefinition.status w = WorkflowStatus.ACTIVE) then
              fire_due current c w;; mret true
            else
              update_schedule (WorkflowSchedule.id c)
                (with_schedule_error (Some "workflow_not_active") ∘ with_enabled false);;
              mret true
        | None =>
            update_schedule (WorkflowSchedule.id c)
              (with_schedule_error (Some "workflow_not_active") ∘ with_enabled false);;
            mret true
        end
    end).

(** ** Claims *)

Definition claimable (now : Z) (e : AutomationExecution) : bool :=
  bool_decide (AutomationExecution.status e ∈ [AutomationStatus.PENDING; AutomationStatus.RUNNING]) &&
  bool_decide (AutomationExecution.cancellation_requested_at e = None) &&
  match AutomationExecution.lease_expires_at e with None => true | Some t => (t <? now)%Z end.

Definition _claim_execution (locked : gset uuid) : Py Automation (option uuid) :=
  now ← in_kernel utc_now;
  savepoint (
    found ← gets (λ s, head (order_by
      (λ e e', (AutomationExecution.created_at e <=? AutomationExecution.created_at e')%Z)
      (filter (λ e, AutomationExecution.id e ∉ locked) (select (claimable now) (executions s)))));
    match found with
    | None => mret None
    | Some e =>
        (if bool_decide (AutomationExecution.status e = AutomationStatus.PENDING) then
           update_execution (AutomationExecution.id e) (with_started now);;
           _execution_event e "automation.started" []
         else mret ());;
        update_execution (AutomationExecution.id e) (with_lease now);;
        mret (Some (AutomationExecution.id e))
    end).

(** ** Failure *)

(** The rows of loaded steps, as they are now. *)
Definition current_rows (ids : list uuid) (s : Automation) : list AutomationStepExecution :=
  omap (λ id, step_executions s !! id) ids.

Definition notify_owner (e : AutomationExecution) (wanted : WorkflowDefinition → bool) (suffix body : string)
    (payload : list (string * val)) (key : string) : Py Automation unit :=
  workflow ← gets (λ s, row_by WorkflowDefinition.id (workflows s) (AutomationExecution.workflow_id e));
  match workflow with
  | None => mret ()
  | Some w =>
      if bool_decide (WorkflowDefinition.organization_id w = AutomationExecution.organization_id e) && wanted w
      then
        deliver_notification e None (WorkflowDefinition.display_name w +:+ suffix) body
          (("workflow_id", VStr (uuid_str (WorkflowDefinition.id w))) :: payload)
          ("execution:" +:+ uuid_str (AutomationExecution.id e) +:+ key);;
        mret ()
      else mret ()
  end.

(** [steps] lists the steps that are loaded already, and is empty when none are. *)
Definition _fail_execution (e : AutomationExecution) (code message : string) (steps : list uuid) :
    Py Automation unit :=
  now ← in_kernel utc_now;
  update_execution (AutomationExecution.id e) (λ e, released (with_failure code message now e));;
  ids ← (if bool_decide (steps = []) then
           gets (λ s, AutomationStepExecution.id <$> select (λ st,
             bool_decide (AutomationStepExecution.execution_id st = AutomationExecution.id e)) (step_executions s))
         else mret steps);
  open_steps ← gets (λ s, List.filter (λ st, negb (step_terminal st)) (current_rows ids s));
  update_steps (skip_open ids now code);;
  in_kernel (for_each open_steps (on_child_run e (with_cancellation_request now)));;
  rows ← gets (current_rows ids);
  update_execution (AutomationExecution.id e) (with_summary (_summary rows));;
  _execution_event e "automation.failed" [("error_code", OStr code)];;
  notify_owner e WorkflowDefinition.notify_on_failure " 运行失败"
    "自动化运行未能完成，请检查运行详情和责任人权限。"
    [("status", VStr "FAILED"); ("code", VStr code)] ":failure".

(** ** Steps *)

(** A running analysis follows its Run. *)
Definition reconcile_step (e : AutomationExecution) (id : uuid) : Py Automation unit :=
  row ← gets (λ s, step_executions s !! id);
  match row with
  | None => mret ()
  | Some step =>
      match AutomationStepExecution.run_id step with
      | None => mret ()
      | Some run_id =>
          if negb (step_is AutomationStepStatus.RUNNING step) then mret ()
          else
            found ← gets (λ s, r ← row_by Run.id (runs (base s)) run_id;
              if bool_decide (Run.organization_id r = AutomationExecution.organization_id e) then Some r else None);
            match found with
            | None => update_step id with_missing_run
            | Some run =>
                match Run.status run with
                | RunStatus.COMPLETED =>
                    produced ← gets (λ s, order_by (λ a a', (Artifact.created_at a <=? Artifact.created_at a')%Z)
                      (select (λ a, bool_decide (Artifact.organization_id a = AutomationExecution.organization_id e) &&
                        bool_decide (Artifact.run_id a = Some (Run.id run))) (artifacts s)));
                    now ← in_kernel utc_now;
                    update_step id (with_outputs now (map (λ a, VDict
                      [("type", VStr "artifact"); ("artifact_id", VStr (uuid_str (Artifact.id a)));
                       ("kind", VStr (value_of (Artifact.kind a)))]) produced));;
                    _execution_event e "automation.step_completed"
                      [("step_id", OStr (uuid_str (AutomationStepExecution.id step)));
                       ("run_id", OStr (uuid_str (Run.id run)))]
                | RunStatus.FAILED | RunStatus.CANCELLED =>
                    now ← in_kernel utc_now;
                    update_step id (with_failed_run run now)
                | _ => mret ()
                end
            end
      end
  end.

Definition _reconcile_analysis_steps (e : AutomationExecution) (ids : list uuid) : Py Automation unit :=
  for_each ids (reconcile_step e).

(** [artifacts[-50:]] *)
Definition last_artifacts (l : list Artifact) : list Artifact := drop (length l - 50) l.

Definition attachment (a : Artifact) : dict :=
  [("type", VStr "artifact"); ("artifact_id", VStr (uuid_str (Artifact.id a)));
   ("title", VStr (Artifact.title a)); ("media_type", VStr (Artifact.media_type a))].

Definition _start_analysis (p : Principal) (w : WorkflowDefinition) (e : AutomationExecution)
    (step : AutomationStepExecution) : Py Automation unit :=
  match dget "prompt" (AutomationStepExecution.spec step) with
  | Some (VStr prompt_value) =>
      prompt ← render_automation_template prompt_value e w;
      produced ← dependency_artifacts e (AutomationStepExecution.depends_on step);
      thread_id ← in_kernel (create_thread p (AutomationExecution.workspace_id e)
        (WorkflowDefinition.display_name w +:+ " · " +:+ AutomationStepExecution.name step));
      let request := CreateTurnRequest.Make prompt
        [[("type", VStr "automation_execution"); ("execution_id", VStr (uuid_str (AutomationExecution.id e)));
          ("workflow_id", VStr (uuid_str (WorkflowDefinition.id w)));
          ("step_key", VStr (AutomationStepExecution.step_key step))]]
        (map attachment (last_artifacts produced))
        (match dget "model_profile" (AutomationStepExecution.spec step) with
         | Some (VStr m) => Some m | _ => None end) in
      request ← match valid_turn request with None => raise (PyError "ValidationError") | Some r => mret r end;
      run_id ← in_kernel (create_turn p thread_id request);
      now ← in_kernel utc_now;
      update_step (AutomationStepExecution.id step) (with_run run_id now);;
      _execution_event e "automation.step_started"
        [("step_id", OStr (uuid_str (AutomationStepExecution.id step))); ("run_id", OStr (uuid_str run_id));
         ("thread_id", OStr (uuid_str thread_id))]
  | _ => raise (ValidationError "workflow_step_invalid" "Analysis step prompt is invalid" [])
  end.

Definition _deliver_step_notification (w : WorkflowDefinition) (e : AutomationExecution)
    (step : AutomationStepExecution) : Py Automation unit :=
  match dget "title" (AutomationStepExecution.spec step), dget "body" (AutomationStepExecution.spec step) with
  | Some (VStr title), Some (VStr body) =>
      rendered_title ← render_automation_template title e w;
      rendered_body ← render_automation_template body e w;
      delivery ← deliver_notification e (Some (AutomationStepExecution.id step)) rendered_title rendered_body
        [("workflow_id", VStr (uuid_str (WorkflowDefinition.id w)));
         ("step_key", VStr (AutomationStepExecution.step_key step))]
        ("execution:" +:+ uuid_str (AutomationExecution.id e) +:+ ":step:" +:+ AutomationStepExecution.step_key step);
      started ← match AutomationStepExecution.started_at step with
                | Some t => mret t
                | None => in_kernel utc_now
                end;
      now ← in_kernel utc_now;
      update_step (AutomationStepExecution.id step) (λ st, with_outputs now
        [VDict [("type", VStr "notification");
                ("notification_id", VStr (uuid_str (NotificationDelivery.id delivery)))]]
        (with_step_started started st))
  | _, _ => raise (ValidationError "workflow_step_invalid" "Notification step is invalid" [])
  end.

(** [by_key[key]] for the loaded steps, the last of a key. *)
Definition step_by_key (ids : list uuid) (key : string) (s : Automation) : option AutomationStepExecution :=
  head (List.filter (λ st, bool_decide (AutomationStepExecution.step_key st = key)) (reverse (current_rows ids s))).

Definition dependency_row (ids : list uuid) (key : string) : Py Automation AutomationStepExecution :=
  row ← gets (step_by_key ids key);
  match row with None => raise (PyError "KeyError") | Some st => mret st end.

(** [all(item.status == COMPLETED for item in [by_key[key] for key in depends_on])] *)
Fixpoint dependencies_complete (ids : list uuid) (keys : list string) : Py Automation bool :=
  match keys with
  | [] => mret true
  | key :: rest =>
      st ← dependency_row ids key;
      others ← dependencies_complete ids rest;
      mret (step_is AutomationStepStatus.COMPLETED st && others)
  end.

Definition start_step (p : Principal) (w : WorkflowDefinition) (e : AutomationExecution) (now : Z)
    (ids : list uuid) (id : uuid) : Py Automation unit :=
  row ← gets (λ s, step_executions s !! id);
  match row with
  | None => mret ()
  | Some step =>
      if negb (step_is AutomationStepStatus.PENDING step) then mret ()
      else
        ready ← dependencies_complete ids (AutomationStepExecution.depends_on step);
        if negb ready then mret ()
        else match AutomationStepExecution.step_type step with
        | WorkflowStepType.ANALYSIS => _start_analysis p w e step
        | WorkflowStepType.NOTIFICATION => _deliver_step_notification w e step
        | WorkflowStepType.HUMAN_REVIEW =>
            update_step id (with_review_request now);;
            update_execution (AutomationExecution.id e) (with_execution_status AutomationStatus.WAITING_REVIEW);;
            _execution_event e "automation.review_requested"
              [("step_id", OStr (uuid_str (AutomationStepExecution.id step)));
               ("step_key", OStr (AutomationStepExecution.step_key step))]
        end
  end.

(** What the execution is after its steps were looked at. *)
Definition conclude (w : WorkflowDefinition) (e : AutomationExecution) (now : Z) (ids : list uuid) :
    Py Automation unit :=
  rows ← gets (current_rows ids);
  (if forallb (step_is AutomationStepStatus.COMPLETED) rows then
     let summary := _summary rows in
     update_execution (AutomationExecution.id e) (with_completion summary now);;
     _execution_event e "automation.completed" (map (λ '(k, v), (k, obj_of v)) summary);;
     (if WorkflowDefinition.notify_on_success w then
        deliver_notification e None (WorkflowDefinition.display_name w +:+ " 已完成")
          "自动分析已完成，可在工作流运行详情中查看证据与产物。"
          [("workflow_id", VStr (uuid_str (WorkflowDefinition.id w))); ("status", VStr "COMPLETED")]
          ("execution:" +:+ uuid_str (AutomationExecution.id e) +:+ ":success");;
        mret ()
      else mret ())
   else if existsb (step_is AutomationStepStatus.WAITING_REVIEW) rows then
     update_execution (AutomationExecution.id e) (with_execution_status AutomationStatus.WAITING_REVIEW)
   else update_execution (AutomationExecution.id e) (with_execution_status AutomationStatus.RUNNING));;
  update_execution (AutomationExecution.id e) (with_pause now).

(** ** Advancing an execution *)

Definition advance_steps (p : Principal) (w : WorkflowDefinition) (e : AutomationExecution) (now : Z) :
    Py Automation unit :=
  ids ← gets (λ s, AutomationStepExecution.id <$> order_by by_ordinal (select (step_of e) (step_executions s)));
  _reconcile_analysis_steps e ids;;
  rows ← gets (current_rows ids);
  match find (step_is AutomationStepStatus.FAILED) rows with
  | Some failed =>
      _fail_execution e (or_text (AutomationStepExecution.error_code failed) "automation_step_failed")
        (or_text (AutomationStepExecution.error_message failed)
           ("Workflow step " +:+ AutomationStepExecution.name failed +:+ " failed")) ids
  | None =>
      for_each ids (start_step p w e now ids);;
      conclude w e now ids
  end.

Definition _advance (execution_id : uuid) : Py Automation unit :=
  savepoint (
    row ← gets (λ s, row_by AutomationExecution.id (executions s) execution_id);
    match row with
    | None => mret ()
    | Some e =>
        if terminal e then mret ()
        else
          now ← in_kernel utc_now;
          if (AutomationExecution.deadline_at e <=? now)%Z then
            _fail_execution e "automation_timeout" "Workflow execution exceeded its deadline" []
          else
            p ← in_kernel (load_principal_by_id (AutomationExecution.organization_id e)
                  (AutomationExecution.owner_id e));
            if negb (can p "automation.trigger") then
              _fail_execution e "workflow_owner_permission_missing"
                "Workflow owner no longer has automation permission" []
            else
              in_kernel (require_workspace_access p (AutomationExecution.workspace_id e) true);;
              workflow ← gets (λ s, w ← row_by WorkflowDefinition.id (workflows s) (AutomationExecution.workflow_id e);
                if bool_decide (WorkflowDefinition.organization_id w = AutomationExecution.organization_id e)
                then Some w else None);
              match workflow with
              | None => _fail_execution e "workflow_not_found" "Workflow definition is missing" []
              | Some w => advance_steps p w e now
              end
    end).

Definition _fail_after_exception (execution_id : uuid) (code message : string) : Py Automation unit :=
  savepoint (
    row ← gets (λ s, row_by AutomationExecution.id (executions s) execution_id);
    match row with
    | None => mret ()
    | Some e => if terminal e then mret () else _fail_execution e code message []
    end).

(** [_execute]: an exception rolls the transaction back, and the execution fails in one of
    its own. *)
Definition _execute (execution_id : uuid) : Py Automation unit :=
  try_catch (_advance execution_id) (λ e, Some
    match e with
    | ObsionError code message _ _ => _fail_after_exception execution_id code message
    | PyError _ =>
        _fail_after_exception execution_id "automation_worker_failed"
          "The automation worker could not advance this execution"
    end).
End Worker.
