(* ===== verification/AutomationInvariant.v ===== *)
(** * What holds of the tables of automation

    The invariant [Inv] of workflows, executions and steps, and what it takes to keep it:
    [local i], the relation of every operation that works on one execution [i]. *)

From S2P Require Import Prelude PyText PyVal Enums Models Kernel Identity.
From S2P Require Import WorkflowSpec AutomationState AutomationService.

Abbreviation Workflows := (gmap uuid WorkflowDefinition).
Abbreviation Executions := (gmap uuid AutomationExecution).
Abbreviation Steps := (gmap uuid AutomationStepExecution).

(** ** Counting rows *)

(** Row by row, a table of the same keys where a condition holds less often. *)
Lemma select_fewer {V} (R : V → V → Prop) (P : V → bool) (m m' : gmap uuid V) :
  (∀ v v', R v v' → P v' = true → P v = true) →
  (∀ j, option_Forall2 R (m !! j) (m' !! j)) → (length (select P m') ≤ length (select P m))%nat.
Proof.
  intros HR. revert m'. induction m as [|i v m Hi IH] using map_ind; intros m' Hm.
  - assert (m' = ∅) as ->; [|done]. apply map_eq. intros j. specialize (Hm j). rewrite lookup_empty in *.
    by inversion Hm.
  - pose proof (Hm i) as Hv. rewrite lookup_insert_eq in Hv. inversion Hv as [? v' Hvv Heq1 Heq2|]; subst.
    rewrite <-(insert_delete_id m' i v') by done.
    rewrite !select_insert by (by rewrite ?lookup_delete_eq). rewrite !length_app.
    assert (length (select P (delete i m')) ≤ length (select P m))%nat.
    { apply IH. intros j. destruct (decide_rel (=) i j) as [<-|Hj].
      - rewrite lookup_delete_eq, Hi. constructor.
      - specialize (Hm j). rewrite lookup_insert_ne in Hm by done. rewrite lookup_delete_ne by done. exact Hm. }
    specialize (HR _ _ Hvv). destruct (P v'), (P v); cbn; try lia.
Qed.

Lemma occupies_spec o w e :
  occupies o w e = true ↔
  AutomationExecution.organization_id e = o ∧ AutomationExecution.workflow_id e = w ∧ active e = true.
Proof. unfold occupies. rewrite !andb_true_iff, !bool_decide_eq_true. tauto. Qed.

(** ** The invariant *)

(** A step that has begun: what it depends on is complete. *)
Definition begun (st : AutomationStepExecution) : Prop :=
  AutomationStepExecution.status st ∈
    [AutomationStepStatus.RUNNING; AutomationStepStatus.WAITING_REVIEW; AutomationStepStatus.COMPLETED;
     AutomationStepStatus.FAILED].
Definition complete (st : AutomationStepExecution) : Prop :=
  AutomationStepExecution.status st = AutomationStepStatus.COMPLETED.
(** A step that is still to be started or reviewed. *)
Definition awaited (st : AutomationStepExecution) : Prop :=
  AutomationStepExecution.status st ∈ [AutomationStepStatus.PENDING; AutomationStepStatus.WAITING_REVIEW].

(** A step that was given up. *)
Definition dropped (st : AutomationStepExecution) : Prop :=
  AutomationStepExecution.status st ∈ [AutomationStepStatus.CANCELLED; AutomationStepStatus.SKIPPED].

(** [st] is the step [j] of the execution [i]. *)
Definition has_step (ss : Steps) (i j : uuid) (st : AutomationStepExecution) : Prop :=
  ss !! j = Some st ∧ AutomationStepExecution.execution_id st = i.

Definition ordered (ss : Steps) (i : uuid) : Prop := ∀ j st key,
  has_step ss i j st → begun st → key ∈ AutomationStepExecution.depends_on st →
  ∃ j' st', has_step ss i j' st' ∧ AutomationStepExecution.step_key st' = key ∧ complete st'.

(** An ended execution waits for nothing; a completed one has run every step; one that has
    not ended gave up none. *)
Definition closed (e : AutomationExecution) (ss : Steps) : Prop := ∀ j st,
  has_step ss (AutomationExecution.id e) j st →
  (terminal e = true → ¬ awaited st) ∧
  (AutomationExecution.status e = AutomationStatus.COMPLETED → complete st) ∧
  (terminal e = false → ¬ dropped st).

(** The steps of an execution are those of a valid specification. *)
Record instantiates (ss : Steps) (i : uuid) (spec : WorkflowSpec) : Prop := {
  instance_of j st : has_step ss i j st →
    ∃ s, s ∈ spec ∧ WorkflowStepSpec.id s = AutomationStepExecution.step_key st ∧
         WorkflowStepSpec.depends_on s = AutomationStepExecution.depends_on st;
  instance_all s : s ∈ spec → ∃ j st, has_step ss i j st ∧ AutomationStepExecution.step_key st = WorkflowStepSpec.id s;
  instance_once j j' st st' : has_step ss i j st → has_step ss i j' st' →
    AutomationStepExecution.step_key st = AutomationStepExecution.step_key st' → j = j'
}.

(** How many executions of a workflow may be active at once. *)
Definition concurrency_limit (w : WorkflowDefinition) : Z :=
  match WorkflowDefinition.concurrency_policy w with
  | WorkflowConcurrencyPolicy.ALLOW => WorkflowDefinition.max_concurrency w
  | WorkflowConcurrencyPolicy.FORBID | WorkflowConcurrencyPolicy.REPLACE => 1
  end.

Definition active_executions (w : WorkflowDefinition) (es : Executions) : list AutomationExecution :=
  select (occupies (WorkflowDefinition.organization_id w) (WorkflowDefinition.id w)) es.

Record Inv (ws : Workflows) (es : Executions) (ss : Steps) : Prop := {
  workflow_key i w : ws !! i = Some w → WorkflowDefinition.id w = i;
  execution_key i e : es !! i = Some e → AutomationExecution.id e = i;
  step_key_ i st : ss !! i = Some st → AutomationStepExecution.id st = i;
  execution_workflow i e : es !! i = Some e → ∃ w, ws !! AutomationExecution.workflow_id e = Some w ∧
    WorkflowDefinition.organization_id w = AutomationExecution.organization_id e;
  step_execution j st : ss !! j = Some st → ∃ e, es !! AutomationStepExecution.execution_id st = Some e ∧
    AutomationExecution.organization_id e = AutomationStepExecution.organization_id st;
  execution_spec i e : es !! i = Some e → ∃ spec, valid_spec spec = true ∧ instantiates ss i spec;
  execution_closed i e : es !! i = Some e → closed e ss;
  execution_ordered i e : es !! i = Some e → ordered ss i;
  within_limit i w : ws !! i = Some w → (Z.of_nat (length (active_executions w es)) ≤ concurrency_limit w)%Z
}.

(** ** Work on one execution *)

Record same_execution (e e' : AutomationExecution) : Prop := {
  same_execution_id : AutomationExecution.id e' = AutomationExecution.id e;
  same_execution_organization : AutomationExecution.organization_id e' = AutomationExecution.organization_id e;
  same_execution_workflow : AutomationExecution.workflow_id e' = AutomationExecution.workflow_id e
}.

Record same_step (st st' : AutomationStepExecution) : Prop := {
  same_step_id : AutomationStepExecution.id st' = AutomationStepExecution.id st;
  same_step_organization : AutomationStepExecution.organization_id st' = AutomationStepExecution.organization_id st;
  same_step_execution : AutomationStepExecution.execution_id st' = AutomationStepExecution.execution_id st;
  same_step_key : AutomationStepExecution.step_key st' = AutomationStepExecution.step_key st;
  same_step_depends : AutomationStepExecution.depends_on st' = AutomationStepExecution.depends_on st
}.

#[export] Instance same_execution_preorder : PreOrder same_execution.
Proof. split; [done|]. intros ??? [] []. split; congruence. Qed.
#[export] Instance same_step_preorder : PreOrder same_step.
Proof. split; [done|]. intros ??? [] []. split; congruence. Qed.

(** The execution [i] keeps its identity and does not come back to life; others do not
    change. *)
Definition execution_evolves (i : uuid) (e e' : AutomationExecution) : Prop :=
  same_execution e e' ∧ (active e' = true → active e = true) ∧ (AutomationExecution.id e ≠ i → e' = e).
(** Its steps keep their identity, and complete ones stay complete. *)
Definition step_evolves (i : uuid) (st st' : AutomationStepExecution) : Prop :=
  same_step st st' ∧ (complete st → complete st') ∧ (AutomationStepExecution.execution_id st ≠ i → st' = st).

#[export] Instance execution_evolves_preorder i : PreOrder (execution_evolves i).
Proof.
  split; [by intros x; repeat split|]. intros e1 e2 e3 (H1 & H2 & H3) (H4 & H5 & H6).
  split; [by etransitivity|split; [auto|]].
  intros Hi. rewrite H6; [auto|]. by rewrite (same_execution_id _ _ H1).
Qed.
#[export] Instance step_evolves_preorder i : PreOrder (step_evolves i).
Proof.
  split; [by intros x; repeat split|]. intros e1 e2 e3 (H1 & H2 & H3) (H4 & H5 & H6).
  split; [by etransitivity|split; [auto|]].
  intros Hi. rewrite H6; [auto|]. by rewrite (same_step_execution _ _ H1).
Qed.

Definition executions_evolve (i : uuid) (es es' : Executions) : Prop :=
  ∀ j, option_Forall2 (execution_evolves i) (es !! j) (es' !! j).
Definition steps_evolve (i : uuid) (ss ss' : Steps) : Prop :=
  ∀ j, option_Forall2 (step_evolves i) (ss !! j) (ss' !! j).

#[export] Instance executions_evolve_preorder i : PreOrder (executions_evolve i).
Proof. split; [intros m j; reflexivity|]. intros m1 m2 m3 H1 H2 j. by transitivity (m2 !! j). Qed.
#[export] Instance steps_evolve_preorder i : PreOrder (steps_evolve i).
Proof. split; [intros m j; reflexivity|]. intros m1 m2 m3 H1 H2 j. by transitivity (m2 !! j). Qed.

Lemma evolved_from {V} (R : V → V → Prop) (m m' : gmap uuid V) j v' :
  (∀ j, option_Forall2 R (m !! j) (m' !! j)) → m' !! j = Some v' → ∃ v, m !! j = Some v ∧ R v v'.
Proof. intros HR Hj. specialize (HR j). rewrite Hj in HR. inversion HR. eauto. Qed.

Lemma evolves_to {V} (R : V → V → Prop) (m m' : gmap uuid V) j v :
  (∀ j, option_Forall2 R (m !! j) (m' !! j)) → m !! j = Some v → ∃ v', m' !! j = Some v' ∧ R v v'.
Proof. intros HR Hj. specialize (HR j). rewrite Hj in HR. inversion HR. eauto. Qed.

Lemma execution_alter_evolves i f (es : Executions) :
  (∀ e, es !! i = Some e → execution_evolves i e (f e)) → executions_evolve i es (alter f i es).
Proof.
  intros Hf j. destruct (decide_rel (=) j i) as [->|Hj]; [|by rewrite lookup_alter_ne].
  rewrite lookup_alter_eq. destruct (es !! i); constructor. by apply Hf.
Qed.

Lemma step_alter_evolves i j f (ss : Steps) :
  (∀ st, ss !! j = Some st → step_evolves i st (f st)) → steps_evolve i ss (alter f j ss).
Proof.
  intros Hf j'. destruct (decide_rel (=) j' j) as [->|Hj]; [|by rewrite lookup_alter_ne].
  rewrite lookup_alter_eq. destruct (ss !! j); constructor. by apply Hf.
Qed.

Lemma steps_fmap_evolves i f (ss : Steps) :
  (∀ j st, ss !! j = Some st → step_evolves i st (f st)) → steps_evolve i ss (f <$> ss).
Proof. intros Hf j. rewrite lookup_fmap. destruct (ss !! j) eqn:Hj; constructor. eauto. Qed.

(** ** Steps under evolution *)

Lemma has_step_evolved i k ss ss' j st' :
  steps_evolve i ss ss' → has_step ss' k j st' → ∃ st, has_step ss k j st ∧ step_evolves i st st'.
Proof.
  intros Hs [Hj Hk]. destruct (evolved_from _ _ _ _ _ Hs Hj) as (st & Hst & He). exists st.
  split; [split; [done|]|done]. by rewrite <-(same_step_execution _ _ (proj1 He)).
Qed.

Lemma has_step_evolves i k ss ss' j st :
  steps_evolve i ss ss' → has_step ss k j st → ∃ st', has_step ss' k j st' ∧ step_evolves i st st'.
Proof.
  intros Hs [Hj Hk]. destruct (evolves_to _ _ _ _ _ Hs Hj) as (st' & Hst & He). exists st'.
  split; [split; [done|]|done]. by rewrite (same_step_execution _ _ (proj1 He)).
Qed.

Lemma has_step_other i k ss ss' j st :
  steps_evolve i ss ss' → k ≠ i → has_step ss' k j st ↔ has_step ss k j st.
Proof.
  intros Hs Hk. split; intros Hst.
  - destruct (has_step_evolved _ _ _ _ _ _ Hs Hst) as (st' & Hst' & _ & _ & Heq).
    by rewrite Heq by (destruct Hst'; congruence).
  - destruct (has_step_evolves _ _ _ _ _ _ Hs Hst) as (st' & Hst' & _ & _ & Heq).
    rewrite Heq in Hst' by (destruct Hst; congruence). done.
Qed.

Lemma ordered_other i k ss ss' : steps_evolve i ss ss' → k ≠ i → ordered ss k → ordered ss' k.
Proof.
  intros Hs Hk Ho j st key Hst Hb Hkey. apply (has_step_other _ _ _ _ _ _ Hs Hk) in Hst.
  destruct (Ho j st key Hst Hb Hkey) as (j' & st' & Hst' & ? & ?). exists j', st'.
  by rewrite (has_step_other _ _ _ _ _ _ Hs Hk).
Qed.

Lemma instantiates_evolves i k ss ss' spec : steps_evolve i ss ss' → instantiates ss k spec → instantiates ss' k spec.
Proof.
  intros Hs []. split.
  - intros j st' Hst'. destruct (has_step_evolved _ _ _ _ _ _ Hs Hst') as (st & Hst & [] & _).
    rewrite same_step_key0, same_step_depends0. eauto.
  - intros s Hspec. destruct (instance_all0 s Hspec) as (j & st & Hst & Hkey).
    destruct (has_step_evolves _ _ _ _ _ _ Hs Hst) as (st' & Hst' & [] & _). exists j, st'. split; [done|congruence].
  - intros j j' st st' Hst Hst' Hkey. destruct (has_step_evolved _ _ _ _ _ _ Hs Hst) as (st1 & H1 & [] & _).
    destruct (has_step_evolved _ _ _ _ _ _ Hs Hst') as (st2 & H2 & [] & _).
    apply (instance_once0 j j' st1 st2); [done..|congruence].
Qed.

(** A change of other columns keeps the order of the steps of [i], provided that whatever
    begins finds its dependencies complete. *)
Lemma ordered_evolves i ss ss' :
  steps_evolve i ss ss' → ordered ss i →
  (∀ j st st' key, has_step ss i j st → ss' !! j = Some st' → begun st' → ¬ begun st →
     key ∈ AutomationStepExecution.depends_on st →
     ∃ j' st1, has_step ss i j' st1 ∧ AutomationStepExecution.step_key st1 = key ∧ complete st1) →
  ordered ss' i.
Proof.
  intros Hs Ho Hnew j st' key Hst' Hb Hkey.
  destruct (has_step_evolved _ _ _ _ _ _ Hs Hst') as (st & Hst & He). pose proof He as ([] & _ & _).
  rewrite same_step_depends0 in Hkey.
  assert (∃ j' st1, has_step ss i j' st1 ∧ AutomationStepExecution.step_key st1 = key ∧ complete st1)
    as (j' & st1 & Hst1 & Hk1 & Hc1).
  { unfold begun in *. destruct (decide_rel (∈) (AutomationStepExecution.status st)
      [AutomationStepStatus.RUNNING; AutomationStepStatus.WAITING_REVIEW; AutomationStepStatus.COMPLETED;
       AutomationStepStatus.FAILED]) as [Hbeg|Hbeg]; [by eapply Ho|]. eapply Hnew; [done|apply Hst'|done..]. }
  destruct (has_step_evolves _ _ _ _ _ _ Hs Hst1) as (st2 & Hst2 & [] & Hc2 & _).
  exists j', st2. split_and!; [done|congruence|auto].
Qed.

(** ** Keeping the invariant *)

Lemma Inv_local i ws es ss es' ss' :
  Inv ws es ss → executions_evolve i es es' → steps_evolve i ss ss' →
  (∀ e', es' !! i = Some e' → closed e' ss' ∧ ordered ss' i) → Inv ws es' ss'.
Proof.
  intros HI He Hs Hi.
  assert (∀ j e', es' !! j = Some e' → ∃ e, es !! j = Some e ∧ same_execution e e' ∧ (j ≠ i → e' = e)) as Hfrom.
  { intros j e' Hj. destruct (evolved_from _ _ _ _ _ He Hj) as (e & Hj' & Hsame & _ & Ho). exists e.
    split_and!; [done..|]. intros Hne. apply Ho. by rewrite (execution_key _ _ _ HI _ _ Hj'). }
  split.
  - apply HI.
  - intros j e' Hj. destruct (Hfrom j e' Hj) as (e & Hj' & [] & _). rewrite same_execution_id0. by eapply HI.
  - intros j st' Hj. destruct (evolved_from _ _ _ _ _ Hs Hj) as (st & Hj' & [] & _). rewrite same_step_id0. by eapply HI.
  - intros j e' Hj. destruct (Hfrom j e' Hj) as (e & Hj' & [] & _).
    rewrite same_execution_workflow0, same_execution_organization0. by eapply HI.
  - intros j st' Hj. destruct (evolved_from _ _ _ _ _ Hs Hj) as (st & Hj' & [] & _).
    destruct (step_execution _ _ _ HI _ _ Hj') as (e & Hexec & Horg).
    destruct (evolves_to _ _ _ _ _ He Hexec) as (e' & Hexec' & [] & _). exists e'.
    split; congruence.
  - intros j e' Hj. destruct (Hfrom j e' Hj) as (e & Hj' & _ & _).
    destruct (execution_spec _ _ _ HI _ _ Hj') as (spec & Hv & Hspec). exists spec. split; [done|].
    by eapply instantiates_evolves.
  - intros j e' Hj. destruct (decide_rel (=) j i) as [->|Hne]; [by apply Hi|].
    destruct (Hfrom j e' Hj) as (e & Hj' & _ & Heq). rewrite (Heq Hne). intros k st Hst.
    rewrite (execution_key _ _ _ HI _ _ Hj') in Hst. apply (has_step_other _ _ _ _ _ _ Hs Hne) in Hst.
    apply (execution_closed _ _ _ HI _ _ Hj' k). by rewrite (execution_key _ _ _ HI _ _ Hj').
  - intros j e' Hj. destruct (decide_rel (=) j i) as [->|Hne]; [by eapply Hi|].
    destruct (Hfrom j e' Hj) as (e & Hj' & _). eapply ordered_other; [done..|]. by eapply HI.
  - intros j w Hw. etransitivity; [|by eapply HI]. apply inj_le. unfold active_executions.
    apply (select_fewer (execution_evolves i)); [|done]. intros e e' ([] & Ha & _). unfold occupies.
    rewrite same_execution_organization0, same_execution_workflow0, !andb_true_iff. naive_solver.
Qed.

(** What a workflow keeps whatever happens to it. *)
Record same_workflow (w w' : WorkflowDefinition) : Prop := {
  same_workflow_id : WorkflowDefinition.id w' = WorkflowDefinition.id w;
  same_workflow_organization : WorkflowDefinition.organization_id w' = WorkflowDefinition.organization_id w;
  same_workflow_policy : WorkflowDefinition.concurrency_policy w' = WorkflowDefinition.concurrency_policy w;
  same_workflow_max : WorkflowDefinition.max_concurrency w' = WorkflowDefinition.max_concurrency w
}.

Lemma Inv_workflow ws es ss i w w' :
  Inv ws es ss → ws !! i = Some w → same_workflow w w' → Inv (<[i := w']> ws) es ss.
Proof.
  intros HI Hw []. split; try apply HI.
  - intros j v Hj. destruct (decide_rel (=) j i) as [->|Hne].
    + rewrite lookup_insert_eq in Hj. simplify_eq. rewrite same_workflow_id0. by eapply HI.
    + rewrite lookup_insert_ne in Hj by done. by eapply HI.
  - intros j e Hj. destruct (execution_workflow _ _ _ HI _ _ Hj) as (v & Hv & Ho).
    destruct (decide_rel (=) (AutomationExecution.workflow_id e) i) as [Hi|Hne].
    + exists w'. rewrite Hi in *. rewrite lookup_insert_eq. simplify_eq. split; [done|congruence].
    + exists v. by rewrite lookup_insert_ne.
  - intros j v Hj. destruct (decide_rel (=) j i) as [->|Hne].
    + rewrite lookup_insert_eq in Hj. simplify_eq. unfold active_executions, concurrency_limit.
      rewrite same_workflow_id0, same_workflow_organization0, same_workflow_policy0, same_workflow_max0.
      by eapply (within_limit _ _ _ HI).
    + rewrite lookup_insert_ne in Hj by done. by eapply HI.
Qed.

Lemma Inv_new_workflow ws es ss i w :
  Inv ws es ss → ws !! i = None → WorkflowDefinition.id w = i → (0 < WorkflowDefinition.max_concurrency w)%Z →
  Inv (<[i := w]> ws) es ss.
Proof.
  intros HI Hi Hid Hmax. split; try apply HI.
  - intros j v Hj. destruct (decide_rel (=) j i) as [->|Hne].
    + rewrite lookup_insert_eq in Hj. by simplify_eq.
    + rewrite lookup_insert_ne in Hj by done. by eapply HI.
  - intros j e Hj. destruct (execution_workflow _ _ _ HI _ _ Hj) as (v & Hv & Ho). exists v.
    rewrite lookup_insert_ne by congruence. done.
  - intros j v Hj. destruct (decide_rel (=) j i) as [->|Hne].
    + rewrite lookup_insert_eq in Hj. simplify_eq. unfold active_executions.
      destruct (select _ es) as [|e l] eqn:Hsel; cycle 1.
      { assert (e ∈ select (occupies (WorkflowDefinition.organization_id v) (WorkflowDefinition.id v)) es) as Hin
          by (rewrite Hsel; left). apply elem_of_select in Hin as [Hocc [k Hk]]. apply occupies_spec in Hocc as (_ & Hv & _).
        destruct (execution_workflow _ _ _ HI _ _ Hk) as (v' & Hv' & _). congruence. }
      cbn. unfold concurrency_limit. destruct (WorkflowDefinition.concurrency_policy v); lia.
    + rewrite lookup_insert_ne in Hj by done. by eapply HI.
Qed.

(** A new execution [e] with its steps: [ss'] has them beside the old ones. *)
Record adds_steps (e : AutomationExecution) (skip_code : option string) (spec : WorkflowSpec) (ss ss' : Steps) :
    Prop := {
  added_old j st : ss !! j = Some st → ss' !! j = Some st;
  added_new j st : ss' !! j = Some st → ss !! j = None →
    AutomationStepExecution.id st = j ∧
    AutomationStepExecution.execution_id st = AutomationExecution.id e ∧
    AutomationStepExecution.organization_id st = AutomationExecution.organization_id e ∧
    AutomationStepExecution.status st =
      (if bool_decide (skip_code = None) then AutomationStepStatus.PENDING else AutomationStepStatus.SKIPPED);
  added_spec : instantiates ss' (AutomationExecution.id e) spec
}.

Lemma Inv_admit ws es ss ss' wid w e skip_code spec :
  Inv ws es ss → ws !! wid = Some w → es !! AutomationExecution.id e = None →
  AutomationExecution.workflow_id e = wid →
  AutomationExecution.organization_id e = WorkflowDefinition.organization_id w →
  AutomationExecution.status e =
    (if bool_decide (skip_code = None) then AutomationStatus.PENDING else AutomationStatus.SKIPPED) →
  (skip_code = None → (Z.of_nat (length (active_executions w es)) < concurrency_limit w)%Z) →
  valid_spec spec = true → adds_steps e skip_code spec ss ss' →
  Inv ws (<[AutomationExecution.id e := e]> es) ss'.
Proof.
  intros HI Hw Hfree Hwid Horg Hstatus Hroom Hvalid [Hold Hnew Hspec].
  assert (∀ j st, ss !! j = Some st → AutomationStepExecution.execution_id st ≠ AutomationExecution.id e) as Hfresh.
  { intros j st Hj Heq. destruct (step_execution _ _ _ HI _ _ Hj) as (e0 & He0 & _). congruence. }
  assert (∀ i j st, i ≠ AutomationExecution.id e → has_step ss' i j st ↔ has_step ss i j st) as Hother.
  { intros i j st Hi. unfold has_step. split; intros [Hj Hx]; [|by split; [apply Hold|]]. split; [|done].
    destruct (ss !! j) as [st'|] eqn:Hj'; [apply Hold in Hj'; congruence|].
    destruct (Hnew _ _ Hj Hj') as (_ & ? & _). congruence. }
  assert (∀ j st, has_step ss' (AutomationExecution.id e) j st → ss !! j = None) as Hmine.
  { intros j st [Hj Hx]. destruct (ss !! j) as [st'|] eqn:Hj'; [|done]. pose proof (Hold _ _ Hj'). simplify_eq.
    by destruct (Hfresh _ _ Hj'). }
  assert (∀ j e', <[AutomationExecution.id e := e]> es !! j = Some e' →
    (j = AutomationExecution.id e ∧ e' = e) ∨ (j ≠ AutomationExecution.id e ∧ es !! j = Some e')) as Hcases.
  { intros j e' Hj. destruct (decide_rel (=) j (AutomationExecution.id e)) as [->|Hne].
    - rewrite lookup_insert_eq in Hj. left. by simplify_eq.
    - rewrite lookup_insert_ne in Hj by done. by right. }
  split.
  - apply HI.
  - intros j e' [[-> ->]|[_ Hj]]%Hcases; [done|by eapply HI].
  - intros j st Hj. destruct (ss !! j) as [st'|] eqn:Hj'; [|by apply Hnew].
    pose proof (Hold _ _ Hj'). simplify_eq. by eapply HI.
  - intros j e' [[-> ->]|[_ Hj]]%Hcases; [|by eapply HI]. exists w. by rewrite Hwid.
  - intros j st Hj. destruct (ss !! j) as [st'|] eqn:Hj'.
    + pose proof (Hold _ _ Hj'). simplify_eq. destruct (step_execution _ _ _ HI _ _ Hj') as (e0 & He0 & Ho).
      exists e0. rewrite lookup_insert_ne by congruence. done.
    + destruct (Hnew _ _ Hj Hj') as (_ & -> & -> & _). exists e. by rewrite lookup_insert_eq.
  - intros j e' [[-> ->]|[Hne Hj]]%Hcases; [by exists spec|].
    destruct (execution_spec _ _ _ HI _ _ Hj) as (spec' & Hv & []). exists spec'. split; [done|].
    split; setoid_rewrite (Hother _ _ _ Hne); eauto.
  - intros j e' [[-> ->]|[Hne Hj]]%Hcases.
    + intros k st Hst. destruct (Hnew _ _ (proj1 Hst) (Hmine _ _ Hst)) as (_ & _ & _ & Hs).
      unfold terminal, awaited, complete, dropped. rewrite Hs, Hstatus.
      destruct (bool_decide (skip_code = None)); (split; [|split]); try done;
        intros _ Ha; rewrite list_elem_of_In in Ha; cbn in Ha; intuition congruence.
    + intros k st Hst. rewrite (execution_key _ _ _ HI _ _ Hj) in Hst. apply (Hother _ _ _ Hne) in Hst.
      apply (execution_closed _ _ _ HI _ _ Hj k). by rewrite (execution_key _ _ _ HI _ _ Hj).
  - intros j e' [[-> ->]|[Hne Hj]]%Hcases.
    + intros k st key Hst Hb. exfalso. destruct (Hnew _ _ (proj1 Hst) (Hmine _ _ Hst)) as (_ & _ & _ & Hs).
      unfold begun in Hb. rewrite Hs in Hb. rewrite list_elem_of_In in Hb. cbn in Hb.
      destruct (bool_decide (skip_code = None)); intuition congruence.
    + intros k st key Hst Hb Hkey. apply (Hother _ _ _ Hne) in Hst.
      destruct (execution_ordered _ _ _ HI _ _ Hj k st key Hst Hb Hkey) as (k' & st' & ? & ? & ?).
      exists k', st'. by rewrite Hother.
  - intros j v Hj. unfold active_executions. rewrite select_insert by done. rewrite length_app.
    pose proof (within_limit _ _ _ HI _ _ Hj) as Hle. unfold active_executions in Hle.
    destruct (occupies _ _ e) eqn:Hocc; cbn; [|done]. apply occupies_spec in Hocc as (_ & Hv & Hactive).
    assert (v = w) as -> by (rewrite (workflow_key _ _ _ HI _ _ Hj) in Hv; congruence).
    unfold active in *. rewrite Hstatus in Hactive. destruct (bool_decide (skip_code = None)) eqn:Hsk; [|done].
    apply bool_decide_eq_true in Hsk. specialize (Hroom Hsk). unfold active_executions in Hroom. lia.
Qed.

(** ** Computations that leave the tables of [Inv] alone *)

Record same_core (s s' : Automation) : Prop := {
  same_workflows : workflows s' = workflows s;
  same_executions : executions s' = executions s;
  same_steps : step_executions s' = step_executions s
}.

#[export] Instance same_core_preorder : PreOrder same_core.
Proof. split; [done|]. intros ??? [] []. split; congruence. Qed.

Definition inv (s : Automation) : Prop := Inv (workflows s) (executions s) (step_executions s).

Lemma inv_same s s' : same_core s s' → inv s → inv s'.
Proof. unfold inv. by intros [-> -> ->]. Qed.

(** Quietness is searched by the syntax of the computation, in a database of its own where
    definitions are not unfolded. *)
Definition Quiet {A} (m : Py Automation A) : Prop :=
  ∀ s, wp m (λ _, same_core s) (λ _, same_core s) s.

Create HintDb quiet discriminated.
#[export] Hint Constants Opaque : quiet.
Ltac solve_quiet := solve [typeclasses eauto with quiet].

Lemma pure_quiet {A} (m : Py Automation A) : Pure m → Quiet m.
Proof. intros Hm s. by apply wp_pure. Qed.

Lemma bind_quiet {A B} (m : Py Automation A) (f : A → Py Automation B) :
  Quiet m → (∀ a, Quiet (f a)) → Quiet (m ≫= f).
Proof.
  intros Hm Hf s. apply wp_bind. eapply wp_mono; [apply Hm| |done]. intros a s' Hs.
  eapply wp_mono; [apply Hf|..]; intros; cbv beta in *; by transitivity s'.
Qed.

Lemma in_kernel_quiet {A} (m : Py Kernel A) : Quiet (in_kernel m).
Proof. intros s. apply wp_in_kernel. unfold wp. by destruct (m _). Qed.

Lemma try_catch_quiet {A} (m : Py Automation A) h :
  Quiet m → (∀ e k, h e = Some k → Quiet k) → Quiet (try_catch m h).
Proof.
  intros Hm Hh s. apply wp_try_catch. eapply wp_mono; [apply Hm|done|]. intros e s' Hs. cbv beta.
  destruct (h e) as [k|] eqn:He; [|done].
  eapply wp_mono; [by eapply Hh|..]; intros; cbv beta in *; by transitivity s'.
Qed.

Lemma put_version_quiet i v : Quiet (put_version i v).
Proof. done. Qed.
Lemma put_schedule_quiet i c : Quiet (put_schedule i c).
Proof. done. Qed.
Lemma update_schedule_quiet i f : Quiet (update_schedule i f).
Proof. done. Qed.
Lemma put_notification_quiet i n : Quiet (put_notification i n).
Proof. done. Qed.

#[export] Hint Resolve in_kernel_quiet put_version_quiet put_schedule_quiet update_schedule_quiet
  put_notification_quiet : quiet.
#[export] Hint Extern 1 (Quiet (mbind _ _)) => apply bind_quiet; [|intros ?; cbv beta] : quiet.
#[export] Hint Extern 1 (Quiet (match ?x with _ => _ end)) => destruct x : quiet.
#[export] Hint Extern 2 (Quiet (modify _)) => solve [intros ?; apply wp_modify; by split] : quiet.
#[export] Hint Extern 1 (Quiet (mret _)) => apply pure_quiet; apply ret_pure : quiet.
#[export] Hint Extern 1 (Quiet (raise _)) => apply pure_quiet; apply raise_pure : quiet.
#[export] Hint Extern 1 (Quiet (raise_if _ _)) => apply pure_quiet; apply raise_if_pure : quiet.
#[export] Hint Extern 1 (Quiet (gets _)) => apply pure_quiet; apply gets_pure : quiet.

Lemma wp_quiet {A} (m : Py Automation A) (Q : A → Automation → Prop) X s :
  Quiet m → (∀ a s', same_core s s' → Q a s') → (∀ e s', same_core s s' → X e s') → wp m Q X s.
Proof. intros Hm HQ HX. eapply wp_mono; [apply Hm|auto..]. Qed.
