(* ===== verification/AutomationFacts.v ===== *)
(** * What the operations of automation do to the invariant

    Each operation of the service and each transaction of the worker keeps [inv]. *)

From S2P Require Import Prelude PyText PyVal Enums Models Kernel CanonicalJson.
From S2P Require Import Events Identity WorkflowSpec AutomationState AutomationService AutomationWorker.
From S2P Require Import AutomationInvariant.

(** ** Rules *)

(** A quiet computation first: what is known of the tables carries over. *)
Lemma wp_quiet_bind {A B} (m : Py Automation A) (k : A → Py Automation B) Q X s0 s :
  Quiet m → same_core s0 s → (∀ a s', same_core s0 s' → wp (k a) Q X s') → (∀ e s', same_core s0 s' → X e s') →
  wp (m ≫= k) Q X s.
Proof.
  intros Hm H0 HQ HX. apply wp_bind. apply wp_quiet; [done|..]; intros a s' Hs; [apply HQ|apply HX]; by transitivity s.
Qed.

Lemma wp_quiet_end {A} (m : Py Automation A) (Q : A → Automation → Prop) X s0 s :
  Quiet m → same_core s0 s → (∀ a s', same_core s0 s' → Q a s') → (∀ e s', same_core s0 s' → X e s') → wp m Q X s.
Proof. intros Hm H0 HQ HX. apply wp_quiet; [done|..]; intros a s' Hs; [apply HQ|apply HX]; by transitivity s. Qed.

(** Step over a quiet computation, keeping one fact [same_core start current]. *)
Ltac quiet_step Hc :=
  eapply wp_quiet_bind; [solve_quiet|exact Hc| |]; clear Hc; [intros ? ? Hc|intros ? ? Hc; try done].

Lemma active_terminal e : active e = negb (terminal e).
Proof. unfold active, terminal. by destruct (AutomationExecution.status e). Qed.

Lemma wp_get_workflow p id write s (Q : WorkflowDefinition → Automation → Prop) X :
  (∀ w, workflows s !! id = Some w → WorkflowDefinition.id w = id →
     WorkflowDefinition.organization_id w = Principal.organization_id p → Q w s) →
  (∀ e, X e s) → wp (get_workflow p id write) Q X s.
Proof.
  intros HQ HX. unfold get_workflow. apply wp_bind, wp_gets.
  destruct (row_by _ _ _) as [w|] eqn:Hw; [|by apply wp_raise].
  case_bool_decide; [|by apply wp_raise]. apply row_by_Some in Hw as [Hw Hid].
  apply wp_bind, wp_read; [apply _|]. apply (wp_pure _); intros; cbv beta; [by apply wp_ret, HQ|apply HX].
Qed.

Lemma wp_get_execution p id write s (Q : AutomationExecution → Automation → Prop) X :
  (∀ e, executions s !! id = Some e → AutomationExecution.id e = id →
     AutomationExecution.organization_id e = Principal.organization_id p → Q e s) →
  (∀ e, X e s) → wp (get_execution p id write) Q X s.
Proof.
  intros HQ HX. unfold get_execution. apply wp_bind, wp_gets.
  destruct (row_by _ _ _) as [e|] eqn:He; [|by apply wp_raise].
  case_bool_decide; [|by apply wp_raise]. apply row_by_Some in He as [He Hid].
  apply wp_bind, wp_read; [apply _|]. apply (wp_pure _); intros; cbv beta; [by apply wp_ret, HQ|apply HX].
Qed.

(** The end of a transaction: on an exception the tables are what they were. *)
Lemma wp_transaction {A} (m : Py Automation A) s :
  inv s → wp m (λ _, inv) (λ _ _, True) s → wp (savepoint m) (λ _, inv) (λ _, inv) s.
Proof. intros Hs Hm. apply wp_savepoint. eapply wp_mono; [exact Hm|done|]. by intros. Qed.

Lemma status_ended status now code st : AutomationStepExecution.status (ended status now code st) = status.
Proof. done. Qed.

(** Refute or use a status in a list of statuses. *)
Ltac in_statuses :=
  unfold begun, awaited, complete, dropped in *; rewrite ?status_ended in *;
  repeat match goal with H : _ ∈ _ |- _ => rewrite list_elem_of_In in H; cbn in H end;
  try rewrite list_elem_of_In; cbn; intuition congruence.

(** Nor is a step dropped that has another status. *)
Lemma undropped (P : Prop) st :
  bool_decide (AutomationStepExecution.status st ∈ [AutomationStepStatus.CANCELLED; AutomationStepStatus.SKIPPED]) = false →
  dropped st → P.
Proof. by intros Hf%bool_decide_eq_false. Qed.

Section Service.
Context `{Environment, EventContracts, JsonEncoder}.

Lemma event_quiet o a n p l t g : Quiet (_event o a n p l t g).
Proof. unfold _event. solve_quiet. Qed.
#[local] Hint Resolve event_quiet : quiet.
Lemma audit_quiet p r a m o t g : Quiet (_audit p r a m o t g).
Proof. unfold _audit. solve_quiet. Qed.
#[local] Hint Resolve audit_quiet : quiet.
Lemma workflow_event_quiet p w n l : Quiet (workflow_event p w n l).
Proof. unfold workflow_event. apply event_quiet. Qed.
#[local] Hint Resolve workflow_event_quiet : quiet.
Lemma workflow_audit_quiet p w n l : Quiet (workflow_audit p w n l).
Proof. unfold workflow_audit. apply audit_quiet. Qed.
#[local] Hint Resolve workflow_audit_quiet : quiet.
Lemma execution_event_quiet p w n l : Quiet (execution_event p w n l).
Proof. unfold execution_event. apply event_quiet. Qed.
#[local] Hint Resolve execution_event_quiet : quiet.
Lemma integrity_quiet b : Quiet (integrity b).
Proof. unfold integrity. solve_quiet. Qed.
#[local] Hint Resolve integrity_quiet : quiet.
Lemma require_quiet p n : Quiet (_require p n).
Proof. unfold _require. solve_quiet. Qed.
#[local] Hint Resolve require_quiet : quiet.
Lemma published_version_quiet o w v : Quiet (_published_version o w v).
Proof. unfold _published_version. solve_quiet. Qed.
#[local] Hint Resolve published_version_quiet : quiet.
Lemma get_workflow_quiet p id write : Quiet (get_workflow p id write).
Proof. unfold get_workflow. cbv zeta. solve_quiet. Qed.
#[local] Hint Resolve get_workflow_quiet : quiet.
Lemma insert_version_quiet row : Quiet (insert_version row).
Proof. unfold insert_version. cbv zeta. solve_quiet. Qed.
#[local] Hint Resolve insert_version_quiet : quiet.
Lemma loaded_quiet {A} (o : option A) : Quiet (loaded o).
Proof. destruct o; unfold loaded; solve_quiet. Qed.
#[local] Hint Resolve loaded_quiet : quiet.
Lemma next_cron_quiet `{Cron} e z t : Quiet (next_cron_occurrence e z t).
Proof. unfold next_cron_occurrence. solve_quiet. Qed.
#[local] Hint Resolve next_cron_quiet : quiet.
Lemma deliver_quiet e st t b l k : Quiet (deliver_notification e st t b l k).
Proof. unfold deliver_notification. cbv zeta. solve_quiet. Qed.
#[local] Hint Resolve deliver_quiet : quiet.

(** ** Cancelling *)

Lemma cancel_step_evolves e now st i :
  AutomationExecution.id e = i → step_evolves i st (cancel_step e now st).
Proof.
  intros <-. unfold cancel_step. destruct (_ && _) eqn:Hb; [|done]. split_bool.
  unfold step_of in *. split_bool. split; [done|split].
  - intros Hc. unfold complete, step_terminal in *. rewrite Hc in *. done.
  - intros Hne. done.
Qed.
(** A cancelled step has not begun and is not awaited. *)
Lemma cancel_step_begun e now st : begun (cancel_step e now st) → cancel_step e now st = st.
Proof.
  unfold cancel_step. destruct (_ && _); [|done]. in_statuses.
Qed.

Lemma cancel_step_awaited e now st : step_of e st = true → ¬ awaited (cancel_step e now st).
Proof.
  intros Hof. unfold cancel_step. rewrite Hof. cbn [andb].
  destruct (step_terminal st) eqn:Ht; cbn [negb]; [|in_statuses].
  apply bool_decide_eq_true in Ht. unfold _STEP_TERMINAL in Ht. in_statuses.
Qed.

(** Steps that end before they begin do not disturb the order of the others. *)
Lemma ordered_ending i ss ss' :
  steps_evolve i ss ss' → ordered ss i → (∀ j st st', ss !! j = Some st → ss' !! j = Some st' → begun st' → begun st) →
  ordered ss' i.
Proof. intros Hs Ho Hb. eapply ordered_evolves; [done..|].
  intros j st st' key [Hst _] Hst' Hb' Hn. destruct Hn. by eapply Hb.
Qed.

Lemma cancelled_tables ws es ss e e0 now :
  Inv ws es ss → es !! AutomationExecution.id e = Some e0 → same_execution e0 e →
  Inv ws (alter (with_cancelled_execution now) (AutomationExecution.id e) es) (cancel_step e now <$> ss).
Proof.
  intros HI He0 Hsame. eapply (Inv_local (AutomationExecution.id e)); [done|..].
  - apply execution_alter_evolves. intros e1 He1. simplify_eq. split; [done|split; [done|]].
    destruct Hsame. congruence.
  - apply steps_fmap_evolves. intros j st Hst. by apply cancel_step_evolves.
  - rewrite lookup_alter_eq, He0. intros e' [= <-].
    assert (steps_evolve (AutomationExecution.id e) ss (cancel_step e now <$> ss)) as Hev.
    { apply steps_fmap_evolves. intros j st Hst. by apply cancel_step_evolves. }
    split.
    + intros j st Hst. split; [|done]. intros _. destruct Hst as [Hst Hexec].
      rewrite lookup_fmap in Hst. destruct (ss !! j) as [st0|] eqn:Hj; [|done]. injection Hst as <-.
      apply cancel_step_awaited. pose proof (same_step_execution _ _ (proj1 (cancel_step_evolves e now st0 _ eq_refl))) as Hx.
      destruct (step_execution _ _ _ HI _ _ Hj) as (e1 & He1 & Horg).
      destruct Hsame as [Hid Ho _]. unfold step_of. cbn in Hexec.
      rewrite Hx in Hexec. rewrite Hexec, <-Hid, He0 in He1. simplify_eq.
      rewrite !bool_decide_eq_true_2; [done|congruence..].
    + eapply ordered_ending; [done|by eapply (execution_ordered _ _ _ HI)|]. intros j st st' Hj Hj'.
      rewrite lookup_fmap, Hj in Hj'. injection Hj' as <-. intros Hb. by rewrite (cancel_step_begun _ _ _ Hb) in Hb.
Qed.
(** Executions keep their identity and none comes back to life. *)
Definition fades (e e' : AutomationExecution) : Prop := same_execution e e' ∧ (active e' = true → active e = true).

#[local] Instance fades_preorder : PreOrder fades.
Proof. split; [done|]. intros e1 e2 e3 [H2 H3] [H4 H5]. split; [by etransitivity|auto]. Qed.

Definition fading (es es' : Executions) : Prop := ∀ j, option_Forall2 fades (es !! j) (es' !! j).

#[local] Instance fading_preorder : PreOrder fading.
Proof. split; [intros m j; reflexivity|]. intros m1 m2 m3 H2 H3 j. by transitivity (m2 !! j). Qed.

Lemma evolve_fading i es es' : executions_evolve i es es' → fading es es'.
Proof. intros He j. specialize (He j). destruct He as [e e' (? & ? & _)|]; by constructor. Qed.

(** What cancelling leaves. *)
Record after_cancel (s s' : Automation) : Prop := {
  after_cancel_inv : inv s';
  after_cancel_workflows : workflows s' = workflows s;
  after_cancel_fading : fading (executions s) (executions s')
}.

Lemma after_cancel_trans s1 s2 s3 : after_cancel s1 s2 → after_cancel s2 s3 → after_cancel s1 s3.
Proof. intros [] []. split; [done|congruence|by etransitivity]. Qed.

Lemma after_cancel_core s1 s2 s3 : after_cancel s1 s2 → same_core s2 s3 → after_cancel s1 s3.
Proof. intros [Hi Hw Hf] Hs. split; [by eapply inv_same|by rewrite (same_workflows _ _ Hs)|by rewrite (same_executions _ _ Hs)]. Qed.

(** A row like [e] is stored under its key. *)
Definition stored (s : Automation) (e : AutomationExecution) : Prop :=
  ∃ e0, executions s !! AutomationExecution.id e = Some e0 ∧ same_execution e0 e.

Lemma stored_fading s s' e : fading (executions s) (executions s') → stored s e → stored s' e.
Proof.
  intros Hf (e0 & He & Hsame). destruct (evolves_to _ _ _ _ _ Hf He) as (e1 & He1 & Hs & _). exists e1.
  split; [done|]. destruct Hs, Hsame. split; congruence.
Qed.

Definition inactive_at (s : Automation) (e : AutomationExecution) : Prop :=
  ∀ e', executions s !! AutomationExecution.id e = Some e' → active e' = false.

Lemma inactive_fading s s' e : fading (executions s) (executions s') → inactive_at s e → inactive_at s' e.
Proof.
  intros Hf Hi e' He'. destruct (evolved_from _ _ _ _ _ Hf He') as (e0 & He0 & _ & Ha).
  destruct (active e') eqn:Hact; [|done]. by rewrite (Hi _ He0) in Ha; discriminate Ha.
Qed.

Lemma wp_cancel_rows e actor s :
  inv s → stored s e → active e = true →
  wp (_cancel_execution_rows e actor) (λ _ s', after_cancel s s' ∧ inactive_at s' e) (λ _, after_cancel s) s.
Proof.
  intros Hinv (e0 & He0 & Hsame) Hact. unfold _cancel_execution_rows.
  rewrite active_terminal in Hact. apply negb_true_iff in Hact. rewrite Hact.
  assert (after_cancel s s) as Hrefl by (split; [done..|reflexivity]).
  assert (same_core s s) as Hc by done. quiet_step Hc; [|by eapply after_cancel_core].
  apply wp_bind, wp_modify, wp_bind, wp_gets, wp_bind, wp_modify. cbv beta.
  match goal with |- wp _ _ _ ?t => set (s2 := t) end.
  assert (after_cancel s s2 ∧ inactive_at s2 e) as [H2 H3].
  { destruct Hc as [Hw He Hs]. unfold s2. rec_simpl. split.
    - split; cbn; [|done|].
      + unfold inv. cbn. rewrite Hw, He, Hs. by eapply cancelled_tables.
      + rewrite He. apply (evolve_fading (AutomationExecution.id e)), execution_alter_evolves.
        intros e1 He1. simplify_eq. split; [done|split; [done|]]. destruct Hsame. congruence.
    - intros e'. cbn. rewrite He, lookup_alter_eq, He0. by intros [= <-]. }
  clearbody s2. assert (same_core s2 s2) as Hc2 by done.
  assert (∀ s', same_core s2 s' → after_cancel s s' ∧ inactive_at s' e) as Hend.
  { intros t Hs. split; [by eapply after_cancel_core|]. unfold inactive_at. by rewrite (same_executions _ _ Hs). }
  quiet_step Hc2; [|by apply Hend]. quiet_step Hc2; [|by apply Hend]. apply wp_ret. by apply Hend.
Qed.

Lemma wp_cancel_all l actor s :
  inv s → (∀ e, e ∈ l → stored s e ∧ active e = true) →
  wp (for_each l (λ e, _cancel_execution_rows e actor))
    (λ _ s', after_cancel s s' ∧ ∀ e, e ∈ l → inactive_at s' e) (λ _, after_cancel s) s.
Proof.
  revert s. induction l as [|e l IH]; intros s Hinv Hl; cbn [for_each].
  - apply wp_ret. split; [split; [done..|reflexivity]|]. by intros e He%elem_of_nil.
  - destruct (Hl e) as [Hst Hact]; [left|]. apply wp_bind. eapply wp_mono; [by apply wp_cancel_rows| |done]. cbv beta.
    intros _ s1 [Hc1 Hi1]. eapply wp_mono; [apply IH|..].
    + apply Hc1.
    + intros e' He'. destruct (Hl e') as [Hst' Hact']; [by right|]. split; [|done].
      eapply stored_fading; [apply Hc1|done].
    + cbv beta. intros _ s2 [Hc2 Hi2]. split; [by eapply after_cancel_trans|].
      intros e' [->|He']%elem_of_cons; [|auto]. eapply inactive_fading; [apply Hc2|done].
    + cbv beta. intros x s2 Hc2. by eapply after_cancel_trans.
Qed.
(** ** Triggering *)

(** [ss'] is [ss] with a row of [e] for each step of [spec]. *)
Record inserted (e : AutomationExecution) (skip_code : option string) (spec : WorkflowSpec) (ss ss' : Steps) :
    Prop := {
  inserted_old j st : ss !! j = Some st → ss' !! j = Some st;
  inserted_new j st : ss' !! j = Some st → ss !! j = None →
    AutomationStepExecution.id st = j ∧
    AutomationStepExecution.execution_id st = AutomationExecution.id e ∧
    AutomationStepExecution.organization_id st = AutomationExecution.organization_id e ∧
    AutomationStepExecution.status st =
      (if bool_decide (skip_code = None) then AutomationStepStatus.PENDING else AutomationStepStatus.SKIPPED) ∧
    ∃ s, s ∈ spec ∧ WorkflowStepSpec.id s = AutomationStepExecution.step_key st ∧
         WorkflowStepSpec.depends_on s = AutomationStepExecution.depends_on st;
  inserted_all s : s ∈ spec →
    ∃ j st, has_step ss' (AutomationExecution.id e) j st ∧ AutomationStepExecution.step_key st = WorkflowStepSpec.id s;
  inserted_once : (∀ j j' st st', has_step ss (AutomationExecution.id e) j st →
      has_step ss (AutomationExecution.id e) j' st' →
      AutomationStepExecution.step_key st = AutomationStepExecution.step_key st' → j = j') →
    ∀ j j' st st', has_step ss' (AutomationExecution.id e) j st → has_step ss' (AutomationExecution.id e) j' st' →
      AutomationStepExecution.step_key st = AutomationStepExecution.step_key st' → j = j'
}.

Lemma inserted_nil e skip_code ss : inserted e skip_code [] ss ss.
Proof. split; [done|congruence| |done]. by intros s Hs%elem_of_nil. Qed.

Lemma step_constraints_spec st s :
  step_constraints st s = true →
  step_executions s !! AutomationStepExecution.id st = None ∧
  ∀ j st', step_executions s !! j = Some st' →
    AutomationStepExecution.execution_id st' = AutomationStepExecution.execution_id st →
    AutomationStepExecution.step_key st' ≠ AutomationStepExecution.step_key st.
Proof.
  unfold step_constraints. intros [Hid Hsel]%andb_true_iff. apply negb_true_iff, bool_decide_eq_false in Hid.
  apply bool_decide_eq_true in Hsel. split; [by apply eq_None_not_Some|]. intros j st' Hj Hex Hkey.
  match type of Hsel with select ?P ?m = [] => assert (st' ∈ select P m) as Hin end.
  { apply elem_of_select. split; [|by exists j]. by rewrite Hex, Hkey, !bool_decide_eq_true_2 by done. }
  rewrite Hsel in Hin. by apply elem_of_nil in Hin.
Qed.

Lemma inserted_cons e skip_code now ordinal step spec i ss ss' :
  let st := new_step e skip_code now ordinal step i in
  ss !! i = None →
  (∀ j st', ss !! j = Some st' → AutomationStepExecution.execution_id st' = AutomationExecution.id e →
     AutomationStepExecution.step_key st' ≠ WorkflowStepSpec.id step) →
  inserted e skip_code spec (<[i := st]> ss) ss' → inserted e skip_code (step :: spec) ss ss'.
Proof.
  intros st Hi Hkey [Hold Hnew Hall Honce]. split.
  - intros j st' Hj. apply Hold. by rewrite lookup_insert_ne by congruence.
  - intros j st' Hj Hnone. destruct (decide_rel (=) j i) as [->|Hne].
    + pose proof (Hold i st) as Hst. rewrite lookup_insert_eq in Hst. rewrite Hst in Hj by done. simplify_eq.
      split_and!; try done. exists step. split; [left|done].
    + destruct (Hnew j st' Hj) as (? & ? & ? & ? & s & Hs & ?); [by rewrite lookup_insert_ne|].
      split_and!; try done. exists s. split; [by right|done].
  - intros s [->|Hs]%elem_of_cons; [|by apply Hall]. exists i, st. split; [|done]. split; [|done].
    apply Hold. by rewrite lookup_insert_eq.
  - intros Huniq. apply Honce. intros j j' st1 st2 [Hj Hx] [Hj' Hx'] Heq.
    destruct (decide_rel (=) j i) as [->|Hne], (decide_rel (=) j' i) as [->|Hne']; [done|..];
      rewrite ?lookup_insert_eq in *; rewrite ?lookup_insert_ne in * by done; simplify_eq.
    + by destruct (Hkey _ _ Hj' Hx').
    + by destruct (Hkey _ _ Hj Hx).
    + by eapply Huniq.
Qed.

Lemma wp_insert_steps e skip_code now ordinal spec s :
  wp (insert_steps e skip_code now ordinal spec)
    (λ _ s', workflows s' = workflows s ∧ executions s' = executions s ∧
       inserted e skip_code spec (step_executions s) (step_executions s'))
    (λ x _, python_error x) s.
Proof.
  revert ordinal s. induction spec as [|step spec IH]; intros ordinal s; cbn [insert_steps].
  - apply wp_ret. split_and!; [done..|apply inserted_nil].
  - apply wp_bind. unfold insert_step. apply wp_bind, wp_in_kernel, wp_new_id. intros i k _.
    apply wp_bind, wp_gets. cbv beta. apply wp_bind, wp_raise_if; [done|]. intros Hok%negb_false_iff.
    apply step_constraints_spec in Hok as [Hi Hkey]. apply wp_modify. eapply wp_mono; [apply IH| |done].
    cbv beta. intros _ s' (Hw & He & Hins). split; [exact Hw|split; [exact He|]]. eapply inserted_cons; [exact Hi|exact Hkey|exact Hins].
Qed.
(** Room under the limit of a workflow. *)
Definition has_room (w : WorkflowDefinition) (s : Automation) : Prop :=
  (Z.of_nat (length (active_executions w (executions s))) < concurrency_limit w)%Z.

(** What holds whatever is raised: Python's own exceptions abort the transaction. *)
Definition inv_unless_python (x : exn) (s : Automation) : Prop := ¬ python_error x → inv s.

Definition running_executions (w : WorkflowDefinition) (s : Automation) : list AutomationExecution :=
  order_by (λ e e', (AutomationExecution.created_at e <=? AutomationExecution.created_at e')%Z)
    (active_executions w (executions s)).

Lemma length_running w s : length (running_executions w s) = length (active_executions w (executions s)).
Proof. unfold running_executions. by rewrite order_by_perm. Qed.

Lemma elem_of_running w s e :
  inv s → e ∈ running_executions w s → stored s e ∧ active e = true.
Proof.
  intros Hinv He. apply elem_of_order_by, elem_of_select in He as [Hocc [k Hk]].
  apply occupies_spec in Hocc as (_ & _ & Hact). split; [|done]. exists e.
  rewrite (execution_key _ _ _ Hinv _ _ Hk). by split.
Qed.

(** The concurrency policy makes room, or turns the trigger down. *)
Lemma wp_make_room w actor s :
  inv s →
  wp (if bool_decide (WorkflowDefinition.concurrency_policy w = WorkflowConcurrencyPolicy.REPLACE)
      then for_each (running_executions w s) (λ e, _cancel_execution_rows e actor) else mret ())
    (λ _ s', after_cancel s s' ∧
       (skip_reason w (length (running_executions w s)) = None → has_room w s'))
    (λ _, after_cancel s) s.
Proof.
  intros Hinv. unfold skip_reason. rewrite length_running. case_bool_decide as Hpol; rewrite ?Hpol.
  - eapply wp_mono; [apply wp_cancel_all; [done|] | |done].
    { intros e He. by eapply elem_of_running. }
    cbv beta. intros _ s' [Hc Hin]. split; [done|]. intros _. unfold has_room, concurrency_limit. rewrite Hpol.
    destruct (active_executions w (executions s')) as [|e l] eqn:Hl; [done|exfalso].
    assert (e ∈ active_executions w (executions s')) as He by (rewrite Hl; left).
    apply elem_of_select in He as [Hocc [k Hk]]. apply occupies_spec in Hocc as (Ho & Hw & Hact).
    destruct (evolved_from _ _ _ _ _ (after_cancel_fading _ _ Hc) Hk) as (e0 & He0 & Hsame & Ha).
    assert (e0 ∈ running_executions w s) as Hrun.
    { apply elem_of_order_by, elem_of_select. split; [|by exists k]. destruct Hsame. apply occupies_spec.
      split_and!; [congruence..|auto]. }
    pose proof (execution_key _ _ _ Hinv _ _ He0) as Hid. specialize (Hin e0 Hrun e). rewrite Hid in Hin.
    rewrite (Hin Hk) in Hact. done.
  - apply wp_ret. split; [split; [done..|reflexivity]|]. unfold has_room, concurrency_limit.
    destruct (WorkflowDefinition.concurrency_policy w); [| |done].
    + destruct (Nat.ltb_spec 0 (length (active_executions w (executions s)))); [done|]. intros _. lia.
    + destruct (Z.leb_spec (WorkflowDefinition.max_concurrency w)
        (Z.of_nat (length (active_executions w (executions s))))); [done|]. intros _. lia.
Qed.

Lemma inserted_adds ws es s e skip_code spec ss' :
  Inv ws es s → es !! AutomationExecution.id e = None →
  inserted e skip_code spec s ss' → adds_steps e skip_code spec s ss'.
Proof.
  intros HI Hfree [Hold Hnew Hall Honce].
  assert (∀ j st, ¬ has_step s (AutomationExecution.id e) j st) as Hnone.
  { intros j st [Hj Hx]. destruct (step_execution _ _ _ HI _ _ Hj) as (e0 & He0 & _). congruence. }
  split; [done|..].
  - intros j st Hj Hn. destruct (Hnew j st Hj Hn) as (? & ? & ? & ? & _). by split_and!.
  - split; [|done|].
    + intros j st [Hj Hx]. destruct (s !! j) as [st0|] eqn:Hj0.
      { destruct (Hnone j st0). split; [done|]. pose proof (Hold _ _ Hj0). congruence. }
      by destruct (Hnew j st Hj Hj0) as (_ & _ & _ & _ & Hs).
    + apply Honce. intros j j' st st' Hst. by destruct (Hnone j st).
Qed.

Lemma execution_constraints_free e s :
  execution_constraints e s = true → executions s !! AutomationExecution.id e = None.
Proof.
  unfold execution_constraints. rewrite !andb_true_iff, negb_true_iff, bool_decide_eq_false.
  intros [[[Hfree _] _] _]. by apply eq_None_not_Some.
Qed.

Lemma model_validate_valid `{SpecFields} document spec : model_validate document = Some spec → valid_spec spec = true.
Proof. unfold model_validate. destruct (spec_fields document) as [l|]; cbn; [|done]. by destruct (valid_spec l) eqn:?; intros; simplify_eq. Qed.

Lemma wp_admit `{SpecFields} p w version schedule_id trigger scheduled_for key payload s :
  inv s → workflows s !! WorkflowDefinition.id w = Some w →
  WorkflowDefinition.organization_id w = Principal.organization_id p →
  wp (admit_execution p w version schedule_id trigger scheduled_for key payload) (λ _, inv) inv_unless_python s.
Proof.
  intros Hinv Hw Horg. unfold admit_execution. apply wp_bind, wp_gets. cbv beta. rewrite <-Horg.
  fold (active_executions w (executions s)) (running_executions w s). apply wp_bind.
  eapply wp_mono; [by apply wp_make_room| |by intros ?? [] ?]. cbv beta. intros _ s1 [Hcancel Hroom].
  set (skip := skip_reason w _) in *. assert (same_core s1 s1) as Hc by done.
  assert (∀ x s', same_core s1 s' → inv_unless_python x s') as Hexn.
  { intros x s' Hs _. eapply inv_same; [exact Hs|apply Hcancel]. }
  quiet_step Hc; [|by apply Hexn]. rename a into now. quiet_step Hc; [|by apply Hexn]. rename a into i.
  quiet_step Hc; [|by apply Hexn]. apply wp_bind, wp_gets. cbv beta.
  set (e := new_execution _ _ _ _ _ _ _ _ _ _ _ _).
  apply wp_bind, wp_raise_if; [by intros ? []|]. intros Hok%negb_false_iff.
  apply wp_bind, wp_modify. cbv beta. apply wp_bind.
  destruct (model_validate _) as [spec|] eqn:Hspec; [|by apply wp_raise; intros []].
  eapply wp_mono; [apply wp_insert_steps| |by intros ????]. cbv beta. intros _ s3 (Hw3 & He3 & Hins).
  assert (inv s3) as Hinv3.
  { unfold inv. rewrite Hw3, He3. cbn in *. destruct Hc as [Hwc Hec Hsc]. rewrite Hsc in Hins. rewrite Hwc, Hec.
    apply execution_constraints_free in Hok as Hfree. rewrite Hec in Hfree.
    eapply Inv_admit; [apply Hcancel|..|exact (model_validate_valid _ _ Hspec)|].
    - rewrite (after_cancel_workflows _ _ Hcancel). exact Hw.
    - done.
    - done.
    - by rewrite Horg.
    - done.
    - exact Hroom.
    - eapply inserted_adds; [apply Hcancel|done..]. }
  clear Hc. assert (same_core s3 s3) as Hc by done.
  assert (∀ x s', same_core s3 s' → inv_unless_python x s') as Hexn3 by (intros x t Ht _; by eapply inv_same).
  quiet_step Hc; [|by apply Hexn3]. quiet_step Hc; [|by apply Hexn3]. apply wp_ret. by eapply inv_same.
Qed.
End Service.
#[export] Hint Resolve event_quiet audit_quiet workflow_event_quiet workflow_audit_quiet execution_event_quiet integrity_quiet require_quiet published_version_quiet get_workflow_quiet insert_version_quiet loaded_quiet next_cron_quiet deliver_quiet : quiet.
