(* ===== verification/AutomationKeeps.v ===== *)
(** * The endpoints of automation keep the invariant *)

From S2P Require Import Prelude PyText PyVal Enums Models Kernel CanonicalJson.
From S2P Require Import Events Identity WorkflowSpec AutomationState AutomationService.
From S2P Require Import AutomationInvariant AutomationFacts.

(** A quiet computation keeps the invariant. *)
Lemma quiet_keeps {A} (m : Py Automation A) s : Quiet m → inv s → wp m (λ _, inv) (λ _, inv) s.
Proof. intros Hm Hs. apply wp_quiet; [done|..]; intros ? t Ht; by eapply inv_same. Qed.

Lemma quiet_savepoint {A} (m : Py Automation A) s : Quiet m → inv s → wp (savepoint m) (λ _, inv) (λ _, inv) s.
Proof. intros Hm Hs. apply wp_transaction; [done|]. eapply wp_mono; [by apply quiet_keeps|done|done]. Qed.

(** ** Elementary changes *)

Lemma running_not_ended e : terminal e = false → AutomationExecution.status e ≠ AutomationStatus.COMPLETED.
Proof. unfold terminal. by destruct (AutomationExecution.status e). Qed.

(** An execution that has not ended only demands that no step was given up. *)
Lemma closed_running e ss :
  terminal e = false → (∀ j st, has_step ss (AutomationExecution.id e) j st → ¬ dropped st) → closed e ss.
Proof.
  intros Ht Hss j st Hst. split; [by rewrite Ht|split; [|by eauto]]. intros Hs. by destruct (running_not_ended e Ht).
Qed.

(** The steps of an active execution. *)
Lemma not_dropped ws es ss i j e st :
  Inv ws es ss → es !! i = Some e → terminal e = false → has_step ss i j st → ¬ dropped st.
Proof.
  intros HI He Ht Hst. apply (execution_closed _ _ _ HI _ _ He j st); [|done].
  by rewrite (execution_key _ _ _ HI _ _ He).
Qed.

(** Other columns of an active execution, or its status among the active ones. *)
Lemma Inv_execution ws es ss i e f :
  Inv ws es ss → es !! i = Some e → terminal e = false → same_execution e (f e) → terminal (f e) = false →
  Inv ws (alter f i es) ss.
Proof.
  intros HI He Ht Hsame Ht'. eapply (Inv_local i); [done| |reflexivity|].
  - apply execution_alter_evolves. intros e1 He1. simplify_eq. split; [done|split].
    + by rewrite !active_terminal, Ht.
    + by rewrite (execution_key _ _ _ HI _ _ He).
  - rewrite lookup_alter_eq, He. intros e' [= <-]. split; [|by eapply HI]. apply closed_running; [done|].
    intros j st. rewrite (same_execution_id _ _ Hsame), (execution_key _ _ _ HI _ _ He). by eapply not_dropped.
Qed.

(** Columns of any execution that are not its status. *)
Lemma Inv_columns ws es ss i f :
  Inv ws es ss →
  (∀ e, same_execution e (f e) ∧ AutomationExecution.status (f e) = AutomationExecution.status e) →
  Inv ws (alter f i es) ss.
Proof.
  intros HI Hf. eapply (Inv_local i); [done| |reflexivity|].
  - apply execution_alter_evolves. intros e He. destruct (Hf e) as [Hsame Hs]. split; [done|split].
    + unfold active. by rewrite Hs.
    + by rewrite (execution_key _ _ _ HI _ _ He).
  - rewrite lookup_alter_eq. intros e' He'. destruct (es !! i) as [e|] eqn:He; [|done]. injection He' as <-.
    destruct (Hf e) as [[Hid _ _] Hs]. split; [|by eapply HI]. intros j st Hst. rewrite Hid in Hst.
    unfold terminal. rewrite Hs. by apply (execution_closed _ _ _ HI _ _ He j).
Qed.

(** One step of an active execution; it may begin only when its dependencies are complete. *)
Lemma Inv_step ws es ss j st e f :
  Inv ws es ss → ss !! j = Some st → es !! AutomationStepExecution.execution_id st = Some e → terminal e = false →
  same_step st (f st) → (complete st → complete (f st)) → (dropped (f st) → dropped st) →
  (begun (f st) → ¬ begun st → ∀ key, key ∈ AutomationStepExecution.depends_on st → ∃ j' st',
     has_step ss (AutomationStepExecution.execution_id st) j' st' ∧
     AutomationStepExecution.step_key st' = key ∧ complete st') →
  Inv ws es (alter f j ss).
Proof.
  intros HI Hst He Ht Hsame Hcomplete Hdrop Hbegin. set (i := AutomationStepExecution.execution_id st) in *.
  assert (steps_evolve i ss (alter f j ss)) as Hev.
  { apply step_alter_evolves. intros st0 Hst0. simplify_eq. split; [done|split; [done|]]. done. }
  eapply (Inv_local i); [done|reflexivity|done|]. intros e' He'. rewrite He in He'. injection He' as <-.
  split.
  { apply closed_running; [done|]. rewrite (execution_key _ _ _ HI _ _ He). intros k st0 [Hst0 Hx].
    destruct (decide_rel (=) k j) as [->|Hne].
    - rewrite lookup_alter_eq, Hst in Hst0. injection Hst0 as <-. intros Hd%Hdrop.
      eapply (not_dropped _ _ _ _ j e st HI He Ht); [by split|done].
    - rewrite lookup_alter_ne in Hst0 by done. by eapply (not_dropped _ _ _ _ k e st0 HI He Ht). }
  eapply ordered_evolves; [done|by eapply HI|].
  intros k st0 st' key [Hst0 Hx] Hst' Hb Hn Hkey. destruct (decide_rel (=) k j) as [->|Hne].
  - rewrite lookup_alter_eq, Hst in Hst'. rewrite Hst in Hst0. injection Hst0 as <-. injection Hst' as <-. by apply Hbegin.
  - rewrite lookup_alter_ne in Hst' by done. simplify_eq.
Qed.

(** An execution fails with everything that was awaited. *)
Lemma Inv_fail ws es ss i f g :
  Inv ws es ss →
  (∀ e, same_execution e (f e) ∧ AutomationExecution.status (f e) = AutomationStatus.FAILED) →
  (∀ st, same_step st (g st) ∧ (complete st → complete (g st)) ∧ (begun (g st) → begun st)) →
  (∀ j st, ss !! j = Some st → AutomationStepExecution.execution_id st ≠ i → g st = st) →
  (∀ j st, ss !! j = Some st → AutomationStepExecution.execution_id st = i → ¬ awaited (g st)) →
  Inv ws (alter f i es) (g <$> ss).
Proof.
  intros HI Hf Hg Hother Hmine.
  assert (steps_evolve i ss (g <$> ss)) as Hev.
  { apply steps_fmap_evolves. intros j st Hst. destruct (Hg st) as (? & ? & _). split; [done|split; [done|eauto]]. }
  eapply (Inv_local i); [done| |done|].
  - apply execution_alter_evolves. intros e He. destruct (Hf e) as [Hsame Hs]. split; [done|split].
    + unfold active. by rewrite Hs.
    + by rewrite (execution_key _ _ _ HI _ _ He).
  - rewrite lookup_alter_eq. intros e' He'. destruct (es !! i) as [e|] eqn:He; [|done]. injection He' as <-.
    destruct (Hf e) as [[Hid _ _] Hs]. split.
    + intros j st' [Hst' Hx]. unfold terminal. rewrite Hs. split; [|by split]. intros _. rewrite lookup_fmap in Hst'.
      destruct (ss !! j) as [st|] eqn:Hst; [|done]. injection Hst' as <-. eapply Hmine; [done|].
      destruct (Hg st) as [[_ _ Hexec _ _] _]. rewrite Hid, (execution_key _ _ _ HI _ _ He) in Hx. congruence.
    + eapply ordered_ending; [done|by eapply HI|]. intros j st st' Hst Hst' Hb.
      rewrite lookup_fmap, Hst in Hst'. injection Hst' as <-. by apply Hg.
Qed.

Section Keeps.
Context `{Environment, EventContracts, JsonEncoder}.

#[local] Hint Extern 2 (same_core _ _) => reflexivity : core.

Lemma wp_trigger `{SpecFields} p id payload key trigger schedule_id scheduled_for pinned s :
  inv s →
  wp (trigger_workflow p id payload key trigger schedule_id scheduled_for pinned) (λ _, inv) inv_unless_python s.
Proof.
  intros Hinv. assert (∀ x s', same_core s s' → inv_unless_python x s') as Hexn by (intros x t Ht _; by eapply inv_same).
  unfold trigger_workflow. assert (same_core s s) as Hc by done. quiet_step Hc; [|by apply Hexn].
  apply wp_bind, wp_get_workflow; [|by intros; apply Hexn]. intros w Hw Hid Horg.
  rewrite (same_workflows _ _ Hc) in Hw. destruct (WorkflowDefinition.status w), (WorkflowDefinition.active_version w) as [v|];
    try (by apply wp_raise, Hexn).
  quiet_step Hc; [|by apply Hexn]. eapply wp_quiet_bind; [destruct pinned; solve_quiet|exact Hc|..];
    clear Hc; [intros version s1 Hc|by intros ? ? Hc; apply Hexn].
  eapply wp_quiet_bind; [destruct key as [k|]; [destruct (truthy k)|]; solve_quiet|exact Hc|..];
    clear Hc; [intros the_key s2 Hc|by intros ? ? Hc; apply Hexn].
  apply wp_bind, wp_gets. cbv beta. destruct (head _) as [e|].
  - quiet_step Hc; [|by apply Hexn]. apply wp_ret. by eapply inv_same.
  - apply wp_admit; [by eapply inv_same| |done]. rewrite (same_workflows _ _ Hc), Hid.  exact Hw.
Qed.

(** ** Workflows *)

Lemma workflow_constraints_spec w s :
  workflow_constraints w s = true →
  workflows s !! WorkflowDefinition.id w = None ∧ (0 < WorkflowDefinition.max_concurrency w)%Z.
Proof.
  unfold workflow_constraints. rewrite !andb_true_iff, negb_true_iff, bool_decide_eq_false, !Z.ltb_lt.
  intros [[[Hfree _] Hmax] _]. split; [by apply eq_None_not_Some|done].
Qed.

Lemma create_workflow_keeps p ws r s :
  inv s → wp (create_workflow p ws r) (λ _, inv) (λ _ _, True) s.
Proof.
  intros Hinv. unfold create_workflow. assert (same_core s s) as Hc by done. cbv zeta.
  do 9 quiet_step Hc. apply wp_bind, wp_gets. cbv beta.
  match goal with |- context [workflow_constraints ?v _] => set (w := v) end.
  apply wp_bind, wp_raise_if; [done|]. intros Hok%negb_false_iff.
  apply workflow_constraints_spec in Hok as [Hfree Hmax]. apply wp_bind, wp_modify. cbv beta.
  match goal with |- wp _ _ _ ?t => assert (inv t) as Hinv2 end.
  { unfold inv. cbn. rewrite (same_executions _ _ Hc), (same_steps _ _ Hc), (same_workflows _ _ Hc) in *.
    by apply Inv_new_workflow. }
  eapply wp_mono; [apply quiet_keeps; [solve_quiet|exact Hinv2]|done|done].
Qed.

Lemma put_workflow_keeps {A} id w f (k : () → Py Automation A) s0 s (X : exn → Automation → Prop) :
  inv s0 → same_core s0 s → workflows s0 !! id = Some w → same_workflow w (f w) →
  (∀ s', inv s' → wp (k ()) (λ _, inv) X s') → wp (put_workflow id (f w) ≫= k) (λ _, inv) X s.
Proof.
  intros Hinv Hc Hw Hf Hk. apply wp_bind, wp_modify. apply Hk. unfold inv. cbn.
  rewrite (same_executions _ _ Hc), (same_steps _ _ Hc), (same_workflows _ _ Hc). by eapply Inv_workflow.
Qed.

Lemma touched_same now f w : same_workflow w (f w) → same_workflow w (touched now f w).
Proof. intros Hs. unfold touched. case_bool_decide; [by split|]. by destruct (f w), Hs. Qed.

Lemma publish_version_keeps p id v s : inv s → wp (publish_version p id v) (λ _, inv) (λ _ _, True) s.
Proof.
  intros Hinv. unfold publish_version. assert (same_core s s) as Hc by done. quiet_step Hc.
  apply wp_bind, wp_get_workflow; [|done]. intros w Hw Hid _. rewrite (same_workflows _ _ Hc) in Hw.
  do 2 quiet_step Hc. destruct a1 as [version|]; [|by apply wp_raise].
  eapply wp_quiet_bind; [destruct (WorkflowVersion.published_at version); solve_quiet|exact Hc|..];
    clear Hc; [intros version' s1 Hc|done].
  do 2 quiet_step Hc. eapply put_workflow_keeps; [exact Hinv|exact Hc|exact Hw|by apply touched_same|].
  intros s2 Hinv2. eapply wp_mono; [apply quiet_keeps; [solve_quiet|exact Hinv2]|done|done].
Qed.

Lemma set_workflow_status_keeps p id target s :
  inv s → wp (set_workflow_status p id target) (λ _, inv) (λ _ _, True) s.
Proof.
  intros Hinv. unfold set_workflow_status. assert (same_core s s) as Hc by done. quiet_step Hc.
  apply wp_bind, wp_get_workflow; [|done]. intros w Hw Hid _. rewrite (same_workflows _ _ Hc) in Hw.
  do 4 quiet_step Hc. eapply put_workflow_keeps; [exact Hinv|exact Hc|exact Hw|by apply touched_same|].
  intros s2 Hinv2. eapply wp_mono; [apply quiet_keeps; [solve_quiet|exact Hinv2]|done|done].
Qed.

(** ** Executions *)

Lemma cancel_execution_keeps p id s : inv s → wp (cancel_execution p id) (λ _, inv) (λ _ _, True) s.
Proof.
  intros Hinv. unfold cancel_execution. assert (same_core s s) as Hc by done. quiet_step Hc.
  apply wp_bind, wp_get_execution; [|done]. intros e He Hid _.
  rewrite (same_executions _ _ Hc) in He. quiet_step Hc. destruct (terminal e) eqn:Ht; [apply wp_ret; by eapply inv_same|]. apply wp_bind.
  eapply wp_mono; [apply wp_cancel_rows|..].
  - by eapply inv_same.
  - exists e. split; [|done]. by rewrite (same_executions _ _ Hc), Hid.
  - by rewrite active_terminal, Ht.
  - cbv beta. intros _ s2 [Hcancel _].
    eapply wp_mono; [apply quiet_keeps; [solve_quiet|apply Hcancel]|done|done].
  - done.
Qed.

(** ** Reviews *)

Lemma skip_pending_same i now code st :
  same_step st (skip_pending i now code st) ∧
  (complete st → complete (skip_pending i now code st)) ∧ (begun (skip_pending i now code st) → begun st).
Proof.
  unfold skip_pending. destruct (_ && _) eqn:Hb; [|done]. split; [done|]. apply andb_true_iff in Hb as [_ Hb].
  split; [|in_statuses]. unfold complete. intros Hs. unfold step_is in Hb. by rewrite Hs in Hb.
Qed.

Lemma skip_pending_awaited i now code st :
  AutomationStepExecution.execution_id st = i → ¬ awaited (skip_pending i now code st).
Proof.
  intros <-. unfold skip_pending. rewrite bool_decide_eq_true_2 by done. cbn [andb].
  destruct (_ || _) eqn:Hb; [in_statuses|]. apply orb_false_iff in Hb as [Hp Hw].
  apply bool_decide_eq_false in Hp, Hw. in_statuses.
Qed.

Lemma skip_pending_other i now code st :
  AutomationStepExecution.execution_id st ≠ i → skip_pending i now code st = st.
Proof. intros Hne. unfold skip_pending. by rewrite bool_decide_eq_false_2. Qed.

Lemma reject_execution_keeps e now s :
  inv s → wp (reject_execution e now) (λ _, inv) (λ _ _, True) s.
Proof.
  intros Hinv. unfold reject_execution. cbv zeta. apply wp_bind, wp_modify. cbv beta.
  apply wp_bind. unfold _cancel_pending_steps. apply wp_bind, wp_quiet; [solve_quiet| |done].
  intros t s1 Hc. apply wp_modify. cbv beta.
  match goal with |- wp _ _ _ ?u => assert (inv u) as Hinv2 end.
  { unfold inv. cbn. rewrite (same_workflows _ _ Hc), (same_executions _ _ Hc), (same_steps _ _ Hc). cbn.
    apply Inv_fail; [done| |apply skip_pending_same|..].
    - done.
    - intros j st _. apply skip_pending_other.
    - intros j st _. apply skip_pending_awaited. }
  eapply wp_mono; [apply quiet_keeps; [solve_quiet|exact Hinv2]|done|done].
Qed.

Lemma released_keeps i s : inv s → inv (s <| executions := alter released i (executions s) |>).
Proof. intros Hinv. by apply Inv_columns. Qed.

Lemma reviewed_same r p now st :
  step_is AutomationStepStatus.WAITING_REVIEW st = true →
  same_step st (reviewed_step r p now st) ∧ (complete st → complete (reviewed_step r p now st)) ∧
  (dropped (reviewed_step r p now st) → dropped st) ∧ begun st.
Proof.
  intros Hw%bool_decide_eq_true. unfold complete, begun. rewrite Hw. split; [|split; [done|split]].
  - unfold reviewed_step. by destruct (ReviewAutomationStepRequest.decision r).
  - apply undropped. unfold reviewed_step. by destruct (ReviewAutomationStepRequest.decision r).
  - rewrite list_elem_of_In. cbn. tauto.
Qed.

Lemma review_step_keeps p id r s : inv s → wp (review_step p id r) (λ _, inv) (λ _ _, True) s.
Proof.
  intros Hinv. unfold review_step. cbv zeta. assert (same_core s s) as Hc by done. quiet_step Hc.
  apply wp_bind, wp_gets. destruct (row_by _ _ _) as [st|] eqn:Hst; [|by apply wp_raise].
  apply row_by_Some in Hst as [Hst Hid]. rewrite (same_steps _ _ Hc) in Hst.
  case_bool_decide; [|by apply wp_raise]. apply wp_bind, wp_get_execution; [|done]. intros e He Heid _.
  rewrite (same_executions _ _ Hc) in He.
  apply wp_bind, wp_raise_if; [done|]. intros Hw%negb_false_iff. do 2 quiet_step Hc. rename a1 into now.
  destruct (reviewed_same r p now st Hw) as (Hsame & Hcomplete & Hdrop & Hbegun).
  assert (terminal e = false) as Ht.
  { destruct (terminal e) eqn:Ht; [|done]. destruct (execution_closed _ _ _ Hinv _ _ He id st) as [Hna _]; [by split|].
    destruct (Hna Ht). apply bool_decide_eq_true in Hw. unfold awaited. rewrite Hw, list_elem_of_In. cbn. tauto. }
  apply wp_bind, wp_modify. cbv beta. match goal with |- wp _ _ _ ?t => set (s2 := t) end.
  assert (inv s2 ∧ executions s2 !! AutomationExecution.id e = Some e) as [Hinv2 He2].
  { unfold inv, s2. cbn. rewrite (same_workflows _ _ Hc), (same_executions _ _ Hc), (same_steps _ _ Hc).
    rewrite Heid. split; [|done]. rewrite <-(alter_found (reviewed_step r p now)) by done. by eapply Inv_step. }
  clearbody s2. apply wp_bind.
  assert (∀ s3, inv s3 → wp (update_execution (AutomationExecution.id e) released;;
      execution_event p (AutomationExecution.id e) "automation.review_decided"
        [("step_id", OStr (uuid_str (AutomationStepExecution.id (reviewed_step r p now st))));
         ("decision", OStr (value_of (ReviewAutomationStepRequest.decision r)))];;
      _audit p (AutomationStepExecution.id (reviewed_step r p now st)) "automation.review"
        [("execution_id", OStr (uuid_str (AutomationExecution.id e)));
         ("decision", OStr (value_of (ReviewAutomationStepRequest.decision r)))]
        "SUCCESS" "automation_step" ActorType.USER;;
      row ← gets (λ s, step_executions s !! id); loaded row) (λ _, inv) (λ _ _, True) s3) as Hrest.
  { intros s3 Hinv3. apply wp_bind, wp_modify.
    eapply wp_mono; [apply quiet_keeps; [solve_quiet|by apply released_keeps]|done|done]. }
  destruct (ReviewAutomationStepRequest.decision r).
  - apply wp_modify. cbv beta. apply Hrest. by eapply Inv_execution.
  - eapply wp_mono; [by apply reject_execution_keeps| |done]. intros [] s3. apply Hrest.
Qed.

(** ** The endpoints *)

Lemma endpoint_keeps {A} (b : bool) (m : Py Automation A) s :
  (inv s → wp m (λ _, inv) (λ _ _, True) s) → inv s → wp (validated b;; savepoint m) (λ _, inv) (λ _, inv) s.
Proof.
  intros Hm Hinv. apply wp_bind, wp_raise_if; [done|]. intros _. by apply wp_transaction, Hm.
Qed.
End Keeps.
