(* ===== verification/AutomationAdvance.v ===== *)
(** * The worker of automation keeps the invariant *)

From S2P Require Import Prelude PyText PyVal Regex Enums Models Kernel CanonicalJson.
From S2P Require Import Events Identity WorkflowSpec AutomationState AutomationService AutomationWorker.
From S2P Require Import AutomationInvariant AutomationFacts AutomationKeeps.

(** ** Elementary changes *)

(** An execution completes once all its steps have. *)
Lemma Inv_complete ws es ss i e f :
  Inv ws es ss → es !! i = Some e → terminal e = false → same_execution e (f e) →
  AutomationExecution.status (f e) = AutomationStatus.COMPLETED →
  (∀ j st, has_step ss i j st → complete st) → Inv ws (alter f i es) ss.
Proof.
  intros HI He Ht Hsame Hs Hall. eapply (Inv_local i); [done| |reflexivity|].
  - apply execution_alter_evolves. intros e1 He1. simplify_eq. split; [done|split].
    + by rewrite !active_terminal, Ht.
    + by rewrite (execution_key _ _ _ HI _ _ He).
  - rewrite lookup_alter_eq, He. intros e' [= <-]. split; [|by eapply HI]. intros j st Hst.
    rewrite (same_execution_id _ _ Hsame), (execution_key _ _ _ HI _ _ He) in Hst.
    pose proof (Hall j st Hst) as Hc. unfold terminal. rewrite Hs. split; [|by split]. intros _. in_statuses.
Qed.

(** The list of the steps of an execution. *)
Record covers (ids : list uuid) (i : uuid) (ss : Steps) : Prop := {
  covers_all j st : has_step ss i j st → j ∈ ids;
  covers_only j : j ∈ ids → ∃ st, has_step ss i j st
}.

Lemma covers_evolves k ids i ss ss' : steps_evolve k ss ss' → covers ids i ss → covers ids i ss'.
Proof.
  intros Hs []. split.
  - intros j st Hst. destruct (has_step_evolved _ _ _ _ _ _ Hs Hst) as (st0 & Hst0 & _). eauto.
  - intros j Hj. destruct (covers_only0 j Hj) as [st Hst].
    destruct (has_step_evolves _ _ _ _ _ _ Hs Hst) as (st' & Hst' & _). eauto.
Qed.

(** An execution that is being worked on. *)
Record working (e : AutomationExecution) (ids : list uuid) (s : Automation) : Prop := {
  working_inv : inv s;
  working_row : ∃ e1, executions s !! AutomationExecution.id e = Some e1 ∧ same_execution e e1 ∧ terminal e1 = false;
  working_steps : covers ids (AutomationExecution.id e) (step_executions s)
}.

Lemma working_core e ids s s' : same_core s s' → working e ids s → working e ids s'.
Proof.
  intros Hc [Hi Hr Hs]. split; [by eapply inv_same|by rewrite (same_executions _ _ Hc)|by rewrite (same_steps _ _ Hc)].
Qed.

(** The step of a listed id, and an assignment to it. *)
Lemma working_step e ids s j :
  working e ids s → j ∈ ids →
  ∃ st, step_executions s !! j = Some st ∧ AutomationStepExecution.execution_id st = AutomationExecution.id e ∧
        AutomationStepExecution.id st = j.
Proof.
  intros Hw Hj. destruct (covers_only _ _ _ (working_steps _ _ _ Hw) j Hj) as [st [Hst Hx]]. exists st.
  split_and!; [done..|]. by eapply (step_key_ _ _ _ (working_inv _ _ _ Hw)).
Qed.

Lemma working_update e ids s j st f :
  working e ids s → step_executions s !! j = Some st →
  AutomationStepExecution.execution_id st = AutomationExecution.id e →
  same_step st (f st) → (complete st → complete (f st)) → (dropped (f st) → dropped st) →
  (begun (f st) → ¬ begun st → ∀ key, key ∈ AutomationStepExecution.depends_on st → ∃ j' st',
     has_step (step_executions s) (AutomationExecution.id e) j' st' ∧
     AutomationStepExecution.step_key st' = key ∧ complete st') →
  working e ids (s <| step_executions := alter f j (step_executions s) |>).
Proof.
  intros [Hi (e1 & He1 & Hsame & Ht) Hs] Hst Hx Hf Hc Hd Hb. split; cbn.
  - unfold inv. cbn. eapply Inv_step; [exact Hi|exact Hst| |exact Ht|done..|]; rewrite Hx; done.
  - eauto.
  - apply (covers_evolves (AutomationExecution.id e) _ _ (step_executions s)); [|done].
    apply step_alter_evolves. intros st0 Hst0. simplify_eq. split; [done|split; [done|]]. done.
Qed.

(** The execution stays active. *)
Lemma working_status e ids s f :
  working e ids s → (∀ e1, same_execution e1 (f e1)) → (∀ e1, terminal (f e1) = false) →
  working e ids (s <| executions := alter f (AutomationExecution.id e) (executions s) |>).
Proof.
  intros [Hi (e1 & He1 & Hsame & Ht) Hs] Hf Hrun. split; cbn; [|exists (f e1)|done].
  - unfold inv. cbn. by eapply Inv_execution.
  - split; [|split; [by transitivity e1|done]].
    change (alter f (AutomationExecution.id e) (executions s) !! AutomationExecution.id e = Some (f e1)).
    by rewrite lookup_alter_eq, He1.
Qed.

Section Advance.
Context `{Environment, EventContracts, JsonEncoder, SpecFields, Cron, AnalysisRuns, WorkerConfig}.

Lemma execution_journal_quiet e n l : Quiet (_execution_event e n l).
Proof. unfold _execution_event. solve_quiet. Qed.
Lemma schedule_event_quiet c n l : Quiet (schedule_event c n l).
Proof. unfold schedule_event. solve_quiet. Qed.
Lemma notify_owner_quiet e w x b l k : Quiet (notify_owner e w x b l k).
Proof. unfold notify_owner. solve_quiet. Qed.
#[local] Hint Resolve execution_journal_quiet schedule_event_quiet notify_owner_quiet : quiet.

(** ** Schedules *)

Lemma disable_after_quiet c x k : disable_after c x = Some k → Quiet k.
Proof. unfold disable_after. destruct (error_code_of x); cbn; [|done]. intros [= <-]. solve_quiet. Qed.

Lemma fire_keeps c t s : inv s → wp (fire c t) (λ _, inv) inv_unless_python s.
Proof.
  intros Hinv. assert (∀ x s', same_core s s' → inv_unless_python x s') as Hexn by (intros x u Hu _; by eapply inv_same).
  unfold fire. assert (same_core s s) as Hc by done. do 5 (quiet_step Hc; [|by apply Hexn]).
  apply wp_bind. eapply wp_mono; [apply wp_trigger; by eapply inv_same| |done]. cbv beta.
  intros _ s1 Hinv1. eapply wp_mono; [apply quiet_keeps; [solve_quiet|exact Hinv1]|done|]. by intros x s2 Hs2 _.
Qed.

Lemma fire_due_keeps current c w s : inv s → wp (fire_due current c w) (λ _, inv) (λ _ _, True) s.
Proof.
  intros Hinv. unfold fire_due. cbv zeta. assert (same_core s s) as Hc by done. do 2 quiet_step Hc.
  destruct (_ && _).
  - apply wp_quiet; [solve_quiet| |done]. intros ? s1 Hc1. eapply inv_same; [|exact Hinv]. by etransitivity.
  - apply wp_try_catch. eapply wp_mono; [apply fire_keeps; by eapply inv_same|done|]. intros x s1 Hx. cbv beta.
    destruct (disable_after c x) as [k|] eqn:Hk; [|done].
    eapply wp_mono; [apply quiet_keeps; [by eapply disable_after_quiet|]|done|done]. apply Hx.
    unfold disable_after in Hk. intros Hpy. unfold python_error in Hpy. by rewrite Hpy in Hk.
Qed.

Lemma tick_keeps locked s : inv s → wp (tick_schedules locked) (λ _, inv) (λ _, inv) s.
Proof.
  intros Hinv. unfold tick_schedules. apply wp_bind, wp_quiet; [solve_quiet|..]; intros a s1 Hc1; [|by eapply inv_same].
  assert (inv s1) as Hinv1 by by eapply inv_same. apply wp_transaction; [done|].
  apply wp_bind, wp_gets. destruct (due_schedule _ _ _) as [c|]; [|by apply wp_ret].
  apply wp_bind, wp_gets. destruct (schedule_workflow c s1) as [w|]; [case_bool_decide|].
  - apply wp_bind. eapply wp_mono; [by apply fire_due_keeps| |done]. intros ? s2 Hinv2. by apply wp_ret.
  - eapply wp_mono; [apply quiet_keeps; [solve_quiet|exact Hinv1]|done|done].
  - eapply wp_mono; [apply quiet_keeps; [solve_quiet|exact Hinv1]|done|done].
Qed.

(** ** Claims *)

Lemma claim_keeps locked s : inv s → wp (_claim_execution locked) (λ _, inv) (λ _, inv) s.
Proof.
  intros Hinv. unfold _claim_execution. apply wp_bind, wp_quiet; [solve_quiet|..]; intros now s1 Hc1; [|by eapply inv_same].
  assert (inv s1) as Hinv1 by by eapply inv_same. apply wp_transaction; [done|].
  apply wp_bind, wp_gets. destruct (head _) as [e|] eqn:He; [|by apply wp_ret]. apply head_elem in He.
  rewrite elem_of_order_by, list_elem_of_filter, elem_of_select in He. destruct He as [_ [Hclaim [k Hk]]].
  assert (AutomationExecution.id e = k) as Hid by by eapply (execution_key _ _ _ Hinv1). subst k.
  apply wp_bind. apply (wp_mono _ (λ _, inv) _ (λ _ _, True)); [|intros ? s2 Hinv2|done].
  - case_bool_decide as Hp; [|by apply wp_ret]. apply wp_bind, wp_modify.
    eapply wp_mono; [apply quiet_keeps; [solve_quiet|]|done|done]. unfold inv. cbn.
    eapply Inv_execution; [done|done| |done|done]. unfold terminal. by rewrite Hp.
  - apply wp_bind, wp_modify. apply wp_ret. by apply Inv_columns.
Qed.

(** ** Failure *)

Lemma skip_open_same ids now code st :
  same_step st (skip_open ids now code st) ∧
  (complete st → complete (skip_open ids now code st)) ∧ (begun (skip_open ids now code st) → begun st).
Proof.
  unfold skip_open. destruct (_ && _) eqn:Hb; [|done]. split; [done|]. apply andb_true_iff in Hb as [_ Hb].
  split; [|in_statuses]. unfold complete. intros Hs. unfold step_terminal in Hb. by rewrite Hs in Hb.
Qed.

Lemma skip_open_awaited ids now code st :
  AutomationStepExecution.id st ∈ ids → ¬ awaited (skip_open ids now code st).
Proof.
  intros Hin. unfold skip_open. rewrite bool_decide_eq_true_2 by done. cbn [andb].
  destruct (step_terminal st) eqn:Hb; cbn [negb]; [|in_statuses].
  apply bool_decide_eq_true in Hb. unfold _STEP_TERMINAL in Hb. in_statuses.
Qed.

(** The failure of an execution whose steps are listed. *)
Lemma failed_tables ws es ss i ids code message now :
  Inv ws es ss → covers ids i ss →
  Inv ws (alter (λ e, released (with_failure code message now e)) i es) (skip_open ids now code <$> ss).
Proof.
  intros HI [Hall Honly]. apply Inv_fail; [done| |apply skip_open_same|..].
  - done.
  - intros j st Hst Hx. unfold skip_open. rewrite bool_decide_eq_false_2; [done|].
    rewrite (step_key_ _ _ _ HI _ _ Hst). intros Hj. destruct (Honly j Hj) as [st' [Hst' Hx']]. congruence.
  - intros j st Hst Hx. apply skip_open_awaited. rewrite (step_key_ _ _ _ HI _ _ Hst). by apply (Hall j st).
Qed.

(** The ids of the steps, looked up when none are given. *)
Lemma covers_select s i :
  inv s → covers (AutomationStepExecution.id <$> select (λ st,
    bool_decide (AutomationStepExecution.execution_id st = i)) (step_executions s)) i (step_executions s).
Proof.
  intros Hinv. split.
  - intros j st [Hst Hx]. apply list_elem_of_fmap. exists st.
    split; [symmetry; by eapply (step_key_ _ _ _ Hinv)|]. apply elem_of_select. rewrite bool_decide_eq_true. eauto.
  - intros j Hj. apply list_elem_of_fmap in Hj as (st & -> & Hst). apply elem_of_select in Hst as [Hx [k Hk]].
    apply bool_decide_eq_true in Hx. exists st. rewrite (step_key_ _ _ _ Hinv _ _ Hk). by split.
Qed.

Lemma wp_fail_execution e code message steps s :
  inv s → steps = [] ∨ covers steps (AutomationExecution.id e) (step_executions s) →
  wp (_fail_execution e code message steps) (λ _, inv) (λ _ _, True) s.
Proof.
  intros Hinv Hsteps. unfold _fail_execution. assert (same_core s s) as Hc by done.
  quiet_step Hc. rename a into now. apply wp_bind, wp_modify. cbv beta. apply wp_bind.
  match goal with |- wp _ _ _ ?t => set (s1 := t) end.
  assert (step_executions s1 = step_executions s) as Hs1 by apply (same_steps _ _ Hc).
  apply (wp_mono _ (λ ids s2, s2 = s1 ∧ covers ids (AutomationExecution.id e) (step_executions s)) _ (λ _ _, True)); [| |done].
  { case_bool_decide as Hnil.
    - apply wp_gets. split; [done|]. rewrite Hs1. by apply covers_select.
    - apply wp_ret. split; [done|]. by destruct Hsteps. }
  intros ids ? [-> Hcovers]. apply wp_bind, wp_gets, wp_bind, wp_modify. cbv beta.
  match goal with |- wp _ _ _ ?t => set (s2 := t) end.
  assert (inv s2) as Hinv2.
  { unfold inv, s2, s1. cbn. rewrite (same_workflows _ _ Hc), (same_executions _ _ Hc), (same_steps _ _ Hc).
    by apply failed_tables. }
  clearbody s2. apply wp_bind, wp_quiet; [solve_quiet| |done]. intros ? s3 Hs3.
  assert (inv s3) as Hinv3 by by eapply inv_same. apply wp_bind, wp_gets, wp_bind, wp_modify.
  eapply wp_mono; [apply quiet_keeps; [solve_quiet|]|done|done]. by apply Inv_columns.
Qed.

(** ** Steps *)

Lemma current_rows_covers ids i ss s st :
  step_executions s = ss → covers ids i ss → st ∈ current_rows ids s ↔ ∃ j, has_step ss i j st.
Proof.
  intros <- [Hall Honly]. unfold current_rows. rewrite list_elem_of_omap. split.
  - intros (j & Hj & Hst). destruct (Honly j Hj) as [st' [Hst' Hx]]. exists j. split; [done|congruence].
  - intros (j & Hst). exists j. split; [by eapply Hall|apply Hst].
Qed.

Lemma running_begun st : step_is AutomationStepStatus.RUNNING st = true → begun st ∧ ¬ complete st.
Proof. intros Hs%bool_decide_eq_true. unfold complete. rewrite Hs. split; [unfold begun; rewrite Hs, list_elem_of_In; cbn; tauto|done]. Qed.

(** Keep working: an assignment to a listed step, then quiet work. *)
Lemma wp_update_step {A} e ids s0 s j st f (k : () → Py Automation A) Q X :
  working e ids s0 → same_core s0 s → j ∈ ids → step_executions s0 !! j = Some st →
  same_step st (f st) → (complete st → complete (f st)) → (dropped (f st) → dropped st) →
  (begun (f st) → ¬ begun st → ∀ key, key ∈ AutomationStepExecution.depends_on st → ∃ j' st',
     has_step (step_executions s0) (AutomationExecution.id e) j' st' ∧
     AutomationStepExecution.step_key st' = key ∧ complete st') →
  (∀ s', working e ids s' → wp (k ()) Q X s') → wp (update_step j f ≫= k) Q X s.
Proof.
  intros Hw Hc Hj Hst Hsame Hcomp Hd Hb Hk. apply wp_bind, wp_modify. cbv beta. apply Hk.
  rewrite (same_steps _ _ Hc).
  apply (working_core e ids (s0 <| step_executions := alter f j (step_executions s0) |>)).
  { destruct Hc. by split. }
  destruct (working_step _ _ _ _ Hw Hj) as (st' & Hst' & Hx & _). simplify_eq. by eapply working_update.
Qed.

Lemma working_quiet {A} e ids (m : Py Automation A) s :
  Quiet m → working e ids s → wp m (λ _, working e ids) (λ _ _, True) s.
Proof. intros Hm Hw. apply wp_quiet; [done| |done]. intros ? t Ht. by eapply working_core. Qed.

Lemma wp_update_last e ids s0 s j st f :
  working e ids s0 → same_core s0 s → j ∈ ids → step_executions s0 !! j = Some st →
  same_step st (f st) → (complete st → complete (f st)) → (dropped (f st) → dropped st) →
  (begun (f st) → ¬ begun st → ∀ key, key ∈ AutomationStepExecution.depends_on st → ∃ j' st',
     has_step (step_executions s0) (AutomationExecution.id e) j' st' ∧
     AutomationStepExecution.step_key st' = key ∧ complete st') →
  wp (update_step j f) (λ _, working e ids) (λ _ _, True) s.
Proof.
  intros. change (update_step j f) with (update_step j f ≫= mret). eapply wp_update_step; [done..|].
  intros s' Hs'. by apply wp_ret.
Qed.

Lemma reconcile_step_working e ids j s :
  working e ids s → j ∈ ids → wp (reconcile_step e j) (λ _, working e ids) (λ _ _, True) s.
Proof.
  intros Hw Hj. unfold reconcile_step. apply wp_bind, wp_gets.
  destruct (step_executions s !! j) as [st|] eqn:Hst; [|by apply wp_ret].
  destruct (AutomationStepExecution.run_id st) as [run_id|]; [|by apply wp_ret].
  destruct (step_is _ st) eqn:Hrun; cbn [negb]; [|by apply wp_ret].
  apply running_begun in Hrun as [Hbegun Hnot]. apply wp_bind, wp_gets.
  destruct (r ← _; _) as [run|].
  - destruct (Run.status run); try (by apply wp_ret).
    all: assert (same_core s s) as Hc by done.
    + do 2 quiet_step Hc. eapply wp_update_step; [exact Hw|exact Hc|exact Hj|exact Hst|done|done|by apply undropped|done|].
      intros s2 Hw2. by apply working_quiet; [solve_quiet|].
    + quiet_step Hc. eapply wp_update_last; [exact Hw|exact Hc|exact Hj|exact Hst|done|done|by apply undropped|done].
    + quiet_step Hc. eapply wp_update_last; [exact Hw|exact Hc|exact Hj|exact Hst|done|done|by apply undropped|done].
  - eapply wp_update_last; [exact Hw|reflexivity|exact Hj|exact Hst|done|done|by apply undropped|done].
Qed.

(** The dependencies were found complete. *)
Lemma wp_dependencies ids i keys s (Q : bool → Automation → Prop) :
  covers ids i (step_executions s) →
  (∀ ready, (ready = true → ∀ key, key ∈ keys → ∃ j st, has_step (step_executions s) i j st ∧
     AutomationStepExecution.step_key st = key ∧ complete st) → Q ready s) →
  wp (dependencies_complete ids keys) Q (λ _ _, True) s.
Proof.
  intros Hcov. revert Q. induction keys as [|key keys IH]; intros Q HQ; cbn [dependencies_complete].
  - apply wp_ret, HQ. intros _ key Hkey. by apply elem_of_nil in Hkey.
  - apply wp_bind. unfold dependency_row. apply wp_bind, wp_gets.
    destruct (step_by_key ids key s) as [st|] eqn:Hst; [|by apply wp_raise]. apply wp_ret, wp_bind, IH.
    intros others Hothers. apply wp_ret, HQ. intros [Hcomp%bool_decide_eq_true Ho]%andb_true_iff.
    intros key' [->|Hkey]%elem_of_cons; [|by apply Hothers]. unfold step_by_key in Hst.
    apply head_elem, list_elem_of_In, filter_In in Hst as [Hst Hkey%bool_decide_eq_true].
    apply list_elem_of_In, elem_of_reverse, (current_rows_covers _ i _ s _ eq_refl) in Hst as [j Hj]; [|done].
    by exists j, st.
Qed.

#[local] Instance input_value_pure {S} key parts v : Pure (S := S) (input_value key parts v).
Proof.
  revert v. induction parts as [|part parts IH]; intros v; cbn [input_value]; [apply _|].
  destruct v; apply _.
Qed.

#[local] Instance replace_pure {S} e w key : Pure (S := S) (replace e w key).
Proof.
  unfold replace. do 3 (destruct (bool_decide _); [apply _|]).
  apply bind_pure; [apply input_value_pure|]. intros v. destruct v; apply _.
Qed.

#[local] Instance render_pure {S} template e w : Pure (S := S) (render_automation_template template e w).
Proof.
  unfold render_automation_template. apply bind_pure; [apply _|]. intros _.
  induction (scan _ _) as [|[a|[t c]] l IH]; cbn [render_pieces]; apply _.
Qed.

Lemma render_quiet template e w : Quiet (render_automation_template template e w).
Proof. apply pure_quiet, _. Qed.
Lemma dependency_artifacts_quiet e l : Quiet (dependency_artifacts e l).
Proof. unfold dependency_artifacts. solve_quiet. Qed.
#[local] Hint Resolve render_quiet dependency_artifacts_quiet : quiet.

Lemma start_step_working p w e now ids j s :
  working e ids s → j ∈ ids → wp (start_step p w e now ids j) (λ _, working e ids) (λ _ _, True) s.
Proof.
  intros Hw Hj. unfold start_step. apply wp_bind, wp_gets.
  destruct (step_executions s !! j) as [st|] eqn:Hst; [|by apply wp_ret].
  destruct (step_is _ st) eqn:Hp; cbn [negb]; [|by apply wp_ret].
  destruct (working_step _ _ _ _ Hw Hj) as (st' & Hst' & Hx & Hid). rewrite Hst in Hst'. injection Hst' as <-.
  assert (¬ complete st) as Hnot.
  { apply bool_decide_eq_true in Hp. unfold complete. by rewrite Hp. }
  apply wp_bind. eapply wp_dependencies; [apply Hw|]. intros ready Hready.
  destruct ready; cbn [negb]; [|by apply wp_ret]. specialize (Hready eq_refl).
  assert (same_core s s) as Hc by done. destruct (AutomationStepExecution.step_type st).
  - unfold _start_analysis. destruct (dget "prompt" _) as [[]|]; try by apply wp_raise.
    do 6 quiet_step Hc. eapply wp_update_step; [exact Hw|exact Hc|by rewrite Hid|by rewrite Hid|done|done|by apply undropped|by intros _ _|].
    intros s2 Hw2. by apply working_quiet; [solve_quiet|].
  - eapply wp_update_step; [exact Hw|exact Hc|exact Hj|exact Hst|done|done|by apply undropped|by intros _ _|]. intros s2 Hw2.
    apply wp_bind, wp_modify. apply working_quiet; [solve_quiet|].
    by apply working_status.
  - unfold _deliver_step_notification.
    destruct (dget "title" (AutomationStepExecution.spec st)) as [[]|],
      (dget "body" (AutomationStepExecution.spec st)) as [[]|]; try by apply wp_raise.
    do 3 quiet_step Hc. eapply wp_quiet_bind; [destruct (AutomationStepExecution.started_at st); solve_quiet|exact Hc|..];
      clear Hc; [intros started t1 Hc|done].
    quiet_step Hc. eapply wp_update_last; [exact Hw|exact Hc|rewrite Hid; exact Hj|rewrite Hid; exact Hst|done|done|by apply undropped|by intros _ _].
Qed.

(** ** The whole transaction *)

Lemma conclude_keeps w e now ids s : working e ids s → wp (conclude w e now ids) (λ _, inv) (λ _ _, True) s.
Proof.
  intros Hw. destruct Hw as [Hinv (e1 & He1 & Hsame & Ht) Hcov]. unfold conclude. apply wp_bind, wp_gets. cbv zeta.
  apply wp_bind. apply (wp_mono _ (λ _, inv) _ (λ _ _, True)); [|intros ? s2 Hinv2|done].
  - destruct (forallb _ _) eqn:Hall; [|destruct (existsb _ _)].
    + apply wp_bind, wp_modify. eapply wp_mono; [apply quiet_keeps; [solve_quiet|]|done|done].
      unfold inv. cbn. eapply Inv_complete; [exact Hinv|exact He1|exact Ht|done|done|]. intros j st Hst.
      rewrite forallb_true in Hall. apply (bool_decide_eq_true_1 _), Hall.
      apply (current_rows_covers _ (AutomationExecution.id e) _ s _ eq_refl); [done|by exists j].
    + apply wp_modify. unfold inv. cbn. by eapply Inv_execution.
    + apply wp_modify. unfold inv. cbn. by eapply Inv_execution.
  - apply wp_modify. by apply Inv_columns.
Qed.

Lemma covers_ordered s e e1 :
  inv s → executions s !! AutomationExecution.id e = Some e1 → same_execution e e1 →
  covers (AutomationStepExecution.id <$> order_by by_ordinal (select (step_of e) (step_executions s)))
    (AutomationExecution.id e) (step_executions s).
Proof.
  intros Hinv He1 Hsame. split.
  - intros j st [Hst Hx]. apply list_elem_of_fmap. exists st.
    split; [symmetry; by eapply (step_key_ _ _ _ Hinv)|]. apply elem_of_order_by, elem_of_select. split; [|by exists j].
    destruct (step_execution _ _ _ Hinv _ _ Hst) as (e2 & He2 & Horg). rewrite Hx, He1 in He2. injection He2 as <-.
    unfold step_of. destruct Hsame. by rewrite !bool_decide_eq_true_2 by congruence.
  - intros j Hj. apply list_elem_of_fmap in Hj as (st & -> & Hst).
    apply elem_of_order_by, elem_of_select in Hst as [Hof [k Hk]]. exists st.
    rewrite (step_key_ _ _ _ Hinv _ _ Hk). split; [done|]. unfold step_of in Hof.
    by apply andb_true_iff in Hof as [_ Hx%bool_decide_eq_true].
Qed.

Lemma advance_steps_keeps p w e now s :
  inv s → executions s !! AutomationExecution.id e = Some e → terminal e = false →
  wp (advance_steps p w e now) (λ _, inv) (λ _ _, True) s.
Proof.
  intros Hinv He Ht. unfold advance_steps. apply wp_bind, wp_gets. cbv beta.
  set (ids := AutomationStepExecution.id <$> _).
  assert (working e ids s) as Hw by (split; [done|by exists e|by eapply covers_ordered]).
  apply wp_bind. apply (wp_mono _ (λ _, working e ids) _ (λ _ _, True)); [..|done].
  - unfold _reconcile_analysis_steps. apply (wp_for_each (working e ids)); [done| |by intros s'].
    intros j s1 Hj Hw1. by apply reconcile_step_working.
  - cbv beta. intros [] s1 Hw1. apply wp_bind, wp_gets. destruct (find _ _) as [failed|].
    + apply wp_fail_execution; [apply Hw1|right; apply Hw1].
    + apply wp_bind. apply (wp_mono _ (λ _, working e ids) _ (λ _ _, True)); [..|done].
      * apply (wp_for_each (working e ids)); [done| |by intros s'].
        intros j s2 Hj Hw2. by apply start_step_working.
      * cbv beta. intros [] s2. apply conclude_keeps.
Qed.

Lemma advance_keeps id s : inv s → wp (_advance id) (λ _, inv) (λ _, inv) s.
Proof.
  intros Hinv. unfold _advance. apply wp_transaction; [done|]. apply wp_bind, wp_gets.
  destruct (row_by _ _ _) as [e|] eqn:He; [|by apply wp_ret]. apply row_by_Some in He as [He Hid]. rewrite <-Hid in He.
  destruct (terminal e) eqn:Ht; [by apply wp_ret|]. assert (same_core s s) as Hc by done. quiet_step Hc.
  case_match; [apply wp_fail_execution; [by eapply inv_same|by left]|]. quiet_step Hc.
  case_match; [apply wp_fail_execution; [by eapply inv_same|by left]|]. do 2 quiet_step Hc.
  match goal with |- wp (match ?w with _ => _ end) _ _ _ => destruct w as [w|] end;
    [|apply wp_fail_execution; [by eapply inv_same|by left]].
  apply advance_steps_keeps; [by eapply inv_same|by rewrite (same_executions _ _ Hc)|done].
Qed.

Lemma fail_after_keeps id code message s : inv s → wp (_fail_after_exception id code message) (λ _, inv) (λ _, inv) s.
Proof.
  intros Hinv. unfold _fail_after_exception. apply wp_transaction; [done|]. apply wp_bind, wp_gets.
  destruct (row_by _ _ _) as [e|] eqn:He; [|by apply wp_ret].
  destruct (terminal e); [by apply wp_ret|]. apply wp_fail_execution; [done|by left].
Qed.

Lemma execute_keeps id s : inv s → wp (_execute id) (λ _, inv) (λ _, inv) s.
Proof.
  intros Hinv. unfold _execute. apply wp_try_catch. eapply wp_mono; [by apply advance_keeps|done|].
  intros [code message status details|class] s1 Hinv1; by apply fail_after_keeps.
Qed.
End Advance.
