(* ===== verification/AutomationProgress.v ===== *)
(** * The worker of automation makes progress

    Steps only move forward, and a transaction on an execution that has something to do
    ends it or moves a step: no execution is worked on for ever. *)

From S2P Require Import Prelude PyText PyVal Regex Enums Models Kernel CanonicalJson.
From S2P Require Import Events Identity WorkflowSpec AutomationState AutomationService AutomationWorker.
From S2P Require Import AutomationInvariant AutomationFacts AutomationKeeps AutomationAdvance.

#[local] Open Scope nat_scope.

(** ** What is left to do *)

(** A step is started once and ends once. *)
Definition weight (st : AutomationStepExecution) : nat :=
  match AutomationStepExecution.status st with
  | AutomationStepStatus.PENDING => 2
  | AutomationStepStatus.RUNNING | AutomationStepStatus.WAITING_REVIEW => 1
  | _ => 0
  end.

Definition total {V} (f : V → nat) (m : gmap uuid V) : nat := list_sum (f <$> (map_to_list m).*2).

(** The starts and ends that the steps of the execution [i] still have before them. *)
Definition remaining (i : uuid) (ss : Steps) : nat :=
  total (λ st, if bool_decide (AutomationStepExecution.execution_id st = i) then weight st else 0) ss.

Lemma total_insert {V} (f : V → nat) (m : gmap uuid V) j v :
  m !! j = None → total f (<[j := v]> m) = f v + total f m.
Proof. intros Hj. unfold total. by rewrite map_to_list_insert. Qed.

Lemma total_delete {V} (f : V → nat) (m : gmap uuid V) j v :
  m !! j = Some v → total f m = f v + total f (delete j m).
Proof. intros Hj. rewrite <-(total_insert f (delete j m) j v) by apply lookup_delete_eq. by rewrite insert_delete_id. Qed.

Lemma total_le {V} (f : V → nat) (R : V → V → Prop) (m m' : gmap uuid V) :
  (∀ v v', R v v' → f v' ≤ f v) → (∀ j, option_Forall2 R (m !! j) (m' !! j)) → total f m' ≤ total f m.
Proof.
  intros HR. revert m'. induction m as [|j v m Hj IH] using map_ind; intros m' Hm.
  - assert (m' = ∅) as ->; [|done]. apply map_eq. intros j. specialize (Hm j). rewrite lookup_empty in *.
    by inversion Hm.
  - destruct (evolves_to R _ _ j v Hm (lookup_insert_eq _ _ _)) as (v' & Hv' & Hvv).
    rewrite total_insert, (total_delete f m' j v') by done. apply Nat.add_le_mono; [by apply HR|].
    apply IH. intros k. destruct (decide_rel (=) j k) as [<-|Hk].
    + rewrite lookup_delete_eq, Hj. constructor.
    + specialize (Hm k). rewrite lookup_insert_ne in Hm by done. by rewrite lookup_delete_ne.
Qed.

(** ** Steps move forward *)

Definition step_forward (st st' : AutomationStepExecution) : Prop :=
  st' = st ∨ (same_step st st' ∧ weight st' < weight st).

Definition forward (ss ss' : Steps) : Prop := ∀ j, option_Forall2 step_forward (ss !! j) (ss' !! j).

(** The step [j] has moved. *)
Definition moved (j : uuid) (ss ss' : Steps) : Prop :=
  ∃ st st', ss !! j = Some st ∧ ss' !! j = Some st' ∧ weight st' < weight st.

#[export] Instance step_forward_preorder : PreOrder step_forward.
Proof.
  split; [by left|]. intros x y z [->|[H1 H2]]; [done|]. intros [->|[H3 H4]]; right; [by split|].
  split; [by transitivity y|lia].
Qed.
#[export] Instance forward_preorder : PreOrder forward.
Proof. split; [intros m j; reflexivity|]. intros m1 m2 m3 H1 H2 j. by transitivity (m2 !! j). Qed.

Lemma step_forward_same st st' : step_forward st st' → same_step st st'.
Proof. by intros [->|[? _]]. Qed.

Lemma step_forward_weight st st' : step_forward st st' → weight st' ≤ weight st.
Proof. intros [->|[_ ?]]; lia. Qed.

Lemma step_forward_complete st st' : step_forward st st' → complete st → complete st'.
Proof. intros [->|[_ Hlt]]; [done|]. unfold complete, weight in *. intros Hs. rewrite Hs in Hlt. lia. Qed.

Lemma moved_forward_l j ss1 ss2 ss3 : forward ss1 ss2 → moved j ss2 ss3 → moved j ss1 ss3.
Proof.
  intros Hf (st & st' & Hst & Hst' & Hlt). destruct (evolved_from _ _ _ _ _ Hf Hst) as (st0 & Hst0 & H0).
  exists st0, st'. split_and!; [done..|]. apply step_forward_weight in H0. lia.
Qed.

Lemma moved_forward_r j ss1 ss2 ss3 : moved j ss1 ss2 → forward ss2 ss3 → moved j ss1 ss3.
Proof.
  intros (st & st' & Hst & Hst' & Hlt) Hf. destruct (evolves_to _ _ _ _ _ Hf Hst') as (st3 & Hst3 & H3).
  exists st, st3. split_and!; [done..|]. apply step_forward_weight in H3. lia.
Qed.

(** A step that moved leaves less to do. *)
Lemma moved_remaining i j st ss ss' :
  forward ss ss' → has_step ss i j st → moved j ss ss' → remaining i ss' < remaining i ss.
Proof.
  intros Hf [Hst Hx] (st0 & st' & Hst0 & Hst' & Hlt). simplify_eq. unfold remaining.
  destruct (evolves_to _ _ _ _ _ Hf Hst) as (st1 & Hst1 & Hsame%step_forward_same). simplify_eq.
  rewrite (total_delete _ ss j st), (total_delete _ ss' j st') by done.
  rewrite (same_step_execution _ _ Hsame), !bool_decide_eq_true_2 by done.
  apply Nat.add_lt_le_mono; [done|]. apply (total_le _ step_forward).
  - intros v v' Hv. rewrite (same_step_execution _ _ (step_forward_same _ _ Hv)). apply step_forward_weight in Hv.
    by case_bool_decide.
  - intros k. destruct (decide_rel (=) j k) as [<-|Hk]; [by rewrite !lookup_delete_eq; constructor|].
    by rewrite !lookup_delete_ne.
Qed.

Lemma alter_forward j st f ss :
  ss !! j = Some st → same_step st (f st) → weight (f st) < weight st →
  forward ss (alter f j ss) ∧ moved j ss (alter f j ss).
Proof.
  intros Hst Hsame Hlt. split.
  - intros k. destruct (decide_rel (=) j k) as [<-|Hk]; [|by rewrite lookup_alter_ne].
    rewrite lookup_alter_eq, Hst. constructor. by right.
  - exists st, (f st). by rewrite lookup_alter_eq, Hst.
Qed.

Lemma has_step_forward i ss ss' j st :
  forward ss ss' → has_step ss i j st → ∃ st', has_step ss' i j st' ∧ step_forward st st'.
Proof.
  intros Hf [Hst Hx]. destruct (evolves_to _ _ _ _ _ Hf Hst) as (st' & Hst' & Hs). exists st'.
  split; [split; [done|]|done]. by rewrite (same_step_execution _ _ (step_forward_same _ _ Hs)).
Qed.

Lemma forward_has_step i ss ss' j st' :
  forward ss ss' → has_step ss' i j st' → ∃ st, has_step ss i j st ∧ step_forward st st'.
Proof.
  intros Hf [Hst Hx]. destruct (evolved_from _ _ _ _ _ Hf Hst) as (st & Hst' & Hs). exists st.
  split; [split; [done|]|done]. by rewrite <-(same_step_execution _ _ (step_forward_same _ _ Hs)).
Qed.

(** ** A step that can be started *)

Definition ready (i : uuid) (ss : Steps) (keys : list string) : Prop := ∀ key, key ∈ keys →
  ∃ j st, has_step ss i j st ∧ AutomationStepExecution.step_key st = key ∧ complete st.

Definition pending (st : AutomationStepExecution) : Prop :=
  AutomationStepExecution.status st = AutomationStepStatus.PENDING.

Definition startable (i : uuid) (ss : Steps) (j : uuid) : Prop :=
  ∃ st, has_step ss i j st ∧ pending st ∧ ready i ss (AutomationStepExecution.depends_on st).

Lemma ready_forward i ss ss' keys : forward ss ss' → ready i ss keys → ready i ss' keys.
Proof.
  intros Hf Hr key Hkey. destruct (Hr key Hkey) as (j & st & Hst & Hk & Hc).
  destruct (has_step_forward _ _ _ _ _ Hf Hst) as (st' & Hst' & Hs). exists j, st'.
  split_and!; [done| |by eapply step_forward_complete]. by rewrite (same_step_key _ _ (step_forward_same _ _ Hs)).
Qed.

Lemma unready i ss (P : Prop) keys :
  (∀ key, key ∈ keys → P ∨ ∃ j st, has_step ss i j st ∧ AutomationStepExecution.step_key st = key ∧ complete st) →
  P ∨ ready i ss keys.
Proof.
  induction keys as [|key keys IH]; intros Hall; [right; by intros key ?%elem_of_nil|].
  destruct (Hall key) as [|Hkey]; [left|by left|]. destruct IH as [|Hr]; [|by left|].
  - intros key' Hin. apply Hall. by right.
  - right. intros key' [->|Hin]%elem_of_cons; [done|by apply Hr].
Qed.

(** The dependencies have no cycle: when some step is pending and none is under way, one
    can be started. *)
Lemma startable_exists i ss spec j st :
  valid_spec spec = true → instantiates ss i spec →
  (∀ k st', has_step ss i k st' → pending st' ∨ complete st') →
  has_step ss i j st → pending st → ∃ k, startable i ss k.
Proof.
  intros [Hknown Hwf]%valid_spec_graph [Hof Hall Honce] Hkinds.
  remember (AutomationStepExecution.step_key st) as key eqn:Hkey. revert j st Hkey.
  induction (Hwf key) as [key _ IH]. intros j st -> Hst Hp. destruct (Hof _ _ Hst) as (s & Hs & Hid & Hdeps).
  destruct (unready i ss (∃ k, startable i ss k) (AutomationStepExecution.depends_on st)) as [|Hr]; [|done|].
  - intros d Hd. assert (depends spec (AutomationStepExecution.step_key st) d) as Hdep by (exists s; by rewrite Hdeps).
    destruct (proj1 (list_elem_of_fmap _ _ _) (Hknown _ _ Hdep)) as (s' & -> & Hs').
    destruct (Hall s' Hs') as (k & st' & Hst' & Hk). destruct (Hkinds _ _ Hst') as [Hp'|Hc']; [left|right; by exists k, st'].
    by eapply (IH _ Hdep k st').
  - exists j, st. by split_and!.
Qed.

(** ** Loops *)

(** A loop whose rounds keep [I] and relate states by [R], one of whose rounds brings [D]. *)
Lemma wp_for_each_once {E S T} (R : S → S → Prop) `{!PreOrder R} (I D : S → Prop) x0 (l : list T)
    (m : T → M E S unit) X s :
  x0 ∈ l → I s →
  (∀ x s', x ∈ l → I s' → R s s' → wp (m x) (λ _ s'', I s'' ∧ R s' s'' ∧ (x = x0 → D s'')) X s') →
  (∀ s' s'', D s' → R s' s'' → D s'') →
  wp (for_each l m) (λ _ s', I s' ∧ R s s' ∧ D s') X s.
Proof.
  intros Hin HI Hm Hstable.
  assert (∀ l' s1, (∀ x, x ∈ l' → x ∈ l) → I s1 → R s s1 → (D s1 ∨ x0 ∈ l') →
    wp (for_each l' m) (λ _ s', I s' ∧ R s s' ∧ D s') X s1) as Hloop; [|by apply Hloop; [|done|done|right]].
  induction l' as [|x l' IH]; intros s1 Hsub HI1 HR1 Hd; cbn [for_each].
  - apply wp_ret. destruct Hd as [Hd|[]%elem_of_nil]. by split_and!.
  - apply wp_bind. eapply wp_mono; [apply Hm; [apply Hsub; left|done..]| |done]. cbv beta.
    intros _ s2 (HI2 & HR2 & HD2). apply IH; [intros y Hy; apply Hsub; by right|done|by transitivity s1|].
    destruct Hd as [Hd|[->|Hx]%elem_of_cons]; [left; by eapply Hstable|left; by apply HD2|by right].
Qed.

Section Progress.
Context `{Environment, EventContracts, JsonEncoder, SpecFields, Cron, AnalysisRuns, WorkerConfig}.

(** The Run of an analysis, as the execution [e] sees it. *)
Definition child_of (e : AutomationExecution) (run_id : uuid) (k : Kernel) : option Run :=
  r ← row_by Run.id (runs k) run_id;
  if bool_decide (Run.organization_id r = AutomationExecution.organization_id e) then Some r else None.

(** A running analysis whose Run has ended, or is gone. *)
Definition child_ended (e : AutomationExecution) (k : Kernel) (st : AutomationStepExecution) : Prop :=
  AutomationStepExecution.status st = AutomationStepStatus.RUNNING ∧
  ∃ run_id, AutomationStepExecution.run_id st = Some run_id ∧
    match child_of e run_id k with
    | Some run => Run.status run ∈ _TERMINAL_RUN_STATUSES
    | None => True
    end.

Lemma child_ended_recorded e k k' st : recorded k k' → child_ended e k st → child_ended e k' st.
Proof.
  intros Hk [Hs (i & Hi & Hchild)]. split; [done|]. exists i. split; [done|].
  destruct (recorded_runs _ _ Hk i) as [v Hv]. unfold child_of, row_by in *. rewrite Hv.
  destruct (runs k !! i) as [r|]; [|done]. cbn in *. destruct (bool_decide (Run.id r = i)); [|done].
  cbn in *. by destruct (bool_decide _).
Qed.

(** The tables after part of a transaction. *)
Definition advanced (s s' : Automation) : Prop :=
  forward (step_executions s) (step_executions s') ∧ recorded (base s) (base s').

#[local] Instance advanced_preorder : PreOrder advanced.
Proof. split; [by split|]. intros ??? [] []. split; by etransitivity. Qed.

Lemma advanced_kernel s s' k : advanced s s' → recorded (base s') k → advanced s (set_kernel k s').
Proof. intros [Hf Hr] Hk. split; [done|]. by transitivity (base s'). Qed.

Lemma execution_journal_recorded e n l (Q : () → Automation → Prop) s0 s :
  advanced s0 s → (∀ s', advanced s0 s' → step_executions s' = step_executions s → Q () s') →
  wp (_execution_event e n l) Q (λ _ _, True) s.
Proof.
  intros Ha HQ. unfold _execution_event. apply wp_bind, (wp_recording _); [|done]. intros _ k Hk.
  apply wp_ret, HQ; [by apply advanced_kernel|done].
Qed.

(** An assignment that moves a step. *)
Lemma wp_move j st f s (Q : () → Automation → Prop) X :
  step_executions s !! j = Some st → same_step st (f st) → weight (f st) < weight st →
  (∀ s', advanced s s' → moved j (step_executions s) (step_executions s') → Q () s') →
  wp (update_step j f) Q X s.
Proof.
  intros Hst Hsame Hlt HQ. apply wp_modify. destruct (alter_forward _ _ f _ Hst Hsame Hlt).
  apply HQ; [split; [done|reflexivity]|done].
Qed.

Lemma running_weight st : AutomationStepExecution.status st = AutomationStepStatus.RUNNING → weight st = 1.
Proof. unfold weight. by intros ->. Qed.

Lemma reconcile_step_forward e j s :
  wp (reconcile_step e j) (λ _ s', advanced s s' ∧
    ((∃ st, step_executions s !! j = Some st ∧ child_ended e (base s) st) →
     moved j (step_executions s) (step_executions s'))) (λ _ _, True) s.
Proof.
  unfold reconcile_step. apply wp_bind, wp_gets.
  destruct (step_executions s !! j) as [st|] eqn:Hst; cycle 1.
  { apply wp_ret. split; [reflexivity|]. by intros (? & ? & _). }
  destruct (AutomationStepExecution.run_id st) as [run_id|] eqn:Hrun; cycle 1.
  { apply wp_ret. split; [reflexivity|]. intros (? & [= <-] & _ & ? & ? & _). congruence. }
  destruct (step_is _ st) eqn:Hs; cbn [negb]; cycle 1.
  { apply wp_ret. split; [reflexivity|]. intros (? & [= <-] & Hst' & _). by apply bool_decide_eq_false in Hs. }
  apply bool_decide_eq_true, running_weight in Hs as Hw.
  apply wp_bind, wp_gets. fold (child_of e run_id (base s)).
  destruct (child_of e run_id (base s)) as [run|] eqn:Hchild; cycle 1.
  { eapply wp_move; [done|done|rewrite Hw; exact Nat.lt_0_1|]. by split. }
  destruct (Run.status run) eqn:Hstatus.
  all: try (apply wp_ret; split; [reflexivity|]; intros (? & [= <-] & _ & ? & Hid & Hend);
    rewrite Hrun in Hid; injection Hid as <-; rewrite Hchild, Hstatus, list_elem_of_In in Hend; cbn in Hend; intuition congruence).
  - apply wp_bind, wp_gets, wp_bind, (wp_recording _); [|done]. intros now k Hk.
    apply wp_bind. eapply wp_move; [done|done|rewrite Hw; exact Nat.lt_0_1|]. intros s2 Ha Hm.
    assert (advanced s s2) as Ha2 by (etransitivity; [|exact Ha]; by apply advanced_kernel).
    eapply execution_journal_recorded; [exact Ha2|]. intros s3 Ha3 Heq. split; [done|]. intros _. by rewrite Heq.
  - apply wp_bind, (wp_recording _); [|done]. intros now k Hk. eapply wp_move; [done|done|rewrite Hw; exact Nat.lt_0_1|].
    intros s2 Ha Hm. split; [|done]. etransitivity; [|exact Ha]. by apply advanced_kernel.
  - apply wp_bind, (wp_recording _); [|done]. intros now k Hk. eapply wp_move; [done|done|rewrite Hw; exact Nat.lt_0_1|].
    intros s2 Ha Hm. split; [|done]. etransitivity; [|exact Ha]. by apply advanced_kernel.
Qed.

Lemma step_by_key_found e ids s j st :
  working e ids s → has_step (step_executions s) (AutomationExecution.id e) j st →
  step_by_key ids (AutomationStepExecution.step_key st) s = Some st.
Proof.
  intros [Hinv (e1 & He1 & _) Hcov] Hst. destruct (execution_spec _ _ _ Hinv _ _ He1) as (spec & _ & [_ _ Honce]).
  unfold step_by_key. destruct (head _) as [st0|] eqn:Hhead.
  - apply head_elem, list_elem_of_In, filter_In in Hhead as [Hin Hkey%bool_decide_eq_true].
    apply list_elem_of_In, elem_of_reverse, (current_rows_covers _ _ _ _ _ eq_refl Hcov) in Hin as [k Hk].
    rewrite (Honce _ _ _ _ Hk Hst Hkey) in Hk. destruct Hk, Hst. congruence.
  - apply head_None in Hhead. exfalso.
    assert (st ∈ List.filter (λ st', bool_decide (AutomationStepExecution.step_key st' =
      AutomationStepExecution.step_key st)) (reverse (current_rows ids s))) as Hin.
    { apply list_elem_of_In, filter_In. rewrite bool_decide_eq_true. split; [|done].
      apply list_elem_of_In, elem_of_reverse, (current_rows_covers _ _ _ _ _ eq_refl Hcov). by exists j. }
    rewrite Hhead in Hin. by apply elem_of_nil in Hin.
Qed.

(** Dependencies that are complete are found so. *)
Lemma wp_ready e ids keys s (Q : bool → Automation → Prop) :
  working e ids s →
  (∀ b, (ready (AutomationExecution.id e) (step_executions s) keys → b = true) → Q b s) →
  wp (dependencies_complete ids keys) Q (λ _ _, True) s.
Proof.
  intros Hw. revert Q. induction keys as [|key keys IH]; intros Q HQ; cbn [dependencies_complete].
  { by apply wp_ret, HQ. }
  apply wp_bind. unfold dependency_row. apply wp_bind, wp_gets.
  destruct (step_by_key ids key s) as [st|] eqn:Hst; [|by apply wp_raise].
  apply wp_ret, wp_bind, IH. intros b Hb. apply wp_ret, HQ. intros Hr. rewrite Hb; cycle 1.
  { intros k Hk. apply Hr. by right. }
  destruct (Hr key) as (j & st' & Hst' & <- & Hc); [left|]. rewrite (step_by_key_found _ _ _ _ _ Hw Hst') in Hst.
  simplify_eq. unfold step_is. by rewrite bool_decide_eq_true_2.
Qed.

Lemma wp_move_core j st f s0 s (Q : () → Automation → Prop) X :
  same_core s0 s → step_executions s0 !! j = Some st → same_step st (f st) → weight (f st) < weight st →
  (∀ s', forward (step_executions s0) (step_executions s') →
     moved j (step_executions s0) (step_executions s') → Q () s') →
  wp (update_step j f) Q X s.
Proof.
  intros Hc Hst Hsame Hlt HQ. eapply wp_move; [by rewrite (same_steps _ _ Hc)|done|done|].
  intros s' [Hf _] Hm. rewrite (same_steps _ _ Hc) in *. by apply HQ.
Qed.

Lemma quiet_steps {A} (m : Py Automation A) s : Quiet m → wp m (λ _ s', step_executions s' = step_executions s) (λ _ _, True) s.
Proof. intros Hm. apply wp_quiet; [done| |done]. intros ? s' []. done. Qed.

#[local] Hint Resolve execution_journal_quiet render_quiet dependency_artifacts_quiet : quiet.

Lemma start_step_forward p w e now ids j s :
  working e ids s → j ∈ ids →
  wp (start_step p w e now ids j) (λ _ s', forward (step_executions s) (step_executions s') ∧
    (startable (AutomationExecution.id e) (step_executions s) j →
     moved j (step_executions s) (step_executions s'))) (λ _ _, True) s.
Proof.
  intros Hw Hj. unfold start_step. apply wp_bind, wp_gets.
  destruct (working_step _ _ _ _ Hw Hj) as (st & Hst & Hx & Hid). rewrite Hst.
  assert (∀ s', step_executions s' = step_executions s → ¬ startable (AutomationExecution.id e) (step_executions s) j →
    wp (E := exn) (mret ()) (λ _ s', forward (step_executions s) (step_executions s') ∧
      (startable (AutomationExecution.id e) (step_executions s) j →
       moved j (step_executions s) (step_executions s'))) (λ _ _, True) s') as Hstay.
  { intros s' Heq Hn. apply wp_ret. rewrite Heq. split; [reflexivity|]. by intros. }
  destruct (step_is _ st) eqn:Hp; cbn [negb]; cycle 1.
  { apply Hstay; [done|]. intros (st' & [Hst' _] & Hp' & _). simplify_eq. by apply bool_decide_eq_false in Hp. }
  apply bool_decide_eq_true in Hp. apply wp_bind. eapply wp_ready; [done|]. intros b Hb.
  destruct b; cbn [negb]; cycle 1.
  { apply Hstay; [done|]. intros (st' & [Hst' _] & _ & Hr). simplify_eq. by discriminate (Hb Hr). }
  assert (weight st = 2) as Hweight by (unfold weight; by rewrite Hp).
  assert (same_core s s) as Hc by done. clear Hstay. destruct (AutomationStepExecution.step_type st).
  - unfold _start_analysis. destruct (dget "prompt" _) as [[]|]; try by apply wp_raise.
    do 6 quiet_step Hc. apply wp_bind. eapply wp_move_core; [exact Hc|by rewrite Hid|done|rewrite Hweight; exact Nat.lt_1_2|].
    intros s2 Hf Hm. eapply wp_mono; [apply quiet_steps; solve_quiet| |done]. intros [] s3 Heq. rewrite Heq.
    rewrite Hid in Hm. by split.
  - apply wp_bind. eapply wp_move_core; [exact Hc|done|done|rewrite Hweight; exact Nat.lt_1_2|]. intros s2 Hf Hm.
    apply wp_bind, wp_modify. eapply wp_mono; [apply quiet_steps; solve_quiet| |done]. intros [] s3 Heq. rewrite Heq.
    by split.
  - unfold _deliver_step_notification.
    destruct (dget "title" (AutomationStepExecution.spec st)) as [[]|],
      (dget "body" (AutomationStepExecution.spec st)) as [[]|]; try by apply wp_raise.
    do 3 quiet_step Hc. eapply wp_quiet_bind; [destruct (AutomationStepExecution.started_at st); solve_quiet|exact Hc|..];
      clear Hc; [intros started t1 Hc|done].
    quiet_step Hc. eapply wp_move_core; [exact Hc|by rewrite Hid|done|rewrite Hweight; exact Nat.lt_0_2|].
    intros s2 Hf Hm. rewrite Hid in Hm. by split.
Qed.

(** ** A transaction *)

Definition steps_forward (s s' : Automation) : Prop := forward (step_executions s) (step_executions s').

#[local] Instance steps_forward_preorder : PreOrder steps_forward.
Proof. split; [by intros s; unfold steps_forward|]. intros s1 s2 s3. unfold steps_forward. by apply forward_preorder. Qed.

Definition over (i : uuid) (s : Automation) : Prop := ∃ e, executions s !! i = Some e ∧ terminal e = true.

(** The execution ended, or less is left of it. *)
Definition progressed (i : uuid) (s s' : Automation) : Prop :=
  over i s' ∨ remaining i (step_executions s') < remaining i (step_executions s).

(** There is something to do: an analysis that has ended, or no step under way at all. *)
Definition can_move (e : AutomationExecution) (s : Automation) : Prop :=
  (∃ j st, has_step (step_executions s) (AutomationExecution.id e) j st ∧ child_ended e (base s) st) ∨
  (∀ j st, has_step (step_executions s) (AutomationExecution.id e) j st →
     AutomationStepExecution.status st ∉ [AutomationStepStatus.RUNNING; AutomationStepStatus.WAITING_REVIEW]).

Lemma over_update i f s e1 :
  executions s !! i = Some e1 → terminal (f e1) = true → over i (s <| executions := alter f i (executions s) |>).
Proof.
  intros He Ht. exists (f e1). split; [|done]. change (alter f i (executions s) !! i = Some (f e1)).
  by rewrite lookup_alter_eq, He.
Qed.

Lemma over_core i s s' : same_core s s' → over i s → over i s'.
Proof. intros Hc (e & He & Ht). exists e. by rewrite (same_executions _ _ Hc). Qed.

#[local] Hint Resolve notify_owner_quiet : quiet.

Lemma fail_execution_over e code message steps s :
  is_Some (executions s !! AutomationExecution.id e) →
  wp (_fail_execution e code message steps) (λ _, over (AutomationExecution.id e)) (λ _ _, True) s.
Proof.
  intros [e1 He1]. unfold _fail_execution. assert (same_core s s) as Hc by done. quiet_step Hc.
  apply wp_bind, wp_modify.
  match goal with |- wp _ _ _ ?t => assert (over (AutomationExecution.id e) t) as Hover end.
  { apply (over_update _ _ _ e1); [by rewrite (same_executions _ _ Hc)|done]. }
  cbv beta. match goal with |- wp _ _ _ ?t => generalize dependent t end. intros s1 Hover.
  apply wp_bind. apply (wp_mono _ (λ _, over (AutomationExecution.id e)) _ (λ _ _, True)).
  { case_bool_decide; [by apply wp_gets|by apply wp_ret]. }
  2: done. intros ids s2 Hover2. apply wp_bind, wp_gets, wp_bind, wp_modify. cbv beta. apply wp_bind.
  eapply wp_quiet; [solve_quiet| |done]. intros _ s3 Hc3. apply wp_bind, wp_gets, wp_bind, wp_modify. cbv beta.
  assert (over (AutomationExecution.id e) s3) as (e3 & He3 & Ht3) by (by apply (over_core _ _ _ Hc3)).
  eapply wp_quiet; [solve_quiet| |done]. intros _ s4 Hc4. apply (over_core _ _ _ Hc4).
  by apply (over_update _ _ _ e3).
Qed.

Lemma conclude_over w e now ids s :
  working e ids s →
  wp (conclude w e now ids) (λ _ s', step_executions s' = step_executions s ∧
    ((∀ j st, has_step (step_executions s) (AutomationExecution.id e) j st → complete st) →
     over (AutomationExecution.id e) s')) (λ _ _, True) s.
Proof.
  intros [Hinv (e1 & He1 & Hsame & Ht) Hcov]. unfold conclude. apply wp_bind, wp_gets. cbv zeta. apply wp_bind.
  apply (wp_mono _ (λ _ s', step_executions s' = step_executions s ∧
    ((∀ j st, has_step (step_executions s) (AutomationExecution.id e) j st → complete st) →
     over (AutomationExecution.id e) s')) _ (λ _ _, True)); [|intros [] s2 [Hs2 Hover2]|done].
  - destruct (forallb _ _) eqn:Hall.
    + apply wp_bind, wp_modify. eapply wp_quiet; [solve_quiet| |done]. intros _ s2 Hc. split; [apply (same_steps _ _ Hc)|].
      intros _. apply (over_core _ _ _ Hc). by apply (over_update _ _ _ e1).
    + assert (¬ ∀ j st, has_step (step_executions s) (AutomationExecution.id e) j st → complete st) as Hn.
      { intros Hc. apply not_true_iff_false in Hall. destruct Hall. apply forallb_true. intros st Hst.
        apply (current_rows_covers _ _ _ _ _ eq_refl Hcov) in Hst as [j Hj]. apply bool_decide_eq_true. by eapply Hc. }
      destruct (existsb _ _); apply wp_modify; by split.
  - apply wp_modify. split; [done|]. intros Hc. destruct (Hover2 Hc) as (e2 & He2 & Ht2).
    by apply (over_update _ _ _ e2).
Qed.

Definition under_way (st : AutomationStepExecution) : Prop :=
  AutomationStepExecution.status st ∈ [AutomationStepStatus.RUNNING; AutomationStepStatus.WAITING_REVIEW].

Lemma reconcile_idle e j s :
  (∀ st, step_executions s !! j = Some st → ¬ under_way st) →
  wp (reconcile_step e j) (λ _ s', s' = s) (λ _ _, True) s.
Proof.
  intros Hst. unfold reconcile_step. apply wp_bind, wp_gets.
  destruct (step_executions s !! j) as [st|]; [|by apply wp_ret].
  destruct (AutomationStepExecution.run_id st); [|by apply wp_ret].
  destruct (step_is _ st) eqn:Hrun; [|by apply wp_ret]. apply bool_decide_eq_true in Hrun.
  destruct (Hst st eq_refl). unfold under_way. rewrite Hrun. left.
Qed.

(** Reconciling finishes some analysis, or there was none. *)
Lemma reconcile_moves e ids s :
  working e ids s → can_move e s →
  wp (_reconcile_analysis_steps e ids) (λ _ s', working e ids s' ∧
    (remaining (AutomationExecution.id e) (step_executions s') < remaining (AutomationExecution.id e) (step_executions s) ∨
     step_executions s' = step_executions s ∧
     ∀ j st, has_step (step_executions s') (AutomationExecution.id e) j st → ¬ under_way st)) (λ _ _, True) s.
Proof.
  intros Hw [(j & st & Hst & Hend)|Hidle]; unfold _reconcile_analysis_steps.
  - assert (j ∈ ids) as Hj by by eapply covers_all; [apply Hw|].
    eapply wp_mono; [apply (wp_for_each_once advanced (working e ids)
      (λ s', moved j (step_executions s) (step_executions s')) j)|..|done]; [done|done|..].
    + intros k s1 Hk Hw1 [Hf Hr]. eapply wp_mono; [apply wp_and; [by apply reconcile_step_working|apply reconcile_step_forward]| |done].
      cbv beta. intros _ s2 (Hw2 & Ha & Hm). split_and!; [done..|]. intros ->.
      destruct (has_step_forward _ _ _ _ _ Hf Hst) as (st1 & Hst1 & [->|[_ Hlt]]).
      * apply (moved_forward_l _ _ _ _ Hf), Hm. exists st. split; [apply Hst1|by eapply child_ended_recorded].
      * eapply moved_forward_r; [|apply Ha]. exists st, st1. split_and!; [apply Hst|apply Hst1|done].
    + intros s1 s2 Hm [Hf _]. by eapply moved_forward_r.
    + cbv beta. intros _ s2 (Hw2 & [Hf _] & Hm). split; [done|left]. by eapply moved_remaining.
  - eapply (wp_for_each (λ s', s' = s)); [done| |].
    + intros j s1 Hj ->. apply reconcile_idle. intros st Hst.
      destruct (working_step _ _ _ _ Hw Hj) as (st' & Hst' & Hx & _). simplify_eq. by eapply Hidle.
    + intros s1 ->. split; [done|right]. by split.
Qed.

Lemma starts_forward p w e now ids s :
  working e ids s →
  wp (for_each ids (start_step p w e now ids)) (λ _ s', working e ids s' ∧
    forward (step_executions s) (step_executions s')) (λ _ _, True) s.
Proof.
  intros Hw. apply (wp_for_each (λ s', working e ids s' ∧ forward (step_executions s) (step_executions s'))); [done| |done].
  intros j s1 Hj [Hw1 Hf1].
  eapply wp_mono; [apply wp_and; [by apply start_step_working|by apply start_step_forward]| |done].
  cbv beta. intros _ s2 (Hw2 & Hf2 & _). split; [done|]. by etransitivity.
Qed.

Lemma starts_move p w e now ids s j :
  working e ids s → startable (AutomationExecution.id e) (step_executions s) j →
  wp (for_each ids (start_step p w e now ids)) (λ _ s', working e ids s' ∧
    forward (step_executions s) (step_executions s') ∧ moved j (step_executions s) (step_executions s')) (λ _ _, True) s.
Proof.
  intros Hw (st & Hst & Hp & Hr). assert (j ∈ ids) as Hj by by eapply covers_all; [apply Hw|].
  eapply wp_mono; [apply (wp_for_each_once steps_forward (working e ids)
    (λ s', moved j (step_executions s) (step_executions s')) j)|..|done]; [done|done|..].
  - intros k s1 Hk Hw1 Hf.
    eapply wp_mono; [apply wp_and; [by apply start_step_working|by apply start_step_forward]| |done].
    cbv beta. intros _ s2 (Hw2 & Hf2 & Hm). split_and!; [done..|]. intros ->.
    destruct (has_step_forward _ _ _ _ _ Hf Hst) as (st1 & Hst1 & [->|[_ Hlt]]).
    + apply (moved_forward_l _ _ _ _ Hf), Hm. exists st. split_and!; [done..|]. by eapply ready_forward.
    + eapply moved_forward_r; [|apply Hf2]. exists st, st1. split_and!; [apply Hst|apply Hst1|done].
  - intros s1 s2 Hm Hf. by eapply moved_forward_r.
  - done.
Qed.

Lemma step_kinds e ids s :
  working e ids s →
  (∀ j st, has_step (step_executions s) (AutomationExecution.id e) j st →
     ¬ under_way st ∧ AutomationStepExecution.status st ≠ AutomationStepStatus.FAILED) →
  ∀ j st, has_step (step_executions s) (AutomationExecution.id e) j st → pending st ∨ complete st.
Proof.
  intros [Hinv (e1 & He1 & _ & Ht) _] Hall j st Hst. destruct (Hall j st Hst) as [Hway Hfailed].
  pose proof (not_dropped _ _ _ _ _ _ _ Hinv He1 Ht Hst) as Hdrop.
  unfold pending, complete, under_way, dropped in *. rewrite list_elem_of_In in Hway, Hdrop. cbn in *.
  destruct (AutomationStepExecution.status st); intuition congruence.
Qed.

(** When nothing is under way and nothing failed, a step is started or all are complete. *)
Lemma starts_progress p w e now ids s :
  working e ids s →
  (∀ j st, has_step (step_executions s) (AutomationExecution.id e) j st →
     ¬ under_way st ∧ AutomationStepExecution.status st ≠ AutomationStepStatus.FAILED) →
  wp (for_each ids (start_step p w e now ids);; conclude w e now ids)
    (λ _, progressed (AutomationExecution.id e) s) (λ _ _, True) s.
Proof.
  intros Hw Hall. pose proof (step_kinds _ _ _ Hw Hall) as Hkinds. pose proof Hw as [Hinv (e1 & He1 & _) Hcov].
  destruct (existsb (step_is AutomationStepStatus.PENDING) (current_rows ids s)) eqn:Hex.
  - apply existsb_exists in Hex as (st & Hin%list_elem_of_In & Hp%bool_decide_eq_true).
    apply (current_rows_covers _ _ _ _ _ eq_refl Hcov) in Hin as [j Hst].
    destruct (execution_spec _ _ _ Hinv _ _ He1) as (spec & Hvalid & Hspec).
    destruct (startable_exists _ _ _ _ _ Hvalid Hspec Hkinds Hst Hp) as (k & Hk). pose proof Hk as (st' & Hst' & _).
    apply wp_bind. eapply wp_mono; [by eapply starts_move| |done]. cbv beta. intros _ s1 (Hw1 & Hf & Hm).
    eapply wp_mono; [by apply conclude_over| |done]. cbv beta. intros _ s2 [Heq _]. right. rewrite Heq.
    by eapply moved_remaining.
  - apply wp_bind. eapply wp_mono; [by apply starts_forward| |done]. cbv beta. intros _ s1 [Hw1 Hf].
    eapply wp_mono; [by apply conclude_over| |done]. cbv beta. intros _ s2 [_ Hover]. left. apply Hover.
    intros j st Hst. destruct (forward_has_step _ _ _ _ _ Hf Hst) as (st0 & Hst0 & Hs).
    apply (step_forward_complete _ _ Hs). destruct (Hkinds _ _ Hst0) as [Hp|]; [exfalso|done].
    apply not_true_iff_false in Hex. destruct Hex. apply existsb_exists. exists st0. split; [|by apply bool_decide_eq_true].
    apply list_elem_of_In, (current_rows_covers _ _ _ _ _ eq_refl Hcov). by exists j.
Qed.

Lemma find_failed e ids s :
  working e ids s → find (step_is AutomationStepStatus.FAILED) (current_rows ids s) = None →
  ∀ j st, has_step (step_executions s) (AutomationExecution.id e) j st →
    AutomationStepExecution.status st ≠ AutomationStepStatus.FAILED.
Proof.
  intros Hw Hfind j st Hst Hfailed. pose proof (find_none _ _ Hfind st) as Hnone. unfold step_is in Hnone.
  rewrite bool_decide_eq_true_2 in Hnone by done. discriminate Hnone.
  apply list_elem_of_In, (current_rows_covers _ _ _ _ _ eq_refl (working_steps _ _ _ Hw)). by exists j.
Qed.

Lemma working_over e ids s : working e ids s → is_Some (executions s !! AutomationExecution.id e).
Proof. intros [_ (e1 & He1 & _) _]. by exists e1. Qed.

Lemma advance_steps_progress p w e now s :
  inv s → executions s !! AutomationExecution.id e = Some e → terminal e = false → can_move e s →
  wp (advance_steps p w e now) (λ _, progressed (AutomationExecution.id e) s) (λ _ _, True) s.
Proof.
  intros Hinv He Ht Hmove. unfold advance_steps. apply wp_bind, wp_gets. cbv beta.
  set (ids := AutomationStepExecution.id <$> _).
  assert (working e ids s) as Hw by (split; [done|by exists e|by eapply covers_ordered]).
  apply wp_bind. eapply wp_mono; [by apply reconcile_moves| |done]. cbv beta. intros _ s1 [Hw1 Hcase].
  apply wp_bind, wp_gets. destruct (find _ _) as [failed|] eqn:Hfind.
  { eapply wp_mono; [apply fail_execution_over; by eapply working_over| |done]. intros ? s2. by left. }
  destruct Hcase as [Hlt|[Heq Hidle]].
  - apply wp_bind. eapply wp_mono; [by apply starts_forward| |done]. cbv beta. intros _ s2 [Hw2 Hf].
    eapply wp_mono; [by apply conclude_over| |done]. cbv beta. intros _ s3 [Heq _]. right. rewrite Heq.
    eapply Nat.le_lt_trans; [|exact Hlt]. apply (total_le _ step_forward); [|done].
    intros v v' Hv. rewrite (same_step_execution _ _ (step_forward_same _ _ Hv)). apply step_forward_weight in Hv.
    by case_bool_decide.
  - eapply wp_mono; [apply starts_progress; [done|]| |done].
    + intros j st Hst. split; [by eapply Hidle|by eapply find_failed].
    + cbv beta. unfold progressed. by rewrite Heq.
Qed.

(** ** Executing *)

Lemma can_move_core e s s' : same_core s s' → recorded (base s) (base s') → can_move e s → can_move e s'.
Proof.
  intros Hc Hr. unfold can_move. rewrite (same_steps _ _ Hc). intros [(j & st & Hst & Hend)|]; [left|by right].
  exists j, st. split; [done|by eapply child_ended_recorded].
Qed.

Lemma core_kernel (s s' : Automation) k : same_core s s' → same_core s (set_kernel k s').
Proof. intros []. by split. Qed.

(** What a failed transaction leaves. *)
Lemma rollback_core (s s' : Automation) : same_core s (rollback s s').
Proof. by split. Qed.

Lemma advance_progress id e s :
  inv s → executions s !! id = Some e → terminal e = false → can_move e s →
  wp (_advance id) (λ _, progressed id s) (λ _, same_core s) s.
Proof.
  intros Hinv He Ht Hmove. pose proof (execution_key _ _ _ Hinv _ _ He) as Hid. unfold _advance.
  apply wp_savepoint. apply (wp_mono _ (λ _, progressed id s) _ (λ _ _, True)); [|done|intros; apply rollback_core].
  apply wp_bind, wp_gets. unfold row_by. rewrite He. cbn. rewrite bool_decide_eq_true_2 by done. cbn. rewrite Ht.
  apply wp_bind, (wp_recording _); [|done]. intros now k Hk.
  match goal with |- wp _ _ _ ?t => set (s1 := t) end. assert (same_core s s1) as Hc by done.
  assert (recorded (base s) (base s1)) as Hr by done. clearbody s1. clear Hk k.
  assert (∀ s2 code message, same_core s s2 →
    wp (_fail_execution e code message []) (λ _, progressed id s) (λ _ _, True) s2) as Hfail.
  { intros s2 code message Hc2. eapply wp_mono; [apply fail_execution_over| |done].
    - rewrite (same_executions _ _ Hc2), Hid. by exists e.
    - intros ? s3. rewrite Hid. by left. }
  case_match; [by apply Hfail|]. apply wp_bind, (wp_recording _); [|done]. intros p k Hk.
  case_match; [by apply Hfail, core_kernel|]. apply wp_bind, (wp_recording _); [|done]. intros w0 k' Hk'.
  match goal with |- wp _ _ _ ?t => set (s2 := t) end. assert (same_core s s2) as Hc2 by by do 2 apply core_kernel.
  assert (recorded (base s) (base s2)) as Hr2 by (etransitivity; [exact Hr|]; etransitivity; [exact Hk|exact Hk']).
  clearbody s2. apply wp_bind, wp_gets.
  match goal with |- wp (match ?o with _ => _ end) _ _ _ => destruct o as [w|] end; [|by apply Hfail].
  eapply wp_mono; [apply advance_steps_progress| |done].
  - by eapply inv_same.
  - by rewrite (same_executions _ _ Hc2), Hid.
  - done.
  - by eapply can_move_core.
  - cbv beta. intros _ s3. unfold progressed. by rewrite Hid, (same_steps _ _ Hc2).
Qed.

Lemma fail_after_over id e code message s :
  executions s !! id = Some e → AutomationExecution.id e = id → terminal e = false →
  wp (_fail_after_exception id code message) (λ _, over id) (λ _, same_core s) s.
Proof.
  intros He Hid Ht. unfold _fail_after_exception. apply wp_savepoint.
  apply (wp_mono _ (λ _, over id) _ (λ _ _, True)); [|done|intros; apply rollback_core].
  apply wp_bind, wp_gets. unfold row_by. rewrite He. cbn. rewrite bool_decide_eq_true_2 by done. cbn. rewrite Ht.
  rewrite <-Hid. apply fail_execution_over. rewrite Hid. by exists e.
Qed.

End Progress.
