(* ===== verification/AutomationHistory.v ===== *)
(** * Automation as a whole: people, schedules and workers

    [step] lets the endpoints and any number of workers interleave their transactions, lose
    them before they commit, and share the database with every other service.  Over all
    its histories the executions of a workflow stay within its limit, their steps run in the order
    of the dependencies, and an execution that ended leaves nothing to be started. *)

From S2P Require Import Prelude PyText PyVal Regex Enums Models Kernel CanonicalJson Events.
From S2P Require Import EventLog Identity WorkflowSpec AutomationState AutomationService.
From S2P Require Import AutomationApi AutomationWorker AutomationInvariant AutomationFacts.
From S2P Require Import AutomationKeeps AutomationAdvance AutomationProgress.

Section History.
Context `{Environment, EventContracts, JsonEncoder, SpecFields, Cron, AnalysisRuns, WorkerConfig}.

(** The requests that write, and the transactions of the worker. *)
Inductive Operation : Type :=
| CreateWorkflow (p : Principal) (workspace_id : uuid) (r : CreateWorkflowRequest)
| CreateVersion (p : Principal) (workflow_id : uuid) (spec : WorkflowSpec)
| PublishVersion (p : Principal) (workflow_id : uuid) (version : Z)
| SetWorkflowStatus (p : Principal) (workflow_id : uuid) (target : WorkflowStatus)
| CreateSchedule (p : Principal) (workflow_id : uuid) (r : CreateScheduleRequest)
| UpdateSchedule (p : Principal) (schedule_id : uuid) (enabled : bool)
| Trigger (p : Principal) (workflow_id : uuid) (r : TriggerWorkflowRequest)
| Cancel (p : Principal) (execution_id : uuid)
| Review (p : Principal) (step_id : uuid) (r : ReviewAutomationStepRequest)
| MarkRead (p : Principal) (notification_id : uuid)
| Tick (locked : gset uuid)
| Claim (locked : gset uuid)
| Execute (execution_id : uuid).

Definition perform (o : Operation) : Py Automation unit :=
  match o with
  | CreateWorkflow p i r => AutomationApi.create_workflow p i r;; mret ()
  | CreateVersion p i spec => AutomationApi.create_workflow_version p i spec;; mret ()
  | PublishVersion p i v => AutomationApi.publish_workflow_version p i v;; mret ()
  | SetWorkflowStatus p i t => AutomationApi._set_workflow_status p i t;; mret ()
  | CreateSchedule p i r => AutomationApi.create_schedule p i r;; mret ()
  | UpdateSchedule p i b => AutomationApi.update_schedule p i b;; mret ()
  | Trigger p i r => AutomationApi.trigger_workflow p i r;; mret ()
  | Cancel p i => AutomationApi.cancel_execution p i;; mret ()
  | Review p i r => AutomationApi.review_step p i r;; mret ()
  | MarkRead p i => AutomationApi.mark_notification_read p i;; mret ()
  | Tick locked => tick_schedules locked;; mret ()
  | Claim locked => _claim_execution locked;; mret ()
  | Execute i => _execute i
  end.

(** An operation returns or raises; a commit is lost; other services and other tables. *)
Inductive step : Automation → Automation → Prop :=
| operation_step o s : step s (final (perform o s))
| operation_lost o s : step s (rollback s (final (perform o s)))
| elsewhere s s' : same_core s s' → step s s'.

Lemma wp_unit {A} (m : Py Automation A) s :
  wp m (λ _, inv) (λ _, inv) s → wp (m;; mret ()) (λ _, inv) (λ _, inv) s.
Proof. intros Hm. apply wp_bind. eapply wp_mono; [exact Hm| |done]. intros a s' Hs. by apply wp_ret. Qed.

Lemma create_version_quiet p i spec : Quiet (create_version p i spec).
Proof. unfold create_version. cbv zeta. solve_quiet. Qed.
Lemma create_schedule_quiet p i r : Quiet (AutomationService.create_schedule p i r).
Proof. unfold AutomationService.create_schedule. cbv zeta. solve_quiet. Qed.
Lemma set_schedule_enabled_quiet p i b : Quiet (set_schedule_enabled p i b).
Proof. unfold set_schedule_enabled. cbv zeta. solve_quiet. Qed.
Lemma mark_read_quiet p i : Quiet (AutomationService.mark_notification_read p i).
Proof. unfold AutomationService.mark_notification_read. cbv zeta. solve_quiet. Qed.

Lemma validated_quiet_keeps {A} b (m : Py Automation A) s :
  Quiet m → inv s → wp (validated b;; savepoint m) (λ _, inv) (λ _, inv) s.
Proof. intros Hm. apply endpoint_keeps. intros Hs. eapply wp_mono; [by apply quiet_keeps|done|done]. Qed.

Lemma perform_keeps o s : inv s → wp (perform o) (λ _, inv) (λ _, inv) s.
Proof.
  intros Hinv. destruct o; cbn [perform]; try apply wp_unit.
  - apply endpoint_keeps; [apply create_workflow_keeps|done].
  - apply validated_quiet_keeps; [apply create_version_quiet|done].
  - apply wp_transaction; [done|]. by apply publish_version_keeps.
  - apply wp_transaction; [done|]. by apply set_workflow_status_keeps.
  - apply validated_quiet_keeps; [apply create_schedule_quiet|done].
  - apply quiet_savepoint; [apply set_schedule_enabled_quiet|done].
  - apply endpoint_keeps; [|done]. intros Hs. eapply wp_mono; [by apply wp_trigger|done|done].
  - apply wp_transaction; [done|]. by apply cancel_execution_keeps.
  - apply endpoint_keeps; [apply review_step_keeps|done].
  - apply quiet_savepoint; [apply mark_read_quiet|done].
  - by apply tick_keeps.
  - by apply claim_keeps.
  - by apply execute_keeps.
Qed.

Lemma step_keeps s s' : step s s' → inv s → inv s'.
Proof.
  intros [o t|o t|t t' Hc] Hinv.
  - pose proof (perform_keeps o t Hinv) as Hwp. unfold wp, final in *. by destruct (perform o t).
  - by eapply inv_same; [apply rollback_core|].
  - by eapply inv_same.
Qed.

Lemma history_keeps s0 s : rtc step s0 s → inv s0 → inv s.
Proof. induction 1 as [|x y z Hxy _ IH]; [done|]. intros Hx. by apply IH, (step_keeps x). Qed.

(** ** What holds at all times *)

Record well_formed (s : Automation) : Prop := {
  limit_respected i w : workflows s !! i = Some w →
    (Z.of_nat (length (active_executions w (executions s))) ≤ concurrency_limit w)%Z;
  ended_awaits_nothing i e j st :
    executions s !! i = Some e → terminal e = true → has_step (step_executions s) i j st → ¬ awaited st;
  completed_completely i e j st :
    executions s !! i = Some e → AutomationExecution.status e = AutomationStatus.COMPLETED →
    has_step (step_executions s) i j st → complete st;
  active_keeps_steps i e j st :
    executions s !! i = Some e → terminal e = false → has_step (step_executions s) i j st → ¬ dropped st;
  begun_in_order j st key :
    step_executions s !! j = Some st → begun st → key ∈ AutomationStepExecution.depends_on st →
    ∃ j' st', has_step (step_executions s) (AutomationStepExecution.execution_id st) j' st' ∧
      AutomationStepExecution.step_key st' = key ∧ complete st'
}.

Lemma inv_well_formed s : inv s → well_formed s.
Proof.
  intros Hinv.
  assert (∀ i e j st, executions s !! i = Some e → has_step (step_executions s) i j st →
    has_step (step_executions s) (AutomationExecution.id e) j st) as Hmine.
  { intros i e j st He. by rewrite (execution_key _ _ _ Hinv _ _ He). }
  split.
  - apply Hinv.
  - intros i e j st He Ht Hst. by apply (execution_closed _ _ _ Hinv _ _ He j st (Hmine _ _ _ _ He Hst)).
  - intros i e j st He Hs Hst. by apply (execution_closed _ _ _ Hinv _ _ He j st (Hmine _ _ _ _ He Hst)).
  - intros i e j st He Ht Hst. by apply (execution_closed _ _ _ Hinv _ _ He j st (Hmine _ _ _ _ He Hst)).
  - intros j st key Hst. destruct (step_execution _ _ _ Hinv _ _ Hst) as (e & He & _).
    by apply (execution_ordered _ _ _ Hinv _ _ He j).
Qed.

Lemma inv_empty s : workflows s = ∅ → executions s = ∅ → step_executions s = ∅ → inv s.
Proof. intros Hw He Hs. unfold inv. rewrite Hw, He, Hs. split; intros i v Hv; by rewrite lookup_empty in Hv. Qed.

(** [C10] The invariant of automation, over every history of requests, schedules, workers and
    lost transactions from empty tables.  At most as many executions of a workflow are active
    as its policy allows (REPLACE and FORBID: one); an ended execution has no step that waits
    to be started or reviewed; a completed one has completed every step; a step is
    skipped or cancelled only with its execution; and a step that has begun finds each of its
    dependencies complete. *)
Theorem automation_well_formed s0 s :
  workflows s0 = ∅ → executions s0 = ∅ → step_executions s0 = ∅ →
  rtc step s0 s → well_formed s.
Proof.
  intros Hw He Hs Hsteps. by eapply inv_well_formed, history_keeps, inv_empty.
Qed.
End History.

(** ** Automation, concretely

    An analysis that feeds a notification, run from its trigger to its end, and a rejected
    review beside a running analysis. *)

#[local] Existing Instance Sample.environment.

#[local] Instance contracts : EventContracts := {|
  payload_validators := map (λ name, ((name, 1%Z), λ _, []))
    ["workflow.created"; "workflow.version_published"; "workflow.active"; "automation.execution_created";
     "automation.execution_skipped"; "automation.started"; "automation.step_started"; "automation.step_completed";
     "automation.review_requested"; "automation.review_decided"; "automation.completed"; "automation.failed";
     "automation.cancelled"; "automation.cancellation_requested"; "notification.delivered"];
  envelope_validator _ := [];
  error_code_registered _ := true
|}.
#[local] Instance encoder : JsonEncoder := λ _, inr VNone.

(** Every minute, everywhere. *)
#[local] Instance cron : Cron := {|
  is_valid _ := true;
  zone_known _ := true;
  get_next _ _ t := Some (t + 60 * second)%Z
|}.

(** A document as [dump_spec] writes it. *)
Definition text_of (d : dict) (key : string) : option string :=
  match dget key d with Some (VStr s) => Some s | _ => None end.

Definition read_step (v : val) : option WorkflowStepSpec :=
  match v with
  | VDict d =>
      id ← text_of d "id";
      name ← text_of d "name";
      kind ← text_of d "type";
      type ← find (λ t, bool_decide (value_of t = kind))
        [WorkflowStepType.ANALYSIS; WorkflowStepType.HUMAN_REVIEW; WorkflowStepType.NOTIFICATION];
      depends_on ← match dget "depends_on" d with Some (VList l) => Some (string_items l) | _ => None end;
      Some (WorkflowStepSpec.Make id name type depends_on (text_of d "prompt") (text_of d "model_profile")
        (text_of d "title") (text_of d "body") (text_of d "review_instructions")
        (bool_decide (dget "disallow_self_review" d = Some (VBool true))))
  | _ => None
  end.

#[local] Instance fields : SpecFields := λ d,
  match dget "steps" d with Some (VList l) => mapM read_step l | _ => None end.

(** A thread, and a Run that is started. *)
#[local] Instance analyses : AnalysisRuns := {|
  create_thread _ _ _ := new_id;
  create_turn p thread_id _ :=
    turn_id ← new_id;
    id ← new_id;
    modify (λ k, k <| runs := <[id := Run.Make id (Principal.organization_id p) turn_id RunStatus.RUNNING
      None [] [] None None None None None None None None 0 None [] [] [] 30 300 120000 16000 1000000000 None 0 [] None]> (runs k) |>);;
    mret id
|}.
#[local] Instance config : WorkerConfig := {|
  automation_worker_id := "worker-1";
  automation_lease := 60 * second;
  automation_poll_interval := 2 * second
|}.

Definition directory : Directory :=
  MkDirectory {[1%N := User.Make 1 10 "owner" "Owner" None true []]} ∅
    {[3%N := Role.Make 3 10 "owner" (VStr <$>
        ["automation.manage"; "automation.trigger"; "automation.review"; "automation.cancel"])]}
    [UserRole.Make 10 1 3]
    {[20%N := Workspace.Make 20 10 1 Classification.INTERNAL Visibility.PRIVATE None "team" "" 0 0]} [] ∅ ∅.

Definition start : Automation :=
  MkAutomation (MkKernel (1000 * second) [] 0 directory ∅ ∅ ∅ [] [] [] []) ∅ ∅ ∅ ∅ ∅ ∅ ∅.

Definition owner : Principal := Eval vm_compute in
  match load_principal_by_id 10 1 (base start) with
  | Ok p _ => p | Raise _ _ => Principal.Make 0 0 "" "" None None ∅ ∅ []
  end.

Definition step_for (id : string) (type : WorkflowStepType) (depends_on : list string) : WorkflowStepSpec :=
  WorkflowStepSpec.Make id id type depends_on (Some "Look at {{ input.topic }}") None
    (Some "Done") (Some "See {{ execution.id }}") (Some "Check it") false.

Definition request (spec : WorkflowSpec) : CreateWorkflowRequest :=
  CreateWorkflowRequest.Make "weekly" "Weekly" "" None WorkflowConcurrencyPolicy.FORBID 1 3600 false false
    Classification.INTERNAL spec.

(** The Runs end, and time passes. *)
Definition runs_end (status : RunStatus) (s : Automation) : Automation :=
  s <| base := (base s) <| runs := (λ r, r <| Run.status := status |>) <$> runs (base s) |>
                        <| clock := (clock (base s) + 60 * second)%Z |> |>.

(** The first workflow created has the id 1000, and so on. *)
Definition setup (spec : WorkflowSpec) (s : Automation) : Automation :=
  final (perform (Trigger owner 1000 (TriggerWorkflowRequest.Make [("topic", VStr "orders")] None))
    (final (perform (PublishVersion owner 1000 1)
      (final (perform (CreateWorkflow owner 20 (request spec)) s))))).

Definition reported : WorkflowSpec :=
  [step_for "report" WorkflowStepType.NOTIFICATION ["look"]; step_for "look" WorkflowStepType.ANALYSIS []].

Definition triggered : Automation := Eval vm_compute in setup reported start.
Definition claimed : Automation := Eval vm_compute in final (perform (Claim ∅) triggered).
Definition analysing : Automation := Eval vm_compute in final (perform (Execute 1009) claimed).
Definition answered : Automation := Eval vm_compute in runs_end RunStatus.COMPLETED analysing.
Definition completed : Automation := Eval vm_compute in final (perform (Execute 1009) answered).

(** The executions, and the steps by their keys. *)
Definition outline (s : Automation) : list AutomationStatus * list (string * AutomationStepStatus) :=
  (AutomationExecution.status <$> rows (executions s),
   (λ st, (AutomationStepExecution.step_key st, AutomationStepExecution.status st)) <$> rows (step_executions s)).

Example run_to_completion :
  outline <$> [triggered; claimed; analysing; completed] =
    [([AutomationStatus.PENDING],
      [("report", AutomationStepStatus.PENDING); ("look", AutomationStepStatus.PENDING)]);
     ([AutomationStatus.RUNNING],
      [("report", AutomationStepStatus.PENDING); ("look", AutomationStepStatus.PENDING)]);
     ([AutomationStatus.RUNNING],
      [("report", AutomationStepStatus.PENDING); ("look", AutomationStepStatus.RUNNING)]);
     ([AutomationStatus.COMPLETED],
      [("report", AutomationStepStatus.COMPLETED); ("look", AutomationStepStatus.COMPLETED)])].
Proof. vm_compute. reflexivity. Qed.

(** A second trigger of a workflow that forbids it is recorded as skipped. *)
Example second_trigger_skipped :
  outline (final (perform (Trigger owner 1000 (TriggerWorkflowRequest.Make [] None)) analysing)) =
    ([AutomationStatus.RUNNING; AutomationStatus.SKIPPED],
     [("report", AutomationStepStatus.PENDING); ("report", AutomationStepStatus.SKIPPED);
      ("look", AutomationStepStatus.SKIPPED); ("look", AutomationStepStatus.RUNNING)]).
Proof. vm_compute. reflexivity. Qed.

Lemma setup_steps spec s : rtc step s (setup spec s).
Proof. do 3 (eapply rtc_r; [|apply operation_step]). reflexivity. Qed.

Lemma history_to_answered : rtc step start answered.
Proof.
  transitivity triggered; [exact (setup_steps reported start)|].
  eapply rtc_l; [exact (operation_step (Claim ∅) triggered)|].
  eapply rtc_l; [exact (operation_step (Execute 1009) claimed)|].
  apply rtc_once, (elsewhere analysing answered). by split.
Qed.

Lemma history_to_completed : rtc step start completed.
Proof. eapply rtc_r; [apply history_to_answered|exact (operation_step (Execute 1009) answered)]. Qed.

Lemma answered_inv : inv answered.
Proof. eapply history_keeps; [apply history_to_answered|by apply inv_empty]. Qed.

Lemma automation_well_formed_witness :
  outline completed = ([AutomationStatus.COMPLETED],
    [("report", AutomationStepStatus.COMPLETED); ("look", AutomationStepStatus.COMPLETED)]) ∧
  well_formed completed.
Proof.
  split; [vm_compute; reflexivity|].
  apply (automation_well_formed start completed); [reflexivity..|apply history_to_completed].
Defined.

(** ** A review is rejected while an analysis runs

    The execution fails, but the analysis beside the review stays RUNNING, its Run is not
    asked to stop, and no worker claims the execution again. *)

Definition reviewed : WorkflowSpec :=
  [step_for "look" WorkflowStepType.ANALYSIS []; step_for "check" WorkflowStepType.HUMAN_REVIEW [];
   step_for "report" WorkflowStepType.NOTIFICATION ["look"; "check"]].

Definition waiting : Automation := Eval vm_compute in
  final (perform (Execute 1009) (final (perform (Claim ∅) (setup reviewed start)))).

Definition reviewed_step_id : uuid := Eval vm_compute in
  match head (select (step_is AutomationStepStatus.WAITING_REVIEW) (step_executions waiting)) with
  | Some st => AutomationStepExecution.id st | None => 0
  end.

Definition rejected : Automation := Eval vm_compute in
  final (perform (Review owner reviewed_step_id (ReviewAutomationStepRequest.Make ReviewDecision.REJECT "not like this"))
    waiting).

Example rejection_leaves_running :
  snd (outline rejected) =
    [("look", AutomationStepStatus.RUNNING); ("report", AutomationStepStatus.SKIPPED);
     ("check", AutomationStepStatus.FAILED)] ∧
  (λ e, (AutomationExecution.status e, claimable (2000 * second) e)) <$> rows (executions rejected) =
    [(AutomationStatus.FAILED, false)] ∧
  (λ r, (Run.status r, Run.cancellation_requested_at r)) <$> rows (runs (base rejected)) =
    [(RunStatus.RUNNING, None)].
Proof. split_and!; vm_compute; reflexivity. Qed.

(** Cancelling the execution instead asks the Run to stop. *)
Example cancellation_asks_run :
  let s := final (perform (Cancel owner 1009) waiting) in
  snd (outline s) = (λ k, (k, AutomationStepStatus.CANCELLED)) <$> ["look"; "report"; "check"] ∧
  Run.cancellation_requested_at <$> rows (runs (base s)) = [Some (1000 * second)%Z].
Proof. split; vm_compute; reflexivity. Qed.

(** ** Progress

    The analysis that ended is recorded, and with it nothing is left. *)

Lemma answered_execution : ∃ e,
  executions answered !! 1009%N = Some e ∧ terminal e = false ∧ can_move e answered.
Proof.
  eexists. split; [vm_compute; reflexivity|]. split; [reflexivity|]. left. exists 1011%N. eexists.
  split; [split; [vm_compute; reflexivity|reflexivity]|]. split; [reflexivity|]. eexists. split; [reflexivity|].
  match goal with |- context [child_of ?e ?i ?k] => destruct (child_of e i k) as [r|] eqn:Hr end; [|done].
  vm_compute in Hr. injection Hr as <-. apply list_elem_of_In. left. reflexivity.
Qed.

